(* ===== verification/_CoqProject ===== *)
-Q . S2P
Prelude.v
Io.v
Interrupts.v
Queue.v
Input.v
Terminal.v
Rtc.v
FatTypes.v
FatName.v
FatTable.v
FatDir.v
FatFile.v
FatWrite.v
FatDisk.v
Ata.v
Pmm.v
Heap.v
Task.v
Fault.v
Ip.v
Arp.v
Pci.v
Rtl8139.v
Udp.v
Tcp.v
Dns.v
Net.v
Paging.v
Usermode.v
Elf.v
Memory.v
Kernel.v
System.v
Boot.v
Demos.v
Libc.v
Shell.v
Syscall.v
User.v
Edit.v
Malloctest.v
Gui.v
ModelData.v
Inference.v
