(* ===== verification/Prelude.v ===== *)
(** * HAROLD: a verification development

    HAROLD is an operating system for 32-bit x86 machines: a kernel in C
    (src/src) with drivers, a FAT16 filesystem, physical and virtual memory,
    a preemptive scheduler, a TCP/IP stack and a program loader, and a C
    library and programs in ring 3 (src/userspace) that reach the kernel
    through system calls.  This library models its C code as Rocq functions
    on explicit state and proves what makes each part correct.

    ** How the parts fit together

    At the bottom are ports, interrupts and devices.  The ATA driver provides
    sectors to the filesystem; the RTL8139 driver provides frames to the
    protocols; keyboard, serial line and mouse fill queues in their interrupt
    handlers that readers empty; the terminal owns the text screen.  The
    frame allocator hands physical pages to paging, the heap hands blocks to
    the scheduler (stacks) and to the loader (file buffers).  The shell reads a
    line, splits it and launches a program: the scheduler makes a task, the
    loader places the executable in the task's address space, the arguments
    are laid out on its stack, and the program runs until it exits or faults.
    Everything a program then does goes through the system-call dispatcher.

    ** Files

    Shared: this file (machine integers, bytes, results, rings, automation)
    and [Io] (port accesses, src/src/io.h, with polling loops and [wp]).

    Machine and devices: [Interrupts] (gdt.c, idt.c, tss.c, pic.c, irq.c,
    pit.c), [Fault] (the exception handler of isr.c), [Queue] and [Input]
    (keyboard.c, mouse.c, serial.c, console.c), [Terminal] (terminal.c), [Rtc]
    (rtc.c), [Ata] (ata.c), [Pci] (pci.c), [Rtl8139] (rtl8139.c).

    Filesystem (fat.c): [FatTypes] (structures, block-device interface,
    volume, descriptors), [FatName] (8.3 and long names), [FatTable] (the
    allocation table and cluster chains), [FatDir] (directories and paths),
    [FatFile] (open, read, seek, close), [FatWrite] (write, create, truncate,
    append, mkdir), [FatDisk] (a volume on which the theorems are exercised).

    Memory and tasks: [Pmm] (pmm.c, multiboot.c), [Heap] (heap.c and the
    library's malloc and free), [Paging] (paging.c), [Task] (task.c), [Usermode]
    (usermode.c, exec.c), [Elf] (elf.c).

    The whole kernel: [Memory] (which task owns which frame), [Kernel] (the
    scheduler over the heap, the frames, the directories and the descriptors,
    with task_create and task_reap cut at their helper calls), [System] (the
    running kernel as a transition system), [Boot] (kernel.c, which leads into
    it) and [Demos] (writer.c, spy.c and crash.c, which probe it).

    Network: [Ip] (ip.c, icmp.c), [Arp] (arp.c and routing), [Udp] (udp.c),
    [Tcp] (tcp.c), [Dns] (dns.c), [Net] (net.c).

    Programs: [Shell] (shell.c), [Syscall] (syscall.c and the library's
    wrappers), [Libc] (the rest of libc.c), [User] (the small programs), [Edit]
    (edit.c), [Malloctest] (malloctest.c), [Gui] (gui.c), [ModelData] and
    [Inference] (model_data.h, inference.c).

    ** How the code is translated

    Definitions keep the names of the C functions, structures and constants.
    Integers are [Z] with the wrap-around of each width written out ([u8],
    [u16], [u32], [s32]); bytes are integers below 256 and buffers are lists of
    them; linked structures and page tables are maps from addresses; static
    variables are records that are passed along.  A function that returns -1
    or a null pointer returns a [res] or an [option]; what is printed is a list
    of [tty] items or goes to the modelled terminal.  Code that polls a device
    runs in the state monad of [Io]; a program in ring 3 runs in the monad of
    [User].  Interrupts that occur while a call waits are an explicit list.

    Interfaces are classes that one component is proved against and another
    discharges: [BlockDevice] with its laws (used by the filesystem,
    discharged by [Ata] for a drive that follows the ATA protocol, [AtaDrive],
    and by the images of [FatDisk]), the frame allocator (used by paging and
    the loader, discharged by [Pmm]), the network card (used by the protocols,
    discharged by [Rtl8139] for a card that follows [RtlCard]), the services
    behind system calls ([Services] in [Syscall], discharged by the filesystem)
    the text screen of [Gui], and the scheduler's environment ([TaskEnv],
    discharged in [Kernel] by the modelled heap, paging and filesystem).  Devices themselves are parameters with
    their documented behaviour; each has an instance that shows the
    assumptions can be met.

    ** Bounds and fuel

    Loops that are bounded in the source recur on that bound.  Loops that
    follow a chain or wait for a device take fuel; the theorems state that
    enough fuel gives the result and say how much: the length of a cluster
    chain (a cyclic chain makes the driver itself loop), the number of blocks
    of a heap (at most 4096 for the user heap, hence the bound 4096 of
    [Edit], and at most 65537 for the kernel heap, the bound of [Kernel]),
    the keys of a line, the turns a device needs (any number, through
    [wp]), one turn per chunk or entry for the programs that copy or list.
    A result [Fuel] or [Waits] is never counted as success.

    ** What the theorems show

    Filesystem: reading, seeking and writing act on the abstract byte
    contents of a file; creating, truncating and appending change exactly the
    entry and the clusters they should, and no other file; names survive the
    8.3 and long-name encodings; allocation is first free.

    Memory: both heaps refine a list of blocks with disjoint payloads; the
    frame allocator accounts for every frame; mapping a page is private to the
    task and releasing an address space returns every frame; the loader
    places every byte of every segment and ring 3 reaches nothing new besides;
    a failed load gives its memory back; arguments arrive as they were given.

    The kernel as a whole: a boot leaves a state from which, under any
    interleaving of ticks, exits, sleeps, waits, creations, reaping, page
    mappings and stores of programs, the kernel never faults, the heap holds
    exactly the stacks of the tasks that were not reaped and every frame is
    free or owned by exactly one of them; live programs share no page with
    each other or with the kernel; when all tasks were reaped nothing is left
    allocated.  Creation and reaping are interruptible at every helper call;
    the helpers themselves are single steps, which the source ensures for the
    heap, the frame allocator and the descriptor table by disabling
    interrupts, and assumes for paging_free_user_directory.  Two conditions
    that the source does not check are guards of the steps: a frame the
    kernel is about to write through its physical address is not covered by a
    user page of the directory in use, and a page is mapped over nothing the
    kernel needs and over no page mapped before.

    Tasks and faults: every reachable scheduler state is well formed, the
    choice is fair, sleepers wake on time, and a fault in a program ends that
    program only.

    Devices: the disk driver implements an array of sectors on any conforming
    drive; the network driver delivers the frames of the ring in order and
    sends within its bounds; input queues lose nothing while they have room,
    typed text and mouse movements are decoded, the screen shows the last 25
    rows of what was written, the clock is decoded in all its formats.

    Network: no handler reads outside its packet; the ARP cache is a bounded
    queue; every reachable TCP state is well formed, segments that arrive in
    order form the stream the reader gets, retransmission is bounded; a DNS
    reply is parsed safely.

    Programs: the shell launches what was typed; a system call changes only
    [eax] and the buffers it was given and performs the service its wrapper
    names; [cat] prints the file, also one [save] wrote; the editor's commands are list operations
    on the document and loading and saving preserve the text; the desktop
    shows what it should and never overruns its buffers; the inference
    program computes the exact network.

    Where the code does not do what it means to, an [Example] evaluates the
    case (a write in the middle of a file that loses its tail, a full TCP
    segment that is cut, a ring offset that goes out of step, a line the
    editor cuts, and others).

    ** Not modelled

    The assembly stubs (boot, interrupt entry, context switch, entry into ring
    3): their effect is represented where the C code relies on it.  The
    translation lookaside buffer, and the timing of devices beyond
    "eventually".  Heap headers are kept in a store of their own beside the
    memory that page tables and stacks live in; [Heap] shows that payloads do
    not overlap them.  The training scripts, apart from the reference network
    taken from them.

    ** Still planned

    The network calls behind the services of [Syscall]; the loader's whole
    run as steps of [System], with the guards of its pages discharged from
    the layout of the executable. *)
From stdpp Require Export base list list_numbers gmap numbers strings.
From Stdlib Require Export ZArith Lia.
#[global] Open Scope Z_scope.

(** ** Automation

    [dlia] is [lia] with the Euclidean equations of every [/] and [mod] in
    the context; [zbool] turns the boolean comparisons of executable code
    into propositions, in hypotheses and in the goal. *)
Create HintDb harold.

Ltac dlia := Z.to_euclidean_division_equations; lia.

Ltac zbool :=
  repeat match goal with
  | H : (_ && _)%bool = true |- _ => apply andb_prop in H; destruct H
  | H : (_ || _)%bool = false |- _ => apply orb_false_iff in H; destruct H
  | H : negb _ = true |- _ => apply negb_true_iff in H
  | H : negb _ = false |- _ => apply negb_false_iff in H
  | H : (_ <? _) = true |- _ => apply Z.ltb_lt in H
  | H : (_ <? _) = false |- _ => apply Z.ltb_ge in H
  | H : (_ <=? _) = true |- _ => apply Z.leb_le in H
  | H : (_ <=? _) = false |- _ => apply Z.leb_gt in H
  | H : (_ =? _) = true |- _ => apply Z.eqb_eq in H
  | H : (_ =? _) = false |- _ => apply Z.eqb_neq in H
  | H : (_ >=? _) = _ |- _ => rewrite Z.geb_leb in H
  | H : (_ >? _) = _ |- _ => rewrite Z.gtb_ltb in H
  end.

(** Case analysis on the first boolean condition of the goal, with the
    comparison turned into a proposition named [Hif]. *)
Ltac case_if :=
  match goal with
  | |- context [if ?b then _ else _] =>
      lazymatch type of b with bool => destruct b eqn:?Hif; zbool end
  end.

(** Computes the closed [Z.to_nat] indices of a goal. *)
Ltac norm_to_nat :=
  repeat match goal with
  | |- context [Z.to_nat ?n] =>
      let v := eval compute in (Z.to_nat n) in
      progress change (Z.to_nat n) with v
  end.

(** [a < b ? a : b] *)
Lemma ltb_min a b : (if a <? b then a else b) = Z.min a b.
Proof. destruct (Z.ltb_spec a b); lia. Qed.

(** ** Machine integers

    The kernel is compiled for i386: [uint8_t], [uint16_t], [uint32_t] and
    [int32_t] values are integers in the ranges below, and an assignment to
    a variable of that type reduces modulo its width. *)
Definition u8 (z : Z) : Z := z mod 256.
Definition u16 (z : Z) : Z := z mod 65536.
Definition u32 (z : Z) : Z := z mod 4294967296.
Definition s32 (z : Z) : Z :=
  let w := u32 z in if w <? 2147483648 then w else w - 4294967296.

Definition is_byte (z : Z) : Prop := 0 <= z < 256.
Definition is_u16 (z : Z) : Prop := 0 <= z < 65536.
Definition is_u32 (z : Z) : Prop := 0 <= z < 4294967296.

#[export] Instance is_byte_dec z : Decision (is_byte z).
Proof. unfold is_byte. apply _. Defined.
#[export] Instance is_u16_dec z : Decision (is_u16 z).
Proof. unfold is_u16. apply _. Defined.
#[export] Instance is_u32_dec z : Decision (is_u32 z).
Proof. unfold is_u32. apply _. Defined.

Lemma u8_byte z : is_byte (u8 z).
Proof. unfold u8, is_byte. dlia. Qed.
Lemma u16_is z : is_u16 (u16 z).
Proof. unfold u16, is_u16. dlia. Qed.
Lemma u32_is z : is_u32 (u32 z).
Proof. unfold u32, is_u32. dlia. Qed.
Lemma u8_small z : is_byte z -> u8 z = z.
Proof. unfold u8, is_byte. intros. apply Z.mod_small. lia. Qed.
Lemma u16_small z : is_u16 z -> u16 z = z.
Proof. unfold u16, is_u16. intros. apply Z.mod_small. lia. Qed.
Lemma u32_small z : is_u32 z -> u32 z = z.
Proof. unfold u32, is_u32. intros. apply Z.mod_small. lia. Qed.
Lemma s32_small z : -2147483648 <= z < 2147483648 -> s32 z = z.
Proof.
  intros H. unfold s32, u32. cbv zeta. case_if; dlia.
Qed.
Lemma u32_s32 z : u32 (s32 z) = u32 z.
Proof. unfold s32, u32. cbv zeta. case_if; dlia. Qed.
Lemma u32_idemp z : u32 (u32 z) = u32 z.
Proof. apply u32_small, u32_is. Qed.
Lemma u32_add_l a b : u32 (u32 a + b) = u32 (a + b).
Proof. unfold u32. apply Zplus_mod_idemp_l. Qed.
Lemma u32_add_r a b : u32 (a + u32 b) = u32 (a + b).
Proof. unfold u32. apply Zplus_mod_idemp_r. Qed.

#[export] Hint Resolve u8_byte u16_is u32_is : harold.
#[export] Hint Extern 3 (is_byte _) => (unfold is_byte; lia) : harold.
#[export] Hint Extern 3 (is_u16 _) => (unfold is_u16; lia) : harold.
#[export] Hint Extern 3 (is_u32 _) => (unfold is_u32; lia) : harold.

(** A test of one flag bit, [x & m] used as a condition. *)
Definition flag (x m : Z) : bool := negb (Z.land x m =? 0).

(** Rounding a 32-bit value down with the mask [~(2^k - 1)]. *)
Lemma land_mask k x : 0 <= k <= 32 -> is_u32 x -> Z.land x (u32 (Z.lnot (Z.ones k))) = x / 2 ^ k * 2 ^ k.
Proof.
  intros Hk Hx. unfold is_u32 in Hx.
  assert (E : u32 (Z.lnot (Z.ones k)) = Z.ldiff (Z.ones 32) (Z.ones k)).
  { unfold u32. change 4294967296 with (2 ^ 32). rewrite <- Z.land_ones, Z.land_comm by lia. by rewrite Z.ldiff_land. }
  rewrite E, Z.ldiff_land, Z.land_assoc, (Z.land_ones x) by lia.
  rewrite Z.mod_small by (change (2 ^ 32) with 4294967296; lia).
  rewrite <- Z.ldiff_land, Z.ldiff_ones_r by lia. rewrite Z.shiftl_mul_pow2, Z.shiftr_div_pow2 by lia. done.
Qed.

Lemma land_pow2_testbit x k :
  0 <= k -> Z.land x (2 ^ k) = if Z.testbit x k then 2 ^ k else 0.
Proof.
  intros Hk. apply Z.bits_inj'. intros n Hn.
  rewrite Z.land_spec, Z.pow2_bits_eqb by lia.
  destruct (Z.eqb_spec k n) as [->|Hne].
  - rewrite andb_true_r. destruct (Z.testbit x n).
    + rewrite Z.pow2_bits_true by lia. done.
    + by rewrite Z.bits_0.
  - rewrite andb_false_r. destruct (Z.testbit x k).
    + rewrite Z.pow2_bits_false by lia. done.
    + by rewrite Z.bits_0.
Qed.

Lemma flag_testbit x k : 0 <= k -> flag x (2 ^ k) = Z.testbit x k.
Proof.
  intros Hk. unfold flag. rewrite land_pow2_testbit by done.
  pose proof (Z.pow_pos_nonneg 2 k). destruct (Z.testbit x k); [|done].
  destruct (Z.eqb_spec (2 ^ k) 0); [lia|done].
Qed.

(** Fields combined with [|] that do not overlap add up. *)
Lemma lor_add n hi lo : 0 <= n -> 0 <= lo < 2 ^ n -> Z.lor (hi * 2 ^ n) lo = hi * 2 ^ n + lo.
Proof.
  intros Hn Hl. rewrite <- Z.shiftl_mul_pow2 by done.
  assert (H : Z.land (Z.shiftl hi n) lo = 0).
  { apply Z.bits_inj'. intros b Hb. rewrite Z.land_spec, Z.bits_0.
    destruct (Z.lt_ge_cases b n) as [Hlt|Hge]; [by rewrite Z.shiftl_spec_low|].
    destruct (decide (lo = 0)) as [->|Hne]; [by rewrite Z.bits_0, andb_false_r|].
    assert (Z.log2 lo < n) by (apply Z.log2_lt_pow2; lia).
    rewrite (Z.bits_above_log2 lo) by lia. by rewrite andb_false_r. }
  by rewrite <- Z.lxor_lor, <- Z.add_nocarry_lxor.
Qed.

(** A decidable fact about every byte is decided by trying them all. *)
Lemma forall_byte (p : Z -> bool) : forallb p (seqZ 0 256) = true -> forall x, is_byte x -> p x = true.
Proof.
  intros Hp x Hx. rewrite forallb_forall in Hp. apply Hp, list_elem_of_In, elem_of_seqZ.
  unfold is_byte in Hx. lia.
Qed.

(** ** Results

    A C function that reports failure by returning [-1] (or a null pointer)
    returns [Err]; a loop whose recursion is bounded by fuel returns [Fuel]
    when the fuel runs out, which the theorems about it exclude. *)
Inductive res (A : Type) : Type :=
| OK (a : A)
| Err
| Fuel.
Arguments OK {A} _.
Arguments Err {A}.
Arguments Fuel {A}.

Definition rbind {A B} (r : res A) (k : A -> res B) : res B :=
  match r with OK a => k a | Err => Err | Fuel => Fuel end.

Declare Scope res_scope.
Delimit Scope res_scope with res.
Notation "'let!' x := r 'in' k" := (rbind r (fun x => k))
  (at level 10, x pattern, r at level 100, k at level 200)
  : res_scope.
#[global] Open Scope res_scope.

Lemma rbind_OK {A B} (r : res A) (k : A -> res B) b :
  rbind r k = OK b <-> exists a, r = OK a /\ k a = OK b.
Proof. destruct r; naive_solver. Qed.

(** ** Terminal output

    Diagnostics printed with [terminal_writestring], [terminal_print_dec] and
    [terminal_print_hex] are returned by the operations that print them, in
    order. *)
Inductive tty : Type :=
| TStr (s : string)   (* a literal *)
| TLn (s : string)    (* a literal followed by a newline *)
| TBytes (l : list Z) (* a C string held in memory *)
| TDec (n : Z)
| THex (n : Z).

(** ** Buffers

    A buffer is the list of its bytes, indexed from zero with the [Z] values
    the code computes. *)
Definition byte_at (l : list Z) (i : Z) : Z := default 0 (l !! Z.to_nat i).

(** A C string is the list of its characters, without the terminator: reading
    at its length yields the terminator, which [byte_at] returns as [0]. *)
Definition c_string (l : list Z) : Prop := Forall (fun c => 1 <= c < 256) l.

(** [splice l off x] overwrites [l] from byte offset [off] on with [x]. *)
Definition splice (l : list Z) (off : nat) (x : list Z) : list Z :=
  take off l ++ x ++ drop (off + length x) l.

Lemma splice_length l off x :
  (off + length x <= length l)%nat -> length (splice l off x) = length l.
Proof. intros H. unfold splice. rewrite !length_app, length_take, length_drop. lia. Qed.

Lemma splice_lookup_in l off x i :
  (off + length x <= length l)%nat -> (i < length x)%nat ->
  splice l off x !! (off + i)%nat = x !! i.
Proof.
  intros Hl Hi. unfold splice. rewrite lookup_app_r by (rewrite length_take; lia).
  rewrite length_take. replace (off + i - off `min` length l)%nat with i by lia.
  by rewrite lookup_app_l.
Qed.

Lemma splice_lookup_out l off x i :
  (off + length x <= length l)%nat -> (i < off \/ off + length x <= i)%nat ->
  splice l off x !! i = l !! i.
Proof.
  intros Hl Hi. unfold splice. destruct (decide (i < off)%nat).
  - rewrite lookup_app_l by (rewrite length_take; lia). by rewrite lookup_take_lt.
  - rewrite lookup_app_r by (rewrite length_take; lia).
    rewrite length_take, lookup_app_r by lia. rewrite lookup_drop.
    f_equal. lia.
Qed.

Lemma splice_take_drop l off x :
  (off + length x <= length l)%nat ->
  take (length x) (drop off (splice l off x)) = x.
Proof.
  intros Hl. unfold splice. rewrite drop_app_length' by (rewrite length_take; lia).
  by rewrite take_app_length.
Qed.

Lemma splice_bytes l off x :
  Forall is_byte l -> Forall is_byte x -> Forall is_byte (splice l off x).
Proof.
  intros Hl Hx. unfold splice. rewrite !Forall_app.
  eauto using Forall_take, Forall_drop.
Qed.
#[export] Hint Resolve splice_bytes : harold.

Lemma byte_at_lookup l i b : l !! Z.to_nat i = Some b -> byte_at l i = b.
Proof. unfold byte_at. by intros ->. Qed.

Lemma byte_at_byte l i : Forall is_byte l -> is_byte (byte_at l i).
Proof.
  intros Hl. unfold byte_at. destruct (l !! Z.to_nat i) eqn:E; simpl.
  - eapply Forall_lookup in Hl; eauto.
  - unfold is_byte; lia.
Qed.
#[export] Hint Resolve byte_at_byte : harold.

Lemma byte_at_splice_in l off x i :
  (off + length x <= length l)%nat -> Z.of_nat off <= i < Z.of_nat off + Z.of_nat (length x) ->
  byte_at (splice l off x) i = byte_at x (i - Z.of_nat off).
Proof.
  intros Hl Hi. unfold byte_at.
  replace (Z.to_nat i) with (off + Z.to_nat (i - Z.of_nat off))%nat by lia.
  rewrite splice_lookup_in by lia. done.
Qed.

Lemma byte_at_splice_out l off x i :
  (off + length x <= length l)%nat -> 0 <= i ->
  (i < Z.of_nat off \/ Z.of_nat off + Z.of_nat (length x) <= i) ->
  byte_at (splice l off x) i = byte_at l i.
Proof. intros Hl Hi Ho. unfold byte_at. by rewrite splice_lookup_out by lia. Qed.

(** *** Little-endian and big-endian fields *)
Definition le16 (b0 b1 : Z) : Z := b0 + 256 * b1.
Definition put_le16 (v : Z) : list Z := [v mod 256; v / 256 mod 256].
Definition put_le32 (v : Z) : list Z :=
  [v mod 256; v / 256 mod 256; v / 65536 mod 256; v / 16777216 mod 256].
Definition get_le16 (l : list Z) (i : Z) : Z := le16 (byte_at l i) (byte_at l (i + 1)).
Definition get_le32 (l : list Z) (i : Z) : Z :=
  byte_at l i + 256 * byte_at l (i + 1) + 65536 * byte_at l (i + 2)
  + 16777216 * byte_at l (i + 3).

Lemma le16_put v : is_u16 v -> le16 (v mod 256) (v / 256 mod 256) = v.
Proof. unfold is_u16, le16. intros. dlia. Qed.

Lemma le32_put v : is_u32 v ->
  v mod 256 + 256 * (v / 256 mod 256) + 65536 * (v / 65536 mod 256)
  + 16777216 * (v / 16777216 mod 256) = v.
Proof. unfold is_u32. intros. dlia. Qed.

Lemma put_le16_bytes v : Forall is_byte (put_le16 v).
Proof. unfold put_le16. repeat constructor; unfold is_byte; dlia. Qed.
Lemma put_le32_bytes v : Forall is_byte (put_le32 v).
Proof. unfold put_le32. repeat constructor; unfold is_byte; dlia. Qed.
#[export] Hint Resolve put_le16_bytes put_le32_bytes : harold.

Lemma get_le16_is l i : Forall is_byte l -> is_u16 (get_le16 l i).
Proof.
  intros H. pose proof (byte_at_byte l i H). pose proof (byte_at_byte l (i + 1) H).
  unfold get_le16, le16, is_byte, is_u16 in *. lia.
Qed.

Lemma get_le16_splice_same l off v :
  is_u16 v -> (off + 2 <= length l)%nat ->
  get_le16 (splice l off (put_le16 v)) (Z.of_nat off) = v.
Proof.
  intros Hv Hl. unfold get_le16.
  rewrite !byte_at_splice_in by (cbn; lia).
  replace (Z.of_nat off - Z.of_nat off) with 0 by lia.
  replace (Z.of_nat off + 1 - Z.of_nat off) with 1 by lia.
  by apply le16_put.
Qed.

Lemma get_le16_splice_other l off v i :
  (off + 2 <= length l)%nat -> 0 <= i -> (i + 2 <= Z.of_nat off \/ Z.of_nat off + 2 <= i) ->
  get_le16 (splice l off (put_le16 v)) i = get_le16 l i.
Proof.
  intros Hl Hi Ho. unfold get_le16.
  rewrite !byte_at_splice_out by (cbn; lia). done.
Qed.

(** ** Concatenations of equal blocks *)
Lemma join_cons {A} (b : list A) bs : mjoin (b :: bs) = b ++ mjoin bs.
Proof. done. Qed.

Lemma length_mjoin_uniform {A} (bs : list (list A)) m :
  Forall (fun b => length b = m) bs -> length (mjoin bs) = (length bs * m)%nat.
Proof.
  induction 1 as [|b bs Hb _ IH]; [done|].
  rewrite join_cons. cbn [length].
  rewrite length_app, IH. lia.
Qed.

Lemma drop_mjoin_uniform {A} (bs : list (list A)) m k b :
  Forall (fun b => length b = m) bs -> bs !! k = Some b ->
  drop (k * m) (mjoin bs) = b ++ drop (S k * m) (mjoin bs).
Proof.
  intros Hf. revert k. induction Hf as [|b0 bs Hb Hf IH]; intros [|k] Hk; [done..| |].
  - cbn in Hk. injection Hk as ->. rewrite join_cons.
    cbn [Nat.mul]. rewrite drop_0, Nat.add_0_r. rewrite drop_app_length' by done. done.
  - cbn in Hk. rewrite join_cons. rewrite !drop_app_ge by lia.
    replace (S k * m - length b0)%nat with (k * m)%nat by lia.
    replace (S (S k) * m - length b0)%nat with (S k * m)%nat by lia. by apply IH.
Qed.

(** A slice that stays inside one block is a slice of that block. *)
Lemma slice_mjoin_uniform {A} (bs : list (list A)) m k b o n :
  Forall (fun b => length b = m) bs -> bs !! k = Some b -> (o + n <= m)%nat ->
  take n (drop (k * m + o) (mjoin bs)) = take n (drop o b).
Proof.
  intros Hf Hk Ho. assert (length b = m) by (eapply Forall_lookup in Hf; eauto).
  rewrite <- drop_drop, (drop_mjoin_uniform _ _ _ _ Hf Hk).
  rewrite drop_app_le by lia. rewrite take_app_le; [done|]. rewrite length_drop. lia.
Qed.

Lemma splice_app_l l r off x :
  (off + length x <= length l)%nat -> splice (l ++ r) off x = splice l off x ++ r.
Proof.
  intros H. unfold splice. rewrite take_app_le, drop_app_le by lia. by rewrite !app_assoc.
Qed.

Lemma splice_app_r l r off x :
  splice (l ++ r) (length l + off) x = l ++ splice r off x.
Proof.
  unfold splice. rewrite take_app_add, <- Nat.add_assoc, drop_app_add. by rewrite !app_assoc.
Qed.

(** Overwriting part of one block overwrites that part of the whole. *)
Lemma mjoin_insert_splice (bs : list (list Z)) m k b o x :
  Forall (fun b => length b = m) bs -> bs !! k = Some b -> (o + length x <= m)%nat ->
  mjoin (<[k := splice b o x]> bs) = splice (mjoin bs) (k * m + o) x.
Proof.
  intros Hf. revert k. induction Hf as [|b0 bs Hb Hf IH]; intros [|k] Hk Ho; [done..| |].
  - cbn in Hk. injection Hk as ->. cbn [insert list_insert]. rewrite !join_cons.
    cbn [Nat.mul Nat.add]. by rewrite splice_app_l by lia.
  - cbn in Hk. cbn [insert list_insert]. rewrite !join_cons.
    replace (S k * m + o)%nat with (length b0 + (k * m + o))%nat by lia.
    rewrite splice_app_r. f_equal. by apply IH.
Qed.

Lemma take_splice_end l off x :
  (off + length x <= length l)%nat -> take (off + length x) (splice l off x) = take off l ++ x.
Proof.
  intros H. unfold splice. rewrite app_assoc.
  rewrite take_app_length'; [done|]. rewrite length_app, length_take. lia.
Qed.

(** ** Bounded search

    The first index of [lo, lo + n) that satisfies a test: the shape of the
    kernel's table scans. *)
Fixpoint find_from (p : Z -> bool) (lo : Z) (n : nat) : option Z :=
  match n with
  | O => None
  | S n' => if p lo then Some lo else find_from p (lo + 1) n'
  end.

Lemma find_from_Some p lo n i :
  find_from p lo n = Some i <->
  lo <= i < lo + Z.of_nat n /\ p i = true /\ (forall j, lo <= j < i -> p j = false).
Proof.
  revert lo. induction n as [|n IH]; intros lo; cbn [find_from].
  { split; [done|lia]. }
  destruct (p lo) eqn:E.
  - split.
    + intros [= <-]. split; [lia|]. split; [done|]. lia.
    + intros (Hi & Hp & Hmin). destruct (decide (i = lo)) as [->|]; [done|].
      rewrite Hmin in E by lia. done.
  - rewrite IH. split; intros (Hi & Hp & Hmin).
    + split; [lia|]. split; [done|]. intros j Hj.
      destruct (decide (j = lo)) as [->|]; [done|]. apply Hmin. lia.
    + assert (i <> lo) by congruence. split; [lia|]. split; [done|].
      intros j Hj. apply Hmin. lia.
Qed.

Lemma find_from_None p lo n :
  find_from p lo n = None <-> forall j, lo <= j < lo + Z.of_nat n -> p j = false.
Proof.
  revert lo. induction n as [|n IH]; intros lo; cbn [find_from].
  { split; [lia|done]. }
  destruct (p lo) eqn:E.
  - split; [done|]. intros H. rewrite H in E by lia. done.
  - rewrite IH. split; intros H j Hj.
    + destruct (decide (j = lo)) as [->|]; [done|]. apply H. lia.
    + apply H. lia.
Qed.

(** The number of indices of [lo, lo + n) that satisfy a test. *)
Fixpoint count_from (p : Z -> bool) (lo : Z) (n : nat) : Z :=
  match n with
  | O => 0
  | S n' => (if p lo then 1 else 0) + count_from p (lo + 1) n'
  end.

Lemma count_from_ext p q lo n :
  (forall i, lo <= i < lo + Z.of_nat n -> p i = q i) -> count_from p lo n = count_from q lo n.
Proof.
  revert lo. induction n as [|n IH]; intros lo Hpq; cbn [count_from]; [done|].
  rewrite Hpq by lia. f_equal. apply IH. intros; apply Hpq. lia.
Qed.

Lemma count_from_bounds p lo n : 0 <= count_from p lo n <= Z.of_nat n.
Proof.
  revert lo. induction n as [|n IH]; intros lo; cbn [count_from]; [lia|].
  specialize (IH (lo + 1)). destruct (p lo); lia.
Qed.

(** Turning one index off lowers the count by one. *)
Lemma count_from_flip p q lo n f :
  lo <= f < lo + Z.of_nat n -> p f = true -> q f = false ->
  (forall i, i <> f -> p i = q i) -> count_from p lo n = count_from q lo n + 1.
Proof.
  revert lo. induction n as [|n IH]; intros lo Hf Hp Hq Hpq; [lia|]. cbn [count_from].
  destruct (decide (f = lo)) as [->|Hne].
  - rewrite Hp, Hq. rewrite (count_from_ext p q); [lia|]. intros; apply Hpq. lia.
  - rewrite (Hpq lo) by lia. rewrite (IH (lo + 1)) by (done || lia). lia.
Qed.

Lemma count_from_pos p lo n f : lo <= f < lo + Z.of_nat n -> p f = true -> 1 <= count_from p lo n.
Proof.
  revert lo. induction n as [|n IH]; intros lo Hf Hp; [lia|]. cbn [count_from].
  destruct (decide (f = lo)) as [->|Hne]; [rewrite Hp; pose proof (count_from_bounds p (lo + 1) n); lia|].
  pose proof (IH (lo + 1) ltac:(lia) Hp). destruct (p lo); lia.
Qed.

Lemma count_from_none lo n : count_from (fun _ => false) lo n = 0.
Proof. revert lo. induction n as [|n IH]; intros lo; cbn; [done|]. by rewrite IH. Qed.

(** ** Ring buffers

    The queues of the drivers and of TCP keep a buffer, a head where the next
    element is written and a tail where the next one is read; the queue holds
    the [(head - tail) mod size] elements from the tail on. *)
Definition elem_at {A} (dflt : A) (l : list A) (i : Z) : A := default dflt (l !! Z.to_nat i).

Fixpoint ring_read {A} (dflt : A) (size : Z) (buf : list A) (tail : Z) (n : nat) : list A :=
  match n with
  | O => []
  | S n' => elem_at dflt buf tail :: ring_read dflt size buf ((tail + 1) mod size) n'
  end.

Definition ring_count (size head tail : Z) : Z := (head - tail) mod size.
Definition ring_list {A} (dflt : A) (size : Z) (buf : list A) (head tail : Z) : list A :=
  ring_read dflt size buf tail (Z.to_nat (ring_count size head tail)).

Section Ring.
Context {A : Type} (dflt : A) (size : Z) (Hsize : 0 < size).
Implicit Types (buf : list A) (b : A).

Lemma ring_read_length buf tail n : length (ring_read dflt size buf tail n) = n.
Proof. revert tail. induction n as [|n IH]; intros tail; cbn; [done|]. by rewrite IH. Qed.

Lemma ring_list_length buf head tail :
  Z.of_nat (length (ring_list dflt size buf head tail)) = ring_count size head tail.
Proof. unfold ring_list. rewrite ring_read_length. unfold ring_count. dlia. Qed.

Lemma ring_read_snoc buf tail n : 0 <= tail < size ->
  ring_read dflt size buf tail (S n) = ring_read dflt size buf tail n ++ [elem_at dflt buf ((tail + Z.of_nat n) mod size)].
Proof.
  revert tail. induction n as [|n IH]; intros tail Ht.
  { cbn. by rewrite Z.add_0_r, Z.mod_small. }
  change (ring_read dflt size buf tail (S (S n)))
    with (elem_at dflt buf tail :: ring_read dflt size buf ((tail + 1) mod size) (S n)).
  rewrite IH by dlia. cbn [ring_read app]. do 3 f_equal.
  rewrite Zplus_mod_idemp_l. f_equal. f_equal. lia.
Qed.

Lemma ring_read_insert buf tail n h b :
  (forall i, 0 <= i < Z.of_nat n -> (tail + i) mod size <> h) -> 0 <= h -> 0 <= tail < size ->
  ring_read dflt size (<[Z.to_nat h := b]> buf) tail n = ring_read dflt size buf tail n.
Proof.
  revert tail. induction n as [|n IH]; intros tail Hi Hh Ht; cbn [ring_read]; [done|]. f_equal.
  - unfold elem_at. rewrite list_lookup_insert_ne; [done|].
    specialize (Hi 0 ltac:(lia)). rewrite Z.add_0_r, Z.mod_small in Hi by lia. lia.
  - apply IH; [|done|dlia]. intros i Hi'. rewrite Zplus_mod_idemp_l.
    replace (tail + 1 + i) with (tail + (i + 1)) by lia. apply Hi. lia.
Qed.

Lemma mod_add_inj a i j : 0 <= i < size -> 0 <= j < size -> (a + i) mod size = (a + j) mod size -> i = j.
Proof.
  intros Hi Hj E. assert (((a + i) - (a + j)) mod size = 0) as H0.
  { rewrite Zminus_mod, E, Z.sub_diag. by apply Z.mod_0_l; lia. }
  replace (a + i - (a + j)) with (i - j) in H0 by lia.
  apply Z.mod_divide in H0 as [q Hq]; [|lia]. assert (q = 0) by nia. lia.
Qed.

Lemma ring_head head tail : 0 <= head < size -> (tail + ring_count size head tail) mod size = head.
Proof.
  intros Hh. unfold ring_count. rewrite Zplus_mod_idemp_r.
  replace (tail + (head - tail)) with head by lia. by apply Z.mod_small.
Qed.

Lemma ring_count_push head tail : 0 <= head < size -> 0 <= tail < size -> (head + 1) mod size <> tail ->
  ring_count size ((head + 1) mod size) tail = ring_count size head tail + 1.
Proof.
  intros Hh Ht Hne. unfold ring_count. rewrite Zminus_mod_idemp_l.
  assert ((head - tail) mod size + 1 < size).
  { destruct (Z.le_gt_cases size ((head - tail) mod size + 1)) as [Hc|]; [|lia].
    pose proof (Z.mod_pos_bound (head - tail) size Hsize). destruct Hne.
    rewrite <- (ring_head head tail Hh) at 1. unfold ring_count. rewrite Zplus_mod_idemp_l.
    replace (tail + (head - tail) mod size + 1) with (tail + 1 * size) by lia.
    rewrite Z_mod_plus_full. by apply Z.mod_small. }
  replace (head + 1 - tail) with (head - tail + 1) by lia.
  rewrite <- Zplus_mod_idemp_l. apply Z.mod_small.
  pose proof (Z.mod_pos_bound (head - tail) size Hsize). lia.
Qed.

(** Writing at the head appends, unless the ring is full. *)
Lemma ring_push buf head tail b :
  Z.of_nat (length buf) = size -> 0 <= head < size -> 0 <= tail < size -> (head + 1) mod size <> tail ->
  ring_list dflt size (<[Z.to_nat head := b]> buf) ((head + 1) mod size) tail
    = ring_list dflt size buf head tail ++ [b].
Proof.
  intros Hl Hh Ht Hne. unfold ring_list. rewrite ring_count_push by done.
  assert (0 <= ring_count size head tail < size) by (unfold ring_count; dlia).
  pose proof (ring_count_push head tail Hh Ht Hne) as Hp.
  assert (ring_count size ((head + 1) mod size) tail < size) by (unfold ring_count; dlia).
  replace (Z.to_nat (ring_count size head tail + 1)) with (S (Z.to_nat (ring_count size head tail))) by lia.
  rewrite ring_read_snoc by done. rewrite Z2Nat.id by lia. rewrite ring_head by done. f_equal.
  - apply ring_read_insert; [|lia|done]. intros i Hi E. rewrite <- (ring_head head tail Hh) in E.
    apply mod_add_inj in E; lia.
  - unfold elem_at. rewrite list_lookup_insert_eq by lia. done.
Qed.

(** The ring is full exactly when it holds [size - 1] elements. *)
Lemma ring_full head tail : 0 <= head < size -> 0 <= tail < size ->
  (head + 1) mod size = tail <-> ring_count size head tail = size - 1.
Proof.
  intros Hh Ht. split.
  - intros <-. unfold ring_count. rewrite Zminus_mod_idemp_r.
    replace (head - (head + 1)) with (-1) by lia.
    replace (-1) with (size - 1 + (-1) * size) by lia. rewrite Z_mod_plus_full. apply Z.mod_small. lia.
  - intros Hc. destruct (decide ((head + 1) mod size = tail)) as [|Hne]; [done|].
    pose proof (ring_count_push head tail Hh Ht Hne).
    assert (ring_count size ((head + 1) mod size) tail < size) by (unfold ring_count; dlia). lia.
Qed.

(** Reading at the tail takes the oldest element. *)
Lemma ring_pop buf head tail : 0 <= head < size -> 0 <= tail < size -> head <> tail ->
  ring_list dflt size buf head tail = elem_at dflt buf tail :: ring_list dflt size buf head ((tail + 1) mod size).
Proof.
  intros Hh Ht Hne. unfold ring_list.
  assert (Hc : ring_count size head ((tail + 1) mod size) = ring_count size head tail - 1).
  { unfold ring_count. rewrite Zminus_mod_idemp_r. replace (head - (tail + 1)) with (head - tail - 1) by lia.
    assert ((head - tail) mod size <> 0).
    { intros E. apply Hne. replace head with (tail + (head - tail)) by lia.
      pose proof (ring_head head tail Hh) as Hr. unfold ring_count in Hr. rewrite E, Z.add_0_r, Z.mod_small in Hr by done. lia. }
    pose proof (Z.mod_pos_bound (head - tail) size Hsize).
    rewrite <- Zminus_mod_idemp_l. apply Z.mod_small. lia. }
  rewrite Hc. assert (0 <= ring_count size head ((tail + 1) mod size)) by (unfold ring_count; dlia).
  replace (Z.to_nat (ring_count size head tail)) with (S (Z.to_nat (ring_count size head tail - 1))) by lia. done.
Qed.

Lemma ring_empty buf head tail : 0 <= head < size -> 0 <= tail < size ->
  ring_list dflt size buf head tail = [] <-> head = tail.
Proof.
  intros Hh Ht. split.
  - intros E. destruct (decide (head = tail)) as [|Hne]; [done|]. by rewrite ring_pop in E.
  - intros ->. unfold ring_list, ring_count. by rewrite Z.sub_diag, Z.mod_0_l by lia.
Qed.
End Ring.
