(* ===== verification/Io.v ===== *)
(** * Port input and output (src/src/io.h)

    The drivers talk to their devices through [inb], [outb] and their wider
    variants.  A device is a state with those six accesses; a driver routine
    is a computation that threads that state, written with [let*].  A polling
    loop takes fuel and yields [Fuel] when the device never answers; [wp]
    states that a computation returns, and what holds then, so a theorem
    stated with it includes the termination of every polling loop. *)
From S2P Require Import Prelude.

Class Ports (D : Type) := {
  inb : D -> Z -> Z * D;
  outb : D -> Z -> Z -> D;
  inw : D -> Z -> Z * D;
  outw : D -> Z -> Z -> D;
  inl : D -> Z -> Z * D;
  outl : D -> Z -> Z -> D }.

Definition io (D A : Type) : Type := D -> res (A * D).

Definition io_ret {D A} (a : A) : io D A := fun d => OK (a, d).
Definition io_bind {D A B} (m : io D A) (k : A -> io D B) : io D B :=
  fun d => match m d with OK (a, d') => k a d' | Err => Err | Fuel => Fuel end.

Declare Scope io_scope.
Delimit Scope io_scope with io.
Notation "'let*' x := m 'in' k" := (io_bind m (fun x => k))
  (at level 10, x pattern, m at level 100, k at level 200) : io_scope.
#[global] Open Scope io_scope.

Section Access.
Context {D : Type} `{Ports D}.
Definition in8 (p : Z) : io D Z := fun d => OK (inb d p).
Definition in16 (p : Z) : io D Z := fun d => OK (inw d p).
Definition in32 (p : Z) : io D Z := fun d => OK (inl d p).
Definition out8 (p v : Z) : io D unit := fun d => OK (tt, outb d p v).
Definition out16 (p v : Z) : io D unit := fun d => OK (tt, outw d p v).
Definition out32 (p v : Z) : io D unit := fun d => OK (tt, outl d p v).
End Access.

Section Loops.
Context {D : Type}.

(** [while (test) { }] *)
Fixpoint io_while (fuel : nat) (test : io D bool) : io D unit :=
  match fuel with
  | O => fun _ => Fuel
  | S fuel' => let* b := test in if b then io_while fuel' test else io_ret tt
  end.

(** [for (i = lo; i < lo + n; i++) r[i - lo] = body(i);] *)
Fixpoint io_for {A} (n : nat) (lo : Z) (body : Z -> io D A) : io D (list A) :=
  match n with
  | O => io_ret []
  | S n' =>
      let* a := body lo in
      let* rest := io_for n' (lo + 1) body in
      io_ret (a :: rest)
  end.

(** A loop over the elements of a list, for its effect. *)
Fixpoint io_each {A} (l : list A) (body : A -> io D unit) : io D unit :=
  match l with
  | [] => io_ret tt
  | a :: l' => let* _ := body a in io_each l' body
  end.
End Loops.

(** ** Total correctness of computations *)
Definition wp {D A} (m : io D A) (d : D) (Q : A -> D -> Prop) : Prop :=
  exists a d', m d = OK (a, d') /\ Q a d'.

Section Wp.
Context {D : Type}.

Lemma wp_ret {A} (a : A) (d : D) Q : Q a d -> wp (io_ret a) d Q.
Proof. intros HQ. by exists a, d. Qed.

Lemma wp_bind {A B} (m : io D A) (k : A -> io D B) d Q :
  wp m d (fun a d' => wp (k a) d' Q) -> wp (let* x := m in k x) d Q.
Proof.
  intros (a & d' & Hm & b & d'' & Hk & HQ). exists b, d''. split; [|done].
  unfold io_bind. by rewrite Hm.
Qed.

Lemma wp_mono {A} (m : io D A) d (Q Q' : A -> D -> Prop) :
  wp m d Q -> (forall a d', Q a d' -> Q' a d') -> wp m d Q'.
Proof. intros (a & d' & Hm & HQ) Hi. exists a, d'. eauto. Qed.

(** A polling loop ends once a measure of the device runs out. *)
Lemma wp_while (test : io D bool) (mu : D -> nat) (Inv Q : D -> Prop) fuel d :
  (forall d, Inv d -> wp test d (fun b d' => if b then Inv d' /\ (mu d' < mu d)%nat else Q d')) ->
  Inv d -> (mu d < fuel)%nat -> wp (io_while fuel test) d (fun _ => Q).
Proof.
  intros Hstep. revert d. induction fuel as [|fuel IH]; intros d Hd Hmu; [lia|].
  cbn [io_while]. apply wp_bind. eapply wp_mono; [by apply Hstep|].
  intros [] d' Hd'; cbn beta iota; [|by apply wp_ret].
  destruct Hd' as [Hi Hlt]. apply IH; [done|lia].
Qed.

(** A [for] loop that keeps an invariant indexed by the iterations done. *)
Lemma wp_for {A} (body : Z -> io D A) (Inv : list A -> D -> Prop) n lo acc d :
  (forall i acc d, Inv acc d -> lo <= i < lo + Z.of_nat n ->
    length acc = Z.to_nat i -> wp (body i) d (fun a d' => Inv (acc ++ [a]) d')) ->
  Inv acc d -> length acc = Z.to_nat lo -> 0 <= lo ->
  wp (io_for n lo body) d (fun l d' => Inv (acc ++ l) d' /\ length l = n).
Proof.
  revert lo acc d. induction n as [|n IH]; intros lo acc d Hb Hi Hl Hlo; cbn [io_for].
  { apply wp_ret. by rewrite app_nil_r. }
  apply wp_bind. eapply wp_mono; [apply Hb; [done|lia|done]|]. intros a d' Hi'.
  apply wp_bind. eapply wp_mono.
  - apply (IH (lo + 1) (acc ++ [a])); [|done| |lia].
    + intros i acc' d'' ? ? ?. apply Hb; [done|lia|done].
    + rewrite length_app. cbn. lia.
  - intros l d'' [H' Hl']. apply wp_ret. rewrite <- app_assoc in H'. by rewrite <- Hl'.
Qed.

Lemma wp_each {A} (body : A -> io D unit) (Inv : list A -> D -> Prop) l pre d :
  (forall p a r d, pre ++ l = p ++ a :: r -> Inv p d -> wp (body a) d (fun _ d' => Inv (p ++ [a]) d')) ->
  Inv pre d -> wp (io_each l body) d (fun _ d' => Inv (pre ++ l) d').
Proof.
  revert pre d. induction l as [|a l IH]; intros pre d Hb Hi; cbn [io_each].
  { apply wp_ret. by rewrite app_nil_r. }
  apply wp_bind. eapply wp_mono; [by apply (Hb pre a l)|]. intros u d' Hi'. cbn beta in Hi'.
  eapply wp_mono; [apply (IH (pre ++ [a])); [|done]|].
  - intros p a' r d''. rewrite <- app_assoc. apply Hb.
  - intros u' d'' H''. cbn beta in H''. by rewrite <- app_assoc in H''.
Qed.

Context `{Ports D}.
Lemma wp_in8 p d Q : Q (inb d p).1 (inb d p).2 -> wp (in8 p) d Q.
Proof. intros HQ. exists (inb d p).1, (inb d p).2. unfold in8. by destruct (inb d p). Qed.
Lemma wp_in16 p d Q : Q (inw d p).1 (inw d p).2 -> wp (in16 p) d Q.
Proof. intros HQ. exists (inw d p).1, (inw d p).2. unfold in16. by destruct (inw d p). Qed.
Lemma wp_in32 p d Q : Q (inl d p).1 (inl d p).2 -> wp (in32 p) d Q.
Proof. intros HQ. exists (inl d p).1, (inl d p).2. unfold in32. by destruct (inl d p). Qed.
Lemma wp_out8 p v d Q : Q tt (outb d p v) -> wp (out8 p v) d Q.
Proof. intros HQ. by exists tt, (outb d p v). Qed.
Lemma wp_out16 p v d Q : Q tt (outw d p v) -> wp (out16 p v) d Q.
Proof. intros HQ. by exists tt, (outw d p v). Qed.
Lemma wp_out32 p v d Q : Q tt (outl d p v) -> wp (out32 p v) d Q.
Proof. intros HQ. by exists tt, (outl d p v). Qed.
End Wp.

(** One step of a driver: the next access or return of the computation. *)
Ltac io_step :=
  lazymatch goal with
  | |- wp (io_bind _ _) _ _ => apply wp_bind
  | |- wp (io_ret _) _ _ => apply wp_ret
  | |- wp (in8 _) _ _ => apply wp_in8
  | |- wp (in16 _) _ _ => apply wp_in16
  | |- wp (in32 _) _ _ => apply wp_in32
  | |- wp (out8 _ _) _ _ => apply wp_out8
  | |- wp (out16 _ _) _ _ => apply wp_out16
  | |- wp (out32 _ _) _ _ => apply wp_out32
  end; cbn beta.
