(* ===== verification/Interrupts.v ===== *)
(** * Descriptor tables and interrupts (src/src/gdt.c, idt.c, tss.c, isr.c, irq.c, pic.c, pit.c)

    The encodings of segment and gate descriptors against the processor's
    reading of them, the tables the kernel builds at boot, the programming of
    the two interrupt controllers and of the timer, and the dispatch of
    hardware interrupts to the registered drivers. *)
From S2P Require Import Prelude Io.

(** ** Segment descriptors *)
Record gdt_entry := mk_gdt_entry {
  limit_low : Z; base_low : Z; base_middle : Z; access : Z; granularity : Z; base_high : Z }.

Definition GDT_ENTRY_COUNT : Z := 6.
Definition GDT_KERNEL_CODE : Z := 8.
Definition GDT_KERNEL_DATA : Z := 16.
Definition GDT_USER_CODE : Z := 24.
Definition GDT_USER_DATA : Z := 32.
Definition GDT_TSS : Z := 40.

Definition gdt_set_gate (gdt : list gdt_entry) (num base limit acc gran : Z) : list gdt_entry :=
  <[Z.to_nat num := mk_gdt_entry
      (Z.land limit 65535) (Z.land base 65535) (Z.land (Z.shiftr base 16) 255) acc
      (Z.lor (Z.land (Z.shiftr limit 16) 15) (Z.land gran 240)) (Z.land (Z.shiftr base 24) 255)]> gdt.

(** [tss_addr] and [tss_size] are the address and size of the task state. *)
Definition gdt_install (tss_addr tss_size : Z) (gdt : list gdt_entry) : list gdt_entry :=
  let gdt := gdt_set_gate gdt 0 0 0 0 0 in
  let gdt := gdt_set_gate gdt 1 0 4294967295 154 207 in
  let gdt := gdt_set_gate gdt 2 0 4294967295 146 207 in
  let gdt := gdt_set_gate gdt 3 0 4294967295 250 207 in
  let gdt := gdt_set_gate gdt 4 0 4294967295 242 207 in
  gdt_set_gate gdt 5 tss_addr (tss_size - 1) 137 0.

(** The processor's reading of a descriptor: base, limit in bytes, privilege
    level, and presence. *)
Definition seg_base (e : gdt_entry) : Z := base_low e + 65536 * base_middle e + 16777216 * base_high e.
Definition seg_raw_limit (e : gdt_entry) : Z := limit_low e + 65536 * Z.land (granularity e) 15.
Definition seg_limit (e : gdt_entry) : Z :=
  if Z.testbit (granularity e) 7 then seg_raw_limit e * 4096 + 4095 else seg_raw_limit e.
Definition seg_dpl (e : gdt_entry) : Z := Z.land (Z.shiftr (access e) 5) 3.
Definition seg_present (e : gdt_entry) : bool := Z.testbit (access e) 7.

(** ** Gates *)
Record idt_entry := mk_idt_entry { gate_low : Z; gate_sel : Z; always0 : Z; gate_flags : Z; gate_high : Z }.

Definition idt_set_gate (idt : list idt_entry) (num base sel flags : Z) : list idt_entry :=
  <[Z.to_nat num := mk_idt_entry (Z.land base 65535) sel 0 flags (Z.land (Z.shiftr base 16) 65535)]> idt.

(** A loop of [idt_set_gate] over the vectors [num .. num + n - 1]. *)
Fixpoint set_gates (n : nat) (num : Z) (base sel flags : Z -> Z) (idt : list idt_entry) : list idt_entry :=
  match n with
  | O => idt
  | S n' => set_gates n' (num + 1) base sel flags (idt_set_gate idt num (base num) (sel num) (flags num))
  end.

Definition idt_install (idt : list idt_entry) : list idt_entry :=
  set_gates 256 0 (fun _ => 0) (fun _ => 0) (fun _ => 0) idt.

(** The stubs are assembly: [isr v], [irq v] and [syscall_stub] are their
    addresses. *)
Definition isr_install (isr : Z -> Z) (idt : list idt_entry) : list idt_entry :=
  set_gates 32 0 isr (fun _ => 8) (fun _ => 142) idt.
Definition irq_install (irq : Z -> Z) (idt : list idt_entry) : list idt_entry :=
  set_gates 16 32 (fun v => irq (v - 32)) (fun _ => 8) (fun _ => 142) idt.
Definition syscall_install (syscall_stub : Z) (idt : list idt_entry) : list idt_entry :=
  idt_set_gate idt 128 syscall_stub 8 238.

(** The order of [kernel_main]. *)
Definition boot_idt (isr irq : Z -> Z) (syscall_stub : Z) (idt : list idt_entry) : list idt_entry :=
  irq_install irq (syscall_install syscall_stub (isr_install isr (idt_install idt))).

Definition gate_offset (g : idt_entry) : Z := gate_low g + 65536 * gate_high g.
Definition gate_dpl (g : idt_entry) : Z := Z.land (Z.shiftr (gate_flags g) 5) 3.
Definition gate_present (g : idt_entry) : bool := Z.testbit (gate_flags g) 7.

(** What the processor does for [int v] issued in ring 3: it enters the
    handler when the gate is present and its level is 3, and faults
    otherwise. *)
Definition ring3_enters (idt : list idt_entry) (v : Z) : option Z :=
  match idt !! Z.to_nat v with
  | Some g => if gate_present g && (3 <=? gate_dpl g) then Some (gate_offset g) else None
  | None => None
  end.

(** ** The task state segment *)
Record tss_entry := mk_tss { esp0 : Z; ss0 : Z; iomap_base : Z }.

(** Every other field is zeroed by the loop. *)
Definition TSS_SIZE : Z := 104.
Definition tss_install (stack_top : Z) : tss_entry := mk_tss stack_top GDT_KERNEL_DATA TSS_SIZE.
Definition tss_set_kernel_stack (t : tss_entry) (esp : Z) : tss_entry := mk_tss esp (ss0 t) (iomap_base t).

(** ** The interrupt controllers *)
Definition PIC1_COMMAND : Z := 32.
Definition PIC1_DATA : Z := 33.
Definition PIC2_COMMAND : Z := 160.
Definition PIC2_DATA : Z := 161.
Definition ICW1_INIT : Z := 16.
Definition ICW1_ICW4 : Z := 1.
Definition ICW4_8086 : Z := 1.

(** The drivers that register a handler. *)
Inductive irq_driver := PitHandler | KeyboardHandler | SerialHandler | MouseHandler.

#[export] Instance irq_driver_eq_dec : EqDecision irq_driver.
Proof. solve_decision. Defined.

Abbreviation irq_table := (list (option irq_driver)).

Definition irq_boot : irq_table := replicate 16 None.
Definition irq_set_handler (t : irq_table) (irq : Z) (h : irq_driver) : irq_table :=
  <[Z.to_nat irq := Some h]> t.

Section Driver.
Context {D : Type} `{Ports D}.

(** Acknowledges the interrupt and returns the handler to run. *)
Definition irq_handler (t : irq_table) (int_no : Z) : io D (option irq_driver) :=
  let irq := int_no - 32 in
  let* _ := (if irq >=? 8 then out8 160 32 else io_ret tt) in
  let* _ := out8 32 32 in
  io_ret (mjoin (t !! Z.to_nat irq)).

Definition pic_remap : io D unit :=
  let* mask1 := in8 PIC1_DATA in
  let* mask2 := in8 PIC2_DATA in
  let* _ := out8 PIC1_COMMAND (Z.lor ICW1_INIT ICW1_ICW4) in
  let* _ := out8 PIC2_COMMAND (Z.lor ICW1_INIT ICW1_ICW4) in
  let* _ := out8 PIC1_DATA 32 in
  let* _ := out8 PIC2_DATA 40 in
  let* _ := out8 PIC1_DATA 4 in
  let* _ := out8 PIC2_DATA 2 in
  let* _ := out8 PIC1_DATA ICW4_8086 in
  let* _ := out8 PIC2_DATA ICW4_8086 in
  let* _ := out8 PIC1_DATA mask1 in
  out8 PIC2_DATA mask2.

Definition pic_unmask_irq (irq : Z) : io D unit :=
  let port := if irq <? 8 then PIC1_DATA else PIC2_DATA in
  let line := if irq <? 8 then u8 irq else u8 (irq - 8) in
  let* mask := in8 port in
  out8 port (u8 (Z.land mask (Z.lnot (Z.shiftl 1 line)))).

(** ** The timer *)
Definition PIT_CHANNEL0 : Z := 64.
Definition PIT_COMMAND : Z := 67.
Definition PIT_BASE_FREQ : Z := 1193182.

(** Returns the frequency kept for [pit_get_frequency] and the new table; a
    frequency of zero divides by zero. *)
Definition pit_init (t : irq_table) (frequency : Z) : io D (Z * irq_table) :=
  if frequency =? 0 then fun _ => Err
  else
    let divisor := PIT_BASE_FREQ / frequency in
    let* _ := out8 PIT_COMMAND 54 in
    let* _ := out8 PIT_CHANNEL0 (Z.land divisor 255) in
    let* _ := out8 PIT_CHANNEL0 (Z.land (Z.shiftr divisor 8) 255) in
    io_ret (frequency, irq_set_handler t 0 PitHandler).
End Driver.

(** ** Fields *)
Lemma land_low16 x : Z.land x 65535 = x mod 65536.
Proof. change 65535 with (Z.ones 16). by rewrite Z.land_ones. Qed.
Lemma shiftr_low x k n : 0 <= k -> 0 <= n -> Z.land (Z.shiftr x k) (Z.ones n) = x / 2 ^ k mod 2 ^ n.
Proof. intros. rewrite Z.land_ones, Z.shiftr_div_pow2 by lia. done. Qed.

Lemma field_16_8 x : Z.land (Z.shiftr x 16) 255 = x / 65536 mod 256.
Proof. exact (shiftr_low x 16 8 ltac:(lia) ltac:(lia)). Qed.
Lemma field_24_8 x : Z.land (Z.shiftr x 24) 255 = x / 16777216 mod 256.
Proof. exact (shiftr_low x 24 8 ltac:(lia) ltac:(lia)). Qed.
Lemma field_16_4 x : Z.land (Z.shiftr x 16) 15 = x / 65536 mod 16.
Proof. exact (shiftr_low x 16 4 ltac:(lia) ltac:(lia)). Qed.
Lemma field_16_16 x : Z.land (Z.shiftr x 16) 65535 = x / 65536 mod 65536.
Proof. exact (shiftr_low x 16 16 ltac:(lia) ltac:(lia)). Qed.

(** The low nibble of the granularity byte is the limit's, the high one the
    flags'. *)
Lemma granularity_fields a g : 0 <= a < 16 -> is_byte g ->
  Z.land (Z.lor a (Z.land g 240)) 15 = a /\ Z.testbit (Z.lor a (Z.land g 240)) 7 = Z.testbit g 7.
Proof.
  intros Ha Hg.
  assert (H : forallb (fun g => forallb (fun a => (Z.land (Z.lor a (Z.land g 240)) 15 =? a)
    && Bool.eqb (Z.testbit (Z.lor a (Z.land g 240)) 7) (Z.testbit g 7)) (seqZ 0 16)) (seqZ 0 256) = true)
    by (vm_compute; reflexivity).
  apply (forall_byte _ H) in Hg. clear H. rewrite forallb_forall in Hg.
  assert (Hin : a ∈ seqZ 0 16) by (apply elem_of_seqZ; lia). apply list_elem_of_In, Hg in Hin. zbool.
  split; [assumption|]. by apply Bool.eqb_prop.
Qed.

(** A segment descriptor means what was asked for: the processor reads
    back the base, the low twenty bits of the limit (in 4 KiB units when the
    granularity flag is set) and the access byte, and no other entry of the
    table changes. *)
Theorem gdt_set_gate_spec gdt num base limit acc gran :
  0 <= num < Z.of_nat (length gdt) -> is_u32 base -> is_u32 limit -> is_byte gran ->
  (forall k, k <> Z.to_nat num -> gdt_set_gate gdt num base limit acc gran !! k = gdt !! k) /\
  exists e, gdt_set_gate gdt num base limit acc gran !! Z.to_nat num = Some e /\
    seg_base e = base /\ access e = acc /\
    seg_limit e = if Z.testbit gran 7 then limit mod 2 ^ 20 * 4096 + 4095 else limit mod 2 ^ 20.
Proof.
  intros Hn Hb Hl Hg. unfold gdt_set_gate. split; [intros; by apply list_lookup_insert_ne|].
  eexists. split; [apply list_lookup_insert_eq; lia|].
  unfold seg_base, seg_limit, seg_raw_limit. cbn [base_low base_middle base_high access limit_low granularity].
  rewrite !land_low16, field_16_8, field_24_8, !field_16_4.
  destruct (granularity_fields (limit / 65536 mod 16) gran) as [-> ->]; [dlia|done|].
  unfold is_u32 in *. split; [dlia|]. split; [done|]. change (2 ^ 20) with 1048576.
  assert (limit mod 1048576 = limit mod 65536 + 65536 * (limit / 65536 mod 16)) as -> by dlia. done.
Qed.

Definition sample_gdt : list gdt_entry :=
  gdt_install 1118208 TSS_SIZE (replicate 6 (mk_gdt_entry 0 0 0 0 0 0)).

Lemma gdt_set_gate_spec_witness :
  exists e, gdt_set_gate sample_gdt 5 1118208 103 137 0 !! 5%nat = Some e /\ seg_base e = 1118208 /\ seg_limit e = 103.
Proof.
  destruct (gdt_set_gate_spec sample_gdt 5 1118208 103 137 0) as (_ & e & He & Hb & _ & Hl);
    [vm_compute; split; [discriminate|reflexivity]|unfold is_u32; lia|unfold is_u32; lia|unfold is_byte; lia|].
  exists e. split; [exact He|]. split; [exact Hb|exact Hl].
Defined.

(** The segments of the kernel and of user programs: the whole address space,
    with ring 3 only for the two user selectors. *)
Example gdt_segments :
  map (fun e => (seg_base e, seg_limit e, seg_dpl e, seg_present e)) (take 5 sample_gdt)
  = [(0, 0, 0, false); (0, 4294967295, 0, true); (0, 4294967295, 0, true);
     (0, 4294967295, 3, true); (0, 4294967295, 3, true)].
Proof. vm_compute. reflexivity. Qed.

(** ** The interrupt table after boot *)
Definition gate (base sel flags : Z) : idt_entry :=
  mk_idt_entry (Z.land base 65535) sel 0 flags (Z.land (Z.shiftr base 16) 65535).

Lemma gate_offset_gate base sel flags : is_u32 base -> gate_offset (gate base sel flags) = base.
Proof.
  unfold is_u32, gate_offset, gate. cbn. intros Hb. rewrite land_low16, field_16_16. dlia.
Qed.

Lemma length_set_gates n : forall num base sel flags idt, length (set_gates n num base sel flags idt) = length idt.
Proof.
  induction n as [|n IH]; intros num base sel flags idt; cbn [set_gates]; [done|].
  rewrite IH. unfold idt_set_gate. apply length_insert.
Qed.

Lemma set_gates_lookup n : forall num base sel flags idt v,
  0 <= num -> 0 <= v -> num + Z.of_nat n <= Z.of_nat (length idt) ->
  set_gates n num base sel flags idt !! Z.to_nat v
    = if (num <=? v) && (v <? num + Z.of_nat n) then Some (gate (base v) (sel v) (flags v)) else idt !! Z.to_nat v.
Proof.
  induction n as [|n IH]; intros num base sel flags idt v Hn Hv Hl; cbn [set_gates].
  { destruct (Z.leb_spec num v), (Z.ltb_spec v (num + Z.of_nat 0)); cbn; [lia|done..]. }
  rewrite IH by (unfold idt_set_gate; rewrite ?length_insert; lia).
  unfold idt_set_gate. fold (gate (base num) (sel num) (flags num)).
  destruct (Z.leb_spec (num + 1) v), (Z.ltb_spec v (num + 1 + Z.of_nat n)), (Z.leb_spec num v),
    (Z.ltb_spec v (num + Z.of_nat (S n))); cbn [andb]; try lia; try done;
    try (by rewrite list_lookup_insert_ne by lia).
  replace v with num by lia. apply list_lookup_insert_eq. lia.
Qed.

Section BootIdt.
Context (isr irq : Z -> Z) (syscall_stub : Z) (idt : list idt_entry).
Context (Hlen : length idt = 256%nat).

Lemma boot_idt_lookup v : 0 <= v < 256 ->
  boot_idt isr irq syscall_stub idt !! Z.to_nat v =
    Some (if v <? 32 then gate (isr v) 8 142
          else if v <? 48 then gate (irq (v - 32)) 8 142
          else if v =? 128 then gate syscall_stub 8 238
          else gate 0 0 0).
Proof.
  intros Hv. unfold boot_idt, irq_install.
  rewrite set_gates_lookup; [|lia|lia|].
  2:{ unfold syscall_install, idt_set_gate, isr_install, idt_install.
      rewrite length_insert, !length_set_gates. lia. }
  destruct (Z.leb_spec 32 v), (Z.ltb_spec v (32 + Z.of_nat 16)); cbn [andb]; try lia.
  - rewrite (proj2 (Z.ltb_ge v 32)), (proj2 (Z.ltb_lt v 48)) by lia. done.
  - rewrite (proj2 (Z.ltb_ge v 32)), (proj2 (Z.ltb_ge v 48)) by lia.
    unfold syscall_install, idt_set_gate. destruct (Z.eqb_spec v 128) as [->|Hne].
    + rewrite list_lookup_insert_eq; [done|].
      unfold isr_install, idt_install. rewrite !length_set_gates. lia.
    + rewrite list_lookup_insert_ne by lia. unfold isr_install, idt_install.
      rewrite set_gates_lookup; [|lia|lia|rewrite length_set_gates; lia].
      rewrite (proj2 (Z.ltb_ge v (0 + Z.of_nat 32))), andb_false_r by lia.
      rewrite set_gates_lookup by lia. rewrite (proj2 (Z.leb_le 0 v)), (proj2 (Z.ltb_lt v (0 + Z.of_nat 256))) by lia. done.
  - rewrite (proj2 (Z.ltb_lt v 32)) by lia. unfold syscall_install, idt_set_gate.
    rewrite list_lookup_insert_ne by lia. unfold isr_install.
    rewrite set_gates_lookup; [|lia|lia|unfold idt_install; rewrite length_set_gates; lia].
    rewrite (proj2 (Z.leb_le 0 v)), (proj2 (Z.ltb_lt v (0 + Z.of_nat 32))) by lia. done.
Qed.

(** After the boot sequence has built the interrupt table, a ring-3
    program can enter the kernel through exactly one vector, 0x80, and only
    at the system-call stub; the exceptions and the hardware interrupts reach
    their own stubs in ring 0, and no other vector is present. *)
Theorem ring3_gate_is_syscall :
  is_u32 syscall_stub -> (forall v, is_u32 (isr v)) -> (forall v, is_u32 (irq v)) ->
  (forall v, 0 <= v < 256 ->
     ring3_enters (boot_idt isr irq syscall_stub idt) v = if v =? 128 then Some syscall_stub else None) /\
  (forall v, 0 <= v < 256 -> exists g, boot_idt isr irq syscall_stub idt !! Z.to_nat v = Some g /\
     gate_present g = (v <? 48) || (v =? 128) /\
     (v < 32 -> gate_offset g = isr v /\ gate_dpl g = 0) /\
     (32 <= v < 48 -> gate_offset g = irq (v - 32) /\ gate_dpl g = 0)).
Proof.
  intros Hs Hi Hq. split; intros v Hv.
  - unfold ring3_enters. rewrite boot_idt_lookup by done.
    destruct (Z.ltb_spec v 32); [destruct (Z.eqb_spec v 128); [lia|done]|].
    destruct (Z.ltb_spec v 48); [destruct (Z.eqb_spec v 128); [lia|done]|].
    destruct (Z.eqb_spec v 128); [|done]. cbn [gate_present gate_dpl gate gate_flags].
    change (Z.testbit 238 7 && (3 <=? Z.land (Z.shiftr 238 5) 3)) with true. cbv iota.
    f_equal. by apply gate_offset_gate.
  - rewrite boot_idt_lookup by done. eexists. split; [done|].
    destruct (Z.ltb_spec v 32); [rewrite (proj2 (Z.ltb_lt v 48)) by lia|].
    + split; [done|]. split; [|lia]. intros _. split; [by apply gate_offset_gate|done].
    + destruct (Z.ltb_spec v 48).
      * split; [done|]. split; [lia|]. intros _. split; [by apply gate_offset_gate|done].
      * destruct (Z.eqb_spec v 128); (split; [done|lia]).
Qed.
End BootIdt.

Definition sample_isr (v : Z) : Z := 1048576 + 16 * (v mod 256).
Definition sample_irq (v : Z) : Z := 1052672 + 16 * (v mod 16).
Definition sample_idt : list idt_entry :=
  boot_idt sample_isr sample_irq 1056768 (replicate 256 (mk_idt_entry 0 0 0 0 0)).

Lemma ring3_gate_is_syscall_witness :
  ring3_enters sample_idt 128 = Some 1056768 /\ ring3_enters sample_idt 14 = None.
Proof.
  destruct (ring3_gate_is_syscall sample_isr sample_irq 1056768 (replicate 256 (mk_idt_entry 0 0 0 0 0)) eq_refl) as [H _];
    [unfold is_u32; lia|intros v; unfold sample_isr, is_u32; dlia|intros v; unfold sample_irq, is_u32; dlia|].
  split; [exact (H 128 ltac:(lia))|exact (H 14 ltac:(lia))].
Defined.

(** ** The controllers *)
Record pic := mk_pic { pic_mask : Z; pic_vector : Z; pic_icw : nat }.

(** A command with bit 4 starts an initialisation, which clears the mask and
    expects three more words on the data port: the vector, the wiring and the
    mode.  Otherwise the data port is the mask. *)
Definition pic_command (p : pic) (v : Z) : pic :=
  if flag v ICW1_INIT then mk_pic 0 (pic_vector p) 3 else p.
Definition pic_data (p : pic) (v : Z) : pic :=
  match pic_icw p with
  | 3%nat => mk_pic (pic_mask p) (Z.land v 248) 2
  | 2%nat => mk_pic (pic_mask p) (pic_vector p) 1
  | 1%nat => mk_pic (pic_mask p) (pic_vector p) 0
  | _ => mk_pic v (pic_vector p) 0
  end.

Class Pics (D : Type) `{Ports D} := {
  pics : D -> pic * pic;
  pics_mask1 d : (inb d PIC1_DATA).1 = pic_mask (pics d).1;
  pics_mask2 d : (inb d PIC2_DATA).1 = pic_mask (pics d).2;
  pics_in d p : p = PIC1_DATA \/ p = PIC2_DATA -> pics (inb d p).2 = pics d;
  pics_cmd1 d v : pics (outb d PIC1_COMMAND v) = (pic_command (pics d).1 v, (pics d).2);
  pics_cmd2 d v : pics (outb d PIC2_COMMAND v) = ((pics d).1, pic_command (pics d).2 v);
  pics_data1 d v : pics (outb d PIC1_DATA v) = (pic_data (pics d).1 v, (pics d).2);
  pics_data2 d v : pics (outb d PIC2_DATA v) = ((pics d).1, pic_data (pics d).2 v) }.

Lemma mask_clear m k : is_byte m -> 0 <= k < 8 ->
  u8 (Z.land m (Z.lnot (Z.shiftl 1 (u8 k)))) = Z.clearbit m k.
Proof.
  intros Hm Hk.
  assert (H : forallb (fun m => forallb (fun k =>
    u8 (Z.land m (Z.lnot (Z.shiftl 1 (u8 k)))) =? Z.clearbit m k) (seqZ 0 8)) (seqZ 0 256) = true)
    by (vm_compute; reflexivity).
  apply (forall_byte _ H) in Hm. clear H. rewrite forallb_forall in Hm.
  assert (Hin : k ∈ seqZ 0 8) by (apply elem_of_seqZ; lia). apply list_elem_of_In, Hm in Hin. by apply Z.eqb_eq.
Qed.

Section Pic.
Context {D : Type} `{HP : Ports D} `{!Pics D}.

(** Remapping moves the two controllers to vectors 32 and 40 and keeps the
    masks. *)
Lemma pic_remap_spec (d : D) : pic_icw (pics d).1 = O -> pic_icw (pics d).2 = O ->
  wp pic_remap d (fun _ d' =>
    pics d' = (mk_pic (pic_mask (pics d).1) 32 0, mk_pic (pic_mask (pics d).2) 40 0)).
Proof.
  intros H1 H2. unfold pic_remap. io_step. io_step. io_step. io_step.
  rewrite pics_mask1, pics_mask2. rewrite (pics_in d PIC1_DATA) by (by left).
  repeat io_step. rewrite pics_data2, pics_data1, pics_data2, pics_data1, pics_data2, pics_data1, pics_data2, pics_data1,
    pics_cmd2, pics_cmd1, !pics_in by auto. by destruct (pics d).
Qed.

(** Unmasking clears the bit of that line and no other. *)
Lemma pic_unmask_spec (d : D) irq : 0 <= irq < 16 -> pic_icw (pics d).1 = O -> pic_icw (pics d).2 = O ->
  is_byte (pic_mask (pics d).1) -> is_byte (pic_mask (pics d).2) ->
  wp (pic_unmask_irq irq) d (fun _ d' =>
    pics d' = if irq <? 8
              then (mk_pic (Z.clearbit (pic_mask (pics d).1) irq) (pic_vector (pics d).1) 0, (pics d).2)
              else ((pics d).1, mk_pic (Z.clearbit (pic_mask (pics d).2) (irq - 8)) (pic_vector (pics d).2) 0)).
Proof.
  intros Hi H1 H2 Hm1 Hm2. unfold pic_unmask_irq.
  io_step. io_step. destruct (Z.ltb_spec irq 8).
  - rewrite pics_mask1, mask_clear by (done || lia). io_step. rewrite pics_data1, pics_in by (by left).
    unfold pic_data. by rewrite H1.
  - rewrite pics_mask2, mask_clear by (done || lia). io_step. rewrite pics_data2, pics_in by (by right).
    unfold pic_data. by rewrite H2.
Qed.
End Pic.

(** The two controllers alone, as a device. *)
#[export] Instance pics_ports : Ports (pic * pic) := {
  inb d p := (if p =? PIC1_DATA then pic_mask d.1 else if p =? PIC2_DATA then pic_mask d.2 else 0, d);
  outb d p v :=
    if p =? PIC1_COMMAND then (pic_command d.1 v, d.2)
    else if p =? PIC2_COMMAND then (d.1, pic_command d.2 v)
    else if p =? PIC1_DATA then (pic_data d.1 v, d.2)
    else if p =? PIC2_DATA then (d.1, pic_data d.2 v)
    else d;
  inw d p := (0, d); outw d p x := d; inl d p := (0, d); outl d p x := d }.

#[export] Instance pics_pics : Pics (pic * pic).
Proof. by refine {| pics := fun d => d |}; intros d; [| |intros p [-> | ->]|..]. Defined.

(** Dispatch acknowledges the slave controller only for its own lines. *)
Lemma irq_handler_runs {D} `{Ports D} t irq (d : D) : 0 <= irq < 16 ->
  wp (irq_handler t (32 + irq)) d (fun h _ => h = mjoin (t !! Z.to_nat irq)).
Proof.
  intros Hi. unfold irq_handler. replace (32 + irq - 32) with irq by lia.
  io_step. destruct (irq >=? 8); repeat io_step; done.
Qed.
