(* ===== verification/Queue.v ===== *)
(** * Circular input queues

    The keyboard, the serial port and the mouse hand their input from the
    interrupt handler to the reader through the same structure: a buffer, a
    head where the handler writes and a tail where the reader reads.  One slot
    stays free, so a queue of [size] slots holds [size - 1] elements and the
    next one is dropped.  The queue is shown to be a bounded list. *)
From S2P Require Import Prelude.

Record queue (A : Type) := mk_queue { q_buf : list A; q_head : Z; q_tail : Z }.
Arguments mk_queue {A}.
Arguments q_buf {A}.
Arguments q_head {A}.
Arguments q_tail {A}.

Section Queue.
Context {A : Type} (dflt : A) (size : Z).

Definition queue_boot : queue A := mk_queue (replicate (Z.to_nat size) dflt) 0 0.

Definition queue_push (q : queue A) (c : A) : queue A :=
  let next := (q_head q + 1) mod size in
  if negb (next =? q_tail q)
  then mk_queue (<[Z.to_nat (q_head q) := c]> (q_buf q)) next (q_tail q)
  else q.

Definition queue_has (q : queue A) : bool := negb (q_head q =? q_tail q).

Definition queue_pop (q : queue A) : A * queue A :=
  (elem_at dflt (q_buf q) (q_tail q), mk_queue (q_buf q) (q_head q) ((q_tail q + 1) mod size)).

Record queue_ok (q : queue A) : Prop := {
  queue_size : Z.of_nat (length (q_buf q)) = size;
  queue_head : 0 <= q_head q < size;
  queue_tail : 0 <= q_tail q < size }.

(** The elements waiting, oldest first. *)
Definition contents (q : queue A) : list A := ring_list dflt size (q_buf q) (q_head q) (q_tail q).

(** A bounded list: an element that does not fit is dropped. *)
Definition bounded_snoc (l : list A) (c : A) : list A :=
  if Z.of_nat (length l) <? size - 1 then l ++ [c] else l.

Context (Hsize : 0 < size).

Lemma queue_boot_ok : queue_ok queue_boot /\ contents queue_boot = [].
Proof.
  split; [split; cbn; [rewrite length_replicate|..]; lia|].
  apply (ring_empty dflt size Hsize); cbn; lia.
Qed.

Lemma queue_push_spec q c : queue_ok q ->
  queue_ok (queue_push q c) /\ contents (queue_push q c) = bounded_snoc (contents q) c.
Proof.
  intros [Hl Hh Ht]. unfold queue_push, bounded_snoc, contents.
  rewrite (ring_list_length dflt size Hsize). case_if; zbool.
  - assert (ring_count size (q_head q) (q_tail q) <> size - 1) as Hne.
    { intros E. apply Hif. by apply ring_full. }
    assert (ring_count size (q_head q) (q_tail q) < size) by (unfold ring_count; dlia).
    rewrite (proj2 (Z.ltb_lt _ _)) by lia. cbn. split; [|by apply ring_push].
    split; cbn; [by rewrite length_insert|dlia|done].
  - apply ring_full in Hif; [|done..]. rewrite Hif, Z.ltb_irrefl. done.
Qed.

Lemma queue_has_spec q : queue_ok q -> queue_has q = negb (bool_decide (contents q = [])).
Proof.
  intros [Hl Hh Ht]. unfold queue_has. f_equal. apply eq_true_iff_eq.
  rewrite Z.eqb_eq, bool_decide_eq_true. symmetry. by apply ring_empty.
Qed.

Lemma queue_pop_spec q x l : queue_ok q -> contents q = x :: l ->
  (queue_pop q).1 = x /\ queue_ok (queue_pop q).2 /\ contents (queue_pop q).2 = l.
Proof.
  intros [Hl Hh Ht] Hc. unfold contents in *.
  assert (q_head q <> q_tail q) as Hne.
  { intros E. apply (ring_empty dflt size Hsize (q_buf q)) in E; [|done..]. by rewrite E in Hc. }
  rewrite (ring_pop dflt size Hsize) in Hc by done. injection Hc as <- <-.
  split; [done|]. split; [|done]. split; cbn; [done..|dlia].
Qed.

Lemma contents_bound q : queue_ok q -> Z.of_nat (length (contents q)) <= size - 1.
Proof.
  intros [Hl Hh Ht]. unfold contents. rewrite (ring_list_length dflt size Hsize).
  unfold ring_count. dlia.
Qed.

(** Elements that fit are all kept, in order. *)
Lemma bounded_snoc_fold l cs : Z.of_nat (length l + length cs) <= size - 1 ->
  foldl bounded_snoc l cs = l ++ cs.
Proof.
  revert l. induction cs as [|c cs IH]; intros l Hl; cbn [foldl]; [by rewrite app_nil_r|].
  unfold bounded_snoc at 2. cbn [length] in Hl. rewrite (proj2 (Z.ltb_lt _ _)) by lia.
  rewrite IH by (rewrite length_app; cbn; lia). by rewrite <- app_assoc.
Qed.
End Queue.
