(* ===== verification/Input.v ===== *)
(** * Input devices (src/src/keyboard.c, mouse.c, serial.c, console.c)

    Each handler is a function from the driver's state and the bytes the
    device delivers to the new state (and what is echoed); reading blocks on a
    list of the interrupts that will arrive.  Typing and moving are shown to
    reach the reader unchanged. *)
From S2P Require Import Prelude Io Queue Interrupts.

(** ** Keyboard *)
Module Keyboard.

Definition SCANCODE_LSHIFT : Z := 42.
Definition SCANCODE_RSHIFT : Z := 54.
Definition KB_BUFFER_SIZE : Z := 256.

Definition scancode_ascii : list Z :=
  [0; 27; 49; 50; 51; 52; 53; 54; 55; 56; 57; 48; 45; 61; 8; 9;
   113; 119; 101; 114; 116; 121; 117; 105; 111; 112; 91; 93; 10; 0;
   97; 115; 100; 102; 103; 104; 106; 107; 108; 59; 39; 96; 0; 92;
   122; 120; 99; 118; 98; 110; 109; 44; 46; 47; 0; 42; 0; 32] ++ replicate 70 0.

Definition scancode_ascii_shift : list Z :=
  [0; 27; 33; 64; 35; 36; 37; 94; 38; 42; 40; 41; 95; 43; 8; 9;
   81; 87; 69; 82; 84; 89; 85; 73; 79; 80; 123; 125; 10; 0;
   65; 83; 68; 70; 71; 72; 74; 75; 76; 58; 34; 126; 0; 124;
   90; 88; 67; 86; 66; 78; 77; 60; 62; 63; 0; 42; 0; 32] ++ replicate 70 0.

Record keyboard := mk_keyboard { shift_held : bool; kb : queue Z }.

Definition keyboard_boot : keyboard := mk_keyboard false (queue_boot 0 KB_BUFFER_SIZE).

Definition kb_buffer_push (q : queue Z) (c : Z) : queue Z := queue_push KB_BUFFER_SIZE q c.

(** The handler, with the scancode read from the port; it returns the
    character echoed to the terminal, if any. *)
Definition keyboard_handler (s : keyboard) (scancode : Z) : keyboard * list Z :=
  let is_release := flag scancode 128 in
  let code := Z.land scancode 127 in
  if (code =? SCANCODE_LSHIFT) || (code =? SCANCODE_RSHIFT)
  then (mk_keyboard (negb is_release) (kb s), [])
  else if is_release then (s, [])
  else
    let c := byte_at (if shift_held s then scancode_ascii_shift else scancode_ascii) code in
    if negb (c =? 0) then (mk_keyboard (shift_held s) (kb_buffer_push (kb s) c), [c]) else (s, []).

Definition keyboard_has_char (s : keyboard) : bool := queue_has (kb s).

(** The read once a character waits. *)
Definition keyboard_take (s : keyboard) : Z * keyboard :=
  let '(c, q) := queue_pop 0 KB_BUFFER_SIZE (kb s) in (c, mk_keyboard (shift_held s) q).

(** The blocking read: every [hlt] lets one interrupt in. *)
Fixpoint keyboard_read_char (irqs : list Z) (s : keyboard) : option (Z * keyboard * list Z) :=
  if keyboard_has_char s then let '(c, s') := keyboard_take s in Some (c, s', irqs)
  else match irqs with
       | [] => None
       | sc :: rest => keyboard_read_char rest (keyboard_handler s sc).1
       end.

Definition keyboard_install (t : irq_table) : irq_table := irq_set_handler t 1 KeyboardHandler.

Definition keyboard_ok (s : keyboard) : Prop := queue_ok KB_BUFFER_SIZE (kb s).
Definition typed (s : keyboard) : list Z := contents 0 KB_BUFFER_SIZE (kb s).

Lemma kb_size_pos : 0 < KB_BUFFER_SIZE.
Proof. done. Qed.

(** ** Typing

    The keys of a character: press and release of its key, with the left
    shift key around them when the character needs it. *)
Definition key_of (table : list Z) (c : Z) : option Z :=
  (fun '(i, _) => Z.of_nat i) <$> list_find (fun x => x = c) table.

Definition keystrokes (c : Z) : option (list Z) :=
  match key_of scancode_ascii c with
  | Some k => Some [k; k + 128]
  | None =>
      match key_of scancode_ascii_shift c with
      | Some k => Some [SCANCODE_LSHIFT; k; k + 128; SCANCODE_LSHIFT + 128]
      | None => None
      end
  end.

Definition type_scancodes (s : keyboard) (l : list Z) : keyboard := foldl (fun s sc => (keyboard_handler s sc).1) s l.

(** The scancodes of a text, when every character has a key. *)
Fixpoint type_text (text : list Z) : option (list Z) :=
  match text with
  | [] => Some []
  | c :: rest =>
      match keystrokes c, type_text rest with
      | Some k, Some ks => Some (k ++ ks)
      | _, _ => None
      end
  end.

(** What one scancode means, apart from the queue. *)
Definition decode (shift : bool) (scancode : Z) : bool * list Z :=
  let code := Z.land scancode 127 in
  if (code =? SCANCODE_LSHIFT) || (code =? SCANCODE_RSHIFT) then (negb (flag scancode 128), [])
  else if flag scancode 128 then (shift, [])
  else
    let c := byte_at (if shift then scancode_ascii_shift else scancode_ascii) code in
    (shift, if negb (c =? 0) then [c] else []).

Fixpoint decode_all (shift : bool) (l : list Z) : bool * list Z :=
  match l with
  | [] => (shift, [])
  | sc :: rest =>
      let '(shift, cs) := decode shift sc in
      let '(shift, cs') := decode_all shift rest in (shift, cs ++ cs')
  end.

Lemma handler_decode s sc :
  keyboard_handler s sc =
    (mk_keyboard (decode (shift_held s) sc).1 (foldl kb_buffer_push (kb s) (decode (shift_held s) sc).2),
     (decode (shift_held s) sc).2).
Proof.
  unfold keyboard_handler, decode. destruct s as [h q]. cbn [shift_held kb].
  repeat (case_if; cbn [fst snd]; try done).
Qed.

Lemma decode_all_app shift l1 l2 :
  decode_all shift (l1 ++ l2) =
    ((decode_all (decode_all shift l1).1 l2).1,
     (decode_all shift l1).2 ++ (decode_all (decode_all shift l1).1 l2).2).
Proof.
  revert shift. induction l1 as [|sc l1 IH]; intros shift; cbn [app decode_all]; [by destruct (decode_all _ _)|].
  destruct (decode shift sc) as [sh cs]. rewrite IH. destruct (decode_all sh l1). cbn [fst snd].
  by rewrite app_assoc.
Qed.

(** Every character that has a key is what its keystrokes decode to. *)
Definition key_check (c : Z) : bool :=
  (c =? 0) || match keystrokes c with
              | Some ks => bool_decide (decode_all false ks = (false, [c]))
              | None => true
              end.

Lemma keystrokes_decode c ks : 1 <= c < 256 -> keystrokes c = Some ks -> decode_all false ks = (false, [c]).
Proof.
  intros Hc Hk. assert (H : key_check c = true).
  { apply forall_byte; [vm_compute; reflexivity|unfold is_byte; lia]. }
  unfold key_check in H. rewrite Hk in H. apply orb_prop in H as [H|H]; [zbool; lia|].
  by apply bool_decide_eq_true in H.
Qed.

Lemma type_text_decode text ks : c_string text -> type_text text = Some ks -> decode_all false ks = (false, text).
Proof.
  intros Hc. revert ks. induction Hc as [|c text Hc _ IH]; intros ks; cbn [type_text]; [by intros [= <-]|].
  destruct (keystrokes c) as [k|] eqn:Ek; [|done]. destruct (type_text text) as [ks'|]; [|done]. intros [= <-].
  rewrite decode_all_app, (keystrokes_decode c k Hc Ek). cbn [fst snd]. by rewrite IH.
Qed.

(** Typing ahead fills the queue with the decoded characters. *)
Lemma push_all_spec cs : forall q, queue_ok KB_BUFFER_SIZE q ->
  queue_ok KB_BUFFER_SIZE (foldl kb_buffer_push q cs) /\
  contents 0 KB_BUFFER_SIZE (foldl kb_buffer_push q cs)
    = foldl (bounded_snoc KB_BUFFER_SIZE) (contents 0 KB_BUFFER_SIZE q) cs.
Proof.
  induction cs as [|c cs IH]; intros q Hq; cbn [foldl]; [done|].
  destruct (queue_push_spec 0 KB_BUFFER_SIZE kb_size_pos q c Hq) as [Hok Hc].
  destruct (IH (kb_buffer_push q c) Hok) as [Hok' Hc']. split; [done|].
  rewrite Hc'. unfold kb_buffer_push. by rewrite Hc.
Qed.

Lemma type_scancodes_spec l : forall s, keyboard_ok s ->
  keyboard_ok (type_scancodes s l) /\ shift_held (type_scancodes s l) = (decode_all (shift_held s) l).1 /\
  typed (type_scancodes s l) = foldl (bounded_snoc KB_BUFFER_SIZE) (typed s) (decode_all (shift_held s) l).2.
Proof.
  unfold type_scancodes, keyboard_ok, typed. induction l as [|sc l IH]; intros s Hs; cbn [foldl decode_all]; [done|].
  rewrite (handler_decode s sc). cbn [fst].
  destruct (push_all_spec (decode (shift_held s) sc).2 (kb s) Hs) as [Hok Hc].
  set (s1 := mk_keyboard _ _). destruct (IH s1 Hok) as (H1 & H2 & H3). unfold s1 in *. cbn [kb shift_held] in *.
  destruct (decode (shift_held s) sc) as [sh cs]. cbn [fst snd] in *. destruct (decode_all sh l) as [sh' cs'].
  cbn [fst snd] in *. split; [done|]. split; [done|]. by rewrite H3, Hc, foldl_app.
Qed.

(** Reading while the keys arrive. *)
Fixpoint read_chars (n : nat) (irqs : list Z) (s : keyboard) : option (list Z * keyboard * list Z) :=
  match n with
  | O => Some ([], s, irqs)
  | S n' =>
      match keyboard_read_char irqs s with
      | Some (c, s', irqs') =>
          match read_chars n' irqs' s' with
          | Some (cs, s'', irqs'') => Some (c :: cs, s'', irqs'')
          | None => None
          end
      | None => None
      end
  end.

(** What the reader will still see: the queue and then the keys to come. *)
Definition upcoming (s : keyboard) (irqs : list Z) : list Z := typed s ++ (decode_all (shift_held s) irqs).2.

Lemma decode_short sh sc : (length (decode sh sc).2 <= 1)%nat.
Proof. unfold decode. repeat case_if; cbn; lia. Qed.

Lemma read_char_spec irqs : forall s c rest, keyboard_ok s -> upcoming s irqs = c :: rest ->
  exists s' irqs', keyboard_read_char irqs s = Some (c, s', irqs') /\ keyboard_ok s' /\ upcoming s' irqs' = rest.
Proof.
  unfold upcoming, typed, keyboard_ok.
  induction irqs as [|sc irqs IH]; intros s c rest Hs Hu; cbn [keyboard_read_char]; unfold keyboard_has_char;
    rewrite (queue_has_spec 0 _ kb_size_pos _ Hs).
  - cbn [decode_all snd] in Hu. rewrite app_nil_r in Hu. rewrite Hu. cbn [bool_decide decide list_eq_nil_dec].
    unfold keyboard_take. destruct (queue_pop_spec 0 _ kb_size_pos _ c rest Hs Hu) as (<- & Hok & Hr).
    destruct (queue_pop _ _ _) as [x q]. exists (mk_keyboard (shift_held s) q), []. cbn in *.
    split; [done|]. split; [done|]. by rewrite app_nil_r.
  - destruct (contents 0 KB_BUFFER_SIZE (kb s)) as [|x l] eqn:Ec.
    + cbn [bool_decide decide list_eq_nil_dec negb]. rewrite (handler_decode s sc). cbn [fst].
      cbn [app decode_all] in Hu.
      destruct (push_all_spec (decode (shift_held s) sc).2 (kb s) Hs) as [Hok Hc].
      rewrite Ec in Hc. rewrite bounded_snoc_fold in Hc by
        (pose proof (decode_short (shift_held s) sc); unfold KB_BUFFER_SIZE; cbn [length]; lia).
      apply IH; cbn [kb shift_held]; [done|]. rewrite Hc.
      destruct (decode (shift_held s) sc) as [sh cs]. cbn [fst snd]. by destruct (decode_all sh irqs).
    + cbn [bool_decide decide list_eq_nil_dec negb]. cbn [app] in Hu. injection Hu as -> <-.
      unfold keyboard_take. destruct (queue_pop_spec 0 _ kb_size_pos _ c l Hs Ec) as (<- & Hok & Hr).
      destruct (queue_pop _ _ _) as [x q]. exists (mk_keyboard (shift_held s) q), (sc :: irqs). cbn [fst snd] in *.
      split; [done|]. split; [done|]. cbn [kb shift_held]. by rewrite Hr.
Qed.

Lemma read_chars_spec cs : forall s irqs rest, keyboard_ok s -> upcoming s irqs = cs ++ rest ->
  exists s' irqs', read_chars (length cs) irqs s = Some (cs, s', irqs') /\ upcoming s' irqs' = rest.
Proof.
  induction cs as [|c cs IH]; intros s irqs rest Hs Hu; cbn [length read_chars]; [eauto|].
  destruct (read_char_spec irqs s c (cs ++ rest) Hs Hu) as (s1 & irqs1 & -> & Hok & Hu1).
  destruct (IH s1 irqs1 rest Hok Hu1) as (s2 & irqs2 & -> & Hu2). eauto.
Qed.

(** What is typed is what is read.  The keystrokes of any text (press and
    release of each key, with shift where the layout needs it) arriving as
    interrupts leave the text in the queue when at most 255 characters wait;
    and a reader that keeps reading while they arrive gets the whole text,
    however long it is. *)
Theorem keyboard_typing text ks :
  c_string text -> type_text text = Some ks ->
  ((length text <= 255)%nat -> typed (type_scancodes keyboard_boot ks) = text) /\
  (exists s irqs, read_chars (length text) ks keyboard_boot = Some (text, s, irqs)).
Proof.
  intros Hc Hk. pose proof (type_text_decode text ks Hc Hk) as Hd.
  destruct (queue_boot_ok 0 KB_BUFFER_SIZE kb_size_pos) as [Hok Hnil]. split.
  - intros Hl. destruct (type_scancodes_spec ks keyboard_boot Hok) as (_ & _ & ->).
    cbn [shift_held keyboard_boot]. rewrite Hd. unfold typed. cbn [kb keyboard_boot snd]. rewrite Hnil.
    rewrite bounded_snoc_fold; [done|]. unfold KB_BUFFER_SIZE. cbn [length]. lia.
  - destruct (read_chars_spec text keyboard_boot ks [] Hok) as (s & irqs & Hr & _); [|eauto].
    unfold upcoming, typed. cbn [kb shift_held keyboard_boot]. by rewrite Hnil, Hd, app_nil_r.
Qed.

Lemma keyboard_typing_witness :
  typed (type_scancodes keyboard_boot [42; 35; 163; 170; 23; 151; 57; 185; 42; 2; 130; 170]) = [72; 105; 32; 33].
Proof.
  apply (keyboard_typing [72; 105; 32; 33]);
    [unfold c_string; repeat (constructor; [lia|]); constructor|vm_compute; reflexivity|cbn; lia].
Defined.

(** Releasing one shift key while the other is held ends the shift: pressing
    both, releasing the left one and typing a letter gives the small letter. *)
Example two_shift_keys :
  typed (type_scancodes keyboard_boot [54; 42; 170; 30; 158]) = [97].
Proof. vm_compute. reflexivity. Qed.
End Keyboard.

(** ** Mouse *)
Module Mouse.

Definition MOUSE_BUFFER_SIZE : Z := 64.
Definition PS2_DATA_PORT : Z := 96.
Definition PS2_STATUS_PORT : Z := 100.
Definition PS2_COMMAND_PORT : Z := 100.
Definition PS2_STATUS_OUTPUT_FULL : Z := 1.
Definition PS2_STATUS_INPUT_FULL : Z := 2.

Record mouse_packet := mk_move { dx : Z; dy : Z; left_button : Z; right_button : Z; middle_button : Z }.
Definition no_move : mouse_packet := mk_move 0 0 0 0 0.

#[export] Instance mouse_packet_eq_dec : EqDecision mouse_packet.
Proof. solve_decision. Defined.

Record mouse := mk_mouse { packet_bytes : list Z; packet_index : Z; mouse_queue : queue mouse_packet }.

Definition mouse_boot : mouse := mk_mouse [0; 0; 0] 0 (queue_boot no_move MOUSE_BUFFER_SIZE).

Definition mouse_buffer_push (q : queue mouse_packet) (p : mouse_packet) : queue mouse_packet :=
  queue_push MOUSE_BUFFER_SIZE q p.

(** The packet made of three bytes. *)
Definition decode_packet (bytes : list Z) : mouse_packet :=
  let flags := byte_at bytes 0 in
  mk_move
    (if flag flags 64 then 0 else if flag flags 16 then byte_at bytes 1 - 256 else byte_at bytes 1)
    (if flag flags 128 then 0 else if flag flags 32 then byte_at bytes 2 - 256 else byte_at bytes 2)
    (Z.land flags 1) (if flag flags 2 then 1 else 0) (if flag flags 4 then 1 else 0).

Definition mouse_handler (s : mouse) (data : Z) : mouse :=
  if (packet_index s =? 0) && negb (flag data 8) then s
  else
    let bytes := <[Z.to_nat (packet_index s) := data]> (packet_bytes s) in
    let index := packet_index s + 1 in
    if index <? 3 then mk_mouse bytes index (mouse_queue s)
    else mk_mouse bytes 0 (mouse_buffer_push (mouse_queue s) (decode_packet bytes)).

Definition mouse_has_packet (s : mouse) : bool := queue_has (mouse_queue s).

Fixpoint mouse_read_packet (irqs : list Z) (s : mouse) : option (mouse_packet * mouse * list Z) :=
  if mouse_has_packet s then
    let '(p, q) := queue_pop no_move MOUSE_BUFFER_SIZE (mouse_queue s) in
    Some (p, mk_mouse (packet_bytes s) (packet_index s) q, irqs)
  else match irqs with
       | [] => None
       | b :: rest => mouse_read_packet rest (mouse_handler s b)
       end.

Section Install.
Context {D : Type} `{Ports D} (fuel : nat).

Definition ps2_wait_output : io D unit :=
  io_while fuel (let* s := in8 PS2_STATUS_PORT in io_ret (negb (flag s PS2_STATUS_OUTPUT_FULL))).
Definition ps2_wait_input : io D unit :=
  io_while fuel (let* s := in8 PS2_STATUS_PORT in io_ret (flag s PS2_STATUS_INPUT_FULL)).
Definition ps2_write_command (cmd : Z) : io D unit :=
  let* _ := ps2_wait_input in out8 PS2_COMMAND_PORT cmd.
Definition ps2_write_data (data : Z) : io D unit :=
  let* _ := ps2_wait_input in out8 PS2_DATA_PORT data.
Definition ps2_read_data : io D Z :=
  let* _ := ps2_wait_output in in8 PS2_DATA_PORT.
Definition mouse_send_command (cmd : Z) : io D unit :=
  let* _ := ps2_write_command 212 in
  let* _ := ps2_write_data cmd in
  let* _ := ps2_read_data in io_ret tt.

Definition mouse_install (t : irq_table) : io D (list tty * irq_table) :=
  let* _ := ps2_write_command 168 in
  let* _ := ps2_write_command 32 in
  let* config := ps2_read_data in
  let config := u8 (Z.land config (Z.lnot 32)) in
  let* _ := ps2_write_command 96 in
  let* _ := ps2_write_data config in
  let* _ := mouse_send_command 246 in
  let* _ := mouse_send_command 244 in
  let t := irq_set_handler t 12 MouseHandler in
  let* _ := ps2_write_command 32 in
  let* config := ps2_read_data in
  let config := Z.lor config 2 in
  let* _ := ps2_write_command 96 in
  let* _ := ps2_write_data config in
  let* _ := pic_unmask_irq 12 in
  io_ret ([TLn "Mouse: PS/2 mouse initialized"], t).
End Install.

(** ** Movements on the wire *)
Definition encode_move (p : mouse_packet) : list Z :=
  [8 + left_button p + 2 * right_button p + 4 * middle_button p
     + (if dx p <? 0 then 16 else 0) + (if dy p <? 0 then 32 else 0);
   dx p mod 256; dy p mod 256].

Definition is_bit (b : Z) : Prop := b = 0 \/ b = 1.
Definition move_ok (p : mouse_packet) : Prop :=
  -256 <= dx p < 256 /\ -256 <= dy p < 256 /\
  is_bit (left_button p) /\ is_bit (right_button p) /\ is_bit (middle_button p).

(** Evaluates the tests of closed flag words. *)
Ltac compute_flags :=
  repeat match goal with
  | |- context [flag ?a ?b] => let v := eval vm_compute in (flag a b) in change (flag a b) with v
  | |- context [Z.land ?a ?b] => let v := eval vm_compute in (Z.land a b) in change (Z.land a b) with v
  end; cbv iota.

Lemma packet_decode_encode p : move_ok p -> decode_packet (encode_move p) = p /\ flag (byte_at (encode_move p) 0) 8 = true.
Proof.
  destruct p as [x y l r m]. unfold move_ok, is_bit. cbn [dx dy left_button right_button middle_button].
  intros (Hx & Hy & Hl & Hr & Hm). unfold encode_move, decode_packet.
  cbn [dx dy left_button right_button middle_button].
  change (byte_at [?a; ?b; ?c] 0) with a. change (byte_at [?a; ?b; ?c] 1) with b. change (byte_at [?a; ?b; ?c] 2) with c.
  destruct (Z.ltb_spec x 0), (Z.ltb_spec y 0), Hl as [-> | ->], Hr as [-> | ->], Hm as [-> | ->];
    (split; [|reflexivity]); compute_flags; f_equal; dlia.
Qed.

Definition feed (s : mouse) (l : list Z) : mouse := foldl mouse_handler s l.
Definition moves (s : mouse) : list mouse_packet := contents no_move MOUSE_BUFFER_SIZE (mouse_queue s).

Lemma feed_app s l1 l2 : feed s (l1 ++ l2) = feed (feed s l1) l2.
Proof. apply foldl_app. Qed.

(** Between packets, with a sound queue. *)
Definition synced (s : mouse) : Prop :=
  length (packet_bytes s) = 3%nat /\ packet_index s = 0 /\ queue_ok MOUSE_BUFFER_SIZE (mouse_queue s).

Lemma mouse_size_pos : 0 < MOUSE_BUFFER_SIZE.
Proof. done. Qed.

(** Bytes that cannot start a packet are dropped until the stream is in step. *)
Lemma feed_junk junk s : packet_index s = 0 -> Forall (fun b => flag b 8 = false) junk -> feed s junk = s.
Proof.
  intros Hi. induction 1 as [|b junk Hb _ IH]; [done|]. cbn [feed foldl].
  unfold mouse_handler at 2. rewrite Hi, Hb. exact IH.
Qed.

Lemma feed_packet s p : synced s -> move_ok p ->
  synced (feed s (encode_move p)) /\
  moves (feed s (encode_move p)) = bounded_snoc MOUSE_BUFFER_SIZE (moves s) p.
Proof.
  intros (Hl & Hi & Hq) Hp. destruct (packet_decode_encode p Hp) as [Hd Hf].
  destruct s as [bytes index q]. cbn [packet_bytes packet_index mouse_queue] in *. subst index.
  do 3 (destruct bytes as [|? bytes]; [done|]). destruct bytes; [|done].
  unfold encode_move in *. set (f := 8 + _ + _ + _ + _ + _) in *.
  assert (Hf' : flag f 8 = true) by exact Hf. unfold feed. cbn [foldl].
  assert (H1 : forall a b c, mouse_handler (mk_mouse [a; b; c] 0 q) f = mk_mouse [f; b; c] 1 q)
    by (intros; unfold mouse_handler; cbn [packet_index]; by rewrite Hf').
  assert (H2 : forall a b c x, mouse_handler (mk_mouse [a; b; c] 1 q) x = mk_mouse [a; x; c] 2 q) by done.
  assert (H3 : forall a b c x, mouse_handler (mk_mouse [a; b; c] 2 q) x =
    mk_mouse [a; b; x] 0 (mouse_buffer_push q (decode_packet [a; b; x]))) by done.
  rewrite H1, H2, H3, Hd. unfold synced, moves, mouse_buffer_push. cbn [packet_index packet_bytes mouse_queue].
  destruct (queue_push_spec no_move MOUSE_BUFFER_SIZE mouse_size_pos q p Hq) as [Hok Hc]. done.
Qed.

Lemma feed_packets ps : forall s, synced s -> Forall move_ok ps ->
  synced (feed s (mjoin (map encode_move ps))) /\
  moves (feed s (mjoin (map encode_move ps))) = foldl (bounded_snoc MOUSE_BUFFER_SIZE) (moves s) ps.
Proof.
  induction ps as [|p ps IH]; intros s Hs Hp; [done|]. apply Forall_cons_1 in Hp as [Hp Hps].
  cbn [map]. rewrite join_cons, feed_app.
  destruct (feed_packet s p Hs Hp) as [Hs' Hm]. destruct (IH _ Hs' Hps) as [H1 H2].
  split; [exact H1|]. rewrite H2. cbn [foldl]. by rewrite Hm.
Qed.

(** Movements reach the reader as they were made: after any bytes that
    cannot start a packet, the three-byte packets of up to 63 movements leave
    exactly those movements in the queue, in order, with displacements of both
    signs and the three buttons. *)
Theorem mouse_stream junk ps :
  Forall (fun b => flag b 8 = false) junk -> Forall move_ok ps -> (length ps <= 63)%nat ->
  moves (feed mouse_boot (junk ++ mjoin (map encode_move ps))) = ps.
Proof.
  intros Hj Hp Hl. destruct (queue_boot_ok no_move MOUSE_BUFFER_SIZE mouse_size_pos) as [Hok Hnil].
  rewrite feed_app, (feed_junk junk mouse_boot) by done.
  assert (Hs : synced mouse_boot) by (split; [done|split; [done|exact Hok]]). destruct (feed_packets ps mouse_boot Hs Hp) as [_ Hm].
  rewrite Hm. unfold moves. cbn [mouse_queue mouse_boot]. rewrite Hnil.
  rewrite bounded_snoc_fold; [done|]. unfold MOUSE_BUFFER_SIZE. cbn [length]. lia.
Qed.

Lemma mouse_stream_witness :
  moves (feed mouse_boot ([0; 7] ++ mjoin (map encode_move [mk_move 5 (-3) 1 0 0; mk_move (-256) 255 0 1 1])))
  = [mk_move 5 (-3) 1 0 0; mk_move (-256) 255 0 1 1].
Proof.
  apply mouse_stream.
  - repeat constructor.
  - repeat (apply Forall_cons; split; [unfold move_ok, is_bit; cbn; lia|]). constructor.
  - cbn. lia.
Defined.
End Mouse.

(** ** Serial port *)
Module Serial.

Definition COM1 : Z := 1016.
Definition SERIAL_RX_BUFFER_SIZE : Z := 256.

Definition serial_boot : queue Z := queue_boot 0 SERIAL_RX_BUFFER_SIZE.
Definition serial_rx_push (q : queue Z) (c : Z) : queue Z := queue_push SERIAL_RX_BUFFER_SIZE q c.

(** The handler drains the bytes the UART holds, echoing each one. *)
Fixpoint serial_handler (q : queue Z) (fifo : list Z) : queue Z * list Z :=
  match fifo with
  | [] => (q, [])
  | c :: rest => let '(q', echo) := serial_handler (serial_rx_push q c) rest in (q', c :: echo)
  end.

Definition serial_has_char (q : queue Z) : bool := queue_has q.

Fixpoint serial_read_char (irqs : list (list Z)) (q : queue Z) : option (Z * queue Z * list (list Z)) :=
  if serial_has_char q then let '(c, q') := queue_pop 0 SERIAL_RX_BUFFER_SIZE q in Some (c, q', irqs)
  else match irqs with
       | [] => None
       | fifo :: rest => serial_read_char rest (serial_handler q fifo).1
       end.

Section Driver.
Context {D : Type} `{Ports D}.

Definition serial_init (t : irq_table) : io D irq_table :=
  let* _ := out8 (COM1 + 1) 0 in
  let* _ := out8 (COM1 + 3) 128 in
  let* _ := out8 (COM1 + 0) 3 in
  let* _ := out8 (COM1 + 1) 0 in
  let* _ := out8 (COM1 + 3) 3 in
  let* _ := out8 (COM1 + 2) 199 in
  let* _ := out8 (COM1 + 4) 11 in
  let t := irq_set_handler t 4 SerialHandler in
  let* _ := pic_unmask_irq 4 in
  let* _ := out8 (COM1 + 1) 1 in
  io_ret t.

Definition transmit_empty : io D bool := let* s := in8 (COM1 + 5) in io_ret (flag s 32).

Definition serial_raw_putchar (fuel : nat) (c : Z) : io D unit :=
  let* _ := io_while fuel (let* b := transmit_empty in io_ret (negb b)) in out8 COM1 (u8 c).

Definition serial_putchar (fuel : nat) (c : Z) : io D unit :=
  let* _ := (if c =? 10 then serial_raw_putchar fuel 13 else io_ret tt) in
  serial_raw_putchar fuel c.

Fixpoint serial_writestring (fuel : nat) (s : list Z) : io D unit :=
  match s with
  | [] => io_ret tt
  | c :: rest => let* _ := serial_putchar fuel c in serial_writestring fuel rest
  end.
End Driver.

(** What the transmitter relies on: the line status shows the holding register
    empty after at most [uart_bound] reads, and a byte written then goes out. *)
Class Uart (D : Type) `{Ports D} := {
  uart_sent : D -> list Z;
  uart_busy : D -> nat;
  uart_bound : nat;
  uart_status d :
    uart_sent (inb d (COM1 + 5)).2 = uart_sent d /\
    flag (inb d (COM1 + 5)).1 32 = (match uart_busy d with O => true | S _ => false end) /\
    uart_busy (inb d (COM1 + 5)).2 = Nat.pred (uart_busy d);
  uart_data d v : uart_busy d = O ->
    uart_sent (outb d COM1 v) = uart_sent d ++ [v] /\ (uart_busy (outb d COM1 v) <= uart_bound)%nat }.

(** The characters on the line: a carriage return before every line feed. *)
Definition crlf (c : Z) : list Z := if c =? 10 then [13; 10] else [c].

Section Transmit.
Context {D : Type} `{HP : Ports D} `{!Uart D} (fuel : nat).
Implicit Types d : D.

Lemma raw_putchar_spec d c : is_byte c -> (uart_busy d < fuel)%nat ->
  wp (serial_raw_putchar fuel c) d (fun _ d' =>
    uart_sent d' = uart_sent d ++ [c] /\ (uart_busy d' <= uart_bound)%nat).
Proof.
  intros Hc Hb. unfold serial_raw_putchar. io_step. eapply wp_mono.
  - apply (wp_while _ uart_busy (fun d' => uart_sent d' = uart_sent d)
      (fun d' => uart_sent d' = uart_sent d /\ uart_busy d' = O)); [|done|done].
    intros d' Hd'. unfold transmit_empty. repeat io_step. destruct (uart_status d') as (Hs & -> & Hn).
    destruct (uart_busy d') as [|n]; cbn [negb]; rewrite Hs, Hn; cbn; auto with lia.
  - intros [] d' [Hs Hn]. io_step. rewrite (u8_small c) by done.
    destruct (uart_data d' c Hn) as [-> ?]. by rewrite Hs.
Qed.

Lemma putchar_spec d c : is_byte c -> (uart_busy d < fuel)%nat -> (uart_bound < fuel)%nat ->
  wp (serial_putchar fuel c) d (fun _ d' =>
    uart_sent d' = uart_sent d ++ crlf c /\ (uart_busy d' <= uart_bound)%nat).
Proof.
  intros Hc Hb Hf. unfold serial_putchar, crlf. io_step. case_if.
  - eapply wp_mono; [apply raw_putchar_spec; [unfold is_byte; lia|done]|]. intros [] d1 [H1 Hb1]. cbn beta in *.
    eapply wp_mono; [apply raw_putchar_spec; [done|lia]|]. intros [] d2 [H2 Hb2].
    rewrite H2, H1, <- app_assoc, Hif. done.
  - io_step. by apply raw_putchar_spec.
Qed.

Lemma writestring_spec s : forall d, Forall is_byte s -> (uart_busy d < fuel)%nat -> (uart_bound < fuel)%nat ->
  wp (serial_writestring fuel s) d (fun _ d' =>
    uart_sent d' = uart_sent d ++ mjoin (map crlf s) /\ (uart_busy d' < fuel)%nat).
Proof.
  induction s as [|c s IH]; intros d Hs Hb Hf; cbn [serial_writestring].
  { io_step. by rewrite app_nil_r. }
  apply Forall_cons_1 in Hs as [Hc Hs]. io_step. eapply wp_mono; [by apply putchar_spec|].
  intros [] d1 [H1 Hb1]. eapply wp_mono; [apply IH; [done|lia|done]|]. intros [] d2 [H2 Hb2].
  cbn [map]. rewrite join_cons, H2, H1, <- app_assoc. done.
Qed.
End Transmit.
End Serial.

(** ** Console *)
Module Console.
Import Keyboard Serial.

(** The interrupts that matter to a reader. *)
Inductive event := KeyEvent (scancode : Z) | UartEvent (fifo : list Z) | OtherEvent.

Record input := mk_input { ikeyboard : keyboard; iserial : queue Z }.
Definition input_boot : input := mk_input keyboard_boot serial_boot.

Definition input_handle (s : input) (e : event) : input :=
  match e with
  | KeyEvent sc => mk_input (keyboard_handler (ikeyboard s) sc).1 (iserial s)
  | UartEvent fifo => mk_input (ikeyboard s) (serial_handler (iserial s) fifo).1
  | OtherEvent => s
  end.

(** The keyboard is looked at first when both have input. *)
Fixpoint console_read_char (irqs : list event) (s : input) : option (Z * input * list event) :=
  if keyboard_has_char (ikeyboard s) then
    let '(c, k) := keyboard_take (ikeyboard s) in Some (c, mk_input k (iserial s), irqs)
  else if serial_has_char (iserial s) then
    let '(c, q) := queue_pop 0 SERIAL_RX_BUFFER_SIZE (iserial s) in Some (c, mk_input (ikeyboard s) q, irqs)
  else match irqs with
       | [] => None
       | e :: rest => console_read_char rest (input_handle s e)
       end.

Fixpoint console_reads (n : nat) (irqs : list event) (s : input) : option (list Z * input * list event) :=
  match n with
  | O => Some ([], s, irqs)
  | S n' =>
      match console_read_char irqs s with
      | Some (c, s', irqs') =>
          match console_reads n' irqs' s' with
          | Some (cs, s'', irqs'') => Some (c :: cs, s'', irqs'')
          | None => None
          end
      | None => None
      end
  end.

(** What each source will still deliver: its queue, then its interrupts. *)
Definition scancodes (irqs : list event) : list Z :=
  mjoin (map (fun e => match e with KeyEvent sc => [sc] | _ => [] end) irqs).
Definition fifos (irqs : list event) : list Z :=
  mjoin (map (fun e => match e with UartEvent f => f | _ => [] end) irqs).
Definition key_stream (s : input) (irqs : list event) : list Z := upcoming (ikeyboard s) (scancodes irqs).
Definition serial_stream (s : input) (irqs : list event) : list Z :=
  contents 0 SERIAL_RX_BUFFER_SIZE (iserial s) ++ fifos irqs.

Definition input_ok (s : input) : Prop :=
  keyboard_ok (ikeyboard s) /\ queue_ok SERIAL_RX_BUFFER_SIZE (iserial s).

(** The UART delivers no more than the queue holds in one interrupt (its FIFO
    has sixteen bytes). *)
Definition small_fifos (irqs : list event) : Prop :=
  Forall (fun e => match e with UartEvent f => (length f <= 255)%nat | _ => True end) irqs.

Inductive interleaving : list Z -> list Z -> list Z -> Prop :=
| int_nil : interleaving [] [] []
| int_left x a b c : interleaving a b c -> interleaving (x :: a) b (x :: c)
| int_right x a b c : interleaving a b c -> interleaving a (x :: b) (x :: c).

Lemma serial_size_pos : 0 < SERIAL_RX_BUFFER_SIZE.
Proof. done. Qed.

Lemma serial_handler_spec fifo : forall q, queue_ok SERIAL_RX_BUFFER_SIZE q ->
  queue_ok SERIAL_RX_BUFFER_SIZE (serial_handler q fifo).1 /\
  contents 0 SERIAL_RX_BUFFER_SIZE (serial_handler q fifo).1
    = foldl (bounded_snoc SERIAL_RX_BUFFER_SIZE) (contents 0 SERIAL_RX_BUFFER_SIZE q) fifo.
Proof.
  induction fifo as [|c fifo IH]; intros q Hq; cbn [serial_handler foldl]; [done|].
  destruct (queue_push_spec 0 _ serial_size_pos q c Hq) as [Hok Hc].
  destruct (IH _ Hok) as [H1 H2]. unfold serial_rx_push in *. destruct (serial_handler _ _). cbn [fst] in *.
  by rewrite H2, Hc.
Qed.

(** An interrupt that arrives while both queues are empty loses nothing. *)
Lemma input_handle_streams s e irqs : input_ok s -> small_fifos (e :: irqs) ->
  typed (ikeyboard s) = [] -> contents 0 SERIAL_RX_BUFFER_SIZE (iserial s) = [] ->
  input_ok (input_handle s e) /\
  key_stream (input_handle s e) irqs = key_stream s (e :: irqs) /\
  serial_stream (input_handle s e) irqs = serial_stream s (e :: irqs).
Proof.
  intros [Hk Hs] Hf Ht Hc. apply Forall_cons_1 in Hf as [Hf _].
  unfold key_stream, serial_stream, upcoming, input_ok.
  destruct e as [sc|fifo|]; cbn [input_handle ikeyboard iserial]; [| |done].
  - destruct (type_scancodes_spec [sc] (ikeyboard s) Hk) as (Hk' & Hsh & Ht').
    unfold type_scancodes in *. cbn [foldl] in *. split; [done|]. split; [|done].
    rewrite Ht', Hsh, Ht. change (scancodes (KeyEvent sc :: irqs)) with ([sc] ++ scancodes irqs).
    rewrite decode_all_app. cbn [snd app]. f_equal. rewrite bounded_snoc_fold; [done|].
    cbn [decode_all length]. pose proof (decode_short (shift_held (ikeyboard s)) sc) as Hd.
    destruct (decode (shift_held (ikeyboard s)) sc) as [sh cs]. cbn [snd] in *. rewrite app_nil_r.
    unfold KB_BUFFER_SIZE. lia.
  - destruct (serial_handler_spec fifo (iserial s) Hs) as [Hs' Hc']. split; [done|]. split; [done|].
    rewrite Hc', Hc. change (fifos (UartEvent fifo :: irqs)) with (fifo ++ fifos irqs).
    rewrite bounded_snoc_fold; [done|]. unfold SERIAL_RX_BUFFER_SIZE. cbn [length]. lia.
Qed.

(** One read takes the next character of one of the two streams. *)
Lemma console_read_char_spec irqs : forall s c s' irqs', input_ok s -> small_fifos irqs ->
  console_read_char irqs s = Some (c, s', irqs') ->
  input_ok s' /\ small_fifos irqs' /\
  ((key_stream s irqs = c :: key_stream s' irqs' /\ serial_stream s irqs = serial_stream s' irqs') \/
   (key_stream s irqs = key_stream s' irqs' /\ serial_stream s irqs = c :: serial_stream s' irqs')).
Proof.
  induction irqs as [|e irqs IH]; intros s c s' irqs' [Hk Hs] Hf; cbn [console_read_char];
    unfold keyboard_has_char, serial_has_char;
    rewrite (queue_has_spec 0 _ kb_size_pos _ Hk), (queue_has_spec 0 _ serial_size_pos _ Hs);
    destruct (contents 0 KB_BUFFER_SIZE (kb (ikeyboard s))) as [|x l] eqn:Ek;
    try (destruct (contents 0 SERIAL_RX_BUFFER_SIZE (iserial s)) as [|y m] eqn:Es);
    cbn [bool_decide decide list_eq_nil_dec negb]; unfold keyboard_take;
    try (destruct (queue_pop_spec 0 _ kb_size_pos _ x l Hk Ek) as (Hp & Hok & Hr);
         destruct (queue_pop 0 KB_BUFFER_SIZE (kb (ikeyboard s))) as [z q]; cbn [fst snd] in *; subst z;
         intros [= <- <- <-]; split; [by split|]; split; [done|]; left;
         unfold key_stream, upcoming, typed; cbn [ikeyboard kb shift_held]; by rewrite Ek, Hr);
    try (destruct (queue_pop_spec 0 _ serial_size_pos _ y m Hs Es) as (Hp & Hok & Hr);
         destruct (queue_pop 0 SERIAL_RX_BUFFER_SIZE (iserial s)) as [z q]; cbn [fst snd] in *; subst z;
         intros [= <- <- <-]; split; [by split|]; split; [done|]; right;
         unfold serial_stream; cbn [iserial]; by rewrite Es, Hr).
  - done.
  - intros Hr. destruct (input_handle_streams s e irqs) as (Hok & Hks & Hss); [by split|done|done|done|].
    apply IH in Hr; [|done|by apply Forall_cons_1 in Hf as [_ ?]]. by rewrite Hks, Hss in Hr.
Qed.

(** The console loses nothing and keeps the order of each source: the
    characters returned by successive reads, while keyboard and serial
    interrupts arrive, are an interleaving of the next characters of the two
    streams, and what is left of the streams is still to come. *)
Theorem console_lossless n : forall irqs s cs s' irqs',
  input_ok s -> small_fifos irqs -> console_reads n irqs s = Some (cs, s', irqs') ->
  exists ks ss, interleaving ks ss cs /\ length cs = n /\
    key_stream s irqs = ks ++ key_stream s' irqs' /\ serial_stream s irqs = ss ++ serial_stream s' irqs'.
Proof.
  induction n as [|n IH]; intros irqs s cs s' irqs' Hok Hf; cbn [console_reads].
  { intros [= <- <- <-]. exists [], []. repeat split. constructor. }
  destruct (console_read_char irqs s) as [[[c s1] irqs1]|] eqn:E; [|done].
  destruct (console_reads n irqs1 s1) as [[[cs1 s2] irqs2]|] eqn:E'; [|done]. intros [= <- <- <-].
  destruct (console_read_char_spec irqs s c s1 irqs1 Hok Hf E) as (Hok1 & Hf1 & Hc).
  destruct (IH _ _ _ _ _ Hok1 Hf1 E') as (ks & ss & Hi & Hl & Hks & Hss).
  destruct Hc as [[Hk Hs]|[Hk Hs]]; rewrite Hk, Hs, Hks, Hss.
  - exists (c :: ks), ss. split; [by constructor|]. cbn. by rewrite Hl.
  - exists ks, (c :: ss). split; [by constructor|]. cbn. by rewrite Hl.
Qed.

Definition sample_events : list event := [KeyEvent 35; KeyEvent 163; UartEvent [111; 107]; OtherEvent; KeyEvent 28].
Definition reads_of (n : nat) : option (list Z) :=
  match console_reads n sample_events input_boot with Some (cs, _, _) => Some cs | None => None end.

Lemma console_lossless_witness :
  exists s' irqs', console_reads 3 sample_events input_boot = Some ([104; 111; 107], s', irqs') /\
  exists ks ss, interleaving ks ss [104; 111; 107] /\
    [104; 10] = ks ++ key_stream s' irqs' /\ [111; 107] = ss ++ serial_stream s' irqs'.
Proof.
  assert (Hok : input_ok input_boot).
  { split; [apply (queue_boot_ok 0 _ kb_size_pos)|apply (queue_boot_ok 0 _ serial_size_pos)]. }
  assert (Hf : small_fifos sample_events) by (unfold small_fifos, sample_events; repeat constructor; cbn; lia).
  destruct (console_reads 3 sample_events input_boot) as [[[cs s'] irqs']|] eqn:E; [|by vm_compute in E].
  assert (Hcs : reads_of 3 = Some cs) by (unfold reads_of; by rewrite E). vm_compute in Hcs. injection Hcs as <-.
  destruct (console_lossless 3 sample_events input_boot _ s' irqs' Hok Hf E) as (ks & ss & Hi & _ & Hk & Hs).
  exists s', irqs'. split; [done|]. exists ks, ss. split; [done|]. split; [exact Hk|exact Hs].
Defined.
End Console.
