(* ===== verification/Terminal.v ===== *)
(** * The VGA text terminal (src/src/terminal.c)

    The text memory with its cursor, scrolling, the mirroring of every
    character to the serial port, number printing and positioned text.  The
    screen is shown to be the last twenty-five rows of everything written. *)
From S2P Require Import Prelude Io Interrupts Input.
Import Input.Serial.

Definition VGA_WIDTH : Z := 80.
Definition VGA_HEIGHT : Z := 25.
Definition VGA_COLOR : Z := 3840.

Record vga := mk_vga { video_memory : list Z; cursor_row : Z; cursor_col : Z }.

(** A character as the compiler widens it: [char] is signed. *)
Definition s8 (c : Z) : Z := if c <? 128 then c else c - 256.
Definition cell (c : Z) : Z := Z.lor (u16 (s8 c)) VGA_COLOR.

Definition terminal_put_entry_at (mem : list Z) (c col row : Z) : list Z :=
  <[Z.to_nat (row * VGA_WIDTH + col) := cell c]> mem.

Definition terminal_scroll (v : vga) : vga :=
  let mem :=
    foldl (fun mem row =>
      foldl (fun mem col =>
        <[Z.to_nat ((row - 1) * VGA_WIDTH + col) := byte_at mem (row * VGA_WIDTH + col)]> mem)
      mem (seqZ 0 VGA_WIDTH)) (video_memory v) (seqZ 1 (VGA_HEIGHT - 1)) in
  let mem := foldl (fun mem col => terminal_put_entry_at mem 32 col (VGA_HEIGHT - 1)) mem (seqZ 0 VGA_WIDTH) in
  mk_vga mem (VGA_HEIGHT - 1) (cursor_col v).

Definition terminal_initialize (v : vga) : vga :=
  let mem :=
    foldl (fun mem row => foldl (fun mem col => terminal_put_entry_at mem 32 col row) mem (seqZ 0 VGA_WIDTH))
      (video_memory v) (seqZ 0 VGA_HEIGHT) in
  mk_vga mem 0 0.

(** The part of [terminal_putchar] that updates the screen. *)
Definition vga_putchar (v : vga) (c : Z) : vga :=
  let v :=
    if c =? 10 then mk_vga (video_memory v) (cursor_row v + 1) 0
    else if c =? 8 then
      let '(row, col) :=
        if cursor_col v >? 0 then (cursor_row v, cursor_col v - 1)
        else if cursor_row v >? 0 then (cursor_row v - 1, VGA_WIDTH - 1)
        else (cursor_row v, cursor_col v) in
      mk_vga (terminal_put_entry_at (video_memory v) 32 col row) row col
    else mk_vga (terminal_put_entry_at (video_memory v) c (cursor_col v) (cursor_row v)) (cursor_row v) (cursor_col v + 1) in
  let v := if cursor_col v >=? VGA_WIDTH then mk_vga (video_memory v) (cursor_row v + 1) 0 else v in
  if cursor_row v >=? VGA_HEIGHT then terminal_scroll v else v.

Section Output.
Context {D : Type} `{Ports D} (fuel : nat).

Definition terminal_putchar (v : vga) (c : Z) : io D vga :=
  let* _ := serial_putchar fuel c in io_ret (vga_putchar v c).

Fixpoint terminal_writestring (v : vga) (s : list Z) : io D vga :=
  match s with
  | [] => io_ret v
  | c :: rest => let* v := terminal_putchar v c in terminal_writestring v rest
  end.
End Output.

(** ** Numbers *)
Definition hex_char (d : Z) : Z := if d <? 10 then 48 + d else 55 + d.

(** The characters printed for a value: the loop over the shifts 28, 24 .. 0. *)
Definition hex_text (value : Z) : list Z :=
  [48; 120] ++ map (fun i => hex_char (Z.land (Z.shiftr value i) 15)) [28; 24; 20; 16; 12; 8; 4; 0].

(** The ten-character buffer filled from the least significant digit. *)
Fixpoint dec_buffer (fuel : nat) (value : Z) : list Z :=
  match fuel with
  | O => []
  | S fuel' => if value >? 0 then (48 + value mod 10) :: dec_buffer fuel' (value / 10) else []
  end.
Definition dec_text (value : Z) : list Z :=
  if value =? 0 then [48] else reverse (dec_buffer 32 value).

Section Numbers.
Context {D : Type} `{Ports D} (fuel : nat).
Definition terminal_print_hex (v : vga) (value : Z) : io D vga := terminal_writestring fuel v (hex_text value).
Definition terminal_print_dec (v : vga) (value : Z) : io D vga := terminal_writestring fuel v (dec_text value).
End Numbers.

(** ** Positioned text *)
Fixpoint draw_loop (mem : list Z) (row col : Z) (text : list Z) (attr : Z) : list Z :=
  match text with
  | [] => mem
  | x :: rest =>
      let mem :=
        if (col <? 0) || (col >=? VGA_WIDTH) then mem
        else <[Z.to_nat (row * VGA_WIDTH + col) := Z.lor (u8 x) (u16 (Z.shiftl attr 8))]> mem in
      draw_loop mem row (col + 1) rest attr
  end.

(** [text] is the first [len] characters the caller points at (none when [len]
    is negative). *)
Definition terminal_draw_text (v : vga) (row col : Z) (text : list Z) (attr : Z) : vga :=
  if (row <? 0) || (row >=? VGA_HEIGHT) then v
  else mk_vga (draw_loop (video_memory v) row col text attr) (cursor_row v) (cursor_col v).

(** ** The loops over the screen *)
Lemma foldl_nested {A B C} (f : A -> C -> A) (g : B -> list C) (l : list B) : forall a,
  foldl (fun a b => foldl f a (g b)) a l = foldl f a (mjoin (map g l)).
Proof.
  induction l as [|b l IH]; intros a; [done|]. cbn [foldl map]. by rewrite join_cons, foldl_app, IH.
Qed.

Definition screen_index (row col : Z) : Z := row * VGA_WIDTH + col.

(** Copying every cell one row up. *)
Definition copy_up (mem : list Z) (i : Z) : list Z := <[Z.to_nat (i - 80) := byte_at mem i]> mem.

Lemma copy_up_spec mem n : length mem = 2000%nat -> (n <= 1920)%nat ->
  foldl copy_up mem (seqZ 80 (Z.of_nat n)) = take n (drop 80 mem) ++ drop n mem.
Proof.
  intros Hl. induction n as [|n IH]; intros Hn; [done|].
  rewrite seqZ_S, foldl_app, IH by lia. cbn [foldl]. unfold copy_up.
  assert (Hi : byte_at (take n (drop 80 mem) ++ drop n mem) (80 + Z.of_nat n) = byte_at mem (80 + Z.of_nat n)).
  { unfold byte_at. replace (Z.to_nat (80 + Z.of_nat n)) with (80 + n)%nat by lia.
    rewrite lookup_app_r by (rewrite length_take, length_drop; lia).
    rewrite length_take, length_drop, lookup_drop. do 2 f_equal. lia. }
  rewrite Hi. unfold byte_at. replace (Z.to_nat (80 + Z.of_nat n - 80)) with n by lia.
  replace (Z.to_nat (80 + Z.of_nat n)) with (80 + n)%nat by lia.
  destruct (lookup_lt_is_Some_2 mem (80 + n)) as [x Hx]; [lia|]. rewrite Hx. cbn [default from_option id].
  assert (Hd : drop 80 mem !! n = Some x) by (by rewrite lookup_drop).
  rewrite (take_S_r _ _ _ Hd), <- app_assoc.
  destruct (lookup_lt_is_Some_2 mem n) as [y Hy]; [lia|].
  rewrite (drop_S mem y n Hy). cbn [app].
  rewrite insert_app_r_alt by (rewrite length_take, length_drop; lia).
  rewrite length_take, length_drop. replace (n - n `min` (length mem - 80))%nat with O by lia. done.
Qed.

(** Filling a range of cells. *)
Lemma fill_spec x mem a n : (a + n <= length mem)%nat ->
  foldl (fun m i => <[Z.to_nat i := x]> m) mem (seqZ (Z.of_nat a) (Z.of_nat n))
    = splice mem a (replicate n x).
Proof.
  induction n as [|n IH]; intros Hn.
  { cbn. unfold splice. cbn [length app]. rewrite Nat.add_0_r. by rewrite take_drop. }
  rewrite seqZ_S, foldl_app, IH by lia. cbn [foldl].
  replace (Z.to_nat (Z.of_nat a + Z.of_nat n)) with (a + n)%nat by lia.
  unfold splice. rewrite !length_replicate, replicate_S_end.
  destruct (lookup_lt_is_Some_2 mem (a + n)) as [y Hy]; [lia|]. rewrite (drop_S mem y (a + n) Hy).
  rewrite insert_app_r_alt by (rewrite length_take; lia). f_equal.
  rewrite insert_app_r_alt by (rewrite length_replicate, length_take; lia).
  rewrite length_replicate, length_take. replace (a + n - a `min` length mem - n)%nat with O by lia.
  cbn [insert list_insert]. rewrite <- app_assoc. cbn [app]. do 3 f_equal. lia.
Qed.

Definition blank : Z := cell 32.
Definition blank_row : list Z := replicate 80 blank.

Lemma foldl_ext {A B} (f g : A -> B -> A) l : (forall a b, f a b = g a b) -> forall a, foldl f a l = foldl g a l.
Proof. intros H. induction l as [|b l IH]; intros a; cbn; [done|]. by rewrite H. Qed.

Lemma foldl_map {A B C} (f : A -> C -> A) (g : B -> C) l : forall a,
  foldl (fun a b => f a (g b)) a l = foldl f a (map g l).
Proof. induction l as [|b l IH]; intros a; cbn; [done|]. apply IH. Qed.

Lemma rows_below :
  mjoin (map (fun row => map (screen_index row) (seqZ 0 VGA_WIDTH)) (seqZ 1 (VGA_HEIGHT - 1))) = seqZ 80 (Z.of_nat 1920).
Proof. vm_compute. reflexivity. Qed.
Lemma rows_all :
  mjoin (map (fun row => map (screen_index row) (seqZ 0 VGA_WIDTH)) (seqZ 0 VGA_HEIGHT)) = seqZ (Z.of_nat 0) (Z.of_nat 2000).
Proof. vm_compute. reflexivity. Qed.

Lemma scroll_spec v : length (video_memory v) = 2000%nat ->
  terminal_scroll v = mk_vga (drop 80 (video_memory v) ++ blank_row) 24 (cursor_col v).
Proof.
  intros Hl. unfold terminal_scroll. f_equal.
  assert (E1 : foldl (fun mem row => foldl (fun mem col =>
      <[Z.to_nat ((row - 1) * VGA_WIDTH + col) := byte_at mem (row * VGA_WIDTH + col)]> mem)
      mem (seqZ 0 VGA_WIDTH)) (video_memory v) (seqZ 1 (VGA_HEIGHT - 1))
    = drop 80 (video_memory v) ++ drop 1920 (video_memory v)).
  { transitivity (foldl copy_up (video_memory v) (seqZ 80 (Z.of_nat 1920))).
    - transitivity (foldl copy_up (video_memory v)
        (mjoin (map (fun row => map (screen_index row) (seqZ 0 VGA_WIDTH)) (seqZ 1 (VGA_HEIGHT - 1))))).
      + rewrite <- foldl_nested. apply foldl_ext. intros m row. rewrite <- foldl_map. apply foldl_ext.
        intros m' col. unfold copy_up, screen_index, VGA_WIDTH. do 2 f_equal. lia.
      + by rewrite rows_below.
    - rewrite copy_up_spec by (done || lia). rewrite take_ge by (rewrite length_drop; lia). done. }
  rewrite E1. clear E1. set (m := _ ++ _). assert (Hm : length m = 2000%nat).
  { unfold m. rewrite length_app, !length_drop, Hl. done. }
  transitivity (foldl (fun m i => <[Z.to_nat i := blank]> m) m (seqZ (Z.of_nat 1920) (Z.of_nat 80))).
  - replace (seqZ (Z.of_nat 1920) (Z.of_nat 80)) with (map (screen_index 24) (seqZ 0 80)) by (vm_compute; reflexivity).
    rewrite <- foldl_map. done.
  - rewrite fill_spec by lia. unfold splice, blank_row. rewrite length_replicate.
    rewrite (drop_ge m) by lia. rewrite app_nil_r. f_equal. unfold m.
    rewrite take_app_le by (rewrite length_drop; lia). apply take_ge. rewrite length_drop. lia.
Qed.

Lemma initialize_spec v : length (video_memory v) = 2000%nat ->
  terminal_initialize v = mk_vga (replicate 2000 blank) 0 0.
Proof.
  intros Hl. unfold terminal_initialize. f_equal.
  transitivity (foldl (fun m i => <[Z.to_nat i := blank]> m) (video_memory v) (seqZ (Z.of_nat 0) (Z.of_nat 2000))).
  - transitivity (foldl (fun m i => <[Z.to_nat i := blank]> m) (video_memory v)
      (mjoin (map (fun row => map (screen_index row) (seqZ 0 VGA_WIDTH)) (seqZ 0 VGA_HEIGHT)))).
    + rewrite <- foldl_nested. apply foldl_ext. intros m row. by rewrite <- foldl_map.
    + by rewrite rows_all.
  - rewrite fill_spec by lia. unfold splice. rewrite length_replicate. cbn [take app].
    rewrite (drop_ge (video_memory v)) by lia. by rewrite app_nil_r.
Qed.

(** ** The invariant: the cursor is on the screen *)
Record vga_ok (v : vga) : Prop := {
  vga_size : length (video_memory v) = 2000%nat;
  vga_row : 0 <= cursor_row v < VGA_HEIGHT;
  vga_col : 0 <= cursor_col v < VGA_WIDTH }.

Lemma putchar_ok v c : vga_ok v -> vga_ok (vga_putchar v c).
Proof.
  intros [Hl Hr Hc]. unfold vga_putchar, VGA_WIDTH, VGA_HEIGHT in *.
  set (v1 := if c =? 10 then _ else _).
  assert (H1 : length (video_memory v1) = 2000%nat /\ 0 <= cursor_row v1 <= 25 /\ 0 <= cursor_col v1 <= 80 /\
    (cursor_row v1 = 25 -> cursor_col v1 = 0)).
  { unfold v1. case_if; [cbn; lia|]. case_if; [|cbn; unfold terminal_put_entry_at; rewrite length_insert; lia].
    destruct (Z.gtb_spec (cursor_col v) 0), (Z.gtb_spec (cursor_row v) 0); cbn; unfold terminal_put_entry_at;
      rewrite length_insert; unfold VGA_WIDTH; lia. }
  clearbody v1. destruct H1 as (Hl1 & Hr1 & Hc1 & Hrc).
  set (v2 := if cursor_col v1 >=? 80 then _ else _).
  assert (H2 : length (video_memory v2) = 2000%nat /\ 0 <= cursor_row v2 <= 25 /\ 0 <= cursor_col v2 < 80).
  { unfold v2. rewrite Z.geb_leb. case_if; cbn; lia. }
  clearbody v2. destruct H2 as (Hl2 & Hr2 & Hc2). rewrite Z.geb_leb. case_if.
  - rewrite scroll_spec by done. split; cbn; [|unfold VGA_HEIGHT; lia|unfold VGA_WIDTH; lia].
    rewrite length_app, length_drop, Hl2. done.
  - split; cbn; unfold VGA_HEIGHT, VGA_WIDTH; lia.
Qed.

(** ** Everything written, as rows

    The reference: an endless list of rows of eighty cells and the row being
    written.  The screen shows the last twenty-five of them, and blank rows
    below while there are fewer. *)
Record paper := mk_paper { full_rows : list (list Z); current : list Z }.

Definition paper_start : paper := mk_paper [] [].

Definition padded (row : list Z) : list Z := row ++ replicate (80 - length row) blank.

Definition paper_put (p : paper) (c : Z) : paper :=
  if c =? 10 then mk_paper (full_rows p ++ [padded (current p)]) []
  else
    let row := current p ++ [cell c] in
    if (length row =? 80)%nat then mk_paper (full_rows p ++ [row]) [] else mk_paper (full_rows p) row.

Definition all_rows (p : paper) : list (list Z) := full_rows p ++ [padded (current p)].

(** The rows on the screen. *)
Definition visible (p : paper) : list (list Z) := drop (length (all_rows p) - 25) (all_rows p).
Definition screen_rows (rows : list (list Z)) : list (list Z) := rows ++ replicate (25 - length rows) blank_row.

Record shows (v : vga) (p : paper) : Prop := {
  shows_full : Forall (fun r => length r = 80%nat) (full_rows p);
  shows_current : (length (current p) < 80)%nat;
  shows_mem : video_memory v = mjoin (screen_rows (visible p));
  shows_row : cursor_row v = Z.of_nat (length (visible p)) - 1;
  shows_col : cursor_col v = Z.of_nat (length (current p)) }.

Lemma padded_length row : (length row <= 80)%nat -> length (padded row) = 80%nat.
Proof. intros H. unfold padded. rewrite length_app, length_replicate. lia. Qed.

Lemma all_rows_length p : length (all_rows p) = S (length (full_rows p)).
Proof. unfold all_rows. rewrite length_app. cbn. lia. Qed.

Lemma visible_length p : length (visible p) = Nat.min 25 (S (length (full_rows p))).
Proof. unfold visible. rewrite length_drop, all_rows_length. lia. Qed.

(** The visible part ends with the current row. *)
Lemma visible_snoc p : visible p = drop (S (length (full_rows p)) - 25) (full_rows p) ++ [padded (current p)].
Proof.
  unfold visible. rewrite all_rows_length. unfold all_rows. by rewrite drop_app_le by lia.
Qed.

Lemma screen_rows_uniform p : Forall (fun r => length r = 80%nat) (full_rows p) -> (length (current p) <= 80)%nat ->
  Forall (fun r => length r = 80%nat) (screen_rows (visible p)).
Proof.
  intros Hf Hc. unfold screen_rows. rewrite visible_snoc. rewrite !Forall_app. split_and!.
  - by apply Forall_drop.
  - constructor; [by apply padded_length|constructor].
  - apply Forall_replicate. apply length_replicate.
Qed.

(** Starting a new row: the screen gains it, or scrolls to make room. *)
Lemma next_row_shows v p row :
  Forall (fun r => length r = 80%nat) (full_rows p) -> length row = 80%nat ->
  length (video_memory v) = 2000%nat ->
  video_memory v = mjoin (screen_rows (drop (S (length (full_rows p)) - 25) (full_rows p) ++ [row])) ->
  cursor_row v = Z.of_nat (Nat.min 25 (S (length (full_rows p)))) -> cursor_col v = 0 ->
  shows (if cursor_row v >=? VGA_HEIGHT then terminal_scroll v else v) (mk_paper (full_rows p ++ [row]) []).
Proof.
  intros Hf Hrow Hl Hm Hr Hc. set (n := length (full_rows p)) in *.
  assert (Hf' : Forall (fun r => length r = 80%nat) (full_rows p ++ [row])).
  { apply Forall_app. split; [done|]. by repeat constructor. }
  assert (Hpad : padded [] = blank_row) by reflexivity.
  rewrite Z.geb_leb. unfold VGA_HEIGHT. destruct (Z.leb_spec 25 (cursor_row v)).
  - rewrite scroll_spec by done.
    assert (Hn : (24 <= n)%nat) by lia. split; cbn [full_rows current video_memory cursor_row cursor_col].
    + done.
    + cbn. lia.
    + rewrite Hm, visible_snoc. cbn [full_rows current]. rewrite length_app. cbn [length].
      unfold screen_rows. rewrite !length_app, !length_drop, length_app. cbn [length]. fold n.
      replace (25 - (n - (S n - 25) + 1))%nat with O by lia.
      replace (25 - (n + 1 - (S (n + 1) - 25) + 1))%nat with O by lia. cbn [replicate]. rewrite !app_nil_r.
      destruct (drop (S n - 25) (full_rows p)) as [|r0 rs] eqn:Ed.
      { apply (f_equal length) in Ed. rewrite length_drop in Ed. fold n in Ed. cbn in Ed. lia. }
      assert (length r0 = 80%nat) as Hr0.
      { assert (Hin : Forall (fun r => length r = 80%nat) (drop (S n - 25) (full_rows p))) by (by apply Forall_drop).
        rewrite Ed in Hin. by apply Forall_cons_1 in Hin as [? _]. }
      rewrite Hpad. cbn [app]. rewrite join_cons, drop_app_length' by done.
      rewrite !join_app. cbn [mjoin list_join]. rewrite !app_nil_r. f_equal.
      replace (S (n + 1) - 25)%nat with (S (S n - 25)) by lia.
      rewrite drop_app_le by (fold n; lia). rewrite join_app. cbn [mjoin list_join]. rewrite app_nil_r. f_equal.
      replace (S (S n - 25)) with ((S n - 25) + 1)%nat by lia. rewrite <- drop_drop, Ed. done.
    + rewrite visible_length. cbn [full_rows]. rewrite length_app. cbn [length]. fold n. lia.
    + done.
  - assert (Hn : (S n < 25)%nat) by lia. split; cbn [full_rows current].
    + done.
    + cbn. lia.
    + rewrite Hm, visible_snoc. cbn [full_rows current]. rewrite length_app. cbn [length]. fold n.
      replace (S n - 25)%nat with O by lia. replace (S (n + 1) - 25)%nat with O by lia. rewrite !drop_0, Hpad.
      unfold screen_rows. rewrite !length_app. cbn [length]. fold n.
      replace (25 - (n + 1))%nat with (S (25 - (n + 1 + 1))) by lia. cbn [replicate].
      by rewrite <- !app_assoc.
    + rewrite visible_length. cbn [full_rows]. rewrite length_app. cbn [length]. fold n. lia.
    + done.
Qed.

(** Writing a cell in the current row. *)
Lemma put_current v p x : shows v p ->
  <[Z.to_nat (cursor_row v * VGA_WIDTH + cursor_col v) := x]> (video_memory v)
    = mjoin (screen_rows (drop (S (length (full_rows p)) - 25) (full_rows p) ++ [padded (current p ++ [x])])).
Proof.
  intros [Hf Hc Hm Hr Hcol]. rewrite Hr, Hcol, Hm. set (m := length (current p)) in *.
  assert (Hins : forall (l : list Z) i y, (i < length l)%nat -> <[i := y]> l = splice l i [y]).
  { intros l i y Hi. unfold splice. cbn [length]. rewrite insert_take_drop by done. by replace (i + 1)%nat with (S i) by lia. }
  set (k := (length (visible p) - 1)%nat).
  assert (Hv : (0 < length (visible p) <= 25)%nat) by (rewrite visible_length; lia).
  assert (Hu : Forall (fun r => length r = 80%nat) (screen_rows (visible p))) by (apply screen_rows_uniform; [done|lia]).
  assert (Hpos : Z.to_nat ((Z.of_nat (length (visible p)) - 1) * VGA_WIDTH + Z.of_nat m) = (k * 80 + m)%nat)
    by (unfold VGA_WIDTH, k; lia).
  assert (Hk : k = length (drop (S (length (full_rows p)) - 25) (full_rows p))).
  { unfold k. rewrite visible_length, length_drop. lia. }
  assert (Hat : screen_rows (visible p) !! k = Some (padded (current p))).
  { unfold screen_rows. rewrite visible_snoc, <- app_assoc. rewrite lookup_app_r by lia.
    rewrite Hk, Nat.sub_diag. done. }
  rewrite Hpos, Hins.
  2:{ rewrite (length_mjoin_uniform _ 80) by done. unfold screen_rows. rewrite length_app, length_replicate. lia. }
  rewrite <- (mjoin_insert_splice _ 80 k (padded (current p)) m [x] Hu Hat) by (cbn [length]; lia).
  f_equal. unfold screen_rows at 1. rewrite visible_snoc, <- app_assoc.
  rewrite insert_app_r_alt by lia. rewrite Hk, Nat.sub_diag. cbn [app insert list_insert].
  unfold screen_rows. rewrite !length_app. cbn [length]. rewrite <- app_assoc. do 2 f_equal.
  unfold splice, padded. cbn [app length]. rewrite take_app_length' by done. rewrite !length_app. cbn [length]. fold m.
  rewrite <- app_assoc, drop_app_ge by lia. fold m. rewrite drop_replicate. cbn [app].
  by replace (80 - m - (m + 1 - m))%nat with (80 - (m + 1))%nat by lia.
Qed.

Lemma putchar_shows v p c : c <> 8 -> vga_ok v -> shows v p -> shows (vga_putchar v c) (paper_put p c).
Proof.
  intros Hc8 [Hl Hvr Hvc] Hs. pose proof Hs as [Hf Hc Hm Hr Hcol]. unfold vga_putchar, paper_put.
  rewrite (proj2 (Z.eqb_neq c 8) Hc8). rewrite visible_length in Hr.
  destruct (Z.eqb_spec c 10).
  - cbn [cursor_col cursor_row video_memory]. change (0 >=? VGA_WIDTH) with false. cbv iota.
    apply (next_row_shows (mk_vga (video_memory v) (cursor_row v + 1) 0) p).
    + done.
    + apply padded_length. lia.
    + done.
    + cbn [video_memory]. rewrite Hm, visible_snoc. done.
    + cbn [cursor_row]. lia.
    + done.
  - cbn [cursor_col cursor_row video_memory]. unfold terminal_put_entry_at.
    pose proof (put_current v p (cell c) Hs) as Hput. rewrite length_app. cbn [length].
    destruct (Z.geb_spec (cursor_col v + 1) VGA_WIDTH) as [Hw|Hw]; unfold VGA_WIDTH in Hw.
    + rewrite (proj2 (Nat.eqb_eq _ _)) by lia. cbn [cursor_row video_memory].
      apply (next_row_shows (mk_vga _ (cursor_row v + 1) 0) p).
      * done.
      * rewrite length_app. cbn. lia.
      * cbn [video_memory]. by rewrite length_insert.
      * cbn [video_memory]. rewrite Hput. do 4 f_equal. unfold padded. rewrite length_app. cbn [length].
        replace (80 - (length (current p) + 1))%nat with O by lia. cbn [replicate]. by rewrite app_nil_r.
      * cbn [cursor_row]. lia.
      * done.
    + rewrite (proj2 (Nat.eqb_neq _ _)) by lia. cbn [cursor_row]. rewrite Z.geb_leb.
      rewrite (proj2 (Z.leb_gt VGA_HEIGHT (cursor_row v))) by lia.
      split; cbn [full_rows current video_memory cursor_row cursor_col].
      * done.
      * rewrite length_app. cbn. lia.
      * rewrite Hput. by rewrite visible_snoc.
      * rewrite visible_length. cbn [full_rows]. lia.
      * rewrite length_app. cbn. lia.
Qed.

(** ** Writing a string *)
Definition paper_write (p : paper) (s : list Z) : paper := foldl paper_put p s.

Lemma shows_ok v p : shows v p -> vga_ok v.
Proof.
  intros [Hf Hc Hm Hr Hcol]. split.
  - rewrite Hm, (length_mjoin_uniform _ 80).
    + unfold screen_rows. rewrite length_app, length_replicate, visible_length. lia.
    + apply screen_rows_uniform; [done|lia].
  - rewrite Hr, visible_length. unfold VGA_HEIGHT. lia.
  - unfold VGA_WIDTH. lia.
Qed.

Lemma initialize_shows v : length (video_memory v) = 2000%nat -> shows (terminal_initialize v) paper_start.
Proof.
  intros Hl. rewrite initialize_spec by done. split; cbn [full_rows current paper_start video_memory cursor_row cursor_col].
  - constructor.
  - cbn. lia.
  - vm_compute. reflexivity.
  - rewrite visible_length. cbn. lia.
  - done.
Qed.

Section Writing.
Context {D : Type} `{HP : Ports D} `{!Uart D} (fuel : nat).

(** C33: The screen is the tail of everything written: after the terminal is
    cleared and any text without backspaces is printed, the video memory holds
    exactly the last twenty-five rows of the text laid out in rows of eighty
    cells (long lines wrap, short rows and unused rows are blank), the cursor
    stands behind the last character, and the serial line has received the
    same text with carriage returns added. *)
Theorem terminal_shows_text s (v : vga) (d : D) :
  length (video_memory v) = 2000%nat -> Forall is_byte s -> ~ 8 ∈ s ->
  (uart_busy d < fuel)%nat -> (uart_bound < fuel)%nat ->
  wp (terminal_writestring fuel (terminal_initialize v) s) d (fun v' d' =>
    shows v' (paper_write paper_start s) /\ uart_sent d' = uart_sent d ++ mjoin (map crlf s)).
Proof.
  intros Hl Hs H8 Hb Hf. assert (Hg : forall s v p (d : D), shows v p -> Forall is_byte s -> ~ 8 ∈ s ->
    (uart_busy d < fuel)%nat -> wp (terminal_writestring fuel v s) d (fun v' d' =>
      shows v' (paper_write p s) /\ uart_sent d' = uart_sent d ++ mjoin (map crlf s))).
  { clear s v d Hl Hs H8 Hb. intros s. induction s as [|c s IH]; intros v p d Hv Hs H8 Hb; cbn [terminal_writestring].
    { io_step. split; [done|]. by rewrite app_nil_r. }
    apply Forall_cons_1 in Hs as [Hc Hs]. rewrite elem_of_cons in H8.
    io_step. unfold terminal_putchar. io_step. eapply wp_mono; [by apply putchar_spec|]. intros [] d1 [H1 Hb1].
    io_step. eapply wp_mono; [apply (IH _ (paper_put p c))|].
    - apply putchar_shows; [naive_solver|by eapply shows_ok|done].
    - done.
    - naive_solver.
    - lia.
    - intros v' d2 [Hsh Hse]. split; [done|]. cbn [map]. by rewrite join_cons, Hse, H1, <- app_assoc. }
  apply Hg; [by apply initialize_shows|done..].
Qed.

(** Whatever is written, backspaces included, the cursor stays on the screen
    and no write leaves the video memory. *)
Lemma terminal_cursor_ok s : forall (v : vga) (d : D), vga_ok v -> Forall is_byte s ->
  (uart_busy d < fuel)%nat -> (uart_bound < fuel)%nat ->
  wp (terminal_writestring fuel v s) d (fun v' _ => vga_ok v').
Proof.
  induction s as [|c s IH]; intros v d Hv Hs Hb Hf; cbn [terminal_writestring]; [by io_step|].
  apply Forall_cons_1 in Hs as [Hc Hs]. io_step. unfold terminal_putchar.
  io_step. eapply wp_mono; [by apply putchar_spec|]. intros [] d1 [_ Hb1].
  io_step. apply IH; [by apply putchar_ok|done|lia|done].
Qed.
End Writing.

(** ** Numbers *)
Definition digit_value (c : Z) : Z := if c <? 58 then c - 48 else c - 55.
Definition read_digits (radix : Z) (s : list Z) : Z := foldl (fun n c => radix * n + digit_value c) 0 s.

Lemma dec_buffer_spec fuel : forall n, 0 <= n < 10 ^ Z.of_nat fuel ->
  read_digits 10 (reverse (dec_buffer fuel n)) = n /\
  Forall (fun c => 48 <= c < 58) (dec_buffer fuel n) /\
  (0 < n -> last (dec_buffer fuel n) <> Some 48).
Proof.
  induction fuel as [|fuel IH]; intros n Hn; cbn [dec_buffer].
  { cbn in Hn. split; [cbn; lia|]. split; [constructor|lia]. }
  rewrite Z.gtb_ltb. destruct (Z.ltb_spec 0 n); [|split; [cbn; lia|]; split; [constructor|lia]].
  assert (Hd : 0 <= n / 10 < 10 ^ Z.of_nat fuel).
  { rewrite Nat2Z.inj_succ, Z.pow_succ_r in Hn by lia. dlia. }
  destruct (IH (n / 10) Hd) as (Hr & Hf & Hlast). split; [|split].
  - rewrite reverse_cons. unfold read_digits in *. rewrite foldl_app, Hr. cbn [foldl].
    unfold digit_value. assert (0 <= n mod 10 < 10) by dlia.
    rewrite (proj2 (Z.ltb_lt _ 58)) by lia. dlia.
  - constructor; [dlia|done].
  - intros _. destruct (decide (n / 10 = 0)) as [E|E].
    + destruct fuel as [|f]; cbn [dec_buffer]; rewrite ?E; cbn [last Z.gtb Z.compare]; intros [= E']; dlia.
    + destruct (dec_buffer fuel (n / 10)) as [|y l] eqn:El; [by specialize (Hlast ltac:(lia))|].
      cbn [last]. apply Hlast. lia.
Qed.

Lemma dec_buffer_length fuel : forall n k, 0 <= n < 10 ^ Z.of_nat k -> (length (dec_buffer fuel n) <= k)%nat.
Proof.
  induction fuel as [|fuel IH]; intros n k Hn; cbn [dec_buffer]; [cbn; lia|].
  rewrite Z.gtb_ltb. destruct (Z.ltb_spec 0 n); [|cbn; lia].
  destruct k as [|k]; [cbn in Hn; lia|]. cbn [length]. apply le_n_S, IH.
  rewrite Nat2Z.inj_succ, Z.pow_succ_r in Hn by lia. dlia.
Qed.

(** Numbers print as themselves: the decimal text of a 32-bit value
    consists of at most ten digits (the buffer's size), has no leading zero
    except for zero itself, and reads back as the value; the hexadecimal text
    is [0x] and eight digits that read back as the value. *)
Theorem print_numbers n : is_u32 n ->
  read_digits 10 (dec_text n) = n /\ Forall (fun c => 48 <= c < 58) (dec_text n) /\
  (1 <= length (dec_text n) <= 10)%nat /\ (0 < n -> head (dec_text n) <> Some 48) /\
  exists ds, hex_text n = [48; 120] ++ ds /\ length ds = 8%nat /\ read_digits 16 ds = n.
Proof.
  intros Hn. unfold is_u32 in Hn. assert (Hdec : read_digits 10 (dec_text n) = n /\ Forall (fun c => 48 <= c < 58) (dec_text n) /\
    (1 <= length (dec_text n) <= 10)%nat /\ (0 < n -> head (dec_text n) <> Some 48)).
  { unfold dec_text. destruct (Z.eqb_spec n 0) as [->|Hne].
    { split; [done|]. split; [repeat constructor; lia|]. cbn. lia. }
    destruct (dec_buffer_spec 32 n) as (Hr & Hf & Hl); [split; [lia|]; change (10 ^ Z.of_nat 32) with
      100000000000000000000000000000000; lia|].
    split; [done|]. split; [by apply Forall_reverse|]. split.
    - rewrite length_reverse. split.
      + assert (dec_buffer 32 n <> []) as Hnn.
        { intros E. rewrite E in Hr. cbn in Hr. lia. }
        destruct (dec_buffer 32 n); [done|]. cbn. lia.
      + apply dec_buffer_length. change (10 ^ Z.of_nat 10) with 10000000000. lia.
    - intros Hp. rewrite head_reverse. by apply Hl. }
  destruct Hdec as (H1 & H2 & H3 & H4). split_and!; try done; try lia.
  eexists. split; [reflexivity|]. split; [done|].
  cbn [map]. unfold read_digits. cbn [foldl].
  assert (Hd : forall i, 0 <= i -> digit_value (hex_char (Z.land (Z.shiftr n i) 15)) = n / 2 ^ i mod 16).
  { intros i Hi. rewrite (Z.land_ones _ 4), Z.shiftr_div_pow2 by lia. change (2 ^ 4) with 16.
    assert (0 <= n / 2 ^ i mod 16 < 16) by dlia. unfold digit_value, hex_char. repeat case_if; lia. }
  rewrite !Hd by lia. change (2 ^ 28) with 268435456. change (2 ^ 24) with 16777216. change (2 ^ 20) with 1048576.
  change (2 ^ 16) with 65536. change (2 ^ 12) with 4096. change (2 ^ 8) with 256. change (2 ^ 4) with 16.
  change (2 ^ 0) with 1. dlia.
Qed.

(** ** Positioned text *)
Lemma draw_loop_spec text : forall mem row col attr i,
  length mem = 2000%nat -> 0 <= row < 25 -> 0 <= i < 2000 ->
  draw_loop mem row col text attr !! Z.to_nat i =
    if (i / 80 =? row) && (col <=? i mod 80) && (i mod 80 <? col + Z.of_nat (length text))
    then Some (Z.lor (u8 (byte_at text (i mod 80 - col))) (u16 (Z.shiftl attr 8)))
    else mem !! Z.to_nat i.
Proof.
  induction text as [|x text IH]; intros mem row col attr i Hl Hr Hi; cbn [draw_loop].
  { destruct (Z.leb_spec col (i mod 80)), (Z.ltb_spec (i mod 80) (col + Z.of_nat (length (@nil Z))));
      cbn [length] in *; rewrite ?andb_false_r; try done. lia. }
  set (mem' := if _ || _ then _ else _).
  assert (Hl' : length mem' = 2000%nat) by (unfold mem'; case_if; [done|by rewrite length_insert]).
  rewrite IH by done. unfold VGA_WIDTH in *.
  destruct (decide (i / 80 = row /\ i mod 80 = col)) as [[Hrow Hcol]|Hne].
  - rewrite (proj2 (Z.eqb_eq _ _) Hrow). rewrite (proj2 (Z.leb_gt (col + 1) (i mod 80))) by lia. cbn [andb].
    rewrite (proj2 (Z.leb_le col (i mod 80))), (proj2 (Z.ltb_lt (i mod 80) (col + Z.of_nat (length (x :: text)))))
      by (cbn [length]; lia). cbn [andb].
    unfold mem'. assert (Hin : (col <? 0) || (col >=? 80) = false).
    { apply orb_false_iff. rewrite Z.ltb_ge, Z.geb_leb, Z.leb_gt. dlia. }
    rewrite Hin. replace (Z.to_nat (row * 80 + col)) with (Z.to_nat i) by (f_equal; dlia).
    rewrite list_lookup_insert_eq by lia. replace (i mod 80 - col) with 0 by lia. done.
  - assert (Hmem : mem' !! Z.to_nat i = mem !! Z.to_nat i).
    { unfold mem'. case_if; [done|].
      apply list_lookup_insert_ne. intros E. apply Hne. assert (i = row * 80 + col) as -> by lia. split; dlia. }
    rewrite Hmem. cbn [length].
    destruct (Z.eqb_spec (i / 80) row), (Z.leb_spec (col + 1) (i mod 80)), (Z.leb_spec col (i mod 80)),
      (Z.ltb_spec (i mod 80) (col + 1 + Z.of_nat (length text))),
      (Z.ltb_spec (i mod 80) (col + Z.of_nat (S (length text)))); cbn [andb]; try done; try lia.
    unfold byte_at. replace (Z.to_nat (i mod 80 - col)) with (S (Z.to_nat (i mod 80 - (col + 1)))) by lia. done.
Qed.

(** Positioned text touches only its own cells: drawing changes exactly
    the cells of the given row between the given column and the end of the
    text that lie on the screen, to the characters with the attribute asked
    for; text off the screen is clipped and the cursor does not move. *)
Theorem draw_text_clips v row col text attr :
  length (video_memory v) = 2000%nat -> is_byte attr -> Forall is_byte text ->
  let v' := terminal_draw_text v row col text attr in
  cursor_row v' = cursor_row v /\ cursor_col v' = cursor_col v /\
  length (video_memory v') = 2000%nat /\
  forall r c, 0 <= r < 25 -> 0 <= c < 80 ->
    video_memory v' !! Z.to_nat (r * 80 + c) =
      if (r =? row) && (col <=? c) && (c <? col + Z.of_nat (length text))
      then Some (byte_at text (c - col) + 256 * attr)
      else video_memory v !! Z.to_nat (r * 80 + c).
Proof.
  intros Hl Ha Ht. unfold terminal_draw_text, VGA_HEIGHT. rewrite Z.geb_leb.
  destruct (Z.ltb_spec row 0); cbn [orb].
  { split_and!; try done. intros r c Hr Hc. rewrite (proj2 (Z.eqb_neq r row)) by lia. done. }
  destruct (Z.leb_spec 25 row).
  { split_and!; try done. intros r c Hr Hc. rewrite (proj2 (Z.eqb_neq r row)) by lia. done. }
  cbn [cursor_row cursor_col video_memory]. split; [done|]. split; [done|]. split.
  - clear Ha Ht. revert Hl. generalize (video_memory v) as mem. revert col.
    induction text as [|x text IH]; intros col mem Hm; cbn [draw_loop]; [done|]. apply IH.
    case_if; [done|by rewrite length_insert].
  - intros r c Hr Hc. rewrite draw_loop_spec by (done || lia).
    replace ((r * 80 + c) / 80) with r by dlia. replace ((r * 80 + c) mod 80) with c by dlia.
    assert (Hx : Z.lor (u8 (byte_at text (c - col))) (u16 (Z.shiftl attr 8)) = byte_at text (c - col) + 256 * attr).
    { assert (Hb : is_byte (byte_at text (c - col))) by auto with harold. unfold is_byte in *.
      rewrite u8_small, u16_small by (unfold is_byte, is_u16; rewrite ?Z.shiftl_mul_pow2 by lia; lia).
      rewrite Z.shiftl_mul_pow2, Z.lor_comm, lor_add by lia. lia. }
    by rewrite Hx.
Qed.

(** ** A serial line, and witnesses *)
Record uart_line (delay : nat) := mk_line { line_sent : list Z; line_busy : nat }.
Arguments mk_line {delay}.
Arguments line_sent {delay}.
Arguments line_busy {delay}.

#[export] Instance line_ports delay : Ports (uart_line delay) := {
  inb d p := if p =? COM1 + 5 then (if line_busy d is O then 32 else 0, mk_line (line_sent d) (Nat.pred (line_busy d))) else (0, d);
  outb d p x := if p =? COM1 then mk_line (line_sent d ++ [x]) delay else d;
  inw d p := (0, d); outw d p x := d; inl d p := (0, d); outl d p x := d }.

#[export] Instance line_uart delay : Uart (uart_line delay).
Proof.
  refine {| uart_sent := line_sent; uart_busy := line_busy; uart_bound := delay |}; intros d; cbn.
  - by destruct (line_busy d).
  - intros v _. done.
Defined.

Definition sample_text : list Z := mjoin (replicate 30 [72; 105; 10]) ++ [33].

Lemma terminal_shows_text_witness :
  wp (terminal_writestring 5 (terminal_initialize (mk_vga (replicate 2000 0) 3 7)) sample_text)
    (mk_line [] 0 : uart_line 4) (fun v' d' =>
      shows v' (paper_write paper_start sample_text) /\ line_sent d' = mjoin (map crlf sample_text)).
Proof.
  eapply wp_mono.
  - apply (terminal_shows_text (D := uart_line 4) 5 sample_text (mk_vga (replicate 2000 0) 3 7) (mk_line [] 0)).
    + reflexivity.
    + apply Forall_forall. intros x Hx.
      assert (Hb : forallb (fun x => (0 <=? x) && (x <? 256)) sample_text = true) by reflexivity.
      rewrite forallb_forall in Hb. apply list_elem_of_In, Hb in Hx. zbool. unfold is_byte. lia.
    + apply (bool_decide_unpack _). vm_compute. exact I.
    + cbn. lia.
    + cbn. lia.
  - intros v' d' [H1 H2]. split; [exact H1|exact H2].
Defined.

Lemma print_numbers_witness : read_digits 10 (dec_text 4294967295) = 4294967295 /\ (length (dec_text 4294967295) <= 10)%nat.
Proof. destruct (print_numbers 4294967295) as (H & _ & [_ Hl] & _); [unfold is_u32; lia|]. split; [exact H|exact Hl]. Defined.

Lemma draw_text_clips_witness :
  video_memory (terminal_draw_text (mk_vga (replicate 2000 0) 0 0) 24 78 [65; 66; 67] 31) !! 1999%nat = Some (66 + 256 * 31).
Proof.
  destruct (draw_text_clips (mk_vga (replicate 2000 0) 0 0) 24 78 [65; 66; 67] 31) as (_ & _ & _ & H);
    [reflexivity|unfold is_byte; lia|repeat (constructor; [unfold is_byte; lia|]); constructor|].
  exact (H 24 79 ltac:(lia) ltac:(lia)).
Defined.

(** A character above 127 is sign-extended before the colour is added: it is
    drawn with attribute 255 instead of 15, unlike with positioned text. *)
Example high_character_attribute : cell 196 = 65476 /\ cell 65 = 3905.
Proof. split; reflexivity. Qed.
