(* ===== verification/Rtc.v ===== *)
(** * The real-time clock (src/src/rtc.c)

    Reading the CMOS clock: waiting out updates, reading until two snapshots
    agree, and converting from the four register formats.  The clock is a
    parameter with the documented behaviour of its index and data ports. *)
From S2P Require Import Prelude Io.

Definition CMOS_INDEX : Z := 112.
Definition CMOS_DATA : Z := 113.
Definition CMOS_REG_SECONDS : Z := 0.
Definition CMOS_REG_MINUTES : Z := 2.
Definition CMOS_REG_HOURS : Z := 4.
Definition CMOS_REG_DAY : Z := 7.
Definition CMOS_REG_MONTH : Z := 8.
Definition CMOS_REG_YEAR : Z := 9.
Definition CMOS_REG_STATUS_A : Z := 10.
Definition CMOS_REG_STATUS_B : Z := 11.

Record cmos_snapshot := mk_snapshot {
  s_second : Z; s_minute : Z; s_hour : Z; s_day : Z; s_month : Z; s_year : Z }.

Record rtc_time := mk_time {
  t_second : Z; t_minute : Z; t_hour : Z; t_day : Z; t_month : Z; t_year : Z }.

Definition bcd_to_bin (bcd : Z) : Z := u8 (Z.land bcd 15 + Z.shiftr bcd 4 * 10).

Definition snapshots_equal (a b : cmos_snapshot) : bool :=
  (s_second a =? s_second b) && (s_minute a =? s_minute b) && (s_hour a =? s_hour b) &&
  (s_day a =? s_day b) && (s_month a =? s_month b) && (s_year a =? s_year b).

(** The corrections after the snapshot was read. *)
Definition convert (status_b : Z) (s : cmos_snapshot) : rtc_time :=
  let s :=
    if negb (flag status_b 4) then
      mk_snapshot (bcd_to_bin (s_second s)) (bcd_to_bin (s_minute s))
        (u8 (Z.lor (bcd_to_bin (Z.land (s_hour s) 127)) (Z.land (s_hour s) 128)))
        (bcd_to_bin (s_day s)) (bcd_to_bin (s_month s)) (bcd_to_bin (s_year s))
    else s in
  let hour :=
    if negb (flag status_b 2) && flag (s_hour s) 128
    then u8 ((Z.land (s_hour s) 127 + 12) mod 24)
    else Z.land (s_hour s) 127 in
  mk_time (s_second s) (s_minute s) hour (s_day s) (s_month s) (u16 (2000 + s_year s)).

Section Driver.
Context {D : Type} `{Ports D} (fuel : nat).

Definition cmos_read (reg : Z) : io D Z :=
  let* _ := out8 CMOS_INDEX reg in in8 CMOS_DATA.

Definition cmos_update_in_progress : io D bool :=
  let* a := cmos_read CMOS_REG_STATUS_A in io_ret (flag a 128).

Definition cmos_read_snapshot : io D cmos_snapshot :=
  let* second := cmos_read CMOS_REG_SECONDS in
  let* minute := cmos_read CMOS_REG_MINUTES in
  let* hour := cmos_read CMOS_REG_HOURS in
  let* day := cmos_read CMOS_REG_DAY in
  let* month := cmos_read CMOS_REG_MONTH in
  let* year := cmos_read CMOS_REG_YEAR in
  io_ret (mk_snapshot second minute hour day month year).

(** Reads until two snapshots in a row agree. *)
Fixpoint settle_loop (k : nat) (current : cmos_snapshot) : io D cmos_snapshot :=
  match k with
  | O => fun _ => Fuel
  | S k' =>
      let* _ := io_while fuel cmos_update_in_progress in
      let* next := cmos_read_snapshot in
      if snapshots_equal current next then io_ret current else settle_loop k' next
  end.

Definition rtc_read : io D rtc_time :=
  let* _ := io_while fuel cmos_update_in_progress in
  let* current := cmos_read_snapshot in
  let* current := settle_loop fuel current in
  let* status_b := cmos_read CMOS_REG_STATUS_B in
  io_ret (convert status_b current).
End Driver.

(** ** The clock

    The data port returns the register the index selects.  The update flag
    shows for [cmos_updating] more reads; once the update is over the registers
    hold [cmos_next] and keep it while they are read. *)
Class Cmos (D : Type) `{Ports D} := {
  cmos_reg : D -> Z -> Z;
  cmos_updating : D -> nat;
  cmos_get d r : r <> CMOS_REG_STATUS_A -> (inb (outb d CMOS_INDEX r) CMOS_DATA).1 = cmos_reg d r;
  cmos_flag d : flag (inb (outb d CMOS_INDEX CMOS_REG_STATUS_A) CMOS_DATA).1 128
                = match cmos_updating d with O => false | S _ => true end;
  cmos_step d r : cmos_updating (inb (outb d CMOS_INDEX r) CMOS_DATA).2 = Nat.pred (cmos_updating d);
  cmos_next : D -> Z -> Z;
  cmos_next_kept d r : cmos_next (inb (outb d CMOS_INDEX r) CMOS_DATA).2 = cmos_next d;
  cmos_settled d : cmos_updating d = O -> cmos_reg d = cmos_next d }.

(** ** Formats *)
Definition bcd (n : Z) : Z := n / 10 * 16 + n mod 10.

Lemma bcd_roundtrip n : 0 <= n < 100 -> bcd_to_bin (bcd n) = n.
Proof.
  intros Hn. apply Z.eqb_eq. revert n Hn.
  assert (H : forallb (fun n => bcd_to_bin (bcd n) =? n) (seqZ 0 100) = true) by (vm_compute; reflexivity).
  rewrite forallb_forall in H. intros n Hn. apply H, list_elem_of_In, elem_of_seqZ. lia.
Qed.

(** The hour register: 0 to 23, or 1 to 12 with the top bit for the afternoon. *)
Definition hour_code (is24 : bool) (enc : Z -> Z) (h : Z) : Z :=
  if is24 then enc h
  else Z.lor (enc (if h mod 12 =? 0 then 12 else h mod 12)) (if 12 <=? h then 128 else 0).

Definition status_code (binary is24 : bool) : Z := (if binary then 4 else 0) + (if is24 then 2 else 0).

Definition encode_time (binary is24 : bool) (t : rtc_time) : cmos_snapshot :=
  let enc := if binary then (fun n => n) else bcd in
  mk_snapshot (enc (t_second t)) (enc (t_minute t)) (hour_code is24 enc (t_hour t))
    (enc (t_day t)) (enc (t_month t)) (enc (t_year t - 2000)).

Definition time_ok (t : rtc_time) : Prop :=
  0 <= t_second t < 60 /\ 0 <= t_minute t < 60 /\ 0 <= t_hour t < 24 /\
  1 <= t_day t <= 31 /\ 1 <= t_month t <= 12 /\ 2000 <= t_year t < 2100.

(** The conversion undoes every format; in the 12-hour ones the two hours
    written as 12 come back wrong and are excluded. *)
Lemma hour_decode binary is24 h : 0 <= h < 24 -> is24 = true \/ h mod 12 <> 0 ->
  t_hour (convert (status_code binary is24)
    (mk_snapshot 0 0 (hour_code is24 (if binary then (fun n => n) else bcd) h) 0 0 0)) = h.
Proof.
  intros Hh Hd.
  assert (H : forall b i, forallb (fun h => (negb i && (h mod 12 =? 0)) || (t_hour (convert (status_code b i)
    (mk_snapshot 0 0 (hour_code i (if b : bool then (fun n => n) else bcd) h) 0 0 0)) =? h)) (seqZ 0 24) = true)
    by (intros [] []; vm_compute; reflexivity).
  specialize (H binary is24). rewrite forallb_forall in H.
  specialize (H h ltac:(apply list_elem_of_In, elem_of_seqZ; lia)).
  apply orb_prop in H as [H|H]; [|by apply Z.eqb_eq]. apply andb_prop in H as [H1 H2].
  destruct Hd as [-> | Hd]; [done|]. zbool. lia.
Qed.

Lemma convert_hour b s : t_hour (convert b s) = t_hour (convert b (mk_snapshot 0 0 (s_hour s) 0 0 0)).
Proof. unfold convert. by destruct (flag b 4). Qed.

Lemma convert_encode binary is24 t : time_ok t -> is24 = true \/ t_hour t mod 12 <> 0 ->
  convert (status_code binary is24) (encode_time binary is24 t) = t.
Proof.
  intros (Hs & Hm & Hh & Hd & Hmo & Hy) H12. pose proof (hour_decode binary is24 (t_hour t) Hh H12) as Hhour.
  assert (Hh' : t_hour (convert (status_code binary is24) (encode_time binary is24 t)) = t_hour t).
  { rewrite convert_hour. destruct binary; exact Hhour. }
  assert (Hf : flag (status_code binary is24) 4 = binary) by (by destruct binary, is24).
  destruct (convert (status_code binary is24) (encode_time binary is24 t)) as [s m h d mo y] eqn:E.
  cbn [t_hour] in Hh'. subst h. unfold convert in E. rewrite Hf in E. injection E as Es Em _ Ed Emo Ey.
  destruct t as [s0 m0 h0 d0 mo0 y0]. cbn in *.
  rewrite u16_small in Ey by (destruct binary; cbn in *; rewrite ?bcd_roundtrip by lia; unfold is_u16; lia).
  destruct binary; cbn in *; rewrite ?bcd_roundtrip in * by lia; f_equal; lia.
Qed.

Section Reading.
Context {D : Type} `{HP : Ports D} `{!Cmos D} (fuel : nat).
Implicit Types d : D.

Definition snapshot_of (r : Z -> Z) : cmos_snapshot :=
  mk_snapshot (r CMOS_REG_SECONDS) (r CMOS_REG_MINUTES) (r CMOS_REG_HOURS)
    (r CMOS_REG_DAY) (r CMOS_REG_MONTH) (r CMOS_REG_YEAR).

(** The clock has settled on the registers [r]. *)
Definition at_rest d (r : Z -> Z) : Prop := cmos_updating d = O /\ cmos_next d = r.

Lemma cmos_read_spec d r reg Q : reg <> CMOS_REG_STATUS_A -> at_rest d r ->
  (forall d', at_rest d' r -> Q (r reg) d') -> wp (cmos_read reg) d Q.
Proof.
  intros Hr [Hu Hn] HQ. unfold cmos_read. io_step. io_step. io_step. rewrite cmos_get, cmos_settled, Hn by done.
  apply HQ. split; [by rewrite cmos_step, Hu|by rewrite cmos_next_kept].
Qed.

(** The wait ends when the update does. *)
Lemma wait_update_ends d : (cmos_updating d < fuel)%nat ->
  wp (io_while fuel cmos_update_in_progress) d (fun _ d' => at_rest d' (cmos_next d)).
Proof.
  intros Hf. apply (wp_while _ cmos_updating (fun d' => cmos_next d' = cmos_next d)
    (fun d' => at_rest d' (cmos_next d))); [|done|done].
  intros d' Hd'. unfold cmos_update_in_progress, cmos_read, at_rest. repeat io_step.
  rewrite cmos_flag, cmos_step, cmos_next_kept. destruct (cmos_updating d'); cbn; auto with lia.
Qed.

Lemma snapshot_spec d r : at_rest d r ->
  wp cmos_read_snapshot d (fun s d' => s = snapshot_of r /\ at_rest d' r).
Proof.
  intros Hu. unfold cmos_read_snapshot.
  do 6 (io_step; eapply cmos_read_spec; [done|eassumption|]; intros ? ?). by io_step.
Qed.

(** The clock is read correctly in every register format: once the update
    in progress ends, the time returned is the one the registers encode, in
    binary or BCD and in 24-hour format or in 12-hour format (except for the
    two hours written as 12), and all waiting loops end. *)
Theorem rtc_read_decodes d t binary is24 :
  (cmos_updating d < fuel)%nat -> time_ok t -> is24 = true \/ t_hour t mod 12 <> 0 ->
  snapshot_of (cmos_next d) = encode_time binary is24 t ->
  cmos_next d CMOS_REG_STATUS_B = status_code binary is24 ->
  wp (rtc_read fuel) d (fun r _ => r = t).
Proof.
  intros Hf Ht H12 Hs Hb. unfold rtc_read. io_step. eapply wp_mono; [by apply wait_update_ends|].
  intros [] d0 H0. cbn beta in H0.
  io_step. eapply wp_mono; [by eapply snapshot_spec|]. intros s d1 (-> & H1). rewrite Hs.
  io_step. destruct fuel as [|k] eqn:Ek; [lia|]. cbn [settle_loop].
  io_step. eapply wp_mono; [rewrite <- Ek; apply wait_update_ends; destruct H1; lia|]. intros [] d2 H2.
  cbn beta in H2. rewrite (proj2 H1) in H2.
  io_step. eapply wp_mono; [by eapply snapshot_spec|]. intros s d3 (-> & H3).
  rewrite Hs. assert (snapshots_equal (encode_time binary is24 t) (encode_time binary is24 t) = true) as ->.
  { unfold snapshots_equal. by rewrite !Z.eqb_refl. }
  io_step. io_step. eapply cmos_read_spec; [done|exact H3|]. intros d4 _. io_step.
  rewrite Hb. by apply convert_encode.
Qed.
End Reading.

(** ** A clock at rest, and witnesses *)
Record clock := mk_clock { clock_regs : cmos_snapshot; clock_b : Z; clock_index : Z; clock_wait : nat }.

Definition clock_reg (c : clock) (r : Z) : Z :=
  if r =? CMOS_REG_SECONDS then s_second (clock_regs c)
  else if r =? CMOS_REG_MINUTES then s_minute (clock_regs c)
  else if r =? CMOS_REG_HOURS then s_hour (clock_regs c)
  else if r =? CMOS_REG_DAY then s_day (clock_regs c)
  else if r =? CMOS_REG_MONTH then s_month (clock_regs c)
  else if r =? CMOS_REG_YEAR then s_year (clock_regs c)
  else if r =? CMOS_REG_STATUS_B then clock_b c
  else 0.

#[export] Instance clock_ports : Ports clock := {
  inb d p :=
    (if clock_index d =? CMOS_REG_STATUS_A then (if clock_wait d is O then 38 else 166) else clock_reg d (clock_index d),
     mk_clock (clock_regs d) (clock_b d) (clock_index d) (Nat.pred (clock_wait d)));
  outb d p x := mk_clock (clock_regs d) (clock_b d) x (clock_wait d);
  inw d p := (0, d); outw d p x := d; inl d p := (0, d); outl d p x := d }.

#[export] Instance clock_cmos : Cmos clock.
Proof.
  refine {| cmos_reg := clock_reg; cmos_updating := clock_wait; cmos_next := clock_reg |}; intros d; cbn [inb outb clock_ports clock_index].
  - intros r Hr. cbn [fst]. rewrite (proj2 (Z.eqb_neq _ _) Hr). done.
  - cbn [fst]. rewrite Z.eqb_refl. cbn [clock_wait]. by destruct (clock_wait d).
  - done.
  - done.
  - done.
Defined.

Lemma rtc_read_decodes_witness :
  wp (rtc_read 10) (mk_clock (encode_time false false (mk_time 59 7 23 31 12 2026)) 0 0 4)
    (fun r _ => r = mk_time 59 7 23 31 12 2026).
Proof.
  apply (rtc_read_decodes 10 (mk_clock (encode_time false false (mk_time 59 7 23 31 12 2026)) 0 0 4) _ false false).
  - cbn. lia.
  - unfold time_ok. cbn. lia.
  - right. discriminate.
  - reflexivity.
  - reflexivity.
Defined.

Definition rtc_of (t : rtc_time) (binary is24 : bool) (wait : nat) : option rtc_time :=
  match rtc_read 10 (mk_clock (encode_time binary is24 t) (status_code binary is24) 0 wait) with
  | OK (r, _) => Some r
  | _ => None
  end.

(** In 12-hour format noon is reported as midnight and midnight as noon. *)
Example twelve_oclock :
  t_hour <$> rtc_of (mk_time 5 30 12 1 1 2026) false false 0 = Some 0 /\
  t_hour <$> rtc_of (mk_time 5 30 0 1 1 2026) false false 0 = Some 12.
Proof. split; vm_compute; reflexivity. Qed.
