(* ===== verification/FatTypes.v ===== *)
(** * On-disk and in-memory data of the FAT16 driver (src/src/fat.c)

    The structures [fat_boot_sector], [fat_dir_entry] and [fat_lfn_entry] with
    their byte layouts, the block-device interface the driver is written
    against, the volume layout and the descriptor table. *)
From S2P Require Import Prelude.

Definition ATA_SECTOR_SIZE : Z := 512.
Definition FAT_ATTR_VOLUME_LABEL : Z := 8.
Definition FAT_ATTR_DIRECTORY : Z := 16.
Definition FAT_ATTR_LONG_NAME : Z := 15.
Definition LFN_MAX_CHARS : Z := 256.
Definition MAX_OPEN_FILES : Z := 8.
Definition FAT_FD_BASE : Z := 3.
Definition FAT_MAX_COMPONENT : Z := 48.
Definition FAT_OPEN_CREATE : Z := 0.
Definition FAT_OPEN_TRUNCATE : Z := 1.
Definition FAT_OPEN_APPEND : Z := 2.
Definition FAT_OPEN_MODIFY : Z := 3.

(** ** The block device

    [ata.c] offers one-sector reads and writes that either succeed or return
    [-1]; a failing write transfers no data.  The driver is written against
    this interface only. *)
Class BlockDevice (D : Type) := {
  ata_read_sector : D -> Z -> option (list Z);
  ata_write_sector : D -> Z -> list Z -> option D }.

(** A sector image: 512 bytes. *)
Definition is_sector (b : list Z) : Prop :=
  length b = 512%nat /\ Forall is_byte b.

(** What the driver relies on: a read returns a whole sector; a write that
    succeeds is read back and changes no other sector. *)
Class BlockDeviceLaws (D : Type) `{BlockDevice D} := {
  read_is_sector d lba b : ata_read_sector d lba = Some b -> is_sector b;
  write_read_same d d' lba b :
    is_sector b -> ata_write_sector d lba b = Some d' ->
    ata_read_sector d' lba = Some b;
  write_read_other d d' lba lba' b :
    lba <> lba' -> ata_write_sector d lba b = Some d' ->
    ata_read_sector d' lba' = ata_read_sector d lba' }.

(** A device whose sectors that can be read can also be written: the
    behaviour of a working drive, used where a theorem promises progress. *)
Class WorkingDevice (D : Type) `{BlockDevice D} := {
  write_readable d lba b :
    is_Some (ata_read_sector d lba) -> is_sector b ->
    is_Some (ata_write_sector d lba b) }.

(** ** [struct fat_dir_entry] *)
Record fat_dir_entry := mk_dir_entry {
  de_name : list Z;
  de_ext : list Z;
  de_attr : Z;
  de_reserved : Z;
  de_create_time_tenth : Z;
  de_create_time : Z;
  de_create_date : Z;
  de_last_access_date : Z;
  de_first_cluster_high : Z;
  de_write_time : Z;
  de_write_date : Z;
  de_first_cluster_low : Z;
  de_file_size : Z }.

(** The 32 bytes of an entry, read at byte offset [32 * i] of a sector as
    the packed struct lays them out. *)
Definition decode_entry (buf : list Z) (i : Z) : fat_dir_entry :=
  let o := 32 * i in
  let b k := byte_at buf (o + k) in
  mk_dir_entry
    [b 0; b 1; b 2; b 3; b 4; b 5; b 6; b 7]
    [b 8; b 9; b 10]
    (b 11) (b 12) (b 13)
    (get_le16 buf (o + 14)) (get_le16 buf (o + 16)) (get_le16 buf (o + 18))
    (get_le16 buf (o + 20)) (get_le16 buf (o + 22)) (get_le16 buf (o + 24))
    (get_le16 buf (o + 26)) (get_le32 buf (o + 28)).

Definition encode_entry (e : fat_dir_entry) : list Z :=
  de_name e ++ de_ext e
  ++ [de_attr e; de_reserved e; de_create_time_tenth e]
  ++ put_le16 (de_create_time e) ++ put_le16 (de_create_date e)
  ++ put_le16 (de_last_access_date e) ++ put_le16 (de_first_cluster_high e)
  ++ put_le16 (de_write_time e) ++ put_le16 (de_write_date e)
  ++ put_le16 (de_first_cluster_low e) ++ put_le32 (de_file_size e).

(** Storing an entry back into the sector buffer it points into. *)
Definition store_entry (buf : list Z) (i : Z) (e : fat_dir_entry) : list Z :=
  splice buf (Z.to_nat (32 * i)) (encode_entry e).

Definition set_first_cluster (e : fat_dir_entry) (c : Z) : fat_dir_entry :=
  mk_dir_entry (de_name e) (de_ext e) (de_attr e) (de_reserved e)
    (de_create_time_tenth e) (de_create_time e) (de_create_date e)
    (de_last_access_date e) (de_first_cluster_high e) (de_write_time e)
    (de_write_date e) c (de_file_size e).

Definition set_file_size (e : fat_dir_entry) (n : Z) : fat_dir_entry :=
  mk_dir_entry (de_name e) (de_ext e) (de_attr e) (de_reserved e)
    (de_create_time_tenth e) (de_create_time e) (de_create_date e)
    (de_last_access_date e) (de_first_cluster_high e) (de_write_time e)
    (de_write_date e) (de_first_cluster_low e) n.

(** ** [struct fat_lfn_entry] *)
Record fat_lfn_entry := mk_lfn_entry {
  le_sequence : Z;
  le_name1 : list Z;
  le_attr : Z;
  le_type : Z;
  le_checksum : Z;
  le_name2 : list Z;
  le_first_cluster : Z;
  le_name3 : list Z }.

Definition decode_lfn_entry (buf : list Z) (i : Z) : fat_lfn_entry :=
  let o := 32 * i in
  let h k := get_le16 buf (o + k) in
  mk_lfn_entry (byte_at buf o)
    [h 1; h 3; h 5; h 7; h 9]
    (byte_at buf (o + 11)) (byte_at buf (o + 12)) (byte_at buf (o + 13))
    [h 14; h 16; h 18; h 20; h 22; h 24]
    (h 26)
    [h 28; h 30].

(** ** Long-name reconstruction state: [lfn_buffer], [lfn_has_data],
    [lfn_checksum], [lfn_checksum_valid] *)
Record lfn_state := mk_lfn {
  lfn_buffer : list Z;
  lfn_has_data : bool;
  lfn_checksum : Z;
  lfn_checksum_valid : bool }.

(** ** Volume layout, computed once by [fat_init] *)
Record fat_volume := mk_volume {
  fat_start_lba : Z;
  root_dir_start_lba : Z;
  root_dir_sectors : Z;
  data_start_lba : Z;
  root_entry_count : Z;
  sectors_per_cluster : Z;
  num_fats : Z;
  fat_size_sectors : Z }.

(** ** [struct fat_dir_ref] *)
Record fat_dir_ref := mk_dir_ref {
  dr_is_root : bool;
  dr_first_cluster : Z }.

Definition fat_root_dir_ref : fat_dir_ref := mk_dir_ref true 0.

(** ** [struct open_file] and the descriptor table *)
Record open_file := mk_open_file {
  of_in_use : bool;
  of_file_size : Z;
  of_current_cluster : Z;
  of_first_cluster : Z;
  of_cluster_offset : Z;
  of_file_offset : Z;
  of_writable : bool;
  of_dir_entry_sector : Z;
  of_dir_entry_offset : Z;
  of_owner_task_id : Z }.

Definition closed_file : open_file := mk_open_file false 0 0 0 0 0 false 0 0 0.

Definition set_in_use (f : open_file) (b : bool) : open_file :=
  mk_open_file b (of_file_size f) (of_current_cluster f) (of_first_cluster f)
    (of_cluster_offset f) (of_file_offset f) (of_writable f)
    (of_dir_entry_sector f) (of_dir_entry_offset f) (of_owner_task_id f).

(** The position of a descriptor, updated together by reads and seeks. *)
Definition set_position (f : open_file) (cluster coff off : Z) : open_file :=
  mk_open_file (of_in_use f) (of_file_size f) cluster (of_first_cluster f)
    coff off (of_writable f)
    (of_dir_entry_sector f) (of_dir_entry_offset f) (of_owner_task_id f).

Definition set_of_size (f : open_file) (n : Z) : open_file :=
  mk_open_file (of_in_use f) n (of_current_cluster f) (of_first_cluster f)
    (of_cluster_offset f) (of_file_offset f) (of_writable f)
    (of_dir_entry_sector f) (of_dir_entry_offset f) (of_owner_task_id f).

Definition set_of_first (f : open_file) (c : Z) : open_file :=
  mk_open_file (of_in_use f) (of_file_size f) (of_current_cluster f) c
    (of_cluster_offset f) (of_file_offset f) (of_writable f)
    (of_dir_entry_sector f) (of_dir_entry_offset f) (of_owner_task_id f).

(** The driver's statics other than the long-name scratch state, which every
    scan resets before use. *)
Record fat_state (D : Type) := mk_fat {
  disk : D;
  vol : fat_volume;
  fat_ready : bool;
  open_files : list open_file }.
Arguments mk_fat {D}.
Arguments disk {D}.
Arguments vol {D}.
Arguments fat_ready {D}.
Arguments open_files {D}.

Definition set_disk {D} (s : fat_state D) (d : D) : fat_state D :=
  mk_fat d (vol s) (fat_ready s) (open_files s).
Definition set_files {D} (s : fat_state D) (fs : list open_file) : fat_state D :=
  mk_fat (disk s) (vol s) (fat_ready s) fs.

(** ** Layout facts *)
Definition entry_wf (e : fat_dir_entry) : Prop :=
  length (de_name e) = 8%nat /\ length (de_ext e) = 3%nat /\
  Forall is_byte (de_name e) /\ Forall is_byte (de_ext e) /\
  is_byte (de_attr e) /\ is_byte (de_reserved e) /\ is_byte (de_create_time_tenth e) /\
  is_u16 (de_create_time e) /\ is_u16 (de_create_date e) /\
  is_u16 (de_last_access_date e) /\ is_u16 (de_first_cluster_high e) /\
  is_u16 (de_write_time e) /\ is_u16 (de_write_date e) /\
  is_u16 (de_first_cluster_low e) /\ is_u32 (de_file_size e).

Lemma encode_entry_length e : entry_wf e -> length (encode_entry e) = 32%nat.
Proof.
  intros (Hn & He & _). unfold encode_entry. rewrite !length_app, Hn, He. done.
Qed.

Lemma encode_entry_bytes e : entry_wf e -> Forall is_byte (encode_entry e).
Proof.
  intros (_ & _ & Hn & He & ? & ? & ? & _). unfold encode_entry.
  rewrite !Forall_app. repeat split; auto with harold.
Qed.

(** Reading [k] bytes into the entry stored at index [i]. *)
Lemma byte_at_store buf i e k :
  entry_wf e -> 0 <= i -> 32 * i + 32 <= Z.of_nat (length buf) -> 0 <= k < 32 ->
  byte_at (store_entry buf i e) (32 * i + k) = byte_at (encode_entry e) k.
Proof.
  intros Hwf Hi Hl Hk. unfold byte_at, store_entry.
  replace (Z.to_nat (32 * i + k)) with (Z.to_nat (32 * i) + Z.to_nat k)%nat by lia.
  rewrite splice_lookup_in; [done|..]; rewrite encode_entry_length by done; lia.
Qed.

Lemma byte_at_store_other buf i e j :
  entry_wf e -> 0 <= i -> 32 * i + 32 <= Z.of_nat (length buf) ->
  0 <= j -> (j < 32 * i \/ 32 * i + 32 <= j) ->
  byte_at (store_entry buf i e) j = byte_at buf j.
Proof.
  intros Hwf Hi Hl Hj Ho. unfold byte_at, store_entry.
  rewrite splice_lookup_out; [done|..]; rewrite encode_entry_length by done; lia.
Qed.

(** The entry just stored is the entry read back. *)
Lemma decode_store_same buf i e :
  entry_wf e -> 0 <= i -> 32 * i + 32 <= Z.of_nat (length buf) ->
  decode_entry (store_entry buf i e) i = e.
Proof.
  intros Hwf Hi Hl.
  assert (Hb : forall k, 0 <= k < 32 ->
    byte_at (store_entry buf i e) (32 * i + k) = byte_at (encode_entry e) k)
    by (intros; by apply byte_at_store).
  unfold decode_entry, get_le16, get_le32. cbv zeta. rewrite <- !Z.add_assoc.
  rewrite !Hb by lia. clear Hb.
  destruct e as [nm ex at_ rs ct c1 c2 c3 c4 c5 c6 c7 sz].
  destruct Hwf as (Hn & He & _ & _ & _ & _ & _ & H1 & H2 & H3 & H4 & H5 & H6 & H7 & H8).
  unfold encode_entry in *. cbn [de_name de_ext de_attr de_reserved
    de_create_time_tenth de_create_time de_create_date de_last_access_date
    de_first_cluster_high de_write_time de_write_date de_first_cluster_low
    de_file_size] in *.
  do 8 (destruct nm as [|? nm]; [done|]). destruct nm; [|done].
  do 3 (destruct ex as [|? ex]; [done|]). destruct ex; [|done].
  unfold byte_at. norm_to_nat. cbn -[le16 Z.modulo Z.div Z.mul Z.add].
  rewrite !le16_put by done. rewrite !Z.add_assoc, le32_put by done. done.
Qed.

(** Entries at other indices are unaffected. *)
Lemma decode_store_other buf i j e :
  entry_wf e -> 0 <= i -> 0 <= j -> i <> j ->
  32 * i + 32 <= Z.of_nat (length buf) ->
  decode_entry (store_entry buf i e) j = decode_entry buf j.
Proof.
  intros Hwf Hi Hj Hne Hl. unfold decode_entry, get_le16, get_le32. cbv zeta.
  rewrite <- !Z.add_assoc.
  rewrite !byte_at_store_other by (done || lia). done.
Qed.

Lemma decode_lfn_store_other buf i j e :
  entry_wf e -> 0 <= i -> 0 <= j -> i <> j ->
  32 * i + 32 <= Z.of_nat (length buf) ->
  decode_lfn_entry (store_entry buf i e) j = decode_lfn_entry buf j.
Proof.
  intros Hwf Hi Hj Hne Hl. unfold decode_lfn_entry, get_le16. cbv zeta.
  rewrite <- !Z.add_assoc.
  rewrite !byte_at_store_other by (done || lia). done.
Qed.

Lemma decode_entry_wf buf i : Forall is_byte buf -> entry_wf (decode_entry buf i).
Proof.
  intros Hb. assert (Ha : forall k, is_byte (byte_at buf k)) by auto with harold.
  assert (Hh : forall k, is_u16 (get_le16 buf k)) by (intros; by apply get_le16_is).
  unfold entry_wf, decode_entry. cbn.
  repeat split; try (repeat constructor; apply Ha); try apply Ha; try apply Hh.
  - unfold get_le32. pose proof (Ha (32 * i + 28)). pose proof (Ha (32 * i + 28 + 1)).
    pose proof (Ha (32 * i + 28 + 2)). pose proof (Ha (32 * i + 28 + 3)).
    unfold is_byte in *. lia.
  - unfold get_le32. pose proof (Ha (32 * i + 28)). pose proof (Ha (32 * i + 28 + 1)).
    pose proof (Ha (32 * i + 28 + 2)). pose proof (Ha (32 * i + 28 + 3)).
    unfold is_byte in *. lia.
Qed.

Lemma store_entry_sector buf i e :
  is_sector buf -> entry_wf e -> 0 <= i < 16 -> is_sector (store_entry buf i e).
Proof.
  intros [Hl Hb] Hwf Hi. split.
  - unfold store_entry. rewrite splice_length; [done|].
    rewrite encode_entry_length by done. lia.
  - apply splice_bytes; [done|]. by apply encode_entry_bytes.
Qed.
