(* ===== verification/FatName.v ===== *)
(** * Names in the FAT16 driver (src/src/fat.c)

    Conversion to and from the 8.3 format, reconstruction of long names,
    the short-name checksum, case-insensitive comparison and the splitting of
    paths into components. *)
From S2P Require Import Prelude FatTypes.

(** ** Definitions *)

(** [c >= 'a' && c <= 'z' ? c - 32 : c] *)
Definition upcase (c : Z) : Z :=
  if (97 <=? c) && (c <=? 122) then c - 32 else c.

(** The base-name loop of [fat_name_to_83]: copies up to eight characters,
    stopping at a dot; returns the unread characters and the buffer. *)
Fixpoint name83_base (fn : list Z) (out_i : nat) (out : list Z) : list Z * list Z :=
  match fn with
  | [] => ([], out)
  | c :: fn' =>
      if (c =? 46) || (8 <=? out_i)%nat then (fn, out)
      else name83_base fn' (S out_i) (<[out_i := upcase c]> out)
  end.

(** Skips the rest of an over-long base name. *)
Fixpoint name83_skip (fn : list Z) : list Z :=
  match fn with
  | [] => []
  | c :: fn' => if c =? 46 then fn else name83_skip fn'
  end.

(** The extension loop: copies up to three characters after the dot. *)
Fixpoint name83_ext (fn : list Z) (ext_i : nat) (out : list Z) : list Z :=
  match fn with
  | [] => out
  | c :: fn' =>
      if (11 <=? ext_i)%nat then out
      else name83_ext fn' (S ext_i) (<[ext_i := upcase c]> out)
  end.

Definition fat_name_to_83 (filename : list Z) : list Z :=
  let '(rest, out) := name83_base filename 0 (replicate 11 32) in
  match name83_skip rest with
  | c :: rest' => if c =? 46 then name83_ext rest' 8 out else out
  | [] => out
  end.

(** The bytes [fat_copy_string] stores at its destination. *)
Fixpoint copy_string_loop (src : list Z) (i limit : Z) : list Z :=
  match src with
  | [] => []
  | c :: src' => if i <? limit then c :: copy_string_loop src' (i + 1) limit else []
  end.

Definition fat_copy_string (src : list Z) (dest_size : Z) : list Z :=
  copy_string_loop src 0 (u32 (dest_size - 1)) ++ [0].

(** The string a NUL-terminated buffer holds. *)
Fixpoint c_str (buf : list Z) : list Z :=
  match buf with
  | [] => []
  | c :: buf' => if c =? 0 then [] else c :: c_str buf'
  end.

Definition fat_dir_entry_matches (e : fat_dir_entry) (name83 : list Z) : bool :=
  bool_decide (de_name e = take 8 name83) && bool_decide (de_ext e = take 3 (drop 8 name83)).

Definition lfn_reset (l : lfn_state) : lfn_state :=
  mk_lfn (replicate 256 0) false (lfn_checksum l) false.

(** The module's statics before the first scan. *)
Definition lfn_boot : lfn_state := mk_lfn (replicate 256 0) false 0 false.

(** Folds the characters of one entry into the buffer: a NUL is stored and
    ends the name, 0xFFFF is padding, anything outside ASCII becomes '?'. *)
Fixpoint lfn_fold (chars : list Z) (pos : nat) (buf : list Z) : list Z :=
  match chars with
  | [] => buf
  | c :: chars' =>
      if c =? 0 then <[pos := 0]> buf
      else if c =? 65535 then buf
      else lfn_fold chars' (S pos) (<[pos := if c <? 128 then c else 63]> buf)
  end.

Definition lfn_accumulate (l : lfn_state) (e : fat_lfn_entry) : lfn_state :=
  let ordinal := Z.land (le_sequence e) 31 in
  let base := (ordinal - 1) * 13 in
  if (ordinal <? 1) || (base + 13 >? LFN_MAX_CHARS - 1) then l
  else
    let '(ck, ckv) :=
      if negb (lfn_has_data l) then (le_checksum e, true)
      else (lfn_checksum l,
            if le_checksum e =? lfn_checksum l then lfn_checksum_valid l else false) in
    let chars := le_name1 e ++ le_name2 e ++ le_name3 e in
    mk_lfn (lfn_fold chars (Z.to_nat base) (lfn_buffer l)) true ck ckv.

Definition checksum_step (sum b : Z) : Z :=
  u8 ((if flag sum 1 then 128 else 0) + Z.shiftr sum 1 + b).

Definition fat_short_name_checksum (e : fat_dir_entry) : Z :=
  foldl checksum_step 0 (de_name e ++ de_ext e).

Fixpoint names_equal_ci (a b : list Z) : bool :=
  match a, b with
  | ca :: a', cb :: b' => if upcase ca =? upcase cb then names_equal_ci a' b' else false
  | [], [] => true
  | _, _ => false
  end.

(** [fat_next_path_component]: the component's length, the bytes of the
    output buffer up to its terminator, and the advanced path pointer. *)
Fixpoint component_of (p : list Z) : list Z :=
  match p with
  | [] => []
  | c :: p' => if c =? 47 then [] else c :: component_of p'
  end.

Definition fat_next_path_component (p : list Z) (out_size : Z) : Z * list Z * list Z :=
  let comp := component_of p in
  let len := Z.of_nat (length comp) in
  let copy_len := if len <? out_size - 1 then len else out_size - 1 in
  let rest := drop (length comp) p in
  (len, take (Z.to_nat copy_len) p,
   match rest with
   | c :: rest' => if c =? 47 then rest' else rest
   | [] => []
   end).

(** [fat_short_name_to_display] *)
Fixpoint display_loop (cs : list Z) (pos limit : Z) : list Z :=
  match cs with
  | [] => []
  | c :: cs' =>
      if (c =? 32) || (limit <=? pos) then []
      else c :: display_loop cs' (pos + 1) limit
  end.

Definition fat_short_name_to_display (e : fat_dir_entry) (out_size : Z) : list Z :=
  let limit := u32 (out_size - 1) in
  let base := display_loop (de_name e) 0 limit in
  let pos := Z.of_nat (length base) in
  base ++
  (if negb (byte_at (de_ext e) 0 =? 32) && (pos <? limit)
   then 46 :: display_loop (de_ext e) (pos + 1) limit else [])
  ++ [0].

(** ** 8.3 names *)
Lemma upcase_dot c : (upcase c =? 46) = (c =? 46).
Proof. unfold upcase. case_if; [|done].
  destruct (Z.eqb_spec (c - 32) 46), (Z.eqb_spec c 46); lia || done. Qed.

Lemma upcase_idemp c : upcase (upcase c) = upcase c.
Proof. unfold upcase at 2 3. case_if; unfold upcase; repeat case_if; lia. Qed.

Lemma name83_base_length fn i out :
  length (name83_base fn i out).2 = length out.
Proof.
  revert i out. induction fn as [|c fn IH]; intros i out; cbn [name83_base]; [done|].
  case_if; [done|]. rewrite IH. apply length_insert.
Qed.

Lemma name83_ext_length fn i out : length (name83_ext fn i out) = length out.
Proof.
  revert i out. induction fn as [|c fn IH]; intros i out; cbn [name83_ext]; [done|].
  destruct (11 <=? i)%nat; [done|]. rewrite IH. apply length_insert.
Qed.

Lemma name83_length fn : length (fat_name_to_83 fn) = 11%nat.
Proof.
  unfold fat_name_to_83.
  pose proof (name83_base_length fn 0 (replicate 11 32)) as H.
  destruct (name83_base fn 0 (replicate 11 32)) as [rest out]. simpl in H.
  destruct (name83_skip rest) as [|c rest']; [done|].
  destruct (c =? 46); [|done]. by rewrite name83_ext_length.
Qed.

Lemma upcase_byte c : is_byte c -> is_byte (upcase c).
Proof. unfold upcase, is_byte. case_if; lia. Qed.

Lemma name83_bytes fn : Forall is_byte fn -> Forall is_byte (fat_name_to_83 fn).
Proof.
  assert (Hb : forall fn i out, Forall is_byte fn -> Forall is_byte out ->
    Forall is_byte (fst (name83_base fn i out)) /\ Forall is_byte (snd (name83_base fn i out))).
  { clear. induction fn as [|c fn IH]; intros i out Hf Ho; cbn; [done|].
    case_if; [done|]. apply Forall_cons in Hf as [Hc Hf]. apply IH; [done|].
    apply Forall_insert; [done|by apply upcase_byte]. }
  assert (Hs : forall fn, Forall is_byte fn -> Forall is_byte (name83_skip fn)).
  { clear. induction 1 as [|c fn Hc Hf IH]; cbn; [done|]. case_if; [by constructor|done]. }
  assert (He : forall fn i out, Forall is_byte fn -> Forall is_byte out ->
    Forall is_byte (name83_ext fn i out)).
  { clear. induction fn as [|c fn IH]; intros i out Hf Ho; cbn; [done|].
    case_if; [done|]. apply Forall_cons in Hf as [Hc Hf]. apply IH; [done|].
    apply Forall_insert; [done|by apply upcase_byte]. }
  intros Hf. unfold fat_name_to_83.
  destruct (Hb fn 0%nat (replicate 11 32) Hf) as [H1 H2]; [by repeat constructor|].
  destruct (name83_base fn 0 (replicate 11 32)) as [rest out]. cbn in H1, H2.
  pose proof (Hs rest H1) as H3. destruct (name83_skip rest) as [|c r]; [done|].
  apply Forall_cons in H3 as [_ H3]. case_if; [by apply He|done].
Qed.

Lemma name83_base_upcase fn i out :
  name83_base (upcase <$> fn) i out =
  (upcase <$> (name83_base fn i out).1, (name83_base fn i out).2).
Proof.
  revert i out. induction fn as [|c fn IH]; intros i out; [done|].
  cbn [fmap list_fmap name83_base]. rewrite upcase_dot, upcase_idemp.
  destruct ((c =? 46) || (8 <=? i)%nat); [done|]. apply IH.
Qed.

Lemma name83_skip_upcase fn : name83_skip (upcase <$> fn) = upcase <$> name83_skip fn.
Proof.
  induction fn as [|c fn IH]; [done|]. cbn [fmap list_fmap name83_skip].
  rewrite upcase_dot. by destruct (c =? 46).
Qed.

Lemma name83_ext_upcase fn i out :
  name83_ext (upcase <$> fn) i out = name83_ext fn i out.
Proof.
  revert i out. induction fn as [|c fn IH]; intros i out; [done|].
  cbn [fmap list_fmap name83_ext]. rewrite upcase_idemp.
  destruct (11 <=? i)%nat; [done|]. apply IH.
Qed.

Lemma name83_upcase fn : fat_name_to_83 (upcase <$> fn) = fat_name_to_83 fn.
Proof.
  unfold fat_name_to_83. rewrite name83_base_upcase.
  destruct (name83_base fn 0 (replicate 11 32)) as [rest out]. simpl.
  rewrite name83_skip_upcase. destruct (name83_skip rest) as [|c rest']; [done|].
  cbn [fmap list_fmap]. rewrite upcase_dot.
  destruct (c =? 46); [|done]. apply name83_ext_upcase.
Qed.

(** A character of a stored short name: not padding, not the dot that the
    display form inserts, already upper case. *)
Definition short_char (c : Z) : Prop :=
  c <> 0 /\ c <> 32 /\ c <> 46 /\ upcase c = c.

(** An entry whose name and extension are space-padded short names. *)
Definition short_name_entry (e : fat_dir_entry) (base ext : list Z) : Prop :=
  (length base <= 8)%nat /\ (length ext <= 3)%nat /\
  Forall short_char base /\ Forall short_char ext /\
  de_name e = base ++ replicate (8 - length base) 32 /\
  de_ext e = ext ++ replicate (3 - length ext) 32.

Lemma display_loop_padded cs n pos limit :
  Forall short_char cs -> pos + Z.of_nat (length cs) <= limit ->
  display_loop (cs ++ replicate n 32) pos limit = cs.
Proof.
  intros Hc. revert pos. induction Hc as [|c cs [H0 [H1 _]] Hc IH]; intros pos Hp.
  - destruct n; cbn [app replicate display_loop]; [done|]. done.
  - cbn [app display_loop length] in *. case_if.
    + apply orb_prop in Hif as [?|?]; zbool; lia.
    + rewrite IH by lia. done.
Qed.

Lemma c_str_app cs : Forall (fun c => c <> 0) cs -> forall r, c_str (cs ++ 0 :: r) = cs.
Proof.
  intros Hc r. induction Hc as [|c cs H0 Hc IH]; [done|].
  cbn [app c_str]. destruct (Z.eqb_spec c 0); [done|]. by rewrite IH.
Qed.

Lemma name83_base_short base i out rest :
  Forall short_char base -> (i + length base <= 8)%nat ->
  (match rest with [] => True | c :: _ => c = 46 end) ->
  length out = 11%nat ->
  name83_base (base ++ rest) i out = (rest, take i out ++ base ++ drop (i + length base) out).
Proof.
  intros Hb. revert i out. induction Hb as [|c base [_ [_ [Hd Hu]]] Hb IH];
    intros i out Hl Hr Hlen; cbn [app length] in *.
  - rewrite Nat.add_0_r, take_drop. destruct rest as [|c rest]; [done|].
    cbn [name83_base]. by subst c.
  - cbn [name83_base]. destruct (Z.eqb_spec c 46); [done|].
    destruct (Nat.leb_spec 8 i); [lia|]. cbn [orb].
    rewrite IH, Hu by (rewrite ?length_insert; done || lia). f_equal.
    rewrite (take_S_r _ i c) by (rewrite list_lookup_insert_eq; [done|lia]).
    rewrite take_insert_ge, drop_insert_lt by lia.
    rewrite <- app_assoc. cbn [app]. do 3 f_equal. f_equal. lia.
Qed.

Lemma name83_ext_short ext i out :
  Forall short_char ext -> (i + length ext <= 11)%nat -> length out = 11%nat ->
  name83_ext ext i out = take i out ++ ext ++ drop (i + length ext) out.
Proof.
  intros Hb. revert i out. induction Hb as [|c ext [_ [_ [_ Hu]]] Hb IH];
    intros i out Hl Hlen; cbn [length app] in *.
  - cbn [name83_ext]. by rewrite Nat.add_0_r, take_drop.
  - cbn [name83_ext]. destruct (Nat.leb_spec 11 i); [lia|].
    rewrite IH, Hu by (rewrite ?length_insert; done || lia).
    rewrite (take_S_r _ i c) by (rewrite list_lookup_insert_eq; [done|lia]).
    rewrite take_insert_ge, drop_insert_lt by lia.
    rewrite <- app_assoc. cbn [app]. do 3 f_equal. f_equal. lia.
Qed.

(** Round trip of short names: a listed 8.3 entry's display string, typed
    back as a file name, converts to exactly the eleven bytes stored in the
    directory, so every listed short name can be opened. *)
Theorem short_name_display_roundtrip e base ext out_size :
  short_name_entry e base ext -> 13 <= out_size < 4294967296 ->
  fat_name_to_83 (c_str (fat_short_name_to_display e out_size)) = de_name e ++ de_ext e.
Proof.
  intros (Hbl & Hel & Hb & He & Hn & Hx) Hos.
  unfold fat_short_name_to_display. rewrite u32_small by (unfold is_u32; lia).
  rewrite Hn, Hx, display_loop_padded by (done || lia).
  assert (Hnz : forall l, Forall short_char l -> Forall (fun c => c <> 0) l)
    by (intros l Hl; eapply Forall_impl; [done|]; by intros ? [? _]).
  destruct ext as [|x ext].
  - change (byte_at ([] ++ replicate (3 - length []) 32) 0) with 32.
    cbn [Z.eqb negb andb app Pos.eqb].
    rewrite c_str_app by auto. unfold fat_name_to_83.
    rewrite <- (app_nil_r base) at 1.
    rewrite name83_base_short by (done || lia). cbn [name83_skip Nat.add].
    rewrite take_0, drop_replicate. cbn [app length].
    rewrite <- app_assoc, <- replicate_add. do 2 f_equal. lia.
  - apply Forall_cons_1 in He as [Hx1 He]. pose proof Hx1 as (Hx0 & Hx32 & Hx46 & Hxu).
    change (byte_at ((x :: ext) ++ replicate (3 - length (x :: ext)) 32) 0) with x.
    destruct (Z.eqb_spec x 32); [done|]. cbn [negb andb].
    destruct (Z.ltb_spec (Z.of_nat (length base)) (out_size - 1)); [|lia].
    rewrite display_loop_padded by (cbn [length] in *; (by constructor) || lia).
    replace (base ++ (46 :: x :: ext) ++ [0]) with ((base ++ 46 :: x :: ext) ++ [0])
      by (by rewrite <- app_assoc).
    rewrite c_str_app by (apply Forall_app; eauto 10).
    unfold fat_name_to_83. rewrite name83_base_short by (done || lia).
    cbn [name83_skip Z.eqb Pos.eqb]. cbn [length] in Hel.
    rewrite name83_ext_short; [|by constructor|cbn [length]; lia|].
    2:{ rewrite !length_app, length_take, length_drop, length_replicate. lia. }
    rewrite take_0, drop_replicate. cbn [app Nat.add].
    rewrite take_app_ge, take_replicate by lia.
    rewrite drop_app_ge, drop_replicate by (cbn [length]; lia).
    f_equal; [f_equal; f_equal; lia|]. do 3 f_equal. cbn [length]. lia.
Qed.

Lemma short_name_display_roundtrip_witness :
  fat_name_to_83 (c_str (fat_short_name_to_display
    (mk_dir_entry [82; 69; 65; 68; 77; 69; 32; 32] [84; 88; 84] 0 0 0 0 0 0 0 0 0 0 0) 64))
  = [82; 69; 65; 68; 77; 69; 32; 32; 84; 88; 84].
Proof.
  refine (short_name_display_roundtrip _ [82; 69; 65; 68; 77; 69] [84; 88; 84] 64 _ _);
    [|lia].
  repeat split; cbn; try lia; repeat constructor; vm_compute; done.
Defined.

(** ** Case-insensitive comparison *)
Lemma names_equal_ci_spec a b :
  names_equal_ci a b = true <-> upcase <$> a = upcase <$> b.
Proof.
  revert b. induction a as [|ca a IH]; intros [|cb b]; cbn; [done..|].
  destruct (Z.eqb_spec (upcase ca) (upcase cb)) as [E|E].
  - rewrite IH, E. split; [by intros ->|by intros [=]].
  - split; [done|]. by intros [=].
Qed.

(** ** Long names *)

(** The buffer always has its 256 bytes and ends in a terminator, so it can
    be read as a C string. *)
Definition lfn_wf (l : lfn_state) : Prop :=
  length (lfn_buffer l) = 256%nat /\ lfn_buffer l !! 255%nat = Some 0.

Lemma lfn_fold_length cs pos buf : length (lfn_fold cs pos buf) = length buf.
Proof.
  revert pos buf. induction cs as [|c cs IH]; intros pos buf; cbn [lfn_fold]; [done|].
  repeat case_if; rewrite ?IH; rewrite ?length_insert; done.
Qed.

Lemma lfn_fold_outside cs pos buf i :
  (i < pos \/ pos + length cs <= i)%nat -> lfn_fold cs pos buf !! i = buf !! i.
Proof.
  revert pos buf. induction cs as [|c cs IH]; intros pos buf H; cbn [lfn_fold length] in *;
    [done|].
  repeat case_if; rewrite ?IH by lia; rewrite ?list_lookup_insert_ne by lia; done.
Qed.

Lemma lfn_reset_wf l : lfn_wf (lfn_reset l).
Proof. split; [apply length_replicate|done]. Qed.

Lemma lfn_accumulate_wf l e :
  length (le_name1 e ++ le_name2 e ++ le_name3 e) = 13%nat ->
  lfn_wf l -> lfn_wf (lfn_accumulate l e).
Proof.
  intros Hn [Hl H0]. unfold lfn_accumulate, LFN_MAX_CHARS.
  set (o := Z.land (le_sequence e) 31). case_if; [done|].
  destruct (if negb (lfn_has_data l) then _ else _) as [ck ckv].
  split; cbn [lfn_buffer]; [by rewrite lfn_fold_length|].
  rewrite lfn_fold_outside, H0 by lia. done.
Qed.

(** The VFAT encoding of a name: UTF-16 code units, a terminator and 0xFFFF
    padding, thirteen units to an entry, ordinals counted from one with bit
    0x40 on the last, entries stored in descending order. *)
Definition lfn_unit (name : list Z) (i : nat) : Z :=
  match name !! i with
  | Some c => c
  | None => if (i =? length name)%nat then 0 else 65535
  end.

Definition lfn_units (name : list Z) (from n : nat) : list Z :=
  lfn_unit name <$> seq from n.

Definition lfn_entry_of (name : list Z) (ck : Z) (last : bool) (k : nat) : fat_lfn_entry :=
  let b := (13 * k)%nat in
  mk_lfn_entry (Z.of_nat (S k) + if last then 64 else 0)
    (lfn_units name b 5) 15 0 ck (lfn_units name (b + 5) 6) 0 (lfn_units name (b + 11) 2).

Fixpoint lfn_entries (name : list Z) (ck : Z) (top : nat) (k : nat) : list fat_lfn_entry :=
  match k with
  | O => []
  | S k' => lfn_entry_of name ck (S k' =? top)%nat k' :: lfn_entries name ck top k'
  end.

Lemma lfn_units_cons name from n :
  lfn_units name from (S n) = lfn_unit name from :: lfn_units name (S from) n.
Proof. done. Qed.

Lemma lfn_units_app name from a b :
  lfn_units name from a ++ lfn_units name (from + a) b = lfn_units name from (a + b).
Proof. unfold lfn_units. by rewrite <- fmap_app, <- seq_app. Qed.

Lemma lfn_fold_units name n from buf i :
  Forall (fun c => 1 <= c < 128) name -> (from + n <= length buf)%nat ->
  (forall j, (from <= j < from + n)%nat -> buf !! j = Some 0) ->
  (from <= i < from + n)%nat ->
  lfn_fold (lfn_units name from n) from buf !! i = Some (default 0 (name !! i)).
Proof.
  intros Hn. revert from buf. induction n as [|n IH]; intros from buf Hl Hz Hi; [lia|].
  rewrite lfn_units_cons. cbn [lfn_fold]. unfold lfn_unit.
  destruct (name !! from) as [c|] eqn:E.
  - assert (1 <= c < 128) by (eapply Forall_lookup in Hn; eauto).
    destruct (Z.eqb_spec c 0); [lia|]. destruct (Z.eqb_spec c 65535); [lia|].
    destruct (Z.ltb_spec c 128); [|lia]. destruct (decide (i = from)) as [->|].
    + rewrite lfn_fold_outside by lia. rewrite list_lookup_insert_eq by lia. by rewrite E.
    + apply IH; [rewrite length_insert; lia| |lia]. intros j Hj.
      rewrite list_lookup_insert_ne by lia. apply Hz. lia.
  - assert (name !! i = None) as ->
      by (apply lookup_ge_None in E; apply lookup_ge_None; lia).
    destruct (Nat.eqb_spec from (length name)); cbn [Z.eqb Pos.eqb default].
    + destruct (decide (i = from)) as [->|]; [rewrite list_lookup_insert_eq by lia; done|].
      rewrite list_lookup_insert_ne by lia. apply Hz. lia.
    + apply Hz. lia.
Qed.

Lemma land_31 k (last : bool) : (k <= 18)%nat ->
  Z.land (Z.of_nat (S k) + if last then 64 else 0) 31 = Z.of_nat (S k).
Proof.
  intros Hk. change 31 with (Z.ones 5). rewrite Z.land_ones by lia.
  change (2 ^ 5) with 32. destruct last; dlia.
Qed.

(** The reconstruction state after the entries with ordinals above [k]. *)
Definition lfn_above (name : list Z) (ck : Z) (k : nat) (l : lfn_state) : Prop :=
  length (lfn_buffer l) = 256%nat /\
  (forall i, (i < 256)%nat ->
     lfn_buffer l !! i = Some (if (i <? 13 * k)%nat then 0 else default 0 (name !! i))) /\
  (lfn_has_data l = true -> lfn_checksum l = ck /\ lfn_checksum_valid l = true).

Lemma lfn_accumulate_above name ck last k l :
  Forall (fun c => 1 <= c < 128) name -> (k <= 18)%nat ->
  lfn_above name ck (S k) l ->
  lfn_above name ck k (lfn_accumulate l (lfn_entry_of name ck last k)) /\
  lfn_has_data (lfn_accumulate l (lfn_entry_of name ck last k)) = true.
Proof.
  intros Hn Hk (Hl & Hb & Hc). unfold lfn_accumulate, lfn_entry_of, LFN_MAX_CHARS.
  cbn [le_sequence le_checksum le_name1 le_name2 le_name3]. rewrite land_31 by done.
  destruct (Z.ltb_spec (Z.of_nat (S k)) 1); [lia|].
  rewrite Z.gtb_ltb. destruct (Z.ltb_spec (256 - 1) ((Z.of_nat (S k) - 1) * 13 + 13)); [lia|].
  cbn [orb]. replace (13 * k + 11)%nat with (13 * k + 5 + 6)%nat by lia.
  rewrite !lfn_units_app. cbn [Nat.add].
  replace (Z.to_nat ((Z.of_nat (S k) - 1) * 13)) with (13 * k)%nat by lia.
  destruct (if negb (lfn_has_data l) then _ else _) as [ck' ckv] eqn:E.
  split; [|done]. split; [by cbn [lfn_buffer]; rewrite lfn_fold_length|].
  cbn [lfn_buffer lfn_has_data lfn_checksum lfn_checksum_valid]. split.
  - intros i Hi. destruct (decide (13 * k <= i < 13 * k + 13)%nat) as [Hr|Hr].
    + rewrite lfn_fold_units; [|done|lia| |lia].
      * destruct (Nat.ltb_spec i (13 * k)); [lia|done].
      * intros j Hj. rewrite Hb by lia. by destruct (Nat.ltb_spec j (13 * S k)); [|lia].
    + rewrite lfn_fold_outside.
      2:{ unfold lfn_units. rewrite length_fmap, length_seq. lia. }
      rewrite Hb by done.
      destruct (Nat.ltb_spec i (13 * S k)), (Nat.ltb_spec i (13 * k)); done || lia.
  - intros _. destruct (lfn_has_data l); simpl in E.
    + destruct Hc as [Hc1 Hc2]; [done|]. rewrite Hc1, Hc2, Z.eqb_refl in E. by simplify_eq.
    + by simplify_eq.
Qed.

Lemma lfn_entries_above name ck top k l :
  Forall (fun c => 1 <= c < 128) name -> (0 < k <= 19)%nat ->
  lfn_above name ck k l ->
  lfn_above name ck 0 (foldl lfn_accumulate l (lfn_entries name ck top k)) /\
  lfn_has_data (foldl lfn_accumulate l (lfn_entries name ck top k)) = true.
Proof.
  intros Hn. revert l. induction k as [|k IH]; intros l Hk H; [lia|].
  cbn [lfn_entries foldl].
  apply (lfn_accumulate_above name ck (S k =? top)%nat k) in H; [|done|lia].
  destruct H as [H Hd]. destruct k as [|k]; [done|].
  apply IH; [lia|done].
Qed.

Lemma c_str_buffer buf name :
  Forall (fun c => c <> 0) name -> (length name < length buf)%nat ->
  (forall i, (i <= length name)%nat -> buf !! i = Some (default 0 (name !! i))) ->
  c_str buf = name.
Proof.
  intros Hn Hl Hb.
  assert (buf = name ++ 0 :: drop (S (length name)) buf) as ->.
  { rewrite <- (take_drop (length name) buf) at 1. f_equal.
    - apply list_eq. intros i. destruct (decide (i < length name)%nat) as [Hi|Hi].
      + rewrite lookup_take_lt, Hb by lia.
        destruct (name !! i) eqn:E; [done|]. apply lookup_ge_None in E. lia.
      + rewrite lookup_take_ge by lia. symmetry. apply lookup_ge_None. lia.
    - apply drop_S. rewrite Hb by lia.
      destruct (name !! length name) eqn:E; [|done]. apply lookup_lt_Some in E. lia. }
  by apply c_str_app.
Qed.

(** Round trip of long names: scanning the VFAT entries of an ASCII name of
    at most 247 characters, in their on-disk (descending) order, rebuilds the
    name exactly, with the checksum of its group and the valid mark set. *)
Theorem lfn_roundtrip l name ck :
  Forall (fun c => 1 <= c < 128) name -> (0 < length name <= 247)%nat ->
  let top := ((length name + 12) / 13)%nat in
  let l' := foldl lfn_accumulate (lfn_reset l) (lfn_entries name ck top top) in
  c_str (lfn_buffer l') = name /\ lfn_has_data l' = true /\
  lfn_checksum l' = ck /\ lfn_checksum_valid l' = true.
Proof.
  intros Hn Hlen top l'.
  assert (Htop : (length name <= 13 * top < length name + 13)%nat).
  { pose proof (Nat.div_mod_eq (length name + 12) 13).
    pose proof (Nat.mod_upper_bound (length name + 12) 13). subst top. lia. }
  destruct (lfn_entries_above name ck top top (lfn_reset l)) as [(H1 & H2 & H3) Hd];
    [done|lia| |].
  - split; [apply length_replicate|]. split; [|done].
    intros i Hi. cbn [lfn_reset lfn_buffer]. rewrite lookup_replicate_2 by done.
    destruct (Nat.ltb_spec i (13 * top)); [done|].
    assert (name !! i = None) as -> by (apply lookup_ge_None; lia). done.
  - specialize (H3 Hd) as [H3 H4]. repeat split; [|done..].
    apply c_str_buffer.
    + eapply Forall_impl; [done|]. cbn. lia.
    + subst l'. rewrite H1. lia.
    + intros i Hi. subst l'. rewrite H2 by lia. done.
Qed.

Lemma lfn_roundtrip_witness :
  let name := [108; 111; 110; 103; 45; 102; 105; 108; 101; 45; 110; 97; 109; 101; 46; 116] in
  c_str (lfn_buffer (foldl lfn_accumulate (lfn_reset lfn_boot) (lfn_entries name 77 2 2))) = name.
Proof.
  intros name.
  destruct (lfn_roundtrip lfn_boot name 77) as [H _].
  - repeat constructor; lia.
  - cbn; lia.
  - exact H.
Defined.
