(* ===== verification/FatTable.v ===== *)
(** * The file allocation table (src/src/fat.c)

    Reading and writing FAT entries, allocating, walking and freeing cluster
    chains, with the volume layout computed by [fat_init]. *)
From S2P Require Import Prelude FatTypes.

Section FatTable.
Context {D : Type} `{BlockDevice D}.

(** ** Operations *)

(** The byte at index [i] of the boot sector, as the packed BPB names it. *)
Definition bpb_bytes_per_sector (b : list Z) : Z := get_le16 b 11.
Definition bpb_sectors_per_cluster (b : list Z) : Z := byte_at b 13.
Definition bpb_reserved_sector_count (b : list Z) : Z := get_le16 b 14.
Definition bpb_num_fats (b : list Z) : Z := byte_at b 16.
Definition bpb_root_entry_count (b : list Z) : Z := get_le16 b 17.
Definition bpb_fat_size_16 (b : list Z) : Z := get_le16 b 22.
Definition bpb_fs_type (b : list Z) (k : Z) : Z := byte_at b (54 + k).

(** [fat_init]: the messages printed, and the mounted state or [Err]. *)
Definition fat_init (s : fat_state D) : list tty * res (fat_state D) :=
  match ata_read_sector (disk s) 0 with
  | None => ([TLn "FAT: could not read boot sector"], Err)
  | Some boot =>
      if negb (byte_at boot 510 =? 85) || negb (byte_at boot 511 =? 170) then
        ([TLn "FAT: no boot signature, not a FAT volume"], Err)
      else if negb (bpb_bytes_per_sector boot =? ATA_SECTOR_SIZE) then
        ([TLn "FAT: unsupported sector size"], Err)
      else if negb (bpb_fs_type boot 0 =? 70) || negb (bpb_fs_type boot 1 =? 65)
           || negb (bpb_fs_type boot 2 =? 84) || negb (bpb_fs_type boot 3 =? 49)
           || negb (bpb_fs_type boot 4 =? 54) then
        ([TLn "FAT: not FAT16 (or fs_type field unset)"], Err)
      else
        let spc := bpb_sectors_per_cluster boot in
        let rec := bpb_root_entry_count boot in
        let nf := bpb_num_fats boot in
        let fsz := bpb_fat_size_16 boot in
        let fstart := bpb_reserved_sector_count boot in
        let rstart := u32 (fstart + u32 (nf * fsz)) in
        let rsec := u32 (u32 (rec * 32) + (ATA_SECTOR_SIZE - 1)) / ATA_SECTOR_SIZE in
        let dstart := u32 (rstart + rsec) in
        ([TStr "FAT: FAT16 volume detected, "; TDec rec; TStr " root entries, ";
          TDec spc; TLn " sectors/cluster"],
         OK (mk_fat (disk s) (mk_volume fstart rstart rsec dstart rec spc nf fsz)
               true (open_files s)))
  end.

Definition fat_get_next_cluster (d : D) (v : fat_volume) (cluster : Z) : Z :=
  let fat_offset := cluster * 2 in
  let fat_sector := fat_start_lba v + fat_offset / ATA_SECTOR_SIZE in
  let offset_in_sector := fat_offset mod ATA_SECTOR_SIZE in
  match ata_read_sector d fat_sector with
  | None => 65535
  | Some sector_buf => get_le16 sector_buf (2 * (offset_in_sector / 2))
  end.

(** The loop of [fat_set_cluster_entry] over the FAT copies [copy], ...,
    [copy + n - 1]. *)
Fixpoint set_entry_copies (d : D) (v : fat_volume) (sector_offset offset_in_sector value : Z)
    (copy : Z) (n : nat) : D :=
  match n with
  | O => d
  | S n' =>
      let sector := fat_start_lba v + copy * fat_size_sectors v + sector_offset in
      let d' :=
        match ata_read_sector d sector with
        | None => d
        | Some sector_buf =>
            default d (ata_write_sector d sector
              (splice sector_buf (Z.to_nat (2 * (offset_in_sector / 2))) (put_le16 value)))
        end in
      set_entry_copies d' v sector_offset offset_in_sector value (copy + 1) n'
  end.

Definition fat_set_cluster_entry (d : D) (v : fat_volume) (cluster value : Z) : D :=
  let fat_offset := cluster * 2 in
  set_entry_copies d v (fat_offset / ATA_SECTOR_SIZE) (fat_offset mod ATA_SECTOR_SIZE)
    value 0 (Z.to_nat (num_fats v)).

(** The scan of [fat_alloc_cluster], with the FAT sector it keeps loaded. *)
Fixpoint alloc_loop (d : D) (v : fat_volume) (cluster : Z) (n : nat)
    (loaded_sector : Z) (sector_buf : list Z) : D * Z :=
  match n with
  | O => (d, 0)
  | S n' =>
      let fat_offset := cluster * 2 in
      let sector := fat_start_lba v + fat_offset / ATA_SECTOR_SIZE in
      let offset_in_sector := fat_offset mod ATA_SECTOR_SIZE in
      match (if sector =? loaded_sector then Some sector_buf else ata_read_sector d sector) with
      | None => (d, 0)
      | Some buf =>
          if get_le16 buf (2 * (offset_in_sector / 2)) =? 0
          then (fat_set_cluster_entry d v (u16 cluster) 65535, u16 cluster)
          else alloc_loop d v (cluster + 1) n' sector buf
      end
  end.

Definition total_entries (v : fat_volume) : Z := u32 (fat_size_sectors v * (ATA_SECTOR_SIZE / 2)).

Definition fat_alloc_cluster (d : D) (v : fat_volume) : D * Z :=
  alloc_loop d v 2 (Z.to_nat (total_entries v - 2)) 4294967295 [].

(** [cluster >= 2 && cluster < 0xFFF8]: an ordinary link of a chain. *)
Definition valid_cluster (c : Z) : bool := (2 <=? c) && (c <? 65528).

Fixpoint last_loop (fuel : nat) (d : D) (v : fat_volume) (cluster next : Z) : res Z :=
  match fuel with
  | O => Fuel
  | S fuel' =>
      if valid_cluster next
      then last_loop fuel' d v next (fat_get_next_cluster d v next)
      else OK cluster
  end.

Definition fat_find_last_cluster (fuel : nat) (d : D) (v : fat_volume) (first : Z) : res Z :=
  if negb (valid_cluster first) then OK 0
  else last_loop fuel d v first (fat_get_next_cluster d v first).

Fixpoint fat_free_chain (fuel : nat) (d : D) (v : fat_volume) (cluster : Z) : res D :=
  match fuel with
  | O => Fuel
  | S fuel' =>
      if valid_cluster cluster then
        let next := fat_get_next_cluster d v cluster in
        fat_free_chain fuel' (fat_set_cluster_entry d v cluster 0) v next
      else OK d
  end.

(** The first sector of a data cluster, in 32-bit arithmetic. *)
Definition cluster_lba (v : fat_volume) (cluster : Z) : Z :=
  u32 (data_start_lba v + u32 (cluster - 2) * sectors_per_cluster v).

(** ** Specifications *)

(** The layout [fat_init] computes from any boot sector: no term of it
    overflows 32 bits. *)
Definition vol_wf (v : fat_volume) : Prop :=
  0 <= fat_start_lba v < 65536 /\ 0 <= num_fats v < 256 /\
  0 <= fat_size_sectors v < 65536 /\ 0 <= root_entry_count v < 65536 /\
  0 <= sectors_per_cluster v < 256 /\
  root_dir_start_lba v = fat_start_lba v + num_fats v * fat_size_sectors v /\
  root_dir_sectors v = (root_entry_count v * 32 + 511) / 512 /\
  data_start_lba v = root_dir_start_lba v + root_dir_sectors v.

(** A usable volume: at least one FAT, non-empty clusters, a boot sector, and
    a FAT whose entries all number ordinary clusters. *)
Definition vol_ok (v : fat_volume) : Prop :=
  vol_wf v /\ 1 <= num_fats v /\ 1 <= sectors_per_cluster v /\
  1 <= fat_start_lba v /\ 1 <= fat_size_sectors v <= 255.

(** Every sector of every FAT copy can be read. *)
Definition fat_readable (d : D) (v : fat_volume) : Prop :=
  forall lba, fat_start_lba v <= lba < root_dir_start_lba v ->
    is_Some (ata_read_sector d lba).

(** The FAT copies hold the same sectors. *)
Definition fat_mirrored (d : D) (v : fat_volume) : Prop :=
  forall copy s, 0 <= copy < num_fats v -> 0 <= s < fat_size_sectors v ->
    ata_read_sector d (fat_start_lba v + copy * fat_size_sectors v + s) =
    ata_read_sector d (fat_start_lba v + s).

(** [cs] is the cluster chain that starts at [c]. *)
Inductive chain (d : D) (v : fat_volume) : Z -> list Z -> Prop :=
| chain_end c : valid_cluster c = false -> chain d v c []
| chain_link c cs :
    valid_cluster c = true -> chain d v (fat_get_next_cluster d v c) cs ->
    chain d v c (c :: cs).
End FatTable.

Section FatTableProofs.
Context {D : Type} `{BlockDevice D} `{!BlockDeviceLaws D}.
Implicit Types (d : D) (v : fat_volume).

(** ** Layout *)
Lemma fat_init_wf s s' msgs :
  fat_init s = (msgs, OK s') -> vol_wf (vol s') /\ fat_ready s' = true /\
  disk s' = disk s /\ open_files s' = open_files s.
Proof.
  unfold fat_init. destruct (ata_read_sector (disk s) 0) as [boot|] eqn:E; [|done].
  apply read_is_sector in E as [_ Hb]. repeat (case_if; [done|]).
  intros [= _ <-]. cbn [vol fat_ready disk open_files]. split; [|done].
  pose proof (byte_at_byte boot 13 Hb). pose proof (byte_at_byte boot 16 Hb).
  pose proof (get_le16_is boot 14 Hb). pose proof (get_le16_is boot 17 Hb).
  pose proof (get_le16_is boot 22 Hb).
  unfold vol_wf, bpb_sectors_per_cluster, bpb_num_fats, bpb_reserved_sector_count,
    bpb_root_entry_count, bpb_fat_size_16, is_byte, is_u16 in *.
  cbn [fat_start_lba num_fats fat_size_sectors root_entry_count sectors_per_cluster
       root_dir_start_lba root_dir_sectors data_start_lba].
  set (a := byte_at boot 16) in *. set (b := get_le16 boot 22) in *.
  set (r := get_le16 boot 17) in *.
  assert (0 <= a * b <= 255 * 65535) by nia.
  rewrite !(u32_small (_ * _)) by (unfold is_u32; lia).
  change (ATA_SECTOR_SIZE - 1) with 511. change ATA_SECTOR_SIZE with 512.
  rewrite (u32_small (r * 32 + 511)) by (unfold is_u32; lia).
  rewrite (u32_small (get_le16 boot 14 + a * b)) by (unfold is_u32; lia).
  assert (0 <= (r * 32 + 511) / 512 < 5000) by dlia.
  rewrite u32_small by (unfold is_u32; lia). lia.
Qed.

(** ** Reading and writing one entry *)
Definition copy_sector v (so k : Z) : Z := fat_start_lba v + k * fat_size_sectors v + so.

Lemma copy_sector_inj v so so' k k' :
  0 <= so < fat_size_sectors v -> 0 <= so' < fat_size_sectors v ->
  copy_sector v so k = copy_sector v so' k' -> so = so' /\ k = k'.
Proof.
  unfold copy_sector. intros Hs Hs' E. assert (k = k'); [|lia].
  destruct (Z.lt_trichotomy k k') as [?|[?|?]]; nia.
Qed.

(** Every FAT sector is a sector of one copy. *)
Lemma copy_sector_cover v lba :
  vol_ok v -> fat_start_lba v <= lba < root_dir_start_lba v ->
  exists so k, 0 <= so < fat_size_sectors v /\ 0 <= k < num_fats v /\ lba = copy_sector v so k.
Proof.
  intros ((_ & Hnf & _ & _ & _ & Hroot & _) & _ & _ & _ & Hfs) Hl. rewrite Hroot in Hl.
  set (x := lba - fat_start_lba v).
  exists (x mod fat_size_sectors v), (x / fat_size_sectors v).
  pose proof (Z.div_mod x (fat_size_sectors v)) as E.
  pose proof (Z.mod_pos_bound x (fat_size_sectors v)).
  assert (x / fat_size_sectors v < num_fats v)
    by (apply Z.div_lt_upper_bound; unfold x; lia).
  assert (0 <= x / fat_size_sectors v) by (apply Z.div_pos; unfold x; lia).
  unfold copy_sector. subst x. lia.
Qed.

Lemma splice_fat_sector b o value :
  is_sector b -> 0 <= o < 512 ->
  is_sector (splice b (Z.to_nat (2 * (o / 2))) (put_le16 value)).
Proof.
  intros [Hl Hb] Ho. split; [|auto with harold].
  rewrite splice_length; [done|]. cbn [put_le16 length]. dlia.
Qed.

Context `{!WorkingDevice D}.

Lemma set_copies_spec d v so o value copy n :
  0 <= so < fat_size_sectors v -> 0 <= o < 512 ->
  (forall k, copy <= k < copy + Z.of_nat n -> is_Some (ata_read_sector d (copy_sector v so k))) ->
  (forall lba, (forall k, copy <= k < copy + Z.of_nat n -> lba <> copy_sector v so k) ->
     ata_read_sector (set_entry_copies d v so o value copy n) lba = ata_read_sector d lba) /\
  (forall k b, copy <= k < copy + Z.of_nat n -> ata_read_sector d (copy_sector v so k) = Some b ->
     ata_read_sector (set_entry_copies d v so o value copy n) (copy_sector v so k) =
     Some (splice b (Z.to_nat (2 * (o / 2))) (put_le16 value))).
Proof.
  intros Hso Ho. revert d copy. induction n as [|n IH]; intros d copy Hr.
  { split; [done|lia]. }
  cbn [set_entry_copies]. fold (copy_sector v so copy).
  destruct (Hr copy) as [b Hb]; [lia|]. rewrite Hb.
  pose proof (read_is_sector _ _ _ Hb) as Hsec.
  pose proof (splice_fat_sector b o value Hsec Ho) as Hsec'.
  destruct (write_readable d (copy_sector v so copy) _ ltac:(eauto) Hsec') as [d1 Hd1].
  rewrite Hd1. cbn [default].
  assert (Hoth : forall lba, lba <> copy_sector v so copy ->
    ata_read_sector d1 lba = ata_read_sector d lba)
    by (intros; eapply write_read_other; eauto).
  destruct (IH d1 (copy + 1)) as [IH1 IH2].
  { intros k Hk. rewrite Hoth; [apply Hr; lia|].
    intros E. apply copy_sector_inj in E; lia. }
  split.
  - intros lba Hl. rewrite IH1 by (intros; apply Hl; lia). apply Hoth, Hl. lia.
  - intros k b' Hk Hb'. destruct (decide (k = copy)) as [->|Hne].
    + rewrite IH1.
      2:{ intros k' Hk' E. apply copy_sector_inj in E; lia. }
      assert (b' = b) as -> by congruence. eapply write_read_same; eauto.
    + apply IH2; [lia|]. rewrite Hoth; [done|].
      intros E. apply copy_sector_inj in E; lia.
Qed.

(** The bound on the clusters a FAT describes. *)
Definition cluster_in v (c : Z) : Prop := 0 <= c < fat_size_sectors v * 256.

Lemma cluster_in_sector v c : cluster_in v c -> 0 <= c * 2 / 512 < fat_size_sectors v.
Proof. unfold cluster_in. intros. dlia. Qed.

Lemma entry_offset c : 2 * ((c * 2) mod 512 / 2) = (c * 2) mod 512.
Proof. dlia. Qed.

Lemma get_next_read d v c b :
  ata_read_sector d (copy_sector v (c * 2 / 512) 0) = Some b ->
  fat_get_next_cluster d v c = get_le16 b ((c * 2) mod 512).
Proof.
  unfold fat_get_next_cluster, copy_sector, ATA_SECTOR_SIZE.
  rewrite Z.mul_0_l, Z.add_0_r, entry_offset. by intros ->.
Qed.

Lemma copy_sector_readable d v so k :
  vol_ok v -> fat_readable d v -> 0 <= so < fat_size_sectors v -> 0 <= k < num_fats v ->
  is_Some (ata_read_sector d (copy_sector v so k)).
Proof.
  intros [Hwf _] Hr Hso Hk. destruct Hwf as (_ & _ & _ & _ & _ & Hroot & _).
  apply Hr. rewrite Hroot. unfold copy_sector. nia.
Qed.

Lemma get_next_u16 d v c : is_u16 (fat_get_next_cluster d v c).
Proof.
  unfold fat_get_next_cluster. destruct (ata_read_sector _ _) as [b|] eqn:E.
  - apply read_is_sector in E as [_ Hb]. by apply get_le16_is.
  - unfold is_u16; lia.
Qed.

(** What one call of [fat_set_cluster_entry] does to the volume. *)
Record set_entry_result d d' v c value : Prop := {
  ser_same : fat_get_next_cluster d' v c = value;
  ser_other c' : c' <> c -> cluster_in v c' ->
    fat_get_next_cluster d' v c' = fat_get_next_cluster d v c';
  ser_outside lba : (lba < fat_start_lba v \/ root_dir_start_lba v <= lba) ->
    ata_read_sector d' lba = ata_read_sector d lba;
  ser_readable : fat_readable d' v;
  ser_mirrored : fat_mirrored d v -> fat_mirrored d' v }.

Lemma set_entry_sectors d v c value :
  vol_ok v -> fat_readable d v -> cluster_in v c ->
  (forall lba, (forall k, 0 <= k < num_fats v -> lba <> copy_sector v (c * 2 / 512) k) ->
     ata_read_sector (fat_set_cluster_entry d v c value) lba = ata_read_sector d lba) /\
  (forall k b, 0 <= k < num_fats v -> ata_read_sector d (copy_sector v (c * 2 / 512) k) = Some b ->
     ata_read_sector (fat_set_cluster_entry d v c value) (copy_sector v (c * 2 / 512) k) =
     Some (splice b (Z.to_nat ((c * 2) mod 512)) (put_le16 value))).
Proof.
  intros Hv Hr Hc. pose proof (cluster_in_sector v c Hc) as Hso.
  destruct (set_copies_spec d v (c * 2 / 512) ((c * 2) mod 512) value 0
    (Z.to_nat (num_fats v))) as [H1 H2]; [done|dlia| |].
  - intros k Hk. apply copy_sector_readable; [done..|]. destruct Hv as [Hwf _].
    destruct Hwf as (_ & ? & _). lia.
  - assert (Hn : 0 + Z.of_nat (Z.to_nat (num_fats v)) = num_fats v)
      by (destruct Hv as [(_ & ? & _) _]; lia).
    rewrite Hn, entry_offset in *. done.
Qed.

Lemma set_entry_spec d v c value :
  vol_ok v -> fat_readable d v -> cluster_in v c -> is_u16 value ->
  set_entry_result d (fat_set_cluster_entry d v c value) v c value.
Proof.
  intros Hv Hr Hc Hval. pose proof (cluster_in_sector v c Hc) as Hso.
  destruct (set_entry_sectors d v c value Hv Hr Hc) as [H1 H2].
  set (d' := fat_set_cluster_entry d v c value) in *.
  pose proof Hv as ((_ & Hnf & _ & _ & _ & Hroot & _) & Hnf1 & _ & _ & Hfs).
  assert (Hoth : forall so k, 0 <= so < fat_size_sectors v -> so <> c * 2 / 512 ->
    ata_read_sector d' (copy_sector v so k) = ata_read_sector d (copy_sector v so k))
    by (intros so k Hs Hne; apply H1; intros k' _ E; apply copy_sector_inj in E; [lia|done|done]).
  destruct (copy_sector_readable d v (c * 2 / 512) 0) as [b0 Hb0]; [done..|lia|].
  pose proof (read_is_sector _ _ _ Hb0) as [Hlen _].
  split.
  - rewrite (get_next_read d' v c (splice b0 (Z.to_nat ((c * 2) mod 512)) (put_le16 value)))
      by (apply H2; [lia|done]).
    replace ((c * 2) mod 512) with (Z.of_nat (Z.to_nat ((c * 2) mod 512))) at 2 by dlia.
    apply get_le16_splice_same; [done|]. rewrite Hlen. dlia.
  - intros c' Hne Hc'. destruct (decide (c' * 2 / 512 = c * 2 / 512)) as [E|E].
    + rewrite (get_next_read d' v c' (splice b0 (Z.to_nat ((c * 2) mod 512)) (put_le16 value)))
        by (rewrite E; apply H2; [lia|done]).
      rewrite (get_next_read d v c' b0) by (by rewrite E).
      apply get_le16_splice_other; [rewrite Hlen; dlia|dlia|].
      unfold cluster_in in *. dlia.
    + destruct (copy_sector_readable d v (c' * 2 / 512) 0) as [b1 Hb1];
        [done|done|by apply cluster_in_sector|lia|].
      rewrite (get_next_read d v c' b1) by done.
      apply get_next_read. rewrite Hoth; [done|by apply cluster_in_sector|done].
  - intros lba Hl. apply H1. intros k Hk ->. rewrite Hroot in Hl.
    unfold copy_sector in Hl. nia.
  - intros lba Hl. destruct (copy_sector_cover v lba Hv Hl) as (so & k & Hs & Hk & ->).
    destruct (Hr _ Hl) as [b Hb]. destruct (decide (so = c * 2 / 512)) as [->|Hne].
    + erewrite H2 by done. eauto.
    + rewrite Hoth by done. eauto.
  - intros Hm k so Hk Hs. fold (copy_sector v so k).
    replace (fat_start_lba v + so) with (copy_sector v so 0) by (unfold copy_sector; lia).
    assert (Em : ata_read_sector d (copy_sector v so k) = ata_read_sector d (copy_sector v so 0)).
    { unfold copy_sector at 2. rewrite Z.mul_0_l, Z.add_0_r. by apply Hm. }
    destruct (decide (so = c * 2 / 512)) as [->|Hne].
    + rewrite (H2 k b0), (H2 0 b0) by (lia || congruence). done.
    + by rewrite !Hoth.
Qed.

(** ** Allocation *)

(** The reference allocator: the first cluster from 2 on whose entry is 0. *)
Definition first_free d v : option Z :=
  find_from (fun c => fat_get_next_cluster d v c =? 0) 2
    (Z.to_nat (fat_size_sectors v * 256 - 2)).

Lemma alloc_loop_spec d v cluster n loaded buf :
  vol_ok v -> fat_readable d v -> 0 <= cluster ->
  cluster + Z.of_nat n <= fat_size_sectors v * 256 ->
  (loaded = 4294967295 \/ ata_read_sector d loaded = Some buf) ->
  alloc_loop d v cluster n loaded buf =
  match find_from (fun c => fat_get_next_cluster d v c =? 0) cluster n with
  | Some c => (fat_set_cluster_entry d v c 65535, c)
  | None => (d, 0)
  end.
Proof.
  intros Hv Hr. revert cluster loaded buf.
  induction n as [|n IH]; intros cluster loaded buf H0 Hn Hca; [done|].
  assert (Hci : cluster_in v cluster) by (unfold cluster_in; lia).
  destruct (copy_sector_readable d v (cluster * 2 / 512) 0) as [b Hb];
    [done..|by apply cluster_in_sector|destruct Hv as (_ & ? & _); lia|].
  assert (Hsec : copy_sector v (cluster * 2 / 512) 0 =
    fat_start_lba v + cluster * 2 / ATA_SECTOR_SIZE) by (unfold copy_sector, ATA_SECTOR_SIZE; lia).
  cbn [alloc_loop find_from]. rewrite <- Hsec.
  replace (if copy_sector v (cluster * 2 / 512) 0 =? loaded then Some buf
    else ata_read_sector d (copy_sector v (cluster * 2 / 512) 0)) with (Some b).
  2:{ case_if; [|done]. destruct Hca as [->|Hca]; [|congruence].
      destruct Hv as [(? & _) (_ & _ & _ & Hfs)]. exfalso.
      unfold copy_sector in Hif. pose proof (cluster_in_sector v cluster Hci). lia. }
  unfold ATA_SECTOR_SIZE. rewrite entry_offset, (get_next_read d v cluster b) by done.
  destruct (get_le16 b ((cluster * 2) mod 512) =? 0).
  - destruct Hv as (_ & _ & _ & _ & Hfs). rewrite u16_small by (unfold is_u16; lia). done.
  - apply IH; [lia|lia|]. right. done.
Qed.

Lemma total_entries_ok v : vol_ok v -> total_entries v = fat_size_sectors v * 256.
Proof.
  intros (_ & _ & _ & _ & Hfs). unfold total_entries, ATA_SECTOR_SIZE.
  change (512 / 2) with 256. apply u32_small. unfold is_u32. lia.
Qed.

(** C34: The cached scan of [fat_alloc_cluster] is the reference allocator: it
    claims the first free cluster as end-of-chain, or reports a full disk and
    writes nothing. *)
Theorem fat_alloc_cluster_first_free d v :
  vol_ok v -> fat_readable d v ->
  fat_alloc_cluster d v =
  match first_free d v with
  | Some c => (fat_set_cluster_entry d v c 65535, c)
  | None => (d, 0)
  end.
Proof.
  intros Hv Hr. unfold fat_alloc_cluster, first_free. rewrite total_entries_ok by done.
  apply alloc_loop_spec; [done..|lia| |by left].
  destruct Hv as (_ & _ & _ & _ & Hfs). lia.
Qed.

(** The outcomes of an allocation, as its callers use them. *)
Lemma alloc_cluster_cases d v d' c :
  vol_ok v -> fat_readable d v -> fat_alloc_cluster d v = (d', c) ->
  (c = 0 /\ d' = d /\ forall k, 2 <= k < fat_size_sectors v * 256 -> fat_get_next_cluster d v k <> 0) \/
  (2 <= c < fat_size_sectors v * 256 /\ fat_get_next_cluster d v c = 0 /\
   (forall k, 2 <= k < c -> fat_get_next_cluster d v k <> 0) /\
   set_entry_result d d' v c 65535).
Proof.
  intros Hv Hr. unfold fat_alloc_cluster. rewrite total_entries_ok by done.
  pose proof Hv as (_ & _ & _ & _ & Hfs).
  rewrite alloc_loop_spec by (done || lia || by left).
  destruct (find_from _ _ _) as [c0|] eqn:E.
  - intros [= <- <-]. right. apply find_from_Some in E as (Hc & Hz & Hmin).
    rewrite Z2Nat.id in Hc by lia. zbool. split; [lia|]. split; [done|]. split.
    + intros k Hk. specialize (Hmin k Hk). zbool. done.
    + apply set_entry_spec; [done..| |]; unfold cluster_in, is_u16; lia.
  - intros [= <- <-]. left. split; [done|]. split; [done|]. intros k Hk.
    rewrite find_from_None in E. specialize (E k). zbool.
    rewrite Z2Nat.id in E by lia. specialize (E ltac:(lia)). zbool. done.
Qed.

(** ** Chains *)
Lemma valid_cluster_range c : valid_cluster c = true <-> 2 <= c < 65528.
Proof. unfold valid_cluster. rewrite andb_true_iff, Z.leb_le, Z.ltb_lt. lia. Qed.

Lemma chain_det d v c cs cs' : chain d v c cs -> chain d v c cs' -> cs = cs'.
Proof.
  intros Hc. revert cs'. induction Hc as [c Hc|c cs Hc Hcs IH]; intros cs' H'.
  - inversion H'; [done|congruence].
  - inversion H'; [congruence|]. f_equal. auto.
Qed.

Lemma chain_elem_suffix d v c cs x :
  chain d v c cs -> x ∈ cs -> exists p q, cs = p ++ x :: q /\ chain d v x (x :: q).
Proof.
  induction 1 as [c Hc|c cs Hc Hcs IH]; intros Hx; [by apply not_elem_of_nil in Hx|].
  apply elem_of_cons in Hx as [->|Hx].
  - exists [], cs. split; [done|]. by constructor.
  - destruct (IH Hx) as (p & q & -> & Hq). exists (c :: p), q. done.
Qed.

(** A finite chain visits no cluster twice. *)
Lemma chain_NoDup d v c cs : chain d v c cs -> NoDup cs.
Proof.
  induction 1 as [c Hc|c cs Hc Hcs IH]; constructor; [|done].
  intros Hx. destruct (chain_elem_suffix _ _ _ _ _ Hcs Hx) as (p & q & -> & Hq).
  assert (chain d v c (c :: p ++ c :: q)) as H' by (by constructor).
  pose proof (chain_det _ _ _ _ _ H' Hq) as E.
  apply (f_equal length) in E. cbn in E. rewrite length_app in E. cbn in E. lia.
Qed.

Lemma chain_valid d v c cs : chain d v c cs -> Forall (fun x => valid_cluster x = true) cs.
Proof. induction 1; by constructor. Qed.

(** A chain depends only on the entries of its own clusters. *)
Lemma chain_frame d d' v c cs :
  chain d v c cs ->
  (forall x, x ∈ cs -> fat_get_next_cluster d' v x = fat_get_next_cluster d v x) ->
  chain d' v c cs.
Proof.
  induction 1 as [c Hc|c cs Hc Hcs IH]; intros Hf; [by constructor|].
  constructor; [done|]. rewrite Hf by (by left). apply IH. intros; apply Hf. by right.
Qed.

(** Linking a fresh end-of-chain cluster after the last one extends the chain. *)
Lemma chain_extend d d' v c cs last n :
  chain d v c (cs ++ [last]) -> valid_cluster n = true ->
  fat_get_next_cluster d' v last = n ->
  valid_cluster (fat_get_next_cluster d' v n) = false ->
  (forall x, x ∈ cs -> fat_get_next_cluster d' v x = fat_get_next_cluster d v x) ->
  chain d' v c (cs ++ [last; n]).
Proof.
  intros Hc Hn Hl He. revert c Hc. induction cs as [|x cs IH]; intros c Hc Hf.
  - cbn [app] in *. inversion Hc; subst. constructor; [done|].
    constructor; [done|]. by constructor.
  - cbn [app] in *. inversion Hc; subst. constructor; [done|].
    rewrite Hf by (by left). apply IH; [done|]. intros; apply Hf. by right.
Qed.

Lemma last_loop_spec d v fuel c next cs :
  chain d v next cs -> (length cs < fuel)%nat ->
  last_loop fuel d v c next = OK (default c (last cs)).
Proof.
  revert c next cs. induction fuel as [|fuel IH]; intros c next cs Hc Hf; [lia|].
  cbn [last_loop]. inversion Hc as [? Hv|? cs' Hv Hcs]; subst; rewrite Hv; [done|].
  cbn [length] in Hf. erewrite IH by (done || lia). rewrite last_cons.
  by destruct (last cs').
Qed.

Lemma find_last_spec d v fuel c cs :
  chain d v c cs -> (length cs <= fuel)%nat -> (0 < fuel)%nat ->
  fat_find_last_cluster fuel d v c = OK (default 0 (last cs)).
Proof.
  intros Hc Hf H0. unfold fat_find_last_cluster.
  inversion Hc as [? Hv|? cs' Hv Hcs]; subst; rewrite Hv; cbn [negb]; [done|].
  cbn [length] in Hf. erewrite last_loop_spec by (done || lia). rewrite last_cons.
  by destruct (last cs').
Qed.

(** [fat_free_chain] terminates on every finite chain and returns exactly
    its clusters to the free pool: their entries become 0 in the FAT, no
    other entry changes, the FAT copies stay in step and no sector outside
    the FAT is written. *)
Lemma fat_free_chain_spec d v c cs fuel :
  vol_ok v -> fat_readable d v -> chain d v c cs -> Forall (cluster_in v) cs ->
  (length cs < fuel)%nat ->
  exists d', fat_free_chain fuel d v c = OK d' /\
    (forall x, x ∈ cs -> fat_get_next_cluster d' v x = 0) /\
    (forall x, x ∉ cs -> cluster_in v x ->
       fat_get_next_cluster d' v x = fat_get_next_cluster d v x) /\
    (forall lba, (lba < fat_start_lba v \/ root_dir_start_lba v <= lba) ->
       ata_read_sector d' lba = ata_read_sector d lba) /\
    fat_readable d' v /\ (fat_mirrored d v -> fat_mirrored d' v).
Proof.
  intros Hv. revert d c cs. induction fuel as [|fuel IH]; intros d c cs Hr Hc Hin Hf; [lia|].
  cbn [fat_free_chain]. inversion Hc as [? Hval|? cs' Hval Hcs]; subst; rewrite Hval.
  { exists d. split; [done|]. split; [by intros x Hx%not_elem_of_nil|]. done. }
  apply Forall_cons in Hin as [Hcin Hin]. apply chain_NoDup in Hc as Hnd.
  apply NoDup_cons in Hnd as [Hnotin Hnd].
  destruct (set_entry_spec d v c 0 Hv Hr Hcin) as [H1 H2 H3 H4 H5];
    [unfold is_u16; lia|].
  destruct (IH (fat_set_cluster_entry d v c 0) (fat_get_next_cluster d v c) cs')
    as (d' & E & Z1 & Z2 & Z3 & Z4 & Z5); [done| |done|cbn in Hf; lia|].
  { eapply chain_frame; [done|]. intros x Hx. apply H2; [by intros ->|].
    rewrite Forall_forall in Hin. auto. }
  exists d'. split; [done|]. split.
  { intros x [->|Hx]%elem_of_cons; [|by apply Z1]. rewrite Z2; done. }
  split.
  { intros x Hx Hxin. apply not_elem_of_cons in Hx as [Hx1 Hx2].
    rewrite Z2 by done. by apply H2. }
  split; [intros lba Hl; rewrite Z3 by done; by apply H3|]. auto.
Qed.

(** ** Data clusters *)
Lemma cluster_lba_eq v c :
  vol_wf v -> 2 <= c < 65536 ->
  cluster_lba v c = data_start_lba v + (c - 2) * sectors_per_cluster v.
Proof.
  intros (? & ? & ? & ? & ? & ? & ? & ?) Hc. unfold cluster_lba.
  rewrite (u32_small (c - 2)) by (unfold is_u32; lia).
  assert (0 <= (root_entry_count v * 32 + 511) / 512 < 5000) by dlia.
  apply u32_small. unfold is_u32. nia.
Qed.

Lemma cluster_lba_data v c :
  vol_wf v -> 2 <= c < 65536 -> root_dir_start_lba v <= data_start_lba v <= cluster_lba v c.
Proof.
  intros Hv Hc. rewrite cluster_lba_eq by done. destruct Hv as (? & ? & ? & ? & ? & ? & ? & ?).
  assert (0 <= (root_entry_count v * 32 + 511) / 512) by dlia. nia.
Qed.

(** Distinct clusters have no sector in common. *)
Lemma cluster_lba_inj v c c' s s' :
  vol_wf v -> 2 <= c < 65536 -> 2 <= c' < 65536 ->
  0 <= s < sectors_per_cluster v -> 0 <= s' < sectors_per_cluster v ->
  cluster_lba v c + s = cluster_lba v c' + s' -> c = c' /\ s = s'.
Proof.
  intros Hv Hc Hc' Hs Hs'. rewrite !cluster_lba_eq by done. intros E.
  assert (c = c') as -> by nia. lia.
Qed.
End FatTableProofs.
