(* ===== verification/FatDir.v ===== *)
(** * Directories and paths of the FAT16 driver (src/src/fat.c)

    The sectors of a directory, the scan for a name, the resolution of paths,
    the listing of entries and the search for a free slot.  Loops that follow
    a cluster chain take fuel: a chain with a cycle makes the driver loop. *)
From S2P Require Import Prelude FatTypes FatName FatTable.

Section FatDir.
Context {D : Type} `{BlockDevice D}.

(** ** The sectors of a directory *)

(** The chain-walking loop of [fat_dir_sector_lba]. *)
Fixpoint dir_walk (fuel : nat) (d : D) (v : fat_volume) (cluster sector_in_chain : Z) : res Z :=
  match fuel with
  | O => Fuel
  | S fuel' =>
      if sectors_per_cluster v <=? sector_in_chain then
        if negb (valid_cluster cluster) then OK 0
        else dir_walk fuel' d v (fat_get_next_cluster d v cluster)
               (sector_in_chain - sectors_per_cluster v)
      else if negb (valid_cluster cluster) then OK 0
      else OK (cluster_lba v cluster + sector_in_chain)
  end.

Definition fat_dir_sector_lba (fuel : nat) (d : D) (v : fat_volume)
    (dir : fat_dir_ref) (n : Z) : res Z :=
  if dr_is_root dir then
    if root_dir_sectors v <=? n then OK 0 else OK (root_dir_start_lba v + n)
  else dir_walk fuel d v (dr_first_cluster dir) n.

(** ** Looking a name up *)

Definition entries_per_sector : nat := 16.

(** Outcome of scanning the entries of one sector. *)
Inductive scan (A : Type) :=
| ScanStop               (* the end-of-directory mark: the search fails *)
| ScanHit (a : A)        (* found *)
| ScanOn (l : lfn_state) (* go on with the next sector *).
#[global] Arguments ScanStop {A}.
#[global] Arguments ScanHit {A} _.
#[global] Arguments ScanOn {A} _.

(** The long-name test made once the short name did not match. *)
Definition lfn_applies (l : lfn_state) (e : fat_dir_entry) : bool :=
  lfn_has_data l && lfn_checksum_valid l && (fat_short_name_checksum e =? lfn_checksum l).

Fixpoint find_in_sector (buf component name83 : list Z) (l : lfn_state) (i : Z) (n : nat)
    : scan (Z * fat_dir_entry) :=
  match n with
  | O => ScanOn l
  | S n' =>
      let e := decode_entry buf i in
      let b0 := byte_at (de_name e) 0 in
      if b0 =? 0 then ScanStop
      else if b0 =? 229 then find_in_sector buf component name83 (lfn_reset l) (i + 1) n'
      else if de_attr e =? FAT_ATTR_LONG_NAME then
        find_in_sector buf component name83 (lfn_accumulate l (decode_lfn_entry buf i)) (i + 1) n'
      else if flag (de_attr e) FAT_ATTR_VOLUME_LABEL then
        find_in_sector buf component name83 (lfn_reset l) (i + 1) n'
      else
        let matched := fat_dir_entry_matches e name83 in
        let matched :=
          if negb matched && lfn_applies l e
          then names_equal_ci component (c_str (lfn_buffer l)) else matched in
        if matched then ScanHit (i, e)
        else find_in_sector buf component name83 (lfn_reset l) (i + 1) n'
  end.

Fixpoint find_loop (n fuel : nat) (d : D) (v : fat_volume) (dir : fat_dir_ref)
    (component name83 : list Z) (l : lfn_state) (s : Z) : res (Z * Z * fat_dir_entry) :=
  match n with
  | O => Fuel
  | S n' =>
      let! lba := fat_dir_sector_lba fuel d v dir s in
      if lba =? 0 then Err
      else match ata_read_sector d lba with
           | None => Err
           | Some sector_buf =>
               match find_in_sector sector_buf component name83 l 0 entries_per_sector with
               | ScanStop => Err
               | ScanHit (i, e) => OK (lba, i, e)
               | ScanOn l' => find_loop n' fuel d v dir component name83 l' (s + 1)
               end
           end
  end.

(** [fat_find_entry_in_dir]: the sector, the index in it, and the entry. *)
Definition fat_find_entry_in_dir (fuel : nat) (d : D) (v : fat_volume) (dir : fat_dir_ref)
    (component : list Z) : res (Z * Z * fat_dir_entry) :=
  find_loop fuel fuel d v dir component (fat_name_to_83 component) (lfn_reset lfn_boot) 0.

(** ** Paths *)

Fixpoint resolve_parent_loop (n fuel : nat) (d : D) (v : fat_volume)
    (current : fat_dir_ref) (p : list Z) (out_name_size : Z) : res (fat_dir_ref * list Z) :=
  match n with
  | O => Fuel
  | S n' =>
      let '(len, component, p') := fat_next_path_component p FAT_MAX_COMPONENT in
      if len =? 0 then Err
      else match p' with
      | [] => OK (current, c_str (fat_copy_string component out_name_size))
      | _ =>
          let! (_, _, dentry) := fat_find_entry_in_dir fuel d v current component in
          if negb (flag (de_attr dentry) FAT_ATTR_DIRECTORY) then Err
          else resolve_parent_loop n' fuel d v
                 (mk_dir_ref false (de_first_cluster_low dentry)) p' out_name_size
      end
  end.

(** Every turn of the loop consumes at least one character of the path. *)
Definition fat_resolve_parent (fuel : nat) (d : D) (v : fat_volume) (path : list Z)
    (out_name_size : Z) : res (fat_dir_ref * list Z) :=
  resolve_parent_loop (S (length path)) fuel d v fat_root_dir_ref path out_name_size.

Fixpoint resolve_dir_loop (n fuel : nat) (d : D) (v : fat_volume)
    (current : fat_dir_ref) (p : list Z) : res fat_dir_ref :=
  match n with
  | O => Fuel
  | S n' =>
      match p with
      | [] => OK current
      | _ =>
          let '(len, component, p') := fat_next_path_component p FAT_MAX_COMPONENT in
          if len =? 0 then Err
          else
            let! (_, _, dentry) := fat_find_entry_in_dir fuel d v current component in
            if negb (flag (de_attr dentry) FAT_ATTR_DIRECTORY) then Err
            else resolve_dir_loop n' fuel d v
                   (mk_dir_ref false (de_first_cluster_low dentry)) p'
      end
  end.

Definition fat_resolve_dir (fuel : nat) (d : D) (v : fat_volume) (dir_path : list Z)
    : res fat_dir_ref :=
  resolve_dir_loop (S (length dir_path)) fuel d v fat_root_dir_ref dir_path.

Definition fat_find_entry_location (fuel : nat) (d : D) (v : fat_volume) (path : list Z)
    : res (Z * Z * fat_dir_entry) :=
  let! (parent, name) := fat_resolve_parent fuel d v path FAT_MAX_COMPONENT in
  fat_find_entry_in_dir fuel d v parent name.

Definition fat_find_entry (fuel : nat) (d : D) (v : fat_volume) (filename : list Z)
    : res fat_dir_entry :=
  let! (_, _, e) := fat_find_entry_location fuel d v filename in OK e.

(** ** Listing *)

(** What [fat_list_entry] stores through its out parameters. *)
Record listed := mk_listed {
  li_name : list Z;
  li_size : Z;
  li_is_dir : bool }.

Fixpoint list_in_sector (buf : list Z) (index name_out_size : Z) (l : lfn_state) (seen i : Z)
    (n : nat) : scan listed * Z :=
  match n with
  | O => (ScanOn l, seen)
  | S n' =>
      let e := decode_entry buf i in
      let b k := byte_at (de_name e) k in
      if b 0 =? 0 then (ScanStop, seen)
      else if b 0 =? 229 then list_in_sector buf index name_out_size (lfn_reset l) seen (i + 1) n'
      else if de_attr e =? FAT_ATTR_LONG_NAME then
        list_in_sector buf index name_out_size (lfn_accumulate l (decode_lfn_entry buf i))
          seen (i + 1) n'
      else if flag (de_attr e) FAT_ATTR_VOLUME_LABEL then
        list_in_sector buf index name_out_size (lfn_reset l) seen (i + 1) n'
      else if (b 0 =? 46) && ((b 1 =? 32) || ((b 1 =? 46) && (b 2 =? 32))) then
        list_in_sector buf index name_out_size (lfn_reset l) seen (i + 1) n'
      else if seen =? index then
        let name :=
          if lfn_applies l e then fat_copy_string (c_str (lfn_buffer l)) name_out_size
          else fat_short_name_to_display e name_out_size in
        (ScanHit (mk_listed name (de_file_size e) (flag (de_attr e) FAT_ATTR_DIRECTORY)), seen)
      else list_in_sector buf index name_out_size (lfn_reset l) (seen + 1) (i + 1) n'
  end.

Fixpoint list_loop (n fuel : nat) (d : D) (v : fat_volume) (dir : fat_dir_ref)
    (index name_out_size : Z) (l : lfn_state) (seen s : Z) : res listed :=
  match n with
  | O => Fuel
  | S n' =>
      let! lba := fat_dir_sector_lba fuel d v dir s in
      if lba =? 0 then Err
      else match ata_read_sector d lba with
           | None => Err
           | Some sector_buf =>
               match list_in_sector sector_buf index name_out_size l seen 0 entries_per_sector with
               | (ScanStop, _) => Err
               | (ScanHit r, _) => OK r
               | (ScanOn l', seen') =>
                   list_loop n' fuel d v dir index name_out_size l' seen' (s + 1)
               end
           end
  end.

Definition fat_list_entry (fuel : nat) (st : fat_state D) (dir_path : list Z)
    (index name_out_size : Z) : res listed :=
  if negb (fat_ready st) then Err
  else
    let! dir := fat_resolve_dir fuel (disk st) (vol st) dir_path in
    list_loop fuel fuel (disk st) (vol st) dir index name_out_size (lfn_reset lfn_boot) 0 0.

(** ** Free slots *)

(** A slot is free when its first byte is the end mark or the deleted mark. *)
Definition slot_free (buf : list Z) (i : Z) : bool :=
  let b0 := byte_at (de_name (decode_entry buf i)) 0 in (b0 =? 0) || (b0 =? 229).

Fixpoint alloc_slot_loop (n fuel : nat) (d : D) (v : fat_volume) (dir : fat_dir_ref) (s : Z)
    : res (option (Z * Z)) :=
  match n with
  | O => Fuel
  | S n' =>
      let! lba := fat_dir_sector_lba fuel d v dir s in
      if lba =? 0 then OK None
      else match ata_read_sector d lba with
           | None => Err
           | Some sector_buf =>
               match find_from (slot_free sector_buf) 0 entries_per_sector with
               | Some i => OK (Some (lba, i))
               | None => alloc_slot_loop n' fuel d v dir (s + 1)
               end
           end
  end.

(** [for (s = lo; s < lo + n; s++) ata_write_sector(lba + s, zero_buf)], the
    result of each write ignored. *)
Fixpoint zero_sectors (d : D) (lba s : Z) (n : nat) : D :=
  match n with
  | O => d
  | S n' =>
      zero_sectors (default d (ata_write_sector d (lba + s) (replicate 512 0))) lba (s + 1) n'
  end.

(** [fat_alloc_dir_entry_in_dir]: the device after the call, and the slot. *)
Definition fat_alloc_dir_entry_in_dir (fuel : nat) (d : D) (v : fat_volume) (dir : fat_dir_ref)
    : D * res (Z * Z) :=
  match alloc_slot_loop fuel fuel d v dir 0 with
  | Fuel => (d, Fuel)
  | Err => (d, Err)
  | OK (Some slot) => (d, OK slot)
  | OK None =>
      if dr_is_root dir then (d, Err)
      else match fat_find_last_cluster fuel d v (dr_first_cluster dir) with
      | Fuel => (d, Fuel)
      | Err => (d, Err)
      | OK last =>
          if last =? 0 then (d, Err)
          else
            let '(d1, new_cluster) := fat_alloc_cluster d v in
            if new_cluster =? 0 then (d1, Err)
            else
              let lba := cluster_lba v new_cluster in
              let d2 := zero_sectors d1 lba 0 (Z.to_nat (sectors_per_cluster v)) in
              let d3 := fat_set_cluster_entry d2 v last new_cluster in
              (d3, OK (lba, 0))
      end
  end.
End FatDir.

Section FatDirProofs.
Context {D : Type} `{BlockDevice D} `{!BlockDeviceLaws D}.
Implicit Types (d : D) (v : fat_volume) (dir : fat_dir_ref).

(** A directory whose sectors the FAT accounts for. *)
Definition dir_ok d v dir : Prop :=
  dr_is_root dir = true \/
  exists cs, chain d v (dr_first_cluster dir) cs /\ Forall (cluster_in v) cs.

Lemma dir_walk_frame d d' v fuel c cs n :
  chain d v c cs ->
  (forall x, x ∈ cs -> fat_get_next_cluster d' v x = fat_get_next_cluster d v x) ->
  dir_walk fuel d' v c n = dir_walk fuel d v c n.
Proof.
  intros Hc. revert fuel n. induction Hc as [c Hc|c cs Hc Hcs IH]; intros fuel n Hf;
    destruct fuel as [|fuel]; cbn [dir_walk]; rewrite ?Hc; try done.
  rewrite Hf by (by left). cbn [negb]. case_if; [|done]. apply IH. intros; apply Hf. by right.
Qed.

Lemma dir_sector_frame d d' v dir fuel n :
  dir_ok d v dir ->
  (forall x, cluster_in v x -> fat_get_next_cluster d' v x = fat_get_next_cluster d v x) ->
  fat_dir_sector_lba fuel d' v dir n = fat_dir_sector_lba fuel d v dir n.
Proof.
  intros Hd Hf. unfold fat_dir_sector_lba. destruct (dr_is_root dir) eqn:E; [done|].
  destruct Hd as [?|(cs & Hc & Hin)]; [congruence|]. eapply dir_walk_frame; [done|].
  rewrite Forall_forall in Hin. auto.
Qed.

(** No sector of a directory lies in the FAT. *)
Lemma dir_walk_outside d v fuel c n lba :
  vol_ok v -> 0 <= n -> dir_walk fuel d v c n = OK lba -> lba <> 0 -> root_dir_start_lba v <= lba.
Proof.
  intros Hv. revert c n. induction fuel as [|fuel IH]; intros c n Hn; cbn [dir_walk]; [done|].
  destruct (valid_cluster c) eqn:Ec; cbn [negb]; repeat case_if; try (intros [= <-]; done).
  - apply IH. lia.
  - intros [= <-] _. apply valid_cluster_range in Ec. destruct Hv as [Hwf _].
    pose proof (cluster_lba_data v c Hwf). lia.
Qed.

Lemma dir_sector_outside d v dir fuel n lba :
  vol_ok v -> 0 <= n -> fat_dir_sector_lba fuel d v dir n = OK lba -> lba <> 0 ->
  root_dir_start_lba v <= lba.
Proof.
  intros Hv Hn. unfold fat_dir_sector_lba. case_if; [|by apply dir_walk_outside].
  case_if; intros [= <-]; [done|lia].
Qed.

(** ** An entry put into the first free slot is found by its name *)

(** The sector [b'] is [b] with the entry [e] in slot [i]. *)
Record slot_set (b b' : list Z) (i : Z) (e : fat_dir_entry) : Prop := {
  ss_same : decode_entry b' i = e;
  ss_other j : 0 <= j < 16 -> j <> i -> decode_entry b' j = decode_entry b j;
  ss_lfn j : 0 <= j < 16 -> j <> i -> decode_lfn_entry b' j = decode_lfn_entry b j }.

Lemma slot_set_store b i e :
  is_sector b -> 0 <= i < 16 -> entry_wf e -> slot_set b (store_entry b i e) i e.
Proof.
  intros [Hl _] Hi Hwf. split; [apply decode_store_same; [done|lia..]|..]; intros j Hj Hne;
    (apply decode_store_other || apply decode_lfn_store_other); done || lia.
Qed.

Lemma slot_set_refl b i : slot_set b b i (decode_entry b i).
Proof. done. Qed.

Lemma slot_set_trans b b1 b2 i e1 e2 : slot_set b b1 i e1 -> slot_set b1 b2 i e2 -> slot_set b b2 i e2.
Proof.
  intros [_ O1 L1] [S2 O2 L2]. split; [done|..]; intros j Hj Hne; [rewrite O2, O1|rewrite L2, L1]; done.
Qed.

Lemma find_in_sector_put buf buf' i e component name83 l j n :
  slot_set buf buf' i e -> 0 <= j <= i -> i < j + Z.of_nat n -> i < 16 ->
  (forall k, j <= k < i -> slot_free buf k = false) -> slot_free buf' i = false ->
  de_attr e <> FAT_ATTR_LONG_NAME -> flag (de_attr e) FAT_ATTR_VOLUME_LABEL = false ->
  fat_dir_entry_matches e name83 = true ->
  (forall r, find_in_sector buf component name83 l j n <> ScanHit r) ->
  find_in_sector buf' component name83 l j n = ScanHit (i, e).
Proof.
  intros [S1 S2 S3]. revert l j. induction n as [|n IH]; intros l j Hj Hn Hi Hused Hfr Ha1 Ha2 Hm Hno; [lia|].
  cbn [find_in_sector] in Hno |- *. destruct (decide (j = i)) as [->|Hne].
  - unfold slot_free in Hfr. rewrite S1 in *.
    apply orb_false_iff in Hfr as [-> ->]. apply Z.eqb_neq in Ha1 as ->. by rewrite Ha2, Hm.
  - assert (Hs : slot_free buf j = false) by (apply Hused; lia).
    unfold slot_free in Hs. apply orb_false_iff in Hs as [H0 H5].
    rewrite S2, S3 by (done || lia).
    rewrite H0, H5 in *.
    assert (IH' : forall l', (forall r, find_in_sector buf component name83 l' (j + 1) n <> ScanHit r) ->
      find_in_sector buf' component name83 l' (j + 1) n = ScanHit (i, e))
      by (intros l' Hno'; apply IH; try done; try lia; intros k Hk; apply Hused; lia).
    destruct (de_attr (decode_entry buf j) =? FAT_ATTR_LONG_NAME); [by apply IH'|].
    destruct (flag (de_attr (decode_entry buf j)) FAT_ATTR_VOLUME_LABEL); [by apply IH'|]. cbn zeta in Hno |- *.
    destruct (if negb _ && _ then _ else _); [by destruct (Hno (j, decode_entry buf j))|by apply IH'].
Qed.

Lemma alloc_slot_loop_found n fuel d v dir s lba i :
  vol_ok v -> 0 <= s -> alloc_slot_loop n fuel d v dir s = OK (Some (lba, i)) ->
  exists b, ata_read_sector d lba = Some b /\ find_from (slot_free b) 0 entries_per_sector = Some i /\
    root_dir_start_lba v <= lba.
Proof.
  intros Hv. revert s. induction n as [|n IH]; intros s Hs; cbn [alloc_slot_loop]; [done|].
  destruct (fat_dir_sector_lba fuel d v dir s) as [a| |] eqn:El; cbn [rbind]; [|done..].
  destruct (Z.eqb_spec a 0); [done|]. destruct (ata_read_sector d a) as [b|] eqn:Er; [|done].
  destruct (find_from _ _ _) as [k|] eqn:Ef; [|apply IH; lia].
  intros [= <- <-]. exists b. split; [done|]. split; [done|]. by eapply dir_sector_outside.
Qed.

Lemma find_in_sector_stop buf component name83 l j n :
  find_in_sector buf component name83 l j n = ScanStop ->
  exists k, j <= k < j + Z.of_nat n /\ slot_free buf k = true.
Proof.
  revert l j. induction n as [|n IH]; intros l j; cbn [find_in_sector]; [done|].
  assert (IH' : forall l', find_in_sector buf component name83 l' (j + 1) n = ScanStop ->
    exists k, j <= k < j + Z.of_nat (S n) /\ slot_free buf k = true).
  { intros l' E. destruct (IH l' (j + 1) E) as (k & Hk & Hs). exists k. split; [lia|done]. }
  destruct (byte_at (de_name (decode_entry buf j)) 0 =? 0) eqn:E0.
  { intros _. exists j. split; [lia|]. unfold slot_free. by rewrite E0. }
  repeat case_if; eauto; done.
Qed.

(** The directory of [d] in [d']: the same sectors, with the same contents
    but for the sector [lba]. *)
Record same_dir (fuel : nat) d d' v dir (lba : Z) : Prop := {
  sd_sector s : 0 <= s -> fat_dir_sector_lba fuel d' v dir s = fat_dir_sector_lba fuel d v dir s;
  sd_read s a : 0 <= s -> fat_dir_sector_lba fuel d v dir s = OK a -> a <> 0 -> a <> lba ->
    ata_read_sector d' a = ata_read_sector d a }.

Lemma find_loop_put n fuel d d' v dir component name83 l s lba i b b' e :
  vol_ok v -> same_dir fuel d d' v dir lba -> 0 <= s ->
  alloc_slot_loop n fuel d v dir s = OK (Some (lba, i)) ->
  ata_read_sector d lba = Some b -> ata_read_sector d' lba = Some b' -> slot_set b b' i e ->
  slot_free b' i = false ->
  de_attr e <> FAT_ATTR_LONG_NAME -> flag (de_attr e) FAT_ATTR_VOLUME_LABEL = false ->
  fat_dir_entry_matches e name83 = true ->
  find_loop n fuel d v dir component name83 l s = Err ->
  find_loop n fuel d' v dir component name83 l s = OK (lba, i, e).
Proof.
  intros Hv Hd Hs Hal Hb Hb' Hput Hfr Ha1 Ha2 Hm. revert l s Hs Hal.
  induction n as [|n IH]; intros l s Hs Hal Hno; [done|].
  cbn [alloc_slot_loop find_loop] in *. rewrite (sd_sector _ _ _ _ _ _ Hd) by done.
  destruct (fat_dir_sector_lba fuel d v dir s) as [a| |] eqn:El; cbn [rbind] in *; [|done..].
  destruct (Z.eqb_spec a 0) as [|Ha]; [done|]. destruct (ata_read_sector d a) as [ba|] eqn:Er; [|done].
  destruct (find_from (slot_free ba) 0 entries_per_sector) as [k|] eqn:Ef.
  - injection Hal as -> ->. rewrite Hb'. assert (ba = b) as -> by congruence.
    apply find_from_Some in Ef as (Hki & _ & Hmin).
    change (Z.of_nat entries_per_sector) with 16 in Hki.
    rewrite (find_in_sector_put b b' i e); [done|done|lia|change (Z.of_nat entries_per_sector) with 16; lia
      |lia|intros; apply Hmin; lia|done..|].
    intros r Hr. rewrite Hr in Hno. by destruct r.
  - assert (Hne : a <> lba).
    { intros ->. apply alloc_slot_loop_found in Hal as (b1 & Hb1 & Hf1 & _); [congruence|done|lia]. }
    rewrite (sd_read _ _ _ _ _ _ Hd s), Er by done.
    destruct (find_in_sector ba component name83 l 0 entries_per_sector) as [| |l'] eqn:Es;
      [|by destruct a0|by apply IH; [lia|..]].
    apply find_in_sector_stop in Es as (k & Hk & Hsf). rewrite find_from_None in Ef.
    by rewrite Ef in Hsf.
Qed.

(** A slot of the root directory lies before the data area. *)
Lemma alloc_slot_root n fuel d v s lba i : vol_wf v ->
  alloc_slot_loop n fuel d v fat_root_dir_ref s = OK (Some (lba, i)) -> lba < data_start_lba v.
Proof.
  intros Hv. revert s. induction n as [|n IH]; intros s; cbn [alloc_slot_loop]; [done|]. unfold fat_dir_sector_lba.
  cbn [fat_root_dir_ref dr_is_root].
  destruct (Z.leb_spec (root_dir_sectors v) s); cbn [rbind]; [done|]. case_if; [done|].
  destruct (ata_read_sector d _) as [b|]; [|done]. destruct (find_from _ _ _); [|apply IH].
  intros [= <- _]. unfold vol_wf in Hv. lia.
Qed.

(** ** A name without a slash is looked up in the root directory *)
Record plain_name (name : list Z) : Prop := {
  pn_chars : c_string name;
  pn_length : 0 < Z.of_nat (length name) < FAT_MAX_COMPONENT;
  pn_flat : Forall (fun c => c <> 47) name }.

Lemma component_plain name : Forall (fun c => c <> 47) name -> component_of name = name.
Proof. induction 1 as [|c name Hc _ IH]; cbn; [done|]. rewrite IH. by apply Z.eqb_neq in Hc as ->. Qed.

Lemma copy_string_all src : forall i limit, i + Z.of_nat (length src) <= limit -> copy_string_loop src i limit = src.
Proof.
  induction src as [|c src IH]; intros i limit Hl; cbn [copy_string_loop length] in *; [done|].
  rewrite (proj2 (Z.ltb_lt i limit)) by lia. by rewrite IH by lia.
Qed.

Lemma resolve_plain fuel d v name : plain_name name ->
  fat_resolve_parent fuel d v name FAT_MAX_COMPONENT = OK (fat_root_dir_ref, name).
Proof.
  intros [Hc Hl Hf]. unfold FAT_MAX_COMPONENT in Hl. unfold fat_resolve_parent. cbn [resolve_parent_loop].
  unfold fat_next_path_component. rewrite component_plain, drop_all by done.
  rewrite (proj2 (Z.eqb_neq _ 0)) by lia. cbv iota. f_equal. f_equal.
  rewrite take_ge by (unfold FAT_MAX_COMPONENT; case_if; lia).
  unfold fat_copy_string, FAT_MAX_COMPONENT. change (u32 (48 - 1)) with 47. rewrite copy_string_all by lia.
  apply c_str_app. eapply Forall_impl; [exact Hc|]. cbn. lia.
Qed.
End FatDirProofs.
