(* ===== verification/FatFile.v ===== *)
(** * Reading files through descriptors (src/src/fat.c)

    [fat_read_file], [fat_open], [fat_read], [fat_seek], [fat_close] and
    [fat_close_all_for_task], with the abstract file they implement. *)
From S2P Require Import Prelude FatTypes FatName FatTable FatDir.

Section FatFile.
Context {D : Type} `{BlockDevice D}.

(** ** Reading a whole file *)

(** The sector loop of one cluster; [true] when a read failed. *)
Fixpoint read_file_sectors (d : D) (lba s : Z) (n : nat) (file_size : Z) (acc : list Z)
    : bool * list Z :=
  match n with
  | O => (false, acc)
  | S n' =>
      if Z.of_nat (length acc) <? file_size then
        match ata_read_sector d (lba + s) with
        | None => (true, acc)
        | Some sector_buf =>
            let remaining := file_size - Z.of_nat (length acc) in
            let to_copy := if remaining <? ATA_SECTOR_SIZE then remaining else ATA_SECTOR_SIZE in
            read_file_sectors d lba (s + 1) n' file_size
              (acc ++ take (Z.to_nat to_copy) sector_buf)
        end
      else (false, acc)
  end.

Fixpoint read_file_loop (fuel : nat) (d : D) (v : fat_volume) (cluster file_size : Z)
    (acc : list Z) : res (list Z) :=
  match fuel with
  | O => Fuel
  | S fuel' =>
      if valid_cluster cluster && (Z.of_nat (length acc) <? file_size) then
        match read_file_sectors d (cluster_lba v cluster) 0
                (Z.to_nat (sectors_per_cluster v)) file_size acc with
        | (true, acc') => OK acc'
        | (false, acc') =>
            read_file_loop fuel' d v (fat_get_next_cluster d v cluster) file_size acc'
        end
      else OK acc
  end.

(** The messages printed, and the bytes stored at the start of the caller's
    buffer (their number is the value returned) or [Err]. *)
Definition fat_read_file (fuel : nat) (st : fat_state D) (filename : list Z) (buffer_size : Z)
    : list tty * res (list Z) :=
  if negb (fat_ready st) then ([TLn "FAT: no filesystem mounted"], Err)
  else
    match fat_find_entry fuel (disk st) (vol st) filename with
    | Fuel => ([], Fuel)
    | Err => ([TStr "FAT: file not found: "; TBytes filename; TLn ""], Err)
    | OK entry =>
        if flag (de_attr entry) FAT_ATTR_DIRECTORY then
          ([TStr "FAT: is a directory, not a file: "; TBytes filename; TLn ""], Err)
        else if buffer_size <? de_file_size entry then
          ([TLn "FAT: buffer too small for file"], Err)
        else ([], read_file_loop fuel (disk st) (vol st) (de_first_cluster_low entry)
                    (de_file_size entry) [])
    end.

(** ** The descriptor table *)

(** The index of the first slot that is not in use. *)
Definition free_slot (fs : list open_file) : option Z :=
  find_from (fun i => match fs !! Z.to_nat i with
                      | Some f => negb (of_in_use f)
                      | None => false end) 0 (Z.to_nat MAX_OPEN_FILES).

(** [task_current_id()] is the identity of the calling task. *)
Definition fat_open (fuel : nat) (st : fat_state D) (task_id : Z) (filename : list Z)
    : fat_state D * res Z :=
  if negb (fat_ready st) then (st, Err)
  else
    match fat_find_entry fuel (disk st) (vol st) filename with
    | Fuel => (st, Fuel)
    | Err => (st, Err)
    | OK entry =>
        if flag (de_attr entry) FAT_ATTR_DIRECTORY then (st, Err)
        else match free_slot (open_files st) with
        | None => (st, Err)
        | Some i =>
            let old := default closed_file (open_files st !! Z.to_nat i) in
            let f := mk_open_file true (de_file_size entry) (de_first_cluster_low entry)
                       (de_first_cluster_low entry) 0 0 false
                       (of_dir_entry_sector old) (of_dir_entry_offset old) task_id in
            (set_files st (<[Z.to_nat i := f]> (open_files st)), OK (i + FAT_FD_BASE))
        end
    end.

(** The guard shared by the descriptor operations: [fd] names a slot in use. *)
Definition fd_lookup (st : fat_state D) (fd : Z) : option (nat * open_file) :=
  let index := fd - FAT_FD_BASE in
  if (index <? 0) || (MAX_OPEN_FILES <=? index) then None
  else match open_files st !! Z.to_nat index with
       | Some f => if of_in_use f then Some (Z.to_nat index, f) else None
       | None => None
       end.

Definition cluster_size (v : fat_volume) : Z := sectors_per_cluster v * ATA_SECTOR_SIZE.

(** ** Sequential reads *)

(** The copy loop of [fat_read]; [n] bounds its turns, each of which copies at
    least one byte. *)
Fixpoint read_loop (n : nat) (d : D) (v : fat_volume) (f : open_file) (len : Z) (acc : list Z)
    : open_file * list Z :=
  match n with
  | O => (f, acc)
  | S n' =>
      let bytes_read := Z.of_nat (length acc) in
      if (bytes_read <? len) && (of_file_offset f <? of_file_size f)
         && valid_cluster (of_current_cluster f) then
        let sector_in_cluster := of_cluster_offset f / ATA_SECTOR_SIZE in
        let offset_in_sector := of_cluster_offset f mod ATA_SECTOR_SIZE in
        match ata_read_sector d (cluster_lba v (of_current_cluster f) + sector_in_cluster) with
        | None => (f, acc)
        | Some sector_buf =>
            let available_in_sector := ATA_SECTOR_SIZE - offset_in_sector in
            let remaining_in_file := of_file_size f - of_file_offset f in
            let remaining_requested := len - bytes_read in
            let to_copy := available_in_sector in
            let to_copy := if remaining_in_file <? to_copy then remaining_in_file else to_copy in
            let to_copy := if remaining_requested <? to_copy then remaining_requested else to_copy in
            let acc' := acc ++ take (Z.to_nat to_copy) (drop (Z.to_nat offset_in_sector) sector_buf) in
            let file_offset := of_file_offset f + to_copy in
            let coff := of_cluster_offset f + to_copy in
            let f' :=
              if cluster_size v <=? coff
              then set_position f (fat_get_next_cluster d v (of_current_cluster f)) 0 file_offset
              else set_position f (of_current_cluster f) coff file_offset in
            read_loop n' d v f' len acc'
        end
      else (f, acc)
  end.

(** [fat_read]: the bytes copied into the buffer, or [Err] on a bad fd. *)
Definition fat_read (st : fat_state D) (fd len : Z) : fat_state D * res (list Z) :=
  match fd_lookup st fd with
  | None => (st, Err)
  | Some (i, f) =>
      let '(f', bytes) := read_loop (Z.to_nat len) (disk st) (vol st) f len [] in
      (set_files st (<[i := f']> (open_files st)), OK bytes)
  end.

(** ** Seeking *)
Fixpoint seek_loop (fuel : nat) (d : D) (v : fat_volume) (cluster remaining : Z) : res (Z * Z) :=
  match fuel with
  | O => Fuel
  | S fuel' =>
      if cluster_size v <=? remaining then
        let next := fat_get_next_cluster d v cluster in
        if negb (valid_cluster next) then OK (cluster, cluster_size v)
        else seek_loop fuel' d v next (remaining - cluster_size v)
      else OK (cluster, remaining)
  end.

Definition fat_seek (fuel : nat) (st : fat_state D) (fd offset : Z) : fat_state D * res Z :=
  match fd_lookup st fd with
  | None => (st, Err)
  | Some (i, f) =>
      if of_file_size f <? offset then (st, Err)
      else match seek_loop fuel (disk st) (vol st) (of_first_cluster f) offset with
      | OK (cluster, coff) =>
          (set_files st (<[i := set_position f cluster coff offset]> (open_files st)), OK 0)
      | Err => (st, Err)
      | Fuel => (st, Fuel)
      end
  end.

(** ** Closing *)
Definition fat_close (st : fat_state D) (fd : Z) : fat_state D * res Z :=
  match fd_lookup st fd with
  | None => (st, Err)
  | Some (i, f) => (set_files st (<[i := set_in_use f false]> (open_files st)), OK 0)
  end.

Definition fat_close_all_for_task (st : fat_state D) (task_id : Z) : fat_state D :=
  set_files st
    ((fun f => if of_in_use f && (of_owner_task_id f =? task_id)
               then set_in_use f false else f) <$> open_files st).
End FatFile.

(** ** Abstract files

    A file's contents are the sectors of its cluster chain, in order, cut to
    its size. *)
Section FatFileSpec.
Context {D : Type} `{BlockDevice D}.
Implicit Types (d : D) (v : fat_volume) (st : fat_state D).

Definition sector_at d (lba : Z) : list Z := default [] (ata_read_sector d lba).

Definition cluster_sectors d v (c : Z) : list (list Z) :=
  (fun s => sector_at d (cluster_lba v c + s)) <$> seqZ 0 (sectors_per_cluster v).

Definition chain_sectors d v (cs : list Z) : list (list Z) := cs ≫= cluster_sectors d v.

Definition chain_bytes d v (cs : list Z) : list Z := mjoin (chain_sectors d v cs).

Definition file_bytes d v (cs : list Z) (size : Z) : list Z :=
  take (Z.to_nat size) (chain_bytes d v cs).

(** Every data sector of the chain can be read. *)
Definition chain_readable d v (cs : list Z) : Prop :=
  forall c s, c ∈ cs -> 0 <= s < sectors_per_cluster v ->
    is_Some (ata_read_sector d (cluster_lba v c + s)).

(** A chain that holds a file of [size] bytes. *)
Record file_chain d v (first : Z) (cs : list Z) (size : Z) : Prop := {
  fc_chain : chain d v first cs;
  fc_readable : chain_readable d v cs;
  fc_size : 0 <= size <= Z.of_nat (length cs) * cluster_size v }.

(** The descriptor points at byte [of_file_offset] of the chain.  At the end
    of the file the cluster it holds is not used again by reads. *)
Record at_pos v (f : open_file) (cs : list Z) : Prop := {
  ap_off : 0 <= of_file_offset f <= of_file_size f;
  ap_cluster : of_file_offset f < of_file_size f ->
    exists k, cs !! k = Some (of_current_cluster f) /\
      of_file_offset f = Z.of_nat k * cluster_size v + of_cluster_offset f /\
      0 <= of_cluster_offset f < cluster_size v }.

(** The fields of a descriptor that reading and seeking leave alone. *)
Definition same_file (f f' : open_file) : Prop :=
  of_in_use f' = of_in_use f /\ of_file_size f' = of_file_size f /\
  of_first_cluster f' = of_first_cluster f /\ of_writable f' = of_writable f /\
  of_dir_entry_sector f' = of_dir_entry_sector f /\
  of_dir_entry_offset f' = of_dir_entry_offset f /\
  of_owner_task_id f' = of_owner_task_id f.

Lemma same_file_trans f g h : same_file f g -> same_file g h -> same_file f h.
Proof. unfold same_file. intuition congruence. Qed.

Context `{!BlockDeviceLaws D}.

Lemma cluster_sectors_length d v c :
  0 <= sectors_per_cluster v -> length (cluster_sectors d v c) = Z.to_nat (sectors_per_cluster v).
Proof. intros. unfold cluster_sectors. by rewrite length_fmap, length_seqZ. Qed.

Lemma chain_sectors_length d v cs :
  length (chain_sectors d v cs) = (length cs * Z.to_nat (sectors_per_cluster v))%nat.
Proof.
  unfold chain_sectors. induction cs as [|c cs IH]; [done|].
  cbn [mbind list_bind length]. rewrite length_app, IH.
  unfold cluster_sectors. rewrite length_fmap, length_seqZ. lia.
Qed.

Lemma chain_sectors_lookup d v cs k c s :
  cs !! k = Some c -> 0 <= s < sectors_per_cluster v ->
  chain_sectors d v cs !! (k * Z.to_nat (sectors_per_cluster v) + Z.to_nat s)%nat =
  Some (sector_at d (cluster_lba v c + s)).
Proof.
  intros Hk Hs. revert k Hk. induction cs as [|c0 cs IH]; intros [|k] Hk; [done..| |];
    cbn in Hk; unfold chain_sectors in *; cbn [mbind list_bind].
  - injection Hk as ->. rewrite lookup_app_l.
    2:{ rewrite cluster_sectors_length by lia. lia. }
    unfold cluster_sectors. rewrite list_lookup_fmap, lookup_seqZ_lt by lia.
    cbn. do 3 f_equal. lia.
  - rewrite lookup_app_r; rewrite cluster_sectors_length by lia; [|lia].
    rewrite <- (IH k) by done. f_equal. lia.
Qed.

Lemma chain_sectors_uniform d v cs :
  chain_readable d v cs -> Forall (fun b => length b = 512%nat) (chain_sectors d v cs).
Proof.
  intros Hr. apply Forall_forall. intros b Hb. unfold chain_sectors in Hb.
  apply list_elem_of_bind in Hb as (c & Hb & Hc). unfold cluster_sectors in Hb.
  apply list_elem_of_fmap in Hb as (s & -> & Hs). apply elem_of_seqZ in Hs.
  destruct (Hr c s Hc) as [b Hb]; [lia|]. unfold sector_at. rewrite Hb.
  by apply read_is_sector in Hb as [? _].
Qed.

Lemma chain_bytes_length d v cs :
  chain_readable d v cs -> 0 <= sectors_per_cluster v ->
  Z.of_nat (length (chain_bytes d v cs)) = Z.of_nat (length cs) * cluster_size v.
Proof.
  intros Hr Hspc. unfold chain_bytes.
  rewrite (length_mjoin_uniform _ 512) by (by apply chain_sectors_uniform).
  rewrite chain_sectors_length. unfold cluster_size, ATA_SECTOR_SIZE. nia.
Qed.

(** The bytes a single sector read delivers are the file's bytes there. *)
Lemma sector_slice d v cs k c co b n :
  chain_readable d v cs -> cs !! k = Some c -> 0 <= co < cluster_size v ->
  ata_read_sector d (cluster_lba v c + co / 512) = Some b ->
  0 <= n <= 512 - co mod 512 ->
  take (Z.to_nat n) (drop (Z.to_nat (co mod 512)) b) =
  take (Z.to_nat n) (drop (Z.to_nat (Z.of_nat k * cluster_size v + co)) (chain_bytes d v cs)).
Proof.
  intros Hr Hk Hco Hb Hn. unfold cluster_size, ATA_SECTOR_SIZE in *.
  assert (Hs : 0 <= co / 512 < sectors_per_cluster v) by dlia.
  pose proof (chain_sectors_lookup d v cs k c (co / 512) Hk Hs) as Hl.
  unfold sector_at in Hl. rewrite Hb in Hl. cbn in Hl.
  rewrite <- (slice_mjoin_uniform _ 512 _ _ (Z.to_nat (co mod 512)) (Z.to_nat n)
    (chain_sectors_uniform d v cs Hr) Hl) by dlia.
  unfold chain_bytes. do 2 f_equal. 
  pose proof (Z.div_mod co 512). pose proof (Z.mod_pos_bound co 512). nia.
Qed.

Lemma chain_lookup_next d v c cs k x y :
  chain d v c cs -> cs !! k = Some x -> cs !! S k = Some y -> fat_get_next_cluster d v x = y.
Proof.
  intros Hc. revert k. induction Hc as [c Hc|c cs Hc Hcs IH]; intros k Hx Hy; [done|].
  destruct k as [|k]; [|by apply (IH k)]. cbn in *. injection Hx as <-.
  destruct Hcs; [done|]. by injection Hy.
Qed.

(** ** Sequential reads deliver the file's bytes *)
Lemma file_bytes_slice d v cs size off n :
  0 <= off -> 0 <= n -> off + n <= size ->
  take (Z.to_nat n) (drop (Z.to_nat off) (file_bytes d v cs size)) =
  take (Z.to_nat n) (drop (Z.to_nat off) (chain_bytes d v cs)).
Proof.
  intros. unfold file_bytes. rewrite skipn_firstn_comm, take_take. f_equal. lia.
Qed.

Lemma file_bytes_length d v first cs size :
  1 <= sectors_per_cluster v -> file_chain d v first cs size ->
  Z.of_nat (length (file_bytes d v cs size)) = size.
Proof.
  intros Hspc [Hc Hr Hs]. unfold file_bytes. rewrite length_take.
  pose proof (chain_bytes_length d v cs Hr). lia.
Qed.

Lemma at_pos_valid d v f first cs :
  file_chain d v first cs (of_file_size f) -> at_pos v f cs ->
  of_file_offset f < of_file_size f -> valid_cluster (of_current_cluster f) = true.
Proof.
  intros [Hc _ _] [_ Hk] Hlt. destruct (Hk Hlt) as (k & Hl & _).
  apply chain_valid in Hc. eapply Forall_lookup in Hc; eauto.
Qed.

(** Advancing a descriptor by [tc] bytes inside the sector it points at. *)
Definition advance d v (f : open_file) (tc : Z) : open_file :=
  if cluster_size v <=? of_cluster_offset f + tc
  then set_position f (fat_get_next_cluster d v (of_current_cluster f)) 0 (of_file_offset f + tc)
  else set_position f (of_current_cluster f) (of_cluster_offset f + tc) (of_file_offset f + tc).

Lemma advance_same d v f tc : same_file f (advance d v f tc).
Proof. unfold advance. by case_if. Qed.

Lemma advance_at_pos d v f first cs tc :
  1 <= sectors_per_cluster v ->
  file_chain d v first cs (of_file_size f) -> at_pos v f cs ->
  1 <= tc <= 512 - of_cluster_offset f mod 512 ->
  of_file_offset f + tc <= of_file_size f ->
  at_pos v (advance d v f tc) cs /\ of_file_offset (advance d v f tc) = of_file_offset f + tc.
Proof.
  intros Hspc [Hc _ Hsz] [Ho Hk] Htc Hle. destruct Hk as (k & Hl & Hoff & Hco); [lia|].
  unfold advance. case_if; cbn [set_position of_file_offset of_file_size of_current_cluster
    of_cluster_offset]; (split; [split; cbn; [lia|]; intros Hlt|done]).
  - assert (of_cluster_offset f + tc = cluster_size v)
      by (unfold cluster_size, ATA_SECTOR_SIZE in *; dlia).
    assert (Hlen : (S k < length cs)%nat)
      by (apply lookup_lt_Some in Hl; unfold cluster_size, ATA_SECTOR_SIZE in *; nia).
    destruct (lookup_lt_is_Some_2 cs (S k) Hlen) as [y Hy].
    exists (S k). rewrite (chain_lookup_next d v first cs k _ y) by done.
    split; [done|]. unfold cluster_size, ATA_SECTOR_SIZE in *. lia.
  - exists k. split; [done|]. lia.
Qed.

Lemma read_stop v f cs (acc : list Z) :
  at_pos v f cs ->
  exists f', (f, acc) = (f', acc ++ []) /\ at_pos v f' cs /\ same_file f f' /\
    of_file_offset f' = of_file_offset f + Z.of_nat (length (@nil Z)).
Proof. intros Hap. exists f. rewrite app_nil_r. split; [done|]. split; [done|].
  split; [done|]. cbn. lia. Qed.

Lemma read_loop_spec d v n f first cs len acc :
  1 <= sectors_per_cluster v ->
  file_chain d v first cs (of_file_size f) -> at_pos v f cs ->
  len - Z.of_nat (length acc) <= Z.of_nat n ->
  let data := take (Z.to_nat (len - Z.of_nat (length acc)))
                (drop (Z.to_nat (of_file_offset f)) (file_bytes d v cs (of_file_size f))) in
  exists f', read_loop n d v f len acc = (f', acc ++ data) /\ at_pos v f' cs /\
    same_file f f' /\ of_file_offset f' = of_file_offset f + Z.of_nat (length data).
Proof.
  intros Hspc. revert f acc. induction n as [|n IH]; intros f acc Hfc Hap Hn.
  { replace (Z.to_nat (len - Z.of_nat (length acc))) with 0%nat by lia.
    by apply read_stop. }
  cbn [read_loop].
  destruct (Z.ltb_spec (Z.of_nat (length acc)) len) as [Hlen|Hlen]; cbn [andb].
  2:{ replace (Z.to_nat (len - Z.of_nat (length acc))) with 0%nat by lia.
      by apply read_stop. }
  pose proof (file_bytes_length d v first cs _ Hspc Hfc) as Hfl.
  destruct (Z.ltb_spec (of_file_offset f) (of_file_size f)) as [Hoff|Hoff]; cbn [andb].
  2:{ rewrite drop_ge by lia. rewrite take_nil.
      by apply read_stop. }
  rewrite (at_pos_valid d v f first cs) by done. cbn zeta. 
  pose proof Hap as [Hof Hcl]. destruct (Hcl Hoff) as (k & Hl & Heq & Hco).
  pose proof Hfc as [Hch Hrd Hsz].
  destruct (Hrd (of_current_cluster f) (of_cluster_offset f / 512)) as [b Hb].
  { by apply list_elem_of_lookup_2 in Hl. } { unfold cluster_size, ATA_SECTOR_SIZE in *; dlia. }
  unfold ATA_SECTOR_SIZE in *. rewrite Hb.
  set (co := of_cluster_offset f) in *. set (off := of_file_offset f) in *.
  set (tc := if len - Z.of_nat (length acc) <? _ then _ else _).
  assert (Htc : 1 <= tc /\ tc <= 512 - co mod 512 /\ off + tc <= of_file_size f /\
    tc <= len - Z.of_nat (length acc)).
  { subst tc. rewrite !ltb_min. assert (1 <= 512 - co mod 512) by dlia. lia. }
  rewrite (sector_slice d v cs k (of_current_cluster f) co b tc) by (done || lia). rewrite <- Heq.
  rewrite <- (file_bytes_slice d v cs (of_file_size f)) by lia.
  change (if cluster_size v <=? co + tc then _ else _) with (advance d v f tc).
  destruct (advance_at_pos d v f first cs tc) as [Hap' Hoff'];
    [done..|fold co; lia|fold off; lia|].
  pose proof (advance_same d v f tc) as Hsame.
  pose proof Hsame as (_ & Hsize & _).
  set (F := file_bytes d v cs (of_file_size f)) in *.
  assert (Hcl' : length (take (Z.to_nat tc) (drop (Z.to_nat off) F)) = Z.to_nat tc)
    by (rewrite length_take, length_drop; lia).
  destruct (IH (advance d v f tc) (acc ++ take (Z.to_nat tc) (drop (Z.to_nat off) F)))
    as (f' & E & Hap2 & Hs2 & Ho2).
  { by rewrite Hsize. } { done. } { rewrite length_app, Hcl'. lia. }
  exists f'. rewrite E. rewrite Hsize in Ho2 |- *. fold F in Ho2 |- *.
  rewrite length_app, Hcl', Hoff' in Ho2 |- *. fold off in Ho2 |- *.
  assert (Hsplit : take (Z.to_nat (len - Z.of_nat (length acc))) (drop (Z.to_nat off) F) =
    take (Z.to_nat tc) (drop (Z.to_nat off) F) ++
    take (Z.to_nat (len - Z.of_nat (length acc + Z.to_nat tc))) (drop (Z.to_nat (off + tc)) F)).
  { replace (Z.to_nat (off + tc)) with (Z.to_nat off + Z.to_nat tc)%nat by lia.
    rewrite <- drop_drop, take_take_drop. f_equal. lia. }
  rewrite Hsplit, app_assoc, length_app, Hcl'. split; [done|]. split; [done|].
  split; [by eapply same_file_trans|lia].
Qed.

(** ** Seeking *)
Lemma chain_last_next d v c cs k x :
  chain d v c cs -> cs !! k = Some x -> S k = length cs ->
  valid_cluster (fat_get_next_cluster d v x) = false.
Proof.
  intros Hc. revert k. induction Hc as [c Hc|c cs Hc Hcs IH]; intros k Hx Hk; [done|].
  destruct k as [|k]; [|apply (IH k); [done|cbn in Hk; lia]].
  cbn in *. injection Hx as <-. destruct Hcs; [done|]. cbn in Hk. lia.
Qed.

Lemma seek_loop_spec d v first cs fuel j c remaining :
  1 <= sectors_per_cluster v -> chain d v first cs -> cs !! j = Some c ->
  0 <= remaining -> Z.of_nat j * cluster_size v + remaining <= Z.of_nat (length cs) * cluster_size v ->
  remaining < Z.of_nat fuel * cluster_size v ->
  exists k c' co, seek_loop fuel d v c remaining = OK (c', co) /\ cs !! k = Some c' /\
    Z.of_nat j * cluster_size v + remaining = Z.of_nat k * cluster_size v + co /\
    0 <= co <= cluster_size v /\ (co = cluster_size v -> S k = length cs).
Proof.
  intros Hspc Hch. assert (Hcs : 512 <= cluster_size v) by (unfold cluster_size, ATA_SECTOR_SIZE; lia).
  revert j c remaining. induction fuel as [|fuel IH]; intros j c remaining Hj Hr Hle Hf; [lia|].
  cbn [seek_loop]. pose proof (lookup_lt_Some _ _ _ Hj) as Hjl.
  destruct (Z.leb_spec (cluster_size v) remaining) as [Hge|Hlt].
  - destruct (decide (S j < length cs)%nat) as [Hin|Hout].
    + destruct (lookup_lt_is_Some_2 cs (S j) Hin) as [y Hy].
      rewrite (chain_lookup_next d v first cs j c y) by done.
      assert (valid_cluster y = true) as ->
        by (apply chain_valid in Hch; eapply Forall_lookup in Hch; eauto).
      cbn [negb]. destruct (IH (S j) y (remaining - cluster_size v))
        as (k & c' & co & E & Hk & Heq & Hco & Hend); [done|lia|lia|lia|].
      exists k, c', co. split; [done|]. split; [done|]. split; [lia|done].
    + assert (remaining = cluster_size v) by nia.
      rewrite (chain_last_next d v first cs j c) by (done || lia). cbn [negb].
      exists j, c, (cluster_size v). split; [done|]. split; [done|]. split; [lia|]. lia.
  - exists j, c, remaining. split; [done|]. split; [done|]. split; [done|]. lia.
Qed.

Lemma seek_at_pos d v f cs fuel off :
  1 <= sectors_per_cluster v ->
  file_chain d v (of_first_cluster f) cs (of_file_size f) ->
  0 <= off <= of_file_size f -> off < Z.of_nat fuel ->
  exists c co, seek_loop fuel d v (of_first_cluster f) off = OK (c, co) /\
    at_pos v (set_position f c co off) cs.
Proof.
  intros Hspc [Hch Hrd Hsz] Hoff Hf.
  assert (Hcs : 512 <= cluster_size v) by (unfold cluster_size, ATA_SECTOR_SIZE; lia).
  destruct cs as [|c0 cs'].
  - cbn in Hsz. assert (off = 0) as -> by lia. exists (of_first_cluster f), 0.
    destruct fuel as [|fuel]; [lia|]. cbn [seek_loop].
    destruct (Z.leb_spec (cluster_size v) 0); [lia|]. split; [done|].
    split; cbn; lia.
  - assert (c0 = of_first_cluster f) as -> by (by inversion Hch).
    destruct (seek_loop_spec d v (of_first_cluster f) (of_first_cluster f :: cs') fuel 0
      (of_first_cluster f) off) as (k & c & co & E & Hk & Heq & Hco & Hend);
      [done..|lia|lia|nia|].
    exists c, co. split; [done|]. split; cbn; [lia|]. intros Hlt. exists k.
    split; [done|]. split; [lia|]. split; [lia|].
    destruct (decide (co = cluster_size v)) as [->|]; [|lia].
    specialize (Hend eq_refl). rewrite <- Hend in Hsz. lia.
Qed.

(** ** Descriptors as abstract files *)

(** The descriptor [fd] is open on a file whose contents are [bytes], at
    position [pos]. *)
Definition fd_view (st : fat_state D) (fd : Z) (bytes : list Z) (pos : Z) : Prop :=
  exists i f cs, fd_lookup st fd = Some (i, f) /\
    1 <= sectors_per_cluster (vol st) /\
    file_chain (disk st) (vol st) (of_first_cluster f) cs (of_file_size f) /\
    at_pos (vol st) f cs /\ bytes = file_bytes (disk st) (vol st) cs (of_file_size f) /\
    pos = of_file_offset f.

Lemma fd_lookup_inv st fd i f :
  fd_lookup st fd = Some (i, f) ->
  0 <= fd - 3 < 8 /\ i = Z.to_nat (fd - 3) /\ open_files st !! i = Some f /\ of_in_use f = true.
Proof.
  unfold fd_lookup, FAT_FD_BASE, MAX_OPEN_FILES. case_if; [done|].
  destruct (open_files st !! Z.to_nat (fd - 3)) as [g|] eqn:E; [|done].
  destruct (of_in_use g) eqn:Eu; [|done]. intros [= <- <-]. naive_solver lia.
Qed.

(** Updating the slot of one descriptor. *)
Lemma fd_lookup_update st fd i f g :
  fd_lookup st fd = Some (i, f) -> of_in_use g = true ->
  fd_lookup (set_files st (<[i := g]> (open_files st))) fd = Some (i, g) /\
  forall fd', fd' <> fd ->
    fd_lookup (set_files st (<[i := g]> (open_files st))) fd' = fd_lookup st fd'.
Proof.
  intros Hl Hg. apply fd_lookup_inv in Hl as (Hr & -> & Ho & _).
  pose proof (lookup_lt_Some _ _ _ Ho) as Hlen.
  unfold fd_lookup, FAT_FD_BASE, MAX_OPEN_FILES. cbn [set_files open_files]. split.
  - destruct (Z.ltb_spec (fd - 3) 0); [lia|]. destruct (Z.leb_spec 8 (fd - 3)); [lia|].
    cbn [orb]. rewrite list_lookup_insert_eq by done. by rewrite Hg.
  - intros fd' Hne. case_if; [done|]. rewrite list_lookup_insert_ne by lia. done.
Qed.

(** What a read does to the view of a descriptor. *)
Lemma fat_read_view st fd bytes pos len :
  fd_view st fd bytes pos -> 0 <= len ->
  let data := take (Z.to_nat len) (drop (Z.to_nat pos) bytes) in
  exists st', fat_read st fd len = (st', OK data) /\
    fd_view st' fd bytes (pos + Z.of_nat (length data)) /\
    disk st' = disk st /\ vol st' = vol st /\
    (forall fd', fd' <> fd -> fd_lookup st' fd' = fd_lookup st fd').
Proof.
  intros (i & f & cs & Hl & Hspc & Hfc & Hap & -> & ->) Hlen.
  destruct (read_loop_spec (disk st) (vol st) (Z.to_nat len) f (of_first_cluster f) cs len [])
    as (f' & E & Hap' & Hs & Ho); [done..|cbn; lia|].
  unfold fat_read. rewrite Hl, E. cbn [app length] in *. rewrite Z.sub_0_r in *.
  pose proof Hs as (Hu & Hsz & Hfirst & _).
  pose proof (fd_lookup_inv _ _ _ _ Hl) as (_ & _ & _ & Hin).
  destruct (fd_lookup_update st fd i f f' Hl) as [H1 H2]; [congruence|].
  eexists. split; [done|]. split; [|by auto].
  exists i, f', cs. cbn [set_files disk vol]. rewrite Hsz, Hfirst, Ho.
  repeat (split; [done|]). done.
Qed.

(** C10: Reads refine the abstract file: [fat_read] returns the next
    [min(len, size - pos)] bytes of the file, advances the position by as
    many, and touches neither the disk nor any other descriptor. *)
Theorem fat_read_refines st fd bytes pos len :
  fd_view st fd bytes pos -> 0 <= len ->
  let data := take (Z.to_nat len) (drop (Z.to_nat pos) bytes) in
  exists st', fat_read st fd len = (st', OK data) /\
    fd_view st' fd bytes (pos + Z.of_nat (length data)) /\
    disk st' = disk st /\ vol st' = vol st /\
    (forall fd', fd' <> fd -> fd_lookup st' fd' = fd_lookup st fd').
Proof. apply fat_read_view. Qed.

(** Random access: seeking to any offset up to the size of the file
    succeeds, in at most one step per cluster passed, and the next read
    returns exactly the bytes at that offset; a seek past the end is refused
    and changes nothing. *)
Theorem fat_seek_read st fd bytes pos off len fuel :
  fd_view st fd bytes pos -> 0 <= off -> 0 <= len -> off < Z.of_nat fuel ->
  if off <=? Z.of_nat (length bytes) then
    exists st1 st2, fat_seek fuel st fd off = (st1, OK 0) /\
      fat_read st1 fd len =
        (st2, OK (take (Z.to_nat len) (drop (Z.to_nat off) bytes)))
  else fat_seek fuel st fd off = (st, Err).
Proof.
  intros (i & f & cs & Hl & Hspc & Hfc & Hap & -> & ->) Hoff Hlen Hf.
  rewrite (file_bytes_length _ _ _ _ _ Hspc Hfc). unfold fat_seek. rewrite Hl.
  destruct (Z.leb_spec off (of_file_size f)) as [Hle|Hgt];
    destruct (Z.ltb_spec (of_file_size f) off) as [Hgt'|Hle']; try lia; [|done].
  destruct (seek_at_pos (disk st) (vol st) f cs fuel off) as (c & co & E & Hap');
    [done..|lia|lia|]. rewrite E.
  pose proof (fd_lookup_inv _ _ _ _ Hl) as (_ & _ & _ & Hin).
  destruct (fd_lookup_update st fd i f (set_position f c co off) Hl) as [H1 _]; [done|].
  destruct (read_loop_spec (disk st) (vol st) (Z.to_nat len) (set_position f c co off)
    (of_first_cluster f) cs len []) as (f' & E' & _); [done..|cbn; lia|].
  cbn [length] in E'. rewrite Z.sub_0_r in E'.
  do 2 eexists. split; [done|]. unfold fat_read. rewrite H1. cbn [set_files disk vol].
  rewrite E'. done.
Qed.

(** ** Whole-file reads *)
Lemma read_file_sectors_spec d lba s n size acc :
  (forall k, s <= k < s + Z.of_nat n -> is_Some (ata_read_sector d (lba + k))) ->
  read_file_sectors d lba s n size acc =
  (false, acc ++ take (Z.to_nat (size - Z.of_nat (length acc)))
            (mjoin ((fun k => sector_at d (lba + k)) <$> seqZ s (Z.of_nat n)))).
Proof.
  revert s acc. induction n as [|n IH]; intros s acc Hr; cbn [read_file_sectors].
  { rewrite seqZ_nil by lia. cbn. by rewrite take_nil, app_nil_r. }
  destruct (Z.ltb_spec (Z.of_nat (length acc)) size) as [Hlt|Hge].
  2:{ replace (Z.to_nat (size - Z.of_nat (length acc))) with 0%nat by lia.
      by rewrite app_nil_r. }
  destruct (Hr s) as [b Hb]; [lia|]. rewrite Hb.
  pose proof (read_is_sector _ _ _ Hb) as [Hbl _].
  rewrite IH by (intros; apply Hr; lia). f_equal. rewrite <- app_assoc. f_equal.
  rewrite (seqZ_cons s) by lia.
  replace (Z.pred (Z.of_nat (S n))) with (Z.of_nat n) by lia.
  replace (Z.succ s) with (s + 1) by lia.
  rewrite fmap_cons, join_cons. set (rest := mjoin _). unfold sector_at. rewrite Hb.
  cbn [default id]. change (id b) with b. rewrite length_app, length_take, take_app, Hbl, ltb_min. unfold ATA_SECTOR_SIZE.
  f_equal; [|f_equal; lia]. destruct (decide (size - Z.of_nat (length acc) < 512)).
  - f_equal. lia.
  - rewrite !take_ge by lia. done.
Qed.

Lemma read_file_loop_spec d v fuel c cs size acc :
  1 <= sectors_per_cluster v -> chain d v c cs -> chain_readable d v cs ->
  (length cs < fuel)%nat ->
  read_file_loop fuel d v c size acc =
  OK (acc ++ take (Z.to_nat (size - Z.of_nat (length acc))) (chain_bytes d v cs)).
Proof.
  intros Hspc. revert c cs acc. induction fuel as [|fuel IH]; intros c cs acc Hc Hr Hf; [lia|].
  cbn [read_file_loop]. inversion Hc as [? Hval|? cs' Hval Hcs]; subst; rewrite Hval; cbn [andb].
  { unfold chain_bytes. cbn. by rewrite take_nil, app_nil_r. }
  destruct (Z.ltb_spec (Z.of_nat (length acc)) size) as [Hlt|Hge].
  2:{ replace (Z.to_nat (size - Z.of_nat (length acc))) with 0%nat by lia.
      by rewrite app_nil_r. }
  rewrite read_file_sectors_spec by (intros; apply Hr; [by left|lia]).
  rewrite (IH _ cs'); [|done|intros x s Hx; apply Hr; by right|cbn in Hf; lia].
  f_equal. rewrite <- app_assoc. f_equal. unfold chain_bytes, chain_sectors.
  rewrite bind_cons, join_app. fold (cluster_sectors d v c).
  unfold cluster_sectors at 1 2 3. rewrite Z2Nat.id by lia.
  rewrite take_app. f_equal. f_equal. rewrite length_app, length_take. lia.
Qed.

(** [fat_read_file] delivers the whole file: once the path resolves to a
    regular file that fits the buffer, the bytes stored are the file's
    contents, all [de_file_size] of them; a directory or a file larger than
    the buffer is refused before any byte is copied. *)
Theorem fat_read_file_contents st filename buffer_size e cs fuel :
  fat_ready st = true -> 1 <= sectors_per_cluster (vol st) ->
  fat_find_entry fuel (disk st) (vol st) filename = OK e ->
  file_chain (disk st) (vol st) (de_first_cluster_low e) cs (de_file_size e) ->
  (length cs < fuel)%nat ->
  snd (fat_read_file fuel st filename buffer_size) =
    (if flag (de_attr e) FAT_ATTR_DIRECTORY || (buffer_size <? de_file_size e) then Err
     else OK (file_bytes (disk st) (vol st) cs (de_file_size e))) /\
  Z.of_nat (length (file_bytes (disk st) (vol st) cs (de_file_size e))) = de_file_size e.
Proof.
  intros Hrdy Hspc Hfind Hfc Hfuel. split; [|by eapply file_bytes_length].
  unfold fat_read_file. rewrite Hrdy, Hfind. cbn [negb].
  case_if; [done|]. cbn [orb]. case_if; [done|]. cbn [snd].
  destruct Hfc as [Hc Hr _]. rewrite (read_file_loop_spec _ _ _ _ cs) by done.
  cbn [length app]. by rewrite Z.sub_0_r.
Qed.

(** ** Opening and closing *)
Lemma free_slot_Some fs i :
  free_slot fs = Some i ->
  0 <= i < 8 /\ exists f, fs !! Z.to_nat i = Some f /\ of_in_use f = false.
Proof.
  unfold free_slot. rewrite find_from_Some. change (Z.of_nat (Z.to_nat MAX_OPEN_FILES)) with 8.
  intros (Hi & Hp & _). split; [lia|].
  destruct (fs !! Z.to_nat i) as [f|]; [|done]. apply negb_true_iff in Hp. eauto.
Qed.

Lemma free_slot_None fs f i :
  free_slot fs = None -> 0 <= i < 8 -> fs !! Z.to_nat i = Some f -> of_in_use f = true.
Proof.
  unfold free_slot. rewrite find_from_None. intros Hn Hi Hf.
  specialize (Hn i Hi). cbn beta in Hn. rewrite Hf in Hn. by apply negb_false_iff in Hn.
Qed.

Lemma fd_lookup_insert_other st i g fd :
  0 <= i < 8 -> fd <> i + FAT_FD_BASE ->
  fd_lookup (set_files st (<[Z.to_nat i := g]> (open_files st))) fd = fd_lookup st fd.
Proof.
  intros Hi Hne. unfold fd_lookup, FAT_FD_BASE, MAX_OPEN_FILES in *. cbn [set_files open_files].
  case_if; [done|]. zbool. by rewrite list_lookup_insert_ne by lia.
Qed.

Lemma fd_lookup_insert_same st i g f :
  0 <= i < 8 -> open_files st !! Z.to_nat i = Some f -> of_in_use g = true ->
  fd_lookup (set_files st (<[Z.to_nat i := g]> (open_files st))) (i + FAT_FD_BASE) =
  Some (Z.to_nat i, g).
Proof.
  intros Hi Hf Hg. apply lookup_lt_Some in Hf.
  unfold fd_lookup, FAT_FD_BASE, MAX_OPEN_FILES. cbn [set_files open_files].
  replace (i + 3 - 3) with i by lia.
  destruct (Z.ltb_spec i 0); [lia|]. destruct (Z.leb_spec 8 i); [lia|]. cbn [orb].
  rewrite list_lookup_insert_eq by done. by rewrite Hg.
Qed.

(** Opening a regular file hands out a descriptor that was closed, at
    position 0 of the file's contents, leaving every other descriptor alone;
    it fails only when all eight slots are in use. *)
Theorem fat_open_view st task_id filename e cs fuel :
  fat_ready st = true -> 1 <= sectors_per_cluster (vol st) ->
  fat_find_entry fuel (disk st) (vol st) filename = OK e ->
  flag (de_attr e) FAT_ATTR_DIRECTORY = false ->
  file_chain (disk st) (vol st) (de_first_cluster_low e) cs (de_file_size e) ->
  match fat_open fuel st task_id filename with
  | (st', OK fd) =>
      3 <= fd < 11 /\ fd_lookup st fd = None /\
      fd_view st' fd (file_bytes (disk st) (vol st) cs (de_file_size e)) 0 /\
      (exists i f, fd_lookup st' fd = Some (i, f) /\ of_owner_task_id f = task_id) /\
      disk st' = disk st /\
      (forall fd', fd' <> fd -> fd_lookup st' fd' = fd_lookup st fd')
  | (st', Err) => st' = st /\ forall fd f, 3 <= fd < 11 ->
      open_files st !! Z.to_nat (fd - 3) = Some f -> of_in_use f = true
  | (_, Fuel) => False
  end.
Proof.
  intros Hrdy Hspc Hfind Hdir Hfc. unfold fat_open. rewrite Hrdy, Hfind, Hdir. cbn [negb].
  destruct (free_slot (open_files st)) as [i|] eqn:Ei.
  2:{ split; [done|]. intros fd f Hfd Hf. eapply free_slot_None; [done| |done]. lia. }
  apply free_slot_Some in Ei as (Hi & old & Hold & Hu). rewrite Hold. cbn [default].
  set (f := mk_open_file _ _ _ _ _ _ _ _ _ _).
  pose proof (fd_lookup_insert_same st i f old Hi Hold eq_refl) as Hl.
  unfold FAT_FD_BASE in *. split; [lia|]. split.
  { unfold fd_lookup, FAT_FD_BASE. case_if; [done|]. replace (i + 3 - 3) with i by lia.
    by rewrite Hold, Hu. }
  split.
  - exists (Z.to_nat i), f, cs. split; [done|]. cbn [set_files disk vol].
    split; [done|]. split; [done|]. split; [|done]. split; cbn; [destruct Hfc; lia|].
    intros Hlt. destruct Hfc as [Hc _ Hs]. exists 0%nat. unfold cluster_size, ATA_SECTOR_SIZE in *.
    destruct Hc; [cbn in Hs; lia|]. split; [done|]. lia.
  - split; [by exists (Z.to_nat i), f|]. split; [done|]. intros fd' Hne.
    by apply fd_lookup_insert_other.
Qed.

(** Task exit releases exactly the descriptors the task owns: the others
    stay open and unchanged, so no descriptor survives its task and no task
    loses one to another's exit. *)
Theorem fat_close_all_exact st task_id fd :
  fd_lookup (fat_close_all_for_task st task_id) fd =
  match fd_lookup st fd with
  | Some (i, f) => if of_owner_task_id f =? task_id then None else Some (i, f)
  | None => None
  end.
Proof.
  unfold fd_lookup, fat_close_all_for_task. cbn [set_files open_files].
  case_if; [done|]. rewrite list_lookup_fmap.
  destruct (open_files st !! _) as [f|]; [|done]. cbn.
  destruct (of_in_use f) eqn:Eu; cbn [andb]; [|by rewrite Eu].
  destruct (of_owner_task_id f =? task_id); [done|]. by rewrite Eu.
Qed.

(** Closing a descriptor frees it for the next open and affects no other;
    closing it twice is an error. *)
Theorem fat_close_spec st fd :
  match fat_close st fd with
  | (st', OK r) => r = 0 /\ is_Some (fd_lookup st fd) /\ fd_lookup st' fd = None /\
      snd (fat_close st' fd) = Err /\ is_Some (free_slot (open_files st')) /\
      disk st' = disk st /\ (forall fd', fd' <> fd -> fd_lookup st' fd' = fd_lookup st fd')
  | (st', Err) => st' = st /\ fd_lookup st fd = None
  | (_, Fuel) => False
  end.
Proof.
  unfold fat_close. destruct (fd_lookup st fd) as [[i f]|] eqn:El; [|done].
  apply fd_lookup_inv in El as (Hr & -> & Ho & Hin). pose proof (lookup_lt_Some _ _ _ Ho).
  assert (Hn : fd_lookup (set_files st (<[Z.to_nat (fd - 3) := set_in_use f false]> (open_files st))) fd
    = None).
  { unfold fd_lookup, FAT_FD_BASE. case_if; [done|]. cbn [set_files open_files].
    by rewrite list_lookup_insert_eq. }
  rewrite Hn. split; [done|]. split; [by eexists|]. split; [done|]. split; [done|]. split.
  - destruct (free_slot _) eqn:E; [by eexists|]. exfalso.
    assert (of_in_use (set_in_use f false) = true); [|done].
    eapply (free_slot_None _ _ (fd - 3)); [done|lia|]. cbn [set_files open_files].
    by rewrite list_lookup_insert_eq.
  - split; [done|]. intros fd' Hne. apply fd_lookup_insert_other; [lia|].
    unfold FAT_FD_BASE. lia.
Qed.
End FatFileSpec.
