(* ===== verification/FatWrite.v ===== *)
(** * Writing files and creating directories (src/src/fat.c)

    [fat_write], [fat_open_write] and [fat_mkdir], and what appending to a
    file does to the disk. *)
From S2P Require Import Prelude FatTypes FatName FatTable FatDir FatFile.

Section FatWrite.
Context {D : Type} `{BlockDevice D}.

(** Read the sector of a directory entry, change the entry, write it back;
    both results are ignored by the callers. *)
Definition update_entry (d : D) (sector off : Z) (g : fat_dir_entry -> fat_dir_entry) : D :=
  match ata_read_sector d sector with
  | None => d
  | Some b => default d (ata_write_sector d sector (store_entry b off (g (decode_entry b off))))
  end.

(** ** [fat_write] *)

(** The first part of a turn: make sure the descriptor points into an
    allocated cluster with room.  [None] is the [break] on a full disk. *)
Definition write_prepare (d : D) (v : fat_volume) (f : open_file) : D * option open_file :=
  if of_current_cluster f =? 0 then
    let '(d1, new_cluster) := fat_alloc_cluster d v in
    if new_cluster =? 0 then (d1, None)
    else
      let f1 := set_position f new_cluster 0 (of_file_offset f) in
      let f2 := if of_first_cluster f1 =? 0 then set_of_first f1 new_cluster else f1 in
      (update_entry d1 (of_dir_entry_sector f) (of_dir_entry_offset f)
         (fun e => set_first_cluster e new_cluster), Some f2)
  else if cluster_size v <=? of_cluster_offset f then
    let '(d1, new_cluster) := fat_alloc_cluster d v in
    if new_cluster =? 0 then (d1, None)
    else (fat_set_cluster_entry d1 v (of_current_cluster f) new_cluster,
          Some (set_position f new_cluster 0 (of_file_offset f)))
  else (d, Some f).

(** The descriptor after [to_copy] bytes were stored through it. *)
Definition write_advance (f : open_file) (to_copy : Z) : open_file :=
  let f' := set_position f (of_current_cluster f) (of_cluster_offset f + to_copy)
              (u32 (of_file_offset f + to_copy)) in
  if of_file_size f' <? of_file_offset f' then set_of_size f' (of_file_offset f') else f'.

(** The second part of a turn: read, modify and write one sector.  [None] is
    the [break] on a device error. *)
Definition write_sector_part (d : D) (v : fat_volume) (f : open_file) (data : list Z)
    : option (D * open_file * list Z) :=
  let sector_in_cluster := of_cluster_offset f / ATA_SECTOR_SIZE in
  let offset_in_sector := of_cluster_offset f mod ATA_SECTOR_SIZE in
  let lba := cluster_lba v (of_current_cluster f) + sector_in_cluster in
  match ata_read_sector d lba with
  | None => None
  | Some sector_buf =>
      let available_in_sector := ATA_SECTOR_SIZE - offset_in_sector in
      let remaining_requested := Z.of_nat (length data) in
      let to_copy := if available_in_sector <? remaining_requested
                     then available_in_sector else remaining_requested in
      match ata_write_sector d lba
              (splice sector_buf (Z.to_nat offset_in_sector) (take (Z.to_nat to_copy) data)) with
      | None => None
      | Some d' => Some (d', write_advance f to_copy, drop (Z.to_nat to_copy) data)
      end
  end.

(** The loop of [fat_write]; [data] is what is left of the buffer.  [n] bounds
    the turns, each of which stores at least one byte. *)
Fixpoint write_loop (n : nat) (d : D) (v : fat_volume) (f : open_file) (data : list Z)
    : D * open_file * list Z :=
  match n with
  | O => (d, f, data)
  | S n' =>
      match data with
      | [] => (d, f, data)
      | _ =>
          match write_prepare d v f with
          | (d1, None) => (d1, f, data)
          | (d1, Some f1) =>
              match write_sector_part d1 v f1 data with
              | None => (d1, f1, data)
              | Some (d2, f2, data') => write_loop n' d2 v f2 data'
              end
          end
      end
  end.

(** [fat_write]: the number of bytes written, or [Err] on a descriptor that
    is not open for writing. *)
Definition fat_write (st : fat_state D) (fd : Z) (buffer : list Z) : fat_state D * res Z :=
  match fd_lookup st fd with
  | None => (st, Err)
  | Some (i, f) =>
      if negb (of_writable f) then (st, Err)
      else
        let '(d1, f1, rest) := write_loop (length buffer) (disk st) (vol st) f buffer in
        let d2 := update_entry d1 (of_dir_entry_sector f1) (of_dir_entry_offset f1)
                    (fun e => set_file_size e (of_file_size f1)) in
        (set_files (set_disk st d2) (<[i := f1]> (open_files st)),
         OK (Z.of_nat (length buffer) - Z.of_nat (length rest)))
  end.

(** ** [fat_open_write] *)

(** A directory entry as both creators fill it in, over the old 32 bytes. *)
Definition fresh_entry (name : list Z) (attr first_cluster : Z) : fat_dir_entry :=
  let name83 := fat_name_to_83 name in
  mk_dir_entry (take 8 name83) (take 3 (drop 8 name83)) attr 0 0 0 0 0 0 0 0 first_cluster 0.

(** Where a freshly opened descriptor starts. *)
Record write_start := mk_start {
  ws_cluster : Z;
  ws_first : Z;
  ws_size : Z;
  ws_offset : Z;
  ws_coff : Z }.

Definition start_empty : write_start := mk_start 0 0 0 0 0.

(** The C code divides by the cluster size here, which [fat_init] does not
    check to be non-zero. *)
Definition start_append (v : fat_volume) (existing : fat_dir_entry) (last : Z) : write_start :=
  let size := de_file_size existing in
  if de_first_cluster_low existing =? 0
  then mk_start 0 (de_first_cluster_low existing) size size 0
  else
    let coff := size mod cluster_size v in
    mk_start last (de_first_cluster_low existing) size size
      (if (coff =? 0) && (0 <? size) then cluster_size v else coff).

Definition start_modify (existing : fat_dir_entry) : write_start :=
  mk_start (de_first_cluster_low existing) (de_first_cluster_low existing)
    (de_file_size existing) 0 0.

(** Takes the first free slot of the descriptor table. *)
Definition install (st : fat_state D) (task_id dir_sector dir_offset : Z) (w : write_start)
    : fat_state D * res Z :=
  match free_slot (open_files st) with
  | None => (st, Err)
  | Some i =>
      let f := mk_open_file true (ws_size w) (ws_cluster w) (ws_first w) (ws_coff w)
                 (ws_offset w) true dir_sector dir_offset task_id in
      (set_files st (<[Z.to_nat i := f]> (open_files st)), OK (i + FAT_FD_BASE))
  end.

(** The branch for a name that does not exist yet. *)
Definition open_new (fuel : nat) (st : fat_state D) (task_id : Z) (parent : fat_dir_ref)
    (name : list Z) : fat_state D * res Z :=
  match fat_alloc_dir_entry_in_dir fuel (disk st) (vol st) parent with
  | (d1, Fuel) => (set_disk st d1, Fuel)
  | (d1, Err) => (set_disk st d1, Err)
  | (d1, OK (dir_sector, dir_offset)) =>
      match ata_read_sector d1 dir_sector with
      | None => (set_disk st d1, Err)
      | Some sector_buf =>
          match ata_write_sector d1 dir_sector
                  (store_entry sector_buf dir_offset (fresh_entry name 0 0)) with
          | None => (set_disk st d1, Err)
          | Some d2 => install (set_disk st d2) task_id dir_sector dir_offset start_empty
          end
      end
  end.

(** The branches for an existing regular file. *)
Definition open_existing (fuel : nat) (st : fat_state D) (task_id dir_sector dir_offset : Z)
    (existing : fat_dir_entry) (mode : Z) : fat_state D * res Z :=
  match ata_read_sector (disk st) dir_sector with
  | None => (st, Err)
  | Some sector_buf =>
      let e := decode_entry sector_buf dir_offset in
      if mode =? FAT_OPEN_TRUNCATE then
        match (if negb (de_first_cluster_low existing =? 0)
               then fat_free_chain fuel (disk st) (vol st) (de_first_cluster_low existing)
               else OK (disk st)) with
        | OK d1 =>
            match ata_write_sector d1 dir_sector
                    (store_entry sector_buf dir_offset (set_file_size (set_first_cluster e 0) 0)) with
            | None => (set_disk st d1, Err)
            | Some d2 => install (set_disk st d2) task_id dir_sector dir_offset start_empty
            end
        | Err => (st, Err)
        | Fuel => (st, Fuel)
        end
      else if mode =? FAT_OPEN_APPEND then
        match (if negb (de_first_cluster_low existing =? 0)
               then fat_find_last_cluster fuel (disk st) (vol st) (de_first_cluster_low existing)
               else OK 0) with
        | OK last => install st task_id dir_sector dir_offset (start_append (vol st) existing last)
        | Err => (st, Err)
        | Fuel => (st, Fuel)
        end
      else install st task_id dir_sector dir_offset (start_modify existing)
  end.

Definition fat_open_write (fuel : nat) (st : fat_state D) (task_id : Z) (filename : list Z)
    (mode : Z) : fat_state D * res Z :=
  if negb (fat_ready st) then (st, Err)
  else
    match fat_resolve_parent fuel (disk st) (vol st) filename FAT_MAX_COMPONENT with
    | Fuel => (st, Fuel)
    | Err => (st, Err)
    | OK (parent, name) =>
        match fat_find_entry_in_dir fuel (disk st) (vol st) parent name with
        | Fuel => (st, Fuel)
        | Err => open_new fuel st task_id parent name
        | OK (dir_sector, dir_offset, existing) =>
            if flag (de_attr existing) FAT_ATTR_DIRECTORY then (st, Err)
            else if mode =? FAT_OPEN_CREATE then (st, Err)
            else open_existing fuel st task_id dir_sector dir_offset existing mode
        end
    end.

(** ** [fat_mkdir] *)

(** The first sector of a new directory: the "." and ".." entries. *)
Definition dot_entries (new_cluster : Z) (parent : fat_dir_ref) : list Z :=
  let dot := mk_dir_entry ([46] ++ replicate 7 32) (replicate 3 32) FAT_ATTR_DIRECTORY
               0 0 0 0 0 0 0 0 new_cluster 0 in
  let dotdot := mk_dir_entry ([46; 46] ++ replicate 6 32) (replicate 3 32) FAT_ATTR_DIRECTORY
                  0 0 0 0 0 0 0 0 (if dr_is_root parent then 0 else dr_first_cluster parent) 0 in
  store_entry (store_entry (replicate 512 0) 0 dot) 1 dotdot.

(** The part of [fat_mkdir] after the new directory's first sector was
    written: clear the rest of the cluster and enter the name in the parent;
    every failure gives the cluster back. *)
Definition mkdir_link (fuel : nat) (d : D) (v : fat_volume) (parent : fat_dir_ref)
    (name : list Z) (new_cluster : Z) : D * res Z :=
  let give_back d := fat_set_cluster_entry d v new_cluster 0 in
  let d1 := zero_sectors d (cluster_lba v new_cluster) 1
              (Z.to_nat (sectors_per_cluster v - 1)) in
  match fat_alloc_dir_entry_in_dir fuel d1 v parent with
  | (d2, Fuel) => (d2, Fuel)
  | (d2, Err) => (give_back d2, Err)
  | (d2, OK (dir_sector, dir_offset)) =>
      match ata_read_sector d2 dir_sector with
      | None => (give_back d2, Err)
      | Some sector_buf =>
          match ata_write_sector d2 dir_sector
                  (store_entry sector_buf dir_offset
                     (fresh_entry name FAT_ATTR_DIRECTORY new_cluster)) with
          | None => (give_back d2, Err)
          | Some d3 => (d3, OK 0)
          end
      end
  end.

Definition fat_mkdir (fuel : nat) (st : fat_state D) (path : list Z) : fat_state D * res Z :=
  if negb (fat_ready st) then (st, Err)
  else
    match fat_resolve_parent fuel (disk st) (vol st) path FAT_MAX_COMPONENT with
    | Fuel => (st, Fuel)
    | Err => (st, Err)
    | OK (parent, name) =>
        match fat_find_entry_in_dir fuel (disk st) (vol st) parent name with
        | Fuel => (st, Fuel)
        | OK _ => (st, Err)
        | Err =>
            let '(d1, new_cluster) := fat_alloc_cluster (disk st) (vol st) in
            if new_cluster =? 0 then (set_disk st d1, Err)
            else
              match ata_write_sector d1 (cluster_lba (vol st) new_cluster)
                      (dot_entries new_cluster parent) with
              | None => (set_disk st (fat_set_cluster_entry d1 (vol st) new_cluster 0), Err)
              | Some d2 =>
                  let '(d3, r) := mkdir_link fuel d2 (vol st) parent name new_cluster in
                  (set_disk st d3, r)
              end
        end
    end.
End FatWrite.

Section FatWriteProofs.
Context {D : Type} `{BlockDevice D} `{!BlockDeviceLaws D} `{!WorkingDevice D}.
Implicit Types (d : D) (v : fat_volume) (f : open_file) (st : fat_state D).

(** ** The state appends work in *)

(** A cluster the allocator may hand out. *)
Definition free_cluster d v (c : Z) : Prop :=
  2 <= c < fat_size_sectors v * 256 /\ fat_get_next_cluster d v c = 0.

(** Every data sector the FAT describes can be read. *)
Definition data_readable d v : Prop :=
  forall c s, 2 <= c < fat_size_sectors v * 256 -> 0 <= s < sectors_per_cluster v ->
    is_Some (ata_read_sector d (cluster_lba v c + s)).

(** The sector lies in no cluster of [cs] and in no free cluster. *)
Definition apart d v (cs : list Z) (lba : Z) : Prop :=
  forall c s, c ∈ cs \/ free_cluster d v c -> 0 <= s < sectors_per_cluster v ->
    lba <> cluster_lba v c + s.

(** The descriptor stands at the end of its file. *)
Definition at_end v f (cs : list Z) : Prop :=
  of_file_offset f = of_file_size f /\
  match last cs with
  | None => of_current_cluster f = 0 /\ of_first_cluster f = 0 /\ of_file_size f = 0
  | Some c => of_current_cluster f = c /\ 0 <= of_cluster_offset f <= cluster_size v /\
      of_file_size f = (Z.of_nat (length cs) - 1) * cluster_size v + of_cluster_offset f
  end.

(** A descriptor whose file is the chain [cs], with its directory entry. *)
Record write_ready d v f (cs : list Z) (b : list Z) : Prop := {
  wr_vol : vol_ok v;
  wr_fat : fat_readable d v;
  wr_data : data_readable d v;
  wr_chain : chain d v (of_first_cluster f) cs;
  wr_in : Forall (fun c => 2 <= c < fat_size_sectors v * 256) cs;
  wr_used : Forall (fun c => fat_get_next_cluster d v c <> 0) cs;
  wr_dir : ata_read_sector d (of_dir_entry_sector f) = Some b;
  wr_slot : 0 <= of_dir_entry_offset f < 16;
  wr_first : de_first_cluster_low (decode_entry b (of_dir_entry_offset f)) = of_first_cluster f;
  wr_outside : root_dir_start_lba v <= of_dir_entry_sector f;
  wr_apart : apart d v cs (of_dir_entry_sector f);
  wr_end : at_end v f cs }.

(** The fields a write leaves alone. *)
Definition same_handle f f' : Prop :=
  of_in_use f' = of_in_use f /\ of_writable f' = of_writable f /\
  of_dir_entry_sector f' = of_dir_entry_sector f /\
  of_dir_entry_offset f' = of_dir_entry_offset f /\
  of_owner_task_id f' = of_owner_task_id f.

(** What appending [data] does: the chain grows by clusters that were free,
    the contents by [data]; clusters and sectors of other files, and the
    other entries of the directory sector, keep their values. *)
Record appended d v f cs b d' f' cs' b' (data : list Z) : Prop := {
  ap_ready : write_ready d' v f' cs' b';
  ap_data : file_bytes d' v cs' (of_file_size f') = file_bytes d v cs (of_file_size f) ++ data;
  ap_same : same_handle f f';
  ap_ext : exists new, cs' = cs ++ new /\ Forall (free_cluster d v) new;
  ap_free c : free_cluster d' v c -> free_cluster d v c;
  ap_fat c : 0 <= c < fat_size_sectors v * 256 -> c ∉ cs -> fat_get_next_cluster d v c <> 0 ->
    fat_get_next_cluster d' v c = fat_get_next_cluster d v c;
  ap_sec lba : root_dir_start_lba v <= lba -> lba <> of_dir_entry_sector f -> apart d v cs lba ->
    ata_read_sector d' lba = ata_read_sector d lba;
  ap_slot : slot_set b b' (of_dir_entry_offset f)
    (set_first_cluster (decode_entry b (of_dir_entry_offset f)) (of_first_cluster f')) }.

(** ** Frame lemmas *)
Lemma next_frame d d' v c :
  vol_ok v -> cluster_in v c ->
  (forall lba, lba < root_dir_start_lba v -> ata_read_sector d' lba = ata_read_sector d lba) ->
  fat_get_next_cluster d' v c = fat_get_next_cluster d v c.
Proof.
  intros Hv Hc Hf. pose proof (cluster_in_sector v c Hc) as Hs.
  unfold fat_get_next_cluster, ATA_SECTOR_SIZE. rewrite Hf; [done|].
  destruct Hv as [(_ & _ & _ & _ & _ & -> & _) Hn]. nia.
Qed.

Lemma in_data v c : vol_ok v -> 2 <= c < fat_size_sectors v * 256 ->
  2 <= c < 65536 /\ cluster_in v c /\ valid_cluster c = true /\ is_u16 c.
Proof.
  intros (_ & _ & _ & _ & Hfs) Hc. unfold cluster_in, is_u16. rewrite valid_cluster_range. lia.
Qed.

Lemma data_sector_outside v c s :
  vol_ok v -> 2 <= c < fat_size_sectors v * 256 -> 0 <= s ->
  root_dir_start_lba v <= cluster_lba v c + s.
Proof.
  intros Hv Hc Hs. destruct (in_data v c Hv Hc) as (Hc' & _). destruct Hv as [Hwf _].
  pose proof (cluster_lba_data v c Hwf Hc'). lia.
Qed.

Lemma chain_bytes_frame d d' v cs :
  (forall c s, c ∈ cs -> 0 <= s < sectors_per_cluster v ->
     ata_read_sector d' (cluster_lba v c + s) = ata_read_sector d (cluster_lba v c + s)) ->
  chain_bytes d' v cs = chain_bytes d v cs.
Proof.
  intros Hf. unfold chain_bytes, chain_sectors. f_equal.
  induction cs as [|c cs IH]; [done|]. rewrite !bind_cons. f_equal.
  - unfold cluster_sectors. apply list_fmap_ext. intros i s Hi.
    apply list_elem_of_lookup_2, elem_of_seqZ in Hi. unfold sector_at.
    rewrite Hf; [done|by left|lia].
  - apply IH. intros c' s Hc. apply Hf. by right.
Qed.

Lemma chain_sectors_index v (cs : list Z) i :
  1 <= sectors_per_cluster v -> (i < length cs * Z.to_nat (sectors_per_cluster v))%nat ->
  exists k c s, cs !! k = Some c /\ 0 <= s < sectors_per_cluster v /\
    i = (k * Z.to_nat (sectors_per_cluster v) + Z.to_nat s)%nat.
Proof.
  intros Hspc Hi. set (n := Z.to_nat (sectors_per_cluster v)) in *.
  pose proof (Nat.div_mod_eq i n). pose proof (Nat.mod_upper_bound i n).
  destruct (lookup_lt_is_Some_2 cs (i / n)) as [c Hc].
  { apply Nat.Div0.div_lt_upper_bound. lia. }
  exists (i / n)%nat, c, (Z.of_nat (i mod n)). split; [done|]. lia.
Qed.

(** Overwriting part of one sector of a chain overwrites those bytes of its
    contents and nothing else. *)
Lemma chain_bytes_write d d' v cs k c s b o x :
  vol_ok v -> NoDup cs -> Forall (fun c => 2 <= c < fat_size_sectors v * 256) cs ->
  chain_readable d v cs -> cs !! k = Some c -> 0 <= s < sectors_per_cluster v ->
  ata_read_sector d (cluster_lba v c + s) = Some b ->
  ata_read_sector d' (cluster_lba v c + s) = Some (splice b o x) ->
  (forall lba, lba <> cluster_lba v c + s -> ata_read_sector d' lba = ata_read_sector d lba) ->
  (o + length x <= 512)%nat ->
  chain_bytes d' v cs =
  splice (chain_bytes d v cs) ((k * Z.to_nat (sectors_per_cluster v) + Z.to_nat s) * 512 + o) x.
Proof.
  intros Hv Hnd Hin Hr Hk Hs Hb Hb' Hf Ho. unfold chain_bytes.
  pose proof (chain_sectors_lookup d v cs k c s Hk Hs) as Hl.
  unfold sector_at in Hl. rewrite Hb in Hl. cbn in Hl.
  rewrite <- (mjoin_insert_splice _ 512 _ b) by (done || by apply chain_sectors_uniform).
  f_equal. assert (Hspc : 1 <= sectors_per_cluster v) by lia. apply list_eq. intros i.
  destruct (decide (i < length cs * Z.to_nat (sectors_per_cluster v))%nat) as [Hi|Hi].
  2:{ rewrite !lookup_ge_None_2; [done|..]; rewrite ?length_insert, chain_sectors_length; lia. }
  destruct (chain_sectors_index v cs i Hspc Hi) as (k' & c' & s' & Hk' & Hs' & ->).
  rewrite chain_sectors_lookup with (c := c') by done.
  assert (Hcc : forall j y, cs !! j = Some y -> 2 <= y < 65536).
  { intros j y Hj. eapply Forall_lookup in Hin; eauto. by apply (in_data v y Hv). }
  destruct (decide (cluster_lba v c' + s' = cluster_lba v c + s)) as [E|E].
  - apply cluster_lba_inj in E as [-> ->]; [|by destruct Hv|eauto..|done|done].
    assert (k' = k) as -> by (by eapply NoDup_lookup).
    rewrite list_lookup_insert_eq by (rewrite chain_sectors_length; lia).
    unfold sector_at. by rewrite Hb'.
  - rewrite list_lookup_insert_ne.
    2:{ intros E'. apply E. assert (k' = k) as -> by nia. assert (s' = s) as -> by nia. congruence. }
    rewrite chain_sectors_lookup with (c := c') by done. unfold sector_at. by rewrite Hf.
Qed.

Lemma update_entry_spec d sector off b g :
  ata_read_sector d sector = Some b -> 0 <= off < 16 ->
  entry_wf (g (decode_entry b off)) ->
  ata_read_sector (update_entry d sector off g) sector =
    Some (store_entry b off (g (decode_entry b off))) /\
  forall lba, lba <> sector ->
    ata_read_sector (update_entry d sector off g) lba = ata_read_sector d lba.
Proof.
  intros Hb Ho Hwf. unfold update_entry. rewrite Hb. pose proof (read_is_sector _ _ _ Hb) as Hs.
  destruct (write_readable d sector (store_entry b off (g (decode_entry b off)))) as [d' Hd'];
    [by eexists|by apply store_entry_sector|].
  rewrite Hd'. cbn [default]. split; [|intros; by eapply write_read_other; eauto].
  eapply write_read_same; [|done]. by apply store_entry_sector.
Qed.

(** ** Appending is reflexive and transitive *)
Lemma set_first_cluster_same e : set_first_cluster e (de_first_cluster_low e) = e.
Proof. by destruct e. Qed.

Lemma appended_refl d v f cs b : write_ready d v f cs b -> appended d v f cs b d f cs b [].
Proof.
  intros Hr. split; try done.
  - by rewrite app_nil_r.
  - exists []. by rewrite app_nil_r.
  - rewrite <- (wr_first _ _ _ _ _ Hr), set_first_cluster_same. apply slot_set_refl.
Qed.

Lemma appended_not_free d v f cs b d1 f1 cs1 b1 data c :
  appended d v f cs b d1 f1 cs1 b1 data ->
  fat_get_next_cluster d v c <> 0 -> c ∉ cs -> c ∉ cs1.
Proof.
  intros Ha Hn Hc. destruct (ap_ext _ _ _ _ _ _ _ _ _ _ Ha) as (new & -> & Hnew).
  rewrite Forall_forall in Hnew. intros [?|Hx]%elem_of_app; [done|].
  by destruct (Hnew _ Hx) as [_ ?].
Qed.

Lemma appended_apart d v f cs b d1 f1 cs1 b1 data lba :
  appended d v f cs b d1 f1 cs1 b1 data -> apart d v cs lba -> apart d1 v cs1 lba.
Proof.
  intros Ha Hap c s Hc. apply Hap. destruct (ap_ext _ _ _ _ _ _ _ _ _ _ Ha) as (new & -> & Hnew).
  rewrite Forall_forall in Hnew. rewrite elem_of_app in Hc.
  destruct Hc as [[?|?]|?]; [by left|right; by apply Hnew|right].
  by apply (ap_free _ _ _ _ _ _ _ _ _ _ Ha).
Qed.

Lemma appended_trans d v f cs b d1 f1 cs1 b1 x d2 f2 cs2 b2 y :
  appended d v f cs b d1 f1 cs1 b1 x -> appended d1 v f1 cs1 b1 d2 f2 cs2 b2 y ->
  appended d v f cs b d2 f2 cs2 b2 (x ++ y).
Proof.
  intros H1 H2.
  pose proof (ap_same _ _ _ _ _ _ _ _ _ _ H1) as (S1 & S2 & S3 & S4 & S5).
  pose proof (ap_same _ _ _ _ _ _ _ _ _ _ H2) as (T1 & T2 & T3 & T4 & T5).
  split.
  - apply H2.
  - rewrite (ap_data _ _ _ _ _ _ _ _ _ _ H2), (ap_data _ _ _ _ _ _ _ _ _ _ H1).
    by rewrite app_assoc.
  - unfold same_handle. intuition congruence.
  - destruct (ap_ext _ _ _ _ _ _ _ _ _ _ H1) as (n1 & -> & Hn1).
    destruct (ap_ext _ _ _ _ _ _ _ _ _ _ H2) as (n2 & -> & Hn2).
    exists (n1 ++ n2). split; [by rewrite app_assoc|]. apply Forall_app. split; [done|].
    eapply Forall_impl; [done|]. apply H1.
  - intros c Hc. by apply H1, H2.
  - intros c Hc Hni Hn. pose proof (ap_fat _ _ _ _ _ _ _ _ _ _ H1 c Hc Hni Hn) as E.
    rewrite <- E. apply (ap_fat _ _ _ _ _ _ _ _ _ _ H2); [done| |by rewrite E].
    by eapply appended_not_free.
  - intros lba Hl Hne Hap. rewrite (ap_sec _ _ _ _ _ _ _ _ _ _ H2), (ap_sec _ _ _ _ _ _ _ _ _ _ H1);
      [done..|by rewrite S3|by eapply appended_apart].
  - pose proof (ap_slot _ _ _ _ _ _ _ _ _ _ H1) as P1. pose proof (ap_slot _ _ _ _ _ _ _ _ _ _ H2) as P2.
    rewrite S4, (ss_same _ _ _ _ P1) in P2. by eapply slot_set_trans.
Qed.

Lemma ready_chain_readable d v f cs b : write_ready d v f cs b -> chain_readable d v cs.
Proof.
  intros Hr c s Hc Hs. apply (wr_data _ _ _ _ _ Hr); [|done].
  pose proof (wr_in _ _ _ _ _ Hr) as Hin. rewrite Forall_forall in Hin. auto.
Qed.

(** ** One sector *)
Lemma pos_index (L : nat) spc co :
  (0 < L)%nat -> 0 <= spc -> 0 <= co ->
  (((L - 1) * Z.to_nat spc + Z.to_nat (co / 512)) * 512 + Z.to_nat (co mod 512))%nat =
  Z.to_nat ((Z.of_nat L - 1) * (spc * 512) + co).
Proof.
  intros HL Hs Hc. pose proof (Z.div_mod co 512). pose proof (Z.mod_pos_bound co 512).
  assert (0 <= co / 512) by dlia. assert (0 <= (Z.of_nat L - 1) * spc) by nia.
  assert (E : Z.of_nat ((L - 1) * Z.to_nat spc) = (Z.of_nat L - 1) * spc) by nia.
  lia.
Qed.

(** A write into the last cluster, at the end of the file. *)
Lemma file_bytes_append d d' v f cs b c b0 x :
  write_ready d v f cs b -> last cs = Some c ->
  let co := of_cluster_offset f in
  let lba := cluster_lba v c + co / 512 in
  co < cluster_size v ->
  ata_read_sector d lba = Some b0 ->
  ata_read_sector d' lba = Some (splice b0 (Z.to_nat (co mod 512)) x) ->
  (forall l, l <> lba -> ata_read_sector d' l = ata_read_sector d l) ->
  Z.of_nat (length x) <= 512 - co mod 512 ->
  file_bytes d' v cs (of_file_size f + Z.of_nat (length x)) =
  file_bytes d v cs (of_file_size f) ++ x.
Proof.
  intros Hr Hlast co lba Hlt Hb Hb' Hoth Hx.
  pose proof Hr as [Hv _ _ Hch Hin _ _ _ _ _ _ [_ Hend]]. rewrite Hlast in Hend.
  destruct Hend as (_ & Hco & Hsz). fold co in Hco, Hsz.
  assert (Hk : cs !! (length cs - 1)%nat = Some c)
    by (rewrite last_lookup, <- Nat.sub_1_r in Hlast; done).
  pose proof (lookup_lt_Some _ _ _ Hk) as Hlen. unfold cluster_size, ATA_SECTOR_SIZE in *.
  pose proof (chain_bytes_length d v cs (ready_chain_readable _ _ _ _ _ Hr) ltac:(lia)) as Hcl.
  unfold cluster_size, ATA_SECTOR_SIZE in Hcl.
  pose proof (Z.div_mod co 512). pose proof (Z.mod_pos_bound co 512).
  unfold file_bytes.
  rewrite (chain_bytes_write d d' v cs (length cs - 1) c (co / 512) b0 (Z.to_nat (co mod 512)) x);
    [|done|by eapply chain_NoDup|done|by eapply ready_chain_readable|done|lia|done|done|done|lia].
  rewrite pos_index by lia. rewrite <- Hsz.
  assert (0 <= (Z.of_nat (length cs) - 1) * (sectors_per_cluster v * 512)) by (clear Hsz; nia).
  replace (Z.to_nat (of_file_size f + Z.of_nat (length x)))
    with (Z.to_nat (of_file_size f) + length x)%nat by lia.
  apply take_splice_end. lia.
Qed.

(** The descriptor after an append of [n] bytes. *)
Definition grown f (n : Z) : open_file :=
  set_of_size (set_position f (of_current_cluster f) (of_cluster_offset f + n)
    (of_file_size f + n)) (of_file_size f + n).

Lemma at_end_nonneg v f cs : at_end v f cs -> 0 <= of_file_size f.
Proof.
  intros [_ He]. destruct cs as [|c cs] using rev_ind; [cbn in He; lia|].
  rewrite last_snoc, length_app in He. destruct He as (_ & ? & ->). cbn. nia.
Qed.

Lemma write_advance_end v f cs n :
  at_end v f cs -> 0 <= of_file_size f -> 0 < n -> of_file_size f + n < 4294967296 ->
  write_advance f n = grown f n.
Proof.
  intros [Hoff _] H0 Hn Hov. unfold write_advance, grown. rewrite Hoff, u32_small by (unfold is_u32; lia).
  cbn [of_file_size set_position of_file_offset]. case_if; [done|lia].
Qed.

(** A write inside the chain's own sectors leaves the FAT, the directory
    entry and all other sectors alone. *)
Lemma ready_data_write d d' v f f' cs b c s :
  write_ready d v f cs b -> c ∈ cs -> 0 <= s < sectors_per_cluster v ->
  is_Some (ata_read_sector d' (cluster_lba v c + s)) ->
  (forall l, l <> cluster_lba v c + s -> ata_read_sector d' l = ata_read_sector d l) ->
  same_handle f f' -> of_first_cluster f' = of_first_cluster f -> at_end v f' cs ->
  write_ready d' v f' cs b /\
  (forall y, cluster_in v y -> fat_get_next_cluster d' v y = fat_get_next_cluster d v y).
Proof.
  intros [Hv Hfat Hdat Hch Hin Husd Hdir Hslot Hfirst Hout Hap _] Hc Hs Hrd Hoth
    (_ & _ & Es & Eo & _) Ef He.
  rewrite Forall_forall in Hin. pose proof (Hin c Hc) as Hcr.
  assert (Hnext : forall y, cluster_in v y ->
    fat_get_next_cluster d' v y = fat_get_next_cluster d v y).
  { intros y Hy. apply next_frame; [done..|]. intros l Hl. apply Hoth.
    pose proof (data_sector_outside v c s Hv Hcr). lia. }
  assert (Hread : forall l, is_Some (ata_read_sector d l) -> is_Some (ata_read_sector d' l)).
  { intros l Hl. destruct (decide (l = cluster_lba v c + s)) as [->|]; [done|by rewrite Hoth]. }
  split; [|done]. split; rewrite ?Es, ?Eo, ?Ef; try done.
  - intros l Hl. by apply Hread, Hfat.
  - intros y s' Hy Hs'. by apply Hread, Hdat.
  - eapply chain_frame; [done|]. intros y Hy. by apply Hnext, in_data, Hin.
  - by apply Forall_forall.
  - rewrite Forall_forall in Husd |- *. intros y Hy. rewrite Hnext; [by apply Husd|].
    by apply in_data, Hin.
  - rewrite Hoth; [done|]. intros E. by apply (Hap c s); [left|..].
  - intros y s' [Hy|[Hy1 Hy2]]; [apply Hap; by left|apply Hap; right; split; [done|]].
    rewrite <- Hnext; [done|]. by apply in_data.
Qed.

Lemma grown_at_end v f cs c n :
  at_end v f cs -> last cs = Some c -> of_cluster_offset f < cluster_size v ->
  0 <= n <= 512 - of_cluster_offset f mod 512 -> at_end v (grown f n) cs.
Proof.
  intros [_ Hend] Hlast Hlt Hn. split; [done|]. rewrite Hlast in *. destruct Hend as (? & ? & Hsz).
  cbn. rewrite Hsz. split; [done|]. split; [|lia]. clear Hsz.
  unfold cluster_size, ATA_SECTOR_SIZE in *. dlia.
Qed.

Lemma write_sector_step d v f cs b data c :
  write_ready d v f cs b -> last cs = Some c -> of_cluster_offset f < cluster_size v ->
  Forall is_byte data -> data <> [] -> of_file_size f + Z.of_nat (length data) < 4294967296 ->
  exists d' f' n, write_sector_part d v f data = Some (d', f', drop n data) /\
    (0 < n <= length data)%nat /\ of_file_size f' = of_file_size f + Z.of_nat n /\
    appended d v f cs b d' f' cs b (take n data).
Proof.
  intros Hr Hlast Hlt Hby Hne Hov. pose proof (wr_end _ _ _ _ _ Hr) as Hend.
  pose proof Hend as [_ He]. rewrite Hlast in He. destruct He as (Hcur & Hco & Hsz).
  assert (Hc : c ∈ cs) by (by apply last_Some_elem_of).
  pose proof (wr_in _ _ _ _ _ Hr) as Hin. rewrite Forall_forall in Hin. pose proof (Hin c Hc) as Hcr.
  unfold write_sector_part. rewrite Hcur. set (co := of_cluster_offset f) in *.
  assert (Hs : 0 <= co / 512 < sectors_per_cluster v)
    by (clear Hsz; unfold cluster_size, ATA_SECTOR_SIZE in *; dlia).
  unfold ATA_SECTOR_SIZE. destruct (wr_data _ _ _ _ _ Hr c (co / 512) Hcr Hs) as [b0 Hb0].
  rewrite Hb0. pose proof (read_is_sector _ _ _ Hb0) as [Hl0 Hby0]. rewrite ltb_min.
  set (tc := Z.min _ _). set (n := Z.to_nat tc). set (lba := cluster_lba v c + co / 512) in *.
  assert (0 < length data)%nat by (destruct data; [done|cbn; lia]).
  pose proof (Z.mod_pos_bound co 512) as Hmod.
  assert (Htc : tc = Z.of_nat (length (take n data)) /\ (0 < n <= length data)%nat /\
    tc <= 512 - co mod 512) by (rewrite length_take; subst n tc; lia).
  destruct Htc as (Htc & Hn & Hfit). clearbody n tc. subst tc.
  assert (Hsec : is_sector (splice b0 (Z.to_nat (co mod 512)) (take n data))).
  { split; [rewrite splice_length; lia|]. apply splice_bytes; [done|]. by apply Forall_take. }
  destruct (write_readable d lba (splice b0 (Z.to_nat (co mod 512)) (take n data))) as [d' Hd'];
    [by eexists|done|].
  pose proof (write_read_same _ _ _ _ Hsec Hd') as Hsame.
  assert (Hoth : forall l, l <> lba -> ata_read_sector d' l = ata_read_sector d l)
    by (intros; eapply write_read_other; eauto).
  rewrite Hd'. exists d', (grown f (Z.of_nat (length (take n data)))), n.
  split; [|split; [done|]; split; [cbn; rewrite length_take; lia|]].
  - rewrite (write_advance_end v f cs); [done|done| |rewrite length_take; lia..].
    by eapply at_end_nonneg.
  - destruct (ready_data_write d d' v f (grown f (Z.of_nat (length (take n data)))) cs b c (co / 512))
      as [Hr' Hnext]; [done..|by eexists|done|done|done| |].
    { eapply grown_at_end; [done..|]. fold co. lia. }
    split; try done.
    + by eapply file_bytes_append.
    + exists []. by rewrite app_nil_r.
    + intros y [Hy1 Hy2]. split; [done|]. rewrite <- Hnext; [done|].
      by apply in_data; [apply Hr|].
    + intros y Hy _ _. by apply Hnext.
    + intros l Hl Hl2 Hl3. apply Hoth. intros ->. by apply (Hl3 c (co / 512)); [left|..].
    + cbn. rewrite <- (wr_first _ _ _ _ _ Hr), set_first_cluster_same. apply slot_set_refl.
Qed.

(** ** A new cluster *)

(** The effect of taking the free cluster [nc]: [d1] is the device after the
    FAT update(s), which also may link [nc] behind clusters of [cs]. *)
Record took d v (cs : list Z) nc d1 : Prop := {
  tk_free : free_cluster d v nc;
  tk_end : fat_get_next_cluster d1 v nc = 65535;
  tk_other c : c <> nc -> c ∉ cs -> cluster_in v c ->
    fat_get_next_cluster d1 v c = fat_get_next_cluster d v c;
  tk_used c : c ∈ cs -> fat_get_next_cluster d1 v c <> 0;
  tk_outside lba : root_dir_start_lba v <= lba -> ata_read_sector d1 lba = ata_read_sector d lba;
  tk_readable : fat_readable d1 v }.

Lemma took_free d v cs nc d1 c :
  vol_ok v -> took d v cs nc d1 -> free_cluster d1 v c -> free_cluster d v c /\ c <> nc /\ c ∉ cs.
Proof.
  intros Hv Ht [Hc Hn]. assert (c <> nc).
  { intros ->. rewrite (tk_end _ _ _ _ _ Ht) in Hn. done. }
  assert (c ∉ cs). { intros Hin. by apply (tk_used _ _ _ _ _ Ht) in Hin. }
  split; [|done]. split; [done|]. rewrite <- (tk_other _ _ _ _ _ Ht); [done..|]. by apply in_data.
Qed.

Lemma took_data d v cs nc d1 : vol_ok v -> took d v cs nc d1 -> data_readable d v -> data_readable d1 v.
Proof.
  intros Hv Ht Hd c s Hc Hs. rewrite (tk_outside _ _ _ _ _ Ht); [by apply Hd|].
  apply data_sector_outside; [done..|lia].
Qed.

Lemma alloc_took d v d1 nc :
  vol_ok v -> fat_readable d v -> fat_alloc_cluster d v = (d1, nc) -> nc <> 0 ->
  took d v [] nc d1.
Proof.
  intros Hv Hr Ha Hnc. destruct (alloc_cluster_cases d v d1 nc Hv Hr Ha) as [[? _]|(Hc & Hz & _ & Hs)];
    [done|]. destruct Hs as [S1 S2 S3 S4 _]. split; try done.
  - intros c Hne _ Hin. by apply S2.
  - by intros c Hx%not_elem_of_nil.
  - intros lba Hl. apply S3. by right.
Qed.

(** The first write to an empty file: its cluster is entered in the directory. *)
Lemma prepare_first d v f b d1 nc :
  write_ready d v f [] b -> fat_alloc_cluster d v = (d1, nc) -> nc <> 0 ->
  let d2 := update_entry d1 (of_dir_entry_sector f) (of_dir_entry_offset f)
              (fun e => set_first_cluster e nc) in
  let f2 := set_of_first (set_position f nc 0 (of_file_offset f)) nc in
  exists b2, appended d v f [] b d2 f2 [nc] b2 [].
Proof.
  intros Hr Ha Hnc d2 f2.
  pose proof Hr as [Hv Hfat Hdat Hch Hin Husd Hdir Hslot Hfirst Hout Hap [Hoff Hend]].
  cbn in Hend. destruct Hend as (Hcur & Hf0 & Hsz).
  pose proof (alloc_took d v d1 nc Hv Hfat Ha Hnc) as Ht.
  pose proof (tk_free _ _ _ _ _ Ht) as [Hncr Hncf].
  destruct (in_data v nc Hv Hncr) as (Hnc2 & Hncin & Hncv & Hnc16).
  assert (Hd1 : ata_read_sector d1 (of_dir_entry_sector f) = Some b)
    by (rewrite (tk_outside _ _ _ _ _ Ht); done).
  pose proof (read_is_sector _ _ _ Hd1) as [Hbl Hbb].
  assert (Hwf : entry_wf (set_first_cluster (decode_entry b (of_dir_entry_offset f)) nc)).
  { pose proof (decode_entry_wf b (of_dir_entry_offset f) Hbb) as Hw.
    unfold entry_wf in *. cbn in *. intuition. }
  destruct (update_entry_spec d1 _ _ b (fun e => set_first_cluster e nc) Hd1 Hslot Hwf) as [Hu1 Hu2].
  fold d2 in Hu1, Hu2. cbn beta in Hu1.
  set (b2 := store_entry b _ _) in *. exists b2.
  assert (Hsame : decode_entry b2 (of_dir_entry_offset f) =
    set_first_cluster (decode_entry b (of_dir_entry_offset f)) nc)
    by (apply decode_store_same; [done|lia|rewrite Hbl; lia]).
  assert (Hnext : forall c, cluster_in v c ->
    fat_get_next_cluster d2 v c = fat_get_next_cluster d1 v c)
    by (intros c Hc; apply next_frame; [done..|]; intros l Hl; apply Hu2; lia).
  assert (Hfree : forall c, free_cluster d2 v c -> free_cluster d v c /\ c <> nc).
  { intros c [Hc1 Hc2]. destruct (took_free d v [] nc d1 c Hv Ht) as (? & ? & _); [|done].
    split; [done|]. rewrite <- Hnext; [done|]. by apply in_data. }
  assert (Hread : forall l, root_dir_start_lba v <= l -> l <> of_dir_entry_sector f ->
    ata_read_sector d2 l = ata_read_sector d l)
    by (intros l Hl Hne; rewrite Hu2 by done; by apply (tk_outside _ _ _ _ _ Ht)).
  split; try done.
  - split; cbn [f2 set_of_first set_position of_first_cluster of_dir_entry_sector
      of_dir_entry_offset]; try done.
    + intros l Hl. destruct (decide (l = of_dir_entry_sector f)) as [->|]; [by eexists|].
      rewrite Hu2 by done. by apply (tk_readable _ _ _ _ _ Ht).
    + intros c s Hc Hs. destruct (decide (cluster_lba v c + s = of_dir_entry_sector f)) as [->|];
        [by eexists|]. rewrite Hread; [by apply Hdat| |done]. by apply data_sector_outside; [..|lia].
    + constructor; [done|]. rewrite Hnext, (tk_end _ _ _ _ _ Ht) by done. by constructor.
    + by constructor.
    + apply Forall_singleton. by rewrite Hnext, (tk_end _ _ _ _ _ Ht).
    + by rewrite Hsame.
    + intros c s [Hc|Hc] Hs; [|by apply (Hap c s); [right; apply Hfree|done]].
      apply list_elem_of_singleton in Hc as ->. by apply (Hap nc s); [right|done].
    + split; [done|]. cbn. unfold cluster_size, ATA_SECTOR_SIZE.
      destruct Hv as ((_ & _ & _ & _ & ? & _) & _). lia.
  - unfold file_bytes. cbn. by rewrite Hsz, !take_0.
  - exists [nc]. split; [done|]. by apply Forall_singleton.
  - intros c Hc. by apply Hfree.
  - intros c Hc Hni Hn. rewrite Hnext by done. apply (tk_other _ _ _ _ _ Ht); [|done|done].
    by intros ->.
  - intros lba Hl Hne _. by apply Hread.
  - by apply slot_set_store.
Qed.

(** A full last cluster: a new one is linked behind it. *)
Lemma link_took d v f cs b c d1 nc :
  write_ready d v f cs b -> last cs = Some c -> fat_alloc_cluster d v = (d1, nc) -> nc <> 0 ->
  took d v [c] nc (fat_set_cluster_entry d1 v c nc) /\
  fat_get_next_cluster (fat_set_cluster_entry d1 v c nc) v c = nc /\ c <> nc.
Proof.
  intros Hr Hlast Ha Hnc. pose proof (wr_vol _ _ _ _ _ Hr) as Hv.
  pose proof (alloc_took d v d1 nc Hv (wr_fat _ _ _ _ _ Hr) Ha Hnc) as Ht.
  pose proof (tk_free _ _ _ _ _ Ht) as [Hncr Hncf].
  destruct (in_data v nc Hv Hncr) as (_ & Hncin & Hncv & Hnc16).
  assert (Hc : c ∈ cs) by (by apply last_Some_elem_of).
  pose proof (wr_in _ _ _ _ _ Hr) as Hin. rewrite Forall_forall in Hin.
  destruct (in_data v c Hv (Hin c Hc)) as (_ & Hcin & Hcv & _).
  destruct (set_entry_spec d1 v c nc Hv (tk_readable _ _ _ _ _ Ht) Hcin Hnc16) as [S1 S2 S3 S4 _].
  pose proof (wr_used _ _ _ _ _ Hr) as Husd. rewrite Forall_forall in Husd.
  assert (Hne : c <> nc) by (intros ->; by apply (Husd nc Hc)).
  split; [|done]. split; try done.
  - rewrite S2 by done. apply Ht.
  - intros y Hy Hyc Hyin. rewrite list_elem_of_singleton in Hyc. rewrite S2 by done.
    apply (tk_other _ _ _ _ _ Ht); [done|apply not_elem_of_nil|done].
  - intros y Hy%list_elem_of_singleton. subst y. rewrite S1. lia.
  - intros lba Hl. rewrite S3 by (by right). by apply (tk_outside _ _ _ _ _ Ht).
Qed.

Lemma prepare_next d v f cs b c d1 nc :
  write_ready d v f cs b -> last cs = Some c -> of_cluster_offset f = cluster_size v ->
  fat_alloc_cluster d v = (d1, nc) -> nc <> 0 ->
  appended d v f cs b (fat_set_cluster_entry d1 v c nc)
    (set_position f nc 0 (of_file_offset f)) (cs ++ [nc]) b [].
Proof.
  intros Hr Hlast Hfull Ha Hnc.
  destruct (link_took d v f cs b c d1 nc Hr Hlast Ha Hnc) as (Ht & Hlink & Hne).
  set (d2 := fat_set_cluster_entry d1 v c nc) in *.
  pose proof Hr as [Hv Hfat Hdat Hch Hin Husd Hdir Hslot Hfirst Hout Hap [Hoff Hend]].
  rewrite Hlast in Hend. destruct Hend as (Hcur & Hco & Hsz).
  pose proof (tk_free _ _ _ _ _ Ht) as [Hncr Hncf].
  destruct (in_data v nc Hv Hncr) as (Hnc2 & Hncin & Hncv & Hnc16).
  pose proof Hin as Hin'. rewrite Forall_forall in Hin'.
  pose proof Husd as Husd'. rewrite Forall_forall in Husd'.
  assert (Hfree : forall y, free_cluster d2 v y -> free_cluster d v y /\ y <> nc)
    by (intros y Hy; destruct (took_free d v [c] nc d2 y Hv Ht Hy) as (? & ? & _); done).
  pose proof Hlast as Hl2. apply last_Some in Hl2 as [cs0 Hcs0].
  assert (Hother : forall y, y ∈ cs -> y <> c -> fat_get_next_cluster d2 v y = fat_get_next_cluster d v y).
  { intros y Hy Hyc. apply (tk_other _ _ _ _ _ Ht); [intros ->; by apply (Husd' nc)| |by apply in_data, Hin'].
    by rewrite list_elem_of_singleton. }
  assert (Hnd : c ∉ cs0).
  { apply chain_NoDup in Hch. rewrite Hcs0 in Hch. apply NoDup_app in Hch as (_ & Hx & _).
    intros Hc. apply (Hx c Hc). by left. }
  split; try done.
  - split; cbn [set_position of_first_cluster of_dir_entry_sector of_dir_entry_offset]; try done.
    + apply Ht.
    + by eapply took_data.
    + rewrite Hcs0, <- app_assoc. eapply chain_extend; [by rewrite <- Hcs0|done|done| |].
      * by rewrite (tk_end _ _ _ _ _ Ht).
      * intros y Hy. apply Hother; [rewrite Hcs0; apply elem_of_app; by left|by intros ->].
    + apply Forall_app. split; [done|by apply Forall_singleton].
    + apply Forall_app. split; [|apply Forall_singleton; by rewrite (tk_end _ _ _ _ _ Ht)].
      apply Forall_forall. intros y Hy. destruct (decide (y = c)) as [->|].
      * by rewrite Hlink.
      * rewrite Hother by done. by apply Husd'.
    + by rewrite (tk_outside _ _ _ _ _ Ht).
    + intros y s Hy. apply Hap. rewrite elem_of_app, list_elem_of_singleton in Hy.
      destruct Hy as [[?| ->]|?]; [by left|by right|right; by apply Hfree].
    + split; [done|]. rewrite last_snoc, length_app. cbn. rewrite Hsz, Hfull.
      assert (0 <= cluster_size v) by lia. lia.
  - cbn. rewrite app_nil_r. unfold file_bytes, chain_bytes, chain_sectors.
    rewrite bind_app, join_app. fold (chain_sectors d2 v cs) (chain_bytes d2 v cs).
    rewrite (chain_bytes_frame d d2 v cs).
    2:{ intros y s Hy Hs. apply (tk_outside _ _ _ _ _ Ht). by apply data_sector_outside; [|apply Hin'|lia]. }
    rewrite take_app_le; [done|].
    pose proof (chain_bytes_length d v cs (ready_chain_readable _ _ _ _ _ Hr)) as Hcl.
    destruct Hv as (_ & _ & ? & _). lia.
  - exists [nc]. split; [done|]. by apply Forall_singleton.
  - intros y Hy. by apply Hfree.
  - intros y Hy Hyc Hyn. apply (tk_other _ _ _ _ _ Ht); [by intros ->| |done].
    rewrite list_elem_of_singleton. intros ->. apply Hyc. by apply last_Some_elem_of.
  - intros lba Hl _ _. by apply (tk_outside _ _ _ _ _ Ht).
  - cbn. rewrite <- Hfirst, set_first_cluster_same. apply slot_set_refl.
Qed.

(** ** The loop *)

(** A turn either starts with room in the last cluster, or finds the disk
    full and changes nothing. *)
Lemma write_prepare_spec d v f cs b :
  write_ready d v f cs b ->
  (write_prepare d v f = (d, None) /\ forall c, ~ free_cluster d v c) \/
  exists d1 f1 cs1 b1 c, write_prepare d v f = (d1, Some f1) /\
    appended d v f cs b d1 f1 cs1 b1 [] /\ last cs1 = Some c /\
    of_cluster_offset f1 < cluster_size v /\ of_file_size f1 = of_file_size f.
Proof.
  intros Hr. pose proof Hr as [Hv Hfat _ _ Hin _ _ _ _ _ _ [Hoff Hend]].
  assert (Hpos : 0 < cluster_size v)
    by (unfold cluster_size, ATA_SECTOR_SIZE; destruct Hv as (_ & _ & ? & _); lia).
  destruct (fat_alloc_cluster d v) as [d1 nc] eqn:Ha.
  assert (Hfullcase : nc = 0 -> d1 = d /\ forall c, ~ free_cluster d v c).
  { intros ->. destruct (alloc_cluster_cases d v d1 0 Hv Hfat Ha) as [(_ & -> & Hno)|[? _]]; [|lia].
    split; [done|]. intros c [Hc1 Hc2]. by apply (Hno c). }
  unfold write_prepare. rewrite Ha. destruct (last cs) as [c|] eqn:Hlast.
  - destruct Hend as (Hcur & Hco & Hsz).
    assert (Hc : 2 <= c). { rewrite Forall_forall in Hin. apply last_Some_elem_of in Hlast.
      specialize (Hin _ Hlast). lia. }
    destruct (Z.eqb_spec (of_current_cluster f) 0); [lia|].
    destruct (Z.leb_spec (cluster_size v) (of_cluster_offset f)) as [Hge|Hlt].
    + destruct (Z.eqb_spec nc 0) as [Hz|Hnz].
      * left. destruct (Hfullcase Hz) as [-> ?]. done.
      * right. rewrite Hcur. do 4 eexists. exists nc. split; [done|].
        split; [eapply prepare_next; eauto; lia|]. split; [by rewrite last_snoc|done].
    + right. exists d, f, cs, b, c. split; [done|]. split; [by apply appended_refl|]. done.
  - apply last_None in Hlast as ->. destruct Hend as (Hcur & Hf0 & Hsz). rewrite Hcur. cbn [Z.eqb].
    destruct (Z.eqb_spec nc 0) as [Hz|Hnz].
    + left. destruct (Hfullcase Hz) as [-> ?]. done.
    + right. destruct (prepare_first d v f b d1 nc Hr Ha Hnz) as [b2 Hap].
      cbn [of_first_cluster set_position]. rewrite Hf0. cbn [Z.eqb].
      do 4 eexists. exists nc. split; [done|]. split; [done|]. done.
Qed.

Lemma write_loop_spec n d v f cs b data :
  write_ready d v f cs b -> (length data <= n)%nat -> Forall is_byte data ->
  of_file_size f + Z.of_nat (length data) < 4294967296 ->
  exists d' f' cs' b' k, write_loop n d v f data = (d', f', drop k data) /\
    (k <= length data)%nat /\ appended d v f cs b d' f' cs' b' (take k data) /\
    of_file_size f' = of_file_size f + Z.of_nat k /\
    ((k < length data)%nat -> forall c, ~ free_cluster d' v c).
Proof.
  revert d f cs b data. induction n as [|n IH]; intros d f cs b data Hr Hn Hby Hov.
  { destruct data; [|cbn in Hn; lia]. exists d, f, cs, b, 0%nat. split; [done|]. split; [done|].
    split; [by apply appended_refl|]. cbn. lia. }
  destruct data as [|x xs] eqn:Ed.
  { exists d, f, cs, b, 0%nat. split; [done|]. split; [done|].
    split; [by apply appended_refl|]. cbn. lia. }
  rewrite <- Ed in *. assert (Hne : data <> []) by (by rewrite Ed). cbn [write_loop].
  replace (match data with [] => (d, f, data) | _ => _ end) with
    (match write_prepare d v f with
     | (d1, None) => (d1, f, data)
     | (d1, Some f1) =>
         match write_sector_part d1 v f1 data with
         | None => (d1, f1, data)
         | Some (d2, f2, data') => write_loop n d2 v f2 data'
         end
     end) by (by rewrite Ed). clear Ed x xs.
  destruct (write_prepare_spec d v f cs b Hr) as [[-> Hno]|(d1 & f1 & cs1 & b1 & c & -> & Ha & Hl & Hlt & Hsz)].
  { exists d, f, cs, b, 0%nat. split; [done|]. split; [lia|]. split; [by apply appended_refl|].
    split; [lia|done]. }
  destruct (write_sector_step d1 v f1 cs1 b1 data c) as (d2 & f2 & m & -> & Hm & Hsz2 & Ha2);
    [apply Ha|done..|lia|].
  destruct (IH d2 f2 cs1 b1 (drop m data)) as (d3 & f3 & cs3 & b3 & k & E & Hk & Ha3 & Hs3 & Hfull);
    [apply Ha2|rewrite length_drop; lia|by apply Forall_drop|rewrite length_drop; lia|].
  rewrite length_drop in *. exists d3, f3, cs3, b3, (m + k)%nat.
  rewrite E, drop_drop. split; [done|]. split; [lia|]. split; [|split; [lia|intros; apply Hfull; lia]].
  rewrite <- (take_take_drop data m k). eapply (appended_trans _ _ _ _ _ _ _ _ _ []); [done|].
  by eapply appended_trans.
Qed.

(** ** The whole call *)
Lemma set_size_wf e n : entry_wf e -> is_u32 n -> entry_wf (set_file_size e n).
Proof. unfold entry_wf. cbn. intuition. Qed.

Lemma set_first_wf e c : entry_wf e -> is_u16 c -> entry_wf (set_first_cluster e c).
Proof. unfold entry_wf. cbn. intuition. Qed.

(** Rewriting the directory sector disturbs neither the FAT nor the chain. *)
Lemma ready_dir_write d d' v f cs b b' :
  write_ready d v f cs b -> ata_read_sector d' (of_dir_entry_sector f) = Some b' ->
  (forall l, l <> of_dir_entry_sector f -> ata_read_sector d' l = ata_read_sector d l) ->
  de_first_cluster_low (decode_entry b' (of_dir_entry_offset f)) = of_first_cluster f ->
  write_ready d' v f cs b' /\ chain_bytes d' v cs = chain_bytes d v cs /\
  (forall c, cluster_in v c -> fat_get_next_cluster d' v c = fat_get_next_cluster d v c).
Proof.
  intros [Hv Hfat Hdat Hch Hin Husd Hdir Hslot Hfirst Hout Hap He] Hb' Hoth Hf'.
  assert (Hnext : forall c, cluster_in v c ->
    fat_get_next_cluster d' v c = fat_get_next_cluster d v c).
  { intros c Hc. apply next_frame; [done..|]. intros l Hl. apply Hoth. lia. }
  assert (Hread : forall l, is_Some (ata_read_sector d l) -> is_Some (ata_read_sector d' l)).
  { intros l Hl. destruct (decide (l = of_dir_entry_sector f)) as [->|]; [by eexists|by rewrite Hoth]. }
  pose proof Hin as Hin'. rewrite Forall_forall in Hin'.
  split; [|split; [|done]].
  - split; try done.
    + intros l Hl. by apply Hread, Hfat.
    + intros c s Hc Hs. by apply Hread, Hdat.
    + eapply chain_frame; [done|]. intros y Hy. by apply Hnext, in_data, Hin'.
    + rewrite Forall_forall in Husd |- *. intros y Hy. rewrite Hnext; [by apply Husd|].
      by apply in_data, Hin'.
    + intros c s [Hc|[Hc1 Hc2]]; [apply Hap; by left|apply Hap; right; split; [done|]].
      rewrite <- Hnext; [done|]. by apply in_data.
  - apply chain_bytes_frame. intros c s Hc Hs. apply Hoth. intros E.
    by apply (Hap c s); [left|..].
Qed.

Lemma ready_view st fd i f cs b :
  fd_lookup st fd = Some (i, f) -> write_ready (disk st) (vol st) f cs b ->
  fd_view st fd (file_bytes (disk st) (vol st) cs (of_file_size f)) (of_file_size f).
Proof.
  intros Hl Hr. pose proof (wr_end _ _ _ _ _ Hr) as He. pose proof (at_end_nonneg _ _ _ He) as H0.
  pose proof (wr_vol _ _ _ _ _ Hr) as (_ & _ & Hspc & _).
  exists i, f, cs. split; [done|]. split; [done|]. destruct He as [Hoff He]. split.
  - split; [apply Hr|by eapply ready_chain_readable|]. split; [done|].
    destruct (last cs) as [c|] eqn:Hlast.
    + destruct He as (_ & Hco & ->). lia.
    + apply last_None in Hlast as ->. cbn. lia.
  - split; [split; lia|]. by rewrite Hoff.
Qed.

(** Another file's chain: every cluster in use, none of them shared with [cs],
    none holding the directory sector. *)
Record bystander d v cs sector (first : Z) (other : list Z) : Prop := {
  bs_chain : chain d v first other;
  bs_in : Forall (fun c => 2 <= c < fat_size_sectors v * 256) other;
  bs_used : Forall (fun c => fat_get_next_cluster d v c <> 0) other;
  bs_disjoint : cs ## other;
  bs_sector c s : c ∈ other -> 0 <= s < sectors_per_cluster v -> cluster_lba v c + s <> sector }.

Lemma bystander_kept d v f cs b d' f' cs' b' data first other :
  vol_ok v -> appended d v f cs b d' f' cs' b' data ->
  bystander d v cs (of_dir_entry_sector f) first other ->
  chain d' v first other /\ chain_bytes d' v other = chain_bytes d v other.
Proof.
  intros Hv Ha [Hch Hin Husd Hdis Hsec]. rewrite Forall_forall in Hin, Husd. split.
  - eapply chain_frame; [done|]. intros c Hc. apply (ap_fat _ _ _ _ _ _ _ _ _ _ Ha).
    + specialize (Hin c Hc). lia.
    + set_solver.
    + by apply Husd.
  - apply chain_bytes_frame. intros c s Hc Hs. apply (ap_sec _ _ _ _ _ _ _ _ _ _ Ha).
    + apply data_sector_outside; [done|by apply Hin|lia].
    + by apply Hsec.
    + intros c' s' Hc' Hs' E. specialize (Hin c Hc). destruct (in_data v c Hv Hin) as (Hc2 & _).
      assert (Hcc : 2 <= c' < 65536).
      { destruct Hc' as [Hx|[Hx _]].
        - pose proof (wr_in _ _ _ _ _ (ap_ready _ _ _ _ _ _ _ _ _ _ Ha)) as Hi'.
          destruct (ap_ext _ _ _ _ _ _ _ _ _ _ Ha) as (new & -> & _).
          rewrite Forall_forall in Hi'. apply (in_data v c' Hv), Hi'. set_solver.
        - by apply (in_data v c' Hv). }
      apply cluster_lba_inj in E as [<- _]; [|by destruct Hv|done..].
      destruct Hc' as [Hx|[_ Hx]]; [set_solver|]. by apply (Husd c).
Qed.

(** What a call of [fat_write] at the end of a file leaves behind: the first
    [n] bytes of the buffer were appended, all of them unless the disk is full. *)
Record write_done st fd i f cs b (buffer : list Z) st' (n : nat) f' cs' b' : Prop := {
  wd_count : (n <= length buffer)%nat;
  wd_vol : vol st' = vol st;
  wd_mounted : fat_ready st' = fat_ready st;
  wd_files : open_files st' = <[i := f']> (open_files st);
  wd_fd : fd_lookup st' fd = Some (i, f');
  wd_handle : same_handle f f';
  wd_size : of_file_size f' = of_file_size f + Z.of_nat n;
  wd_ready : write_ready (disk st') (vol st) f' cs' b';
  wd_bytes : file_bytes (disk st') (vol st) cs' (of_file_size f') =
    file_bytes (disk st) (vol st) cs (of_file_size f) ++ take n buffer;
  wd_full : (n < length buffer)%nat -> forall c, ~ free_cluster (disk st') (vol st) c;
  wd_slot : slot_set b b' (of_dir_entry_offset f)
    (set_file_size (set_first_cluster (decode_entry b (of_dir_entry_offset f)) (of_first_cluster f'))
       (of_file_size f + Z.of_nat n));
  wd_sec lba : root_dir_start_lba (vol st) <= lba -> lba <> of_dir_entry_sector f ->
    apart (disk st) (vol st) cs lba -> ata_read_sector (disk st') lba = ata_read_sector (disk st) lba;
  wd_others first other : bystander (disk st) (vol st) cs (of_dir_entry_sector f) first other ->
    chain (disk st') (vol st) first other /\
    chain_bytes (disk st') (vol st) other = chain_bytes (disk st) (vol st) other }.

Lemma write_at_end st fd i f cs b buffer :
  fd_lookup st fd = Some (i, f) -> of_writable f = true ->
  write_ready (disk st) (vol st) f cs b -> Forall is_byte buffer ->
  of_file_size f + Z.of_nat (length buffer) < 4294967296 ->
  exists st' n f' cs' b', fat_write st fd buffer = (st', OK (Z.of_nat n)) /\
    write_done st fd i f cs b buffer st' n f' cs' b'.
Proof.
  intros Hl Hw Hr Hby Hov. unfold fat_write. rewrite Hl, Hw. cbn [negb].
  destruct (write_loop_spec (length buffer) (disk st) (vol st) f cs b buffer)
    as (d1 & f1 & cs1 & b1 & n & -> & Hn & Ha & Hsz & Hfull); [done..|].
  pose proof (ap_same _ _ _ _ _ _ _ _ _ _ Ha) as Hsame. pose proof Hsame as (Eu & _ & Es & Eo & _).
  pose proof (ap_ready _ _ _ _ _ _ _ _ _ _ Ha) as Hr1. pose proof (wr_vol _ _ _ _ _ Hr) as Hv.
  pose proof (wr_dir _ _ _ _ _ Hr1) as Hd1. pose proof (read_is_sector _ _ _ Hd1) as Hbs.
  pose proof (wr_slot _ _ _ _ _ Hr) as Hslot. pose proof (at_end_nonneg _ _ _ (wr_end _ _ _ _ _ Hr)) as H0.
  assert (Hwf : entry_wf (set_file_size (decode_entry b1 (of_dir_entry_offset f1)) (of_file_size f1))).
  { apply set_size_wf; [apply decode_entry_wf, Hbs|]. unfold is_u32. lia. }
  destruct (update_entry_spec d1 _ (of_dir_entry_offset f1) b1
    (fun e => set_file_size e (of_file_size f1)) Hd1) as [U1 U2];
    [by rewrite Eo|done|]. cbn beta in U1.
  set (d2 := update_entry d1 _ _ _) in *. set (b2 := store_entry b1 _ _) in *.
  pose proof (slot_set_store b1 (of_dir_entry_offset f1) _ Hbs ltac:(by rewrite Eo) Hwf) as Hput. fold b2 in Hput.
  destruct (ready_dir_write d1 d2 (vol st) f1 cs1 b1 b2) as (Hr2 & Hcb & Hnx);
    [done..|rewrite (ss_same _ _ _ _ Hput); cbn; apply Hr1|].
  set (st' := set_files (set_disk st d2) _). exists st', n, f1, cs1, b2. rewrite length_drop.
  split; [do 2 f_equal; lia|]. split; try done.
  - apply fd_lookup_inv in Hl as Hi. destruct Hi as (_ & _ & _ & Hin).
    apply (fd_lookup_update (set_disk st d2) fd i f f1); [done|congruence].
  - rewrite <- (ap_data _ _ _ _ _ _ _ _ _ _ Ha). unfold file_bytes. cbn [st' set_files set_disk disk]. by rewrite Hcb.
  - intros Hlt c [Hc1 Hc2]. apply (Hfull Hlt c). split; [done|].
    rewrite <- Hnx; [done|]. by apply in_data.
  - pose proof (ap_slot _ _ _ _ _ _ _ _ _ _ Ha) as P.
    rewrite Eo, (ss_same _ _ _ _ P), Hsz in Hput. by eapply slot_set_trans.
  - intros lba Hl1 Hl2 Hl3. cbn [st' set_files set_disk disk]. rewrite U2 by congruence.
    by apply (ap_sec _ _ _ _ _ _ _ _ _ _ Ha).
  - intros first other Hby'. destruct (bystander_kept _ _ _ _ _ _ _ _ _ _ first other Hv Ha Hby')
      as [K1 K2]. destruct Hby' as [_ Hin _ _ Hsec]. rewrite Forall_forall in Hin.
    cbn [st' set_files set_disk disk]. split.
    + eapply chain_frame; [done|]. intros c Hc. by apply Hnx, in_data, Hin.
    + rewrite <- K2. apply chain_bytes_frame. intros c s Hc Hs. apply U2. rewrite Es. by apply Hsec.
Qed.

Lemma write_done_view st fd i f cs b buffer st' n f' cs' b' :
  write_done st fd i f cs b buffer st' n f' cs' b' ->
  fd_view st' fd (file_bytes (disk st) (vol st) cs (of_file_size f) ++ take n buffer)
    (of_file_size f + Z.of_nat n).
Proof.
  intros Hd. rewrite <- (wd_bytes _ _ _ _ _ _ _ _ _ _ _ _ Hd), <- (wd_size _ _ _ _ _ _ _ _ _ _ _ _ Hd),
    <- (wd_vol _ _ _ _ _ _ _ _ _ _ _ _ Hd).
  eapply ready_view; [apply Hd|]. rewrite (wd_vol _ _ _ _ _ _ _ _ _ _ _ _ Hd). apply Hd.
Qed.

(** C2: Appending refines the abstract file: [fat_write] on a descriptor at
    the end of its file stores a prefix of the buffer behind the old contents
    and returns its length; it stops short only when no cluster is free.  The
    directory entry then carries the new size and first cluster, the other
    entries of its sector are unchanged, and every other file keeps its chain
    and its contents. *)
Theorem fat_write_appends st fd i f cs b buffer :
  fd_lookup st fd = Some (i, f) -> of_writable f = true ->
  write_ready (disk st) (vol st) f cs b -> Forall is_byte buffer ->
  of_file_size f + Z.of_nat (length buffer) < 4294967296 ->
  exists st' n f' cs' b',
    fat_write st fd buffer = (st', OK (Z.of_nat n)) /\ (n <= length buffer)%nat /\
    vol st' = vol st /\ fd_lookup st' fd = Some (i, f') /\
    write_ready (disk st') (vol st) f' cs' b' /\
    fd_view st' fd (file_bytes (disk st) (vol st) cs (of_file_size f) ++ take n buffer)
      (of_file_size f + Z.of_nat n) /\
    ((n < length buffer)%nat -> forall c, ~ free_cluster (disk st') (vol st) c) /\
    decode_entry b' (of_dir_entry_offset f) =
      set_file_size (set_first_cluster (decode_entry b (of_dir_entry_offset f))
        (of_first_cluster f')) (of_file_size f + Z.of_nat n) /\
    (forall j, 0 <= j < 16 -> j <> of_dir_entry_offset f -> decode_entry b' j = decode_entry b j) /\
    (forall first other,
       bystander (disk st) (vol st) cs (of_dir_entry_sector f) first other ->
       chain (disk st') (vol st) first other /\
       chain_bytes (disk st') (vol st) other = chain_bytes (disk st) (vol st) other).
Proof.
  intros Hl Hw Hr Hby Hov. destruct (write_at_end st fd i f cs b buffer Hl Hw Hr Hby Hov) as (st' & n & f' & cs' & b' & E & Hd).
  pose proof (write_done_view _ _ _ _ _ _ _ _ _ _ _ _ Hd) as Hv. destruct Hd as [? ? _ _ ? _ _ ? _ ? [? ? _] _ ?].
  by exists st', n, f', cs', b'.
Qed.

(** The root directory is apart from every cluster. *)
Lemma apart_root d v cs lba :
  vol_ok v -> Forall (fun c => 2 <= c < fat_size_sectors v * 256) cs -> lba < data_start_lba v ->
  apart d v cs lba.
Proof.
  intros Hv Hin Hl c s Hc Hs E. rewrite Forall_forall in Hin.
  assert (Hcr : 2 <= c < fat_size_sectors v * 256) by (destruct Hc as [Hc|[Hc _]]; auto).
  destruct (in_data v c Hv Hcr) as (Hc2 & _). destruct Hv as [Hwf _].
  pose proof (cluster_lba_data v c Hwf Hc2). lia.
Qed.

(** ** Opening for writing *)
Lemma install_spec st task_id sector off w :
  is_Some (free_slot (open_files st)) ->
  exists st' fd i f, install st task_id sector off w = (st', OK fd) /\
    fd_lookup st fd = None /\ fd_lookup st' fd = Some (i, f) /\
    f = mk_open_file true (ws_size w) (ws_cluster w) (ws_first w) (ws_coff w)
          (ws_offset w) true sector off task_id /\
    disk st' = disk st /\ vol st' = vol st /\
    (forall fd', fd' <> fd -> fd_lookup st' fd' = fd_lookup st fd').
Proof.
  intros [i Hi]. unfold install. rewrite Hi. apply free_slot_Some in Hi as (Hr & old & Hold & Hu).
  do 4 eexists. split; [done|]. split.
  { unfold fd_lookup, FAT_FD_BASE. case_if; [done|]. replace (i + 3 - 3) with i by lia.
    by rewrite Hold, Hu. }
  split; [by eapply fd_lookup_insert_same|]. split; [done|]. split; [done|]. split; [done|].
  intros fd' Hne. by apply fd_lookup_insert_other.
Qed.

Lemma fresh_entry_wf name attr first :
  Forall is_byte name -> is_byte attr -> is_u16 first -> entry_wf (fresh_entry name attr first).
Proof.
  intros Hn Ha Hf. pose proof (name83_length name) as Hl. pose proof (name83_bytes name Hn) as Hb.
  unfold entry_wf, fresh_entry. cbn.
  rewrite !length_take, length_drop, Hl. split; [done|]. split; [done|].
  split; [by apply Forall_take|]. split; [by apply Forall_take, Forall_drop|].
  repeat split; unfold is_byte, is_u16, is_u32 in *; lia.
Qed.

(** The length of a file fits its chain, with no cluster to spare. *)
Definition snug v (cs : list Z) (size : Z) : Prop :=
  match cs with
  | [] => size = 0
  | _ => (Z.of_nat (length cs) - 1) * cluster_size v < size <= Z.of_nat (length cs) * cluster_size v
         \/ (size = 0 /\ length cs = 1%nat)
  end.

(** The regular file that the entry at [sector], [off] describes. *)
Record file_at d v (sector off : Z) (e : fat_dir_entry) (cs b : list Z) : Prop := {
  fa_vol : vol_ok v;
  fa_fat : fat_readable d v;
  fa_data : data_readable d v;
  fa_dir : ata_read_sector d sector = Some b;
  fa_slot : 0 <= off < 16;
  fa_entry : e = decode_entry b off;
  fa_regular : flag (de_attr e) FAT_ATTR_DIRECTORY = false;
  fa_chain : chain d v (de_first_cluster_low e) cs;
  fa_first : cs = [] -> de_first_cluster_low e = 0;
  fa_in : Forall (fun c => 2 <= c < fat_size_sectors v * 256) cs;
  fa_used : Forall (fun c => fat_get_next_cluster d v c <> 0) cs;
  fa_outside : root_dir_start_lba v <= sector;
  fa_apart : apart d v cs sector;
  fa_snug : snug v cs (de_file_size e) }.

Lemma chain_head d v c cs : chain d v c cs -> head cs = if valid_cluster c then Some c else None.
Proof. intros Hc. destruct Hc as [c Hc|c cs Hc _]; by rewrite Hc. Qed.

Lemma append_at_end d v sector off e cs b task_id :
  file_at d v sector off e cs b ->
  let w := start_append v e (default 0 (last cs)) in
  at_end v (mk_open_file true (ws_size w) (ws_cluster w) (ws_first w) (ws_coff w)
              (ws_offset w) true sector off task_id) cs /\
  ws_first w = de_first_cluster_low e /\ ws_size w = de_file_size e.
Proof.
  intros Hf w. pose proof (fa_snug _ _ _ _ _ _ _ Hf) as Hs. pose proof (fa_vol _ _ _ _ _ _ _ Hf) as Hv.
  assert (Hcs : 512 <= cluster_size v)
    by (unfold cluster_size, ATA_SECTOR_SIZE; destruct Hv as (_ & _ & ? & _); lia).
  destruct cs as [|c cs].
  { cbn in Hs. pose proof (fa_first _ _ _ _ _ _ _ Hf eq_refl) as H0. subst w.
    unfold start_append. rewrite H0. cbn. rewrite Hs. done. }
  assert (Hc : de_first_cluster_low e = c /\ c <> 0).
  { pose proof (chain_head _ _ _ _ (fa_chain _ _ _ _ _ _ _ Hf)) as E. cbn in E.
    destruct (valid_cluster _) eqn:Ev; [|done]. injection E as ->.
    apply valid_cluster_range in Ev. lia. }
  destruct Hc as [Hc Hc0]. subst w. unfold start_append. rewrite Hc.
  destruct (Z.eqb_spec c 0) as [|_]; [done|]. split; [|done]. split; [done|].
  destruct (last (c :: cs)) as [x|] eqn:El; [|by apply last_None in El].
  cbn [of_current_cluster of_cluster_offset of_file_size ws_cluster ws_coff ws_size default].
  split; [done|]. unfold snug in Hs. set (n := Z.of_nat (length (c :: cs))) in *.
  set (m := cluster_size v) in *. set (sz := de_file_size e) in *.
  destruct Hs as [Hs|[-> Hl]].
  - pose proof (Z.mod_pos_bound sz m ltac:(lia)) as Hmod. pose proof (Z.div_mod sz m ltac:(lia)) as Hdm.
    assert (1 <= n) by (subst n; cbn; lia).
    destruct (Z.eqb_spec (sz mod m) 0) as [Hz|Hnz]; destruct (Z.ltb_spec 0 sz); cbn [andb]; try nia.
    + split; [lia|]. assert (sz / m = n) by nia. nia.
    + split; [lia|]. assert (sz / m = n - 1) by nia. nia.
  - assert (n = 1) as -> by (subst n; rewrite Hl; done). rewrite Zmod_0_l. cbn. lia.
Qed.

(** Opening an existing file for appending yields a descriptor, not in
    use before, that stands at the end of the file's contents and is ready to
    append; the disk is not written. *)
Theorem fat_open_append st task_id filename parent name sector off e cs b fuel :
  fat_ready st = true -> is_Some (free_slot (open_files st)) ->
  fat_resolve_parent fuel (disk st) (vol st) filename FAT_MAX_COMPONENT = OK (parent, name) ->
  fat_find_entry_in_dir fuel (disk st) (vol st) parent name = OK (sector, off, e) ->
  file_at (disk st) (vol st) sector off e cs b -> (length cs < fuel)%nat ->
  exists st' fd i f, fat_open_write fuel st task_id filename FAT_OPEN_APPEND = (st', OK fd) /\
    fd_lookup st fd = None /\ fd_lookup st' fd = Some (i, f) /\
    disk st' = disk st /\ of_writable f = true /\ of_owner_task_id f = task_id /\
    write_ready (disk st') (vol st') f cs b /\
    fd_view st' fd (file_bytes (disk st) (vol st) cs (de_file_size e)) (de_file_size e).
Proof.
  intros Hrdy Hslot Hres Hfind Hf Hfuel. unfold fat_open_write.
  rewrite Hrdy, Hres, Hfind, (fa_regular _ _ _ _ _ _ _ Hf). cbn [negb].
  change (FAT_OPEN_APPEND =? FAT_OPEN_CREATE) with false. cbn iota.
  unfold open_existing. rewrite (fa_dir _ _ _ _ _ _ _ Hf).
  change (FAT_OPEN_APPEND =? FAT_OPEN_TRUNCATE) with false.
  change (FAT_OPEN_APPEND =? FAT_OPEN_APPEND) with true. cbn iota.
  replace (if negb (de_first_cluster_low e =? 0) then _ else OK 0) with (OK (default 0 (last cs))).
  2:{ rewrite (find_last_spec _ _ _ _ cs) by (apply Hf || lia). case_if; [done|].
      pose proof (fa_chain _ _ _ _ _ _ _ Hf) as Hc. rewrite Hif in Hc. by inversion Hc. }
  destruct (install_spec st task_id sector off (start_append (vol st) e (default 0 (last cs))) Hslot)
    as (st' & fd & i & f & -> & Hn & Hl & Hfeq & Hd & Hvol & _).
  destruct (append_at_end _ _ _ _ _ _ _ task_id Hf) as (He & Hwf & Hws).
  rewrite <- Hfeq in He.
  assert (Hr : write_ready (disk st') (vol st') f cs b).
  { rewrite Hd, Hvol. destruct Hf as [Hv Hfat Hdat Hdir Hso Hent _ Hch _ Hin Husd Hout Hap _].
    split; try done; rewrite Hfeq; cbn [of_first_cluster of_dir_entry_sector of_dir_entry_offset];
      rewrite ?Hwf; try done. by rewrite <- Hent. }
  exists st', fd, i, f. split; [done|]. split; [done|]. split; [done|]. split; [done|].
  split; [by rewrite Hfeq|]. split; [by rewrite Hfeq|]. split; [done|].
  assert (Hsz : of_file_size f = de_file_size e) by (by rewrite Hfeq).
  rewrite <- Hsz, <- Hd, <- Hvol. by eapply ready_view.
Qed.

(** A descriptor on a file with no clusters. *)
Lemma ready_empty d v f b :
  vol_ok v -> fat_readable d v -> data_readable d v ->
  ata_read_sector d (of_dir_entry_sector f) = Some b -> 0 <= of_dir_entry_offset f < 16 ->
  de_first_cluster_low (decode_entry b (of_dir_entry_offset f)) = 0 ->
  root_dir_start_lba v <= of_dir_entry_sector f -> apart d v [] (of_dir_entry_sector f) ->
  of_first_cluster f = 0 -> of_current_cluster f = 0 -> of_file_size f = 0 -> of_file_offset f = 0 ->
  write_ready d v f [] b.
Proof.
  intros Hv Hfat Hdat Hdir Hso Hent Hout Hap Hf Hc Hs Ho. split; try done.
  - rewrite Hf. by constructor.
  - by rewrite Hf.
  - split; [congruence|]. cbn. done.
Qed.

(** Writing a sector behind the FAT keeps the FAT and what can be read. *)
Lemma sector_write_frame d d' v lba b :
  vol_ok v -> root_dir_start_lba v <= lba -> is_sector b -> ata_write_sector d lba b = Some d' ->
  (forall c, cluster_in v c -> fat_get_next_cluster d' v c = fat_get_next_cluster d v c) /\
  (fat_readable d v -> fat_readable d' v) /\ (data_readable d v -> data_readable d' v).
Proof.
  intros Hv Hout Hb Hw. pose proof (write_read_same _ _ _ _ Hb Hw) as Hs.
  assert (Ho : forall l, l <> lba -> ata_read_sector d' l = ata_read_sector d l)
    by (intros; eapply write_read_other; eauto).
  assert (Hread : forall l, is_Some (ata_read_sector d l) -> is_Some (ata_read_sector d' l)).
  { intros l Hl. destruct (decide (l = lba)) as [->|]; [by eexists|by rewrite Ho]. }
  split; [|split].
  - intros c Hc. apply next_frame; [done..|]. intros l Hl. apply Ho. lia.
  - intros Hr l Hl. by apply Hread, Hr.
  - intros Hr c s Hc Hs'. by apply Hread, Hr.
Qed.

(** C18: Truncating returns every cluster of the file to the free pool, no
    other FAT entry changes, the directory entry becomes empty, and the
    descriptor handed out appends to an empty file. *)
Theorem fat_open_truncate st task_id filename parent name sector off e cs b fuel :
  fat_ready st = true -> is_Some (free_slot (open_files st)) ->
  fat_resolve_parent fuel (disk st) (vol st) filename FAT_MAX_COMPONENT = OK (parent, name) ->
  fat_find_entry_in_dir fuel (disk st) (vol st) parent name = OK (sector, off, e) ->
  file_at (disk st) (vol st) sector off e cs b -> (length cs < fuel)%nat ->
  exists st' fd i f b', fat_open_write fuel st task_id filename FAT_OPEN_TRUNCATE = (st', OK fd) /\
    fd_lookup st fd = None /\ fd_lookup st' fd = Some (i, f) /\
    of_writable f = true /\ write_ready (disk st') (vol st') f [] b' /\ fd_view st' fd [] 0 /\
    decode_entry b' off = set_file_size (set_first_cluster e 0) 0 /\
    (forall x, x ∈ cs -> free_cluster (disk st') (vol st) x) /\
    (forall x, x ∉ cs -> cluster_in (vol st) x ->
       fat_get_next_cluster (disk st') (vol st) x = fat_get_next_cluster (disk st) (vol st) x).
Proof.
  intros Hrdy Hslot Hres Hfind Hf Hfuel. unfold fat_open_write.
  rewrite Hrdy, Hres, Hfind, (fa_regular _ _ _ _ _ _ _ Hf). cbn [negb].
  change (FAT_OPEN_TRUNCATE =? FAT_OPEN_CREATE) with false. cbn iota.
  unfold open_existing. rewrite (fa_dir _ _ _ _ _ _ _ Hf).
  change (FAT_OPEN_TRUNCATE =? FAT_OPEN_TRUNCATE) with true. cbn iota.
  destruct Hf as [Hv Hfat Hdat Hdir Hso Hent _ Hch _ Hin Husd Hout Hap _].
  pose proof Hin as Hin'. rewrite Forall_forall in Hin'.
  assert (Hci : Forall (cluster_in (vol st)) cs).
  { apply Forall_forall. intros c Hc. by apply in_data, Hin'. }
  destruct (fat_free_chain_spec (disk st) (vol st) (de_first_cluster_low e) cs fuel Hv Hfat Hch Hci Hfuel)
    as (d1 & E1 & Z1 & Z2 & Z3 & Z4 & _).
  replace (if negb (de_first_cluster_low e =? 0) then _ else _) with (OK d1).
  2:{ rewrite <- E1. case_if; [done|]. rewrite Hif. destruct fuel; [lia|done]. }
  rewrite <- Hent. pose proof (read_is_sector _ _ _ Hdir) as Hbs. destruct Hbs as [Hbl Hbb] eqn:?.
  set (e' := set_file_size (set_first_cluster e 0) 0).
  assert (Hwf : entry_wf e').
  { subst e' e. apply set_size_wf; [apply set_first_wf; [by apply decode_entry_wf|]|];
      unfold is_u16, is_u32; lia. }
  assert (Hsec : is_sector (store_entry b off e')) by (by apply store_entry_sector).
  destruct (write_readable d1 sector (store_entry b off e')) as [d2 Hd2];
    [rewrite Z3 by (by right); by eexists|done|]. rewrite Hd2.
  destruct (sector_write_frame d1 d2 (vol st) sector _ Hv Hout Hsec Hd2) as (Hnx & Hfr & Hdr).
  destruct (install_spec (set_disk st d2) task_id sector off start_empty Hslot)
    as (st' & fd & i & f & -> & Hn & Hl & Hfeq & Hd & Hvol & _).
  cbn [disk vol set_disk] in Hd, Hvol.
  assert (Hst : decode_entry (store_entry b off e') off = e')
    by (apply decode_store_same; [done|lia|lia]).
  assert (Hfree : forall x, cluster_in (vol st) x -> x ∉ cs ->
    fat_get_next_cluster d2 (vol st) x = fat_get_next_cluster (disk st) (vol st) x)
    by (intros x Hx Hni; by rewrite Hnx, Z2).
  assert (Hr : write_ready (disk st') (vol st') f [] (store_entry b off e')).
  { rewrite Hd, Hvol. apply ready_empty; rewrite ?Hfeq; try done.
    - by apply Hfr.
    - apply Hdr. intros c s Hc Hs. rewrite Z3; [by apply Hdat|right].
      by apply data_sector_outside; [..|lia].
    - by eapply write_read_same.
    - cbn [of_dir_entry_offset]. by rewrite Hst.
    - intros c s [Hc|[Hc1 Hc2]] Hs; [by apply not_elem_of_nil in Hc|].
      apply (Hap c s); [|done]. destruct (decide (c ∈ cs)) as [|Hni]; [by left|right].
      split; [done|]. rewrite <- Hfree; [done|by apply in_data|done]. }
  exists st', fd, i, f, (store_entry b off e'). split; [done|]. split; [done|]. split; [done|].
  split; [by rewrite Hfeq|]. split; [done|]. split.
  { pose proof (ready_view st' fd i f [] _ Hl Hr) as Hview. by rewrite Hfeq in Hview. }
  split; [done|]. rewrite Hd. split; [|by auto].
  intros x Hx. split; [by apply Hin'|]. rewrite Hnx; [by apply Z1|]. by apply in_data, Hin'.
Qed.

(** A directory entry written into a slot is found again by a lookup that
    failed before, whatever else changed outside the directory. *)
Lemma find_entry_put fuel d d' v dir name lba k b b' e :
  vol_ok v -> same_dir fuel d d' v dir lba ->
  alloc_slot_loop fuel fuel d v dir 0 = OK (Some (lba, k)) -> fat_find_entry_in_dir fuel d v dir name = Err ->
  ata_read_sector d lba = Some b -> ata_read_sector d' lba = Some b' -> slot_set b b' k e ->
  byte_at (fat_name_to_83 name) 0 <> 0 -> byte_at (fat_name_to_83 name) 0 <> 229 ->
  de_name e = take 8 (fat_name_to_83 name) -> de_ext e = take 3 (drop 8 (fat_name_to_83 name)) -> de_attr e = 0 ->
  fat_find_entry_in_dir fuel d' v dir name = OK (lba, k, e).
Proof.
  intros Hv Hd Hal Hfind Hb Hb' Hput Hb0 Hb5 Hn Hx Ha. unfold fat_find_entry_in_dir in *.
  eapply find_loop_put; try done.
  - unfold slot_free. rewrite (ss_same _ _ _ _ Hput), Hn. pose proof (name83_length name) as Hnl.
    unfold byte_at in *. rewrite lookup_take_lt by (cbn; lia). by apply Z.eqb_neq in Hb0 as ->, Hb5 as ->.
  - by rewrite Ha.
  - by rewrite Ha.
  - unfold fat_dir_entry_matches. apply andb_true_iff. by rewrite !bool_decide_eq_true.
Qed.

(** What creating an entry for [name] in slot [k] of sector [lba] leaves
    behind, the descriptor standing at the start of an empty file. *)
Record created st task_id (parent : fat_dir_ref) (name : list Z) lba k st' fd i f b b' : Prop := {
  cr_unused : fd_lookup st fd = None;
  cr_fd : fd_lookup st' fd = Some (i, f);
  cr_file : f = mk_open_file true 0 0 0 0 0 true lba k task_id;
  cr_vol : vol st' = vol st;
  cr_mounted : fat_ready st' = fat_ready st;
  cr_others fd' : fd' <> fd -> fd_lookup st' fd' = fd_lookup st fd';
  cr_ready : write_ready (disk st') (vol st') f [] b';
  cr_read : ata_read_sector (disk st) lba = Some b;
  cr_read' : ata_read_sector (disk st') lba = Some b';
  cr_slot : slot_set b b' k (fresh_entry name 0 0);
  cr_frame l : l <> lba -> ata_read_sector (disk st') l = ata_read_sector (disk st) l }.

Lemma open_creates st task_id filename parent name lba k fuel :
  fat_ready st = true -> is_Some (free_slot (open_files st)) ->
  vol_ok (vol st) -> fat_readable (disk st) (vol st) -> data_readable (disk st) (vol st) ->
  fat_resolve_parent fuel (disk st) (vol st) filename FAT_MAX_COMPONENT = OK (parent, name) ->
  Forall is_byte name ->
  fat_find_entry_in_dir fuel (disk st) (vol st) parent name = Err ->
  alloc_slot_loop fuel fuel (disk st) (vol st) parent 0 = OK (Some (lba, k)) ->
  apart (disk st) (vol st) [] lba ->
  exists st' fd i f b b', fat_open_write fuel st task_id filename FAT_OPEN_CREATE = (st', OK fd) /\
    created st task_id parent name lba k st' fd i f b b'.
Proof.
  intros Hrdy Hslot Hv Hfat Hdat Hres Hname Hfind Hal Hap. unfold fat_open_write.
  rewrite Hrdy, Hres, Hfind. cbn [negb]. unfold open_new, fat_alloc_dir_entry_in_dir. rewrite Hal.
  destruct (alloc_slot_loop_found _ _ _ _ _ _ _ _ Hv (Z.le_refl 0) Hal) as (b & Hb & Hff & Hout).
  apply find_from_Some in Hff as (Hk & _). change (0 + Z.of_nat entries_per_sector) with 16 in Hk.
  rewrite Hb. pose proof (read_is_sector _ _ _ Hb) as Hbs.
  assert (Hwf : entry_wf (fresh_entry name 0 0))
    by (apply fresh_entry_wf; [done|unfold is_byte; lia|unfold is_u16; lia]).
  set (b' := store_entry b k (fresh_entry name 0 0)).
  assert (Hsec : is_sector b') by (by apply store_entry_sector).
  pose proof (slot_set_store b k _ Hbs Hk Hwf) as Hput. fold b' in Hput.
  destruct (write_readable (disk st) lba b') as [d2 Hd2]; [by eexists|done|]. rewrite Hd2.
  destruct (sector_write_frame _ d2 (vol st) lba _ Hv Hout Hsec Hd2) as (Hnx & Hfr & Hdr).
  pose proof (write_read_same _ _ _ _ Hsec Hd2) as Hsame.
  assert (Hoth : forall l, l <> lba -> ata_read_sector d2 l = ata_read_sector (disk st) l)
    by (intros; eapply write_read_other; eauto).
  destruct (install_spec (set_disk st d2) task_id lba k start_empty Hslot)
    as (st' & fd & i & f & E & Hn & Hl & Hfeq & Hd & Hvol & Ho).
  rewrite E. cbn [disk vol set_disk] in Hd, Hvol.
  exists st', fd, i, f, b, b'. split; [done|]. split; rewrite ?Hd, ?Hvol; try done.
  - unfold install in E. cbn [set_disk open_files] in E. destruct Hslot as [x Hx]. rewrite Hx in E. by injection E as <- _.
  - apply ready_empty; rewrite ?Hfeq; try done.
    + by apply Hfr.
    + by apply Hdr.
    + cbn [of_dir_entry_offset]. by rewrite (ss_same _ _ _ _ Hput).
    + intros c s [Hc|[Hc1 Hc2]] Hs; [by apply not_elem_of_nil in Hc|].
      apply (Hap c s); [|done]. right. split; [done|]. rewrite <- Hnx; [done|by apply in_data].
Qed.

Lemma created_same_dir st task_id parent name lba k st' fd i f b b' fuel :
  created st task_id parent name lba k st' fd i f b b' -> dir_ok (disk st) (vol st) parent ->
  same_dir fuel (disk st) (disk st') (vol st) parent lba.
Proof.
  intros Hc Hd. pose proof (wr_outside _ _ _ _ _ (cr_ready _ _ _ _ _ _ _ _ _ _ _ _ Hc)) as Hout.
  pose proof (wr_vol _ _ _ _ _ (cr_ready _ _ _ _ _ _ _ _ _ _ _ _ Hc)) as Hv.
  rewrite (cr_file _ _ _ _ _ _ _ _ _ _ _ _ Hc) in Hout. rewrite (cr_vol _ _ _ _ _ _ _ _ _ _ _ _ Hc) in *. cbn in Hout. split.
  - intros s _. apply dir_sector_frame; [done|]. intros x Hx. apply next_frame; [done..|].
    intros l Hl. apply (cr_frame _ _ _ _ _ _ _ _ _ _ _ _ Hc). lia.
  - intros s a _ _ _ Ha. by apply (cr_frame _ _ _ _ _ _ _ _ _ _ _ _ Hc).
Qed.

(** ** A file created and written *)
Lemma write_done_chain st fd i f cs b buffer st' n f' cs' b' :
  write_done st fd i f cs b buffer st' n f' cs' b' ->
  file_chain (disk st') (vol st) (of_first_cluster f') cs' (of_file_size f').
Proof.
  intros Hd. pose proof (write_done_view _ _ _ _ _ _ _ _ _ _ _ _ Hd) as (j & g & cs2 & Hl & _ & Hc & _).
  pose proof (wd_fd _ _ _ _ _ _ _ _ _ _ _ _ Hd) as Hl'. rewrite Hl' in Hl. injection Hl as <- <-.
  rewrite (wd_vol _ _ _ _ _ _ _ _ _ _ _ _ Hd) in Hc.
  pose proof (wr_chain _ _ _ _ _ (wd_ready _ _ _ _ _ _ _ _ _ _ _ _ Hd)) as Hch.
  by rewrite (chain_det _ _ _ _ _ Hch (fc_chain _ _ _ _ _ Hc)).
Qed.

(** Between the creation and the end of the write only the entry of the new
    file changed in the root directory. *)
Lemma saved_root_dir st task_id name lba k st1 fd i f b b1 buffer st2 n f' cs b2 fuel :
  created st task_id fat_root_dir_ref name lba k st1 fd i f b b1 ->
  write_done st1 fd i f [] b1 buffer st2 n f' cs b2 ->
  same_dir fuel (disk st) (disk st2) (vol st) fat_root_dir_ref lba.
Proof.
  intros Hc Hd. pose proof (wr_vol _ _ _ _ _ (cr_ready _ _ _ _ _ _ _ _ _ _ _ _ Hc)) as Hv.
  split; [done|]. intros s a Hs Ha H0 Hne. unfold fat_dir_sector_lba in Ha. cbn in Ha.
  destruct (Z.leb_spec (root_dir_sectors (vol st)) s); [by injection Ha as <-|]. injection Ha as <-.
  rewrite (wd_sec _ _ _ _ _ _ _ _ _ _ _ _ Hd); rewrite ?(cr_file _ _ _ _ _ _ _ _ _ _ _ _ Hc), ?(cr_vol _ _ _ _ _ _ _ _ _ _ _ _ Hc) in *;
    [by apply (cr_frame _ _ _ _ _ _ _ _ _ _ _ _ Hc)|lia|done|].
  apply apart_root; [done|done|]. destruct Hv as [Hwf _]. unfold vol_wf in Hwf. lia.
Qed.

(** The file just saved is found under its name, with the contents written. *)
Lemma saved_file st task_id name lba k st1 fd i f b b1 buffer st2 n f' cs b2 fuel :
  plain_name name -> byte_at (fat_name_to_83 name) 0 <> 0 -> byte_at (fat_name_to_83 name) 0 <> 229 ->
  fat_find_entry_in_dir fuel (disk st) (vol st) fat_root_dir_ref name = Err ->
  alloc_slot_loop fuel fuel (disk st) (vol st) fat_root_dir_ref 0 = OK (Some (lba, k)) ->
  created st task_id fat_root_dir_ref name lba k st1 fd i f b b1 ->
  write_done st1 fd i f [] b1 buffer st2 n f' cs b2 ->
  exists e, fat_find_entry fuel (disk st2) (vol st2) name = OK e /\
    flag (de_attr e) FAT_ATTR_DIRECTORY = false /\ de_file_size e = Z.of_nat n /\
    file_chain (disk st2) (vol st2) (de_first_cluster_low e) cs (de_file_size e) /\
    file_bytes (disk st2) (vol st2) cs (de_file_size e) = take n buffer.
Proof.
  intros Hp Hb0 Hb5 Hfind Hal Hc Hd. pose proof (saved_root_dir _ _ _ _ _ _ _ _ _ _ _ _ _ _ _ _ _ fuel Hc Hd) as Hsd.
  pose proof (write_done_chain _ _ _ _ _ _ _ _ _ _ _ _ Hd) as Hch.
  pose proof (fun x y => slot_set_trans _ _ x _ _ y (cr_slot _ _ _ _ _ _ _ _ _ _ _ _ Hc)) as Hslot.
  pose proof (cr_file _ _ _ _ _ _ _ _ _ _ _ _ Hc) as Ef. pose proof (cr_vol _ _ _ _ _ _ _ _ _ _ _ _ Hc) as Ev.
  pose proof (wd_slot _ _ _ _ _ _ _ _ _ _ _ _ Hd) as Hput. pose proof (wd_size _ _ _ _ _ _ _ _ _ _ _ _ Hd) as Hsz.
  pose proof (wd_bytes _ _ _ _ _ _ _ _ _ _ _ _ Hd) as Hby. pose proof (wd_vol _ _ _ _ _ _ _ _ _ _ _ _ Hd) as Ev2.
  pose proof (wr_dir _ _ _ _ _ (wd_ready _ _ _ _ _ _ _ _ _ _ _ _ Hd)) as Hdir.
  destruct (wd_handle _ _ _ _ _ _ _ _ _ _ _ _ Hd) as (_ & _ & Es & _). rewrite Es in Hdir.
  pose proof (wr_vol _ _ _ _ _ (cr_ready _ _ _ _ _ _ _ _ _ _ _ _ Hc)) as Hv. rewrite Ev in Hv.
  rewrite Ef in Hput, Hsz, Hdir, Hby. cbn [of_dir_entry_offset of_file_size of_dir_entry_sector] in *. rewrite Z.add_0_l in *.
  rewrite (ss_same _ _ _ _ (cr_slot _ _ _ _ _ _ _ _ _ _ _ _ Hc)) in Hput. apply Hslot in Hput.
  rewrite Ev2, Ev in *.
  exists (set_file_size (set_first_cluster (fresh_entry name 0 0) (of_first_cluster f')) (Z.of_nat n)).
  split; [|split; [reflexivity|split; [reflexivity|]]].
  - unfold fat_find_entry, fat_find_entry_location. rewrite (resolve_plain _ _ _ _ Hp). cbn [rbind].
    by erewrite (find_entry_put fuel (disk st) (disk st2)) by (done || apply Hc).
  - cbn. rewrite <- Hsz. split; [done|]. by rewrite Hby, app_nil_l.
Qed.

(** C17: Creating a file in a directory with a free slot: the descriptor
    appends to an empty file, looking the name up now finds exactly the entry
    created, only the directory sector was written, and its other entries are
    unchanged. *)
Theorem fat_open_create st task_id filename parent name lba k fuel :
  fat_ready st = true -> is_Some (free_slot (open_files st)) ->
  vol_ok (vol st) -> fat_readable (disk st) (vol st) -> data_readable (disk st) (vol st) ->
  dir_ok (disk st) (vol st) parent ->
  fat_resolve_parent fuel (disk st) (vol st) filename FAT_MAX_COMPONENT = OK (parent, name) ->
  Forall is_byte name -> byte_at (fat_name_to_83 name) 0 <> 0 -> byte_at (fat_name_to_83 name) 0 <> 229 ->
  fat_find_entry_in_dir fuel (disk st) (vol st) parent name = Err ->
  alloc_slot_loop fuel fuel (disk st) (vol st) parent 0 = OK (Some (lba, k)) ->
  apart (disk st) (vol st) [] lba ->
  exists st' fd i f b b', fat_open_write fuel st task_id filename FAT_OPEN_CREATE = (st', OK fd) /\
    fd_lookup st fd = None /\ fd_lookup st' fd = Some (i, f) /\ of_writable f = true /\
    write_ready (disk st') (vol st') f [] b' /\ fd_view st' fd [] 0 /\
    fat_find_entry_in_dir fuel (disk st') (vol st') parent name = OK (lba, k, fresh_entry name 0 0) /\
    ata_read_sector (disk st) lba = Some b /\ ata_read_sector (disk st') lba = Some b' /\
    (forall j, 0 <= j < 16 -> j <> k -> decode_entry b' j = decode_entry b j) /\
    (forall l, l <> lba -> ata_read_sector (disk st') l = ata_read_sector (disk st) l).
Proof.
  intros Hrdy Hslot Hv Hfat Hdat Hdok Hres Hname Hb0 Hb5 Hfind Hal Hap.
  destruct (open_creates st task_id filename parent name lba k fuel Hrdy Hslot Hv Hfat Hdat Hres Hname Hfind Hal Hap)
    as (st' & fd & i & f & b & b' & E & Hc).
  pose proof (created_same_dir _ _ _ _ _ _ _ _ _ _ _ _ fuel Hc Hdok) as Hsd.
  destruct Hc as [Hn Hl Hfeq Hvol _ _ Hr Hb Hb' Hput Hoth].
  exists st', fd, i, f, b, b'. split; [done|]. split; [done|]. split; [done|]. split; [by rewrite Hfeq|]. split; [done|]. split.
  { pose proof (ready_view st' fd i f [] b' Hl Hr) as Hview. by rewrite Hfeq in Hview. }
  split; [rewrite Hvol; by eapply find_entry_put|]. split; [done|]. split; [done|]. split; [|done].
  apply Hput.
Qed.
End FatWriteProofs.
