(* ===== verification/FatDisk.v ===== *)
(** * A disk image and a small FAT16 volume

    A block device held in memory, which satisfies the laws the driver relies
    on, and a volume of 254 one-sector clusters with one file, on which the
    theorems about the driver are exercised. *)
From S2P Require Import Prelude FatTypes FatName FatTable FatDir FatFile FatWrite.

(** ** Memory-backed block devices *)
Abbreviation image := (list (list Z)).

Definition byte_ok (z : Z) : bool := (0 <=? z) && (z <? 256).
Definition sector_ok (b : list Z) : bool := (length b =? 512)%nat && forallb byte_ok b.

Lemma sector_ok_spec b : sector_ok b = true <-> is_sector b.
Proof.
  unfold sector_ok, is_sector. rewrite andb_true_iff, Nat.eqb_eq, forallb_forall, Forall_forall.
  unfold byte_ok, is_byte. split; intros [Hl Hb]; (split; [done|]); intros x Hx.
  - apply list_elem_of_In in Hx. specialize (Hb x Hx). zbool. lia.
  - apply list_elem_of_In in Hx. specialize (Hb x Hx). apply andb_true_iff.
    rewrite Z.leb_le, Z.ltb_lt. lia.
Qed.

#[export] Instance image_device : BlockDevice image := {
  ata_read_sector d lba :=
    if lba <? 0 then None
    else match d !! Z.to_nat lba with
         | Some b => if sector_ok b then Some b else None
         | None => None
         end;
  ata_write_sector d lba b :=
    if (0 <=? lba) && (lba <? Z.of_nat (length d)) && sector_ok b
    then Some (<[Z.to_nat lba := b]> d) else None }.

#[export] Instance image_laws : BlockDeviceLaws image.
Proof.
  split; cbn [ata_read_sector ata_write_sector image_device].
  - intros d lba b. case_if; [done|]. destruct (d !! _) as [b'|]; [|done].
    destruct (sector_ok b') eqn:E; [|done]. intros [= ->]. by apply sector_ok_spec.
  - intros d d' lba b Hb. apply sector_ok_spec in Hb. case_if; [|done]. intros [= <-].
    destruct (Z.ltb_spec lba 0); [lia|]. rewrite list_lookup_insert_eq by lia. by rewrite Hb.
  - intros d d' lba lba' b Hne. case_if; [|done]. intros [= <-].
    destruct (Z.ltb_spec lba' 0); [done|]. by rewrite list_lookup_insert_ne by lia.
Qed.

#[export] Instance image_working : WorkingDevice image.
Proof.
  split. cbn [ata_read_sector ata_write_sector image_device]. intros d lba b [b' Hr] Hb. apply sector_ok_spec in Hb. revert Hr.
  case_if; [done|]. destruct (d !! Z.to_nat lba) eqn:E; [|done]. intros _.
  apply lookup_lt_Some in E. rewrite Hb.
  destruct (Z.leb_spec 0 lba); [|lia]. destruct (Z.ltb_spec lba (Z.of_nat (length d))); [|lia].
  by eexists.
Qed.

(** Decides that every sector of an image can be read. *)
Lemma image_readable (d : image) lba :
  forallb sector_ok d = true -> 0 <= lba < Z.of_nat (length d) -> is_Some (ata_read_sector d lba).
Proof.
  intros Hd Hl. cbn [ata_read_sector image_device]. destruct (Z.ltb_spec lba 0); [lia|].
  destruct (lookup_lt_is_Some_2 d (Z.to_nat lba)) as [b Hb]; [lia|]. rewrite Hb.
  rewrite forallb_forall in Hd. apply list_elem_of_lookup_2, list_elem_of_In in Hb.
  rewrite (Hd b Hb). by eexists.
Qed.

(** Computes the chain that starts at [c]. *)
Fixpoint chain_list (fuel : nat) (d : image) (v : fat_volume) (c : Z) : option (list Z) :=
  match fuel with
  | O => None
  | S fuel' =>
      if valid_cluster c
      then (c ::.) <$> chain_list fuel' d v (fat_get_next_cluster d v c)
      else Some []
  end.

Lemma chain_list_chain fuel d v c cs : chain_list fuel d v c = Some cs -> chain d v c cs.
Proof.
  revert c cs. induction fuel as [|fuel IH]; intros c cs; cbn [chain_list]; [done|].
  destruct (valid_cluster c) eqn:E; [|intros [= <-]; by constructor].
  destruct (chain_list _ _ _ _) as [cs'|] eqn:El; [|done]. intros [= <-].
  constructor; [done|]. by apply IH.
Qed.

(** ** The volume *)
Definition sector_with (parts : list (nat * list Z)) : list Z :=
  foldl (fun b '(o, x) => splice b o x) (replicate 512 0) parts.

Definition boot : list Z := sector_with
  [(11%nat, [0; 2]); (13%nat, [1]); (14%nat, [1; 0]); (16%nat, [2]); (17%nat, [16; 0]);
   (22%nat, [1; 0]); (54%nat, [70; 65; 84; 49; 54]); (510%nat, [85; 170])].

Definition fat_sector : list Z := sector_with
  [(0%nat, [248; 255; 255; 255; 3; 0; 255; 255; 255; 255; 6; 0; 255; 255])].

(** "HELLO.TXT", 700 bytes in the clusters 2 and 3; "BIG.BIN", 1024 bytes in
    the clusters 5 and 6; cluster 4 is the directory "SUB". *)
Definition hello : fat_dir_entry :=
  mk_dir_entry [72; 69; 76; 76; 79; 32; 32; 32] [84; 88; 84] 0 0 0 0 0 0 0 0 0 2 700.
Definition big : fat_dir_entry :=
  mk_dir_entry [66; 73; 71; 32; 32; 32; 32; 32] [66; 73; 78] 0 0 0 0 0 0 0 0 0 5 1024.
Definition sub : fat_dir_entry :=
  mk_dir_entry [83; 85; 66; 32; 32; 32; 32; 32] [32; 32; 32] 16 0 0 0 0 0 0 0 0 4 0.

Definition root_sector : list Z :=
  store_entry (store_entry (store_entry (replicate 512 0) 0 hello) 1 sub) 2 big.

Definition pattern (k : Z) : list Z := (fun i => (i * k + 7) mod 251) <$> seqZ 0 512.

Definition img : image :=
  [boot; fat_sector; fat_sector; root_sector; pattern 3; pattern 5; replicate 512 0;
   pattern 11; pattern 13] ++ replicate 249 (replicate 512 0).

Definition st0 : fat_state image :=
  mk_fat img (mk_volume 0 0 0 0 0 0 0 0) false (replicate 8 closed_file).

(** The state after [fat_init]. *)
Definition vol0 : fat_volume := mk_volume 1 3 1 4 16 1 2 1.
Definition mounted : fat_state image := mk_fat img vol0 true (replicate 8 closed_file).

Example fat_init_mounted : snd (fat_init st0) = OK mounted.
Proof. vm_compute. reflexivity. Qed.

Definition name_of (s : string) : list Z := (fun a => Z.of_nat (Ascii.nat_of_ascii a)) <$> String.list_ascii_of_string s.

Lemma vol0_ok : vol_ok vol0.
Proof. unfold vol_ok, vol_wf. cbn. repeat split; try lia; reflexivity. Qed.

Lemma img_sectors : forallb sector_ok img = true.
Proof. vm_compute. reflexivity. Qed.

Lemma img_length : Z.of_nat (length img) = 258.
Proof. vm_compute. reflexivity. Qed.

Lemma img_fat : fat_readable img vol0.
Proof.
  intros lba Hl. apply image_readable; [apply img_sectors|]. rewrite img_length. cbn in Hl. lia.
Qed.

Lemma img_data : data_readable img vol0.
Proof.
  intros c s Hc Hs. apply image_readable; [apply img_sectors|]. rewrite img_length.
  cbn [fat_size_sectors sectors_per_cluster vol0] in *.
  rewrite cluster_lba_eq by (apply vol0_ok || lia). cbn. lia.
Qed.

Lemma img_chain2 : chain img vol0 2 [2; 3].
Proof. apply (chain_list_chain 3). vm_compute. reflexivity. Qed.

Lemma img_file_chain2 : file_chain img vol0 2 [2; 3] 700.
Proof.
  split; [apply img_chain2| |vm_compute; split; discriminate].
  intros c s Hc Hs. apply img_data; [|done].
  repeat (apply elem_of_cons in Hc as [->|Hc]; [cbn; lia|]). by apply not_elem_of_nil in Hc.
Qed.

(** ** The theorems at work *)
Lemma first_free7 : first_free img vol0 = Some 7.
Proof. vm_compute. reflexivity. Qed.

Lemma fat_alloc_cluster_witness :
  fat_alloc_cluster img vol0 = (fat_set_cluster_entry img vol0 7 65535, 7).
Proof.
  rewrite (fat_alloc_cluster_first_free img vol0 vol0_ok img_fat). rewrite first_free7. reflexivity.
Defined.

Lemma find_hello : fat_find_entry 20 img vol0 (name_of "hello.txt") = OK hello.
Proof. vm_compute. reflexivity. Qed.

Lemma fat_read_file_witness :
  exists data, snd (fat_read_file 20 mounted (name_of "hello.txt") 4096) = OK data /\
    Z.of_nat (length data) = 700.
Proof.
  destruct (fat_read_file_contents mounted (name_of "hello.txt") 4096 hello [2; 3] 20) as [E L];
    [reflexivity|cbn; lia|apply find_hello|apply img_file_chain2|cbn; lia|].
  exists (file_bytes img vol0 [2; 3] 700). split; [exact E|exact L].
Defined.

Lemma fat_open_witness :
  exists st' fd, fat_open 20 mounted 7 (name_of "hello.txt") = (st', OK fd) /\ 3 <= fd < 11.
Proof.
  pose proof (fat_open_view mounted 7 (name_of "hello.txt") hello [2; 3] 20 eq_refl
    ltac:(cbn; lia) find_hello eq_refl img_file_chain2) as T.
  assert (E : snd (fat_open 20 mounted 7 (name_of "hello.txt")) = OK 3) by (vm_compute; reflexivity).
  destruct (fat_open 20 mounted 7 (name_of "hello.txt")) as [st' [fd| |]]; [|discriminate..].
  exists st', fd. split; [reflexivity|]. apply T.
Defined.

(** "HELLO.TXT" open as descriptor 3, at position 0. *)
Definition hello_file : open_file := mk_open_file true 700 2 2 0 0 false 0 0 7.
Definition opened : fat_state image := set_files mounted (<[0%nat := hello_file]> (open_files mounted)).

Lemma opened_view : fd_view opened 3 (file_bytes img vol0 [2; 3] 700) 0.
Proof.
  exists 0%nat, hello_file, [2; 3]. split; [reflexivity|]. split; [cbn; lia|].
  split; [apply img_file_chain2|]. split; [|done]. split; cbn; [lia|]. intros _. exists 0%nat.
  split; [reflexivity|]. vm_compute. split; [reflexivity|]. split; [discriminate|reflexivity].
Qed.

Lemma file_length : length (file_bytes img vol0 [2; 3] 700) = 700%nat.
Proof. vm_compute. reflexivity. Qed.

(** A read across the end of the file returns the 700 bytes there are. *)
Lemma fat_read_witness :
  exists st' data, fat_read opened 3 1000 = (st', OK data) /\ length data = 700%nat.
Proof.
  destruct (fat_read_refines opened 3 _ _ 1000 opened_view ltac:(lia)) as (st' & E & _).
  exists st'. eexists. split; [exact E|]. vm_compute. reflexivity.
Defined.

(** The five bytes from offset 510 on span the two clusters. *)
Lemma fat_seek_witness :
  exists st1 st2, fat_seek 600 opened 3 510 = (st1, OK 0) /\
    fat_read st1 3 5 = (st2, OK [31; 34; 7; 12; 17]).
Proof.
  pose proof (fat_seek_read opened 3 _ _ 510 5 600 opened_view ltac:(lia) ltac:(lia) ltac:(lia)) as T.
  rewrite file_length in T. cbv beta iota in T. change (510 <=? Z.of_nat 700) with true in T.
  destruct T as (st1 & st2 & E1 & E2). exists st1, st2. split; [exact E1|].
  rewrite E2. apply (f_equal (pair st2)). vm_compute. reflexivity.
Defined.

(** *** Writing *)
Lemma in_range_list (cs : list Z) :
  forallb (fun c => (2 <=? c) && (c <? 256)) cs = true ->
  Forall (fun c => 2 <= c < fat_size_sectors vol0 * 256) cs.
Proof.
  intros H. apply Forall_forall. intros c Hc. apply list_elem_of_In in Hc.
  rewrite forallb_forall in H. specialize (H c Hc). zbool. cbn. lia.
Qed.

Lemma used_list (cs : list Z) :
  forallb (fun c => negb (fat_get_next_cluster img vol0 c =? 0)) cs = true ->
  Forall (fun c => fat_get_next_cluster img vol0 c <> 0) cs.
Proof.
  intros H. apply Forall_forall. intros c Hc. apply list_elem_of_In in Hc.
  rewrite forallb_forall in H. specialize (H c Hc). zbool. done.
Qed.

Lemma read_root : ata_read_sector img 3 = Some root_sector.
Proof. vm_compute. reflexivity. Qed.

Lemma hello_at : file_at img vol0 3 0 hello [2; 3] root_sector.
Proof.
  split; [apply vol0_ok|apply img_fat|apply img_data|apply read_root|lia|reflexivity|reflexivity
    |apply img_chain2|discriminate| | |cbn; lia| |].
  - apply in_range_list. reflexivity.
  - apply used_list. vm_compute. reflexivity.
  - apply apart_root; [apply vol0_ok|apply in_range_list; reflexivity|cbn; lia].
  - left. vm_compute. split; [reflexivity|discriminate].
Qed.

Lemma resolve_hello :
  fat_resolve_parent 20 img vol0 (name_of "hello.txt") FAT_MAX_COMPONENT =
  OK (fat_root_dir_ref, name_of "hello.txt").
Proof. vm_compute. reflexivity. Qed.

Lemma find_hello_slot :
  fat_find_entry_in_dir 20 img vol0 fat_root_dir_ref (name_of "hello.txt") = OK (3, 0, hello).
Proof. vm_compute. reflexivity. Qed.

Lemma slot_available : is_Some (free_slot (open_files mounted)).
Proof. by exists 0. Qed.

Lemma fat_open_append_witness :
  exists st' fd, fat_open_write 20 mounted 7 (name_of "hello.txt") FAT_OPEN_APPEND = (st', OK fd) /\
    fd_view st' fd (file_bytes img vol0 [2; 3] 700) 700.
Proof.
  destruct (fat_open_append mounted 7 (name_of "hello.txt") fat_root_dir_ref (name_of "hello.txt")
    3 0 hello [2; 3] root_sector 20 eq_refl slot_available resolve_hello find_hello_slot hello_at
    ltac:(cbn; lia)) as (st' & fd & i & f & E & _ & _ & _ & _ & _ & _ & V).
  exists st', fd. split; [exact E|exact V].
Defined.

Lemma fat_open_truncate_witness :
  exists st' fd, fat_open_write 20 mounted 7 (name_of "hello.txt") FAT_OPEN_TRUNCATE = (st', OK fd) /\
    fd_view st' fd [] 0.
Proof.
  destruct (fat_open_truncate mounted 7 (name_of "hello.txt") fat_root_dir_ref (name_of "hello.txt")
    3 0 hello [2; 3] root_sector 20 eq_refl slot_available resolve_hello find_hello_slot hello_at
    ltac:(cbn; lia)) as (st' & fd & i & f & b' & E & _ & _ & _ & _ & V & _).
  exists st', fd. split; [exact E|exact V].
Defined.

(** Creating "SUB/NEW.LOG" in the subdirectory, whose one cluster is empty. *)
Lemma resolve_new :
  fat_resolve_parent 20 img vol0 (name_of "sub/new.log") FAT_MAX_COMPONENT =
  OK (mk_dir_ref false 4, name_of "new.log").
Proof. vm_compute. reflexivity. Qed.

Lemma sub_apart : apart img vol0 [] 6.
Proof.
  intros c s [Hc|[Hc Hz]] Hs; [by apply not_elem_of_nil in Hc|]. cbn in Hc, Hs.
  rewrite cluster_lba_eq by (apply vol0_ok || lia). cbn. intros E. assert (c = 4) as -> by lia.
  vm_compute in Hz. discriminate.
Qed.

Lemma fat_open_create_witness :
  exists st' fd, fat_open_write 20 mounted 7 (name_of "sub/new.log") FAT_OPEN_CREATE = (st', OK fd) /\
    fat_find_entry_in_dir 20 (disk st') (vol st') (mk_dir_ref false 4) (name_of "new.log") =
      OK (6, 0, fresh_entry (name_of "new.log") 0 0).
Proof.
  destruct (fat_open_create mounted 7 (name_of "sub/new.log") (mk_dir_ref false 4) (name_of "new.log")
    6 0 20 eq_refl slot_available vol0_ok img_fat img_data) as (st' & fd & i & f & b & b' & E & T).
  - right. exists [4]. split; [apply (chain_list_chain 3); vm_compute; reflexivity|].
    apply Forall_singleton. unfold cluster_in. cbn. lia.
  - apply resolve_new.
  - unfold name_of. repeat constructor; vm_compute; (reflexivity || discriminate).
  - vm_compute. discriminate.
  - vm_compute. discriminate.
  - vm_compute. reflexivity.
  - vm_compute. reflexivity.
  - apply sub_apart.
  - exists st', fd. split; [exact E|apply T].
Defined.

(** "HELLO.TXT" open for appending as descriptor 3. *)
Definition hello_append : open_file := mk_open_file true 700 3 2 188 700 true 3 0 7.
Definition appending : fat_state image :=
  set_files mounted (<[0%nat := hello_append]> (open_files mounted)).

Lemma appending_ready : write_ready img vol0 hello_append [2; 3] root_sector.
Proof.
  destruct hello_at. split; done.
Qed.

(** Appending 500 bytes fills cluster 3 and takes cluster 7; "BIG.BIN" is not
    touched. *)
Lemma fat_write_witness :
  exists st' n, fat_write appending 3 (replicate 500 65) = (st', OK (Z.of_nat n)) /\
    fd_view st' 3 (file_bytes img vol0 [2; 3] 700 ++ take n (replicate 500 65)) (700 + Z.of_nat n) /\
    chain_bytes (disk st') vol0 [5; 6] = chain_bytes img vol0 [5; 6].
Proof.
  destruct (fat_write_appends appending 3 0 hello_append [2; 3] root_sector (replicate 500 65)
    eq_refl eq_refl appending_ready) as (st' & n & f' & cs' & b' & E & _ & _ & _ & _ & V & _ & _ & _ & B).
  - apply Forall_replicate. unfold is_byte. lia.
  - vm_compute. reflexivity.
  - exists st', n. split; [exact E|]. split; [exact V|].
    apply (B 5 [5; 6]). split.
    + apply (chain_list_chain 3). vm_compute. reflexivity.
    + apply in_range_list. reflexivity.
    + apply used_list. vm_compute. reflexivity.
    + intros c H1 H2.
      repeat (apply elem_of_cons in H1 as [->|H1];
        [repeat (apply elem_of_cons in H2 as [?|H2]; [lia|]); by apply not_elem_of_nil in H2|]).
      by apply not_elem_of_nil in H1.
    + intros c s Hc Hs. cbn in Hs.
      repeat (apply elem_of_cons in Hc as [->|Hc];
        [rewrite cluster_lba_eq by (apply vol0_ok || lia); cbn; lia|]). exfalso. exact (not_elem_of_nil _ Hc).
Defined.

(** ** In-place edits across a cluster boundary

    fat.h describes [FAT_OPEN_MODIFY] as preserving the contents.  A write of
    600 bytes at the start of the 1024-byte "BIG.BIN" crosses from its first
    cluster into its second: [fat_write] allocates cluster 7 and links it in
    place of cluster 6, so the last 424 bytes of the file read back as the
    zeros of the new cluster, and cluster 6 stays allocated with no file
    leading to it. *)
Definition modified : fat_state image :=
  let st1 := fst (fat_open_write 20 mounted 7 (name_of "big.bin") FAT_OPEN_MODIFY) in
  fst (fat_write st1 3 (replicate 600 65)).

Example modify_loses_tail :
  chain_list 4 img vol0 5 = Some [5; 6] /\
  chain_list 4 (disk modified) vol0 5 = Some [5; 7] /\
  fat_get_next_cluster (disk modified) vol0 6 = 65535 /\
  drop 600 (file_bytes img vol0 [5; 6] 1024) <> replicate 424 0 /\
  snd (fat_read_file 20 modified (name_of "big.bin") 2048) =
    OK (replicate 600 65 ++ replicate 424 0).
Proof.
  split; [vm_compute; reflexivity|]. split; [vm_compute; reflexivity|].
  split; [vm_compute; reflexivity|]. split; [vm_compute; discriminate|].
  vm_compute. reflexivity.
Qed.
