(* ===== verification/Ata.v ===== *)
(** * The ATA disk driver (src/src/ata.c)

    The programmed-I/O driver over the port interface, what it relies on of a
    drive, and the proof that it implements the block device the file system
    is written against.  The drive is a parameter: [AtaDrive] states the
    documented behaviour of its task-file registers, its status bits and its
    data port; a drive with arbitrary delays is an instance. *)
From S2P Require Import Prelude Io FatTypes FatDisk.

Definition ATA_REG_DATA : Z := 0.
Definition ATA_REG_SECCOUNT : Z := 2.
Definition ATA_REG_LBA_LOW : Z := 3.
Definition ATA_REG_LBA_MID : Z := 4.
Definition ATA_REG_LBA_HIGH : Z := 5.
Definition ATA_REG_DRIVE_HEAD : Z := 6.
Definition ATA_REG_STATUS : Z := 7.
Definition ATA_REG_COMMAND : Z := 7.
Definition ATA_PRIMARY_IO : Z := 496.
Definition ATA_PRIMARY_CONTROL : Z := 1014.
Definition ATA_SECONDARY_IO : Z := 368.
Definition ATA_SECONDARY_CONTROL : Z := 886.
Definition ATA_CMD_READ_SECTORS : Z := 32.
Definition ATA_CMD_WRITE_SECTORS : Z := 48.
Definition ATA_CMD_CACHE_FLUSH : Z := 231.
Definition ATA_CMD_IDENTIFY : Z := 236.
Definition ATA_SR_ERR : Z := 1.
Definition ATA_SR_DRQ : Z := 8.
Definition ATA_SR_BSY : Z := 128.

(** ** The driver *)

(** The statics [ata_io_base] and [ata_control_base]. *)
Record channel := mk_channel { ata_io_base : Z; ata_control_base : Z }.

Definition primary : channel := mk_channel ATA_PRIMARY_IO ATA_PRIMARY_CONTROL.
Definition secondary : channel := mk_channel ATA_SECONDARY_IO ATA_SECONDARY_CONTROL.

(** A sector buffer seen as 16-bit words, and back. *)
Fixpoint words_of (l : list Z) : list Z :=
  match l with
  | b0 :: b1 :: rest => le16 b0 b1 :: words_of rest
  | _ => []
  end.
Definition bytes_of (ws : list Z) : list Z := mjoin (map put_le16 ws).

Section Driver.
Context {D : Type} `{Ports D} (fuel : nat).

Definition ata_delay_400ns (c : channel) : io D unit :=
  let* _ := io_for 4 0 (fun _ => in8 (ata_control_base c)) in io_ret tt.

Definition ata_wait_bsy (c : channel) : io D unit :=
  io_while fuel (let* s := in8 (ata_io_base c + ATA_REG_STATUS) in io_ret (flag s ATA_SR_BSY)).

Fixpoint wait_drq (k : nat) (c : channel) : io D bool :=
  match k with
  | O => fun _ => Fuel
  | S k' =>
      let* s := in8 (ata_io_base c + ATA_REG_STATUS) in
      if flag s ATA_SR_ERR then io_ret false
      else if flag s ATA_SR_DRQ then io_ret true else wait_drq k' c
  end.

(** [true] for the result 0, [false] for -1. *)
Definition ata_wait_drq (c : channel) : io D bool := wait_drq fuel c.

Definition ata_try_channel (c : channel) (label : string) : io D (list tty * bool) :=
  let* _ := out8 (ata_io_base c + ATA_REG_DRIVE_HEAD) 160 in
  let* _ := ata_delay_400ns c in
  let* _ := out8 (ata_io_base c + ATA_REG_SECCOUNT) 0 in
  let* _ := out8 (ata_io_base c + ATA_REG_LBA_LOW) 0 in
  let* _ := out8 (ata_io_base c + ATA_REG_LBA_MID) 0 in
  let* _ := out8 (ata_io_base c + ATA_REG_LBA_HIGH) 0 in
  let* _ := out8 (ata_io_base c + ATA_REG_COMMAND) ATA_CMD_IDENTIFY in
  let* status := in8 (ata_io_base c + ATA_REG_STATUS) in
  if status =? 0 then
    io_ret ([TStr "ATA: no drive present on "; TStr label; TLn " master"], false)
  else
    let* _ := ata_wait_bsy c in
    let* mid := in8 (ata_io_base c + ATA_REG_LBA_MID) in
    let* nonstd :=
      (if negb (mid =? 0) then io_ret true
       else let* high := in8 (ata_io_base c + ATA_REG_LBA_HIGH) in io_ret (negb (high =? 0))) in
    if nonstd : bool then
      io_ret ([TStr "ATA: "; TStr label; TLn " master is not a standard ATA drive"], false)
    else
      let* ok := ata_wait_drq c in
      if negb ok then
        io_ret ([TStr "ATA: IDENTIFY command failed on "; TStr label; TLn ""], false)
      else
        let* identify_data := io_for 256 0 (fun _ => in16 (ata_io_base c + ATA_REG_DATA)) in
        let total_sectors :=
          Z.lor (u32 (Z.shiftl (byte_at identify_data 61) 16)) (byte_at identify_data 60) in
        io_ret ([TStr "ATA: "; TStr label; TStr " master detected, "; TDec total_sectors;
                 TStr " sectors ("; TDec (u32 (total_sectors * ATA_SECTOR_SIZE) / (1024 * 1024));
                 TLn " MB)"], true).

(** The channel left selected is the last one tried, whether or not it
    answered. *)
Definition ata_init : io D (list tty * channel) :=
  let* (m1, ok) := ata_try_channel primary "primary" in
  if ok : bool then io_ret (m1, primary)
  else
    let* (m2, _) := ata_try_channel secondary "secondary" in
    io_ret (m1 ++ m2, secondary).

(** The accesses shared by the two transfers: select the sector and issue the
    command. *)
Definition ata_command (c : channel) (lba cmd : Z) : io D unit :=
  let* _ := ata_wait_bsy c in
  let* _ := out8 (ata_io_base c + ATA_REG_DRIVE_HEAD) (Z.lor 224 (Z.land (Z.shiftr lba 24) 15)) in
  let* _ := ata_delay_400ns c in
  let* _ := out8 (ata_io_base c + ATA_REG_SECCOUNT) 1 in
  let* _ := out8 (ata_io_base c + ATA_REG_LBA_LOW) (u8 (Z.land lba 255)) in
  let* _ := out8 (ata_io_base c + ATA_REG_LBA_MID) (u8 (Z.land (Z.shiftr lba 8) 255)) in
  let* _ := out8 (ata_io_base c + ATA_REG_LBA_HIGH) (u8 (Z.land (Z.shiftr lba 16) 255)) in
  let* _ := out8 (ata_io_base c + ATA_REG_COMMAND) cmd in
  ata_wait_bsy c.

Definition ata_read (c : channel) (lba : Z) : io D (list tty * option (list Z)) :=
  let* _ := ata_command c lba ATA_CMD_READ_SECTORS in
  let* ok := ata_wait_drq c in
  if negb ok then io_ret ([TStr "ATA: read error at LBA "; TDec lba; TLn ""], None)
  else
    let* buf16 := io_for (Z.to_nat (ATA_SECTOR_SIZE / 2)) 0 (fun _ => in16 (ata_io_base c + ATA_REG_DATA)) in
    io_ret ([], Some (bytes_of buf16)).

Definition ata_write (c : channel) (lba : Z) (buffer : list Z) : io D (list tty * bool) :=
  let* _ := ata_command c lba ATA_CMD_WRITE_SECTORS in
  let* ok := ata_wait_drq c in
  if negb ok then io_ret ([TStr "ATA: write error at LBA "; TDec lba; TLn ""], false)
  else
    let* _ := io_each (take (Z.to_nat (ATA_SECTOR_SIZE / 2)) (words_of buffer))
                (fun w => out16 (ata_io_base c + ATA_REG_DATA) w) in
    let* _ := out8 (ata_io_base c + ATA_REG_COMMAND) ATA_CMD_CACHE_FLUSH in
    let* _ := ata_wait_bsy c in
    io_ret ([], true).
End Driver.

(** ** What the driver relies on of a drive *)

(** Where the drive is in a command: [Busy n k] answers [n + 1] more status
    reads with the busy bit and then continues as [k]. *)
Inductive phase :=
| Idle
| Failed
| Busy (n : nat) (k : phase)
| DataIn (ws : list Z)
| DataOut (lba : Z) (ws : list Z).

Definition after (n : nat) (k : phase) : phase :=
  match n with O => k | S m => Busy m k end.

(** The task file, the sectors, and whether the write cache holds data that
    is not on the medium yet. *)
Record ata_view := mk_view {
  v_count : Z; v_low : Z; v_mid : Z; v_high : Z; v_head : Z;
  v_phase : phase; v_disk : image; v_dirty : bool }.

Definition set_phase (v : ata_view) (p : phase) : ata_view :=
  mk_view (v_count v) (v_low v) (v_mid v) (v_high v) (v_head v) p (v_disk v) (v_dirty v).
Definition set_store (v : ata_view) (d : image) (dirty : bool) : ata_view :=
  mk_view (v_count v) (v_low v) (v_mid v) (v_high v) (v_head v) (v_phase v) d dirty.

Definition set_reg (r x : Z) (v : ata_view) : ata_view :=
  let '(mk_view c l m h d p i y) := v in
  if r =? ATA_REG_SECCOUNT then mk_view x l m h d p i y
  else if r =? ATA_REG_LBA_LOW then mk_view c x m h d p i y
  else if r =? ATA_REG_LBA_MID then mk_view c l x h d p i y
  else if r =? ATA_REG_LBA_HIGH then mk_view c l m x d p i y
  else if r =? ATA_REG_DRIVE_HEAD then mk_view c l m h x p i y
  else v.

(** The sector the task file selects, in LBA mode. *)
Definition v_lba (v : ata_view) : Z :=
  v_low v + 256 * v_mid v + 65536 * v_high v + 16777216 * Z.land (v_head v) 15.

Definition accepts (v : ata_view) : Prop := v_phase v = Idle \/ v_phase v = Failed.

(** A single-sector command in LBA mode addressed to the master. *)
Definition one_sector (v : ata_view) : Prop :=
  v_count v = 1 /\ flag (v_head v) 64 = true /\ flag (v_head v) 16 = false.

(** What a read or write command leads to, after the busy time. *)
Definition read_phase (v : ata_view) : phase :=
  match ata_read_sector (v_disk v) (v_lba v) with
  | Some b => DataIn (words_of b)
  | None => Failed
  end.
Definition write_phase (v : ata_view) : phase :=
  match ata_read_sector (v_disk v) (v_lba v) with
  | Some _ => DataOut (v_lba v) []
  | None => Failed
  end.

Class AtaDrive (D : Type) `{Ports D} (c : channel) := {
  ata_view_of : D -> ata_view;
  busy_bound : nat;
  (* the alternate status register has no side effect *)
  ata_alt d : ata_view_of (inb d (ata_control_base c)).2 = ata_view_of d;
  (* a drive that is not executing a command latches the task file *)
  ata_reg d r x : 2 <= r <= 6 -> accepts (ata_view_of d) ->
    ata_view_of (outb d (ata_io_base c + r) x) = set_reg r x (ata_view_of d);
  ata_busy d n k : v_phase (ata_view_of d) = Busy n k ->
    flag (inb d (ata_io_base c + 7)).1 ATA_SR_BSY = true /\
    ata_view_of (inb d (ata_io_base c + 7)).2 = set_phase (ata_view_of d) (after n k);
  ata_settled d : (forall n k, v_phase (ata_view_of d) <> Busy n k) ->
    flag (inb d (ata_io_base c + 7)).1 ATA_SR_BSY = false /\
    ata_view_of (inb d (ata_io_base c + 7)).2 = ata_view_of d;
  ata_err d : v_phase (ata_view_of d) = Failed -> flag (inb d (ata_io_base c + 7)).1 ATA_SR_ERR = true;
  ata_drq d : (exists ws, v_phase (ata_view_of d) = DataIn ws) \/
    (exists lba ws, v_phase (ata_view_of d) = DataOut lba ws) ->
    flag (inb d (ata_io_base c + 7)).1 ATA_SR_ERR = false /\
    flag (inb d (ata_io_base c + 7)).1 ATA_SR_DRQ = true;
  ata_cmd_read d : accepts (ata_view_of d) -> one_sector (ata_view_of d) ->
    exists n, (n <= busy_bound)%nat /\
      ata_view_of (outb d (ata_io_base c + 7) ATA_CMD_READ_SECTORS)
        = set_phase (ata_view_of d) (after n (read_phase (ata_view_of d)));
  ata_cmd_write d : accepts (ata_view_of d) -> one_sector (ata_view_of d) ->
    exists n, (n <= busy_bound)%nat /\
      ata_view_of (outb d (ata_io_base c + 7) ATA_CMD_WRITE_SECTORS)
        = set_phase (ata_view_of d) (after n (write_phase (ata_view_of d)));
  ata_data_in d w ws : v_phase (ata_view_of d) = DataIn (w :: ws) ->
    (inw d (ata_io_base c + 0)).1 = w /\
    ata_view_of (inw d (ata_io_base c + 0)).2
      = set_phase (ata_view_of d) (if ws is [] then Idle else DataIn ws);
  ata_data_out d lba ws w : v_phase (ata_view_of d) = DataOut lba ws -> (length ws < 255)%nat ->
    ata_view_of (outw d (ata_io_base c + 0) w) = set_phase (ata_view_of d) (DataOut lba (ws ++ [w]));
  ata_data_last d lba ws w : v_phase (ata_view_of d) = DataOut lba ws -> length ws = 255%nat ->
    exists n, (n <= busy_bound)%nat /\
      ata_view_of (outw d (ata_io_base c + 0) w)
        = set_phase (set_store (ata_view_of d)
            (<[Z.to_nat lba := bytes_of (ws ++ [w])]> (v_disk (ata_view_of d))) true) (after n Idle);
  (* a drive that is still busy ignores the command register *)
  ata_cmd_busy d x n k : v_phase (ata_view_of d) = Busy n k ->
    ata_view_of (outb d (ata_io_base c + 7) x) = ata_view_of d;
  ata_cmd_flush d : accepts (ata_view_of d) ->
    exists n, (n <= busy_bound)%nat /\
      ata_view_of (outb d (ata_io_base c + 7) ATA_CMD_CACHE_FLUSH)
        = set_phase (set_store (ata_view_of d) (v_disk (ata_view_of d)) false) (after n Idle);
  (* the registers read back, and IDENTIFY reports the number of sectors *)
  ata_mid d : (inb d (ata_io_base c + 4)).1 = v_mid (ata_view_of d) /\
    ata_view_of (inb d (ata_io_base c + 4)).2 = ata_view_of d;
  ata_high d : (inb d (ata_io_base c + 5)).1 = v_high (ata_view_of d) /\
    ata_view_of (inb d (ata_io_base c + 5)).2 = ata_view_of d;
  ata_cmd_identify d : accepts (ata_view_of d) -> Z.of_nat (length (v_disk (ata_view_of d))) < 2 ^ 28 ->
    exists n ws, (n <= busy_bound)%nat /\ length ws = 256%nat /\
      le16 (byte_at ws 60) 0 + 65536 * byte_at ws 61 = Z.of_nat (length (v_disk (ata_view_of d))) /\
      is_u16 (byte_at ws 60) /\ is_u16 (byte_at ws 61) /\
      ata_view_of (outb d (ata_io_base c + 7) ATA_CMD_IDENTIFY)
        = set_phase (ata_view_of d) (after n (DataIn ws)) }.

(** ** Words and bytes *)
Lemma words_of_bytes_of ws : Forall is_u16 ws -> words_of (bytes_of ws) = ws.
Proof.
  induction 1 as [|w ws Hw _ IH]; [done|]. unfold bytes_of. cbn [map].
  rewrite join_cons. unfold put_le16 at 1. cbn [app words_of]. rewrite le16_put by done.
  f_equal. exact IH.
Qed.

Lemma length_words_of n l : length l = (2 * n)%nat -> length (words_of l) = n.
Proof.
  revert l. induction n as [|n IH]; intros l Hl; [by destruct l|].
  destruct l as [|b0 [|b1 l]]; cbn in Hl; [lia..|]. cbn. f_equal. apply IH. lia.
Qed.

Lemma bytes_of_words_of n l : length l = (2 * n)%nat -> Forall is_byte l -> bytes_of (words_of l) = l.
Proof.
  revert l. induction n as [|n IH]; intros l Hl Hb; [by destruct l|].
  destruct l as [|b0 [|b1 l]]; cbn in Hl; [lia..|]. inversion_clear Hb as [|?? H0 Hb']. inversion_clear Hb' as [|?? H1 Hb].
  unfold bytes_of. cbn [words_of map]. rewrite join_cons. unfold put_le16, le16, is_byte in *. cbn [app].
  replace ((b0 + 256 * b1) mod 256) with b0 by dlia.
  replace ((b0 + 256 * b1) / 256 mod 256) with b1 by dlia.
  do 2 f_equal. apply IH; [lia|done].
Qed.

Lemma sector_words b : is_sector b -> length (words_of b) = 256%nat /\ bytes_of (words_of b) = b.
Proof.
  intros [Hl Hb]. split; [by apply length_words_of|]. by apply (bytes_of_words_of 256).
Qed.

Lemma flag_nonzero s m : flag s m = true -> s <> 0.
Proof. intros Hf ->. unfold flag in Hf. by rewrite Z.land_0_l in Hf. Qed.

(** ** Selecting a sector *)
Definition select (lba : Z) (v : ata_view) : ata_view :=
  mk_view 1 (lba mod 256) (lba / 256 mod 256) (lba / 65536 mod 256) (224 + lba / 16777216 mod 16)
    (v_phase v) (v_disk v) (v_dirty v).

Lemma head_bits x : 0 <= x < 16 ->
  Z.lor 224 x = 224 + x /\ Z.land (224 + x) 15 = x /\
  flag (224 + x) 64 = true /\ flag (224 + x) 16 = false.
Proof.
  intros Hx. assert (x = 0 \/ x = 1 \/ x = 2 \/ x = 3 \/ x = 4 \/ x = 5 \/ x = 6 \/ x = 7 \/
    x = 8 \/ x = 9 \/ x = 10 \/ x = 11 \/ x = 12 \/ x = 13 \/ x = 14 \/ x = 15) as Hc by lia.
  repeat destruct Hc as [->|Hc]; try done. by subst.
Qed.

Lemma lba_field lba k n : 0 <= k -> 0 <= n ->
  Z.land (Z.shiftr lba k) (Z.ones n) = lba / 2 ^ k mod 2 ^ n.
Proof. intros. rewrite Z.land_ones, Z.shiftr_div_pow2 by lia. done. Qed.

Lemma select_one_sector lba v : one_sector (select lba v).
Proof.
  unfold one_sector, select. cbn. assert (H : 0 <= lba / 16777216 mod 16 < 16) by dlia.
  by destruct (head_bits _ H) as (_ & _ & ? & ?).
Qed.

Lemma select_lba lba v : v_lba (select lba v) = lba mod 2 ^ 28.
Proof.
  unfold v_lba, select. cbn [v_low v_mid v_high v_head].
  assert (H : 0 <= lba / 16777216 mod 16 < 16) by dlia.
  destruct (head_bits _ H) as (_ & -> & _). change (2 ^ 28) with 268435456. dlia.
Qed.

Section Protocol.
Context {D : Type} `{HP : Ports D} (c : channel) `{HA : !AtaDrive D c} (fuel : nat).
Context (Hfuel : (busy_bound < fuel)%nat).
Implicit Types (d : D) (v : ata_view).

Local Abbreviation view := ata_view_of.

#[local] Instance is_busy_dec p : Decision (exists n k, p = Busy n k).
Proof. destruct p as [| |n k| |]; (left; by eauto) || (right; naive_solver). Defined.

Fixpoint settle (p : phase) : phase :=
  match p with Busy _ k => settle k | _ => p end.
Fixpoint busy_left (p : phase) : nat :=
  match p with Busy n k => (S n + busy_left k)%nat | _ => O end.

Lemma busy_left_after n k : (forall m k', k <> Busy m k') -> busy_left (after n k) = n.
Proof.
  intros Hk. destruct k as [| |m k'| |]; [..|by destruct (Hk m k')| |]; destruct n; cbn; lia.
Qed.
Lemma settle_after n k : settle (after n k) = settle k.
Proof. by destruct n. Qed.

Lemma wait_bsy_spec d : (busy_left (v_phase (view d)) < fuel)%nat ->
  wp (ata_wait_bsy fuel c) d (fun _ d' => view d' = set_phase (view d) (settle (v_phase (view d)))).
Proof.
  intros Hl. unfold ata_wait_bsy.
  apply (wp_while _ (fun d' => busy_left (v_phase (view d')))
    (fun d' => set_phase (view d') (settle (v_phase (view d'))) = set_phase (view d) (settle (v_phase (view d))))); [|done|done].
  intros d' Hd'. io_step. io_step. io_step. change ATA_REG_STATUS with 7.
  destruct (decide (exists n k, v_phase (view d') = Busy n k)) as [(n & k & E)|Hn].
  - destruct (ata_busy d' n k E) as [-> ->]. cbn [set_phase v_phase].
    rewrite <- Hd', E. split; [by rewrite settle_after|]. destruct n; cbn; lia.
  - destruct (ata_settled (c := c) d') as [-> ->]; [naive_solver|]. rewrite <- Hd'.
    destruct (view d') as [? ? ? ? ? ph ? ?]. cbn in *. by destruct ph; [..|destruct Hn; eauto| |].
Qed.

Lemma wait_drq_ok d :
  (exists ws, v_phase (view d) = DataIn ws) \/ (exists lba ws, v_phase (view d) = DataOut lba ws) ->
  wp (ata_wait_drq fuel c) d (fun ok d' => ok = true /\ view d' = view d).
Proof.
  intros Hp. unfold ata_wait_drq. destruct fuel as [|k]; [lia|]. cbn [wait_drq].
  destruct (ata_drq (c := c) d Hp) as [He Hr].
  io_step. io_step. change ATA_REG_STATUS with 7. rewrite He, Hr. io_step.
  split; [done|]. apply ata_settled. intros n k'. destruct Hp as [[? ->]|(? & ? & ->)]; done.
Qed.

Lemma wait_drq_failed d : v_phase (view d) = Failed ->
  wp (ata_wait_drq fuel c) d (fun ok d' => ok = false /\ view d' = view d).
Proof.
  intros Hp. unfold ata_wait_drq. destruct fuel as [|k]; [lia|]. cbn [wait_drq].
  io_step. io_step. change ATA_REG_STATUS with 7. rewrite (ata_err (c := c) d Hp). io_step.
  split; [done|]. apply ata_settled. by rewrite Hp.
Qed.

Lemma delay_spec d : wp (ata_delay_400ns c) d (fun _ d' => view d' = view d).
Proof.
  unfold ata_delay_400ns. io_step. cbn [io_for]. repeat io_step.
  by rewrite !(ata_alt (c := c)).
Qed.

Lemma set_phase_id v : set_phase v (v_phase v) = v.
Proof. by destruct v. Qed.

Lemma wait_bsy_ready d : accepts (view d) ->
  wp (ata_wait_bsy fuel c) d (fun _ d' => view d' = view d).
Proof.
  intros Ha. eapply wp_mono; [apply wait_bsy_spec; destruct Ha as [-> | ->]; cbn; lia|].
  intros [] d'. cbn beta. intros ->. rewrite <- (set_phase_id (view d)) at 3.
  by destruct Ha as [-> | ->].
Qed.

(** Waiting out the busy time of a command that was just accepted. *)
Lemma wait_bsy_after d v n k : view d = set_phase v (after n k) -> (n <= busy_bound)%nat ->
  (forall m k', k <> Busy m k') -> wp (ata_wait_bsy fuel c) d (fun _ d' => view d' = set_phase v k).
Proof.
  intros Hv Hn Hk. eapply wp_mono.
  - apply wait_bsy_spec. rewrite Hv. cbn [set_phase v_phase]. rewrite busy_left_after by done. lia.
  - intros [] d'. cbn beta. intros ->. rewrite Hv. cbn [set_phase v_phase]. rewrite settle_after.
    destruct k as [| |m k'| |]; try done. by destruct (Hk m k').
Qed.

(** A register write, as one step. *)
Lemma out_reg d r x Q : 2 <= r <= 6 -> accepts (view d) ->
  (forall d', view d' = set_reg r x (view d) -> Q tt d') -> wp (out8 (ata_io_base c + r) x) d Q.
Proof. intros Hr Ha HQ. io_step. apply HQ. by apply ata_reg. Qed.

Lemma set_reg_accepts r x v : accepts (set_reg r x v) <-> accepts v.
Proof. destruct v as [cc l m h e p i y]. unfold set_reg. by repeat case_if. Qed.

Lemma command_spec d lba cmd (ph : ata_view -> phase) :
  accepts (view d) -> (forall v m k, ph v <> Busy m k) ->
  (forall d, accepts (view d) -> one_sector (view d) ->
     exists n, (n <= busy_bound)%nat /\
       view (outb d (ata_io_base c + 7) cmd) = set_phase (view d) (after n (ph (view d)))) ->
  wp (ata_command fuel c lba cmd) d
    (fun _ d' => view d' = set_phase (select lba (view d)) (ph (select lba (view d)))).
Proof.
  intros Ha Hph Hcmd. unfold ata_command.
  io_step. eapply wp_mono; [by apply wait_bsy_ready|]. intros [] d0 H0. cbn beta in *.
  io_step. apply out_reg; [cbv; split; discriminate|by rewrite H0|]. intros d1 H1.
  io_step. eapply wp_mono; [apply delay_spec|]. intros [] d2 H2. cbn beta in H2. rewrite H1, H0 in H2.
  io_step. apply out_reg; [cbv; split; discriminate|by rewrite H2, set_reg_accepts|]. intros d3 H3. rewrite H2 in H3.
  io_step. apply out_reg; [cbv; split; discriminate|by rewrite H3, !set_reg_accepts|]. intros d4 H4. rewrite H3 in H4.
  io_step. apply out_reg; [cbv; split; discriminate|by rewrite H4, !set_reg_accepts|]. intros d5 H5. rewrite H4 in H5.
  io_step. apply out_reg; [cbv; split; discriminate|by rewrite H5, !set_reg_accepts|]. intros d6 H6. rewrite H5 in H6.
  assert (Hs : view d6 = select lba (view d)).
  { rewrite H6. clear. destruct (view d) as [cc l m h e p i y]. unfold select, u8.
    change 255 with (Z.ones 8). change 15 with (Z.ones 4).
    rewrite !lba_field, Z.land_ones by lia.
    assert (H : 0 <= lba / 16777216 mod 16 < 16) by dlia.
    change (2 ^ 24) with 16777216. change (2 ^ 4) with 16. change (2 ^ 8) with 256. change (2 ^ 16) with 65536.
    destruct (head_bits _ H) as (-> & _). rewrite !Zmod_mod. done. }
  clear H0 H1 H2 H3 H4 H5 H6. io_step. io_step.
  destruct (Hcmd d6) as (n & Hn & Hv); [by rewrite Hs|rewrite Hs; apply select_one_sector|].
  rewrite Hs in Hv. by apply wait_bsy_after with n.
Qed.

(** ** The data phases *)
Lemma read_words d v ws : view d = set_phase v (DataIn ws) -> ws <> [] ->
  wp (io_for (length ws) 0 (fun _ => in16 (ata_io_base c + ATA_REG_DATA))) d
    (fun l d' => l = ws /\ view d' = set_phase v Idle).
Proof.
  intros Hv Hne. eapply wp_mono.
  - apply (wp_for _ (fun acc d' => exists rest, ws = acc ++ rest /\
      view d' = set_phase v (if rest is [] then Idle else DataIn rest)) _ 0 []); [|by exists ws; destruct ws|done|done].
    intros i acc d' (rest & -> & Hd') Hi Hl. destruct rest as [|w rest]; [rewrite app_nil_r in Hi; lia|].
    io_step. change ATA_REG_DATA with 0.
    destruct (ata_data_in (c := c) d' w rest) as [-> ->]; [by rewrite Hd'|].
    exists rest. rewrite <- app_assoc. split; [done|]. by rewrite Hd'.
  - intros l d' [(rest & Hl & Hd') Hlen]. cbn [app] in Hl. assert (rest = []) as ->.
    { apply length_zero_iff_nil. rewrite Hl, length_app in Hlen. lia. }
    by rewrite app_nil_r in Hl.
Qed.

Lemma write_words d v lba ws : view d = set_phase v (DataOut lba []) -> length ws = 256%nat ->
  wp (io_each ws (fun w => out16 (ata_io_base c + ATA_REG_DATA) w)) d
    (fun _ d' => exists n, (n <= busy_bound)%nat /\
       view d' = set_phase (set_store v (<[Z.to_nat lba := bytes_of ws]> (v_disk v)) true) (after n Idle)).
Proof.
  intros Hv Hlen. eapply wp_mono.
  - apply (wp_each _ (fun p d' => if decide (length p < 256)%nat then view d' = set_phase v (DataOut lba p)
      else exists n, (n <= busy_bound)%nat /\
        view d' = set_phase (set_store v (<[Z.to_nat lba := bytes_of p]> (v_disk v)) true) (after n Idle)) _ []); [|done].
    intros p w r d' Hpw. assert (length p < 256)%nat by (cbn in Hpw; rewrite Hpw, length_app in Hlen; cbn in Hlen; lia).
    rewrite decide_True by done. intros Hd'. io_step. rewrite length_app. cbn [length].
    assert (Hp : v_phase (view d') = DataOut lba p) by (by rewrite Hd').
    change ATA_REG_DATA with 0. destruct (decide (length p = 255)%nat) as [He|He].
    + rewrite decide_False by lia. destruct (ata_data_last (c := c) d' lba p w Hp He) as (n & Hn & ->).
      exists n. by rewrite Hd'.
    + rewrite decide_True by lia. rewrite (ata_data_out (c := c) d' lba p w Hp) by lia. by rewrite Hd'.
  - intros [] d'. cbn [app]. by rewrite decide_False by lia.
Qed.

(** ** The transfers *)
Definition read_error (lba : Z) : list tty := [TStr "ATA: read error at LBA "; TDec lba; TLn ""].
Definition write_error (lba : Z) : list tty := [TStr "ATA: write error at LBA "; TDec lba; TLn ""].

Lemma select_set_phase lba v p : v_disk (set_phase (select lba v) p) = v_disk v.
Proof. done. Qed.

Lemma ata_read_spec d lba : accepts (view d) ->
  wp (ata_read fuel c lba) d (fun '(msg, r) d' =>
    r = ata_read_sector (v_disk (view d)) (lba mod 2 ^ 28) /\
    msg = (if r is None then read_error lba else []) /\
    accepts (view d') /\ v_disk (view d') = v_disk (view d) /\ v_dirty (view d') = v_dirty (view d)).
Proof.
  intros Ha. unfold ata_read. io_step. eapply wp_mono.
  { apply (command_spec d lba ATA_CMD_READ_SECTORS read_phase Ha).
    - intros v m k. unfold read_phase. by destruct (ata_read_sector _ _).
    - apply ata_cmd_read. }
  intros [] d1 H1. cbn beta in H1. set (v := select lba (view d)) in *. unfold read_phase in H1.
  rewrite (select_lba lba (view d) : v_lba v = _) in H1. change (v_disk v) with (v_disk (view d)) in H1.
  destruct (ata_read_sector (v_disk (view d)) (lba mod 2 ^ 28)) as [b|] eqn:E.
  - io_step. eapply wp_mono; [apply wait_drq_ok; left; eexists; by rewrite H1|].
    intros ok d2 [-> H2]. cbn [negb]. rewrite H1 in H2.
    assert (Hs : is_sector b) by (by eapply read_is_sector). destruct (sector_words b Hs) as [Hl Hb].
    io_step. change (Z.to_nat (ATA_SECTOR_SIZE / 2)) with 256%nat. rewrite <- Hl.
    eapply wp_mono; [apply (read_words d2 v); [done|]; by destruct (words_of b)|].
    intros ws d3 [-> H3]. io_step. rewrite H3, Hb. repeat split. by left.
  - io_step. eapply wp_mono; [apply wait_drq_failed; by rewrite H1|].
    intros ok d2 [-> H2]. cbn [negb]. io_step. rewrite H2, H1. repeat split. by right.
Qed.

Lemma ata_write_spec d lba b : accepts (view d) -> is_sector b ->
  wp (ata_write fuel c lba b) d (fun '(msg, ok) d' =>
    accepts (view d') /\
    match ata_read_sector (v_disk (view d)) (lba mod 2 ^ 28) with
    | Some _ => ok = true /\ msg = [] /\
        v_disk (view d') = <[Z.to_nat (lba mod 2 ^ 28) := b]> (v_disk (view d))
    | None => ok = false /\ msg = write_error lba /\ v_disk (view d') = v_disk (view d)
    end).
Proof.
  intros Ha Hs. unfold ata_write. io_step. eapply wp_mono.
  { apply (command_spec d lba ATA_CMD_WRITE_SECTORS write_phase Ha).
    - intros v m k. unfold write_phase. by destruct (ata_read_sector _ _).
    - apply ata_cmd_write. }
  intros [] d1 H1. cbn beta in H1. set (v := select lba (view d)) in *. unfold write_phase in H1.
  rewrite (select_lba lba (view d) : v_lba v = _) in H1. change (v_disk v) with (v_disk (view d)) in H1.
  destruct (ata_read_sector (v_disk (view d)) (lba mod 2 ^ 28)) as [b0|] eqn:E.
  - io_step. eapply wp_mono; [apply wait_drq_ok; right; do 2 eexists; by rewrite H1|].
    intros ok d2 [-> H2]. cbn [negb]. rewrite H1 in H2.
    destruct (sector_words b Hs) as [Hl Hb]. change (Z.to_nat (ATA_SECTOR_SIZE / 2)) with 256%nat.
    rewrite <- Hl, firstn_all. io_step.
    eapply wp_mono; [by apply (write_words d2 v)|]. intros [] d3 (n & Hn & H3).
    rewrite Hb in H3. change (v_disk v) with (v_disk (view d)) in H3. set (v' := set_store _ _ _) in H3.
    io_step. io_step. change ATA_REG_COMMAND with 7.
    assert (Hf : exists m y, (m <= busy_bound)%nat /\
      view (outb d3 (ata_io_base c + 7) ATA_CMD_CACHE_FLUSH) = set_phase (set_store v' (v_disk v') y) (after m Idle)).
    { destruct n as [|n].
      - destruct (ata_cmd_flush (c := c) d3) as (m & Hm & Hv); [rewrite H3; by left|].
        exists m, false. split; [done|]. by rewrite Hv, H3.
      - exists (S n), true. split; [done|]. rewrite (ata_cmd_busy (c := c) d3 _ n Idle); by rewrite H3. }
    destruct Hf as (m & y & Hm & Hf). io_step.
    eapply wp_mono; [by apply (wait_bsy_after _ _ m Idle Hf Hm)|]. intros [] d4 H4. cbn beta in H4.
    io_step. rewrite H4. repeat split. by left.
  - io_step. eapply wp_mono; [apply wait_drq_failed; by rewrite H1|].
    intros ok d2 [-> H2]. cbn [negb]. io_step. rewrite H2, H1. repeat split. by right.
Qed.

(** ** Detection *)
Definition detected (label : string) (sectors : Z) : list tty :=
  [TStr "ATA: "; TStr label; TStr " master detected, "; TDec sectors; TStr " sectors (";
   TDec (u32 (sectors * ATA_SECTOR_SIZE) / (1024 * 1024)); TLn " MB)"].

(** The first status read after IDENTIFY is not zero: the drive is busy or
    has data. *)
Lemma status_answers d v n ws : view d = set_phase v (after n (DataIn ws)) -> (n <= busy_bound)%nat ->
  (inb d (ata_io_base c + 7)).1 <> 0 /\
  exists m, (m <= busy_bound)%nat /\ view (inb d (ata_io_base c + 7)).2 = set_phase v (after m (DataIn ws)).
Proof.
  intros Hv Hn. destruct n as [|n].
  - destruct (ata_drq (c := c) d) as [_ Hd]; [left; exists ws; by rewrite Hv|].
    split; [by apply flag_nonzero in Hd|]. exists O. split; [lia|].
    destruct (ata_settled (c := c) d) as [_ ->]; [by rewrite Hv|done].
  - destruct (ata_busy d n (DataIn ws)) as [Hb ->]; [by rewrite Hv|].
    split; [by apply flag_nonzero in Hb|]. exists n. split; [lia|]. by rewrite Hv.
Qed.

Lemma identify_sectors ws : is_u16 (byte_at ws 60) -> is_u16 (byte_at ws 61) ->
  Z.lor (u32 (Z.shiftl (byte_at ws 61) 16)) (byte_at ws 60) = le16 (byte_at ws 60) 0 + 65536 * byte_at ws 61.
Proof.
  unfold is_u16, le16. intros. rewrite u32_small by (rewrite Z.shiftl_mul_pow2 by lia; unfold is_u32; lia).
  rewrite Z.shiftl_mul_pow2, lor_add by lia. lia.
Qed.

Lemma try_channel_present d label : accepts (view d) -> Z.of_nat (length (v_disk (view d))) < 2 ^ 28 ->
  wp (ata_try_channel fuel c label) d (fun '(msg, ok) d' =>
    ok = true /\ msg = detected label (Z.of_nat (length (v_disk (view d)))) /\
    accepts (view d') /\ v_disk (view d') = v_disk (view d)).
Proof.
  intros Ha Hsz. unfold ata_try_channel.
  io_step. apply out_reg; [cbv; split; discriminate|done|]. intros d1 H1.
  io_step. eapply wp_mono; [apply delay_spec|]. intros [] d2 H2. cbn beta in H2. rewrite H1 in H2.
  io_step. apply out_reg; [cbv; split; discriminate|by rewrite H2, set_reg_accepts|]. intros d3 H3. rewrite H2 in H3.
  io_step. apply out_reg; [cbv; split; discriminate|by rewrite H3, !set_reg_accepts|]. intros d4 H4. rewrite H3 in H4.
  io_step. apply out_reg; [cbv; split; discriminate|by rewrite H4, !set_reg_accepts|]. intros d5 H5. rewrite H4 in H5.
  io_step. apply out_reg; [cbv; split; discriminate|by rewrite H5, !set_reg_accepts|]. intros d6 H6. rewrite H5 in H6.
  assert (H6' : accepts (view d6) /\ v_mid (view d6) = 0 /\ v_high (view d6) = 0 /\ v_disk (view d6) = v_disk (view d)).
  { rewrite H6, !set_reg_accepts. destruct (view d). by cbn. }
  clear H1 H2 H3 H4 H5 H6. destruct H6' as (Hav & Hmid & Hhigh & Hdisk).
  io_step. io_step. destruct (ata_cmd_identify d6 Hav) as (n & ws & Hn & Hlen & Hcount & H60 & H61 & Hv); [by rewrite Hdisk|].
  change ATA_REG_COMMAND with 7. set (d7 := outb d6 _ _) in *.
  io_step. io_step. change ATA_REG_STATUS with 7.
  destruct (status_answers d7 _ n ws Hv Hn) as (Hs0 & m & Hm & Hst). rewrite (proj2 (Z.eqb_neq _ _) Hs0).
  io_step. eapply wp_mono; [apply (wait_bsy_after _ _ m _ Hst Hm); done|]. intros [] d8 H8. cbn beta in H8.
  io_step. io_step. change ATA_REG_LBA_MID with 4. destruct (ata_mid (c := c) d8) as [-> H9].
  rewrite H8. cbn [set_phase v_mid]. rewrite Hmid. cbn [Z.eqb negb]. set (d9 := (inb d8 _).2) in *.
  io_step. io_step. io_step. change ATA_REG_LBA_HIGH with 5. destruct (ata_high (c := c) d9) as [-> H10].
  rewrite H9, H8. cbn [set_phase v_high]. rewrite Hhigh. io_step. cbn [Z.eqb negb].
  io_step. eapply wp_mono; [apply wait_drq_ok; left; exists ws; by rewrite H10, H9, H8|].
  intros ok d11 [-> H11]. cbn [negb]. rewrite H10, H9, H8 in H11. io_step. rewrite <- Hlen.
  eapply wp_mono; [apply (read_words d11 (view d6)); [done|by destruct ws]|]. intros ws' d12 [-> H12]. io_step.
  rewrite H12, identify_sectors, Hcount, Hdisk by done. split; [done|]. split; [done|]. split; [by left|done].
Qed.
End Protocol.

(** A channel without a drive: its status register reads as zero, and
    accesses to it leave the rest of the machine alone. *)
Class NoDrive {D : Type} `{Ports D} (c : channel) (rest : D -> ata_view) := {
  absent_status d : (inb d (ata_io_base c + 7)).1 = 0;
  absent_in d p : p = ata_control_base c \/ p = ata_io_base c + 7 -> rest (inb d p).2 = rest d;
  absent_out d r x : 0 <= r <= 7 -> rest (outb d (ata_io_base c + r) x) = rest d }.

Lemma try_channel_absent {D} `{Ports D} fuel c rest `{!NoDrive c rest} (d : D) label :
  wp (ata_try_channel fuel c label) d (fun '(msg, ok) d' =>
    ok = false /\ msg = [TStr "ATA: no drive present on "; TStr label; TLn " master"] /\ rest d' = rest d).
Proof.
  unfold ata_try_channel, ata_delay_400ns. repeat io_step. cbn [io_for]. repeat io_step.
  change ATA_REG_STATUS with 7. rewrite absent_status. cbn [Z.eqb]. io_step.
  split; [done|]. split; [done|].
  rewrite absent_in by (by right). rewrite !absent_out by (cbv; split; discriminate).
  rewrite !absent_in by (by left). by rewrite absent_out by (cbv; split; discriminate).
Qed.

(** ** A drive

    A drive on the primary or the secondary channel that stays busy for
    [delay] status reads after every command and after the last data word. *)
Definition chan (sec : bool) : channel := if sec then secondary else primary.

Record drive (sec : bool) (delay : nat) := Drive { dv : ata_view }.
Arguments Drive {sec delay}.
Arguments dv {sec delay}.

Definition status_of (p : phase) : Z :=
  match p with
  | Busy _ _ => 128
  | Failed => 65
  | Idle => 64
  | DataIn _ | DataOut _ _ => 72
  end.

Definition identify_words (sectors : Z) : list Z :=
  replicate 60 0 ++ [sectors mod 65536; sectors / 65536] ++ replicate 194 0.

Definition accepting (v : ata_view) : bool :=
  match v_phase v with Idle | Failed => true | _ => false end.

Definition drive_command (delay : nat) (v : ata_view) (x : Z) : ata_view :=
  if negb (accepting v) then v
  else if x =? ATA_CMD_READ_SECTORS then set_phase v (after delay (read_phase v))
  else if x =? ATA_CMD_WRITE_SECTORS then set_phase v (after delay (write_phase v))
  else if x =? ATA_CMD_CACHE_FLUSH then set_phase (set_store v (v_disk v) false) (after delay Idle)
  else if x =? ATA_CMD_IDENTIFY then
    set_phase v (after delay (DataIn (identify_words (Z.of_nat (length (v_disk v))))))
  else v.

#[export] Instance drive_ports sec delay : Ports (drive sec delay) := {
  inb d p :=
    let v := dv d in
    let r := p - ata_io_base (chan sec) in
    if r =? 7 then
      (status_of (v_phase v),
       Drive (if v_phase v is Busy n k then set_phase v (after n k) else v))
    else if r =? 4 then (v_mid v, d)
    else if r =? 5 then (v_high v, d)
    else (0, d);
  outb d p x :=
    let v := dv d in
    let r := p - ata_io_base (chan sec) in
    if r =? 7 then Drive (drive_command delay v x)
    else if accepting v then Drive (set_reg r x v) else d;
  inw d p :=
    let v := dv d in
    if p =? ata_io_base (chan sec) then
      match v_phase v with
      | DataIn (w :: ws) => (w, Drive (set_phase v (if ws is [] then Idle else DataIn ws)))
      | _ => (0, d)
      end
    else (0, d);
  outw d p x :=
    let v := dv d in
    if p =? ata_io_base (chan sec) then
      match v_phase v with
      | DataOut lba ws =>
          Drive (if (length ws =? 255)%nat
                 then set_phase (set_store v (<[Z.to_nat lba := bytes_of (ws ++ [x])]> (v_disk v)) true)
                        (after delay Idle)
                 else set_phase v (DataOut lba (ws ++ [x])))
      | _ => d
      end
    else d;
  inl d p := (0, d);
  outl d p x := d }.

Lemma accepting_spec v : accepts v <-> accepting v = true.
Proof. unfold accepts, accepting. destruct (v_phase v); naive_solver. Qed.

Lemma chan_sub sec r : ata_io_base (chan sec) + r - ata_io_base (chan sec) = r.
Proof. lia. Qed.

#[export] Instance drive_ata sec delay : AtaDrive (drive sec delay) (chan sec).
Proof.
  refine {| ata_view_of := dv; busy_bound := delay |}; cbn [inb outb inw outw drive_ports];
    intros d; rewrite ?chan_sub; cbn [Z.eqb Pos.eqb].
  - by destruct sec.
  - intros r x Hr Ha%accepting_spec. rewrite chan_sub. destruct (Z.eqb_spec r 7); [lia|]. by rewrite Ha.
  - intros n k Hp. by rewrite Hp.
  - intros Hp. destruct (v_phase (dv d)) as [| |n k| |]; try done. by destruct (Hp n k).
  - intros Hp. by rewrite Hp.
  - by intros [(ws & ->)|(lba & ws & ->)].
  - intros Ha%accepting_spec _. exists delay. split; [done|]. unfold drive_command. by rewrite Ha.
  - intros Ha%accepting_spec _. exists delay. split; [done|]. unfold drive_command. by rewrite Ha.
  - intros w ws Hp. rewrite Z.add_0_r, Z.eqb_refl. by rewrite Hp.
  - intros lba ws w Hp Hl. rewrite Z.add_0_r, Z.eqb_refl, Hp. by rewrite (proj2 (Nat.eqb_neq _ _)) by lia.
  - intros lba ws w Hp Hl. exists delay. split; [done|].
    rewrite Z.add_0_r, Z.eqb_refl, Hp. by rewrite (proj2 (Nat.eqb_eq _ _)) by lia.
  - intros x n k Hp. unfold drive_command, accepting. by rewrite Hp.
  - intros Ha%accepting_spec. exists delay. split; [done|]. unfold drive_command. by rewrite Ha.
  - done.
  - done.
  - intros Ha%accepting_spec Hsz. set (n := Z.of_nat _) in *. exists delay, (identify_words n). split; [done|].
    unfold identify_words, drive_command. rewrite Ha. cbn [byte_at]. unfold is_u16, le16.
    change (byte_at _ 60) with (n mod 65536). change (byte_at _ 61) with (n / 65536).
    assert (0 <= n < 268435456) by lia. repeat split; try done; try dlia.
Defined.

#[export] Instance drive_absent delay : NoDrive (D := drive true delay) primary dv.
Proof.
  split; cbn [inb outb drive_ports chan].
  - done.
  - by intros d p [-> | ->].
  - intros d r x Hr. change (ata_io_base primary + r - ata_io_base secondary) with (496 + r - 368).
    unfold set_reg, ATA_REG_SECCOUNT, ATA_REG_LBA_LOW, ATA_REG_LBA_MID, ATA_REG_LBA_HIGH, ATA_REG_DRIVE_HEAD.
    rewrite !(proj2 (Z.eqb_neq _ _)) by lia. destruct d as [[]]. cbn. by destruct (accepting _).
Qed.

(** ** The block device the driver provides *)
Section BlockDevice.
Context {D : Type} `{HP : Ports D} (c : channel) `{HA : !AtaDrive D c}.

(** C13: Over any drive that follows the ATA protocol and is between commands,
    with sectors below 2^28 and enough polls for its busy time, the driver is
    the block device of the disk's image: a read returns the sector and
    changes nothing, or reports the error at that address when the drive
    cannot serve it; a write of a sector succeeds exactly when the image's
    write does and leaves the disk equal to it.  Both return (the polling
    loops end) with the drive ready for the next command. *)
Theorem ata_refines_image (d : D) fuel lba b :
  accepts (ata_view_of d) -> Forall is_sector (v_disk (ata_view_of d)) ->
  0 <= lba < 2 ^ 28 -> (busy_bound < fuel)%nat -> is_sector b ->
  wp (ata_read fuel c lba) d (fun '(msg, r) d' =>
    r = ata_read_sector (v_disk (ata_view_of d)) lba /\
    msg = (if r is None then read_error lba else []) /\
    accepts (ata_view_of d') /\ v_disk (ata_view_of d') = v_disk (ata_view_of d)) /\
  wp (ata_write fuel c lba b) d (fun '(msg, ok) d' =>
    (if ok : bool then Some (v_disk (ata_view_of d')) else None)
      = ata_write_sector (v_disk (ata_view_of d)) lba b /\
    msg = (if ok then [] else write_error lba) /\
    accepts (ata_view_of d') /\ Forall is_sector (v_disk (ata_view_of d'))).
Proof.
  intros Ha Hd Hl Hf Hb. assert (Hm : lba mod 2 ^ 28 = lba) by (apply Z.mod_small; lia). split.
  - eapply wp_mono; [by apply ata_read_spec|]. intros [msg r] d'. rewrite Hm. tauto.
  - eapply wp_mono; [by apply ata_write_spec|]. intros [msg ok] d'. rewrite Hm.
    cbn [ata_read_sector ata_write_sector image_device].
    rewrite (proj2 (Z.ltb_ge lba 0)), (proj2 (Z.leb_le 0 lba)) by lia.
    rewrite (proj2 (sector_ok_spec b) Hb), andb_true_r. cbn [andb].
    destruct (v_disk (ata_view_of d) !! Z.to_nat lba) as [b0|] eqn:E.
    + assert (is_sector b0) as Hb0%sector_ok_spec by (eapply Forall_lookup in Hd; eauto). rewrite Hb0.
      apply lookup_lt_Some in E. rewrite (proj2 (Z.ltb_lt lba _)) by lia.
      intros (? & -> & -> & ->). repeat split; try done. by apply Forall_insert.
    + apply lookup_ge_None in E. rewrite (proj2 (Z.ltb_ge lba _)) by lia. by intros (? & -> & -> & ->).
Qed.

(** A drive between commands, as the file system sees it: transfers of whole
    sectors at 28-bit addresses. *)
Definition attached : Type := { d : D | accepts (ata_view_of d) }.

#[local] Instance accepts_dec v : Decision (accepts v).
Proof. refine (cast_if (decide (accepting v = true))); by rewrite accepting_spec. Defined.

Definition polls : nat := S busy_bound.

Definition lba28 (lba : Z) : bool := (0 <=? lba) && (lba <? 2 ^ 28).

#[export] Instance attached_device : BlockDevice attached := {
  ata_read_sector x lba :=
    if lba28 lba
    then match ata_read polls c lba (`x) with OK ((_, r), _) => r | _ => None end
    else None;
  ata_write_sector x lba b :=
    if lba28 lba && sector_ok b
    then match ata_write polls c lba b (`x) with
         | OK ((_, true), d') =>
             match decide (accepts (ata_view_of d')) with left Ha => Some (d' ↾ Ha) | right _ => None end
         | _ => None
         end
    else None }.

Lemma attached_read x lba : lba28 lba = true ->
  ata_read_sector x lba = ata_read_sector (v_disk (ata_view_of (`x))) lba.
Proof.
  intros Hl. cbn [ata_read_sector attached_device]. rewrite Hl. unfold lba28 in Hl. zbool.
  destruct x as [d Ha]. cbn [proj1_sig].
  destruct (ata_read_spec c polls ltac:(unfold polls; lia) d lba Ha) as ([msg r] & d' & -> & -> & _).
  rewrite Z.mod_small by lia. done.
Qed.

Lemma attached_write x x' lba b : ata_write_sector x lba b = Some x' ->
  lba28 lba = true /\ is_sector b /\ is_Some (ata_read_sector (v_disk (ata_view_of (`x))) lba) /\
  v_disk (ata_view_of (`x')) = <[Z.to_nat lba := b]> (v_disk (ata_view_of (`x))).
Proof.
  cbn [ata_write_sector attached_device]. destruct (lba28 lba) eqn:Hl; [|done].
  destruct (sector_ok b) eqn:Hb; [|done]. apply sector_ok_spec in Hb. cbn [andb].
  unfold lba28 in Hl. zbool. destruct x as [d Ha]. cbn [proj1_sig].
  destruct (ata_write_spec c polls ltac:(unfold polls; lia) d lba b Ha Hb) as ([msg ok] & d' & -> & Ha' & Hr).
  rewrite (Z.mod_small lba) in Hr by lia.
  destruct (ata_read_sector _ lba) eqn:E; destruct Hr as (-> & _ & Hd'); [|done].
  destruct (decide _); [|done]. intros [= <-]. by split_and!.
Qed.

(** The driver is a block device in the sense the file system needs. *)
#[export] Instance attached_laws : BlockDeviceLaws attached.
Proof.
  split.
  - intros x lba b. destruct (lba28 lba) eqn:Hl.
    + rewrite attached_read by done. apply read_is_sector.
    + cbn [ata_read_sector attached_device]. by rewrite Hl.
  - intros x x' lba b Hb (Hl & _ & [b0 H0] & Hd)%attached_write. rewrite attached_read by done.
    rewrite Hd. apply write_read_same with (v_disk (ata_view_of (`x))); [done|]. revert H0. cbn [ata_read_sector ata_write_sector image_device].
    unfold lba28 in Hl. zbool. rewrite (proj2 (Z.ltb_ge lba 0)) by lia. destruct (_ !! _) eqn:E; [|done].
    intros _. apply lookup_lt_Some in E. apply sector_ok_spec in Hb. rewrite Hb.
    rewrite (proj2 (Z.leb_le 0 lba)), (proj2 (Z.ltb_lt lba _)) by lia. done.
  - intros x x' lba lba' b Hne (Hl & Hb & _ & Hd)%attached_write. destruct (lba28 lba') eqn:Hl'.
    + rewrite !attached_read by done. rewrite Hd. cbn [ata_read_sector image_device].
      unfold lba28 in *. zbool. by rewrite list_lookup_insert_ne by lia.
    + cbn [ata_read_sector attached_device]. by rewrite Hl'.
Qed.
End BlockDevice.

(** Detection on a machine whose only drive is the master of the secondary
    channel: the driver reports that the primary channel is empty, selects the
    secondary one and prints the drive's size.  The disk is not changed and
    the drive is ready. *)
Theorem ata_init_selects {D} `{Ports D} (d : D) fuel `{A2 : !AtaDrive D secondary} :
  NoDrive (D := D) primary (ata_view_of (c := secondary)) ->
  accepts (ata_view_of (c := secondary) d) ->
  Z.of_nat (length (v_disk (ata_view_of (c := secondary) d))) < 2 ^ 28 ->
  (busy_bound (c := secondary) < fuel)%nat ->
  wp (ata_init fuel) d (fun '(msg, ch) d' =>
    ch = secondary /\
    msg = [TStr "ATA: no drive present on "; TStr "primary"; TLn " master"]
          ++ detected "secondary" (Z.of_nat (length (v_disk (ata_view_of (c := secondary) d)))) /\
    accepts (ata_view_of (c := secondary) d') /\
    v_disk (ata_view_of (c := secondary) d') = v_disk (ata_view_of (c := secondary) d)).
Proof.
  intros Hn Ha Hs Hf. unfold ata_init. io_step.
  eapply wp_mono; [apply (try_channel_absent fuel primary _ d)|]. intros [m1 ok] d1 (-> & -> & H1).
  io_step. eapply wp_mono; [apply (try_channel_present secondary fuel); by rewrite ?H1|].
  intros [m2 ok] d2 (-> & -> & Ha2 & Hd2). io_step. rewrite <- H1. done.
Qed.

(** The other case: the primary channel has the drive. *)
Lemma ata_init_primary {D} `{Ports D} (d : D) fuel `{A1 : !AtaDrive D primary} :
  accepts (ata_view_of (c := primary) d) -> Z.of_nat (length (v_disk (ata_view_of (c := primary) d))) < 2 ^ 28 ->
  (busy_bound (c := primary) < fuel)%nat ->
  wp (ata_init fuel) d (fun '(msg, ch) d' =>
    ch = primary /\ msg = detected "primary" (Z.of_nat (length (v_disk (ata_view_of (c := primary) d)))) /\
    accepts (ata_view_of (c := primary) d') /\
    v_disk (ata_view_of (c := primary) d') = v_disk (ata_view_of (c := primary) d)).
Proof.
  intros Ha Hs Hf. unfold ata_init. io_step.
  eapply wp_mono; [by apply (try_channel_present primary fuel)|]. intros [m1 ok] d1 (-> & -> & H1).
  by io_step.
Qed.

(** ** Witnesses *)
Definition small_disk : image := [replicate 512 7; replicate 512 0; replicate 512 255].
Definition small_view : ata_view := mk_view 0 0 0 0 0 Idle small_disk false.

Lemma small_disk_sectors : Forall is_sector small_disk.
Proof.
  unfold small_disk. repeat (apply Forall_cons; split; [by apply sector_ok_spec; vm_compute|]). done.
Qed.

Lemma ata_refines_image_witness :
  wp (ata_read 6 primary 2) (Drive small_view : drive false 5) (fun '(_, r) _ => r = Some (replicate 512 255)) /\
  wp (ata_write 6 primary 1 (replicate 512 9)) (Drive small_view : drive false 5)
    (fun '(_, ok) d' => (if ok : bool then Some (v_disk (dv d')) else None)
       = Some [replicate 512 7; replicate 512 9; replicate 512 255]).
Proof.
  pose proof small_disk_sectors as Hs.
  assert (is_sector (replicate 512 9)) as H9 by (by apply sector_ok_spec; vm_compute).
  split.
  - destruct (ata_refines_image (chan false) (Drive small_view : drive false 5) 6 2 (replicate 512 9)) as [Hr _];
      [by left|done|lia|cbn; lia|done|].
    eapply wp_mono; [exact Hr|]. intros [msg r] d' (-> & _). vm_compute. reflexivity.
  - destruct (ata_refines_image (chan false) (Drive small_view : drive false 5) 6 1 (replicate 512 9)) as [_ Hw];
      [by left|done|lia|cbn; lia|done|].
    eapply wp_mono; [exact Hw|]. intros [msg ok] d' (Hd & _). cbn beta iota. etransitivity; [exact Hd|].
    vm_compute. reflexivity.
Defined.

Lemma ata_init_selects_witness :
  wp (ata_init 6) (Drive small_view : drive true 5) (fun '(_, ch) d' => ch = secondary /\ v_disk (dv d') = small_disk).
Proof.
  eapply wp_mono; [apply (ata_init_selects (Drive small_view : drive true 5) 6); [apply _|by left|cbn; lia|cbn; lia]|].
  intros [msg ch] d' (-> & _ & _ & Hd). done.
Defined.

(** The cache flush is written to the command register without waiting for the
    drive to finish the data it was just given.  A drive that is still busy
    ignores it, and the sector stays in the write cache only; a drive that is
    already idle executes it. *)
Definition dirty_after_write {delay} (d : drive false delay) : option bool :=
  match ata_write 10 primary 1 (replicate 512 9) d with
  | OK (_, d') => Some (v_dirty (dv d'))
  | _ => None
  end.
Example flush_ignored_while_busy :
  dirty_after_write (Drive small_view : drive false 3) = Some true /\
  dirty_after_write (Drive small_view : drive false 0) = Some false.
Proof. split; vm_compute; reflexivity. Qed.

(** The size printed by detection wraps modulo 2^32 bytes: a drive of 8 GiB
    is announced as 0 MB. *)
Example large_drive_size :
  detected "primary" 16777216
  = [TStr "ATA: "; TStr "primary"; TStr " master detected, "; TDec 16777216; TStr " sectors ("; TDec 0; TLn " MB)"].
Proof. reflexivity. Qed.
