(* ===== verification/Pmm.v ===== *)
(** * Physical memory manager (src/src/pmm.c, src/src/multiboot.c)

    The frame bitmap, its construction from GRUB's memory map, and the frame
    allocator, with the interface other components rely on. *)
From S2P Require Import Prelude.

Definition FRAME_SIZE : Z := 4096.
Definition MAX_FRAMES : Z := 1048576.

(** ** The allocator as its clients see it

    [fr_free s f] says that frame number [f] may be handed out; [fr_inv] is
    the invariant the implementation maintains.  An allocation returns 0 or
    the address of a frame that was free and no longer is; no other frame
    changes hands. *)
Class FrameAllocator (S : Type) := {
  fr_inv : S -> Prop;
  fr_free : S -> Z -> bool;
  fr_alloc : S -> S * Z;
  fr_release : S -> Z -> S;
  fr_free_count : S -> Z }.

Class FrameAllocatorLaws (S : Type) `{FrameAllocator S} := {
  fr_alloc_inv s : fr_inv s -> fr_inv (fst (fr_alloc s));
  fr_alloc_some s s' a : fr_inv s -> fr_alloc s = (s', a) -> a <> 0 ->
    a mod FRAME_SIZE = 0 /\ 0 < a < 4294967296 /\ fr_free s (a / FRAME_SIZE) = true /\
    fr_free s' (a / FRAME_SIZE) = false /\
    forall f, f <> a / FRAME_SIZE -> fr_free s' f = fr_free s f;
  fr_alloc_none s s' : fr_inv s -> fr_alloc s = (s', 0) -> s' = s;
  fr_release_inv s a : fr_inv s -> FRAME_SIZE <= a < 4294967296 -> fr_inv (fr_release s a);
  fr_release_free s a : fr_inv s -> FRAME_SIZE <= a < 4294967296 ->
    fr_free (fr_release s a) (a / FRAME_SIZE) = true /\
    forall f, f <> a / FRAME_SIZE -> fr_free (fr_release s a) f = fr_free s f }.

(** ** The bitmap *)
Record pmm := mk_pmm {
  frame_bitmap : list Z;
  total_frames : Z;
  used_frames : Z }.

Definition bitmap_word (bm : list Z) (frame : Z) : Z := default 0 (bm !! Z.to_nat (frame / 32)).
Definition frame_bit (frame : Z) : Z := Z.shiftl 1 (frame mod 32).

Definition bitmap_set (bm : list Z) (frame : Z) : list Z :=
  <[Z.to_nat (frame / 32) := Z.lor (bitmap_word bm frame) (frame_bit frame)]> bm.
Definition bitmap_clear (bm : list Z) (frame : Z) : list Z :=
  <[Z.to_nat (frame / 32) := Z.land (bitmap_word bm frame) (Z.lnot (frame_bit frame))]> bm.
Definition bitmap_test (bm : list Z) (frame : Z) : bool := flag (bitmap_word bm frame) (frame_bit frame).

(** ** The memory map

    [mem] is the memory GRUB filled in, by byte address. *)
Record mmap_entry := mk_mmap {
  me_size : Z;
  me_addr : Z;
  me_len : Z;
  me_type : Z }.

Definition mem32 (mem : Z -> Z) (a : Z) : Z :=
  mem a + 256 * mem (u32 (a + 1)) + 65536 * mem (u32 (a + 2)) + 16777216 * mem (u32 (a + 3)).
Definition mem64 (mem : Z -> Z) (a : Z) : Z := mem32 mem a + 4294967296 * mem32 mem (u32 (a + 4)).

Definition read_mmap_entry (mem : Z -> Z) (a : Z) : mmap_entry :=
  mk_mmap (mem32 mem a) (mem64 mem (u32 (a + 4))) (mem64 mem (u32 (a + 12))) (mem32 mem (u32 (a + 20))).

(** The entries visited by [while ((uint32_t)entry < end)]. *)
Fixpoint mmap_walk (fuel : nat) (mem : Z -> Z) (entry end_ : Z) : res (list mmap_entry) :=
  match fuel with
  | O => Fuel
  | S fuel' =>
      if entry <? end_ then
        let e := read_mmap_entry mem entry in
        let! rest := mmap_walk fuel' mem (u32 (entry + me_size e + 4)) end_ in
        OK (e :: rest)
      else OK []
  end.

(** [multiboot_info]: the fields used. *)
Record multiboot_info := mk_multiboot {
  mb_flags : Z;
  mmap_length : Z;
  mmap_addr : Z }.

Definition mmap_entries (fuel : nat) (mem : Z -> Z) (info : multiboot_info) : res (list mmap_entry) :=
  mmap_walk fuel mem (mmap_addr info) (u32 (mmap_addr info + mmap_length info)).

Definition multiboot_parse (fuel : nat) (mem : Z -> Z) (info : multiboot_info) : res (list tty) :=
  if negb (flag (mb_flags info) (Z.shiftl 1 6)) then OK [TLn "No memory map provided by bootloader"]
  else
    let! es := mmap_entries fuel mem info in
    OK (es ≫= fun e =>
          if me_type e =? 1
          then [TStr "Usable RAM: base="; THex (u32 (me_addr e)); TStr " length=";
                THex (u32 (me_len e)); TLn ""]
          else []).

(** ** [pmm_init] *)

(** The loop that frees the frames of one region; its frame numbers are below
    2 * 2^20 and do not wrap. *)
Fixpoint free_region (s : pmm) (frame : Z) (n : nat) : pmm :=
  match n with
  | O => s
  | S n' =>
      let s' :=
        if frame <? MAX_FRAMES
        then mk_pmm (bitmap_clear (frame_bitmap s) frame) (u32 (total_frames s + 1)) (used_frames s)
        else s in
      free_region s' (frame + 1) n'
  end.

Definition region_start (e : mmap_entry) : Z := u32 (me_addr e) / FRAME_SIZE.
Definition region_count (e : mmap_entry) : Z := u32 (me_len e) / FRAME_SIZE.

Definition free_entry (s : pmm) (e : mmap_entry) : pmm :=
  if me_type e =? 1 then free_region s (region_start e) (Z.to_nat (region_count e)) else s.

(** The loop that takes the kernel's frames back. *)
Fixpoint reserve_kernel (s : pmm) (frame : Z) (n : nat) : pmm :=
  match n with
  | O => s
  | S n' =>
      let s' :=
        if negb (bitmap_test (frame_bitmap s) frame)
        then mk_pmm (bitmap_set (frame_bitmap s) frame) (u32 (total_frames s - 1)) (used_frames s)
        else s in
      reserve_kernel s' (frame + 1) n'
  end.

Definition blank_bitmap : list Z := replicate (Z.to_nat 32768) 4294967295.

(** [Err] is the halt without a memory map. *)
Definition pmm_init (fuel : nat) (mem : Z -> Z) (info : multiboot_info) (kernel_end : Z)
    (s : pmm) : res pmm :=
  if negb (flag (mb_flags info) (Z.shiftl 1 6)) then Err
  else
    let! es := mmap_entries fuel mem info in
    let s1 := foldl free_entry (mk_pmm blank_bitmap (total_frames s) (used_frames s)) es in
    let s2 := reserve_kernel s1 0 (Z.to_nat (kernel_end / FRAME_SIZE + 1)) in
    OK (mk_pmm (frame_bitmap s2) (total_frames s2) 0).

(** ** Allocation *)
Definition pmm_alloc_frame (s : pmm) : pmm * Z :=
  match find_from (fun i => negb (bitmap_test (frame_bitmap s) i)) 0
          (Z.to_nat (u32 (total_frames s + used_frames s))) with
  | Some i => (mk_pmm (bitmap_set (frame_bitmap s) i) (total_frames s) (u32 (used_frames s + 1)),
               u32 (i * FRAME_SIZE))
  | None => (s, 0)
  end.

Definition pmm_free_frame (s : pmm) (frame_addr : Z) : pmm :=
  let frame := frame_addr / FRAME_SIZE in
  if bitmap_test (frame_bitmap s) frame
  then mk_pmm (bitmap_clear (frame_bitmap s) frame) (total_frames s) (u32 (used_frames s - 1))
  else s.

Definition pmm_get_free_frame_count (s : pmm) : Z := u32 (total_frames s - used_frames s).
Definition pmm_get_total_frame_count (s : pmm) : Z := total_frames s.

(** ** Bit-level facts *)
Definition bitmap_wf (bm : list Z) : Prop := Z.of_nat (length bm) = 32768 /\ Forall is_u32 bm.
Definition frame_in (f : Z) : Prop := 0 <= f < MAX_FRAMES.

Lemma frame_bit_pow f : frame_bit f = 2 ^ (f mod 32).
Proof. unfold frame_bit. rewrite Z.shiftl_mul_pow2, Z.mul_1_l by dlia. done. Qed.

Lemma bitmap_test_bit bm f : bitmap_test bm f = Z.testbit (bitmap_word bm f) (f mod 32).
Proof. unfold bitmap_test. rewrite frame_bit_pow, flag_testbit by dlia. done. Qed.

Lemma word_lookup bm f : bitmap_wf bm -> frame_in f ->
  exists w, bm !! Z.to_nat (f / 32) = Some w /\ bitmap_word bm f = w /\ is_u32 w.
Proof.
  intros [Hl Hw] Hf. unfold frame_in, MAX_FRAMES in Hf.
  destruct (lookup_lt_is_Some_2 bm (Z.to_nat (f / 32))) as [w Hw']; [dlia|].
  exists w. split; [done|]. unfold bitmap_word. rewrite Hw'. split; [done|].
  by eapply Forall_lookup in Hw; eauto.
Qed.

(** Storing a word whose bits other than [f]'s are unchanged. *)
Lemma bitmap_update_test bm f g w' :
  bitmap_wf bm -> frame_in f -> frame_in g ->
  (forall k, 0 <= k < 32 -> k <> f mod 32 -> Z.testbit w' k = Z.testbit (bitmap_word bm f) k) ->
  bitmap_test (<[Z.to_nat (f / 32) := w']> bm) g =
  if g =? f then Z.testbit w' (f mod 32) else bitmap_test bm g.
Proof.
  intros Hwf Hf Hg Hk. destruct (word_lookup bm f Hwf Hf) as (w & Hw & Hw' & _).
  pose proof (lookup_lt_Some _ _ _ Hw) as Hlen. rewrite !bitmap_test_bit.
  unfold frame_in, bitmap_word in *. rewrite Hw' in Hk.
  destruct (decide (g / 32 = f / 32)) as [E|E].
  - rewrite E, list_lookup_insert_eq by done. cbn [default]. rewrite Hw. cbn [default].
    destruct (Z.eqb_spec g f) as [->|Hne]; [done|]. apply Hk; dlia.
  - rewrite list_lookup_insert_ne by dlia.
    destruct (Z.eqb_spec g f) as [->|Hne]; [done|done].
Qed.

Lemma bitmap_set_test bm f g : bitmap_wf bm -> frame_in f -> frame_in g ->
  bitmap_test (bitmap_set bm f) g = (g =? f) || bitmap_test bm g.
Proof.
  intros Hwf Hf Hg. unfold bitmap_set. rewrite frame_bit_pow.
  assert (0 <= f mod 32) by dlia. rewrite bitmap_update_test; [|done..|].
  - rewrite Z.lor_spec, Z.pow2_bits_true, orb_true_r by lia. by destruct (g =? f).
  - intros k Hk Hne. rewrite Z.lor_spec, Z.pow2_bits_false by lia. by rewrite orb_false_r.
Qed.

Lemma bitmap_clear_test bm f g : bitmap_wf bm -> frame_in f -> frame_in g ->
  bitmap_test (bitmap_clear bm f) g = negb (g =? f) && bitmap_test bm g.
Proof.
  intros Hwf Hf Hg. unfold bitmap_clear. rewrite frame_bit_pow.
  assert (0 <= f mod 32) by dlia. rewrite bitmap_update_test; [|done..|].
  - rewrite Z.land_spec, Z.lnot_spec, Z.pow2_bits_true, andb_false_r by lia. by destruct (g =? f).
  - intros k Hk Hne. rewrite Z.land_spec, Z.lnot_spec, Z.pow2_bits_false by lia.
    by rewrite andb_true_r.
Qed.

Lemma u32_bits w : is_u32 w <-> 0 <= w /\ forall k, 32 <= k -> Z.testbit w k = false.
Proof.
  unfold is_u32. split.
  - intros Hw. split; [lia|]. intros k Hk. destruct (decide (w = 0)) as [->|]; [apply Z.bits_0|].
    apply Z.bits_above_log2; [lia|]. assert (Z.log2 w < 32); [|lia].
    apply Z.log2_lt_pow2; lia.
  - intros [H0 Hk]. split; [done|]. destruct (decide (w = 0)) as [->|]; [lia|].
    assert (Z.log2 w < 32); [|apply Z.log2_lt_pow2 in H; lia].
    destruct (Z.lt_ge_cases (Z.log2 w) 32) as [|Hge]; [done|].
    pose proof (Z.bit_log2 w ltac:(lia)) as Hb. rewrite Hk in Hb by done. done.
Qed.

Lemma bitmap_set_wf bm f : bitmap_wf bm -> frame_in f -> bitmap_wf (bitmap_set bm f).
Proof.
  intros Hwf Hf. destruct (word_lookup bm f Hwf Hf) as (w & _ & Hw & Hu). destruct Hwf as [Hl Hb].
  split; unfold bitmap_set; [by rewrite length_insert|]. apply Forall_insert; [done|].
  rewrite Hw, frame_bit_pow. apply u32_bits in Hu as [H0 Hk]. apply u32_bits. split.
  - apply Z.lor_nonneg. split; [done|]. apply Z.pow_nonneg. lia.
  - intros k Hk32. rewrite Z.lor_spec, Hk, Z.pow2_bits_false by dlia. done.
Qed.

Lemma bitmap_clear_wf bm f : bitmap_wf bm -> frame_in f -> bitmap_wf (bitmap_clear bm f).
Proof.
  intros Hwf Hf. destruct (word_lookup bm f Hwf Hf) as (w & _ & Hw & Hu). destruct Hwf as [Hl Hb].
  split; unfold bitmap_clear; [by rewrite length_insert|]. apply Forall_insert; [done|].
  rewrite Hw. apply u32_bits in Hu as [H0 Hk]. apply u32_bits. split.
  - apply Z.land_nonneg. by left.
  - intros k Hk32. rewrite Z.land_spec, Hk by lia. done.
Qed.

(** ** Accounting *)
Definition frame_free (s : pmm) (f : Z) : bool :=
  (0 <=? f) && (f <? MAX_FRAMES) && negb (bitmap_test (frame_bitmap s) f).

Definition free_count (s : pmm) : Z := count_from (frame_free s) 0 (Z.to_nat MAX_FRAMES).

(** At most 2 GB of usable memory (beyond, the scan of [pmm_alloc_frame] can
    run past the bitmap), frame 0 reserved, and the counters agree with the
    bitmap. *)
Record pmm_inv (s : pmm) : Prop := {
  pi_wf : bitmap_wf (frame_bitmap s);
  pi_zero : bitmap_test (frame_bitmap s) 0 = true;
  pi_total : 0 <= total_frames s <= MAX_FRAMES / 2;
  pi_used : is_u32 (used_frames s);
  pi_count : free_count s = u32 (total_frames s - used_frames s) }.

Lemma frame_free_true s f :
  frame_free s f = true <-> frame_in f /\ bitmap_test (frame_bitmap s) f = false.
Proof.
  unfold frame_free, frame_in. rewrite !andb_true_iff, Z.leb_le, Z.ltb_lt, negb_true_iff. tauto.
Qed.

Lemma frame_free_out s f : ~ frame_in f -> frame_free s f = false.
Proof.
  intros Hf. destruct (frame_free s f) eqn:E; [|done]. by apply frame_free_true in E as [? _].
Qed.

(** The free frames after one bit changed. *)
Lemma frame_free_set bm t u t' u' f g : bitmap_wf bm -> frame_in f ->
  frame_free (mk_pmm (bitmap_set bm f) t' u') g = negb (g =? f) && frame_free (mk_pmm bm t u) g.
Proof.
  intros Hwf Hf. destruct (decide (frame_in g)) as [Hg|Hg].
  - unfold frame_free. cbn [frame_bitmap]. rewrite bitmap_set_test by done.
    destruct (g =? f); cbn [orb negb andb]; [by rewrite andb_false_r|done].
  - by rewrite !frame_free_out, andb_false_r.
Qed.

Lemma frame_free_clear bm t u t' u' f g : bitmap_wf bm -> frame_in f ->
  frame_free (mk_pmm (bitmap_clear bm f) t' u') g = (g =? f) || frame_free (mk_pmm bm t u) g.
Proof.
  intros Hwf Hf. destruct (decide (frame_in g)) as [Hg|Hg].
  - unfold frame_free. cbn [frame_bitmap]. rewrite bitmap_clear_test by done.
    destruct (Z.eqb_spec g f) as [->|]; cbn [orb negb andb]; [|done].
    unfold frame_in in Hf. rewrite (proj2 (Z.leb_le 0 f)), (proj2 (Z.ltb_lt f MAX_FRAMES)) by lia. done.
  - rewrite !frame_free_out by done. destruct (Z.eqb_spec g f); [congruence|done].
Qed.

Lemma free_count_set bm t u t' u' f : bitmap_wf bm -> frame_in f ->
  bitmap_test bm f = false ->
  free_count (mk_pmm bm t u) = free_count (mk_pmm (bitmap_set bm f) t' u') + 1.
Proof.
  intros Hwf Hf Ht. unfold free_count. apply (count_from_flip _ _ _ _ f).
  - unfold frame_in, MAX_FRAMES in *. lia.
  - by apply frame_free_true.
  - rewrite (frame_free_set bm t u) by done. by rewrite Z.eqb_refl.
  - intros i Hi. rewrite (frame_free_set bm t u) by done.
    destruct (Z.eqb_spec i f); [done|]. done.
Qed.

Lemma free_count_clear bm t u t' u' f : bitmap_wf bm -> frame_in f ->
  bitmap_test bm f = true ->
  free_count (mk_pmm (bitmap_clear bm f) t' u') = free_count (mk_pmm bm t u) + 1.
Proof.
  intros Hwf Hf Ht. unfold free_count. apply (count_from_flip _ _ _ _ f).
  - unfold frame_in, MAX_FRAMES in *. lia.
  - rewrite (frame_free_clear bm t u) by done. by rewrite Z.eqb_refl.
  - destruct (frame_free _ f) eqn:E; [|done]. apply frame_free_true in E as [_ E].
    cbn [frame_bitmap] in E. congruence.
  - intros i Hi. rewrite (frame_free_clear bm t u) by done.
    destruct (Z.eqb_spec i f); [done|]. done.
Qed.

Lemma free_count_bitmap s s' :
  frame_bitmap s = frame_bitmap s' -> free_count s = free_count s'.
Proof.
  intros E. unfold free_count. apply count_from_ext. intros i _. unfold frame_free. by rewrite E.
Qed.

Lemma free_count_bounds s : 0 <= free_count s <= MAX_FRAMES.
Proof.
  unfold free_count. pose proof (count_from_bounds (frame_free s) 0 (Z.to_nat MAX_FRAMES)).
  unfold MAX_FRAMES in *. lia.
Qed.

(** The frame an allocation finds lies inside the bitmap. *)
Lemma alloc_scan_in s i : pmm_inv s ->
  find_from (fun i => negb (bitmap_test (frame_bitmap s) i)) 0
    (Z.to_nat (u32 (total_frames s + used_frames s))) = Some i ->
  1 <= i < MAX_FRAMES /\ bitmap_test (frame_bitmap s) i = false.
Proof.
  intros [Hwf Hz Ht Hu Hc]. rewrite find_from_Some. intros (Hi & Hp & Hmin).
  apply negb_true_iff in Hp. split; [|done].
  assert (i <> 0) by congruence. split; [lia|].
  destruct (Z.lt_ge_cases i MAX_FRAMES) as [|Hge]; [done|]. exfalso.
  assert (Hnone : free_count s = 0).
  { unfold free_count. rewrite (count_from_ext _ (fun _ => false)); [apply count_from_none|].
    intros j Hj. destruct (frame_free s j) eqn:E; [|done]. apply frame_free_true in E as [Hj' E].
    unfold frame_in in Hj'. specialize (Hmin j ltac:(lia)). by rewrite E in Hmin. }
  rewrite Hnone in Hc. unfold u32, is_u32, MAX_FRAMES in *. revert Hi Hc Ht Hu Hge. clear.
  intros. dlia.
Qed.

Lemma alloc_cases s s' a : pmm_inv s -> pmm_alloc_frame s = (s', a) ->
  (a = 0 /\ s' = s /\
   forall f, 0 <= f < u32 (total_frames s + used_frames s) -> frame_free s f = false) \/
  exists i, a = i * FRAME_SIZE /\ 1 <= i < MAX_FRAMES /\ frame_free s i = true /\
    (forall f, f < i -> frame_free s f = false) /\
    s' = mk_pmm (bitmap_set (frame_bitmap s) i) (total_frames s) (u32 (used_frames s + 1)).
Proof.
  intros Hinv. unfold pmm_alloc_frame. destruct (find_from _ _ _) as [i|] eqn:E; intros [= <- <-].
  - right. exists i. destruct (alloc_scan_in s i Hinv E) as [Hi Hb].
    apply find_from_Some in E as (_ & _ & Hmin). split.
    { apply u32_small. unfold is_u32, FRAME_SIZE, MAX_FRAMES in *. lia. }
    split; [done|]. split; [apply frame_free_true; unfold frame_in; split; [lia|done]|].
    split; [|done]. intros f Hf. destruct (frame_free s f) eqn:Ef; [|done].
    apply frame_free_true in Ef as [Hf' Ef]. unfold frame_in in Hf'.
    specialize (Hmin f ltac:(lia)). by rewrite Ef in Hmin.
  - left. split; [done|]. split; [done|]. rewrite find_from_None in E. intros f Hf.
    destruct (frame_free s f) eqn:Ef; [|done]. apply frame_free_true in Ef as [Hf' Ef].
    specialize (E f ltac:(lia)). by rewrite Ef in E.
Qed.

Lemma pmm_alloc_inv s : pmm_inv s -> pmm_inv (fst (pmm_alloc_frame s)).
Proof.
  intros Hinv. destruct (pmm_alloc_frame s) as [s' a] eqn:E. cbn [fst].
  destruct (alloc_cases s s' a Hinv E) as [(_ & -> & _)|(i & _ & Hi & Hf & _ & ->)]; [done|].
  apply frame_free_true in Hf as [Hin Hb]. destruct Hinv as [Hwf Hz Ht Hu Hc].
  split; cbn [frame_bitmap total_frames used_frames].
  - by apply bitmap_set_wf.
  - rewrite bitmap_set_test by (done || unfold frame_in, MAX_FRAMES; lia). by rewrite Hz, orb_true_r.
  - done.
  - apply u32_is.
  - destruct s as [bm t u]. cbn [frame_bitmap total_frames used_frames] in *.
    pose proof (free_count_set bm t u t (u32 (u + 1)) i Hwf Hin Hb).
    pose proof (free_count_bounds (mk_pmm (bitmap_set bm i) t (u32 (u + 1)))).
    unfold u32, is_u32, MAX_FRAMES in *. dlia.
Qed.

Lemma pmm_free_inv s a : pmm_inv s -> FRAME_SIZE <= a < 4294967296 -> pmm_inv (pmm_free_frame s a).
Proof.
  intros Hinv Ha. unfold pmm_free_frame. case_if; [|done].
  set (f := a / FRAME_SIZE) in *.
  assert (Hin : frame_in f /\ f <> 0) by (subst f; unfold frame_in, FRAME_SIZE, MAX_FRAMES in *; dlia).
  destruct Hin as [Hin Hne]. destruct Hinv as [Hwf Hz Ht Hu Hc].
  split; cbn [frame_bitmap total_frames used_frames].
  - by apply bitmap_clear_wf.
  - rewrite bitmap_clear_test by (done || unfold frame_in, MAX_FRAMES; lia). rewrite Hz.
    destruct (Z.eqb_spec 0 f); [congruence|done].
  - done.
  - apply u32_is.
  - destruct s as [bm t u]. cbn [frame_bitmap total_frames used_frames] in *.
    pose proof (free_count_clear bm t u t (u32 (u - 1)) f Hwf Hin Hif) as E.
    pose proof (free_count_bounds (mk_pmm (bitmap_clear bm f) t (u32 (u - 1)))) as B.
    rewrite E in B |- *. rewrite Hc in *. clear Hc E. unfold u32, is_u32, MAX_FRAMES in *. dlia.
Qed.

#[export] Instance pmm_allocator : FrameAllocator pmm := {
  fr_inv := pmm_inv;
  fr_free := frame_free;
  fr_alloc := pmm_alloc_frame;
  fr_release := pmm_free_frame;
  fr_free_count := pmm_get_free_frame_count }.

#[export] Instance pmm_allocator_laws : FrameAllocatorLaws pmm.
Proof.
  split; cbn.
  - apply pmm_alloc_inv.
  - intros s s' a Hinv Ha Hne. destruct (alloc_cases s s' a Hinv Ha) as [[? _]|H]; [done|].
    destruct H as (i & -> & Hi & Hf & _ & ->). destruct s as [bm t u].
    assert (Hq : i * FRAME_SIZE / FRAME_SIZE = i) by (unfold FRAME_SIZE; dlia). rewrite Hq.
    pose proof Hf as Hf'. apply frame_free_true in Hf' as [Hin _]. pose proof (pi_wf _ Hinv) as Hwf.
    cbn [frame_bitmap total_frames used_frames] in *.
    split; [unfold FRAME_SIZE; dlia|]. split; [unfold FRAME_SIZE, MAX_FRAMES in *; lia|].
    split; [done|]. split; [by rewrite (frame_free_set bm t u), Z.eqb_refl|].
    intros f Hf2. rewrite (frame_free_set bm t u) by done. by destruct (Z.eqb_spec f i).
  - intros s s' Hinv Ha. destruct (alloc_cases s s' 0 Hinv Ha) as [(_ & ? & _)|(i & E & Hi & _)]; [done|].
    unfold FRAME_SIZE in E. lia.
  - apply pmm_free_inv.
  - intros s a Hinv Ha. set (f := a / FRAME_SIZE).
    assert (Hin : frame_in f) by (subst f; unfold frame_in, FRAME_SIZE, MAX_FRAMES in *; dlia).
    pose proof (pi_wf _ Hinv) as Hwf. unfold pmm_free_frame. fold f.
    destruct (bitmap_test (frame_bitmap s) f) eqn:Hif; [|split; [by apply frame_free_true|done]].
    destruct s as [bm t u]. cbn [frame_bitmap total_frames used_frames] in *.
    split; [by rewrite (frame_free_clear bm t u), Z.eqb_refl|].
    intros g Hg. rewrite (frame_free_clear bm t u) by done. by destruct (Z.eqb_spec g f).
Qed.

(** ** Building the bitmap *)
Definition in_region (e : mmap_entry) (f : Z) : bool :=
  (me_type e =? 1) && (region_start e <=? f) && (f <? region_start e + region_count e).
Definition usable (es : list mmap_entry) (f : Z) : bool := existsb (fun e => in_region e f) es.

(** No frame lies in two usable regions of the map. *)
Fixpoint no_overlap (es : list mmap_entry) : Prop :=
  match es with
  | [] => True
  | e :: es' => (forall f, in_region e f = true -> usable es' f = false) /\ no_overlap es'
  end.

(** While the map is processed, [total_frames] counts the free frames. *)
Definition counted (s : pmm) : Prop :=
  bitmap_wf (frame_bitmap s) /\ total_frames s = free_count s.

Lemma free_region_spec s frame n :
  counted s -> 0 <= frame ->
  (forall f, frame <= f < frame + Z.of_nat n -> frame_free s f = false) ->
  counted (free_region s frame n) /\
  forall f, frame_free (free_region s frame n) f =
    (frame <=? f) && (f <? frame + Z.of_nat n) && (f <? MAX_FRAMES) || frame_free s f.
Proof.
  revert s frame. induction n as [|n IH]; intros s frame [Hwf Ht] H0 Hnf; cbn [free_region].
  { split; [done|]. intros f. destruct (Z.leb_spec frame f), (Z.ltb_spec f (frame + Z.of_nat 0));
      cbn; (lia || done). }
  assert (Hs : counted (if frame <? MAX_FRAMES then mk_pmm (bitmap_clear (frame_bitmap s) frame)
      (u32 (total_frames s + 1)) (used_frames s) else s) /\
    forall f, frame_free (if frame <? MAX_FRAMES then mk_pmm (bitmap_clear (frame_bitmap s) frame)
      (u32 (total_frames s + 1)) (used_frames s) else s) f =
      (f =? frame) && (frame <? MAX_FRAMES) || frame_free s f).
  { destruct (Z.ltb_spec frame MAX_FRAMES) as [Hlt|Hge]; [|split; [done|]; intros f; by rewrite andb_false_r].
    assert (Hin : frame_in frame) by (unfold frame_in; lia). destruct s as [bm t u].
    cbn [frame_bitmap total_frames used_frames] in *.
    assert (Hb : bitmap_test bm frame = true).
    { destruct (bitmap_test bm frame) eqn:E; [done|].
      specialize (Hnf frame ltac:(lia)). assert (frame_free (mk_pmm bm t u) frame = true)
        by (by apply frame_free_true). congruence. }
    split; [split; [by apply bitmap_clear_wf|]|].
    - cbn [total_frames]. pose proof (free_count_clear bm t u (u32 (t + 1)) u frame Hwf Hin Hb) as E.
      pose proof (free_count_bounds (mk_pmm bm t u)). rewrite E, <- Ht.
      apply u32_small. unfold is_u32, MAX_FRAMES in *. lia.
    - intros f. rewrite (frame_free_clear bm t u) by done. by rewrite andb_true_r. }
  destruct Hs as [Hc Hf]. set (s1 := if frame <? MAX_FRAMES then _ else _) in *. clearbody s1.
  destruct (IH s1 (frame + 1) Hc) as [IH1 IH2]; [lia| |].
  { intros f Hr. rewrite Hf, Hnf by lia. destruct (Z.eqb_spec f frame); [lia|done]. }
  split; [done|]. intros f. rewrite IH2, Hf.
  destruct (Z.leb_spec (frame + 1) f), (Z.ltb_spec f (frame + 1 + Z.of_nat n)), (Z.eqb_spec f frame),
    (Z.leb_spec frame f), (Z.ltb_spec f (frame + Z.of_nat (S n))), (Z.ltb_spec f MAX_FRAMES),
    (Z.ltb_spec frame MAX_FRAMES); cbn; try lia; try done; destruct (frame_free s f); done.
Qed.

Lemma region_bounds e : 0 <= region_start e /\ 0 <= region_count e.
Proof.
  unfold region_start, region_count, FRAME_SIZE.
  pose proof (u32_is (me_addr e)). pose proof (u32_is (me_len e)). unfold is_u32 in *. dlia.
Qed.

Lemma free_entries_spec es s :
  counted s -> no_overlap es -> (forall f, frame_free s f = true -> usable es f = false) ->
  counted (foldl free_entry s es) /\
  forall f, frame_free (foldl free_entry s es) f = usable es f && (f <? MAX_FRAMES) || frame_free s f.
Proof.
  revert s. induction es as [|e es IH]; intros s Hc Hno Hdis; cbn [foldl]; [done|].
  destruct Hno as [Hov Hno]. pose proof (region_bounds e) as [Hs0 Hc0].
  assert (Hs : counted (free_entry s e) /\ forall f, frame_free (free_entry s e) f =
    in_region e f && (f <? MAX_FRAMES) || frame_free s f).
  { unfold free_entry, in_region. destruct (me_type e =? 1) eqn:Et; [|done].
    destruct (free_region_spec s (region_start e) (Z.to_nat (region_count e)) Hc Hs0) as [H1 H2].
    { intros f Hf. destruct (frame_free s f) eqn:E; [|done]. specialize (Hdis f E).
      cbn in Hdis. apply orb_false_iff in Hdis as [Hd _]. unfold in_region in Hd.
      rewrite Et, (proj2 (Z.leb_le _ _)), (proj2 (Z.ltb_lt _ _)) in Hd by lia. done. }
    split; [done|]. intros f. rewrite H2, Z2Nat.id by done. done. }
  destruct Hs as [Hc1 Hf1]. destruct (IH (free_entry s e) Hc1 Hno) as [H1 H2].
  { intros f Hf. rewrite Hf1 in Hf. apply orb_true_iff in Hf as [Hf|Hf].
    - apply andb_true_iff in Hf as [Hf _]. by apply Hov.
    - specialize (Hdis f Hf). cbn in Hdis. by apply orb_false_iff in Hdis as [_ ?]. }
  split; [done|]. intros f. rewrite H2, Hf1. cbn [usable existsb].
  fold (usable es f). destruct (in_region e f), (usable es f), (f <? MAX_FRAMES); done.
Qed.

Lemma reserve_kernel_spec s frame n :
  counted s -> 0 <= frame -> frame + Z.of_nat n <= MAX_FRAMES ->
  counted (reserve_kernel s frame n) /\
  (forall f, frame_free (reserve_kernel s frame n) f =
    negb ((frame <=? f) && (f <? frame + Z.of_nat n)) && frame_free s f) /\
  used_frames (reserve_kernel s frame n) = used_frames s.
Proof.
  revert s frame. induction n as [|n IH]; intros s frame [Hwf Ht] H0 Hle; cbn [reserve_kernel].
  { split; [done|]. split; [|done]. intros f.
    destruct (Z.leb_spec frame f), (Z.ltb_spec f (frame + Z.of_nat 0)); cbn; (lia || done). }
  assert (Hin : frame_in frame) by (unfold frame_in; lia).
  set (s1 := if negb (bitmap_test (frame_bitmap s) frame) then _ else s).
  assert (Hs : counted s1 /\ (forall f, frame_free s1 f = negb (f =? frame) && frame_free s f) /\
    used_frames s1 = used_frames s).
  { destruct s as [bm t u]. cbn [frame_bitmap total_frames used_frames] in *. subst s1.
    destruct (bitmap_test bm frame) eqn:Hb; cbn [negb].
    - split; [done|]. split; [|done]. intros f. destruct (Z.eqb_spec f frame) as [->|]; [|done].
      destruct (frame_free (mk_pmm bm t u) frame) eqn:E; [|by rewrite andb_false_r].
      apply frame_free_true in E as [_ E]. cbn [frame_bitmap] in E. congruence.
    - split; [split; [by apply bitmap_set_wf|]|].
      + cbn [total_frames]. pose proof (free_count_set bm t u (u32 (t - 1)) u frame Hwf Hin Hb) as E.
        pose proof (free_count_bounds (mk_pmm (bitmap_set bm frame) (u32 (t - 1)) u)).
        set (n' := free_count (mk_pmm (bitmap_set bm frame) _ _)) in *.
        replace (t - 1) with n' by lia. apply u32_small. unfold is_u32, MAX_FRAMES in *. lia.
      + split; [|done]. intros f. by rewrite (frame_free_set bm t u). }
  clearbody s1. destruct Hs as (Hc1 & Hf1 & Hu1).
  destruct (IH s1 (frame + 1) Hc1) as (IH1 & IH2 & IH3); [lia|lia|].
  split; [done|]. split; [|congruence]. intros f. rewrite IH2, Hf1.
  destruct (Z.leb_spec (frame + 1) f), (Z.ltb_spec f (frame + 1 + Z.of_nat n)), (Z.eqb_spec f frame),
    (Z.leb_spec frame f), (Z.ltb_spec f (frame + Z.of_nat (S n))); cbn; (lia || done).
Qed.

Lemma blank_counted u : counted (mk_pmm blank_bitmap 0 u) /\ forall f, frame_free (mk_pmm blank_bitmap 0 u) f = false.
Proof.
  assert (Hwf : bitmap_wf blank_bitmap).
  { split; unfold blank_bitmap; [rewrite length_replicate; lia|]. apply Forall_replicate. unfold is_u32. lia. }
  assert (Hf : forall f, frame_free (mk_pmm blank_bitmap 0 u) f = false).
  { intros f. destruct (frame_free _ f) eqn:E; [|done]. apply frame_free_true in E as [Hin E].
    cbn [frame_bitmap] in E. rewrite bitmap_test_bit in E.
    destruct (word_lookup _ _ Hwf Hin) as (w & Hw & Hw' & _). rewrite Hw' in E.
    apply lookup_replicate in Hw as [-> _]. change 4294967295 with (Z.ones 32) in E.
    rewrite Z.ones_spec_low in E by dlia. done. }
  split; [|done]. split; [done|]. unfold free_count.
  rewrite (count_from_ext _ (fun _ => false)) by (intros; apply Hf). by rewrite count_from_none.
Qed.

(** [pmm_init] turns GRUB's memory map into exactly the right free set: a
    frame is free iff a usable region contains it and it lies above the
    kernel; the invariant of the allocator holds and the frame count it
    reports is the number of free frames. *)
Theorem pmm_init_spec fuel mem info kernel_end bm0 es :
  flag (mb_flags info) 64 = true -> mmap_entries fuel mem info = OK es -> no_overlap es ->
  0 <= kernel_end < 4294967296 ->
  count_from (fun f => usable es f) 0 (Z.to_nat MAX_FRAMES) <= MAX_FRAMES / 2 ->
  exists s, pmm_init fuel mem info kernel_end (mk_pmm bm0 0 0) = OK s /\ pmm_inv s /\
    pmm_get_total_frame_count s = free_count s /\ pmm_get_free_frame_count s = free_count s /\
    forall f, 0 <= f < MAX_FRAMES ->
      frame_free s f = usable es f && (kernel_end / FRAME_SIZE + 1 <=? f).
Proof.
  intros Hfl Hes Hno Hk Hcap. unfold pmm_init. change (Z.shiftl 1 6) with 64.
  rewrite Hfl, Hes. cbn [negb rbind]. cbn [total_frames used_frames].
  destruct (blank_counted 0) as [Hb1 Hb2].
  destruct (free_entries_spec es _ Hb1 Hno) as [Hc1 Hf1]; [intros f Hf; by rewrite Hb2 in Hf|].
  set (s1 := foldl free_entry _ es) in *. clearbody s1.
  set (kf := kernel_end / FRAME_SIZE + 1).
  assert (Hkf : 1 <= kf <= MAX_FRAMES) by (subst kf; unfold FRAME_SIZE, MAX_FRAMES; dlia).
  destruct (reserve_kernel_spec s1 0 (Z.to_nat kf) Hc1) as (Hc2 & Hf2 & _); [lia|lia|].
  set (s2 := reserve_kernel s1 0 _) in *. clearbody s2.
  assert (Hfree : forall f, 0 <= f < MAX_FRAMES -> frame_free s2 f = usable es f && (kf <=? f)).
  { intros f Hf. rewrite Hf2, Hf1, Hb2, (proj2 (Z.ltb_lt f MAX_FRAMES)) by lia.
    rewrite orb_false_r, andb_true_r, Z2Nat.id by lia.
    destruct (Z.leb_spec 0 f), (Z.ltb_spec f (0 + kf)), (Z.leb_spec kf f); cbn; try lia;
      destruct (usable es f); done. }
  destruct Hc2 as [Hwf Ht]. set (s := mk_pmm _ _ 0).
  assert (Hcs : free_count s = free_count s2) by (by apply free_count_bitmap).
  assert (Hcap2 : free_count s2 <= MAX_FRAMES / 2).
  { etrans; [|exact Hcap]. unfold free_count. generalize (Z.to_nat MAX_FRAMES) as n.
    intros n. assert (G : forall f, frame_free s2 f = true -> usable es f = true).
    { intros f E. pose proof E as E'. apply frame_free_true in E' as [Hin _]. rewrite Hfree in E by done.
      by apply andb_true_iff in E as [? _]. }
    revert G. generalize (frame_free s2) as p, (usable es) as q, 0 as lo. clear.
    induction n as [|n IH]; intros p q lo G; cbn [count_from]; [lia|].
    specialize (IH p q (lo + 1) G). specialize (G lo). destruct (p lo), (q lo); lia || naive_solver. }
  pose proof (free_count_bounds s2) as Hbd.
  exists s. split; [done|].
  assert (Hz : u32 (total_frames s2 - 0) = free_count s2).
  { rewrite Ht, Z.sub_0_r. apply u32_small. unfold is_u32, MAX_FRAMES in *. lia. }
  split; [|rewrite Hcs; split; [exact Ht|split; [exact Hz|exact Hfree]]].
  split; cbn [s frame_bitmap total_frames used_frames];
    [done| |lia|unfold is_u32; lia|rewrite Hcs, Hz; reflexivity].
  destruct (bitmap_test (frame_bitmap s2) 0) eqn:E; [done|].
  assert (frame_free s2 0 = true) as E2 by (apply frame_free_true; unfold frame_in, MAX_FRAMES; split; [lia|done]).
  rewrite Hfree in E2 by (unfold MAX_FRAMES; lia). apply andb_true_iff in E2 as [_ E2]. zbool. lia.
Qed.

(** ** Operations over time *)
Inductive pmm_op :=
| OpAlloc
| OpFree (a : Z).

Definition pmm_step (s : pmm) (op : pmm_op) : pmm :=
  match op with OpAlloc => fst (pmm_alloc_frame s) | OpFree a => pmm_free_frame s a end.


(** [pmm_alloc_frame] returns the lowest free frame, page aligned and
    never 0, and marks only it; releasing it restores the allocator exactly.
    It reports exhaustion only when no frame below its scan bound is free. *)
Theorem pmm_alloc_lowest s :
  pmm_inv s ->
  match pmm_alloc_frame s with
  | (s', 0) => s' = s /\
      forall f, 0 <= f < u32 (total_frames s + used_frames s) -> frame_free s f = false
  | (s', a) => a mod 4096 = 0 /\ frame_free s (a / 4096) = true /\
      (forall f, f < a / 4096 -> frame_free s f = false) /\
      (forall f, frame_free s' f = negb (f =? a / 4096) && frame_free s f) /\
      pmm_free_frame s' a = s
  end.
Proof.
  intros Hinv. destruct (pmm_alloc_frame s) as [s' a] eqn:E.
  destruct (alloc_cases s s' a Hinv E) as [(-> & -> & Hno)|(i & -> & Hi & Hf & Hmin & ->)]; [done|].
  assert (Hq : i * FRAME_SIZE / FRAME_SIZE = i) by (unfold FRAME_SIZE; dlia).
  change 4096 with FRAME_SIZE. pose proof Hf as Hf'. apply frame_free_true in Hf' as [Hin Hb].
  pose proof (pi_wf _ Hinv) as Hwf. pose proof (pi_used _ Hinv) as Hu.
  assert (G : (i * FRAME_SIZE) mod FRAME_SIZE = 0 /\ frame_free s (i * FRAME_SIZE / FRAME_SIZE) = true /\
    (forall f, f < i * FRAME_SIZE / FRAME_SIZE -> frame_free s f = false) /\
    (forall f, frame_free (mk_pmm (bitmap_set (frame_bitmap s) i) (total_frames s) (u32 (used_frames s + 1))) f =
       negb (f =? i * FRAME_SIZE / FRAME_SIZE) && frame_free s f) /\
    pmm_free_frame (mk_pmm (bitmap_set (frame_bitmap s) i) (total_frames s) (u32 (used_frames s + 1)))
      (i * FRAME_SIZE) = s).
  2:{ destruct (i * FRAME_SIZE) eqn:Ea; [unfold FRAME_SIZE in Ea; lia|done..]. }
  rewrite Hq. split; [unfold FRAME_SIZE; dlia|]. split; [done|]. split; [done|].
  destruct s as [bm t u]. cbn [frame_bitmap total_frames used_frames] in *.
  split; [intros f; by rewrite (frame_free_set bm t u)|].
  unfold pmm_free_frame. rewrite Hq. cbn [frame_bitmap total_frames used_frames].
  rewrite bitmap_set_test, Z.eqb_refl by done. cbn [orb]. f_equal.
  - unfold bitmap_clear, bitmap_set. destruct (word_lookup bm i Hwf Hin) as (w & Hw & Hw' & Hwu).
    pose proof (lookup_lt_Some _ _ _ Hw) as Hlt. rewrite Hw'. unfold bitmap_word at 1.
    rewrite list_lookup_insert_eq by done. cbn [from_option id]. unfold id.
    rewrite list_insert_insert_eq.
    apply list_insert_id. rewrite Hw. f_equal. apply Z.bits_inj'. intros k Hk.
    rewrite Z.land_spec, Z.lor_spec, Z.lnot_spec, frame_bit_pow by done.
    rewrite bitmap_test_bit, Hw' in Hb. destruct (decide (k = i mod 32)) as [->|Hne].
    + rewrite Z.pow2_bits_true by dlia. by rewrite Hb, andb_false_r.
    + rewrite Z.pow2_bits_false by done. by rewrite orb_false_r, andb_true_r.
  - unfold u32, is_u32 in *. dlia.
Qed.

(** ** Instances of the theorems *)

(** A machine with frames 1 to 4 free. *)
Definition small_pmm : pmm := free_region (mk_pmm blank_bitmap 0 0) 1 4.

Lemma small_pmm_inv : pmm_inv small_pmm.
Proof.
  destruct (blank_counted 0) as [Hb1 Hb2].
  destruct (free_region_spec (mk_pmm blank_bitmap 0 0) 1 4 Hb1 ltac:(lia)) as [[Hwf Ht] Hf];
    [intros; apply Hb2|]. fold small_pmm in *.
  assert (E : total_frames small_pmm = 4) by (vm_compute; reflexivity).
  assert (U : used_frames small_pmm = 0) by (vm_compute; reflexivity).
  split.
  - exact Hwf.
  - vm_compute. reflexivity.
  - rewrite E. vm_compute. split; discriminate.
  - rewrite U. unfold is_u32. lia.
  - rewrite <- Ht, E, U. reflexivity.
Qed.

Lemma pmm_alloc_lowest_witness :
  snd (pmm_alloc_frame small_pmm) = 4096 /\
  pmm_free_frame (fst (pmm_alloc_frame small_pmm)) 4096 = small_pmm.
Proof.
  pose proof (pmm_alloc_lowest small_pmm small_pmm_inv) as T.
  assert (E : snd (pmm_alloc_frame small_pmm) = 4096) by (vm_compute; reflexivity).
  split; [exact E|]. destruct (pmm_alloc_frame small_pmm) as [s' a]. cbn [fst snd] in *. subst a.
  apply T.
Defined.


(** One usable megabyte at 1 MB, described at address 4096. *)
Definition grub_mem (a : Z) : Z :=
  byte_at (put_le32 20 ++ put_le32 1048576 ++ put_le32 0 ++ put_le32 1048576 ++ put_le32 0 ++ put_le32 1)
    (a - 4096).
Definition grub_info : multiboot_info := mk_multiboot 64 24 4096.
Definition grub_region : mmap_entry := mk_mmap 20 1048576 1048576 1.

Lemma grub_entries : mmap_entries 3 grub_mem grub_info = OK [grub_region].
Proof. vm_compute. reflexivity. Qed.

Lemma grub_usable f : usable [grub_region] f = (256 <=? f) && (f <? 512).
Proof. cbn [usable existsb]. rewrite orb_false_r. reflexivity. Qed.

Lemma pmm_init_witness :
  exists s, pmm_init 3 grub_mem grub_info 1200000 (mk_pmm [] 0 0) = OK s /\
    frame_free s 400 = true /\ frame_free s 256 = false /\ frame_free s 600 = false.
Proof.
  destruct (pmm_init_spec 3 grub_mem grub_info 1200000 [] [grub_region]) as (s & E & _ & _ & _ & F);
    [reflexivity|apply grub_entries|split; [reflexivity|exact I]|lia| |].
  - rewrite (count_from_ext _ (fun f => (256 <=? f) && (f <? 512))) by (intros; apply grub_usable).
    vm_compute. discriminate.
  - exists s. split; [exact E|]. rewrite !F by (unfold MAX_FRAMES; lia).
    rewrite !grub_usable. vm_compute. repeat split.
Defined.

(** ** The scan bound

    [pmm_alloc_frame] scans the frames below [total_frames + used_frames].
    Reserved frames push usable memory above that bound: of the 256 frames at
    1 MB in the map above none is ever found, although all of them are
    counted as free. *)
Example scan_bound_misses_free_frames :
  match pmm_init 3 grub_mem grub_info 0 (mk_pmm [] 0 0) with
  | OK s => pmm_get_free_frame_count s = 256 /\ snd (pmm_alloc_frame s) = 0
  | _ => False
  end.
Proof. vm_compute. split; reflexivity. Qed.
