(* ===== verification/Heap.v ===== *)
(** * The kernel heap and the user heap (src/src/heap.c, src/userspace/libc.c)

    Both allocators are first-fit free lists with block splitting and
    coalescing; [malloc] and [free] of the C library repeat [kmalloc] and
    [kfree].  The block headers are a store of linked structures, indexed by
    address; an abstract heap is the list of blocks from the start of the
    heap on. *)
From S2P Require Import Prelude.

Definition HEAP_SIZE : Z := 1048576.
Definition USER_HEAP_SIZE : Z := 65536.
Definition HEADER : Z := 16.
Definition MIN_SPLIT : Z := 16.

(** ** Concrete heaps *)

(** [struct block_header]; a null pointer is 0. *)
Record block_header := mk_block {
  b_size : Z;
  b_free : bool;
  b_next : Z;
  b_prev : Z }.

Abbreviation store := (gmap Z block_header).

(** [heap_start] (0 before initialisation), [heap_ready], and the headers. *)
Record heap := mk_heap {
  heap_start : Z;
  heap_ready : bool;
  headers : store }.

Definition align_up (size : Z) : Z := Z.land (u32 (size + 7)) 4294967288.

Definition heap_init (kernel_end : Z) (h : heap) : list tty * heap :=
  let start := align_up kernel_end in
  ([TLn "Heap initialized"],
   mk_heap start true
     (<[start := mk_block (HEAP_SIZE - HEADER) true 0 0]> (headers h))).

(** [p->prev = q] for a block pointer [p] that is not null; [Err] is an access
    to memory that holds no header. *)
Definition set_prev (m : store) (p q : Z) : res store :=
  if p =? 0 then OK m
  else match m !! p with
       | None => Err
       | Some b => OK (<[p := mk_block (b_size b) (b_free b) (b_next b) q]> m)
       end.

Definition split_block (m : store) (block size : Z) : res store :=
  match m !! block with
  | None => Err
  | Some b =>
      if b_size b <? u32 (size + HEADER + MIN_SPLIT) then OK m
      else
        let new_block := u32 (block + HEADER + size) in
        let m1 := <[new_block := mk_block (b_size b - size - HEADER) true (b_next b) block]> m in
        let! m2 := set_prev m1 (b_next b) new_block in
        OK (<[block := mk_block size (b_free b) new_block (b_prev b)]> m2)
  end.

Definition set_free (m : store) (p : Z) (f : bool) : res store :=
  match m !! p with
  | None => Err
  | Some b => OK (<[p := mk_block (b_size b) f (b_next b) (b_prev b)]> m)
  end.

(** The search loop: the store and the payload address, 0 if none fits. *)
Fixpoint first_fit (fuel : nat) (m : store) (block size : Z) : res (store * Z) :=
  match fuel with
  | O => Fuel
  | S fuel' =>
      if block =? 0 then OK (m, 0)
      else match m !! block with
      | None => Err
      | Some b =>
          if b_free b && (size <=? b_size b) then
            let! m1 := split_block m block size in
            let! m2 := set_free m1 block false in
            OK (m2, u32 (block + HEADER))
          else first_fit fuel' m (b_next b) size
      end
  end.

Definition set_headers (h : heap) (m : store) : heap := mk_heap (heap_start h) (heap_ready h) m.

Definition kmalloc (fuel : nat) (h : heap) (size : Z) : res (heap * Z) :=
  if negb (heap_ready h) || (size =? 0) then OK (h, 0)
  else
    let! (m, p) := first_fit fuel (headers h) (heap_start h) (align_up size) in
    OK (set_headers h m, p).

(** Merges block [b] into block [a]. *)
Definition coalesce (m : store) (a b : Z) : res store :=
  match m !! a, m !! b with
  | Some ha, Some hb =>
      let m1 := <[a := mk_block (u32 (b_size ha + HEADER + b_size hb)) (b_free ha)
                         (b_next hb) (b_prev ha)]> m in
      set_prev m1 (b_next hb) a
  | _, _ => Err
  end.

(** [p != NULL && p->free] *)
Definition is_free (m : store) (p : Z) : res bool :=
  if p =? 0 then OK false
  else match m !! p with Some b => OK (b_free b) | None => Err end.

(** The common part of [kfree] and [free], on a non-null pointer. *)
Definition release (m : store) (ptr : Z) : res store :=
  let block := u32 (ptr - HEADER) in
  let! m1 := set_free m block true in
  match m1 !! block with
  | None => Err
  | Some b1 =>
      let! nf := is_free m1 (b_next b1) in
      let! m2 := if nf : bool then coalesce m1 block (b_next b1) else OK m1 in
      match m2 !! block with
      | None => Err
      | Some b2 =>
          let! pf := is_free m2 (b_prev b2) in
          if pf : bool then coalesce m2 (b_prev b2) block else OK m2
      end
  end.

Definition kfree (h : heap) (ptr : Z) : res heap :=
  if ptr =? 0 then OK h
  else let! m := release (headers h) ptr in OK (set_headers h m).

(** ** The user heap: the same code, set up on the first call *)
Definition malloc_align_up : Z -> Z := align_up.
Definition malloc_split_block : store -> Z -> Z -> res store := split_block.
Definition malloc_coalesce : store -> Z -> Z -> res store := coalesce.

(** [user_heap] is the address of the static array. *)
Definition malloc (fuel : nat) (user_heap : Z) (h : heap) (size : Z) : res (heap * Z) :=
  if size =? 0 then OK (h, 0)
  else
    let h1 :=
      if heap_start h =? 0
      then mk_heap user_heap (heap_ready h)
             (<[user_heap := mk_block (USER_HEAP_SIZE - HEADER) true 0 0]> (headers h))
      else h in
    let! (m, p) := first_fit fuel (headers h1) (heap_start h1) (malloc_align_up size) in
    OK (set_headers h1 m, p).

Definition free (h : heap) (ptr : Z) : res heap :=
  if ptr =? 0 then OK h
  else let! m := release (headers h) ptr in OK (set_headers h m).

(** ** Abstract heaps *)

(** A block: its payload size and whether it is free. *)
Abbreviation block := (Z * bool)%type.

(** The bytes a list of blocks occupies, headers included. *)
Fixpoint extent (bs : list block) : Z :=
  match bs with [] => 0 | (sz, _) :: bs' => HEADER + sz + extent bs' end.

(** First fit on the list: the new list and the offset of the block taken. *)
Fixpoint list_alloc (size : Z) (bs : list block) : option (list block * Z) :=
  match bs with
  | [] => None
  | (sz, fr) :: bs' =>
      if fr && (size <=? sz) then
        Some (if sz <? size + HEADER + MIN_SPLIT then (sz, false) :: bs'
              else (size, false) :: (sz - size - HEADER, true) :: bs', 0)
      else match list_alloc size bs' with
           | Some (bs'', o) => Some ((sz, fr) :: bs'', HEADER + sz + o)
           | None => None
           end
  end.

(** Releasing the block of size [sz] between [l] and [r]. *)
Definition merge_right (sz : Z) (r : list block) : Z * list block :=
  match r with (s2, true) :: r' => (sz + HEADER + s2, r') | _ => (sz, r) end.

Definition list_free (l : list block) (sz : Z) (r : list block) : list block :=
  let '(sz1, r1) := merge_right sz r in
  match last l with
  | Some (s0, true) => take (length l - 1) l ++ (s0 + HEADER + sz1, true) :: r1
  | _ => l ++ (sz1, true) :: r1
  end.

(** The payloads in use, as (address, size) pairs, from address [a] on. *)
Fixpoint in_use (a : Z) (bs : list block) : list (Z * Z) :=
  match bs with
  | [] => []
  | (sz, fr) :: bs' =>
      (if fr : bool then [] else [(a + HEADER, sz)]) ++ in_use (a + HEADER + sz) bs'
  end.

(** No two neighbouring blocks are both free. *)
Fixpoint no_adjacent (bs : list block) : Prop :=
  match bs with
  | (_, f1) :: (((_, f2) :: _) as bs') => f1 && f2 = false /\ no_adjacent bs'
  | _ => True
  end.

(** ** The store represents the list

    [seg m p a bs p' a']: the blocks [bs] are linked from address [a], whose
    predecessor is [p], contiguously up to a last block [p'] whose successor
    is [a']. *)
Fixpoint seg (m : store) (p a : Z) (bs : list block) (p' a' : Z) : Prop :=
  match bs with
  | [] => p = p' /\ a = a'
  | (sz, fr) :: bs' =>
      a <> 0 /\ exists nxt, m !! a = Some (mk_block sz fr nxt p) /\
        (nxt = 0 \/ nxt = a + HEADER + sz) /\ seg m a nxt bs' p' a'
  end.

(** The invariant of a heap of [total] bytes at [start]. *)
Record heap_rep (m : store) (start total : Z) (bs : list block) : Prop := {
  hr_links : exists p, seg m 0 start bs p 0;
  hr_start : 0 < start;
  hr_align : start mod 8 = 0;
  hr_room : start + total + 64 <= 4294967296;
  hr_extent : extent bs = total;
  hr_sizes : Forall (fun '(sz, _) => 0 <= sz /\ sz mod 8 = 0) bs;
  hr_merged : no_adjacent bs }.

(** ** Segments *)
Definition sizes_ok (bs : list block) : Prop := Forall (fun '(sz, _) => 0 <= sz /\ sz mod 8 = 0) bs.

Lemma extent_app l r : extent (l ++ r) = extent l + extent r.
Proof. induction l as [|[sz fr] l IH]; cbn [extent app]; [done|]. lia. Qed.

Lemma extent_nonneg bs : sizes_ok bs -> 0 <= extent bs.
Proof. induction 1 as [|[sz fr] bs [? _] _ IH]; cbn [extent]; unfold HEADER in *; lia. Qed.

Lemma in_use_app a l r : in_use a (l ++ r) = in_use a l ++ in_use (a + extent l) r.
Proof.
  revert a. induction l as [|[sz fr] l IH]; intros a; cbn [in_use app extent]; [by rewrite Z.add_0_r|].
  rewrite IH, app_assoc. do 2 f_equal. lia.
Qed.

Lemma seg_app m p a l r p' a' :
  seg m p a (l ++ r) p' a' <-> exists q c, seg m p a l q c /\ seg m q c r p' a'.
Proof.
  revert p a. induction l as [|[sz fr] l IH]; intros p a; cbn [seg app].
  - split; [by eauto|]. intros (q & c & [-> ->] & ?). done.
  - split.
    + intros (Ha & nxt & Hm & Hn & Hs). apply IH in Hs as (q & c & H1 & H2).
      exists q, c. split; [|done]. split; [done|]. eauto.
    + intros (q & c & (Ha & nxt & Hm & Hn & H1) & H2). split; [done|].
      exists nxt. split; [done|]. split; [done|]. apply IH. eauto.
Qed.

(** A segment is a stretch of memory: it ends where its extent says. *)
Lemma seg_end m p a bs p' a' : seg m p a bs p' a' -> a' = 0 \/ a' = a + extent bs.
Proof.
  revert p a. induction bs as [|[sz fr] bs IH]; intros p a; cbn [seg extent].
  - intros [_ ->]. right. lia.
  - intros (Ha & nxt & _ & Hn & Hs). pose proof (IH _ _ Hs) as [?|He]; [by left|].
    destruct Hn as [-> | ->]; [|right; lia]. destruct bs as [|[s2 f2] bs']; cbn [seg] in Hs.
    + destruct Hs as [_ ->]. by left.
    + by destruct Hs as [? _].
Qed.

(** Only the headers inside a segment matter to it. *)
Lemma seg_frame m m' p a bs p' a' :
  seg m p a bs p' a' -> sizes_ok bs ->
  (forall x, a <= x < a + extent bs -> m' !! x = m !! x) -> seg m' p a bs p' a'.
Proof.
  revert p a. induction bs as [|[sz fr] bs IH]; intros p a; cbn [seg extent]; [done|].
  intros (Ha & nxt & Hm & Hn & Hs) Hok Hf. apply Forall_cons in Hok as [[Hsz _] Hok].
  pose proof (extent_nonneg bs Hok). unfold HEADER in *.
  split; [done|]. exists nxt. split; [rewrite Hf; [done|lia]|]. split; [done|].
  destruct bs as [|b bs]; [done|]. apply IH; [done..|]. intros x Hx. apply Hf.
  destruct Hn as [->|Hn]; [|lia]. destruct b as [s2 f2]. cbn in Hs. by destruct Hs.
Qed.

(** Redirecting the back pointer at the head of a segment. *)
Lemma seg_set_prev m p a bs p' a' q :
  seg m p a bs p' 0 -> a = 0 \/ a = a' -> sizes_ok bs -> 0 < a' ->
  exists m', set_prev m a q = OK m' /\
    (exists p2, seg m' q a bs p2 0) /\ forall x, x < a' -> m' !! x = m !! x.
Proof.
  intros Hs Ha Hok H0. unfold set_prev. destruct bs as [|[sz fr] bs].
  - cbn in Hs. destruct Hs as [_ ->]. exists m. split; [done|]. split; [by exists q|done].
  - cbn [seg] in Hs. destruct Hs as (Hne & nxt & Hm & Hn & Hs).
    destruct Ha as [?|Ha]; [done|]. subst a'.
    destruct (Z.eqb_spec a 0) as [|_]; [done|]. rewrite Hm. cbn.
    eexists. split; [done|]. split.
    + exists p'. split; [done|]. exists nxt. rewrite lookup_insert_eq. split; [done|]. split; [done|].
      apply Forall_cons in Hok as [[Hsz _] Hok].
      destruct bs as [|b bs]; [done|]. eapply seg_frame; [done|done|].
      intros x Hx. rewrite lookup_insert_ne; [done|]. unfold HEADER in *.
      destruct Hn as [->|Hn]; [destruct b; cbn in Hs; by destruct Hs|lia].
    + intros x Hx. by rewrite lookup_insert_ne by lia.
Qed.

(** A segment that starts at a null pointer is empty. *)
Lemma seg_null m p bs p' a' : seg m p 0 bs p' a' -> bs = [].
Proof. destruct bs as [|[sz fr] bs]; [done|]. cbn. by intros [? _]. Qed.

Lemma split_block_spec m p a sz nxt bs p' size :
  m !! a = Some (mk_block sz true nxt p) -> 0 < a -> nxt = 0 \/ nxt = a + HEADER + sz ->
  seg m a nxt bs p' 0 -> sizes_ok bs -> sz mod 8 = 0 ->
  0 <= size <= sz -> size mod 8 = 0 -> a + HEADER + sz + 64 <= 4294967296 ->
  exists m' sz' nxt' rest p2, split_block m a size = OK m' /\
    m' !! a = Some (mk_block sz' true nxt' p) /\ (nxt' = 0 \/ nxt' = a + HEADER + sz') /\
    seg m' a nxt' rest p2 0 /\ sizes_ok rest /\ 0 <= sz' /\ (forall x, x < a -> m' !! x = m !! x) /\
    (sz', false) :: rest =
      if sz <? size + HEADER + MIN_SPLIT then (sz, false) :: bs
      else (size, false) :: (sz - size - HEADER, true) :: bs.
Proof.
  intros Hm H0 Hn Hs Hok Hmod Hsz Hsm Hroom. unfold split_block. rewrite Hm.
  cbn [b_size b_next b_prev b_free]. unfold HEADER, MIN_SPLIT in *.
  rewrite (u32_small (size + 16 + 16)) by (unfold is_u32; lia).
  destruct (Z.ltb_spec sz (size + 16 + 16)) as [Hlt|Hge].
  { exists m, sz, nxt, bs, p'. split; [done|]. split; [done|]. split; [done|]. split; [done|].
    split; [done|]. split; [lia|done]. }
  rewrite (u32_small (a + 16 + size)) by (unfold is_u32; lia). set (nb := a + 16 + size).
  set (m1 := <[nb := mk_block (sz - size - 16) true nxt a]> m).
  assert (Hs1 : seg m1 a nxt bs p' 0).
  { destruct bs as [|b bs]; [done|]. eapply seg_frame; [done|done|]. intros x Hx.
    unfold m1. rewrite lookup_insert_ne; [done|].
    destruct Hn as [->|Hn]; [by apply seg_null in Hs|subst nb; lia]. }
  destruct (seg_set_prev m1 a nxt bs p' (a + 16 + sz) nb Hs1 Hn Hok) as (m2 & E & (p2 & Hs2) & Hf); [lia|].
  rewrite E. cbn [rbind].
  assert (Hnb : m2 !! nb = Some (mk_block (sz - size - 16) true nxt a))
    by (rewrite Hf by (subst nb; lia); apply lookup_insert_eq).
  exists (<[a := mk_block size true nb p]> m2), size, nb, ((sz - size - 16, true) :: bs), p2.
  split; [done|]. split; [apply lookup_insert_eq|]. split; [by right|]. split.
  - cbn [seg]. split; [subst nb; lia|]. exists nxt. rewrite lookup_insert_ne by (subst nb; lia).
    split; [done|]. split; [destruct Hn as [->|Hn]; [by left|right; subst nb; unfold HEADER; lia]|].
    destruct bs as [|b bs]; [done|]. eapply seg_frame; [done|done|]. intros x Hx.
    rewrite lookup_insert_ne; [done|].
    destruct Hn as [->|Hn]; [by apply seg_null in Hs|lia].
  - split; [constructor; [split; [lia|dlia]|done]|]. split; [lia|].
    split; [|done]. intros x Hx. rewrite lookup_insert_ne by lia. rewrite Hf by lia.
    unfold m1. by rewrite lookup_insert_ne by (subst nb; lia).
Qed.

Lemma first_fit_spec fuel m p a bs p' size :
  seg m p a bs p' 0 -> sizes_ok bs -> 0 <= size -> size mod 8 = 0 -> (a = 0 \/ 0 < a) ->
  a + extent bs + 64 <= 4294967296 -> (length bs < fuel)%nat ->
  match list_alloc size bs with
  | None => first_fit fuel m a size = OK (m, 0)
  | Some (bs', o) => exists m' p2, first_fit fuel m a size = OK (m', a + o + HEADER) /\
      seg m' p a bs' p2 0 /\ 0 <= o < extent bs /\ 0 < a /\ forall x, x < a -> m' !! x = m !! x
  end.
Proof.
  revert m p a bs. induction fuel as [|fuel IH]; intros m p a bs Hs Hok Hsz Hsm Ha Hroom Hf; [lia|].
  cbn [first_fit]. destruct bs as [|[sz fr] bs].
  { cbn in Hs |- *. by destruct Hs as [_ ->]. }
  cbn [seg] in Hs. destruct Hs as (Hne & nxt & Hm & Hn & Hs).
  destruct (Z.eqb_spec a 0) as [|_]; [done|]. destruct Ha as [?|Ha]; [done|]. rewrite Hm.
  apply Forall_cons in Hok as [[Hsz0 Hmod] Hok]. pose proof (extent_nonneg bs Hok) as Hex.
  cbn [extent] in Hroom |- *. cbn [b_free b_size b_next list_alloc].
  destruct (fr && (size <=? sz)) eqn:Hfit.
  - apply andb_true_iff in Hfit as [-> Hle]. zbool.
    destruct (split_block_spec m p a sz nxt bs p' size Hm Ha Hn Hs Hok Hmod)
      as (m1 & sz' & nxt' & rest & p2 & E & Hm1 & Hn1 & Hs1 & Hok1 & Hsz1 & Hfr & Hbs);
      [lia|done|unfold HEADER in *; lia|].
    rewrite E. cbn [rbind]. unfold set_free. rewrite Hm1. cbn [rbind b_size b_next b_prev].
    rewrite u32_small by (unfold is_u32, HEADER in *; lia).
    exists (<[a := mk_block sz' false nxt' p]> m1), p2. rewrite Z.add_0_r.
    split; [done|]. split.
    + rewrite <- Hbs. cbn [seg]. split; [done|]. exists nxt'. split; [apply lookup_insert_eq|].
      split; [done|]. destruct rest as [|b rest]; [done|]. 
      eapply seg_frame; [done|done|]. intros x Hx. rewrite lookup_insert_ne; [done|].
      destruct Hn1 as [->|Hn1]; [by apply seg_null in Hs1|unfold HEADER in *; lia].
    + split; [unfold HEADER in *; lia|]. split; [done|]. intros x Hx.
      rewrite lookup_insert_ne by lia. by apply Hfr.
  - destruct bs as [|b bs].
    { cbn in Hs. destruct Hs as [_ ->]. cbn [list_alloc].
      destruct fuel as [|fuel]; [cbn in Hf; lia|done]. }
    destruct Hn as [->|Hn]; [by apply seg_null in Hs|].
    specialize (IH m a nxt (b :: bs) Hs Hok Hsz Hsm).
    destruct (list_alloc size (b :: bs)) as [[bs' o]|] eqn:El.
    + destruct IH as (m' & p2 & E & Hs' & Ho & _ & Hfr); [right; unfold HEADER in *; lia|lia|cbn in Hf |- *; lia|].
      exists m', p2. split; [rewrite E; do 2 f_equal; lia|]. split.
      * cbn [seg]. split; [done|]. exists nxt. rewrite Hfr by (unfold HEADER in *; lia).
        split; [done|]. split; [by right|done].
      * split; [unfold HEADER in *; lia|]. split; [done|]. intros x Hx. apply Hfr. unfold HEADER in *. lia.
    + apply IH; [right; unfold HEADER in *; lia|lia|cbn in Hf |- *; lia].
Qed.

(** ** Releasing *)
Lemma coalesce_seg m p a s1 f1 s2 f2 r p' :
  seg m p a ((s1, f1) :: (s2, f2) :: r) p' 0 -> 0 < a -> sizes_ok ((s1, f1) :: (s2, f2) :: r) ->
  a + extent ((s1, f1) :: (s2, f2) :: r) + 64 <= 4294967296 ->
  exists m' p2, coalesce m a (a + HEADER + s1) = OK m' /\
    seg m' p a ((s1 + HEADER + s2, f1) :: r) p2 0 /\ forall x, x < a -> m' !! x = m !! x.
Proof.
  intros Hs H0 Hok Hroom. cbn [seg extent] in *.
  destruct Hs as (_ & nxt & Hm & Hn & Hne & nxt2 & Hm2 & Hn2 & Hs).
  destruct Hn as [?|Hn]; [done|].
  apply Forall_cons in Hok as [[Hs1 _] Hok]. apply Forall_cons in Hok as [[Hs2 _] Hok].
  pose proof (extent_nonneg r Hok). unfold HEADER in *.
  unfold coalesce. rewrite <- Hn, Hm, Hm2. cbn [b_size b_free b_next b_prev]. unfold HEADER.
  rewrite u32_small by (unfold is_u32; lia).
  set (m1 := <[a := mk_block (s1 + 16 + s2) f1 nxt2 p]> m).
  assert (Hs1' : seg m1 nxt nxt2 r p' 0).
  { destruct r as [|b r]; [done|]. eapply seg_frame; [done|done|]. intros x Hx.
    unfold m1. rewrite lookup_insert_ne; [done|].
    destruct Hn2 as [->|Hn2]; [by apply seg_null in Hs|lia]. }
  destruct (seg_set_prev m1 nxt nxt2 r p' (nxt + 16 + s2) a Hs1' Hn2 Hok) as (m2 & E & (p2 & Hs2') & Hf);
    [lia|].
  exists m2, p2. split; [done|]. split.
  - split; [lia|]. exists nxt2. rewrite Hf by lia. split; [apply lookup_insert_eq|].
    split; [destruct Hn2 as [->|Hn2]; [by left|right; lia]|done].
  - intros x Hx. rewrite Hf by lia. unfold m1. by rewrite lookup_insert_ne by lia.
Qed.

Lemma is_free_head m p a bs p' :
  seg m p a bs p' 0 -> is_free m a = OK (match bs with (_, f) :: _ => f | [] => false end).
Proof.
  destruct bs as [|[sz fr] bs]; cbn [seg].
  - by intros [_ ->].
  - intros (Hne & nxt & Hm & _). unfold is_free. destruct (Z.eqb_spec a 0) as [|_]; [done|].
    by rewrite Hm.
Qed.

Lemma is_free_last m a l q c :
  seg m 0 a l q c -> is_free m q = OK (match last l with Some (_, f) => f | None => false end).
Proof.
  destruct l as [|[s0 f0] l _] using rev_ind; cbn [seg].
  - by intros [<- _].
  - rewrite seg_app, last_snoc. intros (q1 & c1 & _ & (Hne & nxt & Hm & _ & -> & _)).
    unfold is_free. destruct (Z.eqb_spec q 0) as [|_]; [done|]. by rewrite Hm.
Qed.

(** The block in the middle, marked free. *)
Lemma set_free_seg m a l sz fr r p :
  seg m 0 a (l ++ (sz, fr) :: r) p 0 -> 0 < a -> sizes_ok (l ++ (sz, fr) :: r) ->
  exists m1 q nxt, set_free m (a + extent l) true = OK m1 /\
    m1 !! (a + extent l) = Some (mk_block sz true nxt q) /\
    seg m1 0 a l q (a + extent l) /\ seg m1 q (a + extent l) ((sz, true) :: r) p 0.
Proof.
  intros Hs H0 Hok. apply seg_app in Hs as (q & c & Hl & Hr).
  pose proof (seg_end _ _ _ _ _ _ Hl) as Hc. cbn [seg] in Hr.
  destruct Hr as (Hne & nxt & Hm & Hn & Hr). destruct Hc as [?|Hc]; [done|]. rewrite <- Hc.
  unfold sizes_ok in Hok. apply Forall_app in Hok as [Hokl Hokr].
  apply Forall_cons in Hokr as [[Hsz _] Hokr]. pose proof (extent_nonneg l Hokl).
  unfold set_free. rewrite Hm. cbn [b_size b_next b_prev].
  eexists _, q, nxt. split; [done|]. split; [apply lookup_insert_eq|]. split.
  - eapply seg_frame; [done|done|]. intros x Hx. rewrite lookup_insert_ne by lia. done.
  - cbn [seg]. split; [done|]. exists nxt. split; [apply lookup_insert_eq|]. split; [done|].
    destruct r as [|b r]; [done|]. eapply seg_frame; [done|done|]. intros x Hx.
    rewrite lookup_insert_ne; [done|]. unfold HEADER in *.
    destruct Hn as [->|Hn]; [by apply seg_null in Hr|lia].
Qed.

Lemma merge_right_extent sz r : HEADER + fst (merge_right sz r) + extent (snd (merge_right sz r)) = HEADER + sz + extent r.
Proof. destruct r as [|[s2 [|]] r]; cbn; lia. Qed.

Lemma merge_right_sizes sz r f : sizes_ok ((sz, f) :: r) -> sizes_ok ((fst (merge_right sz r), f) :: snd (merge_right sz r)).
Proof.
  intros Hok. destruct r as [|[s2 [|]] r]; cbn; try done.
  apply Forall_cons in Hok as [[? ?] Hok]. apply Forall_cons in Hok as [[? ?] Hok].
  constructor; [|done]. unfold HEADER. split; [lia|dlia].
Qed.

Lemma release_spec m a l sz r p :
  seg m 0 a (l ++ (sz, false) :: r) p 0 -> 0 < a -> sizes_ok (l ++ (sz, false) :: r) ->
  a + extent (l ++ (sz, false) :: r) + 64 <= 4294967296 ->
  exists m' p2, release m (a + extent l + HEADER) = OK m' /\ seg m' 0 a (list_free l sz r) p2 0.
Proof.
  intros Hs H0 Hok Hroom.
  destruct (set_free_seg m a l sz false r p Hs H0 Hok) as (m1 & q & nxt & E1 & Hc1 & Hl1 & Hr1).
  unfold sizes_ok in Hok. apply Forall_app in Hok as [Hokl Hokr].
  assert (Hokr' : sizes_ok ((sz, true) :: r)) by (by apply Forall_cons in Hokr as [? ?]; constructor).
  pose proof (extent_nonneg l Hokl) as Hel. pose proof (extent_nonneg _ Hokr') as Her.
  rewrite extent_app in Hroom. cbn [extent] in Hroom, Her.
  assert (Hcpos : 0 < a + extent l) by lia. set (c := a + extent l) in *.
  unfold release. rewrite u32_small by (unfold is_u32, HEADER in *; lia).
  replace (c + HEADER - HEADER) with c by lia. rewrite E1. cbn [rbind]. rewrite Hc1.
  cbn [b_next b_prev].
  (* the right neighbour *)
  assert (Hright : exists m2 p2 nx, (let! nf := is_free m1 nxt in
      (if nf : bool then coalesce m1 c nxt else OK m1)) = OK m2 /\
    m2 !! c = Some (mk_block (fst (merge_right sz r)) true nx q) /\
    seg m2 q c ((fst (merge_right sz r), true) :: snd (merge_right sz r)) p2 0 /\
    seg m2 0 a l q c).
  { pose proof Hr1 as Hr1'. cbn [seg] in Hr1. destruct Hr1 as (Hne & nx & Hc1' & Hn & Hr).
    assert (nx = nxt) as -> by congruence. rewrite (is_free_head _ _ _ _ _ Hr). cbn [rbind].
    destruct r as [|[s2 [|]] r]; cbn [merge_right fst snd];
      [by exists m1, p, nxt| |by exists m1, p, nxt].
    destruct Hn as [->|Hn]; [by apply seg_null in Hr|].
    destruct (coalesce_seg m1 q c sz true s2 true r p Hr1') as (m2 & p2 & E & Hs2 & Hf);
      [lia|done|cbn [extent] in *; lia|].
    rewrite <- Hn in E. pose proof Hs2 as (_ & nx & Hm2 & _).
    exists m2, p2, nx. split; [done|]. split; [done|]. split; [done|].
    eapply seg_frame; [done|done|]. intros x Hx. apply Hf. lia. }
  destruct Hright as (m2 & p2 & nx & E2 & Hc2 & Hr2 & Hl2).
  pose proof (merge_right_extent sz r) as Hme. pose proof (merge_right_sizes sz r true Hokr') as Hms.
  unfold list_free. destruct (merge_right sz r) as [sz1 r1]. cbn [fst snd] in *.
  destruct (is_free m1 nxt) as [nf| |] eqn:Enf; cbn [rbind] in E2 |- *; [|done..].
  rewrite E2. cbn [rbind]. rewrite Hc2. cbn [b_prev].
  (* the left neighbour *)
  rewrite (is_free_last _ _ _ _ _ Hl2). cbn [rbind].
  destruct l as [|[s0 f0] l _] using rev_ind.
  { cbn [last]. exists m2, p2. split; [done|]. destruct Hl2 as [<- <-]. done. }
  rewrite last_snoc. destruct f0.
  2:{ exists m2, p2. split; [done|]. apply seg_app. eauto. }
  apply seg_app in Hl2 as (q0 & c0 & Hl0 & Hlast). cbn [seg] in Hlast.
  destruct Hlast as (Hne0 & nx0 & Hm0 & Hn0 & -> & Enx). subst nx0.
  unfold sizes_ok in Hokl. apply Forall_app in Hokl as [Hok0 Hoks]. apply Forall_cons in Hoks as [Hs0 _].
  pose proof (seg_end _ _ _ _ _ _ Hl0) as [?|Hc0]; [done|].
  pose proof (extent_nonneg l Hok0) as Hel0. rewrite extent_app in *. cbn [extent] in *.
  destruct Hn0 as [?|Hn0]; [lia|].
  destruct (coalesce_seg m2 q0 q s0 true sz1 true r1 p2) as (m3 & p3 & E3 & Hs3 & Hf3).
  { cbn [seg]. split; [done|]. exists c. split; [done|]. split; [by right|]. exact Hr2. }
  { lia. } { by constructor. } { cbn [extent]. unfold HEADER in *. lia. }
  rewrite <- Hn0 in E3. exists m3, p3. split; [done|].
  rewrite length_app. cbn [length]. replace (length l + 1 - 1)%nat with (length l) by lia.
  rewrite take_app_length. apply seg_app. exists q0, q. split; [|done].
  eapply seg_frame; [done|done|]. intros x Hx. apply Hf3. lia.
Qed.

(** ** The abstract operations *)
Lemma list_alloc_split size bs bs' o :
  list_alloc size bs = Some (bs', o) ->
  exists l sz r, bs = l ++ (sz, true) :: r /\ size <= sz /\ o = extent l /\
    Forall (fun '(s, f) => f && (size <=? s) = false) l /\
    bs' = l ++ (if sz <? size + HEADER + MIN_SPLIT then (sz, false) :: r
                else (size, false) :: (sz - size - HEADER, true) :: r).
Proof.
  revert bs' o. induction bs as [|[sz fr] bs IH]; intros bs' o; cbn [list_alloc]; [done|].
  destruct (fr && (size <=? sz)) eqn:E.
  - apply andb_true_iff in E as [-> E]. zbool. intros [= <- <-]. by exists [], sz, bs.
  - destruct (list_alloc size bs) as [[bs'' o']|]; [|done]. intros [= <- <-].
    destruct (IH bs'' o' eq_refl) as (l & s & r & -> & Hs & -> & Hl & ->).
    exists ((sz, fr) :: l), s, r. split; [done|]. split; [done|]. split; [done|].
    split; [by constructor|done].
Qed.

Lemma list_alloc_none size bs :
  list_alloc size bs = None -> Forall (fun '(s, f) => f && (size <=? s) = false) bs.
Proof.
  induction bs as [|[sz fr] bs IH]; cbn [list_alloc]; [constructor|].
  destruct (fr && (size <=? sz)) eqn:E; [done|]. destruct (list_alloc size bs) as [[? ?]|]; [done|].
  intros _. constructor; [done|by apply IH].
Qed.

Lemma no_adjacent_app l b r :
  no_adjacent (l ++ b :: r) <->
  no_adjacent (l ++ [b]) /\ no_adjacent (b :: r).
Proof.
  destruct b as [sz fr]. induction l as [|[s0 f0] l IH]; cbn [app].
  - cbn. tauto.
  - destruct l as [|[s1 f1] l]; cbn [app] in *.
    + cbn [no_adjacent]. destruct r as [|[s2 f2] r]; cbn; tauto.
    + cbn [no_adjacent]. rewrite IH. tauto.
Qed.

(** The head of [r] (resp. the end of [l]) is not free. *)
Definition used_head (r : list block) : Prop := match r with (_, f) :: _ => f = false | [] => True end.
Definition used_last (l : list block) : Prop := match last l with Some (_, f) => f = false | None => True end.

Lemma no_adjacent_mid l sz fr r :
  no_adjacent (l ++ (sz, fr) :: r) ->
  no_adjacent l /\ no_adjacent r /\ (fr = true -> used_last l /\ used_head r).
Proof.
  rewrite no_adjacent_app. intros [H1 H2]. split; [|split].
  - destruct l as [|[s0 f0] l _] using rev_ind; [done|]. rewrite <- app_assoc in H1. cbn in H1.
    apply no_adjacent_app in H1 as [H1 _]. done.
  - destruct r as [|[s2 f2] r]; [done|]. by destruct H2.
  - intros ->. split.
    + unfold used_last. destruct l as [|[s0 f0] l _] using rev_ind; [done|]. rewrite last_snoc.
      rewrite <- app_assoc in H1. cbn in H1. apply no_adjacent_app in H1 as [_ [H1 _]]. by destruct f0.
    + unfold used_head. destruct r as [|[s2 f2] r]; [done|]. destruct H2 as [H2 _]. by destruct f2.
Qed.

Lemma no_adjacent_join l sz fr r :
  no_adjacent l -> no_adjacent r -> (fr = true -> used_last l /\ used_head r) ->
  no_adjacent (l ++ (sz, fr) :: r).
Proof.
  intros Hl Hr Hf. rewrite no_adjacent_app. split.
  - destruct l as [|[s0 f0] l _] using rev_ind; [done|]. rewrite <- app_assoc. cbn [app].
    apply no_adjacent_app. split; [done|]. split; [|done]. destruct fr; [|by destruct f0].
    destruct (Hf eq_refl) as [Hu _]. unfold used_last in Hu. rewrite last_snoc in Hu. by rewrite Hu.
  - destruct r as [|[s2 f2] r]; [done|]. split; [|done]. destruct fr; [|done].
    destruct (Hf eq_refl) as [_ Hu]. cbn in Hu. by rewrite Hu.
Qed.

Lemma used_last_snoc l sz : used_last (l ++ [(sz, false)]).
Proof. unfold used_last. by rewrite last_snoc. Qed.

Record alloc_result (a size : Z) (bs bs' : list block) (o n : Z) : Prop := {
  ar_extent : extent bs' = extent bs;
  ar_sizes : sizes_ok bs';
  ar_merged : no_adjacent bs';
  ar_size : size <= n;
  ar_use : in_use a bs' ≡ₚ (a + o + HEADER, n) :: in_use a bs;
  ar_undo : exists l r, bs' = l ++ (n, false) :: r /\ extent l = o /\ list_free l n r = bs }.

Lemma list_free_undo l sz r :
  used_last l -> used_head r -> list_free l sz r = l ++ (sz, true) :: r.
Proof.
  intros Hl Hr. unfold list_free. assert (merge_right sz r = (sz, r)) as ->.
  { destruct r as [|[s2 [|]] r]; [done|by cbn in Hr|done]. }
  unfold used_last in Hl. destruct (last l) as [[s0 [|]]|]; done.
Qed.

Lemma list_alloc_result a size bs bs' o :
  list_alloc size bs = Some (bs', o) -> sizes_ok bs -> no_adjacent bs -> 0 <= size -> size mod 8 = 0 ->
  exists n, alloc_result a size bs bs' o n.
Proof.
  intros Ha Hok Hadj H0 Hmod.
  destruct (list_alloc_split size bs bs' o Ha) as (l & sz & r & -> & Hle & -> & _ & ->).
  destruct (no_adjacent_mid _ _ _ _ Hadj) as (Hal & Har & Hu). destruct (Hu eq_refl) as [Hul Huh].
  unfold sizes_ok in *. apply Forall_app in Hok as [Hokl Hokr].
  apply Forall_cons in Hokr as [[Hsz Hszm] Hokr].
  destruct (Z.ltb_spec sz (size + HEADER + MIN_SPLIT)) as [Hlt|Hge].
  - exists sz. split.
    + by rewrite !extent_app.
    + apply Forall_app. split; [done|]. by constructor.
    + by apply no_adjacent_join.
    + done.
    + rewrite !in_use_app. cbn [in_use app]. symmetry. apply Permutation_middle.
    + exists l, r. split; [done|]. split; [done|]. by rewrite list_free_undo.
  - exists size. unfold HEADER, MIN_SPLIT in *. split.
    + rewrite !extent_app. cbn [extent]. unfold HEADER. lia.
    + apply Forall_app. split; [done|]. constructor; [lia|]. constructor; [split; [lia|dlia]|done].
    + apply no_adjacent_join; [done| |done].
      apply (no_adjacent_join []); [done..|]. intros _. split; [done|done].
    + lia.
    + rewrite !in_use_app. cbn [in_use app]. unfold HEADER.
      replace (a + extent l + 16 + size + 16 + (sz - size - 16)) with (a + extent l + 16 + sz) by lia.
      symmetry. apply Permutation_middle.
    + exists l, ((sz - size - 16, true) :: r). split; [done|]. split; [done|].
      unfold list_free, merge_right, HEADER. replace (size + 16 + (sz - size - 16)) with sz by lia.
      unfold used_last in Hul. destruct (last l) as [[s0 [|]]|]; done.
Qed.

(** Payloads in use lie in the heap and do not overlap. *)
Definition separated (us : list (Z * Z)) : Prop :=
  forall i j x n y k, us !! i = Some (x, n) -> us !! j = Some (y, k) -> i <> j ->
    x + n <= y \/ y + k <= x.

Lemma in_use_bounds a bs x n :
  sizes_ok bs -> (x, n) ∈ in_use a bs -> a + HEADER <= x /\ 0 <= n /\ x + n <= a + extent bs.
Proof.
  revert a. induction bs as [|[sz fr] bs IH]; intros a Hok; cbn [in_use extent];
    [by intros ?%not_elem_of_nil|].
  apply Forall_cons in Hok as [[Hsz _] Hok]. pose proof (extent_nonneg bs Hok).
  rewrite elem_of_app. intros [Hx|Hx].
  - destruct fr; [by apply not_elem_of_nil in Hx|]. apply list_elem_of_singleton in Hx. 
    injection Hx as -> ->. unfold HEADER in *. lia.
  - specialize (IH _ Hok Hx). unfold HEADER in *. lia.
Qed.

Lemma in_use_separated a bs : sizes_ok bs -> separated (in_use a bs).
Proof.
  revert a. induction bs as [|[sz fr] bs IH]; intros a Hok; cbn [in_use]; [intros i j x n y k Hi; done|].
  apply Forall_cons in Hok as [[Hsz _] Hok]. specialize (IH (a + HEADER + sz) Hok).
  destruct fr; [done|]. cbn [app]. intros [|i] [|j] x n y k Hi Hj Hne; [done|..]; cbn in Hi, Hj.
  - injection Hi as <- <-. apply list_elem_of_lookup_2 in Hj.
    pose proof (in_use_bounds _ _ _ _ Hok Hj). unfold HEADER in *. lia.
  - injection Hj as <- <-. apply list_elem_of_lookup_2 in Hi.
    pose proof (in_use_bounds _ _ _ _ Hok Hi). unfold HEADER in *. lia.
  - eapply IH; [done|done|]. congruence.
Qed.

Lemma align_up_spec size : 0 <= size < 4294967289 ->
  align_up size mod 8 = 0 /\ size <= align_up size < size + 8.
Proof.
  intros Hs. unfold align_up. rewrite u32_small by (unfold is_u32; lia).
  assert (E : Z.land (size + 7) 4294967288 = (size + 7) / 8 * 8).
  { change 4294967288 with (Z.ldiff (Z.ones 32) (Z.ones 3)).
    assert (Hl : Z.land (size + 7) (Z.ldiff (Z.ones 32) (Z.ones 3)) = Z.ldiff (size + 7) (Z.ones 3)).
    { rewrite <- (Z.mod_small (size + 7) (2 ^ 32)) at 2 by lia. rewrite <- Z.land_ones by lia.
      apply Z.bits_inj'. intros k Hk. rewrite !Z.land_spec, !Z.ldiff_spec, !Z.land_spec.
      destruct (Z.testbit (size + 7) k), (Z.testbit (Z.ones 32) k), (Z.testbit (Z.ones 3) k); done. }
    rewrite Hl, Z.ldiff_ones_r by lia. rewrite Z.shiftl_mul_pow2, Z.shiftr_div_pow2 by lia. done. }
  rewrite E. split; dlia.
Qed.

Lemma merge_right_merged sz r :
  no_adjacent r -> no_adjacent (snd (merge_right sz r)) /\ used_head (snd (merge_right sz r)).
Proof.
  destruct r as [|[s2 [|]] r]; cbn [merge_right snd]; [done| |done].
  intros H. split; [destruct r as [|[s3 f3] r]; [done|by destruct H]|].
  destruct r as [|[s3 f3] r]; [done|]. destruct H as [H _]. cbn. by destruct f3.
Qed.

Lemma merge_right_use a sz r :
  in_use (a + HEADER + fst (merge_right sz r)) (snd (merge_right sz r)) = in_use (a + HEADER + sz) r.
Proof.
  destruct r as [|[s2 [|]] r]; cbn [merge_right fst snd in_use app]; [done| |done].
  f_equal. unfold HEADER. lia.
Qed.

Lemma list_free_result a l sz r :
  sizes_ok (l ++ (sz, false) :: r) -> no_adjacent (l ++ (sz, false) :: r) ->
  extent (list_free l sz r) = extent (l ++ (sz, false) :: r) /\ sizes_ok (list_free l sz r) /\
  no_adjacent (list_free l sz r) /\
  in_use a (l ++ (sz, false) :: r) ≡ₚ (a + extent l + HEADER, sz) :: in_use a (list_free l sz r).
Proof.
  intros Hok Hadj. destruct (no_adjacent_mid _ _ _ _ Hadj) as (Hal & Har & _).
  unfold sizes_ok in *. apply Forall_app in Hok as [Hokl Hokr].
  pose proof (merge_right_extent sz r) as Hme. pose proof (merge_right_sizes sz r true) as Hms.
  pose proof (merge_right_merged sz r Har) as [Hmm Hmh]. pose proof (fun a => merge_right_use a sz r) as Hmu.
  unfold list_free. destruct (merge_right sz r) as [sz1 r1]. cbn [fst snd] in *.
  specialize (Hms ltac:(by apply Forall_cons in Hokr as [? ?]; constructor)).
  rewrite extent_app, in_use_app. cbn [extent in_use app].
  destruct l as [|[s0 f0] l _] using rev_ind.
  { cbn [last app]. cbn [extent in_use app]. rewrite Hmu. split; [lia|]. split; [done|].
    split; [by apply (no_adjacent_join [])|]. by rewrite Z.add_0_r. }
  rewrite last_snoc. destruct f0.
  - rewrite length_app. cbn [length]. replace (length l + 1 - 1)%nat with (length l) by lia.
    rewrite take_app_length. destruct (no_adjacent_mid l s0 true []) as (Hal0 & _ & Hu0); [done|].
    destruct (Hu0 eq_refl) as [Hul _].
    apply Forall_app in Hokl as [Hok0 Hoks]. apply Forall_cons in Hoks as [[Hs0 Hs0m] _].
    apply Forall_cons in Hms as [[Hs1 Hs1m] Hokr1].
    rewrite !extent_app, !in_use_app. cbn [extent in_use app]. rewrite app_nil_r. unfold HEADER in *.
    split; [lia|]. split; [apply Forall_app; split; [done|]; constructor; [split; [lia|dlia]|done]|].
    split; [by apply no_adjacent_join|].
    replace (a + extent l + 16 + (s0 + 16 + sz1)) with ((a + extent l + 16 + s0) + 16 + sz1) by lia.
    rewrite Hmu. replace (a + (extent l + (16 + s0 + 0))) with (a + extent l + 16 + s0) by lia.
    symmetry. apply Permutation_middle.
  - pose proof (used_last_snoc l s0) as Hul. set (L := l ++ [(s0, false)]) in *. clearbody L.
    rewrite extent_app, in_use_app. cbn [extent in_use app]. unfold HEADER in *.
    split; [lia|]. split; [by apply Forall_app|].
    split; [by apply no_adjacent_join|].
    rewrite Hmu. symmetry. apply Permutation_middle.
Qed.

Lemma in_use_split a bs p n :
  (p, n) ∈ in_use a bs -> exists l r, bs = l ++ (n, false) :: r /\ p = a + extent l + HEADER.
Proof.
  revert a. induction bs as [|[sz fr] bs IH]; intros a; cbn [in_use]; [by intros ?%not_elem_of_nil|].
  rewrite elem_of_app. intros [Hx|Hx].
  - destruct fr; [by apply not_elem_of_nil in Hx|]. apply list_elem_of_singleton in Hx.
    injection Hx as -> ->. exists [], bs. split; [done|]. cbn. lia.
  - destruct (IH _ Hx) as (l & r & -> & ->). exists ((sz, fr) :: l), r. split; [done|]. cbn [extent]. lia.
Qed.

(** ** The allocators refine the abstract heap *)

(** What the search of [kmalloc] and [malloc] does. *)
Lemma first_fit_refines m start total bs size fuel :
  heap_rep m start total bs -> 0 < size < 4294967289 -> (length bs < fuel)%nat ->
  (first_fit fuel m start (align_up size) = OK (m, 0) /\ list_alloc (align_up size) bs = None) \/
  exists m' p bs' n, first_fit fuel m start (align_up size) = OK (m', p) /\ p <> 0 /\
    (exists o, list_alloc (align_up size) bs = Some (bs', o)) /\ heap_rep m' start total bs' /\
    p mod 8 = 0 /\ size <= n /\ start < p /\ p + n <= start + total /\
    in_use start bs' ≡ₚ (p, n) :: in_use start bs /\ separated (in_use start bs').
Proof.
  intros [[p0 Hs] H0 Hal Hroom Hex Hok Hadj] Hsz Hfuel.
  destruct (align_up_spec size) as [Hm8 Hrange]; [lia|].
  pose proof (first_fit_spec fuel m 0 start bs p0 (align_up size) Hs Hok
    ltac:(lia) Hm8 ltac:(by right) ltac:(lia) Hfuel) as Hff.
  destruct (list_alloc (align_up size) bs) as [[bs' o]|] eqn:El; [right|by left].
  destruct Hff as (m' & p2 & -> & Hs' & Ho & _ & _).
  destruct (list_alloc_result start _ _ _ _ El Hok Hadj ltac:(lia) Hm8)
    as (n & [Ae As Am An Au (l & r & El' & Eo & _)]).
  assert (Hin : (start + o + HEADER, n) ∈ in_use start bs') by (rewrite Au; by left).
  pose proof (in_use_bounds _ _ _ _ As Hin) as Hb.
  assert (Hol : o mod 8 = 0).
  { rewrite <- Eo. rewrite El' in As. unfold sizes_ok in As. apply Forall_app in As as [Hl _].
    clear -Hl. induction Hl as [|[s f] l [_ Hs] _ IH]; [done|]. cbn [extent]. unfold HEADER. dlia. }
  eexists _, _, bs', n. split; [done|]. unfold HEADER in *. split; [lia|]. split; [eauto|].
  split; [split; [by exists p2|done|done|done|lia|done|done]|].
  split; [dlia|]. split; [lia|]. split; [lia|]. split; [lia|]. split; [done|]. by apply in_use_separated.
Qed.

(** What [kfree] and [free] do to a payload in use. *)
Lemma release_refines m start total bs p n :
  heap_rep m start total bs -> (p, n) ∈ in_use start bs ->
  p <> 0 /\ exists m' bs', release m p = OK m' /\ heap_rep m' start total bs' /\
    in_use start bs ≡ₚ (p, n) :: in_use start bs'.
Proof.
  intros [[p0 Hs] H0 Hal Hroom Hex Hok Hadj] Hin.
  pose proof (in_use_bounds _ _ _ _ Hok Hin) as Hb.
  destruct (in_use_split _ _ _ _ Hin) as (l & r & -> & ->).
  destruct (release_spec _ _ _ _ _ _ Hs H0 Hok) as (m' & p2 & E & Hs'); [lia|].
  destruct (list_free_result start l n r Hok Hadj) as (Fe & Fs & Fa & Fu).
  split; [unfold HEADER in *; lia|]. exists m', (list_free l n r). split; [done|]. split; [|done].
  split; [by exists p2|done|done|done|lia|done|done].
Qed.

(** [kmalloc] on a well-formed heap. *)
Lemma kmalloc_spec h total bs size fuel :
  heap_ready h = true -> heap_rep (headers h) (heap_start h) total bs ->
  0 < size < 4294967289 -> (length bs < fuel)%nat ->
  exists h' p, kmalloc fuel h size = OK (h', p) /\ heap_start h' = heap_start h /\
    ((p = 0 /\ h' = h /\ Forall (fun '(s, f) => f = true -> s < align_up size) bs) \/
     exists bs' n, heap_rep (headers h') (heap_start h) total bs' /\
       p mod 8 = 0 /\ size <= n /\ heap_start h < p /\ p + n <= heap_start h + total /\
       in_use (heap_start h) bs' ≡ₚ (p, n) :: in_use (heap_start h) bs /\
       separated (in_use (heap_start h) bs')).
Proof.
  intros Hrdy Hrep Hsz Hfuel. unfold kmalloc. rewrite Hrdy.
  destruct (Z.eqb_spec size 0) as [|_]; [lia|]. cbn [negb orb].
  destruct (first_fit_refines _ _ _ _ size fuel Hrep Hsz Hfuel)
    as [[-> El]|(m' & p & bs' & n & -> & _ & _ & Hrep' & Hp)]; cbn [rbind].
  - exists h, 0. split; [by destruct h|]. split; [done|]. left. split; [done|]. split; [done|].
    apply list_alloc_none in El. eapply Forall_impl; [exact El|]. intros [s f] E ->. cbn in E. zbool. lia.
  - eexists _, p. split; [done|]. split; [done|]. right. by exists bs', n.
Qed.

(** C6: [kmalloc] terminates and either finds no free block large enough and
    changes nothing, or returns an 8-byte-aligned payload of at least [size]
    bytes inside the heap, which overlaps no payload handed out before; all
    of those stay in use, and the heap stays well formed with no two
    neighbouring free blocks. *)
Theorem kmalloc_refines h total bs size fuel :
  heap_ready h = true -> heap_rep (headers h) (heap_start h) total bs ->
  0 < size < 4294967289 -> (length bs < fuel)%nat ->
  exists h' p, kmalloc fuel h size = OK (h', p) /\ heap_start h' = heap_start h /\
    ((p = 0 /\ h' = h /\ Forall (fun '(s, f) => f = true -> s < align_up size) bs) \/
     exists bs' n, heap_rep (headers h') (heap_start h) total bs' /\
       p mod 8 = 0 /\ size <= n /\ heap_start h < p /\ p + n <= heap_start h + total /\
       in_use (heap_start h) bs' ≡ₚ (p, n) :: in_use (heap_start h) bs /\
       separated (in_use (heap_start h) bs')).
Proof. apply kmalloc_spec. Qed.

(** [kfree] of a payload in use. *)
Lemma kfree_spec h total bs p n :
  heap_rep (headers h) (heap_start h) total bs -> (p, n) ∈ in_use (heap_start h) bs ->
  exists h' bs', kfree h p = OK h' /\ heap_start h' = heap_start h /\
    heap_rep (headers h') (heap_start h) total bs' /\
    in_use (heap_start h) bs ≡ₚ (p, n) :: in_use (heap_start h) bs'.
Proof.
  intros Hrep Hin. destruct (release_refines _ _ _ _ _ _ Hrep Hin) as (Hp & m' & bs' & E & Hrep' & Hu).
  unfold kfree. rewrite (proj2 (Z.eqb_neq p 0) Hp), E. cbn [rbind]. by exists (set_headers h m'), bs'.
Qed.

(** C14: [kfree] of a payload in use removes exactly that payload, merges the
    block with its free neighbours and keeps the heap well formed; every
    other payload stays in use. *)
Theorem kfree_refines h total bs p n :
  heap_rep (headers h) (heap_start h) total bs -> (p, n) ∈ in_use (heap_start h) bs ->
  exists h' bs', kfree h p = OK h' /\ heap_start h' = heap_start h /\
    heap_rep (headers h') (heap_start h) total bs' /\
    in_use (heap_start h) bs ≡ₚ (p, n) :: in_use (heap_start h) bs'.
Proof. apply kfree_spec. Qed.

(** *** The user heap *)
(** Where the linker may put the array. *)
Definition heap_place (user_heap : Z) : Prop :=
  0 < user_heap /\ user_heap mod 8 = 0 /\ user_heap + USER_HEAP_SIZE + 64 <= 4294967296.

(** The user heap before or after its first use, with its blocks. *)
Definition user_rep (user_heap : Z) (h : heap) (bs : list block) : Prop :=
  (heap_start h = 0 /\ bs = [(USER_HEAP_SIZE - HEADER, true)]) \/
  (heap_start h = user_heap /\ heap_rep (headers h) user_heap USER_HEAP_SIZE bs).

Lemma fresh_block_rep m user_heap : heap_place user_heap ->
  heap_rep (<[user_heap := mk_block (USER_HEAP_SIZE - HEADER) true 0 0]> m) user_heap USER_HEAP_SIZE
    [(USER_HEAP_SIZE - HEADER, true)].
Proof.
  intros (H0 & H8 & Hend). split; try done.
  - exists user_heap. cbn [seg]. split; [lia|]. exists 0. rewrite lookup_insert_eq. split; [done|]. split; [by left|done].
  - by constructor; [|constructor].
Qed.

Lemma heap_rep_blocks m start total bs : heap_rep m start total bs -> HEADER * Z.of_nat (length bs) <= total.
Proof.
  intros [_ _ _ _ Hex Hok _]. rewrite <- Hex. clear -Hok. induction bs as [|[s f] bs IH]; [done|].
  apply Forall_cons in Hok as [[Hs _] Hok]. specialize (IH Hok). cbn [length extent]. unfold HEADER in *. lia.
Qed.

Lemma malloc_refines user_heap h bs size fuel :
  heap_place user_heap -> user_rep user_heap h bs ->
  0 < size < 4294967289 -> (4096 < fuel)%nat ->
  exists h' p bs', malloc fuel user_heap h size = OK (h', p) /\ user_rep user_heap h' bs' /\
    ((p = 0 /\ bs' = bs /\ list_alloc (align_up size) bs = None) \/
     exists n, (exists o, list_alloc (align_up size) bs = Some (bs', o)) /\ size <= n /\ user_heap < p /\
       p + n <= user_heap + USER_HEAP_SIZE /\ in_use user_heap bs' ≡ₚ (p, n) :: in_use user_heap bs /\
       separated (in_use user_heap bs')).
Proof.
  intros Hpl Hrep Hsz Hfuel. pose proof Hpl as (H0 & _). unfold malloc. rewrite (proj2 (Z.eqb_neq size 0)) by lia. cbv zeta.
  set (h1 := if heap_start h =? 0 then _ else h).
  assert (H1 : heap_start h1 = user_heap /\ heap_rep (headers h1) user_heap USER_HEAP_SIZE bs).
  { unfold h1. destruct Hrep as [[-> ->]|[Hs Hr]]; [split; [done|by apply fresh_block_rep]|].
    rewrite Hs, (proj2 (Z.eqb_neq user_heap 0)) by lia. done. }
  destruct H1 as [Hs1 Hr1]. rewrite Hs1. clearbody h1. unfold malloc_align_up.
  pose proof (heap_rep_blocks _ _ _ _ Hr1) as Hb. unfold USER_HEAP_SIZE, HEADER in Hb.
  destruct (first_fit_refines _ _ _ _ size fuel Hr1 Hsz ltac:(lia))
    as [[-> El]|(m' & p & bs' & n & -> & Hp & Hl & Hr' & _ & Hn & Hlo & Hhi & Hu & Hsep)]; cbn [rbind].
  - exists (set_headers h1 (headers h1)), 0, bs. split; [done|]. split; [by right|by left].
  - exists (set_headers h1 m'), p, bs'. split; [done|]. split; [by right|]. right. by exists n.
Qed.

Lemma free_refines user_heap h bs p n : user_rep user_heap h bs -> (p, n) ∈ in_use user_heap bs ->
  exists h' bs', free h p = OK h' /\ user_rep user_heap h' bs' /\
    in_use user_heap bs ≡ₚ (p, n) :: in_use user_heap bs'.
Proof.
  intros [[_ ->]|[Hs Hrep]] Hin; [by apply not_elem_of_nil in Hin|].
  destruct (release_refines _ _ _ _ _ _ Hrep Hin) as (Hp & m' & bs' & E & Hrep' & Hu).
  unfold free. rewrite (proj2 (Z.eqb_neq p 0) Hp), E. cbn [rbind].
  exists (set_headers h m'), bs'. split; [done|]. split; [by right|done].
Qed.

(** Releasing what was just allocated restores the heap: the blocks are
    again exactly those from before the allocation, so the allocator does not
    fragment by itself. *)
Lemma kmalloc_kfree_roundtrip h total bs size fuel h' p :
  heap_ready h = true -> heap_rep (headers h) (heap_start h) total bs ->
  0 < size < 4294967289 -> (length bs < fuel)%nat ->
  kmalloc fuel h size = OK (h', p) -> p <> 0 ->
  exists h'', kfree h' p = OK h'' /\ heap_start h'' = heap_start h /\
    heap_rep (headers h'') (heap_start h) total bs.
Proof.
  intros Hrdy [[p0 Hs] H0 Hal Hroom Hex Hok Hadj] Hsz Hfuel Hk Hp.
  destruct (align_up_spec size) as [Hm8 Hrange]; [lia|]. unfold kmalloc in Hk. rewrite Hrdy in Hk.
  destruct (Z.eqb_spec size 0) as [|_]; [lia|]. cbn [negb orb] in Hk.
  pose proof (first_fit_spec fuel (headers h) 0 (heap_start h) bs p0 (align_up size) Hs Hok
    ltac:(lia) Hm8 ltac:(by right) ltac:(lia) Hfuel) as Hff.
  destruct (list_alloc (align_up size) bs) as [[bs' o]|] eqn:El.
  2:{ rewrite Hff in Hk. cbn [rbind] in Hk. congruence. }
  destruct Hff as (m' & p2 & E & Hs' & Ho & _ & _). rewrite E in Hk. cbn [rbind] in Hk.
  injection Hk as <- <-.
  destruct (list_alloc_result (heap_start h) _ _ _ _ El Hok Hadj ltac:(lia) Hm8)
    as (n & [Ae As Am An Au (l & r & -> & <- & Hund)]).
  destruct (release_spec _ _ _ _ _ _ Hs' H0 As) as (m'' & p3 & E2 & Hs''); [lia|].
  rewrite Hund in Hs''. unfold kfree.
  destruct (Z.eqb_spec (heap_start h + extent l + HEADER) 0) as [|_]; [done|].
  cbn [set_headers headers]. rewrite E2. cbn [rbind]. eexists. split; [done|]. split; [done|].
  split; [by exists p3|done..].
Qed.

(** A refused request changes nothing. *)
Lemma kmalloc_refused h total bs size fuel h' :
  heap_ready h = true -> heap_rep (headers h) (heap_start h) total bs ->
  0 < size < 4294967289 -> (length bs < fuel)%nat -> kmalloc fuel h size = OK (h', 0) -> h' = h.
Proof.
  intros Hrdy [[p0 Hs] H0 Hal Hroom Hex Hok Hadj] Hsz Hfuel Hk.
  destruct (align_up_spec size) as [Hm8 Hrange]; [lia|]. unfold kmalloc in Hk. rewrite Hrdy in Hk.
  destruct (Z.eqb_spec size 0) as [|_]; [lia|]. cbn [negb orb] in Hk.
  pose proof (first_fit_spec fuel (headers h) 0 (heap_start h) bs p0 (align_up size) Hs Hok
    ltac:(lia) Hm8 ltac:(by right) ltac:(lia) Hfuel) as Hff.
  destruct (list_alloc (align_up size) bs) as [[bs' o]|] eqn:El.
  - destruct Hff as (m' & p2 & E & Hs' & Ho & _ & _). rewrite E in Hk. cbn [rbind] in Hk. injection Hk as _ Hp.
    unfold HEADER in Hp. lia.
  - rewrite Hff in Hk. cbn [rbind] in Hk. injection Hk as <-. by destruct h.
Qed.

(** ** Instances *)
Definition fresh_heap : heap := snd (heap_init 1200003 (mk_heap 0 false ∅)).

Lemma fresh_heap_rep : heap_rep (headers fresh_heap) (heap_start fresh_heap) HEAP_SIZE [(HEAP_SIZE - HEADER, true)].
Proof.
  split; try done; [|repeat constructor; done].
  exists 1200008. cbn [seg]. split; [done|]. exists 0. split; [reflexivity|]. split; [by left|done].
Qed.

Lemma kmalloc_refines_witness : exists h' p, kmalloc 2 fresh_heap 100 = OK (h', p) /\
  heap_start h' = heap_start fresh_heap.
Proof.
  destruct (kmalloc_refines fresh_heap HEAP_SIZE _ 100 2 eq_refl fresh_heap_rep ltac:(lia) ltac:(cbn; lia))
    as (h' & p & E & S & _). exists h', p. split; [exact E|exact S].
Defined.

Lemma kmalloc_kfree_witness :
  match kmalloc 2 fresh_heap 100 with
  | OK (h', p) => exists h'', kfree h' p = OK h'' /\
      heap_rep (headers h'') (heap_start fresh_heap) HEAP_SIZE [(HEAP_SIZE - HEADER, true)]
  | _ => False
  end.
Proof.
  destruct (kmalloc 2 fresh_heap 100) as [[h' p]| |] eqn:E; [|vm_compute in E; discriminate..].
  assert (P : p = 1200024) by (vm_compute in E; by injection E as _ <-).
  destruct (kmalloc_kfree_roundtrip fresh_heap HEAP_SIZE _ 100 2 h' p eq_refl fresh_heap_rep
    ltac:(lia) ltac:(cbn; lia) E ltac:(lia)) as (h'' & F & _ & R).
  exists h''. split; [exact F|exact R].
Defined.

(** A heap with one payload of 104 bytes in use. *)
Definition used_heap : heap :=
  match kmalloc 2 fresh_heap 100 with OK (h, _) => h | _ => fresh_heap end.
Definition used_blocks : list block := [(104, false); (HEAP_SIZE - HEADER - 104 - HEADER, true)].

Lemma used_heap_rep : heap_rep (headers used_heap) (heap_start used_heap) HEAP_SIZE used_blocks.
Proof.
  split; try done; [|repeat constructor; done].
  exists 1200128. cbn [used_blocks seg]. split; [done|]. exists 1200128.
  split; [vm_compute; reflexivity|]. split; [by right|]. split; [done|]. exists 0.
  split; [vm_compute; reflexivity|]. split; [by left|done].
Qed.

Lemma kfree_refines_witness : exists h' bs', kfree used_heap 1200024 = OK h' /\
  [(1200024, 104)] ≡ₚ (1200024, 104) :: in_use (heap_start used_heap) bs'.
Proof.
  destruct (kfree_refines used_heap HEAP_SIZE used_blocks 1200024 104 used_heap_rep) as (h' & bs' & E & _ & _ & P);
    [by left|]. exists h', bs'. split; [exact E|exact P].
Defined.

(** [align_up] wraps for the seven largest sizes: a request for 4 GB less
    three bytes is answered with a block of zero bytes instead of NULL. *)
Example kmalloc_huge_request :
  align_up 4294967293 = 0 /\
  match kmalloc 2 fresh_heap 4294967293 with OK (_, p) => p = 1200024 | _ => False end.
Proof. vm_compute. split; reflexivity. Qed.
