(* ===== verification/Task.v ===== *)
(** * The task scheduler (src/src/task.c, src/src/pit.c)

    Task slots, the round-robin choice, the context switch with the registers
    it loads, creation, exit, sleep, wait and reaping.  Each operation runs
    with interrupts disabled up to the switch it ends in, so it is one step of
    the transition system at the end of the file. *)
From S2P Require Import Prelude.

Definition MAX_TASKS : Z := 8.
Definition TASK_STACK_SIZE : Z := 4096.

Inductive task_state :=
| TASK_UNUSED
| TASK_READY
| TASK_RUNNING
| TASK_SLEEPING.

#[export] Instance task_state_eq_dec : EqDecision task_state.
Proof. solve_decision. Defined.

(** [struct task]; null pointers are 0. *)
Record task := mk_task {
  t_esp : Z;
  stack_base : Z;
  state : task_state;
  t_id : Z;
  wake_tick : Z;
  page_directory : Z }.

Definition blank_task : task := mk_task 0 0 TASK_UNUSED 0 0 0.

Definition set_state (t : task) (s : task_state) : task :=
  mk_task (t_esp t) (stack_base t) s (t_id t) (wake_tick t) (page_directory t).
Definition set_esp (t : task) (e : Z) : task :=
  mk_task e (stack_base t) (state t) (t_id t) (wake_tick t) (page_directory t).
Definition set_wake (t : task) (w : Z) : task :=
  mk_task (t_esp t) (stack_base t) (state t) (t_id t) w (page_directory t).

(** The module's statics, with the machine registers a switch changes. *)
Record sched := mk_sched {
  tasks : list task;
  current_task : Z;
  task_count : Z;
  cpu_esp : Z;
  tss_esp0 : Z;
  cr3 : Z }.

Definition get_task (s : sched) (i : Z) : task := default blank_task (tasks s !! Z.to_nat i).
Definition put_task (s : sched) (i : Z) (t : task) : sched :=
  mk_sched (<[Z.to_nat i := t]> (tasks s)) (current_task s) (task_count s) (cpu_esp s) (tss_esp0 s) (cr3 s).

Definition runnable (t : task) : bool :=
  bool_decide (state t = TASK_READY) || bool_decide (state t = TASK_RUNNING).

Definition next_task_id (s : sched) (from : Z) : Z :=
  match find_from (fun i => runnable (get_task s ((from + i) mod task_count s))) 1
          (Z.to_nat (task_count s)) with
  | Some i => (from + i) mod task_count s
  | None => from
  end.

(** [switch_task(&tasks[old].esp, tasks[id].esp)]: the new stack pointer is
    read before the old one is stored. *)
Definition switch_task (s : sched) (old id : Z) : sched :=
  let new_esp := t_esp (get_task s id) in
  let s1 := put_task s old (set_esp (get_task s old) (cpu_esp s)) in
  mk_sched (tasks s1) (current_task s1) (task_count s1) new_esp (tss_esp0 s1) (cr3 s1).

Definition task_switch_to (s : sched) (id : Z) : sched :=
  let old := current_task s in
  let t := get_task s id in
  let s1 := put_task s id (set_state t TASK_RUNNING) in
  let s2 := mk_sched (tasks s1) id (task_count s1) (cpu_esp s1)
              (if stack_base t =? 0 then tss_esp0 s1 else u32 (stack_base t + TASK_STACK_SIZE))
              (if page_directory t =? 0 then cr3 s1 else page_directory t) in
  switch_task s2 old id.

Definition set_current_state (s : sched) (st : task_state) : sched :=
  put_task s (current_task s) (set_state (get_task s (current_task s)) st).

Definition task_exit (s : sched) : sched :=
  let s1 := set_current_state s TASK_UNUSED in
  task_switch_to s1 (next_task_id s1 (current_task s1)).

Definition task_get_current_page_directory (s : sched) : Z :=
  page_directory (get_task s (current_task s)).

Definition tasking_init (kernel_directory : Z) (s : sched) : list tty * sched :=
  let ts := (fun t => set_state t TASK_UNUSED) <$> tasks s in
  let t0 := default blank_task (ts !! 0%nat) in
  ([TLn "Tasking initialized"],
   mk_sched (<[0%nat := mk_task (t_esp t0) 0 TASK_RUNNING 0 (wake_tick t0) kernel_directory]> ts)
     0 1 (cpu_esp s) (tss_esp0 s) (cr3 s)).

(** ** Sleeping and the timer *)

(** The tasks below [task_count] are woken; [(int32_t)(now - wake_tick) >= 0]. *)
Definition wake_due (now : Z) (t : task) : bool :=
  bool_decide (state t = TASK_SLEEPING) && (0 <=? s32 (now - wake_tick t)).

Definition wake_sleepers (s : sched) (now : Z) : sched :=
  mk_sched
    (imap (fun i t => if (Z.of_nat i <? task_count s) && wake_due now t
                      then set_state t TASK_READY else t) (tasks s))
    (current_task s) (task_count s) (cpu_esp s) (tss_esp0 s) (cr3 s).

Definition schedule (s : sched) (now : Z) : sched :=
  let s1 := wake_sleepers s now in
  if task_count s1 <=? 1 then s1
  else
    let next := next_task_id s1 (current_task s1) in
    if next =? current_task s1 then s1
    else
      let s2 := if bool_decide (state (get_task s1 (current_task s1)) = TASK_RUNNING)
                then set_current_state s1 TASK_READY else s1 in
      task_switch_to s2 next.

(** [tick_count] and the scheduler run by IRQ0. *)
Definition pit_handler (s : sched) (tick_count : Z) : sched * Z :=
  let now := u32 (tick_count + 1) in (schedule s now, now).

Definition sleep_ticks (freq ms : Z) : Z :=
  let freq := if freq =? 0 then 100 else freq in
  let ticks := u32 (ms * freq) / 1000 in
  if ticks =? 0 then 1 else ticks.

Definition task_sleep (s : sched) (freq now ms : Z) : sched :=
  let t := get_task s (current_task s) in
  let s1 := put_task s (current_task s)
              (set_state (set_wake t (u32 (now + sleep_ticks freq ms))) TASK_SLEEPING) in
  task_switch_to s1 (next_task_id s1 (current_task s1)).

(** One turn of the loop of [task_wait]; [None] when the wait is over. *)
Definition task_wait_turn (s : sched) (target_id : Z) : option sched :=
  if bool_decide (state (get_task s target_id) = TASK_UNUSED) then None
  else
    let s1 := if bool_decide (state (get_task s (current_task s)) = TASK_RUNNING)
              then set_current_state s TASK_READY else s in
    Some (task_switch_to s1 (next_task_id s1 (current_task s1))).

(** ** Creation and reaping

    The heap, the page directories and the file table are reached through
    this interface. *)
Class TaskEnv (E : Type) := {
  env_kmalloc : E -> Z -> E * Z;
  env_kfree : E -> Z -> E;
  env_clone_directory : E -> E * Z;
  env_free_user_directory : E -> Z -> E;
  env_free_frame : E -> Z -> E;
  env_fat_close_all : E -> Z -> E }.

Section Lifecycle.
Context {E : Type} `{TaskEnv E}.

(** The slot a new task takes: one reaped before, else the next fresh one. *)
Definition reusable (t : task) : bool :=
  bool_decide (state t = TASK_UNUSED) && (stack_base t =? 0) && (page_directory t =? 0).

Definition find_slot (s : sched) : option Z :=
  find_from (fun i => reusable (get_task s i)) 1 (Z.to_nat (task_count s - 1)).

Definition bump_count (s : sched) : sched :=
  mk_sched (tasks s) (current_task s) (task_count s + 1) (cpu_esp s) (tss_esp0 s) (cr3 s).

(** [task_create]: the messages, the stack words written (address, value),
    and the new task's id or [Err]. *)
Definition task_create (e : E) (s : sched) (entry_point task_launch : Z)
    : list tty * list (Z * Z) * E * sched * res Z :=
  match (match find_slot s with
         | Some i => Some (i, s)
         | None => if MAX_TASKS <=? task_count s then None else Some (task_count s, bump_count s)
         end) with
  | None => ([], [], e, s, Err)
  | Some (id, s1) =>
      let '(e1, base) := env_kmalloc e TASK_STACK_SIZE in
      if base =? 0 then ([], [], e1, s1, Err)
      else
        let '(e2, dir) := env_clone_directory e1 in
        if dir =? 0 then ([], [], env_kfree e2 base, s1, Err)
        else
          let top := u32 (base + TASK_STACK_SIZE) in
          ([TStr "Task "; TDec id; TStr ": cloned page directory at "; THex dir; TLn ""],
           [(u32 (top - 4), entry_point); (u32 (top - 8), task_launch); (u32 (top - 12), 0);
            (u32 (top - 16), 0); (u32 (top - 20), 0); (u32 (top - 24), 0)],
           e2,
           put_task s1 id (mk_task (u32 (top - 24)) base TASK_READY id
                             (wake_tick (get_task s1 id)) dir),
           OK id)
  end.

(** One slot of [task_reap]. *)
Definition reap_slot (es : E * sched) (i : Z) : E * sched :=
  let '(e, s) := es in
  let t := get_task s i in
  if bool_decide (state t = TASK_UNUSED) && negb (stack_base t =? 0) then
    let e1 := env_fat_close_all (env_kfree e (stack_base t)) i in
    let t1 := mk_task (t_esp t) 0 (state t) (t_id t) (wake_tick t) (page_directory t) in
    if page_directory t =? 0 then (e1, put_task s i t1)
    else
      (env_free_frame (env_free_user_directory e1 (page_directory t)) (page_directory t),
       put_task s i (mk_task (t_esp t) 0 (state t) (t_id t) (wake_tick t) 0))
  else (e, s).

Definition task_reap (e : E) (s : sched) : E * sched :=
  foldl reap_slot (e, s) (seqZ 1 (task_count s - 1)).
End Lifecycle.

(** ** The invariant

    Task 0 is the kernel's idle loop, which never sleeps or exits: it is
    always runnable.  Exactly the current task is running. *)
Record sched_inv (s : sched) : Prop := {
  si_len : length (tasks s) = 8%nat;
  si_count : 1 <= task_count s <= 8;
  si_cur : 0 <= current_task s < task_count s;
  si_running i : 0 <= i < 8 -> state (get_task s i) = TASK_RUNNING <-> i = current_task s;
  si_fresh i : task_count s <= i < 8 -> state (get_task s i) = TASK_UNUSED;
  si_idle : runnable (get_task s 0) = true }.

(** ** Slots *)
Lemma get_put s i j t : length (tasks s) = 8%nat -> 0 <= i < 8 -> 0 <= j < 8 ->
  get_task (put_task s i t) j = if j =? i then t else get_task s j.
Proof.
  intros Hl Hi Hj. unfold get_task, put_task. cbn [tasks].
  destruct (Z.eqb_spec j i) as [->|Hne].
  - by rewrite list_lookup_insert_eq by lia.
  - by rewrite list_lookup_insert_ne by lia.
Qed.

Lemma put_len s i t : length (tasks (put_task s i t)) = length (tasks s).
Proof. cbn. apply length_insert. Qed.

Lemma runnable_spec t : runnable t = true <-> state t = TASK_READY \/ state t = TASK_RUNNING.
Proof. unfold runnable. by rewrite orb_true_iff, !bool_decide_eq_true. Qed.

(** [next_task_id] is the first runnable task in cyclic order. *)
Lemma next_spec s from :
  1 <= task_count s -> 0 <= from < task_count s ->
  (exists i, 0 <= i < task_count s /\ runnable (get_task s i) = true) ->
  let n := next_task_id s from in
  0 <= n < task_count s /\ runnable (get_task s n) = true /\
  exists k, 1 <= k <= task_count s /\ n = (from + k) mod task_count s /\
    forall j, 1 <= j < k -> runnable (get_task s ((from + j) mod task_count s)) = false.
Proof.
  intros Hc Hf (i & Hi & Hri) n. subst n. unfold next_task_id.
  destruct (find_from _ _ _) as [k|] eqn:E.
  - apply find_from_Some in E as (Hk & Hr & Hmin). rewrite Z2Nat.id in Hk by lia.
    split; [apply Z.mod_pos_bound; lia|]. split; [done|]. exists k. split; [lia|]. done.
  - exfalso. rewrite find_from_None in E. set (c := task_count s) in *.
    specialize (E (if i <=? from then i - from + c else i - from)).
    assert (Hmod : (from + (if i <=? from then i - from + c else i - from)) mod c = i).
    { destruct (Z.leb_spec i from).
      - replace (from + (i - from + c)) with (i + 1 * c) by lia. rewrite Z_mod_plus_full.
        apply Z.mod_small. lia.
      - replace (from + (i - from)) with i by lia. apply Z.mod_small. lia. }
    rewrite Hmod, Hri in E. discriminate E. destruct (Z.leb_spec i from); lia.
Qed.

(** What a switch does to the slots and the registers. *)
Lemma switch_slots s id i :
  length (tasks s) = 8%nat -> 0 <= id < 8 -> 0 <= current_task s < 8 -> 0 <= i < 8 ->
  get_task (task_switch_to s id) i =
    let t := if i =? id then set_state (get_task s i) TASK_RUNNING else get_task s i in
    if i =? current_task s then set_esp t (cpu_esp s) else t.
Proof.
  intros Hl Hid Hc Hi. unfold task_switch_to, switch_task.
  set (s1 := put_task s id _).
  set (s2 := mk_sched (tasks s1) id _ _ _ _).
  assert (Hl2 : length (tasks s2) = 8%nat) by (change (length (tasks s1) = 8%nat); unfold s1; by rewrite put_len).
  assert (H2 : forall j, 0 <= j < 8 ->
    get_task s2 j = if j =? id then set_state (get_task s id) TASK_RUNNING else get_task s j).
  { intros j Hj. change (get_task s2 j) with (get_task s1 j). unfold s1. by apply get_put. }
  match goal with |- get_task (mk_sched (tasks ?x) _ _ _ _ _) i = _ =>
    change (get_task x i = let t := if i =? id then set_state (get_task s i) TASK_RUNNING else get_task s i in
      if i =? current_task s then set_esp t (cpu_esp s) else t) end.
  rewrite get_put by done. cbn zeta. destruct (Z.eqb_spec i (current_task s)) as [->|].
  - rewrite H2 by done. destruct (Z.eqb_spec (current_task s) id) as [->|]; done.
  - rewrite H2 by done. destruct (Z.eqb_spec i id) as [->|]; done.
Qed.

(** The registers after a switch. *)
Lemma switch_regs s id :
  tss_esp0 (task_switch_to s id) =
    (if stack_base (get_task s id) =? 0 then tss_esp0 s
     else u32 (stack_base (get_task s id) + TASK_STACK_SIZE)) /\
  cr3 (task_switch_to s id) =
    (if page_directory (get_task s id) =? 0 then cr3 s else page_directory (get_task s id)).
Proof. done. Qed.

Lemma switch_esp s id : length (tasks s) = 8%nat -> 0 <= id < 8 ->
  cpu_esp (task_switch_to s id) = t_esp (get_task s id).
Proof.
  intros Hl Hid. unfold task_switch_to, switch_task. cbn [cpu_esp].
  match goal with |- t_esp (get_task (mk_sched (tasks ?x) _ _ _ _ _) id) = _ =>
    change (t_esp (get_task x id) = t_esp (get_task s id)) end.
  by rewrite get_put, Z.eqb_refl.
Qed.

Lemma switch_state s id i :
  length (tasks s) = 8%nat -> 0 <= id < 8 -> 0 <= current_task s < 8 -> 0 <= i < 8 ->
  state (get_task (task_switch_to s id) i) = if i =? id then TASK_RUNNING else state (get_task s i).
Proof.
  intros. rewrite switch_slots by done. cbn zeta.
  destruct (i =? id), (i =? current_task s); done.
Qed.

Lemma switch_fields s id :
  length (tasks (task_switch_to s id)) = length (tasks s) /\ current_task (task_switch_to s id) = id /\
  task_count (task_switch_to s id) = task_count s.
Proof. unfold task_switch_to, switch_task. cbn. by rewrite !length_insert. Qed.

(** The switch that leaves the current task in state [st] keeps the invariant
    as long as a runnable task is chosen. *)
Lemma switch_inv s id :
  length (tasks s) = 8%nat -> 1 <= task_count s <= 8 -> 0 <= current_task s < task_count s ->
  0 <= id < task_count s ->
  (forall i, 0 <= i < 8 -> i <> id -> state (get_task s i) <> TASK_RUNNING) ->
  (forall i, task_count s <= i < 8 -> state (get_task s i) = TASK_UNUSED) ->
  runnable (get_task s 0) = true ->
  sched_inv (task_switch_to s id).
Proof.
  intros Hl Hc Hcur Hid Hrun Hfr H0. destruct (switch_fields s id) as (F1 & F2 & F3).
  split; rewrite ?F1, ?F2, ?F3; try done.
  - intros i Hi. rewrite switch_state by (done || lia).
    destruct (Z.eqb_spec i id) as [->|Hne]; [done|]. split; [|done]. intros E. by apply Hrun in E.
  - intros i Hi. rewrite switch_state by (done || lia). destruct (Z.eqb_spec i id); [lia|]. by apply Hfr.
  - apply runnable_spec. rewrite switch_state by (done || lia).
    destruct (0 =? id); [by right|]. by apply runnable_spec.
Qed.

Lemma set_current_get s st i : length (tasks s) = 8%nat -> 0 <= current_task s < 8 -> 0 <= i < 8 ->
  state (get_task (set_current_state s st) i) =
    if i =? current_task s then st else state (get_task s i).
Proof.
  intros. unfold set_current_state. rewrite get_put by done.
  by destruct (i =? current_task s).
Qed.

(** Giving up the processor: the current task leaves [TASK_RUNNING], and the
    next runnable one, which is another task, takes over. *)
Lemma yield_inv s (t' : task) :
  sched_inv s -> current_task s <> 0 -> state t' <> TASK_RUNNING ->
  let s1 := put_task s (current_task s) t' in
  sched_inv (task_switch_to s1 (next_task_id s1 (current_task s))) /\
  (next_task_id s1 (current_task s) = current_task s -> state t' = TASK_READY).
Proof.
  intros [Hl Hc Hcur Hrun Hfr H0] Hne Ht s1.
  assert (G : forall i, 0 <= i < 8 -> get_task s1 i = if i =? current_task s then t' else get_task s i)
    by (intros i Hi; apply get_put; done || lia).
  assert (Hidle : runnable (get_task s1 0) = true)
    by (rewrite G by lia; destruct (Z.eqb_spec 0 (current_task s)); [congruence|done]).
  destruct (next_spec s1 (current_task s)) as (Hn & Hr & _);
    [cbn; lia|cbn; lia|by exists 0; split; [cbn; lia|]|].
  cbn [s1 task_count put_task] in Hn. split.
  - apply switch_inv; try done.
    + unfold s1. by rewrite put_len.
    + intros i Hi Hni. rewrite G by done. destruct (Z.eqb_spec i (current_task s)) as [->|Hic]; [done|].
      intros E. by apply Hrun in E.
    + intros i Hi. cbn [s1 task_count put_task] in Hi. rewrite G by lia.
      destruct (Z.eqb_spec i (current_task s)); [lia|]. by apply Hfr.
  - intros E. rewrite E, G, Z.eqb_refl in Hr by lia. apply runnable_spec in Hr as [?|?]; done.
Qed.

(** A cyclic step from [from] to a different task below [c]. *)
Lemma cyclic_offset from i c :
  0 <= from < c -> 0 <= i < c -> i <> from ->
  1 <= (i - from) mod c < c /\ (from + (i - from) mod c) mod c = i.
Proof.
  intros Hf Hi Hne. destruct (Z.lt_ge_cases i from).
  - assert (E : (i - from) mod c = i - from + c)
      by (replace (i - from) with (i - from + c + (-1) * c) at 1 by lia;
          rewrite Z_mod_plus_full; apply Z.mod_small; lia).
    rewrite E. split; [lia|]. replace (from + (i - from + c)) with (i + 1 * c) by lia.
    rewrite Z_mod_plus_full. apply Z.mod_small. lia.
  - rewrite (Z.mod_small (i - from)) by lia. split; [lia|].
    replace (from + (i - from)) with i by lia. apply Z.mod_small. lia.
Qed.

(** The scan stops at or before any runnable task. *)
Lemma next_before s from i :
  1 <= task_count s -> 0 <= from < task_count s -> 0 <= i < task_count s -> i <> from ->
  runnable (get_task s i) = true ->
  exists k, 1 <= k <= (i - from) mod task_count s /\
    next_task_id s from = (from + k) mod task_count s /\
    runnable (get_task s (next_task_id s from)) = true /\ next_task_id s from <> from.
Proof.
  intros Hc Hf Hi Hne Hr. destruct (next_spec s from Hc Hf) as (Hn & Hrn & k & Hk & En & Hmin);
    [by exists i|]. destruct (cyclic_offset from i (task_count s) Hf Hi Hne) as [Ho Em].
  set (o := (i - from) mod task_count s) in *. assert (k <= o).
  { destruct (Z.le_gt_cases k o) as [|Hgt]; [done|].
    specialize (Hmin o ltac:(lia)). rewrite Em in Hmin. congruence. }
  exists k. split; [lia|]. split; [done|]. split; [done|]. rewrite En. intros E.
  set (c := task_count s) in *. destruct (Z.lt_ge_cases (from + k) c).
  - rewrite Z.mod_small in E by lia. lia.
  - replace (from + k) with (from + k - c + 1 * c) in E by lia.
    rewrite Z_mod_plus_full, Z.mod_small in E by lia. lia.
Qed.

(** ** Waking and scheduling *)
Lemma wake_get s now i : length (tasks s) = 8%nat -> 0 <= i < 8 ->
  get_task (wake_sleepers s now) i =
    if (i <? task_count s) && wake_due now (get_task s i)
    then set_state (get_task s i) TASK_READY else get_task s i.
Proof.
  intros Hl Hi. unfold get_task, wake_sleepers. cbn [tasks]. rewrite list_lookup_imap.
  destruct (lookup_lt_is_Some_2 (tasks s) (Z.to_nat i)) as [t Ht]; [lia|]. rewrite Ht. cbn.
  by rewrite Z2Nat.id by lia.
Qed.

Lemma wake_state s now i : length (tasks s) = 8%nat -> 0 <= i < 8 ->
  state (get_task (wake_sleepers s now) i) = state (get_task s i) \/
  (state (get_task s i) = TASK_SLEEPING /\ state (get_task (wake_sleepers s now) i) = TASK_READY).
Proof.
  intros Hl Hi. rewrite wake_get by done. destruct ((i <? task_count s) && _) eqn:E; [|by left].
  right. apply andb_true_iff in E as [_ E]. unfold wake_due in E. apply andb_true_iff in E as [E _].
  by apply bool_decide_eq_true in E.
Qed.

Lemma wake_inv s now : sched_inv s -> sched_inv (wake_sleepers s now).
Proof.
  intros [Hl Hc Hcur Hrun Hfr H0]. split; try done.
  - cbn. by rewrite length_imap.
  - intros i Hi. cbn [current_task wake_sleepers]. rewrite <- Hrun by done.
    destruct (wake_state s now i Hl Hi) as [->|[E1 E2]]; [done|]. rewrite E1, E2. done.
  - intros i Hi. cbn [task_count wake_sleepers] in Hi. rewrite wake_get by (done || lia).
    rewrite (proj2 (Z.ltb_ge i (task_count s))) by lia. by apply Hfr.
  - apply runnable_spec. apply runnable_spec in H0.
    destruct (wake_state s now 0 Hl ltac:(lia)) as [->|[E1 E2]]; [done|]. rewrite E2. by left.
Qed.

(** The outcome of one timer tick. *)
Lemma schedule_cases s now : sched_inv s ->
  let s1 := wake_sleepers s now in
  let n := next_task_id s1 (current_task s) in
  (schedule s now = s1 /\ (task_count s = 1 \/ n = current_task s)) \/
  (schedule s now = task_switch_to (set_current_state s1 TASK_READY) n /\ n <> current_task s).
Proof.
  intros Hinv s1 n. pose proof (wake_inv s now Hinv) as [_ _ _ Hrun _ _]. fold s1 in Hrun.
  unfold schedule. fold s1. cbn [task_count wake_sleepers s1].
  destruct (Z.leb_spec (task_count s) 1) as [Hle|Hgt].
  { left. split; [done|]. left. destruct Hinv. lia. }
  change (current_task s1) with (current_task s). fold n.
  destruct (Z.eqb_spec n (current_task s)) as [|Hne]; [left; split; [done|by right]|].
  right. split; [|done]. rewrite bool_decide_true; [done|].
  apply Hrun; [|done]. destruct Hinv. lia.
Qed.

Lemma schedule_inv s now : sched_inv s -> sched_inv (schedule s now).
Proof.
  intros Hinv. pose proof (wake_inv s now Hinv) as Hw.
  destruct (schedule_cases s now Hinv) as [[-> _]|[-> Hne]]; [done|].
  set (s1 := wake_sleepers s now) in *. destruct Hw as [Hl Hc Hcur Hrun Hfr H0].
  destruct (next_spec s1 (current_task s)) as (Hn & Hr & _);
    [lia|exact Hcur|exists 0; split; [lia|done]|].
  change (current_task s1) with (current_task s) in *.
  assert (G : forall i, 0 <= i < 8 -> state (get_task (set_current_state s1 TASK_READY) i) =
    if i =? current_task s then TASK_READY else state (get_task s1 i))
    by (intros i Hi; refine (set_current_get s1 TASK_READY i Hl _ Hi);
        change (current_task s1) with (current_task s); lia).
  apply switch_inv; cbn [current_task task_count set_current_state put_task]; try done.
  - unfold set_current_state. by rewrite put_len.
  - intros i Hi Hni. rewrite G by done. destruct (Z.eqb_spec i (current_task s)) as [|Hic]; [done|].
    intros E. by apply Hrun in E.
  - intros i Hi. rewrite G by lia. destruct (Z.eqb_spec i (current_task s)); [lia|]. by apply Hfr.
  - apply runnable_spec. rewrite G by lia. destruct (0 =? current_task s); [by left|].
    by apply runnable_spec.
Qed.

(** A tick changes the state of a task that is not current only by waking it
    or by switching to it when it is runnable. *)
Lemma schedule_state s now i : sched_inv s -> 0 <= i < 8 -> i <> current_task s ->
  state (get_task (schedule s now) i) = state (get_task (wake_sleepers s now) i) \/
  (runnable (get_task (wake_sleepers s now) i) = true /\
   state (get_task (schedule s now) i) = TASK_RUNNING).
Proof.
  intros Hinv Hi Hic. pose proof (wake_inv s now Hinv) as Hw.
  destruct (schedule_cases s now Hinv) as [[-> _]|[-> Hne]]; [by left|].
  set (s1 := wake_sleepers s now) in *. destruct Hw as [Hl Hc Hcur Hrun Hfr H0].
  destruct (next_spec s1 (current_task s)) as (Hn & Hr & _);
    [lia|exact Hcur|exists 0; split; [lia|done]|].
  change (current_task s1) with (current_task s) in *.
  rewrite switch_state; [|unfold set_current_state; by rewrite put_len|lia|cbn; lia|done].
  destruct (Z.eqb_spec i (next_task_id s1 (current_task s))) as [->|]; [by right|left].
  rewrite set_current_get by (done || (cbn; lia)).
  change (current_task s1) with (current_task s). by destruct (Z.eqb_spec i (current_task s)).
Qed.

(** A runnable task stays runnable across a tick. *)
Lemma schedule_runnable s now i : sched_inv s -> 0 <= i < 8 ->
  runnable (get_task s i) = true -> runnable (get_task (schedule s now) i) = true.
Proof.
  intros Hinv Hi Hr. pose proof (wake_inv s now Hinv) as Hw.
  assert (Hrw : runnable (get_task (wake_sleepers s now) i) = true).
  { apply runnable_spec in Hr. apply runnable_spec.
    destruct (wake_state s now i (si_len _ Hinv) Hi) as [->|[E _]]; [done|]. rewrite E in Hr. naive_solver. }
  destruct (schedule_cases s now Hinv) as [[-> _]|[-> Hne]]; [done|].
  set (s1 := wake_sleepers s now) in *. destruct Hw as [Hl Hc Hcur Hrun Hfr H0].
  destruct (next_spec s1 (current_task s)) as (Hn & _ & _);
    [lia|exact Hcur|exists 0; split; [lia|done]|].
  change (current_task s1) with (current_task s) in *.
  apply runnable_spec. rewrite switch_state; [|unfold set_current_state; by rewrite put_len|lia|cbn; lia|done].
  case_if; [by right|]. rewrite set_current_get by (done || (cbn; lia)).
  case_if; [by left|by apply runnable_spec].
Qed.

(** C37: The round robin is fair: whatever the tick values and whoever wakes up
    meanwhile, a task that is ready to run becomes the current task within
    seven timer ticks. *)
Theorem schedule_fair s i nows :
  sched_inv s -> 0 <= i < task_count s -> runnable (get_task s i) = true ->
  (7 <= length nows)%nat ->
  exists k, (k <= 7)%nat /\ current_task (foldl schedule s (take k nows)) = i.
Proof.
  intros Hinv Hi Hr Hlen.
  assert (Hd : 0 <= (i - current_task s) mod task_count s <= 7)
    by (pose proof (Z.mod_pos_bound (i - current_task s) (task_count s)); destruct Hinv; lia).
  assert (G : forall (n : nat) s nows, sched_inv s -> 0 <= i < task_count s ->
    runnable (get_task s i) = true -> (i - current_task s) mod task_count s <= Z.of_nat n ->
    (n <= length nows)%nat ->
    exists k, (k <= n)%nat /\ current_task (foldl schedule s (take k nows)) = i);
    [|apply (G 7%nat s nows Hinv Hi Hr); [lia|done]].
  clear. induction n as [|n IH]; intros s nows Hinv Hi Hr Hd Hlen.
  - exists 0%nat. split; [lia|]. cbn. destruct (decide (i = current_task s)) as [|Hne]; [done|].
    pose proof (si_cur _ Hinv).
    destruct (cyclic_offset (current_task s) i (task_count s)); [done|done|congruence|lia].
  - destruct (decide (i = current_task s)) as [E|Hne]; [by exists 0%nat; split; [lia|]|].
    destruct nows as [|now nows]; [cbn in Hlen; lia|]. cbn [length] in Hlen.
    pose proof (schedule_inv s now Hinv) as Hinv'. pose proof (wake_inv s now Hinv) as Hw.
    assert (Hi8 : 0 <= i < 8) by (destruct Hinv; lia).
    pose proof (schedule_runnable s now i Hinv Hi8 Hr) as Hr'.
    assert (Hrw : runnable (get_task (wake_sleepers s now) i) = true).
    { apply runnable_spec in Hr. apply runnable_spec.
      destruct (wake_state s now i (si_len _ Hinv) Hi8) as [->|[E _]]; [done|].
      rewrite E in Hr. naive_solver. }
    destruct (next_before (wake_sleepers s now) (current_task s) i) as (k & Hk & En & _ & Hnn);
      [destruct Hinv; cbn; lia|apply (si_cur _ Hinv)|done|congruence|done|].
    cbn [task_count wake_sleepers] in Hk, En.
    destruct (schedule_cases s now Hinv) as [[_ [E|E]]|[Es _]]; [destruct Hinv; lia|done|].
    assert (Hcur' : current_task (schedule s now) = (current_task s + k) mod task_count s)
      by (rewrite Es, <- En; apply switch_fields).
    assert (Hcnt : task_count (schedule s now) = task_count s) by (rewrite Es, (proj2 (proj2 (switch_fields _ _))); done).
    destruct (IH (schedule s now) nows Hinv') as (j & Hj & Ej); [by rewrite Hcnt|done| |lia|].
    + rewrite Hcur', Hcnt, Zminus_mod_idemp_r.
      replace (i - (current_task s + k)) with (i - current_task s - k) by lia.
      rewrite <- Zminus_mod_idemp_l. rewrite Z.mod_small; [lia|].
      pose proof (Z.mod_pos_bound (i - current_task s) (task_count s)). destruct Hinv. lia.
    + exists (S j). split; [lia|]. done.
Qed.

(** ** The transition system *)

(** A processor-relinquishing call is made by a task other than the idle task. *)
Inductive sched_step {E} `{TaskEnv E} : E * sched -> E * sched -> Prop :=
| step_tick e s now : sched_step (e, s) (e, schedule s now)
| step_exit e s : current_task s <> 0 -> sched_step (e, s) (e, task_exit s)
| step_sleep e s freq now ms :
    current_task s <> 0 -> sched_step (e, s) (e, task_sleep s freq now ms)
| step_wait e s s' target :
    current_task s <> 0 -> task_wait_turn s target = Some s' -> sched_step (e, s) (e, s')
| step_create e s entry launch msgs ws e' s' r :
    task_create e s entry launch = (msgs, ws, e', s', r) -> sched_step (e, s) (e', s')
| step_reap e s e' s' : task_reap e s = (e', s') -> sched_step (e, s) (e', s').

Lemma exit_inv s : sched_inv s -> current_task s <> 0 -> sched_inv (task_exit s).
Proof. intros Hinv Hne. by apply (yield_inv s (set_state (get_task s (current_task s)) TASK_UNUSED)). Qed.

Lemma sleep_inv s freq now ms : sched_inv s -> current_task s <> 0 -> sched_inv (task_sleep s freq now ms).
Proof.
  intros Hinv Hne. by apply (yield_inv s (set_state (set_wake (get_task s (current_task s))
    (u32 (now + sleep_ticks freq ms))) TASK_SLEEPING)).
Qed.

Lemma wait_inv s s' target :
  sched_inv s -> current_task s <> 0 -> task_wait_turn s target = Some s' -> sched_inv s'.
Proof.
  intros Hinv Hne. unfold task_wait_turn. case_if; [done|]. intros [= <-].
  rewrite bool_decide_true; [|apply (si_running _ Hinv); [destruct Hinv; lia|done]].
  by apply (yield_inv s (set_state (get_task s (current_task s)) TASK_READY)).
Qed.

(** Writing a slot that is not the current task's, with a state that is not
    [TASK_RUNNING]. *)
Lemma put_inv s i t :
  sched_inv s -> 0 <= i < task_count s -> i <> current_task s -> state t <> TASK_RUNNING ->
  (i = 0 -> runnable t = true) -> sched_inv (put_task s i t).
Proof.
  intros [Hl Hc Hcur Hrun Hfr H0] Hi Hne Ht Hz. split; try done; cbn [task_count current_task put_task].
  - by rewrite put_len.
  - intros j Hj. rewrite get_put by (done || lia). destruct (Z.eqb_spec j i) as [->|]; [|by apply Hrun].
    split; [done|]. congruence.
  - intros j Hj. rewrite get_put by (done || lia). destruct (Z.eqb_spec j i) as [->|]; [lia|by apply Hfr].
  - rewrite get_put by (done || lia). destruct (Z.eqb_spec 0 i) as [<-|]; [by apply Hz|done].
Qed.

Lemma bump_inv s : sched_inv s -> task_count s < 8 -> sched_inv (bump_count s).
Proof.
  intros [Hl Hc Hcur Hrun Hfr H0] Hlt. split; try done; cbn; try lia.
  intros i Hi. apply Hfr. lia.
Qed.

Section LifecycleProofs.
Context {E : Type} `{TaskEnv E}.

(** The slot [task_create] picks and the scheduler it starts from. *)
Lemma create_slot s id s1 : sched_inv s ->
  (match find_slot s with
   | Some i => Some (i, s)
   | None => if MAX_TASKS <=? task_count s then None else Some (task_count s, bump_count s)
   end) = Some (id, s1) ->
  sched_inv s1 /\ 1 <= id < task_count s1 /\ tasks s1 = tasks s /\ current_task s1 = current_task s /\
  state (get_task s id) = TASK_UNUSED /\ id <> current_task s /\
  (id < task_count s -> stack_base (get_task s id) = 0 /\ page_directory (get_task s id) = 0).
Proof.
  intros Hinv. destruct (find_slot s) as [i|] eqn:Ef.
  - intros [= <- <-]. unfold find_slot in Ef. apply find_from_Some in Ef as (Hi & Hr & _).
    unfold reusable in Hr. apply andb_true_iff in Hr as [Hr Hd]. apply andb_true_iff in Hr as [Hr Hb].
    zbool. apply bool_decide_eq_true in Hr. split; [done|]. split; [lia|]. split; [done|].
    split; [done|]. split; [done|]. split; [|done].
    intros ->. pose proof (si_running _ Hinv (current_task s)) as [_ E2]; [destruct Hinv; lia|].
    rewrite E2 in Hr by done. done.
  - unfold MAX_TASKS. destruct (Z.leb_spec 8 (task_count s)) as [|Hlt]; [done|]. intros [= <- <-].
    split; [by apply bump_inv|]. cbn. split; [destruct Hinv; lia|]. split; [done|]. split; [done|].
    split; [apply (si_fresh _ Hinv); lia|]. split; [destruct Hinv; lia|lia].
Qed.

Lemma create_inv e s entry launch msgs ws e' s' r :
  sched_inv s -> task_create e s entry launch = (msgs, ws, e', s', r) -> sched_inv s'.
Proof.
  intros Hinv. unfold task_create.
  destruct (match find_slot s with Some i => _ | None => _ end) as [[id s1]|] eqn:Es.
  2:{ intros [= <- <- <- <- <-]. done. }
  destruct (create_slot s id s1 Hinv Es) as (Hinv1 & Hid & _ & Hc & _ & Hne & _).
  destruct (env_kmalloc e TASK_STACK_SIZE) as [e1 base]. case_if; [by intros [= <- <- <- <- <-]|].
  destruct (env_clone_directory e1) as [e2 dir]. case_if; [by intros [= <- <- <- <- <-]|].
  intros [= <- <- <- <- <-]. apply put_inv; [done|lia|congruence|done|lia].
Qed.

(** [task_create] returns a slot that no task used and that held no stack
    or directory, ready to run with its stack pointer at the six words that
    launch it; every other task is left alone, and on failure no task changes
    and the stack allocated on the way is given back. *)
Theorem task_create_spec e s entry launch :
  sched_inv s ->
  match task_create e s entry launch with
  | (_, ws, e', s', OK id) =>
      1 <= id < task_count s' /\ state (get_task s id) = TASK_UNUSED /\ id <> current_task s /\
      exists base dir, base <> 0 /\ dir <> 0 /\ (exists e1, env_kmalloc e 4096 = (e1, base) /\
        env_clone_directory e1 = (e', dir)) /\
      get_task s' id = mk_task (u32 (base + 4096 - 24)) base TASK_READY id (wake_tick (get_task s id)) dir /\
      ws = [(u32 (base + 4092), entry); (u32 (base + 4088), launch); (u32 (base + 4084), 0);
            (u32 (base + 4080), 0); (u32 (base + 4076), 0); (u32 (base + 4072), 0)] /\
      (forall j, 0 <= j < 8 -> j <> id -> get_task s' j = get_task s j)
  | (_, ws, e', s', Err) => ws = [] /\ tasks s' = tasks s /\ current_task s' = current_task s /\
      (e' = e \/ e' = fst (env_kmalloc e 4096) \/
       exists e1 base, env_kmalloc e 4096 = (e1, base) /\ e' = env_kfree (fst (env_clone_directory e1)) base)
  | (_, _, _, _, Fuel) => False
  end.
Proof.
  intros Hinv. unfold task_create.
  destruct (match find_slot s with Some i => _ | None => _ end) as [[id s1]|] eqn:Es.
  2:{ split; [done|]. split; [done|]. split; [done|]. by left. }
  destruct (create_slot s id s1 Hinv Es) as (Hinv1 & Hid & Ht & Hc & Hu & Hne & _).
  unfold TASK_STACK_SIZE. destruct (env_kmalloc e 4096) as [e1 base] eqn:Ek.
  destruct (Z.eqb_spec base 0) as [Hb|Hb]; [split; [done|]; split; [done|]; split; [done|]; right; by left|].
  destruct (env_clone_directory e1) as [e2 dir] eqn:Ed.
  destruct (Z.eqb_spec dir 0) as [Hd|Hd].
  { split; [done|]. split; [done|]. split; [done|]. right. right. exists e1, base. by rewrite Ed. }
  assert (Hg : forall j, get_task s1 j = get_task s j) by (intros j; unfold get_task; by rewrite Ht).
  pose proof (si_count _ Hinv1) as Hcnt. cbn [task_count put_task].
  split; [done|]. split; [done|]. split; [done|]. exists base, dir. split; [done|]. split; [done|].
  split; [by exists e1|].
  assert (Hsub : forall k, u32 (u32 (base + 4096) - k) = u32 (base + (4096 - k))).
  { intros k. unfold u32. rewrite Zminus_mod_idemp_l. f_equal. lia. }
  split; [|split].
  - rewrite get_put by (apply (si_len _ Hinv1) || lia). rewrite Z.eqb_refl, Hg, Hsub. do 2 f_equal. lia.
  - by rewrite !Hsub.
  - intros j Hj Hj2. rewrite get_put by (apply (si_len _ Hinv1) || lia).
    destruct (Z.eqb_spec j id); [done|apply Hg].
Qed.

(** *** Reaping *)
Definition exited (t : task) : bool :=
  bool_decide (state t = TASK_UNUSED) && negb (stack_base t =? 0).

Definition reaped (t : task) : task :=
  if exited t then mk_task (t_esp t) 0 (state t) (t_id t) (wake_tick t) 0 else t.

(** The calls made for one exited task. *)
Definition release_task (e : E) (i : Z) (t : task) : E :=
  if exited t then
    let e1 := env_fat_close_all (env_kfree e (stack_base t)) i in
    if page_directory t =? 0 then e1
    else env_free_frame (env_free_user_directory e1 (page_directory t)) (page_directory t)
  else e.

Lemma reap_slot_spec e s i : sched_inv s -> 1 <= i < task_count s ->
  fst (reap_slot (e, s) i) = release_task e i (get_task s i) /\
  sched_inv (snd (reap_slot (e, s) i)) /\
  task_count (snd (reap_slot (e, s) i)) = task_count s /\
  forall j, 0 <= j < 8 -> get_task (snd (reap_slot (e, s) i)) j =
    if j =? i then reaped (get_task s i) else get_task s j.
Proof.
  intros Hinv Hi. pose proof (si_count _ Hinv) as Hc. unfold reap_slot, release_task, reaped.
  fold (exited (get_task s i)). destruct (exited (get_task s i)) eqn:Ex.
  2:{ split; [done|]. split; [done|]. split; [done|]. intros j Hj. by destruct (Z.eqb_spec j i) as [->|]. }
  unfold exited in Ex. apply andb_true_iff in Ex as [Hu _]. apply bool_decide_eq_true in Hu.
  assert (Hne : i <> current_task s).
  { intros ->. pose proof (si_running _ Hinv (current_task s)) as [_ E2]; [lia|].
    rewrite E2 in Hu by done. done. }
  assert (G : forall t, state t = TASK_UNUSED -> sched_inv (put_task s i t) /\
  task_count (put_task s i t) = task_count s /\
  forall j, 0 <= j < 8 -> get_task (put_task s i t) j = if j =? i then t else get_task s j).
  { intros t Ht. split; [apply put_inv; [done|lia|done|by rewrite Ht|lia]|]. split; [done|].
    intros j Hj. apply get_put; [apply (si_len _ Hinv)|lia|done]. }
  destruct (Z.eqb_spec (page_directory (get_task s i)) 0) as [E0|E0]; cbn [fst snd].
  - split; [done|]. rewrite E0. by apply G.
  - split; [done|]. by apply G.
Qed.

Lemma reap_fold e s n : sched_inv s -> 0 <= n -> 1 + n <= task_count s ->
  let r := foldl reap_slot (e, s) (seqZ 1 n) in
  fst r = foldl (fun e i => release_task e i (get_task s i)) e (seqZ 1 n) /\
  sched_inv (snd r) /\ task_count (snd r) = task_count s /\
  forall j, 0 <= j < 8 -> get_task (snd r) j =
    if (1 <=? j) && (j <? 1 + n) then reaped (get_task s j) else get_task s j.
Proof.
  intros Hinv Hn. revert n Hn. refine (natlike_ind _ _ _).
  - intros _. rewrite seqZ_nil by lia. cbn [foldl fst snd].
    split; [done|]. split; [done|]. split; [done|]. intros j Hj.
    destruct (Z.leb_spec 1 j), (Z.ltb_spec j (1 + 0)); cbn; (lia || done).
  - intros n Hn IH Hle. specialize (IH ltac:(lia)). destruct IH as (I1 & I2 & I3 & I4).
    rewrite <- Z.add_1_r, seqZ_app by lia. rewrite (seqZ_cons (1 + n) 1), (seqZ_nil (Z.succ (1 + n))) by lia.
    rewrite !foldl_app. cbn [foldl]. set (r := foldl reap_slot (e, s) (seqZ 1 n)) in *.
    destruct r as [e1 s1]. cbn [fst snd] in *.
    destruct (reap_slot_spec e1 s1 (1 + n) I2) as (R1 & R2 & R3 & R4); [lia|].
    pose proof (si_count _ Hinv) as Hc.
    assert (Hsame : get_task s1 (1 + n) = get_task s (1 + n)).
    { rewrite I4 by lia. destruct (Z.ltb_spec (1 + n) (1 + n)); [lia|]. by rewrite andb_false_r. }
    split; [by rewrite R1, I1, Hsame|]. split; [done|]. split; [lia|].
    intros j Hj. rewrite R4, Hsame, I4 by done.
    destruct (Z.eqb_spec j (1 + n)) as [->|].
    + rewrite (proj2 (Z.leb_le 1 (1 + n))), (proj2 (Z.ltb_lt (1 + n) (1 + (n + 1)))) by lia. done.
    + destruct (Z.leb_spec 1 j), (Z.ltb_spec j (1 + n)), (Z.ltb_spec j (1 + (n + 1))); cbn; (lia || done).
Qed.

Lemma reap_inv e s e' s' : sched_inv s -> task_reap e s = (e', s') -> sched_inv s'.
Proof.
  intros Hinv Hr. destruct (reap_fold e s (task_count s - 1) Hinv) as (_ & R & _);
    [destruct Hinv; lia|lia|]. unfold task_reap in Hr. by rewrite Hr in R.
Qed.

(** [task_reap] releases the stack, the descriptors and the address space
    of exactly the exited tasks, each once: it changes no live task, leaves
    the slots of exited tasks reusable, and a second call does nothing. *)
Theorem task_reap_spec e s :
  sched_inv s ->
  let '(e', s') := task_reap e s in
  e' = foldl (fun e i => release_task e i (get_task s i)) e (seqZ 1 (task_count s - 1)) /\
  sched_inv s' /\ current_task s' = current_task s /\
  (forall j, 0 <= j < 8 -> get_task s' j =
     if (1 <=? j) && (j <? task_count s) then reaped (get_task s j) else get_task s j) /\
  task_reap e' s' = (e', s').
Proof.
  intros Hinv. pose proof (si_count _ Hinv) as Hc.
  destruct (reap_fold e s (task_count s - 1) Hinv) as (R1 & R2 & R3 & R4); [lia|lia|].
  unfold task_reap at 1. destruct (foldl reap_slot (e, s) _) as [e' s']. cbn [fst snd] in *.
  replace (1 + (task_count s - 1)) with (task_count s) in R4 by lia.
  split; [done|]. split; [done|]. split.
  { pose proof (si_running _ Hinv (current_task s)) as [_ Hrun]; [destruct Hinv; lia|].
    specialize (Hrun eq_refl). pose proof (si_cur _ Hinv) as Hcur.
    symmetry. apply (si_running _ R2); [lia|]. rewrite R4 by lia. case_if; [|done].
    unfold reaped, exited. rewrite Hrun. done. }
  split; [done|]. unfold task_reap. rewrite R3.
  assert (Hnone : forall i, 1 <= i < task_count s -> reap_slot (e', s') i = (e', s')).
  { intros i Hi. unfold reap_slot. rewrite R4 by lia.
    rewrite (proj2 (Z.leb_le 1 i)), (proj2 (Z.ltb_lt i (task_count s))) by lia. cbn [andb].
    unfold reaped, exited. destruct (bool_decide _ && negb (stack_base (get_task s i) =? 0)) eqn:Ex.
    - cbn. by rewrite andb_false_r.
    - by rewrite Ex. }
  assert (G : forall l, Forall (fun i => 1 <= i < task_count s) l -> foldl reap_slot (e', s') l = (e', s')).
  { induction 1 as [|i l Hi _ IH]; [done|]. cbn [foldl]. by rewrite Hnone. }
  apply G. apply Forall_forall. intros i Hi%elem_of_seqZ. lia.
Qed.

End LifecycleProofs.

(** Proves the invariant of a scheduler with eight given slots. *)
Lemma eight_cases i : 0 <= i < 8 ->
  i = 0 \/ i = 1 \/ i = 2 \/ i = 3 \/ i = 4 \/ i = 5 \/ i = 6 \/ i = 7.
Proof. lia. Qed.

Ltac concrete_inv :=
  split; try done;
  [ intros i Hi;
    destruct (eight_cases i Hi) as [?|[?|[?|[?|[?|[?|[?|?]]]]]]]; subst i; cbn; split; (done || lia)
  | intros i Hi; cbn in Hi;
    destruct (eight_cases i) as [?|[?|[?|[?|[?|[?|[?|?]]]]]]]; try lia; subst i; done ].

Lemma tasking_init_inv kernel_directory s :
  length (tasks s) = 8%nat -> sched_inv (snd (tasking_init kernel_directory s)).
Proof.
  intros Hl. destruct s as [ts cur cnt esp tss0 c3]. cbn [tasks] in Hl.
  do 8 (destruct ts as [|? ts]; [done|]). destruct ts; [|done]. concrete_inv.
Qed.

(** ** Switching and sleeping *)

(** What giving up the processor does. *)
Lemma yield_spec s (t' : task) :
  sched_inv s -> current_task s <> 0 -> state t' <> TASK_RUNNING -> t_esp t' = t_esp (get_task s (current_task s)) ->
  let me := current_task s in
  let s1 := put_task s me t' in
  let n := next_task_id s1 me in
  let s2 := task_switch_to s1 n in
  n <> me /\ runnable (get_task s n) = true /\ current_task s2 = n /\
  t_esp (get_task s2 me) = cpu_esp s /\ cpu_esp s2 = t_esp (get_task s n) /\
  (stack_base (get_task s n) <> 0 -> tss_esp0 s2 = u32 (stack_base (get_task s n) + 4096)) /\
  (page_directory (get_task s n) <> 0 -> cr3 s2 = page_directory (get_task s n)) /\
  (forall j, 0 <= j < 8 -> j <> me -> j <> n -> get_task s2 j = get_task s j).
Proof.
  intros Hinv Hne Ht Hesp me s1 n s2. pose proof Hinv as [Hl Hc Hcur Hrun Hfr H0].
  assert (G : forall i, 0 <= i < 8 -> get_task s1 i = if i =? me then t' else get_task s i)
    by (intros i Hi; apply get_put; (done || subst me; lia)).
  assert (Hidle : runnable (get_task s1 0) = true)
    by (rewrite G by lia; destruct (Z.eqb_spec 0 me); [subst me; congruence|done]).
  destruct (next_before s1 me 0) as (k & Hk & _ & Hr & Hnn);
    [cbn; lia|done|cbn; lia|subst me; congruence|done|]. fold n in Hr, Hnn.
  destruct (next_spec s1 me) as (Hn & _); [cbn; lia|done|exists 0; split; [cbn; lia|done]|].
  fold n in Hn. cbn [s1 task_count put_task] in Hn.
  assert (Hgn : get_task s1 n = get_task s n)
    by (rewrite G by lia; by destruct (Z.eqb_spec n me)).
  assert (Hl1 : length (tasks s1) = 8%nat) by (unfold s1; by rewrite put_len).
  assert (S : forall i, 0 <= i < 8 -> get_task s2 i =
    let t := if i =? n then set_state (get_task s1 i) TASK_RUNNING else get_task s1 i in
    if i =? me then set_esp t (cpu_esp s) else t)
    by (intros i Hi; apply (switch_slots s1 n i); [done|lia|cbn; lia|done]).
  assert (Hrest : forall j, 0 <= j < 8 -> j <> me -> j <> n -> get_task s2 j = get_task s j).
  { intros j Hj Hjm Hjn. rewrite S, G by done. cbn zeta.
    by destruct (Z.eqb_spec j n), (Z.eqb_spec j me). }
  split; [done|]. split; [by rewrite <- Hgn|]. split; [apply switch_fields|].
  split; [rewrite S, Z.eqb_refl by (subst me; lia); done|]. split.
  { rewrite <- Hgn. apply switch_esp; [done|lia]. }
  destruct (switch_regs s1 n) as [R1 R2]. fold s2 in R1, R2. rewrite Hgn in R1, R2.
  split; [intros Hb; rewrite R1; by destruct (Z.eqb_spec (stack_base (get_task s n)) 0)|].
  split; [intros Hb; rewrite R2; by destruct (Z.eqb_spec (page_directory (get_task s n)) 0)|].
  exact Hrest.
Qed.

(** What [task_exit] does: the slot is unused, a runnable task runs, and the
    other tasks are as they were. *)
Lemma exit_spec s : sched_inv s -> current_task s <> 0 ->
  let me := current_task s in let s' := task_exit s in let n := current_task s' in
  sched_inv s' /\ state (get_task s' me) = TASK_UNUSED /\ n <> me /\ runnable (get_task s n) = true /\
  (forall j, 0 <= j < 8 -> j <> me -> j <> n -> get_task s' j = get_task s j).
Proof.
  intros Hinv Hme. cbv zeta. split; [by apply exit_inv|].
  destruct (yield_spec s (set_state (get_task s (current_task s)) TASK_UNUSED) Hinv Hme) as (H1 & H2 & H3 & _ & _ & _ & _ & H4); [done|done|].
  fold (set_current_state s TASK_UNUSED) in H1, H2, H3, H4.
  unfold task_exit. change (current_task (set_current_state s TASK_UNUSED)) with (current_task s). rewrite H3.
  split; [|done]. pose proof Hinv as [Hlen Hc Hcur _ _ _].
  assert (Hn : 0 <= next_task_id (set_current_state s TASK_UNUSED) (current_task s) < 8).
  { pose proof (exit_inv s Hinv Hme) as [_ Hc' Hcur' _ _ _]. unfold task_exit in Hc', Hcur'.
    change (current_task (set_current_state s TASK_UNUSED)) with (current_task s) in Hc', Hcur'. rewrite H3 in Hcur'. lia. }
  rewrite switch_state by (done || (unfold set_current_state; rewrite ?put_len; cbn; lia)).
  rewrite (proj2 (Z.eqb_neq _ _) (not_eq_sym H1)), set_current_get by lia. by rewrite Z.eqb_refl.
Qed.

(** A call that gives up the processor (exit, sleep, wait) from a task
    other than the idle task always switches to a different, runnable task:
    the caller's stack pointer is saved in its slot, the processor continues
    on the other task's saved stack pointer, kernel stack and page directory,
    and no third task's slot is touched. *)
Theorem yield_switches s (t' : task) :
  sched_inv s -> current_task s <> 0 -> state t' <> TASK_RUNNING -> t_esp t' = t_esp (get_task s (current_task s)) ->
  let me := current_task s in
  let s1 := put_task s me t' in
  let n := next_task_id s1 me in
  let s2 := task_switch_to s1 n in
  n <> me /\ runnable (get_task s n) = true /\ current_task s2 = n /\
  t_esp (get_task s2 me) = cpu_esp s /\ cpu_esp s2 = t_esp (get_task s n) /\
  (stack_base (get_task s n) <> 0 -> tss_esp0 s2 = u32 (stack_base (get_task s n) + 4096)) /\
  (page_directory (get_task s n) <> 0 -> cr3 s2 = page_directory (get_task s n)) /\
  (forall j, 0 <= j < 8 -> j <> me -> j <> n -> get_task s2 j = get_task s j).
Proof. apply yield_spec. Qed.

Lemma s32_neg k : -2147483648 <= k < 0 -> s32 k = k.
Proof. intros. apply s32_small. lia. Qed.

Lemma s32_u32_sub a b : s32 (u32 a - u32 b) = s32 (a - b).
Proof. unfold s32, u32. by rewrite <- Zminus_mod. Qed.

(** A sleeping task does not run before its time: at every tick up to, but
    not including, [sleep_ticks] after the call it stays asleep; the first
    tick from then on makes it runnable.  (The tick counter may wrap around
    in between.) *)
Theorem task_sleep_wakes s freq now ms j :
  sched_inv s -> current_task s <> 0 -> sleep_ticks freq ms < 2147483648 ->
  let me := current_task s in
  let s' := task_sleep s freq now ms in
  state (get_task s' me) = TASK_SLEEPING /\
  (1 <= j < sleep_ticks freq ms ->
     state (get_task (schedule s' (u32 (now + j))) me) = TASK_SLEEPING) /\
  (sleep_ticks freq ms <= j < sleep_ticks freq ms + 2147483648 ->
     runnable (get_task (schedule s' (u32 (now + j))) me) = true).
Proof.
  intros Hinv Hne Hticks me s'. pose proof Hinv as [Hl Hc Hcur Hrun Hfr H0].
  set (w := u32 (now + sleep_ticks freq ms)).
  set (t' := set_state (set_wake (get_task s me) w) TASK_SLEEPING).
  set (s1 := put_task s me t'). set (n := next_task_id s1 me).
  assert (Hs' : s' = task_switch_to s1 n) by done.
  destruct (yield_inv s t' Hinv Hne ltac:(done)) as [Hinv' Hself]. fold me s1 n in Hinv', Hself.
  assert (Hnm : n <> me) by (intros E; by specialize (Hself E)).
  assert (Hn : 0 <= n < task_count s).
  { pose proof (si_cur _ Hinv') as Hcn. destruct (switch_fields s1 n) as (_ & F2 & F3).
    rewrite F2, F3 in Hcn. done. }
  assert (Hme : get_task s' me = set_esp t' (cpu_esp s)).
  { rewrite Hs', (switch_slots s1 n me); [|unfold s1; by rewrite put_len|lia|cbn; subst me; lia|subst me; lia].
    cbn zeta. destruct (Z.eqb_spec me n); [congruence|]. cbn [current_task put_task s1]. fold me.
    rewrite Z.eqb_refl. unfold s1. rewrite get_put by (done || subst me; lia). by rewrite Z.eqb_refl. }
  assert (Hst : state (get_task s' me) = TASK_SLEEPING) by (by rewrite Hme).
  rewrite <- Hs' in Hinv'. clearbody s'.
  assert (Hmr : 0 <= me < 8) by (subst me; lia).
  assert (Hcnt : task_count s' = task_count s)
    by (rewrite Hs'; apply (proj2 (proj2 (switch_fields s1 n)))).
  assert (Hwake : get_task (wake_sleepers s' (u32 (now + j))) me =
    if 0 <=? s32 (j - sleep_ticks freq ms) then set_state (get_task s' me) TASK_READY else get_task s' me).
  { rewrite wake_get by (done || apply (si_len _ Hinv')). rewrite Hcnt.
    rewrite (proj2 (Z.ltb_lt me (task_count s))) by (subst me; lia). cbn [andb].
    unfold wake_due. rewrite Hst, bool_decide_true by done. rewrite Hme at 1. cbn [wake_tick t' set_esp set_state set_wake].
    unfold w. rewrite s32_u32_sub. replace (now + j - (now + sleep_ticks freq ms)) with (j - sleep_ticks freq ms) by lia.
    done. }
  assert (Hnc : me <> current_task s').
  { intros E. apply (si_running _ Hinv') in E; [|done]. congruence. }
  destruct (schedule_state s' (u32 (now + j)) me Hinv' Hmr Hnc) as [Es|[Er Es]].
  - split; [done|]. rewrite Es, Hwake. split; intros Hj.
    + rewrite s32_neg by lia. destruct (Z.leb_spec 0 (j - sleep_ticks freq ms)); [lia|done].
    + apply runnable_spec. rewrite Es, Hwake, s32_small by lia.
      destruct (Z.leb_spec 0 (j - sleep_ticks freq ms)); [by left|lia].
  - split; [done|]. split; intros Hj; [|apply runnable_spec; by right].
    rewrite Hwake, s32_neg in Er by lia.
    destruct (Z.leb_spec 0 (j - sleep_ticks freq ms)); [lia|].
    apply runnable_spec in Er. rewrite Hst in Er. naive_solver.
Qed.

(** [task_sleep] promises at least [ms] milliseconds, but rounds the number of
    ticks down: at 100 Hz, 15 ms are one tick, 10 ms or less. *)
Example sleep_rounds_down : sleep_ticks 100 15 = 1.
Proof. reflexivity. Qed.

(** ** Instances *)

(** An environment that records the calls made to it. *)
Inductive env_call :=
| CKmalloc (n p : Z)
| CKfree (p : Z)
| CClone (d : Z)
| CFreeDirectory (d : Z)
| CFreeFrame (d : Z)
| CCloseAll (i : Z).

#[export] Instance trace_env : TaskEnv (list env_call) := {
  env_kmalloc e n := (e ++ [CKmalloc n 1300000], 1300000);
  env_kfree e p := e ++ [CKfree p];
  env_clone_directory e := (e ++ [CClone 8192], 8192);
  env_free_user_directory e d := e ++ [CFreeDirectory d];
  env_free_frame e d := e ++ [CFreeFrame d];
  env_fat_close_all e i := e ++ [CCloseAll i] }.

(** Task 1 runs, the idle task is ready, task 2 sleeps until tick 90, task 3
    has exited. *)
Definition demo : sched :=
  mk_sched
    [mk_task 100 0 TASK_READY 0 0 4096; mk_task 200 1200000 TASK_RUNNING 1 0 8192;
     mk_task 300 1210000 TASK_SLEEPING 2 90 12288; mk_task 400 1220000 TASK_UNUSED 3 0 16384;
     blank_task; blank_task; blank_task; blank_task]
    1 4 777 1204096 8192.

Lemma demo_inv : sched_inv demo.
Proof. concrete_inv. Qed.

Lemma schedule_fair_witness :
  exists k, (k <= 7)%nat /\ current_task (foldl schedule demo (take k [1; 2; 3; 4; 5; 6; 7])) = 0.
Proof. apply (schedule_fair demo 0 [1; 2; 3; 4; 5; 6; 7] demo_inv); [cbn; lia|reflexivity|cbn; lia]. Defined.

Lemma task_create_witness :
  match task_create [] demo 5000 6000 with
  | (_, _, _, s', OK id) => id = 4 /\ 1 <= id < task_count s'
  | _ => False
  end.
Proof.
  pose proof (task_create_spec [] demo 5000 6000 demo_inv) as T.
  destruct (task_create [] demo 5000 6000) as [[[[msgs ws] e'] s'] r] eqn:E.
  assert (r = OK 4) as -> by (vm_compute in E; by injection E as _ _ _ _ <-).
  split; [reflexivity|apply T].
Defined.

Lemma task_reap_witness :
  fst (task_reap [] demo) = [CKfree 1220000; CCloseAll 3; CFreeDirectory 16384; CFreeFrame 16384].
Proof.
  pose proof (task_reap_spec (@nil env_call) demo demo_inv) as T.
  destruct (task_reap [] demo) as [e' s']. destruct T as [-> _]. vm_compute. reflexivity.
Defined.


Lemma yield_switches_witness :
  let t' := set_state (get_task demo 1) TASK_UNUSED in
  let s1 := put_task demo 1 t' in
  next_task_id s1 1 <> 1 /\ cpu_esp (task_switch_to s1 (next_task_id s1 1)) =
    t_esp (get_task demo (next_task_id s1 1)).
Proof.
  destruct (yield_switches demo (set_state (get_task demo 1) TASK_UNUSED) demo_inv) as (N & _ & _ & _ & C & _);
    [discriminate|discriminate|reflexivity|]. split; [exact N|exact C].
Defined.

Lemma task_sleep_witness :
  state (get_task (schedule (task_sleep demo 100 80 50) (u32 (80 + 4))) 1) = TASK_SLEEPING.
Proof.
  apply (task_sleep_wakes demo 100 80 50 4 demo_inv); [discriminate|reflexivity|].
  vm_compute. split; [discriminate|reflexivity].
Defined.
