(* ===== verification/Fault.v ===== *)
(** * Processor exceptions (src/src/isr.c)

    The handler every exception stub calls: it logs the exception, paints a
    banner straight into the video memory, and then ends the task when the
    fault came from ring 3 or halts the machine when it came from the kernel. *)
From S2P Require Import Prelude Io Interrupts Input Terminal Task.
Import Input.Serial.

Definition text (s : string) : list Z := (fun a => Z.of_nat (Ascii.nat_of_ascii a)) <$> String.list_ascii_of_string s.

Definition exception_messages : list string :=
  ["Division By Zero"; "Debug"; "Non Maskable Interrupt"; "Breakpoint";
   "Into Detected Overflow"; "Out of Bounds"; "Invalid Opcode"; "No Coprocessor";
   "Double Fault"; "Coprocessor Segment Overrun"; "Bad TSS"; "Segment Not Present";
   "Stack Fault"; "General Protection Fault"; "Page Fault"; "Unknown Interrupt";
   "Coprocessor Fault"; "Alignment Check"; "Machine Check"; "Reserved";
   "Reserved"; "Reserved"; "Reserved"; "Reserved";
   "Reserved"; "Reserved"; "Reserved"; "Reserved";
   "Reserved"; "Reserved"; "Reserved"; "Reserved"]%string.
Definition exception_message (int_no : Z) : list Z := text (default ""%string (exception_messages !! Z.to_nat int_no)).

Definition VGA_COLS : Z := 80.
(** White on red. *)
Definition red (c : Z) : Z := Z.lor (u16 (s8 c)) 20224.

(** [video_memory[offset + i] = str[i]] along a string. *)
Fixpoint put_cells (mem : list Z) (offset : Z) (l : list Z) : list Z :=
  match l with
  | [] => mem
  | c :: l' => put_cells (<[Z.to_nat offset := red c]> mem) (offset + 1) l'
  end.

Definition clear_row (mem : list Z) (row : Z) : list Z := put_cells mem (row * VGA_COLS) (replicate (Z.to_nat VGA_COLS) 32).
Definition print_at (mem : list Z) (str : list Z) (row : Z) : list Z := put_cells (clear_row mem row) (row * VGA_COLS) str.
Definition print_hex_at (mem : list Z) (value row : Z) : list Z :=
  put_cells (clear_row mem row) (row * VGA_COLS)
    ([48; 120] ++ map (fun i => hex_char (Z.land (Z.shiftr value (28 - i * 4)) 15)) (seqZ 0 8)).

Definition set_memory (v : vga) (mem : list Z) : vga := mk_vga mem (cursor_row v) (cursor_col v).

(** The banner; [cr2] is the address register of the processor, [me] the task. *)
Definition banner (mem : list Z) (int_no cr2 me : Z) (ring3 : bool) : list Z :=
  let mem := print_at mem (text "EXCEPTION:") 2 in
  let mem := print_at mem (exception_message int_no) 3 in
  let mem := if int_no =? 14 then print_hex_at (print_at mem (text "Faulting address:") 4) cr2 5 else mem in
  if ring3 then print_hex_at (print_at mem (text "Ring 3 fault - terminating task:") 6) me 7
  else print_at mem (text "Kernel-mode fault - halting") 6.

Inductive fault_outcome :=
| Terminated (v : vga) (s : sched)  (* another task runs *)
| Halted (v : vga).

Section Handler.
Context {D : Type} `{Ports D} (fuel : nat).

(** The log is written piece by piece through the terminal. *)
Definition fault_log (ticks me int_no : Z) : list Z :=
  [10] ++ text "[FAULT] tick=" ++ dec_text ticks ++ text " task=" ++ dec_text (u32 me) ++ [32] ++ exception_message int_no ++ [10].

Definition fault_handler (ticks cr2 int_no cs : Z) (v : vga) (s : sched) : io D fault_outcome :=
  let me := current_task s in
  let* v := terminal_writestring fuel v (fault_log ticks me int_no) in
  if Z.land cs 3 =? 3 then
    io_ret (Terminated (set_memory v (banner (video_memory v) int_no cr2 me true)) (task_exit s))
  else io_ret (Halted (set_memory v (banner (video_memory v) int_no cr2 me false))).
End Handler.

(** ** The banner *)
Lemma put_cells_length l : forall mem o, length (put_cells mem o l) = length mem.
Proof. induction l as [|c l IH]; intros mem o; cbn [put_cells]; [done|]. by rewrite IH, length_insert. Qed.

Lemma put_cells_lookup l : forall mem o i, 0 <= o -> 0 <= i < Z.of_nat (length mem) ->
  put_cells mem o l !! Z.to_nat i =
    if (o <=? i) && (i <? o + Z.of_nat (length l)) then Some (red (byte_at l (i - o))) else mem !! Z.to_nat i.
Proof.
  induction l as [|c l IH]; intros mem o i Ho Hi; cbn [put_cells length].
  { destruct (Z.leb_spec o i), (Z.ltb_spec i (o + Z.of_nat 0)); cbn [andb]; (done || lia). }
  rewrite IH by (rewrite ?length_insert; lia). destruct (decide (i = o)) as [->|Hne].
  - rewrite (proj2 (Z.leb_gt (o + 1) o)), Z.leb_refl, (proj2 (Z.ltb_lt o (o + Z.of_nat (S (length l))))) by lia. cbn [andb].
    rewrite list_lookup_insert_eq by lia. by rewrite Z.sub_diag.
  - rewrite list_lookup_insert_ne by lia.
    destruct (Z.leb_spec (o + 1) i), (Z.leb_spec o i), (Z.ltb_spec i (o + 1 + Z.of_nat (length l))),
      (Z.ltb_spec i (o + Z.of_nat (S (length l)))); cbn [andb]; try done; try lia.
    unfold byte_at. replace (Z.to_nat (i - o)) with (S (Z.to_nat (i - (o + 1)))) by lia. done.
Qed.

(** What a row of the banner leaves: its text, blanks, and the other rows. *)
Definition red_row (str : list Z) (j : Z) : Z := if j <? Z.of_nat (length str) then red (byte_at str j) else red 32.

Lemma row_lookup mem str row i : length mem = 2000%nat -> (length str <= 80)%nat -> 0 <= row < 25 -> 0 <= i < 2000 ->
  put_cells (clear_row mem row) (row * VGA_COLS) str !! Z.to_nat i =
    if i / 80 =? row then Some (red_row str (i mod 80)) else mem !! Z.to_nat i.
Proof.
  intros Hl Hs Hr Hi. unfold clear_row, VGA_COLS. rewrite put_cells_lookup by (rewrite ?put_cells_length; lia).
  rewrite put_cells_lookup by lia. rewrite length_replicate. change (Z.of_nat (Z.to_nat 80)) with 80.
  assert (Hb : 0 <= i - row * 80 < 80 -> byte_at (replicate (Z.to_nat 80) 32) (i - row * 80) = 32).
  { intros Hj. apply byte_at_lookup, lookup_replicate_2. lia. }
  unfold red_row. destruct (Z.eqb_spec (i / 80) row) as [E|E].
  - replace (i - row * 80) with (i mod 80) in * by dlia. assert (0 <= i mod 80 < 80) by dlia.
    rewrite (proj2 (Z.leb_le (row * 80) i)) by dlia. cbn [andb].
    destruct (Z.ltb_spec i (row * 80 + Z.of_nat (length str))), (Z.ltb_spec (i mod 80) (Z.of_nat (length str))); try dlia; try done.
    rewrite (proj2 (Z.ltb_lt i (row * 80 + 80))) by dlia. by rewrite Hb.
  - assert (H0 : (row * 80 <=? i) && (i <? row * 80 + 80) = false).
    { apply andb_false_iff. destruct (Z.leb_spec (row * 80) i); [right; apply Z.ltb_ge; dlia|by left]. }
    rewrite H0. destruct (Z.leb_spec (row * 80) i), (Z.ltb_spec i (row * 80 + Z.of_nat (length str))); cbn [andb]; try done. dlia.
Qed.

Lemma row_length mem str row : length (put_cells (clear_row mem row) (row * VGA_COLS) str) = length mem.
Proof. unfold clear_row. by rewrite !put_cells_length. Qed.

Lemma message_length n : (length (exception_message n) <= 80)%nat.
Proof.
  unfold exception_message. destruct (exception_messages !! Z.to_nat n) as [s|] eqn:E; [|cbn; lia].
  assert (Hall : Forall (fun s => (length (text s) <= 80)%nat) exception_messages).
  { apply (bool_decide_unpack _). vm_compute. exact I. }
  by apply (proj1 (Forall_lookup _ _) Hall _ _ E).
Qed.

Lemma message_bytes n : Forall is_byte (exception_message n).
Proof.
  unfold exception_message, text. apply Forall_fmap, Forall_forall. intros a _. cbn.
  pose proof (Ascii.nat_ascii_bounded a). unfold is_byte. lia.
Qed.

Lemma banner_lookup mem int_no cr2 me ring3 i : length mem = 2000%nat -> 0 <= i < 2000 ->
  length (banner mem int_no cr2 me ring3) = 2000%nat /\
  (~ 2 <= i / 80 <= 7 -> banner mem int_no cr2 me ring3 !! Z.to_nat i = mem !! Z.to_nat i) /\
  (i / 80 = 3 -> banner mem int_no cr2 me ring3 !! Z.to_nat i = Some (red_row (exception_message int_no) (i mod 80))).
Proof.
  intros Hl Hi. pose proof (message_length int_no) as Hm. unfold banner, print_at, print_hex_at.
  set (m2 := put_cells (clear_row mem 2) (2 * VGA_COLS) _). assert (L2 : length m2 = 2000%nat) by (unfold m2; by rewrite row_length).
  set (m3 := put_cells (clear_row m2 3) (3 * VGA_COLS) _). assert (L3 : length m3 = 2000%nat) by (unfold m3; by rewrite row_length).
  set (m5 := if int_no =? 14 then _ else m3).
  assert (H5 : length m5 = 2000%nat /\ (i / 80 <> 4 -> i / 80 <> 5 -> m5 !! Z.to_nat i = m3 !! Z.to_nat i)).
  { unfold m5. destruct (int_no =? 14); [|done]. rewrite !row_length. split; [done|]. intros N4 N5.
    rewrite !row_lookup by (rewrite ?row_length; (done || lia || (vm_compute; lia))).
    by rewrite (proj2 (Z.eqb_neq _ _) N5), (proj2 (Z.eqb_neq _ _) N4). }
  clearbody m5. destruct H5 as [L5 H5].
  assert (H3 : m3 !! Z.to_nat i = if i / 80 =? 3 then Some (red_row (exception_message int_no) (i mod 80)) else m2 !! Z.to_nat i)
    by (unfold m3; by rewrite row_lookup by (done || lia)).
  assert (H2 : i / 80 <> 2 -> m2 !! Z.to_nat i = mem !! Z.to_nat i).
  { intros N. unfold m2. rewrite row_lookup by (done || lia || (vm_compute; lia)). by rewrite (proj2 (Z.eqb_neq _ _) N). }
  assert (Hlast : forall b : bool, i / 80 <> 6 -> i / 80 <> 7 ->
    (if b then put_cells (clear_row (put_cells (clear_row m5 6) (6 * VGA_COLS) (text "Ring 3 fault - terminating task:")) 7)
       (7 * VGA_COLS) ([48; 120] ++ map (fun i => hex_char (Z.land (Z.shiftr me (28 - i * 4)) 15)) (seqZ 0 8))
     else put_cells (clear_row m5 6) (6 * VGA_COLS) (text "Kernel-mode fault - halting")) !! Z.to_nat i = m5 !! Z.to_nat i).
  { intros b N6 N7. destruct b; rewrite !row_lookup by (rewrite ?row_length; (done || lia || (vm_compute; lia)));
      by rewrite ?(proj2 (Z.eqb_neq _ _) N7), ?(proj2 (Z.eqb_neq _ _) N6). }
  split; [destruct ring3; by rewrite !row_length|]. split.
  - intros N. rewrite Hlast, H5, H3, (proj2 (Z.eqb_neq (i / 80) 3)), H2 by lia. done.
  - intros E. rewrite Hlast, H5, H3, E by lia. done.
Qed.

(** ** Isolation *)
Section Isolation.
Context {D : Type} `{HP : Ports D} `{!Uart D} (fuel : nat).

Lemma fault_log_bytes ticks me int_no : is_u32 ticks -> Forall is_byte (fault_log ticks me int_no).
Proof.
  intros Ht. assert (Hd : forall n, is_u32 n -> Forall is_byte (dec_text n)).
  { intros n Hn. unfold dec_text. destruct (n =? 0); [repeat constructor; unfold is_byte; lia|].
    destruct (dec_buffer_spec 32 n) as (_ & Hf & _).
    { unfold is_u32 in Hn. change (10 ^ Z.of_nat 32) with 100000000000000000000000000000000. lia. }
    apply Forall_reverse. eapply Forall_impl; [done|]. unfold is_byte. cbn. lia. }
  assert (Hb : forall l : list Z, forallb (fun c => (0 <=? c) && (c <? 256)) l = true -> Forall is_byte l).
  { intros l Hl. apply Forall_forall. intros c Hc. apply list_elem_of_In in Hc. rewrite forallb_forall in Hl. specialize (Hl c Hc).
    unfold is_byte. zbool. lia. }
  unfold fault_log. repeat (apply Forall_app; split); try (by apply Hb); [by apply Hd|apply Hd, u32_is|apply message_bytes].
Qed.

End Isolation.

