(* ===== verification/Ip.v ===== *)
(** * IPv4 and ICMP (src/src/ip.c, src/src/icmp.c)

    The Internet checksum, building and parsing of packets, and the echo
    responder.  A frame handed to the network card is returned as the list of
    its bytes. *)
From S2P Require Import Prelude.

Definition ETH_HEADER_LEN : Z := 14.
Definition IP_HEADER_LEN : Z := 20.

(** Big-endian fields. *)
Definition put_be16 (v : Z) : list Z := [Z.shiftr v 8 mod 256; Z.land v 255].
Definition get_be16 (b : list Z) (i : Z) : Z := Z.lor (Z.shiftl (byte_at b i) 8) (byte_at b (i + 1)).

(** ** The checksum *)

(** The loop over the byte pairs, with the odd last byte as a high byte; the
    accumulator is 32 bits wide. *)
Fixpoint checksum_words (data : list Z) (sum : Z) : Z :=
  match data with
  | hi :: lo :: rest => checksum_words rest (u32 (sum + Z.lor (Z.shiftl hi 8) lo))
  | [hi] => u32 (sum + Z.shiftl hi 8)
  | [] => sum
  end.

(** [while (sum >> 16)]: three turns are enough for any 32-bit sum. *)
Fixpoint fold_carry (fuel : nat) (sum : Z) : Z :=
  match fuel with
  | O => sum
  | S fuel' =>
      if Z.shiftr sum 16 =? 0 then sum
      else fold_carry fuel' (u32 (Z.land sum 65535 + Z.shiftr sum 16))
  end.

Definition ip_checksum (data : list Z) : Z :=
  u16 (Z.lnot (fold_carry 3 (checksum_words data 0))).

(** ** Configuration *)
Record ip_config := mk_ip {
  our_ip : list Z;
  our_netmask : list Z;
  our_gateway : list Z;
  gateway_configured : bool }.

Definition ip_boot : ip_config := mk_ip [0; 0; 0; 0] [255; 255; 255; 0] [0; 0; 0; 0] false.

Definition ip_set_address (c : ip_config) (ip : list Z) : ip_config :=
  mk_ip ip (our_netmask c) (our_gateway c) (gateway_configured c).
Definition ip_set_netmask (c : ip_config) (mask : list Z) : ip_config :=
  mk_ip (our_ip c) mask (our_gateway c) (gateway_configured c).
Definition ip_set_gateway (c : ip_config) (gw : list Z) : ip_config :=
  mk_ip (our_ip c) (our_netmask c) gw true.

Definition same_subnet (c : ip_config) (dest : list Z) : bool :=
  forallb (fun i => Z.land (byte_at dest i) (byte_at (our_netmask c) i)
                    =? Z.land (byte_at (our_ip c) i) (byte_at (our_netmask c) i)) [0; 1; 2; 3].

(** The address [ip_resolve_route] hands to ARP: the destination itself on the
    own subnet, else the gateway; [None] without a gateway. *)
Definition next_hop (c : ip_config) (dest : list Z) : option (list Z) :=
  if same_subnet c dest then Some dest
  else if gateway_configured c then Some (our_gateway c) else None.

(** ** Sending *)
Definition ip_header (c : ip_config) (protocol : Z) (dest_ip : list Z) (payload_len : Z) : list Z :=
  let total_len := u16 (IP_HEADER_LEN + payload_len) in
  let hdr csum := [69; 0] ++ put_be16 total_len ++ [0; 0; 0; 0; 64; protocol] ++ put_be16 csum
                  ++ our_ip c ++ dest_ip in
  hdr (ip_checksum (hdr 0)).

Definition ip_send (c : ip_config) (our_mac : list Z) (protocol : Z) (dest_ip dest_mac payload : list Z)
    : list Z :=
  let payload := take 1472 payload in
  dest_mac ++ our_mac ++ [8; 0]
  ++ ip_header c protocol dest_ip (Z.of_nat (length payload)) ++ payload.

(** ** Receiving: the call made to an upper layer *)
Record upcall := mk_upcall {
  up_protocol : Z;
  up_source_ip : list Z;
  up_source_mac : list Z;
  up_data : list Z }.

Definition ip_receive (c : ip_config) (frame : list Z) : option upcall :=
  let frame_len := Z.of_nat (length frame) in
  if frame_len <? ETH_HEADER_LEN + IP_HEADER_LEN then None
  else
    let h i := byte_at frame (ETH_HEADER_LEN + i) in
    if negb (Z.shiftr (h 0) 4 =? 4) then None
    else
      let ihl_bytes := Z.land (h 0) 15 * 4 in
      let ip_total_length := get_be16 frame (ETH_HEADER_LEN + 2) in
      let frame_payload_available := frame_len - ETH_HEADER_LEN - ihl_bytes in
      let declared_payload_len := ip_total_length - ihl_bytes in
      let payload_len := if frame_payload_available <? declared_payload_len
                         then frame_payload_available else declared_payload_len in
      let payload_len := if payload_len <? 0 then 0 else payload_len in
      if negb (bool_decide ([h 16; h 17; h 18; h 19] = our_ip c)) then None
      else
        let protocol := h 9 in
        if ((protocol =? 1) || (protocol =? 17) || (protocol =? 6)) && (0 <? payload_len) then
          Some (mk_upcall protocol [h 12; h 13; h 14; h 15] (take 6 (drop 6 frame))
                  (take (Z.to_nat (u16 payload_len))
                     (drop (Z.to_nat (ETH_HEADER_LEN + ihl_bytes)) frame)))
        else None.

(** ** ICMP *)
Definition icmp_handle (c : ip_config) (our_mac source_ip source_mac icmp_data : list Z)
    : list tty * list (list Z) :=
  if Z.of_nat (length icmp_data) <? 8 then ([], [])
  else if negb (byte_at icmp_data 0 =? 8) then ([], [])
  else
    let reply := [0; 0; 0; 0] ++ drop 4 (take 1472 icmp_data) in
    let csum := ip_checksum reply in
    let reply := [0; 0] ++ put_be16 csum ++ drop 4 (take 1472 icmp_data) in
    ([TLn "ICMP: echo reply sent"], [ip_send c our_mac 1 source_ip source_mac reply]).

(** ** Facts about fields *)
Lemma put_be16_bytes v : is_u16 v -> Forall is_byte (put_be16 v).
Proof.
  intros Hv. unfold put_be16, is_u16 in *. change 255 with (Z.ones 8).
  rewrite Z.land_ones by lia. repeat constructor; unfold is_byte; dlia.
Qed.

Lemma be16_lor hi lo : 0 <= lo < 256 -> Z.lor (Z.shiftl hi 8) lo = hi * 256 + lo.
Proof. intros Hl. rewrite Z.shiftl_mul_pow2 by lia. by apply (lor_add 8). Qed.

Lemma put_be16_eq v : is_u16 v -> put_be16 v = [v / 256; v mod 256].
Proof.
  intros Hv. unfold put_be16, is_u16 in *. change 255 with (Z.ones 8). rewrite Z.land_ones by lia.
  rewrite Z.shiftr_div_pow2 by lia. change (2 ^ 8) with 256. rewrite Z.mod_small by dlia. done.
Qed.

(** ** The checksum is the one's-complement sum *)

(** The exact sum of the 16-bit words. *)
Fixpoint word_sum (data : list Z) : Z :=
  match data with
  | hi :: lo :: rest => hi * 256 + lo + word_sum rest
  | [hi] => hi * 256
  | [] => 0
  end.

Lemma pair_ind (P : list Z -> Prop) :
  P [] -> (forall a, P [a]) -> (forall a b l, P l -> P (a :: b :: l)) -> forall l, P l.
Proof.
  intros H0 H1 H2 l. assert (P l /\ forall a, P (a :: l)) as [? _]; [|done].
  induction l as [|x l [IH1 IH2]]; [by auto|]. split; [by apply IH2|]. intros a. by apply H2.
Qed.

Lemma word_sum_bounds data : Forall is_byte data ->
  0 <= word_sum data <= 32768 * (Z.of_nat (length data) + 1).
Proof.
  induction data as [|a|a b l IH] using pair_ind; intros Hb; cbn [word_sum length].
  - lia.
  - apply Forall_cons in Hb as [Ha _]. unfold is_byte in Ha. lia.
  - apply Forall_cons in Hb as [Ha Hb]. apply Forall_cons in Hb as [Hb0 Hb]. specialize (IH Hb).
    unfold is_byte in *. lia.
Qed.

Lemma checksum_words_sum data s :
  Forall is_byte data -> 0 <= s -> s + word_sum data < 4294967296 ->
  checksum_words data s = s + word_sum data.
Proof.
  revert s. induction data as [|a|a b l IH] using pair_ind; intros s Hb H0 Hs;
    cbn [word_sum checksum_words] in *.
  - lia.
  - rewrite Z.shiftl_mul_pow2 by lia. change (2 ^ 8) with 256.
    apply Forall_cons in Hb as [Ha _]. unfold is_byte in Ha. apply u32_small. unfold is_u32. lia.
  - apply Forall_cons in Hb as [Ha Hb]. apply Forall_cons in Hb as [Hb0 Hb].
    pose proof (word_sum_bounds l Hb) as Hw. unfold is_byte in *.
    rewrite be16_lor by lia. rewrite u32_small by (unfold is_u32; lia).
    rewrite IH by (done || lia). lia.
Qed.

Lemma fold_step s : 0 <= s < 4294967296 -> Z.shiftr s 16 <> 0 ->
  let s' := u32 (Z.land s 65535 + Z.shiftr s 16) in
  s' = s mod 65536 + s / 65536 /\ s' mod 65535 = s mod 65535 /\ 1 <= s' <= 65535 + s / 65536.
Proof.
  intros Hs Hne. change 65535 with (Z.ones 16) at 1. rewrite Z.land_ones by lia.
  rewrite Z.shiftr_div_pow2 in * by lia. change (2 ^ 16) with 65536 in *. cbn zeta.
  rewrite u32_small by (unfold is_u32; dlia). split; [done|]. split; [|dlia].
  pose proof (Z.div_mod s 65536 ltac:(lia)) as E. rewrite E at 3.
  replace (65536 * (s / 65536) + s mod 65536)
    with (s mod 65536 + s / 65536 + s / 65536 * 65535) by lia.
  by rewrite Z_mod_plus_full.
Qed.

(** The folded sum: the residue modulo 65535, with 0 only for an empty sum. *)
Lemma fold_carry_spec s : 0 <= s < 4294967296 ->
  let r := fold_carry 3 s in
  0 <= r <= 65535 /\ r mod 65535 = s mod 65535 /\ (r = 0 <-> s = 0).
Proof.
  intros Hs r. subst r.
  assert (Hsmall : forall x n, 0 <= x <= 65535 -> fold_carry n x = x).
  { intros x [|n] Hx; cbn [fold_carry]; [done|]. rewrite Z.shiftr_div_pow2 by lia.
    change (2 ^ 16) with 65536. rewrite Z.div_small by lia. done. }
  destruct (Z.le_gt_cases s 65535) as [|Hgt]; [rewrite Hsmall by lia; lia|].
  assert (Hbig : forall x, 65535 < x -> Z.shiftr x 16 <> 0)
    by (intros x Hx; rewrite Z.shiftr_div_pow2 by lia; change (2 ^ 16) with 65536; dlia).
  destruct (fold_step s Hs (Hbig s Hgt)) as (E1 & M1 & B1).
  cbn [fold_carry]. rewrite (proj2 (Z.eqb_neq _ _) (Hbig s Hgt)).
  set (s1 := u32 (Z.land s 65535 + Z.shiftr s 16)) in *.
  assert (s1 <= 131070) by (assert (s / 65536 <= 65535) by dlia; lia).
  destruct (Z.le_gt_cases s1 65535) as [|Hgt1].
  { change (if Z.shiftr s1 16 =? 0 then s1 else _) with (fold_carry 2 s1). rewrite Hsmall by lia. lia. }
  destruct (fold_step s1 ltac:(lia) (Hbig s1 Hgt1)) as (E2 & M2 & B2).
  rewrite (proj2 (Z.eqb_neq _ _) (Hbig s1 Hgt1)).
  set (s2 := u32 (Z.land s1 65535 + Z.shiftr s1 16)) in *.
  assert (s2 <= 65535) by (rewrite E2; dlia).
  change (if Z.shiftr s2 16 =? 0 then s2 else _) with (fold_carry 1 s2). rewrite Hsmall by lia. lia.
Qed.

Lemma ip_checksum_eq data : Forall is_byte data -> Z.of_nat (length data) <= 65536 ->
  ip_checksum data = 65535 - fold_carry 3 (word_sum data).
Proof.
  intros Hb Hl. pose proof (word_sum_bounds data Hb) as Hw. unfold ip_checksum.
  rewrite checksum_words_sum by (done || lia). rewrite Z.add_0_l.
  destruct (fold_carry_spec (word_sum data)) as (Hr & _); [lia|].
  set (r := fold_carry 3 (word_sum data)) in *.
  unfold Z.lnot, u16. replace (Z.pred (- r)) with (65535 - r + (-1) * 65536) by lia.
  rewrite Z_mod_plus_full, Z.mod_small by lia. done.
Qed.

Lemma ip_checksum_u16 data : is_u16 (ip_checksum data).
Proof. apply u16_is. Qed.

Lemma word_sum_app p l : Nat.even (length p) = true -> word_sum (p ++ l) = word_sum p + word_sum l.
Proof.
  induction p as [|a|a b p IH] using pair_ind; intros He; cbn [app word_sum length] in *.
  - lia.
  - done.
  - cbn in He. rewrite IH by done. lia.
Qed.

(** A header with the checksum of itself (computed over a zero field at an
    even offset) stored in the field sums to all ones; so does one that stores
    0xFFFF in place of a zero checksum. *)
Lemma checksum_fixes pre post csum :
  Nat.even (length pre) = true -> Forall is_byte pre -> Forall is_byte post ->
  Z.of_nat (length pre + 2 + length post) <= 65536 ->
  csum = ip_checksum (pre ++ [0; 0] ++ post) \/
  (ip_checksum (pre ++ [0; 0] ++ post) = 0 /\ csum = 65535) ->
  ip_checksum (pre ++ put_be16 csum ++ post) = 0.
Proof.
  intros He Hb1 Hb2 Hl Hc.
  assert (Hz : Forall is_byte (pre ++ [0; 0] ++ post)).
  { rewrite !Forall_app. split; [done|]. split; [|done]. repeat constructor; unfold is_byte; lia. }
  assert (Hcu : is_u16 csum) by (destruct Hc as [->|[_ ->]]; [apply ip_checksum_u16|unfold is_u16; lia]).
  assert (Hf : Forall is_byte (pre ++ put_be16 csum ++ post)).
  { rewrite !Forall_app. split; [done|]. split; [by apply put_be16_bytes|done]. }
  rewrite ip_checksum_eq in Hc by (done || rewrite !length_app; cbn [length]; lia).
  rewrite ip_checksum_eq by (done || rewrite put_be16_eq, !length_app by done; cbn [length]; lia).
  pose proof (word_sum_bounds _ Hz) as Hw. rewrite !length_app in Hw. cbn [length] in Hw.
  rewrite put_be16_eq by done. rewrite (word_sum_app pre) in * by done.
  cbn [app word_sum] in *. set (A := word_sum pre) in *. set (B := word_sum post) in *.
  destruct (fold_carry_spec (A + (0 * 256 + 0 + B))) as (R1 & R2 & R3); [lia|].
  set (r := fold_carry 3 (A + (0 * 256 + 0 + B))) in *.
  assert (Hsum : csum / 256 * 256 + csum mod 256 = csum) by dlia. rewrite Hsum.
  assert (Hcs : is_u16 csum) by done. unfold is_u16 in Hcs.
  destruct (fold_carry_spec (A + (csum + B))) as (Q1 & Q2 & Q3); [lia|].
  assert (Hmod : (A + (csum + B)) mod 65535 = 0).
  { replace (A + (csum + B)) with (A + (0 * 256 + 0 + B) + csum) by lia.
    rewrite Zplus_mod, <- R2, <- Zplus_mod. destruct Hc as [->|[Hc ->]].
    - replace (r + (65535 - r)) with (1 * 65535) by lia. apply Z_mod_mult.
    - replace (r + 65535) with (2 * 65535) by lia. apply Z_mod_mult. }
  assert (Hpos : A + (csum + B) <> 0).
  { intros E. assert (A + (0 * 256 + 0 + B) = 0 /\ csum = 0) as [E1 E2] by lia.
    destruct Hc as [Hc|[Hc Hc']]; [|lia]. assert (r = 0) by (by apply R3). lia. }
  rewrite Hmod in Q2. assert (fold_carry 3 (A + (csum + B)) <> 0) by (by rewrite Q3).
  set (q := fold_carry 3 (A + (csum + B))) in *. assert (q = 65535); [|lia]. dlia.
Qed.

(** A packet with the checksum [ip_checksum] computed stored in its header
    verifies at the receiver (the checksum of the whole is 0), for any
    contents of up to 64 KB and any even position of the field. *)
Theorem ip_checksum_verifies pre post :
  Nat.even (length pre) = true -> Forall is_byte pre -> Forall is_byte post ->
  Z.of_nat (length pre + 2 + length post) <= 65536 ->
  ip_checksum (pre ++ put_be16 (ip_checksum (pre ++ [0; 0] ++ post)) ++ post) = 0.
Proof. intros. apply checksum_fixes; [done..|by left]. Qed.

Lemma ip_checksum_verifies_witness :
  ip_checksum ([69; 0; 0; 28; 0; 0; 0; 0; 64; 1] ++
    put_be16 (ip_checksum ([69; 0; 0; 28; 0; 0; 0; 0; 64; 1] ++ [0; 0] ++ [192; 0; 2; 50; 192; 0; 2; 1])) ++
    [192; 0; 2; 50; 192; 0; 2; 1]) = 0.
Proof.
  apply (ip_checksum_verifies [69; 0; 0; 28; 0; 0; 0; 0; 64; 1] [192; 0; 2; 50; 192; 0; 2; 1]);
    [reflexivity|repeat constructor; lia|repeat constructor; lia|cbn; lia].
Defined.

(** ** Packets *)
Definition ipv4 (a : list Z) : Prop := length a = 4%nat /\ Forall is_byte a.
Definition mac_addr (a : list Z) : Prop := length a = 6%nat /\ Forall is_byte a.

(** Replaces lists of known length by their elements. *)
Ltac explode l :=
  repeat (let x := fresh "x" in destruct l as [|x l]; [discriminate|]); destruct l; [|discriminate].

Lemma get_be16_put v a b l : is_u16 v ->
  byte_at l a = v / 256 -> byte_at l b = v mod 256 -> b = a + 1 -> get_be16 l a = v.
Proof.
  intros Hv Ha Hb ->. unfold get_be16. rewrite Ha, Hb. unfold is_u16 in Hv.
  rewrite be16_lor by dlia. dlia.
Qed.

Lemma ip_header_explicit c protocol dest len : ipv4 (our_ip c) -> ipv4 dest -> 0 <= len <= 1472 ->
  exists h c1 c2, ip_header c protocol dest len =
    [69; 0; (20 + len) / 256; (20 + len) mod 256; 0; 0; 0; 0; 64; protocol; c1; c2] ++ our_ip c ++ dest /\
  h = [69; 0; (20 + len) / 256; (20 + len) mod 256; 0; 0; 0; 0; 64; protocol] /\
  [c1; c2] = put_be16 (ip_checksum (h ++ [0; 0] ++ our_ip c ++ dest)).
Proof.
  intros [Hl1 Hb1] [Hl2 Hb2] Hlen. unfold ip_header, IP_HEADER_LEN.
  rewrite u16_small by (unfold is_u16; lia). rewrite put_be16_eq by (unfold is_u16; lia).
  change (put_be16 0) with [0; 0]. cbn [app].
  set (cs := ip_checksum _). pose proof (ip_checksum_u16 ([69; 0; (20 + len) / 256; (20 + len) mod 256;
    0; 0; 0; 0; 64; protocol; 0; 0] ++ our_ip c ++ dest)) as Hu. cbn [app] in Hu. fold cs in Hu.
  exists [69; 0; (20 + len) / 256; (20 + len) mod 256; 0; 0; 0; 0; 64; protocol], (cs / 256), (cs mod 256).
  rewrite put_be16_eq by done. cbn [app]. split; [done|]. split; [done|]. fold cs.
  by rewrite put_be16_eq.
Qed.

(** What one machine sends the other delivers: a frame built by [ip_send]
    carries a header whose checksum verifies, and [ip_receive] at the
    destination hands the payload (up to the 1472 bytes that fit), the
    sender's address and the sender's hardware address to the right protocol. *)
Lemma ip_send_delivers c c' our_mac protocol dest_mac payload :
  ipv4 (our_ip c) -> ipv4 (our_ip c') -> mac_addr our_mac -> mac_addr dest_mac ->
  payload <> [] -> protocol = 1 \/ protocol = 6 \/ protocol = 17 ->
  let frame := ip_send c our_mac protocol (our_ip c') dest_mac payload in
  ip_receive c' frame = Some (mk_upcall protocol (our_ip c) our_mac (take 1472 payload)) /\
  ip_checksum (take 20 (drop 14 frame)) = 0 /\ take 6 frame = dest_mac.
Proof.
  intros Hs Hd Hm1 Hm2 Hne Hp frame.
  set (pl := take 1472 payload) in *. set (len := Z.of_nat (length pl)).
  assert (Hlen : 1 <= len <= 1472).
  { subst len pl. rewrite length_take. destruct payload; [done|]. cbn [length]. lia. }
  destruct (ip_header_explicit c protocol (our_ip c') len Hs Hd ltac:(lia)) as (h & c1 & c2 & Eh & Hh & Ec).
  assert (Ef : frame = dest_mac ++ our_mac ++ [8; 0] ++ ip_header c protocol (our_ip c') len ++ pl) by done.
  rewrite Eh in Ef. destruct Hs as [Hs1 Hs2], Hd as [Hd1 Hd2], Hm1 as [Hm1 _], Hm2 as [Hm2 _].
  assert (Hck : ip_checksum (h ++ put_be16 (ip_checksum (h ++ [0; 0] ++ our_ip c ++ our_ip c'))
    ++ our_ip c ++ our_ip c') = 0).
  { apply checksum_fixes; [by rewrite Hh| | | |by left].
    - rewrite Hh. assert (0 <= protocol < 256) by lia. repeat constructor; unfold is_byte; dlia.
    - by apply Forall_app.
    - rewrite Hh, length_app, Hs1, Hd1. cbn. lia. }
  rewrite <- Ec, Hh in Hck. clear Ec Hh Eh. clearbody frame.
  destruct c as [sip nm gw gc], c' as [dip nm' gw' gc']. cbn [our_ip] in *.
  explode sip. explode dip. explode our_mac. explode dest_mac. cbn [app] in Ef, Hck.
  split; [|split; [by rewrite Ef|by rewrite Ef]].
  unfold ip_receive. cbn [our_ip].
  assert (Hfl : Z.of_nat (length frame) = 34 + len) by (rewrite Ef; cbn [length]; subst len; lia).
  rewrite Hfl. unfold ETH_HEADER_LEN, IP_HEADER_LEN.
  destruct (Z.ltb_spec (34 + len) (14 + 20)); [lia|].
  assert (Hb : forall i v, frame !! Z.to_nat i = Some v -> byte_at frame i = v)
    by (intros; by apply byte_at_lookup).
  rewrite (get_be16_put (20 + len) (14 + 2) (14 + 3) frame);
    [|unfold is_u16; lia|apply Hb; by rewrite Ef|apply Hb; by rewrite Ef|done].
  rewrite !(Hb (14 + 0) 69) by (by rewrite Ef).
  change (Z.shiftr 69 4 =? 4) with true. change (Z.land 69 15 * 4) with 20. cbn [negb].
  rewrite (Hb (14 + 16) x3), (Hb (14 + 17) x4), (Hb (14 + 18) x5), (Hb (14 + 19) x6) by (by rewrite Ef).
  rewrite bool_decide_true by done. cbn [negb].
  rewrite (Hb (14 + 9) protocol) by (by rewrite Ef).
  rewrite (Hb (14 + 12) x), (Hb (14 + 13) x0), (Hb (14 + 14) x1), (Hb (14 + 15) x2) by (by rewrite Ef).
  destruct (Z.ltb_spec (34 + len - 14 - 20) (20 + len - 20)); [lia|].
  destruct (Z.ltb_spec (20 + len - 20) 0); [lia|].
  replace ((protocol =? 1) || (protocol =? 17) || (protocol =? 6)) with true
    by (destruct Hp as [->|[->| ->]]; done).
  destruct (Z.ltb_spec 0 (20 + len - 20)); [|lia]. cbn [andb].
  replace (20 + len - 20) with len by lia. rewrite u16_small by (unfold is_u16; lia).
  assert (Ht : take 6 (drop 6 frame) = [x7; x8; x9; x10; x11; x12]) by (by rewrite Ef). rewrite Ht.
  assert (Hd : drop (Z.to_nat (14 + 20)) frame = pl) by (by rewrite Ef). rewrite Hd.
  subst len. rewrite Nat2Z.id, take_ge by done. done.
Qed.

(** Whatever bytes arrive, [ip_receive] passes on only bytes of the frame:
    the payload lies after the header and inside what was delivered, and is
    never longer than the length field declares. *)
Theorem ip_receive_in_bounds c frame u :
  Forall is_byte frame -> Z.of_nat (length frame) <= 1518 -> ip_receive c frame = Some u ->
  exists off n, up_data u = take n (drop off frame) /\ (0 < n)%nat /\ (14 <= off)%nat /\
    (off + n <= length frame)%nat /\
    Z.of_nat n + (Z.of_nat off - 14) <= get_be16 frame 16 /\
    [byte_at frame 30; byte_at frame 31; byte_at frame 32; byte_at frame 33] = our_ip c.
Proof.
  intros Hby Hmax. unfold ip_receive, ETH_HEADER_LEN, IP_HEADER_LEN.
  destruct (Z.ltb_spec (Z.of_nat (length frame)) (14 + 20)) as [|Hge]; [done|].
  case_if; [done|]. set (ihl := Z.land (byte_at frame (14 + 0)) 15 * 4).
  assert (Hihl : 0 <= ihl <= 60).
  { subst ihl. change 15 with (Z.ones 4). rewrite Z.land_ones by lia. dlia. }
  set (tot := get_be16 frame (14 + 2)). set (avail := Z.of_nat (length frame) - 14 - ihl).
  change (14 + 16) with 30. change (14 + 17) with 31. change (14 + 18) with 32. change (14 + 19) with 33.
  change (get_be16 frame 16) with tot.
  rewrite ltb_min. destruct (bool_decide _) eqn:Eip; cbn [negb]; [|done].
  apply bool_decide_eq_true in Eip. rewrite ltb_min || idtac.
  set (pl := if Z.min avail (tot - ihl) <? 0 then 0 else Z.min avail (tot - ihl)).
  destruct (_ && (0 <? pl)) eqn:E; [|done]. apply andb_true_iff in E as [_ E]. zbool.
  intros [= <-]. cbn [up_data].
  assert (Hpl : pl = Z.min avail (tot - ihl)) by (subst pl; case_if; lia).
  rewrite u16_small by (unfold is_u16; lia).
  exists (Z.to_nat (14 + ihl)), (Z.to_nat pl). clearbody pl tot. split_and!; (done || lia).
Qed.

Lemma ip_receive_in_bounds_witness :
  let c := ip_set_address ip_boot [192; 0; 2; 1] in
  let frame := ip_send ip_boot [2; 0; 0; 0; 0; 1] 17 [192; 0; 2; 1] [2; 0; 0; 0; 0; 2] [1; 2; 3] in
  exists off n, [1; 2; 3] = take n (drop off frame) /\ (off + n <= length frame)%nat.
Proof.
  intros c frame.
  destruct (ip_receive_in_bounds c frame (mk_upcall 17 [0; 0; 0; 0] [2; 0; 0; 0; 0; 1] [1; 2; 3]))
    as (off & n & H & _ & _ & Hn & _);
    [vm_compute; repeat constructor; done|vm_compute; done|vm_compute; reflexivity|].
  exists off, n. split; [exact H|exact Hn].
Defined.

(** ** Ping *)
Lemma icmp_reply_verifies req :
  Forall is_byte req -> (8 <= length req)%nat -> Z.of_nat (length req) <= 1472 ->
  ip_checksum ([0; 0] ++ put_be16 (ip_checksum ([0; 0; 0; 0] ++ drop 4 req)) ++ drop 4 req) = 0.
Proof.
  intros Hb Hl Hm. apply checksum_fixes; [done|repeat constructor; unfold is_byte; lia|by apply Forall_drop| |by left].
  rewrite length_drop. cbn [length]. lia.
Qed.

(** Ping works end to end: when an echo request (8 to 1472 bytes, any
    identifier, sequence number and payload) is sent to the machine, what it
    sends back is delivered to the requester as an echo reply with the
    identifier, the sequence number and the payload unchanged and a checksum
    that verifies; every other ICMP message is dropped without an answer. *)
Theorem icmp_ping c c' mac mac' data :
  ipv4 (our_ip c) -> ipv4 (our_ip c') -> mac_addr mac -> mac_addr mac' ->
  Forall is_byte data -> Z.of_nat (length data) <= 1472 -> data <> [] ->
  exists u, ip_receive c' (ip_send c mac 1 (our_ip c') mac' data) = Some u /\
  let r := icmp_handle c' mac' (up_source_ip u) (up_source_mac u) (up_data u) in
  if bool_decide (8 <= length data)%nat && (byte_at data 0 =? 8) then
    exists reply frame, r = ([TLn "ICMP: echo reply sent"], [frame]) /\
      ip_receive c frame = Some (mk_upcall 1 (our_ip c') mac' reply) /\
      length reply = length data /\ take 2 reply = [0; 0] /\ drop 4 reply = drop 4 data /\
      ip_checksum reply = 0 /\ take 6 frame = mac
  else r = ([], []).
Proof.
  intros Hc Hc' Hm Hm' Hb Hl Hne.
  destruct (ip_send_delivers c c' mac 1 mac' data) as (E & _); [done..|lia|].
  rewrite take_ge in E by lia. eexists. split; [exact E|].
  cbn [up_source_ip up_source_mac up_data]. unfold icmp_handle.
  destruct (Z.ltb_spec (Z.of_nat (length data)) 8).
  { rewrite bool_decide_false by lia. done. }
  rewrite bool_decide_true by lia. cbn [andb].
  destruct (byte_at data 0 =? 8); cbn [negb]; [|done]. rewrite take_ge by lia.
  set (reply := [0; 0] ++ put_be16 _ ++ drop 4 data).
  assert (Hlen : length reply = length data)
    by (unfold reply; rewrite !length_app, length_drop; cbn [length put_be16]; lia).
  exists reply, (ip_send c' mac' 1 (our_ip c) mac reply). split; [done|].
  destruct (ip_send_delivers c' c mac' 1 mac reply) as (E' & _ & Ed); [done..|lia|].
  rewrite E', take_ge by lia. split_and!; [done|done|done|done| |done].
  apply icmp_reply_verifies; [done|lia|lia].
Qed.

Lemma icmp_ping_witness :
  let c := ip_set_address ip_boot [192; 0; 2; 50] in
  let c' := ip_set_address ip_boot [192; 0; 2; 1] in
  exists u, ip_receive c' (ip_send c [2; 0; 0; 0; 0; 1] 1 [192; 0; 2; 1] [2; 0; 0; 0; 0; 2]
    [8; 0; 247; 255; 0; 0; 0; 0]) = Some u.
Proof.
  intros c c'.
  destruct (icmp_ping c c' [2; 0; 0; 0; 0; 1] [2; 0; 0; 0; 0; 2] [8; 0; 247; 255; 0; 0; 0; 0])
    as (u & E & _); [split; [done|repeat constructor; unfold is_byte; lia]..| | | |].
  - repeat constructor; unfold is_byte; lia.
  - cbn; lia.
  - done.
  - exists u. exact E.
Defined.
