(* ===== verification/Arp.v ===== *)
(** * ARP and routing (src/src/arp.c, [ip_resolve_route] of src/src/ip.c)

    The address cache, the resolver that asks the network and the responder,
    over the interface of the network card.  The cache is shown to be a
    bounded queue of address pairs that forgets its oldest entry. *)
From S2P Require Import Prelude Ip.

(** ** The network card

    What the protocols use of the driver: the hardware address, sending a
    frame (with the driver's verdict) and receiving into a buffer of a given
    size (the empty list when nothing waits). *)
Class Nic (N : Type) := {
  nic_mac : N -> list Z;
  nic_send : N -> list Z -> N * bool;
  nic_receive : N -> Z -> N * list Z }.

(** The card keeps its address and never delivers more than the buffer holds. *)
Class NicLaws (N : Type) `{Nic N} := {
  nic_mac_addr n : mac_addr (nic_mac n);
  nic_mac_send n f : nic_mac (nic_send n f).1 = nic_mac n;
  nic_mac_receive n len : nic_mac (nic_receive n len).1 = nic_mac n;
  nic_receive_fits n len : 0 <= len -> Z.of_nat (length (nic_receive n len).2) <= len;
  nic_receive_bytes n len : Forall is_byte (nic_receive n len).2 }.

(** A card with the frames that will arrive and the frames sent so far. *)
Record wire := mk_wire { wire_mac : list Z; wire_in : list (list Z); wire_out : list (list Z) }.

#[export] Instance wire_nic : Nic wire := {
  nic_mac := wire_mac;
  nic_send w f := (mk_wire (wire_mac w) (wire_in w) (wire_out w ++ [f]), true);
  nic_receive w len :=
    match wire_in w with
    | [] => (w, [])
    | f :: rest => (mk_wire (wire_mac w) rest (wire_out w), take (Z.to_nat len) f)
    end }.

(** ** The cache *)
Definition ARP_CACHE_SIZE : Z := 16.
Definition ARP_FRAME_SIZE : Z := 42.
Definition ARP_POLL_ATTEMPTS : Z := 2000000.
Definition ARP_OP_REQUEST : Z := 1.
Definition ARP_OP_REPLY : Z := 2.

Record arp_cache_entry := mk_entry { ip : list Z; mac : list Z; valid : bool }.
Record arp := mk_arp { arp_cache : list arp_cache_entry; arp_cache_next_slot : Z }.

Definition empty_entry : arp_cache_entry := mk_entry [0; 0; 0; 0] [0; 0; 0; 0; 0; 0] false.
Definition arp_boot : arp := mk_arp (replicate (Z.to_nat ARP_CACHE_SIZE) empty_entry) 0.

Definition entry (a : arp) (i : Z) : arp_cache_entry :=
  default empty_entry (arp_cache a !! Z.to_nat i).

Definition entry_matches (a : arp) (addr : list Z) (i : Z) : bool :=
  valid (entry a i) && bool_decide (ip (entry a i) = addr).

Definition arp_cache_lookup (a : arp) (addr : list Z) : option (list Z) :=
  match find_from (entry_matches a addr) 0 (Z.to_nat ARP_CACHE_SIZE) with
  | Some i => Some (mac (entry a i))
  | None => None
  end.

Definition arp_cache_insert (a : arp) (addr hw : list Z) : arp :=
  match find_from (entry_matches a addr) 0 (Z.to_nat ARP_CACHE_SIZE) with
  | Some i =>
      mk_arp (<[Z.to_nat i := mk_entry (ip (entry a i)) hw true]> (arp_cache a)) (arp_cache_next_slot a)
  | None =>
      let slot := arp_cache_next_slot a in
      mk_arp (<[Z.to_nat slot := mk_entry addr hw true]> (arp_cache a)) ((slot + 1) mod ARP_CACHE_SIZE)
  end.

(** ** Frames *)
Definition arp_frame (eth_dest our_mac : list Z) (op : Z) (sender_ip target_mac target_ip : list Z) : list Z :=
  eth_dest ++ our_mac ++ [8; 6]
  ++ put_be16 1 ++ put_be16 2048 ++ [6; 4] ++ put_be16 op
  ++ our_mac ++ sender_ip ++ target_mac ++ target_ip.

Definition arp_request (our_mac target_ip : list Z) : list Z :=
  arp_frame [255; 255; 255; 255; 255; 255] our_mac ARP_OP_REQUEST [0; 0; 0; 0] [0; 0; 0; 0; 0; 0] target_ip.

(** The fields read at fixed places of a received frame. *)
Definition is_arp (frame : list Z) : bool := (byte_at frame 12 =? 8) && (byte_at frame 13 =? 6).
Definition arp_op (frame : list Z) : Z := get_be16 frame (14 + 6).
Definition arp_sender_mac (frame : list Z) : list Z := take 6 (drop (14 + 8) frame).
Definition arp_sender_ip (frame : list Z) : list Z := take 4 (drop (14 + 14) frame).
Definition arp_target_ip (frame : list Z) : list Z := take 4 (drop (14 + 24) frame).

(** A frame that answers a request for [target_ip]. *)
Definition arp_answers (frame target_ip : list Z) : bool :=
  negb (Z.of_nat (length frame) <? ARP_FRAME_SIZE) && is_arp frame && (arp_op frame =? ARP_OP_REPLY)
  && bool_decide (arp_sender_ip frame = target_ip).

Definition hex_digit (d : Z) : Z := if d <? 10 then 48 + d else 55 + d.
Definition print_hex8 (value : Z) : tty :=
  TBytes [hex_digit (Z.land (Z.shiftr value 4) 15); hex_digit (Z.land value 15)].

Fixpoint intersperse_colon (l : list tty) : list tty :=
  match l with
  | x :: ((_ :: _) as rest) => x :: TStr ":" :: intersperse_colon rest
  | _ => l
  end.

Section Resolver.
Context {N : Type} `{Nic N}.

(** The polling loop of [arp_resolve], with the attempts that remain: frames
    that do not answer are dropped. *)
Fixpoint arp_poll (attempts : nat) (n : N) (target_ip : list Z) : N * option (list Z) :=
  match attempts with
  | O => (n, None)
  | S k =>
      let '(n, rx) := nic_receive n 128 in
      if arp_answers rx target_ip then (n, Some (arp_sender_mac rx)) else arp_poll k n target_ip
  end.

Definition arp_resolve (n : N) (a : arp) (target_ip : list Z) : list tty * N * arp * option (list Z) :=
  match arp_cache_lookup a target_ip with
  | Some m => ([TLn "ARP: cache hit, no request sent"], n, a, Some m)
  | None =>
      let '(n, _) := nic_send n (arp_request (nic_mac n) target_ip) in
      match arp_poll (Z.to_nat ARP_POLL_ATTEMPTS) n target_ip with
      | (n, Some m) =>
          (TLn "ARP: sending request" :: TStr "ARP: reply received, MAC="
             :: intersperse_colon (map print_hex8 m) ++ [TLn ""],
           n, arp_cache_insert a target_ip m, Some m)
      | (n, None) =>
          ([TLn "ARP: sending request"; TLn "ARP: timed out waiting for reply"], n, a, None)
      end
  end.

Definition arp_respond_if_request (n : N) (a : arp) (frame our_ip : list Z) : list tty * N * arp * bool :=
  if Z.of_nat (length frame) <? ARP_FRAME_SIZE then ([], n, a, false)
  else if negb (is_arp frame) then ([], n, a, false)
  else if negb (arp_op frame =? ARP_OP_REQUEST) then ([], n, a, false)
  else if negb (bool_decide (arp_target_ip frame = our_ip)) then ([], n, a, false)
  else
    let our_mac := nic_mac n in
    let requester_mac := arp_sender_mac frame in
    let requester_ip := arp_sender_ip frame in
    let a := arp_cache_insert a requester_ip requester_mac in
    let reply := arp_frame requester_mac our_mac ARP_OP_REPLY our_ip requester_mac requester_ip in
    let '(n, sent) := nic_send n reply in
    ([TLn (if sent then "ARP: replied to a request for our IP"
           else "ARP: recognized a request for our IP, but the reply failed to send")], n, a, true).

(** The hardware address to send to for [dest_ip]: its own on the subnet, the
    gateway's off it. *)
Definition ip_resolve_route (n : N) (a : arp) (c : ip_config) (dest_ip : list Z)
    : list tty * N * arp * option (list Z) :=
  match next_hop c dest_ip with
  | Some hop => arp_resolve n a hop
  | None => ([TLn "IP: destination is off-subnet and no gateway is configured"], n, a, None)
  end.
End Resolver.

(** ** The cache is a bounded queue *)

(** The abstract cache: address pairs from the oldest to the newest. *)
Definition fifo_insert (q : list (list Z * list Z)) (addr hw : list Z) : list (list Z * list Z) :=
  if bool_decide (addr ∈ q.*1) then map (fun p => if bool_decide (p.1 = addr) then (addr, hw) else p) q
  else (if bool_decide (length q = 16%nat) then tail q else q) ++ [(addr, hw)].

(** The slots in order of age, starting with the one to be reused next. *)
Definition pairs (l : list arp_cache_entry) : list (list Z * list Z) :=
  map (fun e => (ip e, mac e)) (filter (fun e => valid e = true) l).
Definition by_age (a : arp) : list arp_cache_entry :=
  let n := Z.to_nat (arp_cache_next_slot a) in drop n (arp_cache a) ++ take n (arp_cache a).
Definition queue (a : arp) : list (list Z * list Z) := pairs (by_age a).

(** No address is cached twice. *)
Definition unique (l : list arp_cache_entry) : Prop :=
  forall i j e e', l !! i = Some e -> l !! j = Some e' -> valid e = true -> valid e' = true ->
    ip e = ip e' -> i = j.

(** The slots are filled from the front and stay in use. *)
Definition filled (a : arp) : Prop :=
  Forall (fun e => valid e = true) (arp_cache a) \/
  forall i e, arp_cache a !! i = Some e -> valid e = (Z.of_nat i <? arp_cache_next_slot a).

Record arp_inv (a : arp) : Prop := {
  ai_length : length (arp_cache a) = 16%nat;
  ai_next : 0 <= arp_cache_next_slot a < 16;
  ai_unique : unique (arp_cache a);
  ai_filled : filled a }.

Lemma entry_lookup a i e : arp_cache a !! Z.to_nat i = Some e -> entry a i = e.
Proof. unfold entry. by intros ->. Qed.

Lemma entry_matches_lookup a addr i e : arp_cache a !! Z.to_nat i = Some e ->
  entry_matches a addr i = true <-> valid e = true /\ ip e = addr.
Proof.
  intros Hi. unfold entry_matches. rewrite (entry_lookup _ _ _ Hi), andb_true_iff, bool_decide_eq_true. done.
Qed.

(** The scan of the table, as facts about the slots. *)
Lemma scan_Some a addr i : length (arp_cache a) = 16%nat ->
  find_from (entry_matches a addr) 0 (Z.to_nat ARP_CACHE_SIZE) = Some i ->
  exists e, 0 <= i < 16 /\ arp_cache a !! Z.to_nat i = Some e /\ valid e = true /\ ip e = addr.
Proof.
  intros Hl Hf. apply find_from_Some in Hf as (Hi & Hm & _). unfold ARP_CACHE_SIZE in Hi.
  destruct (lookup_lt_is_Some_2 (arp_cache a) (Z.to_nat i)) as [e He]; [lia|].
  exists e. apply (entry_matches_lookup _ _ _ _ He) in Hm. split; [lia|]. done.
Qed.

Lemma scan_None a addr : length (arp_cache a) = 16%nat ->
  find_from (entry_matches a addr) 0 (Z.to_nat ARP_CACHE_SIZE) = None ->
  forall i e, arp_cache a !! i = Some e -> valid e = true -> ip e <> addr.
Proof.
  intros Hl Hf i e Hi Hv Hip. rewrite find_from_None in Hf.
  assert (Hi' := Hi). apply lookup_lt_Some in Hi'. unfold ARP_CACHE_SIZE in Hf.
  specialize (Hf (Z.of_nat i) ltac:(lia)). rewrite <- not_true_iff_false in Hf. apply Hf.
  apply (entry_matches_lookup a addr _ e); [by rewrite Nat2Z.id|done].
Qed.

Lemma elem_of_by_age a e : e ∈ by_age a <-> e ∈ arp_cache a.
Proof.
  unfold by_age. set (n := Z.to_nat _). rewrite <- (take_drop n (arp_cache a)) at 3.
  rewrite !elem_of_app. tauto.
Qed.

Lemma elem_of_queue a addr hw :
  (addr, hw) ∈ queue a <-> exists e, e ∈ arp_cache a /\ valid e = true /\ ip e = addr /\ mac e = hw.
Proof.
  unfold queue, pairs. rewrite list_elem_of_fmap. setoid_rewrite list_elem_of_filter.
  setoid_rewrite elem_of_by_age. naive_solver.
Qed.

Lemma elem_of_queue_fst a addr :
  addr ∈ (queue a).*1 <-> exists e, e ∈ arp_cache a /\ valid e = true /\ ip e = addr.
Proof.
  rewrite list_elem_of_fmap. split.
  - intros ([x y] & -> & Hin). apply elem_of_queue in Hin. naive_solver.
  - intros (e & He & Hv & Hip). exists (addr, mac e). split; [done|]. apply elem_of_queue. naive_solver.
Qed.

Lemma lookup_queue a addr hw : arp_inv a ->
  arp_cache_lookup a addr = Some hw <-> (addr, hw) ∈ queue a.
Proof.
  intros [Hl Hn Hu _]. rewrite elem_of_queue. unfold arp_cache_lookup.
  destruct (find_from _ _ _) as [i|] eqn:Ef.
  - apply scan_Some in Ef as (e & Hi & He & Hv & Hip); [|done].
    rewrite (entry_lookup _ _ _ He). split.
    + intros [= <-]. exists e. split; [by eapply list_elem_of_lookup_2|done].
    + intros (e' & He' & Hv' & Hip' & Hm). apply list_elem_of_lookup_1 in He' as [j Hj].
      assert (Z.to_nat i = j) by (eapply Hu; eauto; congruence). congruence.
  - split; [done|]. intros (e & He & Hv & Hip & _). apply list_elem_of_lookup_1 in He as [j Hj].
    by destruct (scan_None _ _ Hl Ef _ _ Hj Hv).
Qed.

(** Refreshing an entry in place. *)
Definition refresh (addr hw : list Z) (e : arp_cache_entry) : arp_cache_entry :=
  if valid e && bool_decide (ip e = addr) then mk_entry (ip e) hw true else e.

Lemma refresh_insert l i e addr hw : unique l -> l !! i = Some e -> valid e = true -> ip e = addr ->
  <[i := mk_entry (ip e) hw true]> l = map (refresh addr hw) l.
Proof.
  intros Hu Hi Hv Hip. apply list_eq. intros j. rewrite list_lookup_fmap.
  destruct (decide (i = j)) as [<-|Hne].
  - rewrite list_lookup_insert_eq by (by eapply lookup_lt_Some). rewrite Hi. cbn.
    unfold refresh. rewrite Hv, bool_decide_true by done. done.
  - rewrite list_lookup_insert_ne by done. destruct (l !! j) as [e'|] eqn:Ej; [|done]. cbn.
    unfold refresh. destruct (valid e') eqn:Ev; [|done]. rewrite bool_decide_false; [done|].
    intros Hip'. destruct Hne. apply (Hu i j e e'); congruence.
Qed.

Lemma refresh_valid addr hw e : valid (refresh addr hw e) = valid e.
Proof. unfold refresh. destruct (valid e) eqn:E; [|done]. case_bool_decide; cbn; congruence. Qed.
Lemma refresh_ip addr hw e : ip (refresh addr hw e) = ip e.
Proof. unfold refresh. destruct (valid e && _); done. Qed.

Lemma pairs_refresh addr hw l :
  pairs (map (refresh addr hw) l) = map (fun p => if bool_decide (p.1 = addr) then (addr, hw) else p) (pairs l).
Proof.
  unfold pairs. induction l as [|e l IH]; [done|]. cbn [map].
  rewrite !filter_cons, refresh_valid. destruct (decide (valid e = true)) as [Hv|Hv]; [|done].
  cbn [map]. rewrite refresh_ip, IH. f_equal. unfold refresh. rewrite Hv. cbn [andb fst].
  case_bool_decide; [|done]. cbn. by subst.
Qed.

Lemma pairs_app l1 l2 : pairs (l1 ++ l2) = pairs l1 ++ pairs l2.
Proof. unfold pairs. rewrite filter_app. apply map_app. Qed.

Lemma pairs_all l : Forall (fun e => valid e = true) l -> length (pairs l) = length l.
Proof.
  intros H. unfold pairs. rewrite length_map. induction H as [|e l He Hl IH]; [done|].
  rewrite filter_cons, decide_True by done. cbn. by rewrite IH.
Qed.

(** Reusing the oldest slot turns the rotation by one. *)
Lemma by_age_insert a e : length (arp_cache a) = 16%nat -> 0 <= arp_cache_next_slot a < 16 ->
  by_age (mk_arp (<[Z.to_nat (arp_cache_next_slot a) := e]> (arp_cache a))
            ((arp_cache_next_slot a + 1) mod ARP_CACHE_SIZE)) = tail (by_age a) ++ [e].
Proof.
  intros Hl Hn. destruct a as [l nx]. cbn [arp_cache arp_cache_next_slot] in *. unfold by_age.
  cbn [arp_cache arp_cache_next_slot]. set (n := Z.to_nat nx).
  destruct (lookup_lt_is_Some_2 l n) as [e0 He0]; [lia|].
  rewrite (drop_S l e0 n) by done. cbn [app tail].
  rewrite insert_take_drop by lia. unfold ARP_CACHE_SIZE.
  destruct (decide (nx = 15)) as [->|Hne].
  - change (Z.to_nat ((15 + 1) mod 16)) with 0%nat. rewrite drop_0, take_0, app_nil_r.
    rewrite (drop_ge l (S n)) by lia. done.
  - rewrite Z.mod_small by lia. replace (Z.to_nat (nx + 1)) with (S n) by lia.
    assert (Ht : length (take n l) = n) by (rewrite length_take; lia).
    rewrite drop_app_ge, take_app_ge by lia. rewrite Ht. replace (S n - n)%nat with 1%nat by lia.
    cbn [drop take]. by rewrite take_0, app_assoc.
Qed.

(** The slot about to be reused is in use only when the cache is full. *)
Lemma queue_reuse a : arp_inv a ->
  pairs (tail (by_age a)) = if bool_decide (length (queue a) = 16%nat) then tail (queue a) else queue a.
Proof.
  intros [Hl Hn _ Hf]. unfold queue. set (n := Z.to_nat (arp_cache_next_slot a)).
  destruct (lookup_lt_is_Some_2 (arp_cache a) n) as [e0 He0]; [lia|].
  assert (Hb : by_age a = e0 :: (drop (S n) (arp_cache a) ++ take n (arp_cache a)))
    by (unfold by_age; fold n; by rewrite (drop_S _ e0 n)).
  assert (Hlen : length (by_age a) = 16%nat).
  { unfold by_age. rewrite length_app, length_drop, length_take. lia. }
  destruct Hf as [Hall|Hpart].
  - assert (Hall' : Forall (fun e => valid e = true) (by_age a)).
    { apply Forall_forall. intros e He. apply elem_of_by_age in He. by eapply Forall_forall in Hall. }
    rewrite bool_decide_true by (by rewrite pairs_all).
    rewrite Hb in *. cbn [tail]. unfold pairs. rewrite filter_cons, decide_True; [done|].
    by apply Forall_cons in Hall' as [? _].
  - assert (Hv : valid e0 = false) by (rewrite (Hpart _ _ He0); apply Z.ltb_ge; lia).
    rewrite Hb in *. unfold pairs. cbn [tail]. rewrite filter_cons, decide_False by congruence.
    rewrite bool_decide_false; [done|]. rewrite length_map.
    pose proof (length_filter (fun e => valid e = true) (drop (S n) (arp_cache a) ++ take n (arp_cache a))).
    cbn [length] in Hlen. lia.
Qed.

Lemma insert_queue a addr hw : arp_inv a ->
  arp_inv (arp_cache_insert a addr hw) /\ queue (arp_cache_insert a addr hw) = fifo_insert (queue a) addr hw.
Proof.
  intros Hinv. pose proof Hinv as [Hl Hn Hu Hf]. unfold arp_cache_insert, fifo_insert.
  destruct (find_from _ _ _) as [i|] eqn:Ef.
  - apply scan_Some in Ef as (e & Hi & He & Hv & Hip); [|done].
    rewrite (entry_lookup _ _ _ He). rewrite (refresh_insert _ _ _ addr hw Hu He Hv Hip).
    rewrite bool_decide_true
      by (apply elem_of_queue_fst; exists e; split; [by eapply list_elem_of_lookup_2|done]).
    split; [split; cbn [arp_cache arp_cache_next_slot]|].
    + by rewrite length_map.
    + done.
    + intros j k e1 e2 H1 H2. rewrite list_lookup_fmap in H1, H2.
      apply fmap_Some in H1 as (e1' & H1 & ->), H2 as (e2' & H2 & ->).
      rewrite !refresh_valid, !refresh_ip. by apply Hu.
    + destruct Hf as [Hf|Hf]; [left|right]; cbn [arp_cache arp_cache_next_slot].
      * apply Forall_map. eapply Forall_impl; [exact Hf|]. intros e' He'. cbn. by rewrite refresh_valid.
      * intros j e1 H1. rewrite list_lookup_fmap in H1. apply fmap_Some in H1 as (e1' & H1 & ->).
        rewrite refresh_valid. by apply Hf.
    + unfold queue at 1, by_age. cbn [arp_cache arp_cache_next_slot].
      rewrite List.skipn_map, List.firstn_map, <- map_app. by rewrite pairs_refresh.
  - pose proof (scan_None _ _ Hl Ef) as Hnone.
    rewrite bool_decide_false.
    2:{ intros Hin. apply elem_of_queue_fst in Hin as (e & He & Hv & Hip).
        apply list_elem_of_lookup_1 in He as [j Hj]. by destruct (Hnone _ _ Hj Hv). }
    split; [split; cbn [arp_cache arp_cache_next_slot]|].
    + by rewrite length_insert.
    + unfold ARP_CACHE_SIZE. dlia.
    + intros j k e1 e2 H1 H2 V1 V2 Hip.
      apply list_lookup_insert_Some in H1 as [(<- & <- & _)|[Hj H1]];
        apply list_lookup_insert_Some in H2 as [(<- & <- & _)|[Hk H2]]; cbn [ip] in *; [done|..].
      * destruct (Hnone _ _ H2 V2). done.
      * destruct (Hnone _ _ H1 V1). done.
      * by apply (Hu j k e1 e2).
    + destruct Hf as [Hf|Hf].
      { left. cbn [arp_cache]. by apply Forall_insert. }
      destruct (decide (arp_cache_next_slot a = 15)) as [E15|Hne]; [left|right];
        cbn [arp_cache arp_cache_next_slot]; rewrite ?E15.
      * apply Forall_lookup. intros j e Hj.
        apply list_lookup_insert_Some in Hj as [(<- & <- & _)|[Hj H1]]; [done|].
        assert (Hb := H1). apply lookup_lt_Some in Hb. rewrite (Hf _ _ H1), E15. apply Z.ltb_lt. lia.
      * unfold ARP_CACHE_SIZE. rewrite Z.mod_small by lia. intros j e Hj.
        apply list_lookup_insert_Some in Hj as [(<- & <- & _)|[Hj H1]].
        { cbn. symmetry. apply Z.ltb_lt. lia. }
        rewrite (Hf _ _ H1). destruct (Z.ltb_spec (Z.of_nat j) (arp_cache_next_slot a)), (Z.ltb_spec (Z.of_nat j) (arp_cache_next_slot a + 1)); lia.
    + unfold queue at 1. rewrite by_age_insert by done. rewrite pairs_app, queue_reuse by done. done.
Qed.

Lemma arp_boot_inv : arp_inv arp_boot /\ queue arp_boot = [].
Proof.
  split; [split|done].
  - done.
  - cbn. lia.
  - intros i j e e' Hi. apply lookup_replicate in Hi as [-> _]. done.
  - right. intros i e Hi. apply lookup_replicate in Hi as [-> _]. cbn. symmetry. apply Z.ltb_ge. lia.
Qed.

(** The ARP cache is a bounded queue: starting from the empty table, every
    insertion keeps each address at most once, refreshes a known address in
    place, appends an unknown one and drops the oldest pair only when all 16
    slots are in use; a lookup finds exactly the pairs of that queue. *)
Theorem arp_cache_refines_fifo (inserts : list (list Z * list Z)) :
  let a := foldl (fun a p => arp_cache_insert a p.1 p.2) arp_boot inserts in
  let q := foldl (fun q p => fifo_insert q p.1 p.2) [] inserts in
  arp_inv a /\ queue a = q /\
  forall addr hw, arp_cache_lookup a addr = Some hw <-> (addr, hw) ∈ q.
Proof.
  assert (H : forall l a q, arp_inv a -> queue a = q ->
    arp_inv (foldl (fun a p => arp_cache_insert a p.1 p.2) a l) /\
    queue (foldl (fun a p => arp_cache_insert a p.1 p.2) a l) = foldl (fun q p => fifo_insert q p.1 p.2) q l).
  { induction l as [|[x y] l IH]; intros a q Ha Hq; [done|]. cbn [foldl fst snd].
    destruct (insert_queue a x y Ha) as [Hi Hq']. apply IH; [done|]. by rewrite Hq', Hq. }
  destruct arp_boot_inv as [Hb Hq]. destruct (H inserts arp_boot [] Hb Hq) as [Ha Hqa].
  intros a q. split; [done|]. split; [done|]. intros addr hw. unfold q. rewrite <- Hqa. by apply lookup_queue.
Qed.

(** ** Resolution *)
Lemma fifo_insert_in q addr hw : (addr, hw) ∈ fifo_insert q addr hw.
Proof.
  unfold fifo_insert. case_bool_decide as Hin.
  - apply list_elem_of_fmap in Hin as ([x y] & -> & Hin). apply list_elem_of_fmap.
    exists (x, y). cbn. by rewrite bool_decide_true.
  - apply elem_of_app. right. by apply list_elem_of_singleton.
Qed.

Lemma lookup_after_insert a addr hw : arp_inv a ->
  arp_cache_lookup (arp_cache_insert a addr hw) addr = Some hw.
Proof.
  intros Ha. destruct (insert_queue a addr hw Ha) as [Hi Hq]. apply lookup_queue; [done|].
  rewrite Hq. apply fifo_insert_in.
Qed.

Section Resolution.
Context {N : Type} `{Nic N}.

(** [n] delivers a frame that answers [target] within the next [k] polls. *)
Inductive delivers (target : list Z) : nat -> N -> list Z -> Prop :=
| deliver_now n k rx : (nic_receive n 128).2 = rx -> arp_answers rx target = true -> delivers target (S k) n rx
| deliver_later n k rx : arp_answers (nic_receive n 128).2 target = false ->
    delivers target k (nic_receive n 128).1 rx -> delivers target (S k) n rx.

Lemma arp_poll_spec k n target :
  match (arp_poll k n target).2 with
  | Some hw => exists rx, delivers target k n rx /\ hw = arp_sender_mac rx
  | None => forall rx, ~ delivers target k n rx
  end.
Proof.
  revert n. induction k as [|k IH]; intros n; cbn [arp_poll].
  { intros rx Hd. inversion Hd. }
  destruct (nic_receive n 128) as [n' rx] eqn:E. destruct (arp_answers rx target) eqn:Ea; cbn [snd].
  { exists rx. split; [|done]. apply deliver_now; [by rewrite E|done]. }
  specialize (IH n'). destruct (arp_poll k n' target) as [n2 [hw|]] eqn:Ep; cbn [snd] in *.
  - destruct IH as (rx' & Hd & ->). exists rx'. split; [|done].
    apply deliver_later; by rewrite E.
  - intros rx' Hd. inversion Hd as [? ? ? Hr Ha|? ? ? Ha Hd']; subst; rewrite E in *; cbn in *; [congruence|].
    by destruct (IH rx').
Qed.

(** Address resolution answers from the cache without touching the
    network when it can; otherwise it broadcasts one request and returns the
    hardware address of the first reply for the address asked that arrives
    within the polling limit, which is then cached; it fails, leaving the
    cache as it was, exactly when no such reply arrives. *)
Theorem arp_resolve_spec n a target : arp_inv a ->
  let '(msgs, n', a', r) := arp_resolve n a target in
  arp_inv a' /\
  match r with
  | Some hw => arp_cache_lookup a' target = Some hw /\
      ((arp_cache_lookup a target = Some hw /\ n' = n /\ a' = a) \/
       (arp_cache_lookup a target = None /\ a' = arp_cache_insert a target hw /\
        exists rx, delivers target (Z.to_nat ARP_POLL_ATTEMPTS)
                     (nic_send n (arp_request (nic_mac n) target)).1 rx /\
        hw = take 6 (drop 22 rx) /\ take 4 (drop 28 rx) = target))
  | None => a' = a /\ arp_cache_lookup a target = None /\
      forall rx, ~ delivers target (Z.to_nat ARP_POLL_ATTEMPTS)
                     (nic_send n (arp_request (nic_mac n) target)).1 rx
  end.
Proof.
  intros Ha. unfold arp_resolve.
  destruct (arp_cache_lookup a target) as [hw|] eqn:El.
  { split; [done|]. split; [done|]. by left. }
  destruct (nic_send n _) as [n1 sent]. cbn [fst].
  pose proof (arp_poll_spec (Z.to_nat ARP_POLL_ATTEMPTS) n1 target) as Hp.
  destruct (arp_poll _ n1 target) as [n2 [hw|]]; cbn [snd] in Hp; [|done].
  destruct Hp as (rx & Hd & ->). split; [by apply insert_queue|].
  split; [by apply lookup_after_insert|]. right. split; [done|]. split; [done|].
  exists rx. split; [done|]. split; [done|].
  assert (Hans : arp_answers rx target = true) by (clear -Hd; induction Hd; congruence).
  unfold arp_answers in Hans. apply andb_true_iff in Hans as [_ Hans]. by apply bool_decide_eq_true in Hans.
Qed.

(** Two of these machines resolve each other: the request one broadcasts
    makes the other answer it directly, and the answer (with the padding a
    card adds) is one the first accepts and reads the responder's hardware
    address from.  The responder remembers the requester under the sender
    address of the request, which is 0.0.0.0. *)
Theorem arp_exchange (n m : N) b ip_b pad pad' :
  mac_addr (nic_mac n) -> mac_addr (nic_mac m) -> ipv4 ip_b -> arp_inv b ->
  let '(msgs, m', b', r) := arp_respond_if_request m b (arp_request (nic_mac n) ip_b ++ pad) ip_b in
  exists reply, r = true /\ m' = (nic_send m reply).1 /\ take 6 reply = nic_mac n /\
    arp_answers (reply ++ pad') ip_b = true /\ arp_sender_mac (reply ++ pad') = nic_mac m /\
    arp_inv b' /\ arp_cache_lookup b' [0; 0; 0; 0] = Some (nic_mac n).
Proof.
  intros [Hn _] [Hm _] [Hip _] Hb.
  set (M := nic_mac m) in *. set (M' := nic_mac n) in *.
  unfold arp_respond_if_request. fold M.
  assert (Hreq : (Z.of_nat (length (arp_request M' ip_b ++ pad)) <? ARP_FRAME_SIZE) = false /\
    is_arp (arp_request M' ip_b ++ pad) = true /\ arp_op (arp_request M' ip_b ++ pad) = ARP_OP_REQUEST /\
    arp_target_ip (arp_request M' ip_b ++ pad) = ip_b /\
    arp_sender_mac (arp_request M' ip_b ++ pad) = M' /\
    arp_sender_ip (arp_request M' ip_b ++ pad) = [0; 0; 0; 0]).
  { clearbody M'. explode M'. explode ip_b. split_and!; [|done..].
    apply Z.ltb_ge. rewrite length_app. unfold ARP_FRAME_SIZE. cbn [arp_request arp_frame length app put_be16]. lia. }
  destruct Hreq as (-> & -> & -> & -> & -> & ->). rewrite Z.eqb_refl, bool_decide_true by done. cbn [negb].
  destruct (nic_send m _) as [m' sent] eqn:Es.
  exists (arp_frame M' M ARP_OP_REPLY ip_b M' [0; 0; 0; 0]). rewrite Es.
  split; [done|]. split; [done|].
  split_and!; [| | |by apply insert_queue|by apply lookup_after_insert]; clear Es; clearbody M M';
    explode M; explode M'; explode ip_b; [done| |done].
  unfold arp_answers. rewrite (proj2 (Z.ltb_ge _ _)).
  - cbn -[Z.land Z.shiftr]. apply bool_decide_true. done.
  - rewrite length_app. unfold ARP_FRAME_SIZE. cbn [arp_frame length app put_be16]. lia.
Qed.
End Resolution.

Definition card_a : wire := mk_wire [2; 0; 0; 0; 0; 1] [[1; 2; 3];
  arp_frame [2; 0; 0; 0; 0; 1] [2; 0; 0; 0; 0; 2] ARP_OP_REPLY [192; 0; 2; 1] [2; 0; 0; 0; 0; 1] [0; 0; 0; 0]] [].
Definition card_b : wire := mk_wire [2; 0; 0; 0; 0; 2] [] [].

Lemma arp_resolve_witness :
  arp_inv arp_boot /\
  (arp_resolve card_a arp_boot [192; 0; 2; 1]).2 = Some [2; 0; 0; 0; 0; 2] /\
  let '(_, _, a', _) := arp_resolve card_a arp_boot [192; 0; 2; 1] in
  arp_cache_lookup a' [192; 0; 2; 1] = Some [2; 0; 0; 0; 0; 2].
Proof.
  pose proof (arp_resolve_spec card_a arp_boot [192; 0; 2; 1] (proj1 arp_boot_inv)) as H.
  assert (E : (arp_resolve card_a arp_boot [192; 0; 2; 1]).2 = Some [2; 0; 0; 0; 0; 2])
    by (vm_compute; reflexivity).
  split; [exact (proj1 arp_boot_inv)|]. split; [exact E|].
  destruct (arp_resolve card_a arp_boot [192; 0; 2; 1]) as [[[msgs n'] a'] r].
  cbn [snd] in E. subst r. destruct H as [_ [H _]]. exact H.
Defined.

Lemma arp_exchange_witness :
  let '(_, m', b', r) := arp_respond_if_request card_b arp_boot
      (arp_request [2; 0; 0; 0; 0; 1] [192; 0; 2; 1] ++ replicate 18 0) [192; 0; 2; 1] in
  r = true /\ arp_cache_lookup b' [0; 0; 0; 0] = Some [2; 0; 0; 0; 0; 1].
Proof.
  pose proof (arp_exchange card_a card_b arp_boot [192; 0; 2; 1] (replicate 18 0) []) as H.
  change (nic_mac card_a) with [2; 0; 0; 0; 0; 1] in H.
  destruct (arp_respond_if_request card_b arp_boot _ _) as [[[msgs m'] b'] r].
  destruct H as (reply & Hr & _ & _ & _ & _ & _ & Hl);
    [split; [done|repeat constructor; unfold is_byte; lia]..|exact (proj1 arp_boot_inv)|].
  split; [exact Hr|exact Hl].
Defined.
