(* ===== verification/Pci.v ===== *)
(** * PCI enumeration (src/src/pci.c)

    Configuration-space access through the address and data ports, the scan
    of every bus, slot and function, and the table of the devices it found.
    The scan is shown to record exactly the functions the configuration space
    reports, in order, up to the size of the table. *)
From S2P Require Import Prelude Io Ip Arp.

Definition PCI_CONFIG_ADDRESS : Z := 3320.
Definition PCI_CONFIG_DATA : Z := 3324.
Definition PCI_MAX_BUS : Z := 256.
Definition PCI_MAX_SLOT : Z := 32.
Definition PCI_MAX_FUNC : Z := 8.
Definition MAX_PCI_DEVICES : Z := 32.

Record pci_device := mk_pci_device {
  bus : Z; slot : Z; func : Z; vendor_id : Z; device_id : Z }.

#[export] Instance pci_device_eq_dec : EqDecision pci_device.
Proof. solve_decision. Defined.

(** The address word of a configuration register. *)
Definition config_address (b s f offset : Z) : Z :=
  Z.lor (Z.lor (Z.lor (Z.lor 2147483648 (u32 (Z.shiftl b 16))) (u32 (Z.shiftl s 11)))
    (u32 (Z.shiftl f 8))) (Z.land offset 252).

Definition print_hex16 (value : Z) : tty :=
  TBytes [hex_digit (Z.land (Z.shiftr value 12) 15); hex_digit (Z.land (Z.shiftr value 8) 15);
          hex_digit (Z.land (Z.shiftr value 4) 15); hex_digit (Z.land value 15)].

Definition device_line (b s f vendor device class subclass : Z) : list tty :=
  [TStr "PCI: "; print_hex8 b; TStr ":"; print_hex8 s; TStr "."; print_hex8 f;
   TStr " vendor="; print_hex16 vendor; TStr " device="; print_hex16 device;
   TStr " class="; print_hex8 class; TStr " subclass="; print_hex8 subclass; TLn ""].

Section Driver.
Context {D : Type} `{Ports D}.

Definition pci_config_read_dword (b s f offset : Z) : io D Z :=
  let* _ := out32 PCI_CONFIG_ADDRESS (config_address b s f offset) in in32 PCI_CONFIG_DATA.

Definition pci_config_write_dword (b s f offset value : Z) : io D unit :=
  let* _ := out32 PCI_CONFIG_ADDRESS (config_address b s f offset) in out32 PCI_CONFIG_DATA value.

(** The table [devices] with [device_count] is the list of its used entries. *)
Definition pci_check_function (devices : list pci_device) (b s f : Z) : io D (list tty * list pci_device) :=
  let* id_word := pci_config_read_dword b s f 0 in
  let vendor := Z.land id_word 65535 in
  if vendor =? 65535 then io_ret ([], devices)
  else
    let device := Z.land (Z.shiftr id_word 16) 65535 in
    let* class_word := pci_config_read_dword b s f 8 in
    let class := Z.land (Z.shiftr class_word 24) 255 in
    let subclass := Z.land (Z.shiftr class_word 16) 255 in
    let devices :=
      if Z.of_nat (length devices) <? MAX_PCI_DEVICES
      then devices ++ [mk_pci_device b s f vendor device] else devices in
    io_ret (device_line b s f vendor device class subclass, devices).

Definition pci_is_multifunction (b s : Z) : io D bool :=
  let* header_word := pci_config_read_dword b s 0 12 in
  let header_type := Z.land (Z.shiftr header_word 16) 255 in
  io_ret (flag header_type 128).

(** The loop over the functions [f .. f + n - 1] of one slot. *)
Fixpoint scan_functions (n : nat) (devices : list pci_device) (b s f : Z) : io D (list tty * list pci_device) :=
  match n with
  | O => io_ret ([], devices)
  | S n' =>
      let* (m1, devices) := pci_check_function devices b s f in
      let* (m2, devices) := scan_functions n' devices b s (f + 1) in
      io_ret (m1 ++ m2, devices)
  end.

Definition scan_slot (devices : list pci_device) (b s : Z) : io D (list tty * list pci_device) :=
  let* id_word := pci_config_read_dword b s 0 0 in
  if Z.land id_word 65535 =? 65535 then io_ret ([], devices)
  else
    let* (m1, devices) := pci_check_function devices b s 0 in
    let* multi := pci_is_multifunction b s in
    if multi : bool then
      let* (m2, devices) := scan_functions (Z.to_nat (PCI_MAX_FUNC - 1)) devices b s 1 in
      io_ret (m1 ++ m2, devices)
    else io_ret (m1, devices).

Fixpoint scan_slots (n : nat) (devices : list pci_device) (b s : Z) : io D (list tty * list pci_device) :=
  match n with
  | O => io_ret ([], devices)
  | S n' =>
      let* (m1, devices) := scan_slot devices b s in
      let* (m2, devices) := scan_slots n' devices b (s + 1) in
      io_ret (m1 ++ m2, devices)
  end.

Fixpoint scan_buses (n : nat) (devices : list pci_device) (b : Z) : io D (list tty * list pci_device) :=
  match n with
  | O => io_ret ([], devices)
  | S n' =>
      let* (m1, devices) := scan_slots (Z.to_nat PCI_MAX_SLOT) devices b 0 in
      let* (m2, devices) := scan_buses n' devices (b + 1) in
      io_ret (m1 ++ m2, devices)
  end.

Definition pci_scan (devices : list pci_device) : io D (list tty * list pci_device) :=
  let* (m, devices) := scan_buses (Z.to_nat PCI_MAX_BUS) devices 0 in
  io_ret (TLn "PCI: scanning for devices" :: m, devices).
End Driver.

Fixpoint pci_find_device (devices : list pci_device) (vendor device : Z) : option (Z * Z * Z) :=
  match devices with
  | [] => None
  | d :: rest =>
      if (vendor_id d =? vendor) && (device_id d =? device) then Some (bus d, slot d, func d)
      else pci_find_device rest vendor device
  end.

(** ** What the scan relies on: the configuration mechanism

    A read of the data port returns the register the address port selects and
    changes no register; registers hold 32-bit values. *)
Class PciBus (D : Type) `{Ports D} := {
  pci_cfg : D -> Z -> Z;
  pci_cfg_u32 d a : is_u32 (pci_cfg d a);
  pci_cfg_read d a : (inl (outl d PCI_CONFIG_ADDRESS a) PCI_CONFIG_DATA).1 = pci_cfg d a;
  pci_cfg_kept d a : pci_cfg (inl (outl d PCI_CONFIG_ADDRESS a) PCI_CONFIG_DATA).2 = pci_cfg d }.

(** ** Addresses *)
Definition pci_id_ok (b s f offset : Z) : Prop :=
  0 <= b < 256 /\ 0 <= s < 32 /\ 0 <= f < 8 /\ 0 <= offset < 256.

(** The fields of the address word do not overlap. *)
Lemma land_252 o : is_byte o -> Z.land o 252 = 4 * (o / 4).
Proof.
  intros Ho. apply Z.eqb_eq. revert o Ho. apply (forall_byte (fun o => Z.land o 252 =? 4 * (o / 4))).
  vm_compute. reflexivity.
Qed.

Lemma config_address_fields b s f offset : pci_id_ok b s f offset ->
  config_address b s f offset = 2147483648 + 65536 * b + 2048 * s + 256 * f + 4 * (offset / 4).
Proof.
  intros (Hb & Hs & Hf & Ho). unfold config_address. rewrite land_252 by (unfold is_byte; lia).
  rewrite !Z.shiftl_mul_pow2 by lia. rewrite !u32_small by (unfold is_u32; lia).
  change 2147483648 with (128 * 2 ^ 24) at 1. rewrite lor_add by lia.
  replace (128 * 2 ^ 24 + b * 2 ^ 16) with ((32768 + b) * 2 ^ 16) by lia. rewrite lor_add by lia.
  replace ((32768 + b) * 2 ^ 16 + s * 2 ^ 11) with (((32768 + b) * 32 + s) * 2 ^ 11) by lia. rewrite lor_add by lia.
  replace (((32768 + b) * 32 + s) * 2 ^ 11 + f * 2 ^ 8) with ((((32768 + b) * 32 + s) * 8 + f) * 2 ^ 8) by lia.
  rewrite lor_add by (try lia; dlia). dlia.
Qed.

(** Distinct registers have distinct addresses. *)
Lemma config_address_inj b s f o b' s' f' o' :
  pci_id_ok b s f o -> pci_id_ok b' s' f' o' -> config_address b s f o = config_address b' s' f' o' ->
  b = b' /\ s = s' /\ f = f' /\ o / 4 = o' / 4.
Proof.
  intros H H'. rewrite !config_address_fields by done. unfold pci_id_ok in *. dlia.
Qed.

(** ** The scan against the configuration space *)
Definition cfg_reg (cfg : Z -> Z) (b s f offset : Z) : Z := cfg (config_address b s f offset).
Definition cfg_vendor (cfg : Z -> Z) (b s f : Z) : Z := cfg_reg cfg b s f 0 mod 65536.
Definition cfg_device (cfg : Z -> Z) (b s f : Z) : Z := cfg_reg cfg b s f 0 / 65536 mod 65536.

Definition present_function (cfg : Z -> Z) (b s f : Z) : list pci_device :=
  if cfg_vendor cfg b s f =? 65535 then []
  else [mk_pci_device b s f (cfg_vendor cfg b s f) (cfg_device cfg b s f)].

(** Bit 7 of the header type, byte 14 of the header. *)
Definition cfg_multi (cfg : Z -> Z) (b s : Z) : bool := Z.testbit (cfg_reg cfg b s 0 12) 23.

Definition present_slot (cfg : Z -> Z) (b s : Z) : list pci_device :=
  match present_function cfg b s 0 with
  | [] => []
  | l => l ++ (if cfg_multi cfg b s then mjoin (present_function cfg b s <$> seqZ 1 7) else [])
  end.

Definition present_devices (cfg : Z -> Z) : list pci_device :=
  mjoin ((fun b => mjoin (present_slot cfg b <$> seqZ 0 32)) <$> seqZ 0 256).

(** The table after [found] more devices. *)
Definition table (devices found : list pci_device) : list pci_device :=
  take (Nat.max (length devices) 32) (devices ++ found).

Lemma table_app devices l1 l2 : table (table devices l1) l2 = table devices (l1 ++ l2).
Proof.
  unfold table. set (n := length devices). set (l := devices ++ l1).
  assert (Hl : length l = (n + length l1)%nat) by (apply length_app). rewrite length_take, Hl.
  destruct (decide (n + length l1 <= Nat.max n 32)%nat).
  - rewrite (take_ge l) by lia.
    unfold l. rewrite <- app_assoc. f_equal. lia.
  - rewrite app_assoc. fold l. rewrite (take_app_le l l2) by lia.
    rewrite take_app_le by (rewrite length_take; lia). rewrite take_take. f_equal. lia.
Qed.

Lemma table_nil devices : table devices [] = devices.
Proof. unfold table. rewrite app_nil_r. apply take_ge. lia. Qed.

Lemma seqZ_of_S m n : seqZ m (Z.of_nat (S n)) = m :: seqZ (m + 1) (Z.of_nat n).
Proof. rewrite seqZ_cons by lia. f_equal. f_equal; lia. Qed.

Section Scan.
Context {D : Type} `{Ports D} `{!PciBus D}.

Lemma config_read_spec (d : D) b s f o Q : 
  (forall d', pci_cfg d' = pci_cfg d -> Q (cfg_reg (pci_cfg d) b s f o) d') ->
  wp (pci_config_read_dword b s f o) d Q.
Proof.
  intros HQ. unfold pci_config_read_dword. io_step. io_step. io_step. rewrite pci_cfg_read.
  apply HQ. by rewrite pci_cfg_kept.
Qed.

Lemma land_16 x : Z.land x 65535 = x mod 65536.
Proof. change 65535 with (Z.ones 16). by rewrite Z.land_ones. Qed.

Lemma check_function_spec (d : D) devices b s f :
  wp (pci_check_function devices b s f) d (fun '(_, devices') d' =>
    devices' = table devices (present_function (pci_cfg d) b s f) /\ pci_cfg d' = pci_cfg d).
Proof.
  unfold pci_check_function, present_function. io_step. apply config_read_spec. intros d1 H1.
  unfold cfg_vendor, cfg_device. rewrite !land_16. case_if.
  { io_step. by rewrite table_nil. }
  rewrite Z.shiftr_div_pow2 by lia. change (2 ^ 16) with 65536.
  io_step. apply config_read_spec. intros d2 H2. io_step. split; [|congruence].
  unfold table, MAX_PCI_DEVICES. case_if.
  - symmetry. apply take_ge. rewrite length_app. cbn. lia.
  - rewrite take_app_le by lia. symmetry. apply take_ge. lia.
Qed.

Lemma is_multifunction_spec (d : D) b s Q :
  (forall d', pci_cfg d' = pci_cfg d -> Q (cfg_multi (pci_cfg d) b s) d') ->
  wp (pci_is_multifunction b s) d Q.
Proof.
  intros HQ. unfold pci_is_multifunction. io_step. apply config_read_spec. intros d1 H1. io_step.
  change 128 with (2 ^ 7). rewrite flag_testbit by lia. change 255 with (Z.ones 8).
  rewrite Z.land_spec, Z.shiftr_spec, Z.testbit_ones_nonneg, andb_true_r by lia. by apply HQ.
Qed.

Lemma scan_functions_spec n : forall (d : D) devices b s f,
  wp (scan_functions n devices b s f) d (fun '(_, devices') d' =>
    devices' = table devices (mjoin (present_function (pci_cfg d) b s <$> seqZ f (Z.of_nat n))) /\
    pci_cfg d' = pci_cfg d).
Proof.
  induction n as [|n IH]; intros d devices b s f; cbn [scan_functions].
  { io_step. by rewrite table_nil. }
  io_step. eapply wp_mono; [apply check_function_spec|]. intros [m1 t1] d1 [-> H1].
  io_step. eapply wp_mono; [apply IH|]. intros [m2 t2] d2 [-> H2]. io_step.
  rewrite H1. split; [|congruence]. rewrite table_app. f_equal.
  by rewrite seqZ_of_S, fmap_cons, join_cons.
Qed.

(** The three nested loops have the same shape: each appends what the part it
    visits reports. *)
Lemma scan_slot_spec (d : D) devices b s :
  wp (scan_slot devices b s) d (fun '(_, devices') d' =>
    devices' = table devices (present_slot (pci_cfg d) b s) /\ pci_cfg d' = pci_cfg d).
Proof.
  unfold scan_slot, present_slot. io_step. apply config_read_spec. intros d1 H1.
  rewrite land_16. change (cfg_reg (pci_cfg d) b s 0 0 mod 65536) with (cfg_vendor (pci_cfg d) b s 0).
  unfold present_function at 1. case_if.
  { io_step. by rewrite table_nil. }
  io_step. eapply wp_mono; [apply check_function_spec|]. intros [m1 t1] d2 [-> H2].
  io_step. apply is_multifunction_spec. intros d3 H3. rewrite H2, H1.
  unfold present_function at 1. rewrite (proj2 (Z.eqb_neq _ _) Hif).
  destruct (cfg_multi (pci_cfg d) b s).
  - io_step. eapply wp_mono; [apply scan_functions_spec|]. intros [m2 t2] d4 [-> H4]. io_step.
    rewrite H3, H2, H1, table_app. split; [done|congruence].
  - io_step. split; [|congruence]. unfold present_function. by rewrite (proj2 (Z.eqb_neq _ _) Hif).
Qed.

Lemma scan_slots_spec n : forall (d : D) devices b s,
  wp (scan_slots n devices b s) d (fun '(_, devices') d' =>
    devices' = table devices (mjoin (present_slot (pci_cfg d) b <$> seqZ s (Z.of_nat n))) /\
    pci_cfg d' = pci_cfg d).
Proof.
  induction n as [|n IH]; intros d devices b s; cbn [scan_slots].
  { io_step. by rewrite table_nil. }
  io_step. eapply wp_mono; [apply scan_slot_spec|]. intros [m1 t1] d1 [-> H1].
  io_step. eapply wp_mono; [apply IH|]. intros [m2 t2] d2 [-> H2]. io_step.
  rewrite H1. split; [|congruence]. rewrite table_app, seqZ_of_S, fmap_cons, join_cons. done.
Qed.

Lemma scan_buses_spec n : forall (d : D) devices b,
  wp (scan_buses n devices b) d (fun '(_, devices') d' =>
    devices' = table devices (mjoin ((fun b => mjoin (present_slot (pci_cfg d) b <$> seqZ 0 32)) <$> seqZ b (Z.of_nat n))) /\
    pci_cfg d' = pci_cfg d).
Proof.
  induction n as [|n IH]; intros d devices b; cbn [scan_buses].
  { io_step. by rewrite table_nil. }
  io_step. eapply wp_mono; [apply scan_slots_spec|]. intros [m1 t1] d1 [-> H1].
  io_step. eapply wp_mono; [apply IH|]. intros [m2 t2] d2 [-> H2]. io_step.
  rewrite H1. split; [|congruence]. rewrite table_app, seqZ_of_S, fmap_cons, join_cons. done.
Qed.

(** Looking an identifier up returns the first entry that has it. *)
Lemma find_device_first devices vendor device :
  pci_find_device devices vendor device =
    (fun '(_, p) => (bus p, slot p, func p)) <$>
      list_find (fun p => vendor_id p = vendor /\ device_id p = device) devices.
Proof.
  induction devices as [|p rest IH]; cbn [pci_find_device list_find]; [done|].
  destruct (decide (vendor_id p = vendor /\ device_id p = device)) as [[-> ->]|Hn].
  - by rewrite !Z.eqb_refl.
  - assert ((vendor_id p =? vendor) && (device_id p =? device) = false) as ->.
    { apply not_true_iff_false. rewrite andb_true_iff, !Z.eqb_eq. done. }
    rewrite IH. by destruct (list_find _ rest) as [[]|].
Qed.

(** The scan finds every PCI function the configuration space reports (a
    slot without function 0 is empty, and functions 1 to 7 are looked at only
    when function 0 says it has them) in bus, slot, function order, keeps the
    first thirty-two in the table, and leaves the configuration unchanged;
    looking an identifier up afterwards returns the first recorded function
    that has it. *)
Theorem pci_scan_complete (d : D) vendor device :
  wp (pci_scan []) d (fun '(_, devices) d' =>
    devices = take 32 (present_devices (pci_cfg d)) /\ pci_cfg d' = pci_cfg d /\
    pci_find_device devices vendor device =
      (fun '(_, p) => (bus p, slot p, func p)) <$>
        list_find (fun p => vendor_id p = vendor /\ device_id p = device)
          (take 32 (present_devices (pci_cfg d)))).
Proof.
  unfold pci_scan. io_step. eapply wp_mono; [apply scan_buses_spec|]. intros [m t] d' [-> Hd]. io_step.
  change (table [] ?l) with (take 32 l). fold (present_devices (pci_cfg d)).
  split; [done|]. split; [done|]. apply find_device_first.
Qed.
End Scan.

(** ** A bus held in memory *)
Record cfg_space := mk_space { regs : list (Z * Z); selected : Z }.

Definition space_reg (r : list (Z * Z)) (a : Z) : Z :=
  match list_find (fun '(k, _) => k = a) r with
  | Some (_, (_, v)) => u32 v
  | None => 4294967295
  end.

#[export] Instance space_ports : Ports cfg_space := {
  inb d p := (0, d); outb d p x := d; inw d p := (0, d); outw d p x := d;
  inl d p := (if p =? PCI_CONFIG_DATA then space_reg (regs d) (selected d) else 4294967295, d);
  outl d p x := if p =? PCI_CONFIG_ADDRESS then mk_space (regs d) x else d }.

#[export] Instance space_bus : PciBus cfg_space.
Proof.
  refine {| pci_cfg := fun d => space_reg (regs d) |}; [|done|done].
  intros d a. unfold space_reg. destruct (list_find _ _) as [[i [k v]]|]; [apply u32_is|unfold is_u32; lia].
Defined.

(** An emulated machine: the host bridge, a multi-function chipset in slot 1
    with functions 0, 1 and 3, and a network card in slot 3. *)
Definition sample_space : cfg_space :=
  mk_space [(config_address 0 0 0 0, 305610886); (config_address 0 0 0 12, 0);
            (config_address 0 1 0 0, 1879080070); (config_address 0 1 0 12, 8388608);
            (config_address 0 1 1 0, 1880128646); (config_address 0 1 3 0, 1897103494);
            (config_address 0 3 0 0, 2168000748); (config_address 0 3 0 12, 0)] 0.

Example sample_scan :
  match pci_scan [] sample_space with
  | OK ((_, devices), _) =>
      map (fun p => (bus p, slot p, func p)) devices = [(0, 0, 0); (0, 1, 0); (0, 1, 1); (0, 1, 3); (0, 3, 0)] /\
      pci_find_device devices 4332 33081 = Some (0, 3, 0)
  | _ => False
  end.
Proof. vm_compute. split; reflexivity. Qed.

Lemma pci_scan_complete_witness :
  wp (pci_scan []) sample_space (fun '(_, devices) _ =>
    length devices = 5%nat /\ pci_find_device devices 4332 33081 = Some (0, 3, 0)).
Proof.
  eapply wp_mono; [exact (pci_scan_complete sample_space 4332 33081)|].
  intros [m t] d' (-> & _ & ->). vm_compute. split; reflexivity.
Defined.
