(* ===== verification/Rtl8139.v ===== *)
(** * The RTL8139 network card driver (src/src/rtl8139.c)

    Initialisation over PCI, transmission through the four descriptors and
    reception from the ring the card fills by DMA.  The card is a parameter:
    [RtlCard] states the documented behaviour of the registers the driver
    uses, and the driver provides the card interface the protocols are
    written against. *)
From S2P Require Import Prelude Io Ip Arp Pci.

Definition RTL8139_VENDOR_ID : Z := 4332.
Definition RTL8139_DEVICE_ID : Z := 33081.
Definition RTL_REG_IDR0 : Z := 0.
Definition RTL_REG_TSD0 : Z := 16.
Definition RTL_REG_TSAD0 : Z := 32.
Definition RTL_REG_RBSTART : Z := 48.
Definition RTL_REG_CR : Z := 55.
Definition RTL_REG_CAPR : Z := 56.
Definition RTL_REG_IMR : Z := 60.
Definition RTL_REG_RCR : Z := 68.
Definition RTL_REG_CONFIG1 : Z := 82.
Definition RTL_CR_RST : Z := 16.
Definition RTL_CR_RE : Z := 8.
Definition RTL_CR_TE : Z := 4.
Definition RTL_TSD_OWN : Z := 8192.
Definition RTL_TSD_TOK : Z := 32768.
Definition RTL_CR_BUFE : Z := 1.
Definition RTL8139_RX_RING_SIZE : Z := 8192.
Definition RTL8139_RX_BUFFER_SIZE : Z := RTL8139_RX_RING_SIZE + 16 + 1500.
Definition RTL8139_MIN_FRAME_SIZE : Z := 60.
Definition RTL8139_TX_TIMEOUT_MS : Z := 3000.
Definition RTL8139_TX_TIMEOUT_ITER_FALLBACK : Z := 50000000.
Definition RTL8139_TX_DESC_COUNT : Z := 4.
Definition TX_BUFFER_SIZE : Z := 1514.

(** The driver's statics other than the two DMA buffers. *)
Record rtl := mk_rtl {
  io_base : Z; rtl_mac : list Z; present : bool; rx_read_offset : Z; tx_desc_index : Z }.

Definition rtl_boot : rtl := mk_rtl 0 [0; 0; 0; 0; 0; 0] false 0 0.

Definition set_offset (r : rtl) (o : Z) : rtl :=
  mk_rtl (io_base r) (rtl_mac r) (present r) o (tx_desc_index r).
Definition set_desc (r : rtl) (i : Z) : rtl :=
  mk_rtl (io_base r) (rtl_mac r) (present r) (rx_read_offset r) i.

(** The two buffers shared with the card, at the addresses [rx_addr] and
    [tx_addr]: the card writes the first one, the driver the second one. *)
Class Dma (D : Type) := {
  rx_addr : Z;
  tx_addr : Z;
  rx_buffer : D -> list Z;
  tx_buffer : D -> list Z;
  set_tx_buffer : D -> list Z -> D }.

Section Driver.
Context {D : Type} `{Ports D} `{Dma D}.

Definition rtl8139_is_present (r : rtl) : bool := present r.
Definition rtl8139_get_mac (r : rtl) : list Z := rtl_mac r.

Definition rtl_print_hex16 (value : Z) : list tty :=
  [print_hex8 (u8 (Z.shiftr value 8)); print_hex8 (u8 (Z.land value 255))].

Definition rtl8139_init (fuel : nat) (devices : list pci_device) (r : rtl) : io D (list tty * rtl) :=
  match pci_find_device devices RTL8139_VENDOR_ID RTL8139_DEVICE_ID with
  | None => io_ret ([TLn "RTL8139: not found on PCI bus"], r)
  | Some (b, s, f) =>
      let* bar0 := pci_config_read_dword b s f 16 in
      let base := Z.land bar0 65532 in
      let* command := pci_config_read_dword b s f 4 in
      let* _ := pci_config_write_dword b s f 4 (Z.lor command 5) in
      let* _ := out8 (base + RTL_REG_CONFIG1) 0 in
      let* _ := out8 (base + RTL_REG_CR) RTL_CR_RST in
      let* _ := io_while fuel (let* v := in8 (base + RTL_REG_CR) in io_ret (flag v RTL_CR_RST)) in
      let* addr := io_for 6 0 (fun i => in8 (base + RTL_REG_IDR0 + i)) in
      let* _ := out32 (base + RTL_REG_RBSTART) rx_addr in
      let* _ := out16 (base + RTL_REG_IMR) 0 in
      let* _ := out32 (base + RTL_REG_RCR) 143 in
      let* _ := out8 (base + RTL_REG_CR) (Z.lor RTL_CR_RE RTL_CR_TE) in
      io_ret (TStr "RTL8139: io_base=0x" :: rtl_print_hex16 base ++ TStr " MAC="
                :: intersperse_colon (map print_hex8 addr) ++ [TLn ""],
              mk_rtl base addr true (rx_read_offset r) (tx_desc_index r))
  end.

(** What the transmit buffer holds after a frame was copied and padded, and
    the number of bytes to send. *)
Definition tx_fill (tx frame : list Z) : list Z * Z :=
  let send_len := Z.of_nat (length frame) in
  let send_len := if send_len >? TX_BUFFER_SIZE then TX_BUFFER_SIZE else send_len in
  let tx := splice tx 0 (take (Z.to_nat send_len) frame) in
  if send_len <? RTL8139_MIN_FRAME_SIZE
  then (splice tx (Z.to_nat send_len) (replicate (Z.to_nat (RTL8139_MIN_FRAME_SIZE - send_len)) 0),
        RTL8139_MIN_FRAME_SIZE)
  else (tx, send_len).

(** The wait for the card; [ticks i] is what the [i]-th call of
    [pit_get_ticks] returns. *)
Fixpoint tx_wait (fuel : nat) (ticks : nat -> Z) (i : nat) (iter reg start max_ticks : Z) : io D unit :=
  match fuel with
  | O => fun _ => Fuel
  | S fuel' =>
      let* v := in32 reg in
      if flag v RTL_TSD_OWN then io_ret tt
      else if s32 (u32 (ticks i - start)) >=? s32 max_ticks then io_ret tt
      else if iter =? 0 then io_ret tt
      else tx_wait fuel' ticks (S i) (iter - 1) reg start max_ticks
  end.

Definition rtl8139_send_frame (fuel : nat) (freq : Z) (ticks : nat -> Z) (r : rtl) (frame : list Z)
    : io D (list tty * rtl * bool) :=
  if negb (present r) then io_ret ([], r, false)
  else
    let* send_len := (fun d => let '(tx, n) := tx_fill (tx_buffer d) frame in OK (n, set_tx_buffer d tx)) in
    let tsad_reg := RTL_REG_TSAD0 + u16 (tx_desc_index r * 4) in
    let tsd_reg := RTL_REG_TSD0 + u16 (tx_desc_index r * 4) in
    let r := set_desc r ((tx_desc_index r + 1) mod RTL8139_TX_DESC_COUNT) in
    let* _ := out32 (io_base r + tsad_reg) tx_addr in
    let* _ := out32 (io_base r + tsd_reg) send_len in
    let freq := if freq =? 0 then 100 else freq in
    let max_ticks := u32 (RTL8139_TX_TIMEOUT_MS * freq) / 1000 in
    let* _ := tx_wait fuel ticks 1 RTL8139_TX_TIMEOUT_ITER_FALLBACK (io_base r + tsd_reg) (ticks O) max_ticks in
    let* v := in32 (io_base r + tsd_reg) in
    if negb (flag v RTL_TSD_OWN) then io_ret ([TLn "RTL8139: TX timed out"], r, false)
    else
      let* v := in32 (io_base r + tsd_reg) in
      if flag v RTL_TSD_TOK then io_ret ([TLn "RTL8139: frame sent OK"], r, true)
      else io_ret ([TLn "RTL8139: TX completed but TOK not set"], r, false).

(** The offset of the packet after one of [size] bytes at [off]. *)
Definition next_offset (off size : Z) : Z :=
  let o := u16 (Z.land (off + size + 4 + 3) (-4)) in
  if o >? RTL8139_RX_RING_SIZE then o - RTL8139_RX_RING_SIZE else o.

(** The bytes copied out of the buffer. *)
Definition copy_out (mem : list Z) (off len : Z) : list Z :=
  (fun i => byte_at mem (off + i)) <$> seqZ 0 len.

Fixpoint receive_loop (fuel : nat) (r : rtl) (max_len : Z) : io D (rtl * list Z) :=
  match fuel with
  | O => fun _ => Fuel
  | S fuel' =>
      let* cr := in8 (io_base r + RTL_REG_CR) in
      if flag cr RTL_CR_BUFE then io_ret (r, [])
      else
        let* mem := (fun d => OK (rx_buffer d, d)) in
        let off := rx_read_offset r in
        let status := get_le16 mem off in
        let size := get_le16 mem (off + 2) in
        let packet_len :=
          if flag status 1 then
            let n := u16 (size - 4) in if n >? max_len then max_len else n
          else 0 in
        let packet := copy_out mem (off + 4) packet_len in
        let r := set_offset r (next_offset off size) in
        let* _ := out16 (io_base r + RTL_REG_CAPR) (u16 (rx_read_offset r - 16)) in
        if packet_len >? 0 then io_ret (r, packet) else receive_loop fuel' r max_len
  end.

Definition rtl8139_receive_packet (fuel : nat) (r : rtl) (max_len : Z) : io D (rtl * list Z) :=
  if negb (present r) then io_ret (r, []) else receive_loop fuel r max_len.
End Driver.

(** ** What the driver relies on of the card *)

(** A packet in the ring: its status word and its bytes with the checksum. *)
Record packet := mk_packet { pk_status : Z; pk_data : list Z }.

(** Where the card puts the packet after one at [off]: its write pointer is
    kept modulo the size of the ring. *)
Definition card_next (off : Z) (p : packet) : Z :=
  ((off + Z.of_nat (length (pk_data p)) + 7) / 4 * 4) mod RTL8139_RX_RING_SIZE.

(** Legal packets: a 16-bit status and a frame with its checksum that fits
    the padding behind the ring. *)
Definition packet_ok (p : packet) : Prop :=
  is_u16 (pk_status p) /\ (4 < length (pk_data p) <= 1516)%nat /\ Forall is_byte (pk_data p).

Class RtlCard (D : Type) `{Ports D} `{Dma D} (base : Z) := {
  rx_pending : D -> list packet;
  rx_start : D -> Z;
  tx_sent : D -> list (list Z);
  tx_desc : D -> Z -> Z;
  tx_left : D -> Z -> nat;
  tx_bound : nat;
  card_start d : 0 <= rx_start d < RTL8139_RX_RING_SIZE /\ rx_start d mod 4 = 0;
  card_packets d : Forall packet_ok (rx_pending d);
  card_bytes d : Forall is_byte (rx_buffer d);
  (* the first packet lies in memory at the start of the used part *)
  card_layout d p rest : rx_pending d = p :: rest ->
    get_le16 (rx_buffer d) (rx_start d) = pk_status p /\
    get_le16 (rx_buffer d) (rx_start d + 2) = Z.of_nat (length (pk_data p)) /\
    copy_out (rx_buffer d) (rx_start d + 4) (Z.of_nat (length (pk_data p))) = pk_data p;
  card_cr d : flag (inb d (base + RTL_REG_CR)).1 RTL_CR_BUFE = bool_decide (rx_pending d = []) /\
    rx_pending (inb d (base + RTL_REG_CR)).2 = rx_pending d /\
    rx_start (inb d (base + RTL_REG_CR)).2 = rx_start d;
  (* moving CAPR past the first packet releases it *)
  card_capr d p rest v : rx_pending d = p :: rest ->
    (v + 16) mod RTL8139_RX_RING_SIZE = card_next (rx_start d) p ->
    rx_pending (outw d (base + RTL_REG_CAPR) v) = rest /\
    rx_start (outw d (base + RTL_REG_CAPR) v) = card_next (rx_start d) p;
  (* a descriptor's address register is set, then its length starts it *)
  card_tsad d i a : 0 <= i < 4 ->
    tx_desc (outl d (base + (RTL_REG_TSAD0 + i * 4)) a) i = a /\
    tx_sent (outl d (base + (RTL_REG_TSAD0 + i * 4)) a) = tx_sent d /\
    tx_buffer (outl d (base + (RTL_REG_TSAD0 + i * 4)) a) = tx_buffer d;
  card_tsd d i n : 0 <= i < 4 -> tx_desc d i = tx_addr -> 60 <= n <= TX_BUFFER_SIZE ->
    tx_sent (outl d (base + (RTL_REG_TSD0 + i * 4)) n) = tx_sent d ++ [take (Z.to_nat n) (tx_buffer d)] /\
    (tx_left (outl d (base + (RTL_REG_TSD0 + i * 4)) n) i <= tx_bound)%nat;
  (* the status shows the end of the transmission once it is over *)
  card_tsd_read d i : 0 <= i < 4 ->
    tx_sent (inl d (base + (RTL_REG_TSD0 + i * 4))).2 = tx_sent d /\
    match tx_left d i with
    | O => flag (inl d (base + (RTL_REG_TSD0 + i * 4))).1 RTL_TSD_OWN = true /\
           flag (inl d (base + (RTL_REG_TSD0 + i * 4))).1 RTL_TSD_TOK = true /\
           tx_left (inl d (base + (RTL_REG_TSD0 + i * 4))).2 i = O
    | S n => flag (inl d (base + (RTL_REG_TSD0 + i * 4))).1 RTL_TSD_OWN = false /\
             tx_left (inl d (base + (RTL_REG_TSD0 + i * 4))).2 i = n
    end;
  card_set_tx d tx : length tx = length (tx_buffer d) ->
    tx_buffer (set_tx_buffer d tx) = tx /\ tx_sent (set_tx_buffer d tx) = tx_sent d;
  card_tx_size d : Z.of_nat (length (tx_buffer d)) = TX_BUFFER_SIZE }.

(** ** Offsets *)
Lemma land_m4 x : 0 <= x -> Z.land x (-4) = x / 4 * 4.
Proof.
  intros Hx. change (-4) with (Z.lnot (Z.ones 2)). rewrite <- Z.ldiff_land, Z.ldiff_ones_r by lia.
  rewrite Z.shiftl_mul_pow2, Z.shiftr_div_pow2 by lia. done.
Qed.

(** The driver's next offset is the card's unless the packet ends exactly at
    the end of the ring, where the driver keeps 8192 and the card 0. *)
Definition ends_at_ring_end (off : Z) (p : packet) : bool :=
  (off + Z.of_nat (length (pk_data p)) + 7) / 4 * 4 =? RTL8139_RX_RING_SIZE.

Lemma next_offset_card off p : packet_ok p -> 0 <= off < RTL8139_RX_RING_SIZE ->
  next_offset off (Z.of_nat (length (pk_data p)))
    = if ends_at_ring_end off p then RTL8139_RX_RING_SIZE else card_next off p.
Proof.
  intros (_ & Hl & _) Ho. unfold next_offset, ends_at_ring_end, card_next, RTL8139_RX_RING_SIZE in *.
  rewrite land_m4 by lia. set (n := Z.of_nat (length (pk_data p))) in *.
  replace (off + n + 4 + 3) with (off + n + 7) by lia.
  rewrite u16_small by (unfold is_u16; dlia). rewrite Z.gtb_ltb. repeat case_if; dlia.
Qed.

(** The CAPR value names that offset. *)
Lemma capr_value o : 0 <= o <= RTL8139_RX_RING_SIZE ->
  (u16 (o - 16) + 16) mod RTL8139_RX_RING_SIZE = o mod RTL8139_RX_RING_SIZE.
Proof. unfold u16, RTL8139_RX_RING_SIZE. intros Ho. dlia. Qed.

Lemma card_next_range off p : 0 <= card_next off p < RTL8139_RX_RING_SIZE.
Proof. unfold card_next, RTL8139_RX_RING_SIZE. dlia. Qed.

(** Every byte the driver reads of a legal packet lies in the buffer. *)
Lemma rx_in_bounds off p : packet_ok p -> 0 <= off < RTL8139_RX_RING_SIZE -> off mod 4 = 0 ->
  off + 4 + Z.of_nat (length (pk_data p)) <= RTL8139_RX_BUFFER_SIZE.
Proof.
  intros (_ & Hl & _) Ho Hm. unfold RTL8139_RX_BUFFER_SIZE, RTL8139_RX_RING_SIZE in *. dlia.
Qed.

Lemma length_copy_out mem off n : 0 <= n -> Z.of_nat (length (copy_out mem off n)) = n.
Proof. intros Hn. unfold copy_out. rewrite length_fmap, length_seqZ. lia. Qed.

Lemma copy_out_take mem off n m : 0 <= m <= n -> copy_out mem off m = take (Z.to_nat m) (copy_out mem off n).
Proof.
  intros Hm. unfold copy_out. rewrite <- fmap_take. f_equal.
  replace n with (m + (n - m)) by lia. rewrite seqZ_app by lia. rewrite take_app_length'; [done|].
  rewrite length_seqZ. done.
Qed.

Lemma copy_out_bytes mem off n : Forall is_byte mem -> Forall is_byte (copy_out mem off n).
Proof. intros Hm. unfold copy_out. apply Forall_fmap, Forall_true. intros i. cbn. auto with harold. Qed.

(** ** Reception *)

(** What the ring delivers: the first good frame without its checksum, cut to
    the caller's buffer, and the packets that remain. *)
Fixpoint deliver (max_len : Z) (ps : list packet) : list Z * list packet :=
  match ps with
  | [] => ([], [])
  | p :: rest =>
      if flag (pk_status p) 1
      then (take (Z.to_nat (Z.min max_len (Z.of_nat (length (pk_data p)) - 4))) (pk_data p), rest)
      else deliver max_len rest
  end.

(** No packet of the ring that is read ends exactly at the ring's end. *)
Fixpoint edge_free (off : Z) (ps : list packet) : bool :=
  match ps with
  | [] => true
  | p :: rest =>
      negb (ends_at_ring_end off p) && (if flag (pk_status p) 1 then true else edge_free (card_next off p) rest)
  end.

Section Reception.
Context {D : Type} `{HP : Ports D} `{HD : Dma D} (base : Z) `{HC : !RtlCard D base}.

(** The length and the bytes the driver takes of the first packet. *)
Lemma first_packet (d : D) p rest max_len : rx_pending d = p :: rest -> 0 < max_len < 65536 ->
  let size := get_le16 (rx_buffer d) (rx_start d + 2) in
  let n := u16 (size - 4) in
  let len := if n >? max_len then max_len else n in
  len = Z.min max_len (Z.of_nat (length (pk_data p)) - 4) /\ 0 < len /\
  copy_out (rx_buffer d) (rx_start d + 4) len = take (Z.to_nat len) (pk_data p).
Proof.
  intros Hps Hm. destruct (card_layout d p rest Hps) as (_ & -> & Hc). cbv zeta.
  pose proof (card_packets d) as Hok. rewrite Hps in Hok. apply Forall_cons_1 in Hok as [(_ & Hl & _) _].
  rewrite u16_small by (unfold is_u16; lia). rewrite Z.gtb_ltb.
  assert (Hmin : (if max_len <? Z.of_nat (length (pk_data p)) - 4 then max_len
    else Z.of_nat (length (pk_data p)) - 4) = Z.min max_len (Z.of_nat (length (pk_data p)) - 4)) by (case_if; lia).
  rewrite Hmin. split; [done|]. split; [lia|].
  rewrite (copy_out_take _ _ (Z.of_nat (length (pk_data p)))) by lia. by rewrite Hc.
Qed.

(** Releasing the first packet keeps driver and card in step. *)
Lemma release_first (d : D) p rest : rx_pending d = p :: rest -> ends_at_ring_end (rx_start d) p = false ->
  let o := next_offset (rx_start d) (get_le16 (rx_buffer d) (rx_start d + 2)) in
  let d' := outw d (base + RTL_REG_CAPR) (u16 (o - 16)) in
  rx_pending d' = rest /\ rx_start d' = o /\ o = card_next (rx_start d) p.
Proof.
  intros Hps He. destruct (card_layout d p rest Hps) as (_ & -> & _). cbv zeta.
  pose proof (card_packets d) as Hok. rewrite Hps in Hok. apply Forall_cons_1 in Hok as [Hok _].
  destruct (card_start d) as [Hs _]. rewrite next_offset_card, He by done.
  pose proof (card_next_range (rx_start d) p).
  destruct (card_capr d p rest (u16 (card_next (rx_start d) p - 16)) Hps) as [-> ->]; [|done].
  rewrite capr_value by lia. apply Z.mod_small. lia.
Qed.

Lemma receive_loop_delivers fuel : forall (d : D) r max_len,
  io_base r = base -> rx_read_offset r = rx_start d ->
  edge_free (rx_start d) (rx_pending d) = true -> 0 < max_len < 65536 ->
  (length (rx_pending d) < fuel)%nat ->
  wp (receive_loop fuel r max_len) d (fun '(r', frame) d' =>
    (frame, rx_pending d') = deliver max_len (rx_pending d) /\
    rx_read_offset r' = rx_start d' /\ io_base r' = base /\ rtl_mac r' = rtl_mac r).
Proof.
  induction fuel as [|fuel IH]; intros d r max_len Hb Ho He Hm Hf; [lia|]. cbn [receive_loop].
  io_step. io_step. rewrite Hb. destruct (card_cr d) as (-> & Hps & Hst).
  destruct (rx_pending d) as [|p ps] eqn:Hd.
  { rewrite bool_decide_true by done. io_step. cbn [deliver]. by rewrite Hps, Hst. }
  rewrite bool_decide_false by done. set (d1 := (inb d _).2) in *.
  destruct (card_layout d1 p ps Hps) as (Hstat & _). rewrite Hst in Hstat.
  pose proof (first_packet d1 p ps max_len Hps Hm) as Hfirst. cbv zeta in Hfirst. rewrite Hst in Hfirst.
  cbn [edge_free] in He. apply andb_prop in He as [Hne He]. apply negb_true_iff in Hne.
  pose proof (release_first d1 p ps Hps) as Hrel. cbv zeta in Hrel. rewrite Hst in Hrel. specialize (Hrel Hne).
  io_step. exists (rx_buffer d1), d1. split; [done|]. cbn beta. rewrite Ho, Hstat.
  io_step. io_step. cbn [rx_read_offset io_base set_offset]. rewrite Hb.
  destruct Hrel as (Hps' & Hst' & Hcard). cbn [deliver].
  destruct (flag (pk_status p) 1) eqn:Hg.
  - destruct Hfirst as (Hlen & Hpos & ->). rewrite Hlen in *. rewrite Z.gtb_ltb, (proj2 (Z.ltb_lt _ _) Hpos).
    io_step. by rewrite Hps', Hst'.
  - cbn [Z.gtb Z.compare]. eapply wp_mono.
    + apply IH; [done|by rewrite Hst'| |done|rewrite Hps'; cbn in Hf; lia]. by rewrite Hps', Hst', Hcard.
    + intros [r' frame] d2. rewrite Hps'. done.
Qed.

End Reception.

(** ** Transmission *)

(** The frame as it goes out: cut to the buffer and padded to the minimum. *)
Definition on_wire (frame : list Z) : list Z :=
  let f := take (Z.to_nat TX_BUFFER_SIZE) frame in
  f ++ replicate (Z.to_nat RTL8139_MIN_FRAME_SIZE - length f) 0.

Lemma on_wire_length frame :
  60 <= Z.of_nat (length (on_wire frame)) <= TX_BUFFER_SIZE.
Proof.
  unfold on_wire, TX_BUFFER_SIZE, RTL8139_MIN_FRAME_SIZE. rewrite length_app, length_replicate, length_take. lia.
Qed.

Lemma take_splice_0 l x : (length x <= length l)%nat -> take (length x) (splice l 0 x) = x.
Proof. intros H. rewrite <- (drop_0 (splice l 0 x)). by apply splice_take_drop. Qed.

Lemma tx_fill_spec tx frame : Z.of_nat (length tx) = TX_BUFFER_SIZE ->
  let '(tx', n) := tx_fill tx frame in
  n = Z.of_nat (length (on_wire frame)) /\ length tx' = length tx /\ take (Z.to_nat n) tx' = on_wire frame.
Proof.
  intros Hl. unfold tx_fill, on_wire, TX_BUFFER_SIZE, RTL8139_MIN_FRAME_SIZE in *.
  rewrite Z.gtb_ltb. set (n := if 1514 <? Z.of_nat (length frame) then 1514 else Z.of_nat (length frame)).
  assert (Hn : n = Z.min 1514 (Z.of_nat (length frame))) by (unfold n; case_if; lia). rewrite Hn.
  set (f := take (Z.to_nat 1514) frame).
  assert (Hf : take (Z.to_nat (Z.min 1514 (Z.of_nat (length frame)))) frame = f).
  { unfold f. destruct (decide (1514 <= length frame)%nat).
    - by rewrite Z.min_l by lia.
    - rewrite Z.min_r by lia. rewrite Nat2Z.id, !take_ge by lia. done. }
  rewrite Hf. assert (Hfl : Z.of_nat (length f) = Z.min 1514 (Z.of_nat (length frame))).
  { unfold f. rewrite length_take. lia. }
  rewrite <- Hfl, Nat2Z.id. assert (Hs : length (splice tx 0 f) = length tx) by (apply splice_length; lia).
  case_if.
  - replace (Z.to_nat (60 - Z.of_nat (length f))) with (Z.to_nat 60 - length f)%nat by lia.
    set (z := replicate _ 0). assert (Hz : length z = (60 - length f)%nat) by (unfold z; rewrite length_replicate; lia).
    split; [rewrite length_app; lia|].
    split; [rewrite splice_length; lia|].
    replace (Z.to_nat 60) with (length f + length z)%nat by lia. rewrite take_splice_end by lia.
    by rewrite take_splice_0 by lia.
  - replace (Z.to_nat 60 - length f)%nat with O by lia. cbn [replicate]. rewrite app_nil_r, Nat2Z.id.
    split; [done|]. split; [done|]. apply take_splice_0. lia.
Qed.

(** The timer has not reached the limit at the [i]-th reading. *)
Definition in_time (ticks : nat -> Z) (max_ticks : Z) (i : nat) : Prop :=
  s32 (u32 (ticks i - ticks O)) < s32 max_ticks.

Section Transmission.
Context {D : Type} `{HP : Ports D} `{HD : Dma D} (base : Z) `{HC : !RtlCard D base}.

Lemma tx_wait_done i max_ticks ticks fuel : 0 <= i < 4 -> forall (d : D) k iter,
  Z.of_nat (tx_left d i) <= iter -> (tx_left d i < fuel)%nat ->
  (forall j, (k <= j < k + tx_left d i)%nat -> in_time ticks max_ticks j) ->
  wp (tx_wait fuel ticks k iter (base + (RTL_REG_TSD0 + i * 4)) (ticks O) max_ticks) d
    (fun _ d' => tx_left d' i = O /\ tx_sent d' = tx_sent d).
Proof.
  intros Hi. induction fuel as [|fuel IH]; intros d k iter Hit Hf Ht; [lia|]. cbn [tx_wait].
  io_step. io_step. destruct (card_tsd_read d i Hi) as [Hs Hleft].
  destruct (tx_left d i) as [|n] eqn:En.
  - destruct Hleft as (-> & _ & Hl). io_step. done.
  - destruct Hleft as [-> Hl]. assert (Hk : in_time ticks max_ticks k) by (apply Ht; lia).
    unfold in_time in Hk. rewrite Z.geb_leb, (proj2 (Z.leb_gt _ _) Hk), (proj2 (Z.eqb_neq iter 0)) by lia.
    eapply wp_mono; [apply IH; rewrite Hl; [lia|lia|]|].
    + intros j Hj. apply Ht. lia.
    + intros [] d' [? ->]. done.
Qed.

(** Transmission puts the frame on the wire: cut to the 1514 bytes of the
    buffer and padded with zeros to 60, it is appended to what the card has
    sent, through the next of the four descriptors, and the driver reports
    success.  The card must complete within the limits the driver allows. *)
Theorem rtl8139_send_delivers (d : D) r fuel freq ticks frame :
  present r = true -> io_base r = base -> 0 <= tx_desc_index r < 4 ->
  Z.of_nat tx_bound <= RTL8139_TX_TIMEOUT_ITER_FALLBACK -> (tx_bound < fuel)%nat ->
  (forall j, (j <= tx_bound)%nat ->
     in_time ticks (u32 (RTL8139_TX_TIMEOUT_MS * (if freq =? 0 then 100 else freq)) / 1000) j) ->
  wp (rtl8139_send_frame fuel freq ticks r frame) d (fun '(msg, r', ok) d' =>
    ok = true /\ tx_sent d' = tx_sent d ++ [on_wire frame] /\
    tx_desc_index r' = (tx_desc_index r + 1) mod 4 /\ rtl_mac r' = rtl_mac r).
Proof.
  intros Hp Hb Hi Hbound Hf Ht. unfold rtl8139_send_frame. rewrite Hp. cbn [negb].
  pose proof (tx_fill_spec (tx_buffer d) frame (card_tx_size d)) as Hfill.
  io_step. destruct (tx_fill (tx_buffer d) frame) as [tx n] eqn:Etx. destruct Hfill as (Hn & Hlen & Htake).
  exists n, (set_tx_buffer d tx). rewrite Etx. split; [done|]. cbn beta.
  cbn [io_base set_desc]. rewrite Hb, u16_small by (unfold is_u16; lia).
  destruct (card_set_tx d tx Hlen) as [Hbuf Hsent].
  set (i := tx_desc_index r) in *. io_step. io_step.
  destruct (card_tsad (set_tx_buffer d tx) i tx_addr Hi) as (Ha & Hs1 & Hb1). set (d1 := outl _ _ tx_addr) in *.
  io_step. io_step. pose proof (on_wire_length frame).
  destruct (card_tsd d1 i n Hi Ha) as (Hs2 & Hl2); [lia|]. set (d2 := outl d1 _ n) in *.
  rewrite Hb1, Hbuf, Htake, Hs1, Hsent in Hs2.
  io_step. eapply wp_mono.
  { apply tx_wait_done; [done|lia|lia|]. intros j Hj. apply Ht. lia. }
  intros [] d3 [Hl3 Hs3]. io_step. io_step.
  destruct (card_tsd_read d3 i Hi) as [Hs4 Hr]. rewrite Hl3 in Hr. destruct Hr as (-> & _ & Hl4). cbn [negb].
  set (d4 := (inl d3 _).2) in *. io_step. io_step.
  destruct (card_tsd_read d4 i Hi) as [Hs5 Hr]. rewrite Hl4 in Hr. destruct Hr as (_ & -> & _).
  io_step. split; [done|]. split; [congruence|]. done.
Qed.
End Transmission.

(** ** A card that does not answer *)
Section Bounded.
Context {D : Type} `{HP : Ports D} `{HD : Dma D}.

Lemma tx_wait_returns fuel : forall ticks k iter reg start max_ticks (d : D),
  0 <= iter -> iter < Z.of_nat fuel -> wp (tx_wait fuel ticks k iter reg start max_ticks) d (fun _ _ => True).
Proof.
  induction fuel as [|fuel IH]; intros ticks k iter reg start max_ticks d Hi Hf; [lia|]. cbn [tx_wait].
  io_step. io_step. case_if; [by io_step|]. case_if; [by io_step|]. case_if; [by io_step|].
  apply IH; lia.
Qed.

(** Whatever the card does, sending ends after at most 50,000,001 polls of
    the descriptor's status; when the card never hands the descriptor back,
    the driver reports the timeout as a failure and moves on to the next
    descriptor. *)
Theorem rtl8139_send_bounded (d : D) r fuel freq ticks frame :
  present r = true -> RTL8139_TX_TIMEOUT_ITER_FALLBACK < Z.of_nat fuel ->
  wp (rtl8139_send_frame fuel freq ticks r frame) d (fun '(msg, r', ok) d' =>
    tx_desc_index r' = (tx_desc_index r + 1) mod 4 /\
    ((forall d0, flag (inl d0 (io_base r + (RTL_REG_TSD0 + u16 (tx_desc_index r * 4)))).1 RTL_TSD_OWN = false) ->
     ok = false /\ msg = [TLn "RTL8139: TX timed out"])).
Proof.
  intros Hp Hf. unfold rtl8139_send_frame. rewrite Hp. cbn [negb].
  io_step. destruct (tx_fill (tx_buffer d) frame) as [tx n] eqn:Etx.
  exists n, (set_tx_buffer d tx). rewrite Etx. split; [done|]. cbn beta. cbn [io_base set_desc].
  io_step. io_step. io_step. io_step.
  io_step. eapply wp_mono; [apply tx_wait_returns; [done|exact Hf]|]. intros [] d1 _.
  io_step. io_step. destruct (flag _ RTL_TSD_OWN) eqn:E; cbn [negb].
  - io_step. io_step. destruct (flag _ RTL_TSD_TOK); io_step; (split; [done|]); intros Hn;
      by rewrite Hn in E.
  - io_step. done.
Qed.

(** What reception returns always fits the caller's buffer and consists of
    bytes of the ring. *)
Lemma receive_loop_fits fuel : forall (d d' : D) r r' max_len frame,
  (forall d, Forall is_byte (rx_buffer d)) ->
  receive_loop fuel r max_len d = OK ((r', frame), d') ->
  (0 <= max_len -> Z.of_nat (length frame) <= max_len) /\ Forall is_byte frame.
Proof.
  induction fuel as [|fuel IH]; intros d d' r r' max_len frame Hb; cbn [receive_loop]; [done|].
  unfold io_bind, in8, io_ret, out16. destruct (inb d _) as [cr d1].
  case_if; [intros [= <- <- <-]; cbn; split; [done|constructor]|].
  set (n := if flag _ 1 then _ else _). case_if.
  - intros [= <- <- <-]. split; [intros Hm|apply copy_out_bytes; auto]. rewrite length_copy_out by lia.
    unfold n in *. repeat case_if; lia.
  - by apply IH.
Qed.
End Bounded.

(** ** The driver as the network card of the protocols *)
Section Interface.
Context {D : Type} `{HP : Ports D} `{HD : Dma D} (base : Z) `{HC : !RtlCard D base}.
Context (fuel : nat) (freq : Z) (ticks : nat -> Z).

(** The driver over its card, once an address was read. *)
Record nic := mk_nic { n_dev : D; n_drv : rtl; n_addr : mac_addr (rtl_mac n_drv) }.

(** No operation changes the address. *)
Definition keep_mac (r r' : rtl) : rtl :=
  mk_rtl (io_base r') (rtl_mac r) (present r') (rx_read_offset r') (tx_desc_index r').

Lemma send_keeps_mac r frame (d d' : D) msg r' ok :
  rtl8139_send_frame fuel freq ticks r frame d = OK ((msg, r', ok), d') -> keep_mac r r' = r'.
Proof.
  unfold rtl8139_send_frame. destruct (present r) eqn:Ep; cbn [negb]; [|intros [= _ <- _ _]; by destruct r].
  unfold io_bind at 1. destruct (tx_fill _ _) as [tx n]. unfold io_bind, out32, in32, io_ret.
  destruct (tx_wait _ _ _ _ _ _ _ _) as [[[] d1]| |]; [|done..]. destruct (inl d1 _) as [v d2].
  case_if; [intros [= _ <- _ _]; by destruct r|]. destruct (inl d2 _) as [v' d3].
  case_if; intros [= _ <- _ _]; by destruct r.
Qed.

Lemma receive_keeps_mac r max_len (d d' : D) r' frame :
  rtl8139_receive_packet fuel r max_len d = OK ((r', frame), d') -> keep_mac r r' = r'.
Proof.
  unfold rtl8139_receive_packet. destruct (present r); cbn [negb]; [|intros [= <- _ _]; by destruct r].
  assert (Hg : forall k r d, receive_loop k r max_len d = OK ((r', frame), d') -> rtl_mac r' = rtl_mac r).
  { induction k as [|k IH]; intros r0 d0; cbn [receive_loop]; [done|].
    unfold io_bind, in8, io_ret, out16. destruct (inb d0 _) as [cr d1].
    case_if; [by intros [= <- _ _]|]. case_if; [by intros [= <- _ _]|]. intros E. by apply IH in E. }
  intros E. apply Hg in E. unfold keep_mac. rewrite <- E. by destruct r'.
Qed.

#[export] Instance rtl_nic : Nic nic := {
  nic_mac n := rtl_mac (n_drv n);
  nic_send n f :=
    match rtl8139_send_frame fuel freq ticks (n_drv n) f (n_dev n) with
    | OK ((_, r', ok), d') => (mk_nic d' (keep_mac (n_drv n) r') (n_addr n), ok)
    | _ => (n, false)
    end;
  nic_receive n len :=
    match rtl8139_receive_packet fuel (n_drv n) len (n_dev n) with
    | OK ((r', f), d') => (mk_nic d' (keep_mac (n_drv n) r') (n_addr n), f)
    | _ => (n, [])
    end }.

(** The driver keeps what the protocols rely on. *)
#[export] Instance rtl_nic_laws : NicLaws nic.
Proof.
  split.
  - intros n. apply n_addr.
  - intros n f. cbn. by destruct (rtl8139_send_frame _ _ _ _ _ _) as [[[[? ?] ?] ?]| |].
  - intros n len. cbn. by destruct (rtl8139_receive_packet _ _ _ _) as [[[? ?] ?]| |].
  - intros n len Hl. cbn. destruct (rtl8139_receive_packet _ _ _ _) as [[[r' f] d']| |] eqn:E; cbn; [|lia..].
    revert E. unfold rtl8139_receive_packet. case_if; [intros [= <- <- <-]; cbn; lia|].
    intros E. apply receive_loop_fits in E as [Hfit _]; [by apply Hfit|apply card_bytes].
  - intros n len. cbn. destruct (rtl8139_receive_packet _ _ _ _) as [[[r' f] d']| |] eqn:E; cbn; [|constructor..].
    revert E. unfold rtl8139_receive_packet. case_if; [intros [= <- <- <-]; constructor|].
    intros E. apply receive_loop_fits in E as [_ Hby]; [done|apply card_bytes].
Qed.
End Interface.

(** ** A card

    A card at port [base] that keeps its queue and what it sent, and takes
    [delay] status reads to send a frame.  Its projections normalise the
    state, so that every state is one of a working card. *)
#[export] Instance packet_ok_dec p : Decision (packet_ok p).
Proof. unfold packet_ok. apply _. Defined.

Record sim_card (base : Z) (delay : nat) := mk_sim {
  sc_queue : list packet; sc_dword : Z; sc_out : list (list Z);
  sc_desc : list Z; sc_left : list nat; sc_tx : list Z }.
Arguments mk_sim {base delay}.
Arguments sc_queue {base delay}.
Arguments sc_dword {base delay}.
Arguments sc_out {base delay}.
Arguments sc_desc {base delay}.
Arguments sc_left {base delay}.
Arguments sc_tx {base delay}.

Section Sim.
Context {base : Z} {delay : nat}.
Abbreviation card := (sim_card base delay).

Definition sim_pending (d : card) : list packet := filter packet_ok (sc_queue d).
Definition sim_start (d : card) : Z := sc_dword d mod 2048 * 4.
Definition sim_packet (p : packet) : list Z :=
  put_le16 (pk_status p) ++ put_le16 (Z.of_nat (length (pk_data p))) ++ pk_data p.
Definition sim_rx (d : card) : list Z :=
  let zeros := replicate (Z.to_nat RTL8139_RX_BUFFER_SIZE) 0 in
  match sim_pending d with
  | [] => zeros
  | p :: _ => splice zeros (Z.to_nat (sim_start d)) (sim_packet p)
  end.
Definition sim_tx (d : card) : list Z := resize 1514 0 (sc_tx d).
Definition sim_desc (d : card) (i : Z) : Z := default 0 (sc_desc d !! Z.to_nat i).
Definition sim_left (d : card) (i : Z) : nat := default O (sc_left d !! Z.to_nat i).
Definition set4 {A} (x : A) (l : list A) (i : Z) (v : A) : list A :=
  <[Z.to_nat i := v]> (resize 4 x l).

#[export] Instance sim_ports : Ports card := {
  inb d p := (if p - base =? RTL_REG_CR then (if sim_pending d is [] then 1 else 0) else 0, d);
  outb d p x := d;
  inw d p := (0, d);
  outw d p v :=
    if p - base =? RTL_REG_CAPR then
      match sim_pending d with
      | q :: rest =>
          if (v + 16) mod RTL8139_RX_RING_SIZE =? card_next (sim_start d) q
          then mk_sim rest (card_next (sim_start d) q / 4) (sc_out d) (sc_desc d) (sc_left d) (sc_tx d)
          else d
      | [] => d
      end
    else d;
  inl d p :=
    let i := (p - base - RTL_REG_TSD0) / 4 in
    match sim_left d i with
    | O => (RTL_TSD_OWN + RTL_TSD_TOK, d)
    | S n => (0, mk_sim (sc_queue d) (sc_dword d) (sc_out d) (sc_desc d) (set4 O (sc_left d) i n) (sc_tx d))
    end;
  outl d p x :=
    let r := p - base in
    if RTL_REG_TSAD0 <=? r then
      mk_sim (sc_queue d) (sc_dword d) (sc_out d) (set4 0 (sc_desc d) ((r - RTL_REG_TSAD0) / 4) x) (sc_left d) (sc_tx d)
    else
      mk_sim (sc_queue d) (sc_dword d) (sc_out d ++ [take (Z.to_nat x) (sim_tx d)]) (sc_desc d)
        (set4 O (sc_left d) ((r - RTL_REG_TSD0) / 4) delay) (sc_tx d) }.

#[export] Instance sim_dma : Dma card := {
  rx_addr := 1048576; tx_addr := 1060864;
  rx_buffer := sim_rx; tx_buffer := sim_tx;
  set_tx_buffer d tx := mk_sim (sc_queue d) (sc_dword d) (sc_out d) (sc_desc d) (sc_left d) tx }.

Lemma filter_all (ps : list packet) : Forall packet_ok ps -> filter packet_ok ps = ps.
Proof. induction 1 as [|p ps Hp _ IH]; [done|]. rewrite filter_cons_True by done. by rewrite IH. Qed.

Lemma set4_get {A} (x : A) l i v : 0 <= i < 4 -> set4 x l i v !! Z.to_nat i = Some v.
Proof. intros Hi. unfold set4. apply list_lookup_insert_eq. rewrite length_resize. lia. Qed.

Lemma sim_queue_ok (d : card) : Forall packet_ok (sim_pending d).
Proof. apply Forall_forall. intros p Hp. by apply list_elem_of_filter in Hp as [? _]. Qed.

Lemma sim_start_ok (d : card) : 0 <= sim_start d < RTL8139_RX_RING_SIZE /\ sim_start d mod 4 = 0.
Proof. unfold sim_start, RTL8139_RX_RING_SIZE. dlia. Qed.

Lemma sim_packet_bytes p : packet_ok p -> Forall is_byte (sim_packet p).
Proof. intros (_ & _ & Hb). unfold sim_packet. rewrite !Forall_app. auto with harold. Qed.

Lemma sim_rx_bytes (d : card) : Forall is_byte (sim_rx d).
Proof.
  assert (Hz : forall n, Forall is_byte (replicate n 0)).
  { intros n. apply Forall_replicate. unfold is_byte. lia. }
  unfold sim_rx. pose proof (sim_queue_ok d) as Hq. destruct (sim_pending d) as [|p ps]; [apply Hz|].
  apply splice_bytes; [apply Hz|]. apply sim_packet_bytes. by apply Forall_cons_1 in Hq as [? _].
Qed.

Lemma sim_layout (d : card) p rest : sim_pending d = p :: rest ->
  get_le16 (sim_rx d) (sim_start d) = pk_status p /\
  get_le16 (sim_rx d) (sim_start d + 2) = Z.of_nat (length (pk_data p)) /\
  copy_out (sim_rx d) (sim_start d + 4) (Z.of_nat (length (pk_data p))) = pk_data p.
Proof.
  intros Hp. pose proof (sim_queue_ok d) as Hq. rewrite Hp in Hq. apply Forall_cons_1 in Hq as [Hok _].
  destruct (sim_start_ok d) as [Hs Hs4]. pose proof (rx_in_bounds _ _ Hok Hs Hs4) as Hb.
  destruct Hok as (Hst & Hl & Hbytes). unfold sim_rx. rewrite Hp. set (o := sim_start d) in *.
  assert (Hlen : length (sim_packet p) = (4 + length (pk_data p))%nat) by done.
  assert (Hget : forall k, 0 <= k < Z.of_nat (length (sim_packet p)) ->
    byte_at (splice (replicate (Z.to_nat RTL8139_RX_BUFFER_SIZE) 0) (Z.to_nat o) (sim_packet p)) (o + k)
      = byte_at (sim_packet p) k).
  { intros k Hk. rewrite byte_at_splice_in; [f_equal; lia|rewrite length_replicate, Hlen; unfold RTL8139_RX_BUFFER_SIZE in *; lia|lia]. }
  pose proof (Hget 0 ltac:(lia)) as H0. rewrite Z.add_0_r in H0.
  unfold get_le16. rewrite H0, <- !Z.add_assoc. rewrite !Hget by lia.
  split; [by apply le16_put|]. split; [apply le16_put; unfold is_u16; lia|].
  unfold copy_out. apply list_eq. intros i. rewrite list_lookup_fmap.
  destruct (decide (i < length (pk_data p))%nat) as [Hi|Hi].
  - rewrite lookup_seqZ_lt by lia. cbn [fmap option_fmap option_map]. rewrite <- Z.add_assoc, Hget by lia.
    unfold byte_at. replace (Z.to_nat (4 + (0 + Z.of_nat i))) with (4 + i)%nat by lia.
    change (sim_packet p !! (4 + i)%nat) with (pk_data p !! i).
    destruct (lookup_lt_is_Some_2 (pk_data p) i Hi) as [x ->]. done.
  - rewrite lookup_seqZ_ge by lia. symmetry. apply lookup_ge_None. lia.
Qed.
End Sim.

#[export] Instance sim_rtl base delay : RtlCard (sim_card base delay) base.
Proof.
  refine {| rx_pending := sim_pending; rx_start := sim_start; tx_sent := sc_out; tx_desc := sim_desc;
            tx_left := sim_left; tx_bound := delay |}; cbn [inb inw inl outb outw outl sim_ports rx_buffer
            tx_buffer set_tx_buffer sim_dma].
  - apply sim_start_ok.
  - apply sim_queue_ok.
  - apply sim_rx_bytes.
  - apply sim_layout.
  - intros d. replace (base + RTL_REG_CR - base) with RTL_REG_CR by lia. cbn.
    split; [|done]. by destruct (sim_pending d).
  - intros d p rest v Hp Hv. replace (base + RTL_REG_CAPR - base) with RTL_REG_CAPR by lia. cbn [Z.eqb Pos.eqb RTL_REG_CAPR].
    rewrite Hp, Hv, Z.eqb_refl. pose proof (sim_queue_ok d) as Hq. rewrite Hp in Hq.
    apply Forall_cons_1 in Hq as [_ Hq]. split.
    + unfold sim_pending. cbn. by apply filter_all.
    + unfold sim_start at 1. cbn. pose proof (card_next_range (sim_start d) p).
      assert (card_next (sim_start d) p mod 4 = 0) by (unfold card_next, RTL8139_RX_RING_SIZE; dlia).
      unfold RTL8139_RX_RING_SIZE in *. dlia.
  - intros d i a Hi. replace (base + (RTL_REG_TSAD0 + i * 4) - base) with (RTL_REG_TSAD0 + i * 4) by lia.
    rewrite (proj2 (Z.leb_le _ _)) by lia. replace ((RTL_REG_TSAD0 + i * 4 - RTL_REG_TSAD0) / 4) with i by dlia.
    split; [|done]. unfold sim_desc. cbn. by rewrite set4_get.
  - intros d i n Hi Ha Hn. replace (base + (RTL_REG_TSD0 + i * 4) - base) with (RTL_REG_TSD0 + i * 4) by lia.
    rewrite (proj2 (Z.leb_gt _ _)) by (unfold RTL_REG_TSAD0, RTL_REG_TSD0; lia).
    replace ((RTL_REG_TSD0 + i * 4 - RTL_REG_TSD0) / 4) with i by dlia.
    split; [done|]. unfold sim_left. cbn. by rewrite set4_get.
  - intros d i Hi. replace ((base + (RTL_REG_TSD0 + i * 4) - base - RTL_REG_TSD0) / 4) with i by dlia.
    destruct (sim_left d i) as [|n] eqn:E; cbn; [by rewrite E|].
    split; [done|]. split; [done|]. unfold sim_left. cbn. by rewrite set4_get.
  - intros d tx Hl. unfold sim_tx in *. cbn. rewrite length_resize in Hl. split; [|done].
    by rewrite resize_all_alt by done.
  - intros d. unfold sim_tx. by rewrite length_resize.
Defined.

(** ** Witnesses *)
Definition sim_addr : list Z := [82; 84; 0; 18; 52; 86].
Definition sim_driver : rtl := mk_rtl 49152 sim_addr true 0 3.
Definition runt (n : nat) : packet := mk_packet 1 (replicate n 170).
Definition sim_state : sim_card 49152 4 :=
  mk_sim [mk_packet 32 (replicate 80 1); runt 64; runt 100] 0 [] [] [] [].


Lemma rtl8139_send_delivers_witness :
  wp (rtl8139_send_frame 10 100 (fun i => 7 + Z.of_nat i) sim_driver [1; 2; 3]) sim_state (fun '(msg, r', ok) d' =>
    ok = true /\ sc_out d' = [[1; 2; 3] ++ replicate 57 0] /\ tx_desc_index r' = 0).
Proof.
  eapply wp_mono.
  { apply (rtl8139_send_delivers 49152 sim_state sim_driver 10 100 (fun i => 7 + Z.of_nat i) [1; 2; 3]);
      [done|done|cbn; lia|cbn; unfold RTL8139_TX_TIMEOUT_ITER_FALLBACK; lia|cbn; lia|].
    intros j Hj. cbn in Hj. do 5 (destruct j as [|j]; [vm_compute; reflexivity|]). lia. }
  intros [[msg r'] ok] d' (-> & Hs & -> & _). split; [done|]. split; [exact Hs|done].
Defined.

(** A device that answers every access with zeros. *)
Definition dead_ports : Ports (list Z) := {|
  inb d p := (0, d); outb d p x := d; inw d p := (0, d); outw d p x := d; inl d p := (0, d); outl d p x := d |}.
Definition dead_dma : Dma (list Z) := {|
  rx_addr := 0; tx_addr := 0; rx_buffer d := []; tx_buffer d := d; set_tx_buffer d tx := tx |}.

Lemma rtl8139_send_bounded_witness :
  wp (@rtl8139_send_frame _ dead_ports dead_dma (Z.to_nat 50000001) 0 (fun _ => 0) sim_driver [1; 2; 3]) []
    (fun '(msg, r', ok) _ => ok = false /\ msg = [TLn "RTL8139: TX timed out"]).
Proof.
  eapply wp_mono.
  { apply (@rtl8139_send_bounded _ dead_ports dead_dma [] sim_driver (Z.to_nat 50000001) 0 (fun _ => 0) [1; 2; 3]);
      [done|unfold RTL8139_TX_TIMEOUT_ITER_FALLBACK; lia]. }
  intros [[msg r'] ok] d' [_ Hd]. apply Hd. done.
Defined.

(** A packet that ends exactly at byte 8192: the card continues at offset 0,
    the driver at 8192, and the two no longer agree. *)
Definition edge_state : sim_card 49152 0 := mk_sim [runt 124; runt 64] 2016 [] [] [] [].
Definition offsets_after (r : rtl) (d : sim_card 49152 0) : option (Z * Z) :=
  match rtl8139_receive_packet 4 r 1514 d with
  | OK ((r', _), d') => Some (rx_read_offset r', sim_start d')
  | _ => None
  end.
Example ring_end_out_of_step :
  offsets_after (set_offset sim_driver 8064) edge_state = Some (8192, 0).
Proof. vm_compute. reflexivity. Qed.

(** A maximal frame (1514 bytes and its checksum) that starts in the last
    dword of the ring runs past the end of the receive buffer. *)
Example rx_buffer_too_short :
  8188 + 4 + Z.of_nat (length (pk_data (runt 1518))) = RTL8139_RX_BUFFER_SIZE + 2.
Proof. vm_compute. reflexivity. Qed.
