(* ===== verification/Udp.v ===== *)
(** * UDP (src/src/udp.c)

    Datagrams with their pseudo-header checksum, the echo service and the
    one-shot capture that a synchronous request/reply exchange waits on. *)
From S2P Require Import Prelude Ip.

Definition UDP_HEADER_LEN : Z := 8.
Definition UDP_ECHO_PORT : Z := 7.
Definition UDP_CAPTURE_BUF_SIZE : Z := 512.

(** The capture state. *)
Record udp := mk_udp {
  capture_armed : bool;
  capture_port : Z;
  capture_ready : bool;
  capture_buf : list Z;
  capture_len : Z;
  capture_source_ip : list Z }.

Definition udp_boot : udp :=
  mk_udp false 0 false (replicate (Z.to_nat UDP_CAPTURE_BUF_SIZE) 0) 0 [0; 0; 0; 0].

(** ** Sending *)
Definition udp_pseudo (src dst : list Z) (udp_len : Z) : list Z :=
  src ++ dst ++ [0; 17] ++ put_be16 udp_len.

Definition udp_datagram (c : ip_config) (source_port dest_port : Z) (dest_ip payload : list Z) : list Z :=
  let payload := take 1472 payload in
  let udp_len := u16 (UDP_HEADER_LEN + Z.of_nat (length payload)) in
  let hdr csum := put_be16 source_port ++ put_be16 dest_port ++ put_be16 udp_len ++ put_be16 csum in
  let csum := ip_checksum (udp_pseudo (our_ip c) dest_ip udp_len ++ hdr 0 ++ payload) in
  let csum := if csum =? 0 then 65535 else csum in
  hdr csum ++ payload.

Definition udp_send (c : ip_config) (our_mac : list Z) (source_port dest_port : Z)
    (dest_ip dest_mac payload : list Z) : list Z :=
  ip_send c our_mac 17 dest_ip dest_mac (udp_datagram c source_port dest_port dest_ip payload).

(** ** Receiving *)
Definition udp_receive (u : udp) (c : ip_config) (our_mac source_ip source_mac udp_data : list Z)
    : list tty * list (list Z) * udp :=
  if Z.of_nat (length udp_data) <? UDP_HEADER_LEN then ([], [], u)
  else
    let source_port := get_be16 udp_data 0 in
    let dest_port := get_be16 udp_data 2 in
    let payload := drop 8 udp_data in
    if capture_armed u && (dest_port =? capture_port u) then
      let copy := take (Z.to_nat UDP_CAPTURE_BUF_SIZE) payload in
      ([], [], mk_udp false (capture_port u) true (splice (capture_buf u) 0 copy)
                 (Z.of_nat (length copy)) source_ip)
    else if dest_port =? UDP_ECHO_PORT then
      ([TLn "UDP: echo reply sent"], [udp_send c our_mac UDP_ECHO_PORT source_port source_ip source_mac payload], u)
    else ([], [], u).

(** ** Waiting for a reply *)
Definition udp_arm_response_capture (u : udp) (local_port : Z) : udp :=
  mk_udp true local_port false (capture_buf u) (capture_len u) (capture_source_ip u).

Definition disarm (u : udp) : udp :=
  mk_udp false (capture_port u) (capture_ready u) (capture_buf u) (capture_len u) (capture_source_ip u).

Inductive wait_result :=
| WGot (data source_ip : list Z)
| WTimeout
| WBlocked.  (* still halted when the given interrupts are used up *)

(** [udp_wait_for_response] from tick [start]: each turn of the loop looks at
    the capture and the clock and halts; an interrupt then changes the capture
    state (the network task runs) and the clock. *)
Fixpoint udp_wait (u : udp) (buf_size start timeout now : Z) (interrupts : list (Z * (udp -> udp)))
    : udp * wait_result :=
  if capture_ready u then
    let copy_len := if buf_size <? capture_len u then u16 buf_size else capture_len u in
    (disarm u, WGot (take (Z.to_nat copy_len) (capture_buf u)) (capture_source_ip u))
  else if timeout <=? u32 (now - start) then (disarm u, WTimeout)
  else match interrupts with
       | [] => (u, WBlocked)
       | (now', f) :: rest => udp_wait (f u) buf_size start timeout now' rest
       end.

(** ** Delivery *)
Lemma datagram_explicit c sp dp dest payload :
  ipv4 (our_ip c) -> ipv4 dest -> is_u16 sp -> is_u16 dp -> Forall is_byte payload ->
  Z.of_nat (length payload) <= 1472 ->
  exists c1 c2, udp_datagram c sp dp dest payload =
    [sp / 256; sp mod 256; dp / 256; dp mod 256;
     (8 + Z.of_nat (length payload)) / 256; (8 + Z.of_nat (length payload)) mod 256; c1; c2] ++ payload /\
  is_byte c1 /\ is_byte c2 /\
  ip_checksum (udp_pseudo (our_ip c) dest (8 + Z.of_nat (length payload))
               ++ udp_datagram c sp dp dest payload) = 0.
Proof.
  intros Hs Hd Hsp Hdp Hb Hl. unfold udp_datagram, UDP_HEADER_LEN. rewrite take_ge by lia.
  rewrite (u16_small (8 + _)) by (unfold is_u16; lia).
  set (len := 8 + Z.of_nat (length payload)). assert (Hlen : is_u16 len) by (unfold is_u16; lia).
  set (pre := udp_pseudo (our_ip c) dest len ++ put_be16 sp ++ put_be16 dp ++ put_be16 len).
  replace (udp_pseudo (our_ip c) dest len ++
    (put_be16 sp ++ put_be16 dp ++ put_be16 len ++ put_be16 0) ++ payload)
    with (pre ++ [0; 0] ++ payload) by (unfold pre; by rewrite <- !app_assoc).
  set (cs0 := ip_checksum (pre ++ [0; 0] ++ payload)). set (cs := if cs0 =? 0 then 65535 else cs0).
  assert (Hcs : is_u16 cs).
  { unfold cs. case_if; [unfold is_u16; lia|]. apply ip_checksum_u16. }
  exists (cs / 256), (cs mod 256).
  split; [by rewrite !put_be16_eq|].
  split; [unfold is_u16, is_byte in *; dlia|]. split; [unfold is_u16, is_byte in *; dlia|].
  replace (udp_pseudo (our_ip c) dest len ++
    (put_be16 sp ++ put_be16 dp ++ put_be16 len ++ put_be16 cs) ++ payload)
    with (pre ++ put_be16 cs ++ payload) by (unfold pre; by rewrite <- !app_assoc).
  assert (Hpre : length pre = 18%nat).
  { unfold pre, udp_pseudo. rewrite !length_app, (proj1 Hs), (proj1 Hd). done. }
  apply checksum_fixes.
  - by rewrite Hpre.
  - unfold pre, udp_pseudo. rewrite !Forall_app.
    split_and!; try (apply put_be16_bytes; done); try apply Hs; try apply Hd.
    repeat constructor; unfold is_byte; lia.
  - done.
  - rewrite Hpre. lia.
  - unfold cs. fold cs0. destruct (Z.eqb_spec cs0 0); [by right|by left].
Qed.

Lemma udp_header_ports sp dp l : is_u16 sp -> is_u16 dp ->
  get_be16 ([sp / 256; sp mod 256; dp / 256; dp mod 256] ++ l) 0 = sp /\
  get_be16 ([sp / 256; sp mod 256; dp / 256; dp mod 256] ++ l) 2 = dp.
Proof. intros Hs Hd. split; [apply (get_be16_put sp 0 1)|apply (get_be16_put dp 2 3)]; done. Qed.

(** A datagram of up to 1464 bytes arrives whole. *)
Lemma udp_send_delivers c c' mac mac' sp dp payload :
  ipv4 (our_ip c) -> ipv4 (our_ip c') -> mac_addr mac -> mac_addr mac' ->
  is_u16 sp -> is_u16 dp -> Forall is_byte payload -> Z.of_nat (length payload) <= 1464 ->
  exists dg, ip_receive c' (udp_send c mac sp dp (our_ip c') mac' payload)
               = Some (mk_upcall 17 (our_ip c) mac dg) /\
    8 <= Z.of_nat (length dg) /\ get_be16 dg 0 = sp /\ get_be16 dg 2 = dp /\
    get_be16 dg 4 = Z.of_nat (length dg) /\ drop 8 dg = payload /\
    ip_checksum (udp_pseudo (our_ip c) (our_ip c') (Z.of_nat (length dg)) ++ dg) = 0.
Proof.
  intros Hs Hd Hm Hm' Hsp Hdp Hb Hl.
  destruct (datagram_explicit c sp dp (our_ip c') payload) as (c1 & c2 & E & B1 & B2 & Hck); [done..|lia|].
  exists (udp_datagram c sp dp (our_ip c') payload). unfold udp_send.
  assert (Hlen : Z.of_nat (length (udp_datagram c sp dp (our_ip c') payload)) = 8 + Z.of_nat (length payload))
    by (rewrite E; cbn [app length]; lia).
  destruct (ip_send_delivers c c' mac 17 mac' (udp_datagram c sp dp (our_ip c') payload)) as (Er & _);
    [done..|intros E0; rewrite E0 in E; done|lia|].
  rewrite Er, take_ge by lia. split; [done|]. split; [lia|]. rewrite Hlen. rewrite E in *.
  destruct (udp_header_ports sp dp ([(8 + Z.of_nat (length payload)) / 256;
    (8 + Z.of_nat (length payload)) mod 256; c1; c2] ++ payload) Hsp Hdp) as [E1 E2].
  split; [exact E1|]. split; [exact E2|]. split; [|done].
  eapply (get_be16_put _ 4 5); [unfold is_u16; lia|done..].
Qed.

Lemma udp_receive_ports u c mac sip smac dg : 8 <= Z.of_nat (length dg) ->
  udp_receive u c mac sip smac dg =
    if capture_armed u && (get_be16 dg 2 =? capture_port u) then
      ([], [], mk_udp false (capture_port u) true (splice (capture_buf u) 0 (take 512 (drop 8 dg)))
                 (Z.of_nat (length (take 512 (drop 8 dg)))) sip)
    else if get_be16 dg 2 =? 7 then
      ([TLn "UDP: echo reply sent"], [udp_send c mac 7 (get_be16 dg 0) sip smac (drop 8 dg)], u)
    else ([], [], u).
Proof. intros Hl. unfold udp_receive, UDP_HEADER_LEN. by rewrite (proj2 (Z.ltb_ge _ _) Hl). Qed.

(** What a waiter reads out of a captured datagram. *)
Lemma udp_wait_captured port buf data src size start timeout now ints :
  length buf = 512%nat -> (length data <= 512)%nat -> 0 <= size ->
  (udp_wait (mk_udp false port true (splice buf 0 data) (Z.of_nat (length data)) src)
     size start timeout now ints).2 = WGot (take (Z.to_nat size) data) src.
Proof.
  intros Hb Hd Hs. destruct ints; cbn [udp_wait capture_ready capture_len capture_buf capture_source_ip snd].
  all: f_equal; unfold splice; rewrite take_0, app_nil_l.
  all: destruct (Z.ltb_spec size (Z.of_nat (length data))).
  all: try (rewrite u16_small by (unfold is_u16; lia); by rewrite take_app_le by lia).
  all: rewrite Nat2Z.id, take_app_length, take_ge by lia; done.
Qed.

(** A datagram of up to 1464 bytes sent by one machine is handled by the
    other as its ports ask: an exchange armed on the destination port gets the
    payload (up to its 512-byte buffer) and the sender's address without
    waiting; port 7 sends back a datagram that reaches the sender with the
    ports exchanged, the same payload and a checksum that verifies; anything
    else is dropped and changes nothing. *)
Theorem udp_exchange c c' mac mac' u sp dp payload :
  ipv4 (our_ip c) -> ipv4 (our_ip c') -> mac_addr mac -> mac_addr mac' ->
  is_u16 sp -> is_u16 dp -> Forall is_byte payload -> Z.of_nat (length payload) <= 1464 ->
  length (capture_buf u) = 512%nat ->
  exists up, ip_receive c' (udp_send c mac sp dp (our_ip c') mac' payload) = Some up /\
  up_protocol up = 17 /\
  let '(msgs, frames, u') := udp_receive u c' mac' (up_source_ip up) (up_source_mac up) (up_data up) in
  if capture_armed u && (dp =? capture_port u) then
    frames = [] /\ forall size start timeout now ints, 0 <= size ->
      (udp_wait u' size start timeout now ints).2
        = WGot (take (Z.to_nat size) (take 512 payload)) (our_ip c)
  else if dp =? UDP_ECHO_PORT then
    u' = u /\ exists frame dg, frames = [frame] /\
      ip_receive c frame = Some (mk_upcall 17 (our_ip c') mac' dg) /\
      get_be16 dg 0 = UDP_ECHO_PORT /\ get_be16 dg 2 = sp /\ drop 8 dg = payload /\
      ip_checksum (udp_pseudo (our_ip c') (our_ip c) (Z.of_nat (length dg)) ++ dg) = 0
  else u' = u /\ frames = [].
Proof.
  intros Hs Hd Hm Hm' Hsp Hdp Hb Hl Hbuf.
  destruct (udp_send_delivers c c' mac mac' sp dp payload) as (dg & Er & Hdg & E1 & E2 & _ & E3 & _); [done..|].
  eexists. split; [exact Er|]. split; [done|]. cbn [up_source_ip up_source_mac up_data].
  rewrite udp_receive_ports by done. rewrite E1, E2, E3. unfold UDP_ECHO_PORT.
  destruct (capture_armed u && (dp =? capture_port u)).
  { split; [done|]. intros. apply udp_wait_captured; [done| |done]. rewrite length_take. lia. }
  destruct (dp =? 7); [|done]. split; [done|].
  destruct (udp_send_delivers c' c mac' mac 7 sp payload) as (dg' & Er' & _ & D1 & D2 & _ & D3 & D4);
    [done || (unfold is_u16; lia)..|].
  eexists _, dg'. split; [done|]. rewrite Er'. done.
Qed.

(** Waiting is bounded by the clock: once an interrupt finds the timeout
    elapsed the wait is over, whatever the network task did in between, with a
    datagram or a timeout, and the capture is disarmed. *)
Theorem udp_wait_bounded u size start timeout now ints :
  Exists (fun p => timeout <= u32 (p.1 - start)) ints ->
  let '(u', r) := udp_wait u size start timeout now ints in
  r <> WBlocked /\ capture_armed u' = false /\ (r = WTimeout -> capture_ready u' = false).
Proof.
  intros Hex. revert u now. induction Hex as [[t f] ints Ht|[t f] ints Hex IH]; intros u now; cbn [udp_wait fst] in *.
  - destruct (capture_ready u) eqn:Er; [done|]. case_if; [done|].
    destruct ints as [|[t' f'] ints]; cbn [udp_wait]; destruct (capture_ready (f u)) eqn:Er'; try done;
      rewrite (proj2 (Z.leb_le _ _) Ht); done.
  - destruct (capture_ready u) eqn:Er; [done|]. case_if; [done|]. apply IH.
Qed.

Definition host_a : ip_config := ip_set_address ip_boot [192; 0; 2; 50].
Definition host_b : ip_config := ip_set_address ip_boot [192; 0; 2; 1].

Lemma udp_exchange_witness :
  exists up, ip_receive host_b (udp_send host_a [2; 0; 0; 0; 0; 1] 4000 7 [192; 0; 2; 1]
                 [2; 0; 0; 0; 0; 2] [104; 105]) = Some up /\ up_protocol up = 17.
Proof.
  destruct (udp_exchange host_a host_b [2; 0; 0; 0; 0; 1] [2; 0; 0; 0; 0; 2] udp_boot 4000 7 [104; 105])
    as (up & E & Hp & _);
    [split; [done|repeat constructor; unfold is_byte; lia]..|unfold is_u16; lia|unfold is_u16; lia
    |repeat constructor; unfold is_byte; lia|cbn; lia|done|].
  exists up. split; [exact E|exact Hp].
Defined.

Lemma udp_wait_witness :
  udp_wait (udp_arm_response_capture udp_boot 53000) 512 10 200 10 [(100, fun u => u); (211, fun u => u)]
    = (disarm (udp_arm_response_capture udp_boot 53000), WTimeout) /\
  capture_armed (udp_wait (udp_arm_response_capture udp_boot 53000) 512 10 200 10
                   [(100, fun u => u); (211, fun u => u)]).1 = false.
Proof.
  split; [reflexivity|].
  pose proof (udp_wait_bounded (udp_arm_response_capture udp_boot 53000) 512 10 200 10
    [(100, fun u => u); (211, fun u => u)]) as H.
  destruct (udp_wait _ _ _ _ _ _) as [u' r].
  apply H. apply Exists_cons_tl, Exists_cons_hd. vm_compute. discriminate.
Defined.

(** A payload between 1465 and 1472 bytes passes the limit of [udp_send] but
    not that of [ip_send]: the datagram is cut while its length field still
    counts the lost bytes. *)
Example udp_send_truncates :
  match ip_receive host_b (udp_send host_a [2; 0; 0; 0; 0; 1] 4000 7 [192; 0; 2; 1]
                             [2; 0; 0; 0; 0; 2] (replicate 1472 65)) with
  | Some up => get_be16 (up_data up) 4 = 1480 /\ Z.of_nat (length (up_data up)) = 1472
  | None => False
  end.
Proof. vm_compute. done. Qed.
