(* ===== verification/Tcp.v ===== *)
(** * TCP (src/src/tcp.c)

    The connection table and its state machine, segments with their checksum,
    the round-trip estimator and retransmission, and the socket calls. *)
From S2P Require Import Prelude Ip.

Definition TCP_HEADER_LEN : Z := 20.
Definition TCP_TEST_PORT : Z := 7.
Definition MAX_TCP_CONNECTIONS : Z := 8.
Definition TCP_FLAG_FIN : Z := 1.
Definition TCP_FLAG_SYN : Z := 2.
Definition TCP_FLAG_RST : Z := 4.
Definition TCP_FLAG_PSH : Z := 8.
Definition TCP_FLAG_ACK : Z := 16.
Definition TCP_RTO_INITIAL_TICKS : Z := 50.
Definition TCP_RTO_MIN_TICKS : Z := 2.
Definition TCP_RTO_MAX_TICKS : Z := 200.
Definition TCP_MAX_RETRANSMITS : Z := 5.
Definition RX_BUFFER_SIZE : Z := 512.
Definition PENDING_SIZE : Z := 1460.

Inductive tcp_state := TCP_CLOSED | TCP_SYN_RECEIVED | TCP_ESTABLISHED | TCP_CLOSE_WAIT | TCP_LAST_ACK.
#[export] Instance tcp_state_eq_dec : EqDecision tcp_state.
Proof. solve_decision. Defined.

(** The fields of [struct tcp_connection], with the receive ring and the
    retransmission state grouped. *)
Record rx_ring := mk_rx { rx_buffer : list Z; rx_head : Z; rx_tail : Z }.

Record rtx := mk_rtx {
  pending_data : list Z;
  pending_len : Z;
  pending_seq : Z;
  pending_flags : Z;
  pending : bool;
  last_send_tick : Z;
  retransmit_count : Z;
  current_rto : Z;
  srtt : Z;
  rttvar : Z;
  rto : Z;
  rtt_valid : bool }.

Record tcp_connection := mk_conn {
  remote_ip : list Z;
  remote_mac : list Z;
  local_port : Z;
  remote_port : Z;
  our_seq : Z;
  their_seq : Z;
  state : tcp_state;
  rx : rx_ring;
  rx_closed : bool;
  accepted : bool;
  tx : rtx }.

Definition empty_conn : tcp_connection :=
  mk_conn [0; 0; 0; 0] [0; 0; 0; 0; 0; 0] 0 0 0 0 TCP_CLOSED
    (mk_rx (replicate (Z.to_nat RX_BUFFER_SIZE) 0) 0 0) false false
    (mk_rtx (replicate (Z.to_nat PENDING_SIZE) 0) 0 0 0 false 0 0 0 0 0 0 false).

(** The connection table. *)
Abbreviation tcp := (list tcp_connection).
Definition tcp_boot : tcp := replicate (Z.to_nat MAX_TCP_CONNECTIONS) empty_conn.
Definition conn_at (s : tcp) (i : Z) : tcp_connection := default empty_conn (s !! Z.to_nat i).
Definition set_conn (s : tcp) (i : Z) (k : tcp_connection) : tcp := <[Z.to_nat i := k]> s.

(** Assignments to groups of fields. *)
Definition with_state (k : tcp_connection) (st : tcp_state) : tcp_connection :=
  mk_conn (remote_ip k) (remote_mac k) (local_port k) (remote_port k) (our_seq k) (their_seq k) st
    (rx k) (rx_closed k) (accepted k) (tx k).
Definition with_tx (k : tcp_connection) (t : rtx) : tcp_connection :=
  mk_conn (remote_ip k) (remote_mac k) (local_port k) (remote_port k) (our_seq k) (their_seq k) (state k)
    (rx k) (rx_closed k) (accepted k) t.
Definition with_rx (k : tcp_connection) (r : rx_ring) : tcp_connection :=
  mk_conn (remote_ip k) (remote_mac k) (local_port k) (remote_port k) (our_seq k) (their_seq k) (state k)
    r (rx_closed k) (accepted k) (tx k).
Definition with_our_seq (k : tcp_connection) (s : Z) : tcp_connection :=
  mk_conn (remote_ip k) (remote_mac k) (local_port k) (remote_port k) s (their_seq k) (state k)
    (rx k) (rx_closed k) (accepted k) (tx k).
Definition with_their_seq (k : tcp_connection) (s : Z) : tcp_connection :=
  mk_conn (remote_ip k) (remote_mac k) (local_port k) (remote_port k) (our_seq k) s (state k)
    (rx k) (rx_closed k) (accepted k) (tx k).
Definition with_rx_closed (k : tcp_connection) : tcp_connection :=
  mk_conn (remote_ip k) (remote_mac k) (local_port k) (remote_port k) (our_seq k) (their_seq k) (state k)
    (rx k) true (accepted k) (tx k).
Definition with_accepted (k : tcp_connection) : tcp_connection :=
  mk_conn (remote_ip k) (remote_mac k) (local_port k) (remote_port k) (our_seq k) (their_seq k) (state k)
    (rx k) (rx_closed k) true (tx k).
Definition no_pending (t : rtx) : rtx :=
  mk_rtx (pending_data t) (pending_len t) (pending_seq t) (pending_flags t) false (last_send_tick t)
    (retransmit_count t) (current_rto t) (srtt t) (rttvar t) (rto t) (rtt_valid t).

(** ** Fields *)
Definition get_be32 (b : list Z) (i : Z) : Z :=
  Z.lor (Z.lor (Z.lor (Z.shiftl (byte_at b i) 24) (Z.shiftl (byte_at b (i + 1)) 16))
           (Z.shiftl (byte_at b (i + 2)) 8)) (byte_at b (i + 3)).
Definition put_be32 (v : Z) : list Z :=
  [Z.shiftr v 24 mod 256; Z.shiftr v 16 mod 256; Z.shiftr v 8 mod 256; Z.land v 255].

(** ** The connection table *)
Definition is_peer (s : tcp) (ip : list Z) (port : Z) (i : Z) : bool :=
  negb (bool_decide (state (conn_at s i) = TCP_CLOSED)) && (remote_port (conn_at s i) =? port)
  && bool_decide (remote_ip (conn_at s i) = ip).

Definition tcp_find_connection (s : tcp) (ip : list Z) (port : Z) : option Z :=
  find_from (is_peer s ip port) 0 (Z.to_nat MAX_TCP_CONNECTIONS).

Definition tcp_alloc_connection (s : tcp) : option Z :=
  find_from (fun i => bool_decide (state (conn_at s i) = TCP_CLOSED)) 0 (Z.to_nat MAX_TCP_CONNECTIONS).

(** ** Sending a segment *)
Definition tcp_pseudo (src dst : list Z) (tcp_len : Z) : list Z := src ++ dst ++ [0; 6] ++ put_be16 tcp_len.

Definition tcp_segment (c : ip_config) (k : tcp_connection) (flags seq ack : Z) (payload : list Z) : list Z :=
  let payload := take (Z.to_nat PENDING_SIZE) payload in
  let tcp_len := u16 (TCP_HEADER_LEN + Z.of_nat (length payload)) in
  let hdr csum := put_be16 (local_port k) ++ put_be16 (remote_port k) ++ put_be32 seq ++ put_be32 ack
                  ++ [Z.shiftl 5 4; flags] ++ put_be16 4096 ++ put_be16 csum ++ put_be16 0 in
  let csum := ip_checksum (tcp_pseudo (our_ip c) (remote_ip k) tcp_len ++ hdr 0 ++ payload) in
  hdr csum ++ payload.

Definition tcp_send_segment (c : ip_config) (our_mac : list Z) (k : tcp_connection) (flags seq ack : Z)
    (payload : list Z) : list Z :=
  ip_send c our_mac 6 (remote_ip k) (remote_mac k) (tcp_segment c k flags seq ack payload).

(** ** The round-trip estimate *)
Definition rtt_update (t : rtx) (measured : Z) : Z * Z :=
  if negb (rtt_valid t) then (u32 (Z.shiftl measured 3), u32 (Z.shiftl measured 1))
  else
    let delta := s32 (s32 measured - s32 (Z.shiftr (srtt t) 3)) in
    let srtt' := u32 (s32 (srtt t) + delta) in
    let delta := if delta <? 0 then s32 (- delta) else delta in
    (srtt', u32 (s32 (rttvar t) + (delta - s32 (Z.shiftr (rttvar t) 2)))).

Definition clamp_rto (r : Z) : Z :=
  let r := if r <? TCP_RTO_MIN_TICKS then TCP_RTO_MIN_TICKS else r in
  if TCP_RTO_MAX_TICKS <? r then TCP_RTO_MAX_TICKS else r.

Definition tcp_rtt_sample (t : rtx) (now : Z) : list tty * rtx :=
  if retransmit_count t =? 0 then
    let measured := u32 (now - last_send_tick t) in
    let measured := if measured =? 0 then 1 else measured in
    let '(srtt', rttvar') := rtt_update t measured in
    let rto' := clamp_rto (u32 (Z.shiftr srtt' 3 + rttvar')) in
    ([TStr "TCP: RTT sample="; TDec measured; TStr " ticks, srtt="; TDec (Z.shiftr srtt' 3);
      TStr " rto="; TDec rto'; TLn " ticks"],
     mk_rtx (pending_data t) (pending_len t) (pending_seq t) (pending_flags t) false (last_send_tick t)
       (retransmit_count t) (current_rto t) srtt' rttvar' rto' true)
  else ([], no_pending t).

(** Sends a segment and keeps it for retransmission. *)
Definition tcp_send_tracked (c : ip_config) (our_mac : list Z) (now : Z) (k : tcp_connection)
    (flags seq : Z) (payload : list Z) : list Z * tcp_connection :=
  let stored := take (Z.to_nat PENDING_SIZE) payload in
  let t := tx k in
  (tcp_send_segment c our_mac k flags seq (their_seq k) payload,
   with_tx k (mk_rtx (splice (pending_data t) 0 stored) (Z.of_nat (length stored)) seq flags true now 0
                (if rtt_valid t then rto t else TCP_RTO_INITIAL_TICKS)
                (srtt t) (rttvar t) (rto t) (rtt_valid t))).

(** ** Retransmission: the body of the loop for one connection *)
Definition retransmit_conn (c : ip_config) (our_mac : list Z) (now : Z) (k : tcp_connection)
    : list tty * list (list Z) * tcp_connection :=
  let t := tx k in
  if bool_decide (state k = TCP_CLOSED) || negb (pending t) then ([], [], k)
  else if u32 (now - last_send_tick t) <? current_rto t then ([], [], k)
  else if TCP_MAX_RETRANSMITS <=? retransmit_count t then
    ([TLn "TCP: gave up after repeated retransmit failures, connection aborted"], [],
     with_tx (with_state k TCP_CLOSED) (no_pending t))
  else
    let frame := tcp_send_segment c our_mac k (pending_flags t) (pending_seq t) (their_seq k)
                   (take (Z.to_nat (pending_len t)) (pending_data t)) in
    let rto2 := u32 (current_rto t * 2) in
    let rto2 := if TCP_RTO_MAX_TICKS <? rto2 then TCP_RTO_MAX_TICKS else rto2 in
    ([TLn "TCP: retransmitting"], [frame],
     with_tx k (mk_rtx (pending_data t) (pending_len t) (pending_seq t) (pending_flags t) true now
                  (retransmit_count t + 1) rto2 (srtt t) (rttvar t) (rto t) (rtt_valid t))).

Fixpoint tcp_check_retransmits (c : ip_config) (our_mac : list Z) (now : Z) (s : tcp)
    : list tty * list (list Z) * tcp :=
  match s with
  | [] => ([], [], [])
  | k :: s' =>
      let '(m1, f1, k') := retransmit_conn c our_mac now k in
      let '(m2, f2, s'') := tcp_check_retransmits c our_mac now s' in
      (m1 ++ m2, f1 ++ f2, k' :: s'')
  end.

(** ** Receiving *)

(** Queues bytes for the owner of the socket until the ring is full. *)
Fixpoint rx_queue (r : rx_ring) (payload : list Z) : rx_ring :=
  match payload with
  | [] => r
  | b :: rest =>
      let next := u16 ((rx_head r + 1) mod RX_BUFFER_SIZE) in
      if next =? rx_tail r then r
      else rx_queue (mk_rx (<[Z.to_nat (rx_head r) := b]> (rx_buffer r)) next (rx_tail r)) rest
  end.

(** A SYN: the connection starts over in the given slot. *)
Definition syn_conn (k : tcp_connection) (source_ip source_mac : list Z) (source_port seq : Z) : tcp_connection :=
  let t := tx k in
  mk_conn source_ip source_mac TCP_TEST_PORT source_port 1000 (u32 (seq + 1)) TCP_SYN_RECEIVED
    (mk_rx (rx_buffer (rx k)) 0 0) false false
    (mk_rtx (pending_data t) (pending_len t) (pending_seq t) (pending_flags t) false (last_send_tick t)
       0 (current_rto t) (srtt t) (rttvar t) (rto t) false).

(** Data and FIN on an established connection.  [payload_len] is a 16-bit
    difference: with a data offset past the segment it wraps, and the bytes
    after the segment ([beyond]) are read. *)
Definition established_receive (c : ip_config) (our_mac : list Z) (now : Z) (k : tcp_connection)
    (tcp_data beyond : list Z) (seq ack data_offset flags : Z)
    : list tty * list (list Z) * tcp_connection :=
  let payload_len := u16 (Z.of_nat (length tcp_data) - data_offset) in
  let payload := take (Z.to_nat payload_len) (drop (Z.to_nat data_offset) (tcp_data ++ beyond)) in
  if (0 <? payload_len) && negb (seq =? their_seq k) then ([], [], k)
  else
    let k := if 0 <? payload_len
             then with_rx (with_their_seq k (u32 (their_seq k + payload_len))) (rx_queue (rx k) payload)
             else k in
    if flag flags TCP_FLAG_FIN then
      let k := with_state (with_rx_closed (with_their_seq k (u32 (their_seq k + 1)))) TCP_CLOSE_WAIT in
      ([TLn "TCP: FIN received, half-closed"],
       [tcp_send_segment c our_mac k TCP_FLAG_ACK (our_seq k) (their_seq k) []], k)
    else if 0 <? payload_len then
      ([], [tcp_send_segment c our_mac k TCP_FLAG_ACK (our_seq k) (their_seq k) []], k)
    else if pending (tx k) && flag flags TCP_FLAG_ACK && (ack =? our_seq k) then
      let '(m, t) := tcp_rtt_sample (tx k) now in (m, [], with_tx k t)
    else ([], [], k).

(** The SYN branch of [tcp_receive] for slot [i]. *)
Definition receive_syn (c : ip_config) (our_mac : list Z) (now : Z) (s : tcp) (i : Z)
    (source_ip source_mac : list Z) (source_port seq : Z) : list tty * list (list Z) * tcp :=
  let k := syn_conn (conn_at s i) source_ip source_mac source_port seq in
  let '(frame, k) := tcp_send_tracked c our_mac now k (Z.lor TCP_FLAG_SYN TCP_FLAG_ACK) (our_seq k) [] in
  ([TLn "TCP: SYN received, sent SYN-ACK"], [frame], set_conn s i (with_our_seq k (u32 (our_seq k + 1)))).

(** The branches of [tcp_receive] for a segment of connection [i]. *)
Definition receive_known (c : ip_config) (our_mac : list Z) (now : Z) (s : tcp) (i : Z)
    (tcp_data beyond : list Z) (seq ack data_offset flags : Z) : list tty * list (list Z) * tcp :=
  let k := conn_at s i in
  if bool_decide (state k = TCP_SYN_RECEIVED) && flag flags TCP_FLAG_ACK && negb (flag flags TCP_FLAG_SYN) then
    if (ack =? our_seq k) && (seq =? their_seq k) then
      let '(m, t) := tcp_rtt_sample (tx k) now in
      (m ++ [TLn "TCP: connection established"], [], set_conn s i (with_tx (with_state k TCP_ESTABLISHED) t))
    else ([], [], s)
  else if bool_decide (state k = TCP_ESTABLISHED) then
    let '(m, f, k) := established_receive c our_mac now k tcp_data beyond seq ack data_offset flags in
    (m, f, set_conn s i k)
  else if (bool_decide (state k = TCP_LAST_ACK) || bool_decide (state k = TCP_CLOSE_WAIT))
          && flag flags TCP_FLAG_ACK && (ack =? our_seq k) then
    let closing := bool_decide (state k = TCP_LAST_ACK) in
    let k' := if closing then with_state k TCP_CLOSED else k in
    let '(m, t) := if pending (tx k) then tcp_rtt_sample (tx k) now else ([], tx k) in
    ((if closing then [TLn "TCP: connection closed"] else []) ++ m, [], set_conn s i (with_tx k' t))
  else ([], [], s).

Definition tcp_receive (c : ip_config) (our_mac : list Z) (now : Z) (s : tcp)
    (source_ip source_mac tcp_data beyond : list Z) : list tty * list (list Z) * tcp :=
  if Z.of_nat (length tcp_data) <? TCP_HEADER_LEN then ([], [], s)
  else
    let source_port := get_be16 tcp_data 0 in
    let dest_port := get_be16 tcp_data 2 in
    let seq := get_be32 tcp_data 4 in
    let ack := get_be32 tcp_data 8 in
    let data_offset := u8 (Z.shiftr (byte_at tcp_data 12) 4 * 4) in
    let flags := byte_at tcp_data 13 in
    if negb (dest_port =? TCP_TEST_PORT) then ([], [], s)
    else
      let conn := tcp_find_connection s source_ip source_port in
      match conn with
      | Some i =>
          if flag flags TCP_FLAG_RST then
            let k := conn_at s i in
            ([TLn "TCP: RST received, connection aborted"], [],
             set_conn s i (with_tx (with_state k TCP_CLOSED) (no_pending (tx k))))
          else if flag flags TCP_FLAG_SYN && negb (flag flags TCP_FLAG_ACK) then
            receive_syn c our_mac now s i source_ip source_mac source_port seq
          else receive_known c our_mac now s i tcp_data beyond seq ack data_offset flags
      | None =>
          if flag flags TCP_FLAG_SYN && negb (flag flags TCP_FLAG_ACK) then
            match tcp_alloc_connection s with
            | Some i => receive_syn c our_mac now s i source_ip source_mac source_port seq
            | None => ([], [], s)
            end
          else ([], [], s)
      end.

(** ** Sockets *)
Definition tcp_accept_scan (s : tcp) : option (Z * tcp) :=
  match find_from (fun i => bool_decide (state (conn_at s i) = TCP_ESTABLISHED)
                            && negb (accepted (conn_at s i))) 0 (Z.to_nat MAX_TCP_CONNECTIONS) with
  | Some i => Some (i, set_conn s i (with_accepted (conn_at s i)))
  | None => None
  end.

(** [tcp_socket_accept] halts until an interrupt changes the table; [None]
    when it is still blocked after the given ones. *)
Fixpoint tcp_socket_accept (s : tcp) (interrupts : list (tcp -> tcp)) : tcp * option Z :=
  match tcp_accept_scan s with
  | Some (i, s') => (s', Some i)
  | None => match interrupts with
            | [] => (s, None)
            | f :: rest => tcp_socket_accept (f s) rest
            end
  end.

Definition valid_fd (sockfd : Z) : bool := (0 <=? sockfd) && (sockfd <? MAX_TCP_CONNECTIONS).

(** The copy loop of [tcp_socket_recv]; a ring holds at most 511 bytes. *)
Fixpoint rx_drain (fuel : nat) (r : rx_ring) (max_len : Z) : list Z * rx_ring :=
  match fuel with
  | O => ([], r)
  | S fuel =>
      if (rx_head r =? rx_tail r) || (max_len <=? 0) then ([], r)
      else
        let '(l, r') := rx_drain fuel
          (mk_rx (rx_buffer r) (rx_head r) (u16 ((rx_tail r + 1) mod RX_BUFFER_SIZE))) (max_len - 1) in
        (byte_at (rx_buffer r) (rx_tail r) :: l, r')
  end.

Inductive recv_result := RData (l : list Z) | RBadFd | RBlocked.

Fixpoint tcp_socket_recv (s : tcp) (sockfd max_len : Z) (interrupts : list (tcp -> tcp)) : tcp * recv_result :=
  if negb (valid_fd sockfd) then (s, RBadFd)
  else
    let k := conn_at s sockfd in
    if (rx_head (rx k) =? rx_tail (rx k)) && negb (rx_closed k) && negb (bool_decide (state k = TCP_CLOSED)) then
      match interrupts with
      | [] => (s, RBlocked)
      | f :: rest => tcp_socket_recv (f s) sockfd max_len rest
      end
    else
      let '(l, r) := rx_drain (Z.to_nat RX_BUFFER_SIZE) (rx k) max_len in
      (set_conn s sockfd (with_rx k r), RData l).

Definition can_send (k : tcp_connection) : bool :=
  bool_decide (state k = TCP_ESTABLISHED) || bool_decide (state k = TCP_CLOSE_WAIT).

Definition tcp_socket_send (c : ip_config) (our_mac : list Z) (now : Z) (s : tcp) (sockfd : Z) (buf : list Z)
    : list (list Z) * tcp * res Z :=
  if negb (valid_fd sockfd) then ([], s, Err)
  else
    let k := conn_at s sockfd in
    if negb (can_send k) then ([], s, Err)
    else
      let data := take (Z.to_nat PENDING_SIZE) buf in
      let len := Z.of_nat (length data) in
      let '(frame, k') := tcp_send_tracked c our_mac now k (Z.lor TCP_FLAG_PSH TCP_FLAG_ACK) (our_seq k) data in
      ([frame], set_conn s sockfd (with_our_seq k' (u32 (our_seq k' + len))), OK len).

Definition tcp_socket_close (c : ip_config) (our_mac : list Z) (now : Z) (s : tcp) (sockfd : Z)
    : list (list Z) * tcp * res Z :=
  if negb (valid_fd sockfd) then ([], s, Err)
  else
    let k := conn_at s sockfd in
    if negb (can_send k) then ([], s, Err)
    else
      let '(frame, k') := tcp_send_tracked c our_mac now k (Z.lor TCP_FLAG_FIN TCP_FLAG_ACK) (our_seq k) [] in
      ([frame], set_conn s sockfd (with_state (with_our_seq k' (u32 (our_seq k' + 1))) TCP_LAST_ACK), OK 0).

(** ** The receive queue *)
Record rx_ok (r : rx_ring) : Prop := {
  rx_len : Z.of_nat (length (rx_buffer r)) = RX_BUFFER_SIZE;
  rx_head_ok : 0 <= rx_head r < RX_BUFFER_SIZE;
  rx_tail_ok : 0 <= rx_tail r < RX_BUFFER_SIZE }.

(** The bytes waiting to be read. *)
Definition rx_list (r : rx_ring) : list Z := ring_list 0%Z RX_BUFFER_SIZE (rx_buffer r) (rx_head r) (rx_tail r).

Lemma rx_size_pos : 0 < RX_BUFFER_SIZE.
Proof. done. Qed.

Lemma u16_mod_size x : u16 (x mod RX_BUFFER_SIZE) = x mod RX_BUFFER_SIZE.
Proof. apply u16_small. unfold is_u16, RX_BUFFER_SIZE. dlia. Qed.

Lemma rx_queue_spec r payload : rx_ok r ->
  rx_ok (rx_queue r payload) /\
  rx_list (rx_queue r payload) = rx_list r ++ take (511 - length (rx_list r)) payload.
Proof.
  revert r. induction payload as [|b rest IH]; intros r Hr; cbn [rx_queue].
  { by rewrite take_nil, app_nil_r. }
  destruct r as [buf h t], Hr as [Hl Hh Ht]. cbn [rx_buffer rx_head rx_tail] in *. rewrite u16_mod_size.
  pose proof (ring_list_length 0 RX_BUFFER_SIZE rx_size_pos buf h t) as Hlen.
  unfold rx_list in *. cbn [rx_buffer rx_head rx_tail] in *.
  destruct (Z.eqb_spec ((h + 1) mod RX_BUFFER_SIZE) t) as [Hf|Hf].
  - apply (ring_full _ rx_size_pos h t Hh Ht) in Hf. unfold RX_BUFFER_SIZE in *.
    replace (511 - _)%nat with 0%nat by lia. rewrite take_0, app_nil_r. done.
  - pose proof (ring_push 0 RX_BUFFER_SIZE rx_size_pos buf h t b Hl Hh Ht Hf) as Hp.
    destruct (IH (mk_rx (<[Z.to_nat h := b]> buf) ((h + 1) mod RX_BUFFER_SIZE) t)) as [Hok Hq].
    { split; cbn [rx_buffer rx_head rx_tail]; [by rewrite length_insert|unfold RX_BUFFER_SIZE; dlia|done]. }
    split; [done|]. rewrite Hq. cbn [rx_buffer rx_head rx_tail]. rewrite Hp, length_app. cbn [length].
    assert (ring_count RX_BUFFER_SIZE h t <> 511) as Hne.
    { intros E. apply Hf. apply (ring_full _ rx_size_pos h t Hh Ht). done. }
    assert (ring_count RX_BUFFER_SIZE h t < 512) by (unfold ring_count, RX_BUFFER_SIZE; dlia).
    replace (511 - length (ring_list 0%Z RX_BUFFER_SIZE buf h t))%nat
      with (S (511 - (length (ring_list 0%Z RX_BUFFER_SIZE buf h t) + 1)))%nat by lia.
    cbn [take]. by rewrite <- app_assoc.
Qed.

Lemma rx_drain_spec fuel r max_len : rx_ok r -> 0 <= max_len -> (length (rx_list r) < fuel)%nat ->
  let '(l, r') := rx_drain fuel r max_len in
  rx_ok r' /\ l = take (Z.to_nat max_len) (rx_list r) /\ rx_list r' = drop (Z.to_nat max_len) (rx_list r).
Proof.
  revert r max_len. induction fuel as [|fuel IH]; intros r max_len Hr Hm Hf; [lia|]. cbn [rx_drain].
  pose proof Hr as [Hl Hh Ht].
  destruct (Z.eqb_spec (rx_head r) (rx_tail r)) as [E|E]; cbn [orb].
  { apply (ring_empty 0 _ rx_size_pos (rx_buffer r) _ _ Hh Ht) in E. unfold rx_list. rewrite E.
    by rewrite take_nil, drop_nil. }
  destruct (Z.leb_spec max_len 0); cbn [orb].
  { replace max_len with 0 by lia. by rewrite take_0, drop_0. }
  pose proof (ring_pop 0 _ rx_size_pos (rx_buffer r) _ _ Hh Ht E) as Hp. rewrite u16_mod_size.
  set (r1 := mk_rx (rx_buffer r) (rx_head r) ((rx_tail r + 1) mod RX_BUFFER_SIZE)).
  assert (Hr1 : rx_ok r1) by (split; [done|done|cbn; unfold RX_BUFFER_SIZE; dlia]).
  assert (Hc : rx_list r = byte_at (rx_buffer r) (rx_tail r) :: rx_list r1) by done.
  rewrite Hc in Hf. cbn [length] in Hf.
  specialize (IH r1 (max_len - 1) Hr1 ltac:(lia) ltac:(lia)).
  destruct (rx_drain fuel r1 (max_len - 1)) as [l r'] eqn:Ed. destruct IH as (Hok & -> & Hd).
  rewrite Hc. replace (Z.to_nat max_len) with (S (Z.to_nat (max_len - 1))) by lia. done.
Qed.

(** ** Invariants *)
Record tx_ok (t : rtx) : Prop := {
  tx_data : Z.of_nat (length (pending_data t)) = PENDING_SIZE;
  tx_len : 0 <= pending_len t <= PENDING_SIZE;
  tx_rto : rtt_valid t = true -> TCP_RTO_MIN_TICKS <= rto t <= TCP_RTO_MAX_TICKS;
  tx_pending : pending t = true ->
    TCP_RTO_MIN_TICKS <= current_rto t <= TCP_RTO_MAX_TICKS /\
    0 <= retransmit_count t <= TCP_MAX_RETRANSMITS }.

(** What each state means for the segment in flight and for the reader. *)
Definition state_ok (k : tcp_connection) : Prop :=
  match state k with
  | TCP_CLOSED => pending (tx k) = false
  | TCP_SYN_RECEIVED => pending (tx k) = true /\ accepted k = false /\ rx_closed k = false
  | TCP_ESTABLISHED => rx_closed k = false
  | TCP_CLOSE_WAIT => rx_closed k = true
  | TCP_LAST_ACK => pending (tx k) = true
  end.

Record conn_ok (k : tcp_connection) : Prop := {
  co_ip : ipv4 (remote_ip k);
  co_mac : mac_addr (remote_mac k);
  co_lport : is_u16 (local_port k);
  co_rport : is_u16 (remote_port k);
  co_our : is_u32 (our_seq k);
  co_their : is_u32 (their_seq k);
  co_rx : rx_ok (rx k);
  co_tx : tx_ok (tx k);
  co_state : state_ok k }.

(** At most one open connection per peer address and port. *)
Definition peers_unique (s : tcp) : Prop :=
  forall i j k k', s !! i = Some k -> s !! j = Some k' -> state k <> TCP_CLOSED -> state k' <> TCP_CLOSED ->
    remote_ip k = remote_ip k' -> remote_port k = remote_port k' -> i = j.

Record tcp_inv (s : tcp) : Prop := {
  ti_length : Z.of_nat (length s) = MAX_TCP_CONNECTIONS;
  ti_conns : Forall conn_ok s;
  ti_unique : peers_unique s }.

Lemma clamp_rto_range r : TCP_RTO_MIN_TICKS <= clamp_rto r <= TCP_RTO_MAX_TICKS.
Proof.
  unfold clamp_rto, TCP_RTO_MIN_TICKS, TCP_RTO_MAX_TICKS.
  destruct (Z.ltb_spec r 2), (Z.ltb_spec 200 2), (Z.ltb_spec 200 r); lia.
Qed.

Lemma rtt_sample_ok t now : tx_ok t -> tx_ok (tcp_rtt_sample t now).2 /\ pending (tcp_rtt_sample t now).2 = false.
Proof.
  intros [H1 H2 H3 H4]. unfold tcp_rtt_sample. case_if; [|by split; [split|]].
  destruct (rtt_update t _) as [a b]. split; [|done]. split; cbn; try done.
  intros _. apply clamp_rto_range.
Qed.

Lemma no_pending_ok t : tx_ok t -> tx_ok (no_pending t).
Proof. intros [H1 H2 H3 H4]. by split. Qed.

Lemma send_tracked_ok c mac now k flags seq payload : tx_ok (tx k) ->
  let k' := (tcp_send_tracked c mac now k flags seq payload).2 in
  tx_ok (tx k') /\ pending (tx k') = true /\ exists t, k' = with_tx k t.
Proof.
  intros [H1 H2 H3 H4]. cbn zeta. unfold tcp_send_tracked. cbn [snd tx with_tx]. split; [|by eauto].
  assert (Hl : (length (take (Z.to_nat PENDING_SIZE) payload) <= Z.to_nat PENDING_SIZE)%nat)
    by (rewrite length_take; lia).
  split; cbn [pending_data pending_len rtt_valid rto pending current_rto retransmit_count].
  - rewrite splice_length; [done|]. unfold PENDING_SIZE in *. lia.
  - unfold PENDING_SIZE in *. lia.
  - done.
  - intros _. unfold TCP_RTO_MIN_TICKS, TCP_RTO_MAX_TICKS, TCP_RTO_INITIAL_TICKS, TCP_MAX_RETRANSMITS in *.
    destruct (rtt_valid (tx k)); [specialize (H3 eq_refl)|]; lia.
Qed.

Lemma conn_at_lookup s i k : s !! Z.to_nat i = Some k -> conn_at s i = k.
Proof. unfold conn_at. by intros ->. Qed.

Lemma conn_at_valid s i : tcp_inv s -> 0 <= i < MAX_TCP_CONNECTIONS ->
  s !! Z.to_nat i = Some (conn_at s i) /\ conn_ok (conn_at s i).
Proof.
  intros [Hl Hc _] Hi. destruct (lookup_lt_is_Some_2 s (Z.to_nat i)) as [k Hk]; [lia|].
  rewrite (conn_at_lookup _ _ _ Hk). split; [done|]. by eapply Forall_lookup in Hc.
Qed.

(** An update of one slot keeps the invariant when the new connection is
    closed, keeps the open peer of the slot, or has a peer of its own. *)
Lemma set_conn_inv s i k : tcp_inv s -> 0 <= i < MAX_TCP_CONNECTIONS -> conn_ok k ->
  (state k <> TCP_CLOSED ->
     (state (conn_at s i) <> TCP_CLOSED /\ remote_ip k = remote_ip (conn_at s i) /\
      remote_port k = remote_port (conn_at s i)) \/
     tcp_find_connection s (remote_ip k) (remote_port k) = None) ->
  tcp_inv (set_conn s i k).
Proof.
  intros Hinv Hi Hk Hpeer. pose proof Hinv as [Hl Hc Hu]. unfold set_conn.
  destruct (conn_at_valid s i Hinv Hi) as [Hlk _].
  assert (Hother : forall j k', s !! j = Some k' -> j <> Z.to_nat i -> state k' <> TCP_CLOSED ->
    state k <> TCP_CLOSED -> remote_ip k = remote_ip k' -> remote_port k = remote_port k' -> False).
  { intros j k' Hj Hne Hs' Hs Hip Hport. destruct (Hpeer Hs) as [(Ho & Hip' & Hport')|Hf].
    - apply Hne. apply (Hu j (Z.to_nat i) k' (conn_at s i)); congruence.
    - unfold tcp_find_connection in Hf. rewrite find_from_None in Hf.
      assert (Hj' := Hj). apply lookup_lt_Some in Hj'. specialize (Hf (Z.of_nat j) ltac:(unfold MAX_TCP_CONNECTIONS in *; lia)).
      unfold is_peer in Hf. rewrite (conn_at_lookup s (Z.of_nat j) k') in Hf by (by rewrite Nat2Z.id).
      rewrite bool_decide_false, Hip, Hport, Z.eqb_refl, bool_decide_true in Hf by done. done. }
  split.
  - by rewrite length_insert.
  - by apply Forall_insert.
  - intros j1 j2 k1 k2 H1 H2 S1 S2 Hip Hport.
    apply list_lookup_insert_Some in H1 as [(<- & <- & _)|[Hj1 H1]];
      apply list_lookup_insert_Some in H2 as [(<- & <- & _)|[Hj2 H2]]; [done|..].
    + by destruct (Hother j2 k2).
    + by destruct (Hother j1 k1).
    + by apply (Hu j1 j2 k1 k2).
Qed.

Lemma retransmit_conn_spec c mac now k :
  let k' := (retransmit_conn c mac now k).2 in
  (conn_ok k -> conn_ok k') /\ remote_ip k' = remote_ip k /\ remote_port k' = remote_port k /\
  (state k' <> TCP_CLOSED -> state k <> TCP_CLOSED).
Proof.
  cbn zeta. unfold retransmit_conn.
  destruct (bool_decide (state k = TCP_CLOSED)) eqn:Ec; cbn [orb]; [done|].
  apply bool_decide_eq_false in Ec. destruct (pending (tx k)) eqn:Ep; cbn [negb]; [|done].
  case_if; [done|]. case_if; cbn [snd].
  - split; [|done]. intros [C1 C2 C3 C4 C5 C6 C7 C8 C9]. split; try done. by apply no_pending_ok.
  - split; [|done]. intros [C1 C2 C3 C4 C5 C6 C7 C8 C9].
    split; cbn [with_tx remote_ip remote_mac local_port remote_port our_seq their_seq rx tx]; try done.
    + pose proof (tx_pending _ C8 Ep) as [Hr Hcnt]. destruct C8 as [T1 T2 T3 T4].
      unfold TCP_RTO_MIN_TICKS, TCP_RTO_MAX_TICKS, TCP_MAX_RETRANSMITS in *.
      split; cbn [pending_data pending_len rtt_valid rto pending current_rto retransmit_count]; try done.
      unfold TCP_RTO_MIN_TICKS, TCP_RTO_MAX_TICKS, TCP_MAX_RETRANSMITS.
      intros _. rewrite u32_small by (unfold is_u32; lia). destruct (Z.ltb_spec 200 (current_rto (tx k) * 2)); lia.
    + unfold state_ok in *. cbn [state with_tx tx pending]. destruct (state k); try done; by destruct C9.
Qed.

Lemma check_retransmits_map c mac now s :
  (tcp_check_retransmits c mac now s).2 = map (fun k => (retransmit_conn c mac now k).2) s.
Proof.
  induction s as [|k s IH]; cbn [tcp_check_retransmits map]; [done|].
  destruct (retransmit_conn c mac now k) as [[m f] k'].
  destruct (tcp_check_retransmits c mac now s) as [[m2 f2] s2]. cbn [snd] in *. by rewrite IH.
Qed.

Lemma check_retransmits_inv c mac now s : tcp_inv s -> tcp_inv (tcp_check_retransmits c mac now s).2.
Proof.
  intros [Hl Hc Hu]. rewrite check_retransmits_map. split.
  - by rewrite length_map.
  - apply Forall_map. eapply Forall_impl; [exact Hc|]. intros k Hk. by apply retransmit_conn_spec.
  - intros i j k k' Hi Hj. rewrite list_lookup_fmap in Hi, Hj.
    apply fmap_Some in Hi as (k1 & Hi & ->), Hj as (k2 & Hj & ->).
    destruct (retransmit_conn_spec c mac now k1) as (_ & E1 & E2 & E3).
    destruct (retransmit_conn_spec c mac now k2) as (_ & F1 & F2 & F3). cbn zeta in *.
    rewrite E1, E2, F1, F2. intros S1 S2. apply (Hu i j k1 k2); auto.
Qed.

Lemma get_be16_is l i : Forall is_byte l -> is_u16 (get_be16 l i).
Proof.
  intros Hl. unfold get_be16. pose proof (byte_at_byte l i Hl) as H1. pose proof (byte_at_byte l (i + 1) Hl) as H2.
  unfold is_byte, is_u16 in *. rewrite be16_lor by lia. lia.
Qed.

Lemma find_connection_Some s ip port i : tcp_find_connection s ip port = Some i ->
  0 <= i < MAX_TCP_CONNECTIONS /\ state (conn_at s i) <> TCP_CLOSED /\
  remote_port (conn_at s i) = port /\ remote_ip (conn_at s i) = ip.
Proof.
  unfold tcp_find_connection. intros Hf. apply find_from_Some in Hf as (Hi & Hp & _).
  unfold is_peer in Hp. apply andb_true_iff in Hp as [Hp H3]. apply andb_true_iff in Hp as [H1 H2].
  apply negb_true_iff, bool_decide_eq_false in H1. apply bool_decide_eq_true in H3. apply Z.eqb_eq in H2.
  split; [unfold MAX_TCP_CONNECTIONS in *; lia|done].
Qed.

Lemma established_ok c mac now k data beyond seq ack off flags : conn_ok k -> state k = TCP_ESTABLISHED ->
  let k' := (established_receive c mac now k data beyond seq ack off flags).2 in
  conn_ok k' /\ remote_ip k' = remote_ip k /\ remote_port k' = remote_port k.
Proof.
  intros [C1 C2 C3 C4 C5 C6 C7 C8 C9] Hst. cbn zeta. unfold established_receive.
  set (plen := u16 _). set (payload := take _ _).
  destruct (_ && negb (seq =? their_seq k)); [by split; [split|]|].
  set (k1 := if 0 <? plen then _ else k).
  assert (H1 : conn_ok k1 /\ remote_ip k1 = remote_ip k /\ remote_port k1 = remote_port k /\
               state k1 = TCP_ESTABLISHED).
  { unfold k1. destruct (0 <? plen); [|by split; [split|]]. split; [split|]; cbn; try done; [apply u32_is|].
    by apply rx_queue_spec. }
  clearbody k1. destruct H1 as (Hk1 & R1 & R2 & S1). pose proof Hk1 as [D1 D2 D3 D4 D5 D6 D7 D8 D9].
  destruct (flag flags TCP_FLAG_FIN).
  { cbn [snd]. split; [split|]; cbn; try done. apply u32_is. }
  destruct (0 <? plen); [done|].
  destruct (pending (tx k1) && flag flags TCP_FLAG_ACK && (ack =? our_seq k1)); [|done].
  pose proof (rtt_sample_ok (tx k1) now D8) as [Ht _]. destruct (tcp_rtt_sample (tx k1) now) as [m t].
  cbn [snd] in *. split; [split|]; try done. unfold state_ok in *. cbn. by rewrite S1 in *.
Qed.

Lemma receive_known_inv c mac now s i data beyond seq ack off flags :
  tcp_inv s -> 0 <= i < MAX_TCP_CONNECTIONS -> state (conn_at s i) <> TCP_CLOSED ->
  tcp_inv (receive_known c mac now s i data beyond seq ack off flags).2.
Proof.
  intros Hinv Hi Hst. destruct (conn_at_valid s i Hinv Hi) as [Hlk Hok].
  unfold receive_known. set (k := conn_at s i) in *. pose proof Hok as [C1 C2 C3 C4 C5 C6 C7 C8 C9].
  pose proof (rtt_sample_ok (tx k) now C8) as [Ht Hp].
  destruct (bool_decide (state k = TCP_SYN_RECEIVED) && flag flags TCP_FLAG_ACK && negb (flag flags TCP_FLAG_SYN)) eqn:E1.
  { zbool. apply bool_decide_eq_true in H. destruct (_ && _); [|done].
    destruct (tcp_rtt_sample (tx k) now) as [m t]. cbn [snd] in *.
    apply set_conn_inv; [done|done| |].
    - split; try done. unfold state_ok in *. rewrite H in C9. cbn. by destruct C9 as (_ & _ & ?).
    - intros _. left. done. }
  destruct (bool_decide (state k = TCP_ESTABLISHED)) eqn:E2.
  { apply bool_decide_eq_true in E2.
    pose proof (established_ok c mac now k data beyond seq ack off flags Hok E2) as (Hk' & R1 & R2).
    destruct (established_receive _ _ _ _ _ _ _ _ _ _) as [[m f] k']. cbn [snd] in *.
    apply set_conn_inv; [done..|]. intros _. left. done. }
  destruct ((_ || _) && flag flags TCP_FLAG_ACK && (ack =? our_seq k)) eqn:E3; [|done]. clear E1 E2.
  zbool. set (t := if pending (tx k) then tcp_rtt_sample (tx k) now else ([], tx k)).
  assert (Htx : tx_ok t.2 /\ pending t.2 = false).
  { unfold t. destruct (pending (tx k)) eqn:Ep; [by split|]. done. }
  clearbody t. destruct t as [m t]. cbn [snd] in *. destruct Htx as [Ht1 Ht2].
  apply set_conn_inv; [done|done| |].
  - destruct (bool_decide (state k = TCP_LAST_ACK)) eqn:El; (split; try done).
    unfold state_ok in *. cbn. cbn [orb] in H. apply bool_decide_eq_true in H. by rewrite H in *.
  - intros _. left. by destruct (bool_decide (state k = TCP_LAST_ACK)).
Qed.

Lemma receive_syn_inv c mac now s i sip smac port seq :
  tcp_inv s -> 0 <= i < MAX_TCP_CONNECTIONS -> ipv4 sip -> mac_addr smac -> is_u16 port ->
  (tcp_find_connection s sip port = None \/
   (state (conn_at s i) <> TCP_CLOSED /\ remote_ip (conn_at s i) = sip /\ remote_port (conn_at s i) = port)) ->
  tcp_inv (receive_syn c mac now s i sip smac port seq).2.
Proof.
  intros Hinv Hi Hip Hmac Hport Hpeer. destruct (conn_at_valid s i Hinv Hi) as [_ Hok].
  unfold receive_syn. set (k0 := syn_conn _ _ _ _ _).
  pose proof Hok as [C1 C2 C3 C4 C5 C6 [R1 R2 R3] [T1 T2 T3 T4] C9].
  assert (Ht0 : tx_ok (tx k0)) by (split; done).
  destruct (send_tracked_ok c mac now k0 (Z.lor TCP_FLAG_SYN TCP_FLAG_ACK) (our_seq k0) [] Ht0) as (Ht & Hp & t & E).
  destruct (tcp_send_tracked _ _ _ k0 _ _ _) as [frame k]. cbn [snd] in *. subst k.
  apply set_conn_inv; [done|done| |].
  - split; cbn; try done; try apply u32_is.
  - intros _. cbn. destruct Hpeer as [?|(? & ? & ?)]; [by right|left; done].
Qed.

Lemma alloc_connection_Some s i : tcp_alloc_connection s = Some i ->
  0 <= i < MAX_TCP_CONNECTIONS /\ state (conn_at s i) = TCP_CLOSED.
Proof.
  unfold tcp_alloc_connection. intros Hf. apply find_from_Some in Hf as (Hi & Hp & _).
  apply bool_decide_eq_true in Hp. split; [unfold MAX_TCP_CONNECTIONS in *; lia|done].
Qed.

Lemma tcp_receive_inv c mac now s sip smac data beyond :
  tcp_inv s -> ipv4 sip -> mac_addr smac -> Forall is_byte data ->
  tcp_inv (tcp_receive c mac now s sip smac data beyond).2.
Proof.
  intros Hinv Hip Hmac Hby. unfold tcp_receive. case_if; [done|]. case_if; [done|].
  pose proof (get_be16_is data 0 Hby) as Hport.
  destruct (tcp_find_connection s sip (get_be16 data 0)) as [i|] eqn:Ef.
  - apply find_connection_Some in Ef as (Hi & Hst & Hp & Hr).
    destruct (conn_at_valid s i Hinv Hi) as [_ [C1 C2 C3 C4 C5 C6 C7 C8 C9]].
    case_if.
    { cbn [snd]. apply set_conn_inv; [done|done| |done]. split; try done. by apply no_pending_ok. }
    case_if; [by apply receive_syn_inv; auto|]. by apply receive_known_inv.
  - case_if; [|done]. destruct (tcp_alloc_connection s) as [i|] eqn:Ea; [|done].
    apply alloc_connection_Some in Ea as [Hi _]. apply receive_syn_inv; auto.
Qed.

Lemma valid_fd_range fd : valid_fd fd = true -> 0 <= fd < MAX_TCP_CONNECTIONS.
Proof. unfold valid_fd. intros H. zbool. lia. Qed.

Lemma accept_scan_inv s i s' : tcp_inv s -> tcp_accept_scan s = Some (i, s') -> tcp_inv s'.
Proof.
  intros Hinv. unfold tcp_accept_scan. destruct (find_from _ _ _) as [j|] eqn:Ef; [|done].
  intros [= <- <-]. apply find_from_Some in Ef as (Hi & Hp & _). zbool. apply bool_decide_eq_true in H.
  assert (Hj : 0 <= j < MAX_TCP_CONNECTIONS) by (unfold MAX_TCP_CONNECTIONS in *; lia).
  destruct (conn_at_valid s j Hinv Hj) as [_ [C1 C2 C3 C4 C5 C6 C7 C8 C9]].
  apply set_conn_inv; [done|done| |].
  - split; try done. unfold state_ok in *. cbn. by rewrite H in *.
  - intros _. left. split; [by rewrite H|done].
Qed.

Lemma rx_list_bound r : rx_ok r -> (length (rx_list r) < Z.to_nat RX_BUFFER_SIZE)%nat.
Proof.
  intros [Hl Hh Ht]. pose proof (ring_list_length 0 RX_BUFFER_SIZE rx_size_pos (rx_buffer r) (rx_head r) (rx_tail r)) as H.
  unfold rx_list. unfold ring_count, RX_BUFFER_SIZE in *. dlia.
Qed.

(** A [recv] that does not block. *)
Lemma recv_now s fd max_len ints : tcp_inv s -> valid_fd fd = true -> 0 <= max_len ->
  rx_list (rx (conn_at s fd)) <> [] \/ rx_closed (conn_at s fd) = true \/ state (conn_at s fd) = TCP_CLOSED ->
  exists r, tcp_socket_recv s fd max_len ints =
    (set_conn s fd (with_rx (conn_at s fd) r), RData (take (Z.to_nat max_len) (rx_list (rx (conn_at s fd))))) /\
    rx_ok r /\ rx_list r = drop (Z.to_nat max_len) (rx_list (rx (conn_at s fd))).
Proof.
  intros Hinv Hfd Hm Hready. destruct (conn_at_valid s fd Hinv (valid_fd_range _ Hfd)) as [_ Hok].
  pose proof (co_rx _ Hok) as Hrx. pose proof Hrx as [Hl Hh Ht].
  pose proof (rx_drain_spec _ (rx (conn_at s fd)) max_len Hrx Hm (rx_list_bound _ Hrx)) as Hd.
  assert (Hcond : (rx_head (rx (conn_at s fd)) =? rx_tail (rx (conn_at s fd))) && negb (rx_closed (conn_at s fd))
    && negb (bool_decide (state (conn_at s fd) = TCP_CLOSED)) = false).
  { destruct Hready as [Hne|[Hc|Hc]].
    - destruct (Z.eqb_spec (rx_head (rx (conn_at s fd))) (rx_tail (rx (conn_at s fd)))) as [E|]; [|done].
      destruct Hne. by apply (ring_empty 0 _ rx_size_pos).
    - rewrite Hc. by rewrite andb_false_r.
    - rewrite bool_decide_true by done. by rewrite andb_false_r. }
  destruct ints as [|f0 ints]; cbn [tcp_socket_recv]; rewrite Hfd; cbn [negb]; rewrite Hcond;
    destruct (rx_drain _ _ _) as [l r]; destruct Hd as (Hr & -> & Hd); exists r; done.
Qed.

Lemma recv_inv s fd max_len : tcp_inv s -> 0 <= max_len -> tcp_inv (tcp_socket_recv s fd max_len []).1.
Proof.
  intros Hinv Hm. destruct (valid_fd fd) eqn:Hfd; [|by cbn; rewrite Hfd].
  pose proof (valid_fd_range _ Hfd) as Hr. destruct (conn_at_valid s fd Hinv Hr) as [_ Hok].
  pose proof Hok as [C1 C2 C3 C4 C5 C6 C7 C8 C9].
  destruct ((rx_head (rx (conn_at s fd)) =? rx_tail (rx (conn_at s fd))) && negb (rx_closed (conn_at s fd))
    && negb (bool_decide (state (conn_at s fd) = TCP_CLOSED))) eqn:E.
  { cbn [tcp_socket_recv]. by rewrite Hfd, E. }
  destruct (recv_now s fd max_len [] Hinv Hfd Hm) as (r & -> & Hok' & _).
  { apply andb_false_iff in E as [E|E]; [apply andb_false_iff in E as [E|E]|]; zbool.
    - left. intros El. apply (ring_empty 0 _ rx_size_pos) in El; [done|apply C7..].
    - auto.
    - apply bool_decide_eq_true in E. auto. }
  cbn [fst]. apply set_conn_inv; [done|done|by split|]. intros ?. left. done.
Qed.

Lemma can_send_open k : can_send k = true -> state k = TCP_ESTABLISHED \/ state k = TCP_CLOSE_WAIT.
Proof.
  unfold can_send. intros H. apply orb_true_iff in H as [H|H]; apply bool_decide_eq_true in H; auto.
Qed.

Lemma socket_send_inv c mac now s fd buf : tcp_inv s -> tcp_inv (tcp_socket_send c mac now s fd buf).1.2.
Proof.
  intros Hinv. unfold tcp_socket_send. destruct (valid_fd fd) eqn:Hfd; [|done]. cbn [negb].
  pose proof (valid_fd_range _ Hfd) as Hr. destruct (conn_at_valid s fd Hinv Hr) as [_ Hok].
  destruct (can_send (conn_at s fd)) eqn:Ec; [|done]. cbn [negb]. apply can_send_open in Ec.
  pose proof Hok as [C1 C2 C3 C4 C5 C6 C7 C8 C9].
  destruct (send_tracked_ok c mac now (conn_at s fd) (Z.lor TCP_FLAG_PSH TCP_FLAG_ACK) (our_seq (conn_at s fd))
    (take (Z.to_nat PENDING_SIZE) buf) C8) as (Ht & Hp & t & E).
  destruct (tcp_send_tracked _ _ _ _ _ _ _) as [frame k]. cbn [snd fst] in *. subst k.
  apply set_conn_inv; [done|done| |].
  - split; try done; [apply u32_is|]. unfold state_ok in *. cbn. by destruct Ec as [Ec|Ec]; rewrite Ec in *.
  - intros _. left. split; [by destruct Ec as [Ec|Ec]; rewrite Ec|done].
Qed.

Lemma socket_close_inv c mac now s fd : tcp_inv s -> tcp_inv (tcp_socket_close c mac now s fd).1.2.
Proof.
  intros Hinv. unfold tcp_socket_close. destruct (valid_fd fd) eqn:Hfd; [|done]. cbn [negb].
  pose proof (valid_fd_range _ Hfd) as Hr. destruct (conn_at_valid s fd Hinv Hr) as [_ Hok].
  destruct (can_send (conn_at s fd)) eqn:Ec; [|done]. cbn [negb]. apply can_send_open in Ec.
  pose proof Hok as [C1 C2 C3 C4 C5 C6 C7 C8 C9].
  destruct (send_tracked_ok c mac now (conn_at s fd) (Z.lor TCP_FLAG_FIN TCP_FLAG_ACK) (our_seq (conn_at s fd))
    [] C8) as (Ht & Hp & t & E).
  destruct (tcp_send_tracked _ _ _ _ _ _ _) as [frame k]. cbn [snd fst] in *. subst k.
  apply set_conn_inv; [done|done| |].
  - split; try done. apply u32_is.
  - intros _. left. split; [by destruct Ec as [Ec|Ec]; rewrite Ec|done].
Qed.

(** ** Reachable states *)

(** Everything that changes the table: a segment of any contents, the
    retransmission timer and the socket calls, in any order. *)
Inductive tcp_step (c : ip_config) (mac : list Z) : tcp -> tcp -> Prop :=
| step_receive s now sip smac data beyond : ipv4 sip -> mac_addr smac -> Forall is_byte data ->
    tcp_step c mac s (tcp_receive c mac now s sip smac data beyond).2
| step_retransmits s now : tcp_step c mac s (tcp_check_retransmits c mac now s).2
| step_accept s i s' : tcp_accept_scan s = Some (i, s') -> tcp_step c mac s s'
| step_recv s fd max_len : 0 <= max_len -> tcp_step c mac s (tcp_socket_recv s fd max_len []).1
| step_send s now fd buf : tcp_step c mac s (tcp_socket_send c mac now s fd buf).1.2
| step_close s now fd : tcp_step c mac s (tcp_socket_close c mac now s fd).1.2.

Lemma tcp_step_inv c mac s s' : tcp_inv s -> tcp_step c mac s s' -> tcp_inv s'.
Proof.
  intros Hinv Hs. revert Hinv. destruct Hs; intros Hinv.
  - apply tcp_receive_inv; assumption.
  - apply check_retransmits_inv; assumption.
  - eapply accept_scan_inv; eassumption.
  - apply recv_inv; assumption.
  - apply socket_send_inv; assumption.
  - apply socket_close_inv; assumption.
Qed.

Lemma tcp_boot_inv : tcp_inv tcp_boot.
Proof.
  split; [done| |].
  - apply Forall_replicate. split; cbn; try done; try (unfold is_u16, is_u32; lia);
      try (split; [done|repeat constructor; unfold is_byte; lia]).
  - intros i j k k' Hi. apply lookup_replicate in Hi as [-> _]. done.
Qed.


(** ** Retransmission *)
Fixpoint retransmit_run (c : ip_config) (mac : list Z) (k : tcp_connection) (times : list Z)
    : list (list Z) * tcp_connection :=
  match times with
  | [] => ([], k)
  | now :: rest =>
      let '(_, f, k1) := retransmit_conn c mac now k in
      let '(fs, k2) := retransmit_run c mac k1 rest in (f ++ fs, k2)
  end.

(** Consecutive polls at least the longest timeout apart. *)
Fixpoint spaced (prev : Z) (times : list Z) : Prop :=
  match times with
  | [] => True
  | now :: rest => TCP_RTO_MAX_TICKS <= u32 (now - prev) /\ spaced now rest
  end.

(** The segment in flight, as a frame. *)
Definition pending_frame (c : ip_config) (mac : list Z) (k : tcp_connection) : list Z :=
  tcp_send_segment c mac k (pending_flags (tx k)) (pending_seq (tx k)) (their_seq k)
    (take (Z.to_nat (pending_len (tx k))) (pending_data (tx k))).

(** One poll: not due, the last failure, or one more copy. *)
Lemma retransmit_conn_cases c mac now k : conn_ok k -> state k <> TCP_CLOSED -> pending (tx k) = true ->
  let '(_, f, k') := retransmit_conn c mac now k in
  (u32 (now - last_send_tick (tx k)) < current_rto (tx k) /\ f = [] /\ k' = k) \/
  (retransmit_count (tx k) = TCP_MAX_RETRANSMITS /\ f = [] /\ state k' = TCP_CLOSED /\ pending (tx k') = false) \/
  (retransmit_count (tx k) < TCP_MAX_RETRANSMITS /\ f = [pending_frame c mac k] /\ conn_ok k' /\
   state k' = state k /\ pending (tx k') = true /\ pending_frame c mac k' = pending_frame c mac k /\
   retransmit_count (tx k') = retransmit_count (tx k) + 1 /\ last_send_tick (tx k') = now).
Proof.
  intros Hok Hst Hp. pose proof (retransmit_conn_spec c mac now k) as [Hok' _]. specialize (Hok' Hok).
  pose proof (tx_pending _ (co_tx _ Hok) Hp) as [_ Hc]. revert Hok'. unfold retransmit_conn.
  rewrite bool_decide_false, Hp by done. cbn [orb negb].
  case_if; [by left|]. case_if; intros Hok'; right; [left|right].
  - split; [lia|]. done.
  - split; [lia|]. done.
Qed.

Lemma retransmit_run_closed c mac k times : state k = TCP_CLOSED -> retransmit_run c mac k times = ([], k).
Proof.
  intros Hc. induction times as [|now rest IH]; cbn [retransmit_run]; [done|].
  unfold retransmit_conn. rewrite bool_decide_true by done. cbn [orb]. by rewrite IH.
Qed.


(** ** Segments *)
Lemma get_be32_eq b i : is_byte (byte_at b i) -> is_byte (byte_at b (i + 1)) ->
  is_byte (byte_at b (i + 2)) -> is_byte (byte_at b (i + 3)) ->
  get_be32 b i = byte_at b i * 16777216 + byte_at b (i + 1) * 65536 + byte_at b (i + 2) * 256 + byte_at b (i + 3).
Proof.
  unfold get_be32, is_byte. set (p := byte_at b i). set (q := byte_at b (i + 1)).
  set (r := byte_at b (i + 2)). set (t := byte_at b (i + 3)). intros Hp Hq Hr Ht.
  rewrite !Z.shiftl_mul_pow2 by lia. rewrite (lor_add 24 p) by lia.
  replace (p * 2 ^ 24 + q * 2 ^ 16) with ((p * 256 + q) * 2 ^ 16) by lia.
  rewrite (lor_add 16) by lia.
  replace ((p * 256 + q) * 2 ^ 16 + r * 2 ^ 8) with (((p * 256 + q) * 256 + r) * 2 ^ 8) by lia.
  rewrite (lor_add 8) by lia. lia.
Qed.

Lemma put_be32_eq v : is_u32 v ->
  put_be32 v = [v / 16777216; v / 65536 mod 256; v / 256 mod 256; v mod 256].
Proof.
  intros Hv. unfold put_be32, is_u32 in *. change 255 with (Z.ones 8). rewrite Z.land_ones by lia.
  rewrite !Z.shiftr_div_pow2 by lia.
  change (2 ^ 24) with 16777216. change (2 ^ 16) with 65536. change (2 ^ 8) with 256.
  rewrite (Z.mod_small (v / 16777216)) by dlia. done.
Qed.

Lemma put_be32_bytes v : is_u32 v -> Forall is_byte (put_be32 v).
Proof. intros Hv. rewrite put_be32_eq by done. unfold is_u32 in Hv. repeat constructor; unfold is_byte; dlia. Qed.

Lemma get_be32_put l i v : is_u32 v -> byte_at l i = v / 16777216 -> byte_at l (i + 1) = v / 65536 mod 256 ->
  byte_at l (i + 2) = v / 256 mod 256 -> byte_at l (i + 3) = v mod 256 -> get_be32 l i = v.
Proof.
  intros Hv H0 H1 H2 H3. unfold is_u32 in Hv.
  rewrite get_be32_eq; rewrite ?H0, ?H1, ?H2, ?H3; unfold is_byte; dlia.
Qed.

(** The bytes of a segment, and its checksum. *)
Lemma segment_explicit c k flags seq ack payload :
  ipv4 (our_ip c) -> ipv4 (remote_ip k) -> is_u16 (local_port k) -> is_u16 (remote_port k) ->
  is_byte flags -> is_u32 seq -> is_u32 ack -> Forall is_byte payload -> Z.of_nat (length payload) <= 1460 ->
  let p1 := local_port k in let p2 := remote_port k in
  exists c1 c2, tcp_segment c k flags seq ack payload =
    [p1 / 256; p1 mod 256; p2 / 256; p2 mod 256;
     seq / 16777216; seq / 65536 mod 256; seq / 256 mod 256; seq mod 256;
     ack / 16777216; ack / 65536 mod 256; ack / 256 mod 256; ack mod 256;
     80; flags; 16; 0; c1; c2; 0; 0] ++ payload /\
  ip_checksum (tcp_pseudo (our_ip c) (remote_ip k) (20 + Z.of_nat (length payload))
               ++ tcp_segment c k flags seq ack payload) = 0.
Proof.
  intros Hs Hd Hp1 Hp2 Hfl Hseq Hack Hb Hl p1 p2. unfold tcp_segment, TCP_HEADER_LEN.
  rewrite take_ge by (unfold PENDING_SIZE; lia). rewrite (u16_small (20 + _)) by (unfold is_u16; lia).
  fold p1 p2. change (put_be16 4096) with [16; 0]. change (put_be16 0) with [0; 0]. change (Z.shiftl 5 4) with 80.
  set (len := 20 + Z.of_nat (length payload)).
  set (pre := tcp_pseudo (our_ip c) (remote_ip k) len ++ put_be16 p1 ++ put_be16 p2 ++ put_be32 seq
              ++ put_be32 ack ++ [80; flags] ++ [16; 0]).
  assert (Hsplit : forall x, tcp_pseudo (our_ip c) (remote_ip k) len ++
    (put_be16 p1 ++ put_be16 p2 ++ put_be32 seq ++ put_be32 ack ++ [80; flags] ++ [16; 0] ++ x ++ [0; 0]) ++ payload
    = pre ++ x ++ [0; 0] ++ payload) by (intros x; unfold pre; by rewrite <- !app_assoc).
  rewrite !Hsplit. set (cs := ip_checksum _). assert (Hcs : is_u16 cs) by apply ip_checksum_u16.
  exists (cs / 256), (cs mod 256). split.
  { rewrite (put_be16_eq p1), (put_be16_eq p2), (put_be16_eq cs), (put_be32_eq seq), (put_be32_eq ack) by done.
    done. }
  assert (Hpre : length pre = 28%nat).
  { unfold pre, tcp_pseudo. rewrite !length_app, (proj1 Hs), (proj1 Hd). done. }
  apply (checksum_fixes pre ([0; 0] ++ payload)).
  - by rewrite Hpre.
  - unfold pre, tcp_pseudo. rewrite !Forall_app.
    split_and!; try (by apply put_be16_bytes); try (by apply put_be32_bytes); try apply Hs; try apply Hd;
      try (apply put_be16_bytes; unfold is_u16; lia); repeat constructor; unfold is_byte in *; lia.
  - apply Forall_app. split; [|done]. repeat constructor; unfold is_byte; lia.
  - rewrite Hpre. cbn [length app]. lia.
  - by left.
Qed.

(** A segment sent to a peer, as the peer receives it. *)
Lemma tcp_segment_delivers c c' mac k flags seq ack payload :
  ipv4 (our_ip c) -> mac_addr mac -> our_ip c' = remote_ip k -> ipv4 (remote_ip k) -> mac_addr (remote_mac k) ->
  is_u16 (local_port k) -> is_u16 (remote_port k) ->
  is_byte flags -> is_u32 seq -> is_u32 ack -> Forall is_byte payload -> Z.of_nat (length payload) <= 1452 ->
  exists seg, ip_receive c' (tcp_send_segment c mac k flags seq ack payload)
                = Some (mk_upcall 6 (our_ip c) mac seg) /\
    get_be16 seg 0 = local_port k /\ get_be16 seg 2 = remote_port k /\ get_be32 seg 4 = seq /\
    get_be32 seg 8 = ack /\ byte_at seg 13 = flags /\ drop 20 seg = payload /\
    ip_checksum (tcp_pseudo (our_ip c) (remote_ip k) (Z.of_nat (length seg)) ++ seg) = 0.
Proof.
  intros Hs Hm Hc' C1 C2 C3 C4 Hf Hseq Hack Hb Hl.
  destruct (segment_explicit c k flags seq ack payload) as (c1 & c2 & E & Hck); [done..|lia|].
  unfold tcp_send_segment. set (seg := tcp_segment c k flags seq ack payload) in *. exists seg.
  assert (Hlen : Z.of_nat (length seg) = 20 + Z.of_nat (length payload)) by (rewrite E; cbn [app length]; lia).
  rewrite <- Hc' in *. destruct (ip_send_delivers c c' mac 6 (remote_mac k) seg) as (Er & _);
    [done..|intros E0; rewrite E0 in E; done|lia|].
  rewrite Er, take_ge by lia. split; [done|]. rewrite Hlen. clear Er. clearbody seg. subst seg.
  split_and!; try done.
  - by apply (get_be16_put _ 0 1).
  - by apply (get_be16_put _ 2 3).
  - by apply get_be32_put.
  - by apply get_be32_put.
Qed.

(** ** The handshake *)

(** A segment to the listening port with the given header fields. *)
Definition carries (data : list Z) (source_port seq ack flags : Z) : Prop :=
  Forall is_byte data /\ TCP_HEADER_LEN <= Z.of_nat (length data) /\ get_be16 data 0 = source_port /\
  get_be16 data 2 = TCP_TEST_PORT /\ get_be32 data 4 = seq /\ get_be32 data 8 = ack /\ byte_at data 13 = flags.

Lemma conn_at_set s i k : tcp_inv s -> 0 <= i < MAX_TCP_CONNECTIONS -> conn_at (set_conn s i k) i = k.
Proof.
  intros [Hl _ _] Hi. apply conn_at_lookup. unfold set_conn. apply list_lookup_insert_eq. lia.
Qed.

(** The peer of an open connection finds its slot. *)
Lemma find_open s i : tcp_inv s -> 0 <= i < MAX_TCP_CONNECTIONS -> state (conn_at s i) <> TCP_CLOSED ->
  tcp_find_connection s (remote_ip (conn_at s i)) (remote_port (conn_at s i)) = Some i.
Proof.
  intros Hinv Hi Hst. destruct (tcp_find_connection _ _ _) as [j|] eqn:Ef.
  - apply find_connection_Some in Ef as (Hj & Hst' & Hp & Hip).
    destruct (conn_at_valid s i Hinv Hi) as [L1 _], (conn_at_valid s j Hinv Hj) as [L2 _].
    f_equal. pose proof (ti_unique _ Hinv _ _ _ _ L1 L2 Hst Hst' (eq_sym Hip) (eq_sym Hp)). lia.
  - unfold tcp_find_connection in Ef. rewrite find_from_None in Ef.
    specialize (Ef i ltac:(unfold MAX_TCP_CONNECTIONS in *; lia)). unfold is_peer in Ef.
    by rewrite bool_decide_false, Z.eqb_refl, bool_decide_true in Ef.
Qed.

Lemma receive_syn_eq c mac now s i sip smac port seq :
  exists k t, receive_syn c mac now s i sip smac port seq =
    ([TLn "TCP: SYN received, sent SYN-ACK"],
     [tcp_send_segment c mac k 18 1000 (u32 (seq + 1)) []],
     set_conn s i (with_our_seq (with_tx k t) 1001)) /\
  k = syn_conn (conn_at s i) sip smac port seq /\ pending t = true.
Proof. eexists _, _. split; [reflexivity|]. split; [reflexivity|]. done. Qed.

(** The three-way handshake: a SYN from a new peer, with a slot free, is
    answered by a SYN-ACK that the peer receives with the exchanged ports, our
    initial sequence number, its own number plus one and a valid checksum;
    the peer's ACK of it then establishes the connection, which the next
    [accept] can hand to a program. *)
Theorem tcp_handshake c c' mac mac' now now' s syn ackseg port seq i beyond beyond' :
  tcp_inv s -> ipv4 (our_ip c) -> ipv4 (our_ip c') -> mac_addr mac -> mac_addr mac' ->
  tcp_find_connection s (our_ip c') port = None -> tcp_alloc_connection s = Some i -> is_u32 seq ->
  carries syn port seq 0 TCP_FLAG_SYN -> carries ackseg port (u32 (seq + 1)) 1001 TCP_FLAG_ACK ->
  let '(_, frames, s1) := tcp_receive c mac now s (our_ip c') mac' syn beyond in
  let '(_, frames2, s2) := tcp_receive c mac now' s1 (our_ip c') mac' ackseg beyond' in
  (exists frame seg, frames = [frame] /\ ip_receive c' frame = Some (mk_upcall 6 (our_ip c) mac seg) /\
     get_be16 seg 0 = TCP_TEST_PORT /\ get_be16 seg 2 = port /\ get_be32 seg 4 = 1000 /\
     get_be32 seg 8 = u32 (seq + 1) /\ byte_at seg 13 = Z.lor TCP_FLAG_SYN TCP_FLAG_ACK /\
     ip_checksum (tcp_pseudo (our_ip c) (our_ip c') (Z.of_nat (length seg)) ++ seg) = 0) /\
  frames2 = [] /\ state (conn_at s2 i) = TCP_ESTABLISHED /\ accepted (conn_at s2 i) = false /\
  remote_ip (conn_at s2 i) = our_ip c' /\ remote_port (conn_at s2 i) = port /\
  our_seq (conn_at s2 i) = 1001 /\ their_seq (conn_at s2 i) = u32 (seq + 1) /\
  rx_list (rx (conn_at s2 i)) = [] /\ tcp_accept_scan s2 <> None.
Proof.
  intros Hinv Hc Hc' Hm Hm' Hf Ha Hseq (B1 & L1 & P1 & D1 & S1 & A1 & F1) (B2 & L2 & P2 & D2 & S2 & A2 & F2).
  pose proof (alloc_connection_Some _ _ Ha) as [Hi _].
  assert (Hport : is_u16 port) by (rewrite <- P1; by apply get_be16_is).
  pose proof (tcp_receive_inv c mac now s (our_ip c') mac' syn beyond Hinv Hc' Hm' B1) as Hinv1.
  revert Hinv1. unfold tcp_receive at 1 2. rewrite (proj2 (Z.ltb_ge _ _) L1), D1, P1, Hf, F1, S1, Ha.
  change (negb (TCP_TEST_PORT =? TCP_TEST_PORT)) with false.
  change (flag TCP_FLAG_SYN TCP_FLAG_SYN && negb (flag TCP_FLAG_SYN TCP_FLAG_ACK)) with true. cbn [negb].
  destruct (receive_syn_eq c mac now s i (our_ip c') mac' port seq) as (k & t & -> & Hk & Hpend).
  cbn [snd]. set (s1 := set_conn _ _ _). intros Hinv1.
  assert (E1 : conn_at s1 i = with_our_seq (with_tx k t) 1001) by (unfold s1; by apply conn_at_set).
  assert (Hf1 : tcp_find_connection s1 (our_ip c') port = Some i).
  { pose proof (find_open s1 i Hinv1 Hi) as H. rewrite E1, Hk in H. cbn in H. by apply H. }
  unfold tcp_receive. rewrite (proj2 (Z.ltb_ge _ _) L2), D2, P2, Hf1, F2, S2, A2.
  change (negb (TCP_TEST_PORT =? TCP_TEST_PORT)) with false.
  change (flag TCP_FLAG_ACK TCP_FLAG_RST) with false. change (flag TCP_FLAG_ACK TCP_FLAG_SYN) with false.
  cbn [andb]. unfold receive_known. rewrite E1.
  change (flag TCP_FLAG_ACK TCP_FLAG_ACK) with true. change (flag TCP_FLAG_ACK TCP_FLAG_SYN) with false.
  rewrite Hk. cbn [with_our_seq with_tx syn_conn state our_seq their_seq tx].
  rewrite bool_decide_true by done. rewrite !Z.eqb_refl. cbn [andb negb].
  destruct (tcp_rtt_sample t now') as [m t2]. cbn zeta.
  destruct (conn_at_valid s i Hinv Hi) as [_ [K1 K2 K3 K4 K5 K6 [R1 R2 R3] [T1 T2 T3 T4] K9]].
  set (k2 := with_tx (with_state _ _) _). set (s2 := set_conn s1 i k2).
  assert (E2 : conn_at s2 i = k2) by (unfold s2; by apply conn_at_set).
  rewrite E2. unfold k2. cbn. split.
  { destruct (tcp_segment_delivers c c' mac k 18 1000 (u32 (seq + 1)) []) as
      (seg & Er & G1 & G2 & G3 & G4 & G5 & _ & G7);
      [done|done|by rewrite Hk|by rewrite Hk|by rewrite Hk|by rewrite Hk|by rewrite Hk
      |unfold is_byte; lia|unfold is_u32; lia|apply u32_is|constructor|cbn; lia|].
    exists (tcp_send_segment c mac k 18 1000 (u32 (seq + 1)) []), seg. subst k.
    split_and!; done. }
  split_and!; try done. unfold tcp_accept_scan. destruct (find_from _ _ _) eqn:Efind; [done|].
  rewrite find_from_None in Efind. specialize (Efind i ltac:(unfold MAX_TCP_CONNECTIONS in *; lia)).
  rewrite E2 in Efind. done.
Qed.

(** ** The byte stream *)
Lemma receive_established c mac now s i data beyond seq ack flags :
  tcp_inv s -> 0 <= i < MAX_TCP_CONNECTIONS -> state (conn_at s i) = TCP_ESTABLISHED ->
  carries data (remote_port (conn_at s i)) seq ack flags ->
  flag flags TCP_FLAG_RST = false -> flag flags TCP_FLAG_SYN = false ->
  forall mac', tcp_receive c mac now s (remote_ip (conn_at s i)) mac' data beyond =
    let '(m, f, k) := established_receive c mac now (conn_at s i) data beyond seq ack
                        (u8 (Z.shiftr (byte_at data 12) 4 * 4)) flags in (m, f, set_conn s i k).
Proof.
  intros Hinv Hi Hst (B & L & P & D & S & A & F) Hr Hs mac'.
  unfold tcp_receive. rewrite (proj2 (Z.ltb_ge _ _) L), D, P, S, A, F.
  rewrite find_open by (done || congruence). rewrite Hr, Hs. cbn [andb].
  change (negb (TCP_TEST_PORT =? TCP_TEST_PORT)) with false.
  unfold receive_known. rewrite Hst. rewrite bool_decide_false, bool_decide_true by done. done.
Qed.


(** ** Concrete runs *)
Module Demo.
Definition server : ip_config := ip_set_address ip_boot [192; 0; 2; 50].
Definition client : ip_config := ip_set_address ip_boot [192; 0; 2; 1].
Definition server_mac : list Z := [2; 0; 0; 0; 0; 1].
Definition client_mac : list Z := [2; 0; 0; 0; 0; 2].
Definition syn : list Z := [156; 64; 0; 7; 0; 0; 0; 100; 0; 0; 0; 0; 80; 2; 16; 0; 0; 0; 0; 0].
Definition ackseg : list Z := [156; 64; 0; 7; 0; 0; 0; 101; 0; 0; 3; 233; 80; 16; 16; 0; 0; 0; 0; 0].
Definition hello : list Z := [156; 64; 0; 7; 0; 0; 0; 101; 0; 0; 3; 233; 80; 24; 16; 0; 0; 0; 0; 0; 104; 105].
Definition after_syn : tcp := (tcp_receive server server_mac 10 tcp_boot (our_ip client) client_mac syn []).2.
Definition established : tcp := (tcp_receive server server_mac 12 after_syn (our_ip client) client_mac ackseg []).2.

Lemma addrs : ipv4 (our_ip server) /\ ipv4 (our_ip client) /\ mac_addr server_mac /\ mac_addr client_mac.
Proof. split_and!; try done; repeat constructor; unfold is_byte; lia. Qed.

Lemma after_syn_inv : tcp_inv after_syn.
Proof.
  destruct addrs as (_ & H1 & _ & H2). apply tcp_receive_inv; [apply tcp_boot_inv|done|done|].
  repeat constructor; unfold is_byte; lia.
Qed.

Lemma established_inv : tcp_inv established.
Proof.
  destruct addrs as (_ & H1 & _ & H2). apply tcp_receive_inv; [apply after_syn_inv|done|done|].
  repeat constructor; unfold is_byte; lia.
Qed.
End Demo.
Import Demo.



Lemma tcp_handshake_witness :
  state (conn_at established 0) = TCP_ESTABLISHED /\ tcp_accept_scan established <> None.
Proof.
  destruct addrs as (H1 & H2 & H3 & H4).
  pose proof (tcp_handshake server client server_mac client_mac 10 12 tcp_boot syn ackseg 40000 100 0 [] []
    tcp_boot_inv H1 H2 H3 H4) as H.
  unfold established, after_syn.
  destruct (tcp_receive server server_mac 10 tcp_boot (our_ip client) client_mac syn []) as [[m1 f1] s1]. cbn [snd].
  destruct (tcp_receive server server_mac 12 s1 (our_ip client) client_mac ackseg []) as [[m2 f2] s2]. cbn [snd].
  destruct H as (_ & _ & Hst & _ & _ & _ & _ & _ & _ & Hacc);
    [vm_compute; reflexivity|vm_compute; reflexivity|unfold is_u32; lia
    |split; [repeat constructor; unfold is_byte; lia|vm_compute; intuition discriminate]
    |split; [repeat constructor; unfold is_byte; lia|vm_compute; intuition discriminate]|].
  split; [exact Hst|exact Hacc].
Defined.


(** A segment of 1453 to 1460 payload bytes, which [tcp_socket_send] builds,
    is cut by the 1472-byte limit of [ip_send]: the peer gets fewer bytes than
    the sequence numbers count and a checksum that does not verify, so every
    retransmission of it fails too. *)
Example tcp_full_segment_is_cut :
  let k := conn_at established 0 in
  match ip_receive client (tcp_send_segment server server_mac k 24 1001 101 (replicate 1460 65)) with
  | Some up => Z.of_nat (length (up_data up)) = 1472 /\
      ip_checksum (tcp_pseudo (our_ip server) (our_ip client) 1472 ++ up_data up) <> 0
  | None => False
  end.
Proof. vm_compute. split; [reflexivity|discriminate]. Qed.

(** A header that claims options it does not have makes the length wrap: the
    bytes that happen to follow the segment in memory reach the program. *)
Example tcp_short_segment_leaks :
  let seg := [156; 64; 0; 7; 0; 0; 0; 101; 0; 0; 3; 233; 240; 24; 16; 0; 0; 0; 0; 0] in
  let '(_, _, s') := tcp_receive server server_mac 20 established (our_ip client) client_mac seg
                       (replicate 40 0 ++ [115; 101; 99; 114; 101; 116]) in
  rx_list (rx (conn_at s' 0)) = [115; 101; 99; 114; 101; 116].
Proof. vm_compute. reflexivity. Qed.
