(* ===== verification/Dns.v ===== *)
(** * The DNS resolver (src/src/dns.c)

    Encoding a query, sending it through the route to the server, waiting for
    the captured reply, and finding the first address record in it. *)
From S2P Require Import Prelude Ip Arp Udp.

Definition DNS_PORT : Z := 53.
Definition DNS_QUERY_LOCAL_PORT : Z := 53000.
Definition DNS_TIMEOUT_TICKS : Z := 200.
Definition DNS_MAX_NAME_LEN : Z := 253.

Record dns := mk_dns { dns_server_ip : list Z; dns_server_configured : bool }.
Definition dns_boot : dns := mk_dns [0; 0; 0; 0] false.
Definition dns_set_server (d : dns) (server_ip : list Z) : dns := mk_dns server_ip true.

(** ** Encoding a name *)

(** The loop of [dns_encode_name] at character [i], with the label that starts
    at [label_start] and the bytes written so far. *)
Fixpoint encode_loop (fuel : nat) (hostname : list Z) (out_size : Z) (out : list Z) (label_start i : Z)
    : res (list Z) :=
  match fuel with
  | O => Fuel
  | S fuel =>
      let c := byte_at hostname i in
      let continue out label_start :=
        if DNS_MAX_NAME_LEN <? i + 1 then Err
        else encode_loop fuel hostname out_size out label_start (i + 1) in
      if (c =? 46) || (c =? 0) then
        let label_len := i - label_start in
        if (label_len =? 0) || (63 <? label_len) || (out_size <=? Z.of_nat (length out) + 1 + label_len) then Err
        else
          let out := out ++ u8 label_len :: take (Z.to_nat label_len) (drop (Z.to_nat label_start) hostname) in
          if c =? 0 then if out_size <=? Z.of_nat (length out) then Err else OK (out ++ [0])
          else continue out (i + 1)
      else continue out label_start
  end.

(** The index stays below 254, so that many turns are enough. *)
Definition dns_encode_name (hostname : list Z) (out_size : Z) : res (list Z) :=
  encode_loop 254 hostname out_size [] 0 0.

Definition query_header : list Z := [18; 52; 1; 0; 0; 1; 0; 0; 0; 0; 0; 0].
Definition dns_query (hostname : list Z) : res (list Z) :=
  let! name := dns_encode_name hostname (512 - 12 - 4) in
  OK (query_header ++ name ++ [0; 1; 0; 1]).

(** ** Parsing a reply

    A read outside the received bytes is [Err]. *)
Definition rd (l : list Z) (i : Z) : res Z :=
  if (0 <=? i) && (i <? Z.of_nat (length l)) then OK (byte_at l i) else Err.

Definition rd16 (l : list Z) (i : Z) : res Z :=
  let! hi := rd l i in let! lo := rd l (i + 1) in OK (Z.lor (Z.shiftl hi 8) lo).

(** [while (pos < response_len && response[pos] != 0) pos += response[pos] + 1] *)
Fixpoint skip_name (fuel : nat) (response : list Z) (pos : Z) : res Z :=
  match fuel with
  | O => Fuel
  | S fuel =>
      if Z.of_nat (length response) <=? pos then OK pos
      else
        let! b := rd response pos in
        if b =? 0 then OK pos else skip_name fuel response (pos + b + 1)
  end.

(** The position advances at every turn, so the length is enough fuel. *)
Definition skip_labels (response : list Z) (pos : Z) : res Z :=
  skip_name (S (length response)) response pos.

(** The loop over the answer records, [count] of which remain. *)
Fixpoint find_a_record (count : nat) (response : list Z) (pos : Z) : res (option (list Z)) :=
  match count with
  | O => OK None
  | S count =>
      let response_len := Z.of_nat (length response) in
      if response_len <=? pos then OK None
      else
        let! b := rd response pos in
        let! pos := if Z.land b 192 =? 192 then OK (pos + 2)
                    else let! p := skip_labels response pos in OK (p + 1) in
        if response_len <? pos + 10 then OK None
        else
          let! rtype := rd16 response pos in
          let! rdlength := rd16 response (pos + 8) in
          let pos := pos + 10 in
          if (rtype =? 1) && (rdlength =? 4) && (pos + 4 <=? response_len) then
            let! a := rd response pos in let! b := rd response (pos + 1) in
            let! c := rd response (pos + 2) in let! d := rd response (pos + 3) in
            OK (Some [a; b; c; d])
          else find_a_record count response (pos + rdlength)
  end.

(** The checks of [dns_resolve] after the header, with their messages. *)
Definition dns_parse (response : list Z) : res (list tty * option (list Z)) :=
  let! ancount := rd16 response 6 in
  if ancount =? 0 then OK ([TLn "DNS: no answer records (NXDOMAIN or empty response)"], None)
  else
    let! pos := skip_labels response 12 in
    let! found := find_a_record (Z.to_nat ancount) response (pos + (1 + 4)) in
    match found with
    | Some ip => OK ([TLn "DNS: resolved"], Some ip)
    | None => OK ([TLn "DNS: no A record found in response"], None)
    end.

(** ** The resolver *)
Section Resolve.
Context {N : Type} `{Nic N}.

(** [now] is the clock when the wait begins and [interrupts] what happens
    during it; the last component is the address, or [Err]. *)
Definition dns_resolve (n : N) (a : arp) (c : ip_config) (u : udp) (d : dns) (hostname : list Z)
    (now : Z) (interrupts : list (Z * (udp -> udp)))
    : list tty * N * arp * udp * res (list Z) :=
  if negb (dns_server_configured d) then ([TLn "DNS: no server configured"], n, a, u, Err)
  else
    let '(m1, n, a, route) := ip_resolve_route n a c (dns_server_ip d) in
    match route with
    | None => (m1 ++ [TLn "DNS: could not resolve a route to the DNS server"], n, a, u, Err)
    | Some dns_mac =>
        match dns_query hostname with
        | OK query =>
            let u := udp_arm_response_capture u DNS_QUERY_LOCAL_PORT in
            let '(n, _) := nic_send n (udp_send c (nic_mac n) DNS_QUERY_LOCAL_PORT DNS_PORT
                                         (dns_server_ip d) dns_mac query) in
            let m2 := m1 ++ [TStr "DNS: query sent for "; TBytes hostname; TLn ""] in
            let '(u, r) := udp_wait u 512 now DNS_TIMEOUT_TICKS now interrupts in
            match r with
            | WTimeout => (m2 ++ [TLn "DNS: timed out waiting for reply"], n, a, u, Err)
            | WBlocked => (m2, n, a, u, Fuel)
            | WGot response src =>
                if Z.of_nat (length response) <? 12 then
                  (m2 ++ [TLn "DNS: reply too short to hold a header"], n, a, u, Err)
                else if negb (bool_decide (src = dns_server_ip d)) then
                  (m2 ++ [TLn "DNS: reply came from an unexpected source, ignoring"], n, a, u, Err)
                else match dns_parse response with
                     | OK (m3, Some ip) => (m2 ++ m3, n, a, u, OK ip)
                     | OK (m3, None) => (m2 ++ m3, n, a, u, Err)
                     | Err => (m2, n, a, u, Err)
                     | Fuel => (m2, n, a, u, Fuel)
                     end
            end
        | _ => (m1 ++ [TLn "DNS: hostname too long or malformed"], n, a, u, Err)
        end
    end.
End Resolve.

(** ** Names *)

(** The labels of a host name, and their encoding. *)
Fixpoint labels_from (label rest : list Z) : list (list Z) :=
  match rest with
  | [] => [label]
  | c :: rest => if c =? 46 then label :: labels_from [] rest else labels_from (label ++ [c]) rest
  end.
Definition labels (hostname : list Z) : list (list Z) := labels_from [] hostname.

Definition encode_label (l : list Z) : list Z := Z.of_nat (length l) :: l.
Definition encode_labels (ls : list (list Z)) : list Z := mjoin (map encode_label ls) ++ [0].

Definition good_label (l : list Z) : bool := (0 <? Z.of_nat (length l)) && (Z.of_nat (length l) <=? 63).

(** The bytes of a name grow by one per label. *)
Lemma labels_length label rest :
  Z.of_nat (length (mjoin (map encode_label (labels_from label rest))))
    = Z.of_nat (length label) + Z.of_nat (length rest) + 1.
Proof.
  revert label. induction rest as [|c rest IH]; intros label; cbn [labels_from].
  - cbn [map]. rewrite join_cons. unfold encode_label. cbn. rewrite app_nil_r. lia.
  - destruct (c =? 46).
    + cbn [map]. rewrite join_cons, length_app, Nat2Z.inj_add, IH. unfold encode_label. cbn [length]. lia.
    + rewrite IH, length_app. cbn [length]. lia.
Qed.

(** The guard on a finished label, while the output is no longer than the
    input read: only the label's own length can fail it. *)
Lemma label_check (label out : list Z) (pos : Z) :
  Z.of_nat (length out) <= pos -> pos + Z.of_nat (length label) <= 253 ->
  (Z.of_nat (length label) =? 0) || (63 <? Z.of_nat (length label))
  || (496 <=? Z.of_nat (length out) + 1 + Z.of_nat (length label)) = negb (good_label label).
Proof.
  intros Ho Hp. unfold good_label.
  destruct (Z.eqb_spec (Z.of_nat (length label)) 0), (Z.ltb_spec 63 (Z.of_nat (length label))),
    (Z.ltb_spec 0 (Z.of_nat (length label))), (Z.leb_spec (Z.of_nat (length label)) 63),
    (Z.leb_spec 496 (Z.of_nat (length out) + 1 + Z.of_nat (length label))); try lia; done.
Qed.

Lemma good_label_u8 label : good_label label = true -> u8 (Z.of_nat (length label)) = Z.of_nat (length label).
Proof. unfold good_label. intros Hg. zbool. apply u8_small. unfold is_byte. lia. Qed.

Lemma encode_loop_spec fuel pre label rest out :
  c_string (label ++ rest) ->
  (length (pre ++ label) + fuel = 254)%nat -> (0 < fuel)%nat ->
  Z.of_nat (length out) <= Z.of_nat (length pre) ->
  encode_loop fuel (pre ++ label ++ rest) 496 out (Z.of_nat (length pre)) (Z.of_nat (length (pre ++ label)))
  = if forallb good_label (labels_from label rest) && (Z.of_nat (length (pre ++ label ++ rest)) <=? 253)
    then OK (out ++ encode_labels (labels_from label rest)) else Err.
Proof.
  revert pre label rest out. induction fuel as [|fuel IH]; intros pre label rest out Hs Hf Hpos Hout; [lia|].
  cbn [encode_loop]. rewrite app_assoc. set (i := Z.of_nat (length (pre ++ label))).
  assert (Hi : i = Z.of_nat (length pre) + Z.of_nat (length label)) by (unfold i; rewrite length_app; lia).
  assert (Htake : take (Z.to_nat (i - Z.of_nat (length pre))) (drop (Z.to_nat (Z.of_nat (length pre)))
    ((pre ++ label) ++ rest)) = label).
  { rewrite <- app_assoc, Nat2Z.id, drop_app_length. rewrite take_app_length'; [done|]. lia. }
  assert (Hll : i - Z.of_nat (length pre) = Z.of_nat (length label)) by lia. rewrite Hll in *.
  pose proof (label_check label out (Z.of_nat (length pre)) Hout ltac:(rewrite length_app in Hf; lia)) as Hbad.
  pose proof (good_label_u8 label) as Hu8.
  destruct rest as [|c rest].
  - assert (Hc : byte_at ((pre ++ label) ++ []) i = 0).
    { unfold byte_at, i. rewrite Nat2Z.id, app_nil_r, lookup_ge_None_2 by lia. done. }
    rewrite Hc. cbn [orb]. change (0 =? 46) with false. change (0 =? 0) with true. cbn [orb].
    rewrite Hbad. cbn [labels_from forallb]. rewrite andb_true_r.
    destruct (good_label label) eqn:Eg; cbn [negb]; [|done]. rewrite Hu8, Htake by done.
    rewrite app_nil_r, (proj2 (Z.leb_le _ 253)) by (rewrite length_app in *; lia). cbn [andb].
    rewrite (proj2 (Z.leb_gt _ _)).
    + unfold encode_labels. cbn [map]. rewrite join_cons. unfold encode_label at 1. cbn.
      by rewrite app_nil_r, <- app_assoc.
    + unfold good_label in Eg. zbool. rewrite length_app. rewrite length_app in Hf. cbn [length]. lia.
  - assert (Hc : byte_at ((pre ++ label) ++ c :: rest) i = c).
    { unfold byte_at, i. rewrite Nat2Z.id, lookup_app_r, Nat.sub_diag by lia. done. }
    rewrite Hc. assert (Hc0 : c <> 0).
    { apply Forall_app in Hs as [_ Hs]. apply Forall_cons in Hs as [Hs _]. lia. }
    rewrite (proj2 (Z.eqb_neq c 0) Hc0), orb_false_r. cbn [labels_from].
    unfold DNS_MAX_NAME_LEN.
    assert (Hlen : Z.of_nat (length ((pre ++ label) ++ c :: rest)) = i + 1 + Z.of_nat (length rest))
      by (rewrite length_app; cbn [length]; lia).
    rewrite Hlen. destruct (Z.eqb_spec c 46) as [->|Hdot].
    + rewrite Hbad. cbn [forallb]. destruct (good_label label) eqn:Eg; cbn [negb andb]; [|done].
      rewrite Hu8, Htake by done.
      destruct (Z.ltb_spec 253 (i + 1)); [rewrite (proj2 (Z.leb_gt _ _)) by lia; by rewrite andb_false_r|].
      specialize (IH ((pre ++ label) ++ [46]) [] rest (out ++ encode_label label)).
      rewrite app_nil_r in IH. replace (Z.of_nat (length ((pre ++ label) ++ [46]))) with (i + 1) in IH
        by (rewrite length_app; cbn [length]; lia).
      replace (((pre ++ label) ++ [46]) ++ [] ++ rest) with ((pre ++ label) ++ 46 :: rest) in IH
        by (by rewrite <- (app_assoc (pre ++ label))). fold (encode_label label). rewrite IH, Hlen.
      * unfold encode_labels. cbn [map]. rewrite join_cons. by rewrite <- !app_assoc.
      * apply Forall_app in Hs as [_ Hs]. by apply Forall_cons in Hs as [_ Hs].
      * rewrite length_app in *. cbn [length]. lia.
      * rewrite length_app in Hf. lia.
      * rewrite !length_app. unfold encode_label. cbn [length]. lia.
    + destruct (Z.ltb_spec 253 (i + 1)); [rewrite (proj2 (Z.leb_gt _ _)) by lia; by rewrite andb_false_r|].
      specialize (IH pre (label ++ [c]) rest out).
      replace (pre ++ (label ++ [c]) ++ rest) with ((pre ++ label) ++ c :: rest) in IH
        by (by rewrite <- !app_assoc).
      replace (Z.of_nat (length (pre ++ label ++ [c]))) with (i + 1) in IH
        by (rewrite app_assoc, length_app; cbn [length]; lia).
      rewrite IH, Hlen; [done|by rewrite <- app_assoc| | |done].
      * rewrite app_assoc, length_app. cbn [length]. lia.
      * rewrite length_app in Hf. lia.
Qed.

(** Reading a name back: its labels, joined with dots. *)
Fixpoint decode_labels (fuel : nat) (l : list Z) : option (list (list Z)) :=
  match fuel, l with
  | S fuel, n :: rest =>
      if n =? 0 then Some []
      else if Z.of_nat (length rest) <? n then None
      else match decode_labels fuel (drop (Z.to_nat n) rest) with
           | Some ls => Some (take (Z.to_nat n) rest :: ls)
           | None => None
           end
  | _, _ => None
  end.

Fixpoint join_dots (ls : list (list Z)) : list Z :=
  match ls with
  | [] => []
  | [l] => l
  | l :: rest => l ++ 46 :: join_dots rest
  end.

Lemma labels_from_cons label rest : exists l ls, labels_from label rest = l :: ls.
Proof.
  revert label. induction rest as [|c rest IH]; intros label; cbn [labels_from]; [eauto|].
  destruct (c =? 46); [eauto|apply IH].
Qed.

Lemma join_labels label rest : join_dots (labels_from label rest) = label ++ rest.
Proof.
  revert label. induction rest as [|c rest IH]; intros label; cbn [labels_from].
  { by rewrite app_nil_r. }
  destruct (Z.eqb_spec c 46) as [->|].
  - specialize (IH []). destruct (labels_from_cons [] rest) as (l & ls & E). rewrite E in *.
    cbn [join_dots]. cbn [join_dots] in IH. by rewrite IH.
  - rewrite IH. by rewrite <- app_assoc.
Qed.

Lemma decode_encode ls post fuel : forallb good_label ls = true -> (length ls < fuel)%nat ->
  decode_labels fuel (encode_labels ls ++ post) = Some ls.
Proof.
  revert fuel. induction ls as [|l ls IH]; intros fuel Hg Hf; (destruct fuel as [|fuel]; [lia|]); [done|].
  cbn [forallb length] in Hg, Hf. apply andb_true_iff in Hg as [Hl Hg]. unfold good_label in Hl. zbool.
  unfold encode_labels in *. cbn [map]. rewrite join_cons. unfold encode_label at 1. cbn [app].
  rewrite <- !app_assoc. cbn [decode_labels]. rewrite (proj2 (Z.eqb_neq _ _)) by lia.
  rewrite (proj2 (Z.ltb_ge _ _)) by (rewrite length_app; lia).
  rewrite Nat2Z.id, drop_app_length, take_app_length. rewrite app_assoc, IH by (done || lia). done.
Qed.

(** Encoding a host name for a query succeeds exactly for names of at most
    253 characters whose labels have 1 to 63 of them, always terminates, and
    produces the labels with their lengths and the root label: two bytes more
    than the name, which decode to the labels and, joined with dots, to it. *)
Theorem dns_encode_name_spec hostname : c_string hostname ->
  (forallb good_label (labels hostname) && (Z.of_nat (length hostname) <=? 253) = true ->
   exists enc, dns_encode_name hostname (512 - 12 - 4) = OK enc /\
     length enc = (length hostname + 2)%nat /\
     decode_labels (S (length (labels hostname))) enc = Some (labels hostname) /\
     join_dots (labels hostname) = hostname) /\
  (forallb good_label (labels hostname) && (Z.of_nat (length hostname) <=? 253) = false ->
   dns_encode_name hostname (512 - 12 - 4) = Err).
Proof.
  intros Hs. pose proof (encode_loop_spec 254 [] [] hostname [] Hs eq_refl ltac:(lia) ltac:(cbn; lia)) as E.
  cbn [app length] in E. unfold dns_encode_name. change (512 - 12 - 4) with 496. change 0 with (Z.of_nat 0).
  rewrite E. fold (labels hostname). split; intros Hg; rewrite Hg; [|done].
  apply andb_true_iff in Hg as [Hg _]. eexists. split; [reflexivity|]. cbn [app]. split.
  - unfold encode_labels, labels. rewrite length_app. pose proof (labels_length [] hostname). cbn [length] in *. lia.
  - split; [|apply (join_labels [] hostname)].
    rewrite <- (app_nil_r (encode_labels _)). apply decode_encode; [done|lia].
Qed.

(** ** Replies *)

(** The form of an answer record. *)
Record rr := mk_rr {
  rr_name : list Z;    (* a pointer or labels *)
  rr_type : Z;
  rr_class_ttl : list Z;
  rr_data : list Z }.

Definition encode_rr (r : rr) : list Z :=
  rr_name r ++ put_be16 (rr_type r) ++ rr_class_ttl r ++ put_be16 (Z.of_nat (length (rr_data r))) ++ rr_data r.

Definition wire_name (l : list Z) : Prop :=
  (exists hi lo, l = [192 + hi; lo] /\ 0 <= hi < 64) \/
  (exists ls, l = encode_labels ls /\ forallb good_label ls = true).

Record rr_ok (r : rr) : Prop := {
  ro_name : wire_name (rr_name r);
  ro_type : is_u16 (rr_type r);
  ro_mid : length (rr_class_ttl r) = 6%nat;
  ro_data : Z.of_nat (length (rr_data r)) < 65536 }.

Lemma rd_mid pre l post j b : 0 <= j -> l !! Z.to_nat j = Some b ->
  rd (pre ++ l ++ post) (Z.of_nat (length pre) + j) = OK b.
Proof.
  intros Hj Hl. assert (Hb := Hl). apply lookup_lt_Some in Hb. unfold rd.
  rewrite (proj2 (Z.leb_le _ _)), (proj2 (Z.ltb_lt _ _)) by (rewrite ?length_app; lia). cbn [andb].
  unfold byte_at. rewrite lookup_app_r by lia.
  replace (Z.to_nat (Z.of_nat (length pre) + j) - length pre)%nat with (Z.to_nat j) by lia.
  by rewrite (lookup_app_l_Some _ _ _ _ Hl).
Qed.

Lemma rd16_mid pre v post j l : 0 <= j -> is_u16 v -> l !! Z.to_nat j = Some (v / 256) ->
  l !! Z.to_nat (j + 1) = Some (v mod 256) -> rd16 (pre ++ l ++ post) (Z.of_nat (length pre) + j) = OK v.
Proof.
  intros Hj Hv H0 H1. unfold rd16. rewrite (rd_mid _ _ _ _ _ Hj H0). cbn [rbind].
  replace (Z.of_nat (length pre) + j + 1) with (Z.of_nat (length pre) + (j + 1)) by lia.
  rewrite (rd_mid _ _ _ (j + 1) _ ltac:(lia) H1). cbn [rbind]. unfold is_u16 in Hv.
  rewrite be16_lor by dlia. f_equal. dlia.
Qed.

(** Skipping a name lands on its root label. *)
Lemma skip_name_encoded fuel pre ls post : forallb good_label ls = true -> (length ls < fuel)%nat ->
  skip_name fuel (pre ++ encode_labels ls ++ post) (Z.of_nat (length pre))
    = OK (Z.of_nat (length pre) + Z.of_nat (length (encode_labels ls)) - 1).
Proof.
  revert fuel pre. induction ls as [|l ls IH]; intros fuel pre Hg Hf; (destruct fuel as [|fuel]; [lia|]);
    cbn [skip_name]; rewrite (proj2 (Z.leb_gt _ _))
      by (rewrite !length_app; unfold encode_labels; rewrite length_app; cbn [length]; lia).
  - rewrite <- (Z.add_0_r (Z.of_nat (length pre))), (rd_mid _ _ _ 0 0) by done. cbn. f_equal. lia.
  - cbn [forallb length] in Hg, Hf. apply andb_true_iff in Hg as [Hl Hg]. unfold good_label in Hl. zbool.
    assert (E : encode_labels (l :: ls) = encode_label l ++ encode_labels ls)
      by (unfold encode_labels; cbn [map]; by rewrite join_cons, <- app_assoc).
    rewrite <- (Z.add_0_r (Z.of_nat (length pre))) at 1.
    rewrite (rd_mid _ _ _ 0 (Z.of_nat (length l))) by (rewrite ?E; done). cbn [rbind].
    rewrite (proj2 (Z.eqb_neq _ _)) by lia. rewrite E.
    specialize (IH fuel (pre ++ encode_label l) Hg ltac:(lia)). rewrite <- !app_assoc in IH.
    replace (Z.of_nat (length pre) + Z.of_nat (length l) + 1) with (Z.of_nat (length (pre ++ encode_label l)))
      by (rewrite length_app; unfold encode_label; cbn [length]; lia).
    rewrite <- app_assoc, IH. f_equal. rewrite !length_app. lia.
Qed.

Lemma encode_labels_length ls : (length ls < length (encode_labels ls))%nat.
Proof.
  unfold encode_labels. rewrite length_app. cbn [length]. induction ls as [|l ls IH]; [cbn; lia|].
  cbn [map length]. rewrite join_cons, length_app. unfold encode_label at 1. cbn [length]. lia.
Qed.

Lemma skip_labels_encoded pre ls post : forallb good_label ls = true ->
  skip_labels (pre ++ encode_labels ls ++ post) (Z.of_nat (length pre))
    = OK (Z.of_nat (length pre) + Z.of_nat (length (encode_labels ls)) - 1).
Proof.
  intros Hg. apply skip_name_encoded; [done|]. pose proof (encode_labels_length ls). rewrite !length_app. lia.
Qed.

Lemma land_pointer b : 192 <= b < 256 -> Z.land b 192 = 192.
Proof.
  intros Hb. assert (H : forallb (fun k => Z.land (192 + Z.of_nat k) 192 =? 192) (seq 0 64) = true) by done.
  rewrite forallb_forall in H. specialize (H (Z.to_nat (b - 192))). rewrite in_seq in H.
  specialize (H ltac:(lia)). apply Z.eqb_eq in H. by replace (192 + Z.of_nat (Z.to_nat (b - 192))) with b in H by lia.
Qed.

Lemma land_no_pointer b : 0 <= b < 64 -> Z.land b 192 = 0.
Proof.
  intros Hb. assert (H : forallb (fun k => Z.land (Z.of_nat k) 192 =? 0) (seq 0 64) = true) by done.
  rewrite forallb_forall in H. specialize (H (Z.to_nat b)). rewrite in_seq in H.
  specialize (H ltac:(lia)). apply Z.eqb_eq in H. by rewrite Z2Nat.id in H by lia.
Qed.

(** Either form of name is stepped over. *)
Lemma name_skipped pre name post : wire_name name ->
  Z.of_nat (length pre) < Z.of_nat (length (pre ++ name ++ post)) /\
  exists b, rd (pre ++ name ++ post) (Z.of_nat (length pre)) = OK b /\
  (if Z.land b 192 =? 192 then OK (Z.of_nat (length pre) + 2)
   else let! p := skip_labels (pre ++ name ++ post) (Z.of_nat (length pre)) in OK (p + 1))
  = OK (Z.of_nat (length (pre ++ name))).
Proof.
  intros [(hi & lo & -> & Hh)|(ls & -> & Hg)].
  - split; [rewrite !length_app; cbn [length]; lia|]. exists (192 + hi).
    rewrite <- (Z.add_0_r (Z.of_nat (length pre))) at 1. rewrite (rd_mid _ _ _ 0 (192 + hi)) by done.
    split; [done|]. rewrite land_pointer by lia. rewrite length_app. cbn. f_equal. lia.
  - pose proof (encode_labels_length ls) as Hlen. split; [rewrite !length_app; lia|].
    assert (Hb : exists b, encode_labels ls !! 0%nat = Some b /\ 0 <= b < 64).
    { destruct ls as [|l ls]; [exists 0; done|]. exists (Z.of_nat (length l)).
      cbn [forallb] in Hg. apply andb_true_iff in Hg as [Hl _]. unfold good_label in Hl. zbool. split; [done|lia]. }
    destruct Hb as (b & Hb & Hr). exists b. rewrite <- (Z.add_0_r (Z.of_nat (length pre))) at 1.
    rewrite (rd_mid _ _ _ 0 b) by done. split; [done|]. rewrite land_no_pointer by done. cbn [Z.eqb].
    rewrite skip_labels_encoded by done. cbn [rbind]. f_equal. rewrite length_app. lia.
Qed.

(** One turn of the search, on a record. *)
Lemma find_a_step n pre r post : rr_ok r ->
  find_a_record (S n) (pre ++ encode_rr r ++ post) (Z.of_nat (length pre))
  = if (rr_type r =? 1) && (Z.of_nat (length (rr_data r)) =? 4) then OK (Some (rr_data r))
    else find_a_record n (pre ++ encode_rr r ++ post) (Z.of_nat (length (pre ++ encode_rr r))).
Proof.
  intros [Hn Ht Hm Hd]. cbn [find_a_record]. set (resp := pre ++ encode_rr r ++ post).
  set (tail := put_be16 (rr_type r) ++ rr_class_ttl r ++ put_be16 (Z.of_nat (length (rr_data r))) ++ rr_data r).
  assert (Er : resp = pre ++ rr_name r ++ (tail ++ post)) by (unfold resp, encode_rr; by rewrite <- app_assoc).
  destruct (name_skipped pre (rr_name r) (tail ++ post) Hn) as (Hlt & b & Hb & Hpos).
  rewrite <- Er in *. rewrite (proj2 (Z.leb_gt _ _)) by lia. rewrite Hb. cbn [rbind]. rewrite Hpos. cbn [rbind].
  set (pre' := pre ++ rr_name r) in *. assert (Er' : resp = pre' ++ tail ++ post) by (unfold pre'; by rewrite <- app_assoc).
  assert (Hdl : is_u16 (Z.of_nat (length (rr_data r)))) by (unfold is_u16; lia).
  destruct r as [nm ty mid dat]. cbn [rr_type rr_class_ttl rr_data rr_name] in *.
  destruct mid as [|m0 [|m1 [|m2 [|m3 [|m4 [|m5 [|]]]]]]]; try done.
  set (T := ty / 256 :: ty mod 256 :: m0 :: m1 :: m2 :: m3 :: m4 :: m5
    :: Z.of_nat (length dat) / 256 :: Z.of_nat (length dat) mod 256 :: dat).
  assert (Et : tail = T) by (unfold tail; by rewrite !put_be16_eq). rewrite Et in Er'. clearbody resp.
  assert (HT : length T = (10 + length dat)%nat) by done.
  rewrite (proj2 (Z.ltb_ge _ _)) by (rewrite Er', !length_app; lia).
  rewrite <- (Z.add_0_r (Z.of_nat (length pre'))) at 1. rewrite Er'.
  rewrite (rd16_mid pre' ty post 0 T) by done. cbn [rbind].
  rewrite (rd16_mid pre' (Z.of_nat (length dat)) post 8 T) by done. cbn [rbind].
  assert (Hend : Z.of_nat (length (pre ++ encode_rr (mk_rr nm ty [m0; m1; m2; m3; m4; m5] dat)))
    = Z.of_nat (length pre') + 10 + Z.of_nat (length dat)).
  { unfold encode_rr, pre'. cbn [rr_name rr_type rr_class_ttl rr_data]. rewrite !length_app.
    rewrite !put_be16_eq by done. cbn [length]. lia. }
  rewrite Hend. destruct (Z.eqb_spec (Z.of_nat (length dat)) 4) as [E4|]; [|by rewrite !andb_false_r].
  rewrite !andb_true_r. rewrite (proj2 (Z.leb_le _ _)) by (rewrite !length_app; lia). rewrite andb_true_r.
  destruct (ty =? 1); [|by rewrite E4]. destruct dat as [|d0 [|d1 [|d2 [|d3 [|]]]]]; cbn [length] in E4; try lia.
  replace (Z.of_nat (length pre') + 10 + 1) with (Z.of_nat (length pre') + 11) by lia.
  replace (Z.of_nat (length pre') + 10 + 2) with (Z.of_nat (length pre') + 12) by lia.
  replace (Z.of_nat (length pre') + 10 + 3) with (Z.of_nat (length pre') + 13) by lia.
  rewrite (rd_mid pre' T post 10 d0), (rd_mid pre' T post 11 d1), (rd_mid pre' T post 12 d2),
    (rd_mid pre' T post 13 d3) by done. done.
Qed.

(** In a well-formed reply (any question, then answers of any type with
    names given in full or as a pointer) the resolver returns the address of
    the first A record, whatever records of other kinds precede it and
    whatever follows. *)
Theorem dns_parse_first_address hdr qname q skipped a tail :
  length hdr = 12%nat -> forallb good_label qname = true -> length q = 4%nat ->
  get_be16 hdr 6 <> 0 -> Forall is_byte hdr -> Z.of_nat (length skipped) < get_be16 hdr 6 ->
  Forall rr_ok skipped -> Forall (fun r => rr_type r <> 1) skipped ->
  rr_ok a -> rr_type a = 1 -> length (rr_data a) = 4%nat ->
  dns_parse (hdr ++ encode_labels qname ++ q ++ mjoin (map encode_rr skipped) ++ encode_rr a ++ tail)
    = OK ([TLn "DNS: resolved"], Some (rr_data a)).
Proof.
  intros Hh Hq Hq4 Hne Hby Hcnt Hok Hty Ha Hat Had. unfold dns_parse.
  set (rest := encode_labels qname ++ q ++ mjoin (map encode_rr skipped) ++ encode_rr a ++ tail).
  assert (Hb : forall j, (j < 12)%nat -> rd (hdr ++ rest) (Z.of_nat j) = OK (byte_at hdr (Z.of_nat j))).
  { intros j Hj. destruct (lookup_lt_is_Some_2 hdr j) as [x Hx]; [lia|].
    pose proof (rd_mid [] hdr rest (Z.of_nat j) x ltac:(lia) ltac:(by rewrite Nat2Z.id)) as E. cbn [app length] in E.
    rewrite Z.add_0_l in E. rewrite E. f_equal. symmetry. apply byte_at_lookup. by rewrite Nat2Z.id. }
  assert (Hc : rd16 (hdr ++ rest) 6 = OK (get_be16 hdr 6)).
  { pose proof (Hb 6%nat ltac:(lia)) as H6. pose proof (Hb 7%nat ltac:(lia)) as H7.
    change (Z.of_nat 6) with 6 in H6. change (Z.of_nat 7) with (6 + 1) in H7.
    unfold rd16, get_be16. by rewrite H6, H7. }
  rewrite Hc. cbn [rbind]. rewrite (proj2 (Z.eqb_neq _ _) Hne).
  unfold rest. pose proof (skip_labels_encoded hdr qname (q ++ mjoin (map encode_rr skipped) ++ encode_rr a ++ tail) Hq) as Hsk.
  rewrite Hh in Hsk. change (Z.of_nat 12) with 12 in Hsk. rewrite Hsk. cbn [rbind].
  assert (Hloop : forall sk pre n, (length sk < n)%nat -> Forall rr_ok sk -> Forall (fun r => rr_type r <> 1) sk ->
    find_a_record n (pre ++ mjoin (map encode_rr sk) ++ encode_rr a ++ tail) (Z.of_nat (length pre)) = OK (Some (rr_data a))).
  { clear -Ha Hat Had. induction sk as [|r sk IH]; intros pre n Hn Hok Hty; (destruct n as [|n]; [cbn in Hn; lia|]).
    - cbn [map app]. change (mjoin []) with (@nil Z). cbn [app]. rewrite find_a_step by done.
      rewrite Hat, Had. done.
    - cbn [map length] in *. rewrite join_cons, <- app_assoc.
      apply Forall_cons in Hok as [Hr Hok]. apply Forall_cons in Hty as [Ht Hty].
      rewrite find_a_step by done. rewrite (proj2 (Z.eqb_neq _ _) Ht). cbn [andb].
      specialize (IH (pre ++ encode_rr r) n ltac:(lia) Hok Hty). rewrite <- !app_assoc in IH. done. }
  specialize (Hloop skipped (hdr ++ encode_labels qname ++ q) (Z.to_nat (get_be16 hdr 6)) ltac:(lia) Hok Hty).
  rewrite <- !app_assoc in Hloop.
  replace (12 + Z.of_nat (length (encode_labels qname)) - 1 + (1 + 4))
    with (Z.of_nat (length (hdr ++ encode_labels qname ++ q))) by (rewrite !length_app; lia).
  rewrite Hloop. done.
Qed.

(** ** Safety *)
Lemma rd_in l i : 0 <= i < Z.of_nat (length l) -> rd l i = OK (byte_at l i).
Proof.
  intros Hi. unfold rd. rewrite (proj2 (Z.leb_le _ _)), (proj2 (Z.ltb_lt _ _)) by lia. done.
Qed.

Lemma rd16_in l i : Forall is_byte l -> 0 <= i -> i + 1 < Z.of_nat (length l) ->
  exists v, rd16 l i = OK v /\ 0 <= v.
Proof.
  intros Hb Hi Hl. unfold rd16. rewrite !rd_in by lia. cbn [rbind]. eexists. split; [done|].
  pose proof (byte_at_byte l i Hb). pose proof (byte_at_byte l (i + 1) Hb). unfold is_byte in *.
  rewrite be16_lor by lia. lia.
Qed.

Lemma skip_name_total l fuel pos : Forall is_byte l -> 0 <= pos -> (0 < fuel)%nat ->
  Z.of_nat (length l) - pos < Z.of_nat fuel -> exists p, skip_name fuel l pos = OK p /\ pos <= p.
Proof.
  intros Hb. revert pos. induction fuel as [|fuel IH]; intros pos Hp H0 Hf; [lia|]. cbn [skip_name].
  destruct (Z.leb_spec (Z.of_nat (length l)) pos); [exists pos; split; [done|lia]|].
  rewrite rd_in by lia. cbn [rbind]. case_if; [exists pos; split; [done|lia]|].
  pose proof (byte_at_byte l pos Hb) as Hbp. unfold is_byte in Hbp.
  destruct (IH (pos + byte_at l pos + 1)) as (p & E & Hle); [lia..|]. exists p. split; [done|lia].
Qed.

Lemma find_a_total l n pos : Forall is_byte l -> 0 <= pos -> exists r, find_a_record n l pos = OK r.
Proof.
  intros Hb. revert pos. induction n as [|n IH]; intros pos Hp; cbn [find_a_record]; [eauto|].
  destruct (Z.leb_spec (Z.of_nat (length l)) pos); [eauto|]. rewrite rd_in by lia. cbn [rbind].
  set (step := if Z.land (byte_at l pos) 192 =? 192 then OK (pos + 2)
               else let! p := skip_labels l pos in OK (p + 1)).
  assert (Hs : exists p, step = OK p /\ pos <= p).
  { unfold step. case_if; [exists (pos + 2); split; [done|lia]|].
    destruct (skip_name_total l (S (length l)) pos) as (p & E & Hle); [done|lia..|].
    unfold skip_labels. rewrite E. exists (p + 1). split; [done|lia]. }
  destruct Hs as (p & -> & Hle). cbn [rbind].
  destruct (Z.ltb_spec (Z.of_nat (length l)) (p + 10)); [eauto|].
  destruct (rd16_in l p) as (ty & -> & _); [done|lia..|]. cbn [rbind].
  destruct (rd16_in l (p + 8)) as (len & -> & Hlen); [done|lia..|]. cbn [rbind].
  case_if; [|apply IH; lia]. rewrite !rd_in by lia. cbn. eauto.
Qed.

(** C40: No reply, however malformed, makes the parser read outside the bytes
    received or loop forever: with at least the header present it always comes
    to an answer. *)
Theorem dns_parse_safe response : Forall is_byte response -> 12 <= Z.of_nat (length response) ->
  exists msgs r, dns_parse response = OK (msgs, r).
Proof.
  intros Hb Hl. unfold dns_parse. destruct (rd16_in response 6) as (n & -> & _); [done|lia..|]. cbn [rbind].
  case_if; [eauto|]. destruct (skip_name_total response (S (length response)) 12) as (p & E & Hp); [done|lia..|].
  unfold skip_labels. rewrite E. cbn [rbind].
  destruct (find_a_total response (Z.to_nat n) (p + (1 + 4)) Hb ltac:(lia)) as (r & ->). cbn [rbind].
  destruct r; eauto.
Qed.

(** ** Concrete names and replies *)
Module Demo.
Definition www : list Z := [119; 119; 119].
Definition host : list Z := www ++ [46; 97; 46; 98].
Definition reply_header : list Z := [18; 52; 129; 128; 0; 1; 0; 2; 0; 0; 0; 0].
Definition cname : rr := mk_rr [192; 12] 5 [0; 1; 0; 0; 1; 44] [1; 120; 192; 16].
Definition address : rr := mk_rr (encode_labels [[120]; [97]; [98]]) 1 [0; 1; 0; 0; 1; 44] [192; 0; 2; 80].
End Demo.
Import Demo.

Lemma dns_encode_witness : exists enc, dns_encode_name host 496 = OK enc /\ length enc = 9%nat.
Proof.
  destruct (dns_encode_name_spec host) as [H _]; [repeat constructor; lia|].
  destruct (H eq_refl) as (enc & E & L & _). exists enc. split; [exact E|exact L].
Defined.

Lemma dns_parse_witness :
  dns_parse (reply_header ++ encode_labels [www; [97]; [98]] ++ [0; 1; 0; 1]
             ++ mjoin (map encode_rr [cname]) ++ encode_rr address ++ [])
    = OK ([TLn "DNS: resolved"], Some [192; 0; 2; 80]).
Proof.
  apply (dns_parse_first_address reply_header [www; [97]; [98]] [0; 1; 0; 1] [cname] address []);
    [reflexivity|reflexivity|reflexivity|discriminate|repeat constructor; unfold is_byte; lia|reflexivity
    | | | |reflexivity|reflexivity].
  - apply Forall_singleton. split; [|unfold is_u16; cbn; lia|reflexivity|cbn; lia].
    left. exists 0, 12. split; [reflexivity|lia].
  - repeat constructor. discriminate.
  - split; [|unfold is_u16; cbn; lia|reflexivity|cbn; lia]. right. exists [[120]; [97]; [98]]. done.
Defined.

Lemma dns_parse_safe_witness : exists msgs r, dns_parse (reply_header ++ [255; 1]) = OK (msgs, r).
Proof.
  apply (dns_parse_safe (reply_header ++ [255; 1])); [repeat constructor; unfold is_byte; lia|vm_compute; discriminate].
Defined.

(** A name that ends in a pointer after one or more labels is legal in a
    reply but not stepped over: the pointer byte is taken for a label length
    and the address after it is missed. *)
Example dns_misses_partial_compression :
  dns_parse (reply_header ++ encode_labels [www; [97]; [98]] ++ [0; 1; 0; 1]
             ++ [1; 120; 192; 16; 0; 1; 0; 1; 0; 0; 1; 44; 0; 4; 192; 0; 2; 80])
    = OK ([TLn "DNS: no A record found in response"], None).
Proof. vm_compute. reflexivity. Qed.
