(* ===== verification/Net.v ===== *)
(** * The network task (src/src/net.c)

    One turn of the task: a frame from the card is dispatched to ARP or IP and
    from there to ICMP, UDP or TCP, whose answers go back to the card, and the
    TCP timer is polled.  The theorem composes the components' invariants over
    the interface of the card. *)
From S2P Require Import Prelude Ip Arp Udp Tcp.

(** The state of the protocols. *)
Record net := mk_net { net_arp : arp; net_ip : ip_config; net_udp : udp; net_tcp : tcp }.

Definition net_boot : net := mk_net arp_boot ip_boot udp_boot tcp_boot.

Section Task.
Context {N : Type} `{Nic N}.

(** Hands frames to the card; a failed transmission is not reported back. *)
Definition send_all (n : N) (frames : list (list Z)) : N := foldl (fun n f => (nic_send n f).1) n frames.

(** The call [ip_receive] makes; [beyond] is what follows the payload in the
    frame buffer. *)
Definition ip_dispatch (n : N) (s : net) (now : Z) (beyond : list Z) (u : upcall) : list tty * N * net :=
  let mac := nic_mac n in
  if up_protocol u =? 1 then
    let '(m, f) := icmp_handle (net_ip s) mac (up_source_ip u) (up_source_mac u) (up_data u) in
    (m, send_all n f, s)
  else if up_protocol u =? 17 then
    let '(m, f, u') := udp_receive (net_udp s) (net_ip s) mac (up_source_ip u) (up_source_mac u) (up_data u) in
    (m, send_all n f, mk_net (net_arp s) (net_ip s) u' (net_tcp s))
  else
    let '(m, f, t) := tcp_receive (net_ip s) mac now (net_tcp s) (up_source_ip u) (up_source_mac u)
                        (up_data u) beyond in
    (m, send_all n f, mk_net (net_arp s) (net_ip s) (net_udp s) t).

Definition net_poll (n : N) (s : net) (now : Z) (beyond : list Z) : list tty * N * net :=
  let '(n, frame) := nic_receive n 1518 in
  if Z.of_nat (length frame) <? 14 then ([], n, s)
  else if (byte_at frame 12 =? 8) && (byte_at frame 13 =? 6) then
    let '(m, n, a, _) := arp_respond_if_request n (net_arp s) frame (our_ip (net_ip s)) in
    (m, n, mk_net a (net_ip s) (net_udp s) (net_tcp s))
  else if (byte_at frame 12 =? 8) && (byte_at frame 13 =? 0) then
    match ip_receive (net_ip s) frame with
    | Some u => ip_dispatch n s now beyond u
    | None => ([], n, s)
    end
  else ([], n, s).

(** One turn of [net_task], up to its sleep. *)
Definition net_turn (n : N) (s : net) (now1 now2 : Z) (beyond : list Z) : list tty * N * net :=
  let '(m1, n, s) := net_poll n s now1 beyond in
  let '(m2, f, t) := tcp_check_retransmits (net_ip s) (nic_mac n) now2 (net_tcp s) in
  (m1 ++ m2, send_all n f, mk_net (net_arp s) (net_ip s) (net_udp s) t).

Fixpoint net_task (n : N) (s : net) (turns : list (Z * Z * list Z)) : N * net :=
  match turns with
  | [] => (n, s)
  | (now1, now2, beyond) :: rest => let '(_, n, s) := net_turn n s now1 now2 beyond in net_task n s rest
  end.
End Task.

(** ** The invariant *)
Record net_inv (s : net) : Prop := {
  ni_arp : arp_inv (net_arp s);
  ni_udp : length (capture_buf (net_udp s)) = 512%nat /\ 0 <= capture_len (net_udp s) <= 512;
  ni_tcp : tcp_inv (net_tcp s) }.

Lemma ip_receive_upcall c frame u : Forall is_byte frame -> ip_receive c frame = Some u ->
  ipv4 (up_source_ip u) /\ mac_addr (up_source_mac u) /\ Forall is_byte (up_data u).
Proof.
  intros Hb. unfold ip_receive, ETH_HEADER_LEN, IP_HEADER_LEN. destruct (Z.ltb_spec (Z.of_nat (length frame)) (14 + 20)); [done|].
  case_if; [done|]. case_if; [done|]. destruct (_ && _); [|done]. intros [= <-].
  cbn [up_source_ip up_source_mac up_data]. split_and!.
  - split; [done|]. repeat constructor; by apply byte_at_byte.
  - split; [rewrite length_take, length_drop; lia|]. by apply Forall_take, Forall_drop.
  - by apply Forall_take, Forall_drop.
Qed.

Lemma arp_respond_inv {N} `{Nic N} (n : N) a frame our_ip : arp_inv a ->
  let '(_, _, a', _) := arp_respond_if_request n a frame our_ip in arp_inv a'.
Proof.
  intros Ha. unfold arp_respond_if_request. repeat case_if; try done.
  destruct (nic_send n _) as [n' sent]. by apply insert_queue.
Qed.

Lemma udp_receive_inv u c mac sip smac data :
  length (capture_buf u) = 512%nat /\ 0 <= capture_len u <= 512 ->
  let '(_, _, u') := udp_receive u c mac sip smac data in
  length (capture_buf u') = 512%nat /\ 0 <= capture_len u' <= 512.
Proof.
  intros [Hu Hl]. unfold udp_receive. case_if; [done|]. case_if; [|by case_if]. cbn [capture_buf capture_len].
  rewrite length_take. change (Z.to_nat UDP_CAPTURE_BUF_SIZE) with 512%nat.
  split; [|lia]. rewrite splice_length; [done|]. rewrite length_take. lia.
Qed.

Section Invariant.
Context {N : Type} `{NicLaws N}.

Lemma net_poll_inv n s now beyond : net_inv s ->
  let '(_, _, s') := net_poll n s now beyond in net_inv s' /\ net_ip s' = net_ip s.
Proof.
  intros Hs. pose proof Hs as [Ha Hu Ht]. unfold net_poll.
  pose proof (nic_receive_bytes n 1518) as Hb. destruct (nic_receive n 1518) as [n1 frame]. cbn [snd] in Hb.
  case_if; [done|]. case_if.
  { pose proof (arp_respond_inv n1 (net_arp s) frame (our_ip (net_ip s)) Ha) as Ha'.
    destruct (arp_respond_if_request _ _ _ _) as [[[m n2] a] b]. done. }
  case_if; [|done]. destruct (ip_receive (net_ip s) frame) as [u|] eqn:Er; [|done].
  apply ip_receive_upcall in Er as (Hip & Hmac & Hdata); [|done]. unfold ip_dispatch. case_if.
  { destruct (icmp_handle _ _ _ _ _). done. }
  case_if.
  - pose proof (udp_receive_inv (net_udp s) (net_ip s) (nic_mac n1) (up_source_ip u) (up_source_mac u) (up_data u) Hu) as Hu'.
    destruct (udp_receive _ _ _ _ _ _) as [[m f] u']. done.
  - pose proof (tcp_receive_inv (net_ip s) (nic_mac n1) now (net_tcp s) (up_source_ip u) (up_source_mac u)
      (up_data u) beyond Ht Hip Hmac Hdata) as Ht'.
    destruct (tcp_receive _ _ _ _ _ _ _ _) as [[m f] t]. done.
Qed.

Lemma net_turn_inv n s now1 now2 beyond : net_inv s -> 
  let '(_, _, s') := net_turn n s now1 now2 beyond in net_inv s' /\ net_ip s' = net_ip s.
Proof.
  intros Hs. unfold net_turn. pose proof (net_poll_inv n s now1 beyond Hs) as Hp.
  destruct (net_poll n s now1 beyond) as [[m1 n1] s1]. destruct Hp as [[Ha Hu Ht] Hip].
  pose proof (check_retransmits_inv (net_ip s1) (nic_mac n1) now2 (net_tcp s1) Ht) as Ht'.
  destruct (tcp_check_retransmits _ _ _ _) as [[m2 f] t]. done.
Qed.

(** C39: However many turns the network task takes and whatever frames the
    card delivers, the ARP cache, the UDP capture and the TCP table keep their
    invariants, and traffic never changes the machine's own address
    configuration. *)
Theorem net_task_inv n s turns : net_inv s ->
  let '(_, s') := net_task n s turns in net_inv s' /\ net_ip s' = net_ip s.
Proof.
  revert n s. induction turns as [|[[now1 now2] beyond] turns IH]; intros n s Hs; cbn [net_task]; [done|].
  pose proof (net_turn_inv n s now1 now2 beyond Hs) as Ht.
  destruct (net_turn n s now1 now2 beyond) as [[m n1] s1]. destruct Ht as [Hs1 Hip].
  specialize (IH n1 s1 Hs1). destruct (net_task n1 s1 turns) as [n2 s2]. destruct IH as [? ->]. done.
Qed.
End Invariant.

Lemma net_boot_inv : net_inv net_boot.
Proof. split; [apply arp_boot_inv|split; [done|cbn; lia]|apply tcp_boot_inv]. Qed.

(** ** A concrete card

    It keeps the frames still to arrive and those sent, and has a fixed
    address. *)
Record lab := mk_lab { lab_in : list (list Z); lab_out : list (list Z) }.

#[export] Instance lab_nic : Nic lab := {
  nic_mac _ := [2; 0; 0; 0; 0; 1];
  nic_send w f := (mk_lab (lab_in w) (lab_out w ++ [f]), true);
  nic_receive w len :=
    match lab_in w with
    | [] => (w, [])
    | f :: rest => (mk_lab rest (lab_out w), map u8 (take (Z.to_nat len) f))
    end }.

#[export] Instance lab_laws : NicLaws lab.
Proof.
  split.
  - intros n. split; [done|]. repeat constructor; unfold is_byte; lia.
  - done.
  - intros [[|f rest] out] len; done.
  - intros [[|f rest] out] len Hl; cbn; [lia|]. rewrite length_map, length_take. lia.
  - intros [[|f rest] out] len; cbn; [constructor|]. apply Forall_map, Forall_forall. intros x _. apply u8_byte.
Qed.

Definition here : net :=
  mk_net arp_boot (ip_set_address ip_boot [192; 0; 2; 50]) udp_boot tcp_boot.
Definition peer : ip_config := ip_set_address ip_boot [192; 0; 2; 1].
Definition ping : list Z :=
  ip_send peer [2; 0; 0; 0; 0; 2] 1 [192; 0; 2; 50] [2; 0; 0; 0; 0; 1] [8; 0; 247; 255; 0; 0; 0; 0].

Lemma net_task_witness :
  let '(n, s) := net_task (mk_lab [ping; [1; 2; 3]] []) here [(1, 1, []); (2, 2, []); (3, 3, [])] in
  length (lab_out n) = 1%nat /\ net_inv s.
Proof.
  assert (E : length (lab_out (net_task (mk_lab [ping; [1; 2; 3]] []) here
                       [(1, 1, []); (2, 2, []); (3, 3, [])]).1) = 1%nat) by (vm_compute; reflexivity).
  pose proof (net_task_inv (mk_lab [ping; [1; 2; 3]] []) here [(1, 1, []); (2, 2, []); (3, 3, [])]) as H.
  destruct (net_task _ _ _) as [n s]. split; [exact E|].
  apply H. split; [apply arp_boot_inv|split; [reflexivity|split; discriminate]|apply tcp_boot_inv].
Defined.
