(* ===== verification/Paging.v ===== *)
(** * Paging (src/src/paging.c)

    Page directories and tables in physical memory, the translation the
    processor makes of every kernel access, and the operations that build,
    extend and free a task's address space, over the interface of the frame
    allocator. *)
From S2P Require Import Prelude Pmm.

Definition PAGE_PRESENT : Z := 1.
Definition PAGE_WRITABLE : Z := 2.
Definition PAGE_USER : Z := 4.
Definition PAGE_SIZE : Z := 4096.
Definition ENTRIES : Z := 1024.
Definition REGION : Z := 4194304.  (* what one table maps *)

(** ** Memory

    Physical memory by the address of its 32-bit words, and the directory in
    use. *)
Record mmu := mk_mmu { words : gmap Z Z; cr3 : Z }.

Definition pload (w : gmap Z Z) (a : Z) : Z := default 0 (w !! a).
Definition entry_frame (e : Z) : Z := Z.land e (Z.lnot 4095).
Definition present (e : Z) : bool := flag e PAGE_PRESENT.

(** The page-table entry the processor finds for a virtual address. *)
Definition pde_of (w : gmap Z Z) (dir v : Z) : Z := pload w (dir + 4 * (v / REGION)).
Definition walk (w : gmap Z Z) (dir v : Z) : option Z :=
  let pde := pde_of w dir v in
  if present pde then
    let pte := pload w (entry_frame pde + 4 * ((v / PAGE_SIZE) mod ENTRIES)) in
    if present pte then Some pte else None
  else None.

Definition translate (w : gmap Z Z) (dir v : Z) : option Z :=
  match walk w dir v with Some pte => Some (entry_frame pte + v mod PAGE_SIZE) | None => None end.

(** What ring 3 can reach: both levels must carry the user flag. *)
Definition user_translate (w : gmap Z Z) (dir v : Z) : option Z :=
  match walk w dir v with
  | Some pte => if flag (pde_of w dir v) PAGE_USER && flag pte PAGE_USER
                then Some (entry_frame pte + v mod PAGE_SIZE) else None
  | None => None
  end.

(** Loads and stores of the kernel with paging on; [None] is a page fault. *)
Definition vload (s : mmu) (v : Z) : option Z :=
  match translate (words s) (cr3 s) v with Some p => Some (pload (words s) p) | None => None end.
Definition vstore (s : mmu) (v x : Z) : option mmu :=
  match translate (words s) (cr3 s) v with
  | Some p => Some (mk_mmu (<[p := x]> (words s)) (cr3 s))
  | None => None
  end.

(** ** The operations *)

(** [paging_init], with paging still off: the two static tables at the
    addresses [page_directory] and [first_page_table]. *)
Fixpoint fill_words (n : nat) (i : Z) (f : Z -> Z) (base : Z) (w : gmap Z Z) : gmap Z Z :=
  match n with
  | O => w
  | S n' => fill_words n' (i + 1) f base (<[base + 4 * i := f i]> w)
  end.

Definition paging_init (w : gmap Z Z) (page_directory first_page_table : Z) : list tty * mmu :=
  let w := fill_words (Z.to_nat ENTRIES) 0
             (fun i => Z.lor (Z.lor (u32 (i * PAGE_SIZE)) PAGE_PRESENT) PAGE_WRITABLE) first_page_table w in
  let w := fill_words (Z.to_nat ENTRIES) 0 (fun _ => 0) page_directory w in
  let w := <[page_directory := Z.lor (Z.lor (Z.lor first_page_table PAGE_PRESENT) PAGE_WRITABLE) PAGE_USER]> w in
  ([TLn "Paging enabled: first 4MB identity-mapped"], mk_mmu w page_directory).

Definition paging_switch_directory (s : mmu) (dir : Z) : mmu := mk_mmu (words s) dir.

(** [for (i ...) dst[i] = src[i]] *)
Fixpoint copy_entries (n : nat) (i : Z) (s : mmu) (dst src : Z) : option mmu :=
  match n with
  | O => Some s
  | S n' =>
      match vload s (src + 4 * i) with
      | Some x => match vstore s (dst + 4 * i) x with
                  | Some s' => copy_entries n' (i + 1) s' dst src
                  | None => None
                  end
      | None => None
      end
  end.

Section Operations.
Context {A : Type} `{FrameAllocator A}.
Context (page_directory first_page_table : Z).

(** The common body of the two functions below: a fresh frame below 4 MB
    filled with a copy of [src], 0 on failure. *)
Definition alloc_copy (got fail : string) (a : A) (s : mmu) (src : Z) : option (list tty * A * mmu * Z) :=
  let '(a, phys) := fr_alloc a in
  let m := [TStr got; THex phys; TStr ", free frames now "; TDec (fr_free_count a); TLn ""] in
  if phys =? 0 then Some (m, a, s, 0)
  else if REGION <=? phys then Some (m ++ [TLn fail], fr_release a phys, s, 0)
  else match copy_entries (Z.to_nat ENTRIES) 0 s phys src with
       | Some s => Some (m, a, s, phys)
       | None => None
       end.

Definition paging_clone_kernel_directory (a : A) (s : mmu) : option (list tty * A * mmu * Z) :=
  alloc_copy "Paging: clone got raw frame "
    "Paging: clone failed, allocated frame is outside the mapped 4MB" a s page_directory.

Definition paging_alloc_user_page_table (a : A) (s : mmu) : option (list tty * A * mmu * Z) :=
  alloc_copy "Paging: table got raw frame "
    "Paging: page table alloc failed, frame outside the mapped 4MB" a s first_page_table.

Definition paging_get_or_create_user_table (a : A) (s : mmu) (dir vaddr : Z)
    : option (list tty * A * mmu * Z) :=
  let dir_index := vaddr / (PAGE_SIZE * ENTRIES) in
  if ENTRIES <=? dir_index then Some ([], a, s, 0)
  else
    match vload s (dir + 4 * dir_index) with
    | None => None
    | Some entry =>
        if present entry && negb (entry_frame entry =? first_page_table) then Some ([], a, s, entry_frame entry)
        else
          match paging_alloc_user_page_table a s with
          | None => None
          | Some (m, a, s, table) =>
              if table =? 0 then Some (m, a, s, 0)
              else match vstore s (dir + 4 * dir_index)
                           (Z.lor (Z.lor (Z.lor table PAGE_PRESENT) PAGE_WRITABLE) PAGE_USER) with
                   | Some s => Some (m, a, s, table)
                   | None => None
                   end
          end
    end.

Definition paging_map_user_page (s : mmu) (table vaddr frame : Z) : option mmu :=
  let index := (vaddr / PAGE_SIZE) mod ENTRIES in
  vstore s (table + 4 * index) (Z.lor (Z.lor (Z.lor frame PAGE_PRESENT) PAGE_WRITABLE) PAGE_USER).

(** The inner loop of [paging_free_user_directory] from entry [j] on. *)
Fixpoint free_table_frames (n : nat) (j : Z) (a : A) (s : mmu) (table : Z) : option A :=
  match n with
  | O => Some a
  | S n' =>
      match vload s (table + 4 * j) with
      | None => None
      | Some table_entry =>
          if negb (present table_entry) then free_table_frames n' (j + 1) a s table
          else match vload s (first_page_table + 4 * j) with
               | None => None
               | Some shared =>
                   if table_entry =? shared then free_table_frames n' (j + 1) a s table
                   else free_table_frames n' (j + 1) (fr_release a (entry_frame table_entry)) s table
               end
      end
  end.

Fixpoint free_tables (n : nat) (i : Z) (a : A) (s : mmu) (dir : Z) : option A :=
  match n with
  | O => Some a
  | S n' =>
      match vload s (dir + 4 * i) with
      | None => None
      | Some entry =>
          if negb (present entry) then free_tables n' (i + 1) a s dir
          else
            let table := entry_frame entry in
            if table =? first_page_table then free_tables n' (i + 1) a s dir
            else match free_table_frames (Z.to_nat ENTRIES) 0 a s table with
                 | None => None
                 | Some a => free_tables n' (i + 1) (fr_release a table) s dir
                 end
      end
  end.

Definition paging_free_user_directory (a : A) (s : mmu) (dir : Z) : option A :=
  free_tables (Z.to_nat ENTRIES) 0 a s dir.
End Operations.

(** ** Entries *)
Lemma entry_frame_eq e : entry_frame e = e / 4096 * 4096.
Proof.
  unfold entry_frame. change 4095 with (Z.ones 12). rewrite <- Z.ldiff_land, Z.ldiff_ones_r by lia.
  rewrite Z.shiftl_mul_pow2, Z.shiftr_div_pow2 by lia. done.
Qed.

Lemma present_eq e : present e = (e mod 2 =? 1).
Proof.
  unfold present, flag, PAGE_PRESENT. change 1 with (Z.ones 1) at 1. rewrite Z.land_ones by lia.
  change (2 ^ 1) with 2. destruct (Z.eqb_spec (e mod 2) 0), (Z.eqb_spec (e mod 2) 1); cbn; dlia.
Qed.

Definition aligned (a : Z) : Prop := a mod 4096 = 0.

Lemma lor_flags f k : aligned f -> 0 <= k < 4096 -> Z.lor f k = f + k.
Proof.
  unfold aligned. intros Hf Hk. replace f with (f / 4096 * 2 ^ 12) by (change (2 ^ 12) with 4096; dlia).
  by apply (lor_add 12).
Qed.

Lemma user_entry f : aligned f ->
  Z.lor (Z.lor (Z.lor f PAGE_PRESENT) PAGE_WRITABLE) PAGE_USER = f + 7.
Proof.
  intros Hf. unfold PAGE_PRESENT, PAGE_WRITABLE, PAGE_USER. rewrite <- !Z.lor_assoc. by apply lor_flags.
Qed.

Lemma kernel_entry f : aligned f -> Z.lor (Z.lor f PAGE_PRESENT) PAGE_WRITABLE = f + 3.
Proof.
  intros Hf. unfold PAGE_PRESENT, PAGE_WRITABLE. rewrite <- !Z.lor_assoc. by apply lor_flags.
Qed.

Lemma entry_small f k : aligned f -> 0 <= k < 4096 -> entry_frame (f + k) = f.
Proof. unfold aligned. intros Hf Hk. rewrite entry_frame_eq. dlia. Qed.

Lemma present_small f k : aligned f -> k = 3 \/ k = 7 -> present (f + k) = true.
Proof. unfold aligned. intros Hf Hk. rewrite present_eq. apply Z.eqb_eq. dlia. Qed.

Lemma user_flag f : aligned f -> flag (f + 7) PAGE_USER = true.
Proof.
  unfold aligned. intros Hf. unfold PAGE_USER. change 4 with (2 ^ 2). rewrite flag_testbit by lia.
  rewrite Z.testbit_odd, Z.shiftr_div_pow2 by lia. change (2 ^ 2) with 4.
  replace ((f + 7) / 4) with (1 + 2 * (f / 8)) by dlia. by rewrite Z.odd_add_mul_2.
Qed.

Lemma aligned_entry e : aligned (entry_frame e).
Proof. unfold aligned. rewrite entry_frame_eq. apply Z_mod_mult. Qed.

(** ** Stores and translation *)

(** [w'] differs from [w] only inside page [f]. *)
Definition agree_off (f : Z) (w w' : gmap Z Z) : Prop :=
  forall a, a / 4096 <> f / 4096 -> pload w' a = pload w a.

Lemma agree_insert f w a x : a / 4096 = f / 4096 -> agree_off f w (<[a := x]> w).
Proof. intros Ha b Hb. unfold pload. rewrite lookup_insert_ne; [done|]. congruence. Qed.

Lemma agree_trans f w1 w2 w3 : agree_off f w1 w2 -> agree_off f w2 w3 -> agree_off f w1 w3.
Proof. intros H1 H2 a Ha. by rewrite H2, H1. Qed.

Lemma slot_page d i : aligned d -> 0 <= i < 1024 -> (d + 4 * i) / 4096 = d / 4096.
Proof. unfold aligned. intros. dlia. Qed.

Lemma page_neq a b : aligned a -> aligned b -> a <> b -> a / 4096 <> b / 4096.
Proof. unfold aligned. intros. dlia. Qed.

(** The table a directory uses for an address. *)
Definition table_of (w : gmap Z Z) (d v : Z) : Z := entry_frame (pde_of w d v).

Definition vaddr_ok (v : Z) : Prop := 0 <= v < 4294967296.

Lemma walk_agree f w w' d v : aligned d -> aligned f -> vaddr_ok v -> agree_off f w w' ->
  d <> f -> table_of w d v <> f -> walk w' d v = walk w d v /\ pde_of w' d v = pde_of w d v.
Proof.
  intros Hd Hf Hv Hag Hdf Htf. unfold vaddr_ok in Hv.
  assert (E : pde_of w' d v = pde_of w d v).
  { unfold pde_of. apply Hag. rewrite slot_page by (done || (unfold REGION; dlia)). by apply page_neq. }
  split; [|done]. unfold walk. rewrite E. destruct (present (pde_of w d v)); [|done].
  rewrite Hag; [done|]. rewrite slot_page by (apply aligned_entry || (unfold PAGE_SIZE, ENTRIES; dlia)).
  by apply page_neq; [apply aligned_entry|..].
Qed.

(** A kernel page of the current address space that is mapped to itself. *)
Definition kmap (s : mmu) (f : Z) : Prop :=
  aligned f /\ 0 <= f < REGION /\ exists pte, walk (words s) (cr3 s) f = Some pte /\ entry_frame pte = f.

Lemma walk_page w d v o : aligned v -> 0 <= o < 4096 -> walk w d (v + o) = walk w d v.
Proof.
  unfold aligned. intros Hv Ho. unfold walk, pde_of, REGION, PAGE_SIZE.
  replace ((v + o) / 4194304) with (v / 4194304) by dlia. replace ((v + o) / 4096) with (v / 4096) by dlia. done.
Qed.

Lemma kmap_translate s f o : kmap s f -> 0 <= o < 4096 -> translate (words s) (cr3 s) (f + o) = Some (f + o).
Proof.
  intros (Hf & Hr & pte & Hw & He) Ho. unfold translate. rewrite walk_page by done. rewrite Hw, He.
  f_equal. unfold aligned, PAGE_SIZE in *. dlia.
Qed.

(** The structures translation of kernel addresses goes through. *)
Definition in_use (s : mmu) (f : Z) : Prop := f = cr3 s \/ f = table_of (words s) (cr3 s) 0.

Lemma table_region w d v : 0 <= v < REGION -> table_of w d v = table_of w d 0.
Proof. intros Hv. unfold table_of, pde_of. by rewrite Z.div_small. Qed.

Lemma kmap_agree s w' f g : aligned (cr3 s) -> aligned f -> ~ in_use s f -> agree_off f (words s) w' ->
  kmap s g -> kmap (mk_mmu w' (cr3 s)) g.
Proof.
  intros Hc Hf Hu Hag (Hg & Hr & pte & Hw & He). split; [done|]. split; [done|]. exists pte. split; [|done].
  cbn [words cr3]. destruct (walk_agree f (words s) w' (cr3 s) g) as [-> _]; try done.
  - unfold vaddr_ok, REGION in *. lia.
  - intros E. apply Hu. left. done.
  - rewrite table_region by done. intros E. apply Hu. by right.
Qed.

(** The copy loop fills one page and touches nothing else. *)
Lemma copy_entries_spec n i s dst src : aligned (cr3 s) -> kmap s dst -> kmap s src -> dst <> src ->
  ~ in_use s dst -> 0 <= i -> i + Z.of_nat n <= 1024 ->
  exists s', copy_entries n i s dst src = Some s' /\ cr3 s' = cr3 s /\
    agree_off dst (words s) (words s') /\
    (forall j, 0 <= j < i -> pload (words s') (dst + 4 * j) = pload (words s) (dst + 4 * j)) /\
    forall j, i <= j < i + Z.of_nat n -> pload (words s') (dst + 4 * j) = pload (words s) (src + 4 * j).
Proof.
  revert i s. induction n as [|n IH]; intros i s Hc Hd Hs Hne Hu Hi Hn; cbn [copy_entries].
  { exists s. split_and!; try done. lia. }
  pose proof Hd as (Hda & Hdr & _). pose proof Hs as (Hsa & Hsr & _).
  unfold vload, vstore. rewrite !kmap_translate by (done || lia).
  set (w1 := <[dst + 4 * i := _]> (words s)).
  assert (Hag : agree_off dst (words s) w1) by (apply agree_insert, slot_page; [done|lia]).
  destruct (IH (i + 1) (mk_mmu w1 (cr3 s))) as (s' & E & Hc' & Hag' & Hlo & Hhi); try done; try lia.
  - by apply (kmap_agree s w1 dst).
  - by apply (kmap_agree s w1 dst).
  - intros [E|E]; [by apply Hu; left|]. apply Hu. right. cbn [words cr3] in E. rewrite E.
    unfold table_of. f_equal. unfold pde_of. rewrite Hag; [done|]. rewrite slot_page by (done || (unfold REGION; cbn; lia)).
    intros Ep. apply Hu. left. unfold aligned in *. dlia.
  - exists s'. cbn [words cr3] in *. split; [done|]. split; [done|]. split; [by eapply agree_trans|]. split.
    + intros j Hj. rewrite Hlo by lia. unfold w1, pload. rewrite lookup_insert_ne by lia. done.
    + intros j Hj. destruct (decide (j = i)) as [->|].
      * rewrite Hlo by lia. unfold w1, pload. by rewrite lookup_insert_eq.
      * rewrite Hhi by lia. apply Hag. rewrite slot_page by (done || lia). by apply page_neq.
Qed.

(** ** The address space of the running task *)
Section Space.
Context {A : Type} `{FrameAllocatorLaws A}.
Context (FPT : Z).  (* the address of [first_page_table] *)

(** The identity table, as [paging_init] leaves it. *)
Definition identity_table (w : gmap Z Z) : Prop :=
  forall i, 0 <= i < 1024 -> pload w (FPT + 4 * i) = 4096 * i + 3.

(** The running task's directory [d] maps the first 4 MB through the shared
    table or one of its own; the paging structures are identity-mapped and
    reserved, and so is the frame the allocator would hand out next (no user
    page shadows it). *)
Record user_space (a : A) (s : mmu) (d : Z) : Prop := {
  us_alloc : fr_inv a;
  us_cr3 : cr3 s = d;
  us_dir : kmap s d;
  us_fpt : kmap s FPT;
  us_ident : identity_table (words s);
  us_table : kmap s (table_of (words s) d 0);
  us_pde : pde_of (words s) d 0 = table_of (words s) d 0 + 7;
  us_distinct : d <> FPT /\ table_of (words s) d 0 <> d;
  us_positive : 0 < FPT /\ 0 < table_of (words s) d 0;
  us_reserved : fr_free a (d / 4096) = false /\ fr_free a (FPT / 4096) = false /\
                fr_free a (table_of (words s) d 0 / 4096) = false;
  us_next : forall a' f, fr_alloc a = (a', f) -> f <> 0 -> f < REGION -> kmap s f }.

(** What mapping one page does to memory: [t] is the table in use afterwards. *)
Record mapped (w w' : gmap Z Z) (d t v F : Z) : Prop := {
  ma_pde : pde_of w' d 0 = t + 7;
  ma_pte : pload w' (t + 4 * (v / 4096)) = F + 7;
  ma_rest : forall j, 0 <= j < 1024 -> j <> v / 4096 ->
    pload w' (t + 4 * j) = pload w (table_of w d 0 + 4 * j);
  ma_frame : forall x, x <> d -> x / 4096 <> t / 4096 -> pload w' x = pload w x }.

(** A table of the task's own, found or created. *)
Lemma get_or_create_spec a s d v : user_space a s d -> 0 <= v < REGION ->
  exists m a' s' t, paging_get_or_create_user_table FPT a s d v = Some (m, a', s', t) /\ fr_inv a' /\
  ((t = 0 /\ s' = s /\ table_of (words s) d 0 = FPT /\ forall n, fr_free a' n = fr_free a n) \/
   (t = table_of (words s) d 0 /\ t <> FPT /\ s' = s /\ a' = a) \/
   (table_of (words s) d 0 = FPT /\ fr_alloc a = (a', t) /\ t <> 0 /\ aligned t /\ 0 < t < REGION /\
    fr_free a (t / 4096) = true /\ cr3 s' = d /\
    pde_of (words s') d 0 = t + 7 /\
    (forall j, 0 <= j < 1024 -> pload (words s') (t + 4 * j) = 4096 * j + 3) /\
    (forall x, x <> d -> x / 4096 <> t / 4096 -> pload (words s') x = pload (words s) x))).
Proof.
  intros [Ha Hc Hd Hf Hid Ht Hpde [Hdf Htd] [Hfp Htp] (R1 & R2 & R3) Hnext] Hv.
  pose proof Hd as (Hda & Hdr & _). pose proof Hf as (Hfa & Hfr & _). pose proof Ht as (Hta & Htr & _).
  set (t0 := table_of (words s) d 0) in *.
  unfold paging_get_or_create_user_table. change (PAGE_SIZE * ENTRIES) with REGION. rewrite Z.div_small by done.
  change (ENTRIES <=? 0) with false. unfold vload at 1.
  rewrite kmap_translate by (done || lia). change (pload (words s) (d + 4 * 0)) with (pde_of (words s) d 0).
  rewrite Hpde, entry_small, present_small by (auto || lia). cbn [andb].
  destruct (Z.eqb_spec t0 FPT) as [E0|E0]; cbn [negb].
  2:{ exists [], a, s, t0. split; [done|]. split; [done|]. right. left. done. }
  unfold paging_alloc_user_page_table, alloc_copy.
  pose proof (fr_alloc_inv a Ha) as Ha1. destruct (fr_alloc a) as [a1 f] eqn:Eal. cbn [fst] in Ha1.
  destruct (Z.eqb_spec f 0) as [->|Hf0].
  { rewrite (fr_alloc_none a a1 Ha Eal) in *. eexists _, a, s, 0. split; [done|]. split; [done|]. left. done. }
  destruct (fr_alloc_some a a1 f Ha Eal Hf0) as (Hfal & Hfrange & Hfree & Hfree1 & Hother).
  unfold FRAME_SIZE in *.
  destruct (Z.leb_spec REGION f) as [Hbig|Hsmall].
  { assert (Hrel : 4096 <= f < 4294967296) by (unfold REGION in *; lia).
    destruct (fr_release_free a1 f Ha1 Hrel) as [Hr1 Hr2]. unfold FRAME_SIZE in *.
    eexists _, (fr_release a1 f), s, 0. split; [done|]. split; [by apply fr_release_inv|]. left.
    split_and!; try done. intros n. destruct (decide (n = f / 4096)) as [->|Hn]; [congruence|].
    rewrite Hr2, Hother by done. done. }
  assert (Hkf : kmap s f) by (by eapply Hnext). assert (Hfd : f <> d) by (intros ->; congruence).
  assert (Hff : f <> FPT) by (intros ->; congruence).
  destruct (copy_entries_spec (Z.to_nat ENTRIES) 0 s f FPT) as (s1 & Ecopy & Hc1 & Hag & _ & Hcopy); try done.
  { rewrite Hc. done. }
  { intros [E|E]; [congruence|]. rewrite Hc in E. fold t0 in E. congruence. }
  rewrite Ecopy. destruct (Z.eqb_spec f 0); [done|].
  assert (Hk1 : kmap s1 d).
  { destruct s1 as [w1 c1]. cbn [cr3 words] in *. rewrite Hc1. apply (kmap_agree s w1 f); try done.
    - by rewrite Hc.
    - intros [E|E]; [congruence|]. rewrite Hc in E. fold t0 in E. congruence. }
  unfold vstore. rewrite kmap_translate by (done || lia). rewrite user_entry by done.
  eexists _, a1, _, f. split; [reflexivity|]. split; [done|]. right. right.
  split_and!; try done; try lia.
  - cbn [cr3]. congruence.
  - unfold pde_of. cbn [words]. change (d + 4 * (0 / REGION)) with (d + 4 * 0). unfold pload. by rewrite lookup_insert_eq.
  - intros j Hj. cbn [words]. unfold pload. rewrite lookup_insert_ne.
    + rewrite <- Hid by done. apply Hcopy. unfold ENTRIES. lia.
    + intros E. assert ((f + 4 * j) / 4096 = (d + 4 * 0) / 4096) as E' by congruence.
      rewrite !slot_page in E' by (done || lia). by apply page_neq in E'.
  - intros x Hx1 Hx2. cbn [words]. unfold pload. rewrite lookup_insert_ne; [by apply Hag|].
    intros E. apply Hx1. lia.
Qed.

(** Then the page's entry in it. *)
Lemma map_user_page_spec a s d v F m a' s' t : user_space a s d -> aligned v -> 0 <= v < REGION -> aligned F ->
  paging_get_or_create_user_table FPT a s d v = Some (m, a', s', t) -> t <> 0 ->
  exists s'', paging_map_user_page s' t v F = Some s'' /\ cr3 s'' = d /\ mapped (words s) (words s'') d t v F /\
  aligned t /\ 0 < t < REGION /\ t <> d /\ t <> FPT /\
  (fr_free a (t / 4096) = true \/ t = table_of (words s) d 0).
Proof.
  intros Hs Hva Hv HF Hget Ht0. destruct (get_or_create_spec a s d v Hs Hv) as (m1 & a1 & s1 & t1 & Hg & Ha1 & Hcase).
  rewrite Hget in Hg. injection Hg as <- <- <- <-.
  pose proof Hs as [Ha Hc Hd Hf Hid Ht Hpde [Hdf Htd] [Hfp Htp] (R1 & R2 & R3) Hnext].
  pose proof Hd as (Hda & Hdr & _). pose proof Hf as (Hfa & Hfr & _). pose proof Ht as (Hta & Htr & _).
  assert (Hidx : 0 <= v / 4096 < 1024) by (unfold REGION in *; dlia).
  unfold paging_map_user_page, PAGE_SIZE, ENTRIES. rewrite (Z.mod_small (v / 4096)) by done. rewrite user_entry by done.
  unfold vstore. destruct Hcase as [(-> & _)|[(-> & Htf & -> & ->)|(Et0 & Eal & _ & Htal & Htr1 & Hfree & Hc' & Hpde' & Hcopy & Hother)]];
    [done|..].
  - rewrite kmap_translate by (done || lia). eexists. split; [reflexivity|]. split; [done|].
    split; [|split_and!; (done || lia || by right)]. cbn [words].
    assert (Hd0 : (d + 4 * 0) / 4096 <> (table_of (words s) d 0 + 4 * (v / 4096)) / 4096).
    { rewrite !slot_page by (done || lia). apply page_neq; [done|done|congruence]. }
    split.
    + rewrite <- Hpde. unfold pde_of. change (d + 4 * (0 / REGION)) with (d + 4 * 0). unfold pload.
      rewrite lookup_insert_ne; [done|]. congruence.
    + unfold pload. by rewrite lookup_insert_eq.
    + intros j Hj Hne. unfold pload. rewrite lookup_insert_ne by lia. done.
    + intros x Hx1 Hx2. unfold pload. rewrite lookup_insert_ne; [done|]. intros E. apply Hx2.
      rewrite <- E. by apply slot_page.
  - assert (Htd' : t <> d) by (intros ->; congruence). assert (Htf : t <> FPT) by (intros ->; congruence).
    assert (Htr' : translate (words s') (cr3 s') (t + 4 * (v / 4096)) = Some (t + 4 * (v / 4096))).
    { rewrite Hc'. unfold translate. rewrite walk_page by (done || lia). unfold walk.
      assert (Ep : pde_of (words s') d t = t + 7) by (rewrite <- Hpde'; unfold pde_of; rewrite (Z.div_small t) by lia; done).
      rewrite Ep, present_small, entry_small by (auto || lia).
      unfold PAGE_SIZE, ENTRIES. rewrite (Z.mod_small (t / 4096)) by (unfold REGION in *; dlia).
      rewrite Hcopy by (unfold REGION in *; dlia). unfold aligned in Htal.
      rewrite present_small, entry_small by (unfold aligned; auto || dlia). f_equal. dlia. }
    rewrite Htr'. eexists. split; [reflexivity|]. split; [done|].
    split; [|split_and!; (done || lia || by left)]. cbn [words].
    assert (Hd0 : (d + 4 * 0) / 4096 <> (t + 4 * (v / 4096)) / 4096).
    { rewrite !slot_page by (done || lia). apply page_neq; [done|done|congruence]. }
    split.
    + rewrite <- Hpde'. unfold pde_of. change (d + 4 * (0 / REGION)) with (d + 4 * 0). unfold pload.
      rewrite lookup_insert_ne; [done|]. congruence.
    + unfold pload. by rewrite lookup_insert_eq.
    + intros j Hj Hne. rewrite Et0, Hid by done. rewrite <- Hcopy by done.
      unfold pload. rewrite lookup_insert_ne by lia. done.
    + intros x Hx1 Hx2. rewrite <- Hother by done. unfold pload. rewrite lookup_insert_ne; [done|]. intros E. apply Hx2.
      rewrite <- E. by apply slot_page.
Qed.

(** The page itself, and the other pages of the region. *)
Lemma mapped_self w w' d t v F o : mapped w w' d t v F -> aligned t -> aligned v -> 0 <= v < REGION -> aligned F ->
  0 <= o < 4096 -> user_translate w' d (v + o) = Some (F + o).
Proof.
  intros [M1 M2 M3 M4] Ht Hva Hv HF Ho. unfold user_translate. rewrite walk_page by done.
  assert (Ep : pde_of w' d (v + o) = t + 7 /\ pde_of w' d v = t + 7).
  { rewrite <- M1. unfold pde_of. rewrite (Z.div_small v), (Z.div_small (v + o)); [done|..]; unfold aligned, REGION in *; dlia. }
  destruct Ep as [Ep Ep']. unfold walk. rewrite Ep', Ep. rewrite (present_small t), (entry_small t) by (auto || lia).
  unfold PAGE_SIZE, ENTRIES. rewrite (Z.mod_small (v / 4096)) by (unfold REGION in *; dlia).
  rewrite M2, (present_small F), !user_flag, entry_small by (auto || lia). cbn [andb].
  f_equal. unfold aligned in Hva. dlia.
Qed.

Lemma mapped_other w w' d t v F v' : mapped w w' d t v F -> aligned t ->
  pde_of w d 0 = table_of w d 0 + 7 -> 0 <= v' < REGION -> v' / 4096 <> v / 4096 ->
  translate w' d v' = translate w d v' /\ user_translate w' d v' = user_translate w d v'.
Proof.
  intros [M1 M2 M3 M4] Ht Hpde Hv' Hne.
  assert (Ep : pde_of w' d v' = t + 7) by (rewrite <- M1; unfold pde_of; rewrite (Z.div_small v') by lia; done).
  assert (Ep0 : pde_of w d v' = table_of w d 0 + 7) by (rewrite <- Hpde; unfold pde_of; rewrite (Z.div_small v') by lia; done).
  assert (Hta : aligned (table_of w d 0)) by apply aligned_entry.
  assert (Hw : walk w' d v' = walk w d v').
  { unfold walk. rewrite Ep, Ep0, !present_small, !entry_small by (auto || lia).
    unfold PAGE_SIZE, ENTRIES. rewrite (Z.mod_small (v' / 4096)) by (unfold REGION in *; dlia).
    rewrite M3 by (done || (unfold REGION in *; dlia)). done. }
  unfold translate, user_translate. rewrite Hw, Ep, Ep0, !user_flag by done. done.
Qed.

Lemma mapped_foreign w w' d t v F d2 v' : mapped w w' d t v F -> aligned d -> aligned t -> aligned d2 ->
  vaddr_ok v' -> d2 <> d -> d2 <> t -> table_of w d2 v' <> d -> table_of w d2 v' <> t ->
  translate w' d2 v' = translate w d2 v' /\ user_translate w' d2 v' = user_translate w d2 v'.
Proof.
  intros [M1 M2 M3 M4] Hd Ht Hd2 Hv' N1 N2 N3 N4. unfold vaddr_ok in Hv'.
  assert (E : pde_of w' d2 v' = pde_of w d2 v').
  { unfold pde_of. assert (0 <= v' / REGION < 1024) by (unfold REGION; dlia).
    apply M4; [intros E; apply (page_neq d2 d); [done..|]; rewrite <- E; by rewrite slot_page|].
    rewrite slot_page by done. by apply page_neq. }
  assert (Hta : aligned (table_of w d2 v')) by apply aligned_entry.
  assert (Hw : walk w' d2 v' = walk w d2 v').
  { unfold walk. rewrite E. destruct (present (pde_of w d2 v')); [|done]. fold (table_of w d2 v').
    unfold PAGE_SIZE, ENTRIES. assert (0 <= v' / 4096 mod 1024 < 1024) by dlia.
    rewrite M4; [done| |rewrite slot_page by done; by apply page_neq].
    intros E'. apply (page_neq (table_of w d2 v') d); [done..|]. rewrite <- E'. by rewrite slot_page. }
  unfold translate, user_translate. rewrite Hw, E. done.
Qed.

(** C23: Mapping a page gives the running task, and only it, that page: no
    access faults; with a frame for the table available the task's ring-3
    code reaches exactly the given frame at the page's addresses, every other
    address of the region translates as before (for the kernel and for ring
    3), and so does every address of every directory that does not share the
    task's own structures; without one nothing changes. *)
Theorem paging_map_private a s d v F : user_space a s d -> aligned v -> 0 <= v < REGION -> aligned F ->
  exists m a' s' t, paging_get_or_create_user_table FPT a s d v = Some (m, a', s', t) /\
  (t = 0 -> s' = s /\ forall n, fr_free a' n = fr_free a n) /\
  (t <> 0 -> exists s'', paging_map_user_page s' t v F = Some s'' /\ cr3 s'' = d /\
     (forall o, 0 <= o < 4096 -> user_translate (words s'') d (v + o) = Some (F + o)) /\
     (forall v', 0 <= v' < REGION -> v' / 4096 <> v / 4096 ->
        translate (words s'') d v' = translate (words s) d v' /\
        user_translate (words s'') d v' = user_translate (words s) d v') /\
     (forall d2 v', aligned d2 -> vaddr_ok v' -> d2 <> d -> d2 <> t ->
        table_of (words s) d2 v' <> d -> table_of (words s) d2 v' <> t ->
        translate (words s'') d2 v' = translate (words s) d2 v' /\
        user_translate (words s'') d2 v' = user_translate (words s) d2 v')).
Proof.
  intros Hs Hva Hv HF. destruct (get_or_create_spec a s d v Hs Hv) as (m & a' & s' & t & Hg & Ha' & Hcase).
  exists m, a', s', t. split; [done|]. split.
  - intros Ht0. destruct Hcase as [(_ & -> & _ & Hfr)|[(Et & _)|(_ & _ & Hne & _)]]; [done| |done].
    pose proof (us_positive _ _ _ Hs). lia.
  - intros Ht0. destruct (map_user_page_spec a s d v F m a' s' t Hs Hva Hv HF Hg Ht0)
      as (s'' & Hm & Hc & Hmap & Hta & _).
    exists s''. split; [done|]. split; [done|]. pose proof (us_dir _ _ _ Hs) as (Hda & _).
    split_and!.
    + intros o Ho. by eapply mapped_self.
    + intros v' Hv' Hne. eapply mapped_other; try done. apply Hs.
    + intros d2 v' ? ? ? ? ? ?. by eapply mapped_foreign.
Qed.

(** ** Freeing *)

(** The frames a directory owns: the private entries of its private tables,
    and those tables. *)
Definition private_frame (w : gmap Z Z) (t j : Z) : list Z :=
  let e := pload w (t + 4 * j) in
  if negb (present e) then [] else if e =? pload w (FPT + 4 * j) then [] else [entry_frame e].
Definition owned_table (w : gmap Z Z) (t : Z) : list Z := flat_map (private_frame w t) (seqZ 0 1024).
Definition owned_entry (w : gmap Z Z) (d i : Z) : list Z :=
  let e := pload w (d + 4 * i) in
  if negb (present e) then [] else if entry_frame e =? FPT then [] else owned_table w (entry_frame e) ++ [entry_frame e].
Definition owned (w : gmap Z Z) (d : Z) : list Z := flat_map (owned_entry w d) (seqZ 0 1024).

Lemma seqZ_S_nat i n : seqZ i (Z.of_nat (S n)) = i :: seqZ (i + 1) (Z.of_nat n).
Proof. rewrite seqZ_cons by lia. f_equal. f_equal; lia. Qed.

Lemma vload_kmap s f o : kmap s f -> 0 <= o < 4096 -> vload s (f + o) = Some (pload (words s) (f + o)).
Proof. intros Hk Ho. unfold vload. by rewrite kmap_translate. Qed.

Lemma free_table_frames_spec n j a s t : kmap s t -> kmap s FPT -> 0 <= j -> j + Z.of_nat n <= 1024 ->
  free_table_frames FPT n j a s t
    = Some (foldl fr_release a (flat_map (private_frame (words s) t) (seqZ j (Z.of_nat n)))).
Proof.
  intros Ht Hf. revert j a. induction n as [|n IH]; intros j a Hj Hn; cbn [free_table_frames]; [done|].
  rewrite seqZ_S_nat. cbn [flat_map]. rewrite foldl_app.
  rewrite (eq_refl : private_frame (words s) t j = if negb (present (pload (words s) (t + 4 * j))) then []
    else if pload (words s) (t + 4 * j) =? pload (words s) (FPT + 4 * j) then []
    else [entry_frame (pload (words s) (t + 4 * j))]).
  rewrite vload_kmap by (done || lia). destruct (present (pload (words s) (t + 4 * j))); cbn [negb].
  2:{ apply IH; lia. }
  rewrite vload_kmap by (done || lia).
  destruct (pload (words s) (t + 4 * j) =? pload (words s) (FPT + 4 * j)); apply IH; lia.
Qed.

Lemma free_tables_spec n i a s d : kmap s d -> kmap s FPT -> 0 <= i -> i + Z.of_nat n <= 1024 ->
  (forall k, 0 <= k < 1024 -> present (pload (words s) (d + 4 * k)) = true ->
     kmap s (entry_frame (pload (words s) (d + 4 * k)))) ->
  free_tables FPT n i a s d
    = Some (foldl fr_release a (flat_map (owned_entry (words s) d) (seqZ i (Z.of_nat n)))).
Proof.
  intros Hd Hf Hi Hn Ht. revert i a Hi Hn. induction n as [|n IH]; intros i a Hi Hn; cbn [free_tables]; [done|].
  rewrite seqZ_S_nat. cbn [flat_map]. rewrite foldl_app.
  rewrite (eq_refl : owned_entry (words s) d i = if negb (present (pload (words s) (d + 4 * i))) then []
    else if entry_frame (pload (words s) (d + 4 * i)) =? FPT then []
    else owned_table (words s) (entry_frame (pload (words s) (d + 4 * i))) ++ [entry_frame (pload (words s) (d + 4 * i))]).
  rewrite vload_kmap by (done || lia). specialize (Ht i ltac:(lia)).
  destruct (present (pload (words s) (d + 4 * i))); cbn [negb]; [|apply IH; lia].
  destruct (entry_frame (pload (words s) (d + 4 * i)) =? FPT); [apply IH; lia|].
  change (Z.to_nat ENTRIES) with 1024%nat.
  rewrite free_table_frames_spec by (auto || lia). rewrite IH by lia.
  change (Z.of_nat 1024) with 1024. fold (owned_table (words s) (entry_frame (pload (words s) (d + 4 * i)))).
  by rewrite foldl_app.
Qed.

Lemma release_all_free a l : fr_inv a -> Forall (fun f => 4096 <= f < 4294967296) l ->
  fr_inv (foldl fr_release a l) /\
  forall n, fr_free (foldl fr_release a l) n = true <-> fr_free a n = true \/ exists f, f ∈ l /\ n = f / 4096.
Proof.
  intros Ha Hl. revert a Ha. induction Hl as [|f l Hf Hl IH]; intros a Ha; cbn [foldl].
  { split; [done|]. intros n. set_solver. }
  destruct (fr_release_free a f Ha Hf) as [H1 H2]. destruct (IH (fr_release a f)) as [Hi Hn]; [by apply fr_release_inv|].
  split; [done|]. intros n. rewrite Hn. setoid_rewrite elem_of_cons. unfold FRAME_SIZE in *.
  destruct (decide (n = f / 4096)) as [->|Hne].
  - split; [|by left]. intros _. right. exists f. split; [by left|done].
  - rewrite H2 by done. split; (intros [?|(g & Hg & ->)]; [by left|right]).
    + exists g. split; [by right|done].
    + destruct Hg as [->|Hg]; [done|]. by exists g.
Qed.

(** Changing one index from nothing to one frame adds that frame. *)
Lemma flat_map_add (f f' : Z -> list Z) l k F : NoDup l -> k ∈ l -> f k = [] -> f' k = [F] ->
  (forall j, j ∈ l -> j <> k -> f' j = f j) -> flat_map f' l ≡ₚ F :: flat_map f l.
Proof.
  intros Hnd Hk Hf Hf' Hj. induction Hnd as [|x l Hx Hnd IH]; [by apply elem_of_nil in Hk|].
  cbn [flat_map]. apply elem_of_cons in Hk as [<-|Hk].
  - rewrite Hf, Hf'. cbn [app].
    assert (E : flat_map f' l = flat_map f l); [|by rewrite E].
    clear IH Hnd. induction l as [|y l IH]; [done|]. cbn [flat_map]. apply not_elem_of_cons in Hx as [Hy Hx].
    rewrite IH, (Hj y); [done|right; by left|done|done|]. intros j Hin Hne. apply Hj; [|done].
    apply elem_of_cons in Hin as [->|Hin]; [by left|right; by right].
  - rewrite IH; [|done|intros j Hin; apply Hj; by right]. rewrite Hj; [|by left|congruence].
    by rewrite Permutation_middle.
Qed.

Lemma flat_map_nil (f : Z -> list Z) l : (forall j, j ∈ l -> f j = []) -> flat_map f l = [].
Proof.
  induction l as [|x l IH]; intros Hf; [done|]. cbn [flat_map]. rewrite Hf, IH; [done| |by left].
  intros j Hj. apply Hf. by right.
Qed.

(** With only the first region present, what is owned is its table's. *)
Lemma owned_first w d : (forall i, 1 <= i < 1024 -> present (pload w (d + 4 * i)) = false) ->
  owned w d = owned_entry w d 0.
Proof.
  intros Hp. unfold owned. change 1024 with (Z.of_nat (S 1023)) at 1. rewrite seqZ_S_nat. cbn [flat_map].
  rewrite flat_map_nil; [apply app_nil_r|]. intros j Hj. apply elem_of_seqZ in Hj. unfold owned_entry. cbv zeta.
  rewrite Hp by lia. done.
Qed.

Lemma owned_entry_table w d t : aligned t -> pde_of w d 0 = t + 7 ->
  owned_entry w d 0 = if t =? FPT then [] else owned_table w t ++ [t].
Proof.
  intros Ht Hp. unfold owned_entry. cbv zeta. change (pload w (d + 4 * 0)) with (pde_of w d 0). rewrite Hp.
  rewrite present_small, entry_small by (auto || lia). done.
Qed.

Lemma owned_table_shared w : owned_table w FPT = [].
Proof.
  apply flat_map_nil. intros j _. unfold private_frame. cbv zeta. rewrite Z.eqb_refl. by destruct (negb _).
Qed.

(** A mapped page adds its frame, and the table if it is new, to what the
    directory owns. *)
Lemma mapped_owned w w' d t v F : identity_table w -> aligned FPT -> aligned d -> aligned t -> aligned F ->
  pde_of w d 0 = table_of w d 0 + 7 -> t <> FPT -> t <> d -> d <> FPT -> 0 <= v < REGION ->
  (forall i, 1 <= i < 1024 -> present (pload w (d + 4 * i)) = false) ->
  pload w (table_of w d 0 + 4 * (v / 4096)) = 4096 * (v / 4096) + 3 ->
  t = table_of w d 0 \/ table_of w d 0 = FPT ->
  mapped w w' d t v F ->
  owned w' d ≡ₚ F :: (if table_of w d 0 =? FPT then [t] else []) ++ owned w d.
Proof.
  intros Hid Hfa Hda Hta HF Hpde Htf Htd Hdf Hv Hp Hslot Ht [M1 M2 M3 M4].
  assert (Hidx : 0 <= v / 4096 < 1024) by (unfold REGION in *; dlia).
  assert (Hpd : forall i, 1 <= i < 1024 -> pload w' (d + 4 * i) = pload w (d + 4 * i)).
  { intros i Hi. apply M4; [lia|]. rewrite slot_page by (done || lia). apply page_neq; congruence. }
  rewrite !owned_first; [|done|intros i Hi; rewrite Hpd by lia; by apply Hp].
  rewrite (owned_entry_table w' d t), (owned_entry_table w d (table_of w d 0)) by (done || apply aligned_entry).
  rewrite (proj2 (Z.eqb_neq t FPT) Htf).
  assert (Hsh : forall j, 0 <= j < 1024 -> pload w' (FPT + 4 * j) = 4096 * j + 3).
  { intros j Hj. rewrite M4; [by apply Hid| |rewrite slot_page by done; apply page_neq; congruence].
    intros E. apply (page_neq FPT d); [done..|congruence|]. rewrite <- E. by rewrite slot_page. }
  assert (Htab : owned_table w' t ≡ₚ F :: owned_table w (table_of w d 0)).
  { apply (flat_map_add _ _ _ (v / 4096)).
    - apply NoDup_seqZ.
    - apply elem_of_seqZ. lia.
    - unfold private_frame. cbv zeta. rewrite Hslot, Hid, Z.eqb_refl by done. by destruct (negb _).
    - unfold private_frame. cbv zeta. rewrite M2, Hsh, present_small, entry_small by (auto || lia). cbn [negb].
      destruct (Z.eqb_spec (F + 7) (4096 * (v / 4096) + 3)) as [E|]; [|done]. unfold aligned in HF. dlia.
    - intros j Hj Hne. apply elem_of_seqZ in Hj. unfold private_frame. cbv zeta.
      rewrite M3, Hsh, Hid by lia. done. }
  rewrite Htab. destruct (Z.eqb_spec (table_of w d 0) FPT) as [E|E].
  - rewrite E, owned_table_shared. cbn [app]. done.
  - destruct Ht as [->|Ht]; [done|congruence].
Qed.

(** C24: An address space gives back what it took: after a page was mapped for
    a task, freeing its directory from whatever address space the reaper runs
    in does not fault and frees exactly that page's frame, the task's table
    and what the directory owned before, leaving every other frame's state as
    it was; no kernel frame is ever freed. *)
Theorem paging_lifecycle a s d v F m a' s' t s'' k :
  user_space a s d -> aligned v -> 0 <= v < REGION -> aligned F -> 4096 <= F < 4294967296 ->
  (forall i, 1 <= i < 1024 -> present (pload (words s) (d + 4 * i)) = false) ->
  pload (words s) (table_of (words s) d 0 + 4 * (v / 4096)) = 4096 * (v / 4096) + 3 ->
  Forall (fun f => 4096 <= f < 4294967296) (owned (words s) d) ->
  paging_get_or_create_user_table FPT a s d v = Some (m, a', s', t) -> t <> 0 ->
  paging_map_user_page s' t v F = Some s'' ->
  let s2 := paging_switch_directory s'' k in
  kmap s2 d -> kmap s2 FPT -> kmap s2 t ->
  exists a2, paging_free_user_directory FPT a' s2 d = Some a2 /\ fr_inv a2 /\
    forall n, fr_free a2 n = true <->
      fr_free a' n = true \/ n = F / 4096 \/ n = t / 4096 \/ exists f, f ∈ owned (words s) d /\ n = f / 4096.
Proof.
  intros Hs Hva Hv HF HFr Hp Hslot Hold Hg Ht0 Hm s2 K1 K2 K3.
  destruct (get_or_create_spec a s d v Hs Hv) as (m1 & a1 & s1 & t1 & Hg' & Ha1 & Hcase).
  rewrite Hg in Hg'. injection Hg' as <- <- <- <-.
  destruct (map_user_page_spec a s d v F m a' s' t Hs Hva Hv HF Hg Ht0) as (s3 & Hm' & Hc & Hmap & Hta & Htr & Htd & Htf & _).
  rewrite Hm in Hm'. injection Hm' as <-.
  pose proof Hs as [_ _ (Hda & _) (Hfa & _) Hid _ Hpde [Hdf _] _ _ _].
  assert (Hown : owned (words s'') d ≡ₚ F :: (if table_of (words s) d 0 =? FPT then [t] else []) ++ owned (words s) d).
  { apply (mapped_owned (words s) (words s'') d t v F); try done.
    destruct Hcase as [(E & _)|[(E & _)|(E & _)]]; [done|by left|by right]. }
  assert (Hin : forall n, (exists f, f ∈ owned (words s'') d /\ n = f / 4096) <->
    n = F / 4096 \/ n = t / 4096 \/ exists f, f ∈ owned (words s) d /\ n = f / 4096).
  { intros n.
    assert (Hmem : forall f, f ∈ owned (words s'') d <->
      f = F \/ f ∈ (if table_of (words s) d 0 =? FPT then [t] else []) \/ f ∈ owned (words s) d).
    { intros f. rewrite Hown, elem_of_cons, elem_of_app. done. }
    setoid_rewrite Hmem. clear Hmem.
    assert (Hto : table_of (words s) d 0 <> FPT -> t ∈ owned (words s) d).
    { intros Hne. destruct Hcase as [(E & _)|[(E & _)|(E & _)]]; [done| |done].
      rewrite owned_first, (owned_entry_table _ _ t) by (done || congruence).
      rewrite (proj2 (Z.eqb_neq _ _) Htf). apply elem_of_app. right. by apply list_elem_of_singleton. }
    destruct (Z.eqb_spec (table_of (words s) d 0) FPT) as [E|E].
    - setoid_rewrite list_elem_of_singleton. split.
      + intros (f & [->|[->|Hf]] & ->); [by left|by right; left|]. right. right. by exists f.
      + intros [->|[->|(f & Hf & ->)]]; [exists F|exists t|exists f]; (split; [|done]); auto.
    - specialize (Hto E). split.
      + intros (f & [->|[Hf|Hf]] & ->); [by left|by apply elem_of_nil in Hf|]. right. right. by exists f.
      + intros [->|[->|(f & Hf & ->)]]; [exists F|exists t|exists f]; (split; [|done]); auto. }
  unfold paging_free_user_directory. change (Z.to_nat ENTRIES) with 1024%nat.
  rewrite free_tables_spec; [|done|done|lia|lia|].
  - change (Z.of_nat 1024) with 1024. change (words s2) with (words s''). fold (owned (words s'') d).
    destruct (release_all_free a' (owned (words s'') d) Ha1) as [Hi Hn].
    { rewrite Hown. constructor; [done|]. apply Forall_app. split; [|done].
      destruct (_ =? _); repeat constructor; unfold aligned, REGION in *; dlia. }
    eexists. split; [reflexivity|]. split; [done|]. intros n. by rewrite Hn, Hin.
  - intros i Hi Hpi. change (words s2) with (words s'') in *. destruct (decide (i = 0)) as [->|Hi0].
    + change (pload (words s'') (d + 4 * 0)) with (pde_of (words s'') d 0). rewrite (ma_pde _ _ _ _ _ _ Hmap).
      by rewrite entry_small by (done || lia).
    + rewrite (ma_frame _ _ _ _ _ _ Hmap), Hp in Hpi; [done|lia|lia|].
      rewrite slot_page by done. apply page_neq; congruence.
Qed.
End Space.

(** Deciding [kmap]. *)
Definition kmap_b (s : mmu) (f : Z) : bool :=
  (f mod 4096 =? 0) && (0 <=? f) && (f <? REGION) &&
  match walk (words s) (cr3 s) f with Some pte => entry_frame pte =? f | None => false end.

Lemma kmap_b_sound s f : kmap_b s f = true -> kmap s f.
Proof.
  unfold kmap_b. intros Hb. destruct (walk (words s) (cr3 s) f) as [pte|] eqn:E; zbool; [|done].
  split; [done|]. split; [lia|]. by exists pte.
Qed.

(** ** A concrete machine

    Its allocator keeps a list of the free frame numbers, a second instance of
    the interface beside the bitmap of [Pmm]. *)
Module Demo.
Definition pool_ok (l : list Z) : Prop := NoDup l /\ Forall (fun f => 0 < f < 1048576) l.

#[export] Instance pool_allocator : FrameAllocator (list Z) := {
  fr_inv := pool_ok;
  fr_free l f := bool_decide (f ∈ l);
  fr_alloc l := match l with f :: rest => (rest, f * 4096) | [] => ([], 0) end;
  fr_release l addr := if bool_decide (addr / 4096 ∈ l) then l else addr / 4096 :: l;
  fr_free_count l := Z.of_nat (length l) }.

#[export] Instance pool_laws : FrameAllocatorLaws (list Z).
Proof.
  split; cbn.
  - intros [|f l] [Hn Hf]; [done|]. apply NoDup_cons in Hn as [_ Hn]. apply Forall_cons in Hf as [_ Hf]. done.
  - intros [|f l] l' a [Hn Hf] [= <- <-] Ha; [done|]. apply NoDup_cons in Hn as [Hx Hn].
    apply Forall_cons in Hf as [Hf _]. unfold FRAME_SIZE. rewrite Z.div_mul by done.
    split; [apply Z_mod_mult|]. split; [lia|]. rewrite bool_decide_true by (by left).
    rewrite bool_decide_false by done. split; [done|]. split; [done|].
    intros g Hg. apply bool_decide_ext. rewrite elem_of_cons. naive_solver.
  - intros [|f l] l' [Hn Hf] E; [congruence|]. apply Forall_cons in Hf as [Hf _]. injection E as _ E. lia.
  - intros l a [Hn Hf] Ha. unfold FRAME_SIZE in Ha. case_bool_decide; [done|]. split; [by constructor|].
    constructor; [dlia|done].
  - intros l a [Hn Hf] Ha. unfold FRAME_SIZE. destruct (decide (a / 4096 ∈ l)) as [Hin|Hin].
    + rewrite (bool_decide_true (a / 4096 ∈ l)) by done. split; [by apply bool_decide_true|done].
    + rewrite (bool_decide_false (a / 4096 ∈ l)) by done.
      split; [by apply bool_decide_true; left|]. intros g Hg. apply bool_decide_ext.
      rewrite elem_of_cons. naive_solver.
Qed.

Definition pool : list Z := [1; 2; 3; 4].
Definition KD : Z := 1114112.
Definition FPT : Z := 1118208.
Definition booted : mmu := (paging_init ∅ KD FPT).2.

(** The task's directory, in frame 1, and the address space it runs in. *)
Definition clone_run : option (list tty * list Z * mmu * Z) := paging_clone_kernel_directory KD pool booted.
Definition frames1 : list Z := default pool ((fun r => r.1.1.2) <$> clone_run).
Definition space1 : mmu := default booted ((fun r => paging_switch_directory r.1.2 r.2) <$> clone_run).

Lemma identity_by w : forallb (fun i => pload w (FPT + 4 * i) =? 4096 * i + 3) (seqZ 0 1024) = true ->
  identity_table FPT w.
Proof.
  intros Hb i Hi. rewrite forallb_forall in Hb. apply Z.eqb_eq, Hb. apply list_elem_of_In, elem_of_seqZ. lia.
Qed.

Lemma space1_ok : user_space FPT frames1 space1 4096.
Proof.
  assert (Et : table_of (words space1) 4096 0 = FPT) by (vm_compute; reflexivity).
  split.
  - assert (E : frames1 = [2; 3; 4]) by (vm_compute; reflexivity). rewrite E.
    split; [apply (bool_decide_unpack _); vm_compute; exact I|repeat constructor; lia].
  - vm_compute. reflexivity.
  - apply kmap_b_sound. vm_compute. reflexivity.
  - apply kmap_b_sound. vm_compute. reflexivity.
  - apply identity_by. vm_compute. reflexivity.
  - rewrite Et. apply kmap_b_sound. vm_compute. reflexivity.
  - rewrite Et. vm_compute. reflexivity.
  - rewrite Et. split; discriminate.
  - rewrite Et. split; reflexivity.
  - rewrite Et. split_and!; vm_compute; reflexivity.
  - intros a' f Hf _ _. assert (E : snd (fr_alloc frames1) = 8192) by (vm_compute; reflexivity).
    rewrite Hf in E. cbn [snd] in E. subst f. apply kmap_b_sound. vm_compute. reflexivity.
Qed.

(** The check of a run that maps user page 0x300000 to the frame at 0x200000. *)
Definition run_check (r : option (list tty * list Z * mmu * Z)) : bool :=
  match r with
  | Some (_, _, s', t) =>
      (t =? 8192) &&
      match paging_map_user_page s' t 3145728 2097152 with
      | Some s => let s2 := paging_switch_directory s KD in kmap_b s2 4096 && kmap_b s2 FPT && kmap_b s2 8192
      | None => false
      end
  | None => false
  end.

Lemma run_check_facts r : run_check r = true -> exists m a' s' s'', r = Some (m, a', s', 8192) /\
  paging_map_user_page s' 8192 3145728 2097152 = Some s'' /\
  kmap (paging_switch_directory s'' KD) 4096 /\ kmap (paging_switch_directory s'' KD) FPT /\
  kmap (paging_switch_directory s'' KD) 8192.
Proof.
  destruct r as [[[[m a'] s'] t]|]; [|done]. cbn [run_check]. intros R.
  destruct (paging_map_user_page s' t 3145728 2097152) as [s''|] eqn:Em; [|by rewrite andb_false_r in R].
  cbv zeta in R. apply andb_true_iff in R as [Rt R]. apply andb_true_iff in R as [R K3].
  apply andb_true_iff in R as [K1 K2]. apply Z.eqb_eq in Rt. subst t.
  exists m, a', s', s''. split; [done|]. split; [done|]. split_and!; by apply kmap_b_sound.
Qed.

Lemma run_ok : run_check (paging_get_or_create_user_table FPT frames1 space1 4096 3145728) = true.
Proof. vm_compute. reflexivity. Qed.

Lemma space1_first i : 1 <= i < 1024 -> present (pload (words space1) (4096 + 4 * i)) = false.
Proof.
  intros Hi. assert (Hb : forallb (fun i => negb (present (pload (words space1) (4096 + 4 * i)))) (seqZ 1 1023) = true)
    by (vm_compute; reflexivity).
  rewrite forallb_forall in Hb. apply negb_true_iff, Hb. apply list_elem_of_In, elem_of_seqZ. lia.
Qed.

Lemma space1_owned : owned FPT (words space1) 4096 = [].
Proof. vm_compute. reflexivity. Qed.

Lemma space1_slot :
  pload (words space1) (table_of (words space1) 4096 0 + 4 * (3145728 / 4096)) = 4096 * (3145728 / 4096) + 3.
Proof. vm_compute. reflexivity. Qed.
End Demo.
Import Demo.

Lemma paging_map_private_witness :
  exists m a' s' t, paging_get_or_create_user_table FPT frames1 space1 4096 3145728 = Some (m, a', s', t) /\
  (t <> 0 -> exists s'', paging_map_user_page s' t 3145728 2097152 = Some s'' /\
     user_translate (words s'') 4096 (3145728 + 5) = Some (2097152 + 5)).
Proof.
  destruct (paging_map_private FPT frames1 space1 4096 3145728 2097152 space1_ok) as (m & a' & s' & t & E & _ & Ht);
    [reflexivity|split; [discriminate|reflexivity]|reflexivity|].
  exists m, a', s', t. split; [exact E|]. intros Hne. destruct (Ht Hne) as (s'' & Hm & _ & Hu & _).
  exists s''. split; [exact Hm|]. apply Hu. split; [discriminate|reflexivity].
Defined.

Lemma paging_lifecycle_witness :
  exists a' s a2, paging_free_user_directory FPT a' (paging_switch_directory s KD) 4096 = Some a2 /\
    fr_free a2 512 = true /\ fr_free a2 2 = true.
Proof.
  destruct (run_check_facts _ run_ok) as (m & a' & s' & s'' & E & Em & K1 & K2 & K3).
  destruct (paging_lifecycle FPT frames1 space1 4096 3145728 2097152 m a' s' 8192 s'' KD space1_ok)
    as (a2 & Hf & _ & Hn);
    [reflexivity|split; [discriminate|reflexivity]|reflexivity|split; [discriminate|reflexivity]
    |exact space1_first|exact space1_slot|rewrite space1_owned; constructor|exact E|discriminate|exact Em
    |exact K1|exact K2|exact K3|].
  exists a', s'', a2. split; [exact Hf|]. split; apply Hn; right; [left|right; left]; reflexivity.
Defined.

(** The identity mapping the kernel relies on is shadowed by user pages: with
    a user page at the address of the next free frame (here 12288), cloning a
    directory into that frame writes it into the user's page instead, and the
    new directory is left as the frame was. *)
Definition shadow_check (r : option (list tty * list Z * mmu * Z)) : bool :=
  match r with
  | Some (_, a, s, t) =>
      match paging_map_user_page s t 12288 2097152 with
      | Some s =>
          match paging_clone_kernel_directory KD a s with
          | Some (_, _, s', d) =>
              (d =? 12288) && (pload (words s') d =? 0) && negb (pload (words s') KD =? 0)
              && (pload (words s') 2097152 =? pload (words s') KD)
          | None => false
          end
      | None => false
      end
  | None => false
  end.
Example clone_through_shadowed_frame :
  shadow_check (paging_get_or_create_user_table FPT frames1 space1 4096 12288) = true.
Proof. vm_compute. reflexivity. Qed.
