(* ===== verification/Usermode.v ===== *)
(** * Entering ring 3 (src/src/usermode.c, src/src/exec.c)

    The argument strings a program is launched with, and the stack page with
    the call frame of its entry point that they are laid out on. *)
From S2P Require Import Prelude Pmm Paging.

Definition USER_STACK_SIZE : Z := 4096.
Definition USER_STACK_VADDR : Z := 4190208.
Definition MAX_ARGS : Z := 16.
Definition EXEC_MAX_ARGS : Z := 16.
Definition EXEC_MAX_ARG_LEN : Z := 64.

(** [exec_run]'s copy of its arguments: each cut to 63 characters; [None] is
    the refusal of an empty or too long list. *)
Definition exec_args (argv : list (list Z)) : option (list (list Z)) :=
  let argc := Z.of_nat (length argv) in
  if (argc <? 1) || (EXEC_MAX_ARGS <? argc) then None
  else Some (map (take (Z.to_nat (EXEC_MAX_ARG_LEN - 1))) argv).

(** The bytes the arguments and the frame take. *)
Definition needed (argv : list (list Z)) : Z :=
  let n := foldl (fun n src => u32 (n + u32 (Z.of_nat (length src) + 1))) 0 argv in
  let n := Z.land (u32 (n + 3)) (u32 (Z.lnot 3)) in
  u32 (u32 (n + u32 ((Z.of_nat (length argv) + 1) * 4)) + 3 * 4).

(** The strings, copied from the last to the first: the page, the offset of
    the lowest one and the addresses of all. *)
Fixpoint copy_args (rev_argv : list (list Z)) (page : list Z) (top : Z) (copied : list Z)
    : list Z * Z * list Z :=
  match rev_argv with
  | [] => (page, top, copied)
  | src :: rest =>
      let top := top - (Z.of_nat (length src) + 1) in
      copy_args rest (splice page (Z.to_nat top) (src ++ [0])) top (USER_STACK_VADDR + top :: copied)
  end.

(** [*(--frame) = x] *)
Definition push32 (page : list Z) (top x : Z) : list Z * Z :=
  (splice page (Z.to_nat (top - 4)) (put_le32 x), top - 4).

(** The page and [user_esp]. *)
Definition build_stack (argv : list (list Z)) : list Z * Z :=
  let argc := Z.of_nat (length argv) in
  let page := replicate (Z.to_nat USER_STACK_SIZE) 0 in
  let '(page, top, copied) := copy_args (rev argv) page USER_STACK_SIZE [] in
  let top := Z.land (USER_STACK_VADDR + top) (u32 (Z.lnot 3)) - USER_STACK_VADDR in
  let top := top - (argc + 1) * 4 in
  let page := splice page (Z.to_nat top) (mjoin (map put_le32 copied) ++ put_le32 0) in
  let argv_array := USER_STACK_VADDR + top in
  let '(page, top) := push32 page top argv_array in
  let '(page, top) := push32 page top argc in
  let '(page, top) := push32 page top 0 in
  (page, USER_STACK_VADDR + top).

(** How [usermode_enter] ends: the jump to ring 3 with the frame and contents
    of the stack page and the stack pointer, or a return to its caller. *)
Inductive enter_result :=
| Enter (stack_frame : Z) (page : list Z) (user_esp : Z)
| Refused.

Section Enter.
Context {A : Type} `{FrameAllocator A}.
Context (first_page_table : Z).

(** [dir] is the running task's directory; [None] is a page fault. *)
Definition usermode_enter (a : A) (s : mmu) (dir : Z) (argv : list (list Z))
    : option (list tty * A * mmu * enter_result) :=
  let argv := take (Z.to_nat MAX_ARGS) argv in
  if USER_STACK_SIZE <? needed argv then Some ([], a, s, Refused)
  else
    let '(a, stack_frame) := fr_alloc a in
    if stack_frame =? 0 then Some ([], a, s, Refused)
    else
      match paging_get_or_create_user_table first_page_table a s dir USER_STACK_VADDR with
      | None => None
      | Some (m, a, s, table) =>
          if table =? 0 then Some (m, fr_release a stack_frame, s, Refused)
          else match paging_map_user_page s table USER_STACK_VADDR stack_frame with
               | None => None
               | Some s =>
                   let '(page, esp) := build_stack argv in
                   Some (m, a, paging_switch_directory s dir, Enter stack_frame page esp)
               end
      end.
End Enter.

(** ** The size computed is the size used *)
Definition strings (argv : list (list Z)) : list Z := mjoin (map (fun s => s ++ [0]) argv).

Lemma strings_cons s argv : strings (s :: argv) = s ++ [0] ++ strings argv.
Proof. unfold strings. cbn [map]. by rewrite join_cons, <- app_assoc. Qed.

Lemma strings_app l l' : strings (l ++ l') = strings l ++ strings l'.
Proof. induction l as [|s l IH]; [done|]. cbn [app]. by rewrite !strings_cons, IH, <- !app_assoc. Qed.

(** A bounded command line. *)
Definition fits (argv : list (list Z)) : Prop :=
  Z.of_nat (length argv) <= MAX_ARGS /\ Z.of_nat (length (strings argv)) < 65536.

Definition round4 (n : Z) : Z := (n + 3) / 4 * 4.

Lemma land_lnot3 x : is_u32 x -> Z.land x (u32 (Z.lnot 3)) = x / 4 * 4.
Proof. apply (land_mask 2). lia. Qed.

Lemma needed_eq argv : fits argv ->
  needed argv = round4 (Z.of_nat (length (strings argv))) + 4 * (Z.of_nat (length argv) + 1) + 12.
Proof.
  intros [Hc Hs]. unfold MAX_ARGS in Hc. unfold needed.
  assert (E : forall l n, 0 <= n -> n + Z.of_nat (length (strings l)) < 65536 ->
    foldl (fun n src => u32 (n + u32 (Z.of_nat (length src) + 1))) n l = n + Z.of_nat (length (strings l))).
  { induction l as [|s l IH]; intros n Hn Hl; cbn [foldl]; [cbn; lia|].
    rewrite strings_cons in *. rewrite !length_app in *. cbn [length] in *.
    rewrite (u32_small (Z.of_nat (length s) + 1)), u32_small by (unfold is_u32; lia). rewrite IH by lia. lia. }
  rewrite E by lia. rewrite Z.add_0_l. set (S := Z.of_nat (length (strings argv))) in *.
  rewrite (u32_small (S + 3)) by (unfold is_u32; lia). rewrite land_lnot3 by (unfold is_u32; lia).
  unfold round4. rewrite (u32_small ((_ + 1) * 4)) by (unfold is_u32; lia).
  rewrite (u32_small ((S + 3) / 4 * 4 + _)) by (unfold is_u32; dlia).
  rewrite u32_small by (unfold is_u32; dlia). lia.
Qed.

(** Writing just below the zeros that are left. *)
Lemma splice_zeros n k x rest : length x = k -> (k <= n)%nat ->
  splice (replicate n 0 ++ rest) (n - k) x = replicate (n - k) 0 ++ x ++ rest.
Proof.
  intros Hx Hk. unfold splice. rewrite take_app_le by (rewrite length_replicate; lia).
  rewrite take_replicate. replace ((n - k) `min` n)%nat with (n - k)%nat by lia.
  rewrite Hx. replace (n - k + k)%nat with n by lia. rewrite drop_app_length' by (by rewrite length_replicate). done.
Qed.

(** The addresses of strings laid out from offset [off] on. *)
Fixpoint addresses (argv : list (list Z)) (off : Z) : list Z :=
  match argv with
  | [] => []
  | s :: rest => USER_STACK_VADDR + off :: addresses rest (off + Z.of_nat (length s) + 1)
  end.

Lemma addresses_snoc argv s off :
  addresses (argv ++ [s]) off = addresses argv off ++ [USER_STACK_VADDR + off + Z.of_nat (length (strings argv))].
Proof.
  revert off. induction argv as [|x argv IH]; intros off; cbn [app addresses].
  - cbn. f_equal. lia.
  - rewrite IH, strings_cons, !length_app. cbn [length]. do 3 f_equal. lia.
Qed.

Lemma copy_args_spec argv top rest copied :
  Z.of_nat (length (strings argv)) <= top ->
  copy_args (rev argv) (replicate (Z.to_nat top) 0 ++ rest) top copied
  = (replicate (Z.to_nat (top - Z.of_nat (length (strings argv)))) 0 ++ strings argv ++ rest,
     top - Z.of_nat (length (strings argv)),
     addresses argv (top - Z.of_nat (length (strings argv))) ++ copied).
Proof.
  revert top rest copied. induction argv as [|s argv IH] using rev_ind; intros top rest copied Ht.
  { cbn. rewrite Z.sub_0_r. done. }
  rewrite rev_app_distr. cbn [rev app copy_args]. rewrite strings_app in *.
  rewrite (strings_cons s []) in *. change (strings []) with (@nil Z) in *. rewrite app_nil_r, !length_app in *. cbn [length] in *.
  set (k := (length s + 1)%nat). assert (Hk : Z.of_nat (length s) + 1 = Z.of_nat k) by lia. rewrite Hk.
  replace (Z.to_nat (top - Z.of_nat k)) with (Z.to_nat top - k)%nat by lia.
  rewrite splice_zeros by (rewrite ?length_app; cbn [length]; lia).
  replace (Z.to_nat top - k)%nat with (Z.to_nat (top - Z.of_nat k)) by lia. rewrite IH by lia.
  replace (top - Z.of_nat k - Z.of_nat (length (strings argv))) with (top - Z.of_nat (length (strings argv) + k)) by lia.
  rewrite addresses_snoc, <- !app_assoc. cbn [app].
  replace (USER_STACK_VADDR + (top - Z.of_nat k)) with (USER_STACK_VADDR + (top - Z.of_nat (length (strings argv) + k))
    + Z.of_nat (length (strings argv))) by lia. done.
Qed.

Lemma length_put_le32 x : length (put_le32 x) = 4%nat.
Proof. done. Qed.

Lemma length_pointers l : length (mjoin (map put_le32 l)) = (4 * length l)%nat.
Proof.
  rewrite (length_mjoin_uniform _ 4); [rewrite length_map; lia|]. apply Forall_map, Forall_forall. done.
Qed.

Lemma length_addresses argv off : length (addresses argv off) = length argv.
Proof. revert off. induction argv as [|s argv IH]; intros off; cbn; [done|]. by rewrite IH. Qed.

(** The page, from the lowest address: unused zeros, the frame, the pointer
    array, padding and the strings. *)
Definition stack_image (argv : list (list Z)) : list Z :=
  let argc := Z.of_nat (length argv) in
  let off := USER_STACK_SIZE - Z.of_nat (length (strings argv)) in
  let arr := USER_STACK_SIZE - round4 (Z.of_nat (length (strings argv))) - 4 * (argc + 1) in
  replicate (Z.to_nat (USER_STACK_SIZE - needed argv)) 0
  ++ put_le32 0 ++ put_le32 argc ++ put_le32 (USER_STACK_VADDR + arr)
  ++ (mjoin (map put_le32 (addresses argv off)) ++ put_le32 0)
  ++ replicate (Z.to_nat (off - arr - 4 * (argc + 1))) 0 ++ strings argv.

Lemma build_stack_image argv : fits argv -> needed argv <= USER_STACK_SIZE ->
  build_stack argv = (stack_image argv, USER_STACK_VADDR + USER_STACK_SIZE - needed argv).
Proof.
  intros Hf Hn. pose proof (needed_eq argv Hf) as En. unfold build_stack, stack_image, USER_STACK_SIZE in *.
  set (S := Z.of_nat (length (strings argv))) in *. set (argc := Z.of_nat (length argv)) in *.
  assert (HS : 0 <= S <= round4 S /\ round4 S < S + 4 /\ round4 S mod 4 = 0) by (unfold round4; dlia).
  rewrite <- (app_nil_r (replicate _ 0)) at 1. rewrite copy_args_spec by (fold S; lia). fold S.
  rewrite land_lnot3 by (unfold is_u32, USER_STACK_VADDR; lia).
  replace ((USER_STACK_VADDR + (4096 - S)) / 4 * 4 - USER_STACK_VADDR) with (4096 - round4 S)
    by (unfold USER_STACK_VADDR, round4; dlia).
  rewrite !app_nil_r. set (arr := 4096 - round4 S - 4 * (argc + 1)).
  replace (4096 - round4 S - (argc + 1) * 4) with arr by lia.
  set (ptrs := mjoin (map put_le32 (addresses argv (4096 - S))) ++ put_le32 0).
  assert (Hp : length ptrs = Z.to_nat (4 * (argc + 1))).
  { unfold ptrs. rewrite length_app, length_pointers, length_addresses, length_put_le32. lia. }
  replace (Z.to_nat (4096 - S)) with (Z.to_nat (4096 - round4 S) + Z.to_nat (4096 - S - arr - 4 * (argc + 1)))%nat by lia.
  rewrite replicate_add, <- app_assoc.
  replace (Z.to_nat arr) with (Z.to_nat (4096 - round4 S) - length ptrs)%nat by lia.
  rewrite (splice_zeros _ (length ptrs)) by (done || lia). unfold push32.
  replace (Z.to_nat (4096 - round4 S) - length ptrs)%nat with (Z.to_nat arr) by lia.
  replace (Z.to_nat (arr - 4)) with (Z.to_nat arr - 4)%nat by lia.
  rewrite (splice_zeros _ 4) by (done || lia).
  replace (Z.to_nat (arr - 4 - 4)) with (Z.to_nat arr - 4 - 4)%nat by lia.
  rewrite (splice_zeros _ 4) by (done || lia).
  replace (Z.to_nat (arr - 4 - 4 - 4)) with (Z.to_nat arr - 4 - 4 - 4)%nat by lia.
  rewrite (splice_zeros _ 4) by (done || lia).
  replace (Z.to_nat arr - 4 - 4 - 4)%nat with (Z.to_nat (4096 - needed argv)) by lia.
  f_equal. lia.
Qed.

(** ** What the program finds *)
Lemma get_le32_mid pre v post off : is_u32 v -> off = Z.of_nat (length pre) ->
  get_le32 (pre ++ put_le32 v ++ post) off = v.
Proof.
  intros Hv ->. unfold get_le32.
  assert (Hb : forall k b, 0 <= k -> put_le32 v !! Z.to_nat k = Some b ->
    byte_at (pre ++ put_le32 v ++ post) (Z.of_nat (length pre) + k) = b).
  { intros k b Hk Hl. apply byte_at_lookup. rewrite lookup_app_r by lia.
    replace (Z.to_nat (Z.of_nat (length pre) + k) - length pre)%nat with (Z.to_nat k) by lia.
    by apply lookup_app_l_Some. }
  rewrite <- (Z.add_0_r (Z.of_nat (length pre))) at 1.
  rewrite (Hb 0 (v mod 256)), (Hb 1 (v / 256 mod 256)), (Hb 2 (v / 65536 mod 256)), (Hb 3 (v / 16777216 mod 256)) by done.
  by apply le32_put.
Qed.

Lemma addresses_lookup argv i s off : argv !! i = Some s ->
  addresses argv off !! i = Some (USER_STACK_VADDR + off + Z.of_nat (length (strings (take i argv)))).
Proof.
  revert i off. induction argv as [|x argv IH]; intros [|i] off Hi; cbn [lookup list_lookup addresses take] in *; try done.
  - cbn. f_equal. lia.
  - rewrite IH by done. rewrite strings_cons, !length_app. cbn [length]. f_equal. lia.
Qed.

Lemma pointers_lookup l i x : l !! i = Some x ->
  mjoin (map put_le32 l) = mjoin (map put_le32 (take i l)) ++ put_le32 x ++ mjoin (map put_le32 (drop (S i) l)).
Proof.
  intros Hi. rewrite <- (take_drop_middle l i x Hi) at 1. rewrite map_app. cbn [map].
  rewrite join_app. by rewrite join_cons.
Qed.

Lemma strings_lookup argv i s : argv !! i = Some s ->
  strings argv = strings (take i argv) ++ s ++ [0] ++ strings (drop (S i) argv).
Proof. intros Hi. rewrite <- (take_drop_middle argv i s Hi) at 1. by rewrite strings_app, strings_cons. Qed.

(** A C string at an offset of a page. *)
Definition cstr_at (page : list Z) (off : Z) (s : list Z) : Prop :=
  0 <= off /\ off + Z.of_nat (length s) + 1 <= Z.of_nat (length page) /\
  take (length s + 1) (drop (Z.to_nat off) page) = s ++ [0].

(** The pieces of the image, with what precedes each. *)
Lemma image_words argv : fits argv -> needed argv <= USER_STACK_SIZE ->
  let esp := USER_STACK_SIZE - needed argv in
  let arr := esp + 12 in
  length (stack_image argv) = Z.to_nat USER_STACK_SIZE /\
  get_le32 (stack_image argv) esp = 0 /\
  get_le32 (stack_image argv) (esp + 4) = Z.of_nat (length argv) /\
  get_le32 (stack_image argv) (esp + 8) = USER_STACK_VADDR + arr /\
  get_le32 (stack_image argv) (arr + 4 * Z.of_nat (length argv)) = 0.
Proof.
  intros Hf Hn esp arr. pose proof Hf as [Hc _]. pose proof (needed_eq argv Hf) as En.
  unfold stack_image, MAX_ARGS, USER_STACK_SIZE, USER_STACK_VADDR in *.
  set (S := Z.of_nat (length (strings argv))) in *. set (argc := Z.of_nat (length argv)) in *.
  assert (HS : 0 <= S <= round4 S /\ round4 S < S + 4) by (unfold round4; dlia).
  replace (4096 - round4 S - 4 * (argc + 1)) with arr by (unfold arr, esp; lia).
  set (zeros := replicate (Z.to_nat (4096 - needed argv)) 0).
  assert (Hz : Z.of_nat (length zeros) = esp) by (unfold zeros; rewrite length_replicate; unfold esp; lia).
  set (ptrs := mjoin (map put_le32 (addresses argv (4096 - S)))).
  assert (Hp : length ptrs = Z.to_nat (4 * argc)) by (unfold ptrs; rewrite length_pointers, length_addresses; lia).
  set (tail := replicate _ 0 ++ strings argv).
  assert (Ht : length tail = Z.to_nat (round4 S)).
  { unfold tail. rewrite length_app, length_replicate. unfold arr, esp in *. lia. }
  split_and!.
  - rewrite !length_app, !length_put_le32, Hp, Ht. lia.
  - apply get_le32_mid; [unfold is_u32; lia|done].
  - rewrite (app_assoc zeros). apply get_le32_mid; [unfold is_u32; lia|]. rewrite length_app, length_put_le32. lia.
  - rewrite (app_assoc zeros), (app_assoc (zeros ++ _)). apply get_le32_mid; [unfold is_u32, arr, esp in *; lia|].
    rewrite !length_app, !length_put_le32. lia.
  - rewrite <- (app_assoc ptrs). rewrite (app_assoc zeros), (app_assoc (zeros ++ _)), (app_assoc ((zeros ++ _) ++ _)),
      (app_assoc (((zeros ++ _) ++ _) ++ _)).
    apply get_le32_mid; [unfold is_u32; lia|]. rewrite !length_app, !length_put_le32, Hp. unfold arr. lia.
Qed.

(** Each argument, through its pointer. *)
Lemma image_arg argv i s : fits argv -> needed argv <= USER_STACK_SIZE -> argv !! i = Some s ->
  exists q, get_le32 (stack_image argv) (USER_STACK_SIZE - needed argv + 12 + 4 * Z.of_nat i) = USER_STACK_VADDR + q /\
    cstr_at (stack_image argv) q s.
Proof.
  intros Hf Hn Hi. pose proof (image_words argv Hf Hn) as (Hlen & _). pose proof Hf as [Hc _].
  pose proof (needed_eq argv Hf) as En. assert (Hil := Hi). apply lookup_lt_Some in Hil.
  set (S := Z.of_nat (length (strings argv))) in *. set (argc := Z.of_nat (length argv)) in *.
  assert (HS : 0 <= S <= round4 S /\ round4 S < S + 4) by (unfold round4; dlia).
  set (q := USER_STACK_SIZE - S + Z.of_nat (length (strings (take i argv)))). exists q.
  pose proof (strings_lookup argv i s Hi) as Es. assert (Hsl : S = Z.of_nat (length (strings argv))) by done.
  rewrite Es, !length_app in Hsl. cbn [length] in Hsl.
  pose proof (addresses_lookup argv i s (USER_STACK_SIZE - S) Hi) as Ea.
  replace (USER_STACK_VADDR + (USER_STACK_SIZE - S) + _) with (USER_STACK_VADDR + q) in Ea by (unfold q; lia).
  unfold USER_STACK_SIZE, MAX_ARGS in *. split.
  - unfold stack_image, USER_STACK_SIZE. fold S argc. rewrite (pointers_lookup _ _ _ Ea).
    set (A := mjoin (map put_le32 (take i _))). assert (HA : length A = (4 * i)%nat).
    { unfold A. rewrite length_pointers, length_take, length_addresses. lia. }
    rewrite <- !(app_assoc A), <- (app_assoc (put_le32 (USER_STACK_VADDR + q))).
    set (zeros := replicate (Z.to_nat (4096 - needed argv)) 0).
    assert (Hz : length zeros = Z.to_nat (4096 - needed argv)) by (unfold zeros; by rewrite length_replicate).
    rewrite (app_assoc zeros), (app_assoc (zeros ++ _)), (app_assoc ((zeros ++ _) ++ _)), (app_assoc (((zeros ++ _) ++ _) ++ _)).
    apply get_le32_mid; [unfold is_u32, USER_STACK_VADDR; lia|].
    rewrite !length_app, !length_put_le32, HA. lia.
  - split; [unfold q; lia|]. split; [rewrite Hlen; unfold q; lia|].
    assert (Hd : drop (Z.to_nat (4096 - S)) (stack_image argv) = strings argv).
    { unfold stack_image in *. rewrite !app_assoc in *. rewrite length_app in Hlen.
      apply drop_app_length'. lia. }
    replace (Z.to_nat q) with (Z.to_nat (4096 - S) + length (strings (take i argv)))%nat by (unfold q; lia).
    rewrite <- drop_drop, Hd, Es, drop_app_length. rewrite app_assoc. apply take_app_length'.
    rewrite length_app. done.
Qed.

Lemma exec_args_fit argv argv' : exec_args argv = Some argv' -> fits argv' /\ needed argv' <= USER_STACK_SIZE.
Proof.
  unfold exec_args, EXEC_MAX_ARGS, EXEC_MAX_ARG_LEN. destruct (_ || _) eqn:E; [done|]. intros [= <-]. zbool.
  set (l := map _ argv). assert (Hl : length l = length argv) by apply length_map.
  assert (Hs : Z.of_nat (length (strings l)) <= 64 * Z.of_nat (length l)).
  { unfold l. clear. induction argv as [|s argv IH]; [done|]. cbn [map]. rewrite strings_cons, !length_app.
    cbn [length] in *. rewrite length_take. lia. }
  assert (Hf : fits l) by (unfold fits, MAX_ARGS; lia). split; [done|]. rewrite needed_eq by done.
  unfold round4, USER_STACK_SIZE. dlia.
Qed.

(** C38: A program is started with the arguments it was launched with: for any
    command line [exec_run] accepts (1 to 16 arguments, each cut to 63
    characters) the layout fits the stack page, the stack pointer is aligned
    and inside it, and the entry point finds there a null return address,
    [argc], and an [argv] whose pointers lead, in order, to the argument
    strings and end with a null pointer. *)
Theorem usermode_arguments argv argv' : exec_args argv = Some argv' ->
  let '(page, esp) := build_stack argv' in
  let o := esp - USER_STACK_VADDR in
  length page = Z.to_nat USER_STACK_SIZE /\ esp mod 4 = 0 /\ 0 <= o <= USER_STACK_SIZE - 12 /\
  get_le32 page o = 0 /\ get_le32 page (o + 4) = Z.of_nat (length argv) /\
  exists arr, get_le32 page (o + 8) = USER_STACK_VADDR + arr /\
    get_le32 page (arr + 4 * Z.of_nat (length argv)) = 0 /\
    forall i s, argv !! i = Some s ->
      exists q, get_le32 page (arr + 4 * Z.of_nat i) = USER_STACK_VADDR + q /\ cstr_at page q (take 63 s).
Proof.
  intros He. destruct (exec_args_fit argv argv' He) as [Hf Hn]. rewrite build_stack_image by done. cbv zeta.
  pose proof (needed_eq argv' Hf) as En.
  assert (El : argv' = map (take 63) argv) by (unfold exec_args in He; destruct (_ || _); [done|by injection He]).
  assert (Hl : length argv' = length argv) by (rewrite El; apply length_map).
  replace (USER_STACK_VADDR + USER_STACK_SIZE - needed argv' - USER_STACK_VADDR) with (USER_STACK_SIZE - needed argv') by lia.
  destruct (image_words argv' Hf Hn) as (W1 & W2 & W3 & W4 & W5). rewrite Hl in *.
  split; [done|]. split; [unfold USER_STACK_VADDR, USER_STACK_SIZE, round4 in *; dlia|].
  split; [unfold round4 in *; dlia|]. split; [done|]. split; [done|]. eexists. split; [exact W4|]. split; [exact W5|].
  intros i s Hi. apply image_arg; [done..|]. rewrite El, list_lookup_fmap, Hi. done.
Qed.

Lemma usermode_arguments_witness :
  let '(page, esp) := build_stack [[108; 115]; [47]] in
  get_le32 page (esp - USER_STACK_VADDR + 4) = 2 /\ esp mod 4 = 0.
Proof.
  pose proof (usermode_arguments [[108; 115]; [47]] [[108; 115]; [47]] eq_refl) as H.
  destruct (build_stack [[108; 115]; [47]]) as [page esp].
  destruct H as (_ & Ha & _ & _ & Hc & _). split; [exact Hc|exact Ha].
Defined.
