(* ===== verification/Elf.v ===== *)
(** * The program loader (src/src/elf.c)

    The loader reads an executable into a kernel buffer, checks its header,
    gives every loadable segment fresh zeroed frames in the running task's
    address space, copies the segments there through the page tables and enters
    ring 3.  Memory is the word memory of [Paging], accessed by bytes; a
    page fault is [None]. *)
From S2P Require Import Prelude Pmm Paging Usermode Heap FatTypes FatFile FatDisk.

(** ** Bytes of the word memory *)
Definition byte_scale (p : Z) : Z := 2 ^ (8 * (p mod 4)).
Definition word_of (p : Z) : Z := 4 * (p / 4).

Definition load_byte (w : gmap Z Z) (p : Z) : Z := pload w (word_of p) / byte_scale p mod 256.
Definition store_byte (w : gmap Z Z) (p b : Z) : gmap Z Z :=
  <[word_of p := pload w (word_of p) + (b - load_byte w p) * byte_scale p]> w.

Definition vload8 (s : mmu) (v : Z) : option Z :=
  match translate (words s) (cr3 s) v with Some p => Some (load_byte (words s) p) | None => None end.
Definition vstore8 (s : mmu) (v b : Z) : option mmu :=
  match translate (words s) (cr3 s) v with
  | Some p => Some (mk_mmu (store_byte (words s) p b) (cr3 s))
  | None => None
  end.

(** [for (; b < ...; b++) dest[b] = value(b);] *)
Fixpoint byte_loop (n : nat) (b : Z) (s : mmu) (dest : Z) (value : mmu -> Z -> option Z) : option mmu :=
  match n with
  | O => Some s
  | S n' =>
      match value s b with
      | None => None
      | Some x =>
          match vstore8 s (u32 (dest + b)) x with
          | None => None
          | Some s' => byte_loop n' (b + 1) s' dest value
          end
      end
  end.

Definition zero_byte (_ : mmu) (_ : Z) : option Z := Some 0.
Definition byte_from (src : Z) (s : mmu) (b : Z) : option Z := vload8 s (u32 (src + b)).

(** ** The headers *)
Record elf32_header := mk_ehdr {
  e_ident : list Z; e_type : Z; e_machine : Z; e_entry : Z; e_phoff : Z; e_phnum : Z }.
Record elf32_program_header := mk_phdr {
  p_type : Z; p_offset : Z; p_vaddr : Z; p_filesz : Z; p_memsz : Z }.

Definition EHDR_SIZE : Z := 52.
Definition PHDR_SIZE : Z := 32.
Definition ELFCLASS32 : Z := 1.
Definition ELFDATA2LSB : Z := 1.
Definition ET_EXEC : Z := 2.
Definition EM_386 : Z := 3.
Definition PT_LOAD : Z := 1.
Definition ELF_MAX_FILE_SIZE : Z := 65536.

(** The [n] bytes of a struct at [a]. *)
Fixpoint vload_bytes (n : nat) (s : mmu) (a : Z) : option (list Z) :=
  match n with
  | O => Some []
  | S n' =>
      match vload8 s a with
      | None => None
      | Some x => match vload_bytes n' s (u32 (a + 1)) with Some l => Some (x :: l) | None => None end
      end
  end.

(** The packed structs, from their bytes. *)
Definition decode_ehdr (l : list Z) : elf32_header :=
  mk_ehdr (take 16 l) (get_le16 l 16) (get_le16 l 18) (get_le32 l 24) (get_le32 l 28) (get_le16 l 44).
Definition decode_phdr (l : list Z) : elf32_program_header :=
  mk_phdr (get_le32 l 0) (get_le32 l 4) (get_le32 l 8) (get_le32 l 16) (get_le32 l 20).

(** The three checks of the header, with the message of the first that fails. *)
Definition ehdr_error (h : elf32_header) : option string :=
  let id := byte_at (e_ident h) in
  if negb ((id 0 =? 127) && (id 1 =? 69) && (id 2 =? 76) && (id 3 =? 70)) then
    Some "ELF: bad magic, not an ELF file"
  else if negb ((id 4 =? ELFCLASS32) && (id 5 =? ELFDATA2LSB)) then
    Some "ELF: not a 32-bit little-endian binary"
  else if negb ((e_type h =? ET_EXEC) && (e_machine h =? EM_386)) then
    Some "ELF: not a static x86 executable"
  else None.

(** The pages of a segment. *)
Definition start_page (ph : elf32_program_header) : Z := Z.land (p_vaddr ph) (u32 (Z.lnot (PAGE_SIZE - 1))).
Definition end_page (ph : elf32_program_header) : Z :=
  Z.land (u32 (u32 (p_vaddr ph + p_memsz ph) + PAGE_SIZE - 1)) (u32 (Z.lnot (PAGE_SIZE - 1))).

Section Loader.
Context {A : Type} `{FrameAllocator A}.
Context (first_page_table : Z).

(** One zeroed frame per page; [false] when memory runs out. *)
Fixpoint map_pages (n : nat) (a : A) (s : mmu) (table page_addr : Z) : option (A * mmu * bool) :=
  match n with
  | O => Some (a, s, true)
  | S n' =>
      let '(a, frame) := fr_alloc a in
      if frame =? 0 then Some (a, s, false)
      else
        match byte_loop (Z.to_nat PAGE_SIZE) 0 s frame zero_byte with
        | None => None
        | Some s =>
            match paging_map_user_page s table page_addr frame with
            | None => None
            | Some s => map_pages n' a s table (page_addr + PAGE_SIZE)
            end
        end
  end.

(** The file's part of a segment, then zeros. *)
Definition copy_segment (s : mmu) (file_buf : Z) (ph : elf32_program_header) : option mmu :=
  match byte_loop (Z.to_nat (p_filesz ph)) 0 s (p_vaddr ph) (byte_from (u32 (file_buf + p_offset ph))) with
  | None => None
  | Some s => byte_loop (Z.to_nat (p_memsz ph - p_filesz ph)) (p_filesz ph) s (p_vaddr ph) zero_byte
  end.

(** One loadable segment; [false] is the return of -1. *)
Definition load_segment (a : A) (s : mmu) (dir file_buf : Z) (ph : elf32_program_header)
    : option (list tty * A * mmu * bool) :=
  match paging_get_or_create_user_table first_page_table a s dir (p_vaddr ph) with
  | None => None
  | Some (m, a, s, table) =>
      if table =? 0 then Some (m ++ [TLn "ELF: could not set up private memory for this process"], a, s, false)
      else if USER_STACK_VADDR <? end_page ph then
        Some (m ++ [TLn "ELF: segment too large, would collide with the user stack"], a, s, false)
      else
        let m := m ++ [TStr "ELF: segment vaddr="; THex (p_vaddr ph); TStr " memsz="; THex (p_memsz ph);
                       TStr " pages="; TDec (u32 (end_page ph - start_page ph) / PAGE_SIZE); TLn ""] in
        match map_pages (Z.to_nat ((end_page ph - start_page ph) / PAGE_SIZE)) a s table (start_page ph) with
        | None => None
        | Some (a, s, false) => Some (m ++ [TLn "ELF: out of memory mapping process pages"], a, s, false)
        | Some (a, s, true) =>
            match copy_segment (paging_switch_directory s dir) file_buf ph with
            | None => None
            | Some s => Some (m, a, s, true)
            end
        end
  end.

(** The loop over the program headers from number [i] on. *)
Fixpoint load_segments (n : nat) (i loaded : Z) (a : A) (s : mmu) (dir file_buf phdrs : Z)
    : option (list tty * A * mmu * option Z) :=
  match n with
  | O => Some ([], a, s, Some loaded)
  | S n' =>
      match vload_bytes (Z.to_nat PHDR_SIZE) s (u32 (phdrs + PHDR_SIZE * i)) with
      | None => None
      | Some l =>
          let ph := decode_phdr l in
          if negb (p_type ph =? PT_LOAD) then load_segments n' (i + 1) loaded a s dir file_buf phdrs
          else
            match load_segment a s dir file_buf ph with
            | None => None
            | Some (m, a, s, false) => Some (m, a, s, None)
            | Some (m, a, s, true) =>
                match load_segments n' (i + 1) (loaded + 1) a s dir file_buf phdrs with
                | None => None
                | Some (m', a, s, r) => Some (m ++ m', a, s, r)
                end
            end
      end
  end.

(** Everything between reading the file and entering ring 3: the entry point,
    or the failure. *)
Definition elf_load (a : A) (s : mmu) (dir file_buf file_size : Z) (filename : list Z)
    : option (list tty * A * mmu * option Z) :=
  if file_size <? EHDR_SIZE then Some ([TLn "ELF: file too small to be valid"], a, s, None)
  else
    match vload_bytes (Z.to_nat EHDR_SIZE) s file_buf with
    | None => None
    | Some l =>
        let ehdr := decode_ehdr l in
        match ehdr_error ehdr with
        | Some msg => Some ([TLn msg], a, s, None)
        | None =>
            let m := [TStr "ELF: loading "; TBytes filename; TStr ", entry="; THex (e_entry ehdr); TLn ""] in
            match load_segments (Z.to_nat (e_phnum ehdr)) 0 0 a s dir file_buf (u32 (file_buf + e_phoff ehdr)) with
            | None => None
            | Some (m', a, s, None) => Some (m ++ m', a, s, None)
            | Some (m', a, s, Some loaded) =>
                if loaded =? 0 then Some (m ++ m' ++ [TLn "ELF: no loadable segments found"], a, s, None)
                else Some (m ++ m', a, s, Some (e_entry ehdr))
            end
        end
    end.

Definition faulting {X} (r : option X) : res X := match r with Some x => OK x | None => Err end.

(** The bytes [fat_read_file] stored in the buffer. *)
Definition buffer_byte (file : list Z) (_ : mmu) (b : Z) : option Z := Some (byte_at file b).

(** The whole call: [Some (entry, ...)] with the stack when ring 3 is entered,
    [None] when -1 is returned; [Err] is a page fault. *)
Definition elf_load_and_run {D} `{BlockDevice D} (fuel : nat) (h : heap) (st : fat_state D) (a : A) (s : mmu) (dir : Z)
    (filename : list Z) (argv : list (list Z))
    : res (list tty * heap * A * mmu * option (Z * enter_result)) :=
  let! (h, file_buf) := kmalloc fuel h ELF_MAX_FILE_SIZE in
  if file_buf =? 0 then OK ([TLn "ELF: out of memory reading file"], h, a, s, None)
  else
    let '(m, r) := fat_read_file fuel st filename ELF_MAX_FILE_SIZE in
    match r with
    | Fuel => Fuel
    | Err => let! h := kfree h file_buf in OK (m, h, a, s, None)
    | OK file =>
        let! s := faulting (byte_loop (length file) 0 s file_buf (buffer_byte file)) in
        let! (m', a, s, r) := faulting (elf_load a s dir file_buf (Z.of_nat (length file)) filename) in
        let! h := kfree h file_buf in
        match r with
        | None => OK (m ++ m', h, a, s, None)
        | Some entry =>
            let! (m'', a, s, e) := faulting (usermode_enter first_page_table a s dir argv) in
            match e with
            | Enter _ _ _ => OK (m ++ m' ++ m'', h, a, s, Some (entry, e))
            | Refused => OK (m ++ m' ++ m'' ++ [TLn "ELF: usermode_enter returned unexpectedly"], h, a, s, None)
            end
        end
    end.
End Loader.

(** ** Byte accesses *)
Lemma byte_scale_cases p : byte_scale p = 1 /\ p mod 4 = 0 \/ byte_scale p = 256 /\ p mod 4 = 1 \/
  byte_scale p = 65536 /\ p mod 4 = 2 \/ byte_scale p = 16777216 /\ p mod 4 = 3.
Proof.
  unfold byte_scale. assert (H : p mod 4 = 0 \/ p mod 4 = 1 \/ p mod 4 = 2 \/ p mod 4 = 3) by dlia.
  destruct H as [->|[->|[->| ->]]]; vm_compute; tauto.
Qed.

Lemma load_store_eq w p b : is_byte b -> load_byte (store_byte w p b) p = b.
Proof.
  unfold is_byte. intros Hb. unfold load_byte at 1, store_byte. unfold pload at 1. rewrite lookup_insert_eq. cbn [default from_option id].
  unfold load_byte. set (x := pload w (word_of p)).
  rewrite Z.div_add by (pose proof (byte_scale_cases p); lia). set (y := x / byte_scale p). dlia.
Qed.

Lemma byte_split x i j b : i <> j -> is_byte b ->
  i = 1 \/ i = 256 \/ i = 65536 \/ i = 16777216 -> j = 1 \/ j = 256 \/ j = 65536 \/ j = 16777216 ->
  (x + (b - x / i mod 256) * i) / j mod 256 = x / j mod 256.
Proof.
  unfold is_byte. intros Hij Hb Hi Hj.
  destruct Hi as [->|[->|[->| ->]]], Hj as [->|[->|[->| ->]]]; try done; dlia.
Qed.

Lemma load_store_ne w p q b : is_byte b -> p <> q -> load_byte (store_byte w p b) q = load_byte w q.
Proof.
  intros Hb Hne. unfold load_byte at 1, store_byte, pload at 1. destruct (decide (word_of p = word_of q)) as [E|E].
  - rewrite <- E, lookup_insert_eq. cbn [default from_option id]. unfold load_byte. rewrite <- E.
    pose proof (byte_scale_cases p) as Hp. pose proof (byte_scale_cases q) as Hq.
    apply byte_split; [|done|tauto|tauto]. intros Es. apply Hne. unfold word_of in E.
    assert (p mod 4 = q mod 4) by lia. dlia.
  - by rewrite lookup_insert_ne.
Qed.

(** ** The address space of the program being loaded *)
Section Space.
Context {A : Type} `{FrameAllocatorLaws A}.
Context (FPT : Z).  (* the address of [first_page_table] *)

(** The pages translation goes through. *)
Definition core (s : mmu) (d n : Z) : Prop :=
  n = d / 4096 \/ n = FPT / 4096 \/ n = table_of (words s) d 0 / 4096.

(** [P] are the other kernel pages that matter, by number: the data the loader
    relies on and every frame that is still free.  They are identity-mapped,
    and what ring 3 can reach is disjoint from them, one virtual page per
    frame. *)
Record space (P : Z -> Prop) (a : A) (s : mmu) (d : Z) : Prop := {
  sp_alloc : fr_inv a;
  sp_cr3 : cr3 s = d;
  sp_dir : kmap s d;
  sp_fpt : kmap s FPT;
  sp_table : kmap s (table_of (words s) d 0);
  sp_ident : identity_table FPT (words s);
  sp_pde : pde_of (words s) d 0 = table_of (words s) d 0 + 7;
  sp_distinct : d <> FPT /\ table_of (words s) d 0 <> d;
  sp_positive : 0 < FPT /\ 0 < table_of (words s) d 0;
  sp_id : forall n, P n -> kmap s (4096 * n);
  sp_core : forall n, core s d n -> ~ P n;
  sp_free : forall n, fr_free a n = true -> P n;
  sp_user : forall v p, 0 <= v < REGION -> user_translate (words s) d v = Some p ->
    ~ P (p / 4096) /\ ~ core s d (p / 4096);
  sp_inj : forall v v' p, 0 <= v < REGION -> 0 <= v' < REGION ->
    user_translate (words s) d v = Some p -> user_translate (words s) d v' = Some p -> v = v' }.

Lemma space_user_space P a s d : space P a s d -> user_space FPT a s d.
Proof.
  intros [Ha Hc Hd Hf Ht Hid Hpde Hdis Hpos HP Hcore Hfree _ _]. split; try done.
  - assert (Hn : forall n, core s d n -> fr_free a n = false).
    { intros n Hn. destruct (fr_free a n) eqn:E; [|done]. destruct (Hcore n Hn). by apply Hfree. }
    split; [|split]; apply Hn; unfold core; tauto.
  - intros a' f Hal Hf0 _. destruct (fr_alloc_some a a' f Ha Hal Hf0) as (Hm & _ & Hfr & _).
    apply Hfree, HP in Hfr. unfold FRAME_SIZE in *. replace f with (4096 * (f / 4096)) by dlia. done.
Qed.

(** Translations of the region are those of another memory. *)
Definition same_maps (s s' : mmu) (d : Z) : Prop :=
  table_of (words s') d 0 = table_of (words s) d 0 /\ forall v, 0 <= v < REGION ->
    translate (words s') d v = translate (words s) d v /\ user_translate (words s') d v = user_translate (words s) d v.

Lemma same_maps_refl s d : same_maps s s d.
Proof. done. Qed.
Lemma same_maps_trans s1 s2 s3 d : same_maps s1 s2 d -> same_maps s2 s3 d -> same_maps s1 s3 d.
Proof.
  intros [T1 H1] [T2 H2]. split; [congruence|]. intros v Hv. destruct (H1 v Hv), (H2 v Hv). split; congruence.
Qed.
Lemma same_maps_core s s' d n : same_maps s s' d -> core s' d n <-> core s d n.
Proof. intros [E _]. unfold core. by rewrite E. Qed.

Lemma core_walk s w' d v : aligned d -> 0 <= v < REGION ->
  (forall x, core s d (x / 4096) -> pload w' x = pload (words s) x) ->
  walk w' d v = walk (words s) d v /\ pde_of w' d v = pde_of (words s) d v.
Proof.
  intros Hd Hv Hag. assert (E : pde_of w' d v = pde_of (words s) d v).
  { unfold pde_of. apply Hag. rewrite (Z.div_small v), slot_page by (done || lia). by left. }
  split; [|done]. unfold walk. rewrite E. destruct (present (pde_of (words s) d v)); [|done].
  rewrite Hag; [done|]. rewrite slot_page by (apply aligned_entry || (unfold PAGE_SIZE, ENTRIES; dlia)).
  right. right. fold (table_of (words s) d v). by rewrite table_region.
Qed.

(** Writing outside the translation structures. *)
Lemma space_agree P a s d w' : space P a s d ->
  (forall x, core s d (x / 4096) -> pload w' x = pload (words s) x) ->
  space P a (mk_mmu w' d) d /\ same_maps s (mk_mmu w' d) d.
Proof.
  intros [Ha Hc Hd Hf Ht Hid Hpde Hdis Hpos HP Hcore Hfree Huser Hinj] Hag. pose proof Hd as (Hda & _).
  assert (Hw : forall v, 0 <= v < REGION -> walk w' d v = walk (words s) d v /\ pde_of w' d v = pde_of (words s) d v)
    by (intros v Hv; by apply core_walk).
  assert (Hk : forall f, kmap s f -> kmap (mk_mmu w' d) f).
  { intros f (H1 & H2 & pte & H3 & H4). split; [done|]. split; [done|]. exists pte. cbn [words cr3].
    rewrite (proj1 (Hw f H2)), <- Hc. done. }
  assert (Et : table_of w' d 0 = table_of (words s) d 0) by (unfold table_of; by rewrite (proj2 (Hw 0 ltac:(unfold REGION; lia)))).
  assert (Hu : forall v, 0 <= v < REGION -> user_translate w' d v = user_translate (words s) d v).
  { intros v Hv. destruct (Hw v Hv) as [E1 E2]. unfold user_translate. by rewrite E1, E2. }
  assert (Hcr : forall n, core (mk_mmu w' d) d n <-> core s d n) by (intros n; unfold core; cbn [words]; by rewrite Et).
  split.
  - split; cbn [words cr3]; rewrite ?Et; auto.
    + intros i Hi. rewrite Hag; [by apply Hid|]. destruct Hf as (Hfa & _). rewrite slot_page by done. right. by left.
    + rewrite (proj2 (Hw 0 ltac:(unfold REGION; lia))). done.
    + intros n Hn. by apply Hcore, Hcr.
    + intros v p Hv. rewrite Hu by done. rewrite Hcr. by apply Huser.
    + intros v v' p Hv Hv'. rewrite !Hu by done. by apply Hinj.
  - split; [done|]. intros v Hv. cbn [words]. split; [|by apply Hu]. unfold translate. by rewrite (proj1 (Hw v Hv)).
Qed.

Lemma word_page p : word_of p / 4096 = p / 4096.
Proof. unfold word_of. dlia. Qed.

Lemma store_byte_off w p b x : x / 4096 <> p / 4096 -> pload (store_byte w p b) x = pload w x.
Proof.
  intros Hx. unfold store_byte, pload at 1. rewrite lookup_insert_ne; [done|]. intros E. apply Hx.
  by rewrite <- E, word_page.
Qed.

Lemma space_store P a s d p b : space P a s d -> ~ core s d (p / 4096) ->
  space P a (mk_mmu (store_byte (words s) p b) d) d /\ same_maps s (mk_mmu (store_byte (words s) p b) d) d.
Proof. intros Hs Hp. apply space_agree; [done|]. intros x Hx. apply store_byte_off. congruence. Qed.

(** The pages of [P] hold what they held. *)
Definition same_data (P : Z -> Prop) (s s' : mmu) : Prop :=
  forall p, P (p / 4096) -> load_byte (words s') p = load_byte (words s) p.

(** A loop that stores [val i] at the addresses [dest + i], which translate
    to the distinct bytes [tgt i] outside the kernel's pages. *)
Lemma byte_loop_spec P a d value val dest tgt n : forall b s, space P a s d ->
  (forall i, b <= i < b + Z.of_nat n -> 0 <= dest + i < REGION /\ translate (words s) d (dest + i) = Some (tgt i) /\
     ~ P (tgt i / 4096) /\ ~ core s d (tgt i / 4096) /\ is_byte (val i)) ->
  (forall i j, b <= i < b + Z.of_nat n -> b <= j < b + Z.of_nat n -> tgt i = tgt j -> i = j) ->
  (forall s' i, cr3 s' = d -> same_maps s s' d -> same_data P s s' -> b <= i < b + Z.of_nat n -> value s' i = Some (val i)) ->
  exists s', byte_loop n b s dest value = Some s' /\ space P a s' d /\ same_maps s s' d /\ same_data P s s' /\
    (forall i, b <= i < b + Z.of_nat n -> load_byte (words s') (tgt i) = val i) /\
    (forall p, (forall i, b <= i < b + Z.of_nat n -> p <> tgt i) -> load_byte (words s') p = load_byte (words s) p).
Proof.
  induction n as [|n IH]; intros b s Hs Ht Hinj Hval; cbn [byte_loop].
  { exists s. split_and!; try done. lia. }
  pose proof (sp_cr3 _ _ _ _ Hs) as Hc. destruct (Ht b ltac:(lia)) as (Hr & Htr & HP & Hcr & Hb).
  rewrite (Hval s b Hc (same_maps_refl s d)) by (done || lia).
  assert (Eu : u32 (dest + b) = dest + b) by (unfold u32, REGION in *; dlia). rewrite Eu.
  unfold vstore8. rewrite Hc, Htr. set (s1 := mk_mmu (store_byte (words s) (tgt b) (val b)) d).
  destruct (space_store P a s d (tgt b) (val b) Hs Hcr) as [Hs1 Hm1]. fold s1 in Hs1, Hm1.
  assert (Hd1 : same_data P s s1) by (intros p Hp; apply load_store_ne; [done|congruence]).
  destruct (IH (b + 1) s1 Hs1) as (s' & Hl & Hs' & Hm & Hd & Hin & Hout).
  - intros i Hi. destruct (Ht i ltac:(lia)) as (Hri & Htri & HPi & Hci & Hbi). split; [done|].
    destruct Hm1 as [T1 Hm1]. rewrite (proj1 (Hm1 _ Hri)). split; [done|]. split; [done|]. split; [|done].
    unfold core in *. by rewrite T1.
  - intros i j Hi Hj. apply Hinj; lia.
  - intros s' i Hc' Hm Hd Hi. apply Hval; [done|by eapply same_maps_trans| |lia].
    intros p Hp. by rewrite Hd, Hd1.
  - exists s'. split; [done|]. split; [done|]. split; [by eapply same_maps_trans|].
    split; [intros p Hp; by rewrite Hd, Hd1|]. split.
    + intros i Hi. destruct (decide (i = b)) as [->|Hne]; [|apply Hin; lia].
      rewrite Hout; [by apply load_store_eq|]. intros j Hj E. apply Hinj in E; lia.
    + intros p Hp. rewrite Hout by (intros i Hi; apply Hp; lia). apply load_store_ne; [done|]. intros E. apply (Hp b); [lia|done].
Qed.

(** ** Taking frames *)
Definition without (P : Z -> Prop) (f n : Z) : Prop := P n /\ n <> f / 4096.

Lemma space_alloc P a s d a' F : space P a s d -> fr_alloc a = (a', F) -> F <> 0 ->
  space (without P F) a' s d /\ kmap s F /\ P (F / 4096) /\ ~ core s d (F / 4096) /\
  fr_free a (F / 4096) = true /\ forall n, fr_free a' n = true -> fr_free a n = true.
Proof.
  intros Hs Hal HF. pose proof Hs as [Ha Hc Hd Hf Ht Hid Hpde Hdis Hpos HP Hcore Hfree Huser Hinj].
  destruct (fr_alloc_some a a' F Ha Hal HF) as (Hm & Hr & Hfr & Hfr' & Hoth). unfold FRAME_SIZE in *.
  pose proof (Hfree _ Hfr) as HPF. assert (HFc : ~ core s d (F / 4096)) by (intros Hx; by apply Hcore in Hx).
  assert (Hsub : forall n, fr_free a' n = true -> fr_free a n = true).
  { intros n Hn. destruct (decide (n = F / 4096)) as [->|Hne]; [done|]. by rewrite <- Hoth. }
  split_and!; try done; [|replace F with (4096 * (F / 4096)) by dlia; by apply HP].
  split; try done.
  - pose proof (fr_alloc_inv a Ha) as Hi. by rewrite Hal in Hi.
  - intros n [Hn _]. by apply HP.
  - intros n Hn [Hx _]. by apply (Hcore n).
  - intros n Hn. split; [by apply Hfree, Hsub|]. intros ->. congruence.
  - intros v p Hv Hp. destruct (Huser v p Hv Hp) as [H1 H2]. split; [|done]. by intros [? _].
Qed.

(** A fresh frame is zeroed through its physical address. *)
Lemma zero_frame P a s d a' F : space P a s d -> fr_alloc a = (a', F) -> F <> 0 ->
  exists s', byte_loop (Z.to_nat PAGE_SIZE) 0 s F zero_byte = Some s' /\ space (without P F) a' s' d /\
    same_maps s s' d /\ same_data (without P F) s s' /\
    (forall o, 0 <= o < 4096 -> load_byte (words s') (F + o) = 0) /\
    (forall p, p / 4096 <> F / 4096 -> load_byte (words s') p = load_byte (words s) p).
Proof.
  intros Hs Hal HF. destruct (space_alloc P a s d a' F Hs Hal HF) as (Hs1 & Hk & HPF & HcF & _ & _).
  pose proof Hk as (HFa & HFr & _). pose proof (sp_cr3 _ _ _ _ Hs) as Hc.
  assert (Hpage : forall i, 0 <= i < 4096 -> (F + i) / 4096 = F / 4096) by (unfold aligned in HFa; intros; dlia).
  destruct (byte_loop_spec (without P F) a' d zero_byte (fun _ => 0) F (fun i => F + i) (Z.to_nat PAGE_SIZE) 0 s)
    as (s' & Hl & Hs' & Hm & Hd & Hin & Hout); try done.
  - unfold PAGE_SIZE. intros i Hi. split; [unfold aligned, REGION in *; dlia|].
    split; [rewrite <- Hc; apply kmap_translate; [done|lia]|]. rewrite Hpage by lia.
    split; [by intros [_ ?]|]. split; [done|]. unfold is_byte. lia.
  - lia.
  - exists s'. split_and!; try done. intros p Hp. apply Hout. unfold PAGE_SIZE. intros i Hi ->. apply Hp, Hpage. lia.
Qed.

(** ** Mapping a page *)
Lemma user_translates w d v p : user_translate w d v = Some p -> translate w d v = Some p.
Proof. unfold user_translate, translate. destruct (walk w d v); [|done]. by destruct (_ && _). Qed.

Lemma translate_kmap s f : aligned f -> 0 <= f < REGION -> translate (words s) (cr3 s) f = Some f -> kmap s f.
Proof.
  intros Hf Hr Ht. split; [done|]. split; [done|]. unfold translate in Ht. destruct (walk (words s) (cr3 s) f) as [pte|]; [|done].
  exists pte. split; [done|]. injection Ht as Ht. unfold aligned, PAGE_SIZE in *. lia.
Qed.

Lemma kmap_self s f : kmap s f -> translate (words s) (cr3 s) f = Some f.
Proof. intros Hk. pose proof (kmap_translate s f 0 Hk ltac:(lia)) as E. by rewrite Z.add_0_r in E. Qed.

Record page_mapped (s s' : mmu) (d v F : Z) : Prop := {
  pm_table : table_of (words s') d 0 = table_of (words s) d 0;
  pm_data : forall p, p / 4096 <> table_of (words s) d 0 / 4096 -> load_byte (words s') p = load_byte (words s) p;
  pm_self : forall o, 0 <= o < 4096 -> user_translate (words s') d (v + o) = Some (F + o);
  pm_other : forall v', 0 <= v' < REGION -> v' / 4096 <> v / 4096 ->
    translate (words s') d v' = translate (words s) d v' /\ user_translate (words s') d v' = user_translate (words s) d v' }.

Lemma map_page_raw P a s d v F : space P a s d -> table_of (words s) d 0 <> FPT -> aligned v -> 0 <= v < REGION -> aligned F ->
  exists s', paging_map_user_page s (table_of (words s) d 0) v F = Some s' /\ cr3 s' = d /\ page_mapped s s' d v F /\
    identity_table FPT (words s') /\ pde_of (words s') d 0 = table_of (words s) d 0 + 7.
Proof.
  intros Hs Ht Hv Hr HF. pose proof (space_user_space _ _ _ _ Hs) as Hus.
  destruct Hs as [Ha Hc Hd Hf Htk Hid Hpde [Hdf Htd] Hpos HP Hcore Hfree Huser Hinj].
  destruct (get_or_create_spec FPT a s d v Hus Hr) as (m & a1 & s1 & t & Hg & _ & Hcase).
  destruct Hcase as [(_ & _ & E & _)|[(-> & _ & -> & ->)|(E & _)]]; [by destruct Ht| |by destruct Ht].
  destruct (map_user_page_spec FPT a s d v F m a s (table_of (words s) d 0)) as (s' & Hm & Hc' & Hmap & Hta & _); try done; [lia|].
  pose proof Hd as (Hda & _). pose proof Hf as (Hfa & _). pose proof Hmap as [M1 M2 M3 M4].
  exists s'. split; [done|]. split; [done|]. split; [|split; [|done]].
  - assert (Et : table_of (words s') d 0 = table_of (words s) d 0) by (unfold table_of at 1; rewrite M1; by apply entry_small; [|lia]).
    split; [done| | |].
    + intros p Hp. unfold load_byte. f_equal. f_equal. destruct (decide (word_of p = d)) as [E|E].
      * rewrite E. unfold pde_of in M1, Hpde. change (d + 4 * (0 / REGION)) with (d + 0) in *. rewrite Z.add_0_r in *. congruence.
      * apply M4; [done|]. by rewrite word_page.
    + intros o Ho. by eapply mapped_self.
    + intros v' Hv' Hne. by eapply mapped_other.
  - intros i Hi. rewrite M4; [by apply Hid| |].
    + intros E. apply (page_neq FPT d); [done..|]. rewrite <- E. by rewrite slot_page.
    + rewrite slot_page by done. apply page_neq; [done..|congruence].
Qed.

Lemma same_page v v' : aligned v -> v' / 4096 = v / 4096 -> v' = v + v' mod 4096.
Proof. unfold aligned. intros. dlia. Qed.

Lemma map_page P a s d v F : space P a s d -> table_of (words s) d 0 <> FPT -> aligned v -> 0 <= v < REGION ->
  ~ P (v / 4096) -> ~ core s d (v / 4096) -> aligned F -> ~ P (F / 4096) -> ~ core s d (F / 4096) ->
  (forall v' p, 0 <= v' < REGION -> user_translate (words s) d v' = Some p -> p / 4096 <> F / 4096) ->
  exists s', paging_map_user_page s (table_of (words s) d 0) v F = Some s' /\ space P a s' d /\ page_mapped s s' d v F.
Proof.
  intros Hs Ht Hv Hr HPv Hcv HF HPF HcF Hnew.
  destruct (map_page_raw P a s d v F Hs Ht Hv Hr HF) as (s' & Hm & Hc' & Hpm & Hid' & Hpde').
  exists s'. split; [done|]. split; [|done]. destruct Hpm as [Et Hdata Hself Hother].
  destruct Hs as [Ha Hc Hd Hf Htk Hid Hpde Hdis Hpos HP Hcore Hfree Huser Hinj].
  assert (Hk : forall f, kmap s f -> f / 4096 <> v / 4096 -> kmap s' f).
  { intros f Hkf Hne. pose proof (kmap_self _ _ Hkf) as E. destruct Hkf as (Hfa & Hfr & _).
    apply translate_kmap; [done..|]. rewrite Hc', (proj1 (Hother f Hfr Hne)), <- Hc. done. }
  assert (Hcr : forall n, core s' d n <-> core s d n) by (intros n; unfold core; by rewrite Et).
  assert (Hcases : forall v' p, 0 <= v' < REGION -> user_translate (words s') d v' = Some p ->
    (v' / 4096 = v / 4096 /\ p = F + v' mod 4096) \/ (v' / 4096 <> v / 4096 /\ user_translate (words s) d v' = Some p)).
  { intros v' p Hv' Hp. destruct (decide (v' / 4096 = v / 4096)) as [E|E]; [left|right].
    - split; [done|]. rewrite (same_page v v' Hv E), Hself in Hp by dlia. congruence.
    - split; [done|]. by rewrite <- (proj2 (Hother v' Hv' E)). }
  assert (HFp : forall v', (F + v' mod 4096) / 4096 = F / 4096) by (intros; unfold aligned in HF; dlia).
  split; rewrite ?Et; try done.
  - apply Hk; [done|]. intros E. apply Hcv. left. done.
  - apply Hk; [done|]. intros E. apply Hcv. right. left. done.
  - apply Hk; [done|]. intros E. apply Hcv. right. right. done.
  - intros n Hn. apply Hk; [by apply HP|]. replace (4096 * n / 4096) with n by dlia. congruence.
  - intros n Hn. by apply Hcore, Hcr.
  - intros v' p Hv' Hp. rewrite Hcr. destruct (Hcases v' p Hv' Hp) as [[_ ->]|[_ Hp']]; [by rewrite HFp|by apply (Huser v')].
  - intros v1 v2 p H1 H2 Hp1 Hp2. destruct (Hcases v1 p H1 Hp1) as [[E1 ->]|[_ Hq1]], (Hcases v2 _ H2 Hp2) as [[E2 Ep]|[_ Hq2]].
    + rewrite (same_page v v1), (same_page v v2) by done. lia.
    + apply Hnew in Hq2; [|done]. by rewrite HFp in Hq2.
    + apply Hnew in Hq1; [|done]. by rewrite Ep, HFp in Hq1.
    + by apply (Hinj v1 v2 p).
Qed.

(** ** Progress of the loader

    What changes between two moments: the program's pages numbered in [T];
    frames that were free may have been taken, nothing else. *)
Record step (T : Z -> Prop) (P : Z -> Prop) (a : A) (s : mmu) (P' : Z -> Prop) (a' : A) (s' : mmu) (d : Z) : Prop := {
  st_sub : forall n, P' n -> P n;
  st_keep : forall n, P n -> fr_free a n = false -> P' n;
  st_free : forall n, fr_free a' n = true -> fr_free a n = true;
  st_core : forall n, core s' d n -> core s d n \/ P n;
  st_data : same_data P' s s';
  st_user : forall v, 0 <= v < REGION -> ~ T (v / 4096) ->
    user_translate (words s') d v = user_translate (words s) d v /\
    forall p, user_translate (words s) d v = Some p -> load_byte (words s') p = load_byte (words s) p }.

Lemma step_refl T P a s d : step T P a s P a s d.
Proof. split; try done. intros n Hn. by left. Qed.

Lemma step_trans T P a s P1 a1 s1 P2 a2 s2 d :
  step T P a s P1 a1 s1 d -> step T P1 a1 s1 P2 a2 s2 d -> step T P a s P2 a2 s2 d.
Proof.
  intros [S1 K1 F1 C1 D1 U1] [S2 K2 F2 C2 D2 U2]. split.
  - auto.
  - intros n Hn Hf. apply K2; [by apply K1|]. destruct (fr_free a1 n) eqn:E; [|done]. apply F1 in E. congruence.
  - auto.
  - intros n Hn. destruct (C2 n Hn) as [Hc|Hp]; auto.
  - intros p Hp. rewrite D2 by done. by apply D1, S2.
  - intros v Hv HT. destruct (U1 v Hv HT) as [E1 B1], (U2 v Hv HT) as [E2 B2]. split; [congruence|].
    intros p Hp. rewrite B2 by congruence. by apply B1.
Qed.

Lemma step_mono (T T' : Z -> Prop) P a s P' a' s' d : (forall n, T n -> T' n) ->
  step T P a s P' a' s' d -> step T' P a s P' a' s' d.
Proof. intros HT [? ? ? ? ? U]. split; try done. intros v Hv Hn. apply U; [done|]. intros Hx. by apply Hn, HT. Qed.

(** Frames enough for [n] more requests. *)
Fixpoint can_alloc (n : nat) (a : A) : Prop :=
  match n with
  | O => True
  | S n' => let '(a', f) := fr_alloc a in f <> 0 /\ can_alloc n' a'
  end.

(** A page number that is neither a translation structure nor protected. *)
Definition spare (P : Z -> Prop) (s : mmu) (d n : Z) : Prop := ~ P n /\ ~ core s d n.

Lemma step_spare T P a s P' a' s' d n : step T P a s P' a' s' d -> spare P s d n -> spare P' s' d n.
Proof.
  intros St [H1 H2]. split; [intros Hn; by apply H1, (st_sub _ _ _ _ _ _ _ _ St)|].
  intros Hn. destruct (st_core _ _ _ _ _ _ _ _ St n Hn); [by apply H2|by apply H1].
Qed.

(** One page: a frame is taken, zeroed and mapped. *)
Lemma load_page P a s d v a1 F : space P a s d -> table_of (words s) d 0 <> FPT -> aligned v -> 0 <= v < REGION ->
  spare P s d (v / 4096) -> fr_alloc a = (a1, F) -> F <> 0 ->
  exists s1 s2, byte_loop (Z.to_nat PAGE_SIZE) 0 s F zero_byte = Some s1 /\
    paging_map_user_page s1 (table_of (words s) d 0) v F = Some s2 /\ space (without P F) a1 s2 d /\
    table_of (words s2) d 0 = table_of (words s) d 0 /\ step (eq (v / 4096)) P a s (without P F) a1 s2 d /\
    (forall o, 0 <= o < 4096 -> user_translate (words s2) d (v + o) = Some (F + o) /\ load_byte (words s2) (F + o) = 0).
Proof.
  intros Hs Ht Hv Hr [HPv Hcv] Hal HF.
  destruct (space_alloc P a s d a1 F Hs Hal HF) as (_ & Hk & HPF & HcF & HfF & Hfr).
  destruct (zero_frame P a s d a1 F Hs Hal HF) as (s1 & Hz & Hs1 & Hm1 & Hd1 & Hzero & Hout1).
  pose proof Hk as (HFa & HFr & _). pose proof (proj1 Hm1) as Et1. pose proof Hm1 as [_ Hm1'].
  destruct (map_page (without P F) a1 s1 d v F) as (s2 & Hmap & Hs2 & [Et2 Hd2 Hself Hother]); try done.
  { by rewrite Et1. }
  { by intros [? _]. }
  { by rewrite (same_maps_core _ _ _ _ Hm1). }
  { by intros [_ ?]. }
  { by rewrite (same_maps_core _ _ _ _ Hm1). }
  { intros v' p Hv' Hp E. rewrite (proj2 (Hm1' v' Hv')) in Hp. destruct (sp_user _ _ _ _ Hs v' p Hv' Hp) as [Hn _]. congruence. }
  rewrite Et1 in *. assert (Hnt : F / 4096 <> table_of (words s) d 0 / 4096) by (intros E; apply HcF; right; by right).
  exists s1, s2. split_and!; try done.
  - split.
    + by intros n [? _].
    + intros n Hn Hf. split; [done|]. intros ->. congruence.
    + done.
    + intros n Hn. left. unfold core in *. by rewrite Et2 in Hn.
    + intros p Hp. rewrite Hd2; [by apply Hd1|]. intros E. apply (sp_core _ _ _ _ Hs2 (p / 4096)); [|done].
      right. right. by rewrite Et2.
    + intros v' Hv' Hne. assert (Hne' : v' / 4096 <> v / 4096) by congruence.
      rewrite (proj2 (Hother v' Hv' Hne')), (proj2 (Hm1' v' Hv')). split; [done|]. intros p Hp.
      destruct (sp_user _ _ _ _ Hs v' p Hv' Hp) as [Hn1 Hn2].
      rewrite Hd2, Hout1; [done|congruence|]. intros E. apply Hn2. right. by right.
  - intros o Ho. split; [by apply Hself|]. rewrite Hd2; [by apply Hzero|].
    replace ((F + o) / 4096) with (F / 4096) by (unfold aligned in HFa; dlia). done.
Qed.

Lemma map_pages_spec d t n : forall P a s va, space P a s d -> table_of (words s) d 0 = t -> t <> FPT -> aligned va ->
  0 <= va -> va + 4096 * Z.of_nat n <= REGION ->
  (forall k, va / 4096 <= k < va / 4096 + Z.of_nat n -> spare P s d k) -> can_alloc n a ->
  exists a' s' P', map_pages n a s t va = Some (a', s', true) /\ space P' a' s' d /\ table_of (words s') d 0 = t /\
    step (fun k => va / 4096 <= k < va / 4096 + Z.of_nat n) P a s P' a' s' d /\
    (forall m, can_alloc (n + m) a -> can_alloc m a') /\
    (forall v, va <= v < va + 4096 * Z.of_nat n ->
       exists p, user_translate (words s') d v = Some p /\ load_byte (words s') p = 0).
Proof.
  induction n as [|n IH]; intros P a s va Hs Ht Htf Hva Hlo Hr Hsp Hcan; cbn [map_pages].
  { exists a, s, P. split_and!; try done; [|lia]. apply step_refl. }
  cbn [can_alloc] in Hcan. destruct (fr_alloc a) as [a1 F] eqn:Hal. destruct Hcan as [HF Hcan].
  rewrite (proj2 (Z.eqb_neq _ _) HF).
  destruct (load_page P a s d va a1 F) as (s1 & s2 & Hz & Hm & Hs2 & Et2 & St & Hpage); try done.
  { by rewrite Ht. }
  { lia. }
  { apply Hsp. lia. }
  rewrite Hz. rewrite Ht in Hm, Et2. rewrite Hm.
  assert (Hva' : aligned (va + PAGE_SIZE)) by (unfold aligned, PAGE_SIZE in *; dlia).
  assert (Hnext : (va + PAGE_SIZE) / 4096 = va / 4096 + 1) by (unfold PAGE_SIZE; dlia).
  destruct (IH (without P F) a1 s2 (va + PAGE_SIZE)) as (a' & s' & P' & Hl & Hs' & Et' & St' & Hrem & Hbytes);
    try done; try (unfold PAGE_SIZE; lia).
  { intros k Hk. eapply step_spare; [done|]. apply Hsp. lia. }
  exists a', s', P'. split; [done|]. split; [done|]. split; [done|]. split.
  { eapply step_trans; (eapply step_mono; [|done]); intros k Hk; cbn beta in *; lia. }
  split.
  { intros m Hm'. apply Hrem. cbn [Nat.add can_alloc] in Hm'. rewrite Hal in Hm'. tauto. }
  intros v Hv. destruct (decide (v < va + 4096)) as [Hlt|Hge].
  - destruct (Hpage (v - va)) as [Hu Hb]; [lia|]. replace (va + (v - va)) with v in Hu by lia.
    destruct (st_user _ _ _ _ _ _ _ _ St' v) as [Hu' Hb'].
    + unfold REGION in *. lia.
    + unfold aligned in Hva. dlia.
    + exists (F + (v - va)). split; [congruence|]. by rewrite Hb'.
  - apply Hbytes. unfold PAGE_SIZE. lia.
Qed.

(** ** A table of the program's own *)
Definition can_load (n : nat) (a : A) (s : mmu) (d : Z) : Prop :=
  if decide (table_of (words s) d 0 = FPT) then can_alloc (S n) a else can_alloc n a.

Lemma can_alloc_first k n : forall a, can_alloc (k + n) a -> can_alloc k a.
Proof.
  induction k as [|k IH]; intros a Hc; [done|]. cbn [Nat.add can_alloc] in *. destruct (fr_alloc a) as [a' f].
  split; [tauto|]. by apply IH, Hc.
Qed.

Lemma can_alloc_less n : forall a, can_alloc (S n) a -> can_alloc n a.
Proof.
  induction n as [|n IH]; intros a Hn; [done|]. cbn [can_alloc] in Hn |- *. destruct (fr_alloc a) as [a' f].
  destruct Hn as [Hf Hn]. split; [done|]. by apply IH.
Qed.

(** Through a copy of the identity table every page maps to itself, none for
    ring 3. *)
Lemma identity_region w d t v : aligned t -> pde_of w d 0 = t + 7 ->
  (forall j, 0 <= j < 1024 -> pload w (t + 4 * j) = 4096 * j + 3) -> 0 <= v < REGION ->
  translate w d v = Some v /\ user_translate w d v = None.
Proof.
  intros Ht Hp Hid Hv. assert (Ep : pde_of w d v = t + 7) by (rewrite <- Hp; unfold pde_of; by rewrite (Z.div_small v)).
  assert (Hj : 0 <= v / 4096 < 1024) by (unfold REGION in *; dlia).
  assert (Hal : aligned (4096 * (v / 4096))) by (unfold aligned; dlia).
  assert (Hw : walk w d v = Some (4096 * (v / 4096) + 3)).
  { unfold walk. rewrite Ep, present_small, entry_small by (auto || lia). unfold PAGE_SIZE, ENTRIES.
    rewrite Z.mod_small, Hid by done. by rewrite present_small by auto. }
  unfold translate, user_translate. rewrite Hw, entry_small by (done || lia). split; [unfold PAGE_SIZE; f_equal; dlia|].
  assert (Hu : flag (4096 * (v / 4096) + 3) PAGE_USER = false); [|by rewrite Hu, andb_false_r].
  unfold flag, PAGE_USER. apply negb_false_iff, Z.eqb_eq. apply Z.bits_inj'. intros k Hk. rewrite Z.land_spec, Z.bits_0.
  destruct (decide (k = 2)) as [->|Hne].
  - replace (4096 * (v / 4096) + 3) with (3 + (1024 * (v / 4096)) * 2 ^ 2) by lia.
    rewrite andb_false_iff. left. rewrite <- (Z.mod_pow2_bits_low _ 3) by lia.
    replace ((3 + 1024 * (v / 4096) * 2 ^ 2) mod 2 ^ 3) with 3 by dlia. done.
  - apply andb_false_iff. right. change 4 with (2 ^ 2). apply Z.pow2_bits_false. lia.
Qed.

(** With a frame at hand the table is not refused. *)
Lemma table_available P a s d v n m a' s' : space P a s d -> 0 <= v < REGION -> table_of (words s) d 0 = FPT -> can_alloc (S n) a ->
  paging_get_or_create_user_table FPT a s d v <> Some (m, a', s', 0).
Proof.
  intros Hs Hv E Hcan. cbn [can_alloc] in Hcan. unfold paging_get_or_create_user_table, paging_alloc_user_page_table, alloc_copy.
  pose proof Hs as [Hai Hc Hd _ _ _ Hpde _ _ HP _ Hf _ _].
  change (PAGE_SIZE * ENTRIES) with REGION. rewrite Z.div_small by done. change (ENTRIES <=? 0) with false.
  unfold vload at 1. rewrite kmap_translate by (done || lia). change (pload (words s) (d + 4 * 0)) with (pde_of (words s) d 0).
  rewrite Hpde, entry_small, present_small by (apply aligned_entry || auto || lia). rewrite E, Z.eqb_refl. cbn [andb negb].
  destruct (fr_alloc a) as [a1 f] eqn:Hal. destruct Hcan as [Hf0 _]. rewrite (proj2 (Z.eqb_neq _ _) Hf0).
  destruct (space_alloc P a s d a1 f Hs Hal Hf0) as (_ & (_ & Hfr' & _) & _).
  destruct (Z.leb_spec REGION f); [lia|]. destruct (copy_entries _ _ _ _ _); [|done].
  rewrite (proj2 (Z.eqb_neq _ _) Hf0). destruct (vstore _ _ _); [|done]. by intros [= _ _ _ ?].
Qed.

(** The space after a frame has become the program's table. *)
Lemma fresh_table P a s d a' s' t : space P a s d -> table_of (words s) d 0 = FPT -> fr_alloc a = (a', t) -> t <> 0 ->
  aligned t -> 0 < t < REGION -> fr_free a (t / 4096) = true -> cr3 s' = d -> pde_of (words s') d 0 = t + 7 ->
  (forall j, 0 <= j < 1024 -> pload (words s') (t + 4 * j) = 4096 * j + 3) ->
  (forall x, x <> d -> x / 4096 <> t / 4096 -> pload (words s') x = pload (words s) x) ->
  t <> FPT /\ table_of (words s') d 0 = t /\ space (without P t) a' s' d /\
  step (fun _ => False) P a s (without P t) a' s' d.
Proof.
  intros Hs E Hal Ht0 Hta Htr Hfree Hc' Hpde' Hcopy Hoth.
  destruct (space_alloc P a s d a' t Hs Hal Ht0) as ([Ha1 Hc Hd Hf Htk Hid Hpde Hdis Hpos HP Hcore Hfree1 Huser Hinj] & _ & HPt & Hct & _ & Hsub).
  pose proof Hd as (Hda & Hdr & _). pose proof Hf as (Hfa & Hfr & _).
  assert (Et : table_of (words s') d 0 = t) by (unfold table_of; rewrite Hpde'; apply entry_small; [done|lia]).
  assert (Hreg : forall v, 0 <= v < REGION -> translate (words s') d v = Some v /\ user_translate (words s') d v = None)
    by (intros; by apply (identity_region _ _ t)).
  assert (Hreg0 : forall v, 0 <= v < REGION -> user_translate (words s) d v = None).
  { intros v' Hv'. apply (identity_region _ _ FPT); [done|congruence|done|done]. }
  assert (Hk : forall f, aligned f -> 0 <= f < REGION -> kmap s' f).
  { intros f Hf1 Hf2. apply translate_kmap; [done..|]. rewrite Hc'. by apply Hreg. }
  assert (Hdt : t <> d) by (intros ->; apply Hct; by left).
  assert (Hft : t <> FPT) by (intros ->; apply Hct; right; by left).
  assert (Hdata : same_data (without P t) s s').
  { intros p [Hp Hpt]. unfold load_byte. f_equal. f_equal. apply Hoth; [|by rewrite word_page].
    intros Ed. apply (sp_core _ _ _ _ Hs (p / 4096)); [|done]. left. by rewrite <- word_page, Ed. }
  split; [done|]. split; [done|]. split.
  + split; rewrite ?Et; try done; try (apply Hk; (done || lia)).
    * intros i Hi. rewrite Hoth; [by apply Hid| |rewrite slot_page by done; by apply page_neq].
      intros Ed. apply (page_neq FPT d); [done|done|by intros <-; apply Hdis|]. rewrite <- Ed. by rewrite slot_page.
    * by split; [apply Hdis|].
    * by split; [apply Hpos|lia].
    * intros k Hk'. apply HP in Hk' as (H1 & H2 & _). by apply Hk.
    * intros k Hk' [Hp Hne]. destruct Hk' as [->|[->| ->]].
      -- apply (Hcore (d / 4096)); [by left|]. split; [done|]. by apply page_neq.
      -- apply (Hcore (FPT / 4096)); [right; by left|]. split; [done|]. by apply page_neq.
      -- by rewrite Et in Hne.
    * intros v' p Hv' Hp. by rewrite (proj2 (Hreg v' Hv')) in Hp.
    * intros v1 v2 p H1 H2 Hp. by rewrite (proj2 (Hreg v1 H1)) in Hp.
  + split; try done.
    * by intros k [? _].
    * intros k Hk' Hfk. split; [done|]. intros ->. congruence.
    * intros k [->|[->| ->]]; [left; by left|left; right; by left|right]. by rewrite Et.
    * intros v' Hv' _. rewrite (proj2 (Hreg v' Hv')), Hreg0 by done. done.
Qed.

Lemma own_table P a s d v n : space P a s d -> 0 <= v < REGION -> can_load n a s d ->
  exists m a' s' P' t, paging_get_or_create_user_table FPT a s d v = Some (m, a', s', t) /\
    t <> 0 /\ t <> FPT /\ table_of (words s') d 0 = t /\ space P' a' s' d /\
    step (fun _ => False) P a s P' a' s' d /\ can_alloc n a'.
Proof.
  intros Hs Hv Hcan. pose proof (space_user_space _ _ _ _ Hs) as Hus. unfold can_load in Hcan.
  destruct (get_or_create_spec FPT a s d v Hus Hv) as (m & a' & s' & t & Hg & Ha' & Hcase).
  exists m, a', s'. destruct Hcase as [(-> & -> & E & Hfr)|[(Et & Htf & -> & ->)|(E & Hal & Ht0 & Hta & Htr & Hfree & Hc' & Hpde' & Hcopy & Hoth)]].
  - rewrite decide_True in Hcan by done. by destruct (table_available P a s d v n m a' s Hs Hv E Hcan).
  - exists P, t. rewrite decide_False in Hcan by congruence. split; [done|].
    pose proof (sp_positive _ _ _ _ Hs). split_and!; try done; [lia|]. apply step_refl.
  - rewrite decide_True in Hcan by done. cbn [can_alloc] in Hcan. rewrite Hal in Hcan. destruct Hcan as [_ Hcan].
    destruct (fresh_table P a s d a' s' t) as (Ht1 & Et & Hs' & St); try done.
    exists (without P t), t. done.
Qed.

(** ** The contents of a segment *)

(** The byte ring 3 reads. *)
Definition ubyte (s : mmu) (d v : Z) : option Z :=
  match user_translate (words s) d v with Some p => Some (load_byte (words s) p) | None => None end.

(** The file's bytes, in protected memory of the kernel. *)
Record buffer (P : Z -> Prop) (a : A) (s : mmu) (fb : Z) (file : list Z) : Prop := {
  bf_range : 0 <= fb /\ fb + Z.of_nat (length file) <= REGION;
  bf_bytes : Forall is_byte file;
  bf_page : forall i, 0 <= i < Z.of_nat (length file) -> P ((fb + i) / 4096) /\ fr_free a ((fb + i) / 4096) = false;
  bf_data : forall i, 0 <= i < Z.of_nat (length file) -> load_byte (words s) (fb + i) = byte_at file i }.

Lemma step_buffer T P a s P' a' s' d fb file : step T P a s P' a' s' d -> buffer P a s fb file -> buffer P' a' s' fb file.
Proof.
  intros [Sub Keep Free _ Data _] [Hr Hb Hp Hd].
  assert (HP' : forall i, 0 <= i < Z.of_nat (length file) -> P' ((fb + i) / 4096)) by (intros i Hi; by apply Keep; apply Hp).
  split; [done|done| |].
  - intros i Hi. split; [by apply HP'|]. destruct (fr_free a' _) eqn:E; [|done]. apply Free in E.
    destruct (Hp i Hi). congruence.
  - intros i Hi. rewrite Data by (by apply HP'). by apply Hd.
Qed.

Lemma buffer_load P a s d fb file i : space P a s d -> buffer P a s fb file -> 0 <= i < Z.of_nat (length file) ->
  translate (words s) d (fb + i) = Some (fb + i).
Proof.
  intros Hs [Hr _ Hp _] Hi. destruct (Hp i Hi) as [HP _]. pose proof (sp_id _ _ _ _ Hs _ HP) as Hk.
  pose proof (kmap_translate s _ ((fb + i) mod 4096) Hk ltac:(dlia)) as E. rewrite (sp_cr3 _ _ _ _ Hs) in E.
  replace (4096 * ((fb + i) / 4096) + (fb + i) mod 4096) with (fb + i) in E by dlia. done.
Qed.

(** The byte a segment has at offset [i]. *)
Definition segment_byte (file : list Z) (ph : elf32_program_header) (i : Z) : Z :=
  if i <? p_filesz ph then byte_at file (p_offset ph + i) else 0.

(** A segment whose parts lie in the file and below the stack. *)
Record segment_ok (file : list Z) (ph : elf32_program_header) : Prop := {
  so_fields : 0 <= p_offset ph /\ 0 <= p_vaddr ph /\ 0 <= p_filesz ph <= p_memsz ph;
  so_file : p_offset ph + p_filesz ph <= Z.of_nat (length file);
  so_room : p_vaddr ph + p_memsz ph <= USER_STACK_VADDR }.

Lemma copy_segment_spec P a s d fb file ph : space P a s d -> buffer P a s fb file -> segment_ok file ph ->
  (forall v, p_vaddr ph <= v < p_vaddr ph + p_memsz ph -> exists p, user_translate (words s) d v = Some p) ->
  exists s', copy_segment s fb ph = Some s' /\ space P a s' d /\ same_maps s s' d /\ same_data P s s' /\
    (forall i, 0 <= i < p_memsz ph -> ubyte s' d (p_vaddr ph + i) = Some (segment_byte file ph i)) /\
    (forall v p, 0 <= v < REGION -> ~ p_vaddr ph <= v < p_vaddr ph + p_memsz ph ->
       user_translate (words s) d v = Some p -> load_byte (words s') p = load_byte (words s) p).
Proof.
  intros Hs Hbuf [(Ho & Hv & Hfm) Hfile Hroom] Hmap.
  set (V := p_vaddr ph) in *. set (tgt := fun i => default 0 (user_translate (words s) d (V + i))).
  assert (HR : forall i, 0 <= i < p_memsz ph -> 0 <= V + i < REGION) by (unfold USER_STACK_VADDR, REGION in *; lia).
  assert (Htgt : forall i, 0 <= i < p_memsz ph -> user_translate (words s) d (V + i) = Some (tgt i)).
  { intros i Hi. destruct (Hmap (V + i)) as [p Hp]; [lia|]. unfold tgt. by rewrite Hp. }
  assert (Hinj : forall i j, 0 <= i < p_memsz ph -> 0 <= j < p_memsz ph -> tgt i = tgt j -> i = j).
  { intros i j Hi Hj E. assert (V + i = V + j); [|lia]. apply (sp_inj _ _ _ _ Hs _ _ (tgt i)); auto. rewrite E. auto. }
  assert (Hpre : forall val, (forall i, is_byte (val i)) -> forall i, 0 <= i < p_memsz ph -> 0 <= V + i < REGION /\
    translate (words s) d (V + i) = Some (tgt i) /\ ~ P (tgt i / 4096) /\ ~ core s d (tgt i / 4096) /\ is_byte (val i)).
  { intros val Hval i Hi. split; [auto|]. split; [by apply user_translates; auto|].
    destruct (sp_user _ _ _ _ Hs (V + i) (tgt i)); auto. }
  unfold copy_segment. fold V. destruct (byte_loop_spec P a d (byte_from (u32 (fb + p_offset ph))) (segment_byte file ph) V tgt
    (Z.to_nat (p_filesz ph)) 0 s) as (s1 & Hl1 & Hs1 & Hm1 & Hd1 & Hin1 & Hout1); try done.
  { intros i Hi. apply Hpre; [|lia]. intros j. unfold segment_byte. case_if; [|unfold is_byte; lia].
    apply byte_at_byte, Hbuf. }
  { intros i j Hi Hj. apply Hinj; lia. }
  { intros s' i Hc Hm Hd Hi. unfold byte_from, vload8, segment_byte. rewrite (proj2 (Z.ltb_lt i _)) by lia.
    destruct (bf_range _ _ _ _ _ Hbuf) as [Hfb Hfe].
    replace (u32 (u32 (fb + p_offset ph) + i)) with (fb + (p_offset ph + i)) by (unfold u32, REGION in *; dlia).
    rewrite Hc, (proj1 (proj2 Hm (fb + (p_offset ph + i)) ltac:(unfold REGION in *; lia))), (buffer_load P a s d fb file) by (done || lia).
    rewrite Hd by (apply Hbuf; lia). by rewrite (bf_data _ _ _ _ _ Hbuf) by lia. }
  rewrite Hl1. destruct Hm1 as [Et1 Hm1].
  destruct (byte_loop_spec P a d zero_byte (fun _ => 0) V tgt (Z.to_nat (p_memsz ph - p_filesz ph)) (p_filesz ph) s1)
    as (s2 & Hl2 & Hs2 & Hm2 & Hd2 & Hin2 & Hout2); try done.
  { intros i Hi. destruct (Hpre (fun _ => 0) ltac:(intros; unfold is_byte; lia) i ltac:(lia)) as (H1 & H2 & H3 & H4 & H5).
    rewrite (proj1 (Hm1 _ H1)). unfold core in *. rewrite Et1. done. }
  { intros i j Hi Hj. apply Hinj; lia. }
  exists s2. split; [done|]. split; [done|]. split; [by eapply same_maps_trans; [split|]|].
  split; [intros p Hp; by rewrite Hd2, Hd1|]. split.
  - intros i Hi. unfold ubyte. destruct Hm2 as [_ Hm2].
    rewrite (proj2 (Hm2 _ (HR i Hi))), (proj2 (Hm1 _ (HR i Hi))), Htgt by done. f_equal.
    destruct (decide (i < p_filesz ph)) as [Hlt|Hge].
    + rewrite Hout2; [apply Hin1; lia|]. intros j Hj E. apply Hinj in E; lia.
    + unfold segment_byte. rewrite (proj2 (Z.ltb_ge _ _)) by lia. apply Hin2. lia.
  - intros v p Hvr Hv' Hp. assert (Hne : forall i, 0 <= i < p_memsz ph -> p <> tgt i).
    { intros i Hi ->. apply Hv'. replace v with (V + i); [lia|]. symmetry.
      apply (sp_inj _ _ _ _ Hs _ _ (tgt i)); auto. }
    rewrite Hout2, Hout1; [done|..]; intros i Hi; apply Hne; lia.
Qed.

(** ** A segment *)
Definition page_count (ph : elf32_program_header) : Z := (p_vaddr ph + p_memsz ph + 4095) / 4096 - p_vaddr ph / 4096.
Definition segment_pages (ph : elf32_program_header) : list Z := seqZ (p_vaddr ph / 4096) (page_count ph).

Lemma segment_bounds file ph : segment_ok file ph ->
  start_page ph = 4096 * (p_vaddr ph / 4096) /\ end_page ph = start_page ph + 4096 * page_count ph /\
  0 <= page_count ph /\ end_page ph <= USER_STACK_VADDR /\ p_vaddr ph + p_memsz ph <= end_page ph.
Proof.
  intros [(Ho & Hv & Hfm) _ Hroom]. unfold start_page, end_page, page_count, PAGE_SIZE, USER_STACK_VADDR in *.
  change (4096 - 1) with (Z.ones 12). rewrite !land_mask by (unfold is_u32, u32; dlia).
  change (2 ^ 12) with 4096. rewrite (Z.mod_small (p_vaddr ph + p_memsz ph) 4294967296 ltac:(lia) : u32 _ = _).
  unfold u32. rewrite Z.mod_small by lia. dlia.
Qed.

Lemma same_step P a s s' d T : space P a s d -> same_maps s s' d -> same_data P s s' ->
  (forall v p, 0 <= v < REGION -> ~ T (v / 4096) -> user_translate (words s) d v = Some p ->
     load_byte (words s') p = load_byte (words s) p) -> step T P a s P a s' d.
Proof.
  intros Hs Hm Hd Hu. split; try done.
  - intros n Hn. left. by apply (same_maps_core s s').
  - intros v Hv HT. split; [by apply Hm|]. intros p Hp. by apply (Hu v).
Qed.

Lemma switch_self s d : cr3 s = d -> paging_switch_directory s d = s.
Proof. intros <-. by destruct s. Qed.

Lemma load_segment_spec P a s d fb file ph n : space P a s d -> buffer P a s fb file -> segment_ok file ph ->
  (forall k, k ∈ segment_pages ph -> spare P s d k) -> can_load (Z.to_nat (page_count ph) + n) a s d ->
  exists m a' s' P', load_segment FPT a s d fb ph = Some (m, a', s', true) /\ space P' a' s' d /\
    table_of (words s') d 0 <> FPT /\ step (fun k => k ∈ segment_pages ph) P a s P' a' s' d /\ can_alloc n a' /\
    forall i, 0 <= i < p_memsz ph -> ubyte s' d (p_vaddr ph + i) = Some (segment_byte file ph i).
Proof.
  intros Hs Hbuf Hok Hsp Hcan. pose proof (segment_bounds file ph Hok) as (E1 & E2 & Hc & Hend & Hlen).
  pose proof Hok as [(Ho & Hv & Hfm) _ Hroom]. unfold USER_STACK_VADDR in Hroom.
  assert (Hmem : forall k, k ∈ segment_pages ph <-> p_vaddr ph / 4096 <= k < p_vaddr ph / 4096 + page_count ph)
    by (intros k; unfold segment_pages; rewrite elem_of_seqZ; lia).
  assert (Hsdiv : start_page ph / 4096 = p_vaddr ph / 4096) by (rewrite E1; dlia).
  destruct (own_table P a s d (p_vaddr ph) _ Hs ltac:(unfold REGION; lia) Hcan)
    as (m & a1 & s1 & P1 & t & Hg & Ht0 & Htf & Et & Hs1 & St1 & Hcan1).
  unfold load_segment. rewrite Hg, (proj2 (Z.eqb_neq _ _) Ht0), (proj2 (Z.ltb_ge _ _) Hend).
  replace ((end_page ph - start_page ph) / PAGE_SIZE) with (page_count ph) by (rewrite E2; unfold PAGE_SIZE; dlia).
  destruct (map_pages_spec d t (Z.to_nat (page_count ph)) P1 a1 s1 (start_page ph))
    as (a2 & s2 & P2 & Hl & Hs2 & Et2 & St2 & Hrem & Hmapped); try done.
  { rewrite E1. unfold aligned. dlia. }
  { rewrite E1. dlia. }
  { unfold USER_STACK_VADDR, REGION in *. lia. }
  { intros k Hk. eapply step_spare; [done|]. apply Hsp, Hmem. lia. }
  { by eapply can_alloc_first. }
  rewrite Hl, switch_self by apply Hs2.
  assert (St : step (fun k => k ∈ segment_pages ph) P a s P2 a2 s2 d).
  { eapply step_trans; (eapply step_mono; [|done]); [done|]. intros k Hk. cbn beta in Hk. apply Hmem. lia. }
  destruct (copy_segment_spec P2 a2 s2 d fb file ph) as (s3 & Hcopy & Hs3 & Hm3 & Hd3 & Hbytes & Hkeep); try done.
  { by eapply step_buffer. }
  { intros v Hv'. destruct (Hmapped v) as (p & Hp & _); [|by exists p]. split; [rewrite E1; dlia|lia]. }
  rewrite Hcopy. eexists _, a2, s3, P2. split; [done|]. split; [done|]. split; [by rewrite (proj1 Hm3), Et2|].
  split; [|split; [by apply Hrem|done]]. eapply step_trans; [done|]. apply same_step; try done.
  intros v p Hvr HT Hp. apply (Hkeep v); [done| |done]. intros Hin. apply HT, Hmem. clear -Hin E1 E2 Hlen. dlia.
Qed.

(** ** The executable *)
Definition slice (file : list Z) (off : Z) (n : Z) : list Z := take (Z.to_nat n) (drop (Z.to_nat off) file).
Definition file_ehdr (file : list Z) : elf32_header := decode_ehdr (slice file 0 EHDR_SIZE).
Definition file_phdr (file : list Z) (i : Z) : elf32_program_header :=
  decode_phdr (slice file (e_phoff (file_ehdr file) + PHDR_SIZE * i) PHDR_SIZE).
Definition loadable (phs : list elf32_program_header) : list elf32_program_header :=
  filter (fun ph => p_type ph = PT_LOAD) phs.
Definition segments (file : list Z) : list elf32_program_header :=
  loadable (map (file_phdr file) (seqZ 0 (e_phnum (file_ehdr file)))).
Definition pages_of (segs : list elf32_program_header) : list Z := mjoin (map segment_pages segs).

Lemma vload_bytes_buffer P a s d fb file n : forall off, space P a s d -> buffer P a s fb file ->
  0 <= off -> off + Z.of_nat n <= Z.of_nat (length file) ->
  vload_bytes n s (fb + off) = Some (take n (drop (Z.to_nat off) file)).
Proof.
  induction n as [|n IH]; intros off Hs Hb Ho Hn; cbn [vload_bytes]; [done|].
  destruct (bf_range _ _ _ _ _ Hb) as [Hfb Hfe].
  unfold vload8. rewrite (sp_cr3 _ _ _ _ Hs), (buffer_load P a s d fb file) by (done || lia).
  rewrite (bf_data _ _ _ _ _ Hb) by lia.
  replace (u32 (fb + off + 1)) with (fb + (off + 1)) by (unfold u32, REGION in *; dlia).
  rewrite IH by (done || lia). destruct (lookup_lt_is_Some_2 file (Z.to_nat off)) as [x Hx]; [lia|].
  rewrite (byte_at_lookup _ _ _ Hx), (drop_S _ _ _ Hx). replace (Z.to_nat (off + 1)) with (S (Z.to_nat off)) by lia. done.
Qed.

(** The segments from number [i] on. *)
Lemma load_segments_spec d fb file n : forall i loaded P a s, space P a s d -> buffer P a s fb file ->
  0 <= i -> 0 <= e_phoff (file_ehdr file) ->
  e_phoff (file_ehdr file) + PHDR_SIZE * (i + Z.of_nat n) <= Z.of_nat (length file) ->
  let segs := loadable (map (file_phdr file) (seqZ i (Z.of_nat n))) in
  Forall (segment_ok file) segs -> NoDup (pages_of segs) -> (forall k, k ∈ pages_of segs -> spare P s d k) ->
  can_load (length (pages_of segs)) a s d ->
  exists m a' s' P',
    load_segments FPT n i loaded a s d fb (u32 (fb + e_phoff (file_ehdr file))) =
      Some (m, a', s', Some (loaded + Z.of_nat (length segs))) /\
    space P' a' s' d /\ step (fun k => k ∈ pages_of segs) P a s P' a' s' d /\
    Forall (fun ph => forall j, 0 <= j < p_memsz ph -> ubyte s' d (p_vaddr ph + j) = Some (segment_byte file ph j)) segs.
Proof.
  induction n as [|n IH]; intros i loaded P a s Hs Hb Hi Hph Hlen; cbv zeta; cbn [load_segments].
  { intros _ _ _ _. exists [], a, s, P. rewrite seqZ_nil by lia. cbn. rewrite Z.add_0_r.
    split; [done|]. split; [done|]. split; [apply step_refl|done]. }
  destruct (bf_range _ _ _ _ _ Hb) as [Hfb Hfe]. unfold PHDR_SIZE in Hlen.
  replace (u32 (u32 (fb + e_phoff (file_ehdr file)) + PHDR_SIZE * i)) with (fb + (e_phoff (file_ehdr file) + PHDR_SIZE * i))
    by (unfold u32, REGION, PHDR_SIZE in *; dlia).
  rewrite (vload_bytes_buffer P a s d fb file) by (done || (unfold PHDR_SIZE; lia)).
  fold (slice file (e_phoff (file_ehdr file) + PHDR_SIZE * i) PHDR_SIZE). fold (file_phdr file i).
  rewrite seqZ_cons by lia. replace (Z.pred (Z.of_nat (S n))) with (Z.of_nat n) by lia. cbn [map].
  unfold loadable. rewrite filter_cons. fold (loadable (map (file_phdr file) (seqZ (Z.succ i) (Z.of_nat n)))).
  change (Z.succ i) with (i + 1). set (ph := file_phdr file i).
  set (segs := loadable (map (file_phdr file) (seqZ (i + 1) (Z.of_nat n)))).
  destruct (decide (p_type ph = PT_LOAD)) as [Ety|Ety].
  2:{ rewrite (proj2 (Z.eqb_neq _ _) Ety). cbn [negb]. apply (IH (i + 1)); try done; [lia|unfold PHDR_SIZE; lia]. }
  rewrite Ety, Z.eqb_refl. cbn [negb]. unfold pages_of. cbn [map mjoin list_join]. fold (pages_of segs).
  intros Hok Hnd Hsp Hcan. apply Forall_cons_1 in Hok as [Hok Hoks]. apply NoDup_app in Hnd as (_ & Hdisj & Hnd).
  rewrite length_app in Hcan. unfold segment_pages in Hcan at 1. rewrite length_seqZ in Hcan.
  destruct (load_segment_spec P a s d fb file ph (length (pages_of segs))) as (m & a1 & s1 & P1 & Hl & Hs1 & Ht1 & St1 & Hcan1 & Hbytes);
    try done.
  { intros k Hk. apply Hsp, elem_of_app. by left. }
  rewrite Hl. destruct (IH (i + 1) (loaded + 1) P1 a1 s1) as (m' & a' & s' & P' & Hl' & Hs' & St' & Hall); try done.
  { by eapply step_buffer. }
  { lia. }
  { unfold PHDR_SIZE. lia. }
  { intros k Hk. eapply step_spare; [done|]. apply Hsp, elem_of_app. by right. }
  { unfold can_load. by rewrite decide_False. }
  rewrite Hl'. eexists _, a', s', P'. split; [cbn [length]; by rewrite Nat2Z.inj_succ, <- Z.add_1_l, Z.add_assoc|].
  split; [done|]. split.
  { eapply step_trans; (eapply step_mono; [|done]); intros k Hk; cbn beta in *; apply elem_of_app; tauto. }
  constructor; [|done]. intros j Hj. rewrite <- Hbytes by done. pose proof (segment_bounds file ph Hok) as (E1 & E2 & Hc & Hend & Hlen').
  pose proof Hok as [(Ho & Hv & Hfm) _ Hroom]. unfold USER_STACK_VADDR in Hroom.
  destruct (st_user _ _ _ _ _ _ _ _ St' (p_vaddr ph + j)) as [Eu Ek].
  - unfold REGION. lia.
  - apply Hdisj. unfold segment_pages. apply elem_of_seqZ. dlia.
  - unfold ubyte. rewrite Eu. destruct (user_translate (words s1) d (p_vaddr ph + j)) as [p|]; [|done]. by rewrite Ek.
Qed.

Lemma get_le32_is l i : Forall is_byte l -> is_u32 (get_le32 l i).
Proof.
  intros Hl. pose proof (byte_at_byte l i Hl). pose proof (byte_at_byte l (i + 1) Hl).
  pose proof (byte_at_byte l (i + 2) Hl). pose proof (byte_at_byte l (i + 3) Hl).
  unfold get_le32, is_byte, is_u32 in *. lia.
Qed.

(** An executable the loader takes: a good header, program headers and
    segments inside the file, at least one loadable segment, and no two of
    them on one page. *)
Record executable (file : list Z) : Prop := {
  ex_size : EHDR_SIZE <= Z.of_nat (length file);
  ex_header : ehdr_error (file_ehdr file) = None;
  ex_table : e_phoff (file_ehdr file) + PHDR_SIZE * e_phnum (file_ehdr file) <= Z.of_nat (length file);
  ex_some : segments file <> [];
  ex_segments : Forall (segment_ok file) (segments file);
  ex_pages : NoDup (pages_of (segments file)) }.

End Space.

(** ** The whole call *)
Section Run.
Context {A : Type} `{FrameAllocator A} {D : Type} `{BlockDevice D}.

(** The file buffer is given back on every path. *)
Lemma run_frees FPT fuel h (st : fat_state D) (a : A) s dir filename argv m h' a' s' r :
  elf_load_and_run FPT fuel h st a s dir filename argv = OK (m, h', a', s', r) ->
  exists h1 p, kmalloc fuel h ELF_MAX_FILE_SIZE = OK (h1, p) /\ if p =? 0 then h' = h1 else kfree h1 p = OK h'.
Proof.
  unfold elf_load_and_run. destruct (kmalloc fuel h ELF_MAX_FILE_SIZE) as [[h1 p]| |]; cbn [rbind]; [|done..].
  intros Hr. exists h1, p. split; [done|]. destruct (p =? 0); [by injection Hr|].
  destruct (fat_read_file fuel st filename ELF_MAX_FILE_SIZE) as [m0 [file| |]]; [| |done].
  - destruct (faulting (byte_loop _ _ _ _ _)) as [s1| |]; cbn [rbind] in Hr; [|done..].
    destruct (faulting (elf_load _ _ _ _ _ _ _)) as [[[[m1 a1] s2] r1]| |]; cbn [rbind] in Hr; [|done..].
    destruct (kfree h1 p) as [h2| |]; cbn [rbind] in Hr; [|done..]. f_equal.
    destruct r1 as [entry|]; [|by injection Hr].
    destruct (faulting (usermode_enter _ _ _ _ _)) as [[[[m2 a2] s3] e]| |]; cbn [rbind] in Hr; [|done..].
    destruct e; by injection Hr.
  - destruct (kfree h1 p) as [h2| |]; cbn [rbind] in Hr; [|done..]. f_equal. by injection Hr.
Qed.

End Run.

(** ** An executable with one segment, loaded into the space of [Paging.Demo] *)
Module ElfDemo.
Import Paging.Demo.

Definition ehdr_bytes (phnum : Z) : list Z :=
  [127; 69; 76; 70; 1; 1; 1; 0; 0; 0; 0; 0; 0; 0; 0; 0] ++ put_le16 2 ++ put_le16 3 ++ put_le32 1 ++
  put_le32 3145732 ++ put_le32 52 ++ put_le32 0 ++ put_le32 0 ++ put_le16 52 ++ put_le16 32 ++ put_le16 phnum ++
  put_le16 0 ++ put_le16 0 ++ put_le16 0.
Definition phdr_bytes (off vaddr filesz memsz : Z) : list Z :=
  put_le32 1 ++ put_le32 off ++ put_le32 vaddr ++ put_le32 vaddr ++ put_le32 filesz ++ put_le32 memsz ++ put_le32 7 ++ put_le32 4096.
Definition program : list Z := ehdr_bytes 1 ++ phdr_bytes 84 3145728 8 5000 ++ [10; 20; 30; 40; 50; 60; 70; 80].

Fixpoint put_bytes (w : gmap Z Z) (p : Z) (l : list Z) : gmap Z Z :=
  match l with [] => w | b :: l' => put_bytes (store_byte w p b) (p + 1) l' end.

Lemma put_bytes_off l : forall w p x n, (forall i, 0 <= i < Z.of_nat (length l) -> (p + i) / 4096 = n) -> x / 4096 <> n ->
  pload (put_bytes w p l) x = pload w x.
Proof.
  induction l as [|b l IH]; intros w p x n Hp Hx; cbn [put_bytes]; [done|].
  rewrite (IH _ _ _ n); [|intros i Hi; rewrite <- (Hp (i + 1)) by (cbn [length]; lia); f_equal; lia|done].
  apply store_byte_off. rewrite <- (Hp 0) in Hx by (cbn [length]; lia). by rewrite Z.add_0_r in Hx.
Qed.

Definition file_buf : Z := 2097152.
Definition with_file (file : list Z) : mmu := mk_mmu (put_bytes (words space1) file_buf file) 4096.

(** The free frames and the page of the buffer. *)
Definition protected (n : Z) : Prop := n ∈ [2; 3; 4; 512].

Lemma frames1_eq : frames1 = [2; 3; 4].
Proof. vm_compute. reflexivity. Qed.

Lemma space1_table : table_of (words space1) 4096 0 = FPT.
Proof. vm_compute. reflexivity. Qed.

Lemma space1_user v : 0 <= v < REGION -> user_translate (words space1) 4096 v = None.
Proof.
  intros Hv. pose proof space1_ok as Hok. apply (identity_region _ _ FPT); [reflexivity| |exact (us_ident _ _ _ _ Hok)|done].
  rewrite (us_pde _ _ _ _ Hok), space1_table. reflexivity.
Qed.

Lemma core1 n : core FPT space1 4096 n -> n = 1 \/ n = 273.
Proof.
  unfold core. rewrite space1_table. intros [Hn|[Hn|Hn]]; subst n; [left|right|right]; reflexivity.
Qed.

Lemma space1_space : space FPT protected frames1 space1 4096.
Proof.
  pose proof space1_ok as [H1 H2 H3 H4 H5 H6 H7 H8 H9 _ _].
  split; [exact H1|exact H2|exact H3|exact H4|exact H6|exact H5|exact H7|exact H8|exact H9|..].
  - intros n Hn. apply kmap_b_sound. unfold protected in Hn. rewrite !elem_of_cons, elem_of_nil in Hn.
    destruct Hn as [->|[->|[->|[->|[]]]]]; vm_compute; reflexivity.
  - intros n Hn. unfold protected. rewrite !elem_of_cons, elem_of_nil. apply core1 in Hn. lia.
  - intros n Hn. unfold protected. rewrite frames1_eq in Hn.
    change (bool_decide (n ∈ [2; 3; 4]) = true) in Hn. apply bool_decide_eq_true in Hn.
    clear -Hn. set_solver.
  - intros v p Hv Hp. rewrite space1_user in Hp by exact Hv. discriminate Hp.
  - intros v v' p Hv Hv' Hp. rewrite space1_user in Hp by exact Hv. discriminate Hp.
Qed.

Definition holds_b (s : mmu) (fb : Z) (file : list Z) : bool :=
  forallb (fun i => load_byte (words s) (fb + i) =? byte_at file i) (seqZ 0 (Z.of_nat (length file))).

Lemma holds_b_sound s fb file : holds_b s fb file = true ->
  forall i, 0 <= i < Z.of_nat (length file) -> load_byte (words s) (fb + i) = byte_at file i.
Proof.
  unfold holds_b. rewrite forallb_forall. intros Hb i Hi. apply Z.eqb_eq, Hb. apply list_elem_of_In, elem_of_seqZ. lia.
Qed.

Lemma loaded_space : space FPT protected frames1 (with_file program) 4096 /\ same_maps space1 (with_file program) 4096.
Proof.
  apply space_agree; [apply space1_space|]. intros x Hx. apply core1 in Hx. apply (put_bytes_off _ _ _ _ 512).
  - change (Z.of_nat (length program)) with 92. unfold file_buf. intros i Hi. dlia.
  - lia.
Qed.

Lemma program_length : Z.of_nat (length program) = 92.
Proof. vm_compute. reflexivity. Qed.

Lemma program_bytes : Forall is_byte program.
Proof. apply (bool_decide_unpack _). vm_compute. exact I. Qed.

Lemma program_stored : holds_b (with_file program) file_buf program = true.
Proof. vm_compute. reflexivity. Qed.

Lemma buffer_reserved : fr_free frames1 512 = false.
Proof. vm_compute. reflexivity. Qed.

Lemma buffer_pages i : 0 <= i < Z.of_nat (length program) -> (file_buf + i) / 4096 = 512.
Proof. rewrite program_length. unfold file_buf. intros. dlia. Qed.

Lemma loaded_buffer : buffer protected frames1 (with_file program) file_buf program.
Proof.
  split; [|exact program_bytes| |exact (holds_b_sound _ _ _ program_stored)].
  - rewrite program_length. unfold file_buf, REGION. lia.
  - intros i Hi. rewrite (buffer_pages i Hi). split; [|exact buffer_reserved]. unfold protected. clear. set_solver.
Qed.

Lemma program_segments : segments program = [mk_phdr 1 84 3145728 8 5000].
Proof. vm_compute. reflexivity. Qed.

Lemma program_pages : pages_of (segments program) = [768; 769].
Proof. vm_compute. reflexivity. Qed.

Lemma program_executable : executable program.
Proof.
  split.
  - vm_compute. discriminate.
  - vm_compute. reflexivity.
  - vm_compute. discriminate.
  - rewrite program_segments. discriminate.
  - rewrite program_segments. repeat constructor; cbn; (lia || vm_compute; discriminate).
  - rewrite program_pages. apply (bool_decide_unpack _). vm_compute. exact I.
Qed.

Lemma program_spare k : k ∈ pages_of (segments program) -> spare FPT protected (with_file program) 4096 k.
Proof.
  rewrite program_pages, !elem_of_cons, elem_of_nil. intros Hk. split.
  - unfold protected. rewrite !elem_of_cons, elem_of_nil. lia.
  - rewrite (same_maps_core FPT space1 _ _ _ (proj2 loaded_space)). intros Hc. apply core1 in Hc. lia.
Qed.

Lemma program_frames : can_alloc (S (length (pages_of (segments program)))) frames1.
Proof. rewrite program_pages, frames1_eq. cbn [length can_alloc fr_alloc pool_allocator]. lia. Qed.
End ElfDemo.
Import Paging.Demo ElfDemo.


Example program_values : e_entry (file_ehdr program) = 3145732 /\
  segment_byte program (mk_phdr 1 84 3145728 8 5000) 2 = 30 /\ segment_byte program (mk_phdr 1 84 3145728 8 5000) 4999 = 0.
Proof. vm_compute. repeat split. Qed.

(** Two segments that share a page: the second mapping of the page replaces
    the first, and the bytes of the first segment are gone. *)
Definition two_segments : list Z :=
  ehdr_bytes 2 ++ phdr_bytes 116 3145728 4 4 ++ phdr_bytes 120 3145984 4 4 ++ [1; 2; 3; 4; 5; 6; 7; 8].
Definition bytes_after (file : list Z) (vs : list Z) : option (list (option Z)) :=
  match elf_load Demo.FPT Demo.frames1 (with_file file) 4096 file_buf (Z.of_nat (length file)) [] with
  | Some (_, _, s, Some _) => Some (map (ubyte s 4096) vs)
  | _ => None
  end.
Example segments_sharing_a_page :
  bytes_after two_segments [3145728; 3145984] = Some [Some 0; Some 5].
Proof. vm_compute. reflexivity. Qed.

(** A segment whose end wraps past 4 GB passes the check against the stack,
    and no page is mapped for it. *)
Example segment_end_wraps : let ph := mk_phdr 1 0 4186112 4096 4290785280 in
  end_page ph = 4096 /\ (USER_STACK_VADDR <? end_page ph) = false /\ end_page ph < start_page ph.
Proof. vm_compute. repeat split. Qed.

(** A text file is refused: the launch returns -1 with the message. *)
Definition text_launch : res (list tty * heap * list Z * mmu * option (Z * enter_result)) :=
  elf_load_and_run FPT 20 fresh_heap mounted frames1 space1 4096 (name_of "hello.txt") [name_of "hello.txt"].

