(* ===== verification/Memory.v ===== *)
(** * Who owns which frame (src/src/paging.c, src/src/pmm.c, src/src/task.c)

    The invariant that ties the frame allocator to the page directories of
    the tasks: every frame of the pool is either free or belongs to exactly
    one directory, as the directory itself, its private table or a page mapped
    in it, and the kernel's own structures belong to no one.  Cloning a
    directory, creating a table, mapping a page, writing user memory and
    freeing a directory each keep it. *)
From S2P Require Import Prelude Pmm Paging Usermode Heap FatTypes FatFile FatDisk Elf.

Lemma page_index f : aligned f -> 0 <= f < REGION -> 0 <= f / 4096 < 1024 /\ 4096 * (f / 4096) = f.
Proof. unfold aligned, REGION. intros. dlia. Qed.

Section Ownership.
Context {A : Type} `{FrameAllocatorLaws A}.
(** The static directory and table, the end of the kernel's memory (image and
    heap), and the frames the allocator was given at boot. *)
Context (KD FPT KEND : Z) (U : Z -> bool).

Record layout : Prop := {
  ly_kd : aligned KD /\ 0 < KD < KEND;
  ly_fpt : aligned FPT /\ 0 < FPT < KEND;
  ly_distinct : KD <> FPT;
  ly_end : KEND <= REGION;
  ly_pool n : U n = true -> KEND <= 4096 * n < 4294967296 }.

(** ** One directory *)

(** Pages a task must not map over: the kernel's, and the structures its own
    translations go through. *)
Definition guarded (d t j : Z) : Prop := 4096 * j < KEND \/ j = d / 4096 \/ j = t / 4096.

(** A directory whose first 4 MB are the kernel's identity map, with user
    pages over unguarded addresses if its table is private. *)
Record dir_shape (w : gmap Z Z) (d : Z) : Prop := {
  do_aligned : aligned d;
  do_range : 0 < d < REGION;
  do_rest i : 1 <= i < 1024 -> present (pload w (d + 4 * i)) = false;
  do_pde : pde_of w d 0 = table_of w d 0 + 7;
  do_table : 0 < table_of w d 0 < REGION;
  do_apart : table_of w d 0 <> d;
  do_entry j : 0 <= j < 1024 -> pload w (table_of w d 0 + 4 * j) = 4096 * j + 3 \/
    (table_of w d 0 <> FPT /\ ~ guarded d (table_of w d 0) j /\
     exists F, aligned F /\ 4096 <= F < 4294967296 /\ pload w (table_of w d 0 + 4 * j) = F + 7) }.

(** An identity entry maps the page to itself. *)
Lemma shape_kmap s d f : dir_shape (words s) d -> cr3 s = d -> aligned f -> 0 <= f < REGION ->
  pload (words s) (table_of (words s) d 0 + 4 * (f / 4096)) = 4096 * (f / 4096) + 3 -> kmap s f.
Proof.
  intros Hd Hc Hf Hr He. destruct (page_index f Hf Hr) as [Hi Ef]. split; [done|]. split; [done|].
  assert (Hta : aligned (table_of (words s) d 0)) by apply aligned_entry.
  exists (4096 * (f / 4096) + 3). rewrite Ef in *. rewrite Hc. unfold walk.
  replace (pde_of (words s) d f) with (pde_of (words s) d 0) by (unfold pde_of; by rewrite (Z.div_small f)).
  rewrite (do_pde _ _ Hd), present_small, entry_small by (auto || lia). unfold PAGE_SIZE, ENTRIES.
  rewrite (Z.mod_small (f / 4096)), He, present_small, entry_small by (auto || lia). done.
Qed.

Lemma shape_kmap_guarded s d f : dir_shape (words s) d -> cr3 s = d -> aligned f -> 0 <= f < REGION ->
  guarded d (table_of (words s) d 0) (f / 4096) -> kmap s f.
Proof.
  intros Hd Hc Hf Hr Hg. apply (shape_kmap s d); try done.
  destruct (do_entry _ _ Hd (f / 4096)) as [E|(_ & Hn & _)]; [by apply page_index|done|done].
Qed.

Lemma shape_kmap_shared s d f : dir_shape (words s) d -> cr3 s = d -> aligned f -> 0 <= f < REGION ->
  table_of (words s) d 0 = FPT -> kmap s f.
Proof.
  intros Hd Hc Hf Hr Hg. apply (shape_kmap s d); try done.
  destruct (do_entry _ _ Hd (f / 4096)) as [E|(Hn & _)]; [by apply page_index|done|done].
Qed.

(** What a directory owns: itself, its pages and its private table. *)
Definition holdings (w : gmap Z Z) (d : Z) : list Z := d :: owned FPT w d.

Lemma owned_shape w d : dir_shape w d ->
  owned FPT w d = if table_of w d 0 =? FPT then [] else owned_table FPT w (table_of w d 0) ++ [table_of w d 0].
Proof.
  intros Hd. rewrite owned_first by apply (do_rest _ _ Hd). apply owned_entry_table; [apply aligned_entry|apply Hd].
Qed.

Lemma table_owned w d : dir_shape w d -> table_of w d 0 <> FPT -> table_of w d 0 ∈ owned FPT w d.
Proof.
  intros Hd Hne. rewrite (owned_shape w d Hd), (proj2 (Z.eqb_neq _ _) Hne). apply elem_of_app. right. by left.
Qed.

(** The pages a directory's meaning depends on. *)
Definition own_page (w : gmap Z Z) (d n : Z) : Prop := n = d / 4096 \/ n = table_of w d 0 / 4096.

Lemma flat_map_ext_in (f g : Z -> list Z) l : (forall j, j ∈ l -> f j = g j) -> flat_map f l = flat_map g l.
Proof.
  induction l as [|x l IH]; intros Hf; cbn [flat_map]; [done|]. rewrite Hf, IH; [done| |by left].
  intros j Hj. apply Hf. by right.
Qed.

Lemma shape_agree w w' d : dir_shape w d ->
  (forall x, own_page w d (x / 4096) \/ x / 4096 = FPT / 4096 -> pload w' x = pload w x) -> aligned FPT ->
  dir_shape w' d /\ table_of w' d 0 = table_of w d 0 /\ owned FPT w' d = owned FPT w d.
Proof.
  intros Hd Hag HF. pose proof Hd as [Ha Hr Hrest Hpde Ht Hap Hent].
  assert (Hta : aligned (table_of w d 0)) by apply aligned_entry.
  assert (D : forall i, 0 <= i < 1024 -> pload w' (d + 4 * i) = pload w (d + 4 * i))
    by (intros i Hi; apply Hag; left; left; by apply slot_page).
  assert (T : forall i, 0 <= i < 1024 -> pload w' (table_of w d 0 + 4 * i) = pload w (table_of w d 0 + 4 * i))
    by (intros i Hi; apply Hag; left; right; by apply slot_page).
  assert (S : forall i, 0 <= i < 1024 -> pload w' (FPT + 4 * i) = pload w (FPT + 4 * i))
    by (intros i Hi; apply Hag; right; by apply slot_page).
  assert (Ep : pde_of w' d 0 = pde_of w d 0) by (unfold pde_of; apply (D 0); lia).
  assert (Et : table_of w' d 0 = table_of w d 0) by (unfold table_of; by rewrite Ep).
  assert (Hd' : dir_shape w' d).
  { split; rewrite ?Et, ?Ep; try done.
    - intros i Hi. rewrite D by lia. by apply Hrest.
    - intros j Hj. rewrite T by done. by apply Hent. }
  split; [done|]. split; [done|]. rewrite (owned_shape w' d Hd'), (owned_shape w d Hd), Et. destruct (_ =? _); [done|].
  f_equal. apply flat_map_ext_in. intros j Hj%elem_of_seqZ. unfold private_frame. by rewrite T, S by lia.
Qed.

(** ** All directories *)
Definition owned_all (w : gmap Z Z) (ds : list Z) : list Z := flat_map (holdings w) ds.

Definition struct_page (w : gmap Z Z) (ds : list Z) (n : Z) : Prop :=
  n = KD / 4096 \/ n = FPT / 4096 \/ exists d, d ∈ ds /\ own_page w d n.

Record mem_inv (a : A) (w : gmap Z Z) (ds : list Z) : Prop := {
  mi_layout : layout;
  mi_alloc : fr_inv a;
  mi_ident : identity_table FPT w;
  mi_kdir : dir_shape w KD;
  mi_ktable : table_of w KD 0 = FPT;
  mi_dirs d : d ∈ ds -> dir_shape w d;
  mi_nodup : NoDup (owned_all w ds);
  mi_owned f : f ∈ owned_all w ds -> aligned f /\ U (f / 4096) = true;
  mi_free n : fr_free a n = true <-> U n = true /\ 4096 * n ∉ owned_all w ds }.

Lemma owned_all_in w ds f : f ∈ owned_all w ds <-> exists d, d ∈ ds /\ f ∈ holdings w d.
Proof. unfold owned_all. rewrite list_elem_of_In, in_flat_map. setoid_rewrite list_elem_of_In. done. Qed.

Lemma owned_all_app w l l' : owned_all w (l ++ l') = owned_all w l ++ owned_all w l'.
Proof. apply flat_map_app. Qed.

Lemma owned_all_perm w l l' : l ≡ₚ l' -> owned_all w l ≡ₚ owned_all w l'.
Proof. apply Permutation_flat_map. Qed.

Lemma mem_inv_perm a w l l' : l ≡ₚ l' -> mem_inv a w l -> mem_inv a w l'.
Proof.
  intros Hp [L Ha Hi Hk Hkt Hd Hn Ho Hf]. pose proof (owned_all_perm w _ _ Hp) as Hp'. split; try done.
  - intros d. rewrite <- Hp. apply Hd.
  - by rewrite <- Hp'.
  - intros f. rewrite <- Hp'. apply Ho.
  - intros n. rewrite <- Hp'. apply Hf.
Qed.

(** A frame of the pool lies above the kernel. *)
Lemma owned_above a w ds f : mem_inv a w ds -> f ∈ owned_all w ds -> aligned f /\ KEND <= f < 4294967296 /\ 4096 <= f.
Proof.
  intros Hm Hf. destruct (mi_owned _ _ _ Hm f Hf) as [Ha Hu]. pose proof (mi_layout _ _ _ Hm) as L.
  pose proof (ly_pool L _ Hu) as Hp. pose proof (ly_kd L) as [Hka Hk]. unfold aligned in *. split; [done|]. dlia.
Qed.

Lemma struct_owned a w ds n : mem_inv a w ds -> struct_page w ds n ->
  n = KD / 4096 \/ n = FPT / 4096 \/ exists f, f ∈ owned_all w ds /\ n = f / 4096.
Proof.
  intros Hm [?|[?|(d & Hd & [->| ->])]]; [by left|by right; left|..].
  - right. right. exists d. split; [|done]. apply owned_all_in. exists d. split; [done|by left].
  - destruct (decide (table_of w d 0 = FPT)) as [->|Hne]; [by right; left|]. right. right.
    eexists. split; [|done]. apply owned_all_in. exists d. split; [done|]. right.
    apply table_owned; [by apply (mi_dirs _ _ _ Hm)|done].
Qed.

(** A free frame holds none of the structures. *)
Lemma free_not_struct a w ds n : mem_inv a w ds -> fr_free a n = true -> ~ struct_page w ds n.
Proof.
  intros Hm Hf Hs. apply (mi_free _ _ _ Hm) in Hf as [Hu Hn]. pose proof (mi_layout _ _ _ Hm) as L.
  pose proof (ly_pool L _ Hu) as Hp.
  destruct (struct_owned a w ds n Hm Hs) as [->|[->|(f & Ho & ->)]].
  - destruct (ly_kd L) as [Ha Hk]. unfold aligned in Ha. dlia.
  - destruct (ly_fpt L) as [Ha Hk]. unfold aligned in Ha. dlia.
  - destruct (mi_owned _ _ _ Hm f Ho) as [Ha _]. apply Hn. unfold aligned in Ha. replace (4096 * (f / 4096)) with f by dlia. done.
Qed.

(** Changing memory outside the structures. *)
Lemma mem_agree a w w' ds : mem_inv a w ds -> (forall x, struct_page w ds (x / 4096) -> pload w' x = pload w x) ->
  mem_inv a w' ds /\ owned_all w' ds = owned_all w ds.
Proof.
  intros Hm Hag. pose proof Hm as [L Ha Hi Hk Hkt Hd Hn Ho Hf]. destruct (ly_fpt L) as [Hfa _].
  assert (G : forall d, d ∈ ds -> dir_shape w' d /\ table_of w' d 0 = table_of w d 0 /\ owned FPT w' d = owned FPT w d).
  { intros d Hin. apply shape_agree; [by apply Hd| |done]. intros x [Hx|Hx]; apply Hag.
    - right. right. by exists d.
    - by right; left. }
  destruct (shape_agree w w' KD Hk) as (Hk' & Et & _); [|done|].
  { intros x [[Hx|Hx]|Hx]; apply Hag; [by left|rewrite Hkt in Hx|]; by right; left. }
  assert (E : owned_all w' ds = owned_all w ds).
  { apply flat_map_ext_in. intros d Hin. unfold holdings. by destruct (G d Hin) as (_ & _ & ->). }
  split; [|done]. split; rewrite ?E; try done.
  - intros i Hi'. rewrite Hag; [by apply Hi|]. right. left. by rewrite slot_page.
  - by rewrite Et.
  - intros d Hin. by apply G.
Qed.

(** ** Taking a frame *)
Lemma mem_alloc a a' w ds f : mem_inv a w ds -> fr_alloc a = (a', f) -> f <> 0 ->
  aligned f /\ KEND <= f < 4294967296 /\ 4096 <= f /\ U (f / 4096) = true /\ fr_free a (f / 4096) = true /\
  (f ∉ owned_all w ds) /\ fr_inv a' /\ forall n, fr_free a' n = true <-> U n = true /\ 4096 * n ∉ (f :: owned_all w ds).
Proof.
  intros Hm Hal Hf. pose proof (mi_alloc _ _ _ Hm) as Ha. pose proof (mi_layout _ _ _ Hm) as L.
  destruct (fr_alloc_some a a' f Ha Hal Hf) as (Hal4 & Hr & Hfr & Hfr' & Hoth). unfold FRAME_SIZE in *.
  pose proof Hfr as Hfr2. apply (mi_free _ _ _ Hm) in Hfr2 as [Hu Hno].
  assert (E : 4096 * (f / 4096) = f) by (dlia). rewrite E in Hno. pose proof (ly_pool L _ Hu) as Hp. rewrite E in Hp.
  destruct (ly_kd L) as [Hka Hk]. split; [done|]. split; [done|]. split; [unfold aligned in *; dlia|]. split; [done|]. split; [done|].
  split; [done|]. split; [pose proof (fr_alloc_inv a Ha) as Hi; by rewrite Hal in Hi|].
  intros n. rewrite not_elem_of_cons. destruct (decide (n = f / 4096)) as [->|Hn].
  - rewrite Hfr', E. split; [done|]. intros (_ & Hx & _). congruence.
  - rewrite Hoth, (mi_free _ _ _ Hm) by done. split; [|naive_solver]. intros [Hun Hnn]. split; [done|]. split; [dlia|done].
Qed.

(** The frame taken joins what the directories own. *)
Lemma mem_add a a' w ds f w' ds' : mem_inv a w ds -> fr_alloc a = (a', f) -> f <> 0 ->
  identity_table FPT w' -> dir_shape w' KD -> table_of w' KD 0 = FPT -> (forall d, d ∈ ds' -> dir_shape w' d) ->
  owned_all w' ds' ≡ₚ f :: owned_all w ds -> mem_inv a' w' ds'.
Proof.
  intros Hm Hal Hf Hi Hk Hkt Hd Hp. destruct (mem_alloc a a' w ds f Hm Hal Hf) as (Ha & _ & _ & Hu & _ & Hno & Hia & Hfr).
  split; try done.
  - apply Hm.
  - rewrite Hp. constructor; [done|apply Hm].
  - intros g. rewrite Hp, elem_of_cons. intros [->|Hg]; [done|]. by apply (mi_owned _ _ _ Hm).
  - intros n. rewrite Hp. apply Hfr.
Qed.

(** The frame the allocator would hand out next is one the kernel can reach
    from the current address space, no user page lying over it. *)
Definition next_reachable (a : A) (s : mmu) : Prop :=
  forall a' f, fr_alloc a = (a', f) -> f <> 0 -> f < REGION -> kmap s f.

Lemma cur_shape a s ds : mem_inv a (words s) ds -> cr3 s ∈ (KD :: ds) -> dir_shape (words s) (cr3 s).
Proof. intros Hm Hc. apply elem_of_cons in Hc as [->|Hc]; [apply Hm|by apply (mi_dirs _ _ _ Hm)]. Qed.

Lemma static_kmap a s ds f : mem_inv a (words s) ds -> cr3 s ∈ (KD :: ds) -> f = KD \/ f = FPT -> kmap s f.
Proof.
  intros Hm Hc Hf. pose proof (cur_shape a s ds Hm Hc) as Hd. pose proof (mi_layout _ _ _ Hm) as L.
  destruct (ly_kd L) as [Hka Hk], (ly_fpt L) as [Hfa Hfp]. pose proof (ly_end L).
  assert (Hfr : aligned f /\ 0 <= f < KEND) by (destruct Hf as [->| ->]; split; (done || lia)). destruct Hfr as [Ha Hr].
  eapply shape_kmap_guarded; [done|done|done|lia|]. left. rewrite (proj2 (page_index f Ha ltac:(lia))). lia.
Qed.

Lemma free_not_in_use a s ds f : mem_inv a (words s) ds -> cr3 s ∈ (KD :: ds) -> fr_free a (f / 4096) = true -> ~ Paging.in_use s f.
Proof.
  intros Hm Hc Hf Hu. apply (free_not_struct a (words s) ds _ Hm Hf).
  apply elem_of_cons in Hc as [Hc|Hc].
  - destruct Hu as [->| ->]; rewrite Hc; [by left|]. rewrite (mi_ktable _ _ _ Hm). by right; left.
  - right. right. exists (cr3 s). split; [done|]. destruct Hu as [->| ->]; [by left|by right].
Qed.

(** ** Cloning the kernel's directory *)
Lemma clone_keeps a s ds : mem_inv a (words s) ds -> cr3 s ∈ (KD :: ds) -> next_reachable a s ->
  exists m a' s' d, paging_clone_kernel_directory KD a s = Some (m, a', s', d) /\ cr3 s' = cr3 s /\
  ((d = 0 /\ s' = s /\ mem_inv a' (words s) ds) \/
   (d <> 0 /\ mem_inv a' (words s') (d :: ds) /\ table_of (words s') d 0 = FPT /\ agree_off d (words s) (words s'))).
Proof.
  intros Hm Hc Hnext. pose proof (mi_alloc _ _ _ Hm) as Ha. pose proof (mi_layout _ _ _ Hm) as L.
  unfold paging_clone_kernel_directory, alloc_copy. destruct (fr_alloc a) as [a1 f] eqn:Eal.
  destruct (Z.eqb_spec f 0) as [->|Hf0].
  { rewrite (fr_alloc_none a a1 Ha Eal). eexists _, a, s, 0. split; [done|]. split; [done|]. by left. }
  destruct (mem_alloc a a1 (words s) ds f Hm Eal Hf0) as (Hal & Hfr & Hf4 & Hu & Hfree & Hno & Ha1 & Hfree1).
  assert (Ef : 4096 * (f / 4096) = f) by (unfold aligned in Hal; dlia).
  destruct (Z.leb_spec REGION f) as [Hbig|Hsmall].
  { assert (Hrel : FRAME_SIZE <= f < 4294967296) by (unfold FRAME_SIZE; lia).
    destruct (fr_release_free a1 f Ha1 Hrel) as [Hr1 Hr2]. unfold FRAME_SIZE in *.
    eexists _, (fr_release a1 f), s, 0. split; [done|]. split; [done|]. left. split; [done|]. split; [done|].
    pose proof Hm as [_ _ Hi Hk Hkt Hd Hn Ho Hf]. split; try done; [by apply fr_release_inv|].
    intros n. destruct (decide (n = f / 4096)) as [->|Hne]; [rewrite Hr1; split; [by rewrite Ef|done]|].
    rewrite Hr2, Hfree1, not_elem_of_cons by done. split; [naive_solver|]. intros [? ?]. split; [done|]. split; [dlia|done]. }
  assert (Hkf : kmap s f) by by eapply Hnext. destruct (ly_kd L) as [Hka Hk]. destruct (ly_fpt L) as [Hfa Hfp].
  assert (HfK : f <> KD) by lia. assert (Hkk : kmap s KD) by (eapply static_kmap; [done|done|by left]).
  pose proof (cur_shape a s ds Hm Hc) as Hcur.
  destruct (copy_entries_spec (Z.to_nat ENTRIES) 0 s f KD) as (s1 & Ecopy & Hc1 & Hag & _ & Hcopy); try done.
  { apply Hcur. }
  { by eapply free_not_in_use. }
  rewrite Ecopy. eexists _, a1, s1, f. split; [done|]. split; [done|]. right. split; [done|].
  change (Z.of_nat (Z.to_nat ENTRIES)) with 1024 in Hcopy.
  destruct (mem_agree a (words s) (words s1) ds Hm) as [Hm1 Eo].
  { intros x Hx. apply Hag. intros E. rewrite E in Hx. by apply (free_not_struct a (words s) ds _ Hm Hfree). }
  assert (Ep : pde_of (words s1) f 0 = FPT + 7).
  { unfold pde_of. change (f + 4 * (0 / REGION)) with (f + 4 * 0). rewrite Hcopy by lia.
    rewrite <- (mi_ktable _ _ _ Hm). apply (do_pde _ _ (mi_kdir _ _ _ Hm)). }
  assert (Et : table_of (words s1) f 0 = FPT) by (unfold table_of; rewrite Ep; by apply entry_small; [|lia]).
  assert (Hsh : dir_shape (words s1) f).
  { split; rewrite ?Et, ?Ep; try done; [lia| |pose proof (ly_end L); lia|lia|].
    - intros i Hi. rewrite Hcopy by lia. by apply (do_rest _ _ (mi_kdir _ _ _ Hm)).
    - intros j Hj. left. by apply (mi_ident _ _ _ Hm1). }
  split; [|done]. apply (mem_add a a1 (words s) ds f); try done; try apply Hm1.
  - intros d [->|Hd]%elem_of_cons; [done|by apply (mi_dirs _ _ _ Hm1)].
  - cbn [owned_all flat_map]. unfold holdings at 1. rewrite (owned_shape _ f Hsh), Et, Z.eqb_refl.
    cbn [app]. by rewrite <- Eo.
Qed.

(** ** Mapping a page *)

(** The directory [d] among the others. *)
Lemma split_dir (ds : list Z) d : d ∈ ds -> exists l, ds ≡ₚ d :: l.
Proof. intros (l1 & l2 & ->)%list_elem_of_split. exists (l1 ++ l2). by rewrite Permutation_middle. Qed.

(** What one directory owns is disjoint from what the others own. *)
Lemma others_apart a w d l f g : mem_inv a w (d :: l) -> f ∈ holdings w d -> g ∈ owned_all w l -> f <> g.
Proof.
  intros Hm Hf Hg ->. pose proof (mi_nodup _ _ _ Hm) as Hn. cbn [owned_all flat_map] in Hn.
  apply NoDup_app in Hn as (_ & Hd & _). by apply (Hd g).
Qed.

(** A change confined to the structures of [d] and to a fresh frame leaves
    the other directories alone. *)
Lemma others_agree a w w' d l f : mem_inv a w (d :: l) -> aligned f ->
  f ∉ owned_all w l -> KEND <= f ->
  (forall x, x / 4096 <> d / 4096 -> x / 4096 <> f / 4096 -> pload w' x = pload w x) ->
  identity_table FPT w' /\ dir_shape w' KD /\ table_of w' KD 0 = FPT /\
  (forall e, e ∈ l -> dir_shape w' e) /\ owned_all w' l = owned_all w l.
Proof.
  intros Hm Hfa Hf Hfk Hag. pose proof (mi_layout _ _ _ Hm) as L. destruct (ly_kd L) as [Hka Hk]. destruct (ly_fpt L) as [Hta Ht].
  pose proof (mi_dirs _ _ _ Hm d ltac:(by left)) as Hd. pose proof (do_aligned _ _ Hd) as Hda.
  assert (Hdk : KEND <= d) by (eapply (owned_above a w (d :: l)); [done|]; apply owned_all_in; exists d; split; by left).
  assert (Hst : forall e, aligned e -> 0 < e < KEND -> forall i, 0 <= i < 1024 -> pload w' (e + 4 * i) = pload w (e + 4 * i)).
  { intros e He Hr i Hi. apply Hag; rewrite slot_page by done; apply page_neq; (done || lia). }
  assert (Hi : identity_table FPT w') by (intros i Hi; rewrite Hst by done; by apply (mi_ident _ _ _ Hm)).
  assert (G : forall e, e ∈ l -> dir_shape w' e /\ table_of w' e 0 = table_of w e 0 /\ owned FPT w' e = owned FPT w e).
  { intros e He. pose proof (mi_dirs _ _ _ Hm e ltac:(by right)) as Hse. apply shape_agree; [done| |done].
    assert (He1 : e ∈ owned_all w l) by (apply owned_all_in; exists e; split; [done|by left]).
    assert (Hte : table_of w e 0 = FPT \/ table_of w e 0 ∈ owned_all w l).
    { destruct (decide (table_of w e 0 = FPT)) as [|Hne]; [by left|right]. apply owned_all_in. exists e. split; [done|]. right.
      by apply table_owned. }
    assert (Hsep : forall g, g ∈ owned_all w l -> g / 4096 <> d / 4096 /\ g / 4096 <> f / 4096).
    { intros g Hg. destruct (owned_above a w (d :: l) g Hm) as (Hga & _); [cbn [owned_all flat_map]; apply elem_of_app; by right|].
      split; apply page_neq; try done; [|by intros ->].
      intros ->. by apply (others_apart a w d l d d Hm ltac:(by left)). }
    assert (Hfp : FPT / 4096 <> d / 4096 /\ FPT / 4096 <> f / 4096) by (split; apply page_neq; (done || lia)).
    intros x Hx. apply Hag; destruct Hx as [[->| ->]| ->]; try apply Hfp; try (by apply Hsep).
    all: destruct Hte as [->|Hte]; [apply Hfp|by apply Hsep]. }
  destruct (shape_agree w w' KD (mi_kdir _ _ _ Hm)) as (Hk' & Et & _); [|done|].
  { intros x Hx. rewrite (mi_ktable _ _ _ Hm) in Hx || unfold own_page in Hx.
    assert (Hxx : x / 4096 = KD / 4096 \/ x / 4096 = FPT / 4096).
    { destruct Hx as [[Hx|Hx]|Hx]; [by left| |by right]. rewrite (mi_ktable _ _ _ Hm) in Hx. by right. }
    apply Hag; destruct Hxx as [->| ->]; apply page_neq; (done || lia). }
  split; [done|]. split; [done|]. split; [by rewrite Et, (mi_ktable _ _ _ Hm)|]. split; [intros e He; by apply G|].
  apply flat_map_ext_in. intros e He. unfold holdings. by destruct (G e He) as (_ & _ & ->).
Qed.

Lemma dir_above a w d l : mem_inv a w (d :: l) -> KEND <= d.
Proof. intros Hm. eapply (owned_above a w (d :: l)); [done|]. apply owned_all_in. exists d. split; by left. Qed.

Lemma not_free a w ds f : mem_inv a w ds -> aligned f -> f = KD \/ f = FPT \/ f ∈ owned_all w ds -> fr_free a (f / 4096) = false.
Proof.
  intros Hm Ha Hf. destruct (fr_free a (f / 4096)) eqn:E; [|done]. pose proof (mi_layout _ _ _ Hm) as L.
  pose proof E as E'. apply (mi_free _ _ _ Hm) in E' as [Hu Hn]. pose proof (ly_pool L _ Hu) as Hp.
  assert (Ef : 4096 * (f / 4096) = f) by (unfold aligned in Ha; dlia). rewrite Ef in *.
  destruct (ly_kd L), (ly_fpt L). destruct Hf as [->|[->|Hf]]; [lia|lia|done].
Qed.

Lemma table_known a w d l : mem_inv a w (d :: l) -> table_of w d 0 = FPT \/ table_of w d 0 ∈ owned_all w (d :: l).
Proof.
  intros Hm. destruct (decide (table_of w d 0 = FPT)) as [|Hne]; [by left|right]. apply owned_all_in. exists d. split; [by left|].
  right. apply table_owned; [|done]. apply (mi_dirs _ _ _ Hm). by left.
Qed.

(** The running task's address space as [Paging] describes it. *)
Lemma mem_user_space a s d l : mem_inv a (words s) (d :: l) -> cr3 s = d -> next_reachable a s -> user_space FPT a s d.
Proof.
  intros Hm Hc Hn. pose proof (mi_layout _ _ _ Hm) as L. destruct (ly_fpt L) as [Hfa Hf].
  pose proof (mi_dirs _ _ _ Hm d ltac:(by left)) as Hd. pose proof (dir_above _ _ _ _ Hm) as Hdk.
  assert (Hcur : cr3 s ∈ (KD :: d :: l)) by (rewrite Hc; right; by left).
  assert (Hta : aligned (table_of (words s) d 0)) by apply aligned_entry.
  pose proof (do_aligned _ _ Hd) as Hda. pose proof (do_range _ _ Hd) as Hdr. pose proof (do_table _ _ Hd) as Hdt.
  split; [apply Hm|done| | |apply (mi_ident _ _ _ Hm)| |apply Hd|split; [lia|apply Hd]|lia| |done].
  - eapply shape_kmap_guarded; [done|done|done|lia|]. right. by left.
  - eapply static_kmap; [done|done|by right].
  - eapply shape_kmap_guarded; [done|done|done|lia|]. right. by right.
  - split; [|split]; (eapply not_free; [done|done|]); [right; right|by right; left|].
    + apply owned_all_in. exists d. split; by left.
    + right. by eapply table_known.
Qed.

(** A private table is found or made. *)
Lemma table_keeps a s d l v : mem_inv a (words s) (d :: l) -> cr3 s = d -> next_reachable a s -> 0 <= v < REGION ->
  exists m a' s' t, paging_get_or_create_user_table FPT a s d v = Some (m, a', s', t) /\ cr3 s' = d /\
  mem_inv a' (words s') (d :: l) /\
  (t = 0 \/ (t = table_of (words s') d 0 /\ t <> FPT /\ t <> 0 /\ forall j, 0 <= j < 1024 ->
     pload (words s') (t + 4 * j) = pload (words s) (table_of (words s) d 0 + 4 * j))).
Proof.
  intros Hm Hc Hn Hv. pose proof (mem_user_space a s d l Hm Hc Hn) as Hus.
  destruct (get_or_create_spec FPT a s d v Hus Hv) as (m & a' & s' & t & E & Ha' & Hcase).
  exists m, a', s', t. split; [done|].
  destruct Hcase as [(-> & -> & _ & Hfr)|[(Et & Hne & -> & ->)|(Et0 & Eal & Hne & Hta & Htr & Hfree & Hc' & Hpde & Hcopy & Hoth)]].
  - split; [done|]. split; [|by left]. destruct Hm as [? ? ? ? ? ? ? ? Hf]. split; try done. intros n. by rewrite Hfr.
  - split; [done|]. split; [done|]. right. split; [done|]. split; [done|]. split; [pose proof (us_positive _ _ _ _ Hus); lia|].
    intros j Hj. by rewrite Et.
  - split; [done|]. pose proof (mi_dirs _ _ _ Hm d ltac:(by left)) as Hd. pose proof (do_aligned _ _ Hd) as Hda.
    destruct (mem_alloc a a' (words s) (d :: l) t Hm Eal Hne) as (_ & Htk & _ & _ & _ & Hno & _ & _).
    assert (Htl : (t ∉ owned_all (words s) l) /\ t <> d).
    { cbn [owned_all flat_map] in Hno. rewrite not_elem_of_app in Hno. destruct Hno as [Hno ?]. split; [done|]. intros ->. apply Hno. by left. }
    destruct Htl as [Htl Htd].
    destruct (others_agree a (words s) (words s') d l t Hm Hta Htl ltac:(lia)) as (Hi & Hk & Hkt & Hl & Eo).
    { intros x Hx1 Hx2. apply Hoth; [|done]. by intros ->. }
    assert (Et : table_of (words s') d 0 = t) by (unfold table_of; rewrite Hpde; by apply entry_small; [|lia]).
    assert (Htf : t <> FPT) by (destruct (ly_fpt (mi_layout _ _ _ Hm)); lia).
    assert (Hsh : dir_shape (words s') d).
    { split; rewrite ?Et; try done; try apply Hd.
      - intros i Hi'. rewrite Hoth; [by apply (do_rest _ _ Hd)|lia|]. rewrite slot_page by (done || lia). apply page_neq; congruence.
      - intros j Hj. left. by apply Hcopy. }
    split.
    + apply (mem_add a a' (words s) (d :: l) t); try done.
      * intros e [->|He]%elem_of_cons; [done|by apply Hl].
      * cbn [owned_all flat_map]. unfold holdings at 1 3. fold (owned_all (words s') l) (owned_all (words s) l).
        rewrite Eo, (owned_shape _ d Hsh), (owned_shape _ d Hd), Et, Et0, Z.eqb_refl, (proj2 (Z.eqb_neq t FPT) Htf).
        assert (Hnil : owned_table FPT (words s') t = []).
        { apply flat_map_nil. intros j Hj%elem_of_seqZ. unfold private_frame. cbv zeta. rewrite Hcopy, Hi, Z.eqb_refl by lia. by destruct (negb _). }
        rewrite Hnil. cbn [app]. apply perm_swap.
    + right. split; [done|]. split; [done|]. split; [done|]. intros j Hj. rewrite Hcopy, Et0 by done. by rewrite (mi_ident _ _ _ Hm).
Qed.

(** Clearing a page that no translation goes through. *)
Lemma zero_keeps n : forall b s f, aligned (cr3 s) -> kmap s f -> ~ Paging.in_use s f -> 0 <= b -> b + Z.of_nat n <= 4096 ->
  exists s', byte_loop n b s f zero_byte = Some s' /\ cr3 s' = cr3 s /\ agree_off f (words s) (words s').
Proof.
  induction n as [|n IH]; intros b s f Hc Hk Hu Hb Hn; cbn [byte_loop zero_byte]; [by exists s|].
  pose proof Hk as (Hfa & Hfr & _). assert (Eu : u32 (f + b) = f + b) by (unfold u32, REGION in *; dlia).
  unfold vstore8. rewrite Eu, kmap_translate by (done || lia). set (w1 := store_byte (words s) (f + b) 0).
  assert (Hag : agree_off f (words s) w1).
  { intros x Hx. apply store_byte_off. replace ((f + b) / 4096) with (f / 4096) by (unfold aligned in Hfa; dlia). done. }
  destruct (IH (b + 1) (mk_mmu w1 (cr3 s)) f) as (s' & E & Hc' & Hag'); try done; try lia.
  - by apply (kmap_agree s w1 f).
  - intros [E|E]; [by apply Hu; left|]. apply Hu. right. cbn [words cr3] in E. rewrite E.
    unfold table_of. f_equal. unfold pde_of. rewrite Hag; [done|]. rewrite slot_page by (done || (unfold REGION; cbn; lia)).
    intros Ep. apply Hu. left. unfold aligned in *. dlia.
  - exists s'. split; [done|]. split; [done|]. by eapply agree_trans.
Qed.

(** Entering a frame just taken in the private table. *)
Lemma enter_keeps a a1 w d l v t F : mem_inv a w (d :: l) -> fr_alloc a = (a1, F) -> F <> 0 ->
  t = table_of w d 0 -> t <> FPT -> 0 <= v < REGION -> ~ guarded d t (v / 4096) ->
  pload w (t + 4 * (v / 4096)) = 4096 * (v / 4096) + 3 -> mem_inv a1 (<[t + 4 * (v / 4096) := F + 7]> w) (d :: l).
Proof.
  intros Hm Eal HF Et Htf Hv Hg Hslot. set (w2 := <[t + 4 * (v / 4096) := F + 7]> w).
  destruct (mem_alloc a a1 w (d :: l) F Hm Eal HF) as (HFa & HFk & HF4 & _).
  pose proof (mi_dirs _ _ _ Hm d ltac:(by left)) as Hd. pose proof (do_aligned _ _ Hd) as Hda.
  pose proof (ly_fpt (mi_layout _ _ _ Hm)) as [Hfa Hfp].
  assert (Hta : aligned t) by (rewrite Et; apply aligned_entry).
  assert (Hidx : 0 <= v / 4096 < 1024) by (unfold REGION in *; dlia).
  assert (Htown : t ∈ holdings w d) by (right; subst t; by apply table_owned).
  assert (Htl : t ∉ owned_all w l) by (intros Hin; by eapply (others_apart a w d l t t)).
  assert (Htk : KEND <= t) by (eapply (owned_above a w (d :: l)); [done|]; apply owned_all_in; exists d; by split; [left|]).
  assert (Hw2 : forall x, x / 4096 <> t / 4096 -> pload w2 x = pload w x).
  { intros x Hx. unfold w2, pload. rewrite lookup_insert_ne; [done|]. intros E. apply Hx. rewrite <- E. by apply slot_page. }
  destruct (others_agree a w w2 d l t Hm Hta Htl Htk) as (Hi & Hk & Hkt2 & Hl & Eo); [intros x _; apply Hw2|].
  assert (Htd : t <> d) by (rewrite Et; apply Hd).
  assert (Hmap : mapped w w2 d t v F).
  { split.
    - unfold pde_of. rewrite Hw2; [|rewrite slot_page by (done || (unfold REGION; cbn; lia)); apply page_neq; congruence].
      fold (pde_of w d 0). rewrite (do_pde _ _ Hd). by rewrite <- Et.
    - unfold w2, pload. by rewrite lookup_insert_eq.
    - intros j Hj Hne. unfold w2, pload. rewrite <- Et, lookup_insert_ne by lia. done.
    - intros x _ Hx. by apply Hw2. }
  assert (Et2 : table_of w2 d 0 = t) by (unfold table_of; rewrite (ma_pde _ _ _ _ _ _ Hmap); apply entry_small; [done|lia]).
  assert (Hsh : dir_shape w2 d).
  { pose proof (do_range _ _ Hd). pose proof (do_table _ _ Hd) as Htr. rewrite <- Et in Htr. split; rewrite ?Et2; try done.
    - intros i Hi'. rewrite Hw2; [by apply (do_rest _ _ Hd)|]. rewrite slot_page by (done || lia). apply page_neq; congruence.
    - apply Hmap.
    - intros j Hj. destruct (decide (j = v / 4096)) as [->|Hne].
      + right. split; [done|]. split; [done|]. exists F. split; [done|]. split; [lia|]. apply Hmap.
      + rewrite (ma_rest _ _ _ _ _ _ Hmap) by done. pose proof (do_entry _ _ Hd j Hj) as He. by rewrite <- Et in *. }
  apply (mem_add a a1 w (d :: l) F); try done.
  - intros e [->|He]%elem_of_cons; [done|by apply Hl].
  - cbn [owned_all flat_map]. unfold holdings at 1 3. fold (owned_all w2 l) (owned_all w l). rewrite Eo.
    assert (Hdf : d <> FPT) by (pose proof (dir_above _ _ _ _ Hm); lia).
    rewrite (mapped_owned FPT w w2 d t v F); rewrite <- ?Et; try done; [|apply Hm|rewrite Et; apply Hd|apply Hd|by left].
    rewrite (proj2 (Z.eqb_neq t FPT) Htf). cbn [app]. apply perm_swap.
Qed.

(** A frame for the page, cleared and entered in the private table. *)
Lemma page_keeps a s d l v t : mem_inv a (words s) (d :: l) -> cr3 s = d -> t = table_of (words s) d 0 -> t <> FPT ->
  aligned v -> 0 <= v < REGION -> ~ guarded d t (v / 4096) ->
  pload (words s) (t + 4 * (v / 4096)) = 4096 * (v / 4096) + 3 ->
  (forall a' F, fr_alloc a = (a', F) -> F <> 0 -> kmap s F) ->
  exists a' s' ok, map_pages 1 a s t v = Some (a', s', ok) /\ cr3 s' = d /\ mem_inv a' (words s') (d :: l).
Proof.
  intros Hm Hc Et Htf Hva Hv Hg Hslot Hn. cbn [map_pages]. destruct (fr_alloc a) as [a1 F] eqn:Eal.
  destruct (Z.eqb_spec F 0) as [->|HF].
  { rewrite (fr_alloc_none a a1 (mi_alloc _ _ _ Hm) Eal). by exists a, s, false. }
  destruct (mem_alloc a a1 (words s) (d :: l) F Hm Eal HF) as (HFa & _ & _ & _ & HFfree & _).
  pose proof (mi_dirs _ _ _ Hm d ltac:(by left)) as Hd. pose proof (do_aligned _ _ Hd) as Hda.
  destruct (zero_keeps (Z.to_nat PAGE_SIZE) 0 s F) as (s1 & -> & Hc1 & Hag1);
    [by rewrite Hc|by eapply Hn|eapply free_not_in_use; [done|rewrite Hc; right; by left|done]|lia|unfold PAGE_SIZE; lia|].
  assert (Hoff : forall x, struct_page (words s) (d :: l) (x / 4096) -> pload (words s1) x = pload (words s) x).
  { intros x Hx. apply Hag1. intros E. rewrite E in Hx. by apply (free_not_struct a (words s) (d :: l) _ Hm HFfree). }
  destruct (mem_agree a (words s) (words s1) (d :: l) Hm Hoff) as [Hm1 _].
  assert (Hta : aligned t) by (rewrite Et; apply aligned_entry). pose proof (mi_dirs _ _ _ Hm1 d ltac:(by left)) as Hd1.
  assert (Et1 : t = table_of (words s1) d 0).
  { unfold table_of, pde_of. rewrite Hoff; [done|]. right. right. exists d. split; [by left|]. left. by apply slot_page. }
  assert (Hidx : 0 <= v / 4096 < 1024) by (unfold REGION in *; dlia).
  assert (Hkt : kmap s1 t).
  { pose proof (do_table _ _ Hd1) as Hr. rewrite <- Et1 in Hr. apply (shape_kmap_guarded s1 d); [done|congruence|done|lia|].
    right. right. by rewrite <- Et1. }
  unfold paging_map_user_page, PAGE_SIZE, ENTRIES. rewrite (Z.mod_small (v / 4096)) by done. rewrite user_entry by done.
  unfold vstore. rewrite kmap_translate by (done || lia). eexists a1, _, true. split; [done|]. split; [by rewrite Hc1|].
  apply (enter_keeps a); try done. rewrite Hoff; [done|]. right. right. exists d. split; [by left|]. right.
  rewrite slot_page by done. by rewrite Et.
Qed.

(** ** Writing user memory *)

(** What ring 3 reaches through a directory are the frames mapped in it. *)
Lemma user_page w d v p : identity_table FPT w -> dir_shape w d -> vaddr_ok v -> user_translate w d v = Some p ->
  table_of w d 0 <> FPT /\ exists F, F ∈ owned_table FPT w (table_of w d 0) /\ aligned F /\ p / 4096 = F / 4096.
Proof.
  clear U. intros Hid Hd Hv. unfold vaddr_ok in Hv. set (t := table_of w d 0).
  assert (Hta : aligned t) by apply aligned_entry. unfold user_translate, walk.
  destruct (decide (v < REGION)) as [Hlt|Hge].
  2:{ unfold pde_of. rewrite (do_rest _ _ Hd) by (unfold REGION in *; dlia). done. }
  assert (Ep : pde_of w d v = t + 7) by (unfold t; rewrite <- (do_pde _ _ Hd); unfold pde_of; by rewrite (Z.div_small v) by lia).
  rewrite Ep, present_small, entry_small by (auto || lia). unfold PAGE_SIZE, ENTRIES.
  assert (Hj : 0 <= v / 4096 < 1024) by (unfold REGION in *; dlia). rewrite (Z.mod_small (v / 4096)) by done.
  destruct (do_entry _ _ Hd (v / 4096) Hj) as [E|(Htf & _ & F & HFa & HFr & E)]; fold t in E |- *; rewrite E.
  - assert (Ef : flag (4096 * (v / 4096) + 3) PAGE_USER = false).
    { unfold PAGE_USER. change 4 with (2 ^ 2). rewrite flag_testbit by lia. rewrite Z.testbit_odd, Z.shiftr_div_pow2 by lia.
      change (2 ^ 2) with 4. replace ((4096 * (v / 4096) + 3) / 4) with (0 + 2 * (512 * (v / 4096))) by dlia. by rewrite Z.odd_add_mul_2. }
    destruct (present (4096 * (v / 4096) + 3)); [|done]. by rewrite Ef, andb_false_r.
  - rewrite present_small, !user_flag, entry_small by (auto || lia). cbn [andb]. intros [= <-]. split; [done|].
    exists F. split; [|split; [done|unfold aligned in HFa; dlia]].
    apply list_elem_of_In, in_flat_map. exists (v / 4096). split; [apply list_elem_of_In, elem_of_seqZ; lia|].
    unfold private_frame. cbv zeta. rewrite E, Hid, present_small, entry_small by (auto || lia). cbn [negb].
    destruct (Z.eqb_spec (F + 7) (4096 * (v / 4096) + 3)) as [Ee|]; [unfold aligned in HFa; dlia|by left].
Qed.

(** A page mapped in a directory holds no structure of any directory. *)
Lemma user_frame_not_struct a w ds d F : mem_inv a w ds -> d ∈ ds -> table_of w d 0 <> FPT ->
  F ∈ owned_table FPT w (table_of w d 0) -> aligned F -> ~ struct_page w ds (F / 4096).
Proof.
  intros Hm Hd Ht HF HFa Hs. destruct (split_dir ds d Hd) as [l Hp]. apply (mem_inv_perm _ _ _ _ Hp) in Hm.
  pose proof (mi_dirs _ _ _ Hm d ltac:(by left)) as Hsh.
  assert (Eo : owned FPT w d = owned_table FPT w (table_of w d 0) ++ [table_of w d 0])
    by (rewrite (owned_shape w d Hsh); by rewrite (proj2 (Z.eqb_neq _ _) Ht)).
  assert (HFo : F ∈ holdings w d) by (right; rewrite Eo; apply elem_of_app; by left).
  assert (HFall : F ∈ owned_all w (d :: l)) by (apply owned_all_in; exists d; by split; [left|]).
  destruct (owned_above _ _ _ _ Hm HFall) as (_ & Hk & _). pose proof (mi_layout _ _ _ Hm) as L.
  destruct (ly_kd L) as [Hka Hkd], (ly_fpt L) as [Hfa Hfp].
  pose proof (mi_nodup _ _ _ Hm) as Hn. cbn [owned_all flat_map] in Hn. apply NoDup_app in Hn as (Hn & _ & _).
  unfold holdings in Hn. rewrite Eo in Hn. apply NoDup_cons in Hn as [Hn1 Hn]. apply NoDup_app in Hn as (_ & Hn2 & _).
  assert (Hne : forall g, aligned g -> F / 4096 = g / 4096 -> F = g) by (unfold aligned in *; intros; dlia).
  destruct Hs as [E|[E|(e & He & Hpg)]]; [apply Hne in E; [lia|done]|apply Hne in E; [lia|done]|].
  rewrite Hp in He. apply elem_of_cons in He as [->|He].
  - destruct Hpg as [E|E]; apply Hne in E; [|apply Hsh|..|apply aligned_entry]; subst F.
    + apply Hn1, elem_of_app. by left.
    + by apply (Hn2 _ HF), list_elem_of_singleton.
  - pose proof (mi_dirs _ _ _ Hm e ltac:(by right)) as Hse.
    assert (He1 : e ∈ owned_all w l) by (apply owned_all_in; exists e; split; [done|by left]).
    destruct Hpg as [E|E]; apply Hne in E; [|apply Hse|..|apply aligned_entry].
    + by apply (others_apart a w d l F e Hm).
    + destruct (decide (table_of w e 0 = FPT)) as [Ef|Ef]; [lia|].
      apply (others_apart a w d l F (table_of w e 0) Hm HFo); [|done]. apply owned_all_in. exists e. split; [done|]. right. by apply table_owned.
Qed.

Lemma store_keeps a w ds d v p b : mem_inv a w ds -> d ∈ ds -> vaddr_ok v -> user_translate w d v = Some p ->
  mem_inv a (store_byte w p b) ds.
Proof.
  intros Hm Hd Hv Ht. destruct (user_page w d v p (mi_ident _ _ _ Hm) (mi_dirs _ _ _ Hm d Hd) Hv Ht) as (Htf & F & HF & HFa & Ep).
  apply (mem_agree a w); [done|]. intros x Hx. apply store_byte_off. rewrite Ep. intros E. rewrite E in Hx.
  by apply (user_frame_not_struct a w ds d F).
Qed.

(** ** Freeing a directory

    [paging_free_user_directory] gives back the pages and the private table;
    the frame of the directory itself is released by the caller, and between
    the two it belongs to no one. *)
Definition without (d n : Z) : bool := U n && negb (n =? d / 4096).

Lemma tables_free a s d l : mem_inv a (words s) (d :: l) -> cr3 s = KD ->
  exists a1, paging_free_user_directory FPT a s d = Some a1 /\ fr_inv a1 /\
    forall n, fr_free a1 n = true <-> fr_free a n = true \/ exists f, f ∈ owned FPT (words s) d /\ n = f / 4096.
Proof.
  intros Hm Hc. pose proof (mi_layout _ _ _ Hm) as L. pose proof (mi_dirs _ _ _ Hm d ltac:(by left)) as Hd.
  assert (K : forall f, aligned f -> 0 <= f < REGION -> kmap s f).
  { intros f Hf Hr. eapply shape_kmap_shared; [apply (mi_kdir _ _ _ Hm)|done..|apply Hm]. }
  pose proof (do_range _ _ Hd). pose proof (do_table _ _ Hd). destruct (ly_fpt L) as [Hfa Hfp]. pose proof (ly_end L).
  unfold paging_free_user_directory. change (Z.to_nat ENTRIES) with 1024%nat.
  rewrite free_tables_spec; [|apply K; [apply Hd|lia]|apply K; [done|lia]|lia|lia|].
  2:{ intros i Hi Hp. destruct (decide (i = 0)) as [->|Hne]; [|by rewrite (do_rest _ _ Hd) in Hp by lia].
      apply K; [apply aligned_entry|]. change (pload (words s) (d + 4 * 0)) with (pde_of (words s) d 0).
      fold (table_of (words s) d 0). lia. }
  change (Z.of_nat 1024) with 1024. fold (owned FPT (words s) d). eexists. split; [done|].
  apply release_all_free; [apply Hm|]. apply Forall_forall. intros f Hf.
  destruct (owned_above _ _ _ f Hm) as (Ha & Hr & H4); [|split; [done|lia]].
  apply owned_all_in. exists d. split; [by left|by right].
Qed.
End Ownership.

Section Release.
Context {A : Type} `{FrameAllocatorLaws A} (KD FPT KEND : Z) (U : Z -> bool).

Lemma layout_without d : layout KD FPT KEND U -> layout KD FPT KEND (without U d).
Proof. intros [? ? ? ? Hp]. split; try done. intros n [Hu _]%andb_true_iff. by apply Hp. Qed.

Lemma tables_keep a s d l : mem_inv KD FPT KEND U a (words s) (d :: l) -> cr3 s = KD ->
  exists a1, paging_free_user_directory FPT a s d = Some a1 /\ mem_inv KD FPT KEND (without U d) a1 (words s) l /\
    aligned d /\ U (d / 4096) = true.
Proof.
  intros Hm Hc. destruct (tables_free _ _ _ _ a s d l Hm Hc) as (a1 & E & Ha1 & Hfr). exists a1. split; [done|].
  assert (Hin : forall f, f ∈ owned_all FPT (words s) (d :: l) <-> f = d \/ f ∈ owned FPT (words s) d \/ f ∈ owned_all FPT (words s) l).
  { intros f. cbn [owned_all flat_map holdings app]. by rewrite elem_of_cons, elem_of_app. }
  assert (Hback : forall f, f ∈ owned_all FPT (words s) (d :: l) -> 4096 * (f / 4096) = f).
  { intros f Hf. destruct (mi_owned _ _ _ _ _ _ _ Hm f Hf) as [Ha _]. unfold aligned in Ha. dlia. }
  pose proof (mi_nodup _ _ _ _ _ _ _ Hm) as Hn. cbn [owned_all flat_map] in Hn. apply NoDup_app in Hn as (Hnd & Hdis & Hn).
  apply NoDup_cons in Hnd as [Hdo _]. pose proof Hm as [L _ Hi Hk Hkt Hds _ Ho Hf].
  split; [|apply Ho, Hin; by left]. split; try done; [by apply layout_without|intros e He; apply Hds; by right|..].
  - intros f Hfl. assert (Hfa : f ∈ owned_all FPT (words s) (d :: l)) by (apply Hin; by right; right).
    destruct (Ho f Hfa) as [Ha Hu]. split; [done|]. unfold without. rewrite Hu. apply negb_true_iff, Z.eqb_neq. intros Ep.
    assert (f = d) as -> by (rewrite <- (Hback f Hfa), Ep; apply Hback, Hin; by left). by apply (Hdis d); [left|].
  - intros n. rewrite Hfr, Hf. unfold without. rewrite andb_true_iff, negb_true_iff, Z.eqb_neq, Hin. split.
    + intros [[Hu Hno]|(f & Hfo & ->)].
      * split; [split; [done|]|tauto]. intros ->. apply Hno. left. apply Hback, Hin. by left.
      * assert (Hfa : f ∈ owned_all FPT (words s) (d :: l)) by (apply Hin; by right; left).
        destruct (Ho f Hfa) as [_ Hu]. rewrite (Hback f Hfa). split; [split; [done|]|].
        -- intros Ep. assert (Efd : f = d) by (rewrite <- (Hback f Hfa), Ep; apply Hback, Hin; by left). by rewrite Efd in Hfo.
        -- apply Hdis. by right.
    + intros [[Hu Hne] Hnl]. destruct (decide (4096 * n ∈ owned FPT (words s) d)) as [Ho'|Ho'].
      * right. exists (4096 * n). split; [done|dlia].
      * left. split; [done|]. intros [E'|[E'|E']]; [|done|done]. apply Hne. rewrite <- E'. dlia.
Qed.

Lemma release_keeps a w ds d : mem_inv KD FPT KEND (without U d) a w ds -> layout KD FPT KEND U -> aligned d -> U (d / 4096) = true ->
  mem_inv KD FPT KEND U (fr_release a d) w ds.
Proof.
  intros Hm L Hd Hu. pose proof (ly_pool _ _ _ _ L _ Hu) as Hr. destruct (ly_kd _ _ _ _ L) as [Hka Hk].
  assert (Ed : 4096 * (d / 4096) = d) by (unfold aligned in Hd; dlia). rewrite Ed in Hr.
  assert (Hrg : FRAME_SIZE <= d < 4294967296) by (unfold aligned, FRAME_SIZE in *; dlia).
  destruct (fr_release_free a d (mi_alloc _ _ _ _ _ _ _ Hm) Hrg) as [H1 H2].
  destruct Hm as [_ Ha Hi Hkd Hkt Hds Hn Ho Hf]. unfold without in Ho, Hf. split; try done; [by apply fr_release_inv|..].
  - intros f Hfo. destruct (Ho f Hfo) as [? [? _]%andb_true_iff]. done.
  - intros n. unfold FRAME_SIZE in *. destruct (decide (n = d / 4096)) as [->|Hne].
    + rewrite H1, Ed. split; [|done]. intros _. split; [done|]. intros Hin. destruct (Ho d Hin) as [_ E].
      by rewrite Z.eqb_refl, andb_false_r in E.
    + rewrite H2, Hf, (proj2 (Z.eqb_neq _ _) Hne), andb_true_r by done. done.
Qed.
End Release.

(** ** The memory [paging_init] leaves *)
Lemma fill_words_spec n : forall i f base w x,
  (forall j, i <= j < i + Z.of_nat n -> x <> base + 4 * j) -> pload (fill_words n i f base w) x = pload w x.
Proof.
  induction n as [|n IH]; intros i f base w x Hx; cbn [fill_words]; [done|]. rewrite IH by (intros j Hj; apply Hx; lia).
  unfold pload. rewrite lookup_insert_ne; [done|]. intros E. apply (Hx i); [lia|done].
Qed.

Lemma fill_words_at n : forall i f base w j, i <= j < i + Z.of_nat n -> pload (fill_words n i f base w) (base + 4 * j) = f j.
Proof.
  induction n as [|n IH]; intros i f base w j Hj; [lia|]. cbn [fill_words]. destruct (decide (j = i)) as [->|Hne].
  - rewrite fill_words_spec by (intros k Hk; lia). unfold pload. by rewrite lookup_insert_eq.
  - apply IH. lia.
Qed.

Lemma paging_init_words w KD FPT : aligned KD -> aligned FPT -> KD <> FPT ->
  let w' := words (paging_init w KD FPT).2 in
  (forall i, 0 <= i < 1024 -> pload w' (FPT + 4 * i) = 4096 * i + 3) /\ pload w' KD = FPT + 7 /\
  (forall i, 1 <= i < 1024 -> pload w' (KD + 4 * i) = 0).
Proof.
  intros Hk Hf Hne. cbn [paging_init snd words]. set (w1 := fill_words _ 0 _ FPT w).
  set (w2 := fill_words _ 0 _ KD w1). change (Z.to_nat ENTRIES) with 1024%nat in *.
  assert (Hd : forall i j, 0 <= i < 1024 -> 0 <= j < 1024 -> FPT + 4 * i <> KD + 4 * j).
  { intros i j Hi Hj E. apply Hne. unfold aligned in *. dlia. }
  split; [|split].
  - intros i Hi. unfold pload at 1. rewrite lookup_insert_ne by (specialize (Hd i 0 Hi ltac:(lia)); lia). fold (pload w2 (FPT + 4 * i)).
    unfold w2. rewrite fill_words_spec by (intros j Hj; apply Hd; lia). unfold w1. rewrite fill_words_at by lia.
    rewrite u32_small by (unfold is_u32, PAGE_SIZE; lia). rewrite kernel_entry by (unfold aligned, PAGE_SIZE; dlia). unfold PAGE_SIZE. lia.
  - unfold pload. rewrite lookup_insert_eq. by apply user_entry.
  - intros i Hi. unfold pload at 1. rewrite lookup_insert_ne by lia. fold (pload w2 (KD + 4 * i)). unfold w2. by rewrite fill_words_at by lia.
Qed.

Lemma paging_init_mem {A} `{FrameAllocator A} KD FPT KEND U (a : A) w : layout KD FPT KEND U -> fr_inv a ->
  (forall n, fr_free a n = U n) -> mem_inv KD FPT KEND U a (words (paging_init w KD FPT).2) [].
Proof.
  intros L Ha HU. destruct (ly_kd _ _ _ _ L) as [Hka Hk], (ly_fpt _ _ _ _ L) as [Hfa Hf]. pose proof (ly_end _ _ _ _ L) as He.
  pose proof (ly_distinct _ _ _ _ L) as Hne. destruct (paging_init_words w KD FPT Hka Hfa Hne) as (W1 & W2 & W3).
  set (w' := words (paging_init w KD FPT).2) in *. clearbody w'.
  assert (Ep : pde_of w' KD 0 = FPT + 7) by (unfold pde_of; change (4 * (0 / REGION)) with 0; by rewrite Z.add_0_r).
  assert (Et : table_of w' KD 0 = FPT) by (unfold table_of; rewrite Ep; by apply entry_small; [|lia]).
  split; try done.
  - split; rewrite ?Et; try done; try lia; [intros i Hi; by rewrite W3|]. intros j Hj. left. by apply W1.
  - intros d Hd. by apply elem_of_nil in Hd.
  - constructor.
  - intros f Hd. by apply elem_of_nil in Hd.
  - intros n. rewrite HU. cbn. split; [|by intros [? _]]. intros Hn. split; [done|apply not_elem_of_nil].
Qed.
