(* ===== verification/Kernel.v ===== *)
(** * The kernel at work (src/src/task.c with heap.c, pmm.c, paging.c, fat.c)

    The scheduler over the real services it uses: stacks from the kernel
    heap, directories from the frame allocator, descriptors of the file
    system.  A step is a timer tick, a task giving up the processor, the
    creation or the reaping of tasks, a page mapped for the running program
    or a store of the running program; the invariant says that the stacks and
    the directories of the tasks that were not reaped are exactly what is
    allocated, and that no step faults. *)
From S2P Require Import Prelude FatTypes FatFile Pmm Heap Task Paging Usermode FatDisk Elf Memory.

(** ** The services of the scheduler *)
Record kernel (D : Type) := mk_kernel {
  k_heap : heap; k_frames : pmm; k_mmu : mmu; k_fat : fat_state D;
  k_log : list tty;  (* what the paging code printed *)
  k_fault : bool     (* a wild heap access or a page fault in the kernel *) }.
Arguments mk_kernel {D} _ _ _ _ _ _.
Arguments k_heap {D} _.
Arguments k_frames {D} _.
Arguments k_mmu {D} _.
Arguments k_fat {D} _.
Arguments k_log {D} _.
Arguments k_fault {D} _.

(** One turn of the search of [kmalloc] per block, and a block takes at least
    its 16-byte header of the 1 MB heap. *)
Definition heap_fuel : nat := Z.to_nat 65537.

Section Kernel.
Context {D : Type} `{BlockDevice D}.
Context (KD FPT : Z).  (* [page_directory] and [first_page_table] *)
Abbreviation kernel := (kernel D).
Implicit Types (k : kernel) (s : sched).

Definition set_k_heap k (h : heap) : kernel := mk_kernel h (k_frames k) (k_mmu k) (k_fat k) (k_log k) (k_fault k).
Definition set_k_frames k (a : pmm) : kernel := mk_kernel (k_heap k) a (k_mmu k) (k_fat k) (k_log k) (k_fault k).
Definition set_k_mmu k (m : mmu) : kernel := mk_kernel (k_heap k) (k_frames k) m (k_fat k) (k_log k) (k_fault k).
Definition set_k_fat k (f : fat_state D) : kernel := mk_kernel (k_heap k) (k_frames k) (k_mmu k) f (k_log k) (k_fault k).
Definition print k (m : list tty) : kernel := mk_kernel (k_heap k) (k_frames k) (k_mmu k) (k_fat k) (k_log k ++ m) (k_fault k).
Definition fault k : kernel := mk_kernel (k_heap k) (k_frames k) (k_mmu k) (k_fat k) (k_log k) true.

#[export] Instance kernel_env : TaskEnv kernel := {
  env_kmalloc k n :=
    match kmalloc heap_fuel (k_heap k) n with
    | OK (h, p) => (set_k_heap k h, p)
    | _ => (fault k, 0)
    end;
  env_kfree k p :=
    match kfree (k_heap k) p with OK h => set_k_heap k h | _ => fault k end;
  env_clone_directory k :=
    match paging_clone_kernel_directory KD (k_frames k) (k_mmu k) with
    | Some (m, a, mm, d) => (print (set_k_mmu (set_k_frames k a) mm) m, d)
    | None => (fault k, 0)
    end;
  env_free_user_directory k d :=
    match paging_free_user_directory FPT (k_frames k) (k_mmu k) d with
    | Some a => set_k_frames k a
    | None => fault k
    end;
  env_free_frame k d := set_k_frames k (pmm_free_frame (k_frames k) d);
  env_fat_close_all k i := set_k_fat k (fat_close_all_for_task (k_fat k) i) }.

(** [paging_switch_directory] as [task_switch_to] calls it. *)
Definition load_cr3 k s : kernel := set_k_mmu k (paging_switch_directory (k_mmu k) (Task.cr3 s)).

(** The six words [task_create] pushes. *)
Fixpoint push_words k (ws : list (Z * Z)) : kernel :=
  match ws with
  | [] => k
  | (p, x) :: ws' =>
      match vstore (k_mmu k) p x with
      | Some m => push_words (set_k_mmu k m) ws'
      | None => fault k
      end
  end.

Definition create k s (entry_point task_launch : Z) : kernel * sched * res Z :=
  let '(m, ws, k1, s1, r) := task_create k s entry_point task_launch in
  (push_words (print k1 m) ws, s1, r).

(** The page at [v] for the task whose directory is loaded, as the loader maps
    each page of a segment; [None] is a page fault. *)
Definition map_page k (v : Z) : option kernel :=
  let dir := cr3 (k_mmu k) in
  match paging_get_or_create_user_table FPT (k_frames k) (k_mmu k) dir v with
  | None => None
  | Some (m, a, mm, table) =>
      if table =? 0 then Some (print (set_k_mmu (set_k_frames k a) mm) m)
      else match map_pages 1 a mm table v with
           | None => None
           | Some (a, mm, _) => Some (print (set_k_mmu (set_k_frames k a) mm) m)
           end
  end.

(** ** The two operations that can be interrupted

    [task_reap], which only the idle task calls, and [task_create] run with
    interrupts enabled and are cut at the helpers they call; each helper is
    one step. *)
Inductive reap_pc :=
| RAt (i : Z)       (* about to look at slot [i] *)
| RFreed (i : Z)    (* after [kfree] *)
| RCleared (i : Z)  (* after [stack_base = NULL] *)
| RClosed (i : Z)   (* after [fat_close_all_for_task] *)
| RTables (i : Z)   (* after [paging_free_user_directory] *)
| RFrame (i : Z).   (* after [pmm_free_frame] *)

Definition reap_step {E} `{TaskEnv E} (e : E) (s : sched) (pc : reap_pc) : E * sched * reap_pc :=
  match pc with
  | RAt i =>
      if i <? task_count s then
        if bool_decide (state (get_task s i) = TASK_UNUSED) && negb (stack_base (get_task s i) =? 0)
        then (env_kfree e (stack_base (get_task s i)), s, RFreed i)
        else (e, s, RAt (i + 1))
      else (e, s, RAt 1)
  | RFreed i =>
      let t := get_task s i in
      (e, put_task s i (mk_task (t_esp t) 0 (state t) (t_id t) (wake_tick t) (page_directory t)), RCleared i)
  | RCleared i => (env_fat_close_all e i, s, RClosed i)
  | RClosed i =>
      if page_directory (get_task s i) =? 0 then (e, s, RAt (i + 1))
      else (env_free_user_directory e (page_directory (get_task s i)), s, RTables i)
  | RTables i => (env_free_frame e (page_directory (get_task s i)), s, RFrame i)
  | RFrame i =>
      let t := get_task s i in
      (e, put_task s i (mk_task (t_esp t) (stack_base t) (state t) (t_id t) (wake_tick t) 0), RAt (i + 1))
  end.

Inductive create_pc :=
| CDone (r : res Z)                        (* [task_create] returned [r] *)
| CSlot (id entry launch : Z)              (* a slot is chosen *)
| CStack (id base entry launch : Z)        (* the stack is allocated *)
| CDir (id base dir entry launch : Z)      (* the directory is cloned *)
| CBuilt (id base dir : Z).                (* the six words are on the stack *)

Definition create_start s (entry launch : Z) : sched * create_pc :=
  match find_slot s with
  | Some i => (s, CSlot i entry launch)
  | None => if MAX_TASKS <=? task_count s then (s, CDone Err) else (bump_count s, CSlot (task_count s) entry launch)
  end.

Definition create_step k s (pc : create_pc) : kernel * sched * create_pc :=
  match pc with
  | CDone r => (k, s, CDone r)
  | CSlot id entry launch =>
      let '(k1, base) := env_kmalloc k TASK_STACK_SIZE in
      (k1, s, if base =? 0 then CDone Err else CStack id base entry launch)
  | CStack id base entry launch =>
      let '(k1, dir) := env_clone_directory k in
      if dir =? 0 then (env_kfree k1 base, s, CDone Err) else (k1, s, CDir id base dir entry launch)
  | CDir id base dir entry launch =>
      let top := u32 (base + TASK_STACK_SIZE) in
      (push_words (print k [TStr "Task "; TDec id; TStr ": cloned page directory at "; THex dir; TLn ""])
         [(u32 (top - 4), entry); (u32 (top - 8), launch); (u32 (top - 12), 0);
          (u32 (top - 16), 0); (u32 (top - 20), 0); (u32 (top - 24), 0)], s, CBuilt id base dir)
  | CBuilt id base dir =>
      (k, put_task s id (mk_task (u32 (u32 (base + TASK_STACK_SIZE) - 24)) base TASK_READY id
                           (wake_tick (get_task s id)) dir), CDone (OK id))
  end.

(** Uninterrupted, the steps are [task_create] and [task_reap]. *)
Definition create_moves (x y : kernel * sched * create_pc) : Prop := create_step x.1.1 x.1.2 x.2 = y.
Definition reap_moves {E} `{TaskEnv E} (x y : E * sched * reap_pc) : Prop := reap_step x.1.1 x.1.2 x.2 = y.

Lemma print_nil k : print k [] = k.
Proof. destruct k. unfold print. cbn. by rewrite app_nil_r. Qed.

Lemma create_steps k s entry launch k' s' r : create k s entry launch = (k', s', r) ->
  rtc create_moves (k, (create_start s entry launch).1, (create_start s entry launch).2) (k', s', CDone r).
Proof.
  unfold create_start, create, task_create. cbv zeta.
  destruct (find_slot s) as [id|]; [|destruct (MAX_TASKS <=? task_count s); [by intros [= <- <- <-]; rewrite print_nil|]].
  all: cbn [fst snd]; destruct (env_kmalloc k TASK_STACK_SIZE) as [k1 base] eqn:Em.
  all: intros Hr; eapply rtc_l; [unfold create_moves; cbn [create_step fst snd]; rewrite Em; reflexivity|].
  all: destruct (base =? 0); [by injection Hr as <- <- <-; rewrite print_nil|].
  all: destruct (env_clone_directory k1) as [k2 dir] eqn:Ed.
  all: eapply rtc_l; [unfold create_moves; cbn [create_step fst snd]; rewrite Ed; reflexivity|].
  all: destruct (dir =? 0); [by injection Hr as <- <- <-; rewrite print_nil|].
  all: injection Hr as <- <- <-; eapply rtc_l; [done|]; by apply rtc_once.
Qed.

Lemma put_put s i t t' : put_task (put_task s i t) i t' = put_task s i t'.
Proof. unfold put_task. cbn. by rewrite list_insert_insert_eq. Qed.

Lemma reap_slot_steps {E} `{TaskEnv E} (e : E) s i : length (tasks s) = 8%nat -> 0 <= i < 8 -> i < task_count s ->
  rtc reap_moves (e, s, RAt i) (reap_slot (e, s) i, RAt (i + 1)).
Proof.
  intros Hl Hi Hc. apply Z.ltb_lt in Hc. unfold reap_slot. destruct (bool_decide _ && _) eqn:Eb.
  2:{ apply rtc_once. unfold reap_moves. cbn [reap_step fst snd]. by rewrite Hc, Eb. }
  eapply rtc_l; [unfold reap_moves; cbn [reap_step fst snd]; rewrite Hc, Eb; reflexivity|].
  do 2 (eapply rtc_l; [unfold reap_moves; cbn [reap_step fst snd]; reflexivity|]). set (s1 := put_task s i _).
  assert (E1 : get_task s1 i = mk_task (t_esp (get_task s i)) 0 (state (get_task s i)) (t_id (get_task s i))
    (wake_tick (get_task s i)) (page_directory (get_task s i))) by (unfold s1; by rewrite get_put, Z.eqb_refl).
  destruct (page_directory (get_task s i) =? 0) eqn:Ed.
  { apply rtc_once. unfold reap_moves. cbn [reap_step fst snd]. rewrite E1. cbn [page_directory]. by rewrite Ed. }
  eapply rtc_l; [unfold reap_moves; cbn [reap_step fst snd]; rewrite E1; cbn [page_directory]; rewrite Ed; reflexivity|].
  eapply rtc_l; [unfold reap_moves; cbn [reap_step fst snd]; reflexivity|]. apply rtc_once. unfold reap_moves. cbn [reap_step fst snd].
  rewrite E1. cbn [page_directory].
  unfold s1. by rewrite put_put.
Qed.

Lemma reap_loop_steps {E} `{TaskEnv E} n : forall (e : E) s i, length (tasks s) = 8%nat -> task_count s <= 8 ->
  0 <= i -> i + Z.of_nat n = task_count s ->
  rtc reap_moves (e, s, RAt i) (foldl reap_slot (e, s) (seqZ i (Z.of_nat n)), RAt (task_count s)).
Proof.
  induction n as [|n IH]; intros e s i Hl Hle Hi Hn.
  { rewrite seqZ_nil by lia. replace (task_count s) with i by lia. done. }
  rewrite seqZ_cons by lia. cbn [foldl]. replace (Z.pred (Z.of_nat (S n))) with (Z.of_nat n) by lia.
  transitivity (reap_slot (e, s) i, RAt (i + 1)); [apply reap_slot_steps; (done || lia)|].
  assert (Hc : task_count (reap_slot (e, s) i).2 = task_count s /\ length (tasks (reap_slot (e, s) i).2) = 8%nat).
  { unfold reap_slot. repeat case_if; cbn [snd]; by rewrite ?put_len. }
  destruct (reap_slot (e, s) i) as [e1 s1]. cbn [snd] in Hc. destruct Hc as [Hc Hl1]. rewrite <- Hc in *.
  apply IH; (done || lia).
Qed.

Lemma reap_steps {E} `{TaskEnv E} (e : E) s : sched_inv s ->
  rtc reap_moves (e, s, RAt 1) (task_reap e s, RAt (task_count s)).
Proof.
  intros [Hl Hc _ _ _ _]. pose proof (reap_loop_steps (Z.to_nat (task_count s - 1)) e s 1 Hl) as R.
  rewrite Z2Nat.id in R by lia. unfold task_reap. apply R; lia.
Qed.

(** ** What is allocated

    The stack of a slot is gone once [task_reap] freed it, its directory once
    the tables were freed; a task under construction already holds its own.
    Between the two calls that free a directory its frame belongs to no one. *)
Definition reaping (rp : reap_pc) : option Z :=
  match rp with
  | RAt _ => None
  | RFreed i | RCleared i | RClosed i | RTables i | RFrame i => Some i
  end.
Definition stack_gone (rp : reap_pc) (i : Z) : bool := match rp with RFreed j => i =? j | _ => false end.
Definition dir_gone (rp : reap_pc) (i : Z) : bool := match rp with RTables j | RFrame j => i =? j | _ => false end.

Definition building (cp : create_pc) : option Z :=
  match cp with CDone _ => None | CSlot id _ _ | CStack id _ _ _ | CDir id _ _ _ _ | CBuilt id _ _ => Some id end.
Definition new_stack (cp : create_pc) : list Z :=
  match cp with CStack _ b _ _ | CDir _ b _ _ _ | CBuilt _ b _ => [b] | _ => [] end.
Definition new_dir (cp : create_pc) : list Z :=
  match cp with CDir _ _ d _ _ | CBuilt _ _ d => [d] | _ => [] end.

Definition stack_of rp s (i : Z) : list Z :=
  if (stack_base (get_task s i) =? 0) || stack_gone rp i then [] else [stack_base (get_task s i)].
Definition dir_of rp s (i : Z) : list Z :=
  if (page_directory (get_task s i) =? 0) || dir_gone rp i then [] else [page_directory (get_task s i)].
Definition task_stacks rp s : list Z := flat_map (stack_of rp s) (seqZ 1 7).
Definition task_dirs rp s : list Z := flat_map (dir_of rp s) (seqZ 1 7).
Definition stacks rp cp s : list Z := new_stack cp ++ task_stacks rp s.
Definition dirs rp cp s : list Z := new_dir cp ++ task_dirs rp s.

Context (KEND : Z) (U : Z -> bool).
Abbreviation mem_inv := (mem_inv KD FPT KEND).

Definition pool rp s : Z -> bool :=
  match rp with RTables i => without U (page_directory (get_task s i)) | _ => U end.

(** The heap holds the stacks and nothing else. *)
Definition heap_holds (h : heap) (ps : list Z) : Prop :=
  heap_ready h = true /\ exists bs, heap_rep (headers h) (heap_start h) HEAP_SIZE bs /\
    (Heap.in_use (heap_start h) bs).*1 ≡ₚ ps /\
    forall u, u ∈ Heap.in_use (heap_start h) bs -> 4096 <= u.2.

(** The heap lies behind the kernel's tables and before the frame pool. *)
Definition heap_area (h : heap) : Prop :=
  KD + 4096 <= heap_start h /\ FPT + 4096 <= heap_start h /\ heap_start h + HEAP_SIZE <= KEND.

(** The slot [task_reap] works on: exited, its directory not cleared yet. *)
Definition reap_ok s rp : Prop :=
  (forall i, rp = RAt i -> 1 <= i) /\
  (forall i, reaping rp = Some i -> 1 <= i < task_count s /\ state (get_task s i) = TASK_UNUSED /\
     page_directory (get_task s i) <> 0 /\ (stack_base (get_task s i) <> 0 <-> rp = RFreed i)) /\
  (forall i, rp = RTables i -> aligned (page_directory (get_task s i)) /\ U (page_directory (get_task s i) / 4096) = true).

(** The slot [task_create] works on: nobody else's. *)
Definition create_ok (h : heap) s cp : Prop :=
  (forall i, building cp = Some i -> 1 <= i < task_count s /\ state (get_task s i) = TASK_UNUSED /\
     stack_base (get_task s i) = 0 /\ page_directory (get_task s i) = 0) /\
  (forall b, b ∈ new_stack cp -> b <> 0 /\ heap_start h <= b /\ b + TASK_STACK_SIZE <= heap_start h + HEAP_SIZE) /\
  (forall d, d ∈ new_dir cp -> d <> 0).

Record kernel_inv k s rp cp : Prop := {
  ki_sched : sched_inv s;
  ki_layout : layout KD FPT KEND U;
  ki_ok : k_fault k = false;
  ki_idle : stack_base (get_task s 0) = 0 /\ page_directory (get_task s 0) = KD;
  ki_pair i : 1 <= i < 8 -> reaping rp <> Some i -> stack_base (get_task s i) = 0 <-> page_directory (get_task s i) = 0;
  ki_live i : 1 <= i < 8 -> state (get_task s i) <> TASK_UNUSED -> stack_base (get_task s i) <> 0;
  ki_fresh i : task_count s <= i < 8 -> stack_base (get_task s i) = 0;
  ki_cr3 : Task.cr3 s = page_directory (get_task s (current_task s));
  ki_loaded : cr3 (k_mmu k) = Task.cr3 s;
  ki_area : heap_area (k_heap k);
  ki_reap : reap_ok s rp;
  ki_create : create_ok (k_heap k) s cp;
  ki_heap : heap_holds (k_heap k) (stacks rp cp s);
  ki_mem : mem_inv (pool rp s) (k_frames k) (words (k_mmu k)) (dirs rp cp s) }.
(** ** Steps that allocate nothing *)

(** Same resources in every slot; no slot comes to life. *)
Record keeps s s' : Prop := {
  ke_stack i : 0 <= i < 8 -> stack_base (get_task s' i) = stack_base (get_task s i);
  ke_dir i : 0 <= i < 8 -> page_directory (get_task s' i) = page_directory (get_task s i);
  ke_dead i : 0 <= i < 8 -> state (get_task s i) = TASK_UNUSED -> state (get_task s' i) = TASK_UNUSED;
  ke_count : task_count s' = task_count s }.

Lemma keeps_refl s : keeps s s.
Proof. done. Qed.

Lemma keeps_trans s1 s2 s3 : keeps s1 s2 -> keeps s2 s3 -> keeps s1 s3.
Proof.
  intros [A1 A2 A3 A4] [B1 B2 B3 B4]. split; [intros i Hi; rewrite B1, A1; done|intros i Hi; rewrite B2, A2; done|auto|congruence].
Qed.

Lemma flat_map_same (f g : Z -> list Z) : (forall i, 1 <= i < 8 -> f i = g i) -> flat_map f (seqZ 1 7) = flat_map g (seqZ 1 7).
Proof. intros Hf. apply flat_map_ext_in. intros i Hi%elem_of_seqZ. apply Hf. lia. Qed.

Lemma keeps_lists s s' rp cp : keeps s s' -> stacks rp cp s' = stacks rp cp s /\ dirs rp cp s' = dirs rp cp s.
Proof.
  intros K. split; unfold stacks, dirs; f_equal; apply flat_map_same; intros i Hi; unfold stack_of, dir_of;
    rewrite ?(ke_stack _ _ K), ?(ke_dir _ _ K) by lia; done.
Qed.

Lemma keeps_put s i t : sched_inv s -> 0 <= i < 8 -> stack_base t = stack_base (get_task s i) ->
  page_directory t = page_directory (get_task s i) -> (state (get_task s i) = TASK_UNUSED -> state t = TASK_UNUSED) ->
  keeps s (put_task s i t).
Proof.
  intros Hinv Hi H1 H2 H3. pose proof (si_len _ Hinv) as Hl.
  split; [| | |done]; intros j Hj; rewrite get_put by done; destruct (Z.eqb_spec j i) as [->|]; (done || auto).
Qed.

Lemma keeps_switch s id : length (tasks s) = 8%nat -> 0 <= current_task s < 8 -> 0 <= id < 8 ->
  state (get_task s id) <> TASK_UNUSED -> keeps s (task_switch_to s id).
Proof.
  intros Hl Hc Hid Hne. split; [| | |apply switch_fields]; intros i Hi; rewrite switch_slots by done; cbv zeta.
  - by destruct (i =? id), (i =? current_task s).
  - by destruct (i =? id), (i =? current_task s).
  - destruct (Z.eqb_spec i id) as [->|]; [done|]. by destruct (i =? current_task s).
Qed.

Lemma keeps_wake s now : sched_inv s -> keeps s (wake_sleepers s now).
Proof.
  intros Hinv. pose proof (si_len _ Hinv) as Hl.
  split; [| | |done]; intros i Hi; rewrite wake_get by done; destruct ((i <? task_count s) && _) eqn:E; try done.
  apply andb_true_iff in E as [_ E]. unfold wake_due in E. apply andb_true_iff in E as [E _]. apply bool_decide_eq_true in E. congruence.
Qed.

Lemma kdir_pos k s rp cp : kernel_inv k s rp cp -> KD <> 0.
Proof. intros Hk. pose proof (ly_kd _ _ _ _ (ki_layout _ _ _ _ Hk)). lia. Qed.

(** A task in use is not being reaped, and has a directory. *)
Lemma live_not_reaping s rp i : reap_ok s rp -> state (get_task s i) <> TASK_UNUSED -> reaping rp <> Some i.
Proof. intros (_ & Hr & _) Hs E. by destruct (Hr i E) as (_ & Hu & _). Qed.

Lemma live_dir k s rp cp i : kernel_inv k s rp cp -> 0 <= i < 8 -> state (get_task s i) <> TASK_UNUSED ->
  page_directory (get_task s i) <> 0.
Proof.
  intros Hk Hi Hs. destruct (decide (i = 0)) as [->|Hne].
  - rewrite (proj2 (ki_idle _ _ _ _ Hk)). by eapply kdir_pos.
  - rewrite <- (ki_pair _ _ _ _ Hk); [apply (ki_live _ _ _ _ Hk); [lia|done]|lia|].
    by apply (live_not_reaping s); [apply Hk|].
Qed.

Lemma keeps_reap s s' rp : sched_inv s -> keeps s s' -> reap_ok s rp -> reap_ok s' rp.
Proof.
  intros Hs K (H1 & H2 & H3). pose proof (si_count _ Hs) as Hc. split; [done|].
  assert (G : forall i, reaping rp = Some i -> page_directory (get_task s' i) = page_directory (get_task s i)).
  { intros i Hi. destruct (H2 i Hi) as (Hr & _). apply (ke_dir _ _ K). lia. }
  split.
  - intros i Hi. rewrite (G i Hi). destruct (H2 i Hi) as (Hr & Hu & Hd & Hb).
    rewrite (ke_count _ _ K), (ke_stack _ _ K) by lia. split; [done|]. split; [|done]. by apply (ke_dead _ _ K); [lia|].
  - intros i ->. rewrite (G i eq_refl). by apply H3.
Qed.

Lemma keeps_create s s' h cp : sched_inv s -> keeps s s' -> create_ok h s cp -> create_ok h s' cp.
Proof.
  intros Hs K (H1 & H2). pose proof (si_count _ Hs) as Hc. split; [|done]. intros i Hi. destruct (H1 i Hi) as (Hr & Hu & Hb & Hd).
  rewrite (ke_count _ _ K), (ke_stack _ _ K), (ke_dir _ _ K) by lia. split; [done|]. split; [|done]. by apply (ke_dead _ _ K); [lia|].
Qed.

Lemma keeps_pool s s' rp : sched_inv s -> keeps s s' -> reap_ok s rp -> pool rp s' = pool rp s.
Proof.
  intros Hs K (_ & H2 & _). pose proof (si_count _ Hs). destruct rp as [| | | |i|]; try done. destruct (H2 i eq_refl) as (Hr & _).
  cbn [pool]. by rewrite (ke_dir _ _ K) by lia.
Qed.

Lemma keeps_inv k s s' rp cp : kernel_inv k s rp cp -> keeps s s' -> sched_inv s' ->
  Task.cr3 s' = page_directory (get_task s' (current_task s')) -> kernel_inv (load_cr3 k s') s' rp cp.
Proof.
  intros Hk K Hinv Hc. destruct (keeps_lists s s' rp cp K) as [E1 E2].
  pose proof Hk as [Hs L Hok Hid Hp Hl Hf _ _ Har Hrp Hcp Hh Hm].
  split; rewrite ?E1, ?E2, ?(keeps_pool s s' rp Hs K Hrp); try done.
  - by rewrite (ke_stack _ _ K), (ke_dir _ _ K) by lia.
  - intros i Hi Hr. rewrite (ke_stack _ _ K), (ke_dir _ _ K) by lia. by apply Hp.
  - intros i Hi Hst. rewrite (ke_stack _ _ K) by lia. apply Hl; [done|]. intros E. apply Hst. by apply (ke_dead _ _ K); [lia|].
  - intros i Hi. rewrite (ke_count _ _ K) in Hi. pose proof (si_count _ Hs). rewrite (ke_stack _ _ K) by lia. by apply Hf.
  - by apply (keeps_reap s).
  - by apply (keeps_create s).
Qed.

Lemma switch_cr3 s id : length (tasks s) = 8%nat -> 0 <= current_task s < 8 -> 0 <= id < 8 -> page_directory (get_task s id) <> 0 ->
  Task.cr3 (task_switch_to s id) = page_directory (get_task (task_switch_to s id) (current_task (task_switch_to s id))).
Proof.
  intros Hl Hc Hid Hd. destruct (switch_fields s id) as (_ & -> & _). rewrite (proj2 (switch_regs s id)), switch_slots by done.
  rewrite (proj2 (Z.eqb_neq _ _) Hd), Z.eqb_refl. cbv zeta. by destruct (id =? current_task s).
Qed.

(** The running task is in use. *)
Lemma running_state s : sched_inv s -> state (get_task s (current_task s)) = TASK_RUNNING.
Proof. intros Hinv. apply (si_running _ Hinv); [destruct Hinv; lia|done]. Qed.

Lemma runnable_used t : runnable t = true -> state t <> TASK_UNUSED.
Proof. rewrite runnable_spec. intros [->| ->]; done. Qed.

(** A task gives up the processor. *)
Lemma yield_keeps k s rp cp t : kernel_inv k s rp cp -> current_task s <> 0 -> state t <> TASK_RUNNING ->
  stack_base t = stack_base (get_task s (current_task s)) -> page_directory t = page_directory (get_task s (current_task s)) ->
  let s1 := put_task s (current_task s) t in
  let s' := task_switch_to s1 (next_task_id s1 (current_task s)) in kernel_inv (load_cr3 k s') s' rp cp.
Proof.
  intros Hk Hne Hst Hsb Hpd s1 s'. pose proof (ki_sched _ _ _ _ Hk) as Hinv. pose proof Hinv as [Hl Hc Hcur _ _ H0].
  pose proof (running_state s Hinv) as Hrun.
  assert (K1 : keeps s s1) by (apply keeps_put; [done|lia|done|done|congruence]).
  assert (Hl1 : length (tasks s1) = 8%nat) by (unfold s1; by rewrite put_len).
  destruct (next_spec s1 (current_task s)) as (Hn & Hr & _); [cbn; lia|cbn; lia| |].
  { exists 0. split; [cbn; lia|]. unfold s1. rewrite get_put by (done || lia). by destruct (Z.eqb_spec 0 (current_task s)). }
  change (task_count s1) with (task_count s) in Hn. set (n := next_task_id s1 (current_task s)) in *.
  pose proof (runnable_used _ Hr) as Hu.
  assert (K2 : keeps s1 s') by (apply keeps_switch; [done|cbn; lia|lia|done]).
  apply (keeps_inv k s _ rp cp); [done|by eapply keeps_trans|by apply (yield_inv s t)|].
  apply switch_cr3; [done|cbn; lia|lia|]. rewrite (ke_dir _ _ K1) by lia. apply (live_dir k _ rp cp); [done|lia|].
  intros E. by apply Hu, (ke_dead _ _ K1); [lia|].
Qed.

Lemma tick_keeps k s rp cp now : kernel_inv k s rp cp -> kernel_inv (load_cr3 k (schedule s now)) (schedule s now) rp cp.
Proof.
  intros Hk. pose proof (ki_sched _ _ _ _ Hk) as Hinv. pose proof (wake_inv s now Hinv) as Hw.
  pose proof (keeps_wake s now Hinv) as K1. pose proof (schedule_inv s now Hinv) as Hs.
  destruct (schedule_cases s now Hinv) as [[E _]|[E Hne]]; rewrite E in *.
  - apply (keeps_inv k s _ rp cp); [done|done|done|]. cbn [Task.cr3 wake_sleepers current_task].
    rewrite (ke_dir _ _ K1); [apply Hk|]. destruct Hinv. lia.
  - set (s1 := wake_sleepers s now) in *. pose proof Hw as [Hl Hc Hcur Hrun Hfr H0].
    destruct (next_spec s1 (current_task s)) as (Hn & Hr & _); [lia|exact Hcur|exists 0; split; [lia|done]|].
    pose proof (running_state s1 Hw) as Hst. set (n := next_task_id s1 (current_task s)) in *.
    assert (Hb : 0 <= current_task s1 < 8 /\ 0 <= n < 8) by (clear -Hc Hcur Hn; lia). destruct Hb as [Hb Hnb].
    assert (K2 : keeps s1 (set_current_state s1 TASK_READY)) by (apply keeps_put; [done|exact Hb|done|done|congruence]).
    pose proof (runnable_used _ Hr) as Hu.
    assert (Hu2 : state (get_task (set_current_state s1 TASK_READY) n) <> TASK_UNUSED).
    { rewrite set_current_get by done. by case_if. }
    assert (Hl2 : length (tasks (set_current_state s1 TASK_READY)) = 8%nat) by (unfold set_current_state; by rewrite put_len).
    apply (keeps_inv k s _ rp cp); [done| |done|].
    + eapply keeps_trans; [exact K1|]. eapply keeps_trans; [exact K2|]. apply keeps_switch; [done|exact Hb|done|done].
    + apply switch_cr3; [done|exact Hb|done|]. rewrite (ke_dir _ _ K2), (ke_dir _ _ K1) by done.
      apply (live_dir k _ rp cp); [done|done|]. intros Ed. by apply Hu, (ke_dead _ _ K1).
Qed.

(** ** The heap *)
Lemma kmalloc_ready fuel h n h' p : kmalloc fuel h n = OK (h', p) -> heap_ready h' = heap_ready h.
Proof.
  unfold kmalloc. destruct (_ || _); [by intros [= <- _]|]. destruct (first_fit _ _ _ _) as [[m q]| |]; cbn [rbind]; [|done..]. by intros [= <- _].
Qed.

Lemma heap_holds_perm h l l' : l ≡ₚ l' -> heap_holds h l -> heap_holds h l'.
Proof. intros Hp (Hr & bs & Hrep & Hb & Hz). split; [done|]. exists bs. split; [done|]. split; [by rewrite Hb|done]. Qed.

Lemma heap_takes h ps : heap_holds h ps ->
  exists h' p, kmalloc heap_fuel h TASK_STACK_SIZE = OK (h', p) /\ heap_start h' = heap_start h /\
  ((p = 0 /\ heap_holds h' ps) \/
   (p <> 0 /\ heap_holds h' (p :: ps) /\ heap_start h <= p /\ p + TASK_STACK_SIZE <= heap_start h + HEAP_SIZE)).
Proof.
  intros (Hrdy & bs & Hrep & Hp & Hsz). unfold TASK_STACK_SIZE.
  destruct (kmalloc_spec h HEAP_SIZE bs 4096 heap_fuel Hrdy Hrep ltac:(lia)) as (h' & p & E & Es & Hcase).
  { pose proof (heap_rep_blocks _ _ _ _ Hrep) as Hb. unfold HEADER, HEAP_SIZE, heap_fuel in *. lia. }
  exists h', p. split; [done|]. split; [done|]. destruct Hcase as [(-> & -> & _)|(bs' & n & Hrep' & _ & Hn & Hlo & Hhi & Hu & _)].
  - left. split; [done|]. split; [done|]. by exists bs.
  - right. pose proof (hr_start _ _ _ _ Hrep). split; [lia|]. split; [|lia]. split; [by rewrite (kmalloc_ready _ _ _ _ _ E)|].
    exists bs'. rewrite Es. split; [done|]. split.
    + rewrite Hu. cbn. by rewrite Hp.
    + intros u. rewrite Hu, elem_of_cons. intros [->|Hin]; [cbn; lia|by apply Hsz].
Qed.

Lemma heap_gives h p ps : heap_holds h (p :: ps) ->
  exists h', kfree h p = OK h' /\ heap_start h' = heap_start h /\ heap_holds h' ps.
Proof.
  intros (Hrdy & bs & Hrep & Hp & Hsz).
  assert (Hin : p ∈ (Heap.in_use (heap_start h) bs).*1) by (rewrite Hp; by left).
  apply list_elem_of_fmap in Hin as ([q n] & Eq & Hin). cbn in Eq. subst q.
  destruct (kfree_spec h HEAP_SIZE bs p n Hrep Hin) as (h' & bs' & E & Es & Hrep' & Hu).
  exists h'. split; [done|]. split; [done|]. split.
  - unfold kfree in E. destruct (p =? 0); [by injection E as <-|]. destruct (release _ _); cbn [rbind] in E; [|done..]. by injection E as <-.
  - exists bs'. rewrite Es. split; [done|]. split.
    + apply (Permutation_cons_inv (a := p)). rewrite <- Hp, Hu. done.
    + intros u Hu'. apply Hsz. rewrite Hu. by right.
Qed.

Lemma heap_init_holds kernel_end h0 : 0 < kernel_end -> kernel_end + HEAP_SIZE + 72 <= 4294967296 ->
  let h := (heap_init kernel_end h0).2 in heap_start h mod 8 = 0 /\ kernel_end <= heap_start h < kernel_end + 8 /\ heap_holds h [].
Proof.
  intros Hk Hr. cbn [heap_init snd heap_start]. unfold HEAP_SIZE in *. destruct (align_up_spec kernel_end ltac:(lia)) as [Ha Hb].
  split; [done|]. split; [done|]. split; [done|]. exists [(HEAP_SIZE - HEADER, true)]. cbn [heap_start headers]. split; [|split; [done|]].
  - split; try done; [|lia|unfold HEAP_SIZE; lia|repeat constructor; done]. exists (align_up kernel_end). cbn [seg]. split; [lia|]. exists 0.
    split; [by rewrite lookup_insert_eq|]. split; [by left|done].
  - intros u Hu. by apply elem_of_nil in Hu.
Qed.

(** With nothing in use the heap is one free block. *)
Lemma heap_unused h : heap_holds h [] -> heap_rep (headers h) (heap_start h) HEAP_SIZE [(HEAP_SIZE - HEADER, true)].
Proof.
  intros (_ & bs & Hrep & Hp & _). apply Permutation_sym, Permutation_nil in Hp. apply fmap_nil_inv in Hp.
  assert (E : bs = [(HEAP_SIZE - HEADER, true)]); [|by rewrite <- E].
  pose proof (hr_extent _ _ _ _ Hrep) as He. pose proof (hr_merged _ _ _ _ Hrep) as Hm.
  destruct bs as [|[sz f] [|[sz' f'] bs]]; [done| |].
  - cbn [in_use extent app] in *. destruct f; [|done]. f_equal. f_equal. unfold HEAP_SIZE, HEADER in *. lia.
  - cbn [in_use] in Hp. destruct f; [|done]. destruct f'; [|done]. by destruct Hm.
Qed.

(** ** The stack of a new task *)
Lemma push_keeps P ws : forall k ds, mem_inv P (k_frames k) (words (k_mmu k)) ds -> cr3 (k_mmu k) ∈ (KD :: ds) ->
  heap_area (k_heap k) -> Forall (fun w => heap_start (k_heap k) <= w.1 < heap_start (k_heap k) + HEAP_SIZE) ws ->
  exists m, push_words k ws = set_k_mmu k m /\ cr3 m = cr3 (k_mmu k) /\ mem_inv P (k_frames k) (words m) ds.
Proof.
  induction ws as [|[p x] ws IH]; intros k ds Hm Hc Har Hws; cbn [push_words]; [exists (k_mmu k); by destruct k|].
  apply Forall_cons_1 in Hws as [Hp Hws]. cbn in Hp. destruct Har as (A1 & A2 & A3).
  pose proof (mi_layout _ _ _ _ _ _ _ Hm) as L. destruct (ly_kd _ _ _ _ L) as [Hka Hk]. destruct (ly_fpt _ _ _ _ L) as [Hfa Hf].
  pose proof (ly_end _ _ _ _ L) as Hend.
  assert (Hpage : kmap (k_mmu k) (4096 * (p / 4096))).
  { pose proof (cur_shape _ _ _ _ _ _ _ Hm Hc) as Hsh.
    apply (shape_kmap_guarded FPT KEND (k_mmu k) (cr3 (k_mmu k))); [done|done|unfold aligned; dlia|dlia|]. left. dlia. }
  assert (Etr : translate (words (k_mmu k)) (cr3 (k_mmu k)) p = Some p).
  { pose proof (kmap_translate (k_mmu k) _ (p mod 4096) Hpage ltac:(dlia)) as E.
    by replace (4096 * (p / 4096) + p mod 4096) with p in E by dlia. }
  unfold vstore. rewrite Etr. set (m1 := mk_mmu (<[p := x]> (words (k_mmu k))) (cr3 (k_mmu k))).
  destruct (mem_agree KD FPT KEND P (k_frames k) (words (k_mmu k)) (words m1) ds Hm) as [Hm1 _].
  { intros y Hy. cbn [m1 words]. unfold pload. rewrite lookup_insert_ne; [done|]. intros <-.
    destruct (struct_owned _ _ _ _ _ _ _ _ Hm Hy) as [E|[E|(f & Ho & E)]].
    - unfold aligned in *. dlia.
    - unfold aligned in *. dlia.
    - destruct (owned_above _ _ _ _ _ _ _ _ Hm Ho) as (Ha & Hr & _). unfold aligned in *. dlia. }
  destruct (IH (set_k_mmu k m1) ds) as (m & E & Ec & Hm2); [done|done|done|done|]. exists m. rewrite E. done.
Qed.

Lemma live_dir_in k s rp cp i : kernel_inv k s rp cp -> 1 <= i < 8 -> state (get_task s i) <> TASK_UNUSED ->
  dir_of rp s i = [page_directory (get_task s i)] /\ page_directory (get_task s i) ∈ dirs rp cp s.
Proof.
  intros Hk Hi Hu.
  assert (E : dir_of rp s i = [page_directory (get_task s i)]).
  { unfold dir_of. rewrite (proj2 (Z.eqb_neq _ _) (live_dir k s rp cp i Hk ltac:(lia) Hu)).
    pose proof (live_not_reaping s rp _ (ki_reap _ _ _ _ Hk) Hu) as Hr. 
    assert (Hg : dir_gone rp i = false) by (destruct rp; try done; apply Z.eqb_neq; intros E; apply Hr; cbn; by rewrite E).
    by rewrite Hg. }
  split; [done|]. apply elem_of_app. right. apply list_elem_of_In, in_flat_map. exists i.
  split; [apply list_elem_of_In, elem_of_seqZ; lia|]. rewrite E. by left.
Qed.

Lemma running_dir k s rp cp : kernel_inv k s rp cp -> current_task s <> 0 -> cr3 (k_mmu k) ∈ dirs rp cp s.
Proof.
  intros Hk Hne. rewrite (ki_loaded _ _ _ _ Hk), (ki_cr3 _ _ _ _ Hk). pose proof (ki_sched _ _ _ _ Hk) as Hinv.
  pose proof (si_cur _ Hinv) as Hc. pose proof (si_count _ Hinv) as Hn. apply (live_dir_in k); [done|lia|by rewrite running_state].
Qed.

Lemma loaded_dir k s rp cp : kernel_inv k s rp cp -> cr3 (k_mmu k) ∈ (KD :: dirs rp cp s).
Proof.
  intros Hk. destruct (decide (current_task s = 0)) as [E|Hne]; [|right; by apply running_dir].
  rewrite (ki_loaded _ _ _ _ Hk), (ki_cr3 _ _ _ _ Hk), E, (proj2 (ki_idle _ _ _ _ Hk)). by left.
Qed.

(** ** Changing the services or one slot *)
Lemma kernel_inv_env k k' s rp rp' cp cp' : kernel_inv k s rp cp -> k_fault k' = false -> cr3 (k_mmu k') = cr3 (k_mmu k) ->
  heap_start (k_heap k') = heap_start (k_heap k) -> (forall i, reaping rp' <> Some i -> reaping rp <> Some i) ->
  reap_ok s rp' -> create_ok (k_heap k') s cp' -> heap_holds (k_heap k') (stacks rp' cp' s) ->
  mem_inv (pool rp' s) (k_frames k') (words (k_mmu k')) (dirs rp' cp' s) -> kernel_inv k' s rp' cp'.
Proof.
  intros [Hs L Hok Hid Hp Hl Hf Hc Hld Har Hrp Hcp Hh Hm] Hok' Hcr Hst Hrr Hrp' Hcp' Hh' Hm'. split; try done.
  - intros i Hi Hr. apply Hp; [done|by apply Hrr].
  - congruence.
  - unfold heap_area in *. by rewrite Hst.
Qed.

Lemma kernel_inv_put k s rp rp' cp cp' i t : kernel_inv k s rp cp -> 1 <= i < task_count s -> i <> current_task s ->
  state t <> TASK_RUNNING -> (state t <> TASK_UNUSED -> stack_base t <> 0) ->
  (reaping rp' <> Some i -> stack_base t = 0 <-> page_directory t = 0) ->
  (forall j, j <> i -> reaping rp' <> Some j -> reaping rp <> Some j) ->
  reap_ok (put_task s i t) rp' -> create_ok (k_heap k) (put_task s i t) cp' ->
  stacks rp' cp' (put_task s i t) ≡ₚ stacks rp cp s -> dirs rp' cp' (put_task s i t) ≡ₚ dirs rp cp s ->
  pool rp' (put_task s i t) = pool rp s -> kernel_inv k (put_task s i t) rp' cp'.
Proof.
  intros [Hs L Hok Hid Hp Hl Hf Hc Hld Har Hrp Hcp Hh Hm] Hi Hne Hst Hlive Hpair Hrr Hrp' Hcp' P1 P2 Epool.
  pose proof (si_len _ Hs) as Hlen. pose proof (si_count _ Hs) as Hcnt. pose proof (si_cur _ Hs) as Hcur.
  assert (G : forall j, 0 <= j < 8 -> get_task (put_task s i t) j = if j =? i then t else get_task s j)
    by (intros j Hj; apply get_put; (done || lia)).
  split; try done.
  - apply put_inv; [done|lia|done|done|lia].
  - rewrite G by lia. by destruct (Z.eqb_spec 0 i); [lia|].
  - intros j Hj Hr. rewrite G by lia. destruct (Z.eqb_spec j i) as [->|]; [by apply Hpair|apply Hp; [done|by apply Hrr]].
  - intros j Hj. rewrite G by lia. destruct (Z.eqb_spec j i); [done|by apply Hl].
  - intros j Hj. cbn [task_count put_task] in Hj. rewrite G by lia. destruct (Z.eqb_spec j i); [lia|by apply Hf].
  - cbn [Task.cr3 put_task current_task]. rewrite G by lia. by destruct (Z.eqb_spec (current_task s) i); [lia|].
  - by eapply heap_holds_perm; [symmetry|].
  - rewrite Epool. by eapply mem_inv_perm; [symmetry|].
Qed.

(** The slots of the two operations are distinct, and no slot of theirs runs. *)
Lemma unused_not_current s i : sched_inv s -> state (get_task s i) = TASK_UNUSED -> i <> current_task s.
Proof. intros Hs Hu ->. by rewrite running_state in Hu. Qed.

Lemma get_other s i j t : sched_inv s -> 1 <= i < task_count s -> 1 <= j < task_count s -> j <> i ->
  get_task (put_task s i t) j = get_task s j.
Proof.
  intros Hs Hi Hj Hne. pose proof (si_count _ Hs). rewrite get_put by (apply Hs || lia). by rewrite (proj2 (Z.eqb_neq _ _) Hne).
Qed.

Lemma get_same s i t : sched_inv s -> 1 <= i < task_count s -> get_task (put_task s i t) i = t.
Proof. intros Hs Hi. pose proof (si_count _ Hs). rewrite get_put by (apply Hs || lia). by rewrite Z.eqb_refl. Qed.

Lemma reap_ok_put s i t rp : sched_inv s -> 1 <= i < task_count s -> reaping rp <> Some i -> reap_ok s rp -> reap_ok (put_task s i t) rp.
Proof.
  intros Hs Hi Hne (H1 & H2 & H3). split; [done|].
  assert (G : forall j, reaping rp = Some j -> get_task (put_task s i t) j = get_task s j).
  { intros j Hj. apply get_other; [done|done|by apply H2|congruence]. }
  split; [intros j Hj; rewrite (G j Hj); by apply H2|]. intros j ->. rewrite (G j eq_refl). by apply H3.
Qed.

Lemma create_ok_put h s i t cp : sched_inv s -> 1 <= i < task_count s -> building cp <> Some i ->
  create_ok h s cp -> create_ok h (put_task s i t) cp.
Proof.
  intros Hs Hi Hne (H1 & H2). split; [|done]. intros j Hj. rewrite get_other; [by apply H1|done|done|by apply H1|congruence].
Qed.

Lemma pool_put s i t rp : sched_inv s -> 1 <= i < task_count s -> reaping rp <> Some i -> reap_ok s rp -> pool rp (put_task s i t) = pool rp s.
Proof.
  intros Hs Hi Hne (_ & H2 & _). destruct rp as [| | | |j|]; try done. destruct (H2 j eq_refl) as (Hj & _).
  cbn [pool]. rewrite get_other; [done|done|done|done|]. intros ->. by apply Hne.
Qed.

(** One slot of the lists changes. *)
Lemma slot_change (f g : Z -> list Z) i st : 1 <= i < 8 -> g i ≡ₚ st ++ f i -> (forall j, 1 <= j < 8 -> j <> i -> g j = f j) ->
  flat_map g (seqZ 1 7) ≡ₚ st ++ flat_map f (seqZ 1 7).
Proof.
  intros Hi Hg Hf. assert (Hin : i ∈ seqZ 1 7) by (apply elem_of_seqZ; lia).
  apply list_elem_of_split in Hin as (l1 & l2 & El). pose proof (NoDup_seqZ 1 7) as Hn. rewrite El in Hn.
  apply NoDup_app in Hn as (_ & Hd & Hn). apply NoDup_cons in Hn as [Hn _].
  assert (Hr : forall j, j ∈ l1 ++ i :: l2 -> 1 <= j < 8) by (intros j; rewrite <- El, elem_of_seqZ; lia).
  rewrite El, !flat_map_app. cbn [flat_map]. rewrite Hg.
  rewrite (flat_map_ext_in g f l1), (flat_map_ext_in g f l2); [solve_Permutation|..]; intros j Hj; apply Hf.
  - apply Hr, elem_of_app. right. by right.
  - by intros ->.
  - apply Hr, elem_of_app. by left.
  - intros ->. by apply (Hd i Hj); left.
Qed.

(** ** Creating a task *)
Lemma create_start_keeps k s rp r entry launch : kernel_inv k s rp (CDone r) ->
  kernel_inv k (create_start s entry launch).1 rp (create_start s entry launch).2.
Proof.
  intros Hk. pose proof (ki_sched _ _ _ _ Hk) as Hs. pose proof (si_count _ Hs) as Hc. unfold create_start.
  assert (Hfree : forall id s1, 1 <= id < task_count s1 -> state (get_task s1 id) = TASK_UNUSED -> stack_base (get_task s1 id) = 0 ->
    page_directory (get_task s1 id) = 0 -> create_ok (k_heap k) s1 (CSlot id entry launch)).
  { intros id s1 Hi Hu Hb Hd. split; [|split; intros ?; cbn; by rewrite elem_of_nil]. by intros ? [= <-]. }
  destruct (find_slot s) as [i|] eqn:Ef; [|unfold MAX_TASKS; destruct (Z.leb_spec 8 (task_count s)) as [|Hlt]]; cbn [fst snd].
  - unfold find_slot in Ef. apply find_from_Some in Ef as (Hi & Hr & _). unfold reusable in Hr.
    apply andb_true_iff in Hr as [Hr Hd]. apply andb_true_iff in Hr as [Hu Hb]. apply bool_decide_eq_true in Hu. apply Z.eqb_eq in Hb, Hd.
    apply (kernel_inv_env k k s rp rp (CDone r)); try done; try apply Hk. apply Hfree; (done || lia).
  - by apply (kernel_inv_env k k s rp rp (CDone r)); try done; try apply Hk.
  - destruct Hk as [_ L Hok Hid Hp Hl Hf Hcr Hld Har (R1 & R2 & R3) Hcp Hh Hm].
    assert (Hb : stack_base (get_task s (task_count s)) = 0) by (apply Hf; lia). split; try done.
    + by apply bump_inv.
    + intros i Hi. cbn [bump_count task_count] in Hi. apply Hf. lia.
    + split; [done|]. split; [|done]. intros i Hi. destruct (R2 i Hi) as (Hr & ?). split; [cbn; lia|done].
    + apply Hfree; [cbn; lia|apply (si_fresh _ Hs); lia|done|]. apply Hp; [lia| |done].
      intros E. destruct (R2 _ E) as (Hr & _). lia.
Qed.

Lemma stack_words base h n : heap_area h -> KEND <= REGION -> 0 < KD ->
  heap_start h <= base -> base + TASK_STACK_SIZE <= heap_start h + HEAP_SIZE -> 0 < n <= 24 ->
  heap_start h <= u32 (u32 (base + TASK_STACK_SIZE) - n) < heap_start h + HEAP_SIZE.
Proof.
  intros (A1 & A2 & A3) Hend Hkd Hlo Hhi Hn. unfold TASK_STACK_SIZE, REGION, HEAP_SIZE in *.
  rewrite (u32_small (base + 4096)), u32_small by (unfold is_u32; lia). lia.
Qed.

(** [task_create] publishes the slot it built. *)
Lemma publish_keeps k s rp id base dir t : kernel_inv k s rp (CBuilt id base dir) ->
  state t = TASK_READY -> stack_base t = base -> page_directory t = dir -> kernel_inv k (put_task s id t) rp (CDone (OK id)).
Proof.
  intros Hk Hst Hb Hd. pose proof Hk as [Hs L _ _ Hp _ _ _ _ _ Hrp (C1 & C2 & C3) _ _].
  destruct (C1 id eq_refl) as (Hi & Hu & Hb0 & Hd0). pose proof (si_count _ Hs) as Hc.
  destruct (C2 base ltac:(by left)) as (Hbn & _). pose proof (C3 dir ltac:(by left)) as Hdn.
  assert (Hnr : reaping rp <> Some id) by (intros E; destruct Hrp as (_ & R & _); by destruct (R id E) as (_ & _ & ? & _)).
  assert (Hg : stack_gone rp id = false /\ dir_gone rp id = false).
  { destruct rp as [j|j|j|j|j|j]; split; try done; apply Z.eqb_neq; intros ->; by apply Hnr. }
  destruct Hg as [Hg1 Hg2]. apply (kernel_inv_put k s rp rp (CBuilt id base dir)); try done.
  - by apply unused_not_current.
  - by rewrite Hst.
  - by rewrite Hb.
  - intros _. by rewrite Hb, Hd.
  - by apply reap_ok_put.
  - split; [done|]. split; intros ?; by rewrite elem_of_nil.
  - unfold stacks. cbn [new_stack app]. apply (slot_change _ _ id [base]); [lia| |].
    + unfold stack_of. by rewrite get_same, Hb, Hb0, Hg1, (proj2 (Z.eqb_neq _ _) Hbn).
    + intros j Hj Hne. unfold stack_of. rewrite get_put by (apply Hs || lia). by rewrite (proj2 (Z.eqb_neq _ _) Hne).
  - unfold dirs. cbn [new_dir app]. apply (slot_change _ _ id [dir]); [lia| |].
    + unfold dir_of. by rewrite get_same, Hd, Hd0, Hg2, (proj2 (Z.eqb_neq _ _) Hdn).
    + intros j Hj Hne. unfold dir_of. rewrite get_put by (apply Hs || lia). by rewrite (proj2 (Z.eqb_neq _ _) Hne).
  - by apply pool_put.
Qed.

Definition needs_frame (cp : create_pc) : bool := match cp with CSlot _ _ _ | CStack _ _ _ _ => true | _ => false end.

Lemma create_step_keeps k s rp cp : kernel_inv k s rp cp ->
  (needs_frame cp = true -> next_reachable (k_frames k) (k_mmu k)) ->
  let r := create_step k s cp in
  kernel_inv r.1.1 r.1.2 rp r.2 /\ (needs_frame r.2 = true -> next_reachable (k_frames r.1.1) (k_mmu r.1.1)).
Proof.
  intros Hk Hn. pose proof Hk as [Hs L Hok _ _ _ _ _ _ Har Hrp (C1 & C2 & C3) Hh Hm]. cbv zeta.
  destruct cp as [r|id e l|id base e l|id base dir e l|id base dir]; unfold create_step; [done|..].
  - cbn [env_kmalloc kernel_env]. destruct (heap_takes _ _ Hh) as (h & p & Em & Eh & Hcase). rewrite Em.
    cbn [fst snd]. split; [|intros _; by apply Hn].
    destruct Hcase as [[-> Hh']|(Hp & Hh' & Hlo & Hhi)]; [|rewrite (proj2 (Z.eqb_neq _ _) Hp)].
    + apply (kernel_inv_env k _ s rp rp (CSlot id e l)); try done. by split; [|split; intros ?; rewrite elem_of_nil].
    + apply (kernel_inv_env k _ s rp rp (CSlot id e l)); try done. split; [done|]. split; [|intros ?; by rewrite elem_of_nil].
      intros b ->%list_elem_of_singleton. cbn. by rewrite Eh.
  - cbn [env_clone_directory kernel_env].
    destruct (clone_keeps KD FPT KEND (pool rp s) _ _ _ Hm (loaded_dir _ _ _ _ Hk) (Hn eq_refl)) as (m & a & mm & d & Ec & Ecr & Hd).
    rewrite Ec. destruct Hd as [(-> & -> & Hm')|(Hd & Hm' & _ & _)]; [cbn [Z.eqb]|rewrite (proj2 (Z.eqb_neq _ _) Hd)]; cbn [fst snd]; (split; [|done]).
    + cbn [env_kfree kernel_env print set_k_mmu set_k_frames k_heap].
      destruct (heap_gives (k_heap k) base _ Hh) as (h & -> & Eh & Hh').
      apply (kernel_inv_env k _ s rp rp (CStack id base e l)); try done. by split; [|split; intros ?; rewrite elem_of_nil].
    + apply (kernel_inv_env k _ s rp rp (CStack id base e l)); try done. split; [done|]. split; [done|].
      by intros ? ->%list_elem_of_singleton.
  - destruct (C2 base ltac:(by left)) as (Hb & Hlo & Hhi). set (ws := [_; _; _; _; _; _]). cbn [fst snd]. split; [|done].
    pose proof (ly_end _ _ _ _ L) as Hend. pose proof (ly_kd _ _ _ _ L) as [_ Hkd].
    destruct (push_keeps (pool rp s) ws (print k [TStr "Task "; TDec id; TStr ": cloned page directory at "; THex dir; TLn ""])
      (dirs rp (CDir id base dir e l) s)) as (mm & -> & Ecr & Hm').
    + done.
    + by apply loaded_dir in Hk.
    + done.
    + cbn [k_heap print]. repeat (constructor; [cbn [fst]; apply stack_words; (done || lia)|]). constructor.
    + by apply (kernel_inv_env k _ s rp rp (CDir id base dir e l)).
  - cbn [fst snd]. split; [|done]. by apply (publish_keeps k s rp id base dir).
Qed.

Lemma create_keeps k s rp r entry launch k' s' r' : kernel_inv k s rp (CDone r) -> next_reachable (k_frames k) (k_mmu k) ->
  create k s entry launch = (k', s', r') -> kernel_inv k' s' rp (CDone r').
Proof.
  intros Hk Hn Hc. pose proof (create_steps _ _ _ _ _ _ _ Hc) as Hr.
  apply (create_start_keeps _ _ _ _ entry launch) in Hk. clear Hc.
  assert (G : forall x y, rtc create_moves x y -> kernel_inv x.1.1 x.1.2 rp x.2 ->
    (needs_frame x.2 = true -> next_reachable (k_frames x.1.1) (k_mmu x.1.1)) -> kernel_inv y.1.1 y.1.2 rp y.2).
  { induction 1 as [|x y z Hxy _ IH]; intros Hx Hnx; [done|]. destruct (create_step_keeps _ _ _ _ Hx Hnx) as [Hy Hny].
    unfold create_moves in Hxy. rewrite Hxy in Hy, Hny. by apply IH. }
  apply (G _ _ Hr); [done|]. by intros _.
Qed.

(** ** Reaping *)

(** The idle task runs in the kernel's own directory. *)
Lemma idle_cr3 k s rp cp : kernel_inv k s rp cp -> current_task s = 0 -> cr3 (k_mmu k) = KD.
Proof. intros Hk Hc. rewrite (ki_loaded _ _ _ _ Hk), (ki_cr3 _ _ _ _ Hk), Hc. apply Hk. Qed.

(** There every frame of the region is in reach. *)
Lemma idle_reachable k s rp cp : kernel_inv k s rp cp -> current_task s = 0 -> next_reachable (k_frames k) (k_mmu k).
Proof.
  intros Hk Hc a' f Hal Hf Hr. pose proof (ki_mem _ _ _ _ Hk) as Hm.
  destruct (mem_alloc _ _ _ _ _ _ _ _ _ Hm Hal Hf) as (Ha & _ & H4 & _).
  apply (shape_kmap_shared FPT KEND _ KD); [apply Hm|by eapply idle_cr3|done|lia|apply Hm].
Qed.

Lemma create_not_reaped k s rp cp i : kernel_inv k s rp cp -> reaping rp = Some i -> building cp <> Some i.
Proof.
  intros Hk Hr Hb. destruct (ki_reap _ _ _ _ Hk) as (_ & R & _). destruct (ki_create _ _ _ _ Hk) as (C & _).
  destruct (R i Hr) as (_ & _ & Hd & _). by destruct (C i Hb) as (_ & _ & _ & ?).
Qed.

(** A field of the slot being reaped is cleared. *)
Lemma reap_put_keeps k s i t rp rp' cp : kernel_inv k s rp cp -> reaping rp = Some i ->
  state t = TASK_UNUSED -> reap_ok (put_task s i t) rp' -> (reaping rp' = Some i \/ stack_base t = 0 /\ page_directory t = 0) ->
  stack_of rp' (put_task s i t) i = stack_of rp s i -> dir_of rp' (put_task s i t) i = dir_of rp s i ->
  (forall j, j <> i -> stack_gone rp' j = stack_gone rp j /\ dir_gone rp' j = dir_gone rp j) ->
  pool rp' (put_task s i t) = pool rp s -> kernel_inv k (put_task s i t) rp' cp.
Proof.
  intros Hk Hr Hst Hrp' Hpair E1 E2 Hoth Epool. pose proof Hk as [Hs L _ _ Hp _ _ _ _ _ (_ & R & _) Hcp _ _].
  destruct (R i Hr) as (Hi & Hu & _). pose proof (si_count _ Hs) as Hc.
  apply (kernel_inv_put k s rp rp' cp cp); try done.
  - by apply unused_not_current.
  - by rewrite Hst.
  - intros Hne. destruct Hpair as [?|[-> ->]]; [done|by split].
  - intros j Hj _ E. congruence.
  - apply create_ok_put; try done. by eapply create_not_reaped.
  - unfold stacks. apply Permutation_app_head. unfold task_stacks. apply (slot_change _ _ i []); [lia|by rewrite E1|].
    intros j Hj Hne. unfold stack_of. rewrite get_put by (apply Hs || lia). by rewrite (proj2 (Z.eqb_neq _ _) Hne), (proj1 (Hoth j Hne)).
  - unfold dirs. apply Permutation_app_head. unfold task_dirs. apply (slot_change _ _ i []); [lia|by rewrite E2|].
    intros j Hj Hne. unfold dir_of. rewrite get_put by (apply Hs || lia). by rewrite (proj2 (Z.eqb_neq _ _) Hne), (proj2 (Hoth j Hne)).
Qed.

Lemma eqb_false i j : i <> j -> (i =? j) = false.
Proof. apply Z.eqb_neq. Qed.

(** [kfree] of the stack, and the two calls that free the address space. *)
Lemma reap_stack_keeps k s i cp : kernel_inv k s (RAt i) cp -> i < task_count s ->
  state (get_task s i) = TASK_UNUSED -> stack_base (get_task s i) <> 0 ->
  kernel_inv (env_kfree k (stack_base (get_task s i))) s (RFreed i) cp.
Proof.
  intros Hk Hi Hu Hb. pose proof Hk as [Hs L Hok _ Hp _ _ _ _ Har (R1 & _) Hcp Hh Hm]. pose proof (R1 i eq_refl) as Hi1.
  pose proof (si_count _ Hs) as Hc. cbn [env_kfree kernel_env].
  destruct (heap_gives (k_heap k) (stack_base (get_task s i)) (stacks (RFreed i) cp s)) as (h & Eh & Ehs & Hh').
  { eapply heap_holds_perm; [|exact Hh]. unfold stacks. rewrite Permutation_middle. apply Permutation_app_head. unfold task_stacks.
    apply (slot_change _ _ i [_]); [lia| |].
    - unfold stack_of, stack_gone. by rewrite Z.eqb_refl, orb_true_r, (eqb_false _ _ Hb).
    - intros j Hj Hne. unfold stack_of, stack_gone. by rewrite (eqb_false _ _ Hne). }
  rewrite Eh. apply (kernel_inv_env k _ s (RAt i) (RFreed i) cp); try done.
  - split; [done|]. split; [|done]. intros j [= <-]. split; [lia|]. split; [done|]. split; [|by split].
    rewrite <- Hp; [done|lia|done].
  - destruct Hcp as (C1 & C2 & C3). split; [done|]. split; [|done]. intros b. cbn. rewrite Ehs. apply C2.
Qed.

Lemma reap_tables_keeps k s i cp : kernel_inv k s (RClosed i) cp -> current_task s = 0 ->
  kernel_inv (env_free_user_directory k (page_directory (get_task s i))) s (RTables i) cp.
Proof.
  intros Hk Hcur. pose proof Hk as [Hs L Hok _ Hp _ _ _ _ Har (R1 & R2 & _) Hcp Hh Hm].
  destruct (R2 i eq_refl) as (Hi & Hu & Hd & Hsb). pose proof (si_count _ Hs) as Hc. cbn [env_free_user_directory kernel_env].
  assert (P : dirs (RClosed i) cp s ≡ₚ page_directory (get_task s i) :: dirs (RTables i) cp s).
  { unfold dirs. rewrite Permutation_middle. apply Permutation_app_head. unfold task_dirs. apply (slot_change _ _ i [_]); [lia| |].
    - unfold dir_of, dir_gone. by rewrite Z.eqb_refl, orb_true_r, (eqb_false _ _ Hd).
    - intros j Hj Hne. unfold dir_of, dir_gone. by rewrite (eqb_false _ _ Hne). }
  destruct (tables_keep KD FPT KEND U _ _ _ _ (mem_inv_perm _ _ _ _ _ _ _ _ P Hm) (idle_cr3 _ _ _ _ Hk Hcur)) as (a1 & -> & Hm' & Ha & HU).
  apply (kernel_inv_env k _ s (RClosed i) (RTables i) cp); try done.
  split; [done|]. split.
  - intros j [= <-]. split; [done|]. split; [done|]. split; [done|]. split; [intros E; by apply Hsb in E|done].
  - by intros j [= <-].
Qed.

Lemma reap_frame_keeps k s i cp : kernel_inv k s (RTables i) cp ->
  kernel_inv (env_free_frame k (page_directory (get_task s i))) s (RFrame i) cp.
Proof.
  intros Hk. pose proof Hk as [Hs L Hok _ Hp _ _ _ _ Har (R1 & R2 & R3) Hcp Hh Hm].
  destruct (R2 i eq_refl) as (Hi & Hu & Hd & Hsb), (R3 i eq_refl) as [Ha HU].
  apply (kernel_inv_env k _ s (RTables i) (RFrame i) cp); try done.
  - split; [done|]. split; [|done]. intros j [= <-]. split; [done|]. split; [done|]. split; [done|].
    split; [intros E; by apply Hsb in E|done].
  - exact (release_keeps KD FPT KEND U (k_frames k) _ _ _ Hm L Ha HU).
Qed.

Lemma reap_step_keeps k s rp cp : kernel_inv k s rp cp -> current_task s = 0 ->
  let r := reap_step k s rp in kernel_inv r.1.1 r.1.2 r.2 cp.
Proof.
  intros Hk Hcur. pose proof Hk as [Hs L Hok _ Hp _ _ _ _ Har Hrp Hcp Hh Hm]. pose proof Hrp as (R1 & R2 & R3). cbv zeta.
  destruct rp as [i|i|i|i|i|i]; unfold reap_step; try (destruct (R2 i eq_refl) as (Hi & Hu & Hd & Hsb)); cbn [fst snd].
  - pose proof (R1 i eq_refl) as Hi.
    assert (Hat : forall j, 1 <= j -> kernel_inv k s (RAt j) cp).
    { intros j Hj. apply (kernel_inv_env k k s (RAt i) (RAt j) cp); try done. split; [by intros ? [= <-]|done]. }
    destruct (Z.ltb_spec i (task_count s)) as [Hlt|]; [|by apply Hat].
    destruct (bool_decide _ && _) eqn:Eb; [|by apply Hat; cbn; lia].
    apply andb_true_iff in Eb as [Hu Hb]. apply bool_decide_eq_true in Hu. apply negb_true_iff, Z.eqb_neq in Hb.
    by apply reap_stack_keeps.
  - apply (reap_put_keeps k s i _ (RFreed i)); try done; [|by left|..].
    + split; [done|]. split; [|done]. intros j [= <-]. rewrite get_same by done. cbn. done.
    + unfold stack_of, stack_gone. rewrite get_same by done. cbn [stack_base]. by rewrite !Z.eqb_refl, orb_true_r.
    + unfold dir_of. by rewrite get_same.
    + intros j Hj. cbn. by rewrite (eqb_false _ _ Hj).
  - apply (kernel_inv_env k _ s (RCleared i) (RClosed i) cp); try done. split; [done|]. split; [|done].
    intros j [= <-]. split; [done|]. split; [done|]. split; [done|]. split; [intros E; by apply Hsb in E|done].
  - rewrite (eqb_false _ _ Hd). cbn [fst snd]. by apply reap_tables_keeps.
  - by apply reap_frame_keeps.
  - assert (Hsb0 : stack_base (get_task s i) = 0) by (destruct (decide (stack_base (get_task s i) = 0)); [done|by apply Hsb in n]).
    apply (reap_put_keeps k s i _ (RFrame i)); try done; [|by right|..].
    + split; [intros j [= <-]; lia|done].
    + unfold stack_of. by rewrite get_same.
    + unfold dir_of, dir_gone. rewrite get_same by done. cbn [page_directory]. by rewrite !Z.eqb_refl, orb_true_r.
    + intros j Hj. cbn. by rewrite (eqb_false _ _ Hj).
Qed.

(** ** The running program's memory *)

(** When the page at [v] can be mapped for the running program: it lies over
    nothing the kernel needs and over no page of the program, and the frames
    the allocator hands out are ones the kernel can reach. *)
Definition mappable k (v : Z) : Prop :=
  aligned v /\ 0 <= v < REGION /\ next_reachable (k_frames k) (k_mmu k) /\
  forall m a mm t, paging_get_or_create_user_table FPT (k_frames k) (k_mmu k) (cr3 (k_mmu k)) v = Some (m, a, mm, t) -> t <> 0 ->
    ~ guarded KEND (cr3 (k_mmu k)) t (v / 4096) /\ pload (words mm) (t + 4 * (v / 4096)) = 4096 * (v / 4096) + 3 /\
    forall a' F, fr_alloc a = (a', F) -> F <> 0 -> kmap mm F.

Lemma kernel_inv_mem k s rp cp a mm m l : kernel_inv k s rp cp -> cr3 mm = cr3 (k_mmu k) ->
  l ≡ₚ dirs rp cp s -> mem_inv (pool rp s) a (words mm) l -> kernel_inv (print (set_k_mmu (set_k_frames k a) mm) m) s rp cp.
Proof.
  intros Hk Hc Hp Hm. apply (kernel_inv_env k _ s rp rp cp cp); try done; try apply Hk. by eapply mem_inv_perm.
Qed.

Lemma map_page_keeps k s rp cp v : kernel_inv k s rp cp -> current_task s <> 0 -> mappable k v ->
  exists k', map_page k v = Some k' /\ kernel_inv k' s rp cp.
Proof.
  intros Hk Hne (Hv & Hr & Hn & Hg). destruct (split_dir _ _ (running_dir _ _ _ _ Hk Hne)) as [l Hp].
  pose proof (mem_inv_perm _ _ _ _ _ _ _ _ Hp (ki_mem _ _ _ _ Hk)) as Hm. symmetry in Hp.
  destruct (table_keeps KD FPT KEND (pool rp s) _ _ _ _ v Hm eq_refl Hn Hr) as (m & a & mm & t & E & Ec & Hm1 & Ht).
  unfold map_page. cbv zeta. specialize (Hg _ _ _ _ E). rewrite E.
  destruct (Z.eqb_spec t 0) as [->|Ht0]; [eexists; split; [done|]; by apply (kernel_inv_mem k s rp cp a mm m (cr3 (k_mmu k) :: l))|].
  destruct Ht as [?|(Et & Htf & _ & _)]; [done|]. destruct (Hg Ht0) as (Hg1 & Hg2 & Hg3).
  destruct (page_keeps KD FPT KEND (pool rp s) a mm (cr3 (k_mmu k)) l v t Hm1 Ec Et Htf Hv Hr Hg1 Hg2 Hg3) as (a' & mm' & ok & -> & Ec' & Hm2).
  eexists. split; [done|]. by apply (kernel_inv_mem k s rp cp a' mm' m (cr3 (k_mmu k) :: l)).
Qed.

(** A byte the program stores from ring 3. *)
Definition user_store k (p b : Z) : kernel := set_k_mmu k (mk_mmu (store_byte (words (k_mmu k)) p b) (cr3 (k_mmu k))).

Lemma user_store_keeps k s rp cp v p b : kernel_inv k s rp cp -> current_task s <> 0 -> vaddr_ok v ->
  user_translate (words (k_mmu k)) (cr3 (k_mmu k)) v = Some p -> kernel_inv (user_store k p b) s rp cp.
Proof.
  intros Hk Hne Hv Ht. apply (kernel_inv_env k _ s rp rp cp cp); try done; try apply Hk.
  apply (store_keeps KD FPT KEND (pool rp s) _ _ _ (cr3 (k_mmu k)) v); [apply Hk|by apply running_dir|done|done].
Qed.

(** Two live tasks hold different frames. *)
Lemma live_apart k s rp cp i j : kernel_inv k s rp cp -> 1 <= i < 8 -> 1 <= j < 8 -> i <> j ->
  state (get_task s i) <> TASK_UNUSED -> state (get_task s j) <> TASK_UNUSED ->
  exists l, dirs rp cp s ≡ₚ page_directory (get_task s i) :: l /\ page_directory (get_task s j) ∈ l.
Proof.
  intros Hk Hi Hj Hne Hui Huj. destruct (live_dir_in k s rp cp i Hk Hi Hui) as [Ei _], (live_dir_in k s rp cp j Hk Hj Huj) as [Ej _].
  exists (new_dir cp ++ flat_map (fun m => if m =? i then [] else dir_of rp s m) (seqZ 1 7)). split.
  - unfold dirs. rewrite Permutation_middle. apply Permutation_app_head. apply (slot_change _ _ i [page_directory (get_task s i)]); [done| |].
    + by rewrite Z.eqb_refl, Ei.
    + intros m _ Hm. by rewrite (proj2 (Z.eqb_neq _ _) Hm).
  - apply elem_of_app. right. apply list_elem_of_In, in_flat_map. exists j. split; [apply list_elem_of_In, elem_of_seqZ; lia|].
    rewrite (eqb_false j i) by done. rewrite Ej. by left.
Qed.

(** A page ring 3 reaches through a live task's directory: a frame the
    directory holds, above the kernel, and none of the structures. *)
Lemma live_frame k s rp cp i v p : kernel_inv k s rp cp -> 1 <= i < 8 -> state (get_task s i) <> TASK_UNUSED -> vaddr_ok v ->
  let w := words (k_mmu k) in user_translate w (page_directory (get_task s i)) v = Some p ->
  (exists F, F ∈ holdings FPT w (page_directory (get_task s i)) /\ aligned F /\ p / 4096 = F / 4096) /\ KEND <= p /\
  forall d, d ∈ dirs rp cp s -> p / 4096 <> d / 4096 /\ p / 4096 <> table_of w d 0 / 4096.
Proof.
  intros Hk Hi Hu Hv w Ht. pose proof (ki_mem _ _ _ _ Hk) as Hm. fold w in Hm. destruct (live_dir_in k s rp cp i Hk Hi Hu) as [_ Hd].
  pose proof (mi_dirs _ _ _ _ _ _ _ Hm _ Hd) as Hsh.
  destruct (user_page FPT KEND w _ v p (mi_ident _ _ _ _ _ _ _ Hm) Hsh Hv Ht) as (Htf & F & HF & HFa & Ep).
  assert (HFo : F ∈ holdings FPT w (page_directory (get_task s i))).
  { right. rewrite (owned_shape _ _ _ _ Hsh), (eqb_false _ _ Htf). apply elem_of_app. by left. }
  split; [by exists F|]. split.
  - assert (HFa' : F ∈ owned_all FPT w (dirs rp cp s)) by (apply owned_all_in; exists (page_directory (get_task s i)); exact (conj Hd HFo)).
    destruct (owned_above _ _ _ _ _ _ _ _ Hm HFa') as (_ & Hk' & _). unfold aligned in HFa. dlia.
  - intros d Hdd. pose proof (user_frame_not_struct _ _ _ _ _ _ _ _ _ Hm Hd Htf HF HFa) as Hns.
    rewrite Ep. split; intros E; apply Hns; right; right; exists d; (split; [exact Hdd|]); [by left|by right].
Qed.

Lemma live_frames_apart k s rp cp i j v v' p p' : kernel_inv k s rp cp -> 1 <= i < 8 -> 1 <= j < 8 -> i <> j -> vaddr_ok v -> vaddr_ok v' ->
  let w := words (k_mmu k) in
  state (get_task s i) <> TASK_UNUSED -> state (get_task s j) <> TASK_UNUSED ->
  user_translate w (page_directory (get_task s i)) v = Some p -> user_translate w (page_directory (get_task s j)) v' = Some p' ->
  p / 4096 <> p' / 4096.
Proof.
  intros Hk Hi Hj Hne Hv Hv' w Hui Huj Ht Ht'.
  destruct (live_frame k s rp cp i v p Hk Hi Hui Hv Ht) as ((F & HF & HFa & ->) & _).
  destruct (live_frame k s rp cp j v' p' Hk Hj Huj Hv' Ht') as ((F' & HF' & HFa' & ->) & _).
  destruct (live_apart k s rp cp i j Hk Hi Hj Hne Hui Huj) as (l & Hp & Hjl).
  pose proof (mem_inv_perm _ _ _ _ _ _ _ _ Hp (ki_mem _ _ _ _ Hk)) as Hm. apply page_neq; [done|done|].
  apply (others_apart _ _ _ _ _ _ _ _ _ _ Hm HF). apply owned_all_in. exists (page_directory (get_task s j)). exact (conj Hjl HF').
Qed.
End Kernel.
