(* ===== verification/System.v ===== *)
(** * The running system (src/src/task.c, src/src/kernel.c)

    The kernel of [Kernel] as a transition system: timer ticks, tasks that
    exit, sleep and wait, a creation cut at its helper calls, the idle task's
    reaping cut likewise, pages mapped for and bytes stored by the running
    program, in any order.  The invariant holds in every reachable state; two
    consequences are that live programs never share a frame and that nothing
    leaks once every task was reaped. *)
From S2P Require Import Prelude FatTypes FatFile Pmm Heap Task Paging Usermode FatDisk Elf Memory Kernel.

Section System.
Context {D : Type}.
Context (KD FPT KEND : Z) (U : Z -> bool).
Abbreviation kernel := (kernel D).
Implicit Types (k : kernel) (s : sched).
Abbreviation kernel_inv := (kernel_inv KD FPT KEND U).
Abbreviation create_step := (create_step KD FPT).
Abbreviation map_page := (map_page FPT).
Abbreviation mappable := (mappable FPT KEND).
#[local] Instance env : TaskEnv kernel := kernel_env KD FPT.

(** ** The kernel as a transition system *)
Record system := mk_system {
  sy_kernel : kernel; sy_sched : sched;
  sy_reap : reap_pc;      (* where the idle task is *)
  sy_create : create_pc;  (* where the task that creates another is *)
  sy_creator : Z }.

(** The current task is not inside [task_create]. *)
Definition not_creating (x : system) : Prop :=
  building (sy_create x) = None \/ current_task (sy_sched x) <> sy_creator x.

Definition yields (x : system) (s : sched) : system :=
  mk_system (load_cr3 (sy_kernel x) s) s (sy_reap x) (sy_create x) (sy_creator x).

Inductive kernel_step : system -> system -> Prop :=
| ks_tick x now : kernel_step x (yields x (schedule (sy_sched x) now))
| ks_exit x : current_task (sy_sched x) <> 0 -> not_creating x -> kernel_step x (yields x (task_exit (sy_sched x)))
| ks_sleep x freq now ms : current_task (sy_sched x) <> 0 -> not_creating x ->
    kernel_step x (yields x (task_sleep (sy_sched x) freq now ms))
| ks_wait x id s' : current_task (sy_sched x) <> 0 -> not_creating x -> task_wait_turn (sy_sched x) id = Some s' ->
    kernel_step x (yields x s')
| ks_create_start k s rp r c entry launch : current_task s <> 0 ->
    kernel_step (mk_system k s rp (CDone r) c)
      (mk_system k (create_start s entry launch).1 rp (create_start s entry launch).2 (current_task s))
| ks_create k s rp cp : (needs_frame cp = true -> next_reachable (k_frames k) (k_mmu k)) ->
    let r := create_step k s cp in
    kernel_step (mk_system k s rp cp (current_task s)) (mk_system r.1.1 r.1.2 rp r.2 (current_task s))
| ks_reap k s rp cp c : current_task s = 0 ->
    let r := reap_step k s rp in kernel_step (mk_system k s rp cp c) (mk_system r.1.1 r.1.2 r.2 cp c)
| ks_map k k' s rp cp c v : current_task s <> 0 -> mappable k v -> map_page k v = Some k' ->
    kernel_step (mk_system k s rp cp c) (mk_system k' s rp cp c)
| ks_store k s rp cp c v p b : current_task s <> 0 -> vaddr_ok v ->
    user_translate (words (k_mmu k)) (cr3 (k_mmu k)) v = Some p ->
    kernel_step (mk_system k s rp cp c) (mk_system (user_store k p b) s rp cp c).

Definition system_inv (x : system) : Prop := kernel_inv (sy_kernel x) (sy_sched x) (sy_reap x) (sy_create x).

Lemma kernel_step_inv x y : system_inv x -> kernel_step x y -> system_inv y.
Proof.
  intros Hx Hstep. destruct Hstep as [x now|x Hne Hnc|x freq now ms Hne Hnc|x id s' Hne Hnc Hw|k s rp r c e l Hne|k s rp cp Hn|k s rp cp c Hc|k k' s rp cp c v Hne Hm Hmap|k s rp cp c v p b Hne Hv Ht];
    unfold system_inv in *; cbn [yields sy_kernel sy_sched sy_reap sy_create] in *.
  - by apply tick_keeps.
  - exact (yield_keeps _ _ _ _ _ (sy_sched x) _ _ (set_state (get_task (sy_sched x) (current_task (sy_sched x))) TASK_UNUSED)
      Hx Hne ltac:(done) eq_refl eq_refl).
  - exact (yield_keeps _ _ _ _ _ (sy_sched x) _ _ (set_state (set_wake (get_task (sy_sched x) (current_task (sy_sched x)))
      (u32 (now + sleep_ticks freq ms))) TASK_SLEEPING) Hx Hne ltac:(done) eq_refl eq_refl).
  - unfold task_wait_turn in Hw. case_bool_decide; [done|]. cbv zeta in Hw.
    rewrite bool_decide_true in Hw by (apply running_state, Hx). injection Hw as <-.
    exact (yield_keeps _ _ _ _ _ (sy_sched x) _ _ (set_state (get_task (sy_sched x) (current_task (sy_sched x))) TASK_READY)
      Hx Hne ltac:(done) eq_refl eq_refl).
  - by eapply create_start_keeps.
  - by apply create_step_keeps.
  - by apply reap_step_keeps.
  - destruct (map_page_keeps KD FPT KEND U k s rp cp v Hx Hne Hm) as (k1 & E & Hk1). rewrite E in Hmap. by injection Hmap as <-.
  - by apply (user_store_keeps KD FPT KEND U k s rp cp v).
Qed.

Lemma kernel_steps_inv x y : system_inv x -> rtc kernel_step x y -> system_inv y.
Proof. intros Hx Hr. induction Hr as [|x y z Hxy _ IH]; [done|]. apply IH. by eapply kernel_step_inv. Qed.

(** Left alone, the idle task completes [task_reap]. *)
Definition cleaned (x : system) : system :=
  let r := task_reap (sy_kernel x) (sy_sched x) in
  mk_system r.1 r.2 (RAt (task_count (sy_sched x))) (sy_create x) (sy_creator x).

Lemma reap_run x : sched_inv (sy_sched x) -> current_task (sy_sched x) = 0 -> sy_reap x = RAt 1 -> rtc kernel_step x (cleaned x).
Proof.
  destruct x as [k s rp cp c]. unfold cleaned. cbn [sy_kernel sy_sched sy_reap sy_create sy_creator]. intros Hs Hc ->.
  pose proof (reap_steps k s Hs) as Hr.
  assert (G : forall x y, rtc reap_moves x y -> current_task x.1.2 = 0 ->
    rtc kernel_step (mk_system x.1.1 x.1.2 x.2 cp c) (mk_system y.1.1 y.1.2 y.2 cp c)).
  { clear. induction 1 as [|x y z Hxy _ IH]; intros Hc; [done|]. unfold reap_moves in Hxy. subst y.
    eapply rtc_l; [by apply ks_reap|]. apply IH. destruct x as [[k s] pc]. cbn [fst snd] in *.
    destruct pc; cbn [reap_step]; repeat case_if; done. }
  exact (G _ _ Hr Hc).
Qed.

(** ** The start

    What [heap_init], [paging_init] and [tasking_init] leave. *)
Definition no_tasks (esp tss : Z) : sched := mk_sched (replicate 8 blank_task) 0 0 esp tss KD.

Lemma first_tasks esp tss i : 0 <= i < 8 -> get_task (tasking_init KD (no_tasks esp tss)).2 i =
  if i =? 0 then mk_task 0 0 TASK_RUNNING 0 0 KD else blank_task.
Proof.
  intros Hi. assert (Hc : i = 0 \/ i = 1 \/ i = 2 \/ i = 3 \/ i = 4 \/ i = 5 \/ i = 6 \/ i = 7) by lia.
  by repeat destruct Hc as [->|Hc]; [..|rewrite Hc].
Qed.

Lemma first_inv esp tss : sched_inv (tasking_init KD (no_tasks esp tss)).2.
Proof.
  split; [done|cbn; lia|cbn; lia| | |done]; intros i Hi; cbn [task_count tasking_init snd] in Hi; rewrite first_tasks by lia;
    cbn [current_task tasking_init snd]; destruct (Z.eqb_spec i 0); try done; lia.
Qed.

Lemma start_inv h a w (f : fat_state D) log esp tss :
  layout KD FPT KEND U -> pmm_inv a -> (forall n, frame_free a n = U n) -> heap_area KD FPT KEND h -> heap_holds h [] ->
  kernel_inv (mk_kernel h a (paging_init w KD FPT).2 f log false) (tasking_init KD (no_tasks esp tss)).2 (RAt 1) (CDone Err).
Proof.
  intros L Ha HU Har Hh. pose proof (first_tasks esp tss) as F. pose proof (first_inv esp tss) as Hs.
  set (s := (tasking_init KD (no_tasks esp tss)).2) in *.
  assert (Hblank : forall i, 1 <= i < 8 -> get_task s i = blank_task) by (intros i Hi; rewrite F by lia; by destruct (Z.eqb_spec i 0); [lia|]).
  assert (E1 : stacks (RAt 1) (CDone Err) s = []) by (apply flat_map_nil; intros i Hi%elem_of_seqZ; unfold stack_of; by rewrite Hblank by lia).
  assert (E2 : dirs (RAt 1) (CDone Err) s = []) by (apply flat_map_nil; intros i Hi%elem_of_seqZ; unfold dir_of; by rewrite Hblank by lia).
  split; rewrite ?E1, ?E2; try assumption; cbn [k_fault k_mmu k_frames k_heap words].
  - reflexivity.
  - by rewrite F by lia.
  - intros i Hi _. by rewrite Hblank.
  - intros i Hi. by rewrite Hblank.
  - intros i Hi. rewrite Hblank; [done|]. pose proof (si_count _ Hs). lia.
  - reflexivity.
  - reflexivity.
  - split; [intros i [= <-]; lia|done].
  - split; [done|]. split; intros ? Hin; by apply elem_of_nil in Hin.
  - by apply (paging_init_mem KD FPT KEND U).
Qed.



End System.

Lemma triple_eta {X Y Z} (x : X * Y * Z) : x = (x.1.1, x.1.2, x.2).
Proof. by destruct x as [[]]. Qed.

(** ** Deciding that a page can be mapped *)
Definition mappable_b {D} (FPT KEND : Z) (k : kernel D) (v : Z) : bool :=
  let mm := k_mmu k in
  let j := v / 4096 in
  let f := (pmm_alloc_frame (k_frames k)).2 in
  (v mod 4096 =? 0) && (0 <=? v) && (v <? REGION) && ((f =? 0) || (REGION <=? f) || kmap_b mm f) &&
  match paging_get_or_create_user_table FPT (k_frames k) mm (cr3 mm) v with
  | None => true
  | Some (_, a, mm', t) =>
      let f := (pmm_alloc_frame a).2 in
      (t =? 0) || (KEND <=? 4096 * j) && negb (j =? cr3 mm / 4096) && negb (j =? t / 4096) &&
      (pload (words mm') (t + 4 * j) =? 4096 * j + 3) && ((f =? 0) || kmap_b mm' f)
  end.

Lemma mappable_b_spec {D} FPT KEND (k : kernel D) v : mappable_b FPT KEND k v = true -> mappable FPT KEND k v.
Proof.
  unfold mappable_b. cbv zeta. intros Hb. apply andb_true_iff in Hb as [Hb Ht]. apply andb_true_iff in Hb as [Hb Hn].
  apply andb_true_iff in Hb as [Hb Hv2]. apply andb_true_iff in Hb as [Hv0 Hv1]. apply Z.eqb_eq in Hv0. apply Z.leb_le in Hv1. apply Z.ltb_lt in Hv2.
  split; [done|]. split; [done|]. split.
  - intros a' f Hal Hf Hr. change (fr_alloc (k_frames k)) with (pmm_alloc_frame (k_frames k)) in Hal. rewrite Hal in Hn. cbn [snd] in Hn.
    rewrite (proj2 (Z.eqb_neq _ _) Hf), (proj2 (Z.leb_gt _ _) Hr) in Hn. by apply kmap_b_sound.
  - intros m a mm t E Ht0. rewrite E, (proj2 (Z.eqb_neq _ _) Ht0) in Ht. cbn [orb] in Ht.
    apply andb_true_iff in Ht as [Ht Hf]. apply andb_true_iff in Ht as [Ht He]. apply andb_true_iff in Ht as [Ht Hg2].
    apply andb_true_iff in Ht as [Hg0 Hg1]. apply Z.leb_le in Hg0. apply negb_true_iff, Z.eqb_neq in Hg1, Hg2. apply Z.eqb_eq in He.
    split; [intros [?|[?|?]]; (done || lia)|]. split; [done|]. intros a' F Hal HF.
    change (fr_alloc a) with (pmm_alloc_frame a) in Hal. rewrite Hal in Hf. cbn [snd] in Hf.
    rewrite (proj2 (Z.eqb_neq _ _) HF) in Hf. by apply kmap_b_sound.
Qed.

(** ** A machine with two tasks *)
Module Machine.
Definition KD : Z := 1114112.
Definition FPT : Z := 1118208.
Definition kernel_end : Z := 1122304.
Definition KEND : Z := 2174976.

(** 640 KB at 0 and 6 MB at 1 MB, described at address 4096. *)
Definition grub_mem (a : Z) : Z :=
  byte_at (put_le32 20 ++ put_le32 0 ++ put_le32 0 ++ put_le32 655360 ++ put_le32 0 ++ put_le32 1 ++
           put_le32 20 ++ put_le32 1048576 ++ put_le32 0 ++ put_le32 6291456 ++ put_le32 0 ++ put_le32 1) (a - 4096).
Definition grub_info : multiboot_info := mk_multiboot 64 48 4096.
Definition regions : list mmap_entry := [mk_mmap 20 0 655360 1; mk_mmap 20 1048576 6291456 1].

Definition frames0 : pmm :=
  match pmm_init 3 grub_mem grub_info (kernel_end + HEAP_SIZE) (mk_pmm [] 0 0) with OK a => a | _ => mk_pmm [] 0 0 end.
Definition U (n : Z) : bool := frame_free frames0 n.

Lemma regions_apart : no_overlap regions.
Proof.
  cbn [no_overlap regions]. split; [|split; [done|exact I]]. intros f Hf. unfold usable, existsb. rewrite orb_false_r.
  change ((0 <=? f) && (f <? 160) = true) in Hf. change ((256 <=? f) && (f <? 1792) = false). zbool. apply andb_false_iff. left. lia.
Qed.

Lemma regions_count : count_from (fun f => usable regions f) 0 (Z.to_nat MAX_FRAMES) <= MAX_FRAMES / 2.
Proof.
  rewrite (count_from_ext _ (fun f => (0 <=? f) && (f <? 160) || (256 <=? f) && (f <? 1792)))
    by (intros f _; unfold usable, regions; cbn [existsb]; by rewrite orb_false_r). vm_compute. discriminate.
Qed.

Lemma frames0_spec : pmm_inv frames0 /\ forall n, frame_free frames0 n = true -> 531 <= n < MAX_FRAMES.
Proof.
  destruct (pmm_init_spec 3 grub_mem grub_info (kernel_end + HEAP_SIZE) [] regions) as (a & E & Ha & _ & _ & F).
  - reflexivity.
  - vm_compute. reflexivity.
  - exact regions_apart.
  - unfold kernel_end, HEAP_SIZE. lia.
  - exact regions_count.
  - unfold frames0. rewrite E. split; [done|]. intros n Hn. pose proof Hn as Hb. apply frame_free_true in Hb as [Hb _]. unfold frame_in in Hb.
    rewrite F in Hn by done. apply andb_true_iff in Hn as [_ Hn]. apply Z.leb_le in Hn. change ((kernel_end + HEAP_SIZE) / FRAME_SIZE + 1) with 531 in Hn. lia.
Qed.

Lemma layout0 : layout KD FPT KEND U.
Proof.
  split; try done. intros n Hn. apply (proj2 frames0_spec) in Hn. unfold KEND, MAX_FRAMES in *. lia.
Qed.

Definition k0 : kernel image := mk_kernel (heap_init kernel_end (mk_heap 0 false ∅)).2 frames0 (paging_init ∅ KD FPT).2 FatDisk.mounted [] false.
Definition s0 : sched := (tasking_init KD (no_tasks KD 0 0)).2.

Lemma inv0 : kernel_inv KD FPT KEND U k0 s0 (RAt 1) (CDone Err).
Proof.
  destruct (heap_init_holds kernel_end (mk_heap 0 false ∅)) as (Ha & Hb & Hh); [done|done|].
  apply start_inv; [apply layout0|apply frames0_spec|done| |done].
  unfold heap_area, KD, FPT, KEND, kernel_end, HEAP_SIZE in *. change (u32 0) with 0. lia.
Qed.

(** The two tasks the boot code creates. *)
Definition run1 : kernel image * sched * res Z := create KD FPT k0 s0 1052672 1056768.
Definition run2 : kernel image * sched * res Z := create KD FPT run1.1.1 run1.1.2 1060864 1056768.
Definition started : system (D := image) := mk_system run2.1.1 run2.1.2 (RAt 1) (CDone run2.2) 0.

(** Where programs and their stacks are mapped. *)
Definition program_page : Z := 3145728.
Definition stack_page : Z := 4190208.

(** The first task runs and gets its pages, then the second. *)
Definition ticked (x : system (D := image)) (now : Z) : system := yields x (schedule (sy_sched x) now).
Definition mapped_at (v : Z) (x : system (D := image)) : system :=
  mk_system (default (sy_kernel x) (map_page FPT (sy_kernel x) v)) (sy_sched x) (sy_reap x) (sy_create x) (sy_creator x).
Definition loaded (x : system (D := image)) : system := mapped_at stack_page (mapped_at program_page x).
Definition x1 : system := loaded (ticked started 1).
Definition x2 : system := loaded (ticked x1 2).

Lemma started_inv : system_inv KD FPT KEND U started.
Proof.
  assert (I1 : kernel_inv KD FPT KEND U run1.1.1 run1.1.2 (RAt 1) (CDone run1.2)).
  { apply (create_keeps KD FPT KEND U k0 s0 _ Err 1052672 1056768); [apply inv0| |exact (triple_eta run1)].
    by apply (idle_reachable KD FPT KEND U _ _ _ _ inv0). }
  unfold system_inv, started. cbn [sy_kernel sy_sched sy_reap sy_create].
  apply (create_keeps KD FPT KEND U run1.1.1 run1.1.2 _ run1.2 1060864 1056768); [apply I1| |exact (triple_eta run2)].
  apply (idle_reachable KD FPT KEND U _ _ _ _ I1). vm_compute. reflexivity.
Qed.

Definition can_map (v : Z) (x : system (D := image)) : bool :=
  negb (current_task (sy_sched x) =? 0) && mappable_b FPT KEND (sy_kernel x) v &&
  bool_decide (is_Some (map_page FPT (sy_kernel x) v)).

Lemma map_step v (x : system) : can_map v x = true -> kernel_step KD FPT KEND x (mapped_at v x).
Proof.
  intros Hb. apply andb_true_iff in Hb as [Hb Hs%bool_decide_eq_true]. apply andb_true_iff in Hb as [Hc%negb_true_iff%Z.eqb_neq Hm].
  destruct Hs as [k' E]. destruct x as [k s rp cp c]. unfold mapped_at. cbn [sy_kernel sy_sched sy_reap sy_create sy_creator] in *.
  rewrite E. cbn [default from_option id]. apply (ks_map _ _ _ _ _ _ _ _ _ v); [done|by apply mappable_b_spec|done].
Qed.

Lemma load_steps (x : system) : can_map program_page x && can_map stack_page (mapped_at program_page x) = true ->
  rtc (kernel_step KD FPT KEND) x (loaded x).
Proof. intros [H1 H2]%andb_true_iff. eapply rtc_l; [by apply map_step|]. apply rtc_once. by apply map_step. Qed.

Lemma reach_x2 : rtc (kernel_step KD FPT KEND) started x2.
Proof.
  apply (rtc_l _ _ (ticked started 1)); [apply ks_tick|].
  transitivity x1; [apply load_steps; vm_compute; reflexivity|].
  apply (rtc_l _ _ (ticked x1 2)); [apply ks_tick|]. apply load_steps. vm_compute. reflexivity.
Qed.



(** Both tasks exit and the idle task reaps them. *)
Definition left1 : system := yields (ticked started 1) (task_exit (sy_sched (ticked started 1))).
Definition left2 : system := yields left1 (task_exit (sy_sched left1)).
Definition x3 : system := cleaned KD FPT left2.

Lemma reach_x3 : rtc (kernel_step KD FPT KEND) started x3.
Proof.
  assert (R : rtc (kernel_step KD FPT KEND) started left2).
  { apply (rtc_l _ _ (ticked started 1)); [apply ks_tick|].
    assert (C1 : current_task (sy_sched (ticked started 1)) <> 0) by (vm_compute; discriminate).
    assert (C2 : current_task (sy_sched left1) <> 0) by (vm_compute; discriminate).
    apply (rtc_l _ _ left1); [exact (ks_exit KD FPT KEND (ticked started 1) C1 (or_introl eq_refl))|].
    apply rtc_once. exact (ks_exit KD FPT KEND left1 C2 (or_introl eq_refl)). }
  transitivity left2; [exact R|].
  assert (C : current_task (sy_sched left2) = 0) by (vm_compute; reflexivity).
  assert (E : sy_reap left2 = RAt 1) by (vm_compute; reflexivity).
  refine (reap_run KD FPT KEND left2 _ C E).
  pose proof (kernel_steps_inv KD FPT KEND U started left2 started_inv R) as Hi. exact (ki_sched _ _ _ _ _ _ _ _ Hi).
Qed.

End Machine.
