(* ===== verification/Boot.v ===== *)
(** * The boot sequence (src/src/kernel.c)

    [kernel_main] in the order of the source: the processor's tables, the
    devices behind the ports, the network configuration, the disk and the
    volume, memory, the file read as a test, and the first tasks.  The card
    and the disk are used through their drivers' interfaces, which [Rtl8139]
    and [Ata] implement.  The main result is that whatever the devices answer,
    a boot that completes leaves the system in the invariant of [System]. *)
From S2P Require Import Prelude Io Interrupts Input Terminal FatTypes FatTable FatFile FatDisk Ata Pmm Heap Task Ip Arp Pci Rtl8139 Dns Paging Usermode Elf Memory Kernel System.

(** ** What the linker and the assembly files provide *)
Record image_symbols := mk_symbols {
  sym_page_directory : Z; sym_first_page_table : Z; sym_kernel_end : Z;
  sym_tss : Z; sym_stack_top : Z;
  sym_isr : Z -> Z; sym_irq : Z -> Z; sym_syscall_stub : Z;
  sym_task_launch : Z; sym_shell_task : Z; sym_net_task : Z }.

(** ** The processor's tables *)
Record cpu := mk_cpu { c_gdt : list gdt_entry; c_tss : tss_entry; c_idt : list idt_entry; c_irq : irq_table }.

(** [gdt_install] to [syscall_install]; the tables start zeroed. *)
Definition boot_tables (sym : image_symbols) : cpu :=
  let gdt := gdt_install (sym_tss sym) TSS_SIZE (replicate (Z.to_nat GDT_ENTRY_COUNT) (mk_gdt_entry 0 0 0 0 0 0)) in
  let tss := tss_install (sym_stack_top sym) in
  let idt := idt_install (replicate 256 (mk_idt_entry 0 0 0 0 0)) in
  let idt := isr_install (sym_isr sym) idt in
  let idt := syscall_install (sym_syscall_stub sym) idt in
  mk_cpu gdt tss idt irq_boot.

Section Boot.
Context {P N D : Type} `{Ports P} `{Dma P} `{Nic N} `{BlockDevice D}.
Context (fuel : nat) (sym : image_symbols).

(** ** Devices behind the ports: [pic_remap] to [rtl8139_init] *)
Definition boot_devices (c : cpu) (v : vga) : io P (list tty * cpu * Z * vga * rtl) :=
  let* _ := pic_remap in
  let idt := irq_install (sym_irq sym) (c_idt c) in
  let t := Keyboard.keyboard_install (c_irq c) in
  let* (m1, t) := Mouse.mouse_install fuel t in
  let* (freq, t) := pit_init t 100 in
  let* t := Serial.serial_init t in
  let v := terminal_initialize v in
  let* (m2, devices) := pci_scan [] in
  let* (m3, r) := rtl8139_init fuel devices rtl_boot in
  io_ret (m1 ++ m2 ++ m3, mk_cpu (c_gdt c) (c_tss c) idt t, freq, v, r).

(** ** The network, if the card was found *)
Definition bridge_ip : list Z := [192; 0; 2; 1].

Definition boot_network (r : rtl) (n : N) : list tty * N * arp * ip_config * dns :=
  if rtl8139_is_present r then
    let '(m1, n, a, _) := arp_resolve n arp_boot bridge_ip in
    let '(m2, n, a, _) := arp_resolve n a bridge_ip in
    let c := ip_set_address ip_boot [192; 0; 2; 50] in
    let c := ip_set_gateway c bridge_ip in
    (m1 ++ m2, n, a, c, dns_set_server dns_boot [8; 8; 8; 8])
  else ([], n, arp_boot, ip_boot, dns_boot).

(** ** The disk: the message about sector 0, and the volume *)
Definition boot_volume (d : D) : list tty * fat_state D :=
  let m := match ata_read_sector d 0 with
           | Some sector0 =>
               if (byte_at sector0 510 =? 85) && (byte_at sector0 511 =? 170)
               then [TLn "ATA: sector 0 read OK, boot signature present"]
               else [TLn "ATA: sector 0 read OK, no boot signature (blank disk)"]
           | None => []
           end in
  let st := mk_fat d (mk_volume 0 0 0 0 0 0 0 0) false (replicate (Z.to_nat MAX_OPEN_FILES) closed_file) in
  let '(m', r) := fat_init st in
  (m ++ m', match r with OK st => st | _ => st end).

(** ** Memory: frames, paging, heap *)
Definition boot_memory (mem : Z -> Z) (info : multiboot_info) (w : gmap Z Z) : res (list tty * pmm * mmu * heap) :=
  let! a := pmm_init fuel mem info (u32 (sym_kernel_end sym + HEAP_SIZE)) (mk_pmm [] 0 0) in
  let! m1 := multiboot_parse fuel mem info in
  let '(m2, mm) := paging_init w (sym_page_directory sym) (sym_first_page_table sym) in
  let '(m3, h) := heap_init (sym_kernel_end sym) (mk_heap 0 false ∅) in
  OK (TLn "Hello from my operating system!" :: m1 ++
      [TStr "Free frames: "; TDec (pmm_get_free_frame_count a); TStr " / "; TDec (pmm_get_total_frame_count a); TLn ""] ++ m2 ++ m3,
      a, mm, h).

(** ** Reading a file *)
Definition readme_txt : list Z := [114; 101; 97; 100; 109; 101; 46; 116; 120; 116].

Definition boot_readme (h : heap) (st : fat_state D) : res (list tty * heap) :=
  let! (h, file_buffer) := kmalloc heap_fuel h 4096 in
  if file_buffer =? 0 then OK ([], h)
  else
    let '(m, r) := fat_read_file fuel st readme_txt 4096 in
    let! m' := match r with
               | OK bytes => OK [TStr "FAT: read readme.txt ("; TDec (Z.of_nat (length bytes)); TLn " bytes):"; TBytes bytes; TLn ""]
               | Err => OK []
               | Fuel => Fuel
               end in
    let! h := kfree h file_buffer in
    OK (m ++ m', h).

(** ** The first tasks *)
Definition boot_tasks (k : kernel D) (r : rtl) : kernel D * sched * res Z :=
  let KD := sym_page_directory sym in
  let FPT := sym_first_page_table sym in
  let '(m, s) := tasking_init KD (no_tasks KD (sym_stack_top sym) (sym_stack_top sym)) in
  let '(k, s, c) := create KD FPT (print k m) s (sym_shell_task sym) (sym_task_launch sym) in
  if rtl8139_is_present r then create KD FPT k s (sym_net_task sym) (sym_task_launch sym) else (k, s, c).

(** ** [kernel_main], up to the idle loop *)
Record booted := mk_booted {
  bt_cpu : cpu; bt_freq : Z; bt_vga : vga; bt_rtl : rtl; bt_nic : N; bt_arp : arp; bt_ip : ip_config; bt_dns : dns;
  bt_channel : channel; bt_system : system (D := D) }.

Definition kernel_main (mem : Z -> Z) (info : multiboot_info) (w : gmap Z Z) (v : vga) (n : N) (d : D) : io P booted :=
  let* (m1, c, freq, v, r) := boot_devices (boot_tables sym) v in
  let '(m2, n, a, ip, dn) := boot_network r n in
  let* (m3, ch) := ata_init fuel in
  let '(m4, st) := boot_volume d in
  let* (m5, fr, mm, h) := (fun p => match boot_memory mem info w with OK x => OK (x, p) | Err => Err | Fuel => Fuel end) in
  let* (m6, h) := (fun p => match boot_readme h st with OK x => OK (x, p) | Err => Err | Fuel => Fuel end) in
  let k := mk_kernel h fr mm st (m1 ++ m2 ++ m3 ++ m4 ++ m5 ++ m6) false in
  let '(k, s, res) := boot_tasks k r in
  io_ret (mk_booted c freq v r n a ip dn ch (mk_system k s (RAt 1) (CDone res) 0)).

(** ** What a completed boot leaves *)

(** The linked image: the two static tables are page aligned, distinct, and
    lie in the image, and the image and the heap fit below 4 MB. *)
Record linked : Prop := {
  ln_dir : aligned (sym_page_directory sym) /\ 0 < sym_page_directory sym /\ sym_page_directory sym + 4096 <= sym_kernel_end sym;
  ln_table : aligned (sym_first_page_table sym) /\ 0 < sym_first_page_table sym /\ sym_first_page_table sym + 4096 <= sym_kernel_end sym;
  ln_distinct : sym_page_directory sym <> sym_first_page_table sym;
  ln_end : sym_kernel_end sym + HEAP_SIZE < REGION }.

(** The first frame behind the kernel and its heap, and the frames of the
    pool: the usable ones from there on. *)
Definition first_frame : Z := (sym_kernel_end sym + HEAP_SIZE) / 4096 + 1.
Definition pool_of (es : list mmap_entry) (n : Z) : bool :=
  (0 <=? n) && (n <? MAX_FRAMES) && usable es n && (first_frame <=? n).

Lemma linked_layout es : linked -> layout (sym_page_directory sym) (sym_first_page_table sym) (4096 * first_frame) (pool_of es).
Proof.
  intros [(Ha & Hd & Hde) (Ht & Hf & Hfe) Hne He]. unfold first_frame, HEAP_SIZE, REGION in *.
  split; [split; [done|dlia]|split; [done|dlia]|done|unfold REGION; dlia|].
  intros n Hn. unfold pool_of, first_frame, HEAP_SIZE, MAX_FRAMES in Hn. zbool. lia.
Qed.

Lemma boot_memory_spec mem info w es : linked -> flag (mb_flags info) 64 = true -> mmap_entries fuel mem info = OK es ->
  no_overlap es -> count_from (fun f => usable es f) 0 (Z.to_nat MAX_FRAMES) <= MAX_FRAMES / 2 ->
  exists m a, boot_memory mem info w = OK (m, a, (paging_init w (sym_page_directory sym) (sym_first_page_table sym)).2,
    (heap_init (sym_kernel_end sym) (mk_heap 0 false ∅)).2) /\ pmm_inv a /\ forall n, frame_free a n = pool_of es n.
Proof.
  intros Hl Hfl Hes Hno Hcap. pose proof (ln_dir Hl) as (_ & Hd & Hde). pose proof (ln_end Hl) as He. unfold REGION, HEAP_SIZE in *.
  assert (Hk : 0 <= sym_kernel_end sym + 1048576 < 4294967296) by lia.
  destruct (pmm_init_spec fuel mem info (sym_kernel_end sym + 1048576) [] es Hfl Hes Hno Hk Hcap) as (a & E & Ha & _ & _ & F).
  unfold boot_memory, HEAP_SIZE. rewrite u32_small by done. rewrite E. cbn [rbind]. unfold multiboot_parse.
  change (Z.shiftl 1 6) with 64. rewrite Hfl, Hes. cbn [negb rbind].
  eexists _, a. split; [reflexivity|]. split; [done|]. intros n. unfold pool_of, first_frame, HEAP_SIZE.
  destruct (decide (0 <= n < MAX_FRAMES)) as [Hn|Hn].
  - rewrite F, (proj2 (Z.leb_le 0 n)), (proj2 (Z.ltb_lt n MAX_FRAMES)) by lia. done.
  - assert (Hff : frame_free a n = false).
    { destruct (frame_free a n) eqn:Ef; [|done]. apply frame_free_true in Ef as [? _]. done. }
    rewrite Hff. destruct (Z.leb_spec 0 n), (Z.ltb_spec n MAX_FRAMES); (done || lia).
Qed.

Lemma boot_readme_spec h st : heap_holds h [] -> (fat_read_file fuel st readme_txt 4096).2 <> Fuel ->
  exists m h', boot_readme h st = OK (m, h') /\ heap_start h' = heap_start h /\ heap_holds h' [].
Proof.
  intros Hh Hf. unfold boot_readme. destruct (heap_takes h [] Hh) as (h1 & p & E & Es & Hcase).
  change TASK_STACK_SIZE with 4096 in E. rewrite E. cbn [rbind].
  destruct Hcase as [[-> Hh1]|(Hp & Hh1 & _)]; [by exists [], h1|]. rewrite (eqb_false _ _ Hp).
  destruct (fat_read_file fuel st readme_txt 4096) as [m r]. destruct (heap_gives h1 p [] Hh1) as (h2 & E2 & Es2 & Hh2).
  cbn [snd] in Hf. destruct r; [| |done]; cbn [rbind]; rewrite E2; cbn [rbind]; eexists _, h2; (split; [done|]); (split; [congruence|done]).
Qed.

Lemma create_current KD FPT (k : kernel D) s entry launch k' s' r : create KD FPT k s entry launch = (k', s', r) -> current_task s' = current_task s.
Proof.
  unfold create, task_create. destruct (match find_slot s with Some i => _ | None => _ end) as [[id s1]|] eqn:Es.
  2:{ by intros [= <- <- <-]. }
  assert (Hc : current_task s1 = current_task s).
  { destruct (find_slot s); [by injection Es as _ <-|]. destruct (_ <=? _); [done|by injection Es as _ <-]. }
  destruct (env_kmalloc k TASK_STACK_SIZE) as [k1 base]. case_if; [by intros [= <- <- <-]|].
  destruct (env_clone_directory k1) as [k2 dir]. case_if; by intros [= <- <- <-].
Qed.

Lemma boot_create_inv KEND U (k : kernel D) s c entry launch :
  kernel_inv (sym_page_directory sym) (sym_first_page_table sym) KEND U k s (RAt 1) (CDone c) -> current_task s = 0 ->
  let x := create (sym_page_directory sym) (sym_first_page_table sym) k s entry launch in
  kernel_inv (sym_page_directory sym) (sym_first_page_table sym) KEND U x.1.1 x.1.2 (RAt 1) (CDone x.2) /\ current_task x.1.2 = 0.
Proof.
  intros Hk Hc. cbv zeta. pose proof (triple_eta (create (sym_page_directory sym) (sym_first_page_table sym) k s entry launch)) as E.
  split; [|rewrite <- Hc; by eapply create_current].
  eapply create_keeps; [exact Hk|by eapply idle_reachable|exact E].
Qed.

Lemma boot_tasks_inv KEND U h a w (st : fat_state D) log r :
  layout (sym_page_directory sym) (sym_first_page_table sym) KEND U -> pmm_inv a -> (forall n, frame_free a n = U n) ->
  heap_area (sym_page_directory sym) (sym_first_page_table sym) KEND h -> heap_holds h [] ->
  let x := boot_tasks (mk_kernel h a (paging_init w (sym_page_directory sym) (sym_first_page_table sym)).2 st log false) r in
  kernel_inv (sym_page_directory sym) (sym_first_page_table sym) KEND U x.1.1 x.1.2 (RAt 1) (CDone x.2) /\ current_task x.1.2 = 0.
Proof.
  intros L Ha HU Har Hh. cbv zeta. unfold boot_tasks. set (KD := sym_page_directory sym) in *. set (FPT := sym_first_page_table sym) in *.
  pose proof (start_inv KD FPT KEND U h a w st (log ++ (tasking_init KD (no_tasks KD (sym_stack_top sym) (sym_stack_top sym))).1)
    (sym_stack_top sym) (sym_stack_top sym) L Ha HU Har Hh) as Hk.
  destruct (boot_create_inv KEND U _ _ _ (sym_shell_task sym) (sym_task_launch sym) Hk eq_refl) as [Hk1 Hc1].
  fold KD FPT in Hk1, Hc1. destruct (tasking_init _ _) as [m s]. cbn [fst snd] in *. unfold print. cbn [k_heap k_frames k_mmu k_fat k_log k_fault].
  destruct (create KD FPT _ s _ _) as [[k1 s1] c1]. cbn [fst snd] in *. destruct (rtl8139_is_present r); [|done].
  by apply (boot_create_inv KEND U k1 s1 c1).
Qed.

(** The gates, the timer's frequency and the screen do not depend on what the
    devices answer. *)
Lemma boot_devices_fixed c v p m c' freq v' r p' : boot_devices c v p = OK ((m, c', freq, v', r), p') ->
  c_gdt c' = c_gdt c /\ c_tss c' = c_tss c /\ c_idt c' = irq_install (sym_irq sym) (c_idt c) /\ freq = 100 /\ v' = terminal_initialize v.
Proof.
  unfold boot_devices, pit_init. change (100 =? 0) with false. cbv iota zeta. unfold io_bind.
  destruct (pic_remap p) as [[u1 q1]| |]; [|done..]. destruct (Mouse.mouse_install _ _ q1) as [[[m1 t1] q2]| |]; [|done..].
  repeat (destruct (out8 _ _ _) as [[? ?]| |]; [|done..]). cbn [io_ret].
  destruct (Serial.serial_init _ _) as [[t2 q3]| |]; [|done..]. destruct (pci_scan _ _) as [[[m2 ds] q4]| |]; [|done..].
  destruct (rtl8139_init _ _ _ _) as [[[m3 r'] q5]| |]; [|done..]. unfold io_ret. by intros [= _ <- <- <- _ _].
Qed.

End Boot.

(** ** A machine that boots: a drive on the primary channel and a network card
    at slot 3 *)
Module Pc.
Record pc := mk_pc { pc_drive : drive false 2; pc_address : Z }.

Definition config_dword (a : Z) : Z :=
  if a =? 2147489792 then 2168000748 else if a =? 2147489808 then 49153 else if a =? 2147489796 then 0
  else if Z.land a 4294967040 =? 2147489792 then 0 else 4294967295.

#[export] Instance pc_ports : Ports pc := {
  inb d p := if p =? 100 then (1, d) else let '(x, dr) := inb (pc_drive d) p in (x, mk_pc dr (pc_address d));
  outb d p x := mk_pc (outb (pc_drive d) p x) (pc_address d);
  inw d p := let '(x, dr) := inw (pc_drive d) p in (x, mk_pc dr (pc_address d));
  outw d p x := mk_pc (outw (pc_drive d) p x) (pc_address d);
  inl d p := if p =? 3324 then (config_dword (pc_address d), d) else (0, d);
  outl d p x := if p =? 3320 then mk_pc (pc_drive d) x else d }.

#[export] Instance pc_dma : Dma pc := {
  rx_addr := 1064960; tx_addr := 1077248; rx_buffer _ := []; tx_buffer _ := []; set_tx_buffer d _ := d }.

Definition start : pc := mk_pc (Drive (mk_view 0 0 0 0 0 Idle FatDisk.img false)) 0.
Definition symbols : image_symbols :=
  mk_symbols Machine.KD Machine.FPT Machine.kernel_end 1090000 1100000 (fun v => 1048576 + 16 * v) (fun v => 1052672 + 16 * v) 1054000
    1056768 1058000 1060000.
Definition dark : vga := mk_vga (replicate 2000 0) 0 0.
Lemma symbols_linked : linked symbols.
Proof. split; [..|done|]; cbn; unfold aligned, Machine.KD, Machine.FPT, Machine.kernel_end, HEAP_SIZE, REGION; repeat split; (lia || reflexivity). Qed.

Lemma devices_answer : exists x p1 y p2, boot_devices 100 symbols (boot_tables symbols) dark start = OK (x, p1) /\ ata_init 100 p1 = OK (y, p2).
Proof.
  assert (Hb : match boot_devices 100 symbols (boot_tables symbols) dark start with
               | OK (_, p1) => match ata_init 100 p1 with OK _ => true | _ => false end | _ => false end = true) by (vm_compute; reflexivity).
  destruct (boot_devices 100 symbols (boot_tables symbols) dark start) as [[x p1]| |]; [|discriminate..].
  exists x, p1. destruct (ata_init 100 p1) as [[y p2]| |]; [|discriminate..]. exists y, p2. split; reflexivity.
Qed.

Lemma no_readme : (fat_read_file 100 (boot_volume FatDisk.img).2 readme_txt 4096).2 <> Fuel.
Proof. vm_compute. discriminate. Qed.

Lemma machine_entries : mmap_entries 100 Machine.grub_mem Machine.grub_info = OK Machine.regions.
Proof. vm_compute. reflexivity. Qed.

End Pc.
