(* ===== verification/Demos.v ===== *)
(** * Programs that probe memory (src/userspace/writer.c, spy.c, crash.c)

    The three demonstration programs at the level of the memory they touch:
    loads and stores of ring 3 go through the page tables of the directory in
    use, and an access that is not mapped for the program is a page fault.
    [writer] leaves a secret in its own segment and stack, [spy] reads the
    same addresses in another task, [crash] stores to an unmapped address. *)
From S2P Require Import Prelude FatTypes FatDisk Pmm Heap Task Paging Elf Memory Kernel System.

(** ** Accesses of a program *)
Definition user_load (s : mmu) (v : Z) : option Z := load_byte (words s) <$> user_translate (words s) (cr3 s) v.
Definition user_put (s : mmu) (v b : Z) : option mmu :=
  (fun p => mk_mmu (store_byte (words s) p b) (cr3 s)) <$> user_translate (words s) (cr3 s) v.

(** How a program ends: what it wrote to the terminal, the memory it leaves,
    and whether it called [exit] or faulted at an address. *)
Inductive ending :=
| Exited (out : list Z) (s : mmu)
| Faulted (out : list Z) (s : mmu) (v : Z).

Definition RAW : Z := 3147776.        (* 0x300800 *)
Definition STACK_RAW : Z := 4192256.  (* 0x3FF800 *)

(** ** writer.c *)
Definition secret : list Z := [84; 79; 80; 83; 69; 67; 82; 69; 84; 49; 50; 51; 52; 53].
Definition writer_msg : list Z := name_of "writer: wrote secrets to 0x300800 and 0x3ff800, exiting" ++ [10].

(** One byte at both addresses; the address that faults. *)
Definition put_both (s : mmu) (i c : Z) : mmu + mmu * Z :=
  match user_put s (RAW + i) c with
  | None => inr (s, RAW + i)
  | Some s => match user_put s (STACK_RAW + i) c with None => inr (s, STACK_RAW + i) | Some s => inl s end
  end.

Fixpoint write_secret (cs : list Z) (i : Z) (s : mmu) : mmu + mmu * Z :=
  match cs with
  | [] => put_both s i 0
  | c :: cs' => match put_both s i c with inl s => write_secret cs' (i + 1) s | inr e => inr e end
  end.

Definition writer (s : mmu) : ending :=
  match write_secret secret 0 s with
  | inl s => Exited writer_msg s
  | inr (s, v) => Faulted [] s v
  end.

(** ** spy.c *)

(** [while (raw[len] != 0 && len < 32) len++]: the length, or the address
    that faults. *)
Fixpoint spy_len (n : nat) (s : mmu) (raw len : Z) : Z + Z :=
  match user_load s (raw + len) with
  | None => inr (raw + len)
  | Some c => if (c =? 0) then inl len else match n with O => inl len | S n' => spy_len n' s raw (len + 1) end
  end.

Fixpoint user_bytes (n : nat) (s : mmu) (v : Z) : list Z :=
  match n with O => [] | S n' => default 0 (user_load s v) :: user_bytes n' s (v + 1) end.

Definition spy_label (at_ : string) : list Z := name_of "spy: reading " ++ name_of at_ ++ name_of " without writing first: '".

Definition read_and_report (s : mmu) (label : list Z) (raw : Z) : list Z * option Z :=
  match spy_len 32 s raw 0 with
  | inr v => (label, Some v)
  | inl len => (label ++ user_bytes (Z.to_nat len) s raw ++ [39; 10], None)
  end.

Definition spy (s : mmu) : ending :=
  match read_and_report s (spy_label "0x300800") RAW with
  | (o1, Some v) => Faulted o1 s v
  | (o1, None) =>
      match read_and_report s (spy_label "0x3ff800") STACK_RAW with
      | (o2, Some v) => Faulted (o1 ++ o2) s v
      | (o2, None) => Exited (o1 ++ o2) s
      end
  end.

(** ** crash.c *)
Definition BAD : Z := 268435456.  (* 0x10000000 *)
Definition crash_msg : list Z := name_of "crash: about to write to unmapped memory" ++ [10].
Definition survived_msg : list Z := name_of "crash: survived the write (this should never print)" ++ [10].

(** The four bytes of [*bad_ptr = 42]. *)
Fixpoint put_word (bs : list Z) (v : Z) (s : mmu) : mmu + mmu * Z :=
  match bs with
  | [] => inl s
  | b :: bs' => match user_put s v b with Some s => put_word bs' (v + 1) s | None => inr (s, v) end
  end.

Definition crash (s : mmu) : ending :=
  match put_word (put_le32 42) BAD s with
  | inl s => Exited (crash_msg ++ survived_msg) s
  | inr (s, v) => Faulted crash_msg s v
  end.

(** ** What another task sees *)
Section Isolation.
Context {D : Type} (KD FPT KEND : Z) (U : Z -> bool).
Abbreviation kernel_inv := (kernel_inv (D := D) KD FPT KEND U).
Abbreviation pd s i := (page_directory (get_task s i)).

Lemma user_translate_agree w w' d v n : dir_shape FPT KEND w d -> vaddr_ok v ->
  (forall x, x / 4096 <> n -> pload w' x = pload w x) -> n <> d / 4096 -> n <> table_of w d 0 / 4096 ->
  user_translate w' d v = user_translate w d v.
Proof.
  clear. intros Hd Hv Hag Hnd Hnt. unfold vaddr_ok in Hv.
  assert (Ep : pde_of w' d v = pde_of w d v).
  { unfold pde_of. apply Hag. rewrite slot_page by (apply Hd || (unfold REGION; dlia)). congruence. }
  unfold user_translate, walk. rewrite Ep. destruct (decide (v < REGION)) as [Hlt|Hge].
  - assert (Et : entry_frame (pde_of w d v) = table_of w d 0) by (unfold table_of, pde_of; by rewrite (Z.div_small v) by lia).
    rewrite Et. rewrite Hag; [done|]. rewrite slot_page by (apply aligned_entry || (unfold PAGE_SIZE, ENTRIES; dlia)). congruence.
  - unfold pde_of. by rewrite (do_rest _ _ _ _ Hd) by (unfold REGION in *; dlia).
Qed.

(** A store of one task changes no byte another one can load. *)
Lemma store_unseen k s rp cp j v v' s1 b : kernel_inv k s rp cp -> current_task s <> 0 -> 1 <= j < 8 -> j <> current_task s ->
  state (get_task s j) <> TASK_UNUSED -> vaddr_ok v -> vaddr_ok v' -> user_put (k_mmu k) v b = Some s1 ->
  kernel_inv (set_k_mmu k s1) s rp cp /\
  user_load (mk_mmu (words s1) (pd s j)) v' = user_load (mk_mmu (words (k_mmu k)) (pd s j)) v'.
Proof.
  intros Hk Hc Hj Hjc Huj Hv Hv' Hp. pose proof (ki_sched _ _ _ _ _ _ _ _ Hk) as Hs. pose proof (si_cur _ Hs) as Hcur. pose proof (si_count _ Hs) as Hn.
  unfold user_put in Hp. destruct (user_translate (words (k_mmu k)) (cr3 (k_mmu k)) v) as [p|] eqn:Et; [|done]. injection Hp as <-.
  split; [exact (user_store_keeps KD FPT KEND U k s rp cp v p b Hk Hc Hv Et)|].
  assert (Ecr : cr3 (k_mmu k) = pd s (current_task s)) by (rewrite (ki_loaded _ _ _ _ _ _ _ _ Hk); apply Hk). rewrite Ecr in Et.
  assert (Hui : state (get_task s (current_task s)) <> TASK_UNUSED) by (by rewrite running_state).
  destruct (live_frame KD FPT KEND U k s rp cp (current_task s) v p Hk ltac:(lia) Hui Hv Et) as (_ & _ & Hst).
  destruct (live_dir_in KD FPT KEND U k s rp cp j Hk Hj Huj) as [_ Hdj]. destruct (Hst _ Hdj) as [Hd1 Hd2].
  pose proof (mi_dirs _ _ _ _ _ _ _ (ki_mem _ _ _ _ _ _ _ _ Hk) _ Hdj) as Hsh.
  assert (Hag : forall x, x / 4096 <> p / 4096 -> pload (store_byte (words (k_mmu k)) p b) x = pload (words (k_mmu k)) x)
    by (intros x; apply store_byte_off).
  unfold user_load. cbn [words cr3]. rewrite (user_translate_agree (words (k_mmu k)) _ _ v' (p / 4096) Hsh Hv' Hag Hd1 Hd2).
  destruct (user_translate (words (k_mmu k)) (pd s j) v') as [p'|] eqn:Et'; [|done]. cbn. f_equal. unfold load_byte. rewrite Hag; [done|].
  rewrite word_page. intros E. symmetry in E. revert E.
  exact (live_frames_apart KD FPT KEND U k s rp cp (current_task s) j v v' p p' Hk ltac:(lia) Hj ltac:(done) Hv Hv' Hui Huj Et Et').
Qed.

(** What ends up on the terminal, and where the program faulted. *)
Definition memory_of (e : ending) : mmu := match e with Exited _ s | Faulted _ s _ => s end.
Definition reported (e : ending) : list Z * option Z := match e with Exited o _ => (o, None) | Faulted o _ v => (o, Some v) end.

(** Memory that differs from [k]'s in nothing task [j] can load. *)
Definition unseen (k : kernel D) s rp cp j (s1 : mmu) : Prop :=
  kernel_inv (set_k_mmu k s1) s rp cp /\
  forall v, vaddr_ok v -> user_load (mk_mmu (words s1) (pd s j)) v = user_load (mk_mmu (words (k_mmu k)) (pd s j)) v.

Lemma unseen_put k s rp cp j s1 v b s2 : unseen k s rp cp j s1 -> current_task s <> 0 -> 1 <= j < 8 -> j <> current_task s ->
  state (get_task s j) <> TASK_UNUSED -> vaddr_ok v -> user_put s1 v b = Some s2 -> unseen k s rp cp j s2.
Proof.
  intros [Hk Hl] Hc Hj Hjc Hu Hv Hp. split; [by eapply (store_unseen (set_k_mmu k s1) s rp cp j v v)|].
  intros v' Hv'. rewrite <- Hl by done. by eapply (store_unseen (set_k_mmu k s1) s rp cp j v v').
Qed.

Definition sum_memory (r : mmu + mmu * Z) : mmu := match r with inl s => s | inr (s, _) => s end.

Lemma unseen_secret k s rp cp j cs : current_task s <> 0 -> 1 <= j < 8 -> j <> current_task s -> state (get_task s j) <> TASK_UNUSED ->
  forall i s1, 0 <= i -> i + Z.of_nat (length cs) < 1000 -> unseen k s rp cp j s1 -> unseen k s rp cp j (sum_memory (write_secret cs i s1)).
Proof.
  intros Hc Hj Hjc Hu.
  assert (B : forall i s1 c, 0 <= i < 1000 -> unseen k s rp cp j s1 -> unseen k s rp cp j (sum_memory (put_both s1 i c))).
  { intros i s1 c Hi Hs. unfold put_both. destruct (user_put s1 (RAW + i) c) as [s2|] eqn:E1; [|done].
    assert (H2 : unseen k s rp cp j s2) by (eapply unseen_put; [exact Hs|done..| |done]; unfold vaddr_ok, RAW; lia).
    destruct (user_put s2 (STACK_RAW + i) c) as [s3|] eqn:E2; [|done]. eapply unseen_put; [exact H2|done..| |done]. unfold vaddr_ok, STACK_RAW. lia. }
  induction cs as [|c cs IH]; intros i s1 Hi Hn Hs; cbn [write_secret length] in *; [apply B; [lia|done]|].
  pose proof (B i s1 c ltac:(lia) Hs) as H1. destruct (put_both s1 i c) as [s2|e]; [|done]. apply IH; [lia|lia|done].
Qed.

(** What [spy] prints depends only on what it can load. *)
Lemma spy_report_ext s1 s2 label raw : (forall v, vaddr_ok v -> user_load s1 v = user_load s2 v) -> 0 <= raw -> raw + 40 < 4294967296 ->
  read_and_report s1 label raw = read_and_report s2 label raw.
Proof.
  clear. intros He Hr Hr2.
  assert (L : forall n len, 0 <= len -> len + Z.of_nat n <= 32 -> spy_len n s1 raw len = spy_len n s2 raw len).
  { induction n as [|n IH]; intros len Hl Hn; cbn [spy_len]; rewrite He by (unfold vaddr_ok; lia); [done|].
    destruct (user_load s2 (raw + len)); [|done]. case_if; [done|]. apply IH; lia. }
  assert (Bd : forall n len k, 0 <= len -> spy_len n s2 raw len = inl k -> len <= k <= len + Z.of_nat n).
  { induction n as [|n IH]; intros len k Hl; cbn [spy_len]; destruct (user_load s2 (raw + len)); try done.
    - case_if; intros [= <-]; lia.
    - case_if; [intros [= <-]; lia|]. intros Hs. apply IH in Hs; lia. }
  assert (By : forall n v, 0 <= v -> v + Z.of_nat n < 4294967296 -> user_bytes n s1 v = user_bytes n s2 v).
  { induction n as [|n IH]; intros v Hv Hn; cbn [user_bytes]; [done|]. rewrite He, IH by (unfold vaddr_ok; lia). done. }
  unfold read_and_report. rewrite L by lia. destruct (spy_len 32 s2 raw 0) as [len|] eqn:El; [|done].
  apply Bd in El; [|lia]. by rewrite By by lia.
Qed.

Lemma spy_ext s1 s2 : (forall v, vaddr_ok v -> user_load s1 v = user_load s2 v) -> reported (spy s1) = reported (spy s2).
Proof.
  intros He. unfold spy. rewrite !(spy_report_ext s1 s2) by (done || (unfold RAW, STACK_RAW; lia)).
  destruct (read_and_report s2 _ RAW) as [o1 [v|]]; [done|]. by destruct (read_and_report s2 _ STACK_RAW) as [o2 [v|]].
Qed.


(** The address is mapped in no program's directory. *)
Lemma crash_faults (k : kernel D) s rp cp : kernel_inv k s rp cp -> crash (k_mmu k) = Faulted crash_msg (k_mmu k) BAD.
Proof.
  intros Hk. pose proof (cur_shape _ _ _ _ _ _ _ (ki_mem _ _ _ _ _ _ _ _ Hk) (loaded_dir KD FPT KEND U _ _ _ _ Hk)) as Hd.
  assert (E : user_translate (words (k_mmu k)) (cr3 (k_mmu k)) BAD = None).
  { unfold user_translate, walk, pde_of. change (BAD / REGION) with 64. by rewrite (do_rest _ _ _ _ Hd) by lia. }
  unfold crash. change (put_le32 42) with [42; 0; 0; 0]. cbn [put_word]. unfold user_put. by rewrite E.
Qed.

(** [crash] prints its first message and faults at the unmapped address in
    every reachable state; ending it, as the exception handler does, is a step
    of the system that changes no memory and no other task. *)
Theorem crash_contained (x y : system (D := D)) :
  system_inv KD FPT KEND U x -> rtc (kernel_step KD FPT KEND) x y -> current_task (sy_sched y) <> 0 -> not_creating y ->
  let s := sy_sched y in let m := k_mmu (sy_kernel y) in
  let z := yields y (task_exit s) in
  crash m = Faulted crash_msg m BAD /\ kernel_step KD FPT KEND y z /\ system_inv KD FPT KEND U z /\
  words (k_mmu (sy_kernel z)) = words m /\ state (get_task (sy_sched z) (current_task s)) = TASK_UNUSED /\
  (forall j, 0 <= j < 8 -> j <> current_task s -> j <> current_task (sy_sched z) -> get_task (sy_sched z) j = get_task s j).
Proof.
  intros Hx Hr Hc Hnc. cbv zeta. pose proof (kernel_steps_inv KD FPT KEND U x y Hx Hr) as Hy.
  pose proof (ks_exit KD FPT KEND y Hc Hnc) as Hstep.
  split; [by eapply crash_faults|]. split; [exact Hstep|]. split; [by eapply kernel_step_inv|]. split; [done|].
  destruct (exit_spec (sy_sched y)) as (_ & Hu & _ & _ & Ho); [apply Hy|exact Hc|]. exact (conj Hu Ho).
Qed.
End Isolation.

(** ** Instances: the machine of [System] with a program in each task *)
Module Probe.
Import Machine.


Lemma crash_contained_witness : crash (k_mmu (sy_kernel x2)) = Faulted crash_msg (k_mmu (sy_kernel x2)) BAD /\
  state (get_task (task_exit (sy_sched x2)) 2) = TASK_UNUSED.
Proof.
  assert (C : current_task (sy_sched x2) = 2) by (vm_compute; reflexivity).
  assert (C0 : current_task (sy_sched x2) <> 0) by (rewrite C; discriminate).
  destruct (crash_contained KD FPT KEND U started x2 started_inv reach_x2 C0 (or_introl eq_refl)) as (T & _ & _ & _ & Hu & _).
  split; [exact T|]. rewrite C in Hu. exact Hu.
Defined.
End Probe.
