(* ===== verification/Libc.v ===== *)
(** * The user library: strings and conversions (src/userspace/libc.c)

    [strlen], [memset], [memcpy], [strcmp], [itoa] and [atoi] on a byte
    memory; the heap of the library is in [Heap], its system-call wrappers in
    [Syscall].  The loops that look for a terminator run under fuel. *)
From S2P Require Import Prelude Terminal.

(** Memory by byte address. *)
Definition memory := Z -> Z.
Definition store8 (m : memory) (a v : Z) : memory := fun x => if x =? a then v else m x.

Fixpoint strlen (fuel : nat) (m : memory) (s len : Z) : option Z :=
  match fuel with
  | O => None
  | S fuel' => if m (u32 (s + len)) =? 0 then Some len else strlen fuel' m s (u32 (len + 1))
  end.

(** [for (i = 0; i < len; i++) d[i] = v(i);], reading the memory of the moment. *)
Fixpoint fill (n : nat) (i : Z) (m : memory) (d : Z) (v : memory -> Z -> Z) : memory :=
  match n with
  | O => m
  | S n' => fill n' (i + 1) (store8 m (u32 (d + i)) (v m i)) d v
  end.
Definition memset (m : memory) (dest value len : Z) : memory := fill (Z.to_nat len) 0 m dest (fun _ _ => u8 value).
Definition memcpy (m : memory) (dest src len : Z) : memory := fill (Z.to_nat len) 0 m dest (fun m i => m (u32 (src + i))).

Fixpoint strcmp (fuel : nat) (m : memory) (a b : Z) : option Z :=
  match fuel with
  | O => None
  | S fuel' =>
      if negb (m a =? 0) && (m a =? m b) then strcmp fuel' m (u32 (a + 1)) (u32 (b + 1))
      else Some (u8 (m a) - u8 (m b))
  end.

(** The characters at consecutive addresses. *)
Fixpoint store_list (m : memory) (a : Z) (l : list Z) : memory :=
  match l with
  | [] => m
  | c :: l' => store_list (store8 m a c) (u32 (a + 1)) l'
  end.

(** The digits are produced backwards into [tmp] by the loop that the kernel's
    [terminal_print_dec] also has; the negation wraps for the least integer. *)
Definition itoa (m : memory) (value buf : Z) : memory * Z :=
  if value =? 0 then (store8 (store8 m buf 48) (u32 (buf + 1)) 0, 1)
  else
    let negative := value <? 0 in
    let uvalue := if negative then u32 (- value) else u32 value in
    let tmp := dec_buffer 32 uvalue in
    let text := (if negative then [45] else []) ++ reverse tmp in
    (store_list m buf (text ++ [0]), Z.of_nat (length text)).

Fixpoint atoi_digits (fuel : nat) (m : memory) (s i value : Z) : option Z :=
  match fuel with
  | O => None
  | S fuel' =>
      let c := s8 (m (u32 (s + i))) in
      if (c >=? 48) && (c <=? 57) then atoi_digits fuel' m s (i + 1) (s32 (s32 (value * 10) + (c - 48)))
      else Some value
  end.
Definition atoi (fuel : nat) (m : memory) (s : Z) : option Z :=
  let negative := s8 (m s) =? 45 in
  match atoi_digits fuel m s (if negative then 1 else 0) 0 with
  | Some value => Some (if negative then s32 (- value) else value)
  | None => None
  end.

(** ** C strings in memory *)
Record cstr (m : memory) (a : Z) (s : list Z) : Prop := {
  cs_room : 0 <= a /\ a + Z.of_nat (length s) < 4294967296;
  cs_chars : c_string s;
  cs_bytes : forall i c, s !! i = Some c -> m (a + Z.of_nat i) = c;
  cs_end : m (a + Z.of_nat (length s)) = 0 }.

Lemma cstr_cons m a c s : cstr m a (c :: s) -> m a = c /\ 1 <= c < 256 /\ u32 (a + 1) = a + 1 /\ cstr m (a + 1) s.
Proof.
  intros [[Ha Hl] Hc Hb He]. apply Forall_cons_1 in Hc as [Hc Hs]. cbn [length] in *.
  pose proof (Hb 0%nat c eq_refl) as H0. rewrite Z.add_0_r in H0. split; [done|]. split; [done|].
  split; [unfold u32; dlia|]. split; [lia|done| |].
  - intros i x Hi. rewrite <- (Hb (S i) x Hi). f_equal. lia.
  - rewrite <- He. f_equal. lia.
Qed.

Lemma cstr_nil m a : cstr m a [] -> m a = 0.
Proof. intros [_ _ _ He]. cbn in He. by rewrite Z.add_0_r in He. Qed.

(** The order of strings as unsigned bytes, a prefix before its extensions. *)
Fixpoint string_compare (x y : list Z) : comparison :=
  match x, y with
  | [], [] => Eq
  | [], _ :: _ => Lt
  | _ :: _, [] => Gt
  | c :: x', d :: y' => if c =? d then string_compare x' y' else (c ?= d)
  end.

Lemma string_compare_eq x : forall y, string_compare x y = Eq <-> x = y.
Proof.
  induction x as [|c x IH]; intros [|d y]; cbn [string_compare]; try done.
  destruct (Z.eqb_spec c d) as [->|Hne]; [rewrite IH; split; congruence|].
  rewrite Z.compare_eq_iff. split; congruence.
Qed.

(** [strcmp] returns on any two C strings; the sign of its result is their
    order as sequences of unsigned bytes, and zero means equal strings. *)
Theorem strcmp_order m a b x y fuel : cstr m a x -> cstr m b y -> (length x < fuel)%nat ->
  exists r, strcmp fuel m a b = Some r /\ (r ?= 0) = string_compare x y /\ (r = 0 <-> x = y).
Proof.
  intros Hx Hy Hf. assert (H : exists r, strcmp fuel m a b = Some r /\ (r ?= 0) = string_compare x y).
  { revert fuel a b y Hx Hy Hf. induction x as [|c x IH]; intros [|fuel] a b y Hx Hy Hf; cbn in Hf; try lia; cbn [strcmp].
    - rewrite (cstr_nil _ _ Hx). cbn [Z.eqb negb andb]. eexists. split; [done|].
      destruct y as [|d y]; [by rewrite (cstr_nil _ _ Hy)|]. apply cstr_cons in Hy as (-> & Hd & _).
      cbn [string_compare]. rewrite !u8_small by (unfold is_byte; lia). apply Z.compare_lt_iff. lia.
    - apply cstr_cons in Hx as (-> & Hc & -> & Hx). rewrite (proj2 (Z.eqb_neq c 0)) by lia. cbn [negb andb].
      destruct y as [|d y].
      + rewrite (cstr_nil _ _ Hy), (proj2 (Z.eqb_neq c 0)) by lia. eexists. split; [done|]. cbn [string_compare].
        rewrite !u8_small by (unfold is_byte; lia). apply Z.compare_gt_iff. lia.
      + apply cstr_cons in Hy as (-> & Hd & -> & Hy). cbn [string_compare]. destruct (Z.eqb_spec c d) as [->|Hne].
        * by apply IH; [| |lia].
        * eexists. split; [done|]. rewrite !u8_small by (unfold is_byte; lia).
          destruct (Z.compare_spec (c - d) 0), (Z.compare_spec c d); (done || lia). }
  destruct H as (r & Hr & Hc). exists r. split; [done|]. split; [done|].
  rewrite <- string_compare_eq, <- Hc. symmetry. apply Z.compare_eq_iff.
Qed.

Lemma strlen_cstr m a s fuel : cstr m a s -> (length s < fuel)%nat -> strlen fuel m a 0 = Some (Z.of_nat (length s)).
Proof.
  intros [[Ha Hl] Hc Hb He] Hf.
  assert (H : forall k n, (n + k = length s)%nat -> (k < fuel)%nat -> forall f, (k < f)%nat ->
    strlen f m a (Z.of_nat n) = Some (Z.of_nat (length s))); [|by apply (H (length s) 0%nat)].
  induction k as [|k IH]; intros n Hn _ [|f] Hk; try lia; cbn [strlen];
    (assert (E : u32 (a + Z.of_nat n) = a + Z.of_nat n) by (unfold u32; dlia)); rewrite E.
  - replace n with (length s) by lia. by rewrite He.
  - destruct (lookup_lt_is_Some_2 s n) as [c Hc']; [lia|]. rewrite (Hb _ _ Hc').
    pose proof (proj1 (Forall_lookup _ _) Hc _ _ Hc') as Hcr. cbn in Hcr. rewrite (proj2 (Z.eqb_neq c 0)) by lia.
    replace (u32 (Z.of_nat n + 1)) with (Z.of_nat (S n)) by (unfold u32; dlia). apply IH; lia.
Qed.

(** ** Numbers *)
Lemma store_list_spec l : forall m a x, 0 <= a -> a + Z.of_nat (length l) <= 4294967296 ->
  store_list m a l x = if (a <=? x) && (x <? a + Z.of_nat (length l)) then byte_at l (x - a) else m x.
Proof.
  induction l as [|c l IH]; intros m a x Ha Hl; cbn [store_list length] in *.
  { destruct (Z.leb_spec a x), (Z.ltb_spec x (a + Z.of_nat 0)); cbn [andb]; (done || lia). }
  destruct (decide (l = [])) as [->|Hne].
  { cbn [store_list length]. unfold store8. destruct (Z.eqb_spec x a) as [->|Hx].
    - rewrite Z.leb_refl, (proj2 (Z.ltb_lt _ _)) by lia. cbn [andb]. rewrite Z.sub_diag. reflexivity.
    - destruct (Z.leb_spec a x), (Z.ltb_spec x (a + Z.of_nat 1)); cbn [andb]; (done || lia). }
  assert (Hpos : (0 < length l)%nat) by (destruct l; [done|cbn; lia]).
  replace (u32 (a + 1)) with (a + 1) by (unfold u32; dlia). rewrite IH by lia. unfold store8.
  destruct (Z.eqb_spec x a) as [->|Hx].
  - rewrite (proj2 (Z.leb_gt (a + 1) a)), Z.leb_refl, (proj2 (Z.ltb_lt a (a + Z.of_nat (S (length l))))) by lia.
    cbn [andb]. by rewrite Z.sub_diag.
  - destruct (Z.leb_spec (a + 1) x), (Z.leb_spec a x), (Z.ltb_spec x (a + 1 + Z.of_nat (length l))),
      (Z.ltb_spec x (a + Z.of_nat (S (length l)))); cbn [andb]; try done; try lia.
    unfold byte_at. replace (Z.to_nat (x - a)) with (S (Z.to_nat (x - (a + 1)))) by lia. done.
Qed.

Lemma store_list_cstr m a s : c_string s -> 0 <= a -> a + Z.of_nat (length s) < 4294967296 -> cstr (store_list m a (s ++ [0])) a s.
Proof.
  intros Hs Ha Hl. assert (Hlen : Z.of_nat (length (s ++ [0])) = Z.of_nat (length s) + 1) by (rewrite length_app; cbn; lia).
  split; [done|done| |].
  - intros i c Hi. pose proof (lookup_lt_Some _ _ _ Hi). rewrite store_list_spec, Hlen by lia.
    rewrite (proj2 (Z.leb_le _ _)), (proj2 (Z.ltb_lt _ _)) by lia. cbn [andb].
    apply byte_at_lookup. replace (Z.to_nat (a + Z.of_nat i - a)) with i by lia. by apply lookup_app_l_Some.
  - rewrite store_list_spec, Hlen by lia. rewrite (proj2 (Z.leb_le _ _)), (proj2 (Z.ltb_lt _ _)) by lia. cbn [andb].
    apply byte_at_lookup. replace (Z.to_nat (a + Z.of_nat (length s) - a)) with (length s) by lia.
    by apply list_lookup_middle.
Qed.

Lemma s32_step v d : s32 (s32 (s32 v * 10) + d) = s32 (10 * v + d).
Proof.
  assert (W : forall z, exists k, s32 z = z + k * 4294967296).
  { intros z. unfold s32, u32. cbv zeta. case_if; [exists (- (z / 4294967296))|exists (- (z / 4294967296) - 1)]; dlia. }
  destruct (W v) as [k1 E1]. destruct (W (s32 v * 10)) as [k2 E2].
  rewrite E2, E1. replace ((v + k1 * 4294967296) * 10 + k2 * 4294967296 + d) with (10 * v + d + (10 * k1 + k2) * 4294967296) by lia.
  unfold s32, u32. by rewrite Z.mod_add.
Qed.

Lemma atoi_digits_spec m s ds : forall fuel pre v, cstr m s (pre ++ ds) -> Forall (fun c => 48 <= c < 58) ds ->
  (length ds < fuel)%nat ->
  atoi_digits fuel m s (Z.of_nat (length pre)) (s32 v) = Some (s32 (foldl (fun n c => 10 * n + digit_value c) v ds)).
Proof.
  induction ds as [|c ds IH]; intros [|fuel] pre v Hm Hd Hf; cbn in Hf; try lia; cbn [atoi_digits].
  - rewrite app_nil_r in Hm. destruct Hm as [[Hs Hl] _ _ He].
    replace (u32 (s + Z.of_nat (length pre))) with (s + Z.of_nat (length pre)) by (unfold u32; dlia). by rewrite He.
  - apply Forall_cons_1 in Hd as [Hc Hd]. pose proof Hm as [[Hs Hl] _ Hb _]. rewrite length_app in Hl. cbn [length] in Hl.
    replace (u32 (s + Z.of_nat (length pre))) with (s + Z.of_nat (length pre)) by (unfold u32; dlia).
    rewrite (Hb (length pre) c) by (by apply list_lookup_middle). unfold s8. rewrite (proj2 (Z.ltb_lt c 128)) by lia.
    rewrite Z.geb_leb, (proj2 (Z.leb_le 48 c)), (proj2 (Z.leb_le c 57)) by lia. cbn [andb foldl].
    rewrite s32_step. replace (Z.of_nat (length pre) + 1) with (Z.of_nat (length (pre ++ [c]))) by (rewrite length_app; cbn; lia).
    unfold digit_value at 2. rewrite (proj2 (Z.ltb_lt c 58)) by lia. apply IH; [by rewrite <- app_assoc|done|lia].
Qed.

Lemma atoi_digits_start m s pre ds fuel i : i = Z.of_nat (length pre) -> cstr m s (pre ++ ds) ->
  Forall (fun c => 48 <= c < 58) ds -> (length ds < fuel)%nat ->
  atoi_digits fuel m s i 0 = Some (s32 (foldl (fun n c => 10 * n + digit_value c) 0 ds)).
Proof. intros ->. apply (atoi_digits_spec m s ds fuel pre 0). Qed.

(** The text [itoa] writes. *)
Definition int_text (value : Z) : list Z :=
  if value =? 0 then [48] else (if value <? 0 then [45] else []) ++ reverse (dec_buffer 32 (Z.abs value)).

Lemma int_digits n : 0 < n <= 2147483648 ->
  let ds := reverse (dec_buffer 32 n) in
  foldl (fun k c => 10 * k + digit_value c) 0 ds = n /\ Forall (fun c => 48 <= c < 58) ds /\ (0 < length ds <= 10)%nat.
Proof.
  intros Hn. destruct (dec_buffer_spec 32 n) as (Hr & Hf & _);
    [split; [lia|]; change (10 ^ Z.of_nat 32) with 100000000000000000000000000000000; lia|].
  cbv zeta. split; [done|]. split; [by apply Forall_reverse|]. rewrite length_reverse. split.
  - destruct (dec_buffer 32 n); [cbn in Hr; lia|cbn; lia].
  - apply dec_buffer_length. change (10 ^ Z.of_nat 10) with 10000000000. lia.
Qed.

Lemma digits_string ds : Forall (fun c => 48 <= c < 58) ds -> c_string ds.
Proof. intros H. eapply Forall_impl; [done|]. cbn. lia. Qed.

Lemma int_text_ok value : -2147483648 <= value < 2147483648 ->
  c_string (int_text value) /\ (1 <= length (int_text value) <= 11)%nat.
Proof.
  intros Hv. unfold int_text. destruct (Z.eqb_spec value 0); [split; [repeat constructor; lia|cbn; lia]|].
  destruct (int_digits (Z.abs value)) as (_ & Hd & Hl); [lia|]. apply digits_string in Hd.
  split; [apply Forall_app; split; [|done]; case_if; repeat constructor; lia|].
  rewrite length_app. case_if; cbn [length]; lia.
Qed.

Lemma itoa_text m value buf : -2147483648 <= value < 2147483648 ->
  itoa m value buf = (store_list m buf (int_text value ++ [0]), Z.of_nat (length (int_text value))).
Proof.
  intros Hv. unfold itoa, int_text. destruct (Z.eqb_spec value 0); [done|]. cbv zeta.
  replace (if value <? 0 then u32 (- value) else u32 value) with (Z.abs value); [done|].
  unfold u32. destruct (Z.ltb_spec value 0); dlia.
Qed.

(** Every int survives printing and parsing: [itoa] writes a C string of
    at most 11 characters and returns its length, it touches no other byte,
    [strlen] agrees, and [atoi] of the text is the number again (the least
    integer included, its negation wrapping twice). *)
Theorem itoa_atoi m value buf : -2147483648 <= value < 2147483648 -> 0 <= buf < 4294967284 ->
  let '(m', n) := itoa m value buf in
  1 <= n <= 11 /\ strlen 12 m' buf 0 = Some n /\ atoi 12 m' buf = Some value /\
  forall x, x < buf \/ buf + n < x -> m' x = m x.
Proof.
  intros Hv Hb. rewrite itoa_text by done. destruct (int_text_ok value Hv) as [Hs Hl].
  pose proof (store_list_cstr m buf (int_text value) Hs ltac:(lia) ltac:(lia)) as Hc.
  set (m' := store_list m buf (int_text value ++ [0])) in *. split; [lia|].
  split; [apply strlen_cstr; [done|lia]|]. split.
  - unfold atoi, int_text in *. destruct (Z.eqb_spec value 0) as [->|Hne].
    { apply cstr_cons in Hc as Hc'. destruct Hc' as (E & _). rewrite E. cbn [s8 Z.ltb Z.compare Z.eqb].
      change (s8 48 =? 45) with false. cbn iota.
      rewrite (atoi_digits_start m' buf [] [48]); [done|done|done|repeat constructor; lia|cbn; lia]. }
    destruct (int_digits (Z.abs value)) as (Hr & Hd & Hdl); [lia|]. set (ds := reverse (dec_buffer 32 (Z.abs value))) in *.
    destruct (Z.ltb_spec value 0) as [Hneg|Hpos].
    + apply cstr_cons in Hc as Hc'. destruct Hc' as (E & _). rewrite E. change (s8 45 =? 45) with true. cbn iota.
      rewrite (atoi_digits_start m' buf [45] ds 12 1 eq_refl Hc Hd ltac:(lia)), Hr. f_equal. unfold s32, u32. cbv zeta.
      repeat case_if; dlia.
    + assert (E : exists c, m' buf = c /\ 48 <= c < 58).
      { destruct ds as [|c ds']; [cbn in Hdl; lia|]. exists c. cbn [app] in Hc. apply cstr_cons in Hc as (E & _).
        split; [done|]. by apply Forall_cons_1 in Hd as [? _]. }
      destruct E as (c & E & Hcr). rewrite E. unfold s8. rewrite (proj2 (Z.ltb_lt c 128)), (proj2 (Z.eqb_neq c 45)) by lia.
      rewrite (atoi_digits_start m' buf [] ds 12 0 eq_refl Hc Hd ltac:(lia)), Hr. f_equal. unfold s32, u32. cbv zeta.
      case_if; dlia.
  - intros x Hx. unfold m'. rewrite store_list_spec by (rewrite ?length_app; cbn [length]; lia).
    rewrite length_app. cbn [length].
    destruct (Z.leb_spec buf x), (Z.ltb_spec x (buf + Z.of_nat (length (int_text value) + 1))); cbn [andb]; (done || lia).
Qed.

(** ** Blocks *)
Lemma bytefill_spec n : forall i m d v w, 0 <= d -> 0 <= i -> d + i + Z.of_nat n <= 4294967296 ->
  (forall m' j, i <= j < i + Z.of_nat n -> (forall x, d + j <= x \/ x < d + i -> m' x = m x) -> v m' j = w j) ->
  forall x, fill n i m d v x = if (d + i <=? x) && (x <? d + i + Z.of_nat n) then w (x - d) else m x.
Proof.
  induction n as [|n IH]; intros i m d v w Hd Hi Hr Hv x; cbn [fill].
  { destruct (Z.leb_spec (d + i) x), (Z.ltb_spec x (d + i + Z.of_nat 0)); cbn [andb]; (done || lia). }
  replace (u32 (d + i)) with (d + i) by (unfold u32; dlia).
  rewrite (IH (i + 1) (store8 m (d + i) (v m i)) d v w) by (lia ||
    (intros m' j Hj Hm'; apply Hv; [lia|]; intros y Hy; rewrite Hm' by lia; unfold store8;
     by rewrite (proj2 (Z.eqb_neq y (d + i))) by lia)).
  unfold store8. rewrite Hv by (done || lia). destruct (Z.eqb_spec x (d + i)) as [->|Hx].
  - rewrite (proj2 (Z.leb_gt (d + (i + 1)) (d + i))), Z.leb_refl, (proj2 (Z.ltb_lt (d + i) (d + i + Z.of_nat (S n)))) by lia.
    cbn [andb]. f_equal. lia.
  - destruct (Z.leb_spec (d + (i + 1)) x), (Z.leb_spec (d + i) x), (Z.ltb_spec x (d + (i + 1) + Z.of_nat n)),
      (Z.ltb_spec x (d + i + Z.of_nat (S n))); cbn [andb]; (done || lia).
Qed.

(** [memcpy] copies forward, so it is also right for overlapping blocks when
    the destination is below the source. *)
Lemma memcpy_spec m dest src len x : 0 <= dest -> 0 <= src -> 0 <= len -> dest + len <= 4294967296 -> src + len <= 4294967296 ->
  dest <= src \/ src + len <= dest ->
  memcpy m dest src len x = if (dest <=? x) && (x <? dest + len) then m (src + (x - dest)) else m x.
Proof.
  intros Hd Hs Hl Hdr Hsr Hov. unfold memcpy.
  rewrite (bytefill_spec _ 0 m dest _ (fun j => m (src + j))) by (lia ||
    (intros m' j Hj Hm'; rewrite Hm'; [f_equal; unfold u32; dlia|unfold u32; rewrite Z.mod_small by lia; lia])).
  by rewrite Z.add_0_r, Z2Nat.id.
Qed.

Lemma memset_spec m dest value len x : 0 <= dest -> 0 <= len -> dest + len <= 4294967296 ->
  memset m dest value len x = if (dest <=? x) && (x <? dest + len) then u8 value else m x.
Proof.
  intros Hd Hl Hr. unfold memset. rewrite (bytefill_spec _ 0 m dest _ (fun _ => u8 value)) by (done || lia).
  by rewrite Z.add_0_r, Z2Nat.id.
Qed.

(** ** Instances *)
Definition two_strings : memory := store_list (store_list (fun _ => 0) 100 [104; 105; 0]) 200 [104; 200; 0].

Lemma two_strings_a : cstr two_strings 100 [104; 105].
Proof.
  split; [cbn; lia|repeat constructor; lia| |reflexivity].
  intros [|[|i]] c; cbn; intros [= <-]; reflexivity.
Qed.
Lemma two_strings_b : cstr two_strings 200 [104; 200].
Proof.
  split; [cbn; lia|repeat constructor; lia| |reflexivity].
  intros [|[|i]] c; cbn; intros [= <-]; reflexivity.
Qed.

Lemma strcmp_order_witness : exists r, strcmp 3 two_strings 100 200 = Some r /\ (r ?= 0) = Lt.
Proof.
  destruct (strcmp_order two_strings 100 200 [104; 105] [104; 200] 3 two_strings_a two_strings_b) as (r & E & C & _);
    [cbn; lia|]. exists r. split; [exact E|exact C].
Defined.

Lemma itoa_atoi_witness : let '(m, n) := itoa (fun _ => 0) (-2147483648) 1000 in
  n = 11 /\ atoi 12 m 1000 = Some (-2147483648).
Proof.
  pose proof (itoa_atoi (fun _ => 0) (-2147483648) 1000 ltac:(lia) ltac:(lia)) as T.
  destruct (itoa (fun _ => 0) (-2147483648) 1000) as [m n] eqn:E. destruct T as (_ & _ & A & _).
  split; [|exact A]. vm_compute in E. by injection E as _ <-.
Defined.
