(* ===== verification/Shell.v ===== *)
(** * The kernel shell (src/src/shell.c)

    Line input with backspace, the in-place tokenizer and one turn of the
    shell's loop.  The tokenizer cuts the line buffer with terminators and
    returns pointers into it; it is shown to agree with a reference on lists
    and to give back any argument list that was quoted. *)
From S2P Require Import Prelude Usermode.

(** ** Reading a line *)
Section ReadLine.
Context {S : Type} (console_read_char : S -> option (Z * S)).

(** The first [count] bytes of the buffer are [buf]; [None] while the console
    delivers nothing more. *)
Fixpoint shell_read_line (fuel : nat) (s : S) (buf : list Z) (max_len : Z) : option (list Z * S) :=
  match fuel with
  | O => None
  | Datatypes.S fuel' =>
      if Z.of_nat (length buf) <? max_len - 1 then
        match console_read_char s with
        | None => None
        | Some (c, s) =>
            if c =? 10 then Some (buf, s)
            else if c =? 8 then shell_read_line fuel' s (take (length buf - 1) buf) max_len
            else shell_read_line fuel' s (buf ++ [c]) max_len
        end
      else Some (buf, s)
  end.
End ReadLine.

(** ** The tokenizer *)
Definition char_at (line : list Z) (p : nat) : Z := default 0 (line !! p).

(** [while (!stop( *p)) p++;] *)
Fixpoint scan (fuel : nat) (stop : Z -> bool) (line : list Z) (p : nat) : nat :=
  match fuel with
  | O => p
  | S fuel' => if stop (char_at line p) then p else scan fuel' stop line (S p)
  end.

(** The result: the cut line and the token starts, or [TooMany] for -1. *)
Inductive tokens_result := Tokens (line : list Z) (argv : list nat) | TooMany.

Fixpoint tokenize (fuel : nat) (line : list Z) (p : nat) (argv : list nat) (max_args : Z) : option tokens_result :=
  match fuel with
  | O => None
  | S fuel' =>
      if char_at line p =? 0 then Some (Tokens line argv)
      else
        let p := scan (length line) (fun c => negb (c =? 32)) line p in
        if char_at line p =? 0 then Some (Tokens line argv)
        else if Z.of_nat (length argv) >=? max_args then Some TooMany
        else if char_at line p =? 34 then
          let start := S p in
          let q := scan (length line) (fun c => (c =? 0) || (c =? 34)) line start in
          let '(line, q) := if char_at line q =? 34 then (<[q := 0]> line, S q) else (line, q) in
          let q := if char_at line q =? 32 then S q else q in
          tokenize fuel' line q (argv ++ [start]) max_args
        else
          let q := scan (length line) (fun c => (c =? 0) || (c =? 32)) line p in
          let '(line, q) := if char_at line q =? 32 then (<[q := 0]> line, S q) else (line, q) in
          tokenize fuel' line q (argv ++ [p]) max_args
  end.

(** The string a pointer into the line denotes. *)
Fixpoint cstring (l : list Z) : list Z :=
  match l with
  | [] => []
  | c :: rest => if c =? 0 then [] else c :: cstring rest
  end.
Definition arg_at (line : list Z) (i : nat) : list Z := cstring (drop i line).

(** ** One turn of the shell *)
Inductive shell_turn :=
| Reprompt (msg : list tty)
| Launch (argv : list (list Z)).

(** What the shell does with a line; the buffer is the line and its
    terminator. *)
Definition shell_command (line : list Z) : option shell_turn :=
  if (length line =? 0)%nat then Some (Reprompt [])
  else
    match tokenize (S (length line)) (line ++ [0]) 0 [] MAX_ARGS with
    | None => None
    | Some TooMany => Some (Reprompt [TStr "shell: too many arguments (max "; TDec MAX_ARGS; TLn ")"])
    | Some (Tokens _ []) => Some (Reprompt [])
    | Some (Tokens cut argv) => Some (Launch (map (arg_at cut) argv))
    end.

(** ** The reference *)
Fixpoint span (stop : Z -> bool) (l : list Z) : list Z * list Z :=
  match l with
  | [] => ([], [])
  | c :: rest => if stop c then ([], l) else let '(a, b) := span stop rest in (c :: a, b)
  end.

Definition skip_spaces (l : list Z) : list Z := (span (fun c => negb (c =? 32)) l).2.
Definition skip_one (x : Z) (l : list Z) : list Z :=
  match l with c :: rest => if c =? x then rest else l | [] => [] end.

Fixpoint split_words (fuel : nat) (l : list Z) : list (list Z) :=
  match fuel with
  | O => []
  | S fuel' =>
      match skip_spaces l with
      | [] => []
      | c :: rest =>
          if c =? 34 then
            let '(tok, r) := span (Z.eqb 34) rest in tok :: split_words fuel' (skip_one 32 (skip_one 34 r))
          else
            let '(tok, r) := span (Z.eqb 32) (c :: rest) in tok :: split_words fuel' (skip_one 32 r)
      end
  end.

(** ** The tokenizer agrees with the reference *)
Lemma span_spec stop l : let '(a, b) := span stop l in
  l = a ++ b /\ Forall (fun c => stop c = false) a /\ match b with [] => True | c :: _ => stop c = true end.
Proof.
  induction l as [|c l IH]; cbn [span]; [done|]. destruct (stop c) eqn:E; [done|].
  destruct (span stop l) as [a b]. destruct IH as (-> & Ha & Hb). split; [done|]. split; [by constructor|done].
Qed.

Lemma span_ext f g l : Forall (fun c => f c = g c) l -> span f l = span g l.
Proof. induction 1 as [|c l Hc _ IH]; cbn [span]; [done|]. by rewrite Hc, IH. Qed.

Lemma char_at_end pre s post : char_at (pre ++ s ++ 0 :: post) (length pre) = default 0 (head s).
Proof.
  unfold char_at. rewrite lookup_app_r by lia. rewrite Nat.sub_diag. by destruct s.
Qed.

Lemma scan_span stop fuel : forall pre s post, stop 0 = true -> (length s < fuel)%nat ->
  scan fuel stop (pre ++ s ++ 0 :: post) (length pre) = (length pre + length (span stop s).1)%nat.
Proof.
  induction fuel as [|fuel IH]; intros pre s post H0 Hl; [lia|]. cbn [scan]. rewrite char_at_end.
  destruct s as [|c s]; cbn [head default from_option id span]; [by rewrite H0, Nat.add_0_r|].
  destruct (stop c) eqn:E; [by rewrite Nat.add_0_r|].
  replace (S (length pre)) with (length (pre ++ [c])) by (rewrite length_app; cbn; lia).
  replace (pre ++ (c :: s) ++ 0 :: post) with ((pre ++ [c]) ++ s ++ 0 :: post) by (by rewrite <- app_assoc).
  rewrite IH by (done || cbn in Hl; lia). rewrite length_app. destruct (span stop s). cbn. lia.
Qed.

(** A token that starts at [i] and whose terminator is in place. *)
Definition closed (l : list Z) (i : nat) (tok : list Z) : Prop :=
  exists a b, l = a ++ tok ++ 0 :: b /\ length a = i /\ Forall (fun c => c <> 0) tok.

Lemma closed_app l m i tok : closed l i tok -> closed (l ++ m) i tok.
Proof. intros (a & b & -> & Ha & Ht). exists a, (b ++ m). split; [|done]. by rewrite <- !app_assoc. Qed.

Lemma closed_arg l i tok : closed l i tok -> arg_at l i = tok.
Proof.
  intros (a & b & -> & <- & Ht). unfold arg_at. rewrite drop_app_length.
  induction Ht as [|c tok Hc _ IH]; cbn [app cstring]; [done|]. rewrite (proj2 (Z.eqb_neq _ _) Hc). by f_equal.
Qed.

Lemma closed_all_app l m argv toks : Forall2 (closed l) argv toks -> Forall2 (closed (l ++ m)) argv toks.
Proof. intros H. eapply Forall2_impl; [done|]. intros. by apply closed_app. Qed.

Lemma closed_args l argv toks : Forall2 (closed l) argv toks -> map (arg_at l) argv = toks.
Proof. induction 1 as [|i tok argv toks Hc _ IH]; cbn; [done|]. by rewrite (closed_arg _ _ _ Hc), IH. Qed.

Lemma nonzero_string s : c_string s -> Forall (fun c => c <> 0) s.
Proof. intros H. eapply Forall_impl; [done|]. cbn. lia. Qed.

(** The end of a token: cut at the delimiter [x], or the end of the line. *)
Lemma cut_token x pre tok r : x <> 0 -> Forall (fun c => c <> 0) tok ->
  match r with [] => True | c :: _ => c = x end ->
  let line := pre ++ (tok ++ r) ++ [0] in
  let q := (length pre + length tok)%nat in
  exists pre', (if char_at line q =? x then (<[q := 0]> line, S q) else (line, q))
      = (pre' ++ skip_one x r ++ [0], length pre') /\
    (exists m, pre' = pre ++ m) /\
    (closed pre' (length pre) tok \/ (skip_one x r = [] /\ closed (pre' ++ [0]) (length pre) tok)).
Proof.
  intros Hx Ht Hr. cbv zeta.
  replace (pre ++ (tok ++ r) ++ [0]) with ((pre ++ tok) ++ r ++ [0]) by (by rewrite <- !app_assoc).
  replace (length pre + length tok)%nat with (length (pre ++ tok)) by (by rewrite length_app).
  rewrite (char_at_end (pre ++ tok) r []). destruct r as [|c r]; cbn [head default from_option id skip_one].
  - destruct (Z.eqb_spec 0 x) as [E|_]; [by destruct Hx|]. exists (pre ++ tok). split; [done|]. split; [eauto|].
    right. split; [done|]. exists pre, []. by rewrite <- app_assoc.
  - subst c. rewrite Z.eqb_refl. exists ((pre ++ tok) ++ [0]). split; [|split].
    + rewrite insert_app_r_alt by lia. rewrite Nat.sub_diag, (length_app _ [0]). cbn. rewrite Nat.add_1_r.
      by rewrite <- (app_assoc _ [0]).
    + exists (tok ++ [0]). by rewrite <- app_assoc.
    + left. exists pre, []. by rewrite <- app_assoc.
Qed.

(** The tokens of the cut line, the last one closed by the end of the line. *)
Definition all_closed (pre s : list Z) (argv : list nat) (toks : list (list Z)) : Prop :=
  Forall2 (closed pre) argv toks \/ (s = [] /\ Forall2 (closed (pre ++ [0])) argv toks).

Lemma all_closed_snoc pre m s argv toks i tok : Forall2 (closed pre) argv toks ->
  closed (pre ++ m) i tok \/ (s = [] /\ closed ((pre ++ m) ++ [0]) i tok) ->
  all_closed (pre ++ m) s (argv ++ [i]) (toks ++ [tok]).
Proof.
  intros Hc [Ht|[-> Ht]]; [left|right; split; [done|]]; apply Forall2_app;
    [by apply closed_all_app|by constructor|rewrite <- app_assoc; by apply closed_all_app|by constructor].
Qed.

(** Skipping a space after a closing quote keeps the tokens. *)
Lemma skip_space pre s argv toks : all_closed pre s argv toks ->
  exists pre', pre ++ s ++ [0] = pre' ++ skip_one 32 s ++ [0] /\
    (if char_at (pre ++ s ++ [0]) (length pre) =? 32 then S (length pre) else length pre) = length pre' /\
    all_closed pre' (skip_one 32 s) argv toks.
Proof.
  intros Hc. rewrite (char_at_end pre s []). destruct s as [|c s]; cbn [head default from_option id skip_one]; [by exists pre|].
  destruct (Z.eqb_spec c 32) as [->|_]; [|by exists pre]. destruct Hc as [Hc|[? _]]; [|done].
  exists (pre ++ [32]). rewrite <- app_assoc, length_app, Nat.add_1_r. split; [done|]. split; [done|].
  left. by apply closed_all_app.
Qed.

Lemma length_skip_one x l : (length (skip_one x l) <= length l)%nat.
Proof. destruct l as [|c l]; cbn; [lia|]. destruct (c =? x); cbn; lia. Qed.

Lemma skip_one_string x l : c_string l -> c_string (skip_one x l).
Proof. destruct l as [|c l]; cbn; [done|]. intros H. destruct (c =? x); [by apply Forall_cons_1 in H as [_ H]|done]. Qed.

Lemma span_delim x l : Forall (fun c => c <> 0) l -> span (fun c => (c =? 0) || (c =? x)) l = span (Z.eqb x) l.
Proof.
  intros H. apply span_ext. eapply Forall_impl; [done|]. cbn. intros c Hc.
  by rewrite (proj2 (Z.eqb_neq _ _) Hc), Z.eqb_sym.
Qed.

(** What a delimiter scan leaves. *)
Lemma span_cut x l : c_string l ->
  let '(tok, r) := span (Z.eqb x) l in
  l = tok ++ r /\ c_string r /\ Forall (fun c => c <> 0) tok /\ match r with [] => True | c :: _ => c = x end.
Proof.
  intros Hl. pose proof (span_spec (Z.eqb x) l) as H. destruct (span (Z.eqb x) l) as [tok r].
  destruct H as (-> & _ & Hr). apply Forall_app in Hl as [Ht Hl]. split; [done|]. split; [done|].
  split; [by apply nonzero_string|]. destruct r; [done|]. by apply Z.eqb_eq in Hr.
Qed.

(** The result the words of a line call for. *)
Definition tokens_ok (max : Z) (words : list (list Z)) (r : tokens_result) : Prop :=
  match r with
  | Tokens line argv => map (arg_at line) argv = words /\ Z.of_nat (length argv) <= max
  | TooMany => max < Z.of_nat (length words)
  end.

Lemma tokenize_ref fuel : forall pre s argv toks max,
  c_string s -> (length s < fuel)%nat -> Z.of_nat (length toks) <= max -> length argv = length toks ->
  all_closed pre s argv toks ->
  exists r, tokenize fuel (pre ++ s ++ [0]) (length pre) argv max = Some r /\
    tokens_ok max (toks ++ split_words fuel s) r.
Proof.
  induction fuel as [|fuel IH]; intros pre s argv toks max Hs Hl Hmax Hlen Hc; [lia|].
  cbn [tokenize split_words]. rewrite (char_at_end pre s []).
  destruct s as [|c0 s0] eqn:Es.
  { cbn [head default from_option id Z.eqb]. eexists. split; [done|]. cbn [skip_spaces span snd app].
    rewrite app_nil_r. split; [|lia]. destruct Hc as [Hc|[_ Hc]]; [|by apply closed_args].
    by apply closed_args, closed_all_app. }
  destruct Hc as [Hc|[? _]]; [|done]. rewrite <- Es in *. cbn [head default from_option id].
  assert (Hc0 : c0 <> 0). { rewrite Es in Hs. apply Forall_cons_1 in Hs as [? _]. lia. }
  replace (default 0 (head s)) with c0 by (by rewrite Es). rewrite (proj2 (Z.eqb_neq _ _) Hc0).
  rewrite scan_span; [|done|rewrite !length_app; cbn; lia].
  unfold skip_spaces. pose proof (span_spec (fun c => negb (c =? 32)) s) as Hsp.
  destruct (span (fun c => negb (c =? 32)) s) as [sp rest]. cbn [fst snd].
  destruct Hsp as (-> & _ & Hrest). clear Es c0 s0 Hc0.
  replace (pre ++ (sp ++ rest) ++ [0]) with ((pre ++ sp) ++ rest ++ [0]) by (by rewrite <- !app_assoc).
  replace (length pre + length sp)%nat with (length (pre ++ sp)) by (by rewrite length_app).
  rewrite (char_at_end (pre ++ sp) rest []). destruct rest as [|c rest]; cbn [head default from_option id].
  { eexists. split; [done|]. rewrite app_nil_r. split; [|lia]. apply closed_args. rewrite <- app_assoc. by apply closed_all_app. }
  apply Forall_app in Hs as [_ Hs]. pose proof (nonzero_string _ Hs) as Hnz.
  apply Forall_cons_1 in Hs as [Hcz Hs]. rewrite (proj2 (Z.eqb_neq c 0)) by lia.
  rewrite length_app in Hl. cbn [length] in Hl. rewrite Z.geb_leb.
  destruct (Z.leb_spec max (Z.of_nat (length argv))) as [Hfull|Hroom].
  { eexists. split; [done|]. cbn beta iota. destruct (c =? 34).
    all: destruct (span _ _); cbn [tokens_ok]; rewrite length_app; cbn [length]; lia. }
  assert (IH' : forall pre' s' i tok, c_string s' -> (length s' < fuel)%nat ->
    all_closed pre' s' (argv ++ [i]) (toks ++ [tok]) ->
    exists r, tokenize fuel (pre' ++ s' ++ [0]) (length pre') (argv ++ [i]) max = Some r /\
      tokens_ok max (toks ++ tok :: split_words fuel s') r).
  { intros pre' s' i tok Hs' Hl' Hc'.
    replace (toks ++ tok :: split_words fuel s') with ((toks ++ [tok]) ++ split_words fuel s') by (by rewrite <- app_assoc).
    apply IH; rewrite ?length_app; cbn [length]; (done || lia). }
  clear IH. destruct (Z.eqb_spec c 34) as [->|Hq].
  - pose proof (span_cut 34 rest Hs) as Hcut. apply Forall_cons_1 in Hnz as [_ Hnz].
    replace ((pre ++ sp) ++ (34 :: rest) ++ [0]) with ((pre ++ sp ++ [34]) ++ rest ++ [0]) by (by rewrite <- !app_assoc).
    replace (S (length (pre ++ sp))) with (length (pre ++ sp ++ [34])) by (rewrite !length_app; cbn; lia).
    rewrite scan_span, span_delim; [|done|done|rewrite !length_app; cbn; lia].
    destruct (span (Z.eqb 34) rest) as [tok r]. cbn [fst]. destruct Hcut as (-> & Hr & Ht & Hx).
    destruct (cut_token 34 (pre ++ sp ++ [34]) tok r) as (pre' & -> & [m Hm] & Hnew); [done..|].
    rewrite <- app_assoc in Hm. subst pre'. cbn [fst snd].
    destruct (skip_space _ _ (argv ++ [length (pre ++ sp ++ [34])]) (toks ++ [tok])
                (all_closed_snoc _ _ _ _ _ _ _ Hc Hnew)) as (pre' & -> & -> & Hc').
    cbv zeta. apply IH'; [by apply skip_one_string, skip_one_string| |done].
    rewrite length_app in Hl. pose proof (length_skip_one 32 (skip_one 34 r)). pose proof (length_skip_one 34 r). lia.
  - pose proof (span_cut 32 (c :: rest) (Forall_cons_2 _ _ _ Hcz Hs)) as Hcut.
    rewrite scan_span, span_delim; [|done|done|rewrite !length_app; cbn; lia].
    destruct (span (Z.eqb 32) (c :: rest)) as [tok r]. cbn [fst]. destruct Hcut as (Ecut & Hr & Ht & Hx). rewrite Ecut.
    destruct (cut_token 32 (pre ++ sp) tok r) as (pre' & -> & [m Hm] & Hnew); [done..|].
    rewrite <- app_assoc in Hm. subst pre'.
    apply IH'; [by apply skip_one_string| |by apply all_closed_snoc].
    apply (f_equal length) in Ecut. rewrite length_app in Ecut. cbn [length] in Ecut.
    destruct tok as [|t tok]; [|pose proof (length_skip_one 32 r); cbn in Ecut; lia].
    destruct r as [|x r]; [done|]. subst x. cbn in Ecut |- *. lia.
Qed.

(** The tokenizer, which cuts the line in place and hands out pointers
    into it, returns on every line, and the strings its pointers denote are
    the words of the reference splitter (spaces separate, a quote runs to the
    next quote), provided there are at most [max]; with more it reports too
    many arguments. *)
Theorem tokenize_splits line max : c_string line -> 0 <= max ->
  let words := split_words (S (length line)) line in
  exists r, tokenize (S (length line)) (line ++ [0]) 0 [] max = Some r /\
    if Z.of_nat (length words) <=? max
    then exists cut argv, r = Tokens cut argv /\ map (arg_at cut) argv = words
    else r = TooMany.
Proof.
  intros Hl Hm. cbv zeta. destruct (tokenize_ref (S (length line)) [] line [] [] max) as (r & Hr & Hok); [done|lia|done|done|by left|].
  exists r. split; [done|]. destruct r as [cut argv|]; cbn [app tokens_ok] in Hok.
  - destruct Hok as [<- Hlen]. rewrite length_map. rewrite (proj2 (Z.leb_le _ _) Hlen). eauto.
  - by rewrite (proj2 (Z.leb_gt _ _) Hok).
Qed.

(** [run  "a b"c] *)
Definition sample_line : list Z := [114; 117; 110; 32; 32; 34; 97; 32; 98; 34; 99].

Lemma tokenize_splits_witness :
  split_words 12 sample_line = [[114; 117; 110]; [97; 32; 98]; [99]] /\
  exists r, tokenize 12 (sample_line ++ [0]) 0 [] 16 = Some r /\
    exists cut argv, r = Tokens cut argv /\ map (arg_at cut) argv = split_words 12 sample_line.
Proof.
  split; [reflexivity|].
  apply (tokenize_splits sample_line 16); [unfold c_string; repeat (constructor; [lia|]); constructor|lia].
Defined.

(** ** Spelling arguments on a command line *)
Definition quoted (a : list Z) : list Z := 34 :: a ++ [34].
(** An argument with no quote can be quoted; one that is not empty, has no
    space and does not begin with a quote can also be written bare. *)
Definition bare_ok (a : list Z) : Prop := match a with [] => False | c :: _ => c <> 34 /\ Forall (fun c => c <> 32) a end.
Inductive spelling (a : list Z) : list Z -> Prop :=
| Quoted : Forall (fun c => c <> 34) a -> spelling a (quoted a)
| Bare : bare_ok a -> spelling a a.

(** A line: spellings, with one space or more between them. *)
Inductive spells : list (list Z) -> list Z -> Prop :=
| SpellOne a l : spelling a l -> spells [a] l
| SpellSpace args l : spells args l -> spells args (32 :: l)
| SpellMore a l args rest : spelling a l -> spells args rest -> spells (a :: args) (l ++ 32 :: rest).

Lemma span_app stop a l : Forall (fun c => stop c = false) a ->
  match l with [] => True | c :: _ => stop c = true end -> span stop (a ++ l) = (a, l).
Proof.
  intros Ha Hl. induction Ha as [|c a Hc _ IH]; cbn [app span].
  - destruct l as [|c l]; cbn [span]; [done|]. by rewrite Hl.
  - by rewrite Hc, IH.
Qed.

Lemma split_spaces fuel l : split_words fuel (32 :: l) = split_words fuel l.
Proof. destruct fuel; cbn [split_words]; [done|]. unfold skip_spaces. cbn [span Z.eqb negb]. by destruct (span _ l). Qed.

Lemma no_delim x a : Forall (fun c => c <> x) a -> Forall (fun c => (x =? c) = false) a.
Proof. intros H. eapply Forall_impl; [done|]. cbv beta. intros c Hc. by apply Z.eqb_neq. Qed.

(** The first word of a line that begins with a spelling. *)
Lemma split_spelling fuel a l rest : spelling a l -> match rest with [] => True | c :: _ => c = 32 end ->
  split_words (S fuel) (l ++ rest) = a :: split_words fuel (skip_one 32 rest).
Proof.
  intros Hsp Hr. destruct Hsp as [Ha|Ha]; cbn [split_words]; unfold skip_spaces.
  - unfold quoted. rewrite <- app_comm_cons, <- app_assoc. cbn [span Z.eqb Pos.eqb negb snd app].
    rewrite span_app; [done| |done]. by apply no_delim.
  - destruct a as [|c a]; [done|]. destruct Ha as [Hq Hs]. pose proof (Forall_inv Hs) as Hc. cbn in Hc.
    pose proof (span_app (Z.eqb 32) (c :: a) rest (no_delim _ _ Hs)) as E. cbn [app] in *.
    cbn [span] in E |- *. rewrite (proj2 (Z.eqb_neq _ _) Hc). cbn [negb snd].
    rewrite (proj2 (Z.eqb_neq _ _) Hq), E; [done|]. destruct rest; [done|by subst].
Qed.

Lemma split_spells args l : spells args l -> forall fuel, (length args < fuel)%nat -> split_words fuel l = args.
Proof.
  induction 1 as [a l Hl|args l _ IH|a l args rest Hl _ IH]; intros fuel Hf.
  - destruct fuel as [|fuel]; [lia|]. rewrite <- (app_nil_r l), (split_spelling fuel a l []) by done.
    destruct fuel; [cbn in Hf; lia|]. done.
  - rewrite split_spaces. by apply IH.
  - destruct fuel as [|fuel]; [lia|]. rewrite (split_spelling fuel a l) by done. cbn [skip_one Z.eqb Pos.eqb].
    rewrite IH; [done|]. cbn in Hf. lia.
Qed.

Lemma spelling_length a l : spelling a l -> (0 < length l)%nat.
Proof. destruct 1; [cbn; lia|]. destruct a; [done|cbn; lia]. Qed.

Lemma spells_length args l : spells args l -> (0 < length args <= length l)%nat.
Proof.
  induction 1 as [a l Hl|args l _ IH|a l args rest Hl _ IH]; try apply spelling_length in Hl;
    rewrite ?length_app; cbn [length]; lia.
Qed.

(** ** Typing a line *)

(** What the keys leave on the line, the corrections made. *)
Definition key_step (buf : list Z) (c : Z) : list Z := if c =? 8 then take (length buf - 1) buf else buf ++ [c].
Definition typed_line (keys : list Z) : list Z := foldl key_step [] keys.

Section Typing.
Context {S : Type} (console_read_char : S -> option (Z * S)).

(** The console delivers these characters one after the other. *)
Inductive delivers : S -> list Z -> S -> Prop :=
| DeliversEnd s : delivers s [] s
| DeliversMore s c s' keys s'' : console_read_char s = Some (c, s') -> delivers s' keys s'' -> delivers s (c :: keys) s''.

(** No moment of the typing has the buffer full. *)
Definition fits (buf keys : list Z) (max_len : Z) : Prop :=
  forall n, Z.of_nat (length (foldl key_step buf (take n keys))) < max_len - 1.

Lemma fits_cons buf c keys max_len : fits buf (c :: keys) max_len ->
  Z.of_nat (length buf) < max_len - 1 /\ fits (key_step buf c) keys max_len.
Proof. intros H. split; [apply (H 0%nat)|]. intros n. apply (H (Datatypes.S n)). Qed.

Lemma shell_read_line_spec keys : forall s s' buf fuel max_len,
  Forall (fun c => c <> 10) keys -> fits buf keys max_len -> (length keys < fuel)%nat ->
  delivers s (keys ++ [10]) s' ->
  shell_read_line console_read_char fuel s buf max_len = Some (foldl key_step buf keys, s').
Proof.
  induction keys as [|c keys IH]; intros s s' buf [|fuel] max_len Hk Hfit Hf Hd; cbn in Hf; try lia.
  - cbn [shell_read_line]. pose proof (Hfit 0%nat) as Hb. cbn in Hb. rewrite (proj2 (Z.ltb_lt _ _) Hb).
    inversion Hd as [|? ? ? ? ? E Hend]; subst. rewrite E. cbn. by inversion Hend.
  - apply fits_cons in Hfit as [Hb Hfit]. apply Forall_cons_1 in Hk as [Hc Hk].
    cbn [shell_read_line]. rewrite (proj2 (Z.ltb_lt _ _) Hb).
    cbn [app] in Hd. inversion Hd as [|? ? ? ? ? E Hrest]; subst. rewrite E, (proj2 (Z.eqb_neq _ _) Hc).
    cbn [foldl]. unfold key_step at 2. destruct (c =? 8) eqn:E8.
    + apply IH; [done| |lia|done]. unfold key_step in Hfit. by rewrite E8 in Hfit.
    + apply IH; [done| |lia|done]. unfold key_step in Hfit. by rewrite E8 in Hfit.
Qed.
End Typing.

Lemma key_step_string buf c : c_string buf -> 1 <= c < 256 -> c_string (key_step buf c).
Proof.
  intros Hb Hc. unfold key_step. destruct (c =? 8); [by apply Forall_take|]. apply Forall_app. split; [done|by constructor].
Qed.

Lemma typed_string keys : c_string keys -> c_string (typed_line keys).
Proof.
  unfold typed_line. assert (H0 : c_string []) by constructor. revert H0. generalize (@nil Z) as buf.
  induction keys as [|c keys IH]; intros buf Hb Hk; cbn [foldl]; [done|].
  apply Forall_cons_1 in Hk as [Hc Hk]. apply IH; [by apply key_step_string|done].
Qed.

Lemma shell_command_spells args line : c_string line -> spells args line -> Z.of_nat (length args) <= MAX_ARGS ->
  shell_command line = Some (Launch args).
Proof.
  intros Hl Hsp Hmax. pose proof (spells_length _ _ Hsp) as [Hpos Hlen]. unfold shell_command.
  rewrite (proj2 (Nat.eqb_neq _ _)) by lia.
  destruct (tokenize_ref (S (length line)) [] line [] [] MAX_ARGS) as (r & Hr & Hok); [done|lia|done|done|by left|].
  cbn [app length] in Hr, Hok. rewrite Hr. rewrite (split_spells args line Hsp) in Hok by lia. clear Hr.
  destruct r as [cut argv|]; cbn [tokens_ok] in Hok; [|lia]. destruct Hok as [Hok _].
  destruct argv as [|i argv]; [subst args; cbn in Hpos; lia|]. by rewrite Hok.
Qed.

(** C29: Typing a command line.  Whatever keys were used, corrections with
    backspace included, when the line they leave spells an argument list (each
    argument quoted or, where it can be, bare; spaces between) of at most
    [MAX_ARGS] arguments, then reading the line and tokenizing it launches a
    program with exactly those arguments. *)
Theorem shell_launches_typed {S} (console_read_char : S -> option (Z * S)) keys s s' args :
  Forall (fun c => 0 < c < 256 /\ c <> 10) keys -> fits [] keys 256 -> delivers console_read_char s (keys ++ [10]) s' ->
  spells args (typed_line keys) -> Z.of_nat (length args) <= MAX_ARGS ->
  exists line, shell_read_line console_read_char (Datatypes.S (length keys)) s [] 256 = Some (line, s') /\
    shell_command line = Some (Launch args).
Proof.
  intros Hk Hfit Hd Hsp Hmax. exists (typed_line keys). split.
  { apply shell_read_line_spec; [|done|lia|done]. eapply Forall_impl; [done|]. by intros ? [_ ?]. }
  assert (Hl : c_string (typed_line keys)) by (apply typed_string; eapply Forall_impl; [done|]; cbn; lia).
  by apply shell_command_spells.
Qed.

(** A console whose characters are all there: the keys [cx\b "a b"]. *)
Definition queued (l : list Z) : option (Z * list Z) := match l with [] => None | c :: l => Some (c, l) end.
Definition sample_keys : list Z := [99; 120; 8; 32; 34; 97; 32; 98; 34].

Lemma shell_launches_typed_witness :
  exists line, shell_read_line queued 10 (sample_keys ++ [10]) [] 256 = Some (line, []) /\
    shell_command line = Some (Launch [[99]; [97; 32; 98]]).
Proof.
  apply (shell_launches_typed queued sample_keys (sample_keys ++ [10]) [] [[99]; [97; 32; 98]]).
  - repeat (constructor; [lia|]). constructor.
  - intros n. do 10 (destruct n as [|n]; [vm_compute; reflexivity|]). vm_compute. reflexivity.
  - repeat (econstructor; [reflexivity|]). constructor.
  - apply (SpellMore [99] [99] [[97; 32; 98]] (quoted [97; 32; 98])).
    + apply Bare. split; [lia|]. repeat (constructor; [lia|]). constructor.
    + apply SpellOne, Quoted. repeat (constructor; [lia|]). constructor.
  - vm_compute. discriminate.
Defined.

(** ** One turn of the loop *)

(** The line is read, tokenized, and a task is created for the launch; the
    shell waits for it. *)
Inductive shell_step :=
| Prompt (msg : list tty)             (* back to the prompt *)
| WaitFor (child : Z) (argv : list (list Z)).  (* the task that runs argv *)

Definition shell_loop {S T} (console_read_char : S -> option (Z * S)) (task_create : T -> Z * T)
    (fuel : nat) (s : S) (t : T) : option (shell_step * S * T) :=
  match shell_read_line console_read_char fuel s [] 256 with
  | None => None
  | Some (line, s) =>
      match shell_command line with
      | None => None
      | Some (Reprompt msg) => Some (Prompt msg, s, t)
      | Some (Launch argv) =>
          let '(child_id, t) := task_create t in
          if child_id <? 0 then Some (Prompt [TLn "shell: could not create task"], s, t)
          else Some (WaitFor child_id argv, s, t)
      end
  end.
