(* ===== verification/Syscall.v ===== *)
(** * System calls (src/src/syscall.c, src/src/exec.c, src/userspace/libc.c)

    The dispatcher of [int 0x80], with the kernel's services behind an
    interface, and the wrappers of the user library that load the registers
    for it.  Memory is the byte memory the program and the kernel share while
    the program's address space is in use. *)
From S2P Require Import Prelude FatTypes FatName FatTable FatDir FatFile FatWrite FatDisk Usermode Libc Shell.

Record registers := mk_regs { eax : Z; ebx : Z; ecx : Z; edx : Z; esi : Z; edi : Z }.
Definition set_eax (r : registers) (v : Z) : registers := mk_regs v (ebx r) (ecx r) (edx r) (esi r) (edi r).

Definition SYSCALL_WRITE : Z := 0.
Definition SYSCALL_EXIT : Z := 1.
Definition SYSCALL_READ : Z := 2.
Definition SYSCALL_OPEN : Z := 3.
Definition SYSCALL_CLOSE : Z := 4.
Definition SYSCALL_LIST : Z := 5.
Definition SYSCALL_SOCKET_ACCEPT : Z := 6.
Definition SYSCALL_SOCKET_RECV : Z := 7.
Definition SYSCALL_SOCKET_SEND : Z := 8.
Definition SYSCALL_SOCKET_CLOSE : Z := 9.
Definition SYSCALL_OPEN_WRITE : Z := 10.
Definition SYSCALL_FWRITE : Z := 11.
Definition SYSCALL_MKDIR : Z := 12.
Definition SYSCALL_SEEK : Z := 13.
Definition SYSCALL_DNS_RESOLVE : Z := 14.
Definition SYSCALL_RTC_READ : Z := 15.
Definition SYSCALL_MOUSE_READ : Z := 16.
Definition SYSCALL_RUN : Z := 17.
Definition SYSCALL_DRAW_TEXT : Z := 18.

(** ** What the dispatcher calls

    [K] is the state of the kernel's components.  An inner [None] is the
    error -1; an outer [None] is a call that is still blocked. *)
Class Services (K : Type) := {
  sv_putchar : K -> Z -> K;
  sv_print : K -> list tty -> K;
  sv_read_char : K -> option (Z * K);
  sv_read : K -> Z -> Z -> K * option (list Z);
  sv_open : K -> list Z -> K * option Z;
  sv_close : K -> Z -> K * option Z;
  sv_list : K -> list Z -> Z -> Z -> option (list Z * Z * Z);  (* name with its terminator, size, is_dir *)
  sv_accept : K -> option (K * Z);
  sv_recv : K -> Z -> Z -> option (K * option (list Z));
  sv_send : K -> Z -> list Z -> K * option Z;
  sv_close_socket : K -> Z -> K * option Z;
  sv_open_write : K -> list Z -> Z -> K * option Z;
  sv_write : K -> Z -> list Z -> K * option Z;
  sv_mkdir : K -> list Z -> K * option Z;
  sv_seek : K -> Z -> Z -> K * option Z;
  sv_resolve : K -> list Z -> option (K * option (list Z));
  sv_rtc : K -> K * list Z;                      (* the fields of struct rtc_time *)
  sv_mouse : K -> option (K * list Z);           (* the bytes of struct mouse_packet *)
  sv_launch : K -> list (list Z) -> option (K * bool);  (* task_create and task_wait *)
  sv_draw : K -> Z -> Z -> list Z -> Z -> K;
  sv_exit : K -> K }.

(** What the services promise about the bytes they hand back. *)
Class ServicesLaws (K : Type) `{Services K} := {
  sv_read_len k fd n k' l : 0 <= n -> sv_read k fd n = (k', Some l) -> Z.of_nat (length l) <= n;
  sv_recv_len k fd n k' l : 0 <= n -> sv_recv k fd n = Some (k', Some l) -> Z.of_nat (length l) <= n;
  sv_list_len k dir i n name size d : 1 <= n -> sv_list k dir i n = Some (name, size, d) -> Z.of_nat (length name) <= n;
  sv_resolve_len k host k' ip : sv_resolve k host = Some (k', Some ip) -> length ip = 4%nat;
  sv_rtc_len k : length (sv_rtc k).2 = 7%nat;
  sv_mouse_len k k' p : sv_mouse k = Some (k', p) -> length p = 20%nat }.

Inductive outcome (K : Type) :=
| Resume (r : registers) (m : memory) (k : K)  (* back in ring 3 *)
| Exited (k : K)                               (* the task is gone *)
| Blocked.
Arguments Resume {K} _ _ _.
Arguments Exited {K} _.
Arguments Blocked {K}.

(** ** Memory accesses of the dispatcher *)
Fixpoint load_list (m : memory) (a : Z) (n : nat) : list Z :=
  match n with O => [] | S n' => m a :: load_list m (u32 (a + 1)) n' end.

(** The string at a pointer, when it ends within [fuel] bytes. *)
Definition string_at (fuel : nat) (m : memory) (p : Z) : option (list Z) :=
  match strlen fuel m p 0 with Some n => Some (load_list m p (Z.to_nat n)) | None => None end.

Definition load32 (m : memory) (a : Z) : Z := get_le32 (load_list m a 4) 0.

(** [argv[0] .. argv[n-1]], from entry [i] on. *)
Fixpoint argv_at (fuel : nat) (m : memory) (argv i : Z) (n : nat) : option (list (list Z)) :=
  match n with
  | O => Some []
  | S n' =>
      match string_at fuel m (load32 m (u32 (argv + 4 * i))), argv_at fuel m argv (i + 1) n' with
      | Some s, Some l => Some (s :: l)
      | _, _ => None
      end
  end.

(** The value returned in [eax]. *)
Definition ret (v : option Z) : Z := match v with Some v => u32 v | None => u32 (-1) end.

Section Handler.
Context {K : Type} `{Services K}.
Context (fuel : nat).  (* a bound on the strings of the program *)

(** SYSCALL_READ from descriptor 0: up to [n] more characters, to the end of
    the line. *)
Fixpoint read_stdin (n : nat) (k : K) : option (K * list Z) :=
  match n with
  | O => Some (k, [])
  | S n' =>
      match sv_read_char k with
      | None => None
      | Some (c, k) =>
          if c =? 10 then Some (k, [c])
          else match read_stdin n' k with Some (k, l) => Some (k, c :: l) | None => None end
      end
  end.

(** exec_run: the arguments are copied, cut to their slots, and the program
    runs as a task of its own. *)
Definition exec_run (m : memory) (k : K) (argc argv : Z) : option (K * option Z) :=
  if (argc <? 1) || (argc >? EXEC_MAX_ARGS) then Some (k, None)
  else
    match argv_at fuel m argv 0 (Z.to_nat argc) with
    | None => None
    | Some args =>
        match sv_launch k (map (take (Z.to_nat (EXEC_MAX_ARG_LEN - 1))) args) with
        | None => None
        | Some (k, true) => Some (k, Some 0)
        | Some (k, false) => Some (k, None)
        end
    end.

(** A call that takes a string. *)
Definition with_string (m : memory) (p : Z) (f : list Z -> outcome K) : outcome K :=
  match string_at fuel m p with Some s => f s | None => Blocked end.

Definition syscall_handler (r : registers) (m : memory) (k : K) : outcome K :=
  let done := fun k v => Resume (set_eax r (ret v)) m k in
  let fd := s32 (ebx r) in
  if eax r =? SYSCALL_WRITE then
    Resume (set_eax r (ecx r)) m (foldl sv_putchar k (load_list m (ebx r) (Z.to_nat (ecx r))))
  else if eax r =? SYSCALL_READ then
    if fd =? 0 then
      match read_stdin (Z.to_nat (edx r)) k with
      | None => Blocked
      | Some (k, l) => Resume (set_eax r (u32 (Z.of_nat (length l)))) (store_list m (ecx r) l) k
      end
    else
      match sv_read k fd (edx r) with
      | (k, None) => done k None
      | (k, Some l) => Resume (set_eax r (u32 (Z.of_nat (length l)))) (store_list m (ecx r) l) k
      end
  else if eax r =? SYSCALL_OPEN then
    with_string m (ebx r) (fun s => let '(k, v) := sv_open k s in done k v)
  else if eax r =? SYSCALL_CLOSE then let '(k, v) := sv_close k fd in done k v
  else if eax r =? SYSCALL_LIST then
    with_string m (esi r) (fun dir_path =>
      match sv_list k dir_path (s32 (ebx r)) (edx r) with
      | None => done k None
      | Some (name, file_size, is_dir) =>
          let m := store_list m (ecx r) name in
          let m := if edi r =? 0 then m else store_list m (edi r) (put_le32 is_dir) in
          Resume (set_eax r (u32 file_size)) m k
      end)
  else if eax r =? SYSCALL_SOCKET_ACCEPT then
    match sv_accept k with None => Blocked | Some (k, v) => done k (Some v) end
  else if eax r =? SYSCALL_SOCKET_RECV then
    match sv_recv k fd (edx r) with
    | None => Blocked
    | Some (k, None) => done k None
    | Some (k, Some l) => Resume (set_eax r (u32 (Z.of_nat (length l)))) (store_list m (ecx r) l) k
    end
  else if eax r =? SYSCALL_SOCKET_SEND then
    let '(k, v) := sv_send k fd (load_list m (ecx r) (Z.to_nat (edx r))) in done k v
  else if eax r =? SYSCALL_SOCKET_CLOSE then let '(k, v) := sv_close_socket k fd in done k v
  else if eax r =? SYSCALL_OPEN_WRITE then
    with_string m (ebx r) (fun s => let '(k, v) := sv_open_write k s (s32 (ecx r)) in done k v)
  else if eax r =? SYSCALL_FWRITE then
    let '(k, v) := sv_write k fd (load_list m (ecx r) (Z.to_nat (edx r))) in done k v
  else if eax r =? SYSCALL_MKDIR then
    with_string m (ebx r) (fun s => let '(k, v) := sv_mkdir k s in done k v)
  else if eax r =? SYSCALL_SEEK then let '(k, v) := sv_seek k fd (ecx r) in done k v
  else if eax r =? SYSCALL_DNS_RESOLVE then
    with_string m (ebx r) (fun s =>
      match sv_resolve k s with
      | None => Blocked
      | Some (k, None) => done k None
      | Some (k, Some ip) => Resume (set_eax r 0) (store_list m (ecx r) ip) k
      end)
  else if eax r =? SYSCALL_RTC_READ then
    let '(k, t) := sv_rtc k in Resume (set_eax r 0) (store_list m (ebx r) t) k
  else if eax r =? SYSCALL_MOUSE_READ then
    match sv_mouse k with
    | None => Blocked
    | Some (k, p) => Resume (set_eax r 0) (store_list m (ebx r) p) k
    end
  else if eax r =? SYSCALL_RUN then
    match exec_run m k (s32 (ebx r)) (ecx r) with None => Blocked | Some (k, v) => done k v end
  else if eax r =? SYSCALL_DRAW_TEXT then
    Resume (set_eax r 0) m
      (sv_draw k (s32 (ebx r)) (s32 (ecx r)) (load_list m (edx r) (Z.to_nat (s32 (esi r)))) (u8 (edi r)))
  else if eax r =? SYSCALL_EXIT then Exited (sv_exit k)
  else Resume r m (sv_print k [TLn "syscall: unknown call number"]).
End Handler.

(** ** The library's wrappers

    What a program can ask for, and the registers the wrapper loads. *)
Inductive call :=
| Write (buf len : Z) | Read (fd buf len : Z) | Open (filename : Z) | Close (fd : Z)
| Listdir (dir_path index name_buf buf_size is_dir_out : Z)
| SocketAccept | SocketRecv (sockfd buf max_len : Z) | SocketSend (sockfd buf len : Z) | SocketClose (sockfd : Z)
| OpenWrite (filename mode : Z) | Fwrite (fd buf len : Z) | Mkdir (path : Z) | Seek (fd offset : Z)
| DnsResolve (hostname out_ip : Z) | RtcRead (out : Z) | MouseRead (out : Z) | Run (argc argv : Z)
| DrawText (row col text len attr : Z) | Exit.

(** The registers at the [int] instruction; those a wrapper does not name keep
    the values of [r].  Ints are passed as their 32-bit patterns. *)
Definition wrapper (r : registers) (c : call) : registers :=
  match c with
  | Write buf len => mk_regs 0 buf len (edx r) (esi r) (edi r)
  | Read fd buf len => mk_regs 2 (u32 fd) buf len (esi r) (edi r)
  | Open filename => mk_regs 3 filename (ecx r) (edx r) (esi r) (edi r)
  | Close fd => mk_regs 4 (u32 fd) (ecx r) (edx r) (esi r) (edi r)
  | Listdir dir_path index name_buf buf_size is_dir_out => mk_regs 5 (u32 index) name_buf buf_size dir_path is_dir_out
  | SocketAccept => mk_regs 6 (ebx r) (ecx r) (edx r) (esi r) (edi r)
  | SocketRecv sockfd buf max_len => mk_regs 7 (u32 sockfd) buf max_len (esi r) (edi r)
  | SocketSend sockfd buf len => mk_regs 8 (u32 sockfd) buf len (esi r) (edi r)
  | SocketClose sockfd => mk_regs 9 (u32 sockfd) (ecx r) (edx r) (esi r) (edi r)
  | OpenWrite filename mode => mk_regs 10 filename (u32 mode) (edx r) (esi r) (edi r)
  | Fwrite fd buf len => mk_regs 11 (u32 fd) buf len (esi r) (edi r)
  | Mkdir path => mk_regs 12 path (ecx r) (edx r) (esi r) (edi r)
  | Seek fd offset => mk_regs 13 (u32 fd) offset (edx r) (esi r) (edi r)
  | DnsResolve hostname out_ip => mk_regs 14 hostname out_ip (edx r) (esi r) (edi r)
  | RtcRead out => mk_regs 15 out (ecx r) (edx r) (esi r) (edi r)
  | MouseRead out => mk_regs 16 out (ecx r) (edx r) (esi r) (edi r)
  | Run argc argv => mk_regs 17 (u32 argc) argv (edx r) (esi r) (edi r)
  | DrawText row col text len attr => mk_regs 18 (u32 row) (u32 col) text len attr
  | Exit => mk_regs 1 (ebx r) (ecx r) (edx r) (esi r) (edi r)
  end.

(** ** Frame *)

(** The buffers a call may write, as (start, length). *)
Definition buffers (r : registers) : list (Z * Z) :=
  if (eax r =? SYSCALL_READ) || (eax r =? SYSCALL_SOCKET_RECV) then [(ecx r, edx r)]
  else if eax r =? SYSCALL_LIST then (ecx r, edx r) :: (if edi r =? 0 then [] else [(edi r, 4)])
  else if eax r =? SYSCALL_DNS_RESOLVE then [(ecx r, 4)]
  else if eax r =? SYSCALL_RTC_READ then [(ebx r, 7)]
  else if eax r =? SYSCALL_MOUSE_READ then [(ebx r, 20)]
  else [].

Definition outside (l : list (Z * Z)) (x : Z) : Prop := Forall (fun '(a, n) => ~ a <= x < a + n) l.

(** The buffers lie in the address space, and a name has room for its
    terminator. *)
Definition buffers_ok (r : registers) : Prop :=
  Forall (fun '(a, n) => 0 <= a /\ 0 <= n /\ a + n <= 4294967296) (buffers r) /\ (eax r = SYSCALL_LIST -> 1 <= edx r).

Lemma store_list_frame m a l n x : 0 <= a -> a + n <= 4294967296 -> Z.of_nat (length l) <= n -> ~ a <= x < a + n ->
  store_list m a l x = m x.
Proof.
  intros Ha Hn Hl Hx. rewrite store_list_spec by lia.
  destruct (Z.leb_spec a x), (Z.ltb_spec x (a + Z.of_nat (length l))); cbn [andb]; (done || lia).
Qed.

Section Properties.
Context {K : Type} `{ServicesLaws K}.
Context (fuel : nat).

Lemma read_stdin_length n : forall k k' l, read_stdin n k = Some (k', l) -> (length l <= n)%nat.
Proof.
  induction n as [|n IH]; intros k k' l; cbn [read_stdin]; [intros [= _ <-]; cbn; lia|].
  destruct (sv_read_char k) as [[c k1]|]; [|done]. destruct (c =? 10); [intros [= _ <-]; cbn; lia|].
  destruct (read_stdin n k1) as [[k2 l']|] eqn:E; [|done]. intros [= _ <-]. apply IH in E. cbn. lia.
Qed.

(** A register change that is confined to [eax]. *)
Definition only_eax (r r' : registers) : Prop := r' = set_eax r (eax r').
Lemma only_eax_set r v : only_eax r (set_eax r v).
Proof. done. Qed.
Lemma only_eax_refl r : only_eax r r.
Proof. by destruct r. Qed.

(** The branches of the dispatcher's switch, and every way one can return. *)
Ltac syscall_branches Hr fin :=
  lazymatch type of Hr with
  | (if eax ?r =? ?n then _ else _) = _ =>
      let E := fresh "E" in destruct (Z.eqb_spec (eax r) n) as [E|_]; [fin E|syscall_branches Hr fin]
  | _ => idtac
  end.
Ltac syscall_return Hr :=
  unfold with_string in Hr;
  repeat match type of Hr with
    | context [match ?x with _ => _ end] => let E := fresh "Q" in destruct x eqn:E
    end;
  try discriminate Hr; injection Hr as <- <- <-.

End Properties.

(** ** The calling convention *)

(** What a call is meant to do: the service it names, with the arguments the
    program gave, and the value it gives back. *)
Inductive answer (K : Type) :=
| Returns (v : option Z) (m : memory) (k : K)
| Gone (k : K)
| Waiting.
Arguments Returns {K} _ _ _.
Arguments Gone {K} _.
Arguments Waiting {K}.

Section Convention.
Context {K : Type} `{Services K}.
Context (fuel : nat).

Definition on_string (m : memory) (p : Z) (f : list Z -> answer K) : answer K :=
  match string_at fuel m p with Some s => f s | None => Waiting end.
Definition plain (m : memory) (r : K * option Z) : answer K := Returns r.2 m r.1.
Definition filled (m : memory) (buf : Z) (r : K * option (list Z)) : answer K :=
  match r.2 with
  | Some l => Returns (Some (Z.of_nat (length l))) (store_list m buf l) r.1
  | None => Returns None m r.1
  end.
Definition waited {X} (r : option X) (f : X -> answer K) : answer K := match r with Some x => f x | None => Waiting end.

Definition perform (c : call) (m : memory) (k : K) : answer K :=
  match c with
  | Write buf len => Returns (Some len) m (foldl sv_putchar k (load_list m buf (Z.to_nat len)))
  | Read fd buf len =>
      if fd =? 0 then waited (read_stdin (Z.to_nat len) k) (fun '(k, l) => filled m buf (k, Some l))
      else filled m buf (sv_read k fd len)
  | Open filename => on_string m filename (fun s => plain m (sv_open k s))
  | Close fd => plain m (sv_close k fd)
  | Listdir dir_path index name_buf buf_size is_dir_out =>
      on_string m dir_path (fun s =>
        match sv_list k s index buf_size with
        | None => Returns None m k
        | Some (name, size, is_dir) =>
            let m := store_list m name_buf name in
            Returns (Some size) (if is_dir_out =? 0 then m else store_list m is_dir_out (put_le32 is_dir)) k
        end)
  | SocketAccept => waited (sv_accept k) (fun '(k, v) => Returns (Some v) m k)
  | SocketRecv sockfd buf max_len => waited (sv_recv k sockfd max_len) (filled m buf)
  | SocketSend sockfd buf len => plain m (sv_send k sockfd (load_list m buf (Z.to_nat len)))
  | SocketClose sockfd => plain m (sv_close_socket k sockfd)
  | OpenWrite filename mode => on_string m filename (fun s => plain m (sv_open_write k s mode))
  | Fwrite fd buf len => plain m (sv_write k fd (load_list m buf (Z.to_nat len)))
  | Mkdir path => on_string m path (fun s => plain m (sv_mkdir k s))
  | Seek fd offset => plain m (sv_seek k fd offset)
  | DnsResolve hostname out_ip =>
      on_string m hostname (fun s => waited (sv_resolve k s) (fun '(k, ip) =>
        match ip with Some ip => Returns (Some 0) (store_list m out_ip ip) k | None => Returns None m k end))
  | RtcRead out => let '(k, t) := sv_rtc k in Returns (Some 0) (store_list m out t) k
  | MouseRead out => waited (sv_mouse k) (fun '(k, p) => Returns (Some 0) (store_list m out p) k)
  | Run argc argv => waited (exec_run fuel m k argc argv) (plain m)
  | DrawText row col text len attr => Returns (Some 0) m (sv_draw k row col (load_list m text (Z.to_nat len)) attr)
  | Exit => Gone (sv_exit k)
  end.

Definition is_int (z : Z) : Prop := -2147483648 <= z < 2147483648.
(** The arguments are values of their C types. *)
Definition call_ok (c : call) : Prop :=
  match c with
  | Write _ len => is_u32 len
  | Read fd _ _ | Close fd | SocketRecv fd _ _ | SocketSend fd _ _ | SocketClose fd | Fwrite fd _ _ | Seek fd _ => is_int fd
  | Listdir _ index _ _ _ => is_int index
  | OpenWrite _ mode => is_int mode
  | Run argc _ => is_int argc
  | DrawText row col _ len attr => is_int row /\ is_int col /\ 0 <= len < 2147483648 /\ is_byte attr
  | _ => True
  end.

Definition resume (r : registers) (a : answer K) : outcome K :=
  match a with
  | Returns v m k => Resume (set_eax r (ret v)) m k
  | Gone k => Exited k
  | Waiting => Blocked
  end.

Lemma s32_u32 z : is_int z -> s32 (u32 z) = z.
Proof. intros Hz. rewrite <- (s32_small z) at 2 by done. unfold s32. by rewrite u32_idemp. Qed.

Lemma convention r c m k : call_ok c ->
  syscall_handler fuel (wrapper r c) m k = resume (wrapper r c) (perform c m k).
Proof.
  intros Hc. destruct c; cbn [call_ok] in Hc; unfold syscall_handler, wrapper, SYSCALL_WRITE, SYSCALL_EXIT, SYSCALL_READ,
    SYSCALL_OPEN, SYSCALL_CLOSE, SYSCALL_LIST, SYSCALL_SOCKET_ACCEPT, SYSCALL_SOCKET_RECV, SYSCALL_SOCKET_SEND,
    SYSCALL_SOCKET_CLOSE, SYSCALL_OPEN_WRITE, SYSCALL_FWRITE, SYSCALL_MKDIR, SYSCALL_SEEK, SYSCALL_DNS_RESOLVE,
    SYSCALL_RTC_READ, SYSCALL_MOUSE_READ, SYSCALL_RUN, SYSCALL_DRAW_TEXT; cbn [eax ebx ecx edx esi edi Z.eqb Pos.eqb];
    cbv zeta; rewrite ?s32_u32 by (done || apply Hc);
    unfold perform, resume, with_string, on_string, waited, plain, filled, ret; repeat case_match; simplify_eq/=; try done.
  - by rewrite u32_small.
  - destruct Hc as (_ & _ & Hl & Ha). rewrite s32_small, u8_small by (done || lia). done.
Qed.

(** C28: The library and the kernel agree on the calling convention: every
    wrapper of the library, whatever the other registers hold, makes the
    dispatcher run the service it is named for on the program's own
    arguments (the casts lose nothing), and the value in [eax] is the one the
    service gave, or -1. *)
Theorem syscall_convention r c m k : call_ok c ->
  syscall_handler fuel (wrapper r c) m k = resume (wrapper r c) (perform c m k).
Proof. apply convention. Qed.
End Convention.

(** ** Standard input *)
Lemma read_stdin_line {K} `{Services K} line : forall (k k' : K) n, Forall (fun c => c <> 10) line ->
  delivers sv_read_char k (line ++ [10]) k' -> (length line < n)%nat -> read_stdin n k = Some (k', line ++ [10]).
Proof.
  induction line as [|c line IH]; intros k k' [|n] Hl Hd Hn; cbn in Hn; try lia; cbn [read_stdin].
  - inversion Hd as [|? ? ? ? ? E Hend]; subst. rewrite E. cbn. by inversion Hend.
  - apply Forall_cons_1 in Hl as [Hc Hl]. cbn [app] in Hd. inversion Hd as [|? ? ? ? ? E Hrest]; subst.
    rewrite E, (proj2 (Z.eqb_neq _ _) Hc), (IH _ k') by (done || lia). done.
Qed.

(** ** Files through system calls

    The services of the filesystem, the rest of the kernel left out: no
    network, clock or mouse; [fk_task] is the calling task, [fk_in] the
    characters the console will deliver and [fk_out] those written. *)
Record file_kernel (D : Type) := mk_fk { fk_fat : fat_state D; fk_task : Z; fk_in : list Z; fk_out : list Z }.
Arguments mk_fk {D} _ _ _ _.
Arguments fk_fat {D} _.
Arguments fk_task {D} _.
Arguments fk_in {D} _.
Arguments fk_out {D} _.

Section Files.
Context {D : Type} `{BlockDeviceLaws D}.
Context (fuel : nat).

Definition set_fat (k : file_kernel D) (st : fat_state D) : file_kernel D := mk_fk st (fk_task k) (fk_in k) (fk_out k).
Definition set_out (k : file_kernel D) (out : list Z) : file_kernel D := mk_fk (fk_fat k) (fk_task k) (fk_in k) out.
Definition to_option {X} (r : res X) : option X := match r with OK x => Some x | _ => None end.
Definition on_fat {X} (k : file_kernel D) (r : fat_state D * res X) : file_kernel D * option X :=
  (set_fat k r.1, to_option r.2).

#[export] Instance file_services : Services (file_kernel D) := {
  sv_putchar k c := set_out k (fk_out k ++ [c]);
  sv_print k _ := k;
  sv_read_char k := match fk_in k with [] => None | c :: l => Some (c, mk_fk (fk_fat k) (fk_task k) l (fk_out k)) end;
  sv_read k fd n := on_fat k (fat_read (fk_fat k) fd n);
  sv_open k name := on_fat k (fat_open fuel (fk_fat k) (fk_task k) name);
  sv_close k fd := on_fat k (fat_close (fk_fat k) fd);
  sv_list k dir i n :=
    match fat_list_entry fuel (fk_fat k) dir i n with
    | OK e => Some (li_name e, li_size e, if li_is_dir e then 1 else 0)
    | _ => None
    end;
  sv_accept _ := None;
  sv_recv k _ _ := Some (k, None);
  sv_send k _ _ := (k, None);
  sv_close_socket k _ := (k, None);
  sv_open_write k name mode := on_fat k (fat_open_write fuel (fk_fat k) (fk_task k) name mode);
  sv_write k fd l := on_fat k (fat_write (fk_fat k) fd l);
  sv_mkdir k name := on_fat k (fat_mkdir fuel (fk_fat k) name);
  sv_seek k fd off := on_fat k (fat_seek fuel (fk_fat k) fd off);
  sv_resolve k _ := Some (k, None);
  sv_rtc k := (k, replicate 7 0);
  sv_mouse _ := None;
  sv_launch k _ := Some (k, false);
  sv_draw k _ _ _ _ := k;
  sv_exit k := k }.  (* descriptors are closed when the task is reaped *)

(** *** The lengths promised *)
Lemma read_loop_length n : forall d v f len acc, Z.of_nat (length acc) <= len ->
  Z.of_nat (length (read_loop n d v f len acc).2) <= len.
Proof.
  induction n as [|n IH]; intros d v f len acc Ha; cbn [read_loop]; [done|].
  destruct (_ && _ && _) eqn:E; [|done]. apply andb_true_iff in E as [E _]. apply andb_true_iff in E as [E _]. apply Z.ltb_lt in E.
  destruct (ata_read_sector d _) as [buf|]; [|done]. apply IH. rewrite length_app, length_take.
  repeat case_if; lia.
Qed.

Lemma copy_string_length src : forall i limit, Z.of_nat (length (copy_string_loop src i limit)) <= Z.max 0 (limit - i).
Proof. induction src as [|c src IH]; intros i limit; cbn; [lia|]. case_if; cbn; [specialize (IH (i + 1) limit)|]; lia. Qed.

Lemma display_length cs : forall pos limit, Z.of_nat (length (display_loop cs pos limit)) <= Z.max 0 (limit - pos).
Proof. induction cs as [|c cs IH]; intros pos limit; cbn; [lia|]. case_if; cbn; [lia|specialize (IH (pos + 1) limit)]; lia. Qed.

Lemma copy_string_fits src n : 1 <= n -> Z.of_nat (length (fat_copy_string src n)) <= n.
Proof.
  intros Hn. unfold fat_copy_string. rewrite length_app. pose proof (copy_string_length src 0 (u32 (n - 1))).
  assert (u32 (n - 1) <= n - 1) by (unfold u32; apply Z.mod_le; lia). cbn [length]. lia.
Qed.

Lemma display_fits e n : 1 <= n -> Z.of_nat (length (fat_short_name_to_display e n)) <= n.
Proof.
  intros Hn. unfold fat_short_name_to_display. assert (0 <= u32 (n - 1) <= n - 1) by (unfold u32; split; [dlia|apply Z.mod_le; lia]).
  rewrite !length_app. cbn [length]. pose proof (display_length (de_name e) 0 (u32 (n - 1))).
  destruct (_ && _) eqn:E; cbn [length]; [|lia]. apply andb_true_iff in E as [_ E]. apply Z.ltb_lt in E.
  pose proof (display_length (de_ext e) (Z.of_nat (length (display_loop (de_name e) 0 (u32 (n - 1)))) + 1) (u32 (n - 1))). lia.
Qed.

Lemma list_in_sector_fits n : forall buf index size l seen i r seen', 1 <= size ->
  list_in_sector buf index size l seen i n = (ScanHit r, seen') -> Z.of_nat (length (li_name r)) <= size.
Proof.
  induction n as [|n IH]; intros buf index size l seen i r seen' Hs; cbn [list_in_sector]; [done|]. cbv zeta.
  repeat case_if; try done; try (by apply IH); intros [= <- _]; cbn [li_name]; by (apply copy_string_fits || apply display_fits).
Qed.

Lemma list_loop_fits n : forall fl d v dir index size l seen i r, 1 <= size ->
  list_loop n fl d v dir index size l seen i = OK r -> Z.of_nat (length (li_name r)) <= size.
Proof.
  induction n as [|n IH]; intros fl d v dir index size l seen i r Hs; cbn [list_loop]; [done|].
  destruct (fat_dir_sector_lba fl d v dir i) as [lba| |]; cbn [rbind]; [|done..]. case_if; [done|].
  destruct (ata_read_sector d lba) as [buf|]; [|done].
  destruct (list_in_sector _ _ _ _ _ _ _) as [[|x|l'] seen'] eqn:E; [done| |by apply IH].
  intros [= <-]. by eapply list_in_sector_fits.
Qed.

#[export] Instance file_laws : ServicesLaws (file_kernel D).
Proof.
  split.
  - intros k fd n k' l Hn. cbn. unfold on_fat, fat_read. destruct (fd_lookup (fk_fat k) fd) as [[i f]|]; [|done].
    pose proof (read_loop_length (Z.to_nat n) (disk (fk_fat k)) (vol (fk_fat k)) f n [] Hn) as Hl.
    destruct (read_loop _ _ _ _ _ _) as [f' bytes]. cbn in *. by intros [= _ <-].
  - intros k fd n k' l Hn. cbn. done.
  - intros k dir i n name size d Hn. cbn. unfold fat_list_entry. destruct (negb _); [done|].
    destruct (fat_resolve_dir _ _ _ _) as [dr| |]; cbn [rbind]; [|done..].
    destruct (list_loop _ _ _ _ _ _ _ _ _ _) as [x| |] eqn:E; [|done..]. intros [= <- _ _]. by eapply list_loop_fits.
  - intros k host k' ip. cbn. done.
  - done.
  - intros k k' p. cbn. done.
Qed.

(** *** Strings of the program *)
Lemma load_list_string m p s : cstr m p s -> load_list m p (length s) = s.
Proof.
  revert p. induction s as [|c s IH]; intros p Hs; cbn [load_list length]; [done|].
  apply cstr_cons in Hs as (-> & _ & -> & Hs). by rewrite IH.
Qed.

Lemma string_at_cstr n m p s : cstr m p s -> (length s < n)%nat -> string_at n m p = Some s.
Proof. intros Hs Hn. unfold string_at. rewrite (strlen_cstr m p s n Hs Hn), Nat2Z.id. by rewrite load_list_string. Qed.

(** C16: A program reads a file through system calls: with the name of a
    regular file in its memory and a descriptor free, [open] returns a
    descriptor, and the [read] that follows stores the first bytes of the
    file's contents, as many as were asked for and exist, at the buffer and
    returns their number. *)
Theorem program_reads_file r r' m k name p e cs buf len strings :
  let st := fk_fat k in
  fat_ready st = true -> 1 <= sectors_per_cluster (vol st) -> fat_find_entry fuel (disk st) (vol st) name = OK e ->
  flag (de_attr e) FAT_ATTR_DIRECTORY = false ->
  file_chain (disk st) (vol st) (de_first_cluster_low e) cs (de_file_size e) ->
  free_slot (open_files st) <> None -> cstr m p name -> (length name < strings)%nat -> is_u32 len ->
  exists r1 k1 k2, syscall_handler strings (wrapper r (Open p)) m k = Resume r1 m k1 /\ 3 <= eax r1 < 11 /\
    let data := take (Z.to_nat len) (file_bytes (disk st) (vol st) cs (de_file_size e)) in
    syscall_handler strings (wrapper r' (Read (eax r1) buf len)) m k1 =
      Resume (set_eax (wrapper r' (Read (eax r1) buf len)) (Z.of_nat (length data))) (store_list m buf data) k2.
Proof.
  cbv zeta. intros Hrdy Hspc Hfind Hdir Hfc Hfree Hs Hn Hlen.
  pose proof (fat_open_view (fk_fat k) (fk_task k) name e cs fuel Hrdy Hspc Hfind Hdir Hfc) as Hopen.
  rewrite (convention strings r (Open p)) by done. unfold perform, on_string. rewrite (string_at_cstr _ _ _ name) by done.
  destruct (fat_open fuel (fk_fat k) (fk_task k) name) as [st1 [fd| |]] eqn:Eo.
  2,3: exfalso; unfold fat_open in Eo; rewrite Hrdy, Hfind, Hdir in Eo; cbn [negb] in Eo;
    destruct (free_slot (open_files (fk_fat k))); done.
  destruct Hopen as (Hfd & _ & Hview & _ & Hd & _). cbn [sv_open file_services]. rewrite Eo.
  destruct (fat_read_view st1 fd _ 0 len Hview) as (st2 & Er & _); [apply Hlen|].
  eexists _, (set_fat k st1), (set_fat k st2). split; [reflexivity|]. cbn [set_eax eax on_fat to_option fst snd ret].
  rewrite u32_small by (unfold is_u32; lia). split; [lia|].
  rewrite convention by (unfold call_ok, is_int; lia). unfold perform. rewrite (proj2 (Z.eqb_neq fd 0)) by lia.
  cbn [sv_read file_services set_fat fk_fat].
  rewrite Er. unfold on_fat, filled. cbn [fst snd to_option resume ret]. rewrite drop_0.
  rewrite u32_small; [reflexivity|]. unfold is_u32 in *. rewrite length_take. lia.
Qed.
End Files.

(** ** Instances *)
Definition shell_memory : memory := store_list (fun _ => 0) 4096 (name_of "hello.txt" ++ [0]).
Definition some_regs : registers := mk_regs 9 8 7 6 5 4.
Definition user : file_kernel image := mk_fk mounted 7 [] [].

Lemma name_stored : cstr shell_memory 4096 (name_of "hello.txt").
Proof. apply store_list_cstr; [|lia|vm_compute; reflexivity]. repeat (constructor; [vm_compute; split; discriminate || reflexivity|]). constructor. Qed.

Lemma program_reads_file_witness :
  exists r1 k1 k2, syscall_handler (H := file_services 20) 20 (wrapper some_regs (Open 4096)) shell_memory user = Resume r1 shell_memory k1 /\
    let data := take 600 (file_bytes img vol0 [2; 3] 700) in
    syscall_handler (H := file_services 20) 20 (wrapper some_regs (Read (eax r1) 8192 600)) shell_memory k1 =
      Resume (set_eax (wrapper some_regs (Read (eax r1) 8192 600)) (Z.of_nat (length data))) (store_list shell_memory 8192 data) k2.
Proof.
  destruct (program_reads_file 20 some_regs some_regs shell_memory user (name_of "hello.txt") 4096 hello [2; 3] 8192 600 20)
    as (r1 & k1 & k2 & Ho & _ & Hr);
    [reflexivity|cbn; lia|apply find_hello|reflexivity|apply img_file_chain2|vm_compute; discriminate|exact name_stored
    |vm_compute; lia|unfold is_u32; lia|].
  exists r1, k1, k2. split; [exact Ho|exact Hr].
Defined.


Lemma syscall_convention_witness :
  syscall_handler (H := file_services 20) 20 (wrapper some_regs (Seek 3 100)) shell_memory user =
  resume (wrapper some_regs (Seek 3 100)) (perform (H := file_services 20) 20 (Seek 3 100) shell_memory user).
Proof. apply (syscall_convention 20 some_regs (Seek 3 100) shell_memory user). unfold call_ok, is_int. lia. Defined.

(** A name buffer of size 0 is written all the same: [buf_size - 1] wraps, and
    the whole name is stored. *)
Example listdir_zero_size :
  match syscall_handler (H := file_services 20) 20 (mk_regs 5 0 8192 0 5000 0) shell_memory user with
  | Resume r' m' _ => eax r' = 700 /\ load_list m' 8192 10 = [72; 69; 76; 76; 79; 46; 84; 88; 84; 0]
  | _ => False
  end.
Proof. vm_compute. split; reflexivity. Qed.
