(* ===== verification/User.v ===== *)
(** * The user programs (src/userspace)

    The programs that read, list and change files and exercise the drivers,
    as computations over the kernel's services.  A system call is what
    [Syscall] shows the library's wrapper to do, with the program's buffers as
    the byte strings they hold.  A run ends in [Exits]; [Waits] is a call that
    blocks for good, or a loop that has used up its bound. *)
From S2P Require Import Prelude Terminal FatTypes FatName FatTable FatDir FatFile FatWrite FatDisk Usermode Libc Shell Syscall.

Inductive run (K A : Type) :=
| Done (a : A) (k : K)
| Exits (k : K)
| Waits.
Arguments Done {K A} _ _.
Arguments Exits {K A} _.
Arguments Waits {K A}.

Definition prog (K A : Type) : Type := K -> run K A.
#[export] Instance prog_ret K : MRet (prog K) := fun A a k => Done a k.
#[export] Instance prog_bind K : MBind (prog K) := fun A B f p k =>
  match p k with Done a k => f a k | Exits k => Exits k | Waits => Waits end.

(** String literals of the sources; [ln] ends in a newline. *)
Definition str (s : string) : list Z := name_of s.
Definition ln (s : string) : list Z := str s ++ [10].

(** ** The library calls *)
Section Calls.
Context {K : Type} `{Services K}.

(** The [int] a wrapper gives back for the value in [eax]. *)
Definition int_of (v : option Z) : Z := s32 (ret v).
Definition int_call (f : K -> K * option Z) : prog K Z := fun k => let '(k, v) := f k in Done (int_of v) k.
(** The count and the bytes now at the start of the buffer. *)
Definition fill_call (f : K -> option (K * option (list Z))) : prog K (Z * list Z) := fun k =>
  match f k with
  | None => Waits
  | Some (k, None) => Done (-1, []) k
  | Some (k, Some l) => Done (int_of (Some (Z.of_nat (length l))), l) k
  end.

Definition write (l : list Z) : prog K unit := fun k => Done tt (foldl sv_putchar k l).
Definition read (fd len : Z) : prog K (Z * list Z) := fill_call (fun k =>
  if fd =? 0 then match read_stdin (Z.to_nat len) k with Some (k, l) => Some (k, Some l) | None => None end
  else Some (sv_read k fd len)).
Definition open (name : list Z) : prog K Z := int_call (fun k => sv_open k name).
Definition close (fd : Z) : prog K Z := int_call (fun k => sv_close k fd).
Definition open_write (name : list Z) (mode : Z) : prog K Z := int_call (fun k => sv_open_write k name mode).
Definition fwrite (fd : Z) (l : list Z) : prog K Z := int_call (fun k => sv_write k fd l).
Definition seek (fd offset : Z) : prog K Z := int_call (fun k => sv_seek k fd offset).
Definition mkdir (path : list Z) : prog K Z := int_call (fun k => sv_mkdir k path).
(** The size (or -1), the name and the directory flag. *)
Definition listdir (dir_path : list Z) (index buf_size : Z) : prog K (Z * list Z * Z) := fun k =>
  match sv_list k dir_path index buf_size with
  | None => Done (-1, [], 0) k
  | Some (name, size, is_dir) => Done (int_of (Some size), c_str name, is_dir) k
  end.
Definition socket_accept : prog K Z := fun k =>
  match sv_accept k with None => Waits | Some (k, v) => Done (int_of (Some v)) k end.
Definition socket_recv (fd len : Z) : prog K (Z * list Z) := fill_call (fun k => sv_recv k fd len).
Definition socket_send (fd : Z) (l : list Z) : prog K Z := int_call (fun k => sv_send k fd l).
Definition socket_close (fd : Z) : prog K Z := int_call (fun k => sv_close_socket k fd).
Definition dns_resolve (host : list Z) : prog K (option (list Z)) := fun k =>
  match sv_resolve k host with None => Waits | Some (k, ip) => Done ip k end.
Definition rtc_read : prog K (list Z) := fun k => let '(k, t) := sv_rtc k in Done t k.
Definition mouse_read : prog K (list Z) := fun k =>
  match sv_mouse k with None => Waits | Some (k, p) => Done p k end.
Definition draw_text (row col : Z) (text : list Z) (attr : Z) : prog K unit := fun k =>
  Done tt (sv_draw k row col text attr).
(** exec_run on the strings of [argv]. *)
Definition run_program (argv : list (list Z)) : prog K Z := fun k =>
  if (Z.of_nat (length argv) <? 1) || (Z.of_nat (length argv) >? EXEC_MAX_ARGS) then Done (-1) k
  else
    match sv_launch k (map (take (Z.to_nat (EXEC_MAX_ARG_LEN - 1))) argv) with
    | None => Waits
    | Some (k, ok) => Done (if ok then 0 else -1) k
    end.
Definition exit {A} : prog K A := fun k => Exits (sv_exit k).
Definition not_yet {A} : prog K A := fun _ => Waits.

Definition argc (argv : list (list Z)) : Z := Z.of_nat (length argv).
Definition arg (argv : list (list Z)) (i : nat) : list Z := default [] (argv !! i).
Definition print_int (value : Z) : prog K unit := write (int_text value).

(** ** cat.c and readsaved.c *)

(** [while ((n = read(fd, buf, sizeof(buf))) > 0) write(buf, n);] *)
Fixpoint copy_out (fuel : nat) (fd size : Z) : prog K unit :=
  match fuel with
  | O => not_yet
  | S fuel' =>
      r ← read fd size;
      if r.1 >? 0 then write (take (Z.to_nat r.1) r.2) ;; copy_out fuel' fd size else mret tt
  end.

Definition cat (fuel : nat) (argv : list (list Z)) : prog K unit :=
  let filename := if argc argv >=? 2 then arg argv 1 else str "bigfile.txt" in
  fd ← open filename;
  (if fd <? 0 then
     write (str "cat: could not open ") ;; write filename ;; write [10] ;; exit
   else mret tt) ;;
  copy_out fuel fd 16 ;;
  close fd ;;
  exit.

Definition readsaved (fuel : nat) (argv : list (list Z)) : prog K unit :=
  let filename := if argc argv >=? 2 then arg argv 1 else str "saved.txt" in
  fd ← open filename;
  (if fd <? 0 then
     write (str "readsaved: ") ;; write filename ;; write (ln " not found") ;; exit
   else mret tt) ;;
  copy_out fuel fd 128 ;;
  close fd ;;
  exit.

(** ** save.c, append.c, overwrite.c, mkdir.c, poke.c, leakfd.c *)
Definition save (argv : list (list Z)) : prog K unit :=
  let filename := if argc argv >=? 2 then arg argv 1 else str "saved.txt" in
  fd ← open_write filename FAT_OPEN_CREATE;
  (if fd <? 0 then
     write (str "save: could not create ") ;; write filename ;; write (ln " (already exists?)") ;; exit
   else mret tt) ;;
  let message := if argc argv >=? 3 then arg argv 2 else ln "Hello from a real saved file!" in
  written ← fwrite fd message;
  close fd ;;
  write (str "save: wrote ") ;; write filename ;; write (str " (") ;; print_int written ;; write (ln " bytes)") ;;
  exit.

Definition append (argv : list (list Z)) : prog K unit :=
  let filename := if argc argv >=? 2 then arg argv 1 else str "saved.txt" in
  fd ← open_write filename FAT_OPEN_APPEND;
  (if fd <? 0 then
     write (str "append: could not open ") ;; write filename ;; write (ln " for append") ;; exit
   else mret tt) ;;
  let message := if argc argv >=? 3 then arg argv 2 else ln "This line was appended." in
  written ← fwrite fd message;
  close fd ;;
  write (str "append: appended ") ;; print_int written ;; write (ln " bytes") ;;
  exit.

Definition overwrite (argv : list (list Z)) : prog K unit :=
  let filename := if argc argv >=? 2 then arg argv 1 else str "saved.txt" in
  fd ← open_write filename FAT_OPEN_TRUNCATE;
  (if fd <? 0 then
     write (str "overwrite: could not open ") ;; write filename ;; write (ln " for truncate") ;; exit
   else mret tt) ;;
  let message := if argc argv >=? 3 then arg argv 2 else ln "Replaced." in
  written ← fwrite fd message;
  close fd ;;
  write (str "overwrite: wrote ") ;; print_int written ;; write (ln " bytes") ;;
  exit.

Definition mkdir_main (argv : list (list Z)) : prog K unit :=
  (if argc argv <? 2 then write (ln "mkdir: usage: mkdir.elf <path>") ;; exit else mret tt) ;;
  r ← mkdir (arg argv 1);
  (if r =? 0 then
     write (str "mkdir: created ") ;; write (arg argv 1) ;; write [10]
   else
     write (str "mkdir: could not create ") ;; write (arg argv 1) ;;
     write (ln " (already exists, or an intermediate directory is missing?)")) ;;
  exit.

(** [atoi] on the bytes of a string; at the terminator the loop stops. *)
Fixpoint atoi_list_digits (s : list Z) (value : Z) : Z :=
  match s with
  | [] => value
  | c :: s' => if (s8 c >=? 48) && (s8 c <=? 57) then atoi_list_digits s' (s32 (s32 (value * 10) + (s8 c - 48))) else value
  end.
Definition atoi_list (s : list Z) : Z :=
  match s with
  | c :: s' => if s8 c =? 45 then s32 (- atoi_list_digits s' 0) else atoi_list_digits s 0
  | [] => 0
  end.

Definition poke (argv : list (list Z)) : prog K unit :=
  (if argc argv <? 4 then write (ln "poke: usage: poke.elf <filename> <offset> <text>") ;; exit else mret tt) ;;
  let filename := arg argv 1 in
  let offset := u32 (atoi_list (arg argv 2)) in
  fd ← open_write filename FAT_OPEN_MODIFY;
  (if fd <? 0 then write (str "poke: could not open ") ;; write filename ;; write [10] ;; exit else mret tt) ;;
  r ← seek fd offset;
  (if negb (r =? 0) then write (ln "poke: seek past end of file") ;; close fd ;; exit else mret tt) ;;
  written ← fwrite fd (arg argv 3);
  close fd ;;
  write (str "poke: wrote ") ;; print_int written ;; write (str " bytes at offset ") ;;
  print_int (s32 offset) ;; write [10] ;;
  exit.

Definition leakfd : prog K unit :=
  fd ← open (str "readme.txt");
  (if fd <? 0 then write (ln "leakfd: could not open readme.txt") ;; exit else mret tt) ;;
  write (str "leakfd: opened fd ") ;; print_int fd ;; write (ln ", exiting without closing it") ;;
  exit.

(** ** date.c, nslookup.c, netecho.c, mousetest.c, test.c *)
Definition write_padded (value width : Z) : prog K unit :=
  let num := int_text value in
  write (replicate (Z.to_nat (width - Z.of_nat (length num))) 48) ;; write num.

(** The fields of [struct rtc_time] in its bytes. *)
Definition date : prog K unit :=
  t ← rtc_read;
  write_padded (get_le16 t 0) 4 ;; write (str "-") ;;
  write_padded (byte_at t 2) 2 ;; write (str "-") ;;
  write_padded (byte_at t 3) 2 ;; write (str " ") ;;
  write_padded (byte_at t 4) 2 ;; write (str ":") ;;
  write_padded (byte_at t 5) 2 ;; write (str ":") ;;
  write_padded (byte_at t 6) 2 ;; write [10] ;;
  exit.

Fixpoint print_ip_from (n : nat) (i : Z) (ip : list Z) : prog K unit :=
  match n with
  | O => mret tt
  | S n' =>
      print_int (byte_at ip i) ;;
      (if i <? 3 then write (str ".") else mret tt) ;;
      print_ip_from n' (i + 1) ip
  end.
Definition print_ip (ip : list Z) : prog K unit := print_ip_from 4 0 ip.

Definition nslookup (argv : list (list Z)) : prog K unit :=
  (if argc argv <? 2 then write (ln "nslookup: usage: nslookup.elf <hostname>") ;; exit else mret tt) ;;
  r ← dns_resolve (arg argv 1);
  match r with
  | Some ip => write (arg argv 1) ;; write (str " -> ") ;; print_ip ip ;; write [10]
  | None => write (str "nslookup: could not resolve ") ;; write (arg argv 1) ;; write [10]
  end ;;
  exit.

Fixpoint echo_loop (fuel : nat) (sockfd : Z) : prog K unit :=
  match fuel with
  | O => not_yet
  | S fuel' =>
      r ← socket_recv sockfd 512;
      if r.1 >? 0 then socket_send sockfd (take (Z.to_nat r.1) r.2) ;; echo_loop fuel' sockfd else mret tt
  end.
Definition netecho (fuel : nat) : prog K unit :=
  write (ln "netecho: waiting for a connection") ;;
  sockfd ← socket_accept;
  write (ln "netecho: client connected") ;;
  echo_loop fuel sockfd ;;
  socket_close sockfd ;;
  write (ln "netecho: connection closed, exiting") ;;
  exit.

(** The [int] at offset [off] of a structure. *)
Definition field (p : list Z) (off : Z) : Z := s32 (get_le32 p off).
Definition print_packet : prog K unit :=
  p ← mouse_read;
  write (str "dx=") ;; print_int (field p 0) ;;
  write (str " dy=") ;; print_int (field p 4) ;;
  write (str " buttons=") ;;
  (if negb (field p 8 =? 0) then write (str "L") else mret tt) ;;
  (if negb (field p 12 =? 0) then write (str "R") else mret tt) ;;
  (if negb (field p 16 =? 0) then write (str "M") else mret tt) ;;
  write [10].
Fixpoint print_packets (n : nat) : prog K unit :=
  match n with O => mret tt | S n' => print_packet ;; print_packets n' end.
Definition mousetest : prog K unit :=
  write (ln "mousetest: reading 10 packets (move the mouse or click)") ;; print_packets 10 ;; exit.

Definition test : prog K unit :=
  write (ln "Hello from an ELF binary!") ;;
  write (str "Type something and press enter: ") ;;
  r ← read 0 64;
  write (str "You typed: ") ;; write (take (Z.to_nat r.1) r.2) ;;
  exit.

(** ** ls.c *)
Definition to_lower (c : Z) : Z := if (c >=? 65) && (c <=? 90) then c - 65 + 97 else c.

(** The inner loop: [needle] at position [i] of [haystack]. *)
Fixpoint matches_at (haystack : list Z) (i : Z) (needle : list Z) : bool :=
  match needle with
  | [] => true
  | c :: needle' => if to_lower (byte_at haystack i) =? to_lower c then matches_at haystack (i + 1) needle' else false
  end.
Fixpoint contains_from (n : nat) (i : Z) (haystack needle : list Z) : bool :=
  match n with
  | O => false
  | S n' => if matches_at haystack i needle then true else contains_from n' (i + 1) haystack needle
  end.
Definition contains (haystack needle : list Z) : bool := contains_from (length haystack) 0 haystack needle.

(** One line of the listing, as it is built in [line]. *)
Definition ls_line (name : list Z) (size is_dir : Z) : list Z :=
  str "  " ++ name ++
  (if negb (is_dir =? 0) then ln "  (dir)" else str "  (" ++ int_text size ++ ln " bytes)").

Fixpoint ls_loop (fuel : nat) (dir_path : list Z) (filter : option (list Z)) (index : Z) : prog K unit :=
  match fuel with
  | O => not_yet
  | S fuel' =>
      e ← listdir dir_path index 64;
      let '(size, name, is_dir) := e in
      if size <? 0 then mret tt
      else if match filter with Some f => negb (contains name f) | None => false end
      then ls_loop fuel' dir_path filter (index + 1)
      else write (ls_line name size is_dir) ;; ls_loop fuel' dir_path filter (index + 1)
  end.

Definition ls (fuel : nat) (argv : list (list Z)) : prog K unit :=
  let dir_path := if argc argv >=? 2 then arg argv 1 else [] in
  let filter := if argc argv >=? 3 then Some (arg argv 2) else None in
  write (ln "Files on disk:") ;;
  ls_loop fuel dir_path filter 0 ;;
  exit.
End Calls.

(** ** Reading a file to the console *)
Lemma take_drop_length {A} n (l : list A) : take n l ++ drop (length (take n l)) l = l.
Proof.
  rewrite length_take. destruct (Nat.le_ge_cases n (length l)); [by rewrite Nat.min_l, take_drop|].
  by rewrite Nat.min_r, take_ge, drop_all, app_nil_r.
Qed.

Lemma copy_out_S {K} `{Services K} n fd size : copy_out (K := K) (S n) fd size =
  r ← read fd size; if r.1 >? 0 then write (take (Z.to_nat r.1) r.2) ;; copy_out n fd size else mret tt.
Proof. done. Qed.

Section Cat.
Context {D : Type} `{BlockDeviceLaws D}.
Context (fuel : nat).
Abbreviation K := (file_kernel D).
#[local] Existing Instance file_services.
Abbreviation svc := (file_services fuel).

Lemma write_out (l : list Z) (k : K) : write (H := svc) l k = Done tt (set_out k (fk_out k ++ l)).
Proof.
  unfold write. f_equal. revert k. induction l as [|c l IH]; intros k; cbn [foldl]; [by rewrite app_nil_r; destruct k|].
  rewrite IH. cbn. by rewrite <- app_assoc.
Qed.

(** What the program's reads leave alone: the disk, the input still to come
    and every other descriptor. *)
Definition only_fd (fd : Z) (k k' : K) : Prop :=
  disk (fk_fat k') = disk (fk_fat k) /\ fk_in k' = fk_in k /\ fk_task k' = fk_task k /\
  forall fd', fd' <> fd -> fd_lookup (fk_fat k') fd' = fd_lookup (fk_fat k) fd'.

Lemma only_fd_trans fd k k' k'' : only_fd fd k k' -> only_fd fd k' k'' -> only_fd fd k k''.
Proof.
  intros (D1 & I1 & T1 & F1) (D2 & I2 & T2 & F2). repeat split; [congruence..|].
  intros fd' Hne. by rewrite F2, F1.
Qed.

Lemma read_view fd bytes pos len (k : K) : fd <> 0 -> fd_view (fk_fat k) fd bytes pos -> 0 <= len < 2147483648 ->
  let data := take (Z.to_nat len) (drop (Z.to_nat pos) bytes) in
  exists st', read (H := svc) fd len k = Done (Z.of_nat (length data), data) (set_fat k st') /\
    only_fd fd k (set_fat k st') /\ fd_view st' fd bytes (pos + Z.of_nat (length data)).
Proof.
  intros Hfd Hv Hl. destruct (fat_read_view (fk_fat k) fd bytes pos len Hv ltac:(lia)) as (st' & Er & Hv' & Hd & _ & Ho).
  exists st'. unfold read, fill_call. rewrite (proj2 (Z.eqb_neq fd 0) Hfd). cbn [sv_read file_services]. rewrite Er.
  cbn [on_fat to_option fst snd]. unfold int_of, ret. by rewrite u32_small, s32_small by (unfold is_u32; rewrite length_take; lia).
Qed.

Lemma copy_out_prints loops : forall fd size bytes pos (k : K), fd <> 0 -> 0 < size < 2147483648 -> 0 <= pos ->
  fd_view (fk_fat k) fd bytes pos -> Z.of_nat (length bytes) - pos <= size * Z.of_nat loops ->
  exists k', copy_out (H := svc) (S loops) fd size k = Done tt k' /\
    fk_out k' = fk_out k ++ drop (Z.to_nat pos) bytes /\ only_fd fd k k' /\ exists pos', fd_view (fk_fat k') fd bytes pos'.
Proof.
  induction loops as [|loops IH]; intros fd size bytes pos k Hfd Hsz Hpos Hv Hlen; rewrite copy_out_S; unfold mbind at 1, prog_bind at 1;
    destruct (read_view fd bytes pos size k Hfd Hv ltac:(lia)) as (st' & -> & Hk & Hv'); cbv zeta in *; cbn [fst snd].
  - exists (set_fat k st'). rewrite (drop_ge bytes) in * by lia. rewrite take_nil in *. cbn. rewrite app_nil_r. eauto.
  - set (data := take (Z.to_nat size) (drop (Z.to_nat pos) bytes)) in *.
    assert (Hl : Z.of_nat (length data) = Z.min size (Z.max 0 (Z.of_nat (length bytes) - pos)))
      by (unfold data; rewrite length_take, length_drop; lia).
    destruct (Z.gtb_spec (Z.of_nat (length data)) 0) as [Hgt|Hle].
    + unfold mbind, prog_bind. rewrite write_out, Nat2Z.id, take_ge by lia.
      destruct (IH fd size bytes (pos + Z.of_nat (length data)) (set_out (set_fat k st') (fk_out k ++ data)))
        as (k' & Ec & Ho & Hk' & Hv2); [done|done|lia|done|lia|].
      exists k'. change (fk_out (set_fat k st')) with (fk_out k). rewrite Ec. split; [done|]. rewrite Ho. cbn [set_out fk_out].
      rewrite <- app_assoc. split.
      { f_equal. rewrite Z2Nat.inj_add, Nat2Z.id, <- drop_drop by lia. apply take_drop_length. }
      split; [|done]. by eapply only_fd_trans.
    + exists (set_fat k st'). split; [done|]. cbn. rewrite drop_ge, app_nil_r by lia. eauto.
Qed.

(** Opening the file of a directory entry, and closing a descriptor. *)
Lemma open_view (k : K) name e cs :
  let st := fk_fat k in
  fat_ready st = true -> 1 <= sectors_per_cluster (vol st) -> fat_find_entry fuel (disk st) (vol st) name = OK e ->
  flag (de_attr e) FAT_ATTR_DIRECTORY = false ->
  file_chain (disk st) (vol st) (de_first_cluster_low e) cs (de_file_size e) -> free_slot (open_files st) <> None ->
  exists st1 fd, open (H := svc) name k = Done fd (set_fat k st1) /\ 3 <= fd < 11 /\ fd_lookup st fd = None /\
    fd_view st1 fd (file_bytes (disk st) (vol st) cs (de_file_size e)) 0 /\ only_fd fd k (set_fat k st1).
Proof.
  cbv zeta. intros Hrdy Hspc Hfind Hdir Hfc Hfree.
  pose proof (fat_open_view (fk_fat k) (fk_task k) name e cs fuel Hrdy Hspc Hfind Hdir Hfc) as Hopen.
  destruct (fat_open fuel (fk_fat k) (fk_task k) name) as [st1 [fd| |]] eqn:Eo.
  2,3: exfalso; unfold fat_open in Eo; rewrite Hrdy, Hfind, Hdir in Eo; cbn [negb] in Eo;
    destruct (free_slot (open_files (fk_fat k))); done.
  destruct Hopen as (Hfd & Hnone & Hview & _ & Hd & Hoth). exists st1, fd.
  unfold open, int_call. cbn [sv_open file_services]. rewrite Eo. cbn [on_fat fst snd to_option].
  unfold int_of, ret. by rewrite u32_small, s32_small by (unfold is_u32; lia).
Qed.

Lemma close_view (k : K) fd bytes pos : fd_view (fk_fat k) fd bytes pos ->
  exists st', close (H := svc) fd k = Done 0 (set_fat k st') /\ fd_lookup st' fd = None /\ only_fd fd k (set_fat k st') /\
    is_Some (free_slot (open_files st')) /\ vol st' = vol (fk_fat k) /\ fat_ready st' = fat_ready (fk_fat k).
Proof.
  intros (i & f & c & Hl & _). pose proof (fat_close_spec (fk_fat k) fd) as Hcl. unfold close, int_call. cbn [sv_close file_services].
  assert (Hf : vol (fat_close (fk_fat k) fd).1 = vol (fk_fat k) /\ fat_ready (fat_close (fk_fat k) fd).1 = fat_ready (fk_fat k))
    by (unfold fat_close; by rewrite Hl).
  destruct (fat_close (fk_fat k) fd) as [st3 [r| |]]; [|destruct Hcl; congruence|done].
  destruct Hcl as (-> & _ & Hgone & _ & Hfree & Hd & Ho). by exists st3.
Qed.

(** A descriptor that was closed before and is closed again. *)
Lemma only_fd_closed fd k k' : only_fd fd k k' -> fd_lookup (fk_fat k) fd = None -> fd_lookup (fk_fat k') fd = None ->
  forall fd', fd_lookup (fk_fat k') fd' = fd_lookup (fk_fat k) fd'.
Proof. intros (_ & _ & _ & Ho) H1 H2 fd'. destruct (Z.eq_dec fd' fd) as [->|Hne]; [congruence|by apply Ho]. Qed.

(** Printing a file with the program's own descriptor. *)
Lemma cat_run (k : K) prog_name name e cs loops :
  let st := fk_fat k in
  fat_ready st = true -> 1 <= sectors_per_cluster (vol st) -> fat_find_entry fuel (disk st) (vol st) name = OK e ->
  flag (de_attr e) FAT_ATTR_DIRECTORY = false ->
  file_chain (disk st) (vol st) (de_first_cluster_low e) cs (de_file_size e) ->
  free_slot (open_files st) <> None -> de_file_size e <= 16 * Z.of_nat loops ->
  exists k', cat (H := file_services fuel) (S loops) [prog_name; name] k = Exits k' /\
    fk_out k' = fk_out k ++ file_bytes (disk st) (vol st) cs (de_file_size e) /\
    disk (fk_fat k') = disk st /\ fk_in k' = fk_in k /\ forall fd, fd_lookup (fk_fat k') fd = fd_lookup st fd.
Proof.
  cbv zeta. intros Hrdy Hspc Hfind Hdir Hfc Hfree Hloops.
  destruct (open_view k name e cs Hrdy Hspc Hfind Hdir Hfc Hfree) as (st1 & fd & Eo & Hfd & Hnone & Hview & F1).
  set (bytes := file_bytes (disk (fk_fat k)) (vol (fk_fat k)) cs (de_file_size e)) in *.
  assert (Hb : Z.of_nat (length bytes) = de_file_size e) by by eapply file_bytes_length.
  destruct (copy_out_prints loops fd 16 bytes 0 (set_fat k st1)) as (k2 & Ec & Ho & F2 & pos & Hv2); [lia|lia|lia|done|lia|].
  destruct (close_view k2 fd bytes pos Hv2) as (st3 & Ek & Hgone & F3 & _).
  unfold cat. change (argc [prog_name; name] >=? 2) with true. change (arg [prog_name; name] 1) with name.
  unfold mbind, prog_bind. cbv zeta iota. rewrite Eo, (proj2 (Z.ltb_ge fd 0)) by lia. unfold mret, prog_ret. rewrite Ec, Ek.
  pose proof (only_fd_trans _ _ _ _ F1 (only_fd_trans _ _ _ _ F2 F3)) as F.
  exists (set_fat k2 st3). split; [done|]. split; [exact Ho|]. split; [apply F|]. split; [apply F|].
  by eapply only_fd_closed.
Qed.

(** C22: [cat] prints the file: for the name of a regular file and with a
    descriptor free, the program exits (its loop needs one turn for every 16
    bytes and one more) after writing exactly the file's contents to the
    console; the disk is unchanged and every descriptor is as before the run,
    the program's own closed again. *)
Theorem cat_prints_file (k : K) prog_name name e cs loops :
  let st := fk_fat k in
  fat_ready st = true -> 1 <= sectors_per_cluster (vol st) -> fat_find_entry fuel (disk st) (vol st) name = OK e ->
  flag (de_attr e) FAT_ATTR_DIRECTORY = false ->
  file_chain (disk st) (vol st) (de_first_cluster_low e) cs (de_file_size e) ->
  free_slot (open_files st) <> None -> de_file_size e <= 16 * Z.of_nat loops ->
  exists k', cat (H := file_services fuel) (S loops) [prog_name; name] k = Exits k' /\
    fk_out k' = fk_out k ++ file_bytes (disk st) (vol st) cs (de_file_size e) /\
    disk (fk_fat k') = disk st /\ fk_in k' = fk_in k /\ forall fd, fd_lookup (fk_fat k') fd = fd_lookup st fd.
Proof. apply cat_run. Qed.

(** ** A file saved and printed *)
Context `{!WorkingDevice D}.

Lemma seq_done {A B} (p : prog K A) (q : A -> prog K B) (k k' : K) a : p k = Done a k' -> (p ≫= q) k = q a k'.
Proof. unfold mbind, prog_bind. by intros ->. Qed.

Lemma open_create_view (k : K) name lba slot :
  let st := fk_fat k in
  fat_ready st = true -> is_Some (free_slot (open_files st)) ->
  vol_ok (vol st) -> fat_readable (disk st) (vol st) -> data_readable (disk st) (vol st) ->
  plain_name name -> fat_find_entry_in_dir fuel (disk st) (vol st) fat_root_dir_ref name = Err ->
  alloc_slot_loop fuel fuel (disk st) (vol st) fat_root_dir_ref 0 = OK (Some (lba, slot)) ->
  exists st1 fd i f b b1, open_write (H := svc) name FAT_OPEN_CREATE k = Done fd (set_fat k st1) /\ 3 <= fd < 11 /\
    created st (fk_task k) fat_root_dir_ref name lba slot st1 fd i f b b1.
Proof.
  cbv zeta. intros Hrdy Hfree Hv Hfat Hdat Hp Hfind Hal.
  destruct (open_creates (fk_fat k) (fk_task k) name fat_root_dir_ref name lba slot fuel)
    as (st1 & fd & i & f & b & b1 & E & Hc); try done.
  - by apply resolve_plain.
  - eapply Forall_impl; [apply Hp|]. unfold is_byte. cbn. lia.
  - apply apart_root; [done|done|]. by eapply alloc_slot_root; [apply Hv|].
  - assert (Hfd : 3 <= fd < 11) by (pose proof (fd_lookup_inv _ _ _ _ (cr_fd _ _ _ _ _ _ _ _ _ _ _ _ Hc)); lia).
    exists st1, fd, i, f, b, b1. unfold open_write, int_call. cbn [sv_open_write file_services]. rewrite E.
    cbn [on_fat fst snd to_option]. unfold int_of, ret. by rewrite u32_small, s32_small by (unfold is_u32; lia).
Qed.

Lemma fwrite_view (k : K) fd i f cs b msg :
  let st := fk_fat k in
  fd_lookup st fd = Some (i, f) -> of_writable f = true -> write_ready (disk st) (vol st) f cs b ->
  Forall is_byte msg -> of_file_size f + Z.of_nat (length msg) < 2147483648 ->
  exists st' n f' cs' b', fwrite (H := svc) fd msg k = Done (Z.of_nat n) (set_fat k st') /\
    write_done st fd i f cs b msg st' n f' cs' b'.
Proof.
  cbv zeta. intros Hl Hw Hr Hb Hov. pose proof (at_end_nonneg _ _ _ (wr_end _ _ _ _ _ Hr)).
  destruct (write_at_end (fk_fat k) fd i f cs b msg) as (st' & n & f' & cs' & b' & E & Hd); try done; [lia|].
  exists st', n, f', cs', b'. split; [|done]. unfold fwrite, int_call. cbn [sv_write file_services]. rewrite E.
  cbn [on_fat fst snd to_option]. pose proof (wd_count _ _ _ _ _ _ _ _ _ _ _ _ Hd).
  unfold int_of, ret. by rewrite u32_small, s32_small by (unfold is_u32; lia).
Qed.

(** Where a new file can be saved under [name]: a mounted volume that can be
    read, a descriptor and a directory slot to spare, no entry of that name. *)
Record can_save (st : fat_state D) (name : list Z) (lba slot : Z) : Prop := {
  sv_mounted : fat_ready st = true;
  sv_free : is_Some (free_slot (open_files st));
  sv_vol : vol_ok (vol st);
  sv_fat : fat_readable (disk st) (vol st);
  sv_data : data_readable (disk st) (vol st);
  sv_name : plain_name name;
  sv_byte0 : byte_at (fat_name_to_83 name) 0 <> 0;
  sv_byte5 : byte_at (fat_name_to_83 name) 0 <> 229;
  sv_new : fat_find_entry_in_dir fuel (disk st) (vol st) fat_root_dir_ref name = Err;
  sv_slot : alloc_slot_loop fuel fuel (disk st) (vol st) fat_root_dir_ref 0 = OK (Some (lba, slot)) }.

Definition save_report (name : list Z) (n : nat) : list Z :=
  str "save: wrote " ++ name ++ str " (" ++ int_text (Z.of_nat n) ++ ln " bytes)".

Lemma save_run (k : K) prog_name name msg lba slot :
  can_save (fk_fat k) name lba slot -> Forall is_byte msg -> Z.of_nat (length msg) < 2147483648 ->
  exists k' n e cs, save (H := svc) [prog_name; name; msg] k = Exits k' /\ (n <= length msg)%nat /\
    ((n < length msg)%nat -> forall c, ~ free_cluster (disk (fk_fat k')) (vol (fk_fat k)) c) /\
    fk_out k' = fk_out k ++ save_report name n /\ fk_in k' = fk_in k /\
    let st := fk_fat k' in
    fat_ready st = true /\ vol st = vol (fk_fat k) /\ is_Some (free_slot (open_files st)) /\
    fat_find_entry fuel (disk st) (vol st) name = OK e /\ flag (de_attr e) FAT_ATTR_DIRECTORY = false /\
    de_file_size e = Z.of_nat n /\ file_chain (disk st) (vol st) (de_first_cluster_low e) cs (de_file_size e) /\
    file_bytes (disk st) (vol st) cs (de_file_size e) = take n msg.
Proof.
  intros [Hm Hfr Hv Hfat Hdat Hp Hb0 Hb5 Hnew Hal] Hb Hl.
  destruct (open_create_view k name lba slot) as (st1 & fd & i & f & b & b1 & Eo & Hfd & Hc); [done..|].
  pose proof (cr_file _ _ _ _ _ _ _ _ _ _ _ _ Hc) as Ef.
  destruct (fwrite_view (set_fat k st1) fd i f [] b1 msg) as (st2 & n & f' & cs & b2 & Ew & Hd);
    [apply Hc|by rewrite Ef|apply Hc|done|rewrite Ef; cbn; lia|]. cbn [set_fat fk_fat] in *.
  destruct (saved_file _ _ _ _ _ _ _ _ _ _ _ _ _ _ _ _ _ fuel Hp Hb0 Hb5 Hnew Hal Hc Hd) as (e & Hfind & Hdir & Hsz & Hch & Hby).
  destruct (close_view (set_fat k st2) fd _ _ (write_done_view _ _ _ _ _ _ _ _ _ _ _ _ Hd)) as (st3 & Ec & _ & F & Hfree & Ev & Er).
  cbn [set_fat fk_fat] in *. destruct F as (Ed & _ & _ & _). cbn [set_fat fk_fat] in Ed.
  rewrite (wd_vol _ _ _ _ _ _ _ _ _ _ _ _ Hd) in Ev. rewrite (cr_vol _ _ _ _ _ _ _ _ _ _ _ _ Hc) in Ev.
  rewrite (wd_vol _ _ _ _ _ _ _ _ _ _ _ _ Hd) in Hfind, Hch, Hby. rewrite (cr_vol _ _ _ _ _ _ _ _ _ _ _ _ Hc) in Hfind, Hch, Hby.
  exists (set_out (set_fat k st3) (fk_out k ++ save_report name n)), n, e, cs. split.
  { unfold save. change (argc [prog_name; name; msg] >=? 2) with true. change (argc [prog_name; name; msg] >=? 3) with true.
    change (arg [prog_name; name; msg] 1) with name. change (arg [prog_name; name; msg] 2) with msg. cbv zeta iota.
    rewrite (seq_done _ _ _ _ _ Eo), (proj2 (Z.ltb_ge fd 0)) by lia.
    rewrite (seq_done (mret tt) _ _ (set_fat k st1) tt eq_refl), (seq_done _ _ _ _ _ Ew), (seq_done _ _ _ _ _ Ec).
    unfold print_int. do 5 rewrite (seq_done _ _ _ _ _ (write_out _ _)). cbn [set_out fk_out set_fat]. rewrite <- !app_assoc. done. }
  split; [apply Hd|]. cbn [set_out set_fat fk_fat fk_out fk_in]. rewrite Ed, Ev. split.
  { intros Hlt c. pose proof (wd_full _ _ _ _ _ _ _ _ _ _ _ _ Hd Hlt c) as Hn. by rewrite (cr_vol _ _ _ _ _ _ _ _ _ _ _ _ Hc) in Hn. }
  split; [done|]. split; [done|]. cbv zeta. split; [|done].
  rewrite Er, (wd_mounted _ _ _ _ _ _ _ _ _ _ _ _ Hd), (cr_mounted _ _ _ _ _ _ _ _ _ _ _ _ Hc). done.
Qed.

(** C5: A file saved is a file printed: on a volume with room for the name,
    [save] followed by [cat] of the same name prints back the bytes saved,
    all of them unless the disk filled up, and both programs exit. *)
Theorem save_then_cat (k : K) p q name msg lba slot loops :
  can_save (fk_fat k) name lba slot -> Forall is_byte msg -> Z.of_nat (length msg) < 2147483648 ->
  Z.of_nat (length msg) <= 16 * Z.of_nat loops ->
  exists k1 k2 n, save (H := file_services fuel) [p; name; msg] k = Exits k1 /\
    cat (H := file_services fuel) (S loops) [q; name] k1 = Exits k2 /\
    fk_out k2 = fk_out k ++ save_report name n ++ take n msg /\ (n <= length msg)%nat /\
    ((n < length msg)%nat -> forall c, ~ free_cluster (disk (fk_fat k2)) (vol (fk_fat k)) c).
Proof.
  intros Hs Hb Hl Hloops.
  destruct (save_run k p name msg lba slot Hs Hb Hl) as (k1 & n & e & cs & E1 & Hn & Hfull & Ho & _ & Hm & Hv & Hf & Hfind & Hdir & Hsz & Hch & Hby).
  destruct (cat_run k1 q name e cs loops) as (k2 & E2 & Ho2 & Hd & _); try done; [|by destruct Hf as [x ->]|lia|].
  { rewrite Hv. destruct (sv_vol _ _ _ _ Hs) as (_ & _ & ? & _). lia. }
  exists k1, k2, n. split; [done|]. split; [done|]. rewrite Ho2, Hby, Ho, Hd, <- app_assoc. done.
Qed.
End Cat.

(** ** Listing a directory *)

(** Case-insensitive occurrence of [needle] in [hay]. *)
Definition occurs (hay needle : list Z) : Prop :=
  exists pre mid post, hay = pre ++ mid ++ post /\ map to_lower mid = map to_lower needle.

Lemma byte_at_mid pre mid : byte_at (pre ++ mid) (Z.of_nat (length pre)) = match mid with [] => 0 | h :: _ => h end.
Proof. unfold byte_at. rewrite Nat2Z.id, lookup_app_r, Nat.sub_diag by lia. by destruct mid. Qed.

Lemma to_lower_zero c : 1 <= c < 256 -> to_lower c <> 0.
Proof. unfold to_lower. intros Hc. case_if; lia. Qed.

Lemma matches_at_spec needle : forall pre rest, c_string needle ->
  matches_at (pre ++ rest) (Z.of_nat (length pre)) needle = true <->
  exists mid post, rest = mid ++ post /\ map to_lower mid = map to_lower needle.
Proof.
  induction needle as [|c needle IH]; intros pre rest Hn; cbn [matches_at map].
  { split; [|done]. intros _. by exists [], rest. }
  apply Forall_cons_1 in Hn as [Hc Hn]. rewrite byte_at_mid. destruct rest as [|h rest].
  - rewrite (proj2 (Z.eqb_neq _ _)) by (apply to_lower_zero in Hc; change (to_lower 0) with 0; congruence).
    split; [done|]. intros (mid & post & E & Em). by destruct mid.
  - assert (Ep : pre ++ h :: rest = (pre ++ [h]) ++ rest) by by rewrite <- app_assoc.
    assert (El : Z.of_nat (length pre) + 1 = Z.of_nat (length (pre ++ [h]))) by (rewrite length_app; cbn; lia).
    destruct (Z.eqb_spec (to_lower h) (to_lower c)) as [Eh|Hne].
    + cbv iota. rewrite Ep, El. rewrite IH by done. split.
      * intros (mid & post & -> & Em). exists (h :: mid), post. cbn. by rewrite Eh, Em.
      * intros ([|x mid] & post & E & Em); [done|]. cbn in E, Em. injection E as -> ->. injection Em as _ Em. eauto.
    + split; [done|]. intros ([|x mid] & post & E & Em); [done|]. cbn in E, Em. by injection E as -> _; injection Em.
Qed.

Lemma contains_from_spec rest needle : forall pre, c_string needle ->
  contains_from (length rest) (Z.of_nat (length pre)) (pre ++ rest) needle = true <->
  exists skip mid post, rest = skip ++ mid ++ post /\ (length skip < length rest)%nat /\ map to_lower mid = map to_lower needle.
Proof.
  induction rest as [|h rest IH]; intros pre Hn; cbn [length contains_from].
  { split; [done|]. intros (skip & mid & post & _ & Hl & _). lia. }
  destruct (matches_at _ _ _) eqn:Em.
  - split; [|done]. intros _. apply matches_at_spec in Em as (mid & post & E & Em); [|done].
    exists [], mid, post. cbn. split; [done|]. split; [lia|done].
  - replace (pre ++ h :: rest) with ((pre ++ [h]) ++ rest) by by rewrite <- app_assoc.
    replace (Z.of_nat (length pre) + 1) with (Z.of_nat (length (pre ++ [h]))) by (rewrite length_app; cbn; lia).
    rewrite IH by done. split.
    + intros (skip & mid & post & -> & Hl & E). exists (h :: skip), mid, post. cbn in *. split; [done|]. split; [lia|done].
    + intros ([|x skip] & mid & post & E & Hl & Eq); cbn in E.
      * assert (T : matches_at (pre ++ h :: rest) (Z.of_nat (length pre)) needle = true)
          by (apply matches_at_spec; eauto). congruence.
      * injection E as -> ->. exists skip, mid, post. cbn in Hl. split; [done|]. split; [lia|done].
Qed.

(** The filter of [ls] is a substring test without regard to case; only an
    empty name contains nothing, not even the empty filter. *)
Lemma contains_spec hay needle : c_string needle -> hay <> [] -> contains hay needle = true <-> occurs hay needle.
Proof.
  intros Hn Hne. unfold contains. rewrite (contains_from_spec hay needle [] Hn). split.
  - intros (skip & mid & post & E & _ & Em). by exists skip, mid, post.
  - intros (skip & mid & post & E & Em). destruct (decide (length skip < length hay)%nat) as [Hl|Hl]; [by exists skip, mid, post|].
    destruct needle as [|c needle].
    + exists [], [], hay. cbn. destruct hay; [done|]. cbn. split; [done|]. split; [lia|done].
    + destruct mid as [|x mid]; [done|]. apply (f_equal length) in E. rewrite !length_app in E. cbn in E. lia.
Qed.

Section Listing.
Context {K : Type} `{ServicesLaws K}.

(** The directory as [listdir] presents it: the entries by index, then -1. *)
Definition listing (k : K) (dir : list Z) (es : list (list Z * Z * Z)) : Prop :=
  (forall i e, es !! i = Some e -> sv_list k dir (Z.of_nat i) 64 = Some e) /\
  sv_list k dir (Z.of_nat (length es)) 64 = None.

Definition selected (filter : option (list Z)) (e : list Z * Z * Z) : bool :=
  match filter with Some f => contains (c_str e.1.1) f | None => true end.
Definition entry_line (e : list Z * Z * Z) : list Z := ls_line (c_str e.1.1) e.1.2 e.2.
Definition ls_text (filter : option (list Z)) (es : list (list Z * Z * Z)) : list Z :=
  mjoin (map entry_line (List.filter (selected filter) es)).

Lemma c_str_length l : (length (c_str l) <= length l)%nat.
Proof. induction l as [|c l IH]; cbn; [lia|]. case_if; cbn; lia. Qed.

Lemma ls_line_fits name size is_dir : (length name <= 64)%nat -> is_int size -> (length (ls_line name size is_dir) <= 96)%nat.
Proof.
  intros Hn Hs. destruct (int_text_ok size Hs) as [_ Hl]. unfold ls_line. rewrite !length_app.
  case_if; rewrite ?length_app; cbn; lia.
Qed.

(** Writing to the console does not change what the directory lists. *)
Definition output_only (dir : list Z) : Prop :=
  forall (k : K) c i, sv_list (sv_putchar k c) dir i 64 = sv_list k dir i 64.

Lemma listing_put dir l es (k : K) : output_only dir -> listing k dir es -> listing (foldl sv_putchar k l) dir es.
Proof.
  intros Hput. revert k. induction l as [|c l IH]; intros k [Hi Hend]; cbn [foldl]; [done|].
  apply IH. split; [intros i e He|]; rewrite Hput; auto.
Qed.

Lemma ls_loop_prints dir filter es loops : forall before (k : K),
  output_only dir -> listing k dir (before ++ es) -> Forall (fun e => 0 <= e.1.2 < 2147483648) es -> (length es < loops)%nat ->
  ls_loop loops dir filter (Z.of_nat (length before)) k = Done tt (foldl sv_putchar k (ls_text filter es)).
Proof.
  revert loops. induction es as [|[[name size] is_dir] es IH]; intros [|loops] before k Hput Hk Hes Hl; cbn [length] in Hl; try lia;
    cbn [ls_loop]; unfold mbind at 1, prog_bind at 1, listdir.
  { rewrite app_nil_r in Hk. destruct Hk as [_ ->]. done. }
  rewrite (proj1 Hk (length before) (name, size, is_dir)) by (by rewrite lookup_app_r, Nat.sub_diag).
  apply Forall_cons_1 in Hes as [Hs Hes]. cbn in Hs. unfold int_of, ret. rewrite u32_small, s32_small by (unfold is_u32; lia).
  rewrite (proj2 (Z.ltb_ge size 0)) by lia.
  replace (before ++ (name, size, is_dir) :: es) with ((before ++ [(name, size, is_dir)]) ++ es) in Hk by by rewrite <- app_assoc.
  replace (Z.of_nat (length before) + 1) with (Z.of_nat (length (before ++ [(name, size, is_dir)]))) by (rewrite length_app; cbn; lia).
  unfold ls_text. cbn [List.filter]. unfold selected at 1. cbn [fst snd].
  destruct filter as [f|]; [destruct (contains (c_str name) f); cbn [negb]|].
  2: by rewrite IH by (done || lia).
  all: unfold mbind, prog_bind, write; rewrite IH; [|done| |done|lia].
  all: try (cbn [map mjoin]; rewrite join_cons, foldl_app; done).
  all: by apply listing_put.
Qed.

(** [ls] lists the directory: with the entries [listdir] reports (sizes
    of less than 2 GB), the program exits (its loop needs one turn per entry
    and one more) having printed the banner and one line for every entry, in
    order, or for every entry whose name contains the filter; no line is
    longer than the buffer it is built in, and the filter selects the names
    in which it occurs as a substring without regard to case. *)
Theorem ls_lists (k : K) prog_name dir filter es loops :
  output_only dir -> listing k dir es -> Forall (fun e => 0 <= e.1.2 < 2147483648) es -> (length es < loops)%nat ->
  c_string (default [] filter) ->
  ls loops (prog_name :: dir :: option_list filter) k =
    Exits (sv_exit (foldl sv_putchar k (ln "Files on disk:" ++ ls_text filter es))) /\
  Forall (fun e => (length (entry_line e) <= 96)%nat) es /\
  Forall (fun e => c_str e.1.1 <> [] -> selected filter e = true <-> occurs (c_str e.1.1) (default [] filter)) es.
Proof.
  intros Hput Hk Hs Hl Hf. split; [|split].
  - assert (E : ls loops (prog_name :: dir :: option_list filter) =
      (write (ln "Files on disk:") ;; ls_loop loops dir filter 0 ;; exit : prog K unit)) by by destruct filter.
    rewrite E. unfold mbind, prog_bind. cbn [write].
    rewrite (ls_loop_prints dir filter es loops []); [|done|by apply listing_put|done..].
    unfold exit. by rewrite foldl_app.
  - apply Forall_lookup. intros i [[name size] is_dir] He. pose proof (proj1 Hk i _ He) as Hi. apply sv_list_len in Hi; [|lia].
    apply (Forall_lookup_1 _ _ _ _ Hs) in He. cbn in He. apply ls_line_fits; [cbn [fst snd]|unfold is_int; cbn [fst snd]; lia].
    pose proof (c_str_length name). lia.
  - apply Forall_forall. intros [[name size] is_dir] _ Hne. unfold selected. destruct filter as [f|]; cbn in *.
    + by apply contains_spec.
    + split; [|done]. intros _. by exists [], [], (c_str name).
Qed.
End Listing.

(** ** The calls of this file and the wrappers of the library *)

Lemma atoi_digits_list m p s : forall n pre v, cstr m p (pre ++ s) -> (length s < n)%nat ->
  atoi_digits n m p (Z.of_nat (length pre)) v = Some (atoi_list_digits s v).
Proof.
  induction s as [|c s IH]; intros [|n] pre v Hm Hn; cbn [length] in Hn; try lia; cbn [atoi_digits atoi_list_digits];
    pose proof Hm as [[Hp Hr] Hc Hb He]; rewrite length_app in Hr, He; cbn [length] in Hr, He.
  - replace (u32 (p + Z.of_nat (length pre))) with (p + Z.of_nat (length pre)) by (unfold u32; dlia).
    rewrite Nat.add_0_r in He. by rewrite He.
  - replace (u32 (p + Z.of_nat (length pre))) with (p + Z.of_nat (length pre)) by (unfold u32; dlia).
    rewrite (Hb (length pre) c) by (by rewrite lookup_app_r, Nat.sub_diag).
    destruct ((s8 c >=? 48) && (s8 c <=? 57)); [|done].
    replace (Z.of_nat (length pre) + 1) with (Z.of_nat (length (pre ++ [c]))) by (rewrite length_app; cbn; lia).
    apply IH; [|lia]. by rewrite <- app_assoc.
Qed.

(** [atoi] of the library on the string in memory. *)
Lemma atoi_list_ok m p s n : cstr m p s -> (length s < n)%nat -> atoi n m p = Some (atoi_list s).
Proof.
  intros Hm Hn. unfold atoi, atoi_list. destruct s as [|c s].
  - pose proof (cs_end _ _ _ Hm) as He. cbn in He. rewrite Z.add_0_r in He. rewrite He.
    pose proof (atoi_digits_list m p [] n [] 0 Hm Hn) as Hd.
    change (Z.of_nat (length [])) with 0 in Hd. change (s8 0 =? 45) with false. cbv iota. by rewrite Hd.
  - pose proof (cs_bytes _ _ _ Hm 0%nat c eq_refl) as Hb. rewrite Z.add_0_r in Hb. rewrite Hb.
    destruct (s8 c =? 45).
    + pose proof (atoi_digits_list m p s n [c] 0 Hm) as Hd. change (Z.of_nat (length [c])) with 1 in Hd.
      cbn [length] in Hn. by rewrite Hd by lia.
    + pose proof (atoi_digits_list m p (c :: s) n [] 0 Hm Hn) as Hd.
      change (Z.of_nat (length [])) with 0 in Hd. by rewrite Hd.
Qed.

Section Wrappers.
Context {K : Type} `{Services K}.

(** A call on byte strings is the library's call on buffers that hold them. *)
Lemma write_call n m buf l (k : K) : load_list m buf (length l) = l ->
  perform n (Write buf (Z.of_nat (length l))) m k =
  match write l k with Done _ k => Returns (Some (Z.of_nat (length l))) m k | _ => Waiting end.
Proof. intros Hl. cbn [perform write]. by rewrite Nat2Z.id, Hl. Qed.

Lemma read_call n m fd buf len (k : K) :
  match perform n (Read fd buf len) m k, read fd len k with
  | Returns v m' k1, Done (c, l) k2 => k1 = k2 /\ int_of v = c /\ m' = store_list m buf l
  | Waiting, Waits => True
  | _, _ => False
  end.
Proof.
  unfold perform, read, fill_call, waited, filled. destruct (fd =? 0).
  - by destruct (read_stdin _ _) as [[k1 l]|].
  - by destruct (sv_read k fd len) as [k1 [l|]].
Qed.

Lemma open_call n m p name (k : K) : cstr m p name -> (length name < n)%nat ->
  perform n (Open p) m k = let '(k, v) := sv_open k name in Returns v m k.
Proof.
  intros Hs Hn. cbn [perform]. unfold on_string, plain. rewrite (string_at_cstr n m p name Hs Hn). by destruct (sv_open k name).
Qed.

Lemma fwrite_call n m fd buf l (k : K) : load_list m buf (length l) = l ->
  perform n (Fwrite fd buf (Z.of_nat (length l))) m k = let '(k, v) := sv_write k fd l in Returns v m k.
Proof. intros Hl. cbn [perform]. unfold plain. rewrite Nat2Z.id, Hl. by destruct (sv_write k fd l). Qed.
End Wrappers.

(** ** Instances *)
Definition hello_txt : list Z := name_of "hello.txt".

Lemma cat_prints_file_witness : exists k', cat (H := file_services 20) 45 [name_of "cat.elf"; hello_txt] user = Exits k' /\
  fk_out k' = file_bytes img vol0 [2; 3] 700.
Proof.
  destruct (cat_prints_file 20 user (name_of "cat.elf") hello_txt hello [2; 3] 44) as (k' & E & Ho & _);
    [reflexivity|cbn; lia|apply find_hello|reflexivity|apply img_file_chain2|vm_compute; discriminate|cbn; lia|].
  exists k'. split; [exact E|exact Ho].
Defined.

Lemma user_can_save : can_save 20 (fk_fat user) (name_of "note.txt") 3 3.
Proof.
  split; [reflexivity|apply slot_available|apply vol0_ok|apply img_fat|apply img_data| |vm_compute; discriminate..
    |vm_compute; reflexivity|vm_compute; reflexivity].
  split; [unfold c_string|vm_compute; split; reflexivity|]; unfold name_of; cbn;
    repeat (apply Forall_cons_2; [vm_compute; first [discriminate|split; [discriminate|reflexivity]]|]); apply Forall_nil_2.
Qed.

Lemma save_then_cat_witness :
  exists k1 k2 n, save (H := file_services 20) [[]; name_of "note.txt"; replicate 1000 65] user = Exits k1 /\
    cat (H := file_services 20) 64 [[]; name_of "note.txt"] k1 = Exits k2 /\
    fk_out k2 = save_report (name_of "note.txt") n ++ take n (replicate 1000 65).
Proof.
  destruct (save_then_cat 20 user [] [] (name_of "note.txt") (replicate 1000 65) 3 3 63 user_can_save)
    as (k1 & k2 & n & E1 & E2 & Ho & _);
    [apply Forall_replicate; unfold is_byte; lia|vm_compute; reflexivity|vm_compute; discriminate|].
  exists k1, k2, n. split; [exact E1|]. split; [exact E2|exact Ho].
Defined.

Definition root_entries : list (list Z * Z * Z) :=
  [(name_of "HELLO.TXT" ++ [0], 700, 0); (name_of "SUB" ++ [0], 0, 1); (name_of "BIG.BIN" ++ [0], 1024, 0)].

Lemma ls_lists_witness :
  ls (H := file_services 20) 4 [name_of "ls.elf"; []; name_of "b"] user =
    Exits (sv_exit (Services := file_services 20) (foldl (sv_putchar (Services := file_services 20)) user
      (ln "Files on disk:" ++ ln "  SUB  (dir)" ++ ln "  BIG.BIN  (1024 bytes)"))) /\
  selected (Some (name_of "b")) (name_of "HELLO.TXT" ++ [0], 700, 0) = false.
Proof.
  destruct (ls_lists (H := file_services 20) (H0 := file_laws 20) user (name_of "ls.elf") [] (Some (name_of "b")) root_entries 4)
    as [E _]; [intros k c i; reflexivity| |do 3 (apply Forall_cons_2; [cbn; lia|]); apply Forall_nil_2|cbn; lia
      |apply Forall_cons_2; [vm_compute; split; [discriminate|reflexivity]|apply Forall_nil_2]|].
  - split; [|vm_compute; reflexivity]. intros [|[|[|i]]] e; [intros [= <-]; vm_compute; reflexivity..|discriminate].
  - assert (T : ls_text (Some (name_of "b")) root_entries = ln "  SUB  (dir)" ++ ln "  BIG.BIN  (1024 bytes)")
      by (vm_compute; reflexivity).
    rewrite T in E. split; [exact E|vm_compute; reflexivity].
Defined.

(** The same in a subdirectory. *)
Example save_then_cat_sub :
  match save (H := file_services 20) [[]; name_of "sub/new.txt"; name_of "some text"] user with
  | Exits k =>
      match cat (H := file_services 20) 9 [[]; name_of "sub/new.txt"] k with
      | Exits k => fk_out k = ln "save: wrote sub/new.txt (9 bytes)" ++ name_of "some text"
      | _ => False
      end
  | _ => False
  end.
Proof. vm_compute. reflexivity. Qed.
