(* ===== verification/Edit.v ===== *)
(** * The line editor (src/userspace/edit.c)

    The program keeps an array of pointers to lines on the library's heap.
    Its commands are shown to be list operations on the document those
    pointers spell, by the separation of the allocator's payloads. *)
From S2P Require Import Prelude Terminal FatTypes FatName FatTable FatDir FatFile FatWrite FatDisk Heap Usermode Libc Shell Syscall User.

Definition MAX_LINES : Z := 512.
Definition MAX_LINE_LEN : Z := 512.
Definition MAX_LOAD_SIZE : Z := 8192.

(** The static variables, the library's heap and the program's memory. *)
Record editor := mk_ed {
  lines : list Z;        (* MAX_LINES pointers *)
  line_count : Z;
  modified : bool;
  ed_heap : heap;
  ed_mem : memory }.

Definition set_lines (e : editor) (ls : list Z) (n : Z) : editor := mk_ed ls n true (ed_heap e) (ed_mem e).
Definition set_modified (e : editor) (b : bool) : editor := mk_ed (lines e) (line_count e) b (ed_heap e) (ed_mem e).
Definition set_heap (e : editor) (h : heap) (m : memory) : editor := mk_ed (lines e) (line_count e) (modified e) h m.

(** [lines[i]] *)
Definition line_ptr (ls : list Z) (i : Z) : Z := default 0 (ls !! Z.to_nat i).

(** [for (i = line_count; i > at - 1; i--) lines[i] = lines[i - 1];], [n]
    turns from [i] down. *)
Fixpoint shift_up (n : nat) (i : Z) (ls : list Z) : list Z :=
  match n with
  | O => ls
  | S n' => shift_up n' (i - 1) (<[Z.to_nat i := line_ptr ls (i - 1)]> ls)
  end.
(** [for (i = n - 1; i < line_count - 1; i++) lines[i] = lines[i + 1];] *)
Fixpoint shift_down (n : nat) (i : Z) (ls : list Z) : list Z :=
  match n with
  | O => ls
  | S n' => shift_down n' (i + 1) (<[Z.to_nat i := line_ptr ls (i + 1)]> ls)
  end.

(** The characters up to the next newline. *)
Fixpoint take_line (l : list Z) : list Z :=
  match l with [] => [] | c :: l' => if c =? 10 then [] else c :: take_line l' end.
Definition skip_newline (l : list Z) : list Z :=
  match l with c :: l' => if c =? 10 then l' else l | [] => [] end.
(** [while ( *p == ' ') p++;] *)
Fixpoint skip_blanks (l : list Z) : list Z :=
  match l with c :: l' => if c =? 32 then skip_blanks l' else l | [] => [] end.

Section Program.
Context {K : Type} `{Services K}.
Context (user_heap : Z).  (* where the library's heap array lies *)
Context (fuel : nat).     (* a bound on the keys of a line and on the blocks of the heap *)

Fixpoint read_line (n : nat) (buf : list Z) (max_len : Z) : prog K (list Z) :=
  match n with
  | O => not_yet
  | S n' =>
      if Z.of_nat (length buf) <? max_len - 1 then
        r ← read 0 1;
        if r.1 <=? 0 then mret buf
        else
          let c := byte_at r.2 0 in
          if c =? 10 then mret buf
          else if c =? 8 then read_line n' (take (length buf - 1) buf) max_len
          else read_line n' (buf ++ [c]) max_len
      else mret buf
  end.

(** The string at [lines[i]]. *)
Definition line_text (e : editor) (i : Z) : option (list Z) :=
  string_at (Z.to_nat MAX_LINE_LEN) (ed_mem e) (line_ptr (lines e) i).
Definition with_line {A} (e : editor) (i : Z) (f : list Z -> prog K A) : prog K A :=
  match line_text e i with Some s => f s | None => not_yet end.

(** [malloc(length s + 1)] and the copy of [s] with its terminator there; the
    address is 0 when the heap is exhausted. *)
Definition copy_string (e : editor) (s : list Z) : prog K (editor * Z) :=
  match malloc fuel user_heap (ed_heap e) (Z.of_nat (length s) + 1) with
  | OK (h, p) =>
      mret (set_heap e h (if p =? 0 then ed_mem e else store_list (ed_mem e) p (s ++ [0])), p)
  | _ => not_yet
  end.

Definition print_line (e : editor) (n : Z) : prog K unit :=
  print_int n ;; write (str ": ") ;; with_line e (n - 1) write ;; write [10].

Fixpoint list_from (n : nat) (i : Z) (e : editor) : prog K unit :=
  match n with O => mret tt | S n' => print_line e (i + 1) ;; list_from n' (i + 1) e end.
Definition cmd_list (e : editor) : prog K unit := list_from (Z.to_nat (line_count e)) 0 e.

Definition cmd_print (e : editor) (n : Z) : prog K unit :=
  if (n <? 1) || (n >? line_count e) then write (ln "edit: invalid line number") else print_line e n.

Definition cmd_insert (e : editor) (at_ : Z) : prog K editor :=
  if (at_ <? 1) || (at_ >? line_count e + 1) then write (ln "edit: invalid line number") ;; mret e
  else if line_count e >=? MAX_LINES then write (ln "edit: too many lines") ;; mret e
  else
    buf ← read_line fuel [] MAX_LINE_LEN;
    r ← copy_string e (c_str buf);
    let '(e, copy) := r in
    if copy =? 0 then write (ln "edit: out of memory") ;; mret e
    else
      let ls := shift_up (Z.to_nat (line_count e - (at_ - 1))) (line_count e) (lines e) in
      mret (set_lines e (<[Z.to_nat (at_ - 1) := copy]> ls) (line_count e + 1)).

Definition cmd_delete (e : editor) (n : Z) : prog K editor :=
  if (n <? 1) || (n >? line_count e) then write (ln "edit: invalid line number") ;; mret e
  else
    match free (ed_heap e) (line_ptr (lines e) (n - 1)) with
    | OK h =>
        let e := set_heap e h (ed_mem e) in
        mret (set_lines e (shift_down (Z.to_nat (line_count e - 1 - (n - 1))) (n - 1) (lines e)) (line_count e - 1))
    | _ => not_yet
    end.

Fixpoint save_from (n : nat) (i fd : Z) (e : editor) : prog K unit :=
  match n with
  | O => mret tt
  | S n' => with_line e i (fwrite fd) ;; fwrite fd [10] ;; save_from n' (i + 1) fd e
  end.
Definition cmd_save (e : editor) (filename : list Z) : prog K editor :=
  fd ← open_write filename FAT_OPEN_TRUNCATE;
  if fd <? 0 then write (ln "edit: could not open file for writing") ;; mret e
  else
    save_from (Z.to_nat (line_count e)) 0 fd e ;;
    close fd ;;
    write (ln "edit: saved") ;;
    mret (set_modified e false).

(** The bytes of [load_buf] read so far. *)
Fixpoint load_loop (n : nat) (fd : Z) (buf : list Z) : prog K (list Z) :=
  match n with
  | O => not_yet
  | S n' =>
      if Z.of_nat (length buf) <? MAX_LOAD_SIZE - 1 then
        r ← read fd (MAX_LOAD_SIZE - 1 - Z.of_nat (length buf));
        if r.1 <=? 0 then mret buf else load_loop n' fd (buf ++ take (Z.to_nat r.1) r.2)
      else mret buf
  end.

(** The bytes not yet split. *)
Fixpoint split_loop (n : nat) (rest : list Z) (e : editor) : prog K editor :=
  match n with
  | O => not_yet
  | S n' =>
      if negb (Nat.eqb (length rest) 0) && (line_count e <? MAX_LINES) then
        let line := take_line rest in
        let after := drop (length line) rest in
        let len := if Z.of_nat (length line) >? MAX_LINE_LEN - 1 then MAX_LINE_LEN - 1 else Z.of_nat (length line) in
        r ← copy_string e (take (Z.to_nat len) line);
        let '(e, copy) := r in
        if copy =? 0 then write (ln "edit: out of memory loading file, stopped early") ;; mret e
        else
          split_loop n' (skip_newline after)
            (mk_ed (<[Z.to_nat (line_count e) := copy]> (lines e)) (line_count e + 1) (modified e) (ed_heap e) (ed_mem e))
      else mret e
  end.

Definition load_file (e : editor) (filename : list Z) : prog K editor :=
  fd ← open filename;
  if fd <? 0 then write (ln "edit: (new file)") ;; mret e
  else
    buf ← load_loop (S (Z.to_nat MAX_LOAD_SIZE)) fd [];
    close fd ;;
    split_loop (S (Z.to_nat MAX_LOAD_SIZE)) buf e.

Definition print_help : prog K unit :=
  write (ln "Commands: l (list all)  p N (print line N)  i N (insert before N)" ++
         ln "          a (append at end)  d N (delete line N)  w (save)  q (quit)  h (help)").

(** One command line; [true] is the end of the session. *)
Definition command (filename cmd : list Z) (e : editor) : prog K (editor * bool) :=
  let stay (p : prog K editor) : prog K (editor * bool) := e ← p; mret (e, false) in
  match cmd with
  | [] => mret (e, false)
  | op :: p =>
      let arg := atoi_list (skip_blanks p) in
      if op =? 108 then stay (cmd_list e ;; mret e)
      else if op =? 104 then stay (print_help ;; mret e)
      else if op =? 113 then
        if modified e then
          stay (write (ln "edit: unsaved changes -- 'w' to save, or 'q' again to discard") ;; mret (set_modified e false))
        else mret (e, true)
      else if op =? 119 then stay (cmd_save e filename)
      else if op =? 97 then stay (cmd_insert e (line_count e + 1))
      else if op =? 105 then stay (cmd_insert e arg)
      else if op =? 100 then stay (cmd_delete e arg)
      else if op =? 112 then stay (cmd_print e arg ;; mret e)
      else stay (write (ln "edit: unknown command (h for help)") ;; mret e)
  end.

Fixpoint command_loop (n : nat) (filename : list Z) (e : editor) : prog K unit :=
  match n with
  | O => not_yet
  | S n' =>
      write (str "* ") ;;
      cmd ← read_line fuel [] MAX_LINE_LEN;
      r ← command filename (c_str cmd) e;
      let '(e, quit) := r in
      if quit : bool then mret tt else command_loop n' filename e
  end.

(** The state at the program's start: everything zero. *)
Definition editor_start (m : memory) : editor :=
  mk_ed (replicate (Z.to_nat MAX_LINES) 0) 0 false (mk_heap 0 false ∅) m.

Definition edit (turns : nat) (argv : list (list Z)) (m : memory) : prog K unit :=
  (if argc argv <? 2 then write (ln "edit: usage: edit.elf <filename>") ;; exit else mret tt) ;;
  let filename := arg argv 1 in
  e ← load_file (editor_start m) filename;
  write (str "edit: editing ") ;; write filename ;; write (str " (") ;; print_int (line_count e) ;;
  write (ln " lines) -- type h for help") ;;
  command_loop turns filename e ;;
  exit.
End Program.

(** ** The document *)

(** A pointer to a line: a payload in use that holds the string. *)
Definition owned (user_heap : Z) (bs : list block) (m : memory) (p : Z) (s : list Z) : Prop :=
  Z.of_nat (length s) < MAX_LINE_LEN /\ cstr m p s /\ exists n, (p, n) ∈ in_use user_heap bs /\ Z.of_nat (length s) < n.

(** The editor holds the document [doc], on the heap blocks [bs]. *)
Record holds (user_heap : Z) (e : editor) (bs : list block) (doc : list (list Z)) : Prop := {
  ho_room : length (lines e) = Z.to_nat MAX_LINES;
  ho_count : line_count e = Z.of_nat (length doc);
  ho_heap : user_rep user_heap (ed_heap e) bs;
  ho_lines : exists ptrs unused, lines e = ptrs ++ unused /\ NoDup ptrs /\
    Forall2 (owned user_heap bs (ed_mem e)) ptrs doc }.

Lemma shift_up_spec c b : forall a x r, <[length a := c]> (shift_up (length b) (Z.of_nat (length a + length b)) (a ++ b ++ x :: r)) = a ++ c :: b ++ r.
Proof.
  induction b as [|y b IH] using rev_ind; intros a x r.
  { cbn [length shift_up app]. rewrite insert_app_r_alt, Nat.sub_diag by lia. done. }
  assert (El : length (b ++ [y]) = S (length b)) by (rewrite length_app; cbn; lia). rewrite El. cbn [shift_up].
  replace (Z.of_nat (length a + S (length b)) - 1) with (Z.of_nat (length a + length b)) by lia.
  assert (E : line_ptr (a ++ (b ++ [y]) ++ x :: r) (Z.of_nat (length a + length b)) = y).
  { unfold line_ptr. rewrite Nat2Z.id, lookup_app_r, <- app_assoc, lookup_app_r by lia.
    replace (length a + length b - length a - length b)%nat with 0%nat by lia. done. }
  rewrite E, Nat2Z.id.
  replace (<[(length a + S (length b))%nat := y]> (a ++ (b ++ [y]) ++ x :: r)) with (a ++ b ++ y :: y :: r).
  { rewrite IH. by rewrite <- app_assoc. }
  rewrite insert_app_r_alt by lia. f_equal. rewrite insert_app_r_alt, El by lia.
  replace (length a + S (length b) - length a - S (length b))%nat with 0%nat by lia. by rewrite <- app_assoc.
Qed.

Lemma shift_down_spec b r : forall a y, exists z, shift_down (length b) (Z.of_nat (length a)) (a ++ y :: b ++ r) = a ++ b ++ z :: r.
Proof.
  induction b as [|c b IH]; intros a y; cbn [length shift_down app]; [by exists y|].
  assert (E : line_ptr (a ++ y :: c :: b ++ r) (Z.of_nat (length a) + 1) = c).
  { unfold line_ptr. rewrite lookup_app_r by lia. by replace (Z.to_nat (Z.of_nat (length a) + 1) - length a)%nat with 1%nat by lia. }
  rewrite E, Nat2Z.id, insert_app_r_alt, Nat.sub_diag by lia. cbn [insert list_insert].
  replace (Z.of_nat (length a) + 1) with (Z.of_nat (length (a ++ [c]))) by (rewrite length_app; cbn; lia).
  destruct (IH (a ++ [c]) c) as [z Ez]. exists z. rewrite <- !app_assoc in Ez. exact Ez.
Qed.

Lemma Forall2_impl_l {A B} (P Q : A -> B -> Prop) l k :
  Forall2 P l k -> (forall x y, x ∈ l -> P x y -> Q x y) -> Forall2 Q l k.
Proof.
  induction 1 as [|x y l k Hxy _ IH]; intros HQ; [constructor|]. constructor; [apply HQ; [by left|done]|].
  apply IH. intros x' y' Hin. apply HQ. by right.
Qed.

Lemma separated_cons l r p n q j : separated l -> l ≡ₚ (p, n) :: r -> (q, j) ∈ r -> p + n <= q \/ q + j <= p.
Proof.
  intros Hs Hp Hq. destruct (Permutation_cons_inv_r _ _ _ Hp) as (l1 & l2 & -> & Hr).
  rewrite Hr in Hq. apply elem_of_app in Hq as [Hq|Hq]; apply list_elem_of_lookup_1 in Hq as [i Hi].
  - apply (Hs (length l1) i p n q j); [by apply list_lookup_middle|by apply lookup_app_l_Some|].
    apply lookup_lt_Some in Hi. lia.
  - apply (Hs (length l1) (length l1 + S i)%nat p n q j); [by apply list_lookup_middle| |lia].
    rewrite lookup_app_r by lia. by replace (length l1 + S i - length l1)%nat with (S i) by lia.
Qed.

(** A write into the payload just handed out leaves the other strings. *)
Lemma owned_alloc user_heap bs bs' m p n s q t :
  separated (in_use user_heap bs') -> in_use user_heap bs' ≡ₚ (p, n) :: in_use user_heap bs ->
  0 <= p -> p + n <= 4294967296 -> Z.of_nat (length s) < n -> owned user_heap bs m q t ->
  q <> p /\ owned user_heap bs' (store_list m p (s ++ [0])) q t.
Proof.
  intros Hsep Hp H0 Hend Hn (Ht & [[Hq0 Hqr] Hc Hb He] & j & Hj & Hlt).
  pose proof (separated_cons _ _ _ _ _ _ Hsep Hp Hj) as Hd.
  assert (Hm : forall x, q <= x <= q + Z.of_nat (length t) -> store_list m p (s ++ [0]) x = m x).
  { intros x Hx. apply (store_list_frame _ _ _ n); [done|done|rewrite length_app; cbn; lia|lia]. }
  split; [lia|]. split; [done|]. split; [|exists j; rewrite Hp; split; [by right|done]].
  split; [done|done| |].
  - intros i c Hi. pose proof (lookup_lt_Some _ _ _ Hi). rewrite Hm by lia. by apply Hb.
  - rewrite Hm by lia. done.
Qed.

Section Pointers.
Context (user_heap : Z).
#[local] Abbreviation holds := (holds user_heap).
#[local] Abbreviation owned := (owned user_heap).

(** The array after an insertion of the new pointer [p] at index [i]. *)
Lemma holds_insert e h m bs bs' doc p s i : (i <= length doc)%nat -> (length doc < Z.to_nat MAX_LINES)%nat ->
  holds e bs doc -> user_rep user_heap h bs' -> owned bs' m p s ->
  (forall q t, owned bs (ed_mem e) q t -> q <> p /\ owned bs' m q t) ->
  let ls := shift_up (length doc - i) (line_count e) (lines e) in
  holds (set_lines (set_heap e h m) (<[i := p]> ls) (line_count e + 1)) bs' (take i doc ++ s :: drop i doc).
Proof.
  intros Hi Hroom [Hl Hc Hh (ptrs & unused & El & Hnd & Hpd)] Hr Hp Hold. cbv zeta.
  pose proof (Forall2_length _ _ _ Hpd) as Hlen. destruct unused as [|x unused].
  { rewrite app_nil_r in El. subst. rewrite Hlen in Hl. lia. }
  set (a := take i ptrs). set (b := drop i ptrs).
  assert (Ea : length a = i) by (unfold a; rewrite length_take; lia).
  assert (Eb : length b = (length doc - i)%nat) by (unfold b; rewrite length_drop; lia).
  pose proof (shift_up_spec p b a x unused) as Hsh. rewrite Ea, Eb in Hsh.
  replace (i + (length doc - i))%nat with (length doc) in Hsh by lia.
  assert (Eab : a ++ b ++ x :: unused = lines e) by (by rewrite app_assoc, El; unfold a, b; rewrite take_drop).
  rewrite Eab, <- Hc in Hsh. rewrite Hsh.
  assert (Hnew : Forall (fun q => q <> p) ptrs).
  { apply Forall_lookup. intros j q Hj. destruct (Forall2_lookup_l _ _ _ _ _ Hpd Hj) as (t & _ & Ht). by apply Hold in Ht as [? _]. }
  split; cbn [lines line_count set_lines ed_heap ed_mem set_heap].
  - rewrite <- Hl, <- Eab, !length_app. cbn [length]. rewrite length_app. lia.
  - rewrite Hc, length_app. cbn [length]. rewrite length_take, length_drop. lia.
  - done.
  - exists (a ++ p :: b), unused. split; [by rewrite <- app_assoc|]. split.
    + rewrite <- Permutation_middle. unfold a, b. rewrite take_drop. apply NoDup_cons. split; [|done].
      intros Hin. rewrite Forall_forall in Hnew. by apply (Hnew p).
    + apply Forall2_app; [apply Forall2_take|constructor; [done|apply Forall2_drop]];
        (eapply Forall2_impl; [exact Hpd|]; intros q t Ht; by apply Hold).
Qed.

(** The array after a deletion of the pointer at index [i]. *)
Lemma holds_delete e bs doc i : (i < length doc)%nat -> holds e bs doc ->
  exists h bs', free (ed_heap e) (line_ptr (lines e) (Z.of_nat i)) = OK h /\
    holds (set_lines (set_heap e h (ed_mem e)) (shift_down (length doc - 1 - i) (Z.of_nat i) (lines e)) (line_count e - 1))
      bs' (take i doc ++ drop (S i) doc).
Proof.
  intros Hi [Hl Hc Hh (ptrs & unused & El & Hnd & Hpd)].
  pose proof (Forall2_length _ _ _ Hpd) as Hlen.
  destruct (lookup_lt_is_Some_2 ptrs i ltac:(lia)) as [p Hp].
  destruct (Forall2_lookup_l _ _ _ _ _ Hpd Hp) as (s & Hs & Hos & Hcs & n & Hin & Hn).
  assert (Elp : line_ptr (lines e) (Z.of_nat i) = p).
  { unfold line_ptr. rewrite Nat2Z.id, El, lookup_app_l by lia. by rewrite Hp. }
  destruct (free_refines user_heap (ed_heap e) bs p n Hh Hin) as (h & bs' & Ef & Hr & Hu).
  exists h, bs'. rewrite Elp. split; [done|].
  destruct (shift_down_spec (drop (S i) ptrs) unused (take i ptrs) p) as [z Hz].
  rewrite length_take, length_drop, Nat.min_l, app_comm_cons, <- drop_S, app_assoc, take_drop, <- El in Hz by (done || lia).
  rewrite Hlen in Hz. replace (length doc - 1 - i)%nat with (length doc - S i)%nat by lia. rewrite Hz.
  split; cbn [lines line_count set_lines ed_heap ed_mem set_heap].
  - rewrite <- Hl, El, !length_app. cbn [length]. rewrite length_take, length_drop. lia.
  - rewrite Hc, length_app, length_take, length_drop. lia.
  - done.
  - exists (take i ptrs ++ drop (S i) ptrs), (z :: unused). split; [by rewrite <- app_assoc|].
    rewrite <- (take_drop_middle _ _ _ Hp) in Hnd. apply NoDup_app in Hnd as (Hn1 & Hn2 & Hn3).
    apply NoDup_cons in Hn3 as [Hn4 Hn3].
    assert (Hkeep : forall q t, owned bs (ed_mem e) q t -> q <> p -> owned bs' (ed_mem e) q t).
    { intros q t (Ht & Hct & j & Hj & Hlt) Hne. split; [done|]. split; [done|]. exists j. split; [|done].
      rewrite Hu in Hj. apply elem_of_cons in Hj as [[= -> _]|Hj]; done. }
    split.
    + apply NoDup_app. split; [done|]. split; [|done]. intros q Hq Hq'. apply (Hn2 q Hq). by right.
    + apply Forall2_app; [apply (Forall2_take _ _ _ i) in Hpd|apply (Forall2_drop _ _ _ (S i)) in Hpd];
        apply (Forall2_impl_l _ _ _ _ Hpd); intros q t Hq Ht; apply Hkeep; [done| |done|]; intros ->; [|done].
      apply (Hn2 p Hq). by left.
Qed.
End Pointers.

Section Refinement.
Context {K : Type} `{Services K}.
Context (user_heap : Z) (fuel : nat).
Hypothesis place : heap_place user_heap.
Hypothesis enough : (4096 < fuel)%nat.
#[local] Abbreviation holds := (holds user_heap).
#[local] Abbreviation owned := (owned user_heap).

(** A request for a line's copy: refused with the document untouched, or a
    new payload with the string beside the lines already held. *)
Lemma copy_string_spec e bs doc s (k : K) : holds e bs doc -> c_string s -> Z.of_nat (length s) < MAX_LINE_LEN ->
  let request := align_up (Z.of_nat (length s) + 1) in
  exists h m p, copy_string user_heap fuel e s k = Done (set_heap e h m, p) k /\
    ((p = 0 /\ list_alloc request bs = None /\ holds (set_heap e h m) bs doc) \/
     (p <> 0 /\ exists bs' o, list_alloc request bs = Some (bs', o) /\ user_rep user_heap h bs' /\ owned bs' m p s /\
        forall q t, owned bs (ed_mem e) q t -> q <> p /\ owned bs' m q t)).
Proof.
  intros [Hl Hc Hh Hp] Hs Hlen. cbv zeta. unfold MAX_LINE_LEN in Hlen.
  destruct (malloc_refines user_heap (ed_heap e) bs (Z.of_nat (length s) + 1) fuel place Hh ltac:(lia) enough)
    as (h & p & bs' & E & Hr & [(-> & -> & Ha)|(n & [o Ha] & Hn & Hlo & Hhi & Hu & Hsep)]);
    unfold copy_string; rewrite E; unfold mret, prog_ret.
  - exists h, (ed_mem e), 0. split; [done|]. left. by split; [|split; [|split]].
  - pose proof place as (H0 & _ & Hend).
    exists h, (store_list (ed_mem e) p (s ++ [0])), p. rewrite (proj2 (Z.eqb_neq p 0)) by lia. split; [done|]. right.
    split; [lia|]. exists bs', o. split; [done|]. split; [done|]. split.
    + split; [done|]. split; [apply store_list_cstr; [done|lia|lia]|]. exists n. rewrite Hu. split; [by left|lia].
    + intros q t. apply (owned_alloc user_heap bs bs' _ p n); [done|done|lia|lia|lia].
Qed.

(** ** Reading and writing lines *)
Lemma read_line_shell n : forall buf max_len (k : K),
  read_line n buf max_len k =
  match shell_read_line sv_read_char n k buf max_len with Some (l, k) => Done l k | None => Waits end.
Proof.
  induction n as [|n IH]; intros buf max_len k; cbn [read_line shell_read_line]; [done|].
  case_if; [|done]. unfold mbind, prog_bind, read, fill_call. cbn [Z.eqb]. change (Z.to_nat 1) with 1%nat. cbn [read_stdin].
  destruct (sv_read_char k) as [[c k1]|]; [|done].
  destruct (Z.eqb_spec c 10) as [->|Hc].
  { change (int_of (Some (Z.of_nat (length [10])))) with 1. done. }
  change (int_of (Some (Z.of_nat (length [c])))) with 1. cbn [fst snd Z.leb Z.compare]. change (byte_at [c] 0) with c.
  rewrite (proj2 (Z.eqb_neq c 10) Hc). destruct (c =? 8); apply IH.
Qed.

Lemma line_text_spec e bs doc i s : holds e bs doc -> doc !! i = Some s -> line_text e (Z.of_nat i) = Some s.
Proof.
  intros [Hl Hc Hh (ptrs & unused & El & Hnd & Hpd)] Hs.
  destruct (Forall2_lookup_r _ _ _ _ _ Hpd Hs) as (p & Hp & Hlen & Hcs & _).
  unfold line_text, line_ptr. rewrite Nat2Z.id, El, lookup_app_l by (by eapply lookup_lt_Some).
  rewrite Hp. cbn [default]. apply string_at_cstr; [done|]. unfold MAX_LINE_LEN in *. lia.
Qed.

(** What [p n] prints, and what [w] hands to the file, piece by piece. *)
Definition line_image (n : Z) (s : list Z) : list Z := int_text n ++ str ": " ++ s ++ [10].
Definition file_pieces (doc : list (list Z)) : list (list Z) := flat_map (fun s => [s; [10]]) doc.
Definition file_text (doc : list (list Z)) : list Z := mjoin (file_pieces doc).

Lemma print_line_spec e bs doc i s (k : K) : holds e bs doc -> doc !! i = Some s ->
  print_line e (Z.of_nat i + 1) k = Done tt (foldl sv_putchar k (line_image (Z.of_nat i + 1) s)).
Proof.
  intros Hh Hs. unfold print_line, with_line. replace (Z.of_nat i + 1 - 1) with (Z.of_nat i) by lia.
  rewrite (line_text_spec _ _ _ _ _ Hh Hs). unfold mbind, prog_bind, print_int, write, line_image. by rewrite !foldl_app.
Qed.

Lemma list_from_spec e bs doc : holds e bs doc -> forall n i (k : K), (i + n = length doc)%nat ->
  list_from n (Z.of_nat i) e k =
  Done tt (foldl sv_putchar k (mjoin (imap (fun j s => line_image (Z.of_nat (i + j) + 1) s) (drop i doc)))).
Proof.
  intros Hh. induction n as [|n IH]; intros i k Hi; cbn [list_from].
  { by rewrite drop_ge by lia. }
  destruct (lookup_lt_is_Some_2 doc i ltac:(lia)) as [s Hs]. unfold mbind at 1, prog_bind at 1.
  rewrite (print_line_spec e bs doc i s k Hh Hs). cbv beta iota.
  replace (Z.of_nat i + 1) with (Z.of_nat (S i)) by lia. rewrite IH by lia. rewrite (drop_S doc s i Hs). cbn [imap].
  rewrite join_cons, foldl_app. replace (Z.of_nat (i + 0) + 1) with (Z.of_nat (S i)) by lia.
  do 3 f_equal. apply imap_ext. intros j x _. cbn. do 2 f_equal. lia.
Qed.

Lemma cmd_list_spec e bs doc (k : K) : holds e bs doc ->
  cmd_list e k = Done tt (foldl sv_putchar k (mjoin (imap (fun j s => line_image (Z.of_nat j + 1) s) doc))).
Proof.
  intros Hh. unfold cmd_list. rewrite (ho_count _ _ _ _ Hh), Nat2Z.id.
  exact (list_from_spec e bs doc Hh (length doc) 0 k eq_refl).
Qed.

Lemma cmd_print_returns e bs doc n (k : K) : holds e bs doc -> exists k', cmd_print e n k = Done tt k'.
Proof.
  intros Hh. unfold cmd_print. rewrite (ho_count _ _ _ _ Hh). destruct (_ || _) eqn:E; [eauto|]. apply orb_false_iff in E as [E1 E2].
  apply Z.ltb_ge in E1. rewrite Z.gtb_ltb in E2. apply Z.ltb_ge in E2.
  destruct (lookup_lt_is_Some_2 doc (Z.to_nat (n - 1)) ltac:(lia)) as [s Hs].
  pose proof (print_line_spec e bs doc (Z.to_nat (n - 1)) s k Hh Hs) as Hp. rewrite Z2Nat.id, Z.sub_add in Hp by lia. eauto.
Qed.

Lemma save_from_spec e bs doc fd : holds e bs doc -> forall n i (k : K), (i + n = length doc)%nat ->
  save_from n (Z.of_nat i) fd e k = Done tt (foldl (fun k c => (sv_write k fd c).1) k (file_pieces (drop i doc))).
Proof.
  intros Hh. induction n as [|n IH]; intros i k Hi; cbn [save_from].
  { by rewrite drop_ge by lia. }
  destruct (lookup_lt_is_Some_2 doc i ltac:(lia)) as [s Hs]. unfold with_line. rewrite (line_text_spec _ _ _ _ _ Hh Hs).
  replace (Z.of_nat i + 1) with (Z.of_nat (S i)) by lia. rewrite (drop_S doc s i Hs).
  unfold mbind, prog_bind, fwrite, int_call. cbn [file_pieces flat_map app foldl].
  destruct (sv_write k fd s) as [k1 v1]. cbn [fst]. destruct (sv_write k1 fd [10]) as [k2 v2]. cbn [fst]. apply IH. lia.
Qed.

(** [w] hands the file exactly the text of the document. *)
Lemma cmd_save_spec e bs doc filename (k k1 : K) fd : holds e bs doc -> sv_open_write k filename FAT_OPEN_TRUNCATE = (k1, Some fd) ->
  0 <= fd < 2147483648 ->
  cmd_save e filename k =
    let k2 := foldl (fun k c => (sv_write k fd c).1) k1 (file_pieces doc) in
    Done (set_modified e false) (foldl sv_putchar (sv_close k2 fd).1 (ln "edit: saved")).
Proof.
  intros Hh Ho Hfd. unfold cmd_save, mbind, prog_bind, open_write, int_call. rewrite Ho. unfold int_of, ret.
  rewrite u32_small, s32_small, (proj2 (Z.ltb_ge fd 0)) by (unfold is_u32; lia).
  rewrite (ho_count _ _ _ _ Hh), Nat2Z.id. change 0 with (Z.of_nat 0) at 1.
  rewrite (save_from_spec e bs doc fd Hh (length doc) 0 k1) by lia. rewrite drop_0. cbv zeta.
  unfold close, int_call. by destruct (sv_close _ fd).
Qed.

(** ** The commands as operations on the document *)
Definition insert_at (i : Z) (s : list Z) (doc : list (list Z)) : list (list Z) :=
  take (Z.to_nat i) doc ++ s :: drop (Z.to_nat i) doc.
Definition size (doc : list (list Z)) : Z := Z.of_nat (length doc).
Definition insert_line (at_ : Z) (s : list Z) (doc : list (list Z)) : list (list Z) :=
  if (1 <=? at_) && (at_ <=? size doc + 1) && (size doc <? MAX_LINES) then insert_at (at_ - 1) s doc else doc.
Definition delete_line (n : Z) (doc : list (list Z)) : list (list Z) :=
  if (1 <=? n) && (n <=? size doc) then take (Z.to_nat (n - 1)) doc ++ drop (Z.to_nat n) doc else doc.

(** What a command makes of the document; [typed] is the line entered for it. *)
Definition edited (op arg : Z) (typed : list Z) (doc : list (list Z)) : list (list Z) :=
  if op =? 97 then insert_line (size doc + 1) typed doc
  else if op =? 105 then insert_line arg typed doc
  else if op =? 100 then delete_line arg doc
  else doc.

(** The keys of a line that is entered. *)
Definition entered (keys : list Z) (k k1 : K) : Prop :=
  Forall (fun c => 0 < c < 256 /\ c <> 10) keys /\ fits [] keys MAX_LINE_LEN /\ (length keys < fuel)%nat /\
  delivers sv_read_char k (keys ++ [10]) k1.

Lemma entered_line keys k k1 : entered keys k k1 ->
  read_line fuel [] MAX_LINE_LEN k = Done (typed_line keys) k1 /\ c_string (typed_line keys) /\
  Z.of_nat (length (typed_line keys)) < MAX_LINE_LEN.
Proof.
  intros (Hk & Hfit & Hf & Hd). split; [|split].
  - rewrite read_line_shell. rewrite (shell_read_line_spec sv_read_char keys k k1 [] fuel MAX_LINE_LEN); [done| |done..].
    eapply Forall_impl; [done|]. by intros ? [_ ?].
  - apply typed_string. eapply Forall_impl; [done|]. cbn. lia.
  - pose proof (Hfit (length keys)) as Hn. rewrite firstn_all in Hn. unfold typed_line, MAX_LINE_LEN in *. lia.
Qed.

Lemma c_str_string s : c_string s -> c_str s = s.
Proof. induction 1 as [|c s Hc Hs IH]; cbn; [done|]. by rewrite (proj2 (Z.eqb_neq c 0)), IH by lia. Qed.

(** The outcome of a command: it returns, and the document is [doc'] or,
    when [retry] holds, still [doc]. *)
Definition results_in (p : prog K editor) (k : K) (doc doc' : list (list Z)) (retry : Prop) : Prop :=
  exists e' k' bs', p k = Done e' k' /\
    ((holds e' bs' doc' /\ (doc' <> doc -> modified e' = true)) \/ (retry /\ holds e' bs' doc)).

Lemma cmd_insert_refines e bs doc at_ keys k k1 : holds e bs doc -> entered keys k k1 ->
  results_in (cmd_insert user_heap fuel e at_) k doc (insert_line at_ (typed_line keys) doc)
    (list_alloc (align_up (Z.of_nat (length (typed_line keys)) + 1)) bs = None).
Proof.
  intros Hh Hk. pose proof (ho_count _ _ _ _ Hh) as Hc. unfold cmd_insert, insert_line, size. rewrite Hc.
  destruct (entered_line keys k k1 Hk) as (Er & Hs & Hl).
  destruct (Z.ltb_spec at_ 1) as [H1|H1].
  { rewrite (proj2 (Z.leb_gt 1 at_)) by lia. exists e. eexists _, bs. split; [done|]. by left. }
  rewrite (proj2 (Z.leb_le 1 at_)) by lia. cbn [orb andb].
  destruct (Z.gtb_spec at_ (Z.of_nat (length doc) + 1)) as [H2|H2].
  { rewrite (proj2 (Z.leb_gt _ _)) by lia. exists e. eexists _, bs. split; [done|]. by left. }
  rewrite (proj2 (Z.leb_le _ _)) by lia. cbn [andb].
  destruct (Z.geb_spec (Z.of_nat (length doc)) MAX_LINES) as [H3|H3].
  { rewrite (proj2 (Z.ltb_ge _ _)) by lia. exists e. eexists _, bs. split; [done|]. by left. }
  rewrite (proj2 (Z.ltb_lt _ _)) by lia. unfold results_in, mbind, prog_bind. rewrite Er, c_str_string by done.
  destruct (copy_string_spec e bs doc _ k1 Hh Hs Hl) as (h & m & p & -> & [(-> & Ha & Hh')|(Hp & bs' & o & Ha & Hr & Ho & Hold)]).
  - exists (set_heap e h m). eexists _, bs. split; [done|]. by right.
  - rewrite (proj2 (Z.eqb_neq p 0) Hp). eexists _, _, bs'. split; [done|]. left. split; [|done].
    pose proof (holds_insert user_heap e h m bs bs' doc p (typed_line keys) (Z.to_nat (at_ - 1))) as Hins. cbv zeta in Hins.
    cbn [line_count lines set_heap]. rewrite Hc in *. unfold insert_at.
    replace (Z.to_nat (Z.of_nat (length doc) - (at_ - 1))) with (length doc - Z.to_nat (at_ - 1))%nat by lia.
    apply Hins; (done || unfold MAX_LINES in *; lia).
Qed.

Lemma cmd_delete_refines e bs doc n k : holds e bs doc ->
  results_in (cmd_delete e n) k doc (delete_line n doc) False.
Proof.
  intros Hh. pose proof (ho_count _ _ _ _ Hh) as Hc. unfold cmd_delete, delete_line, size. rewrite Hc.
  destruct (Z.ltb_spec n 1) as [H1|H1].
  { rewrite (proj2 (Z.leb_gt 1 n)) by lia. exists e. eexists _, bs. split; [done|]. by left. }
  rewrite (proj2 (Z.leb_le 1 n)) by lia. cbn [orb andb].
  destruct (Z.gtb_spec n (Z.of_nat (length doc))) as [H2|H2].
  { rewrite (proj2 (Z.leb_gt _ _)) by lia. exists e. eexists _, bs. split; [done|]. by left. }
  rewrite (proj2 (Z.leb_le _ _)) by lia. cbn [andb].
  destruct (holds_delete user_heap e bs doc (Z.to_nat (n - 1)) ltac:(lia) Hh) as (h & bs' & Ef & Hd).
  rewrite Z2Nat.id in Ef, Hd by lia. unfold results_in. rewrite Ef. eexists _, _, bs'. split; [done|]. left. split; [|done].
  cbn [line_count lines set_heap]. replace (S (Z.to_nat (n - 1))) with (Z.to_nat n) in Hd by lia.
  rewrite Hc in *. replace (Z.to_nat (Z.of_nat (length doc) - 1 - (n - 1))) with (length doc - 1 - Z.to_nat (n - 1))%nat by lia.
  exact Hd.
Qed.

Lemma holds_modified e bs doc b : holds e bs doc -> holds (set_modified e b) bs doc.
Proof. by intros []. Qed.

Lemma cmd_save_returns e bs doc filename k : holds e bs doc -> results_in (cmd_save e filename) k doc doc False.
Proof.
  intros Hh. unfold results_in, cmd_save, mbind, prog_bind, open_write, int_call.
  destruct (sv_open_write k filename FAT_OPEN_TRUNCATE) as [k1 v]. case_if; [exists e; eexists _, bs; split; [done|by left]|].
  rewrite (ho_count _ _ _ _ Hh), Nat2Z.id. change 0 with (Z.of_nat 0).
  rewrite (save_from_spec e bs doc _ Hh (length doc) 0 k1) by lia. unfold close, int_call.
  destruct (sv_close _ _) as [k2 v2]. eexists _, _, bs. split; [done|]. left. split; [by apply holds_modified|done].
Qed.

Lemma results_shown (p : prog K unit) (e : editor) bs doc k k' : holds e bs doc -> p k = Done tt k' ->
  results_in (p ;; mret e) k doc doc False.
Proof. intros Hh E. exists e, k', bs. split; [|by left]. unfold mbind, prog_bind. by rewrite E. Qed.

(** The heap refuses the line entered for [a] or [i]. *)
Definition refused (op : Z) (keys : list Z) (bs : list block) : Prop :=
  (op = 97 \/ op = 105) /\ list_alloc (align_up (Z.of_nat (length (typed_line keys)) + 1)) bs = None.

(** The result of a command: the document, and whether the session ends. *)
Definition commanded (p : prog K (editor * bool)) (k : K) (e : editor) (op : Z) (doc doc' : list (list Z)) (no_room : Prop) : Prop :=
  exists e' quit k' bs', p k = Done (e', quit) k' /\
    ((holds e' bs' doc' /\ (doc' <> doc -> modified e' = true)) \/ (no_room /\ holds e' bs' doc)) /\
    (quit = true <-> op = 113 /\ modified e = false).

Lemma commanded_stay p k e op doc doc' (retry no_room : Prop) : results_in p k doc doc' retry -> (retry -> no_room) ->
  op <> 113 \/ modified e = true -> commanded (e ← p; mret (e, false)) k e op doc doc' no_room.
Proof.
  intros (e' & k' & bs' & E & Hr) Hnr Hq. exists e', false, k', bs'. unfold mbind, prog_bind. rewrite E. split; [done|].
  split; [destruct Hr as [?|[? ?]]; auto|]. split; [done|]. intros [-> ?]. destruct Hq; congruence.
Qed.

(** C19: Every command of the editor is the operation it names on the document:
    [a] and [i n] insert the line that is entered (corrections with backspace
    made) at the end or before line [n], [d n] deletes line [n], and all
    others, unknown ones and line numbers out of range included, leave the
    document as it is; only when the heap has no block for a new line is an
    insertion refused, with the document kept.  The program's invariant
    (distinct live heap blocks, each holding its line) is kept, a change is
    marked as unsaved, and only [q] with nothing unsaved ends the session. *)
Theorem edit_command_refines e bs doc filename op rest keys k k1 :
  holds e bs doc -> (op = 97 \/ op = 105 -> entered keys k k1) ->
  commanded (command user_heap fuel filename (op :: rest) e) k e op doc
    (edited op (atoi_list (skip_blanks rest)) (typed_line keys) doc) (refused op keys bs).
Proof.
  intros Hh Hin. unfold command, edited.
  destruct (Z.eqb_spec op 108) as [->|_].
  { eapply commanded_stay; [eapply results_shown; [done|by apply (cmd_list_spec e bs)]|done|by left]. }
  destruct (Z.eqb_spec op 104) as [->|_]; [eapply commanded_stay; [by eapply results_shown|done|by left]|].
  destruct (Z.eqb_spec op 113) as [->|Hq].
  { destruct (modified e) eqn:Em.
    - apply (commanded_stay _ _ _ _ _ _ False); [|done|by right]. eexists _, _, bs. split; [done|]. left. split; [by apply holds_modified|done].
    - eexists e, true, k, bs. split; [done|]. split; [by left|done]. }
  destruct (Z.eqb_spec op 119) as [->|_]; [eapply commanded_stay; [by eapply cmd_save_returns|done|by left]|].
  destruct (Z.eqb_spec op 97) as [->|Ha].
  { pose proof (Hin (or_introl eq_refl)) as Hk. unfold size. rewrite <- (ho_count _ _ _ _ Hh).
    eapply commanded_stay; [by eapply cmd_insert_refines| |by left]. split; [by left|done]. }
  destruct (Z.eqb_spec op 105) as [->|Hi].
  { eapply commanded_stay; [eapply cmd_insert_refines; [done|by apply Hin; right]| |by left]. split; [by right|done]. }
  destruct (Z.eqb_spec op 100) as [->|_]; [eapply commanded_stay; [by eapply cmd_delete_refines|done|by left]|].
  destruct (Z.eqb_spec op 112) as [->|_].
  { destruct (cmd_print_returns e bs doc (atoi_list (skip_blanks rest)) k Hh) as [k' E].
    eapply commanded_stay; [by eapply results_shown|done|by left]. }
  eapply commanded_stay; [by eapply results_shown|done|by left].
Qed.

End Refinement.

(** ** Loading a file *)

(** A document the editor can hold, and whose file it can load whole. *)
Record doc_ok (doc : list (list Z)) : Prop := {
  do_lines : Z.of_nat (length doc) <= MAX_LINES;
  do_each : Forall (fun s => c_string s /\ Forall (fun c => c <> 10) s /\ Z.of_nat (length s) < MAX_LINE_LEN) doc;
  do_size : Z.of_nat (length (file_text doc)) < MAX_LOAD_SIZE }.

Lemma file_text_cons s doc : file_text (s :: doc) = s ++ 10 :: file_text doc.
Proof. unfold file_text. cbn [file_pieces flat_map app]. by rewrite !join_cons. Qed.

Lemma take_line_app s rest : Forall (fun c => c <> 10) s -> take_line (s ++ 10 :: rest) = s.
Proof. induction 1 as [|c s Hc Hs IH]; cbn; [done|]. by rewrite (proj2 (Z.eqb_neq c 10) Hc), IH. Qed.

(** First fit on blocks in use followed by one free block. *)
Definition used_blocks_of (us : list Z) : list block := map (fun n => (n, false)) us.
Lemma list_alloc_tail us req rem : req + HEADER + MIN_SPLIT <= rem ->
  list_alloc req (used_blocks_of us ++ [(rem, true)]) =
    Some (used_blocks_of (us ++ [req]) ++ [(rem - req - HEADER, true)], extent (used_blocks_of us)).
Proof.
  intros Hr. induction us as [|n us IH]; cbn [used_blocks_of map app list_alloc andb extent].
  - unfold HEADER, MIN_SPLIT in *. rewrite (proj2 (Z.leb_le req rem)), (proj2 (Z.ltb_ge _ _)) by lia. done.
  - unfold used_blocks_of in *. rewrite IH. done.
Qed.

Section Loading.
Context {K : Type} `{Services K}.
Context (user_heap : Z) (fuel : nat).
Hypothesis place : heap_place user_heap.
Hypothesis enough : (4096 < fuel)%nat.

(** The bytes that the text still to be split can take from the heap: each
    line its characters, a terminator, the alignment and a header. *)
Definition demand (doc : list (list Z)) : Z := Z.of_nat (length (file_text doc)) + 24 * Z.of_nat (length doc).

Lemma split_loop_spec doc : forall n e us rem pre (k : K),
  holds user_heap e (used_blocks_of us ++ [(rem, true)]) pre -> 
  Forall (fun s => c_string s /\ Forall (fun c => c <> 10) s /\ Z.of_nat (length s) < MAX_LINE_LEN) doc ->
  size pre + size doc <= MAX_LINES -> demand doc + 32 <= rem -> (length doc < n)%nat ->
  exists e' bs, split_loop user_heap fuel n (file_text doc) e k = Done e' k /\ holds user_heap e' bs (pre ++ doc) /\ modified e' = modified e.
Proof.
  induction doc as [|s doc IH]; intros [|n] e us rem pre k Hh Hd Hsz Hrem Hn; cbn [length] in Hn; try lia; cbn [split_loop].
  { change (file_text []) with (@nil Z). cbn [length Nat.eqb negb andb]. rewrite app_nil_r. by eexists _, _. }
  apply Forall_cons_1 in Hd as [(Hs & Hnl & Hl) Hd]. rewrite file_text_cons.
  assert (Hne : Nat.eqb (length (s ++ 10 :: file_text doc)) 0 = false) by (apply Nat.eqb_neq; rewrite length_app; cbn; lia).
  unfold size in Hsz. cbn [length] in Hsz. unfold demand in Hrem. rewrite file_text_cons, length_app in Hrem. cbn [length] in Hrem.
  rewrite Hne, (ho_count _ _ _ _ Hh), (proj2 (Z.ltb_lt _ _)) by lia. cbn [negb andb].
  rewrite take_line_app, Z.gtb_ltb, (proj2 (Z.ltb_ge _ _)) by (done || unfold MAX_LINE_LEN in *; lia).
  rewrite Nat2Z.id, firstn_all. unfold mbind, prog_bind.
  destruct (align_up_spec (Z.of_nat (length s) + 1)) as [_ Hal]; [unfold MAX_LINE_LEN in *; lia|].
  destruct (copy_string_spec user_heap fuel place enough e _ pre s k Hh Hs Hl)
    as (h & m & p & -> & [(_ & Ha & _)|(Hp & bs' & o & Ha & Hr & Ho & Hold)]);
    rewrite list_alloc_tail in Ha by (unfold HEADER, MIN_SPLIT; lia); [done|].
  injection Ha as <- _. rewrite (proj2 (Z.eqb_neq p 0) Hp). cbn [lines line_count modified set_heap ed_heap ed_mem].
  rewrite drop_app_length. cbn [skip_newline Z.eqb Pos.eqb].
  pose proof (holds_insert user_heap e h m _ _ pre p s (length pre) ltac:(lia) ltac:(unfold MAX_LINES in *; lia) Hh Hr Ho Hold) as Hins.
  cbv zeta in Hins. rewrite Nat.sub_diag, take_ge, drop_ge in Hins by lia. cbn [shift_up] in Hins.
  apply (holds_modified _ _ _ _ (modified e)) in Hins.
  destruct (IH n _ (us ++ [align_up (Z.of_nat (length s) + 1)]) (rem - align_up (Z.of_nat (length s) + 1) - HEADER) (pre ++ [s]) k Hins Hd)
    as (e' & bs & E & Hh' & Hm).
  { unfold size. rewrite length_app. cbn [length]. lia. }
  { unfold demand, HEADER. lia. }
  { lia. }
  exists e', bs. rewrite <- app_assoc in Hh'. split; [|done]. rewrite (ho_count _ _ _ _ Hh), Nat2Z.id in *. exact E.
Qed.
End Loading.

Section FileText.
Context {D : Type} `{BlockDeviceLaws D}.
Context (user_heap : Z) (fuel ff : nat).
Hypothesis place : heap_place user_heap.
Hypothesis enough : (4096 < fuel)%nat.
#[local] Abbreviation K := (file_kernel D).

Lemma load_loop_spec n fd bytes (k : K) : fd <> 0 -> fd_view (fk_fat k) fd bytes 0 -> Z.of_nat (length bytes) < MAX_LOAD_SIZE ->
  exists k', load_loop (H := file_services ff) (S (S n)) fd [] k = Done bytes k' /\ only_fd fd k k' /\ fk_out k' = fk_out k /\
    exists pos, fd_view (fk_fat k') fd bytes pos.
Proof.
  intros Hfd Hv Hlen. unfold MAX_LOAD_SIZE in Hlen.
  cbn [load_loop length]. rewrite (proj2 (Z.ltb_lt _ _)) by done. unfold mbind at 1, prog_bind at 1.
  change (MAX_LOAD_SIZE - 1 - Z.of_nat 0) with 8191.
  destruct (read_view ff fd bytes 0 8191 k Hfd Hv ltac:(lia)) as (st1 & E1 & F1 & V1). rewrite drop_0, take_ge in E1, V1 by lia.
  rewrite E1. cbn [fst snd]. destruct (Z.leb_spec (Z.of_nat (length bytes)) 0) as [Hz|Hz].
  { exists (set_fat k st1). destruct bytes; [|cbn in Hz; lia]. split; [done|]. split; [done|]. split; [done|]. eauto. }
  rewrite Nat2Z.id, take_ge by lia. cbn [app]. unfold MAX_LOAD_SIZE.
  destruct (Z.ltb_spec (Z.of_nat (length bytes)) (8192 - 1)) as [Hm|Hm].
  2:{ exists (set_fat k st1). split; [done|]. split; [done|]. split; [done|]. eauto. }
  unfold mbind, prog_bind.
  destruct (read_view ff fd bytes (0 + Z.of_nat (length bytes)) (8192 - 1 - Z.of_nat (length bytes)) (set_fat k st1) Hfd V1 ltac:(lia))
    as (st2 & E2 & F2 & V2). rewrite drop_ge, take_nil in E2, V2 by lia. rewrite E2. cbn.
  exists (set_fat (set_fat k st1) st2). split; [done|]. split; [by eapply only_fd_trans|]. split; [done|]. eauto.
Qed.

(** C20: Opening a text file and saving it again preserves it.  For a file
    of at most 8191 bytes whose contents are lines of at most 511 characters
    (no zero bytes, each line ended by a newline, at most 512 of them), the
    editor loads exactly these lines; the heap suffices for all of them, so
    loading never stops early; the disk is unchanged and the descriptor closed
    again.  Saving then hands the emptied file, in order, pieces that make up
    exactly the bytes that were loaded. *)
Theorem edit_load_save (k : K) m name e cs doc :
  let st := fk_fat k in
  fat_ready st = true -> 1 <= sectors_per_cluster (vol st) -> fat_find_entry ff (disk st) (vol st) name = OK e ->
  flag (de_attr e) FAT_ATTR_DIRECTORY = false ->
  file_chain (disk st) (vol st) (de_first_cluster_low e) cs (de_file_size e) ->
  free_slot (open_files st) <> None ->
  doc_ok doc -> file_bytes (disk st) (vol st) cs (de_file_size e) = file_text doc ->
  exists ed k' bs, load_file (H := file_services ff) user_heap fuel (editor_start m) name k = Done ed k' /\
    holds user_heap ed bs doc /\ modified ed = false /\ disk (fk_fat k') = disk st /\ fk_out k' = fk_out k /\
    (forall fd, fd_lookup (fk_fat k') fd = fd_lookup st fd) /\
    forall (k1 k2 : K) fd, sv_open_write (Services := file_services ff) k1 name FAT_OPEN_TRUNCATE = (k2, Some fd) -> 0 <= fd < 2147483648 ->
      exists pieces, mjoin pieces = file_bytes (disk st) (vol st) cs (de_file_size e) /\
        cmd_save (H := file_services ff) ed name k1 =
          let k3 := foldl (fun k c => (sv_write (Services := file_services ff) k fd c).1) k2 pieces in
          Done (set_modified ed false)
            (foldl (sv_putchar (Services := file_services ff)) (sv_close (Services := file_services ff) k3 fd).1 (ln "edit: saved")).
Proof.
  cbv zeta. intros Hrdy Hspc Hfind Hdir Hfc Hfree Hdoc Hbytes.
  destruct (open_view ff k name e cs Hrdy Hspc Hfind Hdir Hfc Hfree) as (st1 & fd & Eo & Hfd & Hnone & Hview & F1).
  rewrite Hbytes in *. destruct Hdoc as [Hl He Hs]. unfold MAX_LOAD_SIZE in Hs.
  destruct (load_loop_spec (Z.to_nat MAX_LOAD_SIZE - 1) fd (file_text doc) (set_fat k st1)) as (k2 & El & F2 & Ho & pos & Hv2); [lia|done..|].
  destruct (close_view ff k2 fd _ pos Hv2) as (st3 & Ek & Hgone & F3 & _).
  destruct (split_loop_spec (H := file_services ff) user_heap fuel place enough doc (S (Z.to_nat MAX_LOAD_SIZE)) (editor_start m) [] (USER_HEAP_SIZE - HEADER) []
    (set_fat k2 st3)) as (ed & bs & Es & Hh & Hm).
  { split; [apply length_replicate|done|by left|]. exists [], (replicate (Z.to_nat MAX_LINES) 0). split; [done|]. split; [constructor|constructor]. }
  { done. }
  { done. }
  { unfold demand, USER_HEAP_SIZE, HEADER, MAX_LINES in *. lia. }
  { unfold MAX_LINES, MAX_LOAD_SIZE in *. lia. }
  pose proof (only_fd_trans _ _ _ _ F1 (only_fd_trans _ _ _ _ F2 F3)) as F.
  exists ed, (set_fat k2 st3), bs. split.
  { unfold load_file, mbind, prog_bind. rewrite Eo, (proj2 (Z.ltb_ge fd 0)) by lia.
    replace (S (Z.to_nat MAX_LOAD_SIZE)) with (S (S (Z.to_nat MAX_LOAD_SIZE - 1))) at 1 by (unfold MAX_LOAD_SIZE; lia).
    by rewrite El, Ek. }
  split; [done|]. split; [done|]. split; [apply F|]. split; [done|]. split; [by eapply only_fd_closed|].
  intros k4 k5 fd' Hw Hfd'. exists (file_pieces doc). split; [done|]. by eapply cmd_save_spec.
Qed.
End FileText.

(** ** Instances *)
Definition empty_memory : memory := fun _ => 0.
Definition at_the_keys : file_kernel image := mk_fk mounted 7 (name_of "hallp" ++ [8] ++ name_of "o" ++ [10]) [].

Lemma short_fits keys max_len : Z.of_nat (length keys) < max_len - 1 -> fits [] keys max_len.
Proof.
  intros Hl n. assert (H : forall l buf, (length (foldl key_step buf l) <= length buf + length l)%nat).
  { induction l as [|c l IH]; intros buf; cbn [foldl length]; [lia|]. pose proof (IH (key_step buf c)) as Hi.
    assert (length (key_step buf c) <= length buf + 1)%nat; [|lia].
    unfold key_step. destruct (c =? 8); rewrite ?length_take, ?length_app; cbn [length]; lia. }
  specialize (H (take n keys) []). rewrite length_take in H. cbn [length] in H. lia.
Qed.

Lemma editor_start_holds : holds 3211264 (editor_start empty_memory) [(USER_HEAP_SIZE - HEADER, true)] [].
Proof.
  split; [apply length_replicate|reflexivity|by left|].
  exists [], (replicate (Z.to_nat MAX_LINES) 0). split; [done|]. split; constructor.
Qed.

Lemma edit_command_refines_witness : exists e' k' bs',
  command (H := file_services 20) 3211264 5000 (name_of "notes.txt") [97] (editor_start empty_memory) at_the_keys = Done (e', false) k' /\
  holds 3211264 e' bs' [name_of "hallo"] /\ modified e' = true.
Proof.
  pose (keys := name_of "hallp" ++ [8] ++ name_of "o").
  destruct (edit_command_refines (H := file_services 20) 3211264 5000 ltac:(vm_compute; done) ltac:(lia)
    (editor_start empty_memory) [(USER_HEAP_SIZE - HEADER, true)] [] (name_of "notes.txt") 97 [] keys
    at_the_keys (mk_fk mounted 7 [] [])) as (e' & q & k' & bs' & E & R & Q); [exact editor_start_holds| |].
  - intros _. split; [|split; [|split]].
    + repeat (apply Forall_cons_2; [vm_compute; split; [split; [reflexivity|reflexivity]|discriminate]|]). apply Forall_nil_2.
    + apply short_fits. vm_compute. reflexivity.
    + cbn. lia.
    + cbn. repeat (econstructor; [reflexivity|]). constructor.
  - assert (Hq : q = false) by (destruct q; [destruct (proj1 Q eq_refl); discriminate|reflexivity]). subst q.
    exists e', k', bs'. split; [exact E|]. destruct R as [[Hh Hm]|[[_ Hr] _]]; [|vm_compute in Hr; discriminate Hr].
    split; [exact Hh|]. apply Hm. vm_compute. discriminate.
Defined.

Definition notes : list (list Z) := [name_of "one"; []; name_of "three"].
Definition notes_entry : fat_dir_entry :=
  mk_dir_entry [78; 79; 84; 69; 83; 32; 32; 32] [84; 88; 84] 0 0 0 0 0 0 0 0 0 2 11.
Definition notes_img : image :=
  <[4%nat := sector_with [(0%nat, file_text notes)]]> (<[3%nat := store_entry (replicate 512 0) 0 notes_entry]> img).
Definition notes_kernel : file_kernel image := mk_fk (mk_fat notes_img vol0 true (replicate 8 closed_file)) 7 [] [].

Lemma notes_chain : file_chain notes_img vol0 2 [2; 3] 11.
Proof.
  split; [apply (chain_list_chain 3); vm_compute; reflexivity| |vm_compute; split; discriminate].
  intros c s Hc Hs. apply image_readable; [vm_compute; reflexivity|].
  assert (Hc' : c = 2 \/ c = 3) by (apply elem_of_cons in Hc as [->|Hc]; [by left|]; apply list_elem_of_singleton in Hc; by right).
  assert (Hl : Z.of_nat (length notes_img) = 258) by (vm_compute; reflexivity). rewrite Hl.
  cbn [fat_size_sectors sectors_per_cluster vol0] in Hs. rewrite cluster_lba_eq by (apply vol0_ok || lia). cbn. lia.
Qed.

Lemma notes_ok : doc_ok notes.
Proof.
  split; [vm_compute; discriminate| |vm_compute; reflexivity].
  repeat (apply Forall_cons_2 || apply Forall_nil_2); (split; [|split; [|vm_compute; reflexivity]]);
    vm_compute; repeat (apply Forall_cons_2 || apply Forall_nil_2); try discriminate; (split; [discriminate|reflexivity]).
Qed.

Lemma edit_load_save_witness : exists ed k' bs,
  load_file (H := file_services 20) 3211264 5000 (editor_start empty_memory) (name_of "notes.txt") notes_kernel = Done ed k' /\
  holds 3211264 ed bs notes.
Proof.
  destruct (edit_load_save 3211264 5000 20 ltac:(vm_compute; done) ltac:(lia) notes_kernel empty_memory (name_of "notes.txt")
    notes_entry [2; 3] notes) as (ed & k' & bs & E & Hh & _);
    [reflexivity|vm_compute; discriminate|vm_compute; reflexivity|reflexivity|exact notes_chain|vm_compute; discriminate
    |exact notes_ok|vm_compute; reflexivity|].
  exists ed, k', bs. split; [exact E|exact Hh].
Defined.

(** A line of more than 511 characters is cut when it is loaded, and the rest
    is lost when the file is saved. *)
Example long_line_is_cut :
  match split_loop (H := file_services 20) 3211264 5000 5 (replicate 600 120 ++ [10]) (editor_start empty_memory) notes_kernel with
  | Done e _ => line_count e = 1 /\ line_text e 0 = Some (replicate 511 120)
  | _ => False
  end.
Proof. vm_compute. split; reflexivity. Qed.

(** So is what follows a zero byte in a line. *)
Example zero_byte_cuts_line :
  match split_loop (H := file_services 20) 3211264 5000 5 [97; 0; 98; 10; 99; 10] (editor_start empty_memory) notes_kernel with
  | Done e _ => line_text e 0 = Some [97] /\ line_text e 1 = Some [99]
  | _ => False
  end.
Proof. vm_compute. split; reflexivity. Qed.

(** A full disk is not noticed: every write fails, and the document counts as
    saved. *)
Definition full_disk : file_kernel image :=
  mk_fk (mk_fat (<[2%nat := replicate 512 255]> (<[1%nat := replicate 512 255]> notes_img)) vol0 true (replicate 8 closed_file)) 7 [] [].
Example save_ignores_failed_writes :
  match split_loop (H := file_services 20) 3211264 5000 5 (ln "lost") (editor_start empty_memory) full_disk with
  | Done e k =>
      match cmd_save (H := file_services 20) (set_modified e true) (name_of "new.txt") k with
      | Done e k => modified e = false /\ fk_out k = ln "edit: saved" /\
          match cat (H := file_services 20) 9 [[]; name_of "new.txt"] k with Exits k => fk_out k = ln "edit: saved" | _ => False end
      | _ => False
      end
  | _ => False
  end.
Proof. vm_compute. repeat split. Qed.
