(* ===== verification/Malloctest.v ===== *)
(** * The allocator's self test (src/userspace/malloctest.c)

    The program that exercises [malloc] and [free] and reports each check; it
    is evaluated on a fresh heap, where every check succeeds. *)
From S2P Require Import Prelude Terminal Heap FatDisk Libc Syscall User.

Section Program.
Context {K : Type} `{Services K}.
Context (user_heap : Z) (fuel : nat).

Definition report (label : string) (ok : bool) : prog K unit :=
  write (str label) ;; write (if ok then ln "OK" else ln "FAIL").

(** The library's heap calls; an access outside the heap's headers would be a
    wild one. *)
Definition malloc_call {A} (h : heap) (size : Z) (f : heap -> Z -> prog K A) : prog K A :=
  match malloc fuel user_heap h size with OK (h, p) => f h p | _ => not_yet end.
Definition free_call {A} (h : heap) (p : Z) (f : heap -> prog K A) : prog K A :=
  match free h p with OK h => f h | _ => not_yet end.

(** [for (i = 0; i < n; i++) if (p[i] != c) intact = 0;] *)
Definition intact (m : memory) (p c n : Z) : bool := forallb (fun i => m (u32 (p + i)) =? c) (seqZ 0 n).

Definition malloctest (m : memory) : prog K unit :=
  malloc_call (mk_heap 0 false ∅) 64 (fun h a =>
  malloc_call h 128 (fun h b =>
  malloc_call h 64 (fun h c =>
  report "malloc a: " (negb (a =? 0)) ;;
  report "malloc b: " (negb (b =? 0)) ;;
  report "malloc c: " (negb (c =? 0)) ;;
  (if (a =? 0) || (b =? 0) || (c =? 0) then exit else mret tt) ;;
  let m := memset (memset (memset m a 65 64) b 66 128) c 67 64 in
  free_call h b (fun h =>
  malloc_call h 32 (fun h d =>
  report "malloc d (reuse freed space): " (negb (d =? 0)) ;;
  let m := if negb (d =? 0) then memset m d 68 32 else m in
  report "a still intact after b freed/d allocated: " (intact m a 65 64) ;;
  report "c still intact after b freed/d allocated: " (intact m c 67 64) ;;
  report "d intact: " (if negb (d =? 0) then intact m d 68 32 else true) ;;
  report "d reused b's freed space (d <= old b address): " (negb (d =? 0) && (d <=? b)) ;;
  free_call h a (fun h =>
  free_call h c (fun h =>
  free_call h d (fun h =>
  malloc_call h 60000 (fun h big =>
  report "malloc big after freeing everything: " (negb (big =? 0)) ;;
  exit))))))))).
End Program.

Definition success (label : string) : list Z := str label ++ ln "OK".
Definition test_report : list Z :=
  success "malloc a: " ++ success "malloc b: " ++ success "malloc c: " ++ success "malloc d (reuse freed space): " ++
  success "a still intact after b freed/d allocated: " ++ success "c still intact after b freed/d allocated: " ++
  success "d intact: " ++ success "d reused b's freed space (d <= old b address): " ++
  success "malloc big after freeing everything: ".

(** At the address the linker gives the array. *)
Example malloctest_passes :
  match malloctest (H := file_services 20) 3211264 5000 (fun _ => 0) user with
  | Exits k => fk_out k = test_report
  | _ => False
  end.
Proof. vm_compute. reflexivity. Qed.
