(* ===== verification/Gui.v ===== *)
(** * The text-mode desktop (src/userspace/gui.c)

    The directory listing, the clock and the taskbar drawn on the text
    screen, the mouse pointer, and the clicks that open folders and launch
    programs.  The fixed buffers of the source are byte strings here; that
    they never overflow is part of the invariant's theorems. *)
From S2P Require Import Prelude Terminal FatTypes FatName FatFile FatDisk Usermode Libc Shell Syscall User.

Definition ATTR_NORMAL : Z := 15.
Definition ATTR_INVERT : Z := 240.
Definition CH_TL : Z := 218.
Definition CH_TR : Z := 191.
Definition CH_BL : Z := 192.
Definition CH_BR : Z := 217.
Definition CH_H : Z := 196.
Definition CH_V : Z := 179.
Definition CH_ML : Z := 195.
Definition CH_MR : Z := 180.
Definition TITLE_ROW : Z := 1.
Definition CONTENT_TOP : Z := 3.
Definition CONTENT_BOTTOM : Z := 20.
Definition DIVIDER2_ROW : Z := 21.
Definition TASKBAR_ROW : Z := 22.
Definition HINT_ROW : Z := 23.
Definition MAX_ENTRIES : Z := CONTENT_BOTTOM - CONTENT_TOP + 1.
Definition HOME_LABEL : list Z := str " [Home]".
Definition TERMINAL_LABEL : list Z := str "Terminal".
Definition REFRESH_LABEL : list Z := str "Refresh".
Definition NAME_SIZE : Z := 64.  (* of [entries[].name] and of [current_dir] *)

Record entry := mk_entry { en_name : list Z; en_is_dir : Z }.
(** A range of columns of the taskbar, inclusive. *)
Record button := mk_button { b_start : Z; b_end : Z }.

(** The static variables; [entries] holds the [entry_count] valid ones. *)
Record gui := mk_gui {
  entries : list entry;
  current_dir : list Z;
  cursor_row : Z;
  cursor_col : Z;
  prev_left : bool;
  home : button;
  terminal : button;
  refresh : button }.

Definition set_entries (g : gui) (es : list entry) : gui :=
  mk_gui es (current_dir g) (cursor_row g) (cursor_col g) (prev_left g) (home g) (terminal g) (refresh g).
Definition set_dir (g : gui) (dir : list Z) : gui :=
  mk_gui (entries g) dir (cursor_row g) (cursor_col g) (prev_left g) (home g) (terminal g) (refresh g).
Definition set_cursor (g : gui) (row col : Z) (left : bool) : gui :=
  mk_gui (entries g) (current_dir g) row col left (home g) (terminal g) (refresh g).
Definition set_buttons (g : gui) (h t r : button) : gui :=
  mk_gui (entries g) (current_dir g) (cursor_row g) (cursor_col g) (prev_left g) h t r.

(** At most the first [n - 1] characters, for a buffer of [n] bytes. *)
Definition clamp (n : Z) (s : list Z) : list Z :=
  take (Z.to_nat (if Z.of_nat (length s) >=? n then n - 1 else Z.of_nat (length s))) s.

Definition to_lower_char (c : Z) : Z := if (s8 c >=? 65) && (s8 c <=? 90) then c - 65 + 97 else c.
Definition is_elf_name (name : list Z) : bool :=
  let len := Z.of_nat (length name) in
  if len <? 4 then false
  else (to_lower_char (byte_at name (len - 4)) =? 46) && (to_lower_char (byte_at name (len - 3)) =? 101) &&
       (to_lower_char (byte_at name (len - 2)) =? 108) && (to_lower_char (byte_at name (len - 1)) =? 102).

(** The rows as the functions build them. *)
Definition border_row (left fill right : Z) : list Z := left :: replicate 78 fill ++ [right].
Definition content_row (text : list Z) : list Z :=
  let len := Z.min (Z.of_nat (length text)) (VGA_WIDTH - 2) in
  CH_V :: take (Z.to_nat len) text ++ replicate (Z.to_nat (VGA_WIDTH - 2 - len)) 32 ++ [CH_V].
Definition entry_line (e : entry) : list Z := (if negb (en_is_dir e =? 0) then str "[DIR] " else str "      ") ++ en_name e.
Definition two_digits (v : Z) : list Z :=
  let num := int_text v in (if Z.of_nat (length num) <? 2 then [48] else []) ++ num.
Definition title_line (hour minute : Z) : list Z :=
  let clock_str := two_digits hour ++ [58] ++ two_digits minute in
  let name := str " HAROLD" in
  let pad_target := VGA_WIDTH - 2 - Z.of_nat (length clock_str) - 1 in
  name ++ replicate (Z.to_nat (pad_target - Z.of_nat (length name))) 32 ++ clock_str.
Definition hint (dir : list Z) : list Z :=
  if Nat.eqb (length dir) 0 then str " Click a folder to open it, a .elf to run it, or a file to edit it."
  else str " Inside a folder -- click Home to go back to the root.".

(** The taskbar's text and the columns of its buttons. *)
Definition taskbar_line : list Z := HOME_LABEL ++ str "   " ++ TERMINAL_LABEL ++ str "   " ++ REFRESH_LABEL.
Definition button_at (before label : list Z) : button :=
  let start := 1 + Z.of_nat (length before) in mk_button start (start + Z.of_nat (length label) - 1).
Definition home_button : button := button_at [] HOME_LABEL.
Definition terminal_button : button := button_at (HOME_LABEL ++ str "   ") TERMINAL_LABEL.
Definition refresh_button : button := button_at (HOME_LABEL ++ str "   " ++ TERMINAL_LABEL ++ str "   ") REFRESH_LABEL.

Definition over (b : button) (col : Z) : bool := (col >=? b_start b) && (col <=? b_end b).

(** The entry under a row, if any. *)
Definition hit_test_content_row (g : gui) (row : Z) : option (Z * entry) :=
  if (row <? CONTENT_TOP) || (row >? CONTENT_BOTTOM) then None
  else
    let idx := row - CONTENT_TOP in
    if idx >=? Z.of_nat (length (entries g)) then None
    else match entries g !! Z.to_nat idx with Some e => Some (idx, e) | None => None end.

(** The path of an entry, as it is built in [full_path]. *)
Definition full_path (g : gui) (e : entry) : list Z :=
  (if Nat.eqb (length (current_dir g)) 0 then [] else current_dir g ++ str "/") ++ en_name e.

Section Program.
Context {K : Type} `{Services K}.

Definition draw_border_row (row left fill right : Z) : prog K unit :=
  draw_text row 0 (border_row left fill right) ATTR_NORMAL.
Definition draw_content_row (row : Z) (text : list Z) (attr : Z) : prog K unit :=
  draw_text row 0 (content_row text) attr.

Fixpoint refresh_loop (n : nat) (index : Z) (es : list entry) (dir : list Z) : prog K (list entry) :=
  match n with
  | O => mret es
  | S n' =>
      r ← listdir dir index NAME_SIZE;
      let '(size, name, is_dir) := r in
      if size <? 0 then mret es
      else refresh_loop n' (index + 1) (es ++ [mk_entry (clamp NAME_SIZE name) is_dir]) dir
  end.
Definition refresh_entries (g : gui) : prog K gui :=
  es ← refresh_loop (Z.to_nat MAX_ENTRIES) 0 [] (current_dir g);
  mret (set_entries g es).

Definition draw_title_bar : prog K unit :=
  t ← rtc_read; draw_content_row TITLE_ROW (title_line (byte_at t 4) (byte_at t 5)) ATTR_NORMAL.
Definition draw_taskbar (g : gui) : prog K gui :=
  draw_content_row TASKBAR_ROW taskbar_line ATTR_NORMAL ;;
  mret (set_buttons g home_button terminal_button refresh_button).

(** The text of row [row] of the list. *)
Definition list_text (g : gui) (row : Z) : list Z :=
  match entries g !! Z.to_nat (row - CONTENT_TOP) with Some e => entry_line e | None => [] end.
Fixpoint draw_list (n : nat) (row : Z) (g : gui) : prog K unit :=
  match n with
  | O => mret tt
  | S n' => draw_content_row row (list_text g row) ATTR_NORMAL ;; draw_list n' (row + 1) g
  end.

Definition redraw_desktop (g : gui) : prog K gui :=
  draw_border_row 0 CH_TL CH_H CH_TR ;;
  draw_title_bar ;;
  draw_border_row 2 CH_ML CH_H CH_MR ;;
  draw_list (Z.to_nat MAX_ENTRIES) CONTENT_TOP g ;;
  draw_border_row DIVIDER2_ROW CH_ML CH_H CH_MR ;;
  g ← draw_taskbar g;
  draw_content_row HINT_ROW (hint (current_dir g)) ATTR_NORMAL ;;
  draw_border_row 24 CH_BL CH_H CH_BR ;;
  mret g.

Definition apply_hover (g : gui) : prog K unit :=
  match hit_test_content_row g (cursor_row g) with
  | Some (_, e) => draw_content_row (cursor_row g) (entry_line e) ATTR_INVERT
  | None =>
      if cursor_row g =? TASKBAR_ROW then
        if over (home g) (cursor_col g) then draw_text TASKBAR_ROW (b_start (home g)) HOME_LABEL ATTR_INVERT
        else if over (terminal g) (cursor_col g) then draw_text TASKBAR_ROW (b_start (terminal g)) TERMINAL_LABEL ATTR_INVERT
        else if over (refresh g) (cursor_col g) then draw_text TASKBAR_ROW (b_start (refresh g)) REFRESH_LABEL ATTR_INVERT
        else mret tt
      else mret tt
  end.
Definition apply_hover_and_cursor (g : gui) : prog K unit :=
  apply_hover g ;; draw_text (cursor_row g) (cursor_col g) (str "*") ATTR_INVERT.

Definition clean_exit {A} : prog K A := write (replicate (Z.to_nat VGA_HEIGHT) 10) ;; exit.

Definition handle_click (g : gui) : prog K gui :=
  match hit_test_content_row g (cursor_row g) with
  | Some (_, e) =>
      let path := full_path g e in
      if negb (en_is_dir e =? 0) then refresh_entries (set_dir g (clamp NAME_SIZE path))
      else if is_elf_name (en_name e) then run_program [path] ;; refresh_entries g
      else run_program [str "edit.elf"; path] ;; refresh_entries g
  | None =>
      if cursor_row g =? TASKBAR_ROW then
        if over (home g) (cursor_col g) then refresh_entries (set_dir g [])
        else if over (terminal g) (cursor_col g) then clean_exit
        else if over (refresh g) (cursor_col g) then refresh_entries g
        else mret g
      else mret g
  end.

(** [if (v < 0) v = 0; if (v >= n) v = n - 1;] *)
Definition limit (v n : Z) : Z := let v := if v <? 0 then 0 else v in if v >=? n then n - 1 else v.

(** One turn of the loop in [_start]. *)
Definition gui_turn (g : gui) : prog K gui :=
  p ← mouse_read;
  let col := limit (s32 (cursor_col g + field p 0)) VGA_WIDTH in
  let row := limit (s32 (cursor_row g - field p 4)) VGA_HEIGHT in
  let left := negb (field p 8 =? 0) in
  let clicked := left && negb (prev_left g) in
  let g := set_cursor g row col left in
  g ← (if clicked then handle_click g else mret g);
  g ← redraw_desktop g;
  apply_hover_and_cursor g ;;
  mret g.

Fixpoint gui_loop (turns : nat) (g : gui) : prog K unit :=
  match turns with O => not_yet | S n => g ← gui_turn g; gui_loop n g end.

Definition gui_start : gui := mk_gui [] [] 12 40 false (mk_button 0 0) (mk_button 0 0) (mk_button 0 0).
Definition gui_boot : prog K gui :=
  g ← refresh_entries gui_start;
  g ← redraw_desktop g;
  apply_hover_and_cursor g ;;
  mret g.
Definition gui_main (turns : nat) : prog K unit := g ← gui_boot; gui_loop turns g.
End Program.

(** ** What the screen shows *)

(** A cell of the text memory: character and attribute. *)
Definition glyph (c attr : Z) : Z := Z.lor (u8 c) (u16 (Z.shiftl attr 8)).
Definition cell_at (v : vga) (r c : Z) : option Z := video_memory v !! Z.to_nat (r * 80 + c).

Lemma draw_text_cells v row col text attr : length (video_memory v) = 2000%nat -> 0 <= row < 25 ->
  let v' := terminal_draw_text v row col text attr in
  length (video_memory v') = 2000%nat /\
  forall r c, 0 <= r < 25 -> 0 <= c < 80 ->
    cell_at v' r c = if (r =? row) && (col <=? c) && (c <? col + Z.of_nat (length text))
                     then Some (glyph (byte_at text (c - col)) attr) else cell_at v r c.
Proof.
  intros Hl Hr. unfold terminal_draw_text, VGA_HEIGHT, cell_at, glyph.
  rewrite (proj2 (Z.ltb_ge row 0)), Z.geb_leb, (proj2 (Z.leb_gt 25 row)) by lia. cbn [orb video_memory]. split.
  - revert Hl. generalize (video_memory v) as mem. revert col.
    induction text as [|x text IH]; intros col mem Hm; cbn [draw_loop]; [done|]. apply IH.
    case_if; [done|by rewrite length_insert].
  - intros r c Hr' Hc. rewrite draw_loop_spec by (done || lia).
    replace ((r * 80 + c) / 80) with r by dlia. by replace ((r * 80 + c) mod 80) with c by dlia.
Qed.

Definition paint (v : vga) (rt : Z * list Z) : vga := terminal_draw_text v rt.1 0 rt.2 ATTR_NORMAL.

(** Rows of 80 characters, painted one after the other. *)
Definition rows_ok (rows : list (Z * list Z)) : Prop := Forall (fun rt => 0 <= rt.1 < 25 /\ length rt.2 = 80%nat) rows.

Lemma paint_rows rows : forall v, rows_ok rows -> NoDup (map fst rows) -> length (video_memory v) = 2000%nat ->
  length (video_memory (foldl paint v rows)) = 2000%nat /\
  forall r c, 0 <= r < 25 -> 0 <= c < 80 ->
    (forall text, (r, text) ∈ rows -> cell_at (foldl paint v rows) r c = Some (glyph (byte_at text c) ATTR_NORMAL)) /\
    (r ∉ map fst rows -> cell_at (foldl paint v rows) r c = cell_at v r c).
Proof.
  induction rows as [|[row text] rows IH]; intros v Hok Hnd Hl; cbn [foldl map fst].
  { split; [done|]. intros r c Hr Hc. split; [|done]. intros text Hin. by apply not_elem_of_nil in Hin. }
  apply Forall_cons_1 in Hok as [[Hrow Hlen] Hok]. cbn [map fst] in Hnd. apply NoDup_cons in Hnd as [Hnin Hnd].
  destruct (draw_text_cells v row 0 text ATTR_NORMAL Hl Hrow) as [Hl1 Hcells].
  destruct (IH (paint v (row, text)) Hok Hnd Hl1) as [Hl2 Hrest]. split; [done|]. intros r c Hr Hc.
  destruct (Hrest r c Hr Hc) as [Hin Hout]. specialize (Hcells r c Hr Hc). cbn [fst snd] in *.
  rewrite (proj2 (Z.leb_le 0 c)), Hlen, (proj2 (Z.ltb_lt c _)), Z.sub_0_r, !andb_true_r in Hcells by lia. split.
  - intros t Ht. apply elem_of_cons in Ht as [[= -> ->]|Ht]; [|by apply Hin].
    rewrite Hout by done. unfold paint. cbn [fst snd]. by rewrite Hcells, Z.eqb_refl.
  - rewrite not_elem_of_cons. intros [Hne Hn]. rewrite Hout by done. unfold paint. cbn [fst snd].
    by rewrite Hcells, (proj2 (Z.eqb_neq r row)).
Qed.

(** The text of row [r] of the desktop at [hour]:[minute]. *)
Definition desktop_row (g : gui) (hour minute r : Z) : list Z :=
  if r =? 0 then border_row CH_TL CH_H CH_TR
  else if r =? TITLE_ROW then content_row (title_line hour minute)
  else if r =? 2 then border_row CH_ML CH_H CH_MR
  else if r <=? CONTENT_BOTTOM then content_row (list_text g r)
  else if r =? DIVIDER2_ROW then border_row CH_ML CH_H CH_MR
  else if r =? TASKBAR_ROW then content_row taskbar_line
  else if r =? HINT_ROW then content_row (hint (current_dir g))
  else border_row CH_BL CH_H CH_BR.
Definition desktop (g : gui) (hour minute : Z) : list (Z * list Z) :=
  map (fun r => (r, desktop_row g hour minute r)) (seqZ 0 25).

Lemma content_row_length text : length (content_row text) = 80%nat.
Proof.
  unfold content_row, VGA_WIDTH. cbn [length]. rewrite !length_app, length_take, length_replicate. cbn [length]. lia.
Qed.

Lemma desktop_rows_ok g hour minute : rows_ok (desktop g hour minute) /\ NoDup (map fst (desktop g hour minute)).
Proof.
  unfold desktop. split.
  - apply Forall_map, Forall_forall. intros r Hr. apply elem_of_seqZ in Hr. cbn [fst snd]. split; [lia|].
    unfold desktop_row. repeat case_if; (apply content_row_length || done).
  - rewrite map_map, map_id. apply NoDup_seqZ.
Qed.

(** ** The kernel's screen *)

(** A kernel with the text screen: [draw_text] draws on it, reading the clock
    does not. *)
Class Screen (K : Type) `{Services K} := {
  screen : K -> vga;
  screen_draw k row col text attr : screen (sv_draw k row col text attr) = terminal_draw_text (screen k) row col text attr;
  screen_rtc k : screen (sv_rtc k).1 = screen k }.

Section Painting.
Context {K : Type} `{Screen K}.

Lemma draw_list_paints g n : forall row (k : K),
  exists k', draw_list n row g k = Done tt k' /\
    screen k' = foldl paint (screen k) (map (fun r => (r, content_row (list_text g r))) (seqZ row (Z.of_nat n))).
Proof.
  induction n as [|n IH]; intros row k; cbn [draw_list]; [by exists k|].
  unfold mbind, prog_bind, draw_content_row, draw_text.
  destruct (IH (row + 1) (sv_draw k row 0 (content_row (list_text g row)) ATTR_NORMAL)) as (k' & E & Hs).
  exists k'. split; [done|]. rewrite Hs, screen_draw. replace (Z.of_nat (S n)) with (Z.succ (Z.of_nat n)) by lia.
  rewrite (seqZ_cons row) by lia. cbn [map foldl]. rewrite Z.pred_succ. unfold Z.succ. done.
Qed.

(** The whole desktop is painted, row by row, with the time of the clock. *)
Lemma redraw_paints g (k : K) : exists k' hour minute, redraw_desktop g k = Done (set_buttons g home_button terminal_button refresh_button) k' /\
  screen k' = foldl paint (screen k) (desktop g hour minute).
Proof.
  unfold redraw_desktop, mbind, prog_bind, draw_border_row, draw_content_row, draw_title_bar, draw_text, rtc_read.
  set (k1 := sv_draw k 0 _ _ _). destruct (sv_rtc k1) as [k2 t] eqn:Et.
  unfold mbind, prog_bind, draw_content_row, draw_text. rewrite Et. cbv beta iota.
  match goal with |- context [draw_list _ _ _ ?k] => destruct (draw_list_paints g (Z.to_nat MAX_ENTRIES) CONTENT_TOP k) as (k4 & E & Hs) end.
  rewrite E. unfold draw_taskbar, draw_content_row, draw_text, mbind, prog_bind, mret, prog_ret.
  eexists _, (byte_at t 4), (byte_at t 5). split; [done|]. rewrite !screen_draw, Hs, !screen_draw.
  assert (Ht : screen k2 = screen k1) by (rewrite <- (screen_rtc k1), Et; done). rewrite Ht. unfold k1. by rewrite screen_draw.
Qed.

(** The part of the screen that is shown inverted: the row of the entry under
    the pointer, or the button under it. *)
Definition highlighted (g : gui) (r c : Z) : bool :=
  match hit_test_content_row g (cursor_row g) with
  | Some _ => r =? cursor_row g
  | None =>
      (cursor_row g =? TASKBAR_ROW) && (r =? TASKBAR_ROW) &&
      existsb (fun b => over b (cursor_col g) && over b c) [home_button; terminal_button; refresh_button]
  end.

Lemma hit_test_text g row i e : hit_test_content_row g row = Some (i, e) ->
  CONTENT_TOP <= row <= CONTENT_BOTTOM /\ i = row - CONTENT_TOP /\ list_text g row = entry_line e.
Proof.
  unfold hit_test_content_row, list_text. destruct (_ || _) eqn:E; [done|]. case_if; [done|].
  destruct (entries g !! Z.to_nat (row - CONTENT_TOP)); [|done]. intros [= <- <-].
  zbool. split; [lia|done].
Qed.

(** A label drawn over its own place on the taskbar keeps the characters. *)
Definition label_in_place (b : button) (label : list Z) : Prop :=
  b_end b = b_start b + Z.of_nat (length label) - 1 /\
  forall c, over b c = true -> byte_at label (c - b_start b) = byte_at (content_row taskbar_line) c.

Lemma label_at before label after : (length (before ++ label ++ after) <= 78)%nat -> taskbar_line = before ++ label ++ after ->
  label_in_place (button_at before label) label.
Proof.
  intros Hlen E. split; [done|]. intros c. unfold over, button_at. cbn [b_start b_end]. rewrite Z.geb_leb. intros Hc. zbool.
  unfold content_row, VGA_WIDTH. rewrite E, Z.min_l by lia. rewrite firstn_all2 by lia.
  unfold byte_at. rewrite lookup_cons_ne_0 by lia.
  rewrite lookup_app_l by (rewrite !length_app in *; lia). rewrite lookup_app_r by lia. rewrite lookup_app_l by lia.
  do 2 f_equal. lia.
Qed.

Lemma labels_in_place : label_in_place home_button HOME_LABEL /\ label_in_place terminal_button TERMINAL_LABEL /\
  label_in_place refresh_button REFRESH_LABEL.
Proof.
  split; [|split].
  - by apply (label_at [] HOME_LABEL (str "   " ++ TERMINAL_LABEL ++ str "   " ++ REFRESH_LABEL)); [vm_compute; lia|].
  - by apply (label_at (HOME_LABEL ++ str "   ") TERMINAL_LABEL (str "   " ++ REFRESH_LABEL)); [vm_compute; lia|].
  - by apply (label_at (HOME_LABEL ++ str "   " ++ TERMINAL_LABEL ++ str "   ") REFRESH_LABEL []); [vm_compute; lia|].
Qed.

(** The desktop with the highlighted part inverted, the pointer not yet drawn. *)
Definition inverted (g : gui) (hour minute : Z) (v : vga) : Prop :=
  length (video_memory v) = 2000%nat /\ forall r c, 0 <= r < 25 -> 0 <= c < 80 ->
    cell_at v r c = Some (glyph (byte_at (desktop_row g hour minute r) c) (if highlighted g r c then ATTR_INVERT else ATTR_NORMAL)).

Lemma label_inverts g hour minute b label v :
  length (video_memory v) = 2000%nat -> label_in_place b label ->
  (forall r c, 0 <= r < 25 -> 0 <= c < 80 -> cell_at v r c = Some (glyph (byte_at (desktop_row g hour minute r) c) ATTR_NORMAL)) ->
  (forall r c, highlighted g r c = (r =? TASKBAR_ROW) && over b c) ->
  inverted g hour minute (terminal_draw_text v TASKBAR_ROW (b_start b) label ATTR_INVERT).
Proof.
  intros Hl [He Hlab] Hv Hh. destruct (draw_text_cells v TASKBAR_ROW (b_start b) label ATTR_INVERT Hl) as [Hl' Hc]; [unfold TASKBAR_ROW; lia|].
  split; [done|]. intros r c Hr Hc'. rewrite Hc, Hh by done.
  assert (Eo : (b_start b <=? c) && (c <? b_start b + Z.of_nat (length label)) = over b c).
  { unfold over. rewrite He, Z.geb_leb. f_equal. destruct (Z.ltb_spec c (b_start b + Z.of_nat (length label))),
      (Z.leb_spec c (b_start b + Z.of_nat (length label) - 1)); (done || lia). }
  rewrite <- andb_assoc, Eo. destruct (Z.eqb_spec r TASKBAR_ROW) as [->|]; cbn [andb]; [|by apply Hv].
  destruct (over b c) eqn:Ec; [|by apply Hv]. rewrite Hlab by done. done.
Qed.

(** The columns of the buttons. *)
Lemma over_buttons c : over home_button c = ((1 <=? c) && (c <=? 7)) /\ over terminal_button c = ((11 <=? c) && (c <=? 18)) /\
  over refresh_button c = ((22 <=? c) && (c <=? 28)).
Proof. unfold over. rewrite !Z.geb_leb. done. Qed.

(** The button under the pointer is the only one that is highlighted. *)
Lemma taskbar_highlight g r c : hit_test_content_row g (cursor_row g) = None -> cursor_row g = TASKBAR_ROW ->
  highlighted g r c = (r =? TASKBAR_ROW) &&
    (if over home_button (cursor_col g) then over home_button c
     else if over terminal_button (cursor_col g) then over terminal_button c
     else if over refresh_button (cursor_col g) then over refresh_button c else false).
Proof.
  intros Hn Hr. unfold highlighted. rewrite Hn, Hr, Z.eqb_refl. cbn [andb existsb]. f_equal.
  destruct (over_buttons (cursor_col g)) as (-> & -> & ->).
  destruct (Z.leb_spec 1 (cursor_col g)), (Z.leb_spec (cursor_col g) 7), (Z.leb_spec 11 (cursor_col g)),
    (Z.leb_spec (cursor_col g) 18), (Z.leb_spec 22 (cursor_col g)), (Z.leb_spec (cursor_col g) 28); cbn [andb orb];
    rewrite ?orb_false_r; (done || lia).
Qed.

Lemma row_inverts g hour minute i e v : hit_test_content_row g (cursor_row g) = Some (i, e) ->
  length (video_memory v) = 2000%nat ->
  (forall r c, 0 <= r < 25 -> 0 <= c < 80 -> cell_at v r c = Some (glyph (byte_at (desktop_row g hour minute r) c) ATTR_NORMAL)) ->
  inverted g hour minute (terminal_draw_text v (cursor_row g) 0 (content_row (entry_line e)) ATTR_INVERT).
Proof.
  intros Hh Hl Hv. pose proof (hit_test_text _ _ _ _ Hh) as (Hr & _ & Ht). unfold CONTENT_TOP, CONTENT_BOTTOM in Hr.
  destruct (draw_text_cells v (cursor_row g) 0 (content_row (entry_line e)) ATTR_INVERT Hl) as [Hl' Hc]; [lia|].
  split; [done|]. intros r c Hr' Hc'. rewrite Hc by done. unfold highlighted. rewrite Hh, content_row_length.
  rewrite (proj2 (Z.leb_le 0 c)), (proj2 (Z.ltb_lt c _)), !andb_true_r, Z.sub_0_r by lia.
  destruct (Z.eqb_spec r (cursor_row g)) as [->|]; [|by apply Hv]. do 3 f_equal.
  unfold desktop_row, TITLE_ROW, CONTENT_BOTTOM.
  rewrite !(proj2 (Z.eqb_neq (cursor_row g) _)), (proj2 (Z.leb_le _ _)) by lia. by rewrite Ht.
Qed.

Lemma hover_inverts g hour minute (k : K) : length (video_memory (screen k)) = 2000%nat ->
  (forall r c, 0 <= r < 25 -> 0 <= c < 80 -> cell_at (screen k) r c = Some (glyph (byte_at (desktop_row g hour minute r) c) ATTR_NORMAL)) ->
  exists k', apply_hover (set_buttons g home_button terminal_button refresh_button) k = Done tt k' /\ inverted g hour minute (screen k').
Proof.
  intros Hl Hv. unfold apply_hover.
  change (hit_test_content_row (set_buttons g home_button terminal_button refresh_button)) with (hit_test_content_row g).
  cbn [cursor_row cursor_col home terminal refresh set_buttons].
  destruct (hit_test_content_row g (cursor_row g)) as [[i e]|] eqn:Eh.
  { eexists. split; [done|]. rewrite screen_draw. by apply (row_inverts g hour minute i e). }
  destruct labels_in_place as (L1 & L2 & L3).
  assert (Hplain : (forall r c, highlighted g r c = false) -> inverted g hour minute (screen k)).
  { intros Hf. split; [done|]. intros r c Hr Hc. rewrite Hf. by apply Hv. }
  destruct (Z.eqb_spec (cursor_row g) TASKBAR_ROW) as [Er|Er].
  2:{ exists k. split; [done|]. apply Hplain. intros r c. unfold highlighted. by rewrite Eh, (proj2 (Z.eqb_neq _ _) Er). }
  pose proof (fun r c => taskbar_highlight g r c Eh Er) as Hh.
  destruct (over home_button (cursor_col g)).
  { eexists. split; [done|]. rewrite screen_draw. by apply label_inverts. }
  destruct (over terminal_button (cursor_col g)).
  { eexists. split; [done|]. rewrite screen_draw. by apply label_inverts. }
  destruct (over refresh_button (cursor_col g)).
  { eexists. split; [done|]. rewrite screen_draw. by apply label_inverts. }
  exists k. split; [done|]. apply Hplain. intros r c. rewrite Hh. apply andb_false_r.
Qed.

End Painting.

(** ** The invariant *)
Record gui_ok (g : gui) : Prop := {
  go_count : Z.of_nat (length (entries g)) <= MAX_ENTRIES;
  go_names : Forall (fun e => Z.of_nat (length (en_name e)) < NAME_SIZE) (entries g);
  go_dir : Z.of_nat (length (current_dir g)) < NAME_SIZE;
  go_row : 0 <= cursor_row g < VGA_HEIGHT;
  go_col : 0 <= cursor_col g < VGA_WIDTH;
  go_buttons : home g = home_button /\ terminal g = terminal_button /\ refresh g = refresh_button }.

(** The buffers of the source hold what is built in them, terminators
    included: [line] (80), [clock_str] (8), [full_path] (128) and the names. *)
Definition buffers_fit (g : gui) : Prop :=
  Forall (fun e => Z.of_nat (length (entry_line e)) < 80 /\ Z.of_nat (length (full_path g e)) < 128) (entries g) /\
  forall hour minute, is_byte hour -> is_byte minute ->
    Z.of_nat (length (title_line hour minute)) < 80 /\ Z.of_nat (length (two_digits hour ++ [58] ++ two_digits minute)) < 8.

Lemma clamp_length n s : 1 <= n -> Z.of_nat (length (clamp n s)) < n.
Proof. intros Hn. unfold clamp. rewrite length_take. rewrite Z.geb_leb. case_if; lia. Qed.

Lemma limit_range v n : 1 <= n -> 0 <= limit v n < n.
Proof. intros Hn. unfold limit. rewrite !Z.geb_leb. repeat case_if; lia. Qed.

Lemma two_digits_length v : is_byte v -> (2 <= length (two_digits v) <= 3)%nat.
Proof.
  intros Hv. pose proof (forall_byte (fun v => (2 <=? length (two_digits v))%nat && (length (two_digits v) <=? 3)%nat)
    ltac:(vm_compute; reflexivity) v Hv) as Hb. apply andb_prop in Hb as [H1 H2]. apply Nat.leb_le in H1, H2. lia.
Qed.

Lemma ok_buffers_fit g : gui_ok g -> buffers_fit g.
Proof.
  intros [_ Hn Hd _ _ _]. unfold NAME_SIZE in *. split.
  - eapply Forall_impl; [exact Hn|]. intros e He. cbn beta in He. split.
    + unfold entry_line. rewrite length_app. case_if; (change (length (str _)) with 6%nat; lia).
    + unfold full_path. rewrite length_app. case_if; [cbn [length]; lia|]. rewrite length_app. change (length (str "/")) with 1%nat. lia.
  - intros hour minute Hh Hm. pose proof (two_digits_length _ Hh). pose proof (two_digits_length _ Hm).
    unfold title_line, VGA_WIDTH. cbv zeta. rewrite !length_app, length_replicate. change (length (str " HAROLD")) with 7%nat. cbn [length]. lia.
Qed.

Section Invariant.
Context {K : Type} `{Services K}.

Lemma refresh_loop_ok n : forall index es dir (k : K) es' k', refresh_loop n index es dir k = Done es' k' ->
  Forall (fun e => Z.of_nat (length (en_name e)) < NAME_SIZE) es ->
  (length es' <= length es + n)%nat /\ Forall (fun e => Z.of_nat (length (en_name e)) < NAME_SIZE) es'.
Proof.
  induction n as [|n IH]; intros index es dir k es' k' E Hes; cbn [refresh_loop] in E.
  { injection E as <- _. split; [lia|done]. }
  unfold mbind, prog_bind, listdir in E. destruct (sv_list k dir index NAME_SIZE) as [[[name size] is_dir]|].
  - destruct (_ <? 0); [injection E as <- _; split; [lia|done]|].
    apply IH in E as [Hl Hn].
    + rewrite length_app in Hl. cbn [length] in Hl. split; [lia|done].
    + apply Forall_app. split; [done|]. constructor; [|constructor]. by apply clamp_length.
  - cbn in E. injection E as <- _. split; [lia|done].
Qed.

Lemma refresh_entries_ok g (k : K) g' k' : refresh_entries g k = Done g' k' ->
  exists es, g' = set_entries g es /\ Z.of_nat (length es) <= MAX_ENTRIES /\
    Forall (fun e => Z.of_nat (length (en_name e)) < NAME_SIZE) es.
Proof.
  unfold refresh_entries, mbind, prog_bind. destruct (refresh_loop _ _ _ _ _) as [es k1| |] eqn:E; [|done..].
  intros [= <- _]. apply refresh_loop_ok in E as [Hl Hn]; [|constructor]. exists es. split; [done|]. split; [|done].
  unfold MAX_ENTRIES, CONTENT_BOTTOM, CONTENT_TOP in *. cbn [length] in Hl. lia.
Qed.

Lemma refreshed_ok g (k : K) g' k' : gui_ok g -> refresh_entries g k = Done g' k' -> gui_ok g'.
Proof. intros [] E. apply refresh_entries_ok in E as (es & -> & Hl & Hn). by split. Qed.

Lemma set_dir_ok g dir : gui_ok g -> Z.of_nat (length dir) < NAME_SIZE -> gui_ok (set_dir g dir).
Proof. intros [] Hd. by split. Qed.

Lemma handle_click_ok g (k : K) g' k' : gui_ok g -> handle_click g k = Done g' k' -> gui_ok g'.
Proof.
  intros Hg. unfold handle_click, mbind, prog_bind.
  destruct (hit_test_content_row g (cursor_row g)) as [[i e]|].
  - case_if; [apply refreshed_ok, set_dir_ok; [done|by apply clamp_length]|].
    case_if; (destruct (run_program _ k); [by apply refreshed_ok|done..]).
  - repeat case_if; try (intros [= <- _]; done); try (by apply refreshed_ok).
    by apply refreshed_ok, set_dir_ok.
Qed.

Lemma draw_list_done g n : forall row (k : K), exists k', draw_list n row g k = Done tt k'.
Proof. induction n as [|n IH]; intros row k; cbn [draw_list]; [by exists k|apply IH]. Qed.

Lemma redraw_done g (k : K) : exists k', redraw_desktop g k = Done (set_buttons g home_button terminal_button refresh_button) k'.
Proof.
  unfold redraw_desktop, mbind, prog_bind, draw_border_row, draw_text, draw_title_bar, rtc_read.
  unfold mbind, prog_bind, draw_content_row, draw_text. destruct (sv_rtc _) as [k1 t]. cbv beta iota.
  match goal with |- context [draw_list _ _ _ ?k] => destruct (draw_list_done g (Z.to_nat MAX_ENTRIES) CONTENT_TOP k) as (k2 & ->) end.
  by eexists.
Qed.

Lemma hover_done g (k : K) : exists k', apply_hover_and_cursor g k = Done tt k'.
Proof.
  unfold apply_hover_and_cursor, apply_hover, mbind, prog_bind.
  destruct (hit_test_content_row g (cursor_row g)) as [[i e]|]; [by eexists|]. repeat case_if; by eexists.
Qed.

(** The drawing at the end of a turn always completes. *)
Lemma frame_done g (k : K) : exists k', (g ← redraw_desktop g; apply_hover_and_cursor g ;; mret g) k =
  Done (set_buttons g home_button terminal_button refresh_button) k'.
Proof.
  unfold mbind, prog_bind. destruct (redraw_done g k) as [k1 ->].
  destruct (hover_done (set_buttons g home_button terminal_button refresh_button) k1) as [k2 ->]. by eexists.
Qed.

(** ** Reachable states

    The program's states between two turns; what the rest of the system does
    to the kernel meanwhile is arbitrary. *)
Inductive gui_reachable : gui -> Prop :=
| ReachBoot k g k' : gui_boot k = Done g k' -> gui_reachable g
| ReachTurn g k g' k' : gui_reachable g -> gui_turn g k = Done g' k' -> gui_reachable g'.

Lemma set_buttons_ok g : gui_ok g -> gui_ok (set_buttons g home_button terminal_button refresh_button).
Proof. intros []. by split. Qed.

Lemma boot_ok (k : K) g k' : gui_boot k = Done g k' -> gui_ok g.
Proof.
  unfold gui_boot. unfold mbind at 1, prog_bind at 1. destruct (refresh_entries gui_start k) as [g1 k1| |] eqn:E; [|done..].
  destruct (frame_done g1 k1) as [k2 ->]. intros [= <- _]. apply refresh_entries_ok in E as (es & -> & Hl & Hn).
  split; cbn; (done || unfold VGA_HEIGHT, VGA_WIDTH, NAME_SIZE; lia).
Qed.

Lemma turn_ok g (k : K) g' k' : gui_ok g -> gui_turn g k = Done g' k' -> gui_ok g'.
Proof.
  intros Hg. unfold gui_turn. unfold mbind at 1, prog_bind at 1. destruct (mouse_read k) as [p k1| |]; [|done..]. cbv zeta.
  set (g1 := set_cursor g _ _ _).
  assert (H1 : gui_ok g1) by (destruct Hg; split; (done || (apply limit_range; unfold VGA_HEIGHT, VGA_WIDTH; lia))). clearbody g1.
  unfold mbind at 1, prog_bind at 1.
  set (clicked := negb (field p 8 =? 0) && _). clearbody clicked.
  destruct ((if clicked then handle_click g1 else mret g1) k1) as [g2 k2| |] eqn:E; [|done..].
  destruct (frame_done g2 k2) as [k3 ->]. intros [= <- _]. apply set_buttons_ok.
  destruct clicked; [by eapply handle_click_ok|by injection E as <- _].
Qed.

(** C30: In every reachable state of the desktop the pointer is on the screen,
    at most the 18 visible entries are held, every name and the current path
    end inside their 64-byte buffers, the buttons are where the taskbar shows
    them, and everything the program builds from this state (an entry's line,
    the title with any time, the path of any entry) fits the buffer it is
    built in. *)
Theorem gui_reachable_inv g : gui_reachable g -> gui_ok g /\ buffers_fit g.
Proof.
  intros Hr. assert (Hg : gui_ok g); [|by split; [|apply ok_buffers_fit]].
  induction Hr as [k g k' E|g k g' k' _ IH E]; [by eapply boot_ok|by eapply turn_ok].
Qed.
End Invariant.

(** ** Instances *)

(** A kernel with a screen, a clock that stands at 9:05, a root directory of
    three entries and the packets of a mouse; launched programs are recorded. *)
Record desk := mk_desk { dk_vga : vga; dk_mouse : list (list Z); dk_launched : list (list (list Z)) }.
Definition desk_entries (dir : list Z) : list (list Z * Z * Z) :=
  if Nat.eqb (length dir) 0
  then [(name_of "DOCS" ++ [0], 0, 1); (name_of "LS.ELF" ++ [0], 9000, 0); (name_of "README.TXT" ++ [0], 700, 0)]
  else [(name_of "A.TXT" ++ [0], 3, 0)].

#[export] Instance desk_services : Services desk := {
  sv_putchar k _ := k;
  sv_print k _ := k;
  sv_read_char _ := None;
  sv_read k _ _ := (k, None);
  sv_open k _ := (k, None);
  sv_close k _ := (k, None);
  sv_list k dir i n := desk_entries dir !! Z.to_nat i;
  sv_accept _ := None;
  sv_recv k _ _ := Some (k, None);
  sv_send k _ _ := (k, None);
  sv_close_socket k _ := (k, None);
  sv_open_write k _ _ := (k, None);
  sv_write k _ _ := (k, None);
  sv_mkdir k _ := (k, None);
  sv_seek k _ _ := (k, None);
  sv_resolve k _ := Some (k, None);
  sv_rtc k := (k, [234; 7; 11; 3; 9; 5; 30]);
  sv_mouse k := match dk_mouse k with [] => None | p :: ps => Some (mk_desk (dk_vga k) ps (dk_launched k), p) end;
  sv_launch k args := Some (mk_desk (dk_vga k) (dk_mouse k) (dk_launched k ++ [args]), true);
  sv_draw k row col text attr := mk_desk (terminal_draw_text (dk_vga k) row col text attr) (dk_mouse k) (dk_launched k);
  sv_exit k := k }.

#[export] Instance desk_screen : Screen desk.
Proof. by exists dk_vga. Defined.

Definition packet (dx dy left : Z) : list Z := put_le32 (u32 dx) ++ put_le32 (u32 dy) ++ put_le32 left ++ put_le32 0 ++ put_le32 0.
Definition blank : vga := mk_vga (replicate 2000 0) 0 0.
(** The pointer is moved up to the second entry, and its button pressed. *)
Definition desk0 : desk := mk_desk blank [packet (-10) 8 0; packet 0 0 1] [].

Definition after_boot : gui := match gui_boot desk0 with Done g _ => g | _ => gui_start end.


Lemma gui_reachable_inv_witness : exists g k', gui_turn after_boot desk0 = Done g k' /\ cursor_row g = 4 /\ gui_ok g /\ buffers_fit g.
Proof.
  assert (Eb : exists k1, gui_boot desk0 = Done after_boot k1) by (eexists; vm_compute; reflexivity). destruct Eb as [k1 Eb].
  assert (Et : exists g k2, gui_turn after_boot desk0 = Done g k2 /\ cursor_row g = 4)
    by (eexists _, _; split; [vm_compute; reflexivity|reflexivity]). destruct Et as (g & k2 & Et & Hr).
  exists g, k2. split; [exact Et|]. split; [exact Hr|].
  apply (gui_reachable_inv (K := desk)). eapply ReachTurn; [eapply ReachBoot; exact Eb|exact Et].
Defined.

(** A click on the second entry launches it. *)
Example click_launches :
  match gui_boot desk0 with
  | Done g k =>
      match gui_turn g k with
      | Done g k =>
          match gui_turn g k with
          | Done _ k => dk_launched k = [[name_of "LS.ELF"]]
          | _ => False
          end
      | _ => False
      end
  | _ => False
  end.
Proof. vm_compute. reflexivity. Qed.
