(* ===== verification/ModelData.v ===== *)
(** * The trained network (src/userspace/model_data.h)

    The weights, biases and test images of the inference program, as they
    stand in the header: Q16.16 fixed-point numbers. *)
From Stdlib Require Import ZArith List.
Import ListNotations.
Open Scope Z_scope.

Definition FIXED_SHIFT : Z := 16.
Definition INPUT_SIZE : Z := 64.
Definition HIDDEN_SIZE : Z := 16.
Definition OUTPUT_SIZE : Z := 10.
Definition NUM_TEST_IMAGES : Z := 10.

(** The first layer, 16 weights per pixel, by the rows of the 8 by 8 image. *)
Definition weights1_row0 : list Z := [
  5755; -1602; 7504; 17645; -2713; -2713; 18296; 8891; -5439; 6286; -5369; -5396; 2803; -22166; -19984; -6514;
  -15105; -3002; -8476; -14801; 25034; -4232; 1784; -18342; -6303; 7690; -12744; 3017; -7505; -3379; -8768; 21396;
  -11202; -28060; 38181; -28676; 28752; -23337; -5176; 9187; 8583; 29101; 7000; -4469; -18294; -8154; -18441; 10738;
  23198; -12739; 8213; -13268; 9412; 11351; 44922; -10036; -10371; 12174; 6177; 4894; -14214; -1616; -2490; -16513;
  32282; -16687; -2571; 2128; 58065; 5032; 50597; -8599; -3095; 22668; -9519; -6499; -12648; -2929; -29807; -24420;
  -17687; 6877; 35904; -2487; 50112; -49331; 31640; -14497; -6697; 22148; -16301; -26; -12379; -3261; 9209; -17195;
  -12415; -2448; 22857; -18880; 19933; -19384; -4352; -34873; -1875; 35259; 13732; 3959; -4067; -328; -19437; -457;
  -2001; 27981; -2871; -202; -1339; -13794; 14984; 3697; 9161; -8408; 17811; -10020; 5893; 25726; -12056; -6708].

Definition weights1_row1 : list Z := [
  1155; -5728; -17955; 722; -12427; 5480; -10584; 18247; -9074; -3687; 9544; -14288; 2641; 15144; -18695; 2139;
  9587; -20214; -7810; -15543; 9480; 5654; 23743; -5762; -7865; 11905; 2443; -9165; 18151; 5489; -26161; 7096;
  -1291; -13602; 28938; -25148; 46652; 10341; 46178; 27789; -2935; 8666; 6848; -31743; -11317; 4153; -33204; 7221;
  15834; 14131; 15671; 14422; 30796; 1878; 967; -11340; -5073; 31969; 20338; 1193; -17317; -17231; 10141; 7475;
  13281; -25076; 9718; -20526; 7126; -22934; 47583; -48843; 1969; 23039; 23365; 31591; -19210; -10643; 22737; 3491;
  31596; 38108; -14879; 7601; 19805; -10695; 44295; -2377; -8923; -34797; 11669; -7731; 25028; -21300; 17541; -19565;
  -160; 9654; -8386; -3131; 13564; -3459; 12786; -4773; 385; -12564; 19805; -8421; -27673; 2680; -15838; 9727;
  -10738; -1842; 5751; 8148; -14502; -4266; -3417; -11564; 20305; 6669; -13541; 14883; 23621; 12137; -18510; -5708].

Definition weights1_row2 : list Z := [
  14674; -8230; 5129; 8995; -10763; -724; -37527; -11854; -2926; -14414; 18914; -16549; -5103; 1515; 16705; -16635;
  22648; -3354; 12563; 390; -4547; -2639; 6284; 1596; 1345; 5448; 10434; -17266; 26124; -22615; 613; 6475;
  19375; 23262; 25511; -18664; -17380; 39684; -10586; 53104; 9162; 9410; 33526; -18377; -10255; -6490; 11880; 5325;
  7601; 47343; 45473; 12572; -20671; 5169; -34992; 20279; 6715; 7772; 2219; 14979; 21408; -3595; 65473; -2692;
  14623; 25365; 10959; 43792; -53418; -31384; 43566; -38386; 6331; -21123; -47758; 35565; 11555; -7772; 46853; -3812;
  52462; -867; 6312; -53033; -62769; 33447; 60277; -18898; -5574; -59047; 141; -8509; -8588; -2043; 320; 15515;
  27471; 944; -18986; -9080; -27718; 2825; 29142; -6189; 5436; -5039; 6944; 11966; 9990; -4336; 3019; -20;
  739; -9417; 751; 5544; 15346; 12367; 24696; -8976; 9989; 1820; 25572; -7163; -9170; -6929; -24722; -6101].

Definition weights1_row3 : list Z := [
  -8809; 1710; 3977; 21735; 10981; -6606; -10458; 5723; -15295; 21171; 13687; -5387; -19822; 15685; -1357; 14340;
  -17045; -4241; 23446; -3717; 877; 28277; -34218; 10117; 1096; 4041; 10481; -14018; -15544; 14802; 12742; -8757;
  24117; 37742; 65815; -15685; 18453; 79144; -50318; 34365; 4909; 8586; -563; 15103; 17660; -20339; 8453; -24014;
  22035; 77363; 42654; 13531; 16930; 12312; -20990; 23635; 2619; -45174; -45263; -36448; -10737; 7987; -4641; -11438;
  -20504; 20546; 50129; 17485; 12961; 1406; 3849; -34939; -2076; -14181; -50098; 5423; 18974; 756; -34544; 526;
  7830; 19882; 24244; -38262; -27367; 23345; 6111; -21527; -18767; 1580; 36542; 20630; 3959; 4122; 17483; 11097;
  12175; -22403; -3931; -35840; -46034; 29140; -16540; -10229; 18146; -8037; 20077; 55356; 10189; -9823; 19959; 5994;
  -12081; -2228; -10049; -15950; 10585; 22284; -16429; 6702; -7550; -5753; -6906; -9853; 695; -9627; 3184; -582].

Definition weights1_row4 : list Z := [
  -2768; -10514; -6682; 8751; 5803; -11325; 1151; 8705; -19340; 6295; -7677; 6611; -8843; -20910; -18855; 557;
  -7164; -11651; 9745; -13022; -3073; 12494; -38084; 14578; -11050; -2629; 31060; 19809; 16572; -13088; 18422; 16677;
  -25028; 19945; 11808; -6272; 18907; 34529; -30130; 15453; 10516; 5451; 22335; 7874; -456; -4826; 14910; -4910;
  10112; 64610; -3289; 5174; 17795; -1473; 15215; 8167; -22963; -12668; 4050; 11244; 20; -2003; -33845; -25816;
  -29093; 35050; -6934; 50948; 16441; -28042; 25690; 15364; 432; -8548; -25686; 41054; 21965; -9383; -21808; -7388;
  -15514; 3182; 22675; -13486; 24721; 26902; -41753; -29905; 6225; -26507; 14149; 57702; 11732; 22278; -4598; -15987;
  -29239; -3501; 19492; -25478; 17531; 37749; -10249; -14174; 161; -4040; 25649; 30734; -6461; 5696; 10129; 15330;
  18457; -5923; -11465; -1457; 646; 12676; -19608; 17720; -1831; -4946; -11725; -19172; 9537; 849; -14945; -15004].

Definition weights1_row5 : list Z := [
  -3924; 19215; -2671; -17443; -3032; -2932; -31434; -633; -2692; 7982; 21324; 13370; -3055; -12819; 29813; 686;
  57; -15883; 15202; -2580; -27055; 24523; -15571; 982; -9619; -8123; 6294; 53585; -19784; 12645; 9698; -24034;
  -12058; 32038; -71279; 16293; -13774; 25424; 5293; 76817; 5719; 5010; 57460; 12707; -11916; 8321; -2009; -4430;
  -44435; 23743; -18162; 26492; -50774; -14228; 871; 55061; 1472; 38412; 46147; 78844; 9326; 12549; -4103; -17172;
  -30811; 33153; 9605; 34435; -20942; 21653; -2507; 16114; -8916; -27147; -3457; 53612; 15899; 2148; 2026; -2929;
  -4090; -2529; -6978; 18973; 52369; 19654; -17007; 4692; -8723; -48761; 14447; -16909; 15274; -19665; -1968; 4071;
  1836; 448; -5984; 28390; 21447; 21392; -26347; -14966; 5359; -32419; 14948; -33478; -12738; -16281; -43360; -16049;
  -11785; 12525; -12948; 31474; 6664; 2275; -10469; 8657; -6678; 1719; 30745; -2078; 12955; -8146; -1012; 20512].

Definition weights1_row6 : list Z := [
  -7376; 20074; 8225; -6394; 7030; 11254; 7330; -18217; -8467; -2448; -642; 7652; 2008; -15470; 4169; 7074;
  8124; -1455; 20482; 4170; -11864; -10737; 7256; 5369; 2451; -13417; -12046; 23816; 3113; 7895; -4847; 306;
  16031; 2998; -16079; 10849; -608; -8290; 23802; 30156; 12918; 20371; 32682; -16738; 11729; 2402; 3447; -18411;
  -11016; -5680; -13767; 22021; -24590; 6677; 25795; 1594; -7239; 72214; 44800; 42760; -4282; -2775; 23555; -13057;
  3798; -40958; 4807; 39931; 17392; -13995; 21594; 12889; -3361; 23710; -1779; 17709; 9770; 5966; 48324; 25697;
  2196; 585; -43265; 52530; 25866; -14615; 40688; 26723; -11018; 9401; 10677; -48845; 3375; -17560; 16960; 18335;
  6041; -3124; -29958; 32325; 9224; 26144; 17649; -24160; -16275; -11387; 745; -6728; -17328; 2593; -16237; 11722;
  29710; -399; -1648; 11058; -608; 18010; 6064; -5142; 6804; 16944; 5714; 11115; 14158; 13547; 25884; 7103].

Definition weights1_row7 : list Z := [
  -1925; 1415; 13846; -9444; 4246; -4653; 485; 14798; 2214; 726; -15632; 8647; 7434; 25062; -3630; 2539;
  26; 11039; 564; 5643; 13556; -66; -3767; 2257; 12422; -4448; 2161; -9819; 13459; -17646; -7667; 4297;
  8035; -37416; 24663; 7151; 24268; -16201; 13610; -17489; -11888; 37059; 8975; -7399; -16819; 10336; -12171; -2513;
  38266; -17720; -6347; -2414; 35441; 5698; 17223; 19638; -15152; 30192; 5503; -16644; -3800; 5771; 9633; 2518;
  33534; 25076; 16319; 48536; 5182; 14167; 18270; 41418; -3300; -1410; 670; -38123; 4503; -7512; -2673; -23652;
  6720; -9047; -34929; 57381; -13192; -22683; 14057; -131; -1027; 5003; 8666; -8663; -4981; 311; 20392; -25124;
  2744; -8534; -20997; 10493; -25543; -11804; 13276; -17; 16010; 38301; -879; 11663; 7496; 4559; 36709; 5812;
  8950; 4637; 23052; 2730; -2068; -20271; 18597; 3770; -7562; 10410; -9349; 24374; 10822; -6646; 25936; 23938].

Definition weights1 : list Z :=
  weights1_row0 ++ weights1_row1 ++ weights1_row2 ++ weights1_row3 ++ weights1_row4 ++ weights1_row5 ++ weights1_row6 ++ weights1_row7.

Definition bias1 : list Z := [
  3774; -856; 12655; 5167; 13464; 27143; 12230; 6550; -3198; 1494; 25582; 24030; 4497; 535; -5097; -2937].

(** The second layer, 10 weights per hidden unit. *)
Definition weights2_half0 : list Z := [
  55033; -947; 12774; 8103; -44003; -29685; -39798; -48983; 16722; 94722; -60374; 64056; -78569; -40340; 10225; -25820;
  59559; 14085; 87213; 14857; -32070; 34770; -63447; -29388; 55190; 98089; -69357; 23355; -15557; 71829; -82750; 34544;
  40580; 67408; 9212; -40571; 61670; -98477; 2878; -54032; -18137; -66331; -64168; 95956; -69285; 102106; 9673; -5353;
  -19058; -23637; 70397; -41314; -79413; -42292; 68003; -10480; 45831; -12572; -19876; 66342; -17870; -14919; 94753; 71117;
  -81661; -45565; -70807; 39225; 46066; 32869; 42457; 5375; 6840; -79844; 38778; 8451; 57687; -96558; 84315; -66440].

Definition weights2_half1 : list Z := [
  25626; -24226; 13990; -24478; -13418; 44164; -4426; 4974; 19908; 11420; 12976; 44543; 115547; -20168; -34513; 83187;
  -3554; 44299; -55033; -50550; 100400; -54914; 26224; -51971; -2971; 2731; 55988; 45420; -6790; -42043; -22363; 40179;
  13189; -33681; 111543; -39123; -24324; 118251; -43026; -50343; -6953; 14725; -27269; -35928; 44909; -20317; -27860; -51680;
  -14095; -38957; 38040; 23379; -15964; 52189; 22736; -7548; -57920; 53184; -32207; -38129; 60977; 131349; 40164; -25326;
  27573; -4290; -5336; -14497; -18953; -7678; -17540; -6597; -38516; -2365; -23020; -25662; 4048; 32177; 21100; -36270].

Definition weights2 : list Z := weights2_half0 ++ weights2_half1.

Definition bias2 : list Z := [
  -16122; -19921; -9572; 33460; -5220; -6428; -13450; 22700; -11335; 25888].

(** The test images, 64 pixels each. *)
Definition test_image0 : list Z := [
  0; 0; 0; 65536; 45056; 4096; 0; 0; 0; 0; 53248; 65536; 40960; 36864; 0; 0;
  0; 8192; 65536; 45056; 4096; 57344; 8192; 0; 0; 12288; 65536; 4096; 0; 32768; 28672; 0;
  0; 16384; 53248; 0; 0; 32768; 36864; 0; 0; 12288; 65536; 4096; 0; 40960; 36864; 0;
  0; 0; 40960; 32768; 12288; 65536; 16384; 0; 0; 0; 4096; 45056; 65536; 53248; 4096; 0].

Definition test_image1 : list Z := [
  0; 0; 40960; 53248; 4096; 0; 0; 0; 0; 0; 28672; 65536; 20480; 0; 0; 0;
  0; 0; 24576; 65536; 24576; 0; 0; 0; 0; 0; 24576; 65536; 53248; 0; 0; 0;
  0; 0; 0; 24576; 65536; 8192; 0; 0; 0; 0; 0; 12288; 65536; 32768; 0; 0;
  0; 0; 28672; 45056; 65536; 57344; 36864; 16384; 0; 0; 24576; 61440; 53248; 57344; 65536; 61440].

Definition test_image2 : list Z := [
  0; 0; 24576; 61440; 36864; 0; 0; 0; 0; 36864; 65536; 57344; 65536; 4096; 0; 0;
  0; 57344; 49152; 12288; 65536; 16384; 0; 0; 0; 36864; 45056; 12288; 65536; 12288; 0; 0;
  0; 0; 8192; 36864; 65536; 0; 0; 0; 0; 0; 0; 53248; 45056; 0; 0; 0;
  0; 0; 16384; 65536; 49152; 36864; 40960; 12288; 0; 0; 32768; 65536; 65536; 65536; 65536; 57344].

Definition test_image3 : list Z := [
  0; 4096; 49152; 65536; 65536; 36864; 0; 0; 0; 45056; 61440; 36864; 28672; 65536; 12288; 0;
  0; 53248; 12288; 4096; 40960; 61440; 4096; 0; 0; 0; 0; 45056; 65536; 32768; 0; 0;
  0; 0; 0; 20480; 61440; 65536; 20480; 0; 0; 0; 0; 0; 0; 40960; 53248; 0;
  0; 0; 28672; 16384; 32768; 61440; 36864; 0; 0; 0; 53248; 65536; 65536; 49152; 4096; 0].

Definition test_image4 : list Z := [
  0; 0; 0; 8192; 57344; 0; 0; 0; 0; 0; 0; 16384; 61440; 0; 0; 0;
  0; 0; 0; 45056; 40960; 20480; 28672; 0; 0; 0; 45056; 61440; 8192; 53248; 28672; 0;
  0; 40960; 65536; 32768; 32768; 65536; 24576; 0; 0; 32768; 49152; 49152; 53248; 61440; 4096; 0;
  0; 0; 0; 0; 40960; 40960; 0; 0; 0; 0; 0; 4096; 53248; 12288; 0; 0].

Definition test_image5 : list Z := [
  0; 0; 57344; 49152; 49152; 53248; 0; 0; 0; 4096; 65536; 32768; 32768; 24576; 0; 0;
  0; 16384; 61440; 32768; 16384; 0; 0; 0; 0; 8192; 49152; 49152; 61440; 53248; 4096; 0;
  0; 0; 0; 0; 4096; 53248; 32768; 0; 0; 0; 0; 0; 0; 45056; 28672; 0;
  0; 20480; 57344; 16384; 28672; 61440; 8192; 0; 0; 4096; 40960; 65536; 61440; 20480; 0; 0].

Definition test_image6 : list Z := [
  0; 0; 0; 53248; 53248; 0; 0; 0; 0; 0; 28672; 65536; 12288; 0; 0; 0;
  0; 0; 49152; 45056; 0; 0; 0; 0; 0; 0; 57344; 24576; 0; 0; 0; 0;
  0; 4096; 65536; 49152; 65536; 45056; 12288; 0; 0; 8192; 65536; 61440; 36864; 36864; 61440; 8192;
  0; 0; 45056; 49152; 4096; 12288; 65536; 24576; 0; 0; 4096; 53248; 65536; 65536; 61440; 4096].

Definition test_image7 : list Z := [
  0; 0; 20480; 65536; 65536; 65536; 36864; 0; 0; 0; 4096; 24576; 16384; 49152; 57344; 0;
  0; 0; 0; 0; 0; 61440; 36864; 0; 0; 0; 16384; 24576; 45056; 65536; 4096; 0;
  0; 0; 61440; 65536; 65536; 65536; 36864; 0; 0; 0; 8192; 40960; 45056; 0; 4096; 0;
  0; 0; 8192; 61440; 12288; 0; 0; 0; 0; 0; 45056; 40960; 0; 0; 0; 0].

Definition test_image8 : list Z := [
  0; 4096; 57344; 57344; 24576; 0; 0; 0; 0; 8192; 65536; 4096; 57344; 8192; 0; 0;
  0; 0; 40960; 28672; 40960; 24576; 16384; 0; 0; 0; 4096; 49152; 65536; 57344; 20480; 0;
  0; 0; 12288; 57344; 65536; 16384; 0; 0; 0; 4096; 61440; 20480; 24576; 49152; 0; 0;
  0; 16384; 40960; 0; 4096; 61440; 0; 0; 0; 4096; 49152; 49152; 49152; 20480; 0; 0].

Definition test_image9 : list Z := [
  0; 0; 24576; 49152; 61440; 36864; 4096; 0; 0; 20480; 57344; 16384; 20480; 65536; 12288; 0;
  0; 36864; 32768; 12288; 53248; 65536; 16384; 0; 0; 12288; 61440; 61440; 28672; 40960; 32768; 0;
  0; 0; 0; 4096; 0; 49152; 32768; 0; 0; 0; 0; 0; 0; 45056; 8192; 0;
  0; 0; 28672; 16384; 20480; 53248; 0; 0; 0; 0; 20480; 57344; 61440; 16384; 0; 0].

Definition test_images : list Z :=
  test_image0 ++ test_image1 ++ test_image2 ++ test_image3 ++ test_image4 ++ test_image5 ++ test_image6 ++ test_image7 ++ test_image8 ++ test_image9.

Definition test_labels : list Z := [
  0; 1; 2; 3; 4; 5; 6; 7; 8; 9].
