(* ===== verification/Inference.v ===== *)
(** * The inference program (src/userspace/inference.c)

    The forward pass of the 64-16-10 network in 32- and 64-bit integers, and
    the program that runs it on the test images.  The arithmetic is shown never to
    overflow, so that the program computes the exact fixed-point network that
    src/training/export.py verified. *)
From S2P Require Import Prelude Libc Syscall User ModelData.

Definition s64 (z : Z) : Z := let v := z mod 18446744073709551616 in if v <? 9223372036854775808 then v else v - 18446744073709551616.

(** [l[i]] *)
Definition item (l : list Z) (i : Z) : Z := default 0 (l !! Z.to_nat i).

(** [for (...; i < n; i++) acc += (int64_t)x(i) * (int64_t)w(i);] *)
Fixpoint accumulate (n : nat) (i acc : Z) (x w : Z -> Z) : Z :=
  match n with
  | O => acc
  | S n' => accumulate n' (i + 1) (s64 (acc + x i * w i)) x w
  end.

(** [(int32_t)(acc >> FIXED_SHIFT) + bias] *)
Definition rescale (acc bias : Z) : Z := s32 (s32 (Z.shiftr acc FIXED_SHIFT) + bias).

Definition hidden_unit (image : list Z) (h : Z) : Z :=
  let acc := accumulate (Z.to_nat INPUT_SIZE) 0 0 (item image) (fun i => item weights1 (i * HIDDEN_SIZE + h)) in
  let val := rescale acc (item bias1 h) in
  if val >? 0 then val else 0.
Definition hidden_layer (image : list Z) : list Z := map (hidden_unit image) (seqZ 0 HIDDEN_SIZE).

Definition score (hidden : list Z) (o : Z) : Z :=
  let acc := accumulate (Z.to_nat HIDDEN_SIZE) 0 0 (item hidden) (fun h => item weights2 (h * OUTPUT_SIZE + o)) in
  rescale acc (item bias2 o).

(** The loop over the outputs with [best_digit] and [best_score]. *)
Fixpoint best_from (n : nat) (o best_digit best_score : Z) (hidden : list Z) : Z :=
  match n with
  | O => best_digit
  | S n' =>
      let s := score hidden o in
      if (o =? 0) || (s >? best_score) then best_from n' (o + 1) o s hidden
      else best_from n' (o + 1) best_digit best_score hidden
  end.

Definition forward_and_classify (image : list Z) : Z :=
  best_from (Z.to_nat OUTPUT_SIZE) 0 0 0 (hidden_layer image).

(** The image at [&test_images[n * INPUT_SIZE]]. *)
Definition test_image (n : Z) : list Z :=
  take (Z.to_nat INPUT_SIZE) (drop (Z.to_nat (n * INPUT_SIZE)) test_images).

Definition result_line (n predicted actual : Z) : list Z :=
  str "Image " ++ int_text n ++ str ": predicted " ++ int_text predicted ++ str ", actual " ++ int_text actual ++
  (if predicted =? actual then ln "  correct" else ln "  WRONG").
Definition summary (correct : Z) : list Z :=
  [10] ++ str "Result: " ++ int_text correct ++ str " / " ++ int_text NUM_TEST_IMAGES ++ ln " correct".

Section Program.
Context {K : Type} `{Services K}.

Fixpoint infer_from (count : nat) (n correct : Z) : prog K Z :=
  match count with
  | O => mret correct
  | S count' =>
      let predicted := forward_and_classify (test_image n) in
      let actual := item test_labels n in
      write (result_line n predicted actual) ;;
      infer_from count' (n + 1) (if predicted =? actual then correct + 1 else correct)
  end.
Definition inference : prog K unit :=
  write (ln "HAROLD neural net inference demo (64-16-10, fixed-point)") ;;
  correct ← infer_from (Z.to_nat NUM_TEST_IMAGES) 0 0;
  write (summary correct) ;;
  exit.
End Program.

(** ** The exact network (src/training/export.py, [fixed_forward]) *)
Definition dot (n : nat) (i : Z) (x w : Z -> Z) : Z := foldr Z.add 0 (map (fun j => x j * w j) (seqZ i (Z.of_nat n))).
Definition exact_hidden (image : list Z) : list Z :=
  map (fun h => Z.max 0 (Z.shiftr (dot (Z.to_nat INPUT_SIZE) 0 (item image) (fun i => item weights1 (i * HIDDEN_SIZE + h))) FIXED_SHIFT
                         + item bias1 h)) (seqZ 0 HIDDEN_SIZE).
Definition exact_score (hidden : list Z) (o : Z) : Z :=
  Z.shiftr (dot (Z.to_nat HIDDEN_SIZE) 0 (item hidden) (fun h => item weights2 (h * OUTPUT_SIZE + o))) FIXED_SHIFT + item bias2 o.

(** The first of the greatest outputs. *)
Definition argmax (f : Z -> Z) (n d : Z) : Prop :=
  0 <= d < n /\ (forall o, 0 <= o < n -> f o <= f d) /\ (forall o, 0 <= o < d -> f o < f d).

(** ** No overflow *)
Definition absdot (n : nat) (i : Z) (x w : Z -> Z) : Z := dot n i (fun j => Z.abs (x j)) (fun j => Z.abs (w j)).

Lemma s64_small z : -9223372036854775808 <= z < 9223372036854775808 -> s64 z = z.
Proof. intros Hz. unfold s64. cbv zeta. case_if; dlia. Qed.

Lemma dot_S n i x w : dot (S n) i x w = x i * w i + dot n (i + 1) x w.
Proof.
  unfold dot. rewrite seqZ_cons by lia. cbn [map foldr]. by rewrite Nat2Z.inj_succ, Z.pred_succ.
Qed.

Lemma dot_bound n : forall i x w, Z.abs (dot n i x w) <= absdot n i x w.
Proof.
  induction n as [|n IH]; intros i x w; [done|]. unfold absdot in *. rewrite !dot_S. specialize (IH (i + 1) x w).
  rewrite <- Z.abs_mul. lia.
Qed.

Lemma absdot_mono n : forall i x w b, (forall j, i <= j < i + Z.of_nat n -> Z.abs (x j) <= b j) ->
  absdot n i x w <= dot n i b (fun j => Z.abs (w j)).
Proof.
  induction n as [|n IH]; intros i x w b Hb; [done|]. unfold absdot in *. rewrite !dot_S.
  pose proof (IH (i + 1) x w b ltac:(intros j Hj; apply Hb; lia)). pose proof (Hb i ltac:(lia)). nia.
Qed.

Lemma accumulate_exact n : forall i acc x w, Z.abs acc + absdot n i x w < 9223372036854775808 ->
  accumulate n i acc x w = acc + dot n i x w.
Proof.
  induction n as [|n IH]; intros i acc x w Hb; cbn [accumulate]; [change (acc = acc + 0); lia|].
  unfold absdot in Hb. rewrite !dot_S, <- Z.abs_mul in *. pose proof (dot_bound n (i + 1) x w) as Hd. unfold absdot in Hd.
  rewrite s64_small by lia. rewrite IH by (unfold absdot; lia). lia.
Qed.

(** A sum of magnitude [s] at most that is rescaled without loss. *)
Definition rescales (s bias : Z) : bool := (s <? 9223372036854775808) && (s / 65536 + 1 + Z.abs bias <? 2147483648).

Lemma rescale_exact acc s bias : Z.abs acc <= s -> rescales s bias = true ->
  rescale acc bias = Z.shiftr acc FIXED_SHIFT + bias /\ Z.abs (Z.shiftr acc FIXED_SHIFT + bias) <= s / 65536 + 1 + Z.abs bias.
Proof.
  unfold rescales, rescale, FIXED_SHIFT. intros Ha Hr. apply andb_prop in Hr as [_ Hr]. apply Z.ltb_lt in Hr.
  rewrite Z.shiftr_div_pow2 by lia. change (2 ^ 16) with 65536.
  assert (Hq : Z.abs (acc / 65536) <= s / 65536 + 1) by dlia.
  rewrite (s32_small (acc / 65536)) by lia. rewrite s32_small by lia. split; [done|lia].
Qed.

(** The magnitudes of the network on images with pixels between 0 and 1.0. *)
Definition hidden_sum (h : Z) : Z :=
  dot (Z.to_nat INPUT_SIZE) 0 (fun _ => 65536) (fun i => Z.abs (item weights1 (i * HIDDEN_SIZE + h))).
Definition hidden_bound (h : Z) : Z := hidden_sum h / 65536 + 1 + Z.abs (item bias1 h).
Definition hidden_bounds : list Z := map hidden_bound (seqZ 0 HIDDEN_SIZE).
Definition output_sum (o : Z) : Z :=
  dot (Z.to_nat HIDDEN_SIZE) 0 (item hidden_bounds) (fun h => Z.abs (item weights2 (h * OUTPUT_SIZE + o))).

Lemma hidden_rescales : forallb (fun h => rescales (hidden_sum h) (item bias1 h)) (seqZ 0 HIDDEN_SIZE) = true.
Proof. vm_compute. reflexivity. Qed.
Lemma output_rescales : forallb (fun o => rescales (output_sum o) (item bias2 o)) (seqZ 0 OUTPUT_SIZE) = true.
Proof. vm_compute. reflexivity. Qed.

Lemma forallb_seqZ (p : Z -> bool) n : forallb p (seqZ 0 n) = true -> forall i, 0 <= i < n -> p i = true.
Proof. intros Hp i Hi. rewrite forallb_forall in Hp. apply Hp, list_elem_of_In, elem_of_seqZ. lia. Qed.

Lemma item_map (f : Z -> Z) n i : 0 <= i < n -> item (map f (seqZ 0 n)) i = f i.
Proof.
  intros Hi. unfold item. change (map f (seqZ 0 n)) with (f <$> seqZ 0 n). rewrite list_lookup_fmap, lookup_seqZ_lt by lia. cbn.
  f_equal. lia.
Qed.

(** Pixels between 0 and 1.0. *)
Definition image_ok (image : list Z) : Prop := length image = Z.to_nat INPUT_SIZE /\ Forall (fun x => 0 <= x <= 65536) image.

Lemma image_item image i : image_ok image -> Z.abs (item image i) <= 65536.
Proof.
  intros [_ Hp]. unfold item. destruct (image !! Z.to_nat i) as [x|] eqn:E; cbn; [|lia].
  apply (Forall_lookup_1 _ _ _ _ Hp) in E. lia.
Qed.

Lemma hidden_exact image h : image_ok image -> 0 <= h < HIDDEN_SIZE ->
  hidden_unit image h = item (exact_hidden image) h /\ 0 <= item (exact_hidden image) h <= hidden_bound h.
Proof.
  intros Hi Hh. unfold exact_hidden. rewrite item_map by done. unfold hidden_unit. cbv zeta.
  pose proof (forallb_seqZ _ _ hidden_rescales h Hh) as Hr.
  set (w := fun i => item weights1 (i * HIDDEN_SIZE + h)). set (n := Z.to_nat INPUT_SIZE).
  assert (Hs : absdot n 0 (item image) w <= hidden_sum h) by (apply absdot_mono; intros; by apply image_item).
  pose proof Hr as Hr'. unfold rescales in Hr'. apply andb_prop in Hr' as [Hlt _]. apply Z.ltb_lt in Hlt.
  rewrite accumulate_exact, Z.add_0_l by (cbn [Z.abs]; lia).
  destruct (rescale_exact (dot n 0 (item image) w) (hidden_sum h) (item bias1 h)) as [-> Hb];
    [pose proof (dot_bound n 0 (item image) w); lia|done|].
  unfold hidden_bound. rewrite Z.gtb_ltb. case_if; lia.
Qed.

Lemma hidden_layer_exact image : image_ok image -> hidden_layer image = exact_hidden image.
Proof.
  intros Hi. unfold hidden_layer, exact_hidden. apply map_ext_in. intros h Hh.
  apply list_elem_of_In, elem_of_seqZ in Hh. destruct (hidden_exact image h Hi ltac:(lia)) as [-> _].
  unfold exact_hidden. by rewrite item_map by lia.
Qed.

Lemma score_exact image o : image_ok image -> 0 <= o < OUTPUT_SIZE -> score (hidden_layer image) o = exact_score (exact_hidden image) o.
Proof.
  intros Hi Ho. rewrite hidden_layer_exact by done. unfold score, exact_score. cbv zeta.
  pose proof (forallb_seqZ _ _ output_rescales o Ho) as Hr.
  set (w := fun h => item weights2 (h * OUTPUT_SIZE + o)). set (n := Z.to_nat HIDDEN_SIZE).
  assert (Hs : absdot n 0 (item (exact_hidden image)) w <= output_sum o).
  { apply absdot_mono. intros h Hh. unfold hidden_bounds. rewrite item_map by (unfold n, HIDDEN_SIZE in *; lia).
    destruct (hidden_exact image h Hi) as [_ Hb]; [unfold n, HIDDEN_SIZE in *; lia|]. lia. }
  pose proof Hr as Hr'. unfold rescales in Hr'. apply andb_prop in Hr' as [Hlt _]. apply Z.ltb_lt in Hlt.
  rewrite accumulate_exact, Z.add_0_l by (cbn [Z.abs]; lia).
  destruct (rescale_exact (dot n 0 (item (exact_hidden image)) w) (output_sum o) (item bias2 o)) as [-> _];
    [pose proof (dot_bound n 0 (item (exact_hidden image)) w); lia|done|done].
Qed.

(** The loop keeps the first maximum of the outputs seen so far. *)
Lemma best_from_argmax hidden n : forall o best bs, 0 <= o -> (o = 0 \/ (bs = score hidden best /\ argmax (score hidden) o best)) ->
  0 < o + Z.of_nat n -> argmax (score hidden) (o + Z.of_nat n) (best_from n o best bs hidden).
Proof.
  induction n as [|n IH]; intros o best bs Ho Hb Hn; cbn [best_from].
  { destruct Hb as [->|[_ Hb]]; [lia|]. by rewrite Z.add_0_r. }
  cbv zeta. replace (o + Z.of_nat (S n)) with (o + 1 + Z.of_nat n) by lia.
  destruct Hb as [->|[-> (Hr & Hmax & Hfirst)]].
  { cbn [Z.eqb orb]. apply IH; [lia| |lia]. right. split; [done|]. split; [lia|].
    split; intros j Hj; [assert (j = 0) as -> by lia; lia|lia]. }
  rewrite (proj2 (Z.eqb_neq o 0)) by lia. cbn [orb].
  destruct (Z.gtb_spec (score hidden o) (score hidden best)) as [Hgt|Hle]; (apply IH; [lia| |lia]); right; (split; [done|]).
  - split; [lia|]. split; intros j Hj.
    + destruct (Z.eq_dec j o) as [->|]; [lia|]. pose proof (Hmax j ltac:(lia)). lia.
    + pose proof (Hmax j ltac:(lia)). lia.
  - split; [lia|]. split; intros j Hj; [|by apply Hfirst].
    destruct (Z.eq_dec j o) as [->|]; [lia|]. apply Hmax. lia.
Qed.

(** C32: The classifier computes the network that the training scripts
    verified: for every image of 64 pixels between 0 and 1.0 none of the 32-
    and 64-bit operations overflows (with the weights the program ships
    with), and the digit returned is the first with the greatest output of
    the exact integer network. *)
Theorem inference_exact image : image_ok image ->
  argmax (exact_score (exact_hidden image)) OUTPUT_SIZE (forward_and_classify image).
Proof.
  intros Hi.
  assert (Hb : argmax (score (hidden_layer image)) (0 + Z.of_nat (Z.to_nat OUTPUT_SIZE)) (forward_and_classify image))
    by (unfold forward_and_classify; apply best_from_argmax; [lia|by left|unfold OUTPUT_SIZE; lia]).
  rewrite Z.add_0_l, Z2Nat.id in Hb by (unfold OUTPUT_SIZE; lia). destruct Hb as (Hr & Hmax & Hfirst).
  split; [done|]. split; intros o Ho; rewrite <- !score_exact by (done || lia); [by apply Hmax|by apply Hfirst].
Qed.

Lemma inference_exact_witness : argmax (exact_score (exact_hidden (test_image 7))) OUTPUT_SIZE 7.
Proof.
  assert (E : forward_and_classify (test_image 7) = 7) by (vm_compute; reflexivity). rewrite <- E at 2.
  apply (inference_exact (test_image 7)). split; [vm_compute; reflexivity|].
  assert (Hall : forallb (fun x => (0 <=? x) && (x <=? 65536)) (test_image 7) = true) by (vm_compute; reflexivity).
  apply Forall_forall. intros x Hx. rewrite forallb_forall in Hall. apply list_elem_of_In in Hx. specialize (Hall x Hx).
  cbn beta in Hall. apply andb_prop in Hall as [H1 H2]. apply Z.leb_le in H1, H2. lia.
Defined.

(** The demonstration classifies all its images as labelled. *)
Example demo_all_correct : map (fun n => forward_and_classify (test_image n)) (seqZ 0 NUM_TEST_IMAGES) = test_labels.
Proof. vm_compute. reflexivity. Qed.
